(* ===== verification/_CoqProject ===== *)
-Q . S2P
Prelude.v
Regs.v
Spill.v
Bytes.v
Lanes.v
Machine.v
Arch512.v
SymExec.v
GenZmm.v
GenYmm.v
GenXmm.v
GenMov.v
GenLane.v
GenMem.v
GenMixed.v
GenShift.v
GenRotate.v
GenExtend.v
GenBroadcast.v
RwFuncs.v
ScalarExec.v
MaskSpec.v
KLogic.v
KMov.v
KArith.v
KShift.v
Jumps.v
KTest.v
Loops.v
GenCmp.v
CmpLoop.v
CmpSpec.v
CmpRewrite.v
Typing.v
Dispatch.v
InstrList.v
InstrEdit.v
Chains.v
Driver.v
Block.v
Mapping.v
Interp.v
VmArea.v
VmAreaSpec.v
VmVector.v
Hashtable.v
HashProbe.v
HashRemove.v
HashAdd.v
HashSpec.v
HashMap.v
HashGeneric.v
