(* ===== verification/Prelude.v ===== *)
(** * Dr.avx: verification of the AVX-512 to AVX2 binary rewriter

    Dr.avx is DynamoRIO with a rewriting pass that lets a program compiled for
    AVX-512 run on a host that has AVX2 only.  When DynamoRIO builds a basic
    block ([src/core/arch/interp.c]) it marks EVEX and mask instructions; the
    pass ([src/core/arch/rewrite.c], [rewrite_utils.c], [rewrite_utils.h]) then
    replaces each marked instruction by a sequence of AVX2 and scalar
    instructions.  AVX-512 state the host does not have lives in thread-local
    storage: 32 slots of 64 bytes for the zmm registers and 8 slots of 8 bytes
    for the mask registers.

    ** Parts of the program and files of the library

    - [Prelude]: notation, tactics, hint databases, wrap-around arithmetic.
    - [Regs]: register identifiers ([opnd_api.h]), the index, class and width
      macros of [rewrite_utils.h], the TLS layout ([arch_exports.h]).
    - [Spill]: the functions of [rewrite_utils.c] that choose spill registers,
      with their loops, early exits and the bitmask of the GPR selector.
    - [Bytes], [Lanes]: byte memory with little-endian loads and stores; packed
      operations on 128-bit lanes.
    - [Machine]: operands, instructions and their constructors ([instr_t],
      [opnd_t], the [INSTR_CREATE_] macros and the TLS save and restore
      helpers); the AVX2 host state and an executable semantics [exec], [run].
    - [Arch512]: the AVX-512 state of the application ([guest]), how it is read
      off a host state ([view]), and what it means that emitted code is right
      ([translates], [rewrites]).
    - [SymExec], [ScalarExec]: lemmas and tactics that run emitted vector and
      scalar code on a symbolic state.
    - [MaskSpec]: mask instructions as specified, and correctness up to memory
      below the stack pointer, where the mask code pushes registers.
    - [GenZmm], [GenYmm], [GenXmm], [GenMixed]: generators of packed integer
      operations; [GenMov], [GenMem]: register moves, loads and stores;
      [GenLane]: scalar and duplicating moves, unpack and pack; [GenShift]:
      shifts by an immediate or by a register; [GenRotate]: rotates;
      [GenExtend]: sign and zero extension; [GenBroadcast]: broadcasts from a
      general-purpose register or from memory, and extraction of 128-bit lanes.
      One definition per C function, or one parameterised definition where
      several C functions have one text up to the opcode.
    - [RwFuncs]: the functions of [rewrite.c] that choose a generator by the
      kinds and widths of the operands, and those that do nothing.
    - [KLogic], [KMov], [KArith], [KShift], [KTest]: rewrite functions of the
      mask instructions; [Jumps]: execution of code with labels and jumps, which
      the mask tests emit.
    - [GenCmp]: the comparisons [vpcmpd], [vpcmpud] and [vpcmpw], whose code is
      a loop over elements on the stack; [Loops]: execution of code with
      backward jumps by program counter; [CmpLoop]: the loops and their
      invariant; [CmpSpec]: masks, the documented instruction, and the code that
      saves and restores; [CmpRewrite]: the theorems about the rewrite functions.
    - [Typing]: a static check of emitted code, sound for [Machine.run], and a
      check that every thread-local access stays inside one register slot.
    - [Dispatch]: the table [rewrite_funcs] with all its 768 entries, the opcode
      enumeration, what each modelled entry does.
    - [InstrList], [InstrEdit]: [src/core/ir/instrlist.c], doubly linked lists
      of instructions on a heap of nodes; the abstract list edits they
      implement.  [Chains]: lists that are linked forward only, as emitted code
      can be, and the list in the middle of the pass: the part behind the cursor
      linked forward, the part still to visit linked both ways.
    - [Driver]: [exec_rewrite_avx512_bb] on that heap, with allocation, linking
      and release of instructions, and the same pass on plain lists.
    - [Block]: the interface [Implements] between the driver and the rewrite
      functions, its instances, and the theorem about whole blocks.
    - [Interp]: the hooks of [interp.c] that mark AVX-512 instructions behind
      the decoder and call the pass, with block building as a step relation.
    - [Mapping]: the bitmap of ymm registers in use and the table from zmm
      registers to pairs of ymm registers ([rewrite_utils.c], [.h]).
    - [VmArea]: the vectors of memory areas of [src/core/vmareas.c], in which
      the block builder records what code a block came from; [VmAreaSpec]: their
      invariant and what adding, removing and searching do; [VmVector]: the
      [vmvector_] interface as sets of addresses.
    - [Hashtable]: the open-address hashtables DynamoRIO keeps its blocks and
      branch targets in ([src/core/hashtablex.h], a template that C files
      instantiate: here a type class [EntryType]), the hash functions
      ([utils.h], [utils.c]), the instances with integer and string keys
      ([hashtable.c]) and the entries of indirect-branch tables
      ([fragment.c]).  [HashProbe]: the invariant of linear probing and what a
      search finds; [HashRemove]: closing the hole a removed entry leaves;
      [HashAdd]: adding, resizing, the load of a table; [HashSpec]: the other
      operations; [HashMap]: the laws of the instances and the table as a finite
      map; [HashGeneric]: the theorems.

    ** How definitions correspond to the code

    A generator in C removes the original instruction, creates new ones, links
    them and returns the first, or NULL.  Here it is a function to [rw_result]:
    whether the original is removed, and the list of new instructions, if any.
    [Driver.rw_heap] turns such a function into its action on the heap.  Local
    variables keep their C names.  Logging and the code under [#ifdef DEBUG] are
    left out, as are assertions, which are empty in a release build; where a
    theorem relies on one it is a hypothesis ([VmArea.add_asserts]).
    Register identifiers, opcodes and offsets are [Z]; [ushort] truncation of
    TLS offsets and the bitmask of the GPR selector are written out.

    The semantics of host instructions is partial: an operand that has no
    encoding (a register above 15 in a VEX instruction, mismatched sizes) has no
    result, so a theorem that code is right includes that it can be encoded.
    Undefined flags are left unchanged.  A VEX write zeroes the lanes of the
    host register above its width.

    ** What the theorems show

    - Blocks ([Block]): the pass on the heap terminates without a bad
      dereference and leaves a well-formed list whose code, run from any
      well-formed state, does what the original instructions specify, when every
      instruction has an instance of [Implements].  Without that condition it
      implements the list-level pass exactly, failure included, on every list
      without the coarse spill: the forward links always read back the result,
      and the list is well formed in both directions when the emitted code of
      each instruction has its back links.
    - Block building ([Interp]): in every reachable block the header's flag
      covers the marked instructions, so that testing the flag skips no block
      the pass would change; finishing a block gives what rewriting the whole
      list gives, whether the pass is called or skipped, and resets the pair
      table.
    - Generators: for which operands the emitted code refines the AVX-512
      instruction, for all values of registers, flags, memory and TLS.  Where
      the code is right for some operands only, the theorem carries the exact
      condition as a boolean function and a companion theorem exhibits a failing
      instance.  Emitted code leaves the bits above the vector or mask length
      alone where the documentation zeroes them: specifications named [_keep]
      say what is done in every state, and [Arch512.rewrites_low] and
      [MaskSpec.rewrites_mask] add that this is the documented instruction
      where those bits are zero before (for masks: exactly there).  The 128-bit
      forms need [Arch512.xmm_pre], as the upper lanes of a spill register are
      lost.  The generators ignore the mask operand, so the specifications are
      those of the unmasked instruction, with mask operand [DR_REG_K0].
    - Loads and stores ([GenMem]): for operands of the form base + index * scale
      + displacement whose second half can be addressed, and every state in
      which the access is defined (aligned, for [vmovaps]; not wrapping around
      the address space); a [vmovdqu64] store followed by a load brings the
      register back.
    - Rotates, extensions, broadcasts ([GenRotate], [GenExtend],
      [GenBroadcast]): the two shifts of a rotate never overlap, so their
      disjunction is the rotation; an extension reads the low half of its source
      only; a broadcast from memory reads one element and nothing behind it.
    - Mask code: shifts, tests and moves up to memory below the stack pointer,
      with jumps followed by label.
    - Comparisons ([CmpRewrite]): the emitted loop ends from every state with 136
      bytes of stack, decides every selected element, and leaves the mask in TLS
      with all else restored; for which predicates, masks and operands this is
      the documented instruction, for which the excluded bits are merged instead
      of zeroed, and instances that are neither.
    - Typing: typed code runs from every state and keeps states well formed; the
      code of the listed binary vector and mask operations and 512-bit moves is
      typed, and each of its thread-local accesses stays inside one register
      slot, for every choice of registers.  The list leaves out [kxor] and
      [kadd], whose code uses an absolute address: the memory of the machine
      model is total, so running to the end would say nothing there.
    - Spill selectors: the registers chosen avoid the ones given, and the
      optimised GPR selector equals a reference definition.
    - Layout: TLS slots are disjoint and not truncated; width conversions of
      register names round-trip.
    - Mapping table: it implements a finite map; the search for unused registers
      hands out the lowest ones.
    - Dispatch: the table has one entry per opcode and none is shifted.
    - Memory areas ([VmVector]): a vector of areas stays sorted and disjoint
      when ranges are added that meet the assertions of [add_vm_area]
      ([VmArea.add_asserts]); adding and removing change the addresses covered
      as they should,
      the binary search terminates and is right; a vector that clients build is
      a canonical representation of a set of addresses.
    - Hashtables ([HashGeneric]): a table of at most 25 bits, without a size
      limit or grooming and with a load factor that leaves a slot free, behaves
      as a finite map for every sequence of operations that adds absent keys
      only and keeps within the size; each operation of an instance that
      satisfies the laws [EntryLaws] keeps the invariant, ends and does what its
      name says; tables that fill up, where a search does not end, and an
      iteration that misses an entry are exhibited as examples.
    - Instruction lists: each pointer operation implements the abstract edit;
      clearing frees exactly the list's instructions; appending and reading
      back round-trips.

    ** Fuel

    Loops that follow pointers are given the size of the heap as fuel, which is
    enough because a well-formed list has no node twice ([dseg_length],
    [list_ok_size]); the theorems show that they return a result.
    [add_vm_area] calls itself with the rest of a range it splits; one call for
    each area and one more are enough ([VmArea.enough]), as each call leaves at
    least one area behind.  The binary search needs no more rounds than there
    are areas.  A probe of a hashtable visits each slot once; removal of a range
    makes at most one pass for each slot ([Hashtable.sweeps]); adding calls
    itself at most once, through a resize; a table doubles at most 32 times.
    The theorems show that these bounds suffice where an empty slot is left.
    Code with loops is run by [Loops.runl] with fuel; [Loops.runl_reaches]
    relates it to the step relation, and the theorems assert that some fuel
    gives a result.

    ** Not modelled

    The rewrite functions [Dispatch.rw_gen] takes as its parameter [other]:
    floating point and conversions, which need a model of the host's rounding;
    permutations, gather and scatter; the [vmovdqu] functions, whose masked ymm and xmm generators expand to long blend
    sequences; the decoder and encoder; the mangler, which is a step of
    [Interp.bb_step]; of hashtables the locks, statistics and persisting to
    files; the rest of DynamoRIO, which the pass does not change. *)
From Stdlib Require Import ZArith List Bool Lia.
Import ListNotations.
#[local] Open Scope Z_scope.

(** ** Scope of the development's notations *)

Declare Scope rw_scope.
Delimit Scope rw_scope with rw.

(** Option binds, used wherever the code can fail (an operand the encoder
    rejects, a NULL pointer, an exhausted search). *)
Definition obind {A B : Type} (o : option A) (f : A -> option B) : option B :=
  match o with Some a => f a | None => None end.

Notation "'let?' x ':=' e 'in' k" := (obind e (fun x => k))
  (at level 10, x pattern, k at level 200, only parsing) : rw_scope.

(** ** Hint databases *)

Create HintDb rw_bits.   (* wrap-around and byte arithmetic *)
Create Rewrite HintDb rw_regs.   (* register ids, classes and slots *)

(** ** Tactics *)

(** Replace a boolean comparison by the proposition it decides. *)
Ltac zbool :=
  repeat match goal with
  | H : (_ && _)%bool = true |- _ => apply andb_true_iff in H; destruct H
  | H : (_ || _)%bool = false |- _ => apply orb_false_iff in H; destruct H
  | H : (_ =? _) = true |- _ => apply Z.eqb_eq in H
  | H : (_ =? _) = false |- _ => apply Z.eqb_neq in H
  | H : (_ <? _) = true |- _ => apply Z.ltb_lt in H
  | H : (_ <? _) = false |- _ => apply Z.ltb_ge in H
  | H : (_ <=? _) = true |- _ => apply Z.leb_le in H
  | H : (_ <=? _) = false |- _ => apply Z.leb_gt in H
  | H : negb _ = true |- _ => apply negb_true_iff in H
  | H : negb _ = false |- _ => apply negb_false_iff in H
  end.

(** Decide a comparison occurring in the goal, if arithmetic settles it. *)
Ltac zdecide :=
  match goal with
  | |- context [?a =? ?b] =>
      first [ replace (a =? b) with true by (symmetry; apply Z.eqb_eq; lia)
            | replace (a =? b) with false by (symmetry; apply Z.eqb_neq; lia) ]
  | |- context [?a <? ?b] =>
      first [ replace (a <? b) with true by (symmetry; apply Z.ltb_lt; lia)
            | replace (a <? b) with false by (symmetry; apply Z.ltb_ge; lia) ]
  | |- context [?a <=? ?b] =>
      first [ replace (a <=? b) with true by (symmetry; apply Z.leb_le; lia)
            | replace (a <=? b) with false by (symmetry; apply Z.leb_gt; lia) ]
  end.

(** Case analysis on every comparison of the goal, closed by arithmetic. *)
Ltac zcases :=
  repeat match goal with
  | |- context [?a =? ?b] => destruct (Z.eqb_spec a b)
  | |- context [?a <? ?b] => destruct (Z.ltb_spec a b)
  | |- context [?a <=? ?b] => destruct (Z.leb_spec a b)
  end.

(** ** Integers of a fixed width *)

(** [wrap w x] is [x] as an unsigned [w]-bit integer. *)
Definition wrap (w x : Z) : Z := x mod 2 ^ w.

Lemma wrap_range w x : 0 <= w -> 0 <= wrap w x < 2 ^ w.
Proof. intros; unfold wrap; apply Z.mod_pos_bound; lia. Qed.

Lemma wrap_id w x : 0 <= x < 2 ^ w -> wrap w x = x.
Proof. intros; unfold wrap; now apply Z.mod_small. Qed.

Lemma wrap_wrap w x : 0 <= w -> wrap w (wrap w x) = wrap w x.
Proof. intros; apply wrap_id, wrap_range; lia. Qed.

(** A narrower truncation absorbs a wider one. *)
Lemma wrap_wrap_le w v x : 0 <= w <= v -> wrap w (wrap v x) = wrap w x.
Proof.
  intros; unfold wrap.
  replace (2 ^ v) with (2 ^ w * 2 ^ (v - w)) by (rewrite <- Z.pow_add_r; f_equal; lia).
  rewrite Z.rem_mul_r by lia.
  rewrite <- Zplus_mod_idemp_r, Z.mul_comm, Z_mod_mult, Z.add_0_r.
  apply Z.mod_mod; lia.
Qed.

#[export] Hint Resolve wrap_range wrap_id : rw_bits.

(** [ushort], the type of TLS offsets. *)
Definition ushort (x : Z) : Z := wrap 16 x.

(** [int8_t]. *)
Definition int8 (x : Z) : Z := wrap 8 (x + 128) - 128.

(** [uint]. *)
Definition uint (x : Z) : Z := wrap 32 x.

(** ** Flags *)

Definition TEST (mask var : Z) : bool := negb (Z.land mask var =? 0).
Definition TESTALL (mask var : Z) : bool := Z.land mask var =? mask.

(** ** Searches over a range of consecutive integers *)

(** [zrange lo n] is [lo; lo+1; ...; lo+n-1], the values a C [for] loop over
    an index visits in order. *)
Fixpoint zrange (lo : Z) (n : nat) : list Z :=
  match n with O => [] | S k => lo :: zrange (lo + 1) k end.

Lemma zrange_in lo n x : In x (zrange lo n) <-> lo <= x < lo + Z.of_nat n.
Proof.
  revert lo; induction n as [|n IH]; intros lo; simpl zrange.
  - simpl; lia.
  - simpl; rewrite IH; lia.
Qed.

Lemma zrange_nodup lo n : NoDup (zrange lo n).
Proof.
  revert lo; induction n as [|n IH]; intros lo; simpl; constructor; auto.
  rewrite zrange_in; lia.
Qed.

Lemma zrange_length lo n : length (zrange lo n) = n.
Proof. revert lo; induction n; intros; simpl; auto. Qed.

(** A predicate that fails on fewer elements than a duplicate-free list has
    holds on one of them. *)
Lemma find_avoiding_some (l avoid : list Z) :
  NoDup l ->
  (length (filter (fun a => existsb (Z.eqb a) l) avoid) < length l)%nat ->
  exists x, find (fun x => negb (existsb (Z.eqb x) avoid)) l = Some x.
Proof.
  intros Hnd Hlen.
  destruct (find _ l) as [x|] eqn:Hf; [eauto|exfalso].
  assert (Hincl : incl l (filter (fun a => existsb (Z.eqb a) l) avoid)).
  { intros x Hx. apply filter_In.
    pose proof (find_none _ _ Hf x Hx) as Hn.
    apply negb_false_iff, existsb_exists in Hn as (y & Hy & Heq).
    apply Z.eqb_eq in Heq; subst y; split; [assumption|].
    apply existsb_exists; exists x; split; [assumption|apply Z.eqb_refl]. }
  pose proof (NoDup_incl_length Hnd Hincl); lia.
Qed.

Lemma find_avoiding_spec (l avoid : list Z) x :
  find (fun x => negb (existsb (Z.eqb x) avoid)) l = Some x ->
  In x l /\ ~ In x avoid.
Proof.
  intros Hf; apply find_some in Hf as [Hin Hn]; split; [assumption|].
  intros Ha; apply negb_true_iff in Hn.
  assert (existsb (Z.eqb x) avoid = true); [|congruence].
  apply existsb_exists; exists x; split; [assumption|apply Z.eqb_refl].
Qed.
