(* ===== verification/Regs.v ===== *)
(** * Register identifiers and operand sizes

    The [DR_REG_*] enumeration of [core/ir/opnd_api.h] (its x86-64 values) and
    the register macros of [core/arch/rewrite_utils.h]: index/id conversions,
    class tests, GPR width conversions and the zmm/ymm/xmm conversions; and
    the TLS slot offsets of [core/arch/arch_exports.h]. *)
From Stdlib Require Import ZArith List Bool Lia.
From S2P Require Import Prelude.
#[local] Open Scope Z_scope.
#[local] Open Scope bool_scope.

(** ** The enumeration *)

Abbreviation reg_id_t := Z (only parsing).

Definition DR_REG_NULL : reg_id_t := 0.
Definition DR_REG_RAX : reg_id_t := 1.
Definition DR_REG_RCX : reg_id_t := 2.
Definition DR_REG_RDX : reg_id_t := 3.
Definition DR_REG_RBX : reg_id_t := 4.
Definition DR_REG_RSP : reg_id_t := 5.
Definition DR_REG_RBP : reg_id_t := 6.
Definition DR_REG_RSI : reg_id_t := 7.
Definition DR_REG_RDI : reg_id_t := 8.
Definition DR_REG_R8 : reg_id_t := 9.
Definition DR_REG_R9 : reg_id_t := 10.
Definition DR_REG_R10 : reg_id_t := 11.
Definition DR_REG_R11 : reg_id_t := 12.
Definition DR_REG_R12 : reg_id_t := 13.
Definition DR_REG_R13 : reg_id_t := 14.
Definition DR_REG_R14 : reg_id_t := 15.
Definition DR_REG_R15 : reg_id_t := 16.
Definition DR_REG_EAX : reg_id_t := 17.
Definition DR_REG_EDX : reg_id_t := 19.
Definition DR_REG_EBX : reg_id_t := 20.
Definition DR_REG_ESP : reg_id_t := 21.
Definition DR_REG_EDI : reg_id_t := 24.
Definition DR_REG_R8D : reg_id_t := 25.
Definition DR_REG_R9D : reg_id_t := 26.
Definition DR_REG_R10D : reg_id_t := 27.
Definition DR_REG_R11D : reg_id_t := 28.
Definition DR_REG_R12D : reg_id_t := 29.
Definition DR_REG_R13D : reg_id_t := 30.
Definition DR_REG_R14D : reg_id_t := 31.
Definition DR_REG_R15D : reg_id_t := 32.
Definition DR_REG_AX : reg_id_t := 33.
Definition DR_REG_DX : reg_id_t := 35.
Definition DR_REG_BX : reg_id_t := 36.
Definition DR_REG_SP : reg_id_t := 37.
Definition DR_REG_DI : reg_id_t := 40.
Definition DR_REG_R8W : reg_id_t := 41.
Definition DR_REG_R9W : reg_id_t := 42.
Definition DR_REG_R10W : reg_id_t := 43.
Definition DR_REG_R15W : reg_id_t := 48.
Definition DR_REG_AL : reg_id_t := 49.
Definition DR_REG_CL : reg_id_t := 50.
Definition DR_REG_DL : reg_id_t := 51.
Definition DR_REG_BL : reg_id_t := 52.
Definition DR_REG_R8L : reg_id_t := 57.
Definition DR_REG_R15L : reg_id_t := 64.
Definition DR_REG_SPL : reg_id_t := 65.
Definition DR_REG_DIL : reg_id_t := 68.
Definition DR_REG_XMM0 : reg_id_t := 77.
Definition DR_REG_XMM10 : reg_id_t := 87.
Definition DR_REG_XMM11 : reg_id_t := 88.
Definition DR_REG_XMM12 : reg_id_t := 89.
Definition DR_REG_XMM13 : reg_id_t := 90.
Definition DR_REG_XMM14 : reg_id_t := 91.
Definition DR_REG_XMM15 : reg_id_t := 92.
Definition DR_REG_XMM16 : reg_id_t := 93.
Definition DR_REG_XMM31 : reg_id_t := 108.
Definition DR_REG_YMM0 : reg_id_t := 188.
Definition DR_REG_YMM10 : reg_id_t := 198.
Definition DR_REG_YMM11 : reg_id_t := 199.
Definition DR_REG_YMM12 : reg_id_t := 200.
Definition DR_REG_YMM13 : reg_id_t := 201.
Definition DR_REG_YMM14 : reg_id_t := 202.
Definition DR_REG_YMM15 : reg_id_t := 203.
Definition DR_REG_YMM16 : reg_id_t := 204.
Definition DR_REG_YMM31 : reg_id_t := 219.
Definition DR_REG_ZMM0 : reg_id_t := 252.
Definition DR_REG_ZMM10 : reg_id_t := 262.
Definition DR_REG_ZMM15 : reg_id_t := 267.
Definition DR_REG_ZMM16 : reg_id_t := 268.
Definition DR_REG_ZMM31 : reg_id_t := 283.
Definition DR_REG_K0 : reg_id_t := 316.
Definition DR_REG_K7 : reg_id_t := 323.

(** ** Constants *)

Definition SIZE_OF_XMM : Z := 16.
Definition SIZE_OF_YMM : Z := 32.
Definition SIZE_OF_ZMM : Z := 64.
Definition ZMM_REG_NUM : Z := 32.
Definition YMM_REG_NUM : Z := 16.
Definition MCXT_NUM_SIMD_SLOTS : Z := 32.
Definition MCXT_NUM_OPMASK_SLOTS : Z := 8.

(** ** Index conversions *)

Definition TO_ZMM_REG_INDEX (reg_id : reg_id_t) : Z := reg_id - DR_REG_ZMM0.
Definition TO_YMM_REG_INDEX (reg_id : reg_id_t) : Z := reg_id - DR_REG_YMM0.
Definition TO_XMM_REG_INDEX (reg_id : reg_id_t) : Z := reg_id - DR_REG_XMM0.
Definition TO_ZMM_REG_ID_NUM (idx : Z) : reg_id_t := idx + DR_REG_ZMM0.
Definition TO_YMM_REG_ID_NUM (idx : Z) : reg_id_t := idx + DR_REG_YMM0.
Definition TO_XMM_REG_ID_NUM (idx : Z) : reg_id_t := idx + DR_REG_XMM0.
Definition TO_K_REG_INDEX (reg_id : reg_id_t) : Z := reg_id - DR_REG_K0.
Definition TO_K_REG_ID_NUM (idx : Z) : reg_id_t := idx + DR_REG_K0.

Definition HIGH_16YMM_TO_LOW_16YMM_MAPPING (idx : Z) : Z := 31 - idx.
Definition HIGH_TO_LOW_YMM_REG_ID_NUM (idx : Z) : reg_id_t :=
  DR_REG_YMM0 + HIGH_16YMM_TO_LOW_16YMM_MAPPING idx.
Definition HIGH_TO_LOW_XMM_REG_ID_NUM (idx : Z) : reg_id_t :=
  DR_REG_XMM0 + (31 - idx).

Definition XMM_TO_YMM (r : reg_id_t) : reg_id_t := (r - DR_REG_XMM0) + DR_REG_YMM0.
Definition XMM_TO_ZMM (r : reg_id_t) : reg_id_t := (r - DR_REG_XMM0) + DR_REG_ZMM0.
Definition YMM_TO_XMM (r : reg_id_t) : reg_id_t := (r - DR_REG_YMM0) + DR_REG_XMM0.
Definition YMM_TO_ZMM (r : reg_id_t) : reg_id_t := (r - DR_REG_YMM0) + DR_REG_ZMM0.
Definition ZMM_TO_XMM (r : reg_id_t) : reg_id_t := (r - DR_REG_ZMM0) + DR_REG_XMM0.
Definition ZMM_TO_YMM (r : reg_id_t) : reg_id_t := (r - DR_REG_ZMM0) + DR_REG_YMM0.

Definition YMM_TO_XMM_DISTANCE : Z := DR_REG_YMM0 - DR_REG_XMM0.
Definition YMM_INDEX_TO_XMM_INDEX (reg_id : reg_id_t) : reg_id_t := reg_id - YMM_TO_XMM_DISTANCE.

(** ** Class tests *)

Definition IS_ZMM_REG (r : reg_id_t) : bool := (DR_REG_ZMM0 <=? r) && (r <=? DR_REG_ZMM31).
Definition IS_YMM_REG (r : reg_id_t) : bool := (DR_REG_YMM0 <=? r) && (r <=? DR_REG_YMM31).
Definition IS_XMM_REG (r : reg_id_t) : bool := (DR_REG_XMM0 <=? r) && (r <=? DR_REG_XMM31).
Definition IS_MASK_REG (r : reg_id_t) : bool := (DR_REG_K0 <=? r) && (r <=? DR_REG_K7).
Definition IS_64GPR_REG (r : reg_id_t) : bool := (DR_REG_RAX <=? r) && (r <=? DR_REG_R15).
Definition IS_32GPR_REG (r : reg_id_t) : bool := (DR_REG_EAX <=? r) && (r <=? DR_REG_R15D).
Definition IS_16GPR_REG (r : reg_id_t) : bool := (DR_REG_AX <=? r) && (r <=? DR_REG_R15W).
Definition IS_8GPR_REG (r : reg_id_t) : bool := (DR_REG_AL <=? r) && (r <=? DR_REG_R15L).

Definition NEED_SPILL_XMM (r : reg_id_t) : bool := (DR_REG_XMM16 <=? r) && (r <=? DR_REG_XMM31).
Definition NEED_SPILL_YMM (r : reg_id_t) : bool := (DR_REG_YMM16 <=? r) && (r <=? DR_REG_YMM31).
Definition NEED_SPILL_ZMM (r : reg_id_t) : bool := (DR_REG_ZMM16 <=? r) && (r <=? DR_REG_ZMM31).

(** ** GPR width conversions *)

Definition GPR64_TO_GPR32 (r : reg_id_t) : reg_id_t := r - DR_REG_RAX + DR_REG_EAX.
Definition GPR64_TO_GPR16 (r : reg_id_t) : reg_id_t := r - DR_REG_RAX + DR_REG_AX.
Definition GPR32_TO_GPR64 (r : reg_id_t) : reg_id_t := r - DR_REG_EAX + DR_REG_RAX.
Definition GPR32_TO_GPR16 (r : reg_id_t) : reg_id_t := r - DR_REG_EAX + DR_REG_AX.
Definition GPR16_TO_GPR64 (r : reg_id_t) : reg_id_t := r - DR_REG_AX + DR_REG_RAX.
Definition GPR16_TO_GPR32 (r : reg_id_t) : reg_id_t := r - DR_REG_AX + DR_REG_EAX.

Definition GPR64_TO_GPR8 (r : reg_id_t) : reg_id_t :=
  if (DR_REG_RAX <=? r) && (r <=? DR_REG_RBX) then r - DR_REG_RAX + DR_REG_AL
  else if (DR_REG_RSP <=? r) && (r <=? DR_REG_RDI) then r - DR_REG_RSP + DR_REG_SPL
  else if (DR_REG_R8 <=? r) && (r <=? DR_REG_R15) then r - DR_REG_R8 + DR_REG_R8L
  else DR_REG_NULL.

Definition GPR32_TO_GPR8 (r : reg_id_t) : reg_id_t :=
  if (DR_REG_EAX <=? r) && (r <=? DR_REG_EBX) then r - DR_REG_EAX + DR_REG_AL
  else if (DR_REG_ESP <=? r) && (r <=? DR_REG_EDI) then r - DR_REG_ESP + DR_REG_SPL
  else if (DR_REG_R8D <=? r) && (r <=? DR_REG_R15D) then r - DR_REG_R8D + DR_REG_R8L
  else DR_REG_NULL.

Definition GPR16_TO_GPR8 (r : reg_id_t) : reg_id_t :=
  if (DR_REG_AX <=? r) && (r <=? DR_REG_BX) then r - DR_REG_AX + DR_REG_AL
  else if (DR_REG_SP <=? r) && (r <=? DR_REG_DI) then r - DR_REG_SP + DR_REG_SPL
  else if (DR_REG_R8W <=? r) && (r <=? DR_REG_R15W) then r - DR_REG_R8W + DR_REG_R8L
  else DR_REG_NULL.

(** ** TLS slots: the layout of [spill_state_t] (x86-64)

    Four 8-byte GPR slots, the opmask array (8 bytes each) aligned to 8, the
    zmm array (64 bytes each) aligned to 64. *)

Definition align_up (a x : Z) : Z := (x + a - 1) / a * a.

Definition TLS_XAX_SLOT : Z := ushort 0.
Definition TLS_XBX_SLOT : Z := ushort 8.
Definition TLS_XCX_SLOT : Z := ushort 16.
Definition TLS_XDX_SLOT : Z := ushort 24.
Definition TLS_REG0_SLOT : Z := TLS_XAX_SLOT.
Definition TLS_REG1_SLOT : Z := TLS_XBX_SLOT.
Definition TLS_REG2_SLOT : Z := TLS_XCX_SLOT.
Definition TLS_REG3_SLOT : Z := TLS_XDX_SLOT.

Definition off_k_regs : Z := align_up 8 32.
Definition off_zmm_regs : Z := align_up 64 (off_k_regs + 8 * MCXT_NUM_OPMASK_SLOTS).

Definition TLS_K_idx_SLOT (k_idx : Z) : Z := ushort (off_k_regs + 8 * k_idx).
Definition TLS_ZMM_idx_SLOT (zmm_idx : Z) : Z := ushort (off_zmm_regs + 64 * zmm_idx).

(** ** Names for registers by index *)

Definition xmm (i : Z) : reg_id_t := DR_REG_XMM0 + i.
Definition ymm (i : Z) : reg_id_t := DR_REG_YMM0 + i.
Definition zmm (i : Z) : reg_id_t := DR_REG_ZMM0 + i.
Definition kreg (i : Z) : reg_id_t := DR_REG_K0 + i.

(** Unfold every register constant and macro, for arithmetic. *)
Ltac unfold_regs :=
  unfold ymm, xmm, zmm, kreg, TO_ZMM_REG_INDEX, TO_YMM_REG_INDEX, TO_XMM_REG_INDEX,
    TO_K_REG_INDEX, TO_ZMM_REG_ID_NUM, TO_YMM_REG_ID_NUM, TO_XMM_REG_ID_NUM, TO_K_REG_ID_NUM,
    XMM_TO_YMM, XMM_TO_ZMM, YMM_TO_XMM, YMM_TO_ZMM, ZMM_TO_XMM, ZMM_TO_YMM,
    HIGH_TO_LOW_YMM_REG_ID_NUM, HIGH_TO_LOW_XMM_REG_ID_NUM, HIGH_16YMM_TO_LOW_16YMM_MAPPING,
    IS_ZMM_REG, IS_YMM_REG, IS_XMM_REG, IS_MASK_REG,
    IS_64GPR_REG, IS_32GPR_REG, IS_16GPR_REG, IS_8GPR_REG,
    NEED_SPILL_XMM, NEED_SPILL_YMM, NEED_SPILL_ZMM,
    GPR64_TO_GPR32, GPR64_TO_GPR16, GPR32_TO_GPR64, GPR32_TO_GPR16, GPR16_TO_GPR64,
    GPR16_TO_GPR32, GPR64_TO_GPR8, GPR32_TO_GPR8, GPR16_TO_GPR8,
    DR_REG_NULL, DR_REG_RAX, DR_REG_RCX, DR_REG_RDX, DR_REG_RBX, DR_REG_RSP, DR_REG_RBP,
    DR_REG_RSI, DR_REG_RDI, DR_REG_R8, DR_REG_R9, DR_REG_R10, DR_REG_R11, DR_REG_R12,
    DR_REG_R13, DR_REG_R14, DR_REG_R15, DR_REG_EAX, DR_REG_EBX, DR_REG_ESP, DR_REG_EDI,
    DR_REG_R8D, DR_REG_R15D, DR_REG_AX, DR_REG_BX, DR_REG_SP, DR_REG_DI, DR_REG_R8W,
    DR_REG_R15W, DR_REG_AL, DR_REG_BL, DR_REG_R8L, DR_REG_R15L, DR_REG_SPL, DR_REG_DIL,
    DR_REG_XMM0, DR_REG_XMM10, DR_REG_XMM11, DR_REG_XMM12, DR_REG_XMM13, DR_REG_XMM14,
    DR_REG_XMM15, DR_REG_XMM16, DR_REG_XMM31,
    DR_REG_YMM0, DR_REG_YMM10, DR_REG_YMM11, DR_REG_YMM12, DR_REG_YMM13, DR_REG_YMM14,
    DR_REG_YMM15, DR_REG_YMM16, DR_REG_YMM31,
    DR_REG_ZMM0, DR_REG_ZMM10, DR_REG_ZMM15, DR_REG_ZMM16, DR_REG_ZMM31, DR_REG_K0, DR_REG_K7 in *.

Ltac regs_lia := unfold_regs; zcases; cbn [andb]; first [reflexivity | lia | exfalso; lia].

(** ** Conversions by index *)

Lemma TO_YMM_REG_INDEX_ymm i : TO_YMM_REG_INDEX (ymm i) = i.
Proof. regs_lia. Qed.
Lemma TO_XMM_REG_INDEX_xmm i : TO_XMM_REG_INDEX (xmm i) = i.
Proof. regs_lia. Qed.
Lemma TO_ZMM_REG_INDEX_zmm i : TO_ZMM_REG_INDEX (zmm i) = i.
Proof. regs_lia. Qed.
Lemma TO_K_REG_INDEX_kreg i : TO_K_REG_INDEX (kreg i) = i.
Proof. regs_lia. Qed.
Lemma ZMM_TO_YMM_zmm i : ZMM_TO_YMM (zmm i) = ymm i.
Proof. regs_lia. Qed.
Lemma ZMM_TO_XMM_zmm i : ZMM_TO_XMM (zmm i) = xmm i.
Proof. regs_lia. Qed.
Lemma YMM_TO_XMM_ymm i : YMM_TO_XMM (ymm i) = xmm i.
Proof. regs_lia. Qed.
Lemma YMM_INDEX_TO_XMM_INDEX_ymm i : YMM_INDEX_TO_XMM_INDEX (ymm i) = xmm i.
Proof. unfold YMM_INDEX_TO_XMM_INDEX, YMM_TO_XMM_DISTANCE; regs_lia. Qed.
Lemma XMM_TO_YMM_xmm i : XMM_TO_YMM (xmm i) = ymm i.
Proof. regs_lia. Qed.
Lemma ymm_eqb i j : (ymm i =? ymm j) = (i =? j).
Proof. regs_lia. Qed.
Lemma xmm_eqb i j : (xmm i =? xmm j) = (i =? j).
Proof. regs_lia. Qed.
Lemma zmm_eqb i j : (zmm i =? zmm j) = (i =? j).
Proof. regs_lia. Qed.

#[export] Hint Rewrite TO_YMM_REG_INDEX_ymm TO_XMM_REG_INDEX_xmm TO_ZMM_REG_INDEX_zmm
  TO_K_REG_INDEX_kreg ZMM_TO_YMM_zmm ZMM_TO_XMM_zmm YMM_TO_XMM_ymm YMM_INDEX_TO_XMM_INDEX_ymm XMM_TO_YMM_xmm
  ymm_eqb xmm_eqb zmm_eqb : rw_regs.

Lemma NEED_SPILL_YMM_ymm i : 0 <= i < 32 -> NEED_SPILL_YMM (ymm i) = (16 <=? i).
Proof. intros; regs_lia. Qed.
(** Which bank a register is of. *)
Lemma zmm_width i : 0 <= i < 32 ->
  IS_ZMM_REG (zmm i) = true /\ IS_YMM_REG (zmm i) = false /\ IS_XMM_REG (zmm i) = false.
Proof. intros; unfold_regs; repeat split; lia. Qed.
Lemma ymm_width i : 0 <= i < 32 ->
  IS_ZMM_REG (ymm i) = false /\ IS_YMM_REG (ymm i) = true /\ IS_XMM_REG (ymm i) = false.
Proof. intros; unfold_regs; repeat split; lia. Qed.

Lemma xmm_width i : 0 <= i < 32 ->
  IS_ZMM_REG (xmm i) = false /\ IS_YMM_REG (xmm i) = false /\ IS_XMM_REG (xmm i) = true.
Proof. intros; unfold_regs; repeat split; lia. Qed.

Lemma NEED_SPILL_XMM_xmm i : 0 <= i < 32 -> NEED_SPILL_XMM (xmm i) = (16 <=? i).
Proof. intros; regs_lia. Qed.
Lemma NEED_SPILL_ZMM_zmm i : 0 <= i < 32 -> NEED_SPILL_ZMM (zmm i) = (16 <=? i).
Proof. intros; regs_lia. Qed.

(** A register of a class has an index below 32. *)
Lemma IS_YMM_REG_inv r : IS_YMM_REG r = true -> exists i, r = ymm i /\ 0 <= i < 32.
Proof. unfold IS_YMM_REG; intros; zbool; exists (r - DR_REG_YMM0); unfold_regs; lia. Qed.
Lemma IS_XMM_REG_inv r : IS_XMM_REG r = true -> exists i, r = xmm i /\ 0 <= i < 32.
Proof. unfold IS_XMM_REG; intros; zbool; exists (r - DR_REG_XMM0); unfold_regs; lia. Qed.
Lemma IS_ZMM_REG_inv r : IS_ZMM_REG r = true -> exists i, r = zmm i /\ 0 <= i < 32.
Proof. unfold IS_ZMM_REG; intros; zbool; exists (r - DR_REG_ZMM0); unfold_regs; lia. Qed.
Lemma IS_MASK_REG_inv r : IS_MASK_REG r = true -> exists i, r = kreg i /\ 0 <= i < 8.
Proof. unfold IS_MASK_REG; intros; zbool; exists (r - DR_REG_K0); unfold_regs; lia. Qed.

(** ** Slot offsets *)

Lemma TLS_ZMM_idx_SLOT_eq i : 0 <= i < 32 -> TLS_ZMM_idx_SLOT i = 128 + 64 * i.
Proof.
  intros; unfold TLS_ZMM_idx_SLOT, ushort.
  change off_zmm_regs with 128; apply wrap_id; change (2 ^ 16) with 65536; lia.
Qed.

Lemma TLS_K_idx_SLOT_eq i : 0 <= i < 8 -> TLS_K_idx_SLOT i = 32 + 8 * i.
Proof.
  intros; unfold TLS_K_idx_SLOT, ushort.
  change off_k_regs with 32; apply wrap_id; change (2 ^ 16) with 65536; lia.
Qed.

(** ** Theorems *)

(** Width conversion of a GPR id and back, and the class of each result. *)
Theorem gpr_width_roundtrip r :
  IS_64GPR_REG r = true ->
  GPR32_TO_GPR64 (GPR64_TO_GPR32 r) = r /\ GPR16_TO_GPR64 (GPR64_TO_GPR16 r) = r /\
  GPR16_TO_GPR32 (GPR64_TO_GPR16 r) = GPR64_TO_GPR32 r /\
  GPR32_TO_GPR8 (GPR64_TO_GPR32 r) = GPR64_TO_GPR8 r /\
  GPR16_TO_GPR8 (GPR64_TO_GPR16 r) = GPR64_TO_GPR8 r /\
  IS_32GPR_REG (GPR64_TO_GPR32 r) = true /\ IS_16GPR_REG (GPR64_TO_GPR16 r) = true.
Proof.
  intros H; unfold IS_64GPR_REG in H; zbool; repeat split; regs_lia.
Qed.

Lemma gpr_width_roundtrip_witness :
  IS_64GPR_REG DR_REG_R9 = true /\ GPR32_TO_GPR8 (GPR64_TO_GPR32 DR_REG_R9) = GPR64_TO_GPR8 DR_REG_R9.
Proof. split; [reflexivity|apply (gpr_width_roundtrip DR_REG_R9); reflexivity]. Defined.

(** C36: The slots of two distinct SIMD or mask registers never overlap and lie
    inside the 2176-byte spill area: the layout the rewriter relies on when it
    keeps zmm16-31, the upper halves of zmm0-15 and k0-7 in TLS. *)
Theorem tls_slots_disjoint i j k n :
  0 <= i < 32 -> 0 <= j < 32 -> 0 <= k < 8 -> 0 <= n < 8 ->
  (i <> j -> TLS_ZMM_idx_SLOT i + SIZE_OF_ZMM <= TLS_ZMM_idx_SLOT j \/
             TLS_ZMM_idx_SLOT j + SIZE_OF_ZMM <= TLS_ZMM_idx_SLOT i) /\
  (k <> n -> TLS_K_idx_SLOT k + 8 <= TLS_K_idx_SLOT n \/ TLS_K_idx_SLOT n + 8 <= TLS_K_idx_SLOT k) /\
  TLS_REG3_SLOT + 8 <= TLS_K_idx_SLOT k /\ TLS_K_idx_SLOT k + 8 <= TLS_ZMM_idx_SLOT i /\
  TLS_ZMM_idx_SLOT i + SIZE_OF_ZMM <= 2176.
Proof.
  intros; rewrite !TLS_ZMM_idx_SLOT_eq, !TLS_K_idx_SLOT_eq by lia.
  unfold SIZE_OF_ZMM; change TLS_REG3_SLOT with 24; lia.
Qed.

Lemma tls_slots_disjoint_witness : TLS_K_idx_SLOT 7 + 8 <= TLS_ZMM_idx_SLOT 0.
Proof. apply (tls_slots_disjoint 0 1 7 0); lia. Defined.
