(* ===== verification/Spill.v ===== *)
(** * Spill-register selectors

    The functions of [core/arch/rewrite_utils.c] that choose scratch registers
    for the emitted code: the SIMD selectors (xmm/ymm/zmm10-15) and the GPR
    selectors (rax..r15 without rsp and rbp), with the loops and the early
    returns of the source.  The lemmas give what a generator needs of them: the
    result is a spill slot and differs from every register to avoid. *)
From Stdlib Require Import ZArith List Bool Lia.
From S2P Require Import Prelude Regs.
Import ListNotations.
#[local] Open Scope Z_scope.
#[local] Open Scope bool_scope.

(** ** Slots *)

Definition XMM_SPILL_SLOT0 : reg_id_t := DR_REG_XMM10.
Definition XMM_SPILL_SLOT1 : reg_id_t := DR_REG_XMM11.
Definition XMM_SPILL_SLOT2 : reg_id_t := DR_REG_XMM12.
Definition XMM_SPILL_SLOTMAX : reg_id_t := DR_REG_XMM15.
Definition YMM_SPILL_SLOT0 : reg_id_t := DR_REG_YMM10.
Definition YMM_SPILL_SLOT1 : reg_id_t := DR_REG_YMM11.
Definition YMM_SPILL_SLOT2 : reg_id_t := DR_REG_YMM12.
Definition YMM_SPILL_SLOTMAX : reg_id_t := DR_REG_YMM15.
Definition ZMM_SPILL_SLOT0 : reg_id_t := DR_REG_ZMM10.
Definition ZMM_SPILL_SLOTMAX : reg_id_t := DR_REG_ZMM15.
Definition MAX_SPILL_AVOIDS : Z := 6.

(** The registers [for (r = SLOT0; r <= SLOTMAX; r++)] visits. *)
Definition slots_from_to (first last : reg_id_t) : list reg_id_t :=
  zrange first (Z.to_nat (last - first + 1)).

(** The first register of a loop that satisfies a test, [DR_REG_NULL] when the
    loop ends without one. *)
Definition first_slot (test : reg_id_t -> bool) (l : list reg_id_t) : reg_id_t :=
  match find test l with Some r => r | None => DR_REG_NULL end.

(** ** One register, one to avoid *)

Definition find_one_available_spill_xmm (reg : reg_id_t) : reg_id_t :=
  first_slot (fun idx_reg => negb (reg =? idx_reg)) (slots_from_to XMM_SPILL_SLOT0 XMM_SPILL_SLOTMAX).

Definition find_one_available_spill_ymm (reg : reg_id_t) : reg_id_t :=
  first_slot (fun idx_reg => negb (reg =? idx_reg)) (slots_from_to YMM_SPILL_SLOT0 YMM_SPILL_SLOTMAX).

Definition find_one_available_spill_zmm (reg : reg_id_t) : reg_id_t :=
  first_slot (fun idx_reg => negb (reg =? idx_reg)) (slots_from_to ZMM_SPILL_SLOT0 ZMM_SPILL_SLOTMAX).

(** ** One register, up to three to avoid *)

Definition avoids_three (a1 a2 a3 candidate : reg_id_t) : bool :=
  negb (candidate =? a1) && ((a2 =? DR_REG_NULL) || negb (candidate =? a2))
  && ((a3 =? DR_REG_NULL) || negb (candidate =? a3)).

Definition find_available_spill_xmm_avoiding (reg_to_avoid1 reg_to_avoid2 reg_to_avoid3 : reg_id_t) : reg_id_t :=
  first_slot (avoids_three reg_to_avoid1 reg_to_avoid2 reg_to_avoid3)
    (slots_from_to XMM_SPILL_SLOT0 XMM_SPILL_SLOTMAX).

Definition find_available_spill_ymm_avoiding (reg_to_avoid1 reg_to_avoid2 reg_to_avoid3 : reg_id_t) : reg_id_t :=
  first_slot (avoids_three reg_to_avoid1 reg_to_avoid2 reg_to_avoid3)
    (slots_from_to YMM_SPILL_SLOT0 YMM_SPILL_SLOTMAX).

Definition find_available_spill_zmm_avoiding (reg_to_avoid1 reg_to_avoid2 reg_to_avoid3 : reg_id_t) : reg_id_t :=
  first_slot (avoids_three reg_to_avoid1 reg_to_avoid2 reg_to_avoid3)
    (slots_from_to ZMM_SPILL_SLOT0 ZMM_SPILL_SLOTMAX).

(** ** One register, a variadic list to avoid

    [num_regs] is the length of the list. *)

Definition is_conflict (avoids : list reg_id_t) (candidate : reg_id_t) : bool :=
  existsb (fun a => negb (a =? DR_REG_NULL) && (candidate =? a)) avoids.

Definition find_available_spill_xmm_avoiding_variadic (avoids : list reg_id_t) : reg_id_t :=
  first_slot (fun c => negb (is_conflict avoids c)) (slots_from_to XMM_SPILL_SLOT0 XMM_SPILL_SLOTMAX).

Definition find_available_spill_ymm_avoiding_variadic (avoids : list reg_id_t) : reg_id_t :=
  first_slot (fun c => negb (is_conflict avoids c)) (slots_from_to YMM_SPILL_SLOT0 YMM_SPILL_SLOTMAX).

(** ** Two registers *)

Record spill_reg_pair_t := mk_spill_reg_pair { pair_reg1 : reg_id_t; pair_reg2 : reg_id_t }.

(** The nested loops: the outer one commits to the first slot that differs from
    both registers, the inner one looks for a second slot after it, and the
    outer loop goes on if there is none. *)
Fixpoint find_two_available (reg1 reg2 : reg_id_t) (l : list reg_id_t) : spill_reg_pair_t :=
  match l with
  | [] => mk_spill_reg_pair DR_REG_NULL DR_REG_NULL
  | idx_reg :: rest =>
      if (idx_reg =? reg1) || (idx_reg =? reg2) then find_two_available reg1 reg2 rest
      else match find (fun idx_reg2 => negb (idx_reg2 =? reg1) && negb (idx_reg2 =? reg2)) rest with
           | Some idx_reg2 => mk_spill_reg_pair idx_reg idx_reg2
           | None => find_two_available reg1 reg2 rest
           end
  end.

Definition find_two_available_spill_xmms (reg1 reg2 : reg_id_t) : spill_reg_pair_t :=
  find_two_available reg1 reg2 (slots_from_to XMM_SPILL_SLOT0 XMM_SPILL_SLOTMAX).
Definition find_two_available_spill_ymms (reg1 reg2 : reg_id_t) : spill_reg_pair_t :=
  find_two_available reg1 reg2 (slots_from_to YMM_SPILL_SLOT0 YMM_SPILL_SLOTMAX).
Definition find_two_available_spill_zmms (reg1 reg2 : reg_id_t) : spill_reg_pair_t :=
  find_two_available reg1 reg2 (slots_from_to ZMM_SPILL_SLOT0 ZMM_SPILL_SLOTMAX).

(** ** General-purpose registers *)

Definition GPR_SPILL_SLOT_NUM : Z := 14.
Definition GPR_SPILL_SLOTS : list reg_id_t :=
  [ DR_REG_RAX; DR_REG_RCX; DR_REG_RDX; DR_REG_RBX; DR_REG_RSI; DR_REG_RDI;
    DR_REG_R8; DR_REG_R9; DR_REG_R10; DR_REG_R11; DR_REG_R12; DR_REG_R13; DR_REG_R14; DR_REG_R15 ].

Definition reg_to_bit (reg : reg_id_t) : Z :=
  if (DR_REG_RAX <=? reg) && (reg <=? DR_REG_R15) then reg - DR_REG_RAX else -1.

(** [avoid_mask |= 1ULL << bit_pos], for the registers that have a bit. *)
Definition add_avoid (avoid_mask : Z) (reg_to_avoid : reg_id_t) : Z :=
  if negb (reg_to_avoid =? DR_REG_NULL) then
    let bit_pos := reg_to_bit reg_to_avoid in
    if (0 <=? bit_pos) && (bit_pos <? 64) then Z.lor avoid_mask (Z.shiftl 1 bit_pos) else avoid_mask
  else avoid_mask.

Definition build_avoid_mask (avoids : list reg_id_t) : Z := fold_left add_avoid avoids 0.

Definition slot_is_free (avoid_mask : Z) (candidate : reg_id_t) : bool :=
  let bit_pos := reg_to_bit candidate in
  (0 <=? bit_pos) && (Z.land avoid_mask (Z.shiftl 1 bit_pos) =? 0).

(** The selection loop: candidates in slot order until [needed] are found. *)
Fixpoint select_gprs (needed : nat) (avoid_mask : Z) (l : list reg_id_t) : list reg_id_t :=
  match needed, l with
  | O, _ => []
  | _, [] => []
  | S k, candidate :: rest =>
      if slot_is_free avoid_mask candidate then candidate :: select_gprs k avoid_mask rest
      else select_gprs needed avoid_mask rest
  end.

(** [find_available_spill_gprs_avoiding_outptrs(needed, num_avoids, &o1, ..,
    &oneeded, avoids..)] with [needed] non-NULL output pointers, the way every
    caller passes them.  The value is the returned count and the registers
    written to the output pointers, in order. *)
Definition find_available_spill_gprs_avoiding_outptrs (needed : Z) (avoids : list reg_id_t)
  : Z * list reg_id_t :=
  if needed <=? 0 then (0, [])
  else if GPR_SPILL_SLOT_NUM <? needed then (0, [])
  else
    let avoid_mask := build_avoid_mask (firstn (Z.to_nat MAX_SPILL_AVOIDS) avoids) in
    if avoid_mask =? 0 then (needed, firstn (Z.to_nat needed) GPR_SPILL_SLOTS)
    else
      let selected := select_gprs (Z.to_nat needed) avoid_mask GPR_SPILL_SLOTS in
      (Z.of_nat (length selected), selected).

(** [find_one_available_spill_gpr_avoiding_variadic]: the non-NULL registers to
    avoid are collected, at most [MAX_SPILL_AVOIDS] of them, and passed on.
    Up to four are passed as they are; from five on the callee is told to read
    six of which only five are passed, so the sixth is what the variadic area
    happens to hold: the parameter [stray]. *)
Definition find_one_available_spill_gpr_avoiding_variadic (stray : reg_id_t) (avoids : list reg_id_t)
  : reg_id_t :=
  let avoid_buffer :=
    firstn (Z.to_nat MAX_SPILL_AVOIDS) (filter (fun r => negb (r =? DR_REG_NULL)) avoids) in
  let passed :=
    if (length avoid_buffer <=? 4)%nat then avoid_buffer
    else firstn 5 avoid_buffer ++ [stray] in
  match find_available_spill_gprs_avoiding_outptrs 1 passed with
  | (1, r :: _) => r
  | _ => DR_REG_NULL
  end.

(** ** The SIMD selectors *)

(** All of them search the six slots for the first register outside a list. *)
Definition first_avoiding (first last : reg_id_t) (avoids : list reg_id_t) : reg_id_t :=
  first_slot (fun c => negb (existsb (Z.eqb c) avoids)) (slots_from_to first last).

Lemma first_slot_ext f g l : (forall r, In r l -> f r = g r) -> first_slot f l = first_slot g l.
Proof.
  intros H; unfold first_slot.
  replace (find g l) with (find f l); [reflexivity|].
  induction l as [|r l IH]; simpl; [reflexivity|].
  rewrite (H r), IH by (intros; try apply H; simpl; auto); reflexivity.
Qed.

Lemma slots_in first last r : In r (slots_from_to first last) <-> first <= r <= last.
Proof. unfold slots_from_to; rewrite zrange_in; lia. Qed.

Lemma is_conflict_eq avoids c : c <> DR_REG_NULL -> is_conflict avoids c = existsb (Z.eqb c) avoids.
Proof.
  intros Hc; unfold is_conflict; induction avoids as [|a l IH]; simpl; [reflexivity|].
  rewrite IH; destruct (Z.eqb_spec c a) as [->|]; simpl.
  - destruct (Z.eqb_spec a DR_REG_NULL); [contradiction|reflexivity].
  - now rewrite andb_false_r.
Qed.

Lemma avoids_three_eq a b c r :
  r <> DR_REG_NULL -> avoids_three a b c r = negb (existsb (Z.eqb r) [a; b; c]).
Proof.
  intros Hr; unfold avoids_three; simpl.
  destruct (Z.eqb_spec r a), (Z.eqb_spec r b), (Z.eqb_spec r c),
    (Z.eqb_spec b DR_REG_NULL), (Z.eqb_spec c DR_REG_NULL); subst; simpl; congruence.
Qed.

Section FirstAvoiding.
Context (first last : reg_id_t) (Hpos : DR_REG_NULL < first).

Lemma avoiding_variadic_eq avoids :
  first_slot (fun c => negb (is_conflict avoids c)) (slots_from_to first last)
  = first_avoiding first last avoids.
Proof.
  apply first_slot_ext; intros r Hr; apply slots_in in Hr.
  rewrite is_conflict_eq; [reflexivity|lia].
Qed.

Lemma avoiding_three_eq a b c :
  first_slot (avoids_three a b c) (slots_from_to first last) = first_avoiding first last [a; b; c].
Proof.
  apply first_slot_ext; intros r Hr; apply slots_in in Hr.
  apply avoids_three_eq; lia.
Qed.

Lemma avoiding_one_eq a :
  first_slot (fun r => negb (a =? r)) (slots_from_to first last) = first_avoiding first last [a].
Proof.
  apply first_slot_ext; intros r _; simpl; now rewrite orb_false_r, Z.eqb_sym.
Qed.

(** The search succeeds when fewer slots are to be avoided than there are. *)
Lemma first_avoiding_spec avoids :
  (length (filter (fun a => ((first <=? a) && (a <=? last))%Z) avoids) < Z.to_nat (last - first + 1))%nat ->
  first <= first_avoiding first last avoids <= last /\
  ~ In (first_avoiding first last avoids) avoids.
Proof.
  intros Hlen; unfold first_avoiding, first_slot.
  destruct (find_avoiding_some (slots_from_to first last) avoids) as [x Hx].
  - apply zrange_nodup.
  - unfold slots_from_to at 2; rewrite zrange_length.
    erewrite filter_ext; [exact Hlen|]; intros a; simpl.
    apply eq_iff_eq_true; rewrite existsb_exists, andb_true_iff, !Z.leb_le; split.
    + intros (x & Hx & Heq); apply slots_in in Hx; apply Z.eqb_eq in Heq; lia.
    + intros; exists a; rewrite slots_in; auto using Z.eqb_refl with zarith.
  - rewrite Hx; apply find_avoiding_spec in Hx as [Hin Hno].
    apply slots_in in Hin; auto.
Qed.
End FirstAvoiding.

(** *** Results by index *)

(** How many of a list of indices are those of spill registers. *)
Definition spill_count (l : list Z) : nat := length (filter (fun i => (10 <=? i) && (i <=? 15)) l).

Lemma filter_map_length (A B : Type) (f : A -> B) (p : B -> bool) l :
  length (filter p (map f l)) = length (filter (fun a => p (f a)) l).
Proof. induction l as [|a l IH]; simpl; [reflexivity|]; destruct (p (f a)); simpl; auto. Qed.

Lemma ymm_avoiding_index l :
  (spill_count l < 6)%nat ->
  exists s, first_avoiding YMM_SPILL_SLOT0 YMM_SPILL_SLOTMAX (map ymm l) = ymm s /\
            10 <= s <= 15 /\ ~ In s l.
Proof.
  intros Hc.
  destruct (first_avoiding_spec YMM_SPILL_SLOT0 YMM_SPILL_SLOTMAX (map ymm l)) as [Hr Hn].
  { rewrite filter_map_length; erewrite filter_ext; [exact Hc|].
    intros a; unfold YMM_SPILL_SLOT0, YMM_SPILL_SLOTMAX; regs_lia. }
  set (r := first_avoiding _ _ _) in *.
  exists (r - DR_REG_YMM0); unfold YMM_SPILL_SLOT0, YMM_SPILL_SLOTMAX, ymm in *.
  split; [lia|split; [unfold_regs; lia|]].
  intros Hin; apply Hn; rewrite in_map_iff; exists (r - DR_REG_YMM0); split; [lia|assumption].
Qed.

Lemma xmm_avoiding_index l :
  (spill_count l < 6)%nat ->
  exists s, first_avoiding XMM_SPILL_SLOT0 XMM_SPILL_SLOTMAX (map xmm l) = xmm s /\
            10 <= s <= 15 /\ ~ In s l.
Proof.
  intros Hc.
  destruct (first_avoiding_spec XMM_SPILL_SLOT0 XMM_SPILL_SLOTMAX (map xmm l)) as [Hr Hn].
  { rewrite filter_map_length; erewrite filter_ext; [exact Hc|].
    intros a; unfold XMM_SPILL_SLOT0, XMM_SPILL_SLOTMAX; regs_lia. }
  set (r := first_avoiding _ _ _) in *.
  exists (r - DR_REG_XMM0); unfold XMM_SPILL_SLOT0, XMM_SPILL_SLOTMAX, xmm in *.
  split; [lia|split; [unfold_regs; lia|]].
  intros Hin; apply Hn; rewrite in_map_iff; exists (r - DR_REG_XMM0); split; [lia|assumption].
Qed.

(** [DR_REG_NULL] among the registers to avoid is no constraint. *)
Lemma first_avoiding_null first last l l' :
  DR_REG_NULL < first -> (forall r, r <> DR_REG_NULL -> In r l <-> In r l') ->
  first_avoiding first last l = first_avoiding first last l'.
Proof.
  intros Hp H; apply first_slot_ext; intros r Hr; apply slots_in in Hr; f_equal.
  apply eq_iff_eq_true; rewrite !existsb_exists.
  split; intros (x & Hx & Heq); exists x; split; auto; apply Z.eqb_eq in Heq; subst x;
    apply (H r); auto; lia.
Qed.

Lemma find_one_ymm_index i :
  exists s, find_one_available_spill_ymm (ymm i) = ymm s /\ 10 <= s <= 15 /\ s <> i.
Proof.
  destruct (ymm_avoiding_index [i]) as (s & Hs & Hr & Hn).
  { unfold spill_count; simpl; destruct (_ && _); simpl; lia. }
  exists s; unfold find_one_available_spill_ymm; rewrite avoiding_one_eq.
  split; [exact Hs|simpl in Hn; intuition].
Qed.

(** Avoiding a register outside the slots gives the first slot. *)
Lemma find_one_ymm_high i : 16 <= i -> find_one_available_spill_ymm (ymm i) = ymm 10.
Proof.
  intros Hi; unfold find_one_available_spill_ymm, first_slot; simpl.
  replace (ymm i =? YMM_SPILL_SLOT0) with false by (unfold YMM_SPILL_SLOT0; regs_lia); reflexivity.
Qed.

(** The slot picked for any register of the bank. *)
Definition spill_one (i : Z) : Z := if i =? 10 then 11 else 10.

Lemma find_one_ymm_spill i :
  exists s, find_one_available_spill_ymm (ymm i) = ymm s /\ s = spill_one i /\ 10 <= s <= 15 /\ s <> i.
Proof.
  exists (spill_one i); unfold spill_one.
  destruct (Z.eqb_spec i 10) as [->|Hne]; [now repeat split|].
  split; [|repeat split; lia || congruence].
  unfold find_one_available_spill_ymm, first_slot; simpl.
  replace (ymm i =? YMM_SPILL_SLOT0) with false by (unfold YMM_SPILL_SLOT0; regs_lia); reflexivity.
Qed.

(** An xmm register is none of the ymm slots. *)
Lemma find_one_ymm_xmm i : 0 <= i < 32 -> find_one_available_spill_ymm (xmm i) = ymm 10.
Proof.
  intros Hi; unfold find_one_available_spill_ymm, first_slot; simpl.
  replace (xmm i =? YMM_SPILL_SLOT0) with false by (unfold YMM_SPILL_SLOT0; regs_lia); reflexivity.
Qed.

(** A ymm register is none of the xmm slots. *)
Lemma find_one_xmm_ymm i : 0 <= i < 32 -> find_one_available_spill_xmm (ymm i) = xmm 10.
Proof.
  intros Hi; unfold find_one_available_spill_xmm, first_slot; simpl.
  replace (ymm i =? XMM_SPILL_SLOT0) with false by (unfold XMM_SPILL_SLOT0; regs_lia); reflexivity.
Qed.

Lemma find_one_ymm_chain :
  find_one_available_spill_ymm DR_REG_NULL = ymm 10 /\
  find_one_available_spill_ymm (ymm 10) = ymm 11 /\ find_one_available_spill_ymm (ymm 11) = ymm 10.
Proof. repeat split. Qed.

Lemma find_one_xmm_high i : 16 <= i -> find_one_available_spill_xmm (xmm i) = xmm 10.
Proof.
  intros Hi; unfold find_one_available_spill_xmm, first_slot; simpl.
  replace (xmm i =? XMM_SPILL_SLOT0) with false by (unfold XMM_SPILL_SLOT0; regs_lia); reflexivity.
Qed.

Lemma find_one_xmm_index i :
  exists s, find_one_available_spill_xmm (xmm i) = xmm s /\ 10 <= s <= 15 /\ s <> i.
Proof.
  destruct (xmm_avoiding_index [i]) as (s & Hs & Hr & Hn).
  { unfold spill_count; simpl; destruct (_ && _); simpl; lia. }
  exists s; unfold find_one_available_spill_xmm; rewrite avoiding_one_eq.
  split; [exact Hs|simpl in Hn; intuition].
Qed.

Lemma spill_count_le l : (spill_count l <= length l)%nat.
Proof. unfold spill_count; apply filter_length_le. Qed.

Lemma find_ymm_avoiding_index2 i j :
  exists s, find_available_spill_ymm_avoiding (ymm i) (ymm j) DR_REG_NULL = ymm s /\
            10 <= s <= 15 /\ s <> i /\ s <> j.
Proof.
  destruct (ymm_avoiding_index [i; j]) as (s & Hs & Hr & Hn).
  { pose proof (spill_count_le [i; j]); simpl in *; lia. }
  exists s; unfold find_available_spill_ymm_avoiding.
  rewrite avoiding_three_eq, (first_avoiding_null _ _ _ [ymm i; ymm j]); try reflexivity.
  - split; [exact Hs|simpl in Hn; intuition].
  - intros; simpl; intuition congruence.
Qed.

Lemma find_ymm_avoiding_index3 i j k :
  exists s, find_available_spill_ymm_avoiding (ymm i) (ymm j) (ymm k) = ymm s /\
            10 <= s <= 15 /\ s <> i /\ s <> j /\ s <> k.
Proof.
  destruct (ymm_avoiding_index [i; j; k]) as (s & Hs & Hr & Hn).
  { pose proof (spill_count_le [i; j; k]); simpl in *; lia. }
  exists s; unfold find_available_spill_ymm_avoiding; rewrite avoiding_three_eq by reflexivity.
  split; [exact Hs|simpl in Hn; intuition].
Qed.

(** The selectors compare ymm registers with the zmm operands they are to
    avoid, and so avoid nothing. *)
Lemma find_ymm_avoiding_zmm a d : 0 <= a < 32 -> 0 <= d < 32 ->
  find_available_spill_ymm_avoiding (zmm a) (zmm d) DR_REG_NULL = ymm 10 /\
  find_available_spill_ymm_avoiding (zmm a) (zmm d) (ymm 10) = ymm 11.
Proof.
  intros Ha Hd; assert (E : forall i r, 0 <= i < 32 -> In r (slots_from_to YMM_SPILL_SLOT0 YMM_SPILL_SLOTMAX) -> (r =? zmm i) = false).
  { intros i r Hi Hr; apply Z.eqb_neq; vm_compute in Hr; unfold_regs; lia. }
  unfold find_available_spill_ymm_avoiding, avoids_three, first_slot.
  change (slots_from_to YMM_SPILL_SLOT0 YMM_SPILL_SLOTMAX) with [ymm 10; ymm 11; ymm 12; ymm 13; ymm 14; ymm 15] in *.
  cbn [find]; rewrite !E by (assumption || (cbn; tauto)); replace (zmm d =? DR_REG_NULL) with false by (symmetry; apply Z.eqb_neq; unfold_regs; lia).
  split; reflexivity.
Qed.

Lemma find_xmm_avoiding_index2 i j :
  exists s, find_available_spill_xmm_avoiding (xmm i) (xmm j) DR_REG_NULL = xmm s /\
            10 <= s <= 15 /\ s <> i /\ s <> j.
Proof.
  destruct (xmm_avoiding_index [i; j]) as (s & Hs & Hr & Hn).
  { pose proof (spill_count_le [i; j]); simpl in *; lia. }
  exists s; unfold find_available_spill_xmm_avoiding.
  rewrite avoiding_three_eq, (first_avoiding_null _ _ _ [xmm i; xmm j]); try reflexivity.
  - split; [exact Hs|simpl in Hn; intuition].
  - intros; simpl; intuition congruence.
Qed.

Lemma find_ymm_avoiding_index1 i :
  exists s, find_available_spill_ymm_avoiding (ymm i) DR_REG_NULL DR_REG_NULL = ymm s /\
            10 <= s <= 15 /\ s <> i.
Proof.
  destruct (find_one_ymm_index i) as (s & Hs & H); exists s; split; [rewrite <- Hs|exact H].
  unfold find_available_spill_ymm_avoiding, find_one_available_spill_ymm.
  rewrite avoiding_three_eq, avoiding_one_eq by reflexivity.
  apply first_avoiding_null; [reflexivity|intros; simpl; intuition congruence].
Qed.

Lemma find_xmm_avoiding_index1 i :
  exists s, find_available_spill_xmm_avoiding (xmm i) DR_REG_NULL DR_REG_NULL = xmm s /\ 10 <= s <= 15 /\ s <> i.
Proof.
  destruct (find_one_xmm_index i) as (s & Hs & H); exists s; split; [rewrite <- Hs|exact H].
  unfold find_available_spill_xmm_avoiding, find_one_available_spill_xmm.
  rewrite avoiding_three_eq, avoiding_one_eq by reflexivity.
  apply first_avoiding_null; [reflexivity|intros; simpl; intuition congruence].
Qed.

Lemma find_two_xmms_high i j :
  16 <= i -> 16 <= j -> find_two_available_spill_xmms (xmm i) (xmm j) = mk_spill_reg_pair (xmm 10) (xmm 11).
Proof.
  intros Hi Hj; unfold find_two_available_spill_xmms.
  change (slots_from_to XMM_SPILL_SLOT0 XMM_SPILL_SLOTMAX) with [xmm 10; xmm 11; xmm 12; xmm 13; xmm 14; xmm 15].
  cbn [find_two_available find].
  replace (xmm 10 =? xmm i) with false by regs_lia; replace (xmm 10 =? xmm j) with false by regs_lia.
  replace (xmm 11 =? xmm i) with false by regs_lia; replace (xmm 11 =? xmm j) with false by regs_lia; reflexivity.
Qed.

Lemma find_two_xmms_null i :
  16 <= i -> find_two_available_spill_xmms (xmm i) DR_REG_NULL = mk_spill_reg_pair (xmm 10) (xmm 11).
Proof.
  intros Hi; unfold find_two_available_spill_xmms.
  change (slots_from_to XMM_SPILL_SLOT0 XMM_SPILL_SLOTMAX) with [xmm 10; xmm 11; xmm 12; xmm 13; xmm 14; xmm 15].
  cbn [find_two_available find].
  replace (xmm 10 =? xmm i) with false by regs_lia; replace (xmm 11 =? xmm i) with false by regs_lia; reflexivity.
Qed.

Lemma find_ymm_variadic_index l :
  (spill_count l < 6)%nat ->
  exists s, find_available_spill_ymm_avoiding_variadic (map ymm l) = ymm s /\
            10 <= s <= 15 /\ ~ In s l.
Proof.
  intros H; unfold find_available_spill_ymm_avoiding_variadic.
  rewrite avoiding_variadic_eq by reflexivity; now apply ymm_avoiding_index.
Qed.

(** ** Theorems: SIMD selectors *)

(** The three-register selector of each class returns a slot of its class that
    differs from all three registers, whatever they are. *)
Theorem spill_avoiding_three_spec a b c :
  (YMM_SPILL_SLOT0 <= find_available_spill_ymm_avoiding a b c <= YMM_SPILL_SLOTMAX /\
   ~ In (find_available_spill_ymm_avoiding a b c) [a; b; c]) /\
  (XMM_SPILL_SLOT0 <= find_available_spill_xmm_avoiding a b c <= XMM_SPILL_SLOTMAX /\
   ~ In (find_available_spill_xmm_avoiding a b c) [a; b; c]) /\
  (ZMM_SPILL_SLOT0 <= find_available_spill_zmm_avoiding a b c <= ZMM_SPILL_SLOTMAX /\
   ~ In (find_available_spill_zmm_avoiding a b c) [a; b; c]).
Proof.
  unfold find_available_spill_ymm_avoiding, find_available_spill_xmm_avoiding,
    find_available_spill_zmm_avoiding.
  rewrite !avoiding_three_eq by reflexivity.
  repeat split; try (apply first_avoiding_spec; eapply Nat.le_lt_trans;
    [apply filter_length_le|vm_compute; lia]).
Qed.

(** The variadic selector fails exactly when all six slots are to be avoided;
    otherwise it returns a slot outside the list. *)
Theorem spill_ymm_variadic_spec avoids :
  let r := find_available_spill_ymm_avoiding_variadic avoids in
  (r = DR_REG_NULL <-> incl (slots_from_to YMM_SPILL_SLOT0 YMM_SPILL_SLOTMAX) avoids) /\
  (r <> DR_REG_NULL -> YMM_SPILL_SLOT0 <= r <= YMM_SPILL_SLOTMAX /\ ~ In r avoids).
Proof.
  intros r; unfold r, find_available_spill_ymm_avoiding_variadic.
  rewrite avoiding_variadic_eq by reflexivity; unfold first_avoiding, first_slot.
  destruct (find _ _) as [x|] eqn:Hf.
  - apply find_avoiding_spec in Hf as [Hin Hno]; pose proof Hin as Hb.
    apply slots_in in Hb; split; [|auto].
    split; [|intros Hincl; now apply Hincl in Hin].
    intros ->; exfalso; revert Hb; vm_compute; intuition congruence.
  - split; [|congruence]; split; [intros _ y Hy|reflexivity].
    pose proof (find_none _ _ Hf y Hy) as Hn; apply negb_false_iff, existsb_exists in Hn.
    destruct Hn as (z & Hz & Heq); apply Z.eqb_eq in Heq; now subst.
Qed.

(** What the two-register search promises of a list of slots. *)
Definition two_distinct_outside (a b : reg_id_t) (l : list reg_id_t) (p : spill_reg_pair_t) : Prop :=
  In (pair_reg1 p) l /\ In (pair_reg2 p) l /\ pair_reg1 p <> pair_reg2 p /\
  ~ In (pair_reg1 p) [a; b] /\ ~ In (pair_reg2 p) [a; b].

Definition outside2 (a b r : reg_id_t) : bool := negb (r =? a) && negb (r =? b).

Lemma find_two_available_enough a b l :
  NoDup l -> (2 <= length (filter (outside2 a b) l))%nat ->
  two_distinct_outside a b l (find_two_available a b l).
Proof.
  unfold two_distinct_outside.
  induction l as [|r l IH]; simpl; intros Hnd Hlen; [lia|].
  inversion_clear Hnd as [|? ? Hr Hnd']; unfold outside2 at 1 in Hlen.
  destruct (Z.eqb_spec r a) as [->|Ha]; simpl in *.
  { destruct (IH Hnd' Hlen) as (?&?&?&?&?); auto 10. }
  destruct (Z.eqb_spec r b) as [->|Hb]; simpl in *.
  { destruct (IH Hnd' Hlen) as (?&?&?&?&?); auto 10. }
  destruct (find _ l) as [x|] eqn:Hf; simpl.
  - apply find_some in Hf as [Hx Hp]; zbool.
    repeat split; auto; try (intuition congruence); intros ->; contradiction.
  - exfalso; destruct (filter (outside2 a b) l) as [|y l'] eqn:Hfl; simpl in Hlen; [lia|].
    assert (Hy : In y (y :: l')) by (left; reflexivity); rewrite <- Hfl in Hy.
    apply filter_In in Hy as [Hy1 Hy2].
    pose proof (find_none _ _ Hf y Hy1); unfold outside2 in Hy2; congruence.
Qed.

Lemma outside2_length a b l :
  NoDup l -> (length l <= length (filter (outside2 a b) l) + 2)%nat.
Proof.
  intros Hnd; replace 2%nat with (length [a; b]) by reflexivity; rewrite <- length_app.
  apply NoDup_incl_length; [assumption|]; intros x Hx; apply in_or_app.
  destruct (Z.eqb_spec x a) as [->|]; [right; simpl; auto|].
  destruct (Z.eqb_spec x b) as [->|]; [right; simpl; auto|].
  left; apply filter_In; split; [assumption|]; unfold outside2; repeat zdecide; reflexivity.
Qed.

(** The two-register selectors return two distinct slots, neither of which is
    one of the two registers passed. *)
Theorem spill_two_available_spec a b :
  two_distinct_outside a b (slots_from_to XMM_SPILL_SLOT0 XMM_SPILL_SLOTMAX) (find_two_available_spill_xmms a b) /\
  two_distinct_outside a b (slots_from_to YMM_SPILL_SLOT0 YMM_SPILL_SLOTMAX) (find_two_available_spill_ymms a b) /\
  two_distinct_outside a b (slots_from_to ZMM_SPILL_SLOT0 ZMM_SPILL_SLOTMAX) (find_two_available_spill_zmms a b).
Proof.
  assert (H : forall first last, 3 <= last - first ->
    two_distinct_outside a b (slots_from_to first last) (find_two_available a b (slots_from_to first last))).
  { intros first last Hd; apply find_two_available_enough; [apply zrange_nodup|].
    pose proof (outside2_length a b (slots_from_to first last) (zrange_nodup _ _)) as Hl.
    unfold slots_from_to in Hl at 1; rewrite zrange_length in Hl; lia. }
  split; [|split]; apply H; vm_compute; congruence.
Qed.

(** ** GPR selectors *)

Lemma reg_to_bit_range r : -1 <= reg_to_bit r < 16.
Proof. unfold reg_to_bit; regs_lia. Qed.

Lemma reg_to_bit_inj r r' : 0 <= reg_to_bit r -> reg_to_bit r = reg_to_bit r' -> r = r'.
Proof. unfold reg_to_bit; unfold_regs; zcases; simpl; lia. Qed.

Lemma add_avoid_testbit m r b :
  0 <= b -> Z.testbit (add_avoid m r) b = Z.testbit m b || (reg_to_bit r =? b).
Proof.
  intros Hb; unfold add_avoid.
  destruct (Z.eqb_spec r DR_REG_NULL) as [->|Hr]; simpl negb; cbv iota.
  - change (reg_to_bit DR_REG_NULL) with (-1).
    replace (-1 =? b) with false by (symmetry; apply Z.eqb_neq; lia); now rewrite orb_false_r.
  - pose proof (reg_to_bit_range r); cbv zeta.
    replace (reg_to_bit r <? 64) with true by (symmetry; apply Z.ltb_lt; lia).
    destruct (Z.leb_spec 0 (reg_to_bit r)); simpl andb; cbv iota.
    + rewrite Z.lor_spec, Z.shiftl_1_l, Z.pow2_bits_eqb by lia; reflexivity.
    + replace (reg_to_bit r =? b) with false by (symmetry; apply Z.eqb_neq; lia).
      now rewrite orb_false_r.
Qed.

(** Bit [b] of the avoidance mask is set exactly for the registers listed. *)
Lemma build_avoid_mask_testbit l b :
  0 <= b -> Z.testbit (build_avoid_mask l) b = existsb (fun r => reg_to_bit r =? b) l.
Proof.
  intros Hb; unfold build_avoid_mask.
  assert (H : forall m, Z.testbit (fold_left add_avoid l m) b
                        = Z.testbit m b || existsb (fun r => reg_to_bit r =? b) l).
  { induction l as [|r l IH]; intros m; simpl; [now rewrite orb_false_r|].
    now rewrite IH, add_avoid_testbit, orb_assoc by assumption. }
  now rewrite H, Z.bits_0.
Qed.

Lemma land_bit_zero m b : 0 <= b -> (Z.land m (Z.shiftl 1 b) =? 0) = negb (Z.testbit m b).
Proof.
  intros Hb; rewrite Z.shiftl_1_l.
  destruct (Z.testbit m b) eqn:Ht; simpl.
  - apply Z.eqb_neq; intros H0.
    assert (Hz : Z.testbit (Z.land m (2 ^ b)) b = Z.testbit 0 b) by now rewrite H0.
    rewrite Z.land_spec, Ht, Z.pow2_bits_true, Z.bits_0 in Hz by lia; discriminate.
  - apply Z.eqb_eq, Z.bits_inj'; intros n Hn; rewrite Z.bits_0, Z.land_spec.
    destruct (Z.eqb_spec b n) as [<-|]; [now rewrite Ht|].
    now rewrite Z.pow2_bits_false, andb_false_r by lia.
Qed.

(** A slot is free for the mask exactly when it is not among the registers. *)
Lemma slot_is_free_spec l c :
  In c GPR_SPILL_SLOTS ->
  slot_is_free (build_avoid_mask l) c = negb (existsb (Z.eqb c) l).
Proof.
  intros Hc; assert (Hb : 0 <= reg_to_bit c).
  { simpl in Hc; repeat (destruct Hc as [<-|Hc]; [vm_compute; congruence|]); contradiction. }
  unfold slot_is_free; rewrite land_bit_zero, build_avoid_mask_testbit by assumption.
  replace (0 <=? reg_to_bit c) with true by (symmetry; apply Z.leb_le; lia); simpl; f_equal.
  apply eq_iff_eq_true; rewrite !existsb_exists.
  split; intros (r & Hr & Heq); exists r; split; auto; apply Z.eqb_eq in Heq; apply Z.eqb_eq.
  - apply reg_to_bit_inj; congruence.
  - now subst.
Qed.

Lemma select_gprs_spec n mask l :
  select_gprs n mask l = firstn n (filter (slot_is_free mask) l).
Proof.
  revert n; induction l as [|c l IH]; intros [|n]; simpl; auto.
  destruct (slot_is_free mask c); simpl; [now rewrite IH|now rewrite (IH (S n))].
Qed.

(** The slots outside a list of registers, in slot order: the reference the
    bitmask implementation is compared with. *)
Definition free_gprs (avoids : list reg_id_t) : list reg_id_t :=
  filter (fun c => negb (existsb (Z.eqb c) avoids)) GPR_SPILL_SLOTS.

(** C33: The selector with its bitmask and its fast path picks the first [needed]
    registers of the slot table outside the first six to avoid, and returns how
    many there were; a request for more than fourteen gives none. *)
Theorem spill_gprs_spec needed avoids :
  find_available_spill_gprs_avoiding_outptrs needed avoids =
  if (needed <=? 0) || (GPR_SPILL_SLOT_NUM <? needed) then (0, [])
  else let l := firstn (Z.to_nat needed) (free_gprs (firstn 6 avoids)) in
       (Z.of_nat (length l), l).
Proof.
  unfold find_available_spill_gprs_avoiding_outptrs.
  destruct (Z.leb_spec needed 0) as [|Hpos]; [reflexivity|].
  destruct (Z.ltb_spec GPR_SPILL_SLOT_NUM needed) as [|Hmax]; [reflexivity|]; simpl orb; cbv iota zeta.
  change (Z.to_nat MAX_SPILL_AVOIDS) with 6%nat; set (l := firstn 6 avoids).
  assert (Hfree : filter (slot_is_free (build_avoid_mask l)) GPR_SPILL_SLOTS = free_gprs l)
    by (apply filter_ext_in; intros; now apply slot_is_free_spec).
  destruct (Z.eqb_spec (build_avoid_mask l) 0) as [H0|_].
  - assert (Hall : free_gprs l = GPR_SPILL_SLOTS) by (rewrite <- Hfree, H0; reflexivity).
    rewrite Hall; f_equal.
    rewrite length_firstn; change (length GPR_SPILL_SLOTS) with 14%nat.
    unfold GPR_SPILL_SLOT_NUM in Hmax; lia.
  - rewrite select_gprs_spec, Hfree; reflexivity.
Qed.

(** With up to four registers to avoid, the single-register selector returns a
    slot outside the list. *)
Theorem spill_one_gpr_spec stray avoids :
  (length (filter (fun r => negb (r =? DR_REG_NULL)%Z) avoids) <= 4)%nat ->
  let r := find_one_available_spill_gpr_avoiding_variadic stray avoids in
  In r GPR_SPILL_SLOTS /\ ~ In r avoids.
Proof.
  unfold find_one_available_spill_gpr_avoiding_variadic.
  set (buf := filter _ avoids); intros Hlen; cbv zeta.
  change (Z.to_nat MAX_SPILL_AVOIDS) with 6%nat.
  rewrite (firstn_all2 buf) by lia.
  destruct (Nat.leb_spec (length buf) 4); [|lia].
  rewrite spill_gprs_spec; simpl orb; cbv iota zeta.
  rewrite (firstn_all2 buf) by lia; change (Z.to_nat 1) with 1%nat.
  destruct (find_avoiding_some GPR_SPILL_SLOTS buf) as [x Hx].
  { repeat constructor; simpl; vm_compute; intuition congruence. }
  { eapply Nat.le_lt_trans; [apply filter_length_le|]; simpl; lia. }
  assert (Hne : exists y t, free_gprs buf = y :: t).
  { destruct (free_gprs buf) as [|y t] eqn:Hf; [|eauto].
    apply find_some in Hx; assert (In x []) by (rewrite <- Hf; apply filter_In; tauto); contradiction. }
  destruct Hne as (y & t & Hy); rewrite Hy; simpl.
  assert (Hin : In y (free_gprs buf)) by (rewrite Hy; left; reflexivity).
  apply filter_In in Hin as [Hs Hn]; split; [assumption|]; intros Ha.
  apply negb_true_iff in Hn.
  assert (existsb (Z.eqb y) buf = true); [|congruence].
  apply existsb_exists; exists y; split; [|apply Z.eqb_refl].
  apply filter_In; split; [assumption|].
  simpl in Hs; repeat (destruct Hs as [<-|Hs]; [reflexivity|]); contradiction.
Qed.

Lemma spill_one_gpr_spec_witness :
  ~ In (find_one_available_spill_gpr_avoiding_variadic 7 [DR_REG_RAX; DR_REG_NULL; DR_REG_RCX])
       [DR_REG_RAX; DR_REG_NULL; DR_REG_RCX].
Proof. apply (spill_one_gpr_spec 7 [DR_REG_RAX; DR_REG_NULL; DR_REG_RCX]); vm_compute; lia. Defined.

(** With six registers to avoid, the sixth can be returned: the callee is told
    to read six registers and is passed five. *)
Theorem spill_one_gpr_sixth_avoid_lost :
  exists stray avoids,
    length avoids = 6%nat /\
    In (find_one_available_spill_gpr_avoiding_variadic stray avoids) avoids.
Proof.
  exists DR_REG_NULL,
    [DR_REG_RAX; DR_REG_RCX; DR_REG_RDX; DR_REG_RBX; DR_REG_RSI; DR_REG_RDI].
  split; [reflexivity|vm_compute; tauto].
Qed.
