(* ===== verification/Bytes.v ===== *)
(** * Byte-addressed memory

    Memory is a function from addresses to bytes; an access of [n] bytes is
    little-endian.  The laws of [load] and [store] used by every component that
    reads or writes TLS, the stack or application memory. *)
From Stdlib Require Import ZArith List Bool Lia.
From S2P Require Import Prelude.
#[local] Open Scope Z_scope.

Definition memory := Z -> Z.

Definition wf_memory (m : memory) : Prop := forall a, 0 <= m a < 256.

Fixpoint load (n : nat) (m : memory) (a : Z) : Z :=
  match n with O => 0 | S k => m a + 256 * load k m (a + 1) end.

Definition store (n : nat) (m : memory) (a v : Z) : memory :=
  fun x => if ((a <=? x) && (x <? a + Z.of_nat n))%bool then (v / 256 ^ (x - a)) mod 256 else m x.

Lemma load_range n m a : wf_memory m -> 0 <= load n m a < 256 ^ Z.of_nat n.
Proof.
  intros Hwf; revert a; induction n as [|n IH]; intros a; cbn [load].
  - simpl; lia.
  - rewrite Nat2Z.inj_succ, Z.pow_succ_r by lia.
    specialize (Hwf a); specialize (IH (a + 1)); lia.
Qed.

Lemma store_wf n m a v : wf_memory m -> wf_memory (store n m a v).
Proof.
  intros Hwf x; unfold store; destruct (_ && _)%bool; [|apply Hwf].
  apply Z.mod_pos_bound; lia.
Qed.

Lemma load_ext n m m' a :
  (forall x, a <= x < a + Z.of_nat n -> m x = m' x) -> load n m a = load n m' a.
Proof.
  revert a; induction n as [|n IH]; intros a H; cbn [load]; [reflexivity|].
  rewrite (H a), (IH (a + 1)) by (intros; try apply H; lia); reflexivity.
Qed.

Lemma load_store_disjoint n k m a b v :
  a + Z.of_nat n <= b \/ b + Z.of_nat k <= a -> load n (store k m b v) a = load n m a.
Proof.
  intros H; apply load_ext; intros x Hx; unfold store.
  destruct (Z.leb_spec b x), (Z.ltb_spec x (b + Z.of_nat k)); simpl; auto; lia.
Qed.

(** A load of [n + k] bytes is the two loads side by side. *)
Lemma load_add n k m a :
  load (n + k) m a = load n m a + 256 ^ Z.of_nat n * load k m (a + Z.of_nat n).
Proof.
  revert a; induction n as [|n IH]; intros a.
  - cbn [load Nat.add]; change (Z.of_nat 0) with 0; rewrite Z.add_0_r, Z.pow_0_r; lia.
  - cbn [load Nat.add]; rewrite IH, Nat2Z.inj_succ, Z.pow_succ_r by lia.
    replace (a + 1 + Z.of_nat n) with (a + Z.succ (Z.of_nat n)) by lia; ring.
Qed.

(** The bytes inside a store, read from offset [d]. *)
Lemma load_store_inside n k m a v d :
  0 <= d -> d + Z.of_nat n <= Z.of_nat k ->
  load n (store k m a v) (a + d) = (v / 256 ^ d) mod 256 ^ Z.of_nat n.
Proof.
  revert d; induction n as [|n IH]; intros d Hd Hle.
  - cbn [load]; symmetry; apply Z.mod_1_r.
  - cbn [load]; rewrite <- Z.add_assoc, IH by lia.
    unfold store; repeat zdecide; simpl andb.
    replace (a + d - a) with d by lia.
    rewrite Nat2Z.inj_succ, (Z.pow_succ_r 256 (Z.of_nat n)) by lia.
    rewrite Z.rem_mul_r, Z.div_div by (try apply Z.pow_nonzero; lia).
    replace (256 ^ (d + 1)) with (256 ^ d * 256) by (rewrite Z.pow_add_r by lia; reflexivity).
    reflexivity.
Qed.

Lemma load_store_same n m a v : load n (store n m a v) a = v mod 256 ^ Z.of_nat n.
Proof.
  replace a with (a + 0) at 2 by lia.
  rewrite load_store_inside by lia; now rewrite Z.div_1_r.
Qed.
