(* ===== verification/Lanes.v ===== *)
(** * Packed operations on a 128-bit lane

    AVX operations on ymm and AVX-512 operations on zmm registers work on each
    128-bit lane separately, so both sides of the translation use the same lane
    functions: packed integer arithmetic of 8-, 16-, 32- and 64-bit elements
    with wrap-around, and the bitwise operations. *)
From Stdlib Require Import ZArith List Bool Lia.
From S2P Require Import Prelude.
#[local] Open Scope Z_scope.

(** Element [i] of width [w]. *)
Definition elem (w x i : Z) : Z := wrap w (x / 2 ^ (w * i)).

(** The lane whose [n] elements of width [w] are [f 0], ..., [f (n-1)]. *)
Fixpoint lane_of (w : Z) (n : nat) (f : Z -> Z) : Z :=
  match n with
  | O => 0
  | S k => wrap w (f 0) + 2 ^ w * lane_of w k (fun i => f (i + 1))
  end.

Definition lane_map2 (w : Z) (f : Z -> Z -> Z) (x y : Z) : Z :=
  lane_of w (Z.to_nat (128 / w)) (fun i => f (elem w x i) (elem w y i)).

Definition padd (w : Z) : Z -> Z -> Z := lane_map2 w Z.add.
Definition psub (w : Z) : Z -> Z -> Z := lane_map2 w Z.sub.
Definition pmull (w : Z) : Z -> Z -> Z := lane_map2 w Z.mul.
Definition pand (x y : Z) : Z := wrap 128 (Z.land x y).
Definition por (x y : Z) : Z := wrap 128 (Z.lor x y).
Definition pxor (x y : Z) : Z := wrap 128 (Z.lxor x y).

(** Interleaving of the low or the high halves of two lanes. *)
Definition punpck (w : Z) (base : Z) (x y : Z) : Z :=
  lane_of w (Z.to_nat (128 / w))
    (fun i => elem w (if Z.even i then x else y) (base + i / 2)).
Definition punpckl (w : Z) : Z -> Z -> Z := punpck w 0.
Definition punpckh (w : Z) : Z -> Z -> Z := punpck w (64 / w).

(** Signed words of [x] and then of [y], saturated to unsigned bytes. *)
Definition sat_u8 (v : Z) : Z :=
  let t := if Z.testbit v 15 then v - 65536 else v in Z.max 0 (Z.min 255 t).
Definition packus (x y : Z) : Z :=
  lane_of 8 16 (fun i => sat_u8 (if i <? 8 then elem 16 x i else elem 16 y (i - 8))).

(** The low doubleword of [y], the rest of [x]. *)
Definition pmovss (x y : Z) : Z := lane_of 32 4 (fun i => elem 32 (if i =? 0 then y else x) i).

(** Duplication of the even or the odd doublewords, and of the low quadword. *)
Definition psldup (x : Z) : Z := lane_of 32 4 (fun i => elem 32 x (2 * (i / 2))).
Definition pshdup (x : Z) : Z := lane_of 32 4 (fun i => elem 32 x (2 * (i / 2) + 1)).
Definition pddup (x : Z) : Z := lane_of 64 2 (fun _ => elem 64 x 0).

(** Shifts of each element by [c >= 0]: a count of the width or more gives zero,
    or the sign for the arithmetic shift. *)
Definition psll (w c x : Z) : Z :=
  lane_of w (Z.to_nat (128 / w)) (fun i => if c <? w then elem w x i * 2 ^ c else 0).
Definition psrl (w c x : Z) : Z :=
  lane_of w (Z.to_nat (128 / w)) (fun i => if c <? w then elem w x i / 2 ^ c else 0).
Definition psra (w c x : Z) : Z :=
  lane_of w (Z.to_nat (128 / w)) (fun i =>
    let e := elem w x i in
    (if Z.testbit e (w - 1) then e - 2 ^ w else e) / 2 ^ Z.min c w).

(** The whole lane shifted right by [c] bytes. *)
Definition psrldq (c x : Z) : Z := wrap 128 (x / 2 ^ (8 * c)).

(** Extension of the [w]-bit elements in half [h] of a lane to twice their width,
    with sign or with zeros. *)
Definition pmovsx (w h x : Z) : Z :=
  lane_of (2 * w) (Z.to_nat (64 / w)) (fun i =>
    let e := elem w x (h * (64 / w) + i) in if Z.testbit e (w - 1) then e - 2 ^ w else e).
Definition pmovzx (w h x : Z) : Z := lane_of (2 * w) (Z.to_nat (64 / w)) (fun i => elem w x (h * (64 / w) + i)).

(** A lane filled with one element. *)
Definition pbroadcast (w e : Z) : Z := lane_of w (Z.to_nat (128 / w)) (fun _ => e).

(** Rotation of an element [0 <= e < 2 ^ w] by [0 <= c <= w], and of each element. *)
Definition rotl (w c e : Z) : Z := Z.lor (wrap w (e * 2 ^ c)) (e / 2 ^ (w - c)).
Definition prol (w c x : Z) : Z := lane_of w (Z.to_nat (128 / w)) (fun i => rotl w (c mod w) (elem w x i)).
Definition pror (w c x : Z) : Z := lane_of w (Z.to_nat (128 / w)) (fun i => rotl w (- c mod w) (elem w x i)).

(** ** Ranges *)

Lemma lane_of_range w n f : 0 <= w -> 0 <= lane_of w n f < 2 ^ (w * Z.of_nat n).
Proof.
  intros Hw; revert f; induction n as [|n IH]; intros f; cbn [lane_of].
  - rewrite Z.mul_0_r; simpl; lia.
  - specialize (IH (fun i => f (i + 1))); pose proof (wrap_range w (f 0) Hw).
    rewrite Nat2Z.inj_succ, Z.mul_succ_r, Z.add_comm, Z.pow_add_r by lia.
    set (P := 2 ^ w) in *; set (Q := 2 ^ (w * Z.of_nat n)) in *; nia.
Qed.

(** What a lane operation promises its callers: a 128-bit result. *)
Class LaneOp (f : Z -> Z -> Z) : Prop := lane_op_range : forall x y, 0 <= f x y < 2 ^ 128.

Lemma lane_map2_range w f : 0 < w -> w * (128 / w) = 128 -> LaneOp (lane_map2 w f).
Proof.
  intros Hw Hd x y; unfold lane_map2.
  pose proof (lane_of_range w (Z.to_nat (128 / w)) (fun i => f (elem w x i) (elem w y i))) as H.
  rewrite Z2Nat.id, Hd in H by (apply Z.div_pos; lia); apply H; lia.
Qed.

#[export] Instance padd8_op : LaneOp (padd 8). Proof. now apply lane_map2_range. Qed.
#[export] Instance padd16_op : LaneOp (padd 16). Proof. now apply lane_map2_range. Qed.
#[export] Instance padd32_op : LaneOp (padd 32). Proof. now apply lane_map2_range. Qed.
#[export] Instance padd64_op : LaneOp (padd 64). Proof. now apply lane_map2_range. Qed.
#[export] Instance psub8_op : LaneOp (psub 8). Proof. now apply lane_map2_range. Qed.
#[export] Instance psub16_op : LaneOp (psub 16). Proof. now apply lane_map2_range. Qed.
#[export] Instance psub32_op : LaneOp (psub 32). Proof. now apply lane_map2_range. Qed.
#[export] Instance psub64_op : LaneOp (psub 64). Proof. now apply lane_map2_range. Qed.
#[export] Instance pmull32_op : LaneOp (pmull 32). Proof. now apply lane_map2_range. Qed.
#[export] Instance pand_op : LaneOp pand. Proof. intros x y; now apply wrap_range. Qed.
#[export] Instance por_op : LaneOp por. Proof. intros x y; now apply wrap_range. Qed.
#[export] Instance pxor_op : LaneOp pxor. Proof. intros x y; now apply wrap_range. Qed.

Lemma lane_of_128 w n f : 0 < w -> w * Z.of_nat n = 128 -> 0 <= lane_of w n f < 2 ^ 128.
Proof. intros Hw Hn; rewrite <- Hn; apply lane_of_range; lia. Qed.

Ltac lane_op_128 := intros ? ?; apply lane_of_128; reflexivity.

#[export] Instance punpckl32_op : LaneOp (punpckl 32). Proof. lane_op_128. Qed.
#[export] Instance punpckl64_op : LaneOp (punpckl 64). Proof. lane_op_128. Qed.
#[export] Instance punpckh32_op : LaneOp (punpckh 32). Proof. lane_op_128. Qed.
#[export] Instance punpckh64_op : LaneOp (punpckh 64). Proof. lane_op_128. Qed.
#[export] Instance packus_op : LaneOp packus. Proof. lane_op_128. Qed.
#[export] Instance pmovss_op : LaneOp pmovss. Proof. lane_op_128. Qed.
#[export] Instance psll16_op : LaneOp (psll 16). Proof. lane_op_128. Qed.
#[export] Instance psll32_op : LaneOp (psll 32). Proof. lane_op_128. Qed.
#[export] Instance psll64_op : LaneOp (psll 64). Proof. lane_op_128. Qed.
#[export] Instance psrl32_op : LaneOp (psrl 32). Proof. lane_op_128. Qed.
#[export] Instance psrl64_op : LaneOp (psrl 64). Proof. lane_op_128. Qed.
#[export] Instance psra32_op : LaneOp (psra 32). Proof. lane_op_128. Qed.
#[export] Instance psrldq_op : LaneOp psrldq. Proof. intros ? ?; now apply wrap_range. Qed.

(** ** Elements of a result *)

Lemma elem_lane_of w n f i :
  0 < w -> 0 <= i < Z.of_nat n -> elem w (lane_of w n f) i = wrap w (f i).
Proof.
  intros Hw; revert f i; induction n as [|n IH]; intros f i Hi; [lia|].
  cbn [lane_of]; unfold elem.
  assert (Hp : 0 < 2 ^ w) by (apply Z.pow_pos_nonneg; lia).
  pose proof (wrap_range w (f 0) ltac:(lia)) as Hr.
  destruct (Z.eq_dec i 0) as [->|Hi0].
  - rewrite Z.mul_0_r, Z.div_1_r; unfold wrap at 1.
    rewrite Z.mul_comm, Z_mod_plus_full; apply Z.mod_small; exact Hr.
  - replace (w * i) with (w + w * (i - 1)) by lia.
    rewrite Z.pow_add_r, <- Z.div_div, Z.mul_comm, Z.div_add, (Z.div_small _ _ Hr), Z.add_0_l
      by (try apply Z.pow_pos_nonneg; nia).
    specialize (IH (fun j => f (j + 1)) (i - 1) ltac:(lia)); unfold elem in IH.
    rewrite IH; f_equal; f_equal; lia.
Qed.

(** Elements determine a 128-bit value. *)
Lemma lane_elem_ext w n x y :
  0 < w -> 0 <= x < 2 ^ (w * Z.of_nat n) -> 0 <= y < 2 ^ (w * Z.of_nat n) ->
  (forall i, 0 <= i < Z.of_nat n -> elem w x i = elem w y i) -> x = y.
Proof.
  intros Hw; revert x y; induction n as [|n IH]; intros x y Hx Hy H.
  - rewrite Z.mul_0_r in *; simpl in *; lia.
  - assert (Hp : 0 < 2 ^ w) by (apply Z.pow_pos_nonneg; lia).
    rewrite Nat2Z.inj_succ, Z.mul_succ_r, Z.add_comm, Z.pow_add_r in Hx, Hy by lia.
    assert (Hdiv : x / 2 ^ w = y / 2 ^ w).
    { apply IH; try (split; [apply Z.div_pos; lia|apply Z.div_lt_upper_bound; lia]).
      intros i Hi; specialize (H (i + 1) ltac:(lia)); unfold elem in *.
      rewrite !Z.div_div, <- !Z.pow_add_r by (try apply Z.pow_pos_nonneg; nia).
      now replace (w + w * i) with (w * (i + 1)) by lia. }
    specialize (H 0 ltac:(lia)); unfold elem, wrap in H.
    rewrite Z.mul_0_r, !Z.div_1_r in H.
    rewrite (Z.div_mod x (2 ^ w)), (Z.div_mod y (2 ^ w)) by lia; congruence.
Qed.

(** Packed operations act on each element with wrap-around. *)
Lemma packed_elementwise w f x y i :
  0 < w -> 0 <= i < 128 / w ->
  elem w (lane_map2 w f x y) i = wrap w (f (elem w x i) (elem w y i)).
Proof.
  intros Hw Hi; unfold lane_map2.
  apply (elem_lane_of w _ (fun j => f (elem w x j) (elem w y j))); [assumption|].
  rewrite Z2Nat.id by lia; assumption.
Qed.

(** Packed subtraction undoes packed addition of the same element width. *)
Theorem psub_padd w x y :
  0 < w -> w * (128 / w) = 128 -> 0 <= x < 2 ^ 128 -> psub w (padd w x y) y = x.
Proof.
  intros Hw Hd Hx.
  assert (Hn : Z.of_nat (Z.to_nat (128 / w)) = 128 / w) by (apply Z2Nat.id, Z.div_pos; lia).
  apply (lane_elem_ext w (Z.to_nat (128 / w))); rewrite ?Hn, ?Hd; try assumption.
  - apply (lane_map2_range w Z.sub Hw Hd).
  - intros i Hi; unfold psub, padd; rewrite !packed_elementwise by assumption.
    unfold wrap; rewrite Zminus_mod_idemp_l, Z.add_simpl_r.
    unfold elem, wrap; apply Z.mod_mod, Z.pow_nonzero; lia.
Qed.

Lemma psub_padd_witness : psub 16 (padd 16 (2 ^ 100 + 5) (2 ^ 40 + 65535)) (2 ^ 40 + 65535) = 2 ^ 100 + 5.
Proof. apply (psub_padd 16); vm_compute; split || idtac; congruence. Defined.

(** ** Bits *)

Lemma wrap_testbit w x j : 0 <= w -> 0 <= j -> Z.testbit (wrap w x) j = ((j <? w) && Z.testbit x j)%bool.
Proof.
  intros Hw Hj; unfold wrap; destruct (Z.ltb_spec j w); cbn [andb]; [apply Z.mod_pow2_bits_low|apply Z.mod_pow2_bits_high]; lia.
Qed.

Lemma elem_testbit w x i j :
  0 < w -> 0 <= i -> 0 <= j -> Z.testbit (elem w x i) j = ((j <? w) && Z.testbit x (j + w * i))%bool.
Proof. intros Hw Hi Hj; unfold elem; rewrite wrap_testbit, Z.div_pow2_bits by nia; reflexivity. Qed.

Lemma elem_range w x i : 0 < w -> 0 <= elem w x i < 2 ^ w.
Proof. intros; apply wrap_range; lia. Qed.

Lemma elem_por w x y i :
  0 < w -> 0 <= i -> w * (i + 1) <= 128 -> elem w (por x y) i = Z.lor (elem w x i) (elem w y i).
Proof.
  intros Hw Hi Hn; apply Z.bits_inj'; intros j Hj.
  rewrite Z.lor_spec, !elem_testbit by lia; unfold por.
  destruct (Z.ltb_spec j w); cbn [andb]; [|reflexivity].
  rewrite wrap_testbit, Z.lor_spec by nia; replace (j + w * i <? 128) with true; [reflexivity|symmetry; apply Z.ltb_lt; nia].
Qed.

(** Bit [j] of a rotated element is bit [j - c], counted round. *)
Lemma rotl_testbit w c e j :
  0 <= c < w -> 0 <= e < 2 ^ w -> 0 <= j < w -> Z.testbit (rotl w c e) j = Z.testbit e ((j - c) mod w).
Proof.
  intros Hc He Hj; unfold rotl; rewrite Z.lor_spec, wrap_testbit, Z.mul_pow2_bits, Z.div_pow2_bits by lia.
  replace (j <? w) with true by (symmetry; apply Z.ltb_lt; lia); cbn [andb].
  destruct (Z.leb_spec c j).
  - rewrite (Z.mod_small (j - c)) by lia.
    replace (Z.testbit e (j + (w - c))) with false; [apply orb_false_r|].
    rewrite <- (wrap_id w e He), wrap_testbit by lia; replace (j + (w - c) <? w) with false; [reflexivity|symmetry; apply Z.ltb_ge; lia].
  - rewrite Z.testbit_neg_r by lia; cbn [orb]; f_equal.
    replace (j - c) with (j + (w - c) + (-1) * w) by lia; rewrite Z_mod_plus_full, Z.mod_small by lia; reflexivity.
Qed.

(** The two shifts of a rotate together. *)
Lemma rotate_lane w c x :
  0 < w -> w * (128 / w) = 128 -> 0 <= c < w ->
  por (psrl w (w - c) x) (psll w c x) = lane_of w (Z.to_nat (128 / w)) (fun i => rotl w c (elem w x i)).
Proof.
  intros Hw Hd Hc; set (n := Z.to_nat (128 / w)).
  assert (Hn : Z.of_nat n = 128 / w) by (apply Z2Nat.id, Z.div_pos; lia).
  apply (lane_elem_ext w n); [assumption|rewrite Hn, Hd; apply por_op|apply lane_of_range; lia|].
  intros i Hi; rewrite elem_por by nia; unfold psrl, psll; fold n.
  rewrite !(elem_lane_of w n) by lia; pose proof (elem_range w x i Hw) as He; unfold rotl.
  replace (c <? w) with true by (symmetry; apply Z.ltb_lt; lia).
  assert (E : (if w - c <? w then elem w x i / 2 ^ (w - c) else 0) = elem w x i / 2 ^ (w - c)).
  { destruct (Z.ltb_spec (w - c) w); [reflexivity|]; replace (w - c) with w by lia; now rewrite Z.div_small. }
  rewrite E, Z.lor_comm; apply Z.bits_inj'; intros j Hj.
  rewrite !Z.lor_spec, !wrap_testbit, Z.lor_spec, wrap_testbit by lia; destruct (j <? w), (Z.testbit (elem w x i * 2 ^ c) j); reflexivity.
Qed.

Lemma por_comm x y : por x y = por y x.
Proof. unfold por; now rewrite Z.lor_comm. Qed.

Lemma lane_of_ext w n f g : (forall i, f i = g i) -> lane_of w n f = lane_of w n g.
Proof. revert f g; induction n as [|n IH]; intros f g H; cbn [lane_of]; [reflexivity|]; rewrite H, (IH _ (fun i => g (i + 1))); auto. Qed.

(** A shift by nothing, in either direction. *)
Lemma psrl_psll_0 w x : psrl w 0 x = psll w 0 x.
Proof. apply lane_of_ext; intros i; destruct (0 <? w); [|reflexivity]; rewrite Z.pow_0_r, Z.div_1_r; lia. Qed.

(** A count of the width or more. *)
Lemma psrl_out w c x : w <= c -> psrl w c x = lane_of w (Z.to_nat (128 / w)) (fun _ => 0).
Proof. intros H; apply lane_of_ext; intros i; replace (c <? w) with false by (symmetry; apply Z.ltb_ge; lia); reflexivity. Qed.
Lemma psll_out w c x : w <= c -> psll w c x = lane_of w (Z.to_nat (128 / w)) (fun _ => 0).
Proof. intros H; apply lane_of_ext; intros i; replace (c <? w) with false by (symmetry; apply Z.ltb_ge; lia); reflexivity. Qed.
Lemma lane_of_0 w n : lane_of w n (fun _ => 0) = 0.
Proof. induction n as [|n IH]; cbn [lane_of]; [reflexivity|]; rewrite IH; unfold wrap; rewrite Zmod_0_l; lia. Qed.

Lemma por_0_r x : 0 <= x < 2 ^ 128 -> por x 0 = x.
Proof. intros; unfold por; rewrite Z.lor_0_r; now apply wrap_id. Qed.
