(* ===== verification/Machine.v ===== *)
(** * The AVX2 host machine

    The emitted instructions are DynamoRIO [instr_t] values: an opcode, a list
    of destination operands and a list of source operands.  This file gives the
    operand and instruction constructors the rewriter uses, the state of the
    host (sixteen ymm registers of two 128-bit lanes, sixteen GPRs, RFLAGS,
    application memory and the thread-local area) and an executable semantics.
    Execution is partial: a register with no VEX encoding (index 16 and up, any
    zmm or mask register) or a mismatch of operand sizes has no result. *)
From Stdlib Require Import ZArith List Bool Lia.
From S2P Require Import Prelude Regs Bytes Lanes.
Import ListNotations.
#[local] Open Scope Z_scope.
#[local] Open Scope bool_scope.
#[local] Open Scope rw_scope.

(** ** Operands and instructions *)

Inductive opnd_size := OPSZ_1 | OPSZ_2 | OPSZ_4 | OPSZ_8 | OPSZ_16 | OPSZ_32 | OPSZ_64 | OPSZ_STACK | OPSZ_VARSTACK.

Definition opsz_bytes (sz : opnd_size) : nat :=
  match sz with
  | OPSZ_1 => 1 | OPSZ_2 => 2 | OPSZ_4 => 4 | OPSZ_8 => 8
  | OPSZ_16 => 16 | OPSZ_32 => 32 | OPSZ_64 => 64
  | OPSZ_STACK | OPSZ_VARSTACK => 8
  end.

Inductive opnd_t :=
| OPND_NULL
| OPND_REG (reg : reg_id_t)
| OPND_BASE_DISP (base index : reg_id_t) (scale disp : Z) (sz : opnd_size)
| OPND_REL_ADDR (addr : Z) (sz : opnd_size) (* memory relative to the pc, by its address *)
| OPND_TLS (disp : Z) (sz : opnd_size)     (* a far address off the TLS segment *)
| OPND_IMM (v : Z) (sz : opnd_size)
| OPND_INSTR (label : Z).                  (* a label of the same sequence, by its number *)

Inductive opcode :=
| OP_vmovdqu | OP_vmovaps | OP_vmovups | OP_vmovupd | OP_vmovapd
| OP_vmovsldup | OP_vmovshdup | OP_vmovddup | OP_vmovss
| OP_vpaddb | OP_vpaddw | OP_vpaddd | OP_vpaddq
| OP_vpsubb | OP_vpsubw | OP_vpsubd | OP_vpsubq
| OP_vpmulld | OP_vpand | OP_vpor | OP_vpxor
| OP_vunpcklps | OP_vunpcklpd | OP_vunpckhps | OP_vunpckhpd | OP_vpackuswb
| OP_vpsllw | OP_vpslld | OP_vpsllq | OP_vpsrld | OP_vpsrlq | OP_vpsrad | OP_vpsrldq
| OP_pslld | OP_psrld
| OP_vpmovsxwd | OP_vpmovsxdq | OP_vpmovzxbw | OP_vpmovzxwd | OP_vpmovzxdq
| OP_vpbroadcastb | OP_vpbroadcastw | OP_vpbroadcastd | OP_vpbroadcastq
| OP_vmovd | OP_vmovq | OP_vextracti128 | OP_vextractf128
| OP_mov_ld | OP_mov_st | OP_mov_imm | OP_movzx
| OP_push | OP_pop | OP_pushf | OP_popf
| OP_and | OP_or | OP_xor | OP_add | OP_not | OP_shl | OP_shr | OP_nop
| OP_sub | OP_inc | OP_bts | OP_btr
| OP_test | OP_cmp | OP_clc | OP_stc | OP_jz | OP_jnz | OP_jl | OP_jle | OP_jnle | OP_jmp | OP_LABEL (label : Z)
(* instructions of the guest that an AVX2 host does not have *)
| OP_avx512 (opc : Z).

Record instr_t := mk_instr { instr_opcode : opcode; instr_dsts : list opnd_t; instr_srcs : list opnd_t }.

Definition opnd_create_reg (r : reg_id_t) : opnd_t := OPND_REG r.
(** Part of a register; the encoder takes no account of the size. *)
Definition opnd_create_reg_partial (r : reg_id_t) (subsize : opnd_size) : opnd_t := OPND_REG r.
Definition opnd_create_sized_tls_slot (offs : Z) (sz : opnd_size) : opnd_t := OPND_TLS offs sz.
(** A memory operand without a segment override. *)
Definition opnd_create_base_disp (base index : reg_id_t) (scale disp : Z) (sz : opnd_size) : opnd_t :=
  OPND_BASE_DISP base index scale disp sz.
Definition opnd_create_tls_slot (offs : Z) : opnd_t := OPND_TLS offs OPSZ_8.

(** [os_tls_offset]: the local state is at offset 0 of the segment. *)
Definition os_tls_offset (tls_offs : Z) : Z := ushort (0 + tls_offs).

Definition instr_create_0dst_0src (op : opcode) : instr_t := mk_instr op [] [].
Definition instr_create_0dst_1src (op : opcode) (s : opnd_t) : instr_t := mk_instr op [] [s].
Definition instr_create_0dst_2src (op : opcode) (s1 s2 : opnd_t) : instr_t := mk_instr op [] [s1; s2].
Definition instr_create_1dst_1src (op : opcode) (d s : opnd_t) : instr_t := mk_instr op [d] [s].
Definition instr_create_1dst_2src (op : opcode) (d s1 s2 : opnd_t) : instr_t := mk_instr op [d] [s1; s2].
Definition instr_create_2dst_1src (op : opcode) (d1 d2 s : opnd_t) : instr_t := mk_instr op [d1; d2] [s].
Definition instr_create_2dst_2src (op : opcode) (d1 d2 s1 s2 : opnd_t) : instr_t := mk_instr op [d1; d2] [s1; s2].

Definition instr_get_src (i : instr_t) (pos : nat) : opnd_t := nth pos (instr_srcs i) OPND_NULL.
Definition instr_get_dst (i : instr_t) (pos : nat) : opnd_t := nth pos (instr_dsts i) OPND_NULL.
Definition opnd_get_immed_int (o : opnd_t) : Z := match o with OPND_IMM v _ => v | _ => 0 end.
Definition opnd_create_instr (label : Z) : opnd_t := OPND_INSTR label.
Definition opnd_create_immed_int (v : Z) (sz : opnd_size) : opnd_t := OPND_IMM v sz.
(** The kind of an operand; a TLS slot is a base + displacement operand with a segment. *)
Inductive opnd_kind_t := NULL_kind | IMMED_INTEGER_kind | INSTR_kind | REG_kind | BASE_DISP_kind | REL_ADDR_kind.
Definition opnd_kind (o : opnd_t) : opnd_kind_t :=
  match o with
  | OPND_NULL => NULL_kind
  | OPND_REG _ => REG_kind
  | OPND_BASE_DISP _ _ _ _ _ | OPND_TLS _ _ => BASE_DISP_kind
  | OPND_REL_ADDR _ _ => REL_ADDR_kind
  | OPND_IMM _ _ => IMMED_INTEGER_kind
  | OPND_INSTR _ => INSTR_kind
  end.
Definition kind_eqb (a b : opnd_kind_t) : bool :=
  match a, b with
  | NULL_kind, NULL_kind | IMMED_INTEGER_kind, IMMED_INTEGER_kind | INSTR_kind, INSTR_kind
  | REG_kind, REG_kind | BASE_DISP_kind, BASE_DISP_kind | REL_ADDR_kind, REL_ADDR_kind => true
  | _, _ => false
  end.
Definition opnd_get_base (o : opnd_t) : reg_id_t :=
  match o with OPND_BASE_DISP base _ _ _ _ => base | _ => DR_REG_NULL end.
Definition opnd_get_index (o : opnd_t) : reg_id_t :=
  match o with OPND_BASE_DISP _ index _ _ _ => index | _ => DR_REG_NULL end.
Definition opnd_get_scale (o : opnd_t) : Z := match o with OPND_BASE_DISP _ _ scale _ _ => scale | _ => 0 end.
Definition opnd_get_disp (o : opnd_t) : Z := match o with OPND_BASE_DISP _ _ _ disp _ => disp | _ => 0 end.
Definition opnd_get_reg (o : opnd_t) : reg_id_t := match o with OPND_REG r => r | _ => DR_REG_NULL end.

(** The [INSTR_CREATE_] macros of an AVX operation with one or two sources. *)
Definition INSTR_CREATE_2 (op : opcode) (d s : opnd_t) : instr_t := instr_create_1dst_1src op d s.
Definition INSTR_CREATE_3 (op : opcode) (d s1 s2 : opnd_t) : instr_t := instr_create_1dst_2src op d s1 s2.

(** The scalar macros, with the implicit operands they add. *)
Definition INSTR_CREATE_push (s : opnd_t) : instr_t :=
  instr_create_2dst_2src OP_push (opnd_create_reg DR_REG_RSP)
    (opnd_create_base_disp DR_REG_RSP DR_REG_NULL 0 (-8) OPSZ_VARSTACK) s (opnd_create_reg DR_REG_RSP).
Definition INSTR_CREATE_pop (d : opnd_t) : instr_t :=
  instr_create_2dst_2src OP_pop d (opnd_create_reg DR_REG_RSP) (opnd_create_reg DR_REG_RSP)
    (opnd_create_base_disp DR_REG_RSP DR_REG_NULL 0 0 OPSZ_VARSTACK).
Definition INSTR_CREATE_pushf : instr_t :=
  instr_create_2dst_1src OP_pushf (opnd_create_reg DR_REG_RSP)
    (opnd_create_base_disp DR_REG_RSP DR_REG_NULL 0 (-8) OPSZ_STACK) (opnd_create_reg DR_REG_RSP).
Definition INSTR_CREATE_popf : instr_t :=
  instr_create_1dst_2src OP_popf (opnd_create_reg DR_REG_RSP) (opnd_create_reg DR_REG_RSP)
    (opnd_create_base_disp DR_REG_RSP DR_REG_NULL 0 0 OPSZ_STACK).
Definition INSTR_CREATE_and (d s : opnd_t) : instr_t := instr_create_1dst_2src OP_and d s d.
Definition INSTR_CREATE_or (d s : opnd_t) : instr_t := instr_create_1dst_2src OP_or d s d.
Definition INSTR_CREATE_xor (d s : opnd_t) : instr_t := instr_create_1dst_2src OP_xor d s d.
Definition INSTR_CREATE_add (d s : opnd_t) : instr_t := instr_create_1dst_2src OP_add d s d.
Definition INSTR_CREATE_sub (d s : opnd_t) : instr_t := instr_create_1dst_2src OP_sub d s d.
Definition INSTR_CREATE_inc (d : opnd_t) : instr_t := instr_create_1dst_1src OP_inc d d.
Definition INSTR_CREATE_bts (d ri : opnd_t) : instr_t := instr_create_1dst_2src OP_bts d ri d.
Definition INSTR_CREATE_btr (d ri : opnd_t) : instr_t := instr_create_1dst_2src OP_btr d ri d.
Definition INSTR_CREATE_shl (d ri : opnd_t) : instr_t := instr_create_1dst_2src OP_shl d ri d.
Definition INSTR_CREATE_shr (d ri : opnd_t) : instr_t := instr_create_1dst_2src OP_shr d ri d.
Definition INSTR_CREATE_test (s1 s2 : opnd_t) : instr_t := instr_create_0dst_2src OP_test s1 s2.
Definition INSTR_CREATE_cmp (s1 s2 : opnd_t) : instr_t := instr_create_0dst_2src OP_cmp s1 s2.
Definition INSTR_CREATE_clc : instr_t := instr_create_0dst_0src OP_clc.
Definition INSTR_CREATE_stc : instr_t := instr_create_0dst_0src OP_stc.
Definition INSTR_CREATE_jcc (op : opcode) (t : opnd_t) : instr_t := instr_create_0dst_1src op t.
Definition INSTR_CREATE_jmp (t : opnd_t) : instr_t := instr_create_0dst_1src OP_jmp t.
(** Other names of conditional jumps. *)
Definition OP_je : opcode := OP_jz.
Definition OP_jne : opcode := OP_jnz.
Definition OP_jg : opcode := OP_jnle.
(** Labels are told apart by a number. *)
Definition INSTR_CREATE_label (label : Z) : instr_t := instr_create_0dst_0src (OP_LABEL label).
Definition INSTR_CREATE_not (d : opnd_t) : instr_t := instr_create_1dst_1src OP_not d d.
Definition INSTR_CREATE_pslld (d s : opnd_t) : instr_t := instr_create_1dst_2src OP_pslld d s d.
Definition INSTR_CREATE_psrld (d s : opnd_t) : instr_t := instr_create_1dst_2src OP_psrld d s d.
Definition INSTR_CREATE_mov_imm (d s : opnd_t) : instr_t := instr_create_1dst_1src OP_mov_imm d s.
Definition INSTR_CREATE_mov_ld (d s : opnd_t) : instr_t := instr_create_1dst_1src OP_mov_ld d s.
Definition INSTR_CREATE_movzx (d s : opnd_t) : instr_t := instr_create_1dst_1src OP_movzx d s.

(** An immediate keeps the value it is given; the encoder truncates it. *)
Definition OPND_CREATE_INT8 (v : Z) : opnd_t := OPND_IMM v OPSZ_1.
Definition OPND_CREATE_INT16 (v : Z) : opnd_t := OPND_IMM v OPSZ_2.
Definition OPND_CREATE_INT32 (v : Z) : opnd_t := OPND_IMM v OPSZ_4.
Definition OPND_CREATE_INT64 (v : Z) : opnd_t := OPND_IMM v OPSZ_8.
Definition OPND_CREATE_MEM8 (base : reg_id_t) (disp : Z) : opnd_t := opnd_create_base_disp base DR_REG_NULL 0 disp OPSZ_1.
Definition OPND_CREATE_MEM16 (base : reg_id_t) (disp : Z) : opnd_t := opnd_create_base_disp base DR_REG_NULL 0 disp OPSZ_2.
Definition OPND_CREATE_MEM32 (base : reg_id_t) (disp : Z) : opnd_t := opnd_create_base_disp base DR_REG_NULL 0 disp OPSZ_4.
Definition OPND_CREATE_MEM64 (base : reg_id_t) (disp : Z) : opnd_t := opnd_create_base_disp base DR_REG_NULL 0 disp OPSZ_8.

(** *** Saving to and restoring from TLS *)

Definition SAVE_SIMD_TO_SIZED_TLS (reg : reg_id_t) (offs : Z) (sz : opnd_size) : instr_t :=
  instr_create_1dst_1src OP_vmovdqu
    (opnd_create_sized_tls_slot (os_tls_offset offs) sz) (opnd_create_reg reg).

Definition RESTORE_SIMD_FROM_SIZED_TLS (reg : reg_id_t) (offs : Z) (sz : opnd_size) : instr_t :=
  instr_create_1dst_1src OP_vmovdqu
    (opnd_create_reg reg) (opnd_create_sized_tls_slot (os_tls_offset offs) sz).

Definition SAVE_TO_TLS (reg : reg_id_t) (offs : Z) : instr_t :=
  instr_create_1dst_1src OP_mov_st (opnd_create_tls_slot (os_tls_offset offs)) (opnd_create_reg reg).

Definition RESTORE_FROM_TLS (reg : reg_id_t) (offs : Z) : instr_t :=
  instr_create_1dst_1src OP_mov_ld (opnd_create_reg reg) (opnd_create_tls_slot (os_tls_offset offs)).

Definition SAVE_TO_SIZED_TLS (reg : reg_id_t) (offs : Z) (sz : opnd_size) : instr_t :=
  instr_create_1dst_1src OP_mov_st
    (opnd_create_sized_tls_slot (os_tls_offset offs) sz) (opnd_create_reg reg).

Definition RESTORE_FROM_SIZED_TLS (reg : reg_id_t) (offs : Z) (sz : opnd_size) : instr_t :=
  instr_create_1dst_1src OP_mov_ld
    (opnd_create_reg reg) (opnd_create_sized_tls_slot (os_tls_offset offs) sz).

(** ** State *)

Record mach := mk_mach {
  simd : Z -> Z -> Z;      (* register index, 128-bit lane *)
  gpr : Z -> Z;            (* 64-bit registers in encoding order *)
  rflags : Z;
  tls : memory;            (* the thread's spill area, by offset *)
  mem : memory             (* application memory *)
}.

Definition wf_mach (s : mach) : Prop :=
  (forall i l, 0 <= simd s i l < 2 ^ 128) /\ (forall i, 0 <= gpr s i < 2 ^ 64) /\
  0 <= rflags s < 2 ^ 64 /\ wf_memory (tls s) /\ wf_memory (mem s).

Definition with_simd (s : mach) (f : Z -> Z -> Z) : mach := mk_mach f (gpr s) (rflags s) (tls s) (mem s).
Definition with_gpr (s : mach) (f : Z -> Z) : mach := mk_mach (simd s) f (rflags s) (tls s) (mem s).
Definition with_rflags (s : mach) (f : Z) : mach := mk_mach (simd s) (gpr s) f (tls s) (mem s).
Definition with_tls (s : mach) (t : memory) : mach := mk_mach (simd s) (gpr s) (rflags s) t (mem s).
Definition with_mem (s : mach) (m : memory) : mach := mk_mach (simd s) (gpr s) (rflags s) (tls s) m.

(** ** SIMD operations *)

(** A register a VEX instruction can name: its number of lanes and its index. *)
Definition avx2_reg (r : reg_id_t) : option (nat * Z) :=
  if (DR_REG_XMM0 <=? r) && (r <=? DR_REG_XMM15) then Some (1%nat, r - DR_REG_XMM0)
  else if (DR_REG_YMM0 <=? r) && (r <=? DR_REG_YMM15) then Some (2%nat, r - DR_REG_YMM0)
  else None.

(** A VEX write of [n] lanes: the lanes above are zeroed. *)
Definition set_simd (s : mach) (d : Z) (n : nat) (v : Z -> Z) : mach :=
  with_simd s (fun i l => if i =? d then (if l <? Z.of_nat n then wrap 128 (v l) else 0) else simd s i l).

Fixpoint store_lanes (n : nat) (t : memory) (off : Z) (v : Z -> Z) : memory :=
  match n with
  | O => t
  | S k => store 16 (store_lanes k t off v) (off + 16 * Z.of_nat k) (v (Z.of_nat k))
  end.

Definition load_lanes (t : memory) (off : Z) : Z -> Z := fun l => load 16 t (off + 16 * l).

Definition lane_binop (op : opcode) : option (Z -> Z -> Z) :=
  match op with
  | OP_vpaddb => Some (padd 8) | OP_vpaddw => Some (padd 16)
  | OP_vpaddd => Some (padd 32) | OP_vpaddq => Some (padd 64)
  | OP_vpsubb => Some (psub 8) | OP_vpsubw => Some (psub 16)
  | OP_vpsubd => Some (psub 32) | OP_vpsubq => Some (psub 64)
  | OP_vpmulld => Some (pmull 32)
  | OP_vpand => Some pand | OP_vpor => Some por | OP_vpxor => Some pxor
  | OP_vunpcklps => Some (punpckl 32) | OP_vunpcklpd => Some (punpckl 64)
  | OP_vunpckhps => Some (punpckh 32) | OP_vunpckhpd => Some (punpckh 64)
  | OP_vpackuswb => Some packus
  | _ => None
  end.

(** Two-source operations that exist for xmm registers only, or whose ymm form
    takes its second source from an xmm register: the scalar move, a shift by
    the low quadword of a register. *)
Definition lane_binop128 (op : opcode) : option (Z -> Z -> Z) :=
  match op with
  | OP_vmovss => Some pmovss
  | OP_vpsllw => Some (fun x y => psll 16 (wrap 64 y) x)
  | OP_vpslld => Some (fun x y => psll 32 (wrap 64 y) x)
  | OP_vpsllq => Some (fun x y => psll 64 (wrap 64 y) x)
  | OP_vpsrld => Some (fun x y => psrl 32 (wrap 64 y) x)
  | OP_vpsrlq => Some (fun x y => psrl 64 (wrap 64 y) x)
  | OP_vpsrad => Some (fun x y => psra 32 (wrap 64 y) x)
  | _ => None
  end.

(** Vector moves, and whether they need an aligned address. *)
Definition lane_mov (op : opcode) : option bool :=
  match op with
  | OP_vmovdqu | OP_vmovups | OP_vmovupd => Some false
  | OP_vmovaps | OP_vmovapd => Some true
  | _ => None
  end.

(** One-source operations, and operations with an 8-bit immediate. *)
Definition lane_unop (op : opcode) : option (Z -> Z) :=
  match op with
  | OP_vmovsldup => Some psldup | OP_vmovshdup => Some pshdup | OP_vmovddup => Some pddup
  | _ => None
  end.

Definition lane_immop (op : opcode) : option (Z -> Z -> Z) :=
  match op with
  | OP_vpsllw => Some (psll 16) | OP_vpslld => Some (psll 32) | OP_vpsllq => Some (psll 64)
  | OP_vpsrld => Some (psrl 32) | OP_vpsrlq => Some (psrl 64) | OP_vpsrad => Some (psra 32) | OP_vpsrldq => Some psrldq
  | _ => None
  end.

(** Operations whose lanes read another lane of the source: extensions of the
    low half, given the half of a lane to extend; broadcasts of an element. *)
Definition lane_ext (op : opcode) : option (Z -> Z -> Z) :=
  match op with
  | OP_vpmovsxwd => Some (pmovsx 16) | OP_vpmovsxdq => Some (pmovsx 32)
  | OP_vpmovzxbw => Some (pmovzx 8) | OP_vpmovzxwd => Some (pmovzx 16) | OP_vpmovzxdq => Some (pmovzx 32)
  | _ => None
  end.

Definition lane_bcast (op : opcode) : option nat :=
  match op with
  | OP_vpbroadcastb => Some 1%nat | OP_vpbroadcastw => Some 2%nat
  | OP_vpbroadcastd => Some 4%nat | OP_vpbroadcastq => Some 8%nat
  | _ => None
  end.

Definition exec_vbin (f : Z -> Z -> Z) (dsts srcs : list opnd_t) (s : mach) : option mach :=
  match dsts, srcs with
  | [OPND_REG d], [OPND_REG a; OPND_REG b] =>
      let? (n, di) := avx2_reg d in
      let? (m, ai) := avx2_reg a in
      let? (k, bi) := avx2_reg b in
      if ((n =? m) && (n =? k))%nat
      then Some (set_simd s di n (fun l => f (simd s ai l) (simd s bi l))) else None
  | _, _ => None
  end.

Definition exec_vun (f : Z -> Z) (dsts srcs : list opnd_t) (s : mach) : option mach :=
  match dsts, srcs with
  | [OPND_REG d], [OPND_REG a] =>
      let? (n, di) := avx2_reg d in
      let? (m, ai) := avx2_reg a in
      if (n =? m)%nat then Some (set_simd s di n (fun l => f (simd s ai l))) else None
  | _, _ => None
  end.

(** The operations with an immediate: the count comes first, as in the decoder's
    operand order.  A register count is handled by [exec_vbin128]. *)
Definition exec_vimm (f : Z -> Z -> Z) (dsts srcs : list opnd_t) (s : mach) : option mach :=
  match dsts, srcs with
  | [OPND_REG d], [OPND_IMM c sz; OPND_REG a] =>
      let? (n, di) := avx2_reg d in
      let? (m, ai) := avx2_reg a in
      if ((n =? m) && (opsz_bytes sz =? 1))%nat
      then Some (set_simd s di n (fun l => f (wrap 8 c) (simd s ai l))) else None
  | _, _ => None
  end.

Definition exec_vbin128 (f : Z -> Z -> Z) (dsts srcs : list opnd_t) (s : mach) : option mach :=
  match dsts with
  | [OPND_REG d] => let? (n, _) := avx2_reg d in if (n =? 1)%nat then exec_vbin f dsts srcs s else None
  | _ => None
  end.

(** A shift of ymm lanes: the count is in an xmm register. *)
Definition exec_vshift256 (f : Z -> Z -> Z) (dsts srcs : list opnd_t) (s : mach) : option mach :=
  match dsts, srcs with
  | [OPND_REG d], [OPND_REG a; OPND_REG b] =>
      let? (n, di) := avx2_reg d in
      let? (m, ai) := avx2_reg a in
      let? (k, bi) := avx2_reg b in
      if ((n =? 2) && (m =? 2) && (k =? 1))%nat
      then Some (set_simd s di 2 (fun l => f (simd s ai l) (simd s bi 0))) else None
  | _, _ => None
  end.

Definition exec_vshift (f : Z -> Z -> Z) (dsts srcs : list opnd_t) (s : mach) : option mach :=
  match dsts with
  | [OPND_REG d] =>
      let? (n, _) := avx2_reg d in
      if (n =? 1)%nat then exec_vbin f dsts srcs s else exec_vshift256 f dsts srcs s
  | _ => None
  end.

(** ** General-purpose registers *)

(** Size in bytes, encoding index and bit offset of a GPR name. *)
Definition gpr_reg (r : reg_id_t) : option (nat * Z * Z) :=
  if IS_64GPR_REG r then Some (8%nat, r - DR_REG_RAX, 0)
  else if IS_32GPR_REG r then Some (4%nat, r - DR_REG_EAX, 0)
  else if IS_16GPR_REG r then Some (2%nat, r - DR_REG_AX, 0)
  else if (DR_REG_AL <=? r) && (r <=? DR_REG_BL) then Some (1%nat, r - DR_REG_AL, 0)
  else if (DR_REG_BL <? r) && (r <? DR_REG_R8L) then Some (1%nat, r - DR_REG_BL - 1, 8)
  else if (DR_REG_R8L <=? r) && (r <=? DR_REG_R15L) then Some (1%nat, r - DR_REG_R8L + 8, 0)
  else if (DR_REG_SPL <=? r) && (r <=? DR_REG_DIL) then Some (1%nat, r - DR_REG_SPL + 4, 0)
  else None.

Definition bits_of (n : nat) : Z := 8 * Z.of_nat n.

Definition read_gpr (s : mach) (r : reg_id_t) : option Z :=
  let? (n, i, sh) := gpr_reg r in Some (wrap (bits_of n) (gpr s i / 2 ^ sh)).

(** The 64-bit value after a write of [n] bytes at bit [sh]: a 32-bit write
    zero-extends, narrower ones keep the other bits. *)
Definition merge_gpr (n : nat) (sh old v : Z) : Z :=
  if (4 <=? n)%nat then wrap (bits_of n) v
  else old - wrap (bits_of n) (old / 2 ^ sh) * 2 ^ sh + wrap (bits_of n) v * 2 ^ sh.

Definition write_gpr (s : mach) (r : reg_id_t) (v : Z) : option mach :=
  let? (n, i, sh) := gpr_reg r in
  Some (with_gpr s (fun j => if j =? i then merge_gpr n sh (gpr s i) v else gpr s j)).

Definition gpr_size (r : reg_id_t) : option nat := let? (n, _, _) := gpr_reg r in Some n.

(** *** Flags: bit positions in RFLAGS *)

Definition FLAG_CF : Z := 0.
Definition FLAG_PF : Z := 2.
Definition FLAG_AF : Z := 4.
Definition FLAG_ZF : Z := 6.
Definition FLAG_SF : Z := 7.
Definition FLAG_OF : Z := 11.

Definition set_flag (bit : Z) (b : bool) (fl : Z) : Z := if b then Z.setbit fl bit else Z.clearbit fl bit.

Definition parity8 (v : Z) : bool :=
  negb (fold_left xorb (map (Z.testbit v) [0; 1; 2; 3; 4; 5; 6; 7]) false).

(** Flags of a logical operation of [w] bits.  AF is undefined there and is
    left alone. *)
Definition logic_flags (w v fl : Z) : Z :=
  set_flag FLAG_CF false (set_flag FLAG_OF false
    (set_flag FLAG_ZF (v =? 0) (set_flag FLAG_SF (Z.testbit v (w - 1)) (set_flag FLAG_PF (parity8 v) fl)))).

Definition add_flags (w a b fl : Z) : Z :=
  let v := wrap w (a + b) in
  set_flag FLAG_CF (2 ^ w <=? a + b)
    (set_flag FLAG_OF (Bool.eqb (Z.testbit a (w - 1)) (Z.testbit b (w - 1))
                       && negb (Bool.eqb (Z.testbit a (w - 1)) (Z.testbit v (w - 1))))
      (set_flag FLAG_AF (16 <=? wrap 4 a + wrap 4 b)
        (set_flag FLAG_ZF (v =? 0) (set_flag FLAG_SF (Z.testbit v (w - 1)) (set_flag FLAG_PF (parity8 v) fl))))).

Definition rsp_idx : Z := 4.

Definition push64 (s : mach) (v : Z) : mach :=
  let sp := wrap 64 (gpr s rsp_idx - 8) in
  mk_mach (simd s) (fun j => if j =? rsp_idx then sp else gpr s j) (rflags s) (tls s)
          (store 8 (mem s) sp v).

Definition top64 (s : mach) : Z := load 8 (mem s) (gpr s rsp_idx).
Definition drop64 (s : mach) : mach :=
  with_gpr s (fun j => if j =? rsp_idx then wrap 64 (gpr s rsp_idx + 8) else gpr s j).

(** The value an immediate of size [sz] has in an operation of [n] bytes: the
    encoded bits, sign-extended. *)
Definition imm_value (n : nat) (v : Z) (sz : opnd_size) : Z :=
  let w := bits_of (opsz_bytes sz) in
  let u := wrap w v in
  wrap (bits_of n) (if Z.testbit u (w - 1) then u - 2 ^ w else u).

(** The address of a base + index * scale + displacement operand: 64-bit
    registers, a scale the encoding has, a displacement of 32 bits. *)
Definition addr_reg (s : mach) (r : reg_id_t) : option Z :=
  let? n := gpr_size r in if (n =? 8)%nat then read_gpr s r else None.

Definition is_int32 (v : Z) : bool := (- 2 ^ 31 <=? v) && (v <? 2 ^ 31).

Definition mem_addr (s : mach) (base index : reg_id_t) (scale disp : Z) : option Z :=
  let? b := if base =? DR_REG_NULL then Some 0 else addr_reg s base in
  let? i := if index =? DR_REG_NULL then Some 0
            else if (index =? DR_REG_RSP) || negb (existsb (Z.eqb scale) [1; 2; 4; 8]) then None
            else let? v := addr_reg s index in Some (v * scale) in
  if is_int32 disp then Some (wrap 64 (b + i + disp)) else None.

(** A vector move between registers and memory; [aligned] moves fault on an
    address that is not a multiple of the operand's size. *)
Definition exec_vmov (aligned : bool) (dsts srcs : list opnd_t) (s : mach) : option mach :=
  match dsts, srcs with
  | [OPND_REG d], [OPND_REG a] =>
      let? (n, di) := avx2_reg d in
      let? (m, ai) := avx2_reg a in
      if (n =? m)%nat then Some (set_simd s di n (simd s ai)) else None
  | [OPND_TLS off sz], [OPND_REG a] =>
      let? (n, ai) := avx2_reg a in
      if (opsz_bytes sz =? 16 * n)%nat then Some (with_tls s (store_lanes n (tls s) off (simd s ai)))
      else None
  | [OPND_REG d], [OPND_TLS off sz] =>
      let? (n, di) := avx2_reg d in
      if (opsz_bytes sz =? 16 * n)%nat then Some (set_simd s di n (load_lanes (tls s) off)) else None
  | [OPND_BASE_DISP base index scale disp sz], [OPND_REG a] =>
      let? (n, ai) := avx2_reg a in
      let? addr := mem_addr s base index scale disp in
      if (opsz_bytes sz =? 16 * n)%nat && (negb aligned || (addr mod (16 * Z.of_nat n) =? 0))
      then Some (with_mem s (store_lanes n (mem s) addr (simd s ai))) else None
  | [OPND_REG d], [OPND_BASE_DISP base index scale disp sz] =>
      let? (n, di) := avx2_reg d in
      let? addr := mem_addr s base index scale disp in
      if (opsz_bytes sz =? 16 * n)%nat && (negb aligned || (addr mod (16 * Z.of_nat n) =? 0))
      then Some (set_simd s di n (load_lanes (mem s) addr)) else None
  | [OPND_REG d], [OPND_REL_ADDR addr sz] =>
      let? (n, di) := avx2_reg d in
      if (opsz_bytes sz =? 16 * n)%nat && (negb aligned || (addr mod (16 * Z.of_nat n) =? 0))
      then Some (set_simd s di n (load_lanes (mem s) addr)) else None
  | _, _ => None
  end.

(** A source operand of size [n]. *)
Definition read_src (s : mach) (n : nat) (o : opnd_t) : option Z :=
  match o with
  | OPND_REG r => let? m := gpr_size r in if (n =? m)%nat then read_gpr s r else None
  | OPND_IMM v sz => if (opsz_bytes sz <=? Nat.min n 4)%nat then Some (imm_value n v sz) else None
  | OPND_TLS off sz => if (opsz_bytes sz =? n)%nat then Some (load n (tls s) off) else None
  | OPND_BASE_DISP base index scale disp sz =>
      if (opsz_bytes sz =? n)%nat then let? a := mem_addr s base index scale disp in Some (load n (mem s) a)
      else None
  | OPND_NULL | OPND_INSTR _ | OPND_REL_ADDR _ _ => None
  end.

(** A two-operand ALU instruction [op dst, src] on registers; [f] is the result
    and [fl] the new flags. *)
Definition exec_alu (f : Z -> Z -> Z) (fl : Z -> Z -> Z -> Z -> Z) (d src : opnd_t) (s : mach) : option mach :=
  match d with
  | OPND_REG r =>
      let? n := gpr_size r in
      let? a := read_gpr s r in
      let? b := read_src s n src in
      let? s' := write_gpr s r (f a b) in
      Some (with_rflags s' (fl (bits_of n) a b (rflags s)))
  | _ => None
  end.

(** Shift left by a count [c > 0]: CF is the last bit shifted out, OF is
    undefined unless [c = 1] and is left alone, as is AF. *)
Definition shl_flags (w a c fl : Z) : Z :=
  let v := wrap w (a * 2 ^ c) in
  set_flag FLAG_CF (Z.testbit a (w - c))
    (set_flag FLAG_ZF (v =? 0) (set_flag FLAG_SF (Z.testbit v (w - 1)) (set_flag FLAG_PF (parity8 v) fl))).

Definition exec_shl (r : reg_id_t) (c : Z) (s : mach) : option mach :=
  let? n := gpr_size r in
  let? a := read_gpr s r in
  let c := wrap (if (n =? 8)%nat then 6 else 5) c in
  if c =? 0 then Some s
  else let? s' := write_gpr s r (a * 2 ^ c) in Some (with_rflags s' (shl_flags (bits_of n) a c (rflags s))).

(** Shift right by a count [c > 0]: CF is the last bit shifted out. *)
Definition shr_flags (w a c fl : Z) : Z :=
  let v := a / 2 ^ c in
  set_flag FLAG_CF (Z.testbit a (c - 1))
    (set_flag FLAG_ZF (v =? 0) (set_flag FLAG_SF (Z.testbit v (w - 1)) (set_flag FLAG_PF (parity8 v) fl))).

Definition exec_shr (r : reg_id_t) (c : Z) (s : mach) : option mach :=
  let? n := gpr_size r in
  let? a := read_gpr s r in
  let c := wrap (if (n =? 8)%nat then 6 else 5) c in
  if c =? 0 then Some s
  else let? s' := write_gpr s r (a / 2 ^ c) in Some (with_rflags s' (shr_flags (bits_of n) a c (rflags s))).

(** The flags of a subtraction of [w] bits. *)
Definition sub_flags (w a b fl : Z) : Z :=
  let v := wrap w (a - b) in
  set_flag FLAG_CF (a <? b)
    (set_flag FLAG_OF (negb (Bool.eqb (Z.testbit a (w - 1)) (Z.testbit b (w - 1)))
                       && negb (Bool.eqb (Z.testbit a (w - 1)) (Z.testbit v (w - 1))))
      (set_flag FLAG_AF (wrap 4 a <? wrap 4 b)
        (set_flag FLAG_ZF (v =? 0) (set_flag FLAG_SF (Z.testbit v (w - 1)) (set_flag FLAG_PF (parity8 v) fl))))).

(** [test] and [cmp]: the flags alone. *)
Definition exec_flags (fl : Z -> Z -> Z -> Z -> Z) (r : reg_id_t) (src : opnd_t) (s : mach) : option mach :=
  let? n := gpr_size r in
  let? a := read_gpr s r in
  let? b := read_src s n src in
  Some (with_rflags s (fl (bits_of n) a b (rflags s))).

Definition logic_fl (f : Z -> Z -> Z) (w a b fl : Z) : Z := logic_flags w (wrap w (f a b)) fl.

(** An increment leaves the carry flag alone. *)
Definition inc_flags (w a fl : Z) : Z := set_flag FLAG_CF (Z.testbit fl FLAG_CF) (add_flags w a 1 fl).

Definition exec_inc (r : reg_id_t) (s : mach) : option mach :=
  let? n := gpr_size r in
  let? a := read_gpr s r in
  let? s' := write_gpr s r (a + 1) in
  Some (with_rflags s' (inc_flags (bits_of n) a (rflags s))).

(** Setting ([b]) or clearing the bit of a register that a source chooses,
    modulo the operand size.  The carry flag is the old bit; the flags that are
    undefined are left alone. *)
Definition exec_bit (b : bool) (r : reg_id_t) (src : opnd_t) (s : mach) : option mach :=
  let? n := gpr_size r in
  let? a := read_gpr s r in
  let? i := read_src s n src in
  if (n =? 1)%nat then None
  else
    let c := i mod bits_of n in
    let? s' := write_gpr s r (if b then Z.setbit a c else Z.clearbit a c) in
    Some (with_rflags s' (set_flag FLAG_CF (Z.testbit a c) (rflags s))).

Definition exec_gpr (op : opcode) (dsts srcs : list opnd_t) (s : mach) : option mach :=
  match op, dsts, srcs with
  | OP_mov_ld, [OPND_REG r], [OPND_TLS off sz] =>
      let? n := gpr_size r in
      if (opsz_bytes sz =? n)%nat then write_gpr s r (load n (tls s) off) else None
  | OP_mov_ld, [OPND_REG r], [OPND_REG a] =>
      let? n := gpr_size r in let? v := read_src s n (OPND_REG a) in write_gpr s r v
  | OP_mov_ld, [OPND_REG r], [OPND_BASE_DISP base index scale disp sz] =>
      let? n := gpr_size r in
      let? v := read_src s n (OPND_BASE_DISP base index scale disp sz) in write_gpr s r v
  | OP_mov_st, [OPND_TLS off sz], [OPND_REG r] =>
      let? n := gpr_size r in
      let? v := read_gpr s r in
      if (opsz_bytes sz =? n)%nat then Some (with_tls s (store n (tls s) off v)) else None
  | OP_mov_imm, [OPND_REG r], [OPND_IMM v sz] => let? n := gpr_size r in write_gpr s r (imm_value n v sz)
  | OP_movzx, [OPND_REG r], [OPND_REG a] =>
      let? n := gpr_size r in let? m := gpr_size a in
      if (m <? n)%nat then let? v := read_gpr s a in write_gpr s r v else None
  | OP_movzx, [OPND_REG r], [OPND_BASE_DISP base index scale disp sz] =>
      let? n := gpr_size r in
      if ((opsz_bytes sz <? n) && (opsz_bytes sz <=? 2))%nat
      then let? v := read_src s (opsz_bytes sz) (OPND_BASE_DISP base index scale disp sz) in write_gpr s r v
      else None
  | OP_push, [_; _], [OPND_REG r; _] =>
      let? n := gpr_size r in
      if (n =? 8)%nat then let? v := read_gpr s r in Some (push64 s v) else None
  | OP_pop, [OPND_REG r; _], [_; _] =>
      let? n := gpr_size r in
      if (n =? 8)%nat then write_gpr (drop64 s) r (top64 s) else None
  | OP_pushf, [_; _], [_] => Some (push64 s (rflags s))
  | OP_popf, [_], [_; _] => Some (with_rflags (drop64 s) (top64 s))
  | OP_and, [d], [src; _] => exec_alu Z.land (logic_fl Z.land) d src s
  | OP_or, [d], [src; _] => exec_alu Z.lor (logic_fl Z.lor) d src s
  | OP_xor, [d], [src; _] => exec_alu Z.lxor (logic_fl Z.lxor) d src s
  | OP_add, [d], [src; _] => exec_alu Z.add add_flags d src s
  | OP_sub, [d], [src; _] => exec_alu Z.sub sub_flags d src s
  | OP_inc, [OPND_REG r], [_] => exec_inc r s
  | OP_bts, [OPND_REG r], [src; _] => exec_bit true r src s
  | OP_btr, [OPND_REG r], [src; _] => exec_bit false r src s
  | OP_shl, [OPND_REG r], [OPND_IMM c _; _] => exec_shl r c s
  | OP_shl, [OPND_REG r], [OPND_REG c; _] =>
      if c =? DR_REG_CL then let? v := read_gpr s c in exec_shl r v s else None
  | OP_shr, [OPND_REG r], [OPND_IMM c _; _] => exec_shr r c s
  | OP_test, [], [OPND_REG r; src] => exec_flags (logic_fl Z.land) r src s
  | OP_cmp, [], [OPND_REG r; src] => exec_flags sub_flags r src s
  | OP_clc, [], [] => Some (with_rflags s (set_flag FLAG_CF false (rflags s)))
  | OP_stc, [], [] => Some (with_rflags s (set_flag FLAG_CF true (rflags s)))
  | OP_not, [OPND_REG r], [_] => let? a := read_gpr s r in write_gpr s r (Z.lnot a)
  | OP_nop, [], [] => Some s
  | _, _, _ => None
  end.

(** *** Operations across lanes *)

(** Both registers have the width of the instruction; the low half is read. *)
Definition exec_vext (f : Z -> Z -> Z) (dsts srcs : list opnd_t) (s : mach) : option mach :=
  match dsts, srcs with
  | [OPND_REG d], [OPND_REG a] =>
      let? (n, di) := avx2_reg d in
      let? (m, ai) := avx2_reg a in
      if (n =? m)%nat then Some (set_simd s di n (fun l => f (l mod 2) (simd s ai (l / 2)))) else None
  | _, _ => None
  end.

(** An element of [k] bytes, from an xmm register or from memory. *)
Definition bcast_src (k : nat) (src : opnd_t) (s : mach) : option Z :=
  match src with
  | OPND_REG a =>
      let? (n, ai) := avx2_reg a in
      if (n =? 1)%nat then Some (wrap (bits_of k) (simd s ai 0)) else None
  | OPND_BASE_DISP base index scale disp sz =>
      let? addr := mem_addr s base index scale disp in
      if (opsz_bytes sz =? k)%nat then Some (load k (mem s) addr) else None
  | _ => None
  end.

Definition exec_vbcast (k : nat) (dsts srcs : list opnd_t) (s : mach) : option mach :=
  match dsts, srcs with
  | [OPND_REG d], [src] =>
      let? (n, di) := avx2_reg d in
      let? v := bcast_src k src s in
      Some (set_simd s di n (fun _ => pbroadcast (bits_of k) v))
  | _, _ => None
  end.

(** [vmovd] and [vmovq] from a general-purpose register of [k] bytes. *)
Definition exec_vmovg (k : nat) (dsts srcs : list opnd_t) (s : mach) : option mach :=
  match dsts, srcs with
  | [OPND_REG d], [OPND_REG r] =>
      let? (n, di) := avx2_reg d in
      let? m := gpr_size r in
      let? v := read_gpr s r in
      if ((n =? 1) && (m =? k))%nat then Some (set_simd s di 1 (fun _ => v)) else None
  | _, _ => None
  end.

(** A lane of a ymm register, chosen by the low bit of the immediate. *)
Definition exec_vextract (dsts srcs : list opnd_t) (s : mach) : option mach :=
  match dsts, srcs with
  | [OPND_REG d], [OPND_REG a; OPND_IMM c sz] =>
      let? (n, di) := avx2_reg d in
      let? (m, ai) := avx2_reg a in
      if ((n =? 1) && (m =? 2) && (opsz_bytes sz =? 1))%nat
      then Some (set_simd s di 1 (fun _ => simd s ai (wrap 1 c))) else None
  | _, _ => None
  end.

(** A legacy shift of an xmm register in place leaves the bits above alone. *)
Definition exec_sse_imm (f : Z -> Z -> Z) (dsts srcs : list opnd_t) (s : mach) : option mach :=
  match dsts, srcs with
  | [OPND_REG d], [OPND_IMM c sz; OPND_REG a] =>
      let? (n, di) := avx2_reg d in
      if (n =? 1)%nat && (d =? a) && (opsz_bytes sz =? 1)%nat
      then Some (with_simd s (fun i l => if (i =? di) && (l =? 0) then wrap 128 (f (wrap 8 c) (simd s di 0))
                                         else simd s i l))
      else None
  | _, _ => None
  end.

Definition exec_cross (op : opcode) (dsts srcs : list opnd_t) (s : mach) : option mach :=
  match lane_ext op, lane_bcast op, op with
  | Some f, _, _ => exec_vext f dsts srcs s
  | _, Some k, _ => exec_vbcast k dsts srcs s
  | _, _, OP_vmovd => exec_vmovg 4 dsts srcs s
  | _, _, OP_vmovq => exec_vmovg 8 dsts srcs s
  | _, _, (OP_vextracti128 | OP_vextractf128) => exec_vextract dsts srcs s
  | _, _, OP_pslld => exec_sse_imm (psll 32) dsts srcs s
  | _, _, OP_psrld => exec_sse_imm (psrl 32) dsts srcs s
  | _, _, _ => exec_gpr op dsts srcs s
  end.

(** ** Execution *)

(** The result of an operation on registers, by the kind of the opcode. *)
Definition exec_simd (op : opcode) (dsts srcs : list opnd_t) (s : mach) : option mach :=
  match lane_unop op, lane_immop op, lane_binop128 op, srcs with
  | Some f, _, _, _ => exec_vun f dsts srcs s
  | _, Some f, _, OPND_IMM _ _ :: _ => exec_vimm f dsts srcs s
  | _, Some _, Some f, _ => exec_vshift f dsts srcs s
  | _, _, Some f, _ => exec_vbin128 f dsts srcs s
  | _, _, _, _ => exec_cross op dsts srcs s
  end.

Definition exec (i : instr_t) (s : mach) : option mach :=
  match lane_binop (instr_opcode i) with
  | Some f => exec_vbin f (instr_dsts i) (instr_srcs i) s
  | None =>
      match lane_mov (instr_opcode i) with
      | Some al => exec_vmov al (instr_dsts i) (instr_srcs i) s
      | None => exec_simd (instr_opcode i) (instr_dsts i) (instr_srcs i) s
      end
  end.

Fixpoint run (l : list instr_t) (s : mach) : option mach :=
  match l with
  | [] => Some s
  | i :: rest => let? s' := exec i s in run rest s'
  end.

Lemma run_app l1 l2 s : run (l1 ++ l2) s = obind (run l1 s) (run l2).
Proof.
  revert s; induction l1 as [|i l1 IH]; intros s; simpl; [reflexivity|].
  destruct (exec i s); simpl; auto.
Qed.

(** ** The state invariant *)

Lemma store_lanes_wf n t off v : wf_memory t -> wf_memory (store_lanes n t off v).
Proof. intros H; induction n; simpl; auto using store_wf. Qed.

Lemma set_simd_wf s d n v : wf_mach s -> wf_mach (set_simd s d n v).
Proof.
  intros (H1 & H); split; [|exact H]; intros i l; simpl.
  destruct (i =? d); [|apply H1]; destruct (l <? Z.of_nat n); [apply wrap_range; lia|lia].
Qed.

Lemma with_tls_wf s t : wf_mach s -> wf_memory t -> wf_mach (with_tls s t).
Proof. unfold wf_mach; simpl; tauto. Qed.

Lemma with_mem_wf s m : wf_mach s -> wf_memory m -> wf_mach (with_mem s m).
Proof. unfold wf_mach; simpl; tauto. Qed.

Lemma with_rflags_wf s f : wf_mach s -> 0 <= f < 2 ^ 64 -> wf_mach (with_rflags s f).
Proof. unfold wf_mach; cbn; tauto. Qed.

Lemma with_gpr_wf s f : wf_mach s -> (forall i, 0 <= f i < 2 ^ 64) -> wf_mach (with_gpr s f).
Proof. unfold wf_mach; cbn; tauto. Qed.

Lemma gpr_reg_bits r n i sh :
  gpr_reg r = Some (n, i, sh) ->
  ((4 <= n)%nat /\ 0 <= bits_of n <= 64) \/
  ((n < 4)%nat /\ 0 <= sh /\ 0 < bits_of n /\ sh + bits_of n <= 16).
Proof.
  unfold gpr_reg; repeat match goal with |- context [if ?c then _ else _] => destruct c end;
    intros H; inversion H; subst; unfold bits_of; lia.
Qed.

(** Replacing [w] bits at bit [sh] of a 64-bit value gives a 64-bit value. *)
Lemma insert_bits_range w sh old v :
  0 <= sh -> 0 < w -> sh + w <= 64 -> 0 <= old < 2 ^ 64 ->
  0 <= old - wrap w (old / 2 ^ sh) * 2 ^ sh + wrap w v * 2 ^ sh < 2 ^ 64.
Proof.
  intros Hsh Hw Hle Ho.
  assert (Hs : 0 < 2 ^ sh) by (apply Z.pow_pos_nonneg; lia).
  assert (Hp : 0 < 2 ^ w) by (apply Z.pow_pos_nonneg; lia).
  pose proof (wrap_range w v ltac:(lia)) as Hv.
  pose proof (Z.div_mod old (2 ^ sh) ltac:(lia)) as E1.
  pose proof (Z.mod_pos_bound old (2 ^ sh) Hs) as B1.
  set (q := old / 2 ^ sh) in *.
  pose proof (Z.div_mod q (2 ^ w) ltac:(lia)) as E2; fold (wrap w q) in E2.
  assert (Hq : 0 <= q / 2 ^ w < 2 ^ (64 - sh - w)).
  { unfold q; split; [apply Z.div_pos; [apply Z.div_pos|]; lia|].
    rewrite Z.div_div, <- Z.pow_add_r by lia.
    apply Z.div_lt_upper_bound; [apply Z.pow_pos_nonneg; lia|].
    rewrite <- Z.pow_add_r by lia; replace (sh + w + (64 - sh - w)) with 64 by lia; lia. }
  assert (E3 : 2 ^ 64 = 2 ^ sh * (2 ^ w * 2 ^ (64 - sh - w)))
    by (rewrite <- !Z.pow_add_r by lia; f_equal; lia).
  rewrite E3; set (P := 2 ^ sh) in *; set (W := 2 ^ w) in *; set (R := 2 ^ (64 - sh - w)) in *.
  replace (old - wrap w q * P + wrap w v * P) with (old mod P + P * (W * (q / W) + wrap w v))
    by (rewrite E1 at 2; rewrite E2 at 2; ring).
  set (u := q / W) in *; set (y := wrap w v) in *; set (m := old mod P) in *.
  assert (Hin : 0 <= W * u + y <= W * R - 1) by (clear -Hv Hq Hp; nia).
  clear -Hin B1 Hs; nia.
Qed.

Lemma merge_gpr_range r n i sh old v :
  gpr_reg r = Some (n, i, sh) -> 0 <= old < 2 ^ 64 -> 0 <= merge_gpr n sh old v < 2 ^ 64.
Proof.
  intros Hr Ho; apply gpr_reg_bits in Hr as [[Hn Hb]|(Hn & Hs & Hb & Hle)]; unfold merge_gpr.
  - replace (4 <=? n)%nat with true by (symmetry; apply Nat.leb_le; lia).
    pose proof (wrap_range (bits_of n) v ltac:(lia)).
    pose proof (Z.pow_le_mono_r 2 (bits_of n) 64 ltac:(lia) ltac:(lia)); lia.
  - replace (4 <=? n)%nat with false by (symmetry; apply Nat.leb_gt; lia).
    apply insert_bits_range; lia.
Qed.

Lemma write_gpr_wf s r v s' : wf_mach s -> write_gpr s r v = Some s' -> wf_mach s'.
Proof.
  intros Hs; unfold write_gpr.
  destruct (gpr_reg r) as [[[n i] sh]|] eqn:Hr; simpl; [|discriminate].
  intros H; injection H as <-; apply with_gpr_wf; [assumption|]; intros j.
  destruct Hs as (_ & Hg & _); destruct (j =? i); [|apply Hg].
  eapply merge_gpr_range; eauto.
Qed.

Lemma push64_wf s v : wf_mach s -> wf_mach (push64 s v).
Proof.
  intros (H1 & H2 & H3 & H4 & H5); unfold push64, wf_mach; cbn [simd gpr rflags tls mem].
  split; [exact H1|split; [|split; [exact H3|split; [exact H4|now apply store_wf]]]].
  intros i; destruct (_ =? _); [apply wrap_range; lia|apply H2].
Qed.

Lemma drop64_wf s : wf_mach s -> wf_mach (drop64 s).
Proof.
  intros H; apply with_gpr_wf; [assumption|]; intros i.
  destruct (_ =? _); [apply wrap_range; lia|apply H].
Qed.

Lemma top64_range s : wf_mach s -> 0 <= top64 s < 2 ^ 64.
Proof. intros (_ & _ & _ & _ & H); apply (load_range 8); assumption. Qed.

Lemma set_flag_range bit b fl : 0 <= bit < 64 -> 0 <= fl < 2 ^ 64 -> 0 <= set_flag bit b fl < 2 ^ 64.
Proof.
  intros Hb Hf; unfold set_flag.
  assert (Hw : forall x, 0 <= x -> (forall n, 64 <= n -> Z.testbit x n = false) -> 0 <= x < 2 ^ 64).
  { intros x Hx Ht; split; [assumption|].
    replace x with (wrap 64 x); [apply wrap_range; lia|].
    apply Z.bits_inj'; intros n Hn; unfold wrap.
    destruct (Z.ltb_spec n 64); [now rewrite Z.mod_pow2_bits_low|].
    rewrite Z.mod_pow2_bits_high by lia; symmetry; apply Ht; lia. }
  assert (Hh : forall n, 64 <= n -> Z.testbit fl n = false).
  { intros n Hn; rewrite <- (wrap_id 64 fl Hf); unfold wrap; apply Z.mod_pow2_bits_high; lia. }
  apply Hw; destruct b; unfold Z.setbit, Z.clearbit; rewrite ?Z.shiftl_1_l.
  - apply Z.lor_nonneg; split; [lia|apply Z.pow_nonneg; lia].
  - apply Z.ldiff_nonneg; lia.
  - intros n Hn; rewrite Z.lor_spec, Hh, Z.pow2_bits_false by lia; reflexivity.
  - intros n Hn; rewrite Z.ldiff_spec, Hh by lia; reflexivity.
Qed.

Lemma logic_flags_range w v fl : 0 <= fl < 2 ^ 64 -> 0 <= logic_flags w v fl < 2 ^ 64.
Proof.
  intros; unfold logic_flags, FLAG_CF, FLAG_OF, FLAG_ZF, FLAG_SF, FLAG_PF.
  repeat (apply set_flag_range; [lia|]); assumption.
Qed.

Lemma add_flags_range w a b fl : 0 <= fl < 2 ^ 64 -> 0 <= add_flags w a b fl < 2 ^ 64.
Proof.
  intros; unfold add_flags, FLAG_CF, FLAG_OF, FLAG_AF, FLAG_ZF, FLAG_SF, FLAG_PF; cbv zeta.
  repeat (apply set_flag_range; [lia|]); assumption.
Qed.

Lemma shl_flags_range w a c fl : 0 <= fl < 2 ^ 64 -> 0 <= shl_flags w a c fl < 2 ^ 64.
Proof.
  intros; unfold shl_flags, FLAG_CF, FLAG_ZF, FLAG_SF, FLAG_PF; cbv zeta.
  repeat (apply set_flag_range; [lia|]); assumption.
Qed.

Lemma shr_flags_range w a c fl : 0 <= fl < 2 ^ 64 -> 0 <= shr_flags w a c fl < 2 ^ 64.
Proof.
  intros; unfold shr_flags, FLAG_CF, FLAG_ZF, FLAG_SF, FLAG_PF; cbv zeta.
  repeat (apply set_flag_range; [lia|]); assumption.
Qed.

Lemma sub_flags_range w a b fl : 0 <= fl < 2 ^ 64 -> 0 <= sub_flags w a b fl < 2 ^ 64.
Proof.
  intros; unfold sub_flags, FLAG_CF, FLAG_OF, FLAG_AF, FLAG_ZF, FLAG_SF, FLAG_PF; cbv zeta.
  repeat (apply set_flag_range; [lia|]); assumption.
Qed.

Lemma exec_alu_wf f fl d src s s' :
  (forall w a b x, 0 <= x < 2 ^ 64 -> 0 <= fl w a b x < 2 ^ 64) ->
  wf_mach s -> exec_alu f fl d src s = Some s' -> wf_mach s'.
Proof.
  intros Hfl Hs; unfold exec_alu; destruct d as [ |r|base idx scale disp sz|addr sz|off sz|v sz|lb]; try discriminate.
  destruct (gpr_size r); simpl; [|discriminate].
  destruct (read_gpr s r) as [a|]; simpl; [|discriminate].
  destruct (read_src s n src) as [b|]; simpl; [|discriminate].
  destruct (write_gpr s r (f a b)) as [t|] eqn:Hw; simpl; [|discriminate].
  intros H; injection H as <-; apply with_rflags_wf; [eauto using write_gpr_wf|].
  apply Hfl, Hs.
Qed.

(** Case analysis on every partial step of a hypothesis [e = Some s']. *)
Ltac invert_exec :=
  repeat match goal with
  | H : None = Some _ |- _ => discriminate H
  | H : Some _ = Some _ |- _ => injection H as <-
  | H : obind ?e _ = Some _ |- _ => destruct e as [?|] eqn:?; cbn [obind] in H
  | H : (if ?c then _ else _) = Some _ |- _ => destruct c
  | H : (let (_, _) := ?p in _) = Some _ |- _ => destruct p
  | H : match ?x with _ => _ end = Some _ |- _ => destruct x; try discriminate H
  end.

Lemma exec_vmov_wf al d a s s' : wf_mach s -> exec_vmov al d a s = Some s' -> wf_mach s'.
Proof.
  intros Hs H; unfold exec_vmov in H; invert_exec; try (now apply set_simd_wf).
  - apply with_mem_wf; [assumption|apply store_lanes_wf, Hs].
  - apply with_tls_wf; [assumption|apply store_lanes_wf, Hs].
Qed.

Lemma exec_vbin_wf f d a s s' : wf_mach s -> exec_vbin f d a s = Some s' -> wf_mach s'.
Proof. intros Hs H; unfold exec_vbin in H; invert_exec; now apply set_simd_wf. Qed.

Lemma exec_vun_wf f d a s s' : wf_mach s -> exec_vun f d a s = Some s' -> wf_mach s'.
Proof. intros Hs H; unfold exec_vun in H; invert_exec; now apply set_simd_wf. Qed.

Lemma exec_vimm_wf f d a s s' : wf_mach s -> exec_vimm f d a s = Some s' -> wf_mach s'.
Proof. intros Hs H; unfold exec_vimm in H; invert_exec; now apply set_simd_wf. Qed.

Lemma exec_vbin128_wf f d a s s' : wf_mach s -> exec_vbin128 f d a s = Some s' -> wf_mach s'.
Proof. intros Hs H; unfold exec_vbin128 in H; invert_exec; eauto using exec_vbin_wf. Qed.

Lemma exec_vshift256_wf f d a s s' : wf_mach s -> exec_vshift256 f d a s = Some s' -> wf_mach s'.
Proof. intros Hs H; unfold exec_vshift256 in H; invert_exec; now apply set_simd_wf. Qed.

Lemma exec_vshift_wf f d a s s' : wf_mach s -> exec_vshift f d a s = Some s' -> wf_mach s'.
Proof. intros Hs H; unfold exec_vshift in H; invert_exec; eauto using exec_vbin_wf, exec_vshift256_wf. Qed.

Lemma exec_shr_wf r c s s' : wf_mach s -> exec_shr r c s = Some s' -> wf_mach s'.
Proof.
  intros Hs H; unfold exec_shr in H; invert_exec; [assumption|].
  apply with_rflags_wf; [eauto using write_gpr_wf|apply shr_flags_range, Hs].
Qed.

Lemma exec_flags_wf fl r src s s' :
  (forall w a b x, 0 <= x < 2 ^ 64 -> 0 <= fl w a b x < 2 ^ 64) ->
  wf_mach s -> exec_flags fl r src s = Some s' -> wf_mach s'.
Proof.
  intros Hfl Hs H; unfold exec_flags in H; invert_exec.
  apply with_rflags_wf; [assumption|apply Hfl, Hs].
Qed.

Lemma exec_shl_wf r c s s' : wf_mach s -> exec_shl r c s = Some s' -> wf_mach s'.
Proof.
  intros Hs H; unfold exec_shl in H; invert_exec; [assumption|].
  apply with_rflags_wf; [eauto using write_gpr_wf|apply shl_flags_range, Hs].
Qed.

Lemma exec_inc_wf r s s' : wf_mach s -> exec_inc r s = Some s' -> wf_mach s'.
Proof.
  intros Hs H; unfold exec_inc in H; invert_exec.
  apply with_rflags_wf; [eauto using write_gpr_wf|].
  apply set_flag_range; [unfold FLAG_CF; lia|apply add_flags_range, Hs].
Qed.

Lemma exec_bit_wf b r src s s' : wf_mach s -> exec_bit b r src s = Some s' -> wf_mach s'.
Proof.
  intros Hs H; unfold exec_bit in H; invert_exec.
  apply with_rflags_wf; [eauto using write_gpr_wf|apply set_flag_range; [unfold FLAG_CF; lia|apply Hs]].
Qed.

Lemma exec_gpr_wf op d a s s' : wf_mach s -> exec_gpr op d a s = Some s' -> wf_mach s'.
Proof.
  intros Hs H; unfold exec_gpr in H.
  assert (Hl : forall g w x y z, 0 <= z < 2 ^ 64 -> 0 <= logic_fl g w x y z < 2 ^ 64)
    by (intros; apply logic_flags_range; assumption).
  destruct op; try discriminate; invert_exec;
    first [ assumption | now apply push64_wf
          | eapply write_gpr_wf; [|eassumption]; first [assumption | now apply drop64_wf]
          | eapply exec_alu_wf; [|eassumption|eassumption]; auto using add_flags_range, sub_flags_range
          | eapply exec_shl_wf; eassumption | eapply exec_shr_wf; eassumption
          | eapply exec_inc_wf; eassumption | eapply exec_bit_wf; eassumption
          | eapply exec_flags_wf; [|eassumption|eassumption]; auto using sub_flags_range
          | idtac ].
  - apply with_tls_wf; [assumption|apply store_wf, Hs].
  - apply with_rflags_wf; [now apply drop64_wf|now apply top64_range].
  - apply with_rflags_wf; [assumption|apply (set_flag_range FLAG_CF false); [unfold FLAG_CF; lia|apply Hs]].
  - apply with_rflags_wf; [assumption|apply (set_flag_range FLAG_CF true); [unfold FLAG_CF; lia|apply Hs]].
Qed.

Lemma exec_cross_wf op d a s s' : wf_mach s -> exec_cross op d a s = Some s' -> wf_mach s'.
Proof.
  intros Hs H; unfold exec_cross in H.
  destruct (lane_ext op); [|destruct (lane_bcast op)];
    [unfold exec_vext in H; invert_exec; now apply set_simd_wf
    |unfold exec_vbcast in H; invert_exec; now apply set_simd_wf|].
  destruct op; first [exact (exec_gpr_wf _ _ _ _ _ Hs H) | unfold exec_vmovg, exec_vextract, exec_sse_imm in H; invert_exec];
    first [now apply set_simd_wf | idtac].
  all: destruct Hs as (H1 & H2); split; [|exact H2]; intros i l; cbn [simd with_simd];
    destruct (_ && _); [apply wrap_range; lia|apply H1].
Qed.

Lemma exec_simd_wf op d a s s' : wf_mach s -> exec_simd op d a s = Some s' -> wf_mach s'.
Proof.
  intros Hs H; unfold exec_simd in H.
  repeat match type of H with context [match ?x with _ => _ end] => destruct x end;
    eauto using exec_vun_wf, exec_vimm_wf, exec_vbin128_wf, exec_vshift_wf, exec_cross_wf.
Qed.

Lemma exec_wf i s s' : wf_mach s -> exec i s = Some s' -> wf_mach s'.
Proof.
  intros Hs; unfold exec; destruct (lane_binop _); [now apply exec_vbin_wf|].
  destruct (lane_mov (instr_opcode i)); [now apply exec_vmov_wf | now apply exec_simd_wf].
Qed.

Lemma run_wf l s s' : wf_mach s -> run l s = Some s' -> wf_mach s'.
Proof.
  revert s; induction l as [|i l IH]; simpl; intros s Hs H; [injection H as <-; assumption|].
  destruct (exec i s) as [t|] eqn:He; simpl in H; [|discriminate].
  eauto using exec_wf.
Qed.

(** ** General-purpose registers by index *)

Definition gpr64 (i : Z) : reg_id_t := DR_REG_RAX + i.
Definition gpr32 (i : Z) : reg_id_t := DR_REG_EAX + i.
Definition gpr16 (i : Z) : reg_id_t := DR_REG_AX + i.

(** A property of register indices, checked one by one. *)
Lemma for_all_16 (P : Z -> bool) i : forallb P (zrange 0 16) = true -> 0 <= i < 16 -> P i = true.
Proof. intros H Hi; rewrite forallb_forall in H; apply H, zrange_in; lia. Qed.

Definition names_ok (i : Z) : bool :=
  let named (r : reg_id_t) (n : nat) :=
    match gpr_reg r with Some (m, j, sh) => (m =? n)%nat && (j =? i) && (sh =? 0) | None => false end in
  named (gpr64 i) 8%nat && named (gpr32 i) 4%nat && named (gpr16 i) 2%nat &&
  named (GPR64_TO_GPR16 (gpr64 i)) 2%nat && named (GPR32_TO_GPR16 (gpr32 i)) 2%nat &&
  named (GPR64_TO_GPR8 (gpr64 i)) 1%nat && named (GPR32_TO_GPR8 (gpr32 i)) 1%nat &&
  IS_64GPR_REG (gpr64 i) && negb (IS_32GPR_REG (gpr64 i)) && IS_32GPR_REG (gpr32 i) && negb (IS_64GPR_REG (gpr32 i)) &&
  negb (IS_MASK_REG (gpr64 i)) && negb (IS_MASK_REG (gpr32 i)).

Record reg_names (i : Z) : Prop := {
  rn_q : gpr_reg (gpr64 i) = Some (8%nat, i, 0);
  rn_d : gpr_reg (gpr32 i) = Some (4%nat, i, 0);
  rn_q_w : gpr_reg (GPR64_TO_GPR16 (gpr64 i)) = Some (2%nat, i, 0);
  rn_d_w : gpr_reg (GPR32_TO_GPR16 (gpr32 i)) = Some (2%nat, i, 0);
  rn_q_b : gpr_reg (GPR64_TO_GPR8 (gpr64 i)) = Some (1%nat, i, 0);
  rn_d_b : gpr_reg (GPR32_TO_GPR8 (gpr32 i)) = Some (1%nat, i, 0);
  rn_is_q : IS_64GPR_REG (gpr64 i) = true;
  rn_q_not_d : IS_32GPR_REG (gpr64 i) = false;
  rn_is_d : IS_32GPR_REG (gpr32 i) = true;
  rn_d_not_q : IS_64GPR_REG (gpr32 i) = false;
  rn_q_not_k : IS_MASK_REG (gpr64 i) = false;
  rn_d_not_k : IS_MASK_REG (gpr32 i) = false }.

Lemma reg_names_all i : 0 <= i < 16 -> reg_names i.
Proof.
  intros Hi; pose proof (for_all_16 names_ok i eq_refl Hi) as H; unfold names_ok in H.
  repeat match type of H with (_ && _) = true => apply andb_true_iff in H; destruct H as [H ?] end.
  assert (Hr : forall r n, match gpr_reg r with Some (m, j, sh) => (m =? n)%nat && (j =? i) && (sh =? 0) | None => false end = true ->
           gpr_reg r = Some (n, i, 0)).
  { intros r n; destruct (gpr_reg r) as [[[m j] sh]|]; [|discriminate]; intros E.
    apply andb_true_iff in E as [E E3]; apply andb_true_iff in E as [E1 E2].
    apply Nat.eqb_eq in E1; apply Z.eqb_eq in E2, E3; now subst. }
  constructor; solve [apply Hr; assumption | assumption | apply negb_true_iff; assumption].
Qed.
