(* ===== verification/Arch512.v ===== *)
(** * AVX-512 architectural state and the correctness of emitted code

    [guest] is the state the application sees: 32 zmm registers of four 128-bit
    lanes, 8 mask registers, GPRs, RFLAGS and memory.  [view] reads it off a
    host state the way the rewriter stores it: lanes 0 and 1 of zmm0-15 in the
    hardware ymm registers, lanes 2 and 3 in the upper half of their TLS slot,
    zmm16-31 and k0-7 entirely in TLS.  [translates spec code] says that the
    emitted [code] runs to completion from every well-formed host state and
    takes the viewed state where [spec] takes it. *)
From Stdlib Require Import ZArith List Bool Lia RelationClasses Morphisms.
From S2P Require Import Prelude Regs Bytes Lanes Machine.
Import ListNotations.
#[local] Open Scope Z_scope.
#[local] Open Scope bool_scope.

(** ** Guest state *)

Record guest := mk_guest {
  g_zmm : Z -> Z -> Z;
  g_k : Z -> Z;
  g_gpr : Z -> Z;
  g_rflags : Z;
  g_mem : memory
}.

(** Equality of what the architecture can observe. *)
Definition guest_eq (g h : guest) : Prop :=
  (forall i l, 0 <= i < 32 -> 0 <= l < 4 -> g_zmm g i l = g_zmm h i l) /\
  (forall k, 0 <= k < 8 -> g_k g k = g_k h k) /\
  (forall i, 0 <= i < 16 -> g_gpr g i = g_gpr h i) /\
  g_rflags g = g_rflags h /\ (forall a, g_mem g a = g_mem h a).

Infix "==g" := guest_eq (at level 70, no associativity) : rw_scope.
#[local] Open Scope rw_scope.

#[export] Instance guest_eq_equiv : Equivalence guest_eq.
Proof.
  split.
  - intros g; repeat split; reflexivity.
  - intros g h (H1 & H2 & H3 & H4 & H5).
    split; [|split; [|split; [|split]]]; intros; symmetry; auto.
  - intros g h k (H1 & H2 & H3 & H4 & H5) (K1 & K2 & K3 & K4 & K5).
    split; [|split; [|split; [|split]]]; intros;
      [rewrite H1|rewrite H2|rewrite H3|rewrite H4|rewrite H5]; auto.
Qed.

(** ** The view of a host state *)

Definition tls_lane (t : memory) (i l : Z) : Z := load 16 t (128 + 64 * i + 16 * l).
Definition tls_k (t : memory) (k : Z) : Z := load 8 t (32 + 8 * k).

Definition zmm_view (s : mach) (i l : Z) : Z :=
  if (i <? 16) && (l <? 2) then simd s i l else tls_lane (tls s) i l.

Definition view (s : mach) : guest :=
  mk_guest (zmm_view s) (tls_k (tls s)) (gpr s) (rflags s) (mem s).

(** ** Correctness of emitted code *)

(** From every well-formed host state whose view satisfies [P], the code runs
    to the end and the view is what [spec] makes of it. *)
Definition translates_if (P : guest -> Prop) (spec : guest -> guest) (code : list instr_t) : Prop :=
  forall s, wf_mach s -> P (view s) ->
    exists s', run code s = Some s' /\ wf_mach s' /\ view s' ==g spec (view s).

Definition translates (spec : guest -> guest) (code : list instr_t) : Prop :=
  forall s, wf_mach s -> exists s', run code s = Some s' /\ wf_mach s' /\ view s' ==g spec (view s).

(** The same for the result of a rewrite function: it emits code, and the code
    is right.  A NULL result satisfies neither. *)
Record rw_result := mk_rw_result { rw_removed : bool; rw_code : option (list instr_t) }.

Definition rw_replace (l : list instr_t) : rw_result := mk_rw_result true (Some l).
Definition rw_insert (l : list instr_t) : rw_result := mk_rw_result false (Some l).
Definition rw_removed_null : rw_result := mk_rw_result true None.
Definition rw_null : rw_result := mk_rw_result false None.

(** The original instruction is removed and its replacement is correct. *)
Definition rewrites_if (P : guest -> Prop) (spec : guest -> guest) (r : rw_result) : Prop :=
  exists code, r = rw_replace code /\ translates_if P spec code.

Definition rewrites (spec : guest -> guest) (r : rw_result) : Prop :=
  exists code, r = rw_replace code /\ translates spec code.

(** Code for one instruction followed by code for the next is code for the
    sequence, when the second specification respects observation. *)
Theorem translates_app spec1 spec2 code1 code2 :
  Proper (guest_eq ==> guest_eq) spec2 ->
  translates spec1 code1 -> translates spec2 code2 ->
  translates (fun g => spec2 (spec1 g)) (code1 ++ code2).
Proof.
  intros Hp H1 H2 s Hs.
  destruct (H1 s Hs) as (s1 & R1 & W1 & E1).
  destruct (H2 s1 W1) as (s2 & R2 & W2 & E2).
  exists s2; split; [|split; [exact W2|]].
  - rewrite run_app, R1; exact R2.
  - rewrite E2; apply Hp, E1.
Qed.

(** ** Specifications of vector instructions

    [n] is the number of lanes of the vector length (1, 2 or 4).  The
    instruction as documented zeroes the destination above the vector length;
    the [_keep] form leaves those lanes alone. *)

Definition set_zmm (g : guest) (d : Z) (v : Z -> Z) : guest :=
  mk_guest (fun i l => if i =? d then v l else g_zmm g i l) (g_k g) (g_gpr g) (g_rflags g) (g_mem g).

Definition vec_binop (n : Z) (f : Z -> Z -> Z) (d a b : Z) (g : guest) : guest :=
  set_zmm g d (fun l => if l <? n then f (g_zmm g a l) (g_zmm g b l) else 0).

Definition vec_binop_keep (n : Z) (f : Z -> Z -> Z) (d a b : Z) (g : guest) : guest :=
  set_zmm g d (fun l => if l <? n then f (g_zmm g a l) (g_zmm g b l) else g_zmm g d l).

(** One source. *)
Definition vec_unop (n : Z) (f : Z -> Z) (d a : Z) : guest -> guest := vec_binop n (fun x _ => f x) d a a.
Definition vec_unop_keep (n : Z) (f : Z -> Z) (d a : Z) : guest -> guest := vec_binop_keep n (fun x _ => f x) d a a.

Definition vec_mov (n : Z) (d a : Z) (g : guest) : guest :=
  set_zmm g d (fun l => if l <? n then g_zmm g a l else 0).

Definition vec_mov_keep (n : Z) (d a : Z) (g : guest) : guest :=
  set_zmm g d (fun l => if l <? n then g_zmm g a l else g_zmm g d l).

(** Lanes [n] and up of a register are zero. *)
Definition upper_zero (n d : Z) (g : guest) : Prop := forall l, n <= l < 4 -> g_zmm g d l = 0.

#[export] Instance vec_binop_proper n f d a b :
  0 <= a < 32 -> 0 <= b < 32 -> Proper (guest_eq ==> guest_eq) (vec_binop n f d a b).
Proof.
  intros Ha Hb g h (H1 & H2 & H3 & H4 & H5); repeat split; simpl; auto.
  intros i l Hi Hl; destruct (_ =? _); [|auto].
  destruct (_ <? _); [|reflexivity]; f_equal; auto.
Qed.

(** On a destination whose upper lanes are zero the two forms agree. *)
Lemma set_zmm_keep_zero n d v g :
  upper_zero n d g ->
  set_zmm g d (fun l => if l <? n then v l else g_zmm g d l) ==g set_zmm g d (fun l => if l <? n then v l else 0).
Proof.
  intros Hz; repeat split; simpl; auto; intros i l Hi Hl.
  destruct (Z.eqb_spec i d) as [->|]; [|reflexivity].
  destruct (Z.ltb_spec l n); [reflexivity|]; apply Hz; lia.
Qed.

Lemma vec_binop_keep_zero n f d a b g :
  0 <= d < 32 -> upper_zero n d g -> vec_binop_keep n f d a b g ==g vec_binop n f d a b g.
Proof. intros Hd; apply (set_zmm_keep_zero n d (fun l => f (g_zmm g a l) (g_zmm g b l))). Qed.

(** Well-formedness of the final state comes for free. *)
Lemma translates_intro spec code :
  (forall s, wf_mach s -> exists s', run code s = Some s' /\ view s' ==g spec (view s)) ->
  translates spec code.
Proof.
  intros H s Hs; destruct (H s Hs) as (s' & R & E).
  exists s'; split; [exact R|split; [exact (run_wf _ _ _ Hs R)|exact E]].
Qed.

Lemma translates_if_intro P spec code :
  (forall s, wf_mach s -> P (view s) -> exists s', run code s = Some s' /\ view s' ==g spec (view s)) ->
  translates_if P spec code.
Proof.
  intros H s Hs HP; destruct (H s Hs HP) as (s' & R & E).
  exists s'; split; [exact R|split; [exact (run_wf _ _ _ Hs R)|exact E]].
Qed.

Lemma translates_weaken P spec spec' code :
  (forall g, P g -> spec g ==g spec' g) -> translates spec code -> translates_if P spec' code.
Proof.
  intros He H s Hs HP; destruct (H s Hs) as (s' & R & W & E).
  exists s'; split; [exact R|split; [exact W|]]; rewrite E; apply He, HP.
Qed.

Lemma rewrites_weaken P spec spec' r :
  (forall g, P g -> spec g ==g spec' g) -> rewrites spec r -> rewrites_if P spec' r.
Proof.
  intros He (code & Hr & H); exists code; split; [exact Hr|].
  eapply translates_weaken; eauto.
Qed.

(** Code that has the effect [keep] on the [n] lanes of the vector length and
    leaves the lanes above alone, and has the documented effect [doc] from the
    states where those lanes of the destination are zero. *)
Definition rewrites_low (n d : Z) (keep doc : guest -> guest) (r : rw_result) : Prop :=
  rewrites keep r /\ rewrites_if (upper_zero n d) doc r.
Definition rewrites_low_if (P : guest -> Prop) (n d : Z) (keep doc : guest -> guest) (r : rw_result) : Prop :=
  rewrites_if P keep r /\ rewrites_if (fun g => P g /\ upper_zero n d g) doc r.

Lemma rewrites_low_intro n d keep doc r :
  (forall g, upper_zero n d g -> keep g ==g doc g) -> rewrites keep r -> rewrites_low n d keep doc r.
Proof. intros He H; split; [exact H|eapply rewrites_weaken; [exact He|exact H]]. Qed.

Lemma rewrites_low_if_intro (P : guest -> Prop) n d keep doc r :
  (forall g, upper_zero n d g -> keep g ==g doc g) -> rewrites_if P keep r -> rewrites_low_if P n d keep doc r.
Proof.
  intros He (code & Hr & H); split; exists code; (split; [exact Hr|]); [exact H|]; intros s Hs [HP Hz].
  destruct (H s Hs HP) as (s' & R & W & E); exists s'; split; [exact R|split; [exact W|]]; rewrite E; now apply He.
Qed.

Lemma unop_low n f d a r : rewrites (vec_unop_keep n f d a) r -> rewrites_low n d (vec_unop_keep n f d a) (vec_unop n f d a) r.
Proof. apply rewrites_low_intro; intros g; apply (set_zmm_keep_zero n d (fun l => f (g_zmm g a l))). Qed.

Lemma mov_low n d a r : rewrites (vec_mov_keep n d a) r -> rewrites_low n d (vec_mov_keep n d a) (vec_mov n d a) r.
Proof. apply rewrites_low_intro; intros g; apply (set_zmm_keep_zero n d (fun l => g_zmm g a l)). Qed.

(** Specifications that agree on what is observed. *)
Lemma rewrites_ext spec spec' r :
  (forall g, spec g ==g spec' g) -> rewrites spec r -> rewrites spec' r.
Proof.
  intros He (code & Hr & H); exists code; split; [exact Hr|]; intros s Hs.
  destruct (H s Hs) as (s' & R & W & E); exists s'; split; [exact R|split; [exact W|]]; rewrite E; apply He.
Qed.

Lemma rewrites_if_ext P spec spec' r :
  (forall g, spec g ==g spec' g) -> rewrites_if P spec r -> rewrites_if P spec' r.
Proof.
  intros He (code & Hr & H); exists code; split; [exact Hr|]; intros s Hs HP.
  destruct (H s Hs HP) as (s' & R & W & E); exists s'; split; [exact R|split; [exact W|]]; rewrite E; apply He.
Qed.

Lemma vec_unop_ext n f f' d a g : (forall x, f x = f' x) -> vec_unop n f d a g ==g vec_unop n f' d a g.
Proof. intros H; repeat split; cbn; auto; intros i l Hi Hl; destruct (_ =? _); [destruct (_ <? _)|]; auto. Qed.

Lemma vec_unop_keep_ext n f f' d a g : (forall x, f x = f' x) -> vec_unop_keep n f d a g ==g vec_unop_keep n f' d a g.
Proof. intros H; repeat split; cbn; auto; intros i l Hi Hl; destruct (_ =? _); [destruct (_ <? _)|]; auto. Qed.

(** ** Refuting a rewrite

    A host state with distinguishable contents, and what a rewrite leaves in
    one lane when its code is run from it. *)

Definition probe : mach :=
  mk_mach (fun i l => wrap 16 (16 * i + l + 1)) (fun i => wrap 16 (4096 + 64 * i)) 2
          (fun a => wrap 8 (a + 3)) (fun a => wrap 8 (a + 7)).

Lemma probe_wf : wf_mach probe.
Proof.
  assert (H : forall w v x, 0 <= w <= v -> 0 <= wrap w x < 2 ^ v).
  { intros w v x Hw; pose proof (wrap_range w x ltac:(lia)).
    pose proof (Z.pow_le_mono_r 2 w v ltac:(lia) ltac:(lia)); lia. }
  unfold wf_mach, probe, wf_memory; cbn [simd gpr rflags tls mem].
  split; [|split; [|split; [vm_compute; split; congruence|split]]]; intros;
    [apply H; lia|apply H; lia|apply (H 8 8); lia|apply (H 8 8); lia].
Qed.

Definition lane_after (r : rw_result) (s : mach) (i l : Z) : option Z :=
  match r with
  | mk_rw_result true (Some code) => option_map (fun s' => zmm_view s' i l) (run code s)
  | _ => None
  end.

Lemma not_rewrites_if_lane P spec r s i l :
  wf_mach s -> P (view s) -> 0 <= i < 32 -> 0 <= l < 4 ->
  lane_after r s i l <> Some (g_zmm (spec (view s)) i l) -> ~ rewrites_if P spec r.
Proof.
  intros Hs HP Hi Hl Hne (code & -> & Ht).
  destruct (Ht s Hs HP) as (s' & R & _ & E).
  apply Hne; cbn [lane_after rw_replace]; rewrite R; cbn [option_map].
  f_equal; apply (proj1 E); assumption.
Qed.

Lemma not_rewrites_lane spec r i l :
  0 <= i < 32 -> 0 <= l < 4 ->
  lane_after r probe i l <> Some (g_zmm (spec (view probe)) i l) -> ~ rewrites spec r.
Proof.
  intros Hi Hl Hne (code & -> & Ht).
  apply (not_rewrites_if_lane (fun _ => True) spec (rw_replace code) probe i l);
    auto using probe_wf.
  exists code; split; [reflexivity|]; intros s Hs _; now apply Ht.
Qed.

(** The same state with lane 0 of the registers alone in use, and lane 1 of the
    spill registers on demand. *)
Definition probe_low (spill_hi : Z) : mach :=
  mk_mach (fun i l => if l =? 0 then wrap 16 (16 * i + 1) else if i =? 10 then wrap 8 spill_hi else 0)
          (gpr probe) 2
          (fun a => if (a - 128) mod 64 <? 16 then wrap 8 (a + 3) else 0) (mem probe).

Lemma probe_low_wf h : wf_mach (probe_low h).
Proof.
  pose proof probe_wf as (_ & Hg & Hf & _ & Hm).
  assert (H : forall w v x, 0 <= w <= v -> 0 <= wrap w x < 2 ^ v).
  { intros w v x Hw; pose proof (wrap_range w x ltac:(lia)).
    pose proof (Z.pow_le_mono_r 2 w v ltac:(lia) ltac:(lia)); lia. }
  unfold wf_mach, probe_low; cbn [simd gpr rflags tls mem].
  split; [|split; [exact Hg|split; [exact Hf|split; [|exact Hm]]]].
  - intros i l; destruct (l =? 0); [apply H; lia|]; destruct (i =? 10); [apply H|]; lia.
  - intros a; cbv beta; destruct (_ <? _); [apply (H 8 8)|]; lia.
Qed.
