(* ===== verification/SymExec.v ===== *)
(** * Symbolic execution of spill code

    The SIMD generators emit four kinds of instruction: a save to TLS, a load
    from TLS, a lane operation and a register move.  This file gives the states
    they lead to, what can be read from those states, and the tactics that run
    a generated sequence on symbolic register indices. *)
From Stdlib Require Import ZArith List Bool Lia.
From S2P Require Import Prelude Regs Spill Bytes Lanes Machine Arch512.
Import ListNotations.
#[local] Open Scope Z_scope.
#[local] Open Scope bool_scope.
#[local] Open Scope rw_scope.

(** ** The states *)

Definition st_save (s : mach) (r : Z) (n : nat) (i m : Z) : mach :=
  with_tls s (store_lanes n (tls s) (128 + 64 * i + 16 * m) (simd s r)).
Definition st_load (s : mach) (r : Z) (n : nat) (i m : Z) : mach :=
  set_simd s r n (load_lanes (tls s) (128 + 64 * i + 16 * m)).
Definition st_bin (s : mach) (f : Z -> Z -> Z) (d : Z) (n : nat) (a b : Z) : mach :=
  set_simd s d n (fun l => f (simd s a l) (simd s b l)).
Definition st_mov (s : mach) (d : Z) (n : nat) (a : Z) : mach := set_simd s d n (simd s a).

Lemma avx2_reg_ymm i : 0 <= i < 16 -> avx2_reg (ymm i) = Some (2%nat, i).
Proof.
  intros; unfold avx2_reg; unfold_regs; zcases; cbn [andb]; try lia.
  f_equal; f_equal; lia.
Qed.

Lemma avx2_reg_xmm i : 0 <= i < 16 -> avx2_reg (xmm i) = Some (1%nat, i).
Proof.
  intros; unfold avx2_reg; unfold_regs; zcases; cbn [andb]; try lia.
  f_equal; f_equal; lia.
Qed.

Lemma avx2_reg_xmm_high i : 16 <= i < 32 -> avx2_reg (xmm i) = None.
Proof. intros; unfold avx2_reg; unfold_regs; zcases; cbn [andb]; first [reflexivity|exfalso; lia]. Qed.

Lemma avx2_reg_ymm_high i : 16 <= i < 32 -> avx2_reg (ymm i) = None.
Proof. intros; unfold avx2_reg; unfold_regs; zcases; cbn [andb]; first [reflexivity|exfalso; lia]. Qed.

Lemma avx2_reg_zmm i : 0 <= i < 32 -> avx2_reg (zmm i) = None.
Proof. intros; unfold avx2_reg; unfold_regs; zcases; cbn [andb]; first [reflexivity|exfalso; lia]. Qed.

Lemma os_tls_offset_id x : 0 <= x < 65536 -> os_tls_offset x = x.
Proof. intros; unfold os_tls_offset, ushort; apply wrap_id; change (2 ^ 16) with 65536; lia. Qed.

(** ** Single instructions *)

Lemma exec_save r off sz n i s :
  avx2_reg r = Some (n, i) -> opsz_bytes sz = (16 * n)%nat ->
  exec (SAVE_SIMD_TO_SIZED_TLS r off sz) s
  = Some (with_tls s (store_lanes n (tls s) (os_tls_offset off) (simd s i))).
Proof.
  intros Hr Hn; unfold exec, exec_vmov; cbn -[store_lanes]; rewrite Hr; cbn -[store_lanes Nat.mul].
  now rewrite Hn, Nat.eqb_refl.
Qed.

Lemma exec_restore r off sz n i s :
  avx2_reg r = Some (n, i) -> opsz_bytes sz = (16 * n)%nat ->
  exec (RESTORE_SIMD_FROM_SIZED_TLS r off sz) s
  = Some (set_simd s i n (load_lanes (tls s) (os_tls_offset off))).
Proof.
  intros Hr Hn; unfold exec, exec_vmov; cbn -[set_simd]; rewrite Hr; cbn -[set_simd Nat.mul].
  now rewrite Hn, Nat.eqb_refl.
Qed.

Lemma exec_restore_high r off sz s :
  avx2_reg r = None -> exec (RESTORE_SIMD_FROM_SIZED_TLS r off sz) s = None.
Proof. intros Hr; unfold exec, exec_vmov; cbn -[avx2_reg]; now rewrite Hr. Qed.

Lemma exec_binop op f d a b n i j k s :
  lane_binop op = Some f ->
  avx2_reg d = Some (n, i) -> avx2_reg a = Some (n, j) -> avx2_reg b = Some (n, k) ->
  exec (instr_create_1dst_2src op (opnd_create_reg d) (opnd_create_reg a) (opnd_create_reg b)) s
  = Some (st_bin s f i n j k).
Proof.
  intros Hop Hd Ha Hb; unfold exec, exec_vbin; cbn -[lane_binop set_simd]; rewrite Hop.
  rewrite Hd, Ha, Hb; cbn -[set_simd]; now rewrite Nat.eqb_refl.
Qed.

Lemma exec_move op al d a n i j s :
  lane_mov op = Some al ->
  avx2_reg d = Some (n, i) -> avx2_reg a = Some (n, j) ->
  exec (instr_create_1dst_1src op (opnd_create_reg d) (opnd_create_reg a)) s = Some (st_mov s i n j).
Proof.
  intros Hop Hd Ha; unfold exec, exec_vmov.
  destruct op; try discriminate Hop; cbn -[set_simd]; rewrite Hd, Ha; cbn -[set_simd]; now rewrite Nat.eqb_refl.
Qed.

Lemma slot_lo i : 0 <= i < 32 -> os_tls_offset (TLS_ZMM_idx_SLOT i) = 128 + 64 * i + 16 * 0.
Proof. intros; rewrite TLS_ZMM_idx_SLOT_eq, os_tls_offset_id; lia. Qed.

Lemma slot_hi i : 0 <= i < 32 -> os_tls_offset (TLS_ZMM_idx_SLOT i + SIZE_OF_YMM) = 128 + 64 * i + 16 * 2.
Proof. intros; unfold SIZE_OF_YMM; rewrite TLS_ZMM_idx_SLOT_eq, os_tls_offset_id; lia. Qed.

(** ** Steps of a run *)

Section Steps.
Context (s : mach) (k : list instr_t) (r : Z) (Hr : 0 <= r < 16).

Lemma run_save_ymm i (Hi : 0 <= i < 32) :
  run (SAVE_SIMD_TO_SIZED_TLS (ymm r) (TLS_ZMM_idx_SLOT i) OPSZ_32 :: k) s = run k (st_save s r 2 i 0).
Proof. cbn [run]; now rewrite (exec_save _ _ _ 2 r), slot_lo by auto using avx2_reg_ymm. Qed.

Lemma run_save_ymm_hi i (Hi : 0 <= i < 32) :
  run (SAVE_SIMD_TO_SIZED_TLS (ymm r) (TLS_ZMM_idx_SLOT i + SIZE_OF_YMM) OPSZ_32 :: k) s
  = run k (st_save s r 2 i 2).
Proof. cbn [run]; now rewrite (exec_save _ _ _ 2 r), slot_hi by auto using avx2_reg_ymm. Qed.

Lemma run_load_ymm i (Hi : 0 <= i < 32) :
  run (RESTORE_SIMD_FROM_SIZED_TLS (ymm r) (TLS_ZMM_idx_SLOT i) OPSZ_32 :: k) s = run k (st_load s r 2 i 0).
Proof. cbn [run]; now rewrite (exec_restore _ _ _ 2 r), slot_lo by auto using avx2_reg_ymm. Qed.

Lemma run_load_ymm_hi i (Hi : 0 <= i < 32) :
  run (RESTORE_SIMD_FROM_SIZED_TLS (ymm r) (TLS_ZMM_idx_SLOT i + SIZE_OF_YMM) OPSZ_32 :: k) s
  = run k (st_load s r 2 i 2).
Proof. cbn [run]; now rewrite (exec_restore _ _ _ 2 r), slot_hi by auto using avx2_reg_ymm. Qed.

Lemma run_save_xmm i (Hi : 0 <= i < 32) :
  run (SAVE_SIMD_TO_SIZED_TLS (xmm r) (TLS_ZMM_idx_SLOT i) OPSZ_16 :: k) s = run k (st_save s r 1 i 0).
Proof. cbn [run]; now rewrite (exec_save _ _ _ 1 r), slot_lo by auto using avx2_reg_xmm. Qed.

Lemma run_load_xmm i (Hi : 0 <= i < 32) :
  run (RESTORE_SIMD_FROM_SIZED_TLS (xmm r) (TLS_ZMM_idx_SLOT i) OPSZ_16 :: k) s = run k (st_load s r 1 i 0).
Proof. cbn [run]; now rewrite (exec_restore _ _ _ 1 r), slot_lo by auto using avx2_reg_xmm. Qed.
End Steps.

Section BinSteps.
Context (op : opcode) (f : Z -> Z -> Z) (Hop : lane_binop op = Some f).
Context (s : mach) (k : list instr_t) (r a b : Z).
Context (Hr : 0 <= r < 16) (Ha : 0 <= a < 16) (Hb : 0 <= b < 16).

Lemma run_bin_ymm :
  run (instr_create_1dst_2src op (opnd_create_reg (ymm r)) (opnd_create_reg (ymm a)) (opnd_create_reg (ymm b)) :: k) s
  = run k (st_bin s f r 2 a b).
Proof. cbn [run]; now rewrite (exec_binop _ f _ _ _ 2 r a b) by auto using avx2_reg_ymm. Qed.

Lemma run_bin_xmm :
  run (instr_create_1dst_2src op (opnd_create_reg (xmm r)) (opnd_create_reg (xmm a)) (opnd_create_reg (xmm b)) :: k) s
  = run k (st_bin s f r 1 a b).
Proof. cbn [run]; now rewrite (exec_binop _ f _ _ _ 1 r a b) by auto using avx2_reg_xmm. Qed.
End BinSteps.

(** Operations with one lane only, one source, or a source and an immediate. *)
Lemma exec_binop128 op f d a b i j k s :
  lane_binop128 op = Some f ->
  avx2_reg d = Some (1%nat, i) -> avx2_reg a = Some (1%nat, j) -> avx2_reg b = Some (1%nat, k) ->
  exec (instr_create_1dst_2src op (opnd_create_reg d) (opnd_create_reg a) (opnd_create_reg b)) s
  = Some (st_bin s f i 1 j k).
Proof.
  intros Hop Hd Ha Hb.
  assert (E : exec_vbin f [OPND_REG d] [OPND_REG a; OPND_REG b] s = Some (st_bin s f i 1 j k))
    by (unfold exec_vbin; rewrite Hd, Ha, Hb; reflexivity).
  destruct op; try discriminate Hop; injection Hop as <-; unfold exec, exec_simd;
    cbn [instr_opcode instr_dsts instr_srcs instr_create_1dst_2src lane_binop lane_mov lane_unop lane_immop
         lane_binop128 opnd_create_reg]; unfold exec_vbin128, exec_vshift, opnd_create_reg; rewrite Hd; exact E.
Qed.

Lemma exec_unop op f d a n i j s :
  lane_unop op = Some f -> avx2_reg d = Some (n, i) -> avx2_reg a = Some (n, j) ->
  exec (instr_create_1dst_1src op (opnd_create_reg d) (opnd_create_reg a)) s = Some (st_bin s (fun x _ => f x) i n j j).
Proof.
  intros Hop Hd Ha.
  assert (E : exec (instr_create_1dst_1src op (opnd_create_reg d) (opnd_create_reg a)) s
            = exec_vun f [OPND_REG d] [OPND_REG a] s)
    by (destruct op; try discriminate Hop; injection Hop as <-; reflexivity).
  rewrite E; unfold exec_vun; rewrite Hd, Ha; cbn [obind]; now rewrite Nat.eqb_refl.
Qed.

Lemma exec_immop op f d a c n i j s :
  lane_immop op = Some f -> avx2_reg d = Some (n, i) -> avx2_reg a = Some (n, j) ->
  exec (instr_create_1dst_2src op (opnd_create_reg d) (OPND_IMM c OPSZ_1) (opnd_create_reg a)) s
  = Some (st_bin s (fun x _ => f (wrap 8 c) x) i n j j).
Proof.
  intros Hop Hd Ha.
  assert (E : exec (instr_create_1dst_2src op (opnd_create_reg d) (OPND_IMM c OPSZ_1) (opnd_create_reg a)) s
            = exec_vimm f [OPND_REG d] [OPND_IMM c OPSZ_1; OPND_REG a] s)
    by (destruct op; try discriminate Hop; injection Hop as <-; reflexivity).
  rewrite E; unfold exec_vimm; rewrite Hd, Ha; cbn [obind opsz_bytes]; now rewrite !Nat.eqb_refl.
Qed.

Section OtherSteps.
Context (op : opcode) (s : mach) (k : list instr_t) (r a b : Z).
Context (Hr : 0 <= r < 16) (Ha : 0 <= a < 16) (Hb : 0 <= b < 16).

Lemma run_bin128 f (Hop : lane_binop128 op = Some f) :
  run (instr_create_1dst_2src op (opnd_create_reg (xmm r)) (opnd_create_reg (xmm a)) (opnd_create_reg (xmm b)) :: k) s
  = run k (st_bin s f r 1 a b).
Proof. cbn [run]; now rewrite (exec_binop128 _ f _ _ _ r a b) by auto using avx2_reg_xmm. Qed.

Lemma run_un_xmm f (Hop : lane_unop op = Some f) :
  run (instr_create_1dst_1src op (opnd_create_reg (xmm r)) (opnd_create_reg (xmm a)) :: k) s
  = run k (st_bin s (fun x _ => f x) r 1 a a).
Proof. cbn [run]; now rewrite (exec_unop _ f _ _ 1 r a) by auto using avx2_reg_xmm. Qed.

Lemma run_un_ymm f (Hop : lane_unop op = Some f) :
  run (instr_create_1dst_1src op (opnd_create_reg (ymm r)) (opnd_create_reg (ymm a)) :: k) s
  = run k (st_bin s (fun x _ => f x) r 2 a a).
Proof. cbn [run]; now rewrite (exec_unop _ f _ _ 2 r a) by auto using avx2_reg_ymm. Qed.

Lemma run_imm_xmm f c (Hop : lane_immop op = Some f) :
  run (instr_create_1dst_2src op (opnd_create_reg (xmm r)) (OPND_IMM c OPSZ_1) (opnd_create_reg (xmm a)) :: k) s
  = run k (st_bin s (fun x _ => f (wrap 8 c) x) r 1 a a).
Proof. cbn [run]; now rewrite (exec_immop _ f _ _ c 1 r a) by auto using avx2_reg_xmm. Qed.

Lemma run_imm_ymm f c (Hop : lane_immop op = Some f) :
  run (instr_create_1dst_2src op (opnd_create_reg (ymm r)) (OPND_IMM c OPSZ_1) (opnd_create_reg (ymm a)) :: k) s
  = run k (st_bin s (fun x _ => f (wrap 8 c) x) r 2 a a).
Proof. cbn [run]; now rewrite (exec_immop _ f _ _ c 2 r a) by auto using avx2_reg_ymm. Qed.
End OtherSteps.

Section MovSteps.
Context (op : opcode) (al : bool) (Hop : lane_mov op = Some al).
Context (s : mach) (k : list instr_t) (r a : Z) (Hr : 0 <= r < 16) (Ha : 0 <= a < 16).

Lemma run_mov_ymm :
  run (instr_create_1dst_1src op (opnd_create_reg (ymm r)) (opnd_create_reg (ymm a)) :: k) s
  = run k (st_mov s r 2 a).
Proof. cbn [run]; now rewrite (exec_move _ al _ _ 2 r a) by auto using avx2_reg_ymm. Qed.

Lemma run_mov_xmm :
  run (instr_create_1dst_1src op (opnd_create_reg (xmm r)) (opnd_create_reg (xmm a)) :: k) s
  = run k (st_mov s r 1 a).
Proof. cbn [run]; now rewrite (exec_move _ al _ _ 1 r a) by auto using avx2_reg_xmm. Qed.
End MovSteps.

(** ** Reading from the states *)

Lemma tls_lane_store_lanes n t i m v j l :
  0 <= m -> m + Z.of_nat n <= 4 -> 0 <= l < 4 ->
  tls_lane (store_lanes n t (128 + 64 * i + 16 * m) v) j l
  = if (j =? i) && ((m <=? l) && (l <? m + Z.of_nat n)) then wrap 128 (v (l - m)) else tls_lane t j l.
Proof.
  intros Hm Hn Hl; unfold tls_lane; induction n as [|n IH]; cbn [store_lanes].
  - replace ((m <=? l) && (l <? m + Z.of_nat 0)) with false; [now rewrite andb_false_r|].
    symmetry; apply andb_false_iff; rewrite Z.leb_gt, Z.ltb_ge; lia.
  - destruct (Z.eqb_spec j i) as [->|Hji]; cbn [andb] in *.
    + destruct (Z.eq_dec l (m + Z.of_nat n)) as [->|Hlm].
      * replace (128 + 64 * i + 16 * (m + Z.of_nat n)) with (128 + 64 * i + 16 * m + 16 * Z.of_nat n) by lia.
        rewrite load_store_same; repeat zdecide; cbn [andb].
        replace (m + Z.of_nat n - m) with (Z.of_nat n) by lia; reflexivity.
      * rewrite load_store_disjoint, IH by lia.
        destruct (Z.leb_spec m l), (Z.ltb_spec l (m + Z.of_nat n)), (Z.ltb_spec l (m + Z.of_nat (S n)));
          cbn [andb]; reflexivity || lia.
    + rewrite load_store_disjoint by lia; apply IH; lia.
Qed.

Lemma tls_lane_save s r n i m j l :
  0 <= m -> m + Z.of_nat n <= 4 -> 0 <= l < 4 ->
  tls_lane (tls (st_save s r n i m)) j l
  = if j =? i then (if (m <=? l) && (l <? m + Z.of_nat n) then wrap 128 (simd s r (l - m)) else tls_lane (tls s) i l)
    else tls_lane (tls s) j l.
Proof.
  intros; unfold st_save; cbn [tls with_tls]; rewrite tls_lane_store_lanes by assumption.
  destruct (Z.eqb_spec j i) as [->|]; reflexivity.
Qed.

Lemma tls_k_save s r n i m k :
  0 <= i -> 0 <= m -> 0 <= k < 8 -> tls_k (tls (st_save s r n i m)) k = tls_k (tls s) k.
Proof.
  intros; unfold st_save, tls_k; cbn [tls with_tls].
  induction n as [|n IH]; cbn [store_lanes]; [reflexivity|].
  rewrite load_store_disjoint by lia; exact IH.
Qed.

Lemma simd_load s r n i m j l :
  simd (st_load s r n i m) j l
  = if j =? r then (if l <? Z.of_nat n then wrap 128 (tls_lane (tls s) i (m + l)) else 0) else simd s j l.
Proof.
  unfold st_load, load_lanes, tls_lane; cbn [simd set_simd with_simd].
  now replace (128 + 64 * i + 16 * m + 16 * l) with (128 + 64 * i + 16 * (m + l)) by lia.
Qed.

Lemma simd_bin s f d n a b j l :
  simd (st_bin s f d n a b) j l
  = if j =? d then (if l <? Z.of_nat n then wrap 128 (f (simd s a l) (simd s b l)) else 0) else simd s j l.
Proof. reflexivity. Qed.

Lemma simd_mov s d n a j l :
  simd (st_mov s d n a) j l
  = if j =? d then (if l <? Z.of_nat n then wrap 128 (simd s a l) else 0) else simd s j l.
Proof. reflexivity. Qed.

(** ** The same by half of a slot, for the two-lane and one-lane accesses *)

Section Reads.
Context (s : mach) (r i j l : Z) (Hl : 0 <= l < 2).

Lemma rd_lo_save_lo :
  tls_lane (tls (st_save s r 2 i 0)) j l = if j =? i then wrap 128 (simd s r l) else tls_lane (tls s) j l.
Proof.
  rewrite tls_lane_save by lia; repeat zdecide; cbn [andb]; now rewrite Z.sub_0_r.
Qed.

Lemma rd_hi_save_lo : tls_lane (tls (st_save s r 2 i 0)) j (2 + l) = tls_lane (tls s) j (2 + l).
Proof.
  rewrite tls_lane_save by lia; destruct (Z.eqb_spec j i) as [->|]; [|reflexivity].
  repeat zdecide; reflexivity.
Qed.

Lemma rd_lo_save_hi : tls_lane (tls (st_save s r 2 i 2)) j l = tls_lane (tls s) j l.
Proof.
  rewrite tls_lane_save by lia; destruct (Z.eqb_spec j i) as [->|]; [|reflexivity].
  repeat zdecide; reflexivity.
Qed.

Lemma rd_hi_save_hi :
  tls_lane (tls (st_save s r 2 i 2)) j (2 + l)
  = if j =? i then wrap 128 (simd s r l) else tls_lane (tls s) j (2 + l).
Proof.
  rewrite tls_lane_save by lia; repeat zdecide; cbn [andb].
  now replace (2 + l - 2) with l by lia.
Qed.

Lemma rd_load_lo :
  simd (st_load s r 2 i 0) j l = if j =? r then wrap 128 (tls_lane (tls s) i l) else simd s j l.
Proof. rewrite simd_load; repeat zdecide; reflexivity. Qed.

Lemma rd_load_hi :
  simd (st_load s r 2 i 2) j l = if j =? r then wrap 128 (tls_lane (tls s) i (2 + l)) else simd s j l.
Proof. rewrite simd_load; repeat zdecide; reflexivity. Qed.

Lemma rd_bin f a b :
  simd (st_bin s f r 2 a b) j l = if j =? r then wrap 128 (f (simd s a l) (simd s b l)) else simd s j l.
Proof. rewrite simd_bin; repeat zdecide; reflexivity. Qed.

Lemma rd_mov a :
  simd (st_mov s r 2 a) j l = if j =? r then wrap 128 (simd s a l) else simd s j l.
Proof. rewrite simd_mov; repeat zdecide; reflexivity. Qed.
End Reads.

(** One-lane accesses, by lane. *)
Section Reads1.
Context (s : mach) (r i j : Z).

Lemma rd1_save_0 :
  tls_lane (tls (st_save s r 1 i 0)) j 0 = if j =? i then wrap 128 (simd s r 0) else tls_lane (tls s) j 0.
Proof. rewrite tls_lane_save by lia; reflexivity. Qed.

Lemma rd1_save_1 : tls_lane (tls (st_save s r 1 i 0)) j 1 = tls_lane (tls s) j 1.
Proof.
  rewrite tls_lane_save by lia; destruct (Z.eqb_spec j i) as [->|]; reflexivity.
Qed.

Lemma rd1_save_hi l : 0 <= l < 2 -> tls_lane (tls (st_save s r 1 i 0)) j (2 + l) = tls_lane (tls s) j (2 + l).
Proof.
  intros; rewrite tls_lane_save by lia; destruct (Z.eqb_spec j i) as [->|]; [|reflexivity].
  repeat zdecide; reflexivity.
Qed.

Lemma rd1_load_0 :
  simd (st_load s r 1 i 0) j 0 = if j =? r then wrap 128 (tls_lane (tls s) i 0) else simd s j 0.
Proof. rewrite simd_load; reflexivity. Qed.

Lemma rd1_load_1 : simd (st_load s r 1 i 0) j 1 = if j =? r then 0 else simd s j 1.
Proof. rewrite simd_load; reflexivity. Qed.

Lemma rd1_bin_0 f a b :
  simd (st_bin s f r 1 a b) j 0 = if j =? r then wrap 128 (f (simd s a 0) (simd s b 0)) else simd s j 0.
Proof. rewrite simd_bin; reflexivity. Qed.

Lemma rd1_bin_1 f a b : simd (st_bin s f r 1 a b) j 1 = if j =? r then 0 else simd s j 1.
Proof. rewrite simd_bin; reflexivity. Qed.

Lemma rd1_mov_0 a : simd (st_mov s r 1 a) j 0 = if j =? r then wrap 128 (simd s a 0) else simd s j 0.
Proof. rewrite simd_mov; reflexivity. Qed.

Lemma rd1_mov_1 a : simd (st_mov s r 1 a) j 1 = if j =? r then 0 else simd s j 1.
Proof. rewrite simd_mov; reflexivity. Qed.
End Reads1.

Lemma wrap_simd s i l : wf_mach s -> wrap 128 (simd s i l) = simd s i l.
Proof. intros (H & _); apply wrap_id, H. Qed.

Lemma wrap_tls_lane s i l : wf_mach s -> wrap 128 (tls_lane (tls s) i l) = tls_lane (tls s) i l.
Proof. intros (_ & _ & _ & H & _); apply wrap_id, (load_range 16), H. Qed.

Lemma wrap_op f x y : LaneOp f -> wrap 128 (f x y) = f x y.
Proof. intros H; apply wrap_id, H. Qed.

Lemma zmm_view_reg s i l : i < 16 -> l < 2 -> zmm_view s i l = simd s i l.
Proof. intros; unfold zmm_view; repeat zdecide; reflexivity. Qed.

Lemma zmm_view_tls s i l : 16 <= i \/ 2 <= l -> zmm_view s i l = tls_lane (tls s) i l.
Proof.
  intros; unfold zmm_view; destruct (Z.ltb_spec i 16), (Z.ltb_spec l 2); cbn [andb]; reflexivity || lia.
Qed.

(** Two host states have the same view up to SIMD state. *)
Definition same_frame (s s' : mach) : Prop :=
  gpr s' = gpr s /\ rflags s' = rflags s /\ mem s' = mem s /\
  forall k, 0 <= k < 8 -> tls_k (tls s') k = tls_k (tls s) k.

Lemma same_frame_refl s : same_frame s s.
Proof. repeat split. Qed.

Lemma same_frame_save s t r n i m :
  0 <= i -> 0 <= m -> same_frame s t -> same_frame s (st_save t r n i m).
Proof.
  intros Hi Hm (H1 & H2 & H3 & H4); repeat split; cbn [gpr rflags mem st_save with_tls]; auto.
  intros k Hk; now rewrite tls_k_save, H4 by assumption.
Qed.

Lemma same_frame_load s t r n i m : same_frame s t -> same_frame s (st_load t r n i m).
Proof. exact (fun H => H). Qed.

Lemma same_frame_bin s t f d n a b : same_frame s t -> same_frame s (st_bin t f d n a b).
Proof. exact (fun H => H). Qed.

Lemma same_frame_mov s t d n a : same_frame s t -> same_frame s (st_mov t d n a).
Proof. exact (fun H => H). Qed.

(** A SIMD-only effect is given by the lanes of every register, the low and
    the high half of each separately. *)
Lemma view_set_zmm s s' d v :
  same_frame s s' ->
  (forall i l, 0 <= i < 16 -> 0 <= l < 2 -> simd s' i l = if i =? d then v l else simd s i l) ->
  (forall i l, 16 <= i < 32 -> 0 <= l < 2 ->
     tls_lane (tls s') i l = if i =? d then v l else tls_lane (tls s) i l) ->
  (forall i l, 0 <= i < 32 -> 0 <= l < 2 ->
     tls_lane (tls s') i (2 + l) = if i =? d then v (2 + l) else tls_lane (tls s) i (2 + l)) ->
  view s' ==g set_zmm (view s) d v.
Proof.
  intros (F1 & F2 & F3 & F4) H1 H2 H3.
  split; [|split; [exact F4|split; [|split]]]; cbn [view set_zmm g_gpr g_rflags g_mem g_zmm].
  - intros i l Hi Hl; destruct (Z.ltb_spec l 2) as [Hl2|Hl2].
    + destruct (Z.ltb_spec i 16);
        [rewrite !zmm_view_reg by lia; apply H1|rewrite !zmm_view_tls by lia; apply H2]; lia.
    + replace l with (2 + (l - 2)) by lia; rewrite !zmm_view_tls by lia; apply H3; lia.
  - intros; now rewrite F1.
  - exact F2.
  - intros; now rewrite F3.
Qed.

(** Distinctness of two indices, kept apart from the arithmetic facts. *)
Definition distinct (a b : Z) : Prop := a <> b.

Lemma eqb_false a b : a <> b -> (a =? b) = false.
Proof. apply Z.eqb_neq. Qed.

Lemma eqb_distinct a b : distinct a b -> (a =? b) = false.
Proof. apply Z.eqb_neq. Qed.

Lemma eqb_distinct_sym a b : distinct b a -> (a =? b) = false.
Proof. intros H; apply Z.eqb_neq, not_eq_sym, H. Qed.

(** Hide the disequalities of the context behind [distinct]. *)
Ltac hide_neq := repeat match goal with H : ?a <> ?b |- _ => change (distinct a b) in H end.

Lemma tls_load s r n i m : tls (st_load s r n i m) = tls s.
Proof. reflexivity. Qed.
Lemma tls_bin s f d n a b : tls (st_bin s f d n a b) = tls s.
Proof. reflexivity. Qed.
Lemma tls_mov s d n a : tls (st_mov s d n a) = tls s.
Proof. reflexivity. Qed.
Lemma simd_save s r n i m : simd (st_save s r n i m) = simd s.
Proof. reflexivity. Qed.

#[global] Opaque st_save st_load st_bin st_mov.

(** Run the emitted code symbolically. *)
Ltac sym_run Hop :=
  unfold INSTR_CREATE_3, INSTR_CREATE_2 in *;
  repeat first
    [ rewrite run_save_ymm by lia | rewrite run_save_ymm_hi by lia
    | rewrite run_load_ymm by lia | rewrite run_load_ymm_hi by lia
    | rewrite (run_bin_ymm _ _ Hop) by lia
    | rewrite run_save_xmm by lia | rewrite run_load_xmm by lia
    | rewrite (run_bin_xmm _ _ Hop) by lia
    | rewrite (run_mov_ymm _ _ Hop) by lia | rewrite (run_mov_xmm _ _ Hop) by lia
    | rewrite (run_bin128 _ _ _ _ _ _) with (Hop := Hop) by lia
    | rewrite (run_un_xmm _ _ _ _ _) with (Hop := Hop) by lia | rewrite (run_un_ymm _ _ _ _ _) with (Hop := Hop) by lia
    | rewrite (run_imm_xmm _ _ _ _ _) with (Hop := Hop) by lia | rewrite (run_imm_ymm _ _ _ _ _) with (Hop := Hop) by lia ];
  cbn [run].

(** Decide an equality of register indices, by case analysis if need be. *)
Ltac idx_decide :=
  match goal with
  | |- context [?a =? ?b] =>
      first [ constr_eq a b; rewrite (Z.eqb_refl a)
            | rewrite (eqb_distinct a b) by assumption
            | rewrite (eqb_distinct_sym a b) by assumption
            | rewrite (eqb_false a b) by lia
            | let E := fresh "E" in
              destruct (Z.eqb_spec a b) as [E|E];
              [first [subst a|subst b|idtac]|change (distinct a b) in E] ]
  end; cbv iota.

(** Read a register or a slot of a symbolic state. *)
Ltac sym_read1 :=
  match goal with
  | |- context [tls (st_load ?s ?r ?n ?i ?m)] => rewrite (tls_load s r n i m)
  | |- context [tls (st_bin ?s ?f ?d ?n ?a ?b)] => rewrite (tls_bin s f d n a b)
  | |- context [tls (st_mov ?s ?d ?n ?a)] => rewrite (tls_mov s d n a)
  | |- context [simd (st_save ?s ?r ?n ?i ?m)] => rewrite (simd_save s r n i m)
  | |- context [tls_lane (tls (st_save ?s ?r 1 ?i 0)) ?j (2 + ?l)] => rewrite (rd1_save_hi s r i j l) by assumption
  | |- context [tls_lane (tls (st_save ?s ?r 1 ?i 0)) ?j 0] => rewrite (rd1_save_0 s r i j)
  | |- context [tls_lane (tls (st_save ?s ?r 1 ?i 0)) ?j 1] => rewrite (rd1_save_1 s r i j)
  | |- context [simd (st_load ?s ?r 1 ?i 0) ?j 0] => rewrite (rd1_load_0 s r i j)
  | |- context [simd (st_load ?s ?r 1 ?i 0) ?j 1] => rewrite (rd1_load_1 s r i j)
  | |- context [simd (st_bin ?s ?f ?r 1 ?a ?b) ?j 0] => rewrite (rd1_bin_0 s r j)
  | |- context [simd (st_bin ?s ?f ?r 1 ?a ?b) ?j 1] => rewrite (rd1_bin_1 s r j)
  | |- context [simd (st_mov ?s ?r 1 ?a) ?j 0] => rewrite (rd1_mov_0 s r j)
  | |- context [simd (st_mov ?s ?r 1 ?a) ?j 1] => rewrite (rd1_mov_1 s r j)
  | |- context [tls_lane (tls (st_save ?s ?r _ ?i 0)) ?j (2 + ?l)] => rewrite (rd_hi_save_lo s r i j l) by assumption
  | |- context [tls_lane (tls (st_save ?s ?r _ ?i 2)) ?j (2 + ?l)] => rewrite (rd_hi_save_hi s r i j l) by assumption
  | |- context [tls_lane (tls (st_save ?s ?r _ ?i 0)) ?j ?l] => rewrite (rd_lo_save_lo s r i j l) by assumption
  | |- context [tls_lane (tls (st_save ?s ?r _ ?i 2)) ?j ?l] => rewrite (rd_lo_save_hi s r i j l) by assumption
  | |- context [simd (st_load ?s ?r _ ?i 0) ?j ?l] => rewrite (rd_load_lo s r i j l) by assumption
  | |- context [simd (st_load ?s ?r _ ?i 2) ?j ?l] => rewrite (rd_load_hi s r i j l) by assumption
  | |- context [simd (st_bin ?s ?f ?r _ ?a ?b) ?j ?l] => rewrite (rd_bin s r j l) by assumption
  | |- context [simd (st_mov ?s ?r _ ?a) ?j ?l] => rewrite (rd_mov s r j l) by assumption
  end.

(** Values read back are in range. *)
Ltac sym_wrap :=
  repeat first [ rewrite wrap_wrap by lia | rewrite wrap_simd by assumption
               | rewrite wrap_tls_lane by assumption | rewrite wrap_op by assumption
               | match goal with
                 | Hf : LaneOp ?g |- context [wrap 128 ?t] => rewrite (wrap_op g _ 0 Hf : wrap 128 t = t)
                 end ].

Ltac sym_read := repeat (first [idx_decide | sym_read1]).

Ltac sym_frame :=
  repeat lazymatch goal with
  | |- same_frame ?s (st_load ?t ?r ?n ?i ?m) => apply (same_frame_load s t r n i m)
  | |- same_frame ?s (st_bin ?t ?f ?d ?n ?a ?b) => apply (same_frame_bin s t f d n a b)
  | |- same_frame ?s (st_mov ?t ?d ?n ?a) => apply (same_frame_mov s t d n a)
  | |- same_frame ?s (st_save ?t ?r ?n ?i ?m) => apply (same_frame_save s t r n i m); [lia|lia|]
  end;
  apply same_frame_refl.

(** The operands of the specification, where the view finds them. *)
Ltac sym_spec1 :=
  match goal with
  | |- context [g_zmm (view ?c) ?a ?l] =>
      change (g_zmm (view c) a l) with (zmm_view c a l);
      first [rewrite (zmm_view_reg c a l) by lia | rewrite (zmm_view_tls c a l) by lia]
  | |- context [?a <? ?b] =>
      first [ replace (a <? b) with true by (symmetry; apply Z.ltb_lt; lia)
            | replace (a <? b) with false by (symmetry; apply Z.ltb_ge; lia) ]; cbv iota
  end.

Ltac sym_solve :=
  unfold vec_unop, vec_unop_keep, vec_binop, vec_binop_keep, vec_mov, vec_mov_keep;
  apply view_set_zmm; [sym_frame| | | ];
  (let i := fresh "i" in let l := fresh "l" in let Hi := fresh "Hi" in let Hl := fresh "Hl" in
   intros i l Hi Hl; sym_read; repeat sym_spec1; sym_wrap; reflexivity).

(** ** Choosing spill registers symbolically *)

Lemma spill_count_nil n : (spill_count [] < S n)%nat.
Proof. unfold spill_count; simpl; lia. Qed.

Lemma spill_count_low i l n : (spill_count l < n)%nat -> (spill_count (i :: l) < S n)%nat.
Proof. unfold spill_count; simpl; destruct (_ && _); simpl; lia. Qed.

Lemma spill_count_high i l n : 16 <= i -> (spill_count l < n)%nat -> (spill_count (i :: l) < n)%nat.
Proof.
  intros Hi H; unfold spill_count in *; simpl.
  replace (i <=? 15) with false by (symmetry; apply Z.leb_gt; lia); now rewrite andb_false_r.
Qed.

(** Fewer than six low registers are to be avoided. *)
Ltac spill_room :=
  repeat first [ apply spill_count_high; [assumption|] | apply spill_count_low ]; apply spill_count_nil.

Ltac index_list l :=
  lazymatch l with
  | nil => constr:(@nil Z)
  | cons (ymm ?i) ?t => let t' := index_list t in constr:(cons i t')
  end.

Ltac split_not_in H :=
  repeat match type of H with
  | ~ In _ (_ :: _) => let H1 := fresh "Hne" in apply not_in_cons in H; destruct H as [H1 H]
  end; clear H.

(** Replace a selector call by a fresh spill index with its properties. *)
Ltac pick_spill :=
  let s := fresh "s" in let E := fresh "E" in let Hr := fresh "Hr" in let Hn := fresh "Hn" in
  match goal with
  | |- context [find_available_spill_ymm_avoiding_variadic ?l] =>
      let il := index_list l in
      destruct (find_ymm_variadic_index il ltac:(spill_room)) as (s & E & Hr & Hn);
      change (map ymm il) with l in E; split_not_in Hn
  | |- context [find_available_spill_ymm_avoiding (ymm ?i) (ymm ?j) DR_REG_NULL] =>
      destruct (find_ymm_avoiding_index2 i j) as (s & E & Hr & ? & ?)
  | |- context [find_available_spill_ymm_avoiding (ymm ?i) (ymm ?j) (ymm ?k)] =>
      destruct (find_ymm_avoiding_index3 i j k) as (s & E & Hr & ? & ? & ?)
  | |- context [find_available_spill_ymm_avoiding (ymm ?i) DR_REG_NULL DR_REG_NULL] =>
      destruct (find_ymm_avoiding_index1 i) as (s & E & Hr & ?)
  | |- context [find_one_available_spill_ymm (ymm ?i)] =>
      pose proof (find_one_ymm_high i ltac:(assumption)) as E
  | |- context [find_available_spill_xmm_avoiding (xmm ?i) (xmm ?j) DR_REG_NULL] =>
      destruct (find_xmm_avoiding_index2 i j) as (s & E & Hr & ? & ?)
  | |- context [find_one_available_spill_xmm (xmm ?i)] =>
      pose proof (find_one_xmm_high i ltac:(assumption)) as E
  | |- context [find_one_available_spill_xmm (xmm ?i)] =>
      destruct (find_one_xmm_index i) as (s & E & Hr & ?)
  | |- context [find_one_available_spill_ymm (ymm ?i)] =>
      destruct (find_one_ymm_index i) as (s & E & Hr & ?)
  end; rewrite !E; clear E; hide_neq.

(** The branches a generator takes on equal operands. *)
Ltac alias_cases :=
  repeat match goal with
  | |- context [?x =? ?x] => rewrite (Z.eqb_refl x)
  | |- context [?x =? ?y] => destruct (Z.eqb_spec x y) as [->|?]
  end; cbn [andb]; cbv iota; hide_neq.

(** Normalise the register macros of a generator applied to [ymm]s and split on
    which operands need a spill register. *)
Ltac ymm_cases a b d :=
  change YMM_SPILL_SLOT0 with (ymm 10); change YMM_SPILL_SLOT1 with (ymm 11);
  rewrite !NEED_SPILL_YMM_ymm, ?TO_YMM_REG_INDEX_ymm, ?ymm_eqb by assumption;
  destruct (Z.leb_spec 16 a), (Z.leb_spec 16 b), (Z.leb_spec 16 d);
  cbv beta iota delta [Z.lor Pos.lor].

Ltac xmm_cases a b d :=
  change XMM_SPILL_SLOT0 with (xmm 10); change XMM_SPILL_SLOT1 with (xmm 11);
  rewrite !NEED_SPILL_XMM_xmm, ?TO_XMM_REG_INDEX_xmm, ?xmm_eqb by assumption;
  destruct (Z.leb_spec 16 a), (Z.leb_spec 16 b), (Z.leb_spec 16 d);
  cbv beta iota delta [Z.lor Pos.lor].

(** The emitted code of a branch: its registers chosen, then run. *)
Ltac emit_code Hop :=
  repeat pick_spill; autorewrite with rw_regs;
  eexists; split; [reflexivity|]; apply translates_intro;
  let c := fresh "c" in let Hc := fresh "Hc" in
  intros c Hc; eexists; split; [sym_run Hop; reflexivity|].

(** The state an xmm rewrite can be right in: bits 511:128 of the destination
    are already zero, and so are bits 255:128 of the spill registers, which are
    saved and restored with 128-bit moves. *)
Definition xmm_pre (d : Z) (g : guest) : Prop :=
  upper_zero 1 d g /\ forall i, 10 <= i <= 15 -> g_zmm g i 1 = 0.

Lemma xmm_pre_spill c d i : xmm_pre d (view c) -> 10 <= i <= 15 -> simd c i 1 = 0.
Proof.
  intros (_ & H) Hi; specialize (H i Hi); cbn [view g_zmm] in H.
  rewrite zmm_view_reg in H by lia; exact H.
Qed.

Lemma xmm_pre_dst_hi c d l : xmm_pre d (view c) -> 0 <= l < 2 -> tls_lane (tls c) d (2 + l) = 0.
Proof.
  intros (H & _) Hl; specialize (H (2 + l) ltac:(lia)); cbn [view g_zmm] in H.
  rewrite zmm_view_tls in H by lia; exact H.
Qed.

Lemma xmm_pre_dst_1 c d : xmm_pre d (view c) -> 16 <= d -> tls_lane (tls c) d 1 = 0.
Proof.
  intros (H & _) Hd; specialize (H 1 ltac:(lia)); cbn [view g_zmm] in H.
  rewrite zmm_view_tls in H by lia; exact H.
Qed.

Ltac emit_code_if Hop :=
  repeat pick_spill; autorewrite with rw_regs;
  eexists; split; [reflexivity|]; apply translates_if_intro;
  let c := fresh "c" in let Hc := fresh "Hc" in let Hp := fresh "Hp" in
  intros c Hc Hp; eexists; split; [sym_run Hop; reflexivity|].

Ltac sym_close :=
  sym_wrap;
  first [ reflexivity
        | match goal with
          | Hp : xmm_pre ?d (view ?c) |- _ =>
              first [ symmetry; apply (xmm_pre_spill c d); [exact Hp|lia]
                    | apply (xmm_pre_dst_hi c d); assumption
                    | apply (xmm_pre_dst_1 c d); assumption ]
          end ].

Ltac sym_solve_xmm :=
  unfold vec_unop, vec_binop, vec_mov; apply view_set_zmm; [sym_frame| | | ];
  (let i := fresh "i" in let l := fresh "l" in let Hi := fresh "Hi" in let Hl := fresh "Hl" in
   intros i l Hi Hl;
   first [ match goal with |- context [tls_lane _ _ (2 + l)] => idtac end
         | assert (l = 0 \/ l = 1) as [-> | ->] by lia ];
   sym_read; repeat sym_spec1; sym_close).

#[global] Opaque find_available_spill_ymm_avoiding_variadic find_available_spill_ymm_avoiding
  find_one_available_spill_ymm find_available_spill_xmm_avoiding_variadic
  find_available_spill_xmm_avoiding find_one_available_spill_xmm.
