(* ===== verification/GenZmm.v ===== *)
(** * 512-bit binary operations

    [vpaddd], [vpaddq], [vpsubq], [vporq] and [vpxorq] on zmm registers.  The
    five C functions have one text up to the opcode they create, given here
    once as [zmm_binop_gen]: the low half of each operand is used in its ymm
    register (or a spill register, for zmm16-31), the high half is brought into
    a spill register, and two 256-bit operations produce the result. *)
From Stdlib Require Import ZArith List Bool Lia.
From S2P Require Import Prelude Regs Spill Bytes Lanes Machine Arch512 SymExec.
Import ListNotations.
#[local] Open Scope Z_scope.
#[local] Open Scope bool_scope.
#[local] Open Scope rw_scope.

Definition zmm_binop_gen (op : opcode) (src1_reg src2_reg dst_reg mask_reg : reg_id_t) : rw_result :=
  let src1_need_spill := (if NEED_SPILL_ZMM src1_reg then 1 else 0) in
  let src2_need_spill := (if NEED_SPILL_ZMM src2_reg then 2 else 0) in
  let dst_need_spill := (if NEED_SPILL_ZMM dst_reg then 4 else 0) in
  let need_spill := Z.lor (Z.lor src1_need_spill src2_need_spill) dst_need_spill in
  match need_spill with
  | 0 =>
      if src1_reg =? dst_reg then
        let src1_reg_lower := ZMM_TO_YMM src1_reg in
        let src2_reg_lower := ZMM_TO_YMM src2_reg in
        let dst_reg_lower := src1_reg_lower in
        let src1_reg_upper := find_available_spill_ymm_avoiding_variadic [src1_reg_lower; src2_reg_lower] in
        let src2_reg_upper := find_available_spill_ymm_avoiding_variadic [src1_reg_lower; src2_reg_lower; src1_reg_upper] in
        let dst_reg_upper := src1_reg_upper in
        let i1 := SAVE_SIMD_TO_SIZED_TLS src1_reg_upper (TLS_ZMM_idx_SLOT (TO_YMM_REG_INDEX src1_reg_upper)) OPSZ_32 in
        let i2 := SAVE_SIMD_TO_SIZED_TLS src2_reg_upper (TLS_ZMM_idx_SLOT (TO_YMM_REG_INDEX src2_reg_upper)) OPSZ_32 in
        let i3 := RESTORE_SIMD_FROM_SIZED_TLS src1_reg_upper ((TLS_ZMM_idx_SLOT (TO_ZMM_REG_INDEX src1_reg)) + SIZE_OF_YMM) OPSZ_32 in
        let i4 := RESTORE_SIMD_FROM_SIZED_TLS src2_reg_upper ((TLS_ZMM_idx_SLOT (TO_ZMM_REG_INDEX src2_reg)) + SIZE_OF_YMM) OPSZ_32 in
        let i5 := instr_create_1dst_2src op (opnd_create_reg dst_reg_lower) (opnd_create_reg src1_reg_lower) (opnd_create_reg src2_reg_lower) in
        let i6 := instr_create_1dst_2src op (opnd_create_reg dst_reg_upper) (opnd_create_reg src1_reg_upper) (opnd_create_reg src2_reg_upper) in
        let i7 := SAVE_SIMD_TO_SIZED_TLS dst_reg_lower (TLS_ZMM_idx_SLOT (TO_ZMM_REG_INDEX dst_reg)) OPSZ_32 in
        let i8 := SAVE_SIMD_TO_SIZED_TLS dst_reg_upper ((TLS_ZMM_idx_SLOT (TO_ZMM_REG_INDEX dst_reg)) + SIZE_OF_YMM) OPSZ_32 in
        let i9 := RESTORE_SIMD_FROM_SIZED_TLS src1_reg_upper (TLS_ZMM_idx_SLOT (TO_YMM_REG_INDEX src1_reg_upper)) OPSZ_32 in
        let i10 := RESTORE_SIMD_FROM_SIZED_TLS src2_reg_upper (TLS_ZMM_idx_SLOT (TO_YMM_REG_INDEX src2_reg_upper)) OPSZ_32 in
        rw_replace [i1; i2; i3; i4; i5; i6; i7; i8; i9; i10]
      else
        let src1_reg_lower := ZMM_TO_YMM src1_reg in
        let src2_reg_lower := ZMM_TO_YMM src2_reg in
        let dst_reg_lower := ZMM_TO_YMM dst_reg in
        let src1_reg_upper := find_available_spill_ymm_avoiding_variadic [src1_reg_lower; src2_reg_lower; dst_reg_lower] in
        let src2_reg_upper := find_available_spill_ymm_avoiding_variadic [src1_reg_lower; src2_reg_lower; dst_reg_lower; src1_reg_upper] in
        let dst_reg_upper := find_available_spill_ymm_avoiding_variadic [src1_reg_lower; src2_reg_lower; dst_reg_lower; src1_reg_upper; src2_reg_upper] in
        let i1 := SAVE_SIMD_TO_SIZED_TLS src1_reg_upper (TLS_ZMM_idx_SLOT (TO_YMM_REG_INDEX src1_reg_upper)) OPSZ_32 in
        let i2 := SAVE_SIMD_TO_SIZED_TLS src2_reg_upper (TLS_ZMM_idx_SLOT (TO_YMM_REG_INDEX src2_reg_upper)) OPSZ_32 in
        let i3 := SAVE_SIMD_TO_SIZED_TLS dst_reg_upper (TLS_ZMM_idx_SLOT (TO_YMM_REG_INDEX dst_reg_upper)) OPSZ_32 in
        let i4 := RESTORE_SIMD_FROM_SIZED_TLS src1_reg_upper ((TLS_ZMM_idx_SLOT (TO_ZMM_REG_INDEX src1_reg)) + SIZE_OF_YMM) OPSZ_32 in
        let i5 := RESTORE_SIMD_FROM_SIZED_TLS src2_reg_upper ((TLS_ZMM_idx_SLOT (TO_ZMM_REG_INDEX src2_reg)) + SIZE_OF_YMM) OPSZ_32 in
        let i6 := instr_create_1dst_2src op (opnd_create_reg dst_reg_lower) (opnd_create_reg src1_reg_lower) (opnd_create_reg src2_reg_lower) in
        let i7 := instr_create_1dst_2src op (opnd_create_reg dst_reg_upper) (opnd_create_reg src1_reg_upper) (opnd_create_reg src2_reg_upper) in
        let i8 := SAVE_SIMD_TO_SIZED_TLS dst_reg_lower (TLS_ZMM_idx_SLOT (TO_ZMM_REG_INDEX dst_reg)) OPSZ_32 in
        let i9 := SAVE_SIMD_TO_SIZED_TLS dst_reg_upper ((TLS_ZMM_idx_SLOT (TO_ZMM_REG_INDEX dst_reg)) + SIZE_OF_YMM) OPSZ_32 in
        let i10 := RESTORE_SIMD_FROM_SIZED_TLS src1_reg_upper (TLS_ZMM_idx_SLOT (TO_YMM_REG_INDEX src1_reg_upper)) OPSZ_32 in
        let i11 := RESTORE_SIMD_FROM_SIZED_TLS src2_reg_upper (TLS_ZMM_idx_SLOT (TO_YMM_REG_INDEX src2_reg_upper)) OPSZ_32 in
        let i12 := RESTORE_SIMD_FROM_SIZED_TLS dst_reg_upper (TLS_ZMM_idx_SLOT (TO_YMM_REG_INDEX dst_reg_upper)) OPSZ_32 in
        rw_replace [i1; i2; i3; i4; i5; i6; i7; i8; i9; i10; i11; i12]
  | 1 =>
      let src1_reg_lower := ZMM_TO_YMM src1_reg in
      let src2_reg_lower := ZMM_TO_YMM src2_reg in
      let dst_reg_lower := ZMM_TO_YMM dst_reg in
      let spill_src1_lower := find_available_spill_ymm_avoiding_variadic [src1_reg_lower; src2_reg_lower; dst_reg_lower] in
      let src1_reg_upper := find_available_spill_ymm_avoiding_variadic [src1_reg_lower; src2_reg_lower; dst_reg_lower; spill_src1_lower] in
      let src2_reg_upper := find_available_spill_ymm_avoiding_variadic [src1_reg_lower; src2_reg_lower; dst_reg_lower; spill_src1_lower; src1_reg_upper] in
      let dst_reg_upper := find_available_spill_ymm_avoiding_variadic [src1_reg_lower; src2_reg_lower; dst_reg_lower; spill_src1_lower; src1_reg_upper; src2_reg_upper] in
      let i1 := SAVE_SIMD_TO_SIZED_TLS spill_src1_lower (TLS_ZMM_idx_SLOT (TO_YMM_REG_INDEX spill_src1_lower)) OPSZ_32 in
      let i2 := SAVE_SIMD_TO_SIZED_TLS src1_reg_upper (TLS_ZMM_idx_SLOT (TO_YMM_REG_INDEX src1_reg_upper)) OPSZ_32 in
      let i3 := SAVE_SIMD_TO_SIZED_TLS src2_reg_upper (TLS_ZMM_idx_SLOT (TO_YMM_REG_INDEX src2_reg_upper)) OPSZ_32 in
      let i4 := SAVE_SIMD_TO_SIZED_TLS dst_reg_upper (TLS_ZMM_idx_SLOT (TO_YMM_REG_INDEX dst_reg_upper)) OPSZ_32 in
      let i5 := RESTORE_SIMD_FROM_SIZED_TLS spill_src1_lower (TLS_ZMM_idx_SLOT (TO_ZMM_REG_INDEX src1_reg)) OPSZ_32 in
      let i6 := RESTORE_SIMD_FROM_SIZED_TLS src1_reg_upper ((TLS_ZMM_idx_SLOT (TO_ZMM_REG_INDEX src1_reg)) + SIZE_OF_YMM) OPSZ_32 in
      let i7 := RESTORE_SIMD_FROM_SIZED_TLS src2_reg_upper ((TLS_ZMM_idx_SLOT (TO_ZMM_REG_INDEX src2_reg)) + SIZE_OF_YMM) OPSZ_32 in
      let i8 := instr_create_1dst_2src op (opnd_create_reg dst_reg_lower) (opnd_create_reg spill_src1_lower) (opnd_create_reg src2_reg_lower) in
      let i9 := instr_create_1dst_2src op (opnd_create_reg dst_reg_upper) (opnd_create_reg src1_reg_upper) (opnd_create_reg src2_reg_upper) in
      let i10 := SAVE_SIMD_TO_SIZED_TLS dst_reg_lower (TLS_ZMM_idx_SLOT (TO_ZMM_REG_INDEX dst_reg)) OPSZ_32 in
      let i11 := SAVE_SIMD_TO_SIZED_TLS dst_reg_upper ((TLS_ZMM_idx_SLOT (TO_ZMM_REG_INDEX dst_reg)) + SIZE_OF_YMM) OPSZ_32 in
      let i12 := RESTORE_SIMD_FROM_SIZED_TLS spill_src1_lower (TLS_ZMM_idx_SLOT (TO_YMM_REG_INDEX spill_src1_lower)) OPSZ_32 in
      let i13 := RESTORE_SIMD_FROM_SIZED_TLS src1_reg_upper (TLS_ZMM_idx_SLOT (TO_YMM_REG_INDEX src1_reg_upper)) OPSZ_32 in
      let i14 := RESTORE_SIMD_FROM_SIZED_TLS src2_reg_upper (TLS_ZMM_idx_SLOT (TO_YMM_REG_INDEX src2_reg_upper)) OPSZ_32 in
      let i15 := RESTORE_SIMD_FROM_SIZED_TLS dst_reg_upper (TLS_ZMM_idx_SLOT (TO_YMM_REG_INDEX dst_reg_upper)) OPSZ_32 in
      rw_replace [i1; i2; i3; i4; i5; i6; i7; i8; i9; i10; i11; i12; i13; i14; i15]
  | 2 =>
      let src1_reg_lower := ZMM_TO_YMM src1_reg in
      let src2_reg_lower := ZMM_TO_YMM src2_reg in
      let dst_reg_lower := ZMM_TO_YMM dst_reg in
      let spill_src2_lower := find_available_spill_ymm_avoiding_variadic [src1_reg_lower; src2_reg_lower; dst_reg_lower] in
      let src1_reg_upper := find_available_spill_ymm_avoiding_variadic [src1_reg_lower; src2_reg_lower; dst_reg_lower; spill_src2_lower] in
      let src2_reg_upper := find_available_spill_ymm_avoiding_variadic [src1_reg_lower; src2_reg_lower; dst_reg_lower; spill_src2_lower; src1_reg_upper] in
      let dst_reg_upper := find_available_spill_ymm_avoiding_variadic [src1_reg_lower; src2_reg_lower; dst_reg_lower; spill_src2_lower; src1_reg_upper; src2_reg_upper] in
      let i1 := SAVE_SIMD_TO_SIZED_TLS spill_src2_lower (TLS_ZMM_idx_SLOT (TO_YMM_REG_INDEX spill_src2_lower)) OPSZ_32 in
      let i2 := SAVE_SIMD_TO_SIZED_TLS src1_reg_upper (TLS_ZMM_idx_SLOT (TO_YMM_REG_INDEX src1_reg_upper)) OPSZ_32 in
      let i3 := SAVE_SIMD_TO_SIZED_TLS src2_reg_upper (TLS_ZMM_idx_SLOT (TO_YMM_REG_INDEX src2_reg_upper)) OPSZ_32 in
      let i4 := SAVE_SIMD_TO_SIZED_TLS dst_reg_upper (TLS_ZMM_idx_SLOT (TO_YMM_REG_INDEX dst_reg_upper)) OPSZ_32 in
      let i5 := RESTORE_SIMD_FROM_SIZED_TLS src1_reg_upper ((TLS_ZMM_idx_SLOT (TO_ZMM_REG_INDEX src1_reg)) + SIZE_OF_YMM) OPSZ_32 in
      let i6 := RESTORE_SIMD_FROM_SIZED_TLS spill_src2_lower (TLS_ZMM_idx_SLOT (TO_ZMM_REG_INDEX src2_reg)) OPSZ_32 in
      let i7 := RESTORE_SIMD_FROM_SIZED_TLS src2_reg_upper ((TLS_ZMM_idx_SLOT (TO_ZMM_REG_INDEX src2_reg)) + SIZE_OF_YMM) OPSZ_32 in
      let i8 := instr_create_1dst_2src op (opnd_create_reg dst_reg_lower) (opnd_create_reg src1_reg_lower) (opnd_create_reg spill_src2_lower) in
      let i9 := instr_create_1dst_2src op (opnd_create_reg dst_reg_upper) (opnd_create_reg src1_reg_upper) (opnd_create_reg src2_reg_upper) in
      let i10 := SAVE_SIMD_TO_SIZED_TLS dst_reg_lower (TLS_ZMM_idx_SLOT (TO_ZMM_REG_INDEX dst_reg)) OPSZ_32 in
      let i11 := SAVE_SIMD_TO_SIZED_TLS dst_reg_upper ((TLS_ZMM_idx_SLOT (TO_ZMM_REG_INDEX dst_reg)) + SIZE_OF_YMM) OPSZ_32 in
      let i12 := RESTORE_SIMD_FROM_SIZED_TLS spill_src2_lower (TLS_ZMM_idx_SLOT (TO_YMM_REG_INDEX spill_src2_lower)) OPSZ_32 in
      let i13 := RESTORE_SIMD_FROM_SIZED_TLS src1_reg_upper (TLS_ZMM_idx_SLOT (TO_YMM_REG_INDEX src1_reg_upper)) OPSZ_32 in
      let i14 := RESTORE_SIMD_FROM_SIZED_TLS src2_reg_upper (TLS_ZMM_idx_SLOT (TO_YMM_REG_INDEX src2_reg_upper)) OPSZ_32 in
      let i15 := RESTORE_SIMD_FROM_SIZED_TLS dst_reg_upper (TLS_ZMM_idx_SLOT (TO_YMM_REG_INDEX dst_reg_upper)) OPSZ_32 in
      rw_replace [i1; i2; i3; i4; i5; i6; i7; i8; i9; i10; i11; i12; i13; i14; i15]
  | 3 =>
      let src1_reg_lower := ZMM_TO_YMM src1_reg in
      let src2_reg_lower := ZMM_TO_YMM src2_reg in
      let dst_reg_lower := ZMM_TO_YMM dst_reg in
      let spill_src1_lower := find_available_spill_ymm_avoiding_variadic [src1_reg_lower; src2_reg_lower; dst_reg_lower] in
      let spill_src2_lower := find_available_spill_ymm_avoiding_variadic [src1_reg_lower; src2_reg_lower; dst_reg_lower; spill_src1_lower] in
      let src1_reg_upper := find_available_spill_ymm_avoiding_variadic [src1_reg_lower; src2_reg_lower; dst_reg_lower; spill_src1_lower; spill_src2_lower] in
      let src2_reg_upper := find_available_spill_ymm_avoiding_variadic [src1_reg_lower; src2_reg_lower; dst_reg_lower; spill_src1_lower; spill_src2_lower; src1_reg_upper] in
      let dst_reg_upper := find_available_spill_ymm_avoiding_variadic [src1_reg_lower; src2_reg_lower; dst_reg_lower; spill_src1_lower; spill_src2_lower; src1_reg_upper; src2_reg_upper] in
      let i1 := SAVE_SIMD_TO_SIZED_TLS spill_src1_lower (TLS_ZMM_idx_SLOT (TO_YMM_REG_INDEX spill_src1_lower)) OPSZ_32 in
      let i2 := SAVE_SIMD_TO_SIZED_TLS spill_src2_lower (TLS_ZMM_idx_SLOT (TO_YMM_REG_INDEX spill_src2_lower)) OPSZ_32 in
      let i3 := SAVE_SIMD_TO_SIZED_TLS src1_reg_upper (TLS_ZMM_idx_SLOT (TO_YMM_REG_INDEX src1_reg_upper)) OPSZ_32 in
      let i4 := SAVE_SIMD_TO_SIZED_TLS src2_reg_upper (TLS_ZMM_idx_SLOT (TO_YMM_REG_INDEX src2_reg_upper)) OPSZ_32 in
      let i5 := SAVE_SIMD_TO_SIZED_TLS dst_reg_upper (TLS_ZMM_idx_SLOT (TO_YMM_REG_INDEX dst_reg_upper)) OPSZ_32 in
      let i6 := RESTORE_SIMD_FROM_SIZED_TLS spill_src1_lower (TLS_ZMM_idx_SLOT (TO_ZMM_REG_INDEX src1_reg)) OPSZ_32 in
      let i7 := RESTORE_SIMD_FROM_SIZED_TLS src1_reg_upper ((TLS_ZMM_idx_SLOT (TO_ZMM_REG_INDEX src1_reg)) + SIZE_OF_YMM) OPSZ_32 in
      let i8 := RESTORE_SIMD_FROM_SIZED_TLS spill_src2_lower (TLS_ZMM_idx_SLOT (TO_ZMM_REG_INDEX src2_reg)) OPSZ_32 in
      let i9 := RESTORE_SIMD_FROM_SIZED_TLS src2_reg_upper ((TLS_ZMM_idx_SLOT (TO_ZMM_REG_INDEX src2_reg)) + SIZE_OF_YMM) OPSZ_32 in
      let i10 := instr_create_1dst_2src op (opnd_create_reg dst_reg_lower) (opnd_create_reg spill_src1_lower) (opnd_create_reg spill_src2_lower) in
      let i11 := instr_create_1dst_2src op (opnd_create_reg dst_reg_upper) (opnd_create_reg src1_reg_upper) (opnd_create_reg src2_reg_upper) in
      let i12 := SAVE_SIMD_TO_SIZED_TLS dst_reg_lower (TLS_ZMM_idx_SLOT (TO_ZMM_REG_INDEX dst_reg)) OPSZ_32 in
      let i13 := SAVE_SIMD_TO_SIZED_TLS dst_reg_upper ((TLS_ZMM_idx_SLOT (TO_ZMM_REG_INDEX dst_reg)) + SIZE_OF_YMM) OPSZ_32 in
      let i14 := RESTORE_SIMD_FROM_SIZED_TLS spill_src1_lower (TLS_ZMM_idx_SLOT (TO_YMM_REG_INDEX spill_src1_lower)) OPSZ_32 in
      let i15 := RESTORE_SIMD_FROM_SIZED_TLS spill_src2_lower (TLS_ZMM_idx_SLOT (TO_YMM_REG_INDEX spill_src2_lower)) OPSZ_32 in
      let i16 := RESTORE_SIMD_FROM_SIZED_TLS src1_reg_upper (TLS_ZMM_idx_SLOT (TO_YMM_REG_INDEX src1_reg_upper)) OPSZ_32 in
      let i17 := RESTORE_SIMD_FROM_SIZED_TLS src2_reg_upper (TLS_ZMM_idx_SLOT (TO_YMM_REG_INDEX src2_reg_upper)) OPSZ_32 in
      let i18 := RESTORE_SIMD_FROM_SIZED_TLS dst_reg_upper (TLS_ZMM_idx_SLOT (TO_YMM_REG_INDEX dst_reg_upper)) OPSZ_32 in
      rw_replace [i1; i2; i3; i4; i5; i6; i7; i8; i9; i10; i11; i12; i13; i14; i15; i16; i17; i18]
  | 4 =>
      let src1_reg_lower := ZMM_TO_YMM src1_reg in
      let src2_reg_lower := ZMM_TO_YMM src2_reg in
      let dst_reg_lower := ZMM_TO_YMM dst_reg in
      let spill_dst_lower := find_available_spill_ymm_avoiding_variadic [src1_reg_lower; src2_reg_lower; dst_reg_lower] in
      let src1_reg_upper := find_available_spill_ymm_avoiding_variadic [src1_reg_lower; src2_reg_lower; dst_reg_lower; spill_dst_lower] in
      let src2_reg_upper := find_available_spill_ymm_avoiding_variadic [src1_reg_lower; src2_reg_lower; dst_reg_lower; spill_dst_lower; src1_reg_upper] in
      let dst_reg_upper := find_available_spill_ymm_avoiding_variadic [src1_reg_lower; src2_reg_lower; dst_reg_lower; spill_dst_lower; src1_reg_upper; src2_reg_upper] in
      let i1 := SAVE_SIMD_TO_SIZED_TLS spill_dst_lower (TLS_ZMM_idx_SLOT (TO_YMM_REG_INDEX spill_dst_lower)) OPSZ_32 in
      let i2 := SAVE_SIMD_TO_SIZED_TLS src1_reg_upper (TLS_ZMM_idx_SLOT (TO_YMM_REG_INDEX src1_reg_upper)) OPSZ_32 in
      let i3 := SAVE_SIMD_TO_SIZED_TLS src2_reg_upper (TLS_ZMM_idx_SLOT (TO_YMM_REG_INDEX src2_reg_upper)) OPSZ_32 in
      let i4 := SAVE_SIMD_TO_SIZED_TLS dst_reg_upper (TLS_ZMM_idx_SLOT (TO_YMM_REG_INDEX dst_reg_upper)) OPSZ_32 in
      let i5 := RESTORE_SIMD_FROM_SIZED_TLS src1_reg_upper ((TLS_ZMM_idx_SLOT (TO_ZMM_REG_INDEX src1_reg)) + SIZE_OF_YMM) OPSZ_32 in
      let i6 := RESTORE_SIMD_FROM_SIZED_TLS src2_reg_upper ((TLS_ZMM_idx_SLOT (TO_ZMM_REG_INDEX src2_reg)) + SIZE_OF_YMM) OPSZ_32 in
      let i7 := instr_create_1dst_2src op (opnd_create_reg spill_dst_lower) (opnd_create_reg src1_reg_lower) (opnd_create_reg src2_reg_lower) in
      let i8 := instr_create_1dst_2src op (opnd_create_reg dst_reg_upper) (opnd_create_reg src1_reg_upper) (opnd_create_reg src2_reg_upper) in
      let i9 := SAVE_SIMD_TO_SIZED_TLS spill_dst_lower (TLS_ZMM_idx_SLOT (TO_ZMM_REG_INDEX dst_reg)) OPSZ_32 in
      let i10 := SAVE_SIMD_TO_SIZED_TLS dst_reg_upper ((TLS_ZMM_idx_SLOT (TO_ZMM_REG_INDEX dst_reg)) + SIZE_OF_YMM) OPSZ_32 in
      let i11 := RESTORE_SIMD_FROM_SIZED_TLS spill_dst_lower (TLS_ZMM_idx_SLOT (TO_YMM_REG_INDEX spill_dst_lower)) OPSZ_32 in
      let i12 := RESTORE_SIMD_FROM_SIZED_TLS src1_reg_upper (TLS_ZMM_idx_SLOT (TO_YMM_REG_INDEX src1_reg_upper)) OPSZ_32 in
      let i13 := RESTORE_SIMD_FROM_SIZED_TLS src2_reg_upper (TLS_ZMM_idx_SLOT (TO_YMM_REG_INDEX src2_reg_upper)) OPSZ_32 in
      let i14 := RESTORE_SIMD_FROM_SIZED_TLS dst_reg_upper (TLS_ZMM_idx_SLOT (TO_YMM_REG_INDEX dst_reg_upper)) OPSZ_32 in
      rw_replace [i1; i2; i3; i4; i5; i6; i7; i8; i9; i10; i11; i12; i13; i14]
  | 5 =>
      let src1_reg_lower := ZMM_TO_YMM src1_reg in
      let src2_reg_lower := ZMM_TO_YMM src2_reg in
      let dst_reg_lower := ZMM_TO_YMM dst_reg in
      let spill_src1_lower := find_available_spill_ymm_avoiding_variadic [src1_reg_lower; src2_reg_lower; dst_reg_lower] in
      let spill_dst_lower := find_available_spill_ymm_avoiding_variadic [src1_reg_lower; src2_reg_lower; dst_reg_lower; spill_src1_lower] in
      let src1_reg_upper := find_available_spill_ymm_avoiding_variadic [src1_reg_lower; src2_reg_lower; dst_reg_lower; spill_src1_lower; spill_dst_lower] in
      let src2_reg_upper := find_available_spill_ymm_avoiding_variadic [src1_reg_lower; src2_reg_lower; dst_reg_lower; spill_src1_lower; spill_dst_lower; src1_reg_upper] in
      let dst_reg_upper := find_available_spill_ymm_avoiding_variadic [src1_reg_lower; src2_reg_lower; dst_reg_lower; spill_src1_lower; spill_dst_lower; src1_reg_upper; src2_reg_upper] in
      let i1 := SAVE_SIMD_TO_SIZED_TLS spill_src1_lower (TLS_ZMM_idx_SLOT (TO_YMM_REG_INDEX spill_src1_lower)) OPSZ_32 in
      let i2 := SAVE_SIMD_TO_SIZED_TLS spill_dst_lower (TLS_ZMM_idx_SLOT (TO_YMM_REG_INDEX spill_dst_lower)) OPSZ_32 in
      let i3 := SAVE_SIMD_TO_SIZED_TLS src1_reg_upper (TLS_ZMM_idx_SLOT (TO_YMM_REG_INDEX src1_reg_upper)) OPSZ_32 in
      let i4 := SAVE_SIMD_TO_SIZED_TLS src2_reg_upper (TLS_ZMM_idx_SLOT (TO_YMM_REG_INDEX src2_reg_upper)) OPSZ_32 in
      let i5 := SAVE_SIMD_TO_SIZED_TLS dst_reg_upper (TLS_ZMM_idx_SLOT (TO_YMM_REG_INDEX dst_reg_upper)) OPSZ_32 in
      let i6 := RESTORE_SIMD_FROM_SIZED_TLS spill_src1_lower (TLS_ZMM_idx_SLOT (TO_ZMM_REG_INDEX src1_reg)) OPSZ_32 in
      let i7 := RESTORE_SIMD_FROM_SIZED_TLS src1_reg_upper ((TLS_ZMM_idx_SLOT (TO_ZMM_REG_INDEX src1_reg)) + SIZE_OF_YMM) OPSZ_32 in
      let i8 := RESTORE_SIMD_FROM_SIZED_TLS src2_reg_upper ((TLS_ZMM_idx_SLOT (TO_ZMM_REG_INDEX src2_reg)) + SIZE_OF_YMM) OPSZ_32 in
      let i9 := instr_create_1dst_2src op (opnd_create_reg spill_dst_lower) (opnd_create_reg spill_src1_lower) (opnd_create_reg src2_reg_lower) in
      let i10 := instr_create_1dst_2src op (opnd_create_reg dst_reg_upper) (opnd_create_reg src1_reg_upper) (opnd_create_reg src2_reg_upper) in
      let i11 := SAVE_SIMD_TO_SIZED_TLS spill_dst_lower (TLS_ZMM_idx_SLOT (TO_ZMM_REG_INDEX dst_reg)) OPSZ_32 in
      let i12 := SAVE_SIMD_TO_SIZED_TLS dst_reg_upper ((TLS_ZMM_idx_SLOT (TO_ZMM_REG_INDEX dst_reg)) + SIZE_OF_YMM) OPSZ_32 in
      let i13 := RESTORE_SIMD_FROM_SIZED_TLS spill_src1_lower (TLS_ZMM_idx_SLOT (TO_YMM_REG_INDEX spill_src1_lower)) OPSZ_32 in
      let i14 := RESTORE_SIMD_FROM_SIZED_TLS spill_dst_lower (TLS_ZMM_idx_SLOT (TO_YMM_REG_INDEX spill_dst_lower)) OPSZ_32 in
      let i15 := RESTORE_SIMD_FROM_SIZED_TLS src1_reg_upper (TLS_ZMM_idx_SLOT (TO_YMM_REG_INDEX src1_reg_upper)) OPSZ_32 in
      let i16 := RESTORE_SIMD_FROM_SIZED_TLS src2_reg_upper (TLS_ZMM_idx_SLOT (TO_YMM_REG_INDEX src2_reg_upper)) OPSZ_32 in
      let i17 := RESTORE_SIMD_FROM_SIZED_TLS dst_reg_upper (TLS_ZMM_idx_SLOT (TO_YMM_REG_INDEX dst_reg_upper)) OPSZ_32 in
      rw_replace [i1; i2; i3; i4; i5; i6; i7; i8; i9; i10; i11; i12; i13; i14; i15; i16; i17]
  | 6 =>
      let src1_reg_lower := ZMM_TO_YMM src1_reg in
      let src2_reg_lower := ZMM_TO_YMM src2_reg in
      let dst_reg_lower := ZMM_TO_YMM dst_reg in
      let spill_src2_lower := find_available_spill_ymm_avoiding_variadic [src1_reg_lower; src2_reg_lower; dst_reg_lower] in
      let spill_dst_lower := find_available_spill_ymm_avoiding_variadic [src1_reg_lower; src2_reg_lower; dst_reg_lower; spill_src2_lower] in
      let src1_reg_upper := find_available_spill_ymm_avoiding_variadic [src1_reg_lower; src2_reg_lower; dst_reg_lower; spill_src2_lower; spill_dst_lower] in
      let src2_reg_upper := find_available_spill_ymm_avoiding_variadic [src1_reg_lower; src2_reg_lower; dst_reg_lower; spill_src2_lower; spill_dst_lower; src1_reg_upper] in
      let dst_reg_upper := find_available_spill_ymm_avoiding_variadic [src1_reg_lower; src2_reg_lower; dst_reg_lower; spill_src2_lower; spill_dst_lower; src1_reg_upper; src2_reg_upper] in
      let i1 := SAVE_SIMD_TO_SIZED_TLS spill_src2_lower (TLS_ZMM_idx_SLOT (TO_YMM_REG_INDEX spill_src2_lower)) OPSZ_32 in
      let i2 := SAVE_SIMD_TO_SIZED_TLS spill_dst_lower (TLS_ZMM_idx_SLOT (TO_YMM_REG_INDEX spill_dst_lower)) OPSZ_32 in
      let i3 := SAVE_SIMD_TO_SIZED_TLS src1_reg_upper (TLS_ZMM_idx_SLOT (TO_YMM_REG_INDEX src1_reg_upper)) OPSZ_32 in
      let i4 := SAVE_SIMD_TO_SIZED_TLS src2_reg_upper (TLS_ZMM_idx_SLOT (TO_YMM_REG_INDEX src2_reg_upper)) OPSZ_32 in
      let i5 := SAVE_SIMD_TO_SIZED_TLS dst_reg_upper (TLS_ZMM_idx_SLOT (TO_YMM_REG_INDEX dst_reg_upper)) OPSZ_32 in
      let i6 := RESTORE_SIMD_FROM_SIZED_TLS src1_reg_upper ((TLS_ZMM_idx_SLOT (TO_ZMM_REG_INDEX src1_reg)) + SIZE_OF_YMM) OPSZ_32 in
      let i7 := RESTORE_SIMD_FROM_SIZED_TLS spill_src2_lower (TLS_ZMM_idx_SLOT (TO_ZMM_REG_INDEX src2_reg)) OPSZ_32 in
      let i8 := RESTORE_SIMD_FROM_SIZED_TLS src2_reg_upper ((TLS_ZMM_idx_SLOT (TO_ZMM_REG_INDEX src2_reg)) + SIZE_OF_YMM) OPSZ_32 in
      let i9 := instr_create_1dst_2src op (opnd_create_reg spill_dst_lower) (opnd_create_reg src1_reg_lower) (opnd_create_reg spill_src2_lower) in
      let i10 := instr_create_1dst_2src op (opnd_create_reg dst_reg_upper) (opnd_create_reg src1_reg_upper) (opnd_create_reg src2_reg_upper) in
      let i11 := SAVE_SIMD_TO_SIZED_TLS spill_dst_lower (TLS_ZMM_idx_SLOT (TO_ZMM_REG_INDEX dst_reg)) OPSZ_32 in
      let i12 := SAVE_SIMD_TO_SIZED_TLS dst_reg_upper ((TLS_ZMM_idx_SLOT (TO_ZMM_REG_INDEX dst_reg)) + SIZE_OF_YMM) OPSZ_32 in
      let i13 := RESTORE_SIMD_FROM_SIZED_TLS spill_src2_lower (TLS_ZMM_idx_SLOT (TO_YMM_REG_INDEX spill_src2_lower)) OPSZ_32 in
      let i14 := RESTORE_SIMD_FROM_SIZED_TLS spill_dst_lower (TLS_ZMM_idx_SLOT (TO_YMM_REG_INDEX spill_dst_lower)) OPSZ_32 in
      let i15 := RESTORE_SIMD_FROM_SIZED_TLS src1_reg_upper (TLS_ZMM_idx_SLOT (TO_YMM_REG_INDEX src1_reg_upper)) OPSZ_32 in
      let i16 := RESTORE_SIMD_FROM_SIZED_TLS src2_reg_upper (TLS_ZMM_idx_SLOT (TO_YMM_REG_INDEX src2_reg_upper)) OPSZ_32 in
      let i17 := RESTORE_SIMD_FROM_SIZED_TLS dst_reg_upper (TLS_ZMM_idx_SLOT (TO_YMM_REG_INDEX dst_reg_upper)) OPSZ_32 in
      rw_replace [i1; i2; i3; i4; i5; i6; i7; i8; i9; i10; i11; i12; i13; i14; i15; i16; i17]
  | 7 =>
      let src1_reg_lower := ZMM_TO_YMM src1_reg in
      let src2_reg_lower := ZMM_TO_YMM src2_reg in
      let dst_reg_lower := ZMM_TO_YMM dst_reg in
      let spill_src1_lower := find_available_spill_ymm_avoiding_variadic [src1_reg_lower; src2_reg_lower; dst_reg_lower] in
      let spill_src2_lower := find_available_spill_ymm_avoiding_variadic [src1_reg_lower; src2_reg_lower; dst_reg_lower; spill_src1_lower] in
      let spill_dst_lower := find_available_spill_ymm_avoiding_variadic [src1_reg_lower; src2_reg_lower; dst_reg_lower; spill_src1_lower; spill_src2_lower] in
      let src1_reg_upper := find_available_spill_ymm_avoiding_variadic [src1_reg_lower; src2_reg_lower; dst_reg_lower; spill_src1_lower; spill_src2_lower; spill_dst_lower] in
      let src2_reg_upper := find_available_spill_ymm_avoiding_variadic [src1_reg_lower; src2_reg_lower; dst_reg_lower; spill_src1_lower; spill_src2_lower; spill_dst_lower; src1_reg_upper] in
      let dst_reg_upper := find_available_spill_ymm_avoiding_variadic [src1_reg_lower; src2_reg_lower; dst_reg_lower; spill_src1_lower; spill_src2_lower; spill_dst_lower; src1_reg_upper; src2_reg_upper] in
      let i1 := SAVE_SIMD_TO_SIZED_TLS spill_src1_lower (TLS_ZMM_idx_SLOT (TO_YMM_REG_INDEX spill_src1_lower)) OPSZ_32 in
      let i2 := SAVE_SIMD_TO_SIZED_TLS spill_src2_lower (TLS_ZMM_idx_SLOT (TO_YMM_REG_INDEX spill_src2_lower)) OPSZ_32 in
      let i3 := SAVE_SIMD_TO_SIZED_TLS spill_dst_lower (TLS_ZMM_idx_SLOT (TO_YMM_REG_INDEX spill_dst_lower)) OPSZ_32 in
      let i4 := SAVE_SIMD_TO_SIZED_TLS src1_reg_upper (TLS_ZMM_idx_SLOT (TO_YMM_REG_INDEX src1_reg_upper)) OPSZ_32 in
      let i5 := SAVE_SIMD_TO_SIZED_TLS src2_reg_upper (TLS_ZMM_idx_SLOT (TO_YMM_REG_INDEX src2_reg_upper)) OPSZ_32 in
      let i6 := SAVE_SIMD_TO_SIZED_TLS dst_reg_upper (TLS_ZMM_idx_SLOT (TO_YMM_REG_INDEX dst_reg_upper)) OPSZ_32 in
      let i7 := RESTORE_SIMD_FROM_SIZED_TLS spill_src1_lower (TLS_ZMM_idx_SLOT (TO_ZMM_REG_INDEX src1_reg)) OPSZ_32 in
      let i8 := RESTORE_SIMD_FROM_SIZED_TLS src1_reg_upper ((TLS_ZMM_idx_SLOT (TO_ZMM_REG_INDEX src1_reg)) + SIZE_OF_YMM) OPSZ_32 in
      let i9 := RESTORE_SIMD_FROM_SIZED_TLS spill_src2_lower (TLS_ZMM_idx_SLOT (TO_ZMM_REG_INDEX src2_reg)) OPSZ_32 in
      let i10 := RESTORE_SIMD_FROM_SIZED_TLS src2_reg_upper ((TLS_ZMM_idx_SLOT (TO_ZMM_REG_INDEX src2_reg)) + SIZE_OF_YMM) OPSZ_32 in
      let i11 := instr_create_1dst_2src op (opnd_create_reg spill_dst_lower) (opnd_create_reg spill_src1_lower) (opnd_create_reg spill_src2_lower) in
      let i12 := instr_create_1dst_2src op (opnd_create_reg dst_reg_upper) (opnd_create_reg src1_reg_upper) (opnd_create_reg src2_reg_upper) in
      let i13 := SAVE_SIMD_TO_SIZED_TLS spill_dst_lower (TLS_ZMM_idx_SLOT (TO_ZMM_REG_INDEX dst_reg)) OPSZ_32 in
      let i14 := SAVE_SIMD_TO_SIZED_TLS dst_reg_upper ((TLS_ZMM_idx_SLOT (TO_ZMM_REG_INDEX dst_reg)) + SIZE_OF_YMM) OPSZ_32 in
      let i15 := RESTORE_SIMD_FROM_SIZED_TLS spill_src1_lower (TLS_ZMM_idx_SLOT (TO_YMM_REG_INDEX spill_src1_lower)) OPSZ_32 in
      let i16 := RESTORE_SIMD_FROM_SIZED_TLS spill_src2_lower (TLS_ZMM_idx_SLOT (TO_YMM_REG_INDEX spill_src2_lower)) OPSZ_32 in
      let i17 := RESTORE_SIMD_FROM_SIZED_TLS spill_dst_lower (TLS_ZMM_idx_SLOT (TO_YMM_REG_INDEX spill_dst_lower)) OPSZ_32 in
      let i18 := RESTORE_SIMD_FROM_SIZED_TLS src1_reg_upper (TLS_ZMM_idx_SLOT (TO_YMM_REG_INDEX src1_reg_upper)) OPSZ_32 in
      let i19 := RESTORE_SIMD_FROM_SIZED_TLS src2_reg_upper (TLS_ZMM_idx_SLOT (TO_YMM_REG_INDEX src2_reg_upper)) OPSZ_32 in
      let i20 := RESTORE_SIMD_FROM_SIZED_TLS dst_reg_upper (TLS_ZMM_idx_SLOT (TO_YMM_REG_INDEX dst_reg_upper)) OPSZ_32 in
      rw_replace [i1; i2; i3; i4; i5; i6; i7; i8; i9; i10; i11; i12; i13; i14; i15; i16; i17; i18; i19; i20]
  | _ =>
      rw_removed_null
  end.

Definition vpaddq_zmm_reg_reg_gen := zmm_binop_gen OP_vpaddq.
Definition vpaddd_zmm_and_zmm_gen := zmm_binop_gen OP_vpaddd.
Definition vpsubq_zmm_and_zmm_gen := zmm_binop_gen OP_vpsubq.
Definition vporq_zmm_and_zmm_gen := zmm_binop_gen OP_vpor.
Definition vpxorq_zmm_and_zmm_gen := zmm_binop_gen OP_vpxor.

(** For every choice of the three registers the emitted code runs on an AVX2
    host and has the effect of the 512-bit instruction. *)
Lemma zmm_binop_correct op f (Hop : lane_binop op = Some f) (Hf : LaneOp f) a b d mask :
  0 <= a < 32 -> 0 <= b < 32 -> 0 <= d < 32 ->
  rewrites (vec_binop 4 f d a b) (zmm_binop_gen op (zmm a) (zmm b) (zmm d) mask).
Proof.
  intros Ha Hb Hd; unfold zmm_binop_gen.
  rewrite !NEED_SPILL_ZMM_zmm, !ZMM_TO_YMM_zmm, !TO_ZMM_REG_INDEX_zmm, ?zmm_eqb by assumption.
  destruct (Z.leb_spec 16 a), (Z.leb_spec 16 b), (Z.leb_spec 16 d).
  all: cbv beta iota delta [Z.lor Pos.lor].
  all: alias_cases; emit_code Hop; sym_solve.
Qed.

(** ** The five instructions *)

(** C2: Unmasked [vpaddq], [vpaddd], [vpsubq], [vporq] and [vpxorq] on any three zmm
    registers: the instruction is removed, and the code put in its place runs on
    an AVX2 host from every state and has the effect of the 512-bit instruction;
    the rest of the guest state is unchanged. *)

Theorem zmm_binops_correct a b d mask :
  0 <= a < 32 -> 0 <= b < 32 -> 0 <= d < 32 ->
  rewrites (vec_binop 4 (padd 64) d a b) (vpaddq_zmm_reg_reg_gen (zmm a) (zmm b) (zmm d) mask) /\
  rewrites (vec_binop 4 (padd 32) d a b) (vpaddd_zmm_and_zmm_gen (zmm a) (zmm b) (zmm d) mask) /\
  rewrites (vec_binop 4 (psub 64) d a b) (vpsubq_zmm_and_zmm_gen (zmm a) (zmm b) (zmm d) mask) /\
  rewrites (vec_binop 4 por d a b) (vporq_zmm_and_zmm_gen (zmm a) (zmm b) (zmm d) mask) /\
  rewrites (vec_binop 4 pxor d a b) (vpxorq_zmm_and_zmm_gen (zmm a) (zmm b) (zmm d) mask).
Proof.
  intros; repeat split; apply zmm_binop_correct; try reflexivity; try assumption; typeclasses eauto.
Qed.

Lemma zmm_binops_correct_witness :
  rewrites (vec_binop 4 (padd 32) 10 3 20) (vpaddd_zmm_and_zmm_gen (zmm 3) (zmm 20) (zmm 10) DR_REG_K0).
Proof. apply (zmm_binops_correct 3 20 10 DR_REG_K0); lia. Defined.
