(* ===== verification/GenYmm.v ===== *)
(** * 256-bit binary operations

    [vpaddd], [vpsubw], [vpsubd], [vpsubq], [vpsubb], [vpmulld] and [vpandd] on
    ymm registers.  [vpaddd] chooses its spill registers for each operand
    combination; the three [vpsub] functions share one text (given here as
    [ymm_binop_fixed_gen]) that uses ymm10 and ymm11 whatever the operands are,
    and is right only when they are not in the way; [vpsubb], [vpmulld] and
    [vpandd] return NULL for some combinations of high registers. *)
From Stdlib Require Import ZArith List Bool Lia.
From S2P Require Import Prelude Regs Spill Bytes Lanes Machine Arch512 SymExec.
Import ListNotations.
#[local] Open Scope Z_scope.
#[local] Open Scope bool_scope.
#[local] Open Scope rw_scope.

(** ** Generators *)

Definition vpaddd_ymm_and_ymm_gen (src1_reg src2_reg dst_reg mask_reg : reg_id_t) : rw_result :=
  let src1_need_spill_flag := (if NEED_SPILL_YMM src1_reg then 1 else 0) in
  let src2_need_spill_flag := (if NEED_SPILL_YMM src2_reg then 2 else 0) in
  let dst_need_spill_flag := (if NEED_SPILL_YMM dst_reg then 4 else 0) in
  let need_spill_flag := Z.lor (Z.lor src1_need_spill_flag src2_need_spill_flag) dst_need_spill_flag in
  match need_spill_flag with
  | 0 =>
      let op_src1 := opnd_create_reg src1_reg in
      let op_src2 := opnd_create_reg src2_reg in
      let op_dst := opnd_create_reg dst_reg in
      let i1 := INSTR_CREATE_3 OP_vpaddd op_dst op_src1 op_src2 in
      rw_replace [i1]
  | 1 =>
      let spill_src1_reg :=
        if src2_reg =? dst_reg then find_one_available_spill_ymm src2_reg
        else find_available_spill_ymm_avoiding src2_reg dst_reg DR_REG_NULL
      in
      let op_spill_src1 := opnd_create_reg spill_src1_reg in
      let op_src2 := opnd_create_reg src2_reg in
      let op_dst := opnd_create_reg dst_reg in
      let i1 := SAVE_SIMD_TO_SIZED_TLS spill_src1_reg (TLS_ZMM_idx_SLOT (TO_YMM_REG_INDEX spill_src1_reg)) OPSZ_32 in
      let i2 := RESTORE_SIMD_FROM_SIZED_TLS spill_src1_reg (TLS_ZMM_idx_SLOT (TO_YMM_REG_INDEX src1_reg)) OPSZ_32 in
      let i3 := INSTR_CREATE_3 OP_vpaddd op_dst op_spill_src1 op_src2 in
      let i4 := RESTORE_SIMD_FROM_SIZED_TLS spill_src1_reg (TLS_ZMM_idx_SLOT (TO_YMM_REG_INDEX spill_src1_reg)) OPSZ_32 in
      rw_replace [i1; i2; i3; i4]
  | 2 =>
      let spill_src2_reg :=
        if src1_reg =? dst_reg then find_one_available_spill_ymm src2_reg
        else find_available_spill_ymm_avoiding src1_reg dst_reg DR_REG_NULL
      in
      let op_spill_src2 := opnd_create_reg spill_src2_reg in
      let op_src1 := opnd_create_reg src1_reg in
      let op_dst := opnd_create_reg dst_reg in
      let i1 := SAVE_SIMD_TO_SIZED_TLS spill_src2_reg (TLS_ZMM_idx_SLOT (TO_YMM_REG_INDEX spill_src2_reg)) OPSZ_32 in
      let i2 := RESTORE_SIMD_FROM_SIZED_TLS spill_src2_reg (TLS_ZMM_idx_SLOT (TO_YMM_REG_INDEX src2_reg)) OPSZ_32 in
      let i3 := INSTR_CREATE_3 OP_vpaddd op_dst op_src1 op_spill_src2 in
      let i4 := RESTORE_SIMD_FROM_SIZED_TLS spill_src2_reg (TLS_ZMM_idx_SLOT (TO_YMM_REG_INDEX spill_src2_reg)) OPSZ_32 in
      rw_replace [i1; i2; i3; i4]
  | 3 =>
      let spill_src1_reg := find_available_spill_ymm_avoiding dst_reg DR_REG_NULL DR_REG_NULL in
      let spill_src2_reg := find_available_spill_ymm_avoiding dst_reg spill_src1_reg DR_REG_NULL in
      let op_spill_src1 := opnd_create_reg spill_src1_reg in
      let op_spill_src2 := opnd_create_reg spill_src2_reg in
      let op_dst := opnd_create_reg dst_reg in
      let i1 := SAVE_SIMD_TO_SIZED_TLS spill_src1_reg (TLS_ZMM_idx_SLOT (TO_YMM_REG_INDEX spill_src1_reg)) OPSZ_32 in
      let i2 := SAVE_SIMD_TO_SIZED_TLS spill_src2_reg (TLS_ZMM_idx_SLOT (TO_YMM_REG_INDEX spill_src2_reg)) OPSZ_32 in
      let i3 := RESTORE_SIMD_FROM_SIZED_TLS spill_src1_reg (TLS_ZMM_idx_SLOT (TO_YMM_REG_INDEX src1_reg)) OPSZ_32 in
      let i4 := RESTORE_SIMD_FROM_SIZED_TLS spill_src2_reg (TLS_ZMM_idx_SLOT (TO_YMM_REG_INDEX src2_reg)) OPSZ_32 in
      let i5 := INSTR_CREATE_3 OP_vpaddd op_dst op_spill_src1 op_spill_src2 in
      let i6 := RESTORE_SIMD_FROM_SIZED_TLS spill_src1_reg (TLS_ZMM_idx_SLOT (TO_YMM_REG_INDEX spill_src1_reg)) OPSZ_32 in
      let i7 := RESTORE_SIMD_FROM_SIZED_TLS spill_src2_reg (TLS_ZMM_idx_SLOT (TO_YMM_REG_INDEX spill_src2_reg)) OPSZ_32 in
      rw_replace [i1; i2; i3; i4; i5; i6; i7]
  | 4 =>
      let spill_dst_reg := find_available_spill_ymm_avoiding src1_reg src2_reg DR_REG_NULL in
      let op_spill_dst := opnd_create_reg spill_dst_reg in
      let op_src1 := opnd_create_reg src1_reg in
      let op_src2 := opnd_create_reg src2_reg in
      let i1 := SAVE_SIMD_TO_SIZED_TLS spill_dst_reg (TLS_ZMM_idx_SLOT (TO_YMM_REG_INDEX spill_dst_reg)) OPSZ_32 in
      let i2 := INSTR_CREATE_3 OP_vpaddd op_spill_dst op_src1 op_src2 in
      let i3 := SAVE_SIMD_TO_SIZED_TLS spill_dst_reg (TLS_ZMM_idx_SLOT (TO_YMM_REG_INDEX dst_reg)) OPSZ_32 in
      let i4 := RESTORE_SIMD_FROM_SIZED_TLS spill_dst_reg (TLS_ZMM_idx_SLOT (TO_YMM_REG_INDEX spill_dst_reg)) OPSZ_32 in
      rw_replace [i1; i2; i3; i4]
  | 5 =>
      let spill_src1_reg := find_available_spill_ymm_avoiding src2_reg DR_REG_NULL DR_REG_NULL in
      let spill_dst_reg := find_available_spill_ymm_avoiding src2_reg spill_src1_reg DR_REG_NULL in
      let op_spill_src1 := opnd_create_reg spill_src1_reg in
      let op_spill_dst := opnd_create_reg spill_dst_reg in
      let op_src2 := opnd_create_reg src2_reg in
      let i1 := SAVE_SIMD_TO_SIZED_TLS spill_src1_reg (TLS_ZMM_idx_SLOT (TO_YMM_REG_INDEX spill_src1_reg)) OPSZ_32 in
      let i2 := SAVE_SIMD_TO_SIZED_TLS spill_dst_reg (TLS_ZMM_idx_SLOT (TO_YMM_REG_INDEX spill_dst_reg)) OPSZ_32 in
      let i3 := RESTORE_SIMD_FROM_SIZED_TLS spill_src1_reg (TLS_ZMM_idx_SLOT (TO_YMM_REG_INDEX src1_reg)) OPSZ_32 in
      let i4 := INSTR_CREATE_3 OP_vpaddd op_spill_dst op_spill_src1 op_src2 in
      let i5 := SAVE_SIMD_TO_SIZED_TLS spill_dst_reg (TLS_ZMM_idx_SLOT (TO_YMM_REG_INDEX dst_reg)) OPSZ_32 in
      let i6 := RESTORE_SIMD_FROM_SIZED_TLS spill_src1_reg (TLS_ZMM_idx_SLOT (TO_YMM_REG_INDEX spill_src1_reg)) OPSZ_32 in
      let i7 := RESTORE_SIMD_FROM_SIZED_TLS spill_dst_reg (TLS_ZMM_idx_SLOT (TO_YMM_REG_INDEX spill_dst_reg)) OPSZ_32 in
      rw_replace [i1; i2; i3; i4; i5; i6; i7]
  | 6 =>
      let spill_src2_reg := find_available_spill_ymm_avoiding src1_reg DR_REG_NULL DR_REG_NULL in
      let spill_dst_reg := find_available_spill_ymm_avoiding src1_reg spill_src2_reg DR_REG_NULL in
      let op_spill_src2 := opnd_create_reg spill_src2_reg in
      let op_spill_dst := opnd_create_reg spill_dst_reg in
      let op_src1 := opnd_create_reg src1_reg in
      let i1 := SAVE_SIMD_TO_SIZED_TLS spill_src2_reg (TLS_ZMM_idx_SLOT (TO_YMM_REG_INDEX spill_src2_reg)) OPSZ_32 in
      let i2 := SAVE_SIMD_TO_SIZED_TLS spill_dst_reg (TLS_ZMM_idx_SLOT (TO_YMM_REG_INDEX spill_dst_reg)) OPSZ_32 in
      let i3 := RESTORE_SIMD_FROM_SIZED_TLS spill_src2_reg (TLS_ZMM_idx_SLOT (TO_YMM_REG_INDEX src2_reg)) OPSZ_32 in
      let i4 := INSTR_CREATE_3 OP_vpaddd op_spill_dst op_src1 op_spill_src2 in
      let i5 := SAVE_SIMD_TO_SIZED_TLS spill_dst_reg (TLS_ZMM_idx_SLOT (TO_YMM_REG_INDEX dst_reg)) OPSZ_32 in
      let i6 := RESTORE_SIMD_FROM_SIZED_TLS spill_src2_reg (TLS_ZMM_idx_SLOT (TO_YMM_REG_INDEX spill_src2_reg)) OPSZ_32 in
      let i7 := RESTORE_SIMD_FROM_SIZED_TLS spill_dst_reg (TLS_ZMM_idx_SLOT (TO_YMM_REG_INDEX spill_dst_reg)) OPSZ_32 in
      rw_replace [i1; i2; i3; i4; i5; i6; i7]
  | 7 =>
      if (src1_reg =? dst_reg) && (src2_reg =? dst_reg) then
        let spill_reg := YMM_SPILL_SLOT0 in
        let op_spill := opnd_create_reg spill_reg in
        let i1 := SAVE_SIMD_TO_SIZED_TLS spill_reg (TLS_ZMM_idx_SLOT (TO_YMM_REG_INDEX spill_reg)) OPSZ_32 in
        let i2 := RESTORE_SIMD_FROM_SIZED_TLS spill_reg (TLS_ZMM_idx_SLOT (TO_YMM_REG_INDEX src1_reg)) OPSZ_32 in
        let i3 := INSTR_CREATE_3 OP_vpaddd op_spill op_spill op_spill in
        let i4 := SAVE_SIMD_TO_SIZED_TLS spill_reg (TLS_ZMM_idx_SLOT (TO_YMM_REG_INDEX dst_reg)) OPSZ_32 in
        let i5 := RESTORE_SIMD_FROM_SIZED_TLS spill_reg (TLS_ZMM_idx_SLOT (TO_YMM_REG_INDEX spill_reg)) OPSZ_32 in
        rw_replace [i1; i2; i3; i4; i5]
      else
      if src1_reg =? dst_reg then
        let spill_src1_reg := YMM_SPILL_SLOT0 in
        let spill_src2_reg := YMM_SPILL_SLOT1 in
        let spill_dst_reg := spill_src1_reg in
        let op_spill_src1 := opnd_create_reg spill_src1_reg in
        let op_spill_src2 := opnd_create_reg spill_src2_reg in
        let op_spill_dst := opnd_create_reg spill_dst_reg in
        let i1 := SAVE_SIMD_TO_SIZED_TLS spill_src1_reg (TLS_ZMM_idx_SLOT (TO_YMM_REG_INDEX spill_src1_reg)) OPSZ_32 in
        let i2 := SAVE_SIMD_TO_SIZED_TLS spill_src2_reg (TLS_ZMM_idx_SLOT (TO_YMM_REG_INDEX spill_src2_reg)) OPSZ_32 in
        let i3 := RESTORE_SIMD_FROM_SIZED_TLS spill_src1_reg (TLS_ZMM_idx_SLOT (TO_YMM_REG_INDEX src1_reg)) OPSZ_32 in
        let i4 := RESTORE_SIMD_FROM_SIZED_TLS spill_src2_reg (TLS_ZMM_idx_SLOT (TO_YMM_REG_INDEX src2_reg)) OPSZ_32 in
        let i5 := INSTR_CREATE_3 OP_vpaddd op_spill_dst op_spill_src1 op_spill_src2 in
        let i6 := SAVE_SIMD_TO_SIZED_TLS spill_dst_reg (TLS_ZMM_idx_SLOT (TO_YMM_REG_INDEX dst_reg)) OPSZ_32 in
        let i7 := RESTORE_SIMD_FROM_SIZED_TLS spill_src1_reg (TLS_ZMM_idx_SLOT (TO_YMM_REG_INDEX spill_src1_reg)) OPSZ_32 in
        let i8 := RESTORE_SIMD_FROM_SIZED_TLS spill_src2_reg (TLS_ZMM_idx_SLOT (TO_YMM_REG_INDEX spill_src2_reg)) OPSZ_32 in
        rw_replace [i1; i2; i3; i4; i5; i6; i7; i8]
      else
      if src2_reg =? dst_reg then
        let spill_src1_reg := YMM_SPILL_SLOT0 in
        let spill_src2_reg := YMM_SPILL_SLOT1 in
        let spill_dst_reg := spill_src2_reg in
        let op_spill_src1 := opnd_create_reg spill_src1_reg in
        let op_spill_src2 := opnd_create_reg spill_src2_reg in
        let op_spill_dst := opnd_create_reg spill_dst_reg in
        let i1 := SAVE_SIMD_TO_SIZED_TLS spill_src1_reg (TLS_ZMM_idx_SLOT (TO_YMM_REG_INDEX spill_src1_reg)) OPSZ_32 in
        let i2 := SAVE_SIMD_TO_SIZED_TLS spill_src2_reg (TLS_ZMM_idx_SLOT (TO_YMM_REG_INDEX spill_src2_reg)) OPSZ_32 in
        let i3 := RESTORE_SIMD_FROM_SIZED_TLS spill_src1_reg (TLS_ZMM_idx_SLOT (TO_YMM_REG_INDEX src1_reg)) OPSZ_32 in
        let i4 := RESTORE_SIMD_FROM_SIZED_TLS spill_src2_reg (TLS_ZMM_idx_SLOT (TO_YMM_REG_INDEX src2_reg)) OPSZ_32 in
        let i5 := INSTR_CREATE_3 OP_vpaddd op_spill_dst op_spill_src1 op_spill_src2 in
        let i6 := SAVE_SIMD_TO_SIZED_TLS spill_dst_reg (TLS_ZMM_idx_SLOT (TO_YMM_REG_INDEX dst_reg)) OPSZ_32 in
        let i7 := RESTORE_SIMD_FROM_SIZED_TLS spill_src1_reg (TLS_ZMM_idx_SLOT (TO_YMM_REG_INDEX spill_src1_reg)) OPSZ_32 in
        let i8 := RESTORE_SIMD_FROM_SIZED_TLS spill_src2_reg (TLS_ZMM_idx_SLOT (TO_YMM_REG_INDEX spill_src2_reg)) OPSZ_32 in
        rw_replace [i1; i2; i3; i4; i5; i6; i7; i8]
      else
        let spill_src1_reg := YMM_SPILL_SLOT0 in
        let spill_src2_reg := YMM_SPILL_SLOT1 in
        let spill_dst_reg := spill_src1_reg in
        let op_spill_src1 := opnd_create_reg spill_src1_reg in
        let op_spill_src2 := opnd_create_reg spill_src2_reg in
        let op_spill_dst := opnd_create_reg spill_dst_reg in
        let i1 := SAVE_SIMD_TO_SIZED_TLS spill_src1_reg (TLS_ZMM_idx_SLOT (TO_YMM_REG_INDEX spill_src1_reg)) OPSZ_32 in
        let i2 := SAVE_SIMD_TO_SIZED_TLS spill_src2_reg (TLS_ZMM_idx_SLOT (TO_YMM_REG_INDEX spill_src2_reg)) OPSZ_32 in
        let i3 := RESTORE_SIMD_FROM_SIZED_TLS spill_src1_reg (TLS_ZMM_idx_SLOT (TO_YMM_REG_INDEX src1_reg)) OPSZ_32 in
        let i4 := RESTORE_SIMD_FROM_SIZED_TLS spill_src2_reg (TLS_ZMM_idx_SLOT (TO_YMM_REG_INDEX src2_reg)) OPSZ_32 in
        let i5 := INSTR_CREATE_3 OP_vpaddd op_spill_dst op_spill_src1 op_spill_src2 in
        let i6 := SAVE_SIMD_TO_SIZED_TLS spill_dst_reg (TLS_ZMM_idx_SLOT (TO_YMM_REG_INDEX dst_reg)) OPSZ_32 in
        let i7 := RESTORE_SIMD_FROM_SIZED_TLS spill_src1_reg (TLS_ZMM_idx_SLOT (TO_YMM_REG_INDEX spill_src1_reg)) OPSZ_32 in
        let i8 := RESTORE_SIMD_FROM_SIZED_TLS spill_src2_reg (TLS_ZMM_idx_SLOT (TO_YMM_REG_INDEX spill_src2_reg)) OPSZ_32 in
        rw_replace [i1; i2; i3; i4; i5; i6; i7; i8]
  | _ =>
      rw_removed_null
  end.

(** The text of [vpsubw_ymm_and_ymm_gen], [vpsubd_ymm_and_ymm_gen] and
    [vpsubq_ymm_and_ymm_gen]. *)
Definition ymm_binop_fixed_gen (op : opcode) (src1_reg src2_reg dst_reg mask_reg : reg_id_t) : rw_result :=
  let src1_need_spill_flag := (if NEED_SPILL_YMM src1_reg then 1 else 0) in
  let src2_need_spill_flag := (if NEED_SPILL_YMM src2_reg then 2 else 0) in
  let dst_need_spill_flag := (if NEED_SPILL_YMM dst_reg then 4 else 0) in
  let need_spill_flag := Z.lor (Z.lor src1_need_spill_flag src2_need_spill_flag) dst_need_spill_flag in
  match need_spill_flag with
  | 0 =>
      let op_src1 := opnd_create_reg src1_reg in
      let op_src2 := opnd_create_reg src2_reg in
      let op_dst := opnd_create_reg dst_reg in
      let i1 := INSTR_CREATE_3 op op_dst op_src1 op_src2 in
      rw_replace [i1]
  | 1 =>
      let spill_src1_reg :=
        if src2_reg =? dst_reg then find_one_available_spill_ymm src2_reg
        else find_available_spill_ymm_avoiding src2_reg dst_reg DR_REG_NULL
      in
      let op_spill_src1 := opnd_create_reg spill_src1_reg in
      let op_src2 := opnd_create_reg src2_reg in
      let op_dst := opnd_create_reg dst_reg in
      let i1 := SAVE_SIMD_TO_SIZED_TLS spill_src1_reg (TLS_ZMM_idx_SLOT (TO_YMM_REG_INDEX spill_src1_reg)) OPSZ_32 in
      let i2 := RESTORE_SIMD_FROM_SIZED_TLS spill_src1_reg (TLS_ZMM_idx_SLOT (TO_YMM_REG_INDEX src1_reg)) OPSZ_32 in
      let i3 := INSTR_CREATE_3 op op_dst op_spill_src1 op_src2 in
      let i4 := RESTORE_SIMD_FROM_SIZED_TLS spill_src1_reg (TLS_ZMM_idx_SLOT (TO_YMM_REG_INDEX spill_src1_reg)) OPSZ_32 in
      rw_replace [i1; i2; i3; i4]
  | 2 =>
      let spill_src2_reg :=
        if src1_reg =? dst_reg then find_one_available_spill_ymm src2_reg
        else find_available_spill_ymm_avoiding src1_reg dst_reg DR_REG_NULL
      in
      let op_spill_src2 := opnd_create_reg spill_src2_reg in
      let op_src1 := opnd_create_reg src1_reg in
      let op_dst := opnd_create_reg dst_reg in
      let i1 := SAVE_SIMD_TO_SIZED_TLS spill_src2_reg (TLS_ZMM_idx_SLOT (TO_YMM_REG_INDEX spill_src2_reg)) OPSZ_32 in
      let i2 := RESTORE_SIMD_FROM_SIZED_TLS spill_src2_reg (TLS_ZMM_idx_SLOT (TO_YMM_REG_INDEX src2_reg)) OPSZ_32 in
      let i3 := INSTR_CREATE_3 op op_dst op_src1 op_spill_src2 in
      let i4 := RESTORE_SIMD_FROM_SIZED_TLS spill_src2_reg (TLS_ZMM_idx_SLOT (TO_YMM_REG_INDEX spill_src2_reg)) OPSZ_32 in
      rw_replace [i1; i2; i3; i4]
  | 3 =>
      let spill_src1_reg := YMM_SPILL_SLOT0 in
      let spill_src2_reg := YMM_SPILL_SLOT1 in
      let op_spill_src1 := opnd_create_reg spill_src1_reg in
      let op_spill_src2 := opnd_create_reg spill_src2_reg in
      let op_dst := opnd_create_reg dst_reg in
      let i1 := SAVE_SIMD_TO_SIZED_TLS spill_src1_reg (TLS_ZMM_idx_SLOT (TO_YMM_REG_INDEX spill_src1_reg)) OPSZ_32 in
      let i2 := SAVE_SIMD_TO_SIZED_TLS spill_src2_reg (TLS_ZMM_idx_SLOT (TO_YMM_REG_INDEX spill_src2_reg)) OPSZ_32 in
      let i3 := RESTORE_SIMD_FROM_SIZED_TLS spill_src1_reg (TLS_ZMM_idx_SLOT (TO_YMM_REG_INDEX src1_reg)) OPSZ_32 in
      let i4 := RESTORE_SIMD_FROM_SIZED_TLS spill_src2_reg (TLS_ZMM_idx_SLOT (TO_YMM_REG_INDEX src2_reg)) OPSZ_32 in
      let i5 := INSTR_CREATE_3 op op_dst op_spill_src1 op_spill_src2 in
      let i6 := RESTORE_SIMD_FROM_SIZED_TLS spill_src1_reg (TLS_ZMM_idx_SLOT (TO_YMM_REG_INDEX spill_src1_reg)) OPSZ_32 in
      let i7 := RESTORE_SIMD_FROM_SIZED_TLS spill_src2_reg (TLS_ZMM_idx_SLOT (TO_YMM_REG_INDEX spill_src2_reg)) OPSZ_32 in
      rw_replace [i1; i2; i3; i4; i5; i6; i7]
  | 4 =>
      let spill_dst_reg := YMM_SPILL_SLOT0 in
      let op_src1 := opnd_create_reg src1_reg in
      let op_src2 := opnd_create_reg src2_reg in
      let op_spill_dst := opnd_create_reg spill_dst_reg in
      let i1 := SAVE_SIMD_TO_SIZED_TLS spill_dst_reg (TLS_ZMM_idx_SLOT (TO_YMM_REG_INDEX spill_dst_reg)) OPSZ_32 in
      let i2 := INSTR_CREATE_3 op op_spill_dst op_src1 op_src2 in
      let i3 := SAVE_SIMD_TO_SIZED_TLS spill_dst_reg (TLS_ZMM_idx_SLOT (TO_YMM_REG_INDEX dst_reg)) OPSZ_32 in
      let i4 := RESTORE_SIMD_FROM_SIZED_TLS spill_dst_reg (TLS_ZMM_idx_SLOT (TO_YMM_REG_INDEX spill_dst_reg)) OPSZ_32 in
      rw_replace [i1; i2; i3; i4]
  | 5 =>
      let spill_src1_reg := YMM_SPILL_SLOT0 in
      let spill_dst_reg := YMM_SPILL_SLOT1 in
      let op_spill_src1 := opnd_create_reg spill_src1_reg in
      let op_src2 := opnd_create_reg src2_reg in
      let op_spill_dst := opnd_create_reg spill_dst_reg in
      let i1 := SAVE_SIMD_TO_SIZED_TLS spill_src1_reg (TLS_ZMM_idx_SLOT (TO_YMM_REG_INDEX spill_src1_reg)) OPSZ_32 in
      let i2 := SAVE_SIMD_TO_SIZED_TLS spill_dst_reg (TLS_ZMM_idx_SLOT (TO_YMM_REG_INDEX spill_dst_reg)) OPSZ_32 in
      let i3 := RESTORE_SIMD_FROM_SIZED_TLS spill_src1_reg (TLS_ZMM_idx_SLOT (TO_YMM_REG_INDEX src1_reg)) OPSZ_32 in
      let i4 := INSTR_CREATE_3 op op_spill_dst op_spill_src1 op_src2 in
      let i5 := SAVE_SIMD_TO_SIZED_TLS spill_dst_reg (TLS_ZMM_idx_SLOT (TO_YMM_REG_INDEX dst_reg)) OPSZ_32 in
      let i6 := RESTORE_SIMD_FROM_SIZED_TLS spill_src1_reg (TLS_ZMM_idx_SLOT (TO_YMM_REG_INDEX spill_src1_reg)) OPSZ_32 in
      let i7 := RESTORE_SIMD_FROM_SIZED_TLS spill_dst_reg (TLS_ZMM_idx_SLOT (TO_YMM_REG_INDEX spill_dst_reg)) OPSZ_32 in
      rw_replace [i1; i2; i3; i4; i5; i6; i7]
  | 6 =>
      let spill_src2_reg := YMM_SPILL_SLOT0 in
      let spill_dst_reg := YMM_SPILL_SLOT1 in
      let op_src1 := opnd_create_reg src1_reg in
      let op_spill_src2 := opnd_create_reg spill_src2_reg in
      let op_spill_dst := opnd_create_reg spill_dst_reg in
      let i1 := SAVE_SIMD_TO_SIZED_TLS spill_src2_reg (TLS_ZMM_idx_SLOT (TO_YMM_REG_INDEX spill_src2_reg)) OPSZ_32 in
      let i2 := SAVE_SIMD_TO_SIZED_TLS spill_dst_reg (TLS_ZMM_idx_SLOT (TO_YMM_REG_INDEX spill_dst_reg)) OPSZ_32 in
      let i3 := RESTORE_SIMD_FROM_SIZED_TLS spill_src2_reg (TLS_ZMM_idx_SLOT (TO_YMM_REG_INDEX src2_reg)) OPSZ_32 in
      let i4 := INSTR_CREATE_3 op op_spill_dst op_src1 op_spill_src2 in
      let i5 := SAVE_SIMD_TO_SIZED_TLS spill_dst_reg (TLS_ZMM_idx_SLOT (TO_YMM_REG_INDEX dst_reg)) OPSZ_32 in
      let i6 := RESTORE_SIMD_FROM_SIZED_TLS spill_src2_reg (TLS_ZMM_idx_SLOT (TO_YMM_REG_INDEX spill_src2_reg)) OPSZ_32 in
      let i7 := RESTORE_SIMD_FROM_SIZED_TLS spill_dst_reg (TLS_ZMM_idx_SLOT (TO_YMM_REG_INDEX spill_dst_reg)) OPSZ_32 in
      rw_replace [i1; i2; i3; i4; i5; i6; i7]
  | 7 =>
      if (src1_reg =? dst_reg) && (src2_reg =? dst_reg) then
        let spill_reg := YMM_SPILL_SLOT0 in
        let op_spill := opnd_create_reg spill_reg in
        let i1 := SAVE_SIMD_TO_SIZED_TLS spill_reg (TLS_ZMM_idx_SLOT (TO_YMM_REG_INDEX spill_reg)) OPSZ_32 in
        let i2 := RESTORE_SIMD_FROM_SIZED_TLS spill_reg (TLS_ZMM_idx_SLOT (TO_YMM_REG_INDEX src1_reg)) OPSZ_32 in
        let i3 := INSTR_CREATE_3 op op_spill op_spill op_spill in
        let i4 := SAVE_SIMD_TO_SIZED_TLS spill_reg (TLS_ZMM_idx_SLOT (TO_YMM_REG_INDEX dst_reg)) OPSZ_32 in
        let i5 := RESTORE_SIMD_FROM_SIZED_TLS spill_reg (TLS_ZMM_idx_SLOT (TO_YMM_REG_INDEX spill_reg)) OPSZ_32 in
        rw_replace [i1; i2; i3; i4; i5]
      else
      if src1_reg =? dst_reg then
        let spill_src1_reg := YMM_SPILL_SLOT0 in
        let spill_src2_reg := YMM_SPILL_SLOT1 in
        let spill_dst_reg := spill_src1_reg in
        let op_spill_src1 := opnd_create_reg spill_src1_reg in
        let op_spill_src2 := opnd_create_reg spill_src2_reg in
        let op_spill_dst := opnd_create_reg spill_dst_reg in
        let i1 := SAVE_SIMD_TO_SIZED_TLS spill_src1_reg (TLS_ZMM_idx_SLOT (TO_YMM_REG_INDEX spill_src1_reg)) OPSZ_32 in
        let i2 := SAVE_SIMD_TO_SIZED_TLS spill_src2_reg (TLS_ZMM_idx_SLOT (TO_YMM_REG_INDEX spill_src2_reg)) OPSZ_32 in
        let i3 := RESTORE_SIMD_FROM_SIZED_TLS spill_src1_reg (TLS_ZMM_idx_SLOT (TO_YMM_REG_INDEX src1_reg)) OPSZ_32 in
        let i4 := RESTORE_SIMD_FROM_SIZED_TLS spill_src2_reg (TLS_ZMM_idx_SLOT (TO_YMM_REG_INDEX src2_reg)) OPSZ_32 in
        let i5 := INSTR_CREATE_3 op op_spill_dst op_spill_src1 op_spill_src2 in
        let i6 := SAVE_SIMD_TO_SIZED_TLS spill_dst_reg (TLS_ZMM_idx_SLOT (TO_YMM_REG_INDEX dst_reg)) OPSZ_32 in
        let i7 := RESTORE_SIMD_FROM_SIZED_TLS spill_src1_reg (TLS_ZMM_idx_SLOT (TO_YMM_REG_INDEX spill_src1_reg)) OPSZ_32 in
        let i8 := RESTORE_SIMD_FROM_SIZED_TLS spill_src2_reg (TLS_ZMM_idx_SLOT (TO_YMM_REG_INDEX spill_src2_reg)) OPSZ_32 in
        rw_replace [i1; i2; i3; i4; i5; i6; i7; i8]
      else
      if src2_reg =? dst_reg then
        let spill_src1_reg := YMM_SPILL_SLOT0 in
        let spill_src2_reg := YMM_SPILL_SLOT1 in
        let spill_dst_reg := spill_src2_reg in
        let op_spill_src1 := opnd_create_reg spill_src1_reg in
        let op_spill_src2 := opnd_create_reg spill_src2_reg in
        let op_spill_dst := opnd_create_reg spill_dst_reg in
        let i1 := SAVE_SIMD_TO_SIZED_TLS spill_src1_reg (TLS_ZMM_idx_SLOT (TO_YMM_REG_INDEX spill_src1_reg)) OPSZ_32 in
        let i2 := SAVE_SIMD_TO_SIZED_TLS spill_src2_reg (TLS_ZMM_idx_SLOT (TO_YMM_REG_INDEX spill_src2_reg)) OPSZ_32 in
        let i3 := RESTORE_SIMD_FROM_SIZED_TLS spill_src1_reg (TLS_ZMM_idx_SLOT (TO_YMM_REG_INDEX src1_reg)) OPSZ_32 in
        let i4 := RESTORE_SIMD_FROM_SIZED_TLS spill_src2_reg (TLS_ZMM_idx_SLOT (TO_YMM_REG_INDEX src2_reg)) OPSZ_32 in
        let i5 := INSTR_CREATE_3 op op_spill_dst op_spill_src1 op_spill_src2 in
        let i6 := SAVE_SIMD_TO_SIZED_TLS spill_dst_reg (TLS_ZMM_idx_SLOT (TO_YMM_REG_INDEX dst_reg)) OPSZ_32 in
        let i7 := RESTORE_SIMD_FROM_SIZED_TLS spill_src1_reg (TLS_ZMM_idx_SLOT (TO_YMM_REG_INDEX spill_src1_reg)) OPSZ_32 in
        let i8 := RESTORE_SIMD_FROM_SIZED_TLS spill_src2_reg (TLS_ZMM_idx_SLOT (TO_YMM_REG_INDEX spill_src2_reg)) OPSZ_32 in
        rw_replace [i1; i2; i3; i4; i5; i6; i7; i8]
      else
        let spill_src1_reg := YMM_SPILL_SLOT0 in
        let spill_src2_reg := YMM_SPILL_SLOT1 in
        let spill_dst_reg := spill_src1_reg in
        let op_spill_src1 := opnd_create_reg spill_src1_reg in
        let op_spill_src2 := opnd_create_reg spill_src2_reg in
        let op_spill_dst := opnd_create_reg spill_dst_reg in
        let i1 := SAVE_SIMD_TO_SIZED_TLS spill_src1_reg (TLS_ZMM_idx_SLOT (TO_YMM_REG_INDEX spill_src1_reg)) OPSZ_32 in
        let i2 := SAVE_SIMD_TO_SIZED_TLS spill_src2_reg (TLS_ZMM_idx_SLOT (TO_YMM_REG_INDEX spill_src2_reg)) OPSZ_32 in
        let i3 := RESTORE_SIMD_FROM_SIZED_TLS spill_src1_reg (TLS_ZMM_idx_SLOT (TO_YMM_REG_INDEX src1_reg)) OPSZ_32 in
        let i4 := RESTORE_SIMD_FROM_SIZED_TLS spill_src2_reg (TLS_ZMM_idx_SLOT (TO_YMM_REG_INDEX src2_reg)) OPSZ_32 in
        let i5 := INSTR_CREATE_3 op op_spill_dst op_spill_src1 op_spill_src2 in
        let i6 := SAVE_SIMD_TO_SIZED_TLS spill_dst_reg (TLS_ZMM_idx_SLOT (TO_YMM_REG_INDEX dst_reg)) OPSZ_32 in
        let i7 := RESTORE_SIMD_FROM_SIZED_TLS spill_src1_reg (TLS_ZMM_idx_SLOT (TO_YMM_REG_INDEX spill_src1_reg)) OPSZ_32 in
        let i8 := RESTORE_SIMD_FROM_SIZED_TLS spill_src2_reg (TLS_ZMM_idx_SLOT (TO_YMM_REG_INDEX spill_src2_reg)) OPSZ_32 in
        rw_replace [i1; i2; i3; i4; i5; i6; i7; i8]
  | _ =>
      rw_removed_null
  end.

Definition vpsubw_ymm_and_ymm_gen := ymm_binop_fixed_gen OP_vpsubw.
Definition vpsubd_ymm_and_ymm_gen := ymm_binop_fixed_gen OP_vpsubd.
Definition vpsubq_ymm_and_ymm_gen := ymm_binop_fixed_gen OP_vpsubq.

Definition vpsubb_ymm_and_ymm_gen (src1_reg src2_reg dst_reg mask_reg : reg_id_t) : rw_result :=
  let src1_need_spill_flag := (if NEED_SPILL_YMM src1_reg then 1 else 0) in
  let src2_need_spill_flag := (if NEED_SPILL_YMM src2_reg then 2 else 0) in
  let dst_need_spill_flag := (if NEED_SPILL_YMM dst_reg then 4 else 0) in
  let need_spill_flag := Z.lor (Z.lor src1_need_spill_flag src2_need_spill_flag) dst_need_spill_flag in
  match need_spill_flag with
  | 0 =>
      let op_src1 := opnd_create_reg src1_reg in
      let op_src2 := opnd_create_reg src2_reg in
      let op_dst := opnd_create_reg dst_reg in
      let i1 := INSTR_CREATE_3 OP_vpsubb op_dst op_src1 op_src2 in
      rw_replace [i1]
  | 1 =>
      let spill_src1 := (if src2_reg =? dst_reg then find_one_available_spill_ymm src2_reg else find_available_spill_ymm_avoiding src2_reg dst_reg DR_REG_NULL) in
      let op_spill_src1 := opnd_create_reg spill_src1 in
      let op_src2 := opnd_create_reg src2_reg in
      let op_dst := opnd_create_reg dst_reg in
      let i1 := SAVE_SIMD_TO_SIZED_TLS spill_src1 (TLS_ZMM_idx_SLOT (TO_YMM_REG_INDEX spill_src1)) OPSZ_32 in
      let i2 := RESTORE_SIMD_FROM_SIZED_TLS spill_src1 (TLS_ZMM_idx_SLOT (TO_YMM_REG_INDEX src1_reg)) OPSZ_32 in
      let i3 := INSTR_CREATE_3 OP_vpsubb op_dst op_spill_src1 op_src2 in
      let i4 := RESTORE_SIMD_FROM_SIZED_TLS spill_src1 (TLS_ZMM_idx_SLOT (TO_YMM_REG_INDEX spill_src1)) OPSZ_32 in
      rw_replace [i1; i2; i3; i4]
  | 2 =>
      let spill_src2 := (if src1_reg =? dst_reg then find_one_available_spill_ymm src2_reg else find_available_spill_ymm_avoiding src1_reg dst_reg DR_REG_NULL) in
      let op_src1 := opnd_create_reg src1_reg in
      let op_spill_src2 := opnd_create_reg spill_src2 in
      let op_dst := opnd_create_reg dst_reg in
      let i1 := SAVE_SIMD_TO_SIZED_TLS spill_src2 (TLS_ZMM_idx_SLOT (TO_YMM_REG_INDEX spill_src2)) OPSZ_32 in
      let i2 := RESTORE_SIMD_FROM_SIZED_TLS spill_src2 (TLS_ZMM_idx_SLOT (TO_YMM_REG_INDEX src2_reg)) OPSZ_32 in
      let i3 := INSTR_CREATE_3 OP_vpsubb op_dst op_src1 op_spill_src2 in
      let i4 := RESTORE_SIMD_FROM_SIZED_TLS spill_src2 (TLS_ZMM_idx_SLOT (TO_YMM_REG_INDEX spill_src2)) OPSZ_32 in
      rw_replace [i1; i2; i3; i4]
  | 7 =>
      let spill_src1 := YMM_SPILL_SLOT0 in
      let spill_src2 := YMM_SPILL_SLOT1 in
      let spill_dst := spill_src1 in
      let op_spill_src1 := opnd_create_reg spill_src1 in
      let op_spill_src2 := opnd_create_reg spill_src2 in
      let op_spill_dst := opnd_create_reg spill_dst in
      let i1 := SAVE_SIMD_TO_SIZED_TLS spill_src1 (TLS_ZMM_idx_SLOT (TO_YMM_REG_INDEX spill_src1)) OPSZ_32 in
      let i2 := SAVE_SIMD_TO_SIZED_TLS spill_src2 (TLS_ZMM_idx_SLOT (TO_YMM_REG_INDEX spill_src2)) OPSZ_32 in
      let i3 := RESTORE_SIMD_FROM_SIZED_TLS spill_src1 (TLS_ZMM_idx_SLOT (TO_YMM_REG_INDEX src1_reg)) OPSZ_32 in
      let i4 := RESTORE_SIMD_FROM_SIZED_TLS spill_src2 (TLS_ZMM_idx_SLOT (TO_YMM_REG_INDEX src2_reg)) OPSZ_32 in
      let i5 := INSTR_CREATE_3 OP_vpsubb op_spill_dst op_spill_src1 op_spill_src2 in
      let i6 := SAVE_SIMD_TO_SIZED_TLS spill_dst (TLS_ZMM_idx_SLOT (TO_YMM_REG_INDEX dst_reg)) OPSZ_32 in
      let i7 := RESTORE_SIMD_FROM_SIZED_TLS spill_src1 (TLS_ZMM_idx_SLOT (TO_YMM_REG_INDEX spill_src1)) OPSZ_32 in
      let i8 := RESTORE_SIMD_FROM_SIZED_TLS spill_src2 (TLS_ZMM_idx_SLOT (TO_YMM_REG_INDEX spill_src2)) OPSZ_32 in
      rw_replace [i1; i2; i3; i4; i5; i6; i7; i8]
  | _ =>
      rw_removed_null
  end.

Definition vpmulld_ymm_and_ymm_gen (src1_reg src2_reg dst_reg mask_reg : reg_id_t) : rw_result :=
  let src1_need_spill := (if NEED_SPILL_YMM src1_reg then 1 else 0) in
  let src2_need_spill := (if NEED_SPILL_YMM src2_reg then 2 else 0) in
  let dst_need_spill := (if NEED_SPILL_YMM dst_reg then 4 else 0) in
  let need_spill := Z.lor (Z.lor src1_need_spill src2_need_spill) dst_need_spill in
  match need_spill with
  | 0 =>
      let dst_opnd := opnd_create_reg dst_reg in
      let src_opnd1 := opnd_create_reg src1_reg in
      let src_opnd2 := opnd_create_reg src2_reg in
      let i1 := INSTR_CREATE_3 OP_vpmulld dst_opnd src_opnd1 src_opnd2 in
      rw_replace [i1]
  | 1 =>
      let spill_src1_reg := find_available_spill_ymm_avoiding src2_reg dst_reg DR_REG_NULL in
      let spill_src1_opnd := opnd_create_reg spill_src1_reg in
      let dst_opnd := opnd_create_reg dst_reg in
      let src2_opnd := opnd_create_reg src2_reg in
      let i1 := SAVE_SIMD_TO_SIZED_TLS spill_src1_reg (TLS_ZMM_idx_SLOT (TO_YMM_REG_INDEX spill_src1_reg)) OPSZ_32 in
      let i2 := RESTORE_SIMD_FROM_SIZED_TLS spill_src1_reg (TLS_ZMM_idx_SLOT (TO_YMM_REG_INDEX src1_reg)) OPSZ_32 in
      let i3 := INSTR_CREATE_3 OP_vpmulld dst_opnd spill_src1_opnd src2_opnd in
      let i4 := RESTORE_SIMD_FROM_SIZED_TLS spill_src1_reg (TLS_ZMM_idx_SLOT (TO_YMM_REG_INDEX spill_src1_reg)) OPSZ_32 in
      rw_replace [i1; i2; i3; i4]
  | 2 =>
      let s2 := find_available_spill_ymm_avoiding src1_reg dst_reg DR_REG_NULL in
      let i1 := SAVE_SIMD_TO_SIZED_TLS s2 (TLS_ZMM_idx_SLOT (TO_YMM_REG_INDEX s2)) OPSZ_32 in
      let i2 := RESTORE_SIMD_FROM_SIZED_TLS s2 (TLS_ZMM_idx_SLOT (TO_YMM_REG_INDEX src2_reg)) OPSZ_32 in
      let i3 := INSTR_CREATE_3 OP_vpmulld (opnd_create_reg dst_reg) (opnd_create_reg src1_reg) (opnd_create_reg s2) in
      let i4 := RESTORE_SIMD_FROM_SIZED_TLS s2 (TLS_ZMM_idx_SLOT (TO_YMM_REG_INDEX s2)) OPSZ_32 in
      rw_replace [i1; i2; i3; i4]
  | 3 =>
      let s1 := find_one_available_spill_ymm dst_reg in
      let s2 := find_available_spill_ymm_avoiding dst_reg s1 DR_REG_NULL in
      let i1 := SAVE_SIMD_TO_SIZED_TLS s1 (TLS_ZMM_idx_SLOT (TO_YMM_REG_INDEX s1)) OPSZ_32 in
      let i2 := SAVE_SIMD_TO_SIZED_TLS s2 (TLS_ZMM_idx_SLOT (TO_YMM_REG_INDEX s2)) OPSZ_32 in
      let i3 := RESTORE_SIMD_FROM_SIZED_TLS s1 (TLS_ZMM_idx_SLOT (TO_YMM_REG_INDEX src1_reg)) OPSZ_32 in
      let i4 := RESTORE_SIMD_FROM_SIZED_TLS s2 (TLS_ZMM_idx_SLOT (TO_YMM_REG_INDEX src2_reg)) OPSZ_32 in
      let i5 := INSTR_CREATE_3 OP_vpmulld (opnd_create_reg dst_reg) (opnd_create_reg s1) (opnd_create_reg s2) in
      let i6 := RESTORE_SIMD_FROM_SIZED_TLS s2 (TLS_ZMM_idx_SLOT (TO_YMM_REG_INDEX s2)) OPSZ_32 in
      let i7 := RESTORE_SIMD_FROM_SIZED_TLS s1 (TLS_ZMM_idx_SLOT (TO_YMM_REG_INDEX s1)) OPSZ_32 in
      rw_replace [i1; i2; i3; i4; i5; i6; i7]
  | 4 =>
      let t := find_available_spill_ymm_avoiding src1_reg src2_reg DR_REG_NULL in
      let i1 := SAVE_SIMD_TO_SIZED_TLS t (TLS_ZMM_idx_SLOT (TO_YMM_REG_INDEX t)) OPSZ_32 in
      let i2 := INSTR_CREATE_3 OP_vpmulld (opnd_create_reg t) (opnd_create_reg src1_reg) (opnd_create_reg src2_reg) in
      let i3 := SAVE_SIMD_TO_SIZED_TLS t (TLS_ZMM_idx_SLOT (TO_YMM_REG_INDEX dst_reg)) OPSZ_32 in
      let i4 := RESTORE_SIMD_FROM_SIZED_TLS t (TLS_ZMM_idx_SLOT (TO_YMM_REG_INDEX t)) OPSZ_32 in
      rw_replace [i1; i2; i3; i4]
  | 5 =>
      if src1_reg =? dst_reg then
        let spill_src1_reg := find_available_spill_ymm_avoiding src2_reg dst_reg DR_REG_NULL in
        let spill_src1_opnd := opnd_create_reg spill_src1_reg in
        let spill_dst_opnd := spill_src1_opnd in
        let src2_opnd := opnd_create_reg src2_reg in
        let i1 := SAVE_SIMD_TO_SIZED_TLS spill_src1_reg (TLS_ZMM_idx_SLOT (TO_YMM_REG_INDEX spill_src1_reg)) OPSZ_32 in
        let i2 := RESTORE_SIMD_FROM_SIZED_TLS spill_src1_reg (TLS_ZMM_idx_SLOT (TO_YMM_REG_INDEX src1_reg)) OPSZ_32 in
        let i3 := INSTR_CREATE_3 OP_vpmulld spill_dst_opnd spill_src1_opnd src2_opnd in
        let i4 := SAVE_SIMD_TO_SIZED_TLS spill_src1_reg (TLS_ZMM_idx_SLOT (TO_YMM_REG_INDEX dst_reg)) OPSZ_32 in
        let i5 := RESTORE_SIMD_FROM_SIZED_TLS spill_src1_reg (TLS_ZMM_idx_SLOT (TO_YMM_REG_INDEX spill_src1_reg)) OPSZ_32 in
        rw_replace [i1; i2; i3; i4; i5]
      else
        rw_removed_null
  | 6 =>
      rw_removed_null
  | 7 =>
      rw_removed_null
  | _ =>
      rw_removed_null
  end.

Definition emit_vpand_ymm (dst src1 src2 : reg_id_t) : instr_t :=
  INSTR_CREATE_3 OP_vpand (opnd_create_reg dst) (opnd_create_reg src1) (opnd_create_reg src2).

Definition vpandd_ymm_and_ymm_gen (src1_reg src2_reg dst_reg mask_reg : reg_id_t) : rw_result :=
  let src1_need_spill := (if NEED_SPILL_YMM src1_reg then 1 else 0) in
  let src2_need_spill := (if NEED_SPILL_YMM src2_reg then 2 else 0) in
  let dst_need_spill := (if NEED_SPILL_YMM dst_reg then 4 else 0) in
  let need_spill := Z.lor (Z.lor src1_need_spill src2_need_spill) dst_need_spill in
  match need_spill with
  | 0 =>
      let dst_opnd := opnd_create_reg dst_reg in
      let src_opnd1 := opnd_create_reg src1_reg in
      let src_opnd2 := opnd_create_reg src2_reg in
      let i1 := INSTR_CREATE_3 OP_vpand dst_opnd src_opnd1 src_opnd2 in
      rw_replace [i1]
  | 1 =>
      let spill_src1_reg := find_available_spill_ymm_avoiding src2_reg dst_reg DR_REG_NULL in
      let spill_src1_opnd := opnd_create_reg spill_src1_reg in
      let dst_opnd := opnd_create_reg dst_reg in
      let src2_opnd := opnd_create_reg src2_reg in
      let i1 := SAVE_SIMD_TO_SIZED_TLS spill_src1_reg (TLS_ZMM_idx_SLOT (TO_YMM_REG_INDEX spill_src1_reg)) OPSZ_32 in
      let i2 := RESTORE_SIMD_FROM_SIZED_TLS spill_src1_reg (TLS_ZMM_idx_SLOT (TO_YMM_REG_INDEX src1_reg)) OPSZ_32 in
      let i3 := INSTR_CREATE_3 OP_vpand dst_opnd spill_src1_opnd src2_opnd in
      let i4 := RESTORE_SIMD_FROM_SIZED_TLS spill_src1_reg (TLS_ZMM_idx_SLOT (TO_YMM_REG_INDEX spill_src1_reg)) OPSZ_32 in
      rw_replace [i1; i2; i3; i4]
  | 2 =>
      let s2 := find_available_spill_ymm_avoiding src1_reg dst_reg DR_REG_NULL in
      let i1 := SAVE_SIMD_TO_SIZED_TLS s2 (TLS_ZMM_idx_SLOT (TO_YMM_REG_INDEX s2)) OPSZ_32 in
      let i2 := RESTORE_SIMD_FROM_SIZED_TLS s2 (TLS_ZMM_idx_SLOT (TO_YMM_REG_INDEX src2_reg)) OPSZ_32 in
      let i3 := emit_vpand_ymm dst_reg src1_reg s2 in
      let i4 := RESTORE_SIMD_FROM_SIZED_TLS s2 (TLS_ZMM_idx_SLOT (TO_YMM_REG_INDEX s2)) OPSZ_32 in
      rw_replace [i1; i2; i3; i4]
  | 3 =>
      let s1 := find_one_available_spill_ymm dst_reg in
      let s2 := find_available_spill_ymm_avoiding dst_reg s1 DR_REG_NULL in
      let i1 := SAVE_SIMD_TO_SIZED_TLS s1 (TLS_ZMM_idx_SLOT (TO_YMM_REG_INDEX s1)) OPSZ_32 in
      let i2 := SAVE_SIMD_TO_SIZED_TLS s2 (TLS_ZMM_idx_SLOT (TO_YMM_REG_INDEX s2)) OPSZ_32 in
      let i3 := RESTORE_SIMD_FROM_SIZED_TLS s1 (TLS_ZMM_idx_SLOT (TO_YMM_REG_INDEX src1_reg)) OPSZ_32 in
      let i4 := RESTORE_SIMD_FROM_SIZED_TLS s2 (TLS_ZMM_idx_SLOT (TO_YMM_REG_INDEX src2_reg)) OPSZ_32 in
      let i5 := emit_vpand_ymm dst_reg s1 s2 in
      let i6 := RESTORE_SIMD_FROM_SIZED_TLS s2 (TLS_ZMM_idx_SLOT (TO_YMM_REG_INDEX s2)) OPSZ_32 in
      let i7 := RESTORE_SIMD_FROM_SIZED_TLS s1 (TLS_ZMM_idx_SLOT (TO_YMM_REG_INDEX s1)) OPSZ_32 in
      rw_replace [i1; i2; i3; i4; i5; i6; i7]
  | 4 =>
      let t := find_available_spill_ymm_avoiding src1_reg src2_reg DR_REG_NULL in
      let i1 := SAVE_SIMD_TO_SIZED_TLS t (TLS_ZMM_idx_SLOT (TO_YMM_REG_INDEX t)) OPSZ_32 in
      let i2 := emit_vpand_ymm t src1_reg src2_reg in
      let i3 := SAVE_SIMD_TO_SIZED_TLS t (TLS_ZMM_idx_SLOT (TO_YMM_REG_INDEX dst_reg)) OPSZ_32 in
      let i4 := RESTORE_SIMD_FROM_SIZED_TLS t (TLS_ZMM_idx_SLOT (TO_YMM_REG_INDEX t)) OPSZ_32 in
      rw_replace [i1; i2; i3; i4]
  | 5 =>
      if src1_reg =? dst_reg then
        let spill_src1_reg := find_available_spill_ymm_avoiding src2_reg dst_reg DR_REG_NULL in
        let spill_src1_opnd := opnd_create_reg spill_src1_reg in
        let spill_dst_opnd := spill_src1_opnd in
        let src2_opnd := opnd_create_reg src2_reg in
        let i1 := SAVE_SIMD_TO_SIZED_TLS spill_src1_reg (TLS_ZMM_idx_SLOT (TO_YMM_REG_INDEX spill_src1_reg)) OPSZ_32 in
        let i2 := RESTORE_SIMD_FROM_SIZED_TLS spill_src1_reg (TLS_ZMM_idx_SLOT (TO_YMM_REG_INDEX src1_reg)) OPSZ_32 in
        let i3 := INSTR_CREATE_3 OP_vpand spill_dst_opnd spill_src1_opnd src2_opnd in
        let i4 := SAVE_SIMD_TO_SIZED_TLS spill_src1_reg (TLS_ZMM_idx_SLOT (TO_YMM_REG_INDEX dst_reg)) OPSZ_32 in
        let i5 := RESTORE_SIMD_FROM_SIZED_TLS spill_src1_reg (TLS_ZMM_idx_SLOT (TO_YMM_REG_INDEX spill_src1_reg)) OPSZ_32 in
        rw_replace [i1; i2; i3; i4; i5]
      else
        rw_removed_null
  | 6 =>
      rw_removed_null
  | 7 =>
      rw_removed_null
  | _ =>
      rw_removed_null
  end.

(** ** [vpaddd] *)

(** The operands for which the spill register of the second source is the
    destination itself: when the first source is the destination, the selector
    is asked to avoid the (high) second source instead. *)
Definition vpaddd_ymm_conflict (a b d : Z) : bool := (16 <=? b) && (a =? d) && (d =? 10).

Lemma vpaddd_ymm_no_conflict a b d :
  vpaddd_ymm_conflict a b d = false -> 16 <= b -> a = d -> distinct d 10.
Proof.
  unfold vpaddd_ymm_conflict, distinct; intros H Hb -> ->.
  replace (16 <=? b) with true in H by (symmetry; now apply Z.leb_le); discriminate.
Qed.

(** Case analysis of a ymm generator, with the fact [Hc] about conflicts made
    available on the branches it speaks about. *)
Ltac ymm_gen_solve Hc a b d Hop :=
  ymm_cases a b d; alias_cases;
  try specialize (Hc ltac:(assumption) eq_refl);
  emit_code Hop; sym_solve.

Lemma vpaddd_ymm_correct a b d mask :
  0 <= a < 32 -> 0 <= b < 32 -> 0 <= d < 32 -> vpaddd_ymm_conflict a b d = false ->
  rewrites (vec_binop_keep 2 (padd 32) d a b) (vpaddd_ymm_and_ymm_gen (ymm a) (ymm b) (ymm d) mask).
Proof.
  intros Ha Hb Hd Hn; pose proof (vpaddd_ymm_no_conflict a b d Hn) as Hc; clear Hn.
  unfold vpaddd_ymm_and_ymm_gen.
  pose proof (eq_refl : lane_binop OP_vpaddd = Some (padd 32)) as Hop.
  pose proof padd32_op as Hf.
  ymm_gen_solve Hc a b d Hop.
Qed.

(** ** [vpsubw], [vpsubd], [vpsubq] *)

(** The operands that collide with the fixed spill registers. *)
Definition ymm_fixed_conflict (a b d : Z) : bool :=
  ((16 <=? b) && (a =? d) && (d =? 10)) ||
  ((16 <=? a) && (16 <=? b) && ((d =? 10) || (d =? 11))) ||
  ((16 <=? a) && (16 <=? d) && (b =? 10)) ||
  ((16 <=? b) && (16 <=? d) && (a =? 10)).

Lemma ymm_fixed_no_conflict a b d :
  ymm_fixed_conflict a b d = false ->
  (16 <= b -> a = d -> distinct d 10) /\ (16 <= a -> 16 <= b -> distinct d 10 /\ distinct d 11) /\
  (16 <= a -> 16 <= d -> distinct b 10) /\ (16 <= b -> 16 <= d -> distinct a 10).
Proof.
  unfold ymm_fixed_conflict, distinct; intros H.
  destruct (Z.leb_spec 16 a), (Z.leb_spec 16 b), (Z.leb_spec 16 d), (Z.eqb_spec a d),
    (Z.eqb_spec d 10), (Z.eqb_spec d 11), (Z.eqb_spec b 10), (Z.eqb_spec a 10);
    cbn [andb orb] in H; try discriminate H; lia.
Qed.

Lemma ymm_fixed_correct op f (Hop : lane_binop op = Some f) (Hf : LaneOp f) a b d mask :
  0 <= a < 32 -> 0 <= b < 32 -> 0 <= d < 32 -> ymm_fixed_conflict a b d = false ->
  rewrites (vec_binop_keep 2 f d a b) (ymm_binop_fixed_gen op (ymm a) (ymm b) (ymm d) mask).
Proof.
  intros Ha Hb Hd Hn; destruct (ymm_fixed_no_conflict a b d Hn) as (Hc & H3 & H5 & H6); clear Hn.
  unfold ymm_binop_fixed_gen; ymm_cases a b d; alias_cases;
    try specialize (Hc ltac:(assumption) eq_refl);
    try destruct (H3 ltac:(assumption) ltac:(assumption));
    try specialize (H5 ltac:(assumption) ltac:(assumption));
    try specialize (H6 ltac:(assumption) ltac:(assumption));
    emit_code Hop; sym_solve.
Qed.

(** ** [vpsubb] *)

(** No code is emitted when both sources, or a source and the destination, are
    high without all three being so. *)
Definition vpsubb_ymm_supported (a b d : Z) : bool :=
  if 16 <=? d then (16 <=? a) && (16 <=? b) else negb ((16 <=? a) && (16 <=? b)).

Lemma vpsubb_ymm_correct a b d mask :
  0 <= a < 32 -> 0 <= b < 32 -> 0 <= d < 32 ->
  vpsubb_ymm_supported a b d = true -> vpaddd_ymm_conflict a b d = false ->
  rewrites (vec_binop_keep 2 (psub 8) d a b) (vpsubb_ymm_and_ymm_gen (ymm a) (ymm b) (ymm d) mask).
Proof.
  intros Ha Hb Hd Hsup Hn; pose proof (vpaddd_ymm_no_conflict a b d Hn) as Hc; clear Hn.
  unfold vpsubb_ymm_and_ymm_gen; unfold vpsubb_ymm_supported in Hsup.
  pose proof (eq_refl : lane_binop OP_vpsubb = Some (psub 8)) as Hop.
  pose proof psub8_op as Hf.
  ymm_cases a b d; try discriminate Hsup; alias_cases;
    try specialize (Hc ltac:(assumption) eq_refl); emit_code Hop; sym_solve.
Qed.

(** ** [vpmulld], [vpandd] *)

Definition ymm_partial_supported (a b d : Z) : bool :=
  negb ((16 <=? d) && (16 <=? b)) && (negb ((16 <=? d) && (16 <=? a)) || (a =? d)).

Lemma vpmulld_ymm_correct a b d mask :
  0 <= a < 32 -> 0 <= b < 32 -> 0 <= d < 32 -> ymm_partial_supported a b d = true ->
  rewrites (vec_binop_keep 2 (pmull 32) d a b) (vpmulld_ymm_and_ymm_gen (ymm a) (ymm b) (ymm d) mask).
Proof.
  intros Ha Hb Hd Hsup; unfold vpmulld_ymm_and_ymm_gen; unfold ymm_partial_supported in Hsup.
  pose proof (eq_refl : lane_binop OP_vpmulld = Some (pmull 32)) as Hop.
  pose proof pmull32_op as Hf.
  ymm_cases a b d; cbn [andb negb orb] in Hsup; try discriminate Hsup;
    try (apply Z.eqb_eq in Hsup; subst a); alias_cases; try contradiction; emit_code Hop; sym_solve.
Qed.

Lemma vpandd_ymm_correct a b d mask :
  0 <= a < 32 -> 0 <= b < 32 -> 0 <= d < 32 -> ymm_partial_supported a b d = true ->
  rewrites (vec_binop_keep 2 pand d a b) (vpandd_ymm_and_ymm_gen (ymm a) (ymm b) (ymm d) mask).
Proof.
  intros Ha Hb Hd Hsup; unfold vpandd_ymm_and_ymm_gen, emit_vpand_ymm; unfold ymm_partial_supported in Hsup.
  pose proof (eq_refl : lane_binop OP_vpand = Some pand) as Hop.
  pose proof pand_op as Hf.
  ymm_cases a b d; cbn [andb negb orb] in Hsup; try discriminate Hsup;
    try (apply Z.eqb_eq in Hsup; subst a); alias_cases; try contradiction; emit_code Hop; sym_solve.
Qed.

(** ** Theorems *)

(** C13: [vpaddd] on ymm registers: outside the conflict the emitted code has the
    effect of the instruction on lanes 0 and 1, and leaves the rest of the
    state, lanes 2 and 3 of the destination included. *)
Theorem vpaddd_ymm_rewrite_correct a b d mask :
  0 <= a < 32 -> 0 <= b < 32 -> 0 <= d < 32 -> vpaddd_ymm_conflict a b d = false ->
  rewrites (vec_binop_keep 2 (padd 32) d a b) (vpaddd_ymm_and_ymm_gen (ymm a) (ymm b) (ymm d) mask) /\
  rewrites_if (upper_zero 2 d) (vec_binop 2 (padd 32) d a b)
    (vpaddd_ymm_and_ymm_gen (ymm a) (ymm b) (ymm d) mask).
Proof.
  intros Ha Hb Hd Hc; pose proof (vpaddd_ymm_correct a b d mask Ha Hb Hd Hc) as H.
  split; [exact H|]; eapply rewrites_weaken; [|exact H].
  intros g Hg; now apply vec_binop_keep_zero.
Qed.

Lemma vpaddd_ymm_rewrite_correct_witness :
  rewrites (vec_binop_keep 2 (padd 32) 10 9 20) (vpaddd_ymm_and_ymm_gen (ymm 9) (ymm 20) (ymm 10) DR_REG_K0).
Proof. apply (vpaddd_ymm_rewrite_correct 9 20 10 DR_REG_K0); reflexivity || lia. Defined.

(** [vpaddd ymm10, ymm10, ymm20] is rewritten to code that loses the result. *)
Theorem vpaddd_ymm_conflict_wrong :
  ~ rewrites (vec_binop_keep 2 (padd 32) 10 10 20) (vpaddd_ymm_and_ymm_gen (ymm 10) (ymm 20) (ymm 10) DR_REG_K0).
Proof. apply (not_rewrites_lane _ _ 10 0); [lia|lia|vm_compute; congruence]. Qed.

(** The three [vpsub] generators: right whenever no operand collides with
    ymm10 and ymm11. *)
Theorem vpsub_ymm_rewrite_correct a b d mask :
  0 <= a < 32 -> 0 <= b < 32 -> 0 <= d < 32 -> ymm_fixed_conflict a b d = false ->
  rewrites (vec_binop_keep 2 (psub 16) d a b) (vpsubw_ymm_and_ymm_gen (ymm a) (ymm b) (ymm d) mask) /\
  rewrites (vec_binop_keep 2 (psub 32) d a b) (vpsubd_ymm_and_ymm_gen (ymm a) (ymm b) (ymm d) mask) /\
  rewrites (vec_binop_keep 2 (psub 64) d a b) (vpsubq_ymm_and_ymm_gen (ymm a) (ymm b) (ymm d) mask).
Proof.
  intros; repeat split; apply ymm_fixed_correct; try reflexivity; try assumption; typeclasses eauto.
Qed.

Lemma vpsub_ymm_rewrite_correct_witness :
  rewrites (vec_binop_keep 2 (psub 32) 12 30 20) (vpsubd_ymm_and_ymm_gen (ymm 30) (ymm 20) (ymm 12) DR_REG_K0).
Proof. apply (vpsub_ymm_rewrite_correct 30 20 12 DR_REG_K0); reflexivity || lia. Defined.

(** One instance of each collision gives wrong code. *)
Theorem vpsub_ymm_conflict_wrong :
  ~ rewrites (vec_binop_keep 2 (psub 32) 10 10 20) (vpsubd_ymm_and_ymm_gen (ymm 10) (ymm 20) (ymm 10) DR_REG_K0) /\
  ~ rewrites (vec_binop_keep 2 (psub 32) 11 20 21) (vpsubd_ymm_and_ymm_gen (ymm 20) (ymm 21) (ymm 11) DR_REG_K0) /\
  ~ rewrites (vec_binop_keep 2 (psub 32) 22 20 10) (vpsubd_ymm_and_ymm_gen (ymm 20) (ymm 10) (ymm 22) DR_REG_K0) /\
  ~ rewrites (vec_binop_keep 2 (psub 32) 22 10 20) (vpsubd_ymm_and_ymm_gen (ymm 10) (ymm 20) (ymm 22) DR_REG_K0).
Proof.
  split; [|split; [|split]];
    [apply (not_rewrites_lane _ _ 10 0)|apply (not_rewrites_lane _ _ 11 0)
    |apply (not_rewrites_lane _ _ 22 0)|apply (not_rewrites_lane _ _ 22 0)];
    try lia; vm_compute; congruence.
Qed.

(** [vpmulld] and [vpandd] (and [vpsubb], with [vpaddd]'s exception): right on
    the supported operand combinations; on the others the instruction is
    removed and nothing replaces it. *)
Theorem ymm_partial_rewrite_correct a b d mask :
  0 <= a < 32 -> 0 <= b < 32 -> 0 <= d < 32 ->
  (if ymm_partial_supported a b d then
     rewrites (vec_binop_keep 2 (pmull 32) d a b) (vpmulld_ymm_and_ymm_gen (ymm a) (ymm b) (ymm d) mask) /\
     rewrites (vec_binop_keep 2 pand d a b) (vpandd_ymm_and_ymm_gen (ymm a) (ymm b) (ymm d) mask)
   else vpmulld_ymm_and_ymm_gen (ymm a) (ymm b) (ymm d) mask = rw_removed_null /\
        vpandd_ymm_and_ymm_gen (ymm a) (ymm b) (ymm d) mask = rw_removed_null) /\
  (if vpsubb_ymm_supported a b d then
     vpaddd_ymm_conflict a b d = false ->
     rewrites (vec_binop_keep 2 (psub 8) d a b) (vpsubb_ymm_and_ymm_gen (ymm a) (ymm b) (ymm d) mask)
   else vpsubb_ymm_and_ymm_gen (ymm a) (ymm b) (ymm d) mask = rw_removed_null).
Proof.
  intros Ha Hb Hd; split.
  - destruct (ymm_partial_supported a b d) eqn:Hs;
      [split; [now apply vpmulld_ymm_correct|now apply vpandd_ymm_correct]|].
    unfold vpmulld_ymm_and_ymm_gen, vpandd_ymm_and_ymm_gen; unfold ymm_partial_supported in Hs.
    ymm_cases a b d; cbn [andb negb orb] in Hs; try discriminate Hs; rewrite ?Hs; split; reflexivity.
  - destruct (vpsubb_ymm_supported a b d) eqn:Hs; [intros; now apply vpsubb_ymm_correct|].
    unfold vpsubb_ymm_and_ymm_gen; unfold vpsubb_ymm_supported in Hs.
    ymm_cases a b d; cbn [andb negb orb] in Hs; try discriminate Hs; reflexivity.
Qed.

Lemma ymm_partial_rewrite_correct_witness :
  vpmulld_ymm_and_ymm_gen (ymm 3) (ymm 20) (ymm 25) DR_REG_K0 = rw_removed_null.
Proof. apply (ymm_partial_rewrite_correct 3 20 25 DR_REG_K0); lia. Defined.
