(* ===== verification/GenXmm.v ===== *)
(** * 128-bit binary operations

    Five functions ([vpaddd], [vpaddw], [vpsubd], [vpsubq], [vpandq]) share the
    text of [xmm_binop_gen]; [vpsubw] follows [ymm_binop_fixed_gen] with xmm
    registers; [vpsubb] and [vpmulld] are partial.  Spill registers are saved
    and restored with 128-bit moves, which clear bits 255:128. *)
From Stdlib Require Import ZArith List Bool Lia.
From S2P Require Import Prelude Regs Spill Bytes Lanes Machine Arch512 SymExec GenYmm.
Import ListNotations.
#[local] Open Scope Z_scope.
#[local] Open Scope bool_scope.
#[local] Open Scope rw_scope.

(** ** Generators *)

(** The text of [vpsubd_xmm_and_xmm_gen], [vpsubq_xmm_and_xmm_gen],
    [vpaddw_xmm_and_xmm_gen], [vpaddd_xmm_and_xmm_gen] and
    [vpandq_xmm_and_xmm_gen]. *)
Definition xmm_binop_gen (op : opcode) (src1_reg src2_reg dst_reg mask_reg : reg_id_t) : rw_result :=
  let src1_need_spill_flag := (if NEED_SPILL_XMM src1_reg then 1 else 0) in
  let src2_need_spill_flag := (if NEED_SPILL_XMM src2_reg then 2 else 0) in
  let dst_need_spill_flag := (if NEED_SPILL_XMM dst_reg then 4 else 0) in
  let need_spill_flag := Z.lor (Z.lor src1_need_spill_flag src2_need_spill_flag) dst_need_spill_flag in
  match need_spill_flag with
  | 0 =>
      let op_src1 := opnd_create_reg src1_reg in
      let op_src2 := opnd_create_reg src2_reg in
      let op_dst := opnd_create_reg dst_reg in
      let i1 := INSTR_CREATE_3 op op_dst op_src1 op_src2 in
      rw_replace [i1]
  | 1 =>
      let spill_src1_reg :=
        if src2_reg =? dst_reg then find_one_available_spill_xmm src2_reg
        else find_available_spill_xmm_avoiding src2_reg dst_reg DR_REG_NULL
      in
      let op_spill_src1 := opnd_create_reg spill_src1_reg in
      let op_src2 := opnd_create_reg src2_reg in
      let op_dst := opnd_create_reg dst_reg in
      let i1 := SAVE_SIMD_TO_SIZED_TLS spill_src1_reg (TLS_ZMM_idx_SLOT (TO_XMM_REG_INDEX spill_src1_reg)) OPSZ_16 in
      let i2 := RESTORE_SIMD_FROM_SIZED_TLS spill_src1_reg (TLS_ZMM_idx_SLOT (TO_XMM_REG_INDEX src1_reg)) OPSZ_16 in
      let i3 := INSTR_CREATE_3 op op_dst op_spill_src1 op_src2 in
      let i4 := RESTORE_SIMD_FROM_SIZED_TLS spill_src1_reg (TLS_ZMM_idx_SLOT (TO_XMM_REG_INDEX spill_src1_reg)) OPSZ_16 in
      rw_replace [i1; i2; i3; i4]
  | 2 =>
      let spill_src2_reg :=
        if src1_reg =? dst_reg then find_one_available_spill_xmm src2_reg
        else find_available_spill_xmm_avoiding src1_reg dst_reg DR_REG_NULL
      in
      let op_spill_src2 := opnd_create_reg spill_src2_reg in
      let op_src1 := opnd_create_reg src1_reg in
      let op_dst := opnd_create_reg dst_reg in
      let i1 := SAVE_SIMD_TO_SIZED_TLS spill_src2_reg (TLS_ZMM_idx_SLOT (TO_XMM_REG_INDEX spill_src2_reg)) OPSZ_16 in
      let i2 := RESTORE_SIMD_FROM_SIZED_TLS spill_src2_reg (TLS_ZMM_idx_SLOT (TO_XMM_REG_INDEX src2_reg)) OPSZ_16 in
      let i3 := INSTR_CREATE_3 op op_dst op_src1 op_spill_src2 in
      let i4 := RESTORE_SIMD_FROM_SIZED_TLS spill_src2_reg (TLS_ZMM_idx_SLOT (TO_XMM_REG_INDEX spill_src2_reg)) OPSZ_16 in
      rw_replace [i1; i2; i3; i4]
  | 3 =>
      let spill_src1 := find_one_available_spill_xmm dst_reg in
      let spill_src2 := find_available_spill_xmm_avoiding spill_src1 dst_reg DR_REG_NULL in
      let op_spill_src1 := opnd_create_reg spill_src1 in
      let op_spill_src2 := opnd_create_reg spill_src2 in
      let op_dst := opnd_create_reg dst_reg in
      let i1 := SAVE_SIMD_TO_SIZED_TLS spill_src1 (TLS_ZMM_idx_SLOT (TO_XMM_REG_INDEX spill_src1)) OPSZ_16 in
      let i2 := SAVE_SIMD_TO_SIZED_TLS spill_src2 (TLS_ZMM_idx_SLOT (TO_XMM_REG_INDEX spill_src2)) OPSZ_16 in
      let i3 := RESTORE_SIMD_FROM_SIZED_TLS spill_src1 (TLS_ZMM_idx_SLOT (TO_XMM_REG_INDEX src1_reg)) OPSZ_16 in
      let i4 := RESTORE_SIMD_FROM_SIZED_TLS spill_src2 (TLS_ZMM_idx_SLOT (TO_XMM_REG_INDEX src2_reg)) OPSZ_16 in
      let i5 := INSTR_CREATE_3 op op_dst op_spill_src1 op_spill_src2 in
      let i6 := RESTORE_SIMD_FROM_SIZED_TLS spill_src1 (TLS_ZMM_idx_SLOT (TO_XMM_REG_INDEX spill_src1)) OPSZ_16 in
      let i7 := RESTORE_SIMD_FROM_SIZED_TLS spill_src1 (TLS_ZMM_idx_SLOT (TO_XMM_REG_INDEX spill_src1)) OPSZ_16 in
      rw_replace [i1; i2; i3; i4; i5; i6; i7]
  | 4 =>
      let spill_dst_reg := find_available_spill_xmm_avoiding src1_reg src2_reg DR_REG_NULL in
      let op_spill_dst := opnd_create_reg spill_dst_reg in
      let op_src1 := opnd_create_reg src1_reg in
      let op_src2 := opnd_create_reg src2_reg in
      let i1 := SAVE_SIMD_TO_SIZED_TLS spill_dst_reg (TLS_ZMM_idx_SLOT (TO_XMM_REG_INDEX spill_dst_reg)) OPSZ_16 in
      let i2 := INSTR_CREATE_3 op op_spill_dst op_src1 op_src2 in
      let i3 := SAVE_SIMD_TO_SIZED_TLS spill_dst_reg (TLS_ZMM_idx_SLOT (TO_XMM_REG_INDEX dst_reg)) OPSZ_16 in
      let i4 := RESTORE_SIMD_FROM_SIZED_TLS spill_dst_reg (TLS_ZMM_idx_SLOT (TO_XMM_REG_INDEX spill_dst_reg)) OPSZ_16 in
      rw_replace [i1; i2; i3; i4]
  | 5 =>
      let spill_src1 := find_one_available_spill_xmm src2_reg in
      let spill_dst := spill_src1 in
      let op_spill_src1 := opnd_create_reg spill_src1 in
      let op_src2 := opnd_create_reg src2_reg in
      let op_spill_dst := opnd_create_reg spill_dst in
      let i1 := SAVE_SIMD_TO_SIZED_TLS spill_src1 (TLS_ZMM_idx_SLOT (TO_XMM_REG_INDEX spill_src1)) OPSZ_16 in
      let i2 := RESTORE_SIMD_FROM_SIZED_TLS spill_src1 (TLS_ZMM_idx_SLOT (TO_XMM_REG_INDEX src1_reg)) OPSZ_16 in
      let i3 := INSTR_CREATE_3 op op_spill_dst op_spill_src1 op_src2 in
      let i4 := SAVE_SIMD_TO_SIZED_TLS spill_dst (TLS_ZMM_idx_SLOT (TO_XMM_REG_INDEX dst_reg)) OPSZ_16 in
      let i5 := RESTORE_SIMD_FROM_SIZED_TLS spill_src1 (TLS_ZMM_idx_SLOT (TO_XMM_REG_INDEX spill_src1)) OPSZ_16 in
      rw_replace [i1; i2; i3; i4; i5]
  | 6 =>
      let spill_src2 := find_one_available_spill_xmm src1_reg in
      let spill_dst := spill_src2 in
      let op_spill_src2 := opnd_create_reg spill_src2 in
      let op_src1 := opnd_create_reg src1_reg in
      let op_spill_dst := opnd_create_reg spill_dst in
      let i1 := SAVE_SIMD_TO_SIZED_TLS spill_src2 (TLS_ZMM_idx_SLOT (TO_XMM_REG_INDEX spill_src2)) OPSZ_16 in
      let i2 := RESTORE_SIMD_FROM_SIZED_TLS spill_src2 (TLS_ZMM_idx_SLOT (TO_XMM_REG_INDEX src2_reg)) OPSZ_16 in
      let i3 := INSTR_CREATE_3 op op_spill_dst op_src1 op_spill_src2 in
      let i4 := SAVE_SIMD_TO_SIZED_TLS spill_dst (TLS_ZMM_idx_SLOT (TO_XMM_REG_INDEX dst_reg)) OPSZ_16 in
      let i5 := RESTORE_SIMD_FROM_SIZED_TLS src1_reg (TLS_ZMM_idx_SLOT (TO_XMM_REG_INDEX src1_reg)) OPSZ_16 in
      rw_replace [i1; i2; i3; i4; i5]
  | 7 =>
      if (src1_reg =? dst_reg) && (src2_reg =? dst_reg) then
        let spill_reg := XMM_SPILL_SLOT0 in
        let op_spill := opnd_create_reg spill_reg in
        let i1 := SAVE_SIMD_TO_SIZED_TLS spill_reg (TLS_ZMM_idx_SLOT (TO_XMM_REG_INDEX spill_reg)) OPSZ_16 in
        let i2 := RESTORE_SIMD_FROM_SIZED_TLS spill_reg (TLS_ZMM_idx_SLOT (TO_XMM_REG_INDEX src1_reg)) OPSZ_16 in
        let i3 := INSTR_CREATE_3 op op_spill op_spill op_spill in
        let i4 := SAVE_SIMD_TO_SIZED_TLS spill_reg (TLS_ZMM_idx_SLOT (TO_XMM_REG_INDEX dst_reg)) OPSZ_16 in
        let i5 := RESTORE_SIMD_FROM_SIZED_TLS spill_reg (TLS_ZMM_idx_SLOT (TO_XMM_REG_INDEX spill_reg)) OPSZ_16 in
        rw_replace [i1; i2; i3; i4; i5]
      else
      if src1_reg =? dst_reg then
        let spill_src1_reg := XMM_SPILL_SLOT0 in
        let spill_src2_reg := XMM_SPILL_SLOT1 in
        let spill_dst_reg := spill_src1_reg in
        let op_spill_src1 := opnd_create_reg spill_src1_reg in
        let op_spill_src2 := opnd_create_reg spill_src2_reg in
        let op_spill_dst := opnd_create_reg spill_dst_reg in
        let i1 := SAVE_SIMD_TO_SIZED_TLS spill_src1_reg (TLS_ZMM_idx_SLOT (TO_XMM_REG_INDEX spill_src1_reg)) OPSZ_16 in
        let i2 := SAVE_SIMD_TO_SIZED_TLS spill_src2_reg (TLS_ZMM_idx_SLOT (TO_XMM_REG_INDEX spill_src2_reg)) OPSZ_16 in
        let i3 := RESTORE_SIMD_FROM_SIZED_TLS spill_src1_reg (TLS_ZMM_idx_SLOT (TO_XMM_REG_INDEX src1_reg)) OPSZ_16 in
        let i4 := RESTORE_SIMD_FROM_SIZED_TLS spill_src2_reg (TLS_ZMM_idx_SLOT (TO_XMM_REG_INDEX src2_reg)) OPSZ_16 in
        let i5 := INSTR_CREATE_3 op op_spill_dst op_spill_src1 op_spill_src2 in
        let i6 := SAVE_SIMD_TO_SIZED_TLS spill_dst_reg (TLS_ZMM_idx_SLOT (TO_XMM_REG_INDEX dst_reg)) OPSZ_16 in
        let i7 := RESTORE_SIMD_FROM_SIZED_TLS spill_src1_reg (TLS_ZMM_idx_SLOT (TO_XMM_REG_INDEX spill_src1_reg)) OPSZ_16 in
        let i8 := RESTORE_SIMD_FROM_SIZED_TLS spill_src2_reg (TLS_ZMM_idx_SLOT (TO_XMM_REG_INDEX spill_src2_reg)) OPSZ_16 in
        rw_replace [i1; i2; i3; i4; i5; i6; i7; i8]
      else
      if src2_reg =? dst_reg then
        let spill_src1_reg := XMM_SPILL_SLOT0 in
        let spill_src2_reg := XMM_SPILL_SLOT1 in
        let spill_dst_reg := spill_src2_reg in
        let op_spill_src1 := opnd_create_reg spill_src1_reg in
        let op_spill_src2 := opnd_create_reg spill_src2_reg in
        let op_spill_dst := opnd_create_reg spill_dst_reg in
        let i1 := SAVE_SIMD_TO_SIZED_TLS spill_src1_reg (TLS_ZMM_idx_SLOT (TO_XMM_REG_INDEX spill_src1_reg)) OPSZ_16 in
        let i2 := SAVE_SIMD_TO_SIZED_TLS spill_src2_reg (TLS_ZMM_idx_SLOT (TO_XMM_REG_INDEX spill_src2_reg)) OPSZ_16 in
        let i3 := RESTORE_SIMD_FROM_SIZED_TLS spill_src1_reg (TLS_ZMM_idx_SLOT (TO_XMM_REG_INDEX src1_reg)) OPSZ_16 in
        let i4 := RESTORE_SIMD_FROM_SIZED_TLS spill_src2_reg (TLS_ZMM_idx_SLOT (TO_XMM_REG_INDEX src2_reg)) OPSZ_16 in
        let i5 := INSTR_CREATE_3 op op_spill_dst op_spill_src1 op_spill_src2 in
        let i6 := SAVE_SIMD_TO_SIZED_TLS spill_dst_reg (TLS_ZMM_idx_SLOT (TO_XMM_REG_INDEX dst_reg)) OPSZ_16 in
        let i7 := RESTORE_SIMD_FROM_SIZED_TLS spill_src1_reg (TLS_ZMM_idx_SLOT (TO_XMM_REG_INDEX spill_src1_reg)) OPSZ_16 in
        let i8 := RESTORE_SIMD_FROM_SIZED_TLS spill_src2_reg (TLS_ZMM_idx_SLOT (TO_XMM_REG_INDEX spill_src2_reg)) OPSZ_16 in
        rw_replace [i1; i2; i3; i4; i5; i6; i7; i8]
      else
        let spill_src1_reg := XMM_SPILL_SLOT0 in
        let spill_src2_reg := XMM_SPILL_SLOT1 in
        let spill_dst_reg := spill_src1_reg in
        let op_spill_src1 := opnd_create_reg spill_src1_reg in
        let op_spill_src2 := opnd_create_reg spill_src2_reg in
        let op_spill_dst := opnd_create_reg spill_dst_reg in
        let i1 := SAVE_SIMD_TO_SIZED_TLS spill_src1_reg (TLS_ZMM_idx_SLOT (TO_XMM_REG_INDEX spill_src1_reg)) OPSZ_16 in
        let i2 := SAVE_SIMD_TO_SIZED_TLS spill_src2_reg (TLS_ZMM_idx_SLOT (TO_XMM_REG_INDEX spill_src2_reg)) OPSZ_16 in
        let i3 := RESTORE_SIMD_FROM_SIZED_TLS spill_src1_reg (TLS_ZMM_idx_SLOT (TO_XMM_REG_INDEX src1_reg)) OPSZ_16 in
        let i4 := RESTORE_SIMD_FROM_SIZED_TLS spill_src2_reg (TLS_ZMM_idx_SLOT (TO_XMM_REG_INDEX src2_reg)) OPSZ_16 in
        let i5 := INSTR_CREATE_3 op op_spill_dst op_spill_src1 op_spill_src2 in
        let i6 := SAVE_SIMD_TO_SIZED_TLS spill_dst_reg (TLS_ZMM_idx_SLOT (TO_XMM_REG_INDEX dst_reg)) OPSZ_16 in
        let i7 := RESTORE_SIMD_FROM_SIZED_TLS spill_src1_reg (TLS_ZMM_idx_SLOT (TO_XMM_REG_INDEX spill_src1_reg)) OPSZ_16 in
        let i8 := RESTORE_SIMD_FROM_SIZED_TLS spill_src2_reg (TLS_ZMM_idx_SLOT (TO_XMM_REG_INDEX spill_src2_reg)) OPSZ_16 in
        rw_replace [i1; i2; i3; i4; i5; i6; i7; i8]
  | _ =>
      rw_removed_null
  end.

Definition vpaddd_xmm_and_xmm_gen := xmm_binop_gen OP_vpaddd.
Definition vpaddw_xmm_and_xmm_gen := xmm_binop_gen OP_vpaddw.
Definition vpsubd_xmm_and_xmm_gen := xmm_binop_gen OP_vpsubd.
Definition vpsubq_xmm_and_xmm_gen := xmm_binop_gen OP_vpsubq.
Definition vpandq_xmm_and_xmm_gen := xmm_binop_gen OP_vpand.

(** [vpsubw] and [vpsllq] share another text, with the fixed spill registers. *)
Definition xmm_slots_gen (op : opcode) (src1_reg src2_reg dst_reg mask_reg : reg_id_t) : rw_result :=
  let src1_need_spill_flag := (if NEED_SPILL_XMM src1_reg then 1 else 0) in
  let src2_need_spill_flag := (if NEED_SPILL_XMM src2_reg then 2 else 0) in
  let dst_need_spill_flag := (if NEED_SPILL_XMM dst_reg then 4 else 0) in
  let need_spill_flag := Z.lor (Z.lor src1_need_spill_flag src2_need_spill_flag) dst_need_spill_flag in
  match need_spill_flag with
  | 0 =>
      let op_src1 := opnd_create_reg src1_reg in
      let op_src2 := opnd_create_reg src2_reg in
      let op_dst := opnd_create_reg dst_reg in
      let i1 := INSTR_CREATE_3 op op_dst op_src1 op_src2 in
      rw_replace [i1]
  | 1 =>
      let spill_src1_reg :=
        if src2_reg =? dst_reg then find_one_available_spill_xmm src2_reg
        else find_available_spill_xmm_avoiding src2_reg dst_reg DR_REG_NULL
      in
      let op_spill_src1 := opnd_create_reg spill_src1_reg in
      let op_src2 := opnd_create_reg src2_reg in
      let op_dst := opnd_create_reg dst_reg in
      let i1 := SAVE_SIMD_TO_SIZED_TLS spill_src1_reg (TLS_ZMM_idx_SLOT (TO_XMM_REG_INDEX spill_src1_reg)) OPSZ_16 in
      let i2 := RESTORE_SIMD_FROM_SIZED_TLS spill_src1_reg (TLS_ZMM_idx_SLOT (TO_XMM_REG_INDEX src1_reg)) OPSZ_16 in
      let i3 := INSTR_CREATE_3 op op_dst op_spill_src1 op_src2 in
      let i4 := RESTORE_SIMD_FROM_SIZED_TLS spill_src1_reg (TLS_ZMM_idx_SLOT (TO_XMM_REG_INDEX spill_src1_reg)) OPSZ_16 in
      rw_replace [i1; i2; i3; i4]
  | 2 =>
      let spill_src2_reg :=
        if src1_reg =? dst_reg then find_one_available_spill_xmm src2_reg
        else find_available_spill_xmm_avoiding src1_reg dst_reg DR_REG_NULL
      in
      let op_spill_src2 := opnd_create_reg spill_src2_reg in
      let op_src1 := opnd_create_reg src1_reg in
      let op_dst := opnd_create_reg dst_reg in
      let i1 := SAVE_SIMD_TO_SIZED_TLS spill_src2_reg (TLS_ZMM_idx_SLOT (TO_XMM_REG_INDEX spill_src2_reg)) OPSZ_16 in
      let i2 := RESTORE_SIMD_FROM_SIZED_TLS spill_src2_reg (TLS_ZMM_idx_SLOT (TO_XMM_REG_INDEX src2_reg)) OPSZ_16 in
      let i3 := INSTR_CREATE_3 op op_dst op_src1 op_spill_src2 in
      let i4 := RESTORE_SIMD_FROM_SIZED_TLS spill_src2_reg (TLS_ZMM_idx_SLOT (TO_XMM_REG_INDEX spill_src2_reg)) OPSZ_16 in
      rw_replace [i1; i2; i3; i4]
  | 3 =>
      let spill_src1_reg := XMM_SPILL_SLOT0 in
      let spill_src2_reg := XMM_SPILL_SLOT1 in
      let op_spill_src1 := opnd_create_reg spill_src1_reg in
      let op_spill_src2 := opnd_create_reg spill_src2_reg in
      let op_dst := opnd_create_reg dst_reg in
      let i1 := SAVE_SIMD_TO_SIZED_TLS spill_src1_reg (TLS_ZMM_idx_SLOT (TO_XMM_REG_INDEX spill_src1_reg)) OPSZ_16 in
      let i2 := SAVE_SIMD_TO_SIZED_TLS spill_src2_reg (TLS_ZMM_idx_SLOT (TO_XMM_REG_INDEX spill_src2_reg)) OPSZ_16 in
      let i3 := RESTORE_SIMD_FROM_SIZED_TLS spill_src1_reg (TLS_ZMM_idx_SLOT (TO_XMM_REG_INDEX src1_reg)) OPSZ_16 in
      let i4 := RESTORE_SIMD_FROM_SIZED_TLS spill_src2_reg (TLS_ZMM_idx_SLOT (TO_XMM_REG_INDEX src2_reg)) OPSZ_16 in
      let i5 := INSTR_CREATE_3 op op_dst op_spill_src1 op_spill_src2 in
      let i6 := RESTORE_SIMD_FROM_SIZED_TLS spill_src1_reg (TLS_ZMM_idx_SLOT (TO_XMM_REG_INDEX spill_src1_reg)) OPSZ_16 in
      let i7 := RESTORE_SIMD_FROM_SIZED_TLS spill_src2_reg (TLS_ZMM_idx_SLOT (TO_XMM_REG_INDEX spill_src2_reg)) OPSZ_16 in
      rw_replace [i1; i2; i3; i4; i5; i6; i7]
  | 4 =>
      let spill_dst_reg := XMM_SPILL_SLOT0 in
      let op_src1 := opnd_create_reg src1_reg in
      let op_src2 := opnd_create_reg src2_reg in
      let op_spill_dst := opnd_create_reg spill_dst_reg in
      let i1 := SAVE_SIMD_TO_SIZED_TLS spill_dst_reg (TLS_ZMM_idx_SLOT (TO_XMM_REG_INDEX spill_dst_reg)) OPSZ_16 in
      let i2 := INSTR_CREATE_3 op op_spill_dst op_src1 op_src2 in
      let i3 := SAVE_SIMD_TO_SIZED_TLS spill_dst_reg (TLS_ZMM_idx_SLOT (TO_XMM_REG_INDEX dst_reg)) OPSZ_16 in
      let i4 := RESTORE_SIMD_FROM_SIZED_TLS spill_dst_reg (TLS_ZMM_idx_SLOT (TO_XMM_REG_INDEX spill_dst_reg)) OPSZ_16 in
      rw_replace [i1; i2; i3; i4]
  | 5 =>
      let spill_src1_reg := XMM_SPILL_SLOT0 in
      let spill_dst_reg := XMM_SPILL_SLOT1 in
      let op_spill_src1 := opnd_create_reg spill_src1_reg in
      let op_src2 := opnd_create_reg src2_reg in
      let op_spill_dst := opnd_create_reg spill_dst_reg in
      let i1 := SAVE_SIMD_TO_SIZED_TLS spill_src1_reg (TLS_ZMM_idx_SLOT (TO_XMM_REG_INDEX spill_src1_reg)) OPSZ_16 in
      let i2 := SAVE_SIMD_TO_SIZED_TLS spill_dst_reg (TLS_ZMM_idx_SLOT (TO_XMM_REG_INDEX spill_dst_reg)) OPSZ_16 in
      let i3 := RESTORE_SIMD_FROM_SIZED_TLS spill_src1_reg (TLS_ZMM_idx_SLOT (TO_XMM_REG_INDEX src1_reg)) OPSZ_16 in
      let i4 := INSTR_CREATE_3 op op_spill_dst op_spill_src1 op_src2 in
      let i5 := SAVE_SIMD_TO_SIZED_TLS spill_dst_reg (TLS_ZMM_idx_SLOT (TO_XMM_REG_INDEX dst_reg)) OPSZ_16 in
      let i6 := RESTORE_SIMD_FROM_SIZED_TLS spill_src1_reg (TLS_ZMM_idx_SLOT (TO_XMM_REG_INDEX spill_src1_reg)) OPSZ_16 in
      let i7 := RESTORE_SIMD_FROM_SIZED_TLS spill_dst_reg (TLS_ZMM_idx_SLOT (TO_XMM_REG_INDEX spill_dst_reg)) OPSZ_16 in
      rw_replace [i1; i2; i3; i4; i5; i6; i7]
  | 6 =>
      let spill_src2_reg := XMM_SPILL_SLOT0 in
      let spill_dst_reg := XMM_SPILL_SLOT1 in
      let op_src1 := opnd_create_reg src1_reg in
      let op_spill_src2 := opnd_create_reg spill_src2_reg in
      let op_spill_dst := opnd_create_reg spill_dst_reg in
      let i1 := SAVE_SIMD_TO_SIZED_TLS spill_src2_reg (TLS_ZMM_idx_SLOT (TO_XMM_REG_INDEX spill_src2_reg)) OPSZ_16 in
      let i2 := SAVE_SIMD_TO_SIZED_TLS spill_dst_reg (TLS_ZMM_idx_SLOT (TO_XMM_REG_INDEX spill_dst_reg)) OPSZ_16 in
      let i3 := RESTORE_SIMD_FROM_SIZED_TLS spill_src2_reg (TLS_ZMM_idx_SLOT (TO_XMM_REG_INDEX src2_reg)) OPSZ_16 in
      let i4 := INSTR_CREATE_3 op op_spill_dst op_src1 op_spill_src2 in
      let i5 := SAVE_SIMD_TO_SIZED_TLS spill_dst_reg (TLS_ZMM_idx_SLOT (TO_XMM_REG_INDEX dst_reg)) OPSZ_16 in
      let i6 := RESTORE_SIMD_FROM_SIZED_TLS spill_src2_reg (TLS_ZMM_idx_SLOT (TO_XMM_REG_INDEX spill_src2_reg)) OPSZ_16 in
      let i7 := RESTORE_SIMD_FROM_SIZED_TLS spill_dst_reg (TLS_ZMM_idx_SLOT (TO_XMM_REG_INDEX spill_dst_reg)) OPSZ_16 in
      rw_replace [i1; i2; i3; i4; i5; i6; i7]
  | 7 =>
      if (src1_reg =? dst_reg) && (src2_reg =? dst_reg) then
        let spill_reg := XMM_SPILL_SLOT0 in
        let op_spill := opnd_create_reg spill_reg in
        let i1 := SAVE_SIMD_TO_SIZED_TLS spill_reg (TLS_ZMM_idx_SLOT (TO_XMM_REG_INDEX spill_reg)) OPSZ_16 in
        let i2 := RESTORE_SIMD_FROM_SIZED_TLS spill_reg (TLS_ZMM_idx_SLOT (TO_XMM_REG_INDEX src1_reg)) OPSZ_16 in
        let i3 := INSTR_CREATE_3 op op_spill op_spill op_spill in
        let i4 := SAVE_SIMD_TO_SIZED_TLS spill_reg (TLS_ZMM_idx_SLOT (TO_XMM_REG_INDEX dst_reg)) OPSZ_16 in
        let i5 := RESTORE_SIMD_FROM_SIZED_TLS spill_reg (TLS_ZMM_idx_SLOT (TO_XMM_REG_INDEX spill_reg)) OPSZ_16 in
        rw_replace [i1; i2; i3; i4; i5]
      else
      if src1_reg =? dst_reg then
        let spill_src1_reg := XMM_SPILL_SLOT0 in
        let spill_src2_reg := XMM_SPILL_SLOT1 in
        let spill_dst_reg := spill_src1_reg in
        let op_spill_src1 := opnd_create_reg spill_src1_reg in
        let op_spill_src2 := opnd_create_reg spill_src2_reg in
        let op_spill_dst := opnd_create_reg spill_dst_reg in
        let i1 := SAVE_SIMD_TO_SIZED_TLS spill_src1_reg (TLS_ZMM_idx_SLOT (TO_XMM_REG_INDEX spill_src1_reg)) OPSZ_16 in
        let i2 := SAVE_SIMD_TO_SIZED_TLS spill_src2_reg (TLS_ZMM_idx_SLOT (TO_XMM_REG_INDEX spill_src2_reg)) OPSZ_16 in
        let i3 := RESTORE_SIMD_FROM_SIZED_TLS spill_src1_reg (TLS_ZMM_idx_SLOT (TO_XMM_REG_INDEX src1_reg)) OPSZ_16 in
        let i4 := RESTORE_SIMD_FROM_SIZED_TLS spill_src2_reg (TLS_ZMM_idx_SLOT (TO_XMM_REG_INDEX src2_reg)) OPSZ_16 in
        let i5 := INSTR_CREATE_3 op op_spill_dst op_spill_src1 op_spill_src2 in
        let i6 := SAVE_SIMD_TO_SIZED_TLS spill_dst_reg (TLS_ZMM_idx_SLOT (TO_XMM_REG_INDEX dst_reg)) OPSZ_16 in
        let i7 := RESTORE_SIMD_FROM_SIZED_TLS spill_src1_reg (TLS_ZMM_idx_SLOT (TO_XMM_REG_INDEX spill_src1_reg)) OPSZ_16 in
        let i8 := RESTORE_SIMD_FROM_SIZED_TLS spill_src2_reg (TLS_ZMM_idx_SLOT (TO_XMM_REG_INDEX spill_src2_reg)) OPSZ_16 in
        rw_replace [i1; i2; i3; i4; i5; i6; i7; i8]
      else
      if src2_reg =? dst_reg then
        let spill_src1_reg := XMM_SPILL_SLOT0 in
        let spill_src2_reg := XMM_SPILL_SLOT1 in
        let spill_dst_reg := spill_src2_reg in
        let op_spill_src1 := opnd_create_reg spill_src1_reg in
        let op_spill_src2 := opnd_create_reg spill_src2_reg in
        let op_spill_dst := opnd_create_reg spill_dst_reg in
        let i1 := SAVE_SIMD_TO_SIZED_TLS spill_src1_reg (TLS_ZMM_idx_SLOT (TO_XMM_REG_INDEX spill_src1_reg)) OPSZ_16 in
        let i2 := SAVE_SIMD_TO_SIZED_TLS spill_src2_reg (TLS_ZMM_idx_SLOT (TO_XMM_REG_INDEX spill_src2_reg)) OPSZ_16 in
        let i3 := RESTORE_SIMD_FROM_SIZED_TLS spill_src1_reg (TLS_ZMM_idx_SLOT (TO_XMM_REG_INDEX src1_reg)) OPSZ_16 in
        let i4 := RESTORE_SIMD_FROM_SIZED_TLS spill_src2_reg (TLS_ZMM_idx_SLOT (TO_XMM_REG_INDEX src2_reg)) OPSZ_16 in
        let i5 := INSTR_CREATE_3 op op_spill_dst op_spill_src1 op_spill_src2 in
        let i6 := SAVE_SIMD_TO_SIZED_TLS spill_dst_reg (TLS_ZMM_idx_SLOT (TO_XMM_REG_INDEX dst_reg)) OPSZ_16 in
        let i7 := RESTORE_SIMD_FROM_SIZED_TLS spill_src1_reg (TLS_ZMM_idx_SLOT (TO_XMM_REG_INDEX spill_src1_reg)) OPSZ_16 in
        let i8 := RESTORE_SIMD_FROM_SIZED_TLS spill_src2_reg (TLS_ZMM_idx_SLOT (TO_XMM_REG_INDEX spill_src2_reg)) OPSZ_16 in
        rw_replace [i1; i2; i3; i4; i5; i6; i7; i8]
      else
        let spill_src1_reg := XMM_SPILL_SLOT0 in
        let spill_src2_reg := XMM_SPILL_SLOT1 in
        let spill_dst_reg := spill_src1_reg in
        let op_spill_src1 := opnd_create_reg spill_src1_reg in
        let op_spill_src2 := opnd_create_reg spill_src2_reg in
        let op_spill_dst := opnd_create_reg spill_dst_reg in
        let i1 := SAVE_SIMD_TO_SIZED_TLS spill_src1_reg (TLS_ZMM_idx_SLOT (TO_XMM_REG_INDEX spill_src1_reg)) OPSZ_16 in
        let i2 := SAVE_SIMD_TO_SIZED_TLS spill_src2_reg (TLS_ZMM_idx_SLOT (TO_XMM_REG_INDEX spill_src2_reg)) OPSZ_16 in
        let i3 := RESTORE_SIMD_FROM_SIZED_TLS spill_src1_reg (TLS_ZMM_idx_SLOT (TO_XMM_REG_INDEX src1_reg)) OPSZ_16 in
        let i4 := RESTORE_SIMD_FROM_SIZED_TLS spill_src2_reg (TLS_ZMM_idx_SLOT (TO_XMM_REG_INDEX src2_reg)) OPSZ_16 in
        let i5 := INSTR_CREATE_3 op op_spill_dst op_spill_src1 op_spill_src2 in
        let i6 := SAVE_SIMD_TO_SIZED_TLS spill_dst_reg (TLS_ZMM_idx_SLOT (TO_XMM_REG_INDEX dst_reg)) OPSZ_16 in
        let i7 := RESTORE_SIMD_FROM_SIZED_TLS spill_src1_reg (TLS_ZMM_idx_SLOT (TO_XMM_REG_INDEX spill_src1_reg)) OPSZ_16 in
        let i8 := RESTORE_SIMD_FROM_SIZED_TLS spill_src2_reg (TLS_ZMM_idx_SLOT (TO_XMM_REG_INDEX spill_src2_reg)) OPSZ_16 in
        rw_replace [i1; i2; i3; i4; i5; i6; i7; i8]
  | _ =>
      rw_removed_null
  end.

Definition vpsubw_xmm_and_xmm_gen := xmm_slots_gen OP_vpsubw.
Definition vpsllq_xmm2xmm_gen := xmm_slots_gen OP_vpsllq.

Definition vpsubb_xmm_and_xmm_gen (src1_reg src2_reg dst_reg mask_reg : reg_id_t) : rw_result :=
  let src1_need_spill_flag := (if NEED_SPILL_XMM src1_reg then 1 else 0) in
  let src2_need_spill_flag := (if NEED_SPILL_XMM src2_reg then 2 else 0) in
  let dst_need_spill_flag := (if NEED_SPILL_XMM dst_reg then 4 else 0) in
  let need_spill_flag := Z.lor (Z.lor src1_need_spill_flag src2_need_spill_flag) dst_need_spill_flag in
  match need_spill_flag with
  | 0 =>
      let i1 := INSTR_CREATE_3 OP_vpsubb (opnd_create_reg dst_reg) (opnd_create_reg src1_reg) (opnd_create_reg src2_reg) in
      rw_replace [i1]
  | 1 =>
      let spill := (if src2_reg =? dst_reg then find_one_available_spill_xmm src2_reg else find_available_spill_xmm_avoiding src2_reg dst_reg DR_REG_NULL) in
      let sop := opnd_create_reg spill in
      let dop := opnd_create_reg dst_reg in
      let i1 := SAVE_SIMD_TO_SIZED_TLS spill (TLS_ZMM_idx_SLOT (TO_XMM_REG_INDEX spill)) OPSZ_16 in
      let i2 := RESTORE_SIMD_FROM_SIZED_TLS spill (TLS_ZMM_idx_SLOT (TO_XMM_REG_INDEX src1_reg)) OPSZ_16 in
      let i3 := INSTR_CREATE_3 OP_vpsubb dop sop (opnd_create_reg src2_reg) in
      let i4 := RESTORE_SIMD_FROM_SIZED_TLS spill (TLS_ZMM_idx_SLOT (TO_XMM_REG_INDEX spill)) OPSZ_16 in
      rw_replace [i1; i2; i3; i4]
  | 2 =>
      let spill := (if src1_reg =? dst_reg then find_one_available_spill_xmm src2_reg else find_available_spill_xmm_avoiding src1_reg dst_reg DR_REG_NULL) in
      let sop := opnd_create_reg spill in
      let dop := opnd_create_reg dst_reg in
      let i1 := SAVE_SIMD_TO_SIZED_TLS spill (TLS_ZMM_idx_SLOT (TO_XMM_REG_INDEX spill)) OPSZ_16 in
      let i2 := RESTORE_SIMD_FROM_SIZED_TLS spill (TLS_ZMM_idx_SLOT (TO_XMM_REG_INDEX src2_reg)) OPSZ_16 in
      let i3 := INSTR_CREATE_3 OP_vpsubb dop (opnd_create_reg src1_reg) sop in
      let i4 := RESTORE_SIMD_FROM_SIZED_TLS spill (TLS_ZMM_idx_SLOT (TO_XMM_REG_INDEX spill)) OPSZ_16 in
      rw_replace [i1; i2; i3; i4]
  | _ =>
      rw_removed_null
  end.

Definition vpmulld_xmm_and_xmm_gen (src1_reg src2_reg dst_reg mask_reg : reg_id_t) : rw_result :=
  let src1_need_spill := (if NEED_SPILL_XMM src1_reg then 1 else 0) in
  let src2_need_spill := (if NEED_SPILL_XMM src2_reg then 2 else 0) in
  let dst_need_spill := (if NEED_SPILL_XMM dst_reg then 4 else 0) in
  let need_spill := Z.lor (Z.lor src1_need_spill src2_need_spill) dst_need_spill in
  match need_spill with
  | 0 =>
      let dst_opnd := opnd_create_reg dst_reg in
      let src_opnd1 := opnd_create_reg src1_reg in
      let src_opnd2 := opnd_create_reg src2_reg in
      let i1 := INSTR_CREATE_3 OP_vpmulld dst_opnd src_opnd1 src_opnd2 in
      rw_replace [i1]
  | 1 =>
      let spill_src1_reg := find_available_spill_xmm_avoiding src2_reg dst_reg DR_REG_NULL in
      let spill_src1_opnd := opnd_create_reg spill_src1_reg in
      let dst_opnd := opnd_create_reg dst_reg in
      let src2_opnd := opnd_create_reg src2_reg in
      let i1 := SAVE_SIMD_TO_SIZED_TLS spill_src1_reg (TLS_ZMM_idx_SLOT (TO_XMM_REG_INDEX spill_src1_reg)) OPSZ_16 in
      let i2 := RESTORE_SIMD_FROM_SIZED_TLS spill_src1_reg (TLS_ZMM_idx_SLOT (TO_XMM_REG_INDEX src1_reg)) OPSZ_16 in
      let i3 := INSTR_CREATE_3 OP_vpmulld dst_opnd spill_src1_opnd src2_opnd in
      let i4 := RESTORE_SIMD_FROM_SIZED_TLS spill_src1_reg (TLS_ZMM_idx_SLOT (TO_YMM_REG_INDEX spill_src1_reg)) OPSZ_32 in
      rw_replace [i1; i2; i3; i4]
  | 2 =>
      let s2 := find_available_spill_xmm_avoiding src1_reg dst_reg DR_REG_NULL in
      let i1 := SAVE_SIMD_TO_SIZED_TLS s2 (TLS_ZMM_idx_SLOT (TO_XMM_REG_INDEX s2)) OPSZ_16 in
      let i2 := RESTORE_SIMD_FROM_SIZED_TLS s2 (TLS_ZMM_idx_SLOT (TO_XMM_REG_INDEX src2_reg)) OPSZ_16 in
      let i3 := INSTR_CREATE_3 OP_vpmulld (opnd_create_reg dst_reg) (opnd_create_reg src1_reg) (opnd_create_reg s2) in
      let i4 := RESTORE_SIMD_FROM_SIZED_TLS s2 (TLS_ZMM_idx_SLOT (TO_XMM_REG_INDEX s2)) OPSZ_16 in
      rw_replace [i1; i2; i3; i4]
  | 3 =>
      let s1 := find_one_available_spill_xmm dst_reg in
      let s2 := find_available_spill_xmm_avoiding dst_reg s1 DR_REG_NULL in
      let i1 := SAVE_SIMD_TO_SIZED_TLS s1 (TLS_ZMM_idx_SLOT (TO_XMM_REG_INDEX s1)) OPSZ_16 in
      let i2 := SAVE_SIMD_TO_SIZED_TLS s2 (TLS_ZMM_idx_SLOT (TO_XMM_REG_INDEX s2)) OPSZ_16 in
      let i3 := RESTORE_SIMD_FROM_SIZED_TLS s1 (TLS_ZMM_idx_SLOT (TO_XMM_REG_INDEX src1_reg)) OPSZ_16 in
      let i4 := RESTORE_SIMD_FROM_SIZED_TLS s2 (TLS_ZMM_idx_SLOT (TO_XMM_REG_INDEX src2_reg)) OPSZ_16 in
      let i5 := INSTR_CREATE_3 OP_vpmulld (opnd_create_reg dst_reg) (opnd_create_reg s1) (opnd_create_reg s2) in
      let i6 := RESTORE_SIMD_FROM_SIZED_TLS s2 (TLS_ZMM_idx_SLOT (TO_XMM_REG_INDEX s2)) OPSZ_16 in
      let i7 := RESTORE_SIMD_FROM_SIZED_TLS s1 (TLS_ZMM_idx_SLOT (TO_XMM_REG_INDEX s1)) OPSZ_16 in
      rw_replace [i1; i2; i3; i4; i5; i6; i7]
  | 4 =>
      let t := find_available_spill_xmm_avoiding src1_reg src2_reg DR_REG_NULL in
      let i1 := SAVE_SIMD_TO_SIZED_TLS t (TLS_ZMM_idx_SLOT (TO_XMM_REG_INDEX t)) OPSZ_16 in
      let i2 := INSTR_CREATE_3 OP_vpmulld (opnd_create_reg t) (opnd_create_reg src1_reg) (opnd_create_reg src2_reg) in
      let i3 := SAVE_SIMD_TO_SIZED_TLS t (TLS_ZMM_idx_SLOT (TO_XMM_REG_INDEX dst_reg)) OPSZ_16 in
      let i4 := RESTORE_SIMD_FROM_SIZED_TLS t (TLS_ZMM_idx_SLOT (TO_XMM_REG_INDEX t)) OPSZ_16 in
      rw_replace [i1; i2; i3; i4]
  | 5 =>
      let spill_src1_reg := find_available_spill_xmm_avoiding src2_reg dst_reg DR_REG_NULL in
      let spill_src1_opnd := opnd_create_reg spill_src1_reg in
      let spill_dst_opnd := spill_src1_opnd in
      let src2_opnd := opnd_create_reg src2_reg in
      let i1 := SAVE_SIMD_TO_SIZED_TLS spill_src1_reg (TLS_ZMM_idx_SLOT (TO_XMM_REG_INDEX spill_src1_reg)) OPSZ_16 in
      let i2 := RESTORE_SIMD_FROM_SIZED_TLS spill_src1_reg (TLS_ZMM_idx_SLOT (TO_XMM_REG_INDEX src1_reg)) OPSZ_16 in
      let i3 := INSTR_CREATE_3 OP_vpmulld spill_dst_opnd spill_src1_opnd src2_opnd in
      let i4 := SAVE_SIMD_TO_SIZED_TLS spill_src1_reg (TLS_ZMM_idx_SLOT (TO_XMM_REG_INDEX dst_reg)) OPSZ_16 in
      let i5 := RESTORE_SIMD_FROM_SIZED_TLS spill_src1_reg (TLS_ZMM_idx_SLOT (TO_XMM_REG_INDEX spill_src1_reg)) OPSZ_16 in
      rw_replace [i1; i2; i3; i4; i5]
  | 6 =>
      let spill_src2_reg := find_available_spill_xmm_avoiding src1_reg dst_reg DR_REG_NULL in
      let spill_src2_opnd := opnd_create_reg spill_src2_reg in
      let spill_dst_opnd := spill_src2_opnd in
      let src1_opnd := opnd_create_reg src1_reg in
      let i1 := SAVE_SIMD_TO_SIZED_TLS spill_src2_reg (TLS_ZMM_idx_SLOT (TO_XMM_REG_INDEX spill_src2_reg)) OPSZ_16 in
      let i2 := RESTORE_SIMD_FROM_SIZED_TLS spill_src2_reg (TLS_ZMM_idx_SLOT (TO_XMM_REG_INDEX src2_reg)) OPSZ_16 in
      let i3 := INSTR_CREATE_3 OP_vpmulld spill_dst_opnd src1_opnd spill_src2_opnd in
      let i4 := SAVE_SIMD_TO_SIZED_TLS spill_src2_reg (TLS_ZMM_idx_SLOT (TO_XMM_REG_INDEX dst_reg)) OPSZ_16 in
      let i5 := RESTORE_SIMD_FROM_SIZED_TLS spill_src2_reg (TLS_ZMM_idx_SLOT (TO_XMM_REG_INDEX spill_src2_reg)) OPSZ_16 in
      rw_replace [i1; i2; i3; i4; i5]
  | 7 =>
      rw_removed_null
  | _ =>
      rw_removed_null
  end.

(** ** The shared text *)

(** Two combinations of high registers are translated wrongly whatever the
    registers are: both sources high with a low destination (the second spill
    register is not restored), and second source and destination high (the
    spill register is not restored and the first source is overwritten). *)
Definition xmm_binop_supported (a b d : Z) : bool :=
  negb ((16 <=? a) && (16 <=? b) && (d <? 16)) && negb ((a <? 16) && (16 <=? b) && (16 <=? d)) &&
  negb ((a <? 16) && (16 <=? b) && (a =? d) && (d =? 10)).

Lemma xmm_binop_supported_inv a b d :
  xmm_binop_supported a b d = true ->
  (16 <= a -> 16 <= b -> d < 16 -> False) /\ (a < 16 -> 16 <= b -> 16 <= d -> False) /\
  (a < 16 -> 16 <= b -> a = d -> distinct d 10).
Proof.
  unfold xmm_binop_supported, distinct; intros H.
  destruct (Z.leb_spec 16 a), (Z.leb_spec 16 b), (Z.leb_spec 16 d), (Z.ltb_spec a 16), (Z.ltb_spec d 16),
    (Z.eqb_spec a d), (Z.eqb_spec d 10); cbn [andb negb] in H; try discriminate H; lia.
Qed.

Lemma xmm_binop_correct op f (Hop : lane_binop op = Some f) (Hf : LaneOp f) a b d mask :
  0 <= a < 32 -> 0 <= b < 32 -> 0 <= d < 32 -> xmm_binop_supported a b d = true ->
  rewrites_if (xmm_pre d) (vec_binop 1 f d a b) (xmm_binop_gen op (xmm a) (xmm b) (xmm d) mask).
Proof.
  intros Ha Hb Hd Hs; destruct (xmm_binop_supported_inv a b d Hs) as (H3 & H6 & Hc); clear Hs.
  unfold xmm_binop_gen; xmm_cases a b d;
    try (exfalso; apply H3; assumption); try (exfalso; apply H6; assumption); clear H3 H6;
    alias_cases; try specialize (Hc ltac:(assumption) ltac:(assumption) eq_refl);
    emit_code_if Hop; sym_solve_xmm.
Qed.

(** ** The other generators *)

(** An operation on xmm registers, in one of the two forms. *)
Definition xmm_op (op : opcode) (f : Z -> Z -> Z) : Prop := lane_binop op = Some f \/ lane_binop128 op = Some f.

Lemma xmm_slots_correct op f (Hop : xmm_op op f) (Hf : LaneOp f) a b d mask :
  0 <= a < 32 -> 0 <= b < 32 -> 0 <= d < 32 -> ymm_fixed_conflict a b d = false ->
  rewrites_if (xmm_pre d) (vec_binop 1 f d a b) (xmm_slots_gen op (xmm a) (xmm b) (xmm d) mask).
Proof.
  intros Ha Hb Hd Hn; destruct (ymm_fixed_no_conflict a b d Hn) as (Hc & H3 & H5 & H6); clear Hn.
  unfold xmm_slots_gen; xmm_cases a b d; alias_cases;
    try specialize (Hc ltac:(assumption) eq_refl);
    try destruct (H3 ltac:(assumption) ltac:(assumption));
    try specialize (H5 ltac:(assumption) ltac:(assumption));
    try specialize (H6 ltac:(assumption) ltac:(assumption));
    destruct Hop as [Hop|Hop]; emit_code_if Hop; sym_solve_xmm.
Qed.

Lemma vpsubw_xmm_correct a b d mask :
  0 <= a < 32 -> 0 <= b < 32 -> 0 <= d < 32 -> ymm_fixed_conflict a b d = false ->
  rewrites_if (xmm_pre d) (vec_binop 1 (psub 16) d a b) (vpsubw_xmm_and_xmm_gen (xmm a) (xmm b) (xmm d) mask).
Proof. apply xmm_slots_correct; [now left|typeclasses eauto]. Qed.

(** [vpsubb] is supported when at most one source is high and the destination
    is low; [vpmulld] when not all three are high and the first source is not
    the only high register. *)
Definition vpsubb_xmm_supported (a b d : Z) : bool :=
  (d <? 16) && negb ((16 <=? a) && (16 <=? b)) && negb (vpaddd_ymm_conflict a b d).

Definition vpmulld_xmm_supported (a b d : Z) : bool :=
  negb ((16 <=? a) && (16 <=? b) && (16 <=? d)) && negb ((16 <=? a) && (b <? 16) && (d <? 16)).

Lemma vpsubb_xmm_correct a b d mask :
  0 <= a < 32 -> 0 <= b < 32 -> 0 <= d < 32 -> vpsubb_xmm_supported a b d = true ->
  rewrites_if (xmm_pre d) (vec_binop 1 (psub 8) d a b) (vpsubb_xmm_and_xmm_gen (xmm a) (xmm b) (xmm d) mask).
Proof.
  intros Ha Hb Hd Hs; unfold vpsubb_xmm_supported in Hs.
  apply andb_true_iff in Hs as [Hs Hn]; apply negb_true_iff in Hn.
  pose proof (vpaddd_ymm_no_conflict a b d Hn) as Hc; clear Hn.
  pose proof (eq_refl : lane_binop OP_vpsubb = Some (psub 8)) as Hop.
  pose proof psub8_op as Hf.
  unfold vpsubb_xmm_and_xmm_gen; destruct (Z.ltb_spec d 16); [|discriminate Hs].
  xmm_cases a b d; try discriminate Hs; try lia; alias_cases;
    try specialize (Hc ltac:(assumption) eq_refl); emit_code_if Hop; sym_solve_xmm.
Qed.

Lemma vpmulld_xmm_correct a b d mask :
  0 <= a < 32 -> 0 <= b < 32 -> 0 <= d < 32 -> vpmulld_xmm_supported a b d = true ->
  rewrites_if (xmm_pre d) (vec_binop 1 (pmull 32) d a b) (vpmulld_xmm_and_xmm_gen (xmm a) (xmm b) (xmm d) mask).
Proof.
  intros Ha Hb Hd Hs; unfold vpmulld_xmm_supported in Hs.
  pose proof (eq_refl : lane_binop OP_vpmulld = Some (pmull 32)) as Hop.
  pose proof pmull32_op as Hf.
  unfold vpmulld_xmm_and_xmm_gen.
  destruct (Z.ltb_spec b 16), (Z.ltb_spec d 16);
    xmm_cases a b d; try discriminate Hs; try lia; alias_cases; emit_code_if Hop; sym_solve_xmm.
Qed.

(** ** Theorems *)

(** C26: [vpaddd], [vpaddw], [vpsubd], [vpsubq] and [vpandq] on xmm registers: on
    the supported operand combinations the emitted code has the effect of the
    128-bit instruction, upper bits zeroed, from states in which the upper bits
    it does not write are zero already. *)
Theorem xmm_binops_correct a b d mask :
  0 <= a < 32 -> 0 <= b < 32 -> 0 <= d < 32 -> xmm_binop_supported a b d = true ->
  rewrites_if (xmm_pre d) (vec_binop 1 (padd 32) d a b) (vpaddd_xmm_and_xmm_gen (xmm a) (xmm b) (xmm d) mask) /\
  rewrites_if (xmm_pre d) (vec_binop 1 (padd 16) d a b) (vpaddw_xmm_and_xmm_gen (xmm a) (xmm b) (xmm d) mask) /\
  rewrites_if (xmm_pre d) (vec_binop 1 (psub 32) d a b) (vpsubd_xmm_and_xmm_gen (xmm a) (xmm b) (xmm d) mask) /\
  rewrites_if (xmm_pre d) (vec_binop 1 (psub 64) d a b) (vpsubq_xmm_and_xmm_gen (xmm a) (xmm b) (xmm d) mask) /\
  rewrites_if (xmm_pre d) (vec_binop 1 pand d a b) (vpandq_xmm_and_xmm_gen (xmm a) (xmm b) (xmm d) mask).
Proof.
  intros; repeat split; apply xmm_binop_correct; try reflexivity; try assumption; typeclasses eauto.
Qed.

(** Evaluate a precondition at a concrete state and register. *)
Ltac eval_upper_zero :=
  intros l Hl; assert (l = 1 \/ l = 2 \/ l = 3) as [-> | [-> | ->]] by lia; vm_compute; reflexivity.
Ltac eval_xmm_pre :=
  split; [eval_upper_zero|];
  intros i Hi; assert (i = 10 \/ i = 11 \/ i = 12 \/ i = 13 \/ i = 14 \/ i = 15)
    as [-> | [-> | [-> | [-> | [-> | ->]]]]] by lia; vm_compute; reflexivity.

Lemma xmm_binops_correct_witness :
  rewrites_if (xmm_pre 20) (vec_binop 1 (padd 32) 20 21 3) (vpaddd_xmm_and_xmm_gen (xmm 21) (xmm 3) (xmm 20) DR_REG_K0)
  /\ xmm_pre 20 (view (probe_low 0)).
Proof.
  split; [apply (xmm_binops_correct 21 3 20 DR_REG_K0); reflexivity || lia|eval_xmm_pre].
Defined.

(** [vpsubw], [vpsubb] and [vpmulld] on xmm registers, each on the combinations
    its own branches cover. *)
Theorem xmm_partial_binops_correct a b d mask :
  0 <= a < 32 -> 0 <= b < 32 -> 0 <= d < 32 ->
  (ymm_fixed_conflict a b d = false ->
   rewrites_if (xmm_pre d) (vec_binop 1 (psub 16) d a b) (vpsubw_xmm_and_xmm_gen (xmm a) (xmm b) (xmm d) mask)) /\
  (vpsubb_xmm_supported a b d = true ->
   rewrites_if (xmm_pre d) (vec_binop 1 (psub 8) d a b) (vpsubb_xmm_and_xmm_gen (xmm a) (xmm b) (xmm d) mask)) /\
  (vpmulld_xmm_supported a b d = true ->
   rewrites_if (xmm_pre d) (vec_binop 1 (pmull 32) d a b) (vpmulld_xmm_and_xmm_gen (xmm a) (xmm b) (xmm d) mask)).
Proof.
  intros Ha Hb Hd; split; [|split]; intros Hs;
    [now apply vpsubw_xmm_correct|now apply vpsubb_xmm_correct|now apply vpmulld_xmm_correct].
Qed.

Lemma xmm_partial_binops_correct_witness :
  rewrites_if (xmm_pre 25) (vec_binop 1 (pmull 32) 25 3 20) (vpmulld_xmm_and_xmm_gen (xmm 3) (xmm 20) (xmm 25) DR_REG_K0).
Proof. apply (xmm_partial_binops_correct 3 20 25 DR_REG_K0); reflexivity || lia. Defined.

(** The combinations left out are translated wrongly, even from states that
    satisfy the precondition: [vpaddd xmm2, xmm16, xmm17] leaves xmm11 changed,
    [vpaddd xmm20, xmm2, xmm21] leaves xmm10 changed, and [vpmulld xmm2, xmm16,
    xmm1] ends in an instruction that does not encode (its offset is computed
    with the ymm macro from an xmm id). *)
Theorem xmm_binops_wrong :
  ~ rewrites_if (xmm_pre 2) (vec_binop 1 (padd 32) 2 16 17) (vpaddd_xmm_and_xmm_gen (xmm 16) (xmm 17) (xmm 2) DR_REG_K0) /\
  ~ rewrites_if (xmm_pre 20) (vec_binop 1 (padd 32) 20 2 21) (vpaddd_xmm_and_xmm_gen (xmm 2) (xmm 21) (xmm 20) DR_REG_K0) /\
  ~ rewrites_if (xmm_pre 2) (vec_binop 1 (pmull 32) 2 16 1) (vpmulld_xmm_and_xmm_gen (xmm 16) (xmm 1) (xmm 2) DR_REG_K0).
Proof.
  split; [|split].
  - apply (not_rewrites_if_lane _ _ _ (probe_low 0) 11 0);
      [apply probe_low_wf|eval_xmm_pre|lia|lia|vm_compute; congruence].
  - apply (not_rewrites_if_lane _ _ _ (probe_low 0) 10 0);
      [apply probe_low_wf|eval_xmm_pre|lia|lia|vm_compute; congruence].
  - apply (not_rewrites_if_lane _ _ _ (probe_low 0) 2 0);
      [apply probe_low_wf|eval_xmm_pre|lia|lia|vm_compute; congruence].
Qed.

(** A 128-bit save and restore does not preserve a ymm spill register: after
    [vpaddd xmm2, xmm16, xmm1] bits 255:128 of ymm10 are gone. *)
Theorem xmm_spill_loses_upper_half :
  ~ rewrites_if (upper_zero 1 2) (vec_binop 1 (padd 32) 2 16 1)
      (vpaddd_xmm_and_xmm_gen (xmm 16) (xmm 1) (xmm 2) DR_REG_K0).
Proof.
  apply (not_rewrites_if_lane _ _ _ (probe_low 5) 10 1);
    [apply probe_low_wf|eval_upper_zero|lia|lia|vm_compute; congruence].
Qed.
