(* ===== verification/GenMov.v ===== *)
(** * Register-to-register moves

    [vmovdqu8/16/32/64] on zmm registers (one text, [zmm_mov_gen]), [vmovaps] on
    zmm, ymm and xmm registers and [vmovdqu32] on xmm registers. *)
From Stdlib Require Import ZArith List Bool Lia.
From S2P Require Import Prelude Regs Spill Bytes Lanes Machine Arch512 SymExec GenXmm.
Import ListNotations.
#[local] Open Scope Z_scope.
#[local] Open Scope bool_scope.
#[local] Open Scope rw_scope.

(** ** Generators *)

(** [create_mapping_ymm_opnd]: the mapping it is named after is disabled. *)
Definition create_mapping_ymm_opnd (ymm_reg : reg_id_t) : opnd_t := opnd_create_reg ymm_reg.
Definition create_mapping_xmm_opnd (xmm_reg : reg_id_t) : opnd_t := opnd_create_reg xmm_reg.

(** The text of [vmovdqu8_zmm_reg2reg_gen], [vmovdqu16_zmm_reg2reg_gen],
    [vmovdqu32_zmm_reg2reg_gen] and [vmovdqu64_zmm_reg2reg_gen]: the element
    size only matters under a mask. *)
Definition zmm_mov_gen (src_reg dst_reg mask_reg : reg_id_t) : rw_result :=
  let src_need_spill_flag := (if NEED_SPILL_ZMM src_reg then 1 else 0) in
  let dst_need_spill_flag := (if NEED_SPILL_ZMM dst_reg then 2 else 0) in
  let need_spill_flag := Z.lor src_need_spill_flag dst_need_spill_flag in
  match need_spill_flag with
  | 0 =>
      let src_lower := ZMM_TO_YMM src_reg in
      let dst_lower := ZMM_TO_YMM dst_reg in
      let src_upper := find_available_spill_ymm_avoiding src_lower dst_lower DR_REG_NULL in
      let op_src_lower := opnd_create_reg src_lower in
      let op_dst_lower := opnd_create_reg dst_lower in
      let i1 := SAVE_SIMD_TO_SIZED_TLS src_upper (TLS_ZMM_idx_SLOT (TO_YMM_REG_INDEX src_upper)) OPSZ_32 in
      let i2 := INSTR_CREATE_2 OP_vmovdqu op_dst_lower op_src_lower in
      let i3 := RESTORE_SIMD_FROM_SIZED_TLS src_upper ((TLS_ZMM_idx_SLOT (TO_ZMM_REG_INDEX src_reg)) + SIZE_OF_YMM) OPSZ_32 in
      let i4 := SAVE_SIMD_TO_SIZED_TLS src_upper ((TLS_ZMM_idx_SLOT (TO_ZMM_REG_INDEX dst_reg)) + SIZE_OF_YMM) OPSZ_32 in
      let i5 := RESTORE_SIMD_FROM_SIZED_TLS src_upper (TLS_ZMM_idx_SLOT (TO_YMM_REG_INDEX src_upper)) OPSZ_32 in
      rw_replace [i1; i2; i3; i4; i5]
  | 1 =>
      let dst_lower := ZMM_TO_YMM dst_reg in
      let src_spill_reg := find_one_available_spill_ymm dst_lower in
      let op_src_spill := opnd_create_reg src_spill_reg in
      let op_dst_lower := opnd_create_reg dst_lower in
      let i1 := SAVE_SIMD_TO_SIZED_TLS src_spill_reg (TLS_ZMM_idx_SLOT (TO_YMM_REG_INDEX src_spill_reg)) OPSZ_32 in
      let i2 := RESTORE_SIMD_FROM_SIZED_TLS src_spill_reg (TLS_ZMM_idx_SLOT (TO_ZMM_REG_INDEX src_reg)) OPSZ_32 in
      let i3 := INSTR_CREATE_2 OP_vmovdqu op_dst_lower op_src_spill in
      let i4 := RESTORE_SIMD_FROM_SIZED_TLS src_spill_reg ((TLS_ZMM_idx_SLOT (TO_ZMM_REG_INDEX src_reg)) + SIZE_OF_YMM) OPSZ_32 in
      let i5 := SAVE_SIMD_TO_SIZED_TLS src_spill_reg ((TLS_ZMM_idx_SLOT (TO_ZMM_REG_INDEX dst_reg)) + SIZE_OF_YMM) OPSZ_32 in
      let i6 := RESTORE_SIMD_FROM_SIZED_TLS src_spill_reg (TLS_ZMM_idx_SLOT (TO_YMM_REG_INDEX src_spill_reg)) OPSZ_32 in
      rw_replace [i1; i2; i3; i4; i5; i6]
  | 2 =>
      let src_lower := ZMM_TO_YMM src_reg in
      let dst_spill_reg := find_one_available_spill_ymm src_lower in
      let i1 := SAVE_SIMD_TO_SIZED_TLS dst_spill_reg (TLS_ZMM_idx_SLOT (TO_YMM_REG_INDEX dst_spill_reg)) OPSZ_32 in
      let i2 := SAVE_SIMD_TO_SIZED_TLS src_lower (TLS_ZMM_idx_SLOT (TO_ZMM_REG_INDEX dst_reg)) OPSZ_32 in
      let i3 := RESTORE_SIMD_FROM_SIZED_TLS dst_spill_reg ((TLS_ZMM_idx_SLOT (TO_ZMM_REG_INDEX src_reg)) + SIZE_OF_YMM) OPSZ_32 in
      let i4 := SAVE_SIMD_TO_SIZED_TLS dst_spill_reg ((TLS_ZMM_idx_SLOT (TO_ZMM_REG_INDEX dst_reg)) + SIZE_OF_YMM) OPSZ_32 in
      let i5 := RESTORE_SIMD_FROM_SIZED_TLS dst_spill_reg (TLS_ZMM_idx_SLOT (TO_YMM_REG_INDEX dst_spill_reg)) OPSZ_32 in
      rw_replace [i1; i2; i3; i4; i5]
  | 3 =>
      let ymm_spill := YMM_SPILL_SLOT0 in
      let i1 := SAVE_SIMD_TO_SIZED_TLS ymm_spill (TLS_ZMM_idx_SLOT (TO_YMM_REG_INDEX ymm_spill)) OPSZ_32 in
      let i2 := RESTORE_SIMD_FROM_SIZED_TLS ymm_spill (TLS_ZMM_idx_SLOT (TO_ZMM_REG_INDEX src_reg)) OPSZ_32 in
      let i3 := SAVE_SIMD_TO_SIZED_TLS ymm_spill (TLS_ZMM_idx_SLOT (TO_ZMM_REG_INDEX dst_reg)) OPSZ_32 in
      let i4 := RESTORE_SIMD_FROM_SIZED_TLS ymm_spill ((TLS_ZMM_idx_SLOT (TO_ZMM_REG_INDEX src_reg)) + SIZE_OF_YMM) OPSZ_32 in
      let i5 := SAVE_SIMD_TO_SIZED_TLS ymm_spill ((TLS_ZMM_idx_SLOT (TO_ZMM_REG_INDEX dst_reg)) + SIZE_OF_YMM) OPSZ_32 in
      let i6 := RESTORE_SIMD_FROM_SIZED_TLS ymm_spill (TLS_ZMM_idx_SLOT (TO_YMM_REG_INDEX ymm_spill)) OPSZ_32 in
      rw_replace [i1; i2; i3; i4; i5; i6]
  | _ =>
      rw_removed_null
  end.

Definition vmovdqu8_zmm_reg2reg_gen := zmm_mov_gen.
Definition vmovdqu16_zmm_reg2reg_gen := zmm_mov_gen.
Definition vmovdqu32_zmm_reg2reg_gen := zmm_mov_gen.
Definition vmovdqu64_zmm_reg2reg_gen := zmm_mov_gen.

Definition vmovaps_zmm_reg2reg_gen (src1_reg dst_reg mask_reg : reg_id_t) : rw_result :=
  let src1_need_spill_flag := (if NEED_SPILL_ZMM src1_reg then 1 else 0) in
  let dst_need_spill_flag := (if NEED_SPILL_ZMM dst_reg then 2 else 0) in
  let need_spill_flag := Z.lor src1_need_spill_flag dst_need_spill_flag in
  match need_spill_flag with
  | 0 =>
      let src1_lower := ZMM_TO_YMM src1_reg in
      let dst_lower := ZMM_TO_YMM dst_reg in
      let src1_upper := find_available_spill_ymm_avoiding src1_lower dst_lower DR_REG_NULL in
      let dst_upper := find_available_spill_ymm_avoiding src1_lower src1_upper dst_lower in
      let op_src1_lower := opnd_create_reg src1_lower in
      let op_src1_upper := opnd_create_reg src1_upper in
      let op_dst_lower := opnd_create_reg dst_lower in
      let op_dst_upper := opnd_create_reg dst_upper in
      let i1 := SAVE_SIMD_TO_SIZED_TLS src1_upper (TLS_ZMM_idx_SLOT (TO_YMM_REG_INDEX src1_upper)) OPSZ_32 in
      let i2 := SAVE_SIMD_TO_SIZED_TLS dst_upper (TLS_ZMM_idx_SLOT (TO_YMM_REG_INDEX dst_upper)) OPSZ_32 in
      let i3 := RESTORE_SIMD_FROM_SIZED_TLS src1_upper ((TLS_ZMM_idx_SLOT (TO_ZMM_REG_INDEX src1_reg)) + SIZE_OF_YMM) OPSZ_32 in
      let i4 := RESTORE_SIMD_FROM_SIZED_TLS dst_upper ((TLS_ZMM_idx_SLOT (TO_ZMM_REG_INDEX dst_reg)) + SIZE_OF_YMM) OPSZ_32 in
      let i5 := INSTR_CREATE_2 OP_vmovaps op_dst_lower op_src1_lower in
      let i6 := INSTR_CREATE_2 OP_vmovaps op_dst_upper op_src1_upper in
      let i7 := SAVE_SIMD_TO_SIZED_TLS dst_lower (TLS_ZMM_idx_SLOT (TO_ZMM_REG_INDEX dst_reg)) OPSZ_32 in
      let i8 := SAVE_SIMD_TO_SIZED_TLS dst_upper ((TLS_ZMM_idx_SLOT (TO_ZMM_REG_INDEX dst_reg)) + SIZE_OF_YMM) OPSZ_32 in
      let i9 := RESTORE_SIMD_FROM_SIZED_TLS src1_upper (TLS_ZMM_idx_SLOT (TO_YMM_REG_INDEX src1_upper)) OPSZ_32 in
      let i10 := RESTORE_SIMD_FROM_SIZED_TLS dst_upper (TLS_ZMM_idx_SLOT (TO_YMM_REG_INDEX dst_upper)) OPSZ_32 in
      rw_replace [i1; i2; i3; i4; i5; i6; i7; i8; i9; i10]
  | 1 =>
      rw_removed_null
  | 2 =>
      rw_removed_null
  | 3 =>
      let spill_src1_lower := find_one_available_spill_ymm DR_REG_NULL in
      let spill_src1_upper := find_one_available_spill_ymm spill_src1_lower in
      let spill_dst_lower := find_one_available_spill_ymm spill_src1_upper in
      let spill_dst_upper := find_one_available_spill_ymm spill_dst_lower in
      let op_spill_src1_lower := create_mapping_ymm_opnd spill_src1_lower in
      let op_spill_src1_upper := create_mapping_ymm_opnd spill_src1_upper in
      let op_spill_dst_lower := create_mapping_ymm_opnd spill_dst_lower in
      let op_spill_dst_upper := create_mapping_ymm_opnd spill_dst_upper in
      let i1 := SAVE_SIMD_TO_SIZED_TLS spill_src1_lower (TLS_ZMM_idx_SLOT (TO_YMM_REG_INDEX spill_src1_lower)) OPSZ_32 in
      let i2 := SAVE_SIMD_TO_SIZED_TLS spill_src1_upper (TLS_ZMM_idx_SLOT (TO_YMM_REG_INDEX spill_src1_upper)) OPSZ_32 in
      let i3 := SAVE_SIMD_TO_SIZED_TLS spill_dst_lower (TLS_ZMM_idx_SLOT (TO_YMM_REG_INDEX spill_dst_lower)) OPSZ_32 in
      let i4 := SAVE_SIMD_TO_SIZED_TLS spill_dst_upper (TLS_ZMM_idx_SLOT (TO_YMM_REG_INDEX spill_dst_upper)) OPSZ_32 in
      let i5 := RESTORE_SIMD_FROM_SIZED_TLS spill_src1_lower (TLS_ZMM_idx_SLOT (TO_ZMM_REG_INDEX src1_reg)) OPSZ_32 in
      let i6 := RESTORE_SIMD_FROM_SIZED_TLS spill_src1_upper ((TLS_ZMM_idx_SLOT (TO_ZMM_REG_INDEX src1_reg)) + SIZE_OF_YMM) OPSZ_32 in
      let i7 := INSTR_CREATE_2 OP_vmovaps op_spill_dst_lower op_spill_src1_lower in
      let i8 := INSTR_CREATE_2 OP_vmovaps op_spill_dst_upper op_spill_src1_upper in
      let i9 := SAVE_SIMD_TO_SIZED_TLS spill_dst_lower (TLS_ZMM_idx_SLOT (TO_ZMM_REG_INDEX dst_reg)) OPSZ_32 in
      let i10 := SAVE_SIMD_TO_SIZED_TLS spill_dst_upper ((TLS_ZMM_idx_SLOT (TO_ZMM_REG_INDEX dst_reg)) + SIZE_OF_YMM) OPSZ_32 in
      let i11 := RESTORE_SIMD_FROM_SIZED_TLS spill_src1_lower (TLS_ZMM_idx_SLOT (TO_YMM_REG_INDEX spill_src1_lower)) OPSZ_32 in
      let i12 := RESTORE_SIMD_FROM_SIZED_TLS spill_src1_upper (TLS_ZMM_idx_SLOT (TO_YMM_REG_INDEX spill_src1_upper)) OPSZ_32 in
      let i13 := RESTORE_SIMD_FROM_SIZED_TLS spill_dst_lower (TLS_ZMM_idx_SLOT (TO_YMM_REG_INDEX spill_dst_lower)) OPSZ_32 in
      let i14 := RESTORE_SIMD_FROM_SIZED_TLS spill_dst_upper (TLS_ZMM_idx_SLOT (TO_YMM_REG_INDEX spill_dst_upper)) OPSZ_32 in
      rw_replace [i1; i2; i3; i4; i5; i6; i7; i8; i9; i10; i11; i12; i13; i14]
  | _ =>
      rw_removed_null
  end.

Definition vmovaps_ymm_reg2reg_gen (src1_reg dst_reg mask_reg : reg_id_t) : rw_result :=
  let src1_need_spill_flag := (if NEED_SPILL_YMM src1_reg then 1 else 0) in
  let dst_need_spill_flag := (if NEED_SPILL_YMM dst_reg then 2 else 0) in
  let need_spill_flag := Z.lor src1_need_spill_flag dst_need_spill_flag in
  match need_spill_flag with
  | 0 =>
      let src1_opnd := create_mapping_ymm_opnd src1_reg in
      let dst_opnd := create_mapping_ymm_opnd dst_reg in
      let i1 := INSTR_CREATE_2 OP_vmovaps dst_opnd src1_opnd in
      rw_replace [i1]
  | 1 =>
      let spill_src1_reg := find_one_available_spill_ymm dst_reg in
      let spill_src1_opnd := create_mapping_ymm_opnd spill_src1_reg in
      let dst_opnd := create_mapping_ymm_opnd dst_reg in
      let i1 := SAVE_SIMD_TO_SIZED_TLS spill_src1_reg (TLS_ZMM_idx_SLOT (TO_YMM_REG_INDEX spill_src1_reg)) OPSZ_32 in
      let i2 := RESTORE_SIMD_FROM_SIZED_TLS spill_src1_reg (TLS_ZMM_idx_SLOT (TO_YMM_REG_INDEX src1_reg)) OPSZ_32 in
      let i3 := INSTR_CREATE_2 OP_vmovaps dst_opnd spill_src1_opnd in
      let i4 := RESTORE_SIMD_FROM_SIZED_TLS spill_src1_reg (TLS_ZMM_idx_SLOT (TO_YMM_REG_INDEX spill_src1_reg)) OPSZ_32 in
      rw_replace [i1; i2; i3; i4]
  | 2 =>
      let spill_dst_reg := find_one_available_spill_ymm src1_reg in
      let spill_dst_opnd := create_mapping_ymm_opnd spill_dst_reg in
      let src1_opnd := create_mapping_ymm_opnd src1_reg in
      let i1 := SAVE_SIMD_TO_SIZED_TLS spill_dst_reg (TLS_ZMM_idx_SLOT (TO_YMM_REG_INDEX spill_dst_reg)) OPSZ_32 in
      let i2 := INSTR_CREATE_2 OP_vmovaps spill_dst_opnd src1_opnd in
      let i3 := SAVE_SIMD_TO_SIZED_TLS spill_dst_reg (TLS_ZMM_idx_SLOT (TO_YMM_REG_INDEX dst_reg)) OPSZ_32 in
      let i4 := RESTORE_SIMD_FROM_SIZED_TLS spill_dst_reg (TLS_ZMM_idx_SLOT (TO_YMM_REG_INDEX spill_dst_reg)) OPSZ_32 in
      rw_replace [i1; i2; i3; i4]
  | 3 =>
      let spill_reg := YMM_SPILL_SLOT0 in
      let spill_opnd := create_mapping_ymm_opnd spill_reg in
      let i1 := SAVE_SIMD_TO_SIZED_TLS spill_reg (TLS_ZMM_idx_SLOT (TO_YMM_REG_INDEX spill_reg)) OPSZ_32 in
      let i2 := RESTORE_SIMD_FROM_SIZED_TLS spill_reg (TLS_ZMM_idx_SLOT (TO_YMM_REG_INDEX src1_reg)) OPSZ_32 in
      let i3 := INSTR_CREATE_2 OP_vmovaps spill_opnd spill_opnd in
      let i4 := SAVE_SIMD_TO_SIZED_TLS spill_reg (TLS_ZMM_idx_SLOT (TO_YMM_REG_INDEX dst_reg)) OPSZ_32 in
      let i5 := RESTORE_SIMD_FROM_SIZED_TLS spill_reg (TLS_ZMM_idx_SLOT (TO_YMM_REG_INDEX spill_reg)) OPSZ_32 in
      rw_replace [i1; i2; i3; i4; i5]
  | _ =>
      rw_removed_null
  end.

Definition vmovaps_xmm_reg2reg_gen (src1_reg dst_reg mask_reg : reg_id_t) : rw_result :=
  let src1_need_spill_flag := (if NEED_SPILL_XMM src1_reg then 1 else 0) in
  let dst_need_spill_flag := (if NEED_SPILL_XMM dst_reg then 2 else 0) in
  let need_spill_flag := Z.lor src1_need_spill_flag dst_need_spill_flag in
  match need_spill_flag with
  | 0 =>
      let src1_opnd := opnd_create_reg src1_reg in
      let dst_opnd := opnd_create_reg dst_reg in
      let i1 := INSTR_CREATE_2 OP_vmovaps dst_opnd src1_opnd in
      rw_replace [i1]
  | 1 =>
      let spill_src1_reg := find_one_available_spill_xmm dst_reg in
      let spill_src1_opnd := opnd_create_reg spill_src1_reg in
      let dst_opnd := opnd_create_reg dst_reg in
      let i1 := SAVE_SIMD_TO_SIZED_TLS spill_src1_reg (TLS_ZMM_idx_SLOT (TO_XMM_REG_INDEX spill_src1_reg)) OPSZ_16 in
      let i2 := RESTORE_SIMD_FROM_SIZED_TLS spill_src1_reg (TLS_ZMM_idx_SLOT (TO_XMM_REG_INDEX src1_reg)) OPSZ_16 in
      let i3 := INSTR_CREATE_2 OP_vmovaps dst_opnd spill_src1_opnd in
      let i4 := RESTORE_SIMD_FROM_SIZED_TLS spill_src1_reg (TLS_ZMM_idx_SLOT (TO_XMM_REG_INDEX spill_src1_reg)) OPSZ_16 in
      rw_replace [i1; i2; i3; i4]
  | 2 =>
      let spill_dst_reg := find_one_available_spill_xmm src1_reg in
      let spill_dst_opnd := opnd_create_reg spill_dst_reg in
      let src1_opnd := opnd_create_reg src1_reg in
      let i1 := SAVE_SIMD_TO_SIZED_TLS spill_dst_reg (TLS_ZMM_idx_SLOT (TO_XMM_REG_INDEX spill_dst_reg)) OPSZ_16 in
      let i2 := INSTR_CREATE_2 OP_vmovaps spill_dst_opnd src1_opnd in
      let i3 := SAVE_SIMD_TO_SIZED_TLS spill_dst_reg (TLS_ZMM_idx_SLOT (TO_XMM_REG_INDEX dst_reg)) OPSZ_16 in
      let i4 := RESTORE_SIMD_FROM_SIZED_TLS spill_dst_reg (TLS_ZMM_idx_SLOT (TO_XMM_REG_INDEX spill_dst_reg)) OPSZ_16 in
      rw_replace [i1; i2; i3; i4]
  | 3 =>
      let spill_reg := XMM_SPILL_SLOT0 in
      let spill_opnd := opnd_create_reg spill_reg in
      let i1 := SAVE_SIMD_TO_SIZED_TLS spill_reg (TLS_ZMM_idx_SLOT (TO_XMM_REG_INDEX spill_reg)) OPSZ_16 in
      let i2 := RESTORE_SIMD_FROM_SIZED_TLS spill_reg (TLS_ZMM_idx_SLOT (TO_XMM_REG_INDEX src1_reg)) OPSZ_16 in
      let i3 := INSTR_CREATE_2 OP_vmovaps spill_opnd spill_opnd in
      let i4 := SAVE_SIMD_TO_SIZED_TLS spill_reg (TLS_ZMM_idx_SLOT (TO_XMM_REG_INDEX dst_reg)) OPSZ_16 in
      let i5 := RESTORE_SIMD_FROM_SIZED_TLS spill_reg (TLS_ZMM_idx_SLOT (TO_XMM_REG_INDEX spill_reg)) OPSZ_16 in
      rw_replace [i1; i2; i3; i4; i5]
  | _ =>
      rw_removed_null
  end.

Definition vmovdqu32_xmm_reg2reg_gen (src_reg dst_reg mask_reg : reg_id_t) : rw_result :=
  let src_need_spill := (if NEED_SPILL_XMM src_reg then 1 else 0) in
  let dst_need_spill := (if NEED_SPILL_XMM dst_reg then 1 else 0) in
  let need_spill := Z.lor src_need_spill dst_need_spill in
  match need_spill with
  | 0 =>
      let op_src := opnd_create_reg src_reg in
      let op_dst := opnd_create_reg dst_reg in
      let i1 := instr_create_1dst_1src OP_vmovdqu op_dst op_src in
      rw_replace [i1]
  | 1 =>
      let i1 := RESTORE_SIMD_FROM_SIZED_TLS dst_reg (TLS_ZMM_idx_SLOT (TO_XMM_REG_INDEX src_reg)) OPSZ_16 in
      rw_replace [i1]
  | 2 =>
      let i1 := SAVE_SIMD_TO_SIZED_TLS src_reg (TLS_ZMM_idx_SLOT (TO_XMM_REG_INDEX dst_reg)) OPSZ_16 in
      rw_replace [i1]
  | 3 =>
      let spill_tmp_reg := XMM_SPILL_SLOT0 in
      let i1 := SAVE_SIMD_TO_SIZED_TLS spill_tmp_reg (TLS_ZMM_idx_SLOT (TO_XMM_REG_INDEX spill_tmp_reg)) OPSZ_16 in
      let i2 := RESTORE_SIMD_FROM_SIZED_TLS spill_tmp_reg (TLS_ZMM_idx_SLOT (TO_XMM_REG_INDEX src_reg)) OPSZ_16 in
      let i3 := SAVE_SIMD_TO_SIZED_TLS spill_tmp_reg (TLS_ZMM_idx_SLOT (TO_XMM_REG_INDEX dst_reg)) OPSZ_16 in
      let i4 := RESTORE_SIMD_FROM_SIZED_TLS spill_tmp_reg (TLS_ZMM_idx_SLOT (TO_XMM_REG_INDEX spill_tmp_reg)) OPSZ_16 in
      rw_replace [i1; i2; i3; i4]
  | _ =>
      rw_removed_null
  end.

(** ** Case analysis on the two operands *)

Ltac mov_cases a d :=
  change YMM_SPILL_SLOT0 with (ymm 10); change XMM_SPILL_SLOT0 with (xmm 10);
  unfold create_mapping_ymm_opnd;
  rewrite ?NEED_SPILL_ZMM_zmm, ?NEED_SPILL_YMM_ymm, ?NEED_SPILL_XMM_xmm, ?ZMM_TO_YMM_zmm,
    ?TO_ZMM_REG_INDEX_zmm, ?TO_YMM_REG_INDEX_ymm, ?TO_XMM_REG_INDEX_xmm by assumption;
  destruct (Z.leb_spec 16 a), (Z.leb_spec 16 d);
  cbv beta iota delta [Z.lor Pos.lor].

Lemma zmm_mov_correct a d mask :
  0 <= a < 32 -> 0 <= d < 32 -> rewrites (vec_mov 4 d a) (zmm_mov_gen (zmm a) (zmm d) mask).
Proof.
  intros Ha Hd; unfold zmm_mov_gen.
  pose proof (eq_refl : lane_mov OP_vmovdqu = Some false) as Hop.
  mov_cases a d; emit_code Hop; sym_solve.
Qed.

(** [vmovaps] on zmm registers emits nothing when exactly one register is high. *)
Definition vmovaps_zmm_supported (a d : Z) : bool := Bool.eqb (16 <=? a) (16 <=? d).

Lemma vmovaps_zmm_correct a d mask :
  0 <= a < 32 -> 0 <= d < 32 -> vmovaps_zmm_supported a d = true ->
  rewrites (vec_mov 4 d a) (vmovaps_zmm_reg2reg_gen (zmm a) (zmm d) mask).
Proof.
  intros Ha Hd Hs; unfold vmovaps_zmm_reg2reg_gen; unfold vmovaps_zmm_supported in Hs.
  pose proof (eq_refl : lane_mov OP_vmovaps = Some true) as Hop.
  destruct find_one_ymm_chain as (E0 & E1 & E2).
  mov_cases a d; try discriminate Hs; rewrite ?E0, ?E1, ?E2, ?E1; clear E0 E1 E2; emit_code Hop; sym_solve.
Qed.

Lemma vmovaps_ymm_correct a d mask :
  0 <= a < 32 -> 0 <= d < 32 ->
  rewrites (vec_mov_keep 2 d a) (vmovaps_ymm_reg2reg_gen (ymm a) (ymm d) mask).
Proof.
  intros Ha Hd; unfold vmovaps_ymm_reg2reg_gen.
  pose proof (eq_refl : lane_mov OP_vmovaps = Some true) as Hop.
  mov_cases a d; emit_code Hop; sym_solve.
Qed.

Lemma vmovaps_xmm_correct a d mask :
  0 <= a < 32 -> 0 <= d < 32 ->
  rewrites_if (xmm_pre d) (vec_mov 1 d a) (vmovaps_xmm_reg2reg_gen (xmm a) (xmm d) mask).
Proof.
  intros Ha Hd; unfold vmovaps_xmm_reg2reg_gen.
  pose proof (eq_refl : lane_mov OP_vmovaps = Some true) as Hop.
  mov_cases a d; emit_code_if Hop; sym_solve_xmm.
Qed.

Lemma vmovdqu32_xmm_correct a d mask :
  0 <= a < 32 -> 0 <= d < 16 ->
  rewrites_if (xmm_pre d) (vec_mov 1 d a) (vmovdqu32_xmm_reg2reg_gen (xmm a) (xmm d) mask).
Proof.
  intros Ha Hd; assert (Hd' : 0 <= d < 32) by lia; unfold vmovdqu32_xmm_reg2reg_gen.
  pose proof (eq_refl : lane_mov OP_vmovdqu = Some false) as Hop.
  mov_cases a d; try lia; emit_code_if Hop; sym_solve_xmm.
Qed.

(** ** Theorems *)

(** C37: The unmasked moves [vmovdqu8], [vmovdqu16], [vmovdqu32] and [vmovdqu64]
    between zmm registers are the documented instruction for every pair of
    registers, low or high, from every state. *)
Theorem zmm_moves_correct a d :
  0 <= a < 32 -> 0 <= d < 32 ->
  rewrites (vec_mov 4 d a) (vmovdqu8_zmm_reg2reg_gen (zmm a) (zmm d) DR_REG_K0) /\
  rewrites (vec_mov 4 d a) (vmovdqu16_zmm_reg2reg_gen (zmm a) (zmm d) DR_REG_K0) /\
  rewrites (vec_mov 4 d a) (vmovdqu32_zmm_reg2reg_gen (zmm a) (zmm d) DR_REG_K0) /\
  rewrites (vec_mov 4 d a) (vmovdqu64_zmm_reg2reg_gen (zmm a) (zmm d) DR_REG_K0).
Proof. intros; repeat split; now apply zmm_mov_correct. Qed.

Lemma zmm_moves_correct_witness :
  rewrites (vec_mov 4 30 10) (vmovdqu64_zmm_reg2reg_gen (zmm 10) (zmm 30) DR_REG_K0).
Proof. apply (zmm_moves_correct 10 30); lia. Defined.

(** [vmovaps]: ymm moves are right for every pair of registers on the two lanes
    of the vector length; zmm moves when both registers are low or both high,
    and otherwise the instruction is removed without replacement; xmm moves
    from states whose unwritten upper bits are zero. *)
Theorem vmovaps_correct a d mask :
  0 <= a < 32 -> 0 <= d < 32 ->
  rewrites (vec_mov_keep 2 d a) (vmovaps_ymm_reg2reg_gen (ymm a) (ymm d) mask) /\
  rewrites_if (xmm_pre d) (vec_mov 1 d a) (vmovaps_xmm_reg2reg_gen (xmm a) (xmm d) mask) /\
  (if vmovaps_zmm_supported a d
   then rewrites (vec_mov 4 d a) (vmovaps_zmm_reg2reg_gen (zmm a) (zmm d) mask)
   else vmovaps_zmm_reg2reg_gen (zmm a) (zmm d) mask = rw_removed_null).
Proof.
  intros Ha Hd; split; [now apply vmovaps_ymm_correct|split; [now apply vmovaps_xmm_correct|]].
  destruct (vmovaps_zmm_supported a d) eqn:Hs; [now apply vmovaps_zmm_correct|].
  unfold vmovaps_zmm_reg2reg_gen; unfold vmovaps_zmm_supported in Hs.
  mov_cases a d; try discriminate Hs; reflexivity.
Qed.

Lemma vmovaps_correct_witness :
  rewrites (vec_mov_keep 2 25 10) (vmovaps_ymm_reg2reg_gen (ymm 10) (ymm 25) DR_REG_K0).
Proof. apply (vmovaps_correct 10 25 DR_REG_K0); lia. Defined.

(** [vmovdqu32] between xmm registers is right when the destination is low.
    The destination's spill flag has the source's value, so a high destination
    takes the branch for a high source and the emitted load names a register
    without a VEX encoding: the code cannot run. *)
Theorem vmovdqu32_xmm_dst_flag a d mask :
  0 <= a < 32 -> 0 <= d < 32 ->
  if d <? 16 then rewrites_if (xmm_pre d) (vec_mov 1 d a) (vmovdqu32_xmm_reg2reg_gen (xmm a) (xmm d) mask)
  else forall code s, rw_code (vmovdqu32_xmm_reg2reg_gen (xmm a) (xmm d) mask) = Some code -> run code s = None.
Proof.
  intros Ha Hd; destruct (Z.ltb_spec d 16); [apply vmovdqu32_xmm_correct; lia|].
  intros code s; unfold vmovdqu32_xmm_reg2reg_gen; mov_cases a d; try lia;
    intros Hc; injection Hc as <-; cbn [run];
    now rewrite exec_restore_high by (apply avx2_reg_xmm_high; lia).
Qed.

Lemma vmovdqu32_xmm_dst_flag_witness :
  rewrites_if (xmm_pre 3) (vec_mov 1 3 20) (vmovdqu32_xmm_reg2reg_gen (xmm 20) (xmm 3) DR_REG_K0).
Proof. apply (vmovdqu32_xmm_dst_flag 20 3 DR_REG_K0); lia. Defined.
