(* ===== verification/GenLane.v ===== *)
(** * 128-bit unpack, pack and move instructions

    The rewrite functions of [vunpcklps], [vunpcklpd], [vunpckhps], [vunpckhpd],
    [vmovss] and [vmovsd] have the text of [xmm_slots_gen], those of [vmovups],
    [vmovupd], [vmovapd], [vmovsldup], [vmovshdup] and [vmovddup] the text of
    [xmm_unop_gen]; both read their registers from the operands of the
    instruction.  [vpackuswb] has a generator of its own. *)
From Stdlib Require Import ZArith List Bool Lia.
From S2P Require Import Prelude Regs Spill Bytes Lanes Machine Arch512 SymExec GenYmm GenXmm GenMov.
Import ListNotations.
#[local] Open Scope Z_scope.
#[local] Open Scope bool_scope.
#[local] Open Scope rw_scope.

(** ** Rewrite functions *)

(** The operands of a three-operand EVEX instruction: source 0 is the mask. *)
Definition rw_xmm_slots (op : opcode) (instr : instr_t) : rw_result :=
  let src1_reg := opnd_get_reg (instr_get_src instr 1) in
  let src2_reg := opnd_get_reg (instr_get_src instr 2) in
  let dst_reg := opnd_get_reg (instr_get_dst instr 0) in
  xmm_slots_gen op src1_reg src2_reg dst_reg DR_REG_NULL.

Definition rw_func_vunpcklps := rw_xmm_slots OP_vunpcklps.
Definition rw_func_vunpcklpd := rw_xmm_slots OP_vunpcklpd.
Definition rw_func_vunpckhps := rw_xmm_slots OP_vunpckhps.
Definition rw_func_vunpckhpd := rw_xmm_slots OP_vunpckhpd.
Definition rw_func_vmovss := rw_xmm_slots OP_vmovss.
(** The body of [rw_func_vmovsd] creates [vmovss] instructions. *)
Definition rw_func_vmovsd := rw_xmm_slots OP_vmovss.

(** One source and one destination. *)
Definition xmm_unop_gen (op : opcode) (src1_reg dst_reg : reg_id_t) : rw_result :=
  let src1_need_spill_flag := (if NEED_SPILL_XMM src1_reg then 1 else 0) in
  let dst_need_spill_flag := (if NEED_SPILL_XMM dst_reg then 2 else 0) in
  let need_spill_flag := Z.lor src1_need_spill_flag dst_need_spill_flag in
  match need_spill_flag with
  | 0 =>
      let op_src1 := opnd_create_reg src1_reg in
      let op_dst := opnd_create_reg dst_reg in
      let i1 := INSTR_CREATE_2 op op_dst op_src1 in
      rw_replace [i1]
  | 1 =>
      let spill_src1_reg := find_one_available_spill_xmm dst_reg in
      let op_spill_src1 := opnd_create_reg spill_src1_reg in
      let op_dst := opnd_create_reg dst_reg in
      let i1 := SAVE_SIMD_TO_SIZED_TLS spill_src1_reg (TLS_ZMM_idx_SLOT (TO_XMM_REG_INDEX spill_src1_reg)) OPSZ_16 in
      let i2 := RESTORE_SIMD_FROM_SIZED_TLS spill_src1_reg (TLS_ZMM_idx_SLOT (TO_XMM_REG_INDEX src1_reg)) OPSZ_16 in
      let i3 := INSTR_CREATE_2 op op_dst op_spill_src1 in
      let i4 := RESTORE_SIMD_FROM_SIZED_TLS spill_src1_reg (TLS_ZMM_idx_SLOT (TO_XMM_REG_INDEX spill_src1_reg)) OPSZ_16 in
      rw_replace [i1; i2; i3; i4]
  | 2 =>
      let spill_dst_reg := XMM_SPILL_SLOT0 in
      let op_src1 := opnd_create_reg src1_reg in
      let op_spill_dst := opnd_create_reg spill_dst_reg in
      let i1 := SAVE_SIMD_TO_SIZED_TLS spill_dst_reg (TLS_ZMM_idx_SLOT (TO_XMM_REG_INDEX spill_dst_reg)) OPSZ_16 in
      let i2 := INSTR_CREATE_2 op op_spill_dst op_src1 in
      let i3 := SAVE_SIMD_TO_SIZED_TLS spill_dst_reg (TLS_ZMM_idx_SLOT (TO_XMM_REG_INDEX dst_reg)) OPSZ_16 in
      let i4 := RESTORE_SIMD_FROM_SIZED_TLS spill_dst_reg (TLS_ZMM_idx_SLOT (TO_XMM_REG_INDEX spill_dst_reg)) OPSZ_16 in
      rw_replace [i1; i2; i3; i4]
  | 3 =>
      let spill_src1_reg := XMM_SPILL_SLOT0 in
      let spill_dst_reg := XMM_SPILL_SLOT1 in
      let op_spill_src1 := opnd_create_reg spill_src1_reg in
      let op_spill_dst := opnd_create_reg spill_dst_reg in
      let i1 := SAVE_SIMD_TO_SIZED_TLS spill_src1_reg (TLS_ZMM_idx_SLOT (TO_XMM_REG_INDEX spill_src1_reg)) OPSZ_16 in
      let i2 := SAVE_SIMD_TO_SIZED_TLS spill_dst_reg (TLS_ZMM_idx_SLOT (TO_XMM_REG_INDEX spill_dst_reg)) OPSZ_16 in
      let i3 := RESTORE_SIMD_FROM_SIZED_TLS spill_src1_reg (TLS_ZMM_idx_SLOT (TO_XMM_REG_INDEX src1_reg)) OPSZ_16 in
      let i4 := INSTR_CREATE_2 op op_spill_dst op_spill_src1 in
      let i5 := SAVE_SIMD_TO_SIZED_TLS spill_dst_reg (TLS_ZMM_idx_SLOT (TO_XMM_REG_INDEX dst_reg)) OPSZ_16 in
      let i6 := RESTORE_SIMD_FROM_SIZED_TLS spill_src1_reg (TLS_ZMM_idx_SLOT (TO_XMM_REG_INDEX spill_src1_reg)) OPSZ_16 in
      let i7 := RESTORE_SIMD_FROM_SIZED_TLS spill_dst_reg (TLS_ZMM_idx_SLOT (TO_XMM_REG_INDEX spill_dst_reg)) OPSZ_16 in
      rw_replace [i1; i2; i3; i4; i5; i6; i7]
  | _ =>
      rw_removed_null
  end.

(** The operands of the move functions: source 0 is taken for the vector. *)
Definition rw_xmm_unop (op : opcode) (instr : instr_t) : rw_result :=
  let src1_reg := opnd_get_reg (instr_get_src instr 0) in
  let dst_reg := opnd_get_reg (instr_get_dst instr 0) in
  xmm_unop_gen op src1_reg dst_reg.

Definition rw_func_vmovups := rw_xmm_unop OP_vmovups.
Definition rw_func_vmovupd := rw_xmm_unop OP_vmovupd.
Definition rw_func_vmovapd := rw_xmm_unop OP_vmovapd.
Definition rw_func_vmovsldup := rw_xmm_unop OP_vmovsldup.
Definition rw_func_vmovshdup := rw_xmm_unop OP_vmovshdup.
Definition rw_func_vmovddup := rw_xmm_unop OP_vmovddup.

Definition vpackuswb_xmm_reg_reg_gen (src1_reg src2_reg dst_reg mask_reg : reg_id_t) : rw_result :=
  let src1_need_spill_flag := (if NEED_SPILL_XMM src1_reg then 1 else 0) in
  let src2_need_spill_flag := (if NEED_SPILL_XMM src2_reg then 2 else 0) in
  let dst_need_spill_flag := (if NEED_SPILL_XMM dst_reg then 4 else 0) in
  let need_spill_flag := Z.lor (Z.lor src1_need_spill_flag src2_need_spill_flag) dst_need_spill_flag in
  match need_spill_flag with
  | 0 =>
      let op_src1 := opnd_create_reg src1_reg in
      let op_src2 := opnd_create_reg src2_reg in
      let op_dst := opnd_create_reg dst_reg in
      let i1 := INSTR_CREATE_3 OP_vpackuswb op_dst op_src1 op_src2 in
      rw_replace [i1]
  | 1 =>
      let spill_src1_reg := find_available_spill_xmm_avoiding src2_reg dst_reg DR_REG_NULL in
      let op_spill_src1 := opnd_create_reg spill_src1_reg in
      let op_src2 := opnd_create_reg src2_reg in
      let op_dst := opnd_create_reg dst_reg in
      let i1 := SAVE_SIMD_TO_SIZED_TLS spill_src1_reg (TLS_ZMM_idx_SLOT (TO_XMM_REG_INDEX spill_src1_reg)) OPSZ_16 in
      let i2 := RESTORE_SIMD_FROM_SIZED_TLS spill_src1_reg (TLS_ZMM_idx_SLOT (TO_XMM_REG_INDEX src1_reg)) OPSZ_16 in
      let i3 := INSTR_CREATE_3 OP_vpackuswb op_dst op_spill_src1 op_src2 in
      let i4 := RESTORE_SIMD_FROM_SIZED_TLS spill_src1_reg (TLS_ZMM_idx_SLOT (TO_XMM_REG_INDEX spill_src1_reg)) OPSZ_16 in
      rw_replace [i1; i2; i3; i4]
  | 2 =>
      let spill_src2_reg := find_available_spill_xmm_avoiding src1_reg dst_reg DR_REG_NULL in
      let op_spill_src2 := opnd_create_reg spill_src2_reg in
      let op_src1 := opnd_create_reg src1_reg in
      let op_dst := opnd_create_reg dst_reg in
      let i1 := SAVE_SIMD_TO_SIZED_TLS spill_src2_reg (TLS_ZMM_idx_SLOT (TO_XMM_REG_INDEX spill_src2_reg)) OPSZ_16 in
      let i2 := RESTORE_SIMD_FROM_SIZED_TLS spill_src2_reg (TLS_ZMM_idx_SLOT (TO_XMM_REG_INDEX src2_reg)) OPSZ_16 in
      let i3 := INSTR_CREATE_3 OP_vpackuswb op_dst op_src1 op_spill_src2 in
      let i4 := RESTORE_SIMD_FROM_SIZED_TLS spill_src2_reg (TLS_ZMM_idx_SLOT (TO_XMM_REG_INDEX spill_src2_reg)) OPSZ_16 in
      rw_replace [i1; i2; i3; i4]
  | 3 =>
      let spill_src1_reg := find_one_available_spill_xmm dst_reg in
      let spill_src2_reg := find_available_spill_xmm_avoiding spill_src1_reg dst_reg DR_REG_NULL in
      let op_spill_src1 := opnd_create_reg spill_src1_reg in
      let op_spill_src2 := opnd_create_reg spill_src2_reg in
      let op_dst := opnd_create_reg dst_reg in
      let i1 := SAVE_SIMD_TO_SIZED_TLS spill_src1_reg (TLS_ZMM_idx_SLOT (TO_XMM_REG_INDEX spill_src1_reg)) OPSZ_16 in
      let i2 := SAVE_SIMD_TO_SIZED_TLS spill_src2_reg (TLS_ZMM_idx_SLOT (TO_XMM_REG_INDEX spill_src2_reg)) OPSZ_16 in
      let i3 := RESTORE_SIMD_FROM_SIZED_TLS spill_src1_reg (TLS_ZMM_idx_SLOT (TO_XMM_REG_INDEX src1_reg)) OPSZ_16 in
      let i4 := RESTORE_SIMD_FROM_SIZED_TLS spill_src2_reg (TLS_ZMM_idx_SLOT (TO_XMM_REG_INDEX src2_reg)) OPSZ_16 in
      let i5 := INSTR_CREATE_3 OP_vpackuswb op_dst op_spill_src1 op_spill_src2 in
      let i6 := RESTORE_SIMD_FROM_SIZED_TLS spill_src1_reg (TLS_ZMM_idx_SLOT (TO_XMM_REG_INDEX spill_src1_reg)) OPSZ_16 in
      let i7 := RESTORE_SIMD_FROM_SIZED_TLS spill_src2_reg (TLS_ZMM_idx_SLOT (TO_XMM_REG_INDEX spill_src2_reg)) OPSZ_16 in
      rw_replace [i1; i2; i3; i4; i5; i6; i7]
  | 4 =>
      let spill_dst_reg := find_available_spill_xmm_avoiding src1_reg src2_reg DR_REG_NULL in
      let op_spill_dst := opnd_create_reg spill_dst_reg in
      let op_src1 := opnd_create_reg src1_reg in
      let op_src2 := opnd_create_reg src2_reg in
      let i1 := SAVE_SIMD_TO_SIZED_TLS spill_dst_reg (TLS_ZMM_idx_SLOT (TO_XMM_REG_INDEX spill_dst_reg)) OPSZ_16 in
      let i2 := INSTR_CREATE_3 OP_vpackuswb op_spill_dst op_src1 op_src2 in
      let i3 := SAVE_SIMD_TO_SIZED_TLS spill_dst_reg (TLS_ZMM_idx_SLOT (TO_XMM_REG_INDEX dst_reg)) OPSZ_16 in
      let i4 := RESTORE_SIMD_FROM_SIZED_TLS spill_dst_reg (TLS_ZMM_idx_SLOT (TO_XMM_REG_INDEX spill_dst_reg)) OPSZ_16 in
      rw_replace [i1; i2; i3; i4]
  | 5 =>
      let tmp_reg := find_one_available_spill_xmm src2_reg in
      let op_src1 := opnd_create_reg tmp_reg in
      let op_src2 := opnd_create_reg src2_reg in
      let op_dst := opnd_create_reg tmp_reg in
      let i1 := SAVE_SIMD_TO_SIZED_TLS tmp_reg (TLS_ZMM_idx_SLOT (TO_XMM_REG_INDEX tmp_reg)) OPSZ_16 in
      let i2 := RESTORE_SIMD_FROM_SIZED_TLS tmp_reg (TLS_ZMM_idx_SLOT (TO_XMM_REG_INDEX src1_reg)) OPSZ_16 in
      let i3 := INSTR_CREATE_3 OP_vpackuswb op_dst op_src1 op_src2 in
      let i4 := SAVE_SIMD_TO_SIZED_TLS tmp_reg (TLS_ZMM_idx_SLOT (TO_XMM_REG_INDEX dst_reg)) OPSZ_16 in
      let i5 := RESTORE_SIMD_FROM_SIZED_TLS tmp_reg (TLS_ZMM_idx_SLOT (TO_XMM_REG_INDEX tmp_reg)) OPSZ_16 in
      rw_replace [i1; i2; i3; i4; i5]
  | 6 =>
      let tmp_reg := find_one_available_spill_xmm src1_reg in
      let op_src2 := opnd_create_reg tmp_reg in
      let op_src1 := opnd_create_reg src1_reg in
      let op_dst := opnd_create_reg tmp_reg in
      let i1 := SAVE_SIMD_TO_SIZED_TLS tmp_reg (TLS_ZMM_idx_SLOT (TO_XMM_REG_INDEX tmp_reg)) OPSZ_16 in
      let i2 := RESTORE_SIMD_FROM_SIZED_TLS tmp_reg (TLS_ZMM_idx_SLOT (TO_XMM_REG_INDEX src2_reg)) OPSZ_16 in
      let i3 := INSTR_CREATE_3 OP_vpackuswb op_dst op_src1 op_src2 in
      let i4 := SAVE_SIMD_TO_SIZED_TLS tmp_reg (TLS_ZMM_idx_SLOT (TO_XMM_REG_INDEX dst_reg)) OPSZ_16 in
      let i5 := RESTORE_SIMD_FROM_SIZED_TLS tmp_reg (TLS_ZMM_idx_SLOT (TO_XMM_REG_INDEX tmp_reg)) OPSZ_16 in
      rw_replace [i1; i2; i3; i4; i5]
  | 7 =>
      let spill_src1 := XMM_SPILL_SLOT0 in
      let spill_src2 := XMM_SPILL_SLOT1 in
      let spill_dst := spill_src1 in
      let op_spill_src1 := opnd_create_reg spill_src1 in
      let op_spill_src2 := opnd_create_reg spill_src2 in
      let op_spill_dst := op_spill_src1 in
      let i1 := SAVE_SIMD_TO_SIZED_TLS spill_src1 (TLS_ZMM_idx_SLOT (TO_XMM_REG_INDEX spill_src1)) OPSZ_16 in
      let i2 := SAVE_SIMD_TO_SIZED_TLS spill_src2 (TLS_ZMM_idx_SLOT (TO_XMM_REG_INDEX spill_src2)) OPSZ_16 in
      let i3 := RESTORE_SIMD_FROM_SIZED_TLS spill_src1 (TLS_ZMM_idx_SLOT (TO_XMM_REG_INDEX src1_reg)) OPSZ_16 in
      let i4 := RESTORE_SIMD_FROM_SIZED_TLS spill_src2 (TLS_ZMM_idx_SLOT (TO_XMM_REG_INDEX src2_reg)) OPSZ_16 in
      let i5 := INSTR_CREATE_3 OP_vpackuswb op_spill_dst op_spill_src1 op_spill_src2 in
      let i6 := SAVE_SIMD_TO_SIZED_TLS spill_dst (TLS_ZMM_idx_SLOT (TO_XMM_REG_INDEX dst_reg)) OPSZ_16 in
      let i7 := RESTORE_SIMD_FROM_SIZED_TLS spill_src1 (TLS_ZMM_idx_SLOT (TO_XMM_REG_INDEX spill_src1)) OPSZ_16 in
      let i8 := RESTORE_SIMD_FROM_SIZED_TLS spill_src2 (TLS_ZMM_idx_SLOT (TO_XMM_REG_INDEX spill_src2)) OPSZ_16 in
      rw_replace [i1; i2; i3; i4; i5; i6; i7; i8]
  | _ =>
      rw_removed_null
  end.

(** ** Correctness *)

(** An instruction with [n] register operands after the mask, as the decoder
    lays an EVEX instruction out; and one without a mask, the VEX layout. *)
Definition evex_instr (op : opcode) (mask d : reg_id_t) (srcs : list reg_id_t) : instr_t :=
  mk_instr op [opnd_create_reg d] (opnd_create_reg mask :: map opnd_create_reg srcs).
Definition vex_instr (op : opcode) (d : reg_id_t) (srcs : list reg_id_t) : instr_t :=
  mk_instr op [opnd_create_reg d] (map opnd_create_reg srcs).

Ltac unop_cases a d :=
  change XMM_SPILL_SLOT0 with (xmm 10); change XMM_SPILL_SLOT1 with (xmm 11);
  rewrite ?NEED_SPILL_XMM_xmm, ?TO_XMM_REG_INDEX_xmm by assumption;
  destruct (Z.leb_spec 16 a), (Z.leb_spec 16 d); cbv beta iota delta [Z.lor Pos.lor].

(** The lane operation of a move or of a one-source operation. *)
Definition xmm_un (op : opcode) (f : Z -> Z) : Prop :=
  (lane_mov op <> None /\ f = (fun x => x)) \/ (lane_unop op = Some f /\ LaneOp (fun x _ => f x)).

Lemma xmm_unop_correct op f (Hop : xmm_un op f) a d :
  0 <= a < 32 -> 0 <= d < 32 ->
  rewrites_if (xmm_pre d) (vec_unop 1 f d a) (xmm_unop_gen op (xmm a) (xmm d)).
Proof.
  intros Ha Hd; unfold xmm_unop_gen.
  destruct Hop as [[Hop ->]|[Hop Hf]]; [destruct (lane_mov op) as [al|] eqn:Hm; [clear Hop; rename Hm into Hop|now elim Hop]|];
    unop_cases a d; emit_code_if Hop; sym_solve_xmm.
Qed.

Lemma vpackuswb_xmm_correct a b d mask :
  0 <= a < 32 -> 0 <= b < 32 -> 0 <= d < 32 ->
  rewrites_if (xmm_pre d) (vec_binop 1 packus d a b) (vpackuswb_xmm_reg_reg_gen (xmm a) (xmm b) (xmm d) mask).
Proof.
  intros Ha Hb Hd; pose proof (eq_refl : lane_binop OP_vpackuswb = Some packus) as Hop.
  pose proof packus_op as Hf.
  unfold vpackuswb_xmm_reg_reg_gen; xmm_cases a b d; emit_code_if Hop; sym_solve_xmm.
Qed.

(** Code whose only vector operation reads a mask register does not run. *)
Lemma exec_unop_mask op k d s :
  lane_mov op <> None \/ lane_unop op <> None -> 0 <= k < 8 ->
  exec (INSTR_CREATE_2 op (opnd_create_reg d) (opnd_create_reg (kreg k))) s = None.
Proof.
  intros Hop Hk.
  assert (E : avx2_reg (kreg k) = None) by (unfold avx2_reg; unfold_regs; zcases; reflexivity || lia).
  destruct op; destruct Hop as [Hop|Hop]; try (now elim Hop);
    unfold exec, exec_simd, exec_vmov, exec_vun; cbn -[avx2_reg kreg]; rewrite E; now destruct (avx2_reg d) as [[]|].
Qed.

Lemma NEED_SPILL_XMM_k k : 0 <= k < 8 -> NEED_SPILL_XMM (kreg k) = false.
Proof. intros; unfold_regs; zcases; reflexivity || lia. Qed.

(** ** Theorems *)

(** [vunpcklps], [vunpcklpd], [vunpckhps], [vunpckhpd] and [vmovss] with xmm
    operands are right for every combination of registers on which the choice
    of spill registers does not clash with the destination; [vpackuswb] is
    right on all of them. *)
Theorem xmm_unpack_correct k a b d :
  0 <= a < 32 -> 0 <= b < 32 -> 0 <= d < 32 ->
  let i op := evex_instr op k (xmm d) [xmm a; xmm b] in
  rewrites_if (xmm_pre d) (vec_binop 1 packus d a b) (vpackuswb_xmm_reg_reg_gen (xmm a) (xmm b) (xmm d) k) /\
  (ymm_fixed_conflict a b d = false ->
   rewrites_if (xmm_pre d) (vec_binop 1 (punpckl 32) d a b) (rw_func_vunpcklps (i OP_vunpcklps)) /\
   rewrites_if (xmm_pre d) (vec_binop 1 (punpckl 64) d a b) (rw_func_vunpcklpd (i OP_vunpcklpd)) /\
   rewrites_if (xmm_pre d) (vec_binop 1 (punpckh 32) d a b) (rw_func_vunpckhps (i OP_vunpckhps)) /\
   rewrites_if (xmm_pre d) (vec_binop 1 (punpckh 64) d a b) (rw_func_vunpckhpd (i OP_vunpckhpd)) /\
   rewrites_if (xmm_pre d) (vec_binop 1 pmovss d a b) (rw_func_vmovss (i OP_vmovss))).
Proof.
  intros Ha Hb Hd i; split; [now apply vpackuswb_xmm_correct|intros Hn].
  split; [|split; [|split; [|split]]]; (apply xmm_slots_correct; [first [now left|now right]|typeclasses eauto|..]); assumption.
Qed.

Lemma xmm_unpack_correct_witness :
  rewrites_if (xmm_pre 20) (vec_binop 1 (punpckh 32) 20 21 3)
    (rw_func_vunpckhps (evex_instr OP_vunpckhps DR_REG_K0 (xmm 20) [xmm 21; xmm 3])) /\
  ymm_fixed_conflict 21 3 20 = false.
Proof. split; [apply (xmm_unpack_correct DR_REG_K0 21 3 20); reflexivity || lia|reflexivity]. Defined.

(** The move of the low quadword. *)
Definition pmovsd (x y : Z) : Z := lane_of 64 2 (fun i => elem 64 (if i =? 0 then y else x) i).

(** The rewriting of [vmovsd] moves the low doubleword, as [vmovss] does, on
    every combination of registers [vmovss] is right on; it is not a rewriting
    of [vmovsd]. *)
Theorem vmovsd_moves_doubleword k a b d :
  0 <= a < 32 -> 0 <= b < 32 -> 0 <= d < 32 -> ymm_fixed_conflict a b d = false ->
  rewrites_if (xmm_pre d) (vec_binop 1 pmovss d a b) (rw_func_vmovsd (evex_instr OP_vmovss k (xmm d) [xmm a; xmm b])) /\
  ~ rewrites_if (xmm_pre 20) (vec_binop 1 pmovsd 20 21 22)
      (rw_func_vmovsd (evex_instr OP_vmovss k (xmm 20) [xmm 21; xmm 22])).
Proof.
  intros Ha Hb Hd Hn; split.
  - apply xmm_slots_correct; [now right|typeclasses eauto|..]; assumption.
  - apply (not_rewrites_if_lane _ _ _ (probe_low 0) 20 0);
      [apply probe_low_wf|eval_xmm_pre|lia|lia|vm_compute; congruence].
Qed.

Lemma vmovsd_moves_doubleword_witness :
  rewrites_if (xmm_pre 5) (vec_binop 1 pmovss 5 21 3)
    (rw_func_vmovsd (evex_instr OP_vmovss DR_REG_K0 (xmm 5) [xmm 21; xmm 3])).
Proof. apply (vmovsd_moves_doubleword DR_REG_K0 21 3 5); reflexivity || lia. Defined.

(** [vmovups], [vmovupd], [vmovapd], [vmovsldup], [vmovshdup] and [vmovddup]
    between xmm registers are right for every pair of registers when the
    vector is source 0, the layout of an instruction without a mask.  In the
    EVEX layout source 0 is the mask register: the emitted code has it as the
    operand of a vector move and does not run. *)
Theorem xmm_unops_operands k a d :
  0 <= a < 32 -> 0 <= d < 32 -> 0 <= k < 8 ->
  (forall op f, In (op, f) [(OP_vmovups, fun x => x); (OP_vmovupd, fun x => x); (OP_vmovapd, fun x => x);
                            (OP_vmovsldup, psldup); (OP_vmovshdup, pshdup); (OP_vmovddup, pddup)] ->
   rewrites_if (xmm_pre d) (vec_unop 1 f d a) (rw_xmm_unop op (vex_instr op (xmm d) [xmm a])) /\
   exists code, rw_xmm_unop op (evex_instr op (kreg k) (xmm d) [xmm a]) = rw_replace code /\
                forall s, run code s = None).
Proof.
  intros Ha Hd Hk op f Hin; split.
  - apply xmm_unop_correct; try assumption.
    repeat destruct Hin as [E|Hin]; try injection E as <- <-; try easy;
      first [left; split; [discriminate|reflexivity]|right; split; [reflexivity|intros ? ?; now apply lane_of_128]].
  - assert (Hop : lane_mov op <> None \/ lane_unop op <> None)
      by (repeat destruct Hin as [E|Hin]; try injection E as <- <-; try easy; cbn; now (left + right)).
    clear Hin; unfold rw_xmm_unop, xmm_unop_gen, evex_instr, instr_get_src, instr_get_dst; cbn [instr_srcs instr_dsts nth opnd_create_reg opnd_get_reg].
    rewrite NEED_SPILL_XMM_k, NEED_SPILL_XMM_xmm by assumption.
    destruct (16 <=? d); cbv beta iota delta [Z.lor Pos.lor]; eexists; (split; [reflexivity|]); intros s.
    + cbn [run]; destruct (exec _ s); [|reflexivity]; cbn [obind]; now rewrite exec_unop_mask.
    + cbn [run]; now rewrite exec_unop_mask.
Qed.

Lemma xmm_unops_operands_witness :
  rewrites_if (xmm_pre 25) (vec_unop 1 psldup 25 10) (rw_func_vmovsldup (vex_instr OP_vmovsldup (xmm 25) [xmm 10])).
Proof. apply (xmm_unops_operands 1 10 25 ltac:(lia) ltac:(lia) ltac:(lia)); simpl; tauto. Defined.
