(* ===== verification/GenMem.v ===== *)
(** * Vector loads and stores

    Moves between a vector register and a base + index * scale + displacement
    operand: [vmovdqu8/16/32/64] and [vmovaps] on zmm, ymm and xmm registers.  A
    zmm access becomes two 32-byte accesses, the second one 32 bytes further. *)
From Stdlib Require Import ZArith List Bool Lia.
From S2P Require Import Prelude Regs Spill Bytes Lanes Machine Arch512 SymExec GenXmm GenMov.
Import ListNotations.
#[local] Open Scope Z_scope.
#[local] Open Scope bool_scope.
#[local] Open Scope rw_scope.

(** ** Generators: zmm registers *)

(** The text of the four [vmovdqu*_zmm_disp2reg_gen]: a load. *)
Definition zmm_load_gen (src_opnd : opnd_t) (dst_reg mask_reg : reg_id_t) : rw_result :=
  let src_base_reg := opnd_get_base src_opnd in
  let src_index_reg := opnd_get_index src_opnd in
  let scale := opnd_get_scale src_opnd in
  let disp := opnd_get_disp src_opnd in
  let dst_need_spill := (if NEED_SPILL_ZMM dst_reg then 1 else 0) in
  match dst_need_spill with
  | 0 =>
      let dst_spill_high_reg := find_one_available_spill_ymm (ZMM_TO_YMM dst_reg) in
      let op_dst_spill_high := opnd_create_reg dst_spill_high_reg in
      let op_dst_low := opnd_create_reg (ZMM_TO_YMM dst_reg) in
      let i1 := SAVE_SIMD_TO_SIZED_TLS dst_spill_high_reg (TLS_ZMM_idx_SLOT (TO_YMM_REG_INDEX dst_spill_high_reg)) OPSZ_32 in
      let i2 := INSTR_CREATE_2 OP_vmovdqu op_dst_low (opnd_create_base_disp src_base_reg src_index_reg scale disp OPSZ_32) in
      let i3 := INSTR_CREATE_2 OP_vmovdqu op_dst_spill_high (opnd_create_base_disp src_base_reg src_index_reg scale (disp + SIZE_OF_YMM) OPSZ_32) in
      let i4 := SAVE_SIMD_TO_SIZED_TLS dst_spill_high_reg ((TLS_ZMM_idx_SLOT (TO_ZMM_REG_INDEX dst_reg)) + SIZE_OF_YMM) OPSZ_32 in
      let i5 := RESTORE_SIMD_FROM_SIZED_TLS dst_spill_high_reg (TLS_ZMM_idx_SLOT (TO_YMM_REG_INDEX dst_spill_high_reg)) OPSZ_32 in
      rw_replace [i1; i2; i3; i4; i5]
  | 1 =>
      let dst_spill_reg := YMM_SPILL_SLOT0 in
      let op_dst_spill := opnd_create_reg dst_spill_reg in
      let i1 := SAVE_SIMD_TO_SIZED_TLS dst_spill_reg (TLS_ZMM_idx_SLOT (TO_YMM_REG_INDEX dst_spill_reg)) OPSZ_32 in
      let i2 := INSTR_CREATE_2 OP_vmovdqu op_dst_spill (opnd_create_base_disp src_base_reg src_index_reg scale disp OPSZ_32) in
      let i3 := SAVE_SIMD_TO_SIZED_TLS dst_spill_reg (TLS_ZMM_idx_SLOT (TO_ZMM_REG_INDEX dst_reg)) OPSZ_32 in
      let i4 := INSTR_CREATE_2 OP_vmovdqu op_dst_spill (opnd_create_base_disp src_base_reg src_index_reg scale (disp + SIZE_OF_YMM) OPSZ_32) in
      let i5 := SAVE_SIMD_TO_SIZED_TLS dst_spill_reg ((TLS_ZMM_idx_SLOT (TO_ZMM_REG_INDEX dst_reg)) + SIZE_OF_YMM) OPSZ_32 in
      let i6 := RESTORE_SIMD_FROM_SIZED_TLS dst_spill_reg (TLS_ZMM_idx_SLOT (TO_YMM_REG_INDEX dst_spill_reg)) OPSZ_32 in
      rw_replace [i1; i2; i3; i4; i5; i6]
  | _ =>
      rw_removed_null
  end.

Definition vmovdqu8_zmm_disp2reg_gen := zmm_load_gen.
Definition vmovdqu16_zmm_disp2reg_gen := zmm_load_gen.
Definition vmovdqu32_zmm_disp2reg_gen := zmm_load_gen.
Definition vmovdqu64_zmm_disp2reg_gen := zmm_load_gen.

Definition vmovaps_zmm_disp2reg_gen (src1_opnd : opnd_t) (dst_reg mask_reg : reg_id_t) : rw_result :=
  let src_base_reg := opnd_get_base src1_opnd in
  let src_index_reg := opnd_get_index src1_opnd in
  let scale := opnd_get_scale src1_opnd in
  let disp := opnd_get_disp src1_opnd in
  let dst_need_spill := (if NEED_SPILL_ZMM dst_reg then 1 else 0) in
  match dst_need_spill with
  | 0 =>
      let dst_reg_lower := ZMM_TO_YMM dst_reg in
      let dst_reg_upper := find_one_available_spill_ymm dst_reg_lower in
      let op_dst_reg_lower := opnd_create_reg dst_reg_lower in
      let op_dst_reg_upper := opnd_create_reg dst_reg_upper in
      let i1 := SAVE_SIMD_TO_SIZED_TLS dst_reg_upper (TLS_ZMM_idx_SLOT (TO_YMM_REG_INDEX dst_reg_upper)) OPSZ_32 in
      let i2 := INSTR_CREATE_2 OP_vmovaps op_dst_reg_lower (opnd_create_base_disp src_base_reg src_index_reg scale disp OPSZ_32) in
      let i3 := INSTR_CREATE_2 OP_vmovaps op_dst_reg_upper (opnd_create_base_disp src_base_reg src_index_reg scale (disp + SIZE_OF_YMM) OPSZ_32) in
      let i4 := SAVE_SIMD_TO_SIZED_TLS dst_reg_lower (TLS_ZMM_idx_SLOT (TO_ZMM_REG_INDEX dst_reg)) OPSZ_32 in
      let i5 := SAVE_SIMD_TO_SIZED_TLS dst_reg_upper ((TLS_ZMM_idx_SLOT (TO_ZMM_REG_INDEX dst_reg)) + SIZE_OF_YMM) OPSZ_32 in
      let i6 := RESTORE_SIMD_FROM_SIZED_TLS dst_reg_upper (TLS_ZMM_idx_SLOT (TO_YMM_REG_INDEX dst_reg_upper)) OPSZ_32 in
      rw_replace [i1; i2; i3; i4; i5; i6]
  | 1 =>
      let spill_dst_reg := find_one_available_spill_ymm DR_REG_NULL in
      let spill_dst_reg_upper := find_one_available_spill_ymm spill_dst_reg in
      let op_spill_dst_reg := opnd_create_reg spill_dst_reg in
      let op_spill_dst_reg_upper := opnd_create_reg spill_dst_reg_upper in
      let i1 := SAVE_SIMD_TO_SIZED_TLS spill_dst_reg (TLS_ZMM_idx_SLOT (TO_YMM_REG_INDEX spill_dst_reg)) OPSZ_32 in
      let i2 := SAVE_SIMD_TO_SIZED_TLS spill_dst_reg_upper (TLS_ZMM_idx_SLOT (TO_YMM_REG_INDEX spill_dst_reg_upper)) OPSZ_32 in
      let i3 := INSTR_CREATE_2 OP_vmovaps op_spill_dst_reg (opnd_create_base_disp src_base_reg src_index_reg scale disp OPSZ_32) in
      let i4 := INSTR_CREATE_2 OP_vmovaps op_spill_dst_reg_upper (opnd_create_base_disp src_base_reg src_index_reg scale (disp + SIZE_OF_YMM) OPSZ_32) in
      let i5 := SAVE_SIMD_TO_SIZED_TLS spill_dst_reg (TLS_ZMM_idx_SLOT (TO_ZMM_REG_INDEX dst_reg)) OPSZ_32 in
      let i6 := SAVE_SIMD_TO_SIZED_TLS spill_dst_reg_upper ((TLS_ZMM_idx_SLOT (TO_ZMM_REG_INDEX dst_reg)) + SIZE_OF_YMM) OPSZ_32 in
      let i7 := RESTORE_SIMD_FROM_SIZED_TLS spill_dst_reg (TLS_ZMM_idx_SLOT (TO_YMM_REG_INDEX spill_dst_reg)) OPSZ_32 in
      let i8 := RESTORE_SIMD_FROM_SIZED_TLS spill_dst_reg_upper (TLS_ZMM_idx_SLOT (TO_YMM_REG_INDEX spill_dst_reg_upper)) OPSZ_32 in
      rw_replace [i1; i2; i3; i4; i5; i6; i7; i8]
  | _ =>
      rw_removed_null
  end.

(** The text of [vmovdqu64_zmm_reg2disp_gen] and [vmovaps_zmm_reg2disp_gen]: a store. *)
Definition zmm_store_gen (op : opcode) (src_reg : reg_id_t) (dst_opnd : opnd_t) (mask_reg : reg_id_t) : rw_result :=
  let disp := opnd_get_disp dst_opnd in
  let dst_base_reg := opnd_get_base dst_opnd in
  let dst_index_reg := opnd_get_index dst_opnd in
  let scale := opnd_get_scale dst_opnd in
  let dst_need_spill := (if NEED_SPILL_ZMM src_reg then 1 else 0) in
  match dst_need_spill with
  | 0 =>
      let src_reg_lower := ZMM_TO_YMM src_reg in
      let src_reg_upper := find_one_available_spill_ymm src_reg_lower in
      let op_src_reg_lower := opnd_create_reg src_reg_lower in
      let op_src_reg_upper := opnd_create_reg src_reg_upper in
      let i1 := SAVE_SIMD_TO_SIZED_TLS src_reg_upper (TLS_ZMM_idx_SLOT (TO_YMM_REG_INDEX src_reg_upper)) OPSZ_32 in
      let i2 := RESTORE_SIMD_FROM_SIZED_TLS src_reg_upper ((TLS_ZMM_idx_SLOT (TO_ZMM_REG_INDEX src_reg)) + SIZE_OF_YMM) OPSZ_32 in
      let i3 := INSTR_CREATE_2 op (opnd_create_base_disp dst_base_reg dst_index_reg scale disp OPSZ_32) op_src_reg_lower in
      let i4 := INSTR_CREATE_2 op (opnd_create_base_disp dst_base_reg dst_index_reg scale (disp + SIZE_OF_YMM) OPSZ_32) op_src_reg_upper in
      let i5 := RESTORE_SIMD_FROM_SIZED_TLS src_reg_upper (TLS_ZMM_idx_SLOT (TO_YMM_REG_INDEX src_reg_upper)) OPSZ_32 in
      rw_replace [i1; i2; i3; i4; i5]
  | 1 =>
      let spill_src_reg := find_one_available_spill_ymm DR_REG_NULL in
      let spill_src_reg_upper := find_one_available_spill_ymm spill_src_reg in
      let op_spill_src_reg := opnd_create_reg spill_src_reg in
      let op_spill_src_reg_upper := opnd_create_reg spill_src_reg_upper in
      let i1 := SAVE_SIMD_TO_SIZED_TLS spill_src_reg (TLS_ZMM_idx_SLOT (TO_YMM_REG_INDEX spill_src_reg)) OPSZ_32 in
      let i2 := SAVE_SIMD_TO_SIZED_TLS spill_src_reg_upper (TLS_ZMM_idx_SLOT (TO_YMM_REG_INDEX spill_src_reg_upper)) OPSZ_32 in
      let i3 := RESTORE_SIMD_FROM_SIZED_TLS spill_src_reg (TLS_ZMM_idx_SLOT (TO_ZMM_REG_INDEX src_reg)) OPSZ_32 in
      let i4 := RESTORE_SIMD_FROM_SIZED_TLS spill_src_reg_upper ((TLS_ZMM_idx_SLOT (TO_ZMM_REG_INDEX src_reg)) + SIZE_OF_YMM) OPSZ_32 in
      let i5 := INSTR_CREATE_2 op (opnd_create_base_disp dst_base_reg dst_index_reg scale disp OPSZ_32) op_spill_src_reg in
      let i6 := INSTR_CREATE_2 op (opnd_create_base_disp dst_base_reg dst_index_reg scale (disp + SIZE_OF_YMM) OPSZ_32) op_spill_src_reg_upper in
      let i7 := RESTORE_SIMD_FROM_SIZED_TLS spill_src_reg (TLS_ZMM_idx_SLOT (TO_YMM_REG_INDEX spill_src_reg)) OPSZ_32 in
      let i8 := RESTORE_SIMD_FROM_SIZED_TLS spill_src_reg_upper (TLS_ZMM_idx_SLOT (TO_YMM_REG_INDEX spill_src_reg_upper)) OPSZ_32 in
      rw_replace [i1; i2; i3; i4; i5; i6; i7; i8]
  | _ =>
      rw_removed_null
  end.

Definition vmovdqu64_zmm_reg2disp_gen := zmm_store_gen OP_vmovdqu.
Definition vmovaps_zmm_reg2disp_gen := zmm_store_gen OP_vmovaps.

(** The text of [vmovdqu8_zmm_reg2disp_gen], [vmovdqu16_zmm_reg2disp_gen] and
    [vmovdqu32_zmm_reg2disp_gen], which differ in the way the spill register is
    named: a low source is first reloaded from its TLS slot. *)
Definition zmm_store_reload_gen (spill_src_reg src_reg : reg_id_t) (dst_opnd : opnd_t) (mask_reg : reg_id_t) : rw_result :=
  let disp := opnd_get_disp dst_opnd in
  let dst_base_reg := opnd_get_base dst_opnd in
  let dst_index_reg := opnd_get_index dst_opnd in
  let scale := opnd_get_scale dst_opnd in
  let dst_need_spill := (if NEED_SPILL_ZMM src_reg then 1 else 0) in
  match dst_need_spill with
  | 0 =>
      let src_reg_lower := ZMM_TO_YMM src_reg in
      let src_reg_upper := find_one_available_spill_ymm src_reg_lower in
      let op_src_reg_lower := opnd_create_reg src_reg_lower in
      let op_src_reg_upper := opnd_create_reg src_reg_upper in
      let i1 := SAVE_SIMD_TO_SIZED_TLS src_reg_upper (TLS_ZMM_idx_SLOT (TO_YMM_REG_INDEX src_reg_upper)) OPSZ_32 in
      let i2 := RESTORE_SIMD_FROM_SIZED_TLS src_reg_upper ((TLS_ZMM_idx_SLOT (TO_ZMM_REG_INDEX src_reg)) + SIZE_OF_YMM) OPSZ_32 in
      let i3 := RESTORE_SIMD_FROM_SIZED_TLS src_reg_lower (TLS_ZMM_idx_SLOT (TO_ZMM_REG_INDEX src_reg)) OPSZ_32 in
      let i4 := INSTR_CREATE_2 OP_vmovdqu (opnd_create_base_disp dst_base_reg dst_index_reg scale disp OPSZ_32) op_src_reg_lower in
      let i5 := INSTR_CREATE_2 OP_vmovdqu (opnd_create_base_disp dst_base_reg dst_index_reg scale (disp + SIZE_OF_YMM) OPSZ_32) op_src_reg_upper in
      let i6 := RESTORE_SIMD_FROM_SIZED_TLS src_reg_upper (TLS_ZMM_idx_SLOT (TO_YMM_REG_INDEX src_reg_upper)) OPSZ_32 in
      rw_replace [i1; i2; i3; i4; i5; i6]
  | 1 =>
      let spill_src_reg_upper := find_one_available_spill_ymm spill_src_reg in
      let op_spill_src_reg := opnd_create_reg spill_src_reg in
      let op_spill_src_reg_upper := opnd_create_reg spill_src_reg_upper in
      let i1 := SAVE_SIMD_TO_SIZED_TLS spill_src_reg (TLS_ZMM_idx_SLOT (TO_YMM_REG_INDEX spill_src_reg)) OPSZ_32 in
      let i2 := SAVE_SIMD_TO_SIZED_TLS spill_src_reg_upper (TLS_ZMM_idx_SLOT (TO_YMM_REG_INDEX spill_src_reg_upper)) OPSZ_32 in
      let i3 := RESTORE_SIMD_FROM_SIZED_TLS spill_src_reg (TLS_ZMM_idx_SLOT (TO_ZMM_REG_INDEX src_reg)) OPSZ_32 in
      let i4 := RESTORE_SIMD_FROM_SIZED_TLS spill_src_reg_upper ((TLS_ZMM_idx_SLOT (TO_ZMM_REG_INDEX src_reg)) + SIZE_OF_YMM) OPSZ_32 in
      let i5 := INSTR_CREATE_2 OP_vmovdqu (opnd_create_base_disp dst_base_reg dst_index_reg scale disp OPSZ_32) op_spill_src_reg in
      let i6 := INSTR_CREATE_2 OP_vmovdqu (opnd_create_base_disp dst_base_reg dst_index_reg scale (disp + SIZE_OF_YMM) OPSZ_32) op_spill_src_reg_upper in
      let i7 := RESTORE_SIMD_FROM_SIZED_TLS spill_src_reg (TLS_ZMM_idx_SLOT (TO_YMM_REG_INDEX spill_src_reg)) OPSZ_32 in
      let i8 := RESTORE_SIMD_FROM_SIZED_TLS spill_src_reg_upper (TLS_ZMM_idx_SLOT (TO_YMM_REG_INDEX spill_src_reg_upper)) OPSZ_32 in
      rw_replace [i1; i2; i3; i4; i5; i6; i7; i8]
  | _ =>
      rw_removed_null
  end.

Definition vmovdqu8_zmm_reg2disp_gen := zmm_store_reload_gen (find_one_available_spill_ymm DR_REG_NULL).
Definition vmovdqu16_zmm_reg2disp_gen := zmm_store_reload_gen YMM_SPILL_SLOT0.
Definition vmovdqu32_zmm_reg2disp_gen := zmm_store_reload_gen (find_one_available_spill_ymm DR_REG_NULL).

(** ** Generators: ymm and xmm registers *)

Definition ymm_load_gen (op : opcode) (src1_opnd : opnd_t) (dst_reg mask_reg : reg_id_t) : rw_result :=
  let dst_need_spill := (if NEED_SPILL_YMM dst_reg then 1 else 0) in
  match dst_need_spill with
  | 0 =>
      let dst_opnd := opnd_create_reg dst_reg in
      let i1 := INSTR_CREATE_2 op dst_opnd src1_opnd in
      rw_replace [i1]
  | 1 =>
      let spill_dst_reg := YMM_SPILL_SLOT0 in
      let spill_dst_opnd := opnd_create_reg spill_dst_reg in
      let i1 := SAVE_SIMD_TO_SIZED_TLS spill_dst_reg (TLS_ZMM_idx_SLOT (TO_YMM_REG_INDEX spill_dst_reg)) OPSZ_32 in
      let i2 := INSTR_CREATE_2 op spill_dst_opnd src1_opnd in
      let i3 := SAVE_SIMD_TO_SIZED_TLS spill_dst_reg (TLS_ZMM_idx_SLOT (TO_YMM_REG_INDEX dst_reg)) OPSZ_32 in
      let i4 := RESTORE_SIMD_FROM_SIZED_TLS spill_dst_reg (TLS_ZMM_idx_SLOT (TO_YMM_REG_INDEX spill_dst_reg)) OPSZ_32 in
      rw_replace [i1; i2; i3; i4]
  | _ =>
      rw_removed_null
  end.

Definition ymm_store_gen (op : opcode) (src1_reg : reg_id_t) (dst_opnd : opnd_t) (mask_reg : reg_id_t) : rw_result :=
  let src1_need_spill := (if NEED_SPILL_YMM src1_reg then 1 else 0) in
  match src1_need_spill with
  | 0 =>
      let src1_opnd := opnd_create_reg src1_reg in
      let i1 := INSTR_CREATE_2 op dst_opnd src1_opnd in
      rw_replace [i1]
  | 1 =>
      let spill_src1_reg := YMM_SPILL_SLOT0 in
      let spill_src1_opnd := opnd_create_reg spill_src1_reg in
      let i1 := SAVE_SIMD_TO_SIZED_TLS spill_src1_reg (TLS_ZMM_idx_SLOT (TO_YMM_REG_INDEX spill_src1_reg)) OPSZ_32 in
      let i2 := RESTORE_SIMD_FROM_SIZED_TLS spill_src1_reg (TLS_ZMM_idx_SLOT (TO_YMM_REG_INDEX src1_reg)) OPSZ_32 in
      let i3 := INSTR_CREATE_2 op dst_opnd spill_src1_opnd in
      let i4 := RESTORE_SIMD_FROM_SIZED_TLS spill_src1_reg (TLS_ZMM_idx_SLOT (TO_YMM_REG_INDEX spill_src1_reg)) OPSZ_32 in
      rw_replace [i1; i2; i3; i4]
  | _ =>
      rw_removed_null
  end.

Definition xmm_load_gen (op : opcode) (src1_opnd : opnd_t) (dst_reg mask_reg : reg_id_t) : rw_result :=
  let dst_need_spill := (if NEED_SPILL_XMM dst_reg then 1 else 0) in
  match dst_need_spill with
  | 0 =>
      let dst_opnd := opnd_create_reg dst_reg in
      let i1 := INSTR_CREATE_2 op dst_opnd src1_opnd in
      rw_replace [i1]
  | 1 =>
      let spill_dst_reg := XMM_SPILL_SLOT0 in
      let spill_dst_opnd := opnd_create_reg spill_dst_reg in
      let i1 := SAVE_SIMD_TO_SIZED_TLS spill_dst_reg (TLS_ZMM_idx_SLOT (TO_XMM_REG_INDEX spill_dst_reg)) OPSZ_16 in
      let i2 := INSTR_CREATE_2 op spill_dst_opnd src1_opnd in
      let i3 := SAVE_SIMD_TO_SIZED_TLS spill_dst_reg (TLS_ZMM_idx_SLOT (TO_XMM_REG_INDEX dst_reg)) OPSZ_16 in
      let i4 := RESTORE_SIMD_FROM_SIZED_TLS spill_dst_reg (TLS_ZMM_idx_SLOT (TO_XMM_REG_INDEX spill_dst_reg)) OPSZ_16 in
      rw_replace [i1; i2; i3; i4]
  | _ =>
      rw_removed_null
  end.

Definition xmm_store_gen (op : opcode) (src1_reg : reg_id_t) (dst_opnd : opnd_t) (mask_reg : reg_id_t) : rw_result :=
  let src1_need_spill := (if NEED_SPILL_XMM src1_reg then 1 else 0) in
  match src1_need_spill with
  | 0 =>
      let src1_opnd := opnd_create_reg src1_reg in
      let i1 := INSTR_CREATE_2 op dst_opnd src1_opnd in
      rw_replace [i1]
  | 1 =>
      let spill_src1_reg := XMM_SPILL_SLOT0 in
      let spill_src1_opnd := opnd_create_reg spill_src1_reg in
      let i1 := SAVE_SIMD_TO_SIZED_TLS spill_src1_reg (TLS_ZMM_idx_SLOT (TO_XMM_REG_INDEX spill_src1_reg)) OPSZ_16 in
      let i2 := RESTORE_SIMD_FROM_SIZED_TLS spill_src1_reg (TLS_ZMM_idx_SLOT (TO_XMM_REG_INDEX src1_reg)) OPSZ_16 in
      let i3 := INSTR_CREATE_2 op dst_opnd spill_src1_opnd in
      let i4 := RESTORE_SIMD_FROM_SIZED_TLS spill_src1_reg (TLS_ZMM_idx_SLOT (TO_XMM_REG_INDEX spill_src1_reg)) OPSZ_16 in
      rw_replace [i1; i2; i3; i4]
  | _ =>
      rw_removed_null
  end.

Definition vmovaps_ymm_disp2reg_gen := ymm_load_gen OP_vmovaps.
Definition vmovdqu16_ymm_disp2reg_gen := ymm_load_gen OP_vmovdqu.
Definition vmovdqu32_ymm_disp2reg_gen := ymm_load_gen OP_vmovdqu.
Definition vmovaps_ymm_reg2disp_gen := ymm_store_gen OP_vmovaps.
Definition vmovdqu32_ymm_reg2disp_gen := ymm_store_gen OP_vmovdqu.
Definition vmovaps_xmm_disp2reg_gen := xmm_load_gen OP_vmovaps.
Definition vmovdqu16_xmm_disp2reg_gen := xmm_load_gen OP_vmovdqu.
Definition vmovaps_xmm_reg2disp_gen := xmm_store_gen OP_vmovaps.
Definition vmovdqu32_xmm_reg2disp_gen := xmm_store_gen OP_vmovdqu.

(** The [vmovdqu8] functions do the same under [k0] and nothing under another mask. *)
Definition unmasked_load (gen : opnd_t -> reg_id_t -> reg_id_t -> rw_result)
    (src_opnd : opnd_t) (dst_reg mask_reg : reg_id_t) : rw_result :=
  let k_idx := TO_K_REG_INDEX mask_reg in
  if k_idx =? 0 then gen src_opnd dst_reg mask_reg else rw_removed_null.

Definition unmasked_store (gen : reg_id_t -> opnd_t -> reg_id_t -> rw_result)
    (src_reg : reg_id_t) (dst_opnd : opnd_t) (mask_reg : reg_id_t) : rw_result :=
  let k_idx := TO_K_REG_INDEX mask_reg in
  if k_idx =? 0 then gen src_reg dst_opnd mask_reg else rw_removed_null.

Definition vmovdqu8_ymm_disp2reg_gen := unmasked_load (ymm_load_gen OP_vmovdqu).
Definition vmovdqu8_xmm_disp2reg_gen := unmasked_load (xmm_load_gen OP_vmovdqu).
Definition vmovdqu8_ymm_reg2disp_gen := unmasked_store (ymm_store_gen OP_vmovdqu).
Definition vmovdqu8_xmm_reg2disp_gen := unmasked_store (xmm_store_gen OP_vmovdqu).

Definition vmovdqu32_xmm_disp2reg_gen (src_opnd : opnd_t) (dst_reg mask_reg : reg_id_t) : rw_result :=
  let dst_opnd := create_mapping_xmm_opnd dst_reg in
  let new_instr1 := instr_create_1dst_1src OP_vmovdqu dst_opnd src_opnd in
  rw_replace [new_instr1].

Definition vmovdqu16_xmm_reg2disp_gen (src_reg : reg_id_t) (dst_opnd : opnd_t) (mask_reg : reg_id_t) : rw_result :=
  let src_opnd := create_mapping_xmm_opnd src_reg in
  let new_instr1 := instr_create_1dst_1src OP_vmovdqu dst_opnd src_opnd in
  rw_replace [new_instr1].

(** ** Symbolic execution of memory accesses *)

Definition st_ldm (s : mach) (r : Z) (n : nat) (a : Z) : mach := set_simd s r n (load_lanes (mem s) a).
Definition st_stm (s : mach) (r : Z) (n : nat) (a : Z) : mach :=
  with_mem s (store_lanes n (mem s) a (simd s r)).

Lemma mem_addr_gpr s t base index scale disp :
  gpr t = gpr s -> mem_addr t base index scale disp = mem_addr s base index scale disp.
Proof. intros E; unfold mem_addr, addr_reg, read_gpr; now rewrite E. Qed.

Lemma exec_ldm op al r base index scale disp sz n i a s :
  lane_mov op = Some al -> avx2_reg r = Some (n, i) -> opsz_bytes sz = (16 * n)%nat ->
  mem_addr s base index scale disp = Some a -> (al = true -> a mod (16 * Z.of_nat n) = 0) ->
  exec (INSTR_CREATE_2 op (opnd_create_reg r) (opnd_create_base_disp base index scale disp sz)) s
  = Some (st_ldm s i n a).
Proof.
  intros Hop Hr Hsz Ha Hal; unfold exec, exec_vmov; destruct op; try discriminate Hop; cbn [instr_opcode instr_dsts instr_srcs
    INSTR_CREATE_2 instr_create_1dst_1src lane_binop lane_mov opnd_create_reg opnd_create_base_disp];
    injection Hop as <-; rewrite Hr; cbn [obind]; rewrite Ha; cbn [obind]; rewrite Hsz, Nat.eqb_refl; cbn [negb andb orb];
    rewrite ?Hal by reflexivity; reflexivity.
Qed.

Lemma exec_stm op al r base index scale disp sz n i a s :
  lane_mov op = Some al -> avx2_reg r = Some (n, i) -> opsz_bytes sz = (16 * n)%nat ->
  mem_addr s base index scale disp = Some a -> (al = true -> a mod (16 * Z.of_nat n) = 0) ->
  exec (INSTR_CREATE_2 op (opnd_create_base_disp base index scale disp sz) (opnd_create_reg r)) s
  = Some (st_stm s i n a).
Proof.
  intros Hop Hr Hsz Ha Hal; unfold exec, exec_vmov; destruct op; try discriminate Hop; cbn [instr_opcode instr_dsts instr_srcs
    INSTR_CREATE_2 instr_create_1dst_1src lane_binop lane_mov opnd_create_reg opnd_create_base_disp];
    injection Hop as <-; rewrite Hr; cbn [obind]; rewrite Ha; cbn [obind]; rewrite Hsz, Nat.eqb_refl; cbn [negb andb orb];
    rewrite ?Hal by reflexivity; reflexivity.
Qed.

(** The accesses of a piece of code: one address, taken with 16-byte lanes. *)
Section MemSteps.
Context (op : opcode) (al : bool) (Hop : lane_mov op = Some al).
Context (c s : mach) (k : list instr_t) (r : Z) (Hr : 0 <= r < 16) (Hg : gpr s = gpr c).
Context (base index : reg_id_t) (scale disp a : Z) (Ha : mem_addr c base index scale disp = Some a).

Lemma run_ldm_ymm (Hal : al = true -> a mod 32 = 0) :
  run (INSTR_CREATE_2 op (opnd_create_reg (ymm r)) (opnd_create_base_disp base index scale disp OPSZ_32) :: k) s
  = run k (st_ldm s r 2 a).
Proof.
  cbn [run]; now rewrite (exec_ldm op al _ _ _ _ _ _ 2 r a)
    by (auto using avx2_reg_ymm; now rewrite (mem_addr_gpr c)).
Qed.

Lemma run_stm_ymm (Hal : al = true -> a mod 32 = 0) :
  run (INSTR_CREATE_2 op (opnd_create_base_disp base index scale disp OPSZ_32) (opnd_create_reg (ymm r)) :: k) s
  = run k (st_stm s r 2 a).
Proof.
  cbn [run]; now rewrite (exec_stm op al _ _ _ _ _ _ 2 r a)
    by (auto using avx2_reg_ymm; now rewrite (mem_addr_gpr c)).
Qed.

Lemma run_ldm_xmm (Hal : al = true -> a mod 16 = 0) :
  run (INSTR_CREATE_2 op (opnd_create_reg (xmm r)) (opnd_create_base_disp base index scale disp OPSZ_16) :: k) s
  = run k (st_ldm s r 1 a).
Proof.
  cbn [run]; now rewrite (exec_ldm op al _ _ _ _ _ _ 1 r a)
    by (auto using avx2_reg_xmm; now rewrite (mem_addr_gpr c)).
Qed.

Lemma run_stm_xmm (Hal : al = true -> a mod 16 = 0) :
  run (INSTR_CREATE_2 op (opnd_create_base_disp base index scale disp OPSZ_16) (opnd_create_reg (xmm r)) :: k) s
  = run k (st_stm s r 1 a).
Proof.
  cbn [run]; now rewrite (exec_stm op al _ _ _ _ _ _ 1 r a)
    by (auto using avx2_reg_xmm; now rewrite (mem_addr_gpr c)).
Qed.
End MemSteps.

(** *** Reading from the states *)

Section MemReads.
Context (s : mach) (r j a : Z).

Lemma rd_ldm l (Hl : 0 <= l < 2) :
  simd (st_ldm s r 2 a) j l = if j =? r then wrap 128 (load 16 (mem s) (a + 16 * l)) else simd s j l.
Proof. cbn; destruct (j =? r); [|reflexivity]; now replace (l <? 2) with true by (symmetry; apply Z.ltb_lt; lia). Qed.

Lemma rd_ldm_0 : simd (st_ldm s r 1 a) j 0 = if j =? r then wrap 128 (load 16 (mem s) (a + 16 * 0)) else simd s j 0.
Proof. reflexivity. Qed.

Lemma rd_ldm_1 : simd (st_ldm s r 1 a) j 1 = if j =? r then 0 else simd s j 1.
Proof. reflexivity. Qed.
End MemReads.

Lemma tls_ldm s r n a : tls (st_ldm s r n a) = tls s.
Proof. reflexivity. Qed.
Lemma tls_stm s r n a : tls (st_stm s r n a) = tls s.
Proof. reflexivity. Qed.
Lemma simd_stm s r n a : simd (st_stm s r n a) = simd s.
Proof. reflexivity. Qed.
Lemma mem_stm s r n a : mem (st_stm s r n a) = store_lanes n (mem s) a (simd s r).
Proof. reflexivity. Qed.
Lemma gpr_ldm s r n a : gpr (st_ldm s r n a) = gpr s.
Proof. reflexivity. Qed.
Lemma mem_ldm s r n a : mem (st_ldm s r n a) = mem s.
Proof. reflexivity. Qed.
Lemma same_frame_ldm s t r n a : same_frame s t -> same_frame s (st_ldm t r n a).
Proof. exact (fun H => H). Qed.

#[local] Transparent st_save st_load.
Lemma mem_save s r n i m : mem (st_save s r n i m) = mem s.
Proof. reflexivity. Qed.
Lemma mem_load s r n i m : mem (st_load s r n i m) = mem s.
Proof. reflexivity. Qed.
Lemma gpr_save s r n i m : gpr (st_save s r n i m) = gpr s.
Proof. reflexivity. Qed.
Lemma gpr_load s r n i m : gpr (st_load s r n i m) = gpr s.
Proof. reflexivity. Qed.
#[local] Opaque st_save st_load.
Lemma gpr_stm s r n a : gpr (st_stm s r n a) = gpr s.
Proof. reflexivity. Qed.

Lemma wrap_load m a : wf_memory m -> wrap 128 (load 16 m a) = load 16 m a.
Proof. intros H; apply wrap_id, (load_range 16), H. Qed.

#[local] Opaque st_ldm st_stm.

(** ** Specifications *)

(** The address of an operand in the guest's registers. *)
Definition guest_mach (g : guest) : mach :=
  mk_mach (fun _ _ => 0) (g_gpr g) (g_rflags g) (fun _ => 0) (g_mem g).

Definition guest_addr (o : opnd_t) (g : guest) : option Z :=
  match o with
  | OPND_BASE_DISP base index scale disp _ => mem_addr (guest_mach g) base index scale disp
  | _ => None
  end.

Definition vec_load (n d : Z) (o : opnd_t) (g : guest) : guest :=
  match guest_addr o g with
  | Some a => set_zmm g d (fun l => if l <? n then load 16 (g_mem g) (a + 16 * l) else 0)
  | None => g
  end.

Definition vec_load_keep (n d : Z) (o : opnd_t) (g : guest) : guest :=
  match guest_addr o g with
  | Some a => set_zmm g d (fun l => if l <? n then load 16 (g_mem g) (a + 16 * l) else g_zmm g d l)
  | None => g
  end.

Lemma vec_load_low P n d o r :
  rewrites_if P (vec_load_keep n d o) r -> rewrites_low_if P n d (vec_load_keep n d o) (vec_load n d o) r.
Proof.
  apply rewrites_low_if_intro; intros g Hz; unfold vec_load_keep, vec_load; destruct (guest_addr o g) as [a|]; [|reflexivity].
  now apply (set_zmm_keep_zero n d (fun l => load 16 (g_mem g) (a + 16 * l))).
Qed.

Definition set_mem (g : guest) (m : memory) : guest := mk_guest (g_zmm g) (g_k g) (g_gpr g) (g_rflags g) m.

Definition vec_store (n : nat) (o : opnd_t) (r : Z) (g : guest) : guest :=
  match guest_addr o g with
  | Some a => set_mem g (store_lanes n (g_mem g) a (g_zmm g r))
  | None => g
  end.

(** The access does not fault in the guest: the operand has an address, the [n]
    lanes do not run over the end of the address space and an aligned move has
    an aligned address. *)
Definition access_ok (n : Z) (aligned : bool) (o : opnd_t) (g : guest) : Prop :=
  exists a, guest_addr o g = Some a /\ a + 16 * n <= 2 ^ 64 /\ (aligned = true -> a mod (16 * n) = 0).

(** The operand of a zmm access has room for the displacement of its second half. *)
Lemma mem_addr_second s base index scale disp a :
  mem_addr s base index scale disp = Some a -> is_int32 (disp + SIZE_OF_YMM) = true -> a + 64 <= 2 ^ 64 ->
  mem_addr s base index scale (disp + SIZE_OF_YMM) = Some (a + 32).
Proof.
  unfold mem_addr; intros Ha Hd Hl; rewrite Hd.
  destruct (if base =? DR_REG_NULL then _ else _) as [b|]; [|discriminate]; cbn [obind] in *.
  destruct (if index =? DR_REG_NULL then _ else _) as [i|]; [|discriminate]; cbn [obind] in *.
  destruct (is_int32 disp); [|discriminate]; injection Ha as <-; f_equal; unfold SIZE_OF_YMM.
  pose proof (wrap_range 64 (b + i + disp) ltac:(lia)).
  rewrite <- (wrap_id 64 (wrap 64 (b + i + disp) + 32)) by lia; unfold wrap.
  rewrite Zplus_mod_idemp_l; f_equal; lia.
Qed.

Lemma align_halves a : a mod 64 = 0 -> a mod 32 = 0 /\ (a + 32) mod 32 = 0.
Proof.
  intros H; pose proof (Z.div_mod a 64 ltac:(lia)).
  assert (a = (2 * (a / 64)) * 32) as E by lia; rewrite E; split; [now apply Z_mod_mult|].
  replace (2 * (a / 64) * 32 + 32) with ((2 * (a / 64) + 1) * 32) by lia; now apply Z_mod_mult.
Qed.

(** The operand of an access of size [sz]. *)
Definition mem_opnd (base index : reg_id_t) (scale disp : Z) (sz : opnd_size) : opnd_t :=
  opnd_create_base_disp base index scale disp sz.

(** ** Proof automation *)

Ltac gpr_solve := repeat first [rewrite gpr_save|rewrite gpr_load|rewrite gpr_ldm|rewrite gpr_stm]; reflexivity.

Ltac mem_steps Hop :=
  unfold mem_opnd; repeat first
    [ rewrite run_save_ymm by lia | rewrite run_save_ymm_hi by lia
    | rewrite run_load_ymm by lia | rewrite run_load_ymm_hi by lia
    | rewrite run_save_xmm by lia | rewrite run_load_xmm by lia
    | match goal with
      | Ha : mem_addr ?c ?b ?i ?x ?d = Some ?a |- context [opnd_create_base_disp ?b ?i ?x ?d _] =>
          first
            [ rewrite (fun s k r Hr Hg Hal => run_ldm_ymm _ _ Hop c s k r Hr Hg b i x d a Ha Hal) by (lia || assumption || gpr_solve)
            | rewrite (fun s k r Hr Hg Hal => run_stm_ymm _ _ Hop c s k r Hr Hg b i x d a Ha Hal) by (lia || assumption || gpr_solve)
            | rewrite (fun s k r Hr Hg Hal => run_ldm_xmm _ _ Hop c s k r Hr Hg b i x d a Ha Hal) by (lia || assumption || gpr_solve)
            | rewrite (fun s k r Hr Hg Hal => run_stm_xmm _ _ Hop c s k r Hr Hg b i x d a Ha Hal) by (lia || assumption || gpr_solve) ]
      end ].

Ltac mem_run Hop := mem_steps Hop; cbn [run].

Ltac mem_read1 :=
  first
    [ sym_read1
    | match goal with
      | |- context [tls (st_ldm ?s ?r ?n ?a)] => rewrite (tls_ldm s r n a)
      | |- context [tls (st_stm ?s ?r ?n ?a)] => rewrite (tls_stm s r n a)
      | |- context [simd (st_stm ?s ?r ?n ?a)] => rewrite (simd_stm s r n a)
      | |- context [mem (st_save ?s ?r ?n ?i ?m)] => rewrite (mem_save s r n i m)
      | |- context [mem (st_load ?s ?r ?n ?i ?m)] => rewrite (mem_load s r n i m)
      | |- context [mem (st_ldm ?s ?r ?n ?a)] => rewrite (mem_ldm s r n a)
      | |- context [mem (st_stm ?s ?r ?n ?a)] => rewrite (mem_stm s r n a)
      | |- context [simd (st_ldm ?s ?r 1 ?a) ?j 0] => rewrite (rd_ldm_0 s r j a)
      | |- context [simd (st_ldm ?s ?r 1 ?a) ?j 1] => rewrite (rd_ldm_1 s r j a)
      | |- context [simd (st_ldm ?s ?r 2 ?a) ?j ?l] => rewrite (rd_ldm s r j a l) by assumption
      end ].

Ltac mem_frame :=
  repeat lazymatch goal with
  | |- same_frame ?s (st_ldm ?t ?r ?n ?a) => apply (same_frame_ldm s t r n a)
  | |- same_frame ?s (st_load ?t ?r ?n ?i ?m) => apply (same_frame_load s t r n i m)
  | |- same_frame ?s (st_bin ?t ?f ?d ?n ?a ?b) => apply (same_frame_bin s t f d n a b)
  | |- same_frame ?s (st_save ?t ?r ?n ?i ?m) => apply (same_frame_save s t r n i m); [lia|lia|]
  end;
  apply same_frame_refl.

Ltac mem_wrap :=
  repeat first [ rewrite wrap_wrap by lia | rewrite wrap_simd by assumption | rewrite wrap_tls_lane by assumption
               | rewrite wrap_load by (match goal with H : wf_mach _ |- _ => apply H end)
               | match goal with
                 | Hf : LaneOp ?g |- context [wrap 128 ?t] => rewrite (wrap_op g _ 0 Hf : wrap 128 t = t)
                 end ].

Ltac mem_read := repeat (first [idx_decide | mem_read1]).

(** A load: the access is in the guest's terms, the lanes one by one. *)
Ltac load_solve :=
  apply view_set_zmm; [mem_frame| | | ];
  (let i := fresh "i" in let l := fresh "l" in let Hi := fresh "Hi" in let Hl := fresh "Hl" in
   intros i l Hi Hl; mem_read; repeat sym_spec1; mem_wrap; cbn [view g_mem]; first [reflexivity | f_equal; lia]).

(** A store: every register keeps its lanes and the bytes are those of the
    source. *)
Lemma view_set_mem s s' m :
  gpr s' = gpr s -> rflags s' = rflags s -> (forall k, 0 <= k < 8 -> tls_k (tls s') k = tls_k (tls s) k) ->
  (forall i l, 0 <= i < 16 -> 0 <= l < 2 -> simd s' i l = simd s i l) ->
  (forall i l, 16 <= i < 32 -> 0 <= l < 2 -> tls_lane (tls s') i l = tls_lane (tls s) i l) ->
  (forall i l, 0 <= i < 32 -> 0 <= l < 2 -> tls_lane (tls s') i (2 + l) = tls_lane (tls s) i (2 + l)) ->
  mem s' = m ->
  view s' ==g set_mem (view s) m.
Proof.
  intros F1 F2 F4 H1 H2 H3 <-.
  split; [|split; [exact F4|split; [|split]]]; cbn [view set_mem g_gpr g_rflags g_mem g_zmm].
  - intros i l Hi Hl; destruct (Z.ltb_spec l 2) as [Hl2|Hl2].
    + destruct (Z.ltb_spec i 16);
        [rewrite !zmm_view_reg by lia; apply H1|rewrite !zmm_view_tls by lia; apply H2]; lia.
    + replace l with (2 + (l - 2)) by lia; rewrite !zmm_view_tls by lia; apply H3; lia.
  - intros; now rewrite F1.
  - exact F2.
  - reflexivity.
Qed.

(** The same when one register changes too. *)
Lemma view_set_both s s' d v m :
  gpr s' = gpr s -> rflags s' = rflags s -> (forall k, 0 <= k < 8 -> tls_k (tls s') k = tls_k (tls s) k) ->
  (forall i l, 0 <= i < 16 -> 0 <= l < 2 -> simd s' i l = if i =? d then v l else simd s i l) ->
  (forall i l, 16 <= i < 32 -> 0 <= l < 2 ->
     tls_lane (tls s') i l = if i =? d then v l else tls_lane (tls s) i l) ->
  (forall i l, 0 <= i < 32 -> 0 <= l < 2 ->
     tls_lane (tls s') i (2 + l) = if i =? d then v (2 + l) else tls_lane (tls s) i (2 + l)) ->
  mem s' = m ->
  view s' ==g set_mem (set_zmm (view s) d v) m.
Proof.
  intros F1 F2 F3 H1 H2 H3 <-.
  assert (F : same_frame s (with_mem s' (mem s))) by (repeat split; assumption).
  destruct (view_set_zmm s (with_mem s' (mem s)) d v F H1 H2 H3) as (E1 & E2 & E3 & E4 & _).
  repeat split; assumption.
Qed.

Lemma store_lanes_ext n m a v w :
  (forall l, 0 <= l < Z.of_nat n -> v l = w l) -> store_lanes n m a v = store_lanes n m a w.
Proof.
  induction n as [|n IH]; intros H; cbn [store_lanes]; [reflexivity|].
  rewrite IH by (intros; apply H; lia); now rewrite H by lia.
Qed.

Lemma store_twice m a b v v' w w' :
  (forall l, 0 <= l < 2 -> v l = v' l) -> (forall l, 0 <= l < 2 -> w l = w' l) ->
  store_lanes 2 (store_lanes 2 m a v) b w = store_lanes 2 (store_lanes 2 m a v') b w'.
Proof. intros Hv Hw; rewrite (store_lanes_ext 2 m a v v' Hv); now apply store_lanes_ext. Qed.

Lemma store_lanes_halves m a v :
  store_lanes 4 m a v = store_lanes 2 (store_lanes 2 m a v) (a + 32) (fun l => v (2 + l)).
Proof.
  cbn [store_lanes]; cbn; f_equal; [f_equal|]; lia.
Qed.

Lemma tls_k_stm s r n a k : tls_k (tls (st_stm s r n a)) k = tls_k (tls s) k.
Proof. now rewrite tls_stm. Qed.

#[local] Transparent st_save st_load.
Lemma rflags_save s r n i m : rflags (st_save s r n i m) = rflags s.
Proof. reflexivity. Qed.
Lemma rflags_load s r n i m : rflags (st_load s r n i m) = rflags s.
Proof. reflexivity. Qed.
#[local] Opaque st_save st_load.
#[local] Transparent st_stm.
Lemma rflags_stm s r n a : rflags (st_stm s r n a) = rflags s.
Proof. reflexivity. Qed.
#[local] Opaque st_stm.

Ltac lane_solve :=
  let i := fresh "i" in let l := fresh "l" in let Hi := fresh "Hi" in let Hl := fresh "Hl" in
  intros i l Hi Hl; mem_read; mem_wrap; reflexivity.

(** One lane of the stored bytes. *)
Ltac byte_solve :=
  let l := fresh "l" in let Hl := fresh "Hl" in
  intros l Hl; change (Z.of_nat 2) with 2 in Hl; mem_read; repeat sym_spec1; mem_wrap; reflexivity.

Ltac store_frame_with L :=
  apply L;
  [ gpr_solve
  | repeat first [rewrite rflags_save|rewrite rflags_load|rewrite rflags_stm]; reflexivity
  | let k := fresh "k" in let Hk := fresh "Hk" in
    intros k Hk; repeat first [rewrite tls_load|rewrite tls_stm|rewrite tls_k_save by lia]; reflexivity
  | | |
  | rewrite ?store_lanes_halves; cbn [view g_mem]; repeat first [rewrite mem_load|rewrite mem_save|rewrite mem_stm] ].

Ltac store_frame := store_frame_with view_set_mem.

Ltac store_solve :=
  store_frame;
  [ lane_solve | lane_solve | lane_solve
  | first [apply store_twice; byte_solve | apply store_lanes_ext; byte_solve] ].

(** Bits 255:128 of the spill registers are zero, as a 128-bit restore leaves them. *)
Definition spill_low (g : guest) : Prop := forall i, 10 <= i <= 15 -> g_zmm g i 1 = 0.

Lemma spill_low_simd c i : spill_low (view c) -> 10 <= i <= 15 -> simd c i 1 = 0.
Proof. intros H Hi; specialize (H i Hi); cbn [view g_zmm] in H; now rewrite zmm_view_reg in H by lia. Qed.

Ltac close_xmm :=
  mem_wrap; cbn [view g_mem];
  first [ reflexivity
        | match goal with
          | Hp : xmm_pre ?d (view ?c) |- _ =>
              first [ symmetry; apply (xmm_pre_spill c d); [exact Hp|lia]
                    | apply (xmm_pre_dst_hi c d); assumption | apply (xmm_pre_dst_1 c d); assumption ]
          | Hp : spill_low (view ?c) |- _ => symmetry; apply (spill_low_simd c); [exact Hp|lia]
          end ].

Ltac two_lanes l :=
  first [ match goal with |- context [tls_lane _ _ (2 + l)] => idtac end
        | assert (l = 0 \/ l = 1) as [-> | ->] by lia ].

Ltac load_solve_xmm :=
  apply view_set_zmm; [mem_frame| | | ];
  (let i := fresh "i" in let l := fresh "l" in let Hi := fresh "Hi" in let Hl := fresh "Hl" in
   intros i l Hi Hl; two_lanes l; mem_read; repeat sym_spec1; close_xmm).

Ltac lane_solve_xmm :=
  let i := fresh "i" in let l := fresh "l" in let Hi := fresh "Hi" in let Hl := fresh "Hl" in
  intros i l Hi Hl; two_lanes l; mem_read; close_xmm.

Ltac byte_solve_xmm :=
  let l := fresh "l" in let Hl := fresh "Hl" in
  intros l Hl; assert (l = 0) as -> by (change (Z.of_nat 1) with 1 in Hl; lia);
  mem_read; repeat sym_spec1; mem_wrap; reflexivity.

Ltac store_solve_xmm :=
  store_frame; [lane_solve_xmm | lane_solve_xmm | lane_solve_xmm | apply store_lanes_ext; byte_solve_xmm].

(** ** Correctness *)

(** Code that runs leaves a well-formed state. *)
Lemma run_intro (P : mach -> Prop) code s :
  wf_mach s -> (exists s', run code s = Some s' /\ P s') -> exists s', run code s = Some s' /\ wf_mach s' /\ P s'.
Proof. intros Hs (s' & R & H); exists s'; split; [exact R|split; [exact (run_wf _ _ _ Hs R)|exact H]]. Qed.

Lemma guest_addr_view base index scale disp sz c :
  guest_addr (mem_opnd base index scale disp sz) (view c) = mem_addr c base index scale disp.
Proof. apply mem_addr_gpr; reflexivity. Qed.

(** The address of the access, and of its second half. *)
Ltac the_access Hp :=
  let a := fresh "a" in let Ha := fresh "Ha" in let Hlim := fresh "Hlim" in let Hal := fresh "Hal" in
  destruct Hp as (a & Ha & Hlim & Hal); try (match type of Ha with guest_addr ?o _ = _ => is_var o; unfold o in * end); unfold vec_load, vec_load_keep, vec_store; rewrite Ha;
  rewrite guest_addr_view in Ha; simpl (_ * _) in Hlim, Hal;
  try match goal with
      | Hdisp : is_int32 (_ + SIZE_OF_YMM) = true |- _ =>
          pose proof (mem_addr_second _ _ _ _ _ _ Ha Hdisp Hlim);
          pose proof (fun E => proj1 (align_halves a (Hal E))); pose proof (fun E => proj2 (align_halves a (Hal E)))
      end.

Ltac mem_emit :=
  repeat pick_spill; autorewrite with rw_regs; eexists; split; [reflexivity|]; apply translates_if_intro;
  let c := fresh "c" in let Hc := fresh "Hc" in let Hp := fresh "Hp" in
  intros c Hc Hp.

Ltac opnd_fields :=
  unfold mem_opnd; cbn [opnd_get_base opnd_get_index opnd_get_scale opnd_get_disp opnd_create_base_disp];
  repeat change (OPND_BASE_DISP ?b ?i ?x ?d ?sz) with (mem_opnd b i x d sz).

Ltac one_case d :=
  change YMM_SPILL_SLOT0 with (ymm 10); change XMM_SPILL_SLOT0 with (xmm 10);
  rewrite ?NEED_SPILL_ZMM_zmm, ?NEED_SPILL_YMM_ymm, ?NEED_SPILL_XMM_xmm, ?ZMM_TO_YMM_zmm,
    ?TO_ZMM_REG_INDEX_zmm, ?TO_YMM_REG_INDEX_ymm, ?TO_XMM_REG_INDEX_xmm by assumption;
  destruct (Z.leb_spec 16 d); cbv iota.

Section Access.
Context (base index : reg_id_t) (scale disp : Z) (mask : reg_id_t).

Section Zmm.
Context (Hdisp : is_int32 (disp + SIZE_OF_YMM) = true).
Let o := mem_opnd base index scale disp OPSZ_64.

Lemma zmm_load_correct d :
  0 <= d < 32 -> rewrites_if (access_ok 4 false o) (vec_load 4 d o) (zmm_load_gen o (zmm d) mask).
Proof.
  intros Hd; pose proof (eq_refl : lane_mov OP_vmovdqu = Some false) as Hop.
  unfold zmm_load_gen; one_case d; mem_emit; the_access Hp; (eexists; split; [mem_run Hop; reflexivity|load_solve]).
Qed.

Lemma vmovaps_zmm_load_correct d :
  0 <= d < 32 -> rewrites_if (access_ok 4 true o) (vec_load 4 d o) (vmovaps_zmm_disp2reg_gen o (zmm d) mask).
Proof.
  intros Hd; pose proof (eq_refl : lane_mov OP_vmovaps = Some true) as Hop.
  destruct find_one_ymm_chain as (E0 & E1 & E2).
  unfold vmovaps_zmm_disp2reg_gen; one_case d; rewrite ?E0, ?E1; clear E0 E1 E2;
    mem_emit; the_access Hp; (eexists; split; [mem_run Hop; reflexivity|load_solve]).
Qed.

Lemma zmm_store_correct op al (Hop : lane_mov op = Some al) r :
  0 <= r < 32 -> rewrites_if (access_ok 4 al o) (vec_store 4 o r) (zmm_store_gen op (zmm r) o mask).
Proof.
  intros Hr; destruct find_one_ymm_chain as (E0 & E1 & E2).
  unfold zmm_store_gen; one_case r; rewrite ?E0, ?E1; clear E0 E1 E2;
    mem_emit; the_access Hp; (eexists; split; [mem_run Hop; reflexivity|store_solve]).
Qed.

(** A high source. *)
Lemma zmm_store_reload_high r :
  16 <= r < 32 -> rewrites_if (access_ok 4 false o) (vec_store 4 o r) (zmm_store_reload_gen (ymm 10) (zmm r) o mask).
Proof.
  intros Hr; assert (Hr' : 0 <= r < 32) by lia; pose proof (eq_refl : lane_mov OP_vmovdqu = Some false) as Hop.
  destruct find_one_ymm_chain as (_ & E1 & _).
  unfold zmm_store_reload_gen; one_case r; [|lia]; rewrite ?E1; clear E1;
    mem_emit; the_access Hp; (eexists; split; [mem_run Hop; reflexivity|store_solve]).
Qed.

(** A low source: the code first puts the TLS slot into the register. *)
Lemma zmm_store_reload_low r :
  0 <= r < 16 -> exists code, zmm_store_reload_gen (ymm 10) (zmm r) o mask = rw_replace code /\
  forall c, wf_mach c -> access_ok 4 false o (view c) ->
  exists s', run code c = Some s' /\ wf_mach s' /\
    view s' ==g vec_store 4 o r (set_zmm (view c) r (tls_lane (tls c) r)).
Proof.
  intros Hr; assert (Hr' : 0 <= r < 32) by lia; pose proof (eq_refl : lane_mov OP_vmovdqu = Some false) as Hop.
  unfold zmm_store_reload_gen; one_case r; [lia|].
  repeat pick_spill; autorewrite with rw_regs; eexists; split; [reflexivity|]; intros c Hc Hp.
  change (vec_store 4 o r (set_zmm (view c) r (tls_lane (tls c) r))) with
    (match guest_addr o (view c) with
     | Some a => set_mem (set_zmm (view c) r (tls_lane (tls c) r))
                   (store_lanes 4 (mem c) a (g_zmm (set_zmm (view c) r (tls_lane (tls c) r)) r))
     | None => set_zmm (view c) r (tls_lane (tls c) r) end).
  apply (run_intro (fun s' => view s' ==g _)); [exact Hc|].
  the_access Hp; eexists; split; [mem_run Hop; reflexivity|].
  store_frame_with view_set_both; [lane_solve | lane_solve | lane_solve |].
  apply store_twice; intros l Hl; cbn [set_zmm g_zmm]; rewrite Z.eqb_refl; mem_read; mem_wrap; reflexivity.
Qed.
End Zmm.

Section Ymm.
Let o := mem_opnd base index scale disp OPSZ_32.

Lemma ymm_load_correct op al (Hop : lane_mov op = Some al) d :
  0 <= d < 32 -> rewrites_if (access_ok 2 al o) (vec_load_keep 2 d o) (ymm_load_gen op o (ymm d) mask).
Proof.
  intros Hd; unfold ymm_load_gen; one_case d; mem_emit; the_access Hp;
    (eexists; split; [mem_run Hop; reflexivity|load_solve]).
Qed.

Lemma ymm_store_correct op al (Hop : lane_mov op = Some al) r :
  0 <= r < 32 -> rewrites_if (access_ok 2 al o) (vec_store 2 o r) (ymm_store_gen op (ymm r) o mask).
Proof.
  intros Hr; unfold ymm_store_gen; one_case r; mem_emit; the_access Hp;
    (eexists; split; [mem_run Hop; reflexivity|store_solve]).
Qed.
End Ymm.

Section Xmm.
Let o := mem_opnd base index scale disp OPSZ_16.

Lemma xmm_load_correct op al (Hop : lane_mov op = Some al) d :
  0 <= d < 32 ->
  rewrites_if (fun g => xmm_pre d g /\ access_ok 1 al o g) (vec_load 1 d o) (xmm_load_gen op o (xmm d) mask).
Proof.
  intros Hd; unfold xmm_load_gen; one_case d; mem_emit; destruct Hp as [Hx Hp]; the_access Hp;
    (eexists; split; [mem_run Hop; reflexivity|load_solve_xmm]).
Qed.

Lemma xmm_store_correct op al (Hop : lane_mov op = Some al) r :
  0 <= r < 32 ->
  rewrites_if (fun g => spill_low g /\ access_ok 1 al o g) (vec_store 1 o r) (xmm_store_gen op (xmm r) o mask).
Proof.
  intros Hr; unfold xmm_store_gen; one_case r; mem_emit; destruct Hp as [Hx Hp]; the_access Hp;
    (eexists; split; [mem_run Hop; reflexivity|store_solve_xmm]).
Qed.
End Xmm.
End Access.

Lemma load_store_lanes n m a v l :
  0 <= l < Z.of_nat n -> load 16 (store_lanes n m a v) (a + 16 * l) = wrap 128 (v l).
Proof.
  induction n as [|n IH]; intros Hl; [lia|]; cbn [store_lanes].
  destruct (Z.eq_dec l (Z.of_nat n)) as [->|Hne].
  - now rewrite load_store_same.
  - rewrite load_store_disjoint by lia; apply IH; lia.
Qed.

(** The address only depends on the guest's registers. *)
Lemma gpr_reg_index r n i sh : gpr_reg r = Some (n, i, sh) -> 0 <= i < 16.
Proof.
  unfold gpr_reg, IS_64GPR_REG, IS_32GPR_REG, IS_16GPR_REG.
  repeat lazymatch goal with
  | |- (if ?c then _ else _) = _ -> _ =>
      let E := fresh "E" in destruct c eqn:E;
      [ intros H; injection H as <- <- <-; clear -E; apply andb_true_iff in E; rewrite ?Z.leb_le, ?Z.ltb_lt in E;
        unfold_regs; lia
      | clear E ]
  end; discriminate.
Qed.

Lemma read_gpr_ext s t r :
  (forall i, 0 <= i < 16 -> gpr t i = gpr s i) -> read_gpr t r = read_gpr s r.
Proof.
  intros H; unfold read_gpr; destruct (gpr_reg r) as [[[n i] sh]|] eqn:E; [|reflexivity]; cbn [obind].
  now rewrite H by (eapply gpr_reg_index; eassumption).
Qed.

Lemma guest_addr_ext o g h :
  (forall i, 0 <= i < 16 -> g_gpr g i = g_gpr h i) -> guest_addr o g = guest_addr o h.
Proof.
  intros H; destruct o; try reflexivity; cbn [guest_addr]; unfold mem_addr, addr_reg.
  now rewrite !(read_gpr_ext (guest_mach h) (guest_mach g)) by exact H.
Qed.

Lemma wrap_view s i l : wf_mach s -> wrap 128 (g_zmm (view s) i l) = zmm_view s i l.
Proof.
  intros H; cbn [view g_zmm]; unfold zmm_view; destruct (_ && _); [now apply wrap_simd|now apply wrap_tls_lane].
Qed.

(** ** Theorems *)

(** C10: Unmasked zmm loads ([vmovdqu8], [vmovdqu16], [vmovdqu32], [vmovdqu64],
    [vmovaps]) are the documented instruction for every destination register and
    every operand of the form base + index * scale + displacement whose
    displacement leaves room for the second half, from the states where the
    access does not fault in the guest: the operand has an address, the 64 bytes
    do not run over the end of the address space and, for [vmovaps], the address
    is aligned. *)
Theorem zmm_loads_correct base index scale disp d :
  0 <= d < 32 -> is_int32 (disp + SIZE_OF_YMM) = true ->
  let o := mem_opnd base index scale disp OPSZ_64 in
  rewrites_if (access_ok 4 false o) (vec_load 4 d o) (vmovdqu8_zmm_disp2reg_gen o (zmm d) DR_REG_K0) /\
  rewrites_if (access_ok 4 false o) (vec_load 4 d o) (vmovdqu16_zmm_disp2reg_gen o (zmm d) DR_REG_K0) /\
  rewrites_if (access_ok 4 false o) (vec_load 4 d o) (vmovdqu32_zmm_disp2reg_gen o (zmm d) DR_REG_K0) /\
  rewrites_if (access_ok 4 false o) (vec_load 4 d o) (vmovdqu64_zmm_disp2reg_gen o (zmm d) DR_REG_K0) /\
  rewrites_if (access_ok 4 true o) (vec_load 4 d o) (vmovaps_zmm_disp2reg_gen o (zmm d) DR_REG_K0).
Proof.
  intros Hd Hi o; repeat (split; [now apply zmm_load_correct|]); now apply vmovaps_zmm_load_correct.
Qed.

Lemma zmm_loads_correct_witness :
  let o := mem_opnd DR_REG_RAX DR_REG_NULL 0 64 OPSZ_64 in
  rewrites_if (access_ok 4 false o) (vec_load 4 20 o) (vmovdqu64_zmm_disp2reg_gen o (zmm 20) DR_REG_K0) /\
  access_ok 4 false o (view probe).
Proof.
  split; [apply (zmm_loads_correct DR_REG_RAX DR_REG_NULL 0 64 20); reflexivity || lia|].
  exists 4160; repeat split; discriminate.
Defined.

(** C24: Unmasked zmm stores of [vmovdqu64] and [vmovaps] are right for every
    register; those of [vmovdqu8], [vmovdqu16] and [vmovdqu32] for zmm16-31. *)
Theorem zmm_stores_correct base index scale disp r mask :
  0 <= r < 32 -> is_int32 (disp + SIZE_OF_YMM) = true ->
  let o := mem_opnd base index scale disp OPSZ_64 in
  rewrites_if (access_ok 4 false o) (vec_store 4 o r) (vmovdqu64_zmm_reg2disp_gen (zmm r) o mask) /\
  rewrites_if (access_ok 4 true o) (vec_store 4 o r) (vmovaps_zmm_reg2disp_gen (zmm r) o mask) /\
  (16 <= r ->
   rewrites_if (access_ok 4 false o) (vec_store 4 o r) (vmovdqu8_zmm_reg2disp_gen (zmm r) o mask) /\
   rewrites_if (access_ok 4 false o) (vec_store 4 o r) (vmovdqu16_zmm_reg2disp_gen (zmm r) o mask) /\
   rewrites_if (access_ok 4 false o) (vec_store 4 o r) (vmovdqu32_zmm_reg2disp_gen (zmm r) o mask)).
Proof.
  intros Hr Hi o; split; [now apply zmm_store_correct|split; [now apply zmm_store_correct|intros Hh]].
  destruct find_one_ymm_chain as (E0 & _); unfold vmovdqu8_zmm_reg2disp_gen, vmovdqu32_zmm_reg2disp_gen; rewrite E0.
  repeat split; apply zmm_store_reload_high; assumption || lia.
Qed.

Lemma zmm_stores_correct_witness :
  let o := mem_opnd DR_REG_RAX DR_REG_RCX 4 (-8) OPSZ_64 in
  rewrites_if (access_ok 4 false o) (vec_store 4 o 3) (vmovdqu64_zmm_reg2disp_gen (zmm 3) o DR_REG_K0).
Proof. apply (zmm_stores_correct DR_REG_RAX DR_REG_RCX 4 (-8) 3 DR_REG_K0); reflexivity || lia. Defined.

(** [vmovdqu8], [vmovdqu16] and [vmovdqu32] stores of zmm0-15 first load bits
    255:0 of the register from its TLS slot: they store, and leave in the
    register, what the slot holds, which the rewriter does not keep up to date
    for a low register.  They are not rewritings of the store. *)
Theorem zmm_store_stale_slot base index scale disp r mask :
  0 <= r < 16 -> is_int32 (disp + SIZE_OF_YMM) = true ->
  let o := mem_opnd base index scale disp OPSZ_64 in
  (forall gen, In gen [vmovdqu8_zmm_reg2disp_gen; vmovdqu16_zmm_reg2disp_gen; vmovdqu32_zmm_reg2disp_gen] ->
   exists code, gen (zmm r) o mask = rw_replace code /\
   forall s, wf_mach s -> access_ok 4 false o (view s) ->
   exists s', run code s = Some s' /\ wf_mach s' /\
     view s' ==g vec_store 4 o r (set_zmm (view s) r (tls_lane (tls s) r))) /\
  let o1 := mem_opnd DR_REG_RAX DR_REG_NULL 0 0 OPSZ_64 in
  ~ rewrites_if (access_ok 4 false o1) (vec_store 4 o1 3) (vmovdqu32_zmm_reg2disp_gen (zmm 3) o1 DR_REG_K0).
Proof.
  intros Hr Hi o; split.
  - destruct find_one_ymm_chain as (E0 & _); unfold vmovdqu8_zmm_reg2disp_gen, vmovdqu32_zmm_reg2disp_gen; rewrite E0.
    intros gen [<-|[<-|[<-|[]]]]; now apply zmm_store_reload_low.
  - intros o1; apply (not_rewrites_if_lane _ _ _ probe 3 0);
      [apply probe_wf|exists 4096; repeat split; discriminate|lia|lia|vm_compute; congruence].
Qed.

Lemma zmm_store_stale_slot_witness :
  let o1 := mem_opnd DR_REG_RAX DR_REG_NULL 0 0 OPSZ_64 in
  ~ rewrites_if (access_ok 4 false o1) (vec_store 4 o1 3) (vmovdqu32_zmm_reg2disp_gen (zmm 3) o1 DR_REG_K0).
Proof. apply (zmm_store_stale_slot DR_REG_RAX DR_REG_NULL 0 0 3 DR_REG_K0); reflexivity || lia. Defined.

(** Unmasked ymm and xmm loads and stores are right for every register: ymm
    loads on the two lanes of the vector length, xmm accesses from states whose
    unwritten upper bits are zero. *)
Theorem narrow_accesses_correct base index scale disp r mask :
  0 <= r < 32 ->
  let oy := mem_opnd base index scale disp OPSZ_32 in
  let ox := mem_opnd base index scale disp OPSZ_16 in
  (rewrites_if (access_ok 2 false oy) (vec_load_keep 2 r oy) (vmovdqu16_ymm_disp2reg_gen oy (ymm r) mask) /\
   rewrites_if (access_ok 2 false oy) (vec_load_keep 2 r oy) (vmovdqu32_ymm_disp2reg_gen oy (ymm r) mask) /\
   rewrites_if (access_ok 2 true oy) (vec_load_keep 2 r oy) (vmovaps_ymm_disp2reg_gen oy (ymm r) mask)) /\
  (rewrites_if (access_ok 2 false oy) (vec_store 2 oy r) (vmovdqu32_ymm_reg2disp_gen (ymm r) oy mask) /\
   rewrites_if (access_ok 2 true oy) (vec_store 2 oy r) (vmovaps_ymm_reg2disp_gen (ymm r) oy mask)) /\
  (rewrites_if (fun g => xmm_pre r g /\ access_ok 1 false ox g) (vec_load 1 r ox)
     (vmovdqu16_xmm_disp2reg_gen ox (xmm r) mask) /\
   rewrites_if (fun g => xmm_pre r g /\ access_ok 1 true ox g) (vec_load 1 r ox)
     (vmovaps_xmm_disp2reg_gen ox (xmm r) mask)) /\
  (rewrites_if (fun g => spill_low g /\ access_ok 1 false ox g) (vec_store 1 ox r)
     (vmovdqu32_xmm_reg2disp_gen (xmm r) ox mask) /\
   rewrites_if (fun g => spill_low g /\ access_ok 1 true ox g) (vec_store 1 ox r)
     (vmovaps_xmm_reg2disp_gen (xmm r) ox mask)).
Proof.
  intros Hr; repeat split;
    first [now apply ymm_load_correct|now apply ymm_store_correct|now apply xmm_load_correct|now apply xmm_store_correct].
Qed.

Lemma narrow_accesses_correct_witness :
  let oy := mem_opnd DR_REG_RAX DR_REG_NULL 0 32 OPSZ_32 in
  rewrites_if (access_ok 2 true oy) (vec_load_keep 2 25 oy) (vmovaps_ymm_disp2reg_gen oy (ymm 25) DR_REG_K0).
Proof. apply (narrow_accesses_correct DR_REG_RAX DR_REG_NULL 0 32 25 DR_REG_K0); lia. Defined.

(** The [vmovdqu8] accesses do the same under [k0]; under another mask the
    instruction is removed and nothing emitted. *)
Theorem vmovdqu8_masks base index scale disp r k :
  0 <= r < 32 -> 0 <= k < 8 ->
  let oy := mem_opnd base index scale disp OPSZ_32 in
  let ox := mem_opnd base index scale disp OPSZ_16 in
  if k =? 0 then
    rewrites_if (access_ok 2 false oy) (vec_load_keep 2 r oy) (vmovdqu8_ymm_disp2reg_gen oy (ymm r) (kreg k)) /\
    rewrites_if (access_ok 2 false oy) (vec_store 2 oy r) (vmovdqu8_ymm_reg2disp_gen (ymm r) oy (kreg k)) /\
    rewrites_if (fun g => xmm_pre r g /\ access_ok 1 false ox g) (vec_load 1 r ox)
      (vmovdqu8_xmm_disp2reg_gen ox (xmm r) (kreg k)) /\
    rewrites_if (fun g => spill_low g /\ access_ok 1 false ox g) (vec_store 1 ox r)
      (vmovdqu8_xmm_reg2disp_gen (xmm r) ox (kreg k))
  else
    vmovdqu8_ymm_disp2reg_gen oy (ymm r) (kreg k) = rw_removed_null /\
    vmovdqu8_ymm_reg2disp_gen (ymm r) oy (kreg k) = rw_removed_null /\
    vmovdqu8_xmm_disp2reg_gen ox (xmm r) (kreg k) = rw_removed_null /\
    vmovdqu8_xmm_reg2disp_gen (xmm r) ox (kreg k) = rw_removed_null.
Proof.
  intros Hr Hk oy ox.
  unfold vmovdqu8_ymm_disp2reg_gen, vmovdqu8_ymm_reg2disp_gen, vmovdqu8_xmm_disp2reg_gen, vmovdqu8_xmm_reg2disp_gen,
    unmasked_load, unmasked_store; rewrite TO_K_REG_INDEX_kreg.
  destruct (Z.eqb_spec k 0); cbv iota; [|repeat split].
  repeat split;
    first [now apply ymm_load_correct|now apply ymm_store_correct|now apply xmm_load_correct|now apply xmm_store_correct].
Qed.

Lemma vmovdqu8_masks_witness :
  vmovdqu8_ymm_disp2reg_gen (mem_opnd DR_REG_RAX DR_REG_NULL 0 0 OPSZ_32) (ymm 3) (kreg 2) = rw_removed_null.
Proof. apply (vmovdqu8_masks DR_REG_RAX DR_REG_NULL 0 0 3 2); lia. Defined.

(** C29: An unmasked [vmovdqu64] store of zmm [r] followed by an unmasked
    [vmovdqu64] load of zmm [d] from the same operand (base + index * scale +
    displacement, with room for the displacement of the second half) leaves in
    zmm [d] what zmm [r] held, for any two registers, from the states where the
    64 bytes can be accessed: the code emitted for the one and then for the
    other. *)
Theorem store_load_roundtrip base index scale disp r d :
  0 <= r < 32 -> 0 <= d < 32 -> is_int32 (disp + SIZE_OF_YMM) = true ->
  let o := mem_opnd base index scale disp OPSZ_64 in
  exists c1 c2,
    vmovdqu64_zmm_reg2disp_gen (zmm r) o DR_REG_K0 = rw_replace c1 /\
    vmovdqu64_zmm_disp2reg_gen o (zmm d) DR_REG_K0 = rw_replace c2 /\
    forall s, wf_mach s -> access_ok 4 false o (view s) ->
    exists s', run (c1 ++ c2) s = Some s' /\ wf_mach s' /\
      forall l, 0 <= l < 4 -> zmm_view s' d l = zmm_view s r l.
Proof.
  intros Hr Hd Hi o.
  destruct (zmm_store_correct base index scale disp DR_REG_K0 Hi OP_vmovdqu false eq_refl r Hr) as (c1 & E1 & T1).
  destruct (zmm_load_correct base index scale disp DR_REG_K0 Hi d Hd) as (c2 & E2 & T2).
  exists c1, c2; split; [exact E1|split; [exact E2|]]; intros s Hs Hp.
  destruct (T1 s Hs Hp) as (s1 & R1 & W1 & V1).
  destruct Hp as (a & Ha & Hl & _); fold o in V1, T1, T2; unfold vec_store in V1; rewrite Ha in V1.
  destruct V1 as (Vz & _ & Vg & _ & Vm).
  assert (Ha1 : guest_addr o (view s1) = Some a).
  { rewrite <- Ha; apply guest_addr_ext; exact Vg. }
  destruct (T2 s1 W1) as (s2 & R2 & W2 & V2); [exists a; repeat split; [assumption..|discriminate]|].
  exists s2; split; [now rewrite run_app, R1|split; [exact W2|]]; intros l Hlt.
  unfold vec_load in V2; rewrite Ha1 in V2; destruct V2 as (V2 & _).
  change (zmm_view s2 d l) with (g_zmm (view s2) d l); rewrite V2 by assumption.
  cbn [set_zmm g_zmm]; rewrite Z.eqb_refl; replace (l <? 4) with true by (symmetry; apply Z.ltb_lt; lia).
  rewrite (load_ext 16 (g_mem (view s1)) _ _ (fun x _ => Vm x)); cbn [set_mem g_mem].
  rewrite load_store_lanes by lia; apply wrap_view; assumption.
Qed.

Lemma store_load_roundtrip_witness :
  let o := mem_opnd DR_REG_RAX DR_REG_NULL 0 0 OPSZ_64 in
  exists c1 c2,
    vmovdqu64_zmm_reg2disp_gen (zmm 3) o DR_REG_K0 = rw_replace c1 /\
    vmovdqu64_zmm_disp2reg_gen o (zmm 20) DR_REG_K0 = rw_replace c2 /\
    forall s, wf_mach s -> access_ok 4 false o (view s) ->
    exists s', run (c1 ++ c2) s = Some s' /\ wf_mach s' /\
      forall l, 0 <= l < 4 -> zmm_view s' 20 l = zmm_view s 3 l.
Proof. apply (store_load_roundtrip DR_REG_RAX DR_REG_NULL 0 0 3 20); reflexivity || lia. Defined.
