(* ===== verification/GenMixed.v ===== *)
(** * Operations with a text of their own

    [vpsubd] on zmm, [vpaddw], [vporq] and [vpxord] on ymm, [vpandd] and [vpxord]
    on xmm registers: generators that share no text with the others. *)
From Stdlib Require Import ZArith List Bool Lia.
From S2P Require Import Prelude Regs Spill Bytes Lanes Machine Arch512 SymExec GenYmm GenXmm GenMov.
Import ListNotations.
#[local] Open Scope Z_scope.
#[local] Open Scope bool_scope.
#[local] Open Scope rw_scope.

(** ** Generators *)

Definition vpsubd_zmm_and_zmm_gen (src1_reg src2_reg dst_reg mask_reg : reg_id_t) : rw_result :=
  let src1_reg_lower := DR_REG_NULL in
  let src1_reg_upper := DR_REG_NULL in
  let src2_reg_lower := DR_REG_NULL in
  let src2_reg_upper := DR_REG_NULL in
  let dst_reg_lower := DR_REG_NULL in
  let dst_reg_upper := DR_REG_NULL in
  let src1_need_spill := (if NEED_SPILL_ZMM src1_reg then 1 else 0) in
  let src2_need_spill := (if NEED_SPILL_ZMM src2_reg then 2 else 0) in
  let dst_need_spill := (if NEED_SPILL_ZMM dst_reg then 4 else 0) in
  let need_spill := Z.lor (Z.lor src1_need_spill src2_need_spill) dst_need_spill in
  match need_spill with
  | 0 =>
      let src1_reg_lower := ZMM_TO_YMM src1_reg in
      let src2_reg_lower := ZMM_TO_YMM src2_reg in
      let dst_reg_lower := ZMM_TO_YMM dst_reg in
      let op_src1_lower := opnd_create_reg src1_reg_lower in
      let op_src2_lower := opnd_create_reg src2_reg_lower in
      let op_dst_lower := opnd_create_reg dst_reg_lower in
      let src1_reg_upper := find_available_spill_ymm_avoiding_variadic [src1_reg_lower; src2_reg_lower; dst_reg_lower] in
      let src2_reg_upper := find_available_spill_ymm_avoiding_variadic [src1_reg_lower; src2_reg_lower; dst_reg_lower; src1_reg_upper] in
      let dst_reg_upper := find_available_spill_ymm_avoiding_variadic [src1_reg_lower; src2_reg_lower; dst_reg_lower; src1_reg_upper; src2_reg_upper] in
      let op_src1_upper := opnd_create_reg src1_reg_upper in
      let op_src2_upper := opnd_create_reg src2_reg_upper in
      let op_dst_upper := opnd_create_reg dst_reg_upper in
      let i1 := SAVE_SIMD_TO_SIZED_TLS src1_reg_upper (TLS_ZMM_idx_SLOT (TO_YMM_REG_INDEX src1_reg_upper)) OPSZ_32 in
      let i2 := SAVE_SIMD_TO_SIZED_TLS src2_reg_upper (TLS_ZMM_idx_SLOT (TO_YMM_REG_INDEX src2_reg_upper)) OPSZ_32 in
      let i3 := SAVE_SIMD_TO_SIZED_TLS dst_reg_upper (TLS_ZMM_idx_SLOT (TO_YMM_REG_INDEX dst_reg_upper)) OPSZ_32 in
      let i4 := INSTR_CREATE_3 OP_vpsubd op_dst_lower op_src1_lower op_src2_lower in
      let i5 := RESTORE_SIMD_FROM_SIZED_TLS src1_reg_upper ((TLS_ZMM_idx_SLOT (TO_ZMM_REG_INDEX src1_reg)) + SIZE_OF_YMM) OPSZ_32 in
      let i6 := RESTORE_SIMD_FROM_SIZED_TLS src2_reg_upper ((TLS_ZMM_idx_SLOT (TO_ZMM_REG_INDEX src2_reg)) + SIZE_OF_YMM) OPSZ_32 in
      let i7 := INSTR_CREATE_3 OP_vpsubd op_dst_upper op_src1_upper op_src2_upper in
      let i8 := SAVE_SIMD_TO_SIZED_TLS dst_reg_lower (TLS_ZMM_idx_SLOT (TO_ZMM_REG_INDEX dst_reg)) OPSZ_32 in
      let i9 := SAVE_SIMD_TO_SIZED_TLS dst_reg_upper ((TLS_ZMM_idx_SLOT (TO_ZMM_REG_INDEX dst_reg)) + SIZE_OF_YMM) OPSZ_32 in
      let i10 := RESTORE_SIMD_FROM_SIZED_TLS src1_reg_upper (TLS_ZMM_idx_SLOT (TO_YMM_REG_INDEX src1_reg_upper)) OPSZ_32 in
      let i11 := RESTORE_SIMD_FROM_SIZED_TLS src2_reg_upper (TLS_ZMM_idx_SLOT (TO_YMM_REG_INDEX src2_reg_upper)) OPSZ_32 in
      let i12 := RESTORE_SIMD_FROM_SIZED_TLS dst_reg_upper (TLS_ZMM_idx_SLOT (TO_YMM_REG_INDEX dst_reg_upper)) OPSZ_32 in
      rw_replace [i1; i2; i3; i4; i5; i6; i7; i8; i9; i10; i11; i12]
  | 1 =>
      rw_removed_null
  | 2 =>
      rw_removed_null
  | 3 =>
      rw_removed_null
  | 4 =>
      rw_removed_null
  | 5 =>
      rw_removed_null
  | 6 =>
      rw_removed_null
  | 7 =>
      rw_removed_null
  | _ =>
      rw_removed_null
  end.

Definition vpaddw_ymm_and_ymm_gen (src1_reg src2_reg dst_reg mask_reg : reg_id_t) : rw_result :=
  let src1_need_spill_flag := (if NEED_SPILL_YMM src1_reg then 1 else 0) in
  let src2_need_spill_flag := (if NEED_SPILL_YMM src2_reg then 2 else 0) in
  let dst_need_spill_flag := (if NEED_SPILL_YMM dst_reg then 4 else 0) in
  let need_spill_flag := Z.lor (Z.lor src1_need_spill_flag src2_need_spill_flag) dst_need_spill_flag in
  match need_spill_flag with
  | 0 =>
      let op_src1 := opnd_create_reg src1_reg in
      let op_src2 := opnd_create_reg src2_reg in
      let op_dst := opnd_create_reg dst_reg in
      let i1 := INSTR_CREATE_3 OP_vpaddw op_dst op_src1 op_src2 in
      rw_replace [i1]
  | 1 =>
      let spill_src1_reg :=
        if src2_reg =? dst_reg then find_one_available_spill_ymm src2_reg
        else find_available_spill_ymm_avoiding src2_reg dst_reg DR_REG_NULL
      in
      let op_spill_src1 := opnd_create_reg spill_src1_reg in
      let op_src2 := opnd_create_reg src2_reg in
      let op_dst := opnd_create_reg dst_reg in
      let i1 := SAVE_SIMD_TO_SIZED_TLS spill_src1_reg (TLS_ZMM_idx_SLOT (TO_YMM_REG_INDEX spill_src1_reg)) OPSZ_32 in
      let i2 := RESTORE_SIMD_FROM_SIZED_TLS spill_src1_reg (TLS_ZMM_idx_SLOT (TO_YMM_REG_INDEX src1_reg)) OPSZ_32 in
      let i3 := INSTR_CREATE_3 OP_vpaddw op_dst op_spill_src1 op_src2 in
      let i4 := RESTORE_SIMD_FROM_SIZED_TLS spill_src1_reg (TLS_ZMM_idx_SLOT (TO_YMM_REG_INDEX spill_src1_reg)) OPSZ_32 in
      rw_replace [i1; i2; i3; i4]
  | 2 =>
      let spill_src2_reg :=
        if src1_reg =? dst_reg then find_one_available_spill_ymm src2_reg
        else find_available_spill_ymm_avoiding src1_reg dst_reg DR_REG_NULL
      in
      let op_spill_src2 := opnd_create_reg spill_src2_reg in
      let op_src1 := opnd_create_reg src1_reg in
      let op_dst := opnd_create_reg dst_reg in
      let i1 := SAVE_SIMD_TO_SIZED_TLS spill_src2_reg (TLS_ZMM_idx_SLOT (TO_YMM_REG_INDEX spill_src2_reg)) OPSZ_32 in
      let i2 := RESTORE_SIMD_FROM_SIZED_TLS spill_src2_reg (TLS_ZMM_idx_SLOT (TO_YMM_REG_INDEX src2_reg)) OPSZ_32 in
      let i3 := INSTR_CREATE_3 OP_vpaddw op_dst op_src1 op_spill_src2 in
      let i4 := RESTORE_SIMD_FROM_SIZED_TLS spill_src2_reg (TLS_ZMM_idx_SLOT (TO_YMM_REG_INDEX spill_src2_reg)) OPSZ_32 in
      rw_replace [i1; i2; i3; i4]
  | 3 =>
      rw_removed_null
  | 4 =>
      rw_removed_null
  | 5 =>
      if src1_reg =? dst_reg then
        let spill_reg := find_one_available_spill_ymm src2_reg in
        let op_spill := opnd_create_reg spill_reg in
        let op_src2 := opnd_create_reg src2_reg in
        let op_dst := op_spill in
        let i1 := SAVE_SIMD_TO_SIZED_TLS spill_reg (TLS_ZMM_idx_SLOT (TO_YMM_REG_INDEX spill_reg)) OPSZ_32 in
        let i2 := RESTORE_SIMD_FROM_SIZED_TLS spill_reg (TLS_ZMM_idx_SLOT (TO_YMM_REG_INDEX src1_reg)) OPSZ_32 in
        let i3 := INSTR_CREATE_3 OP_vpaddw op_dst op_spill op_src2 in
        let i4 := SAVE_SIMD_TO_SIZED_TLS spill_reg (TLS_ZMM_idx_SLOT (TO_YMM_REG_INDEX dst_reg)) OPSZ_32 in
        let i5 := RESTORE_SIMD_FROM_SIZED_TLS spill_reg (TLS_ZMM_idx_SLOT (TO_YMM_REG_INDEX spill_reg)) OPSZ_32 in
        rw_replace [i1; i2; i3; i4; i5]
      else
        let src1_spill_reg := find_one_available_spill_ymm src2_reg in
        let dst_spill_reg := find_available_spill_ymm_avoiding src2_reg src1_spill_reg DR_REG_NULL in
        let op_src1_spill := opnd_create_reg src1_spill_reg in
        let op_dst_spill := opnd_create_reg dst_spill_reg in
        let op_src2 := opnd_create_reg src2_reg in
        let i1 := SAVE_SIMD_TO_SIZED_TLS src1_spill_reg (TLS_ZMM_idx_SLOT (TO_YMM_REG_INDEX src1_spill_reg)) OPSZ_32 in
        let i2 := SAVE_SIMD_TO_SIZED_TLS dst_spill_reg (TLS_ZMM_idx_SLOT (TO_YMM_REG_INDEX dst_spill_reg)) OPSZ_32 in
        let i3 := RESTORE_SIMD_FROM_SIZED_TLS src1_spill_reg (TLS_ZMM_idx_SLOT (TO_YMM_REG_INDEX src1_reg)) OPSZ_32 in
        let i4 := INSTR_CREATE_3 OP_vpaddw op_dst_spill op_src1_spill op_src2 in
        let i5 := SAVE_SIMD_TO_SIZED_TLS dst_spill_reg (TLS_ZMM_idx_SLOT (TO_YMM_REG_INDEX dst_reg)) OPSZ_32 in
        let i6 := RESTORE_SIMD_FROM_SIZED_TLS src1_spill_reg (TLS_ZMM_idx_SLOT (TO_YMM_REG_INDEX src1_spill_reg)) OPSZ_32 in
        let i7 := RESTORE_SIMD_FROM_SIZED_TLS dst_spill_reg (TLS_ZMM_idx_SLOT (TO_YMM_REG_INDEX dst_spill_reg)) OPSZ_32 in
        rw_replace [i1; i2; i3; i4; i5; i6; i7]
  | 6 =>
      rw_removed_null
  | 7 =>
      if (src1_reg =? dst_reg) && (src2_reg =? dst_reg) then
        let spill_reg := YMM_SPILL_SLOT0 in
        let op_spill := opnd_create_reg spill_reg in
        let i1 := SAVE_SIMD_TO_SIZED_TLS spill_reg (TLS_ZMM_idx_SLOT (TO_YMM_REG_INDEX spill_reg)) OPSZ_32 in
        let i2 := RESTORE_SIMD_FROM_SIZED_TLS spill_reg (TLS_ZMM_idx_SLOT (TO_YMM_REG_INDEX src1_reg)) OPSZ_32 in
        let i3 := INSTR_CREATE_3 OP_vpaddw op_spill op_spill op_spill in
        let i4 := SAVE_SIMD_TO_SIZED_TLS spill_reg (TLS_ZMM_idx_SLOT (TO_YMM_REG_INDEX dst_reg)) OPSZ_32 in
        let i5 := RESTORE_SIMD_FROM_SIZED_TLS spill_reg (TLS_ZMM_idx_SLOT (TO_YMM_REG_INDEX spill_reg)) OPSZ_32 in
        rw_replace [i1; i2; i3; i4; i5]
      else
      if src1_reg =? dst_reg then
        let spill_src1_reg := YMM_SPILL_SLOT0 in
        let spill_src2_reg := YMM_SPILL_SLOT1 in
        let spill_dst_reg := spill_src1_reg in
        let op_spill_src1 := opnd_create_reg spill_src1_reg in
        let op_spill_src2 := opnd_create_reg spill_src2_reg in
        let op_spill_dst := opnd_create_reg spill_dst_reg in
        let i1 := SAVE_SIMD_TO_SIZED_TLS spill_src1_reg (TLS_ZMM_idx_SLOT (TO_YMM_REG_INDEX spill_src1_reg)) OPSZ_32 in
        let i2 := SAVE_SIMD_TO_SIZED_TLS spill_src2_reg (TLS_ZMM_idx_SLOT (TO_YMM_REG_INDEX spill_src2_reg)) OPSZ_32 in
        let i3 := RESTORE_SIMD_FROM_SIZED_TLS spill_src1_reg (TLS_ZMM_idx_SLOT (TO_YMM_REG_INDEX src1_reg)) OPSZ_32 in
        let i4 := RESTORE_SIMD_FROM_SIZED_TLS spill_src2_reg (TLS_ZMM_idx_SLOT (TO_YMM_REG_INDEX src2_reg)) OPSZ_32 in
        let i5 := INSTR_CREATE_3 OP_vpaddw op_spill_dst op_spill_src1 op_spill_src2 in
        let i6 := SAVE_SIMD_TO_SIZED_TLS spill_dst_reg (TLS_ZMM_idx_SLOT (TO_YMM_REG_INDEX dst_reg)) OPSZ_32 in
        let i7 := RESTORE_SIMD_FROM_SIZED_TLS spill_src1_reg (TLS_ZMM_idx_SLOT (TO_YMM_REG_INDEX spill_src1_reg)) OPSZ_32 in
        let i8 := RESTORE_SIMD_FROM_SIZED_TLS spill_src2_reg (TLS_ZMM_idx_SLOT (TO_YMM_REG_INDEX spill_src2_reg)) OPSZ_32 in
        rw_replace [i1; i2; i3; i4; i5; i6; i7; i8]
      else
      if src2_reg =? dst_reg then
        let spill_src1_reg := YMM_SPILL_SLOT0 in
        let spill_src2_reg := YMM_SPILL_SLOT1 in
        let spill_dst_reg := spill_src2_reg in
        let op_spill_src1 := opnd_create_reg spill_src1_reg in
        let op_spill_src2 := opnd_create_reg spill_src2_reg in
        let op_spill_dst := opnd_create_reg spill_dst_reg in
        let i1 := SAVE_SIMD_TO_SIZED_TLS spill_src1_reg (TLS_ZMM_idx_SLOT (TO_YMM_REG_INDEX spill_src1_reg)) OPSZ_32 in
        let i2 := SAVE_SIMD_TO_SIZED_TLS spill_src2_reg (TLS_ZMM_idx_SLOT (TO_YMM_REG_INDEX spill_src2_reg)) OPSZ_32 in
        let i3 := RESTORE_SIMD_FROM_SIZED_TLS spill_src1_reg (TLS_ZMM_idx_SLOT (TO_YMM_REG_INDEX src1_reg)) OPSZ_32 in
        let i4 := RESTORE_SIMD_FROM_SIZED_TLS spill_src2_reg (TLS_ZMM_idx_SLOT (TO_YMM_REG_INDEX src2_reg)) OPSZ_32 in
        let i5 := INSTR_CREATE_3 OP_vpaddw op_spill_dst op_spill_src1 op_spill_src2 in
        let i6 := SAVE_SIMD_TO_SIZED_TLS spill_dst_reg (TLS_ZMM_idx_SLOT (TO_YMM_REG_INDEX dst_reg)) OPSZ_32 in
        let i7 := RESTORE_SIMD_FROM_SIZED_TLS spill_src1_reg (TLS_ZMM_idx_SLOT (TO_YMM_REG_INDEX spill_src1_reg)) OPSZ_32 in
        let i8 := RESTORE_SIMD_FROM_SIZED_TLS spill_src2_reg (TLS_ZMM_idx_SLOT (TO_YMM_REG_INDEX spill_src2_reg)) OPSZ_32 in
        rw_replace [i1; i2; i3; i4; i5; i6; i7; i8]
      else
        let spill_src1_reg := YMM_SPILL_SLOT0 in
        let spill_src2_reg := YMM_SPILL_SLOT1 in
        let spill_dst_reg := spill_src1_reg in
        let op_spill_src1 := opnd_create_reg spill_src1_reg in
        let op_spill_src2 := opnd_create_reg spill_src2_reg in
        let op_spill_dst := opnd_create_reg spill_dst_reg in
        let i1 := SAVE_SIMD_TO_SIZED_TLS spill_src1_reg (TLS_ZMM_idx_SLOT (TO_YMM_REG_INDEX spill_src1_reg)) OPSZ_32 in
        let i2 := SAVE_SIMD_TO_SIZED_TLS spill_src2_reg (TLS_ZMM_idx_SLOT (TO_YMM_REG_INDEX spill_src2_reg)) OPSZ_32 in
        let i3 := RESTORE_SIMD_FROM_SIZED_TLS spill_src1_reg (TLS_ZMM_idx_SLOT (TO_YMM_REG_INDEX src1_reg)) OPSZ_32 in
        let i4 := RESTORE_SIMD_FROM_SIZED_TLS spill_src2_reg (TLS_ZMM_idx_SLOT (TO_YMM_REG_INDEX src2_reg)) OPSZ_32 in
        let i5 := INSTR_CREATE_3 OP_vpaddw op_spill_dst op_spill_src1 op_spill_src2 in
        let i6 := SAVE_SIMD_TO_SIZED_TLS spill_dst_reg (TLS_ZMM_idx_SLOT (TO_YMM_REG_INDEX dst_reg)) OPSZ_32 in
        let i7 := RESTORE_SIMD_FROM_SIZED_TLS spill_src1_reg (TLS_ZMM_idx_SLOT (TO_YMM_REG_INDEX spill_src1_reg)) OPSZ_32 in
        let i8 := RESTORE_SIMD_FROM_SIZED_TLS spill_src2_reg (TLS_ZMM_idx_SLOT (TO_YMM_REG_INDEX spill_src2_reg)) OPSZ_32 in
        rw_replace [i1; i2; i3; i4; i5; i6; i7; i8]
  | _ =>
      rw_removed_null
  end.

Definition vporq_ymm_and_ymm_gen (src1_reg src2_reg dst_reg mask_reg : reg_id_t) : rw_result :=
  let k_idx := TO_K_REG_INDEX mask_reg in
  if k_idx =? 0 then
    let src1_need_spill := (if NEED_SPILL_YMM src1_reg then 1 else 0) in
    let src2_need_spill := (if NEED_SPILL_YMM src2_reg then 2 else 0) in
    let dst_need_spill := (if NEED_SPILL_YMM dst_reg then 4 else 0) in
    let need_spill_flag := Z.lor (Z.lor src1_need_spill src2_need_spill) dst_need_spill in
    match need_spill_flag with
    | 0 =>
        let src1_opnd := opnd_create_reg src1_reg in
        let src2_opnd := opnd_create_reg src2_reg in
        let dst_opnd := opnd_create_reg dst_reg in
        let i1 := INSTR_CREATE_3 OP_vpor dst_opnd src1_opnd src2_opnd in
        rw_replace [i1]
    | 1 =>
        let spill_src1_reg := find_one_available_spill_ymm src2_reg in
        let spill_src1_opnd := opnd_create_reg spill_src1_reg in
        let src2_opnd := opnd_create_reg src2_reg in
        let dst_opnd := opnd_create_reg dst_reg in
        let i1 := SAVE_SIMD_TO_SIZED_TLS spill_src1_reg (TLS_ZMM_idx_SLOT (TO_YMM_REG_INDEX spill_src1_reg)) OPSZ_32 in
        let i2 := RESTORE_SIMD_FROM_SIZED_TLS spill_src1_reg (TLS_ZMM_idx_SLOT (TO_YMM_REG_INDEX src1_reg)) OPSZ_32 in
        let i3 := INSTR_CREATE_3 OP_vpor dst_opnd spill_src1_opnd src2_opnd in
        let i4 := RESTORE_SIMD_FROM_SIZED_TLS spill_src1_reg (TLS_ZMM_idx_SLOT (TO_YMM_REG_INDEX spill_src1_reg)) OPSZ_32 in
        rw_replace [i1; i2; i3; i4]
    | 2 =>
        let spill_src2_reg := find_one_available_spill_ymm src1_reg in
        let spill_src2_opnd := opnd_create_reg spill_src2_reg in
        let src1_opnd := opnd_create_reg src1_reg in
        let dst_opnd := opnd_create_reg dst_reg in
        let i1 := SAVE_SIMD_TO_SIZED_TLS spill_src2_reg (TLS_ZMM_idx_SLOT (TO_YMM_REG_INDEX spill_src2_reg)) OPSZ_32 in
        let i2 := RESTORE_SIMD_FROM_SIZED_TLS spill_src2_reg (TLS_ZMM_idx_SLOT (TO_YMM_REG_INDEX src2_reg)) OPSZ_32 in
        let i3 := INSTR_CREATE_3 OP_vpor dst_opnd src1_opnd spill_src2_opnd in
        let i4 := RESTORE_SIMD_FROM_SIZED_TLS spill_src2_reg (TLS_ZMM_idx_SLOT (TO_YMM_REG_INDEX spill_src2_reg)) OPSZ_32 in
        rw_replace [i1; i2; i3; i4]
    | 3 =>
        let spill_src1_reg := find_one_available_spill_ymm dst_reg in
        let spill_src2_reg := find_available_spill_ymm_avoiding dst_reg spill_src1_reg DR_REG_NULL in
        let spill_src1_opnd := opnd_create_reg spill_src1_reg in
        let spill_src2_opnd := opnd_create_reg spill_src2_reg in
        let dst_opnd := opnd_create_reg dst_reg in
        let i1 := SAVE_SIMD_TO_SIZED_TLS spill_src1_reg (TLS_ZMM_idx_SLOT (TO_YMM_REG_INDEX spill_src1_reg)) OPSZ_32 in
        let i2 := SAVE_SIMD_TO_SIZED_TLS spill_src2_reg (TLS_ZMM_idx_SLOT (TO_YMM_REG_INDEX spill_src2_reg)) OPSZ_32 in
        let i3 := RESTORE_SIMD_FROM_SIZED_TLS spill_src1_reg (TLS_ZMM_idx_SLOT (TO_YMM_REG_INDEX src1_reg)) OPSZ_32 in
        let i4 := RESTORE_SIMD_FROM_SIZED_TLS spill_src2_reg (TLS_ZMM_idx_SLOT (TO_YMM_REG_INDEX src2_reg)) OPSZ_32 in
        let i5 := INSTR_CREATE_3 OP_vpor dst_opnd spill_src1_opnd spill_src2_opnd in
        let i6 := RESTORE_SIMD_FROM_SIZED_TLS spill_src1_reg (TLS_ZMM_idx_SLOT (TO_YMM_REG_INDEX spill_src1_reg)) OPSZ_32 in
        let i7 := RESTORE_SIMD_FROM_SIZED_TLS spill_src2_reg (TLS_ZMM_idx_SLOT (TO_YMM_REG_INDEX spill_src2_reg)) OPSZ_32 in
        rw_replace [i1; i2; i3; i4; i5; i6; i7]
    | 4 =>
        let spill_dst_reg := find_available_spill_ymm_avoiding src1_reg src2_reg DR_REG_NULL in
        let spill_dst_opnd := opnd_create_reg spill_dst_reg in
        let src1_opnd := opnd_create_reg src1_reg in
        let src2_opnd := opnd_create_reg src2_reg in
        let i1 := SAVE_SIMD_TO_SIZED_TLS spill_dst_reg (TLS_ZMM_idx_SLOT (TO_YMM_REG_INDEX spill_dst_reg)) OPSZ_32 in
        let i2 := INSTR_CREATE_3 OP_vpor spill_dst_opnd src1_opnd src2_opnd in
        let i3 := SAVE_SIMD_TO_SIZED_TLS spill_dst_reg (TLS_ZMM_idx_SLOT (TO_YMM_REG_INDEX dst_reg)) OPSZ_32 in
        let i4 := RESTORE_SIMD_FROM_SIZED_TLS spill_dst_reg (TLS_ZMM_idx_SLOT (TO_YMM_REG_INDEX spill_dst_reg)) OPSZ_32 in
        rw_replace [i1; i2; i3; i4]
    | 5 =>
        let spill_src1_reg := find_one_available_spill_ymm src2_reg in
        let spill_dst_reg := spill_src1_reg in
        let spill_src1_opnd := opnd_create_reg spill_src1_reg in
        let src2_opnd := opnd_create_reg src2_reg in
        let spill_dst_opnd := spill_src1_opnd in
        let i1 := SAVE_SIMD_TO_SIZED_TLS spill_src1_reg (TLS_ZMM_idx_SLOT (TO_YMM_REG_INDEX spill_src1_reg)) OPSZ_32 in
        let i2 := RESTORE_SIMD_FROM_SIZED_TLS spill_src1_reg (TLS_ZMM_idx_SLOT (TO_YMM_REG_INDEX src1_reg)) OPSZ_32 in
        let i3 := INSTR_CREATE_3 OP_vpor spill_dst_opnd spill_src1_opnd src2_opnd in
        let i4 := SAVE_SIMD_TO_SIZED_TLS spill_dst_reg (TLS_ZMM_idx_SLOT (TO_YMM_REG_INDEX dst_reg)) OPSZ_32 in
        let i5 := RESTORE_SIMD_FROM_SIZED_TLS spill_src1_reg (TLS_ZMM_idx_SLOT (TO_YMM_REG_INDEX spill_src1_reg)) OPSZ_32 in
        rw_replace [i1; i2; i3; i4; i5]
    | 6 =>
        let spill_src2_reg := find_one_available_spill_ymm src1_reg in
        let spill_dst_reg := spill_src2_reg in
        let spill_src2_opnd := opnd_create_reg spill_src2_reg in
        let src1_opnd := opnd_create_reg src1_reg in
        let spill_dst_opnd := spill_src2_opnd in
        let i1 := SAVE_SIMD_TO_SIZED_TLS spill_src2_reg (TLS_ZMM_idx_SLOT (TO_YMM_REG_INDEX spill_src2_reg)) OPSZ_32 in
        let i2 := RESTORE_SIMD_FROM_SIZED_TLS spill_src2_reg (TLS_ZMM_idx_SLOT (TO_YMM_REG_INDEX src2_reg)) OPSZ_32 in
        let i3 := INSTR_CREATE_3 OP_vpor spill_dst_opnd src1_opnd spill_src2_opnd in
        let i4 := SAVE_SIMD_TO_SIZED_TLS spill_dst_reg (TLS_ZMM_idx_SLOT (TO_YMM_REG_INDEX dst_reg)) OPSZ_32 in
        let i5 := RESTORE_SIMD_FROM_SIZED_TLS spill_src2_reg (TLS_ZMM_idx_SLOT (TO_YMM_REG_INDEX spill_src2_reg)) OPSZ_32 in
        rw_replace [i1; i2; i3; i4; i5]
    | 7 =>
        let spill_src1 := YMM_SPILL_SLOT0 in
        let spill_src2 := YMM_SPILL_SLOT1 in
        let spill_dst := spill_src1 in
        let spill_src1_opnd := opnd_create_reg spill_src1 in
        let spill_src2_opnd := opnd_create_reg spill_src2 in
        let spill_dst_opnd := spill_src1_opnd in
        let i1 := SAVE_SIMD_TO_SIZED_TLS spill_src1 (TLS_ZMM_idx_SLOT (TO_YMM_REG_INDEX spill_src1)) OPSZ_32 in
        let i2 := SAVE_SIMD_TO_SIZED_TLS spill_src2 (TLS_ZMM_idx_SLOT (TO_YMM_REG_INDEX spill_src2)) OPSZ_32 in
        let i3 := RESTORE_SIMD_FROM_SIZED_TLS spill_src1 (TLS_ZMM_idx_SLOT (TO_YMM_REG_INDEX src1_reg)) OPSZ_32 in
        let i4 := RESTORE_SIMD_FROM_SIZED_TLS spill_src2 (TLS_ZMM_idx_SLOT (TO_YMM_REG_INDEX src2_reg)) OPSZ_32 in
        let i5 := INSTR_CREATE_3 OP_vpor spill_dst_opnd spill_src1_opnd spill_src2_opnd in
        let i6 := SAVE_SIMD_TO_SIZED_TLS spill_dst (TLS_ZMM_idx_SLOT (TO_YMM_REG_INDEX dst_reg)) OPSZ_32 in
        let i7 := RESTORE_SIMD_FROM_SIZED_TLS spill_src1 (TLS_ZMM_idx_SLOT (TO_YMM_REG_INDEX spill_src1)) OPSZ_32 in
        let i8 := RESTORE_SIMD_FROM_SIZED_TLS spill_src2 (TLS_ZMM_idx_SLOT (TO_YMM_REG_INDEX spill_src2)) OPSZ_32 in
        rw_replace [i1; i2; i3; i4; i5; i6; i7; i8]
    | _ =>
        rw_removed_null
    end
  else
    rw_removed_null.

Definition vpxord_ymm_and_ymm_gen (src_reg1 src_reg2 dst_reg mask_reg : reg_id_t) : rw_result :=
  let src_opnd1 := create_mapping_ymm_opnd src_reg1 in
  let src_opnd2 := create_mapping_ymm_opnd src_reg2 in
  let dst_opnd := create_mapping_ymm_opnd dst_reg in
  let k_idx := TO_K_REG_INDEX mask_reg in
  if k_idx =? 0 then
    let new_instr1 := INSTR_CREATE_3 OP_vpxor dst_opnd src_opnd1 src_opnd2 in
    rw_replace [new_instr1]
  else
    rw_removed_null.

Definition emit_vpand_xmm (dst a b : reg_id_t) : instr_t :=
  INSTR_CREATE_3 OP_vpand (opnd_create_reg dst) (opnd_create_reg a) (opnd_create_reg b).

Definition vpandd_xmm_and_xmm_gen (src1_reg src2_reg dst_reg mask_reg : reg_id_t) : rw_result :=
  let src1_need_spill := (if NEED_SPILL_XMM src1_reg then 1 else 0) in
  let src2_need_spill := (if NEED_SPILL_XMM src2_reg then 2 else 0) in
  let dst_need_spill := (if NEED_SPILL_XMM dst_reg then 4 else 0) in
  let need_spill := Z.lor (Z.lor src1_need_spill src2_need_spill) dst_need_spill in
  match need_spill with
  | 0 =>
      let dst_opnd := opnd_create_reg dst_reg in
      let src_opnd1 := opnd_create_reg src1_reg in
      let src_opnd2 := opnd_create_reg src2_reg in
      let i1 := INSTR_CREATE_3 OP_vpand dst_opnd src_opnd1 src_opnd2 in
      rw_replace [i1]
  | 1 =>
      let spill_src1_reg := find_available_spill_xmm_avoiding src2_reg dst_reg DR_REG_NULL in
      let spill_src1_opnd := opnd_create_reg spill_src1_reg in
      let dst_opnd := opnd_create_reg dst_reg in
      let src2_opnd := opnd_create_reg src2_reg in
      let i1 := SAVE_SIMD_TO_SIZED_TLS spill_src1_reg (TLS_ZMM_idx_SLOT (TO_XMM_REG_INDEX spill_src1_reg)) OPSZ_16 in
      let i2 := RESTORE_SIMD_FROM_SIZED_TLS spill_src1_reg (TLS_ZMM_idx_SLOT (TO_XMM_REG_INDEX src1_reg)) OPSZ_16 in
      let i3 := INSTR_CREATE_3 OP_vpand dst_opnd spill_src1_opnd src2_opnd in
      let i4 := RESTORE_SIMD_FROM_SIZED_TLS spill_src1_reg (TLS_ZMM_idx_SLOT (TO_YMM_REG_INDEX spill_src1_reg)) OPSZ_32 in
      rw_replace [i1; i2; i3; i4]
  | 2 =>
      let s2 := find_available_spill_xmm_avoiding src1_reg dst_reg DR_REG_NULL in
      let i1 := SAVE_SIMD_TO_SIZED_TLS s2 (TLS_ZMM_idx_SLOT (TO_XMM_REG_INDEX s2)) OPSZ_16 in
      let i2 := RESTORE_SIMD_FROM_SIZED_TLS s2 (TLS_ZMM_idx_SLOT (TO_XMM_REG_INDEX src2_reg)) OPSZ_16 in
      let i3 := emit_vpand_xmm dst_reg src1_reg s2 in
      let i4 := RESTORE_SIMD_FROM_SIZED_TLS s2 (TLS_ZMM_idx_SLOT (TO_XMM_REG_INDEX s2)) OPSZ_16 in
      rw_replace [i1; i2; i3; i4]
  | 3 =>
      let s1 := find_one_available_spill_xmm dst_reg in
      let s2 := find_available_spill_xmm_avoiding dst_reg s1 DR_REG_NULL in
      let i1 := SAVE_SIMD_TO_SIZED_TLS s1 (TLS_ZMM_idx_SLOT (TO_XMM_REG_INDEX s1)) OPSZ_16 in
      let i2 := SAVE_SIMD_TO_SIZED_TLS s2 (TLS_ZMM_idx_SLOT (TO_XMM_REG_INDEX s2)) OPSZ_16 in
      let i3 := RESTORE_SIMD_FROM_SIZED_TLS s1 (TLS_ZMM_idx_SLOT (TO_XMM_REG_INDEX src1_reg)) OPSZ_16 in
      let i4 := RESTORE_SIMD_FROM_SIZED_TLS s2 (TLS_ZMM_idx_SLOT (TO_XMM_REG_INDEX src2_reg)) OPSZ_16 in
      let i5 := emit_vpand_xmm dst_reg s1 s2 in
      let i6 := RESTORE_SIMD_FROM_SIZED_TLS s2 (TLS_ZMM_idx_SLOT (TO_XMM_REG_INDEX s2)) OPSZ_16 in
      let i7 := RESTORE_SIMD_FROM_SIZED_TLS s1 (TLS_ZMM_idx_SLOT (TO_XMM_REG_INDEX s1)) OPSZ_16 in
      rw_replace [i1; i2; i3; i4; i5; i6; i7]
  | 4 =>
      let t := find_available_spill_xmm_avoiding src1_reg src2_reg DR_REG_NULL in
      let i1 := SAVE_SIMD_TO_SIZED_TLS t (TLS_ZMM_idx_SLOT (TO_XMM_REG_INDEX t)) OPSZ_16 in
      let i2 := emit_vpand_xmm t src1_reg src2_reg in
      let i3 := SAVE_SIMD_TO_SIZED_TLS t (TLS_ZMM_idx_SLOT (TO_XMM_REG_INDEX dst_reg)) OPSZ_16 in
      let i4 := RESTORE_SIMD_FROM_SIZED_TLS t (TLS_ZMM_idx_SLOT (TO_XMM_REG_INDEX t)) OPSZ_16 in
      rw_replace [i1; i2; i3; i4]
  | 5 =>
      let spill_src1_reg := find_available_spill_xmm_avoiding src2_reg dst_reg DR_REG_NULL in
      let spill_src1_opnd := opnd_create_reg spill_src1_reg in
      let spill_dst_opnd := spill_src1_opnd in
      let src2_opnd := opnd_create_reg src2_reg in
      let i1 := SAVE_SIMD_TO_SIZED_TLS spill_src1_reg (TLS_ZMM_idx_SLOT (TO_XMM_REG_INDEX spill_src1_reg)) OPSZ_16 in
      let i2 := RESTORE_SIMD_FROM_SIZED_TLS spill_src1_reg (TLS_ZMM_idx_SLOT (TO_XMM_REG_INDEX src1_reg)) OPSZ_16 in
      let i3 := INSTR_CREATE_3 OP_vpand spill_dst_opnd spill_src1_opnd src2_opnd in
      let i4 := SAVE_SIMD_TO_SIZED_TLS spill_src1_reg (TLS_ZMM_idx_SLOT (TO_XMM_REG_INDEX dst_reg)) OPSZ_16 in
      let i5 := RESTORE_SIMD_FROM_SIZED_TLS spill_src1_reg (TLS_ZMM_idx_SLOT (TO_XMM_REG_INDEX spill_src1_reg)) OPSZ_16 in
      rw_replace [i1; i2; i3; i4; i5]
  | 6 =>
      let spill_src2_reg := find_available_spill_xmm_avoiding src1_reg dst_reg DR_REG_NULL in
      let spill_src2_opnd := opnd_create_reg spill_src2_reg in
      let spill_dst_opnd := spill_src2_opnd in
      let src1_opnd := opnd_create_reg src1_reg in
      let i1 := SAVE_SIMD_TO_SIZED_TLS spill_src2_reg (TLS_ZMM_idx_SLOT (TO_XMM_REG_INDEX spill_src2_reg)) OPSZ_16 in
      let i2 := RESTORE_SIMD_FROM_SIZED_TLS spill_src2_reg (TLS_ZMM_idx_SLOT (TO_XMM_REG_INDEX src2_reg)) OPSZ_16 in
      let i3 := INSTR_CREATE_3 OP_vpand spill_dst_opnd src1_opnd spill_src2_opnd in
      let i4 := SAVE_SIMD_TO_SIZED_TLS spill_src2_reg (TLS_ZMM_idx_SLOT (TO_XMM_REG_INDEX dst_reg)) OPSZ_16 in
      let i5 := RESTORE_SIMD_FROM_SIZED_TLS spill_src2_reg (TLS_ZMM_idx_SLOT (TO_XMM_REG_INDEX spill_src2_reg)) OPSZ_16 in
      rw_replace [i1; i2; i3; i4; i5]
  | 7 =>
      rw_removed_null
  | _ =>
      rw_removed_null
  end.

Definition vpxord_xmm_and_xmm_gen (src1_reg src2_reg dst_reg mask_reg : reg_id_t) : rw_result :=
  if src1_reg =? src2_reg then
    let src1_need_spill_flag := (if NEED_SPILL_XMM src1_reg then 1 else 0) in
    if src1_reg =? dst_reg then
      match src1_need_spill_flag with
      | 0 =>
          let i1 := INSTR_CREATE_3 OP_vpxor (opnd_create_reg dst_reg) (opnd_create_reg src1_reg) (opnd_create_reg src2_reg) in
          rw_replace [i1]
      | 1 =>
          let spill_reg_ymm := find_one_available_spill_ymm src1_reg in
          let spill_reg_xmm := YMM_TO_XMM spill_reg_ymm in
          let i1 := SAVE_SIMD_TO_SIZED_TLS spill_reg_ymm (TLS_ZMM_idx_SLOT (TO_YMM_REG_INDEX spill_reg_ymm)) OPSZ_32 in
          let i2 := INSTR_CREATE_3 OP_vpxor (opnd_create_reg spill_reg_xmm) (opnd_create_reg spill_reg_xmm) (opnd_create_reg spill_reg_xmm) in
          let i3 := SAVE_SIMD_TO_SIZED_TLS spill_reg_ymm (TLS_ZMM_idx_SLOT (TO_XMM_REG_INDEX src1_reg)) OPSZ_32 in
          let i4 := RESTORE_SIMD_FROM_SIZED_TLS spill_reg_ymm (TLS_ZMM_idx_SLOT (TO_YMM_REG_INDEX spill_reg_ymm)) OPSZ_32 in
          rw_replace [i1; i2; i3; i4]
      | _ =>
          rw_removed_null
      end
    else
      let dst_need_spill_flag := (if NEED_SPILL_XMM dst_reg then 2 else 0) in
      let need_spill_flag := Z.lor src1_need_spill_flag dst_need_spill_flag in
      match need_spill_flag with
      | 0 =>
          let i1 := INSTR_CREATE_3 OP_vpxor (opnd_create_reg dst_reg) (opnd_create_reg src1_reg) (opnd_create_reg src2_reg) in
          rw_replace [i1]
      | 1 =>
          rw_removed_null
      | 2 =>
          rw_removed_null
      | _ =>
          rw_removed_null
      end
  else
    let src1_need_spill_flag := (if NEED_SPILL_XMM src1_reg then 1 else 0) in
    let src2_need_spill_flag := (if NEED_SPILL_XMM src2_reg then 2 else 0) in
    let dst_need_spill_flag := (if NEED_SPILL_XMM dst_reg then 4 else 0) in
    let need_spill_flag := Z.lor (Z.lor src1_need_spill_flag src2_need_spill_flag) dst_need_spill_flag in
    match need_spill_flag with
    | 0 =>
        let i1 := INSTR_CREATE_3 OP_vpxor (opnd_create_reg dst_reg) (opnd_create_reg src1_reg) (opnd_create_reg src2_reg) in
        rw_replace [i1]
    | 1 =>
        rw_removed_null
    | 2 =>
        rw_removed_null
    | 3 =>
        rw_removed_null
    | 4 =>
        rw_removed_null
    | 5 =>
        rw_removed_null
    | 6 =>
        rw_removed_null
    | 7 =>
        rw_removed_null
    | _ =>
        rw_removed_null
    end.

(** ** Correctness *)

Ltac zmm_cases a b d :=
  rewrite ?NEED_SPILL_ZMM_zmm, ?ZMM_TO_YMM_zmm, ?TO_ZMM_REG_INDEX_zmm by assumption;
  destruct (Z.leb_spec 16 a), (Z.leb_spec 16 b), (Z.leb_spec 16 d); cbv beta iota delta [Z.lor Pos.lor].

Definition all_low (a b d : Z) : bool := (a <? 16) && (b <? 16) && (d <? 16).

Lemma all_low_inv a b d : all_low a b d = true -> a < 16 /\ b < 16 /\ d < 16.
Proof. unfold all_low; rewrite !andb_true_iff, !Z.ltb_lt; tauto. Qed.

Lemma all_low_false a b d : all_low a b d = false -> 16 <= a \/ 16 <= b \/ 16 <= d.
Proof. unfold all_low; rewrite !andb_false_iff, !Z.ltb_ge; tauto. Qed.

Lemma vpsubd_zmm_correct a b d mask :
  0 <= a < 32 -> 0 <= b < 32 -> 0 <= d < 32 -> all_low a b d = true ->
  rewrites (vec_binop 4 (psub 32) d a b) (vpsubd_zmm_and_zmm_gen (zmm a) (zmm b) (zmm d) mask).
Proof.
  intros Ha Hb Hd Hl; apply all_low_inv in Hl as (La & Lb & Ld).
  pose proof (eq_refl : lane_binop OP_vpsubd = Some (psub 32)) as Hop; pose proof psub32_op as Hf.
  unfold vpsubd_zmm_and_zmm_gen; zmm_cases a b d; try lia; emit_code Hop; sym_solve.
Qed.

(** [vpaddw] emits nothing when both sources but not the destination are high,
    nor when the destination alone or with the second source is. *)
Definition vpaddw_ymm_supported (a b d : Z) : bool :=
  negb (((16 <=? a) && (16 <=? b) && (d <? 16)) || ((a <? 16) && (16 <=? d))).

Lemma vpaddw_ymm_correct a b d mask :
  0 <= a < 32 -> 0 <= b < 32 -> 0 <= d < 32 ->
  vpaddw_ymm_supported a b d = true -> vpaddd_ymm_conflict a b d = false ->
  rewrites (vec_binop_keep 2 (padd 16) d a b) (vpaddw_ymm_and_ymm_gen (ymm a) (ymm b) (ymm d) mask).
Proof.
  intros Ha Hb Hd Hsup Hn; pose proof (vpaddd_ymm_no_conflict a b d Hn) as Hc; clear Hn.
  unfold vpaddw_ymm_and_ymm_gen; unfold vpaddw_ymm_supported in Hsup.
  destruct (Z.ltb_spec a 16), (Z.ltb_spec d 16);
  pose proof (eq_refl : lane_binop OP_vpaddw = Some (padd 16)) as Hop; pose proof padd16_op as Hf;
  ymm_cases a b d; try discriminate Hsup; try lia; alias_cases;
    try specialize (Hc ltac:(assumption) eq_refl); emit_code Hop; sym_solve.
Qed.

(** The combinations on which the spill register is the destination. *)
Definition vporq_ymm_conflict (a b d : Z) : bool :=
  ((16 <=? a) && (b <? 16) && (d =? spill_one b)) || ((a <? 16) && (16 <=? b) && (d =? spill_one a)).

Lemma vporq_ymm_no_conflict a b d :
  vporq_ymm_conflict a b d = false ->
  (16 <= a -> b < 16 -> distinct d (spill_one b)) /\ (a < 16 -> 16 <= b -> distinct d (spill_one a)).
Proof.
  unfold vporq_ymm_conflict, distinct; intros H; apply orb_false_iff in H as [H1 H2]; split; intros Ha Hb E.
  - rewrite E, Z.eqb_refl in H1; zbool; revert H1; zcases; cbn [andb]; lia || discriminate.
  - rewrite E, Z.eqb_refl in H2; zbool; revert H2; zcases; cbn [andb]; lia || discriminate.
Qed.

Ltac pick_one i :=
  let s := fresh "s" in let E := fresh "E" in let Es := fresh "Es" in let Hr := fresh "Hr" in
  destruct (find_one_ymm_spill i) as (s & E & Es & Hr & ?);
  rewrite <- Es in *; rewrite ?E; clear E Es; hide_neq.

Lemma vporq_ymm_correct a b d :
  0 <= a < 32 -> 0 <= b < 32 -> 0 <= d < 32 -> vporq_ymm_conflict a b d = false ->
  rewrites (vec_binop_keep 2 por d a b) (vporq_ymm_and_ymm_gen (ymm a) (ymm b) (ymm d) DR_REG_K0).
Proof.
  intros Ha Hb Hd Hn; apply vporq_ymm_no_conflict in Hn as [H1 H2].
  pose proof (eq_refl : lane_binop OP_vpor = Some por) as Hop; pose proof por_op as Hf.
  unfold vporq_ymm_and_ymm_gen; change (TO_K_REG_INDEX DR_REG_K0 =? 0) with true; cbv iota.
  ymm_cases a b d; try (specialize (H1 ltac:(assumption) ltac:(assumption)); pick_one b);
    try (specialize (H2 ltac:(assumption) ltac:(assumption)); pick_one a);
    emit_code Hop; sym_solve.
Qed.

(** [vpandd] on xmm registers: nothing is emitted when all three are high; with
    the first source alone high the last restore does not encode. *)
Definition vpandd_xmm_supported (a b d : Z) : bool :=
  negb ((16 <=? a) && (16 <=? b) && (16 <=? d)) && negb ((16 <=? a) && (b <? 16) && (d <? 16)).

Lemma vpandd_xmm_correct a b d mask :
  0 <= a < 32 -> 0 <= b < 32 -> 0 <= d < 32 -> vpandd_xmm_supported a b d = true ->
  rewrites_if (xmm_pre d) (vec_binop 1 pand d a b) (vpandd_xmm_and_xmm_gen (xmm a) (xmm b) (xmm d) mask).
Proof.
  intros Ha Hb Hd Hs; unfold vpandd_xmm_supported in Hs.
  pose proof (eq_refl : lane_binop OP_vpand = Some pand) as Hop; pose proof pand_op as Hf.
  unfold vpandd_xmm_and_xmm_gen, emit_vpand_xmm; destruct (Z.ltb_spec b 16), (Z.ltb_spec d 16);
    xmm_cases a b d; try discriminate Hs; try lia; emit_code_if Hop; sym_solve_xmm.
Qed.

(** [vpxord] on xmm registers, all low. *)
Lemma vpxord_xmm_correct a b d mask :
  0 <= a < 32 -> 0 <= b < 32 -> 0 <= d < 32 -> all_low a b d = true ->
  rewrites_if (xmm_pre d) (vec_binop 1 pxor d a b) (vpxord_xmm_and_xmm_gen (xmm a) (xmm b) (xmm d) mask).
Proof.
  intros Ha Hb Hd Hl; apply all_low_inv in Hl as (La & Lb & Ld).
  pose proof (eq_refl : lane_binop OP_vpxor = Some pxor) as Hop; pose proof pxor_op as Hf.
  unfold vpxord_xmm_and_xmm_gen; xmm_cases a b d; try lia; alias_cases; emit_code_if Hop; sym_solve_xmm.
Qed.

Lemma pxor_diag x : pxor x x = 0.
Proof. unfold pxor; now rewrite Z.lxor_nilpotent. Qed.

(** Zeroing a high register by xor with itself: the slot's two low lanes. *)
Lemma vpxord_xmm_zero d mask :
  16 <= d < 32 ->
  rewrites_if (upper_zero 1 d) (vec_binop 1 pxor d d d) (vpxord_xmm_and_xmm_gen (xmm d) (xmm d) (xmm d) mask).
Proof.
  intros Hd; assert (Hd' : 0 <= d < 32) by lia.
  pose proof (eq_refl : lane_binop OP_vpxor = Some pxor) as Hop; pose proof pxor_op as Hf.
  unfold vpxord_xmm_and_xmm_gen; rewrite !Z.eqb_refl, NEED_SPILL_XMM_xmm, find_one_ymm_xmm by assumption.
  destruct (Z.leb_spec 16 d); [|lia]; cbv iota; rewrite ?YMM_TO_XMM_ymm.
  emit_code_if Hop.
  unfold vec_binop; apply view_set_zmm; [sym_frame| | | ]; intros i l Hi Hl;
    [assert (l = 0 \/ l = 1) as [-> | ->] by lia..|]; sym_read; rewrite ?pxor_diag;
    sym_wrap; try reflexivity.
  replace (2 + l <? 1) with false by (symmetry; apply Z.ltb_ge; lia).
  specialize (Hp (2 + l) ltac:(lia)); cbn [view g_zmm] in Hp; now rewrite zmm_view_tls in Hp by lia.
Qed.

(** [vpxord] on ymm registers hands the registers over as they are. *)
Lemma vpxord_ymm_correct a b d :
  all_low a b d = true -> 0 <= a < 32 -> 0 <= b < 32 -> 0 <= d < 32 ->
  rewrites (vec_binop_keep 2 pxor d a b) (vpxord_ymm_and_ymm_gen (ymm a) (ymm b) (ymm d) DR_REG_K0).
Proof.
  intros Hl Ha Hb Hd; apply all_low_inv in Hl as (La & Lb & Ld).
  pose proof (eq_refl : lane_binop OP_vpxor = Some pxor) as Hop; pose proof pxor_op as Hf.
  unfold vpxord_ymm_and_ymm_gen, create_mapping_ymm_opnd; change (TO_K_REG_INDEX DR_REG_K0 =? 0) with true; cbv iota.
  emit_code Hop; sym_solve.
Qed.

(** ** Theorems *)

(** [vporq] on ymm registers under [k0] is right on the two lanes of the vector
    length unless the spill register chosen for the one high source is the
    destination, which is then restored over the result; under another mask the
    instruction is removed and nothing emitted. *)
Theorem vporq_ymm_conflicts a b d k :
  0 <= a < 32 -> 0 <= b < 32 -> 0 <= d < 32 -> 0 <= k < 8 ->
  (vporq_ymm_conflict a b d = false ->
   rewrites (vec_binop_keep 2 por d a b) (vporq_ymm_and_ymm_gen (ymm a) (ymm b) (ymm d) (kreg 0))) /\
  (k <> 0 -> vporq_ymm_and_ymm_gen (ymm a) (ymm b) (ymm d) (kreg k) = rw_removed_null) /\
  ~ rewrites (vec_binop_keep 2 por 10 20 3) (vporq_ymm_and_ymm_gen (ymm 20) (ymm 3) (ymm 10) (kreg 0)).
Proof.
  intros Ha Hb Hd Hk; split; [intros Hn; now apply vporq_ymm_correct|split].
  - intros Hne; unfold vporq_ymm_and_ymm_gen; rewrite TO_K_REG_INDEX_kreg.
    now replace (k =? 0) with false by (symmetry; now apply Z.eqb_neq).
  - apply (not_rewrites_lane _ _ 10 0); [lia|lia|vm_compute; congruence].
Qed.

Lemma vporq_ymm_conflicts_witness :
  rewrites (vec_binop_keep 2 por 3 20 10) (vporq_ymm_and_ymm_gen (ymm 20) (ymm 10) (ymm 3) (kreg 0)).
Proof. apply (vporq_ymm_conflicts 20 10 3 1); reflexivity || lia. Defined.

(** The remaining partial functions, on the combinations of registers they
    cover: [vpsubd] on zmm registers is right when all three are low and emits
    nothing otherwise; [vpaddw] on ymm, [vpandd] and [vpxord] on xmm registers
    are right on their supported combinations, and [vpxord] zeroes a high
    register. *)
Theorem partial_functions_correct a b d mask :
  0 <= a < 32 -> 0 <= b < 32 -> 0 <= d < 32 ->
  (if all_low a b d
   then rewrites (vec_binop 4 (psub 32) d a b) (vpsubd_zmm_and_zmm_gen (zmm a) (zmm b) (zmm d) mask) /\
        rewrites (vec_binop_keep 2 pxor d a b) (vpxord_ymm_and_ymm_gen (ymm a) (ymm b) (ymm d) DR_REG_K0) /\
        rewrites_if (xmm_pre d) (vec_binop 1 pxor d a b) (vpxord_xmm_and_xmm_gen (xmm a) (xmm b) (xmm d) mask)
   else vpsubd_zmm_and_zmm_gen (zmm a) (zmm b) (zmm d) mask = rw_removed_null) /\
  (if vpaddw_ymm_supported a b d
   then vpaddd_ymm_conflict a b d = false ->
        rewrites (vec_binop_keep 2 (padd 16) d a b) (vpaddw_ymm_and_ymm_gen (ymm a) (ymm b) (ymm d) mask)
   else vpaddw_ymm_and_ymm_gen (ymm a) (ymm b) (ymm d) mask = rw_removed_null) /\
  (vpandd_xmm_supported a b d = true ->
   rewrites_if (xmm_pre d) (vec_binop 1 pand d a b) (vpandd_xmm_and_xmm_gen (xmm a) (xmm b) (xmm d) mask)) /\
  (16 <= d ->
   rewrites_if (upper_zero 1 d) (vec_binop 1 pxor d d d) (vpxord_xmm_and_xmm_gen (xmm d) (xmm d) (xmm d) mask)).
Proof.
  intros Ha Hb Hd; split; [|split; [|split; [now apply vpandd_xmm_correct|intros; apply vpxord_xmm_zero; lia]]].
  - destruct (all_low a b d) eqn:Hl; [split; [now apply vpsubd_zmm_correct|split; [now apply vpxord_ymm_correct|now apply vpxord_xmm_correct]]|].
    apply all_low_false in Hl; unfold vpsubd_zmm_and_zmm_gen; zmm_cases a b d; reflexivity || lia.
  - destruct (vpaddw_ymm_supported a b d) eqn:Hs; [now apply vpaddw_ymm_correct|].
    unfold vpaddw_ymm_supported in Hs; unfold vpaddw_ymm_and_ymm_gen.
    destruct (Z.ltb_spec a 16), (Z.ltb_spec d 16); ymm_cases a b d; try discriminate Hs; reflexivity || lia.
Qed.

Lemma partial_functions_correct_witness :
  rewrites_if (upper_zero 1 20) (vec_binop 1 pxor 20 20 20) (vpxord_xmm_and_xmm_gen (xmm 20) (xmm 20) (xmm 20) DR_REG_K0).
Proof. apply (partial_functions_correct 1 2 20 DR_REG_K0); lia. Defined.
