(* ===== verification/GenShift.v ===== *)
(** * Shifts

    [vpsrlq], [vpsrad], [vpsrldq], [vpsllw], [vpslld] and [vpsllq]: the rewrite
    functions, which choose by the kind of the operands and the width of the
    destination, and their generators.  An immediate count is the first source
    operand; a register count is an xmm register at every width. *)
From Stdlib Require Import ZArith List Bool Lia.
From S2P Require Import Prelude Regs Spill Bytes Lanes Machine Arch512 SymExec GenYmm GenXmm GenMov GenMem GenMixed.
Import ListNotations.
#[local] Open Scope Z_scope.
#[local] Open Scope bool_scope.
#[local] Open Scope rw_scope.

(** ** [vpsrlq] *)

(** The functions that return NULL at once. *)
Definition vpsrlq_ymm_reg_reg_gen (src1_reg src2_reg dst_reg : reg_id_t) : rw_result := rw_null.
Definition vpsrlq_xmm_reg_reg_gen (src1_reg src2_reg dst_reg : reg_id_t) : rw_result := rw_null.
Definition vpsrlq_zmm_reg_reg_gen (src1_reg src2_reg dst_reg : reg_id_t) : rw_result := rw_null.
Definition vpsrlq_ymm_disp_reg_gen (src1_opnd : opnd_t) (src2_reg dst_reg : reg_id_t) : rw_result := rw_null.
Definition vpsrlq_xmm_disp_reg_gen (src1_opnd : opnd_t) (src2_reg dst_reg : reg_id_t) : rw_result := rw_null.
Definition vpsrlq_zmm_disp_reg_gen (src1_opnd : opnd_t) (src2_reg dst_reg : reg_id_t) : rw_result := rw_null.

Definition vpsrlq_ymm_imm_reg_gen (imm8_opnd : opnd_t) (src2_opnd : opnd_t) (dst_opnd : opnd_t) (src2_reg : reg_id_t) (dst_reg : reg_id_t) : rw_result :=
  let src2_need_spill_flag := (if NEED_SPILL_YMM src2_reg then 1 else 0) in
  let dst_need_spill_flag := (if NEED_SPILL_YMM dst_reg then 2 else 0) in
  let need_spill_flag := Z.lor src2_need_spill_flag dst_need_spill_flag in
  match need_spill_flag with
  | 0 =>
      let i1 := INSTR_CREATE_3 OP_vpsrlq dst_opnd imm8_opnd src2_opnd in
      rw_replace [i1]
  | 1 =>
      let spill_src2_reg := find_one_available_spill_ymm dst_reg in
      let spill_src2_opnd := opnd_create_reg spill_src2_reg in
      let i1 := SAVE_SIMD_TO_SIZED_TLS spill_src2_reg (TLS_ZMM_idx_SLOT (TO_YMM_REG_INDEX spill_src2_reg)) OPSZ_32 in
      let i2 := RESTORE_SIMD_FROM_SIZED_TLS spill_src2_reg (TLS_ZMM_idx_SLOT (TO_YMM_REG_INDEX src2_reg)) OPSZ_32 in
      let i3 := INSTR_CREATE_3 OP_vpsrlq dst_opnd imm8_opnd spill_src2_opnd in
      let i4 := RESTORE_SIMD_FROM_SIZED_TLS spill_src2_reg (TLS_ZMM_idx_SLOT (TO_YMM_REG_INDEX spill_src2_reg)) OPSZ_32 in
      rw_replace [i1; i2; i3; i4]
  | 2 =>
      let spill_dst_reg := find_one_available_spill_ymm src2_reg in
      let spill_dst_opnd := opnd_create_reg spill_dst_reg in
      let i1 := SAVE_SIMD_TO_SIZED_TLS spill_dst_reg (TLS_ZMM_idx_SLOT (TO_YMM_REG_INDEX spill_dst_reg)) OPSZ_32 in
      let i2 := INSTR_CREATE_3 OP_vpsrlq spill_dst_opnd imm8_opnd src2_opnd in
      let i3 := SAVE_SIMD_TO_SIZED_TLS spill_dst_reg (TLS_ZMM_idx_SLOT (TO_YMM_REG_INDEX dst_reg)) OPSZ_32 in
      let i4 := RESTORE_SIMD_FROM_SIZED_TLS spill_dst_reg (TLS_ZMM_idx_SLOT (TO_YMM_REG_INDEX spill_dst_reg)) OPSZ_32 in
      rw_replace [i1; i2; i3; i4]
  | 3 =>
      let spill_src2_reg := YMM_SPILL_SLOT0 in
      let spill_dst_reg := spill_src2_reg in
      let spill_src2_opnd := opnd_create_reg spill_src2_reg in
      let spill_dst_opnd := spill_src2_opnd in
      let i1 := SAVE_SIMD_TO_SIZED_TLS spill_src2_reg (TLS_ZMM_idx_SLOT (TO_YMM_REG_INDEX spill_src2_reg)) OPSZ_32 in
      let i2 := RESTORE_SIMD_FROM_SIZED_TLS spill_src2_reg (TLS_ZMM_idx_SLOT (TO_YMM_REG_INDEX src2_reg)) OPSZ_32 in
      let i3 := INSTR_CREATE_3 OP_vpsrlq spill_dst_opnd imm8_opnd spill_src2_opnd in
      let i4 := SAVE_SIMD_TO_SIZED_TLS spill_dst_reg (TLS_ZMM_idx_SLOT (TO_YMM_REG_INDEX dst_reg)) OPSZ_32 in
      let i5 := RESTORE_SIMD_FROM_SIZED_TLS spill_src2_reg (TLS_ZMM_idx_SLOT (TO_YMM_REG_INDEX spill_src2_reg)) OPSZ_32 in
      rw_replace [i1; i2; i3; i4; i5]
  | _ =>
      rw_removed_null
  end.

Definition vpsrlq_xmm_imm_reg_gen (imm8_opnd : opnd_t) (src2_opnd : opnd_t) (dst_opnd : opnd_t) (src2_reg : reg_id_t) (dst_reg : reg_id_t) : rw_result :=
  rw_null.

Definition vpsrlq_zmm_imm_reg_gen (imm8_opnd : opnd_t) (src2_opnd : opnd_t) (dst_opnd : opnd_t) (src2_reg : reg_id_t) (dst_reg : reg_id_t) : rw_result :=
  rw_null.

Definition rw_func_vpsrlq (instr : instr_t) : rw_result :=
  let src1_opnd := instr_get_src instr 1 in
  let src2_opnd := instr_get_src instr 2 in
  let dst_opnd := instr_get_dst instr 0 in
  let dst_reg := opnd_get_reg dst_opnd in
  match (opnd_kind src1_opnd) with
  | REG_kind =>
      let src1_reg := opnd_get_reg src1_opnd in
      let src2_reg := opnd_get_reg src2_opnd in
      if IS_YMM_REG dst_reg then
        vpsrlq_ymm_reg_reg_gen src1_reg src2_reg dst_reg
      else
        if IS_XMM_REG dst_reg then
          vpsrlq_xmm_reg_reg_gen src1_reg src2_reg dst_reg
        else
          if IS_ZMM_REG dst_reg then
            vpsrlq_zmm_reg_reg_gen src1_reg src2_reg dst_reg
          else
            rw_null
  | BASE_DISP_kind =>
      let src2_reg := opnd_get_reg src2_opnd in
      if IS_YMM_REG dst_reg then
        vpsrlq_ymm_disp_reg_gen src1_opnd src2_reg dst_reg
      else
        if IS_XMM_REG dst_reg then
          vpsrlq_xmm_disp_reg_gen src1_opnd src2_reg dst_reg
        else
          if IS_ZMM_REG dst_reg then
            vpsrlq_zmm_disp_reg_gen src1_opnd src2_reg dst_reg
          else
            rw_null
  | IMMED_INTEGER_kind =>
      let src2_reg := opnd_get_reg src2_opnd in
      if IS_YMM_REG dst_reg then
        vpsrlq_ymm_imm_reg_gen src1_opnd src2_opnd dst_opnd src2_reg dst_reg
      else
        if IS_XMM_REG dst_reg then
          vpsrlq_xmm_imm_reg_gen src1_opnd src2_opnd dst_opnd src2_reg dst_reg
        else
          if IS_ZMM_REG dst_reg then
            vpsrlq_zmm_imm_reg_gen src1_opnd src2_opnd dst_opnd src2_reg dst_reg
          else
            rw_null
  | _ =>
      rw_null
  end.

(** ** [vpsrad] and [vpsrldq] *)

Definition vpsrad_ymm2ymm_gen (mask_reg : reg_id_t) (imm8_opnd : opnd_t) (src1_reg : reg_id_t) (dst_reg : reg_id_t) : rw_result :=
  let src1_need_spill_flag := (if NEED_SPILL_YMM src1_reg then 1 else 0) in
  let dst_need_spill_flag := (if NEED_SPILL_YMM dst_reg then 2 else 0) in
  let need_spill_flag := Z.lor src1_need_spill_flag dst_need_spill_flag in
  match need_spill_flag with
  | 0 =>
      let dst_opnd := opnd_create_reg dst_reg in
      let src1_opnd := opnd_create_reg src1_reg in
      let i1 := INSTR_CREATE_3 OP_vpsrad dst_opnd imm8_opnd src1_opnd in
      rw_replace [i1]
  | 1 =>
      let src1_spill_reg := find_one_available_spill_ymm dst_reg in
      let src1_spill_opnd := opnd_create_reg src1_spill_reg in
      let dst_opnd := opnd_create_reg dst_reg in
      let i1 := SAVE_SIMD_TO_SIZED_TLS src1_spill_reg (TLS_ZMM_idx_SLOT (TO_YMM_REG_INDEX src1_spill_reg)) OPSZ_32 in
      let i2 := RESTORE_SIMD_FROM_SIZED_TLS src1_spill_reg (TLS_ZMM_idx_SLOT (TO_YMM_REG_INDEX src1_reg)) OPSZ_32 in
      let i3 := INSTR_CREATE_3 OP_vpsrad dst_opnd imm8_opnd src1_spill_opnd in
      let i4 := RESTORE_SIMD_FROM_SIZED_TLS src1_spill_reg (TLS_ZMM_idx_SLOT (TO_YMM_REG_INDEX src1_spill_reg)) OPSZ_32 in
      rw_replace [i1; i2; i3; i4]
  | 2 =>
      let spill_dst_reg := find_one_available_spill_ymm dst_reg in
      let spill_dst_opnd := opnd_create_reg spill_dst_reg in
      let src1_opnd := opnd_create_reg src1_reg in
      let i1 := SAVE_SIMD_TO_SIZED_TLS spill_dst_reg (TLS_ZMM_idx_SLOT (TO_YMM_REG_INDEX spill_dst_reg)) OPSZ_32 in
      let i2 := INSTR_CREATE_3 OP_vpsrad spill_dst_opnd imm8_opnd src1_opnd in
      let i3 := SAVE_SIMD_TO_SIZED_TLS spill_dst_reg (TLS_ZMM_idx_SLOT (TO_YMM_REG_INDEX dst_reg)) OPSZ_32 in
      let i4 := RESTORE_SIMD_FROM_SIZED_TLS spill_dst_reg (TLS_ZMM_idx_SLOT (TO_YMM_REG_INDEX spill_dst_reg)) OPSZ_32 in
      rw_replace [i1; i2; i3; i4]
  | 3 =>
      let spill_src1_reg := YMM_SPILL_SLOT0 in
      let spill_dst_reg := YMM_SPILL_SLOT1 in
      let spill_src1_opnd := opnd_create_reg spill_src1_reg in
      let spill_dst_opnd := opnd_create_reg spill_dst_reg in
      let i1 := SAVE_SIMD_TO_SIZED_TLS spill_src1_reg (TLS_ZMM_idx_SLOT (TO_YMM_REG_INDEX spill_src1_reg)) OPSZ_32 in
      let i2 := SAVE_SIMD_TO_SIZED_TLS spill_dst_reg (TLS_ZMM_idx_SLOT (TO_YMM_REG_INDEX spill_dst_reg)) OPSZ_32 in
      let i3 := RESTORE_SIMD_FROM_SIZED_TLS spill_src1_reg (TLS_ZMM_idx_SLOT (TO_YMM_REG_INDEX src1_reg)) OPSZ_32 in
      let i4 := INSTR_CREATE_3 OP_vpsrad spill_dst_opnd imm8_opnd spill_src1_opnd in
      let i5 := SAVE_SIMD_TO_SIZED_TLS spill_dst_reg (TLS_ZMM_idx_SLOT (TO_YMM_REG_INDEX dst_reg)) OPSZ_32 in
      let i6 := RESTORE_SIMD_FROM_SIZED_TLS spill_dst_reg (TLS_ZMM_idx_SLOT (TO_YMM_REG_INDEX spill_dst_reg)) OPSZ_32 in
      let i7 := RESTORE_SIMD_FROM_SIZED_TLS spill_src1_reg (TLS_ZMM_idx_SLOT (TO_YMM_REG_INDEX spill_src1_reg)) OPSZ_32 in
      rw_replace [i1; i2; i3; i4; i5; i6; i7]
  | _ =>
      rw_removed_null
  end.

Definition vpsrad_xmm2xmm_gen (mask_reg : reg_id_t) (imm8_opnd : opnd_t) (src1_reg : reg_id_t) (dst_reg : reg_id_t) : rw_result :=
  let src1_need_spill_flag := (if NEED_SPILL_XMM src1_reg then 1 else 0) in
  let dst_need_spill_flag := (if NEED_SPILL_XMM dst_reg then 2 else 0) in
  let need_spill_flag := Z.lor src1_need_spill_flag dst_need_spill_flag in
  match need_spill_flag with
  | 0 =>
      let dst_opnd := opnd_create_reg dst_reg in
      let src1_opnd := opnd_create_reg src1_reg in
      let i1 := INSTR_CREATE_3 OP_vpsrad dst_opnd imm8_opnd src1_opnd in
      rw_replace [i1]
  | 1 =>
      let src1_spill_reg := find_one_available_spill_xmm dst_reg in
      let src1_spill_opnd := opnd_create_reg src1_spill_reg in
      let dst_opnd := opnd_create_reg dst_reg in
      let i1 := SAVE_SIMD_TO_SIZED_TLS src1_spill_reg (TLS_ZMM_idx_SLOT (TO_XMM_REG_INDEX src1_spill_reg)) OPSZ_16 in
      let i2 := RESTORE_SIMD_FROM_SIZED_TLS src1_spill_reg (TLS_ZMM_idx_SLOT (TO_XMM_REG_INDEX src1_reg)) OPSZ_16 in
      let i3 := INSTR_CREATE_3 OP_vpsrad dst_opnd imm8_opnd src1_spill_opnd in
      let i4 := RESTORE_SIMD_FROM_SIZED_TLS src1_spill_reg (TLS_ZMM_idx_SLOT (TO_XMM_REG_INDEX src1_spill_reg)) OPSZ_16 in
      rw_replace [i1; i2; i3; i4]
  | 2 =>
      let spill_dst_reg := find_one_available_spill_xmm dst_reg in
      let spill_dst_opnd := opnd_create_reg spill_dst_reg in
      let src1_opnd := opnd_create_reg src1_reg in
      let i1 := SAVE_SIMD_TO_SIZED_TLS spill_dst_reg (TLS_ZMM_idx_SLOT (TO_XMM_REG_INDEX spill_dst_reg)) OPSZ_16 in
      let i2 := INSTR_CREATE_3 OP_vpsrad spill_dst_opnd imm8_opnd src1_opnd in
      let i3 := SAVE_SIMD_TO_SIZED_TLS spill_dst_reg (TLS_ZMM_idx_SLOT (TO_XMM_REG_INDEX dst_reg)) OPSZ_16 in
      let i4 := RESTORE_SIMD_FROM_SIZED_TLS spill_dst_reg (TLS_ZMM_idx_SLOT (TO_XMM_REG_INDEX spill_dst_reg)) OPSZ_16 in
      rw_replace [i1; i2; i3; i4]
  | 3 =>
      let spill_src1_reg := XMM_SPILL_SLOT0 in
      let spill_dst_reg := XMM_SPILL_SLOT1 in
      let spill_src1_opnd := opnd_create_reg spill_src1_reg in
      let spill_dst_opnd := opnd_create_reg spill_dst_reg in
      let i1 := SAVE_SIMD_TO_SIZED_TLS spill_src1_reg (TLS_ZMM_idx_SLOT (TO_XMM_REG_INDEX spill_src1_reg)) OPSZ_16 in
      let i2 := SAVE_SIMD_TO_SIZED_TLS spill_dst_reg (TLS_ZMM_idx_SLOT (TO_XMM_REG_INDEX spill_dst_reg)) OPSZ_16 in
      let i3 := RESTORE_SIMD_FROM_SIZED_TLS spill_src1_reg (TLS_ZMM_idx_SLOT (TO_XMM_REG_INDEX src1_reg)) OPSZ_16 in
      let i4 := INSTR_CREATE_3 OP_vpsrad spill_dst_opnd imm8_opnd spill_src1_opnd in
      let i5 := SAVE_SIMD_TO_SIZED_TLS spill_dst_reg (TLS_ZMM_idx_SLOT (TO_XMM_REG_INDEX dst_reg)) OPSZ_16 in
      let i6 := RESTORE_SIMD_FROM_SIZED_TLS spill_dst_reg (TLS_ZMM_idx_SLOT (TO_XMM_REG_INDEX spill_dst_reg)) OPSZ_16 in
      let i7 := RESTORE_SIMD_FROM_SIZED_TLS spill_src1_reg (TLS_ZMM_idx_SLOT (TO_XMM_REG_INDEX spill_src1_reg)) OPSZ_16 in
      rw_replace [i1; i2; i3; i4; i5; i6; i7]
  | _ =>
      rw_removed_null
  end.

Definition vpsrad_zmm2zmm_gen (mask_reg : reg_id_t) (imm8_opnd : opnd_t) (src1_reg : reg_id_t) (dst_reg : reg_id_t) : rw_result :=
  rw_null.

Definition rw_func_vpsrad (instr : instr_t) : rw_result :=
  let mask_opnd := instr_get_src instr 0 in
  let imm8_opnd := instr_get_src instr 1 in
  let src1_opnd := instr_get_src instr 2 in
  let dst_opnd := instr_get_dst instr 0 in
  if kind_eqb (opnd_kind src1_opnd) REG_kind then
    let mask_reg := opnd_get_reg mask_opnd in
    let src1_reg := opnd_get_reg src1_opnd in
    let dst_reg := opnd_get_reg dst_opnd in
    if IS_YMM_REG dst_reg then
      vpsrad_ymm2ymm_gen mask_reg imm8_opnd src1_reg dst_reg
    else
      if IS_XMM_REG dst_reg then
        vpsrad_xmm2xmm_gen mask_reg imm8_opnd src1_reg dst_reg
      else
        if IS_ZMM_REG dst_reg then
          vpsrad_zmm2zmm_gen mask_reg imm8_opnd src1_reg dst_reg
        else
          rw_null
  else
    rw_null.

Definition vpsrldq_zmm2zmm_gen (imm8_opnd : opnd_t) (src2_reg : reg_id_t) (dst_reg : reg_id_t) : rw_result :=
  rw_null.

Definition vpsrldq_disp2zmm_gen (imm8_opnd : opnd_t) (src2_opnd : opnd_t) (dst_reg : reg_id_t) : rw_result :=
  rw_null.

Definition vpsrldq_ymm2ymm_gen (imm8_opnd : opnd_t) (src2_reg : reg_id_t) (dst_reg : reg_id_t) : rw_result :=
  let dst_opnd := opnd_create_reg dst_reg in
  let src2_opnd := opnd_create_reg src2_reg in
  let new_instr1 := INSTR_CREATE_3 OP_vpsrldq dst_opnd imm8_opnd src2_opnd in
  rw_replace [new_instr1].

Definition vpsrldq_disp2ymm_gen (imm8_opnd : opnd_t) (src2_opnd : opnd_t) (dst_reg : reg_id_t) : rw_result :=
  let dst_opnd := opnd_create_reg dst_reg in
  let new_instr1 := INSTR_CREATE_3 OP_vpsrldq dst_opnd imm8_opnd src2_opnd in
  rw_replace [new_instr1].

Definition vpsrldq_xmm2xmm_gen (imm8_opnd : opnd_t) (src2_reg : reg_id_t) (dst_reg : reg_id_t) : rw_result :=
  let src2_need_spill_flag := (if NEED_SPILL_XMM src2_reg then 1 else 0) in
  let dst_need_spill_flag := (if NEED_SPILL_XMM dst_reg then 2 else 0) in
  let need_spill_flag := Z.lor src2_need_spill_flag dst_need_spill_flag in
  match need_spill_flag with
  | 0 =>
      let dst_opnd := opnd_create_reg dst_reg in
      let src2_opnd := opnd_create_reg src2_reg in
      let i1 := INSTR_CREATE_3 OP_vpsrldq dst_opnd imm8_opnd src2_opnd in
      rw_replace [i1]
  | 1 =>
      let spill_src2_reg := find_available_spill_xmm_avoiding dst_reg DR_REG_NULL DR_REG_NULL in
      let dst_opnd := opnd_create_reg dst_reg in
      let spill_src2_opnd := opnd_create_reg spill_src2_reg in
      let i1 := SAVE_SIMD_TO_SIZED_TLS spill_src2_reg (TLS_ZMM_idx_SLOT (TO_XMM_REG_INDEX spill_src2_reg)) OPSZ_16 in
      let i2 := RESTORE_SIMD_FROM_SIZED_TLS spill_src2_reg (TLS_ZMM_idx_SLOT (TO_XMM_REG_INDEX src2_reg)) OPSZ_16 in
      let i3 := INSTR_CREATE_3 OP_vpsrldq dst_opnd imm8_opnd spill_src2_opnd in
      let i4 := RESTORE_SIMD_FROM_SIZED_TLS spill_src2_reg (TLS_ZMM_idx_SLOT (TO_XMM_REG_INDEX spill_src2_reg)) OPSZ_16 in
      rw_replace [i1; i2; i3; i4]
  | 2 =>
      let spill_dst_reg := find_one_available_spill_xmm src2_reg in
      let spill_dst_opnd := opnd_create_reg spill_dst_reg in
      let src2_opnd := opnd_create_reg src2_reg in
      let i1 := SAVE_SIMD_TO_SIZED_TLS spill_dst_reg (TLS_ZMM_idx_SLOT (TO_XMM_REG_INDEX spill_dst_reg)) OPSZ_16 in
      let i2 := INSTR_CREATE_3 OP_vpsrldq spill_dst_opnd imm8_opnd src2_opnd in
      let i3 := SAVE_SIMD_TO_SIZED_TLS spill_dst_reg (TLS_ZMM_idx_SLOT (TO_XMM_REG_INDEX dst_reg)) OPSZ_16 in
      let i4 := RESTORE_SIMD_FROM_SIZED_TLS spill_dst_reg (TLS_ZMM_idx_SLOT (TO_XMM_REG_INDEX spill_dst_reg)) OPSZ_16 in
      rw_replace [i1; i2; i3; i4]
  | 3 =>
      let spill_pair := find_two_available_spill_xmms src2_reg dst_reg in
      let spill_src2_reg := (pair_reg1 spill_pair) in
      let spill_dst_reg := (pair_reg2 spill_pair) in
      let spill_src2_opnd := opnd_create_reg spill_src2_reg in
      let spill_dst_opnd := opnd_create_reg spill_dst_reg in
      let i1 := SAVE_SIMD_TO_SIZED_TLS spill_src2_reg (TLS_ZMM_idx_SLOT (TO_XMM_REG_INDEX spill_src2_reg)) OPSZ_16 in
      let i2 := SAVE_SIMD_TO_SIZED_TLS spill_dst_reg (TLS_ZMM_idx_SLOT (TO_XMM_REG_INDEX spill_dst_reg)) OPSZ_16 in
      let i3 := RESTORE_SIMD_FROM_SIZED_TLS spill_src2_reg (TLS_ZMM_idx_SLOT (TO_XMM_REG_INDEX src2_reg)) OPSZ_16 in
      let i4 := INSTR_CREATE_3 OP_vpsrldq spill_dst_opnd imm8_opnd spill_src2_opnd in
      let i5 := SAVE_SIMD_TO_SIZED_TLS spill_dst_reg (TLS_ZMM_idx_SLOT (TO_XMM_REG_INDEX dst_reg)) OPSZ_16 in
      let i6 := RESTORE_SIMD_FROM_SIZED_TLS spill_src2_reg (TLS_ZMM_idx_SLOT (TO_XMM_REG_INDEX spill_src2_reg)) OPSZ_16 in
      let i7 := RESTORE_SIMD_FROM_SIZED_TLS spill_dst_reg (TLS_ZMM_idx_SLOT (TO_XMM_REG_INDEX spill_dst_reg)) OPSZ_16 in
      rw_replace [i1; i2; i3; i4; i5; i6; i7]
  | _ =>
      rw_removed_null
  end.

Definition vpsrldq_disp2xmm_gen (imm8_opnd : opnd_t) (src2_opnd : opnd_t) (dst_reg : reg_id_t) : rw_result :=
  let dst_need_spill_flag := (if NEED_SPILL_XMM dst_reg then 1 else 0) in
  match dst_need_spill_flag with
  | 0 =>
      let spill_src2_reg := find_available_spill_xmm_avoiding dst_reg DR_REG_NULL DR_REG_NULL in
      let op_dst := opnd_create_reg dst_reg in
      let op_spill_src2 := opnd_create_reg spill_src2_reg in
      let i1 := SAVE_SIMD_TO_SIZED_TLS spill_src2_reg (TLS_ZMM_idx_SLOT (TO_XMM_REG_INDEX spill_src2_reg)) OPSZ_16 in
      let i2 := INSTR_CREATE_2 OP_vmovdqu op_spill_src2 src2_opnd in
      let i3 := INSTR_CREATE_3 OP_vpsrldq op_dst imm8_opnd op_spill_src2 in
      let i4 := RESTORE_SIMD_FROM_SIZED_TLS spill_src2_reg (TLS_ZMM_idx_SLOT (TO_XMM_REG_INDEX spill_src2_reg)) OPSZ_16 in
      rw_replace [i1; i2; i3; i4]
  | 1 =>
      let spill_pair := find_two_available_spill_xmms dst_reg DR_REG_NULL in
      let spill_dst_reg := (pair_reg1 spill_pair) in
      let spill_src2_reg := (pair_reg2 spill_pair) in
      let spill_dst_opnd := opnd_create_reg spill_dst_reg in
      let spill_src2_opnd := opnd_create_reg spill_src2_reg in
      let i1 := SAVE_SIMD_TO_SIZED_TLS spill_dst_reg (TLS_ZMM_idx_SLOT (TO_XMM_REG_INDEX spill_dst_reg)) OPSZ_16 in
      let i2 := SAVE_SIMD_TO_SIZED_TLS spill_src2_reg (TLS_ZMM_idx_SLOT (TO_XMM_REG_INDEX spill_src2_reg)) OPSZ_16 in
      let i3 := INSTR_CREATE_2 OP_vmovdqu spill_src2_opnd src2_opnd in
      let i4 := INSTR_CREATE_3 OP_vpsrldq spill_dst_opnd imm8_opnd spill_src2_opnd in
      let i5 := SAVE_SIMD_TO_SIZED_TLS spill_dst_reg (TLS_ZMM_idx_SLOT (TO_XMM_REG_INDEX dst_reg)) OPSZ_16 in
      let i6 := RESTORE_SIMD_FROM_SIZED_TLS spill_dst_reg (TLS_ZMM_idx_SLOT (TO_XMM_REG_INDEX spill_dst_reg)) OPSZ_16 in
      let i7 := RESTORE_SIMD_FROM_SIZED_TLS spill_src2_reg (TLS_ZMM_idx_SLOT (TO_XMM_REG_INDEX spill_src2_reg)) OPSZ_16 in
      rw_replace [i1; i2; i3; i4; i5; i6; i7]
  | _ =>
      rw_removed_null
  end.

Definition rw_func_vpsrldq (instr : instr_t) : rw_result :=
  let imm8_opnd := instr_get_src instr 0 in
  let src2_opnd := instr_get_src instr 1 in
  let dst_opnd := instr_get_dst instr 0 in
  let dst_reg := opnd_get_reg dst_opnd in
  match (opnd_kind src2_opnd) with
  | BASE_DISP_kind =>
      if IS_XMM_REG dst_reg then
        vpsrldq_disp2xmm_gen imm8_opnd src2_opnd dst_reg
      else
        if IS_YMM_REG dst_reg then
          vpsrldq_disp2ymm_gen imm8_opnd src2_opnd dst_reg
        else
          if IS_ZMM_REG dst_reg then
            vpsrldq_disp2zmm_gen imm8_opnd src2_opnd dst_reg
          else
            rw_null
  | REG_kind =>
      let src2_reg := opnd_get_reg src2_opnd in
      if IS_XMM_REG dst_reg then
        vpsrldq_xmm2xmm_gen imm8_opnd src2_reg dst_reg
      else
        if IS_YMM_REG dst_reg then
          vpsrldq_ymm2ymm_gen imm8_opnd src2_reg dst_reg
        else
          if IS_ZMM_REG dst_reg then
            vpsrldq_zmm2zmm_gen imm8_opnd src2_reg dst_reg
          else
            rw_null
  | _ =>
      rw_null
  end.

(** ** [vpsllw], [vpslld] and [vpsllq] *)

Definition vpsllw_zmm2zmm_gen (src1_reg src2_reg dst_reg mask_reg : reg_id_t) : rw_result :=
  rw_null.

Definition vpsllw_immed2zmm_gen (imm8_opnd : opnd_t) (src2_reg : reg_id_t) (dst_reg : reg_id_t) (mask_reg : reg_id_t) : rw_result :=
  rw_null.

Definition vpsllw_ymm2ymm_gen (src1_reg src2_reg dst_reg mask_reg : reg_id_t) : rw_result :=
  let op_dst := opnd_create_reg dst_reg in
  let op_src1 := opnd_create_reg src1_reg in
  let op_src2 := opnd_create_reg src2_reg in
  let i1 := INSTR_CREATE_3 OP_vpsllw op_dst op_src1 op_src2 in
  rw_replace [i1].

Definition vpsllw_immed2ymm_gen (imm8_opnd : opnd_t) (src2_reg : reg_id_t) (dst_reg : reg_id_t) (mask_reg : reg_id_t) : rw_result :=
  let src2_need_spill_flag := (if NEED_SPILL_YMM src2_reg then 1 else 0) in
  let dst_need_spill_flag := (if NEED_SPILL_YMM dst_reg then 2 else 0) in
  let need_spill_flag := Z.lor src2_need_spill_flag dst_need_spill_flag in
  match need_spill_flag with
  | 0 =>
      let op_dst := opnd_create_reg dst_reg in
      let op_src2 := opnd_create_reg src2_reg in
      let new_instr1 := INSTR_CREATE_3 OP_vpsllw op_dst imm8_opnd op_src2 in
      rw_replace [new_instr1]
  | 1 =>
      let spill_src2_reg := find_one_available_spill_ymm dst_reg in
      let op_spill_src2 := opnd_create_reg spill_src2_reg in
      let op_dst := opnd_create_reg dst_reg in
      let i1 := SAVE_SIMD_TO_SIZED_TLS spill_src2_reg (TLS_ZMM_idx_SLOT (TO_YMM_REG_INDEX spill_src2_reg)) OPSZ_32 in
      let i2 := RESTORE_SIMD_FROM_SIZED_TLS spill_src2_reg (TLS_ZMM_idx_SLOT (TO_YMM_REG_INDEX src2_reg)) OPSZ_32 in
      let i3 := INSTR_CREATE_3 OP_vpsllw op_dst imm8_opnd op_spill_src2 in
      let i4 := RESTORE_SIMD_FROM_SIZED_TLS spill_src2_reg (TLS_ZMM_idx_SLOT (TO_YMM_REG_INDEX spill_src2_reg)) OPSZ_32 in
      rw_replace [i1; i2; i3; i4]
  | 2 =>
      let spill_dst_reg := find_one_available_spill_ymm src2_reg in
      let op_spill_dst := opnd_create_reg spill_dst_reg in
      let op_src2 := opnd_create_reg src2_reg in
      let i1 := SAVE_SIMD_TO_SIZED_TLS spill_dst_reg (TLS_ZMM_idx_SLOT (TO_YMM_REG_INDEX spill_dst_reg)) OPSZ_32 in
      let i2 := INSTR_CREATE_3 OP_vpsllw op_spill_dst imm8_opnd op_src2 in
      let i3 := SAVE_SIMD_TO_SIZED_TLS spill_dst_reg (TLS_ZMM_idx_SLOT (TO_YMM_REG_INDEX dst_reg)) OPSZ_32 in
      let i4 := RESTORE_SIMD_FROM_SIZED_TLS spill_dst_reg (TLS_ZMM_idx_SLOT (TO_YMM_REG_INDEX spill_dst_reg)) OPSZ_32 in
      rw_replace [i1; i2; i3; i4]
  | 3 =>
      let spill_src2_reg := DR_REG_NULL in
      let spill_dst_reg := DR_REG_NULL in
      if src2_reg =? dst_reg then
        let spill_dst_reg := find_one_available_spill_ymm src2_reg in
        let spill_src2_reg := spill_dst_reg in
        let spill_dst_reg := spill_src2_reg in
        let op_spill_dst := opnd_create_reg spill_dst_reg in
        let op_spill_src2 := opnd_create_reg spill_src2_reg in
        let i1 := SAVE_SIMD_TO_SIZED_TLS spill_src2_reg (TLS_ZMM_idx_SLOT (TO_YMM_REG_INDEX spill_src2_reg)) OPSZ_32 in
        let i2 := RESTORE_SIMD_FROM_SIZED_TLS spill_src2_reg (TLS_ZMM_idx_SLOT (TO_YMM_REG_INDEX src2_reg)) OPSZ_32 in
        let i3 := INSTR_CREATE_3 OP_vpsllw op_spill_dst imm8_opnd op_spill_src2 in
        let i4 := SAVE_SIMD_TO_SIZED_TLS spill_dst_reg (TLS_ZMM_idx_SLOT (TO_YMM_REG_INDEX dst_reg)) OPSZ_32 in
        let i5 := RESTORE_SIMD_FROM_SIZED_TLS spill_src2_reg (TLS_ZMM_idx_SLOT (TO_YMM_REG_INDEX spill_src2_reg)) OPSZ_32 in
        rw_replace [i1; i2; i3; i4; i5]
      else
        let spill_src2_reg := YMM_SPILL_SLOT0 in
        let op_spill_src2 := opnd_create_reg spill_src2_reg in
        let i1 := SAVE_SIMD_TO_SIZED_TLS spill_src2_reg (TLS_ZMM_idx_SLOT (TO_YMM_REG_INDEX spill_src2_reg)) OPSZ_32 in
        let i2 := RESTORE_SIMD_FROM_SIZED_TLS spill_src2_reg (TLS_ZMM_idx_SLOT (TO_YMM_REG_INDEX src2_reg)) OPSZ_32 in
        let i3 := INSTR_CREATE_3 OP_vpsllw op_spill_src2 imm8_opnd op_spill_src2 in
        let i4 := SAVE_SIMD_TO_SIZED_TLS spill_src2_reg (TLS_ZMM_idx_SLOT (TO_YMM_REG_INDEX dst_reg)) OPSZ_32 in
        let i5 := RESTORE_SIMD_FROM_SIZED_TLS spill_src2_reg (TLS_ZMM_idx_SLOT (TO_YMM_REG_INDEX spill_src2_reg)) OPSZ_32 in
        rw_replace [i1; i2; i3; i4; i5]
  | _ =>
      rw_removed_null
  end.

Definition vpsllw_xmm2xmm_gen (src1_reg src2_reg dst_reg mask_reg : reg_id_t) : rw_result :=
  let dst_opnd := opnd_create_reg dst_reg in
  let src2_opnd := opnd_create_reg src2_reg in
  let src1_opnd := opnd_create_reg src1_reg in
  let new_instr1 := INSTR_CREATE_3 OP_vpsllw dst_opnd src1_opnd src2_opnd in
  rw_replace [new_instr1].

Definition vpsllw_immed2xmm_gen (imm8_opnd : opnd_t) (src2_reg : reg_id_t) (dst_reg : reg_id_t) (mask_reg : reg_id_t) : rw_result :=
  rw_null.

Definition rw_func_vpsllw (instr : instr_t) : rw_result :=
  let mask_opnd := instr_get_src instr 0 in
  let imm8_or_src1_opnd := instr_get_src instr 1 in
  let src2_opnd := instr_get_src instr 2 in
  let dst_opnd := instr_get_dst instr 0 in
  let mask_reg := opnd_get_reg mask_opnd in
  let src2_reg := opnd_get_reg src2_opnd in
  let dst_reg := opnd_get_reg dst_opnd in
  match (opnd_kind imm8_or_src1_opnd) with
  | IMMED_INTEGER_kind =>
      if IS_XMM_REG dst_reg then
        vpsllw_immed2xmm_gen imm8_or_src1_opnd src2_reg dst_reg mask_reg
      else
        if IS_YMM_REG dst_reg then
          vpsllw_immed2ymm_gen imm8_or_src1_opnd src2_reg dst_reg mask_reg
        else
          if IS_ZMM_REG dst_reg then
            vpsllw_immed2zmm_gen imm8_or_src1_opnd src2_reg dst_reg mask_reg
          else
            rw_null
  | REG_kind =>
      let src1_reg := opnd_get_reg imm8_or_src1_opnd in
      if IS_XMM_REG dst_reg then
        vpsllw_xmm2xmm_gen src1_reg src2_reg dst_reg mask_reg
      else
        if IS_YMM_REG dst_reg then
          vpsllw_ymm2ymm_gen src1_reg src2_reg dst_reg mask_reg
        else
          if IS_ZMM_REG dst_reg then
            vpsllw_zmm2zmm_gen src1_reg src2_reg dst_reg mask_reg
          else
            rw_null
  | _ =>
      rw_null
  end.

Definition vpslld_zmm2zmm_gen (src1_reg src2_reg dst_reg mask_reg : reg_id_t) : rw_result :=
  rw_null.

Definition vpslld_immed2zmm_gen (imm8_opnd : opnd_t) (src2_reg : reg_id_t) (dst_reg : reg_id_t) (mask_reg : reg_id_t) : rw_result :=
  rw_null.

Definition vpslld_ymm2ymm_gen (src1_reg src2_reg dst_reg mask_reg : reg_id_t) : rw_result :=
  let dst_opnd := opnd_create_reg dst_reg in
  let src1_opnd := opnd_create_reg src1_reg in
  let src2_opnd := opnd_create_reg src2_reg in
  let new_instr1 := INSTR_CREATE_3 OP_vpslld dst_opnd src1_opnd src2_opnd in
  rw_replace [new_instr1].

Definition vpslld_immed2ymm_gen (imm8_opnd : opnd_t) (src2_reg : reg_id_t) (dst_reg : reg_id_t) (mask_reg : reg_id_t) : rw_result :=
  let src2_need_spill_flag := (if NEED_SPILL_YMM src2_reg then 1 else 0) in
  let dst_need_spill_flag := (if NEED_SPILL_YMM dst_reg then 2 else 0) in
  let need_spill_flag := Z.lor src2_need_spill_flag dst_need_spill_flag in
  match need_spill_flag with
  | 0 =>
      let dst_opnd := opnd_create_reg dst_reg in
      let src2_opnd := opnd_create_reg src2_reg in
      let i1 := INSTR_CREATE_3 OP_vpslld dst_opnd imm8_opnd src2_opnd in
      rw_replace [i1]
  | 1 =>
      let dst_opnd := opnd_create_reg dst_reg in
      let spill_src2_reg := find_one_available_spill_ymm dst_reg in
      let spill_src2_opnd := opnd_create_reg spill_src2_reg in
      let i1 := SAVE_SIMD_TO_SIZED_TLS spill_src2_reg (TLS_ZMM_idx_SLOT (TO_YMM_REG_INDEX spill_src2_reg)) OPSZ_32 in
      let i2 := RESTORE_SIMD_FROM_SIZED_TLS spill_src2_reg (TLS_ZMM_idx_SLOT (TO_YMM_REG_INDEX src2_reg)) OPSZ_32 in
      let i3 := INSTR_CREATE_3 OP_vpslld dst_opnd imm8_opnd spill_src2_opnd in
      let i4 := RESTORE_SIMD_FROM_SIZED_TLS spill_src2_reg (TLS_ZMM_idx_SLOT (TO_YMM_REG_INDEX spill_src2_reg)) OPSZ_32 in
      rw_replace [i1; i2; i3; i4]
  | 2 =>
      let src2_opnd := opnd_create_reg src2_reg in
      let spill_dst_reg := find_one_available_spill_ymm src2_reg in
      let spill_dst_opnd := opnd_create_reg spill_dst_reg in
      let i1 := SAVE_SIMD_TO_SIZED_TLS spill_dst_reg (TLS_ZMM_idx_SLOT (TO_YMM_REG_INDEX spill_dst_reg)) OPSZ_32 in
      let i2 := INSTR_CREATE_3 OP_vpslld spill_dst_opnd imm8_opnd src2_opnd in
      let i3 := SAVE_SIMD_TO_SIZED_TLS spill_dst_reg (TLS_ZMM_idx_SLOT (TO_YMM_REG_INDEX dst_reg)) OPSZ_32 in
      let i4 := RESTORE_SIMD_FROM_SIZED_TLS spill_dst_reg (TLS_ZMM_idx_SLOT (TO_YMM_REG_INDEX spill_dst_reg)) OPSZ_32 in
      rw_replace [i1; i2; i3; i4]
  | 3 =>
      if src2_reg =? dst_reg then
        let spill_src2_reg := YMM_SPILL_SLOT0 in
        let spill_dst_reg := spill_src2_reg in
        let op_spill_src2 := opnd_create_reg spill_src2_reg in
        let op_spill_dst := op_spill_src2 in
        let i1 := SAVE_SIMD_TO_SIZED_TLS spill_src2_reg (TLS_ZMM_idx_SLOT (TO_YMM_REG_INDEX spill_src2_reg)) OPSZ_32 in
        let i2 := RESTORE_SIMD_FROM_SIZED_TLS spill_src2_reg (TLS_ZMM_idx_SLOT (TO_YMM_REG_INDEX src2_reg)) OPSZ_32 in
        let i3 := INSTR_CREATE_3 OP_vpslld op_spill_dst imm8_opnd op_spill_src2 in
        let i4 := SAVE_SIMD_TO_SIZED_TLS spill_dst_reg (TLS_ZMM_idx_SLOT (TO_YMM_REG_INDEX dst_reg)) OPSZ_32 in
        let i5 := RESTORE_SIMD_FROM_SIZED_TLS spill_src2_reg (TLS_ZMM_idx_SLOT (TO_YMM_REG_INDEX spill_src2_reg)) OPSZ_32 in
        rw_replace [i1; i2; i3; i4; i5]
      else
        let spill_dst_reg := YMM_SPILL_SLOT0 in
        let spill_src2_reg := YMM_SPILL_SLOT1 in
        let op_dst_spill := opnd_create_reg spill_dst_reg in
        let op_src2_spill := opnd_create_reg spill_src2_reg in
        let i1 := SAVE_SIMD_TO_SIZED_TLS spill_dst_reg (TLS_ZMM_idx_SLOT (TO_YMM_REG_INDEX spill_dst_reg)) OPSZ_32 in
        let i2 := SAVE_SIMD_TO_SIZED_TLS spill_src2_reg (TLS_ZMM_idx_SLOT (TO_YMM_REG_INDEX spill_src2_reg)) OPSZ_32 in
        let i3 := RESTORE_SIMD_FROM_SIZED_TLS spill_src2_reg (TLS_ZMM_idx_SLOT (TO_YMM_REG_INDEX src2_reg)) OPSZ_32 in
        let i4 := INSTR_CREATE_3 OP_vpslld op_dst_spill imm8_opnd op_src2_spill in
        let i5 := SAVE_SIMD_TO_SIZED_TLS spill_dst_reg (TLS_ZMM_idx_SLOT (TO_YMM_REG_INDEX dst_reg)) OPSZ_32 in
        let i6 := RESTORE_SIMD_FROM_SIZED_TLS spill_dst_reg (TLS_ZMM_idx_SLOT (TO_YMM_REG_INDEX spill_dst_reg)) OPSZ_32 in
        let i7 := RESTORE_SIMD_FROM_SIZED_TLS spill_src2_reg (TLS_ZMM_idx_SLOT (TO_YMM_REG_INDEX spill_src2_reg)) OPSZ_32 in
        rw_replace [i1; i2; i3; i4; i5; i6; i7]
  | _ =>
      rw_removed_null
  end.

Definition vpslld_xmm2xmm_gen (src1_reg src2_reg dst_reg mask_reg : reg_id_t) : rw_result :=
  let dst_opnd := opnd_create_reg dst_reg in
  let src2_opnd := opnd_create_reg src2_reg in
  let src1_opnd := opnd_create_reg src1_reg in
  let new_instr1 := INSTR_CREATE_3 OP_vpslld dst_opnd src1_opnd src2_opnd in
  rw_replace [new_instr1].

Definition vpslld_immed2xmm_gen (imm8_opnd : opnd_t) (src2_reg : reg_id_t) (dst_reg : reg_id_t) (mask_reg : reg_id_t) : rw_result :=
  let src2_need_spill_flag := (if NEED_SPILL_XMM src2_reg then 1 else 0) in
  let dst_need_spill_flag := (if NEED_SPILL_XMM dst_reg then 2 else 0) in
  let need_spill_flag := Z.lor src2_need_spill_flag dst_need_spill_flag in
  match need_spill_flag with
  | 0 =>
      let dst_opnd := opnd_create_reg dst_reg in
      let src2_opnd := opnd_create_reg src2_reg in
      let i1 := INSTR_CREATE_3 OP_vpslld dst_opnd imm8_opnd src2_opnd in
      rw_replace [i1]
  | 1 =>
      let dst_opnd := opnd_create_reg dst_reg in
      let spill_src2_reg := find_one_available_spill_xmm dst_reg in
      let spill_src2_opnd := opnd_create_reg spill_src2_reg in
      let i1 := SAVE_SIMD_TO_SIZED_TLS spill_src2_reg (TLS_ZMM_idx_SLOT (TO_XMM_REG_INDEX spill_src2_reg)) OPSZ_16 in
      let i2 := RESTORE_SIMD_FROM_SIZED_TLS spill_src2_reg (TLS_ZMM_idx_SLOT (TO_XMM_REG_INDEX src2_reg)) OPSZ_16 in
      let i3 := INSTR_CREATE_3 OP_vpslld dst_opnd imm8_opnd spill_src2_opnd in
      let i4 := RESTORE_SIMD_FROM_SIZED_TLS spill_src2_reg (TLS_ZMM_idx_SLOT (TO_XMM_REG_INDEX spill_src2_reg)) OPSZ_16 in
      rw_replace [i1; i2; i3; i4]
  | 2 =>
      let src2_opnd := opnd_create_reg src2_reg in
      let spill_dst_reg := find_one_available_spill_xmm dst_reg in
      let spill_dst_opnd := opnd_create_reg spill_dst_reg in
      let i1 := SAVE_SIMD_TO_SIZED_TLS spill_dst_reg (TLS_ZMM_idx_SLOT (TO_XMM_REG_INDEX spill_dst_reg)) OPSZ_16 in
      let i2 := INSTR_CREATE_3 OP_vpslld spill_dst_opnd imm8_opnd src2_opnd in
      let i3 := SAVE_SIMD_TO_SIZED_TLS spill_dst_reg (TLS_ZMM_idx_SLOT (TO_XMM_REG_INDEX dst_reg)) OPSZ_16 in
      let i4 := RESTORE_SIMD_FROM_SIZED_TLS spill_dst_reg (TLS_ZMM_idx_SLOT (TO_XMM_REG_INDEX spill_dst_reg)) OPSZ_16 in
      rw_replace [i1; i2; i3; i4]
  | 3 =>
      let spill_dst_reg := XMM_SPILL_SLOT0 in
      let spill_src2_reg := spill_dst_reg in
      let spill_dst_opnd := opnd_create_reg spill_dst_reg in
      let spill_src2_opnd := spill_dst_opnd in
      let i1 := SAVE_SIMD_TO_SIZED_TLS spill_dst_reg (TLS_ZMM_idx_SLOT (TO_XMM_REG_INDEX spill_dst_reg)) OPSZ_16 in
      let i2 := RESTORE_SIMD_FROM_SIZED_TLS spill_src2_reg (TLS_ZMM_idx_SLOT (TO_XMM_REG_INDEX src2_reg)) OPSZ_16 in
      let i3 := INSTR_CREATE_3 OP_vpslld spill_dst_opnd imm8_opnd spill_src2_opnd in
      let i4 := SAVE_SIMD_TO_SIZED_TLS spill_dst_reg (TLS_ZMM_idx_SLOT (TO_XMM_REG_INDEX dst_reg)) OPSZ_16 in
      let i5 := RESTORE_SIMD_FROM_SIZED_TLS spill_dst_reg (TLS_ZMM_idx_SLOT (TO_XMM_REG_INDEX spill_dst_reg)) OPSZ_16 in
      rw_replace [i1; i2; i3; i4; i5]
  | _ =>
      rw_removed_null
  end.

Definition rw_func_vpslld (instr : instr_t) : rw_result :=
  let mask_opnd := instr_get_src instr 0 in
  let imm8_or_src1_opnd := instr_get_src instr 1 in
  let src2_opnd := instr_get_src instr 2 in
  let dst_opnd := instr_get_dst instr 0 in
  let mask_reg := opnd_get_reg mask_opnd in
  let src2_reg := opnd_get_reg src2_opnd in
  let dst_reg := opnd_get_reg dst_opnd in
  match (opnd_kind imm8_or_src1_opnd) with
  | IMMED_INTEGER_kind =>
      if IS_XMM_REG dst_reg then
        vpslld_immed2xmm_gen imm8_or_src1_opnd src2_reg dst_reg mask_reg
      else
        if IS_YMM_REG dst_reg then
          vpslld_immed2ymm_gen imm8_or_src1_opnd src2_reg dst_reg mask_reg
        else
          if IS_ZMM_REG dst_reg then
            vpslld_immed2zmm_gen imm8_or_src1_opnd src2_reg dst_reg mask_reg
          else
            rw_null
  | REG_kind =>
      let src1_reg := opnd_get_reg imm8_or_src1_opnd in
      if IS_XMM_REG dst_reg then
        vpslld_xmm2xmm_gen src1_reg src2_reg dst_reg mask_reg
      else
        if IS_YMM_REG dst_reg then
          vpslld_ymm2ymm_gen src1_reg src2_reg dst_reg mask_reg
        else
          if IS_ZMM_REG dst_reg then
            vpslld_zmm2zmm_gen src1_reg src2_reg dst_reg mask_reg
          else
            rw_null
  | _ =>
      rw_null
  end.

Definition vpsllq_zmm2zmm_gen (src1_reg src2_reg dst_reg mask_reg : reg_id_t) : rw_result :=
  let src1_need_spill_flag := (if NEED_SPILL_ZMM src1_reg then 1 else 0) in
  let src2_need_spill_flag := (if NEED_SPILL_ZMM src2_reg then 2 else 0) in
  let dst_need_spill_flag := (if NEED_SPILL_ZMM dst_reg then 4 else 0) in
  let need_spill_flag := Z.lor (Z.lor src1_need_spill_flag src2_need_spill_flag) dst_need_spill_flag in
  match need_spill_flag with
  | 0 =>
      let op_src1 := opnd_create_reg src1_reg in
      let op_src2 := opnd_create_reg src2_reg in
      let op_dst := opnd_create_reg dst_reg in
      let i1 := INSTR_CREATE_3 OP_vpsllq op_dst op_src1 op_src2 in
      rw_replace [i1]
  | _ =>
      rw_removed_null
  end.

Definition vpsllq_immed2zmm_gen (imm8_opnd : opnd_t) (src2_reg : reg_id_t) (dst_reg : reg_id_t) (mask_reg : reg_id_t) : rw_result :=
  let src2_need_spill_flag := (if NEED_SPILL_ZMM src2_reg then 2 else 0) in
  let dst_need_spill_flag := (if NEED_SPILL_ZMM dst_reg then 4 else 0) in
  let need_spill_flag := Z.lor src2_need_spill_flag dst_need_spill_flag in
  match need_spill_flag with
  | 0 =>
      let op_src2 := opnd_create_reg src2_reg in
      let op_dst := opnd_create_reg dst_reg in
      let i1 := INSTR_CREATE_3 OP_vpsllq op_dst op_src2 imm8_opnd in
      rw_replace [i1]
  | _ =>
      rw_removed_null
  end.

Definition vpsllq_ymm2ymm_gen (src1_reg src2_reg dst_reg mask_reg : reg_id_t) : rw_result :=
  let src1_need_spill_flag := (if NEED_SPILL_YMM src1_reg then 1 else 0) in
  let src2_need_spill_flag := (if NEED_SPILL_YMM src2_reg then 2 else 0) in
  let dst_need_spill_flag := (if NEED_SPILL_YMM dst_reg then 4 else 0) in
  let need_spill_flag := Z.lor (Z.lor src1_need_spill_flag src2_need_spill_flag) dst_need_spill_flag in
  match need_spill_flag with
  | 0 =>
      let op_src1 := opnd_create_reg src1_reg in
      let op_src2 := opnd_create_reg src2_reg in
      let op_dst := opnd_create_reg dst_reg in
      let i1 := INSTR_CREATE_3 OP_vpsllq op_dst op_src1 op_src2 in
      rw_replace [i1]
  | _ =>
      rw_removed_null
  end.

Definition vpsllq_immed2ymm_gen (imm8_opnd : opnd_t) (src2_reg : reg_id_t) (dst_reg : reg_id_t) (mask_reg : reg_id_t) : rw_result :=
  let dst_opnd := opnd_create_reg dst_reg in
  let src2_opnd := opnd_create_reg src2_reg in
  let new_instr1 := INSTR_CREATE_3 OP_vpsllq dst_opnd imm8_opnd src2_opnd in
  rw_replace [new_instr1].

Definition vpsllq_immed2xmm_gen (imm8_opnd : opnd_t) (src2_reg : reg_id_t) (dst_reg : reg_id_t) (mask_reg : reg_id_t) : rw_result :=
  let src_need_spill_flag := (if NEED_SPILL_XMM src2_reg then 1 else 0) in
  let dst_need_spill_flag := (if NEED_SPILL_XMM dst_reg then 2 else 0) in
  let need_spill_flag := Z.lor src_need_spill_flag dst_need_spill_flag in
  match need_spill_flag with
  | 0 =>
      let dst_opnd := opnd_create_reg dst_reg in
      let src2_opnd := opnd_create_reg src2_reg in
      let new_instr1 := INSTR_CREATE_3 OP_vpsllq dst_opnd imm8_opnd src2_opnd in
      rw_replace [new_instr1]
  | 1 =>
      let dst_opnd := opnd_create_reg dst_reg in
      let spill_src2_reg := find_one_available_spill_xmm dst_reg in
      let spill_src2_opnd := opnd_create_reg spill_src2_reg in
      let i1 := SAVE_SIMD_TO_SIZED_TLS spill_src2_reg (TLS_ZMM_idx_SLOT (TO_XMM_REG_INDEX spill_src2_reg)) OPSZ_16 in
      let i2 := RESTORE_SIMD_FROM_SIZED_TLS spill_src2_reg (TLS_ZMM_idx_SLOT (TO_XMM_REG_INDEX src2_reg)) OPSZ_16 in
      let i3 := INSTR_CREATE_3 OP_vpsllq dst_opnd imm8_opnd spill_src2_opnd in
      let i4 := RESTORE_SIMD_FROM_SIZED_TLS spill_src2_reg (TLS_ZMM_idx_SLOT (TO_XMM_REG_INDEX spill_src2_reg)) OPSZ_16 in
      rw_replace [i1; i2; i3; i4]
  | 2 =>
      let src2_opnd := opnd_create_reg src2_reg in
      let spill_dst_reg := find_one_available_spill_xmm src2_reg in
      let spill_dst_opnd := opnd_create_reg spill_dst_reg in
      let i1 := SAVE_SIMD_TO_SIZED_TLS spill_dst_reg (TLS_ZMM_idx_SLOT (TO_XMM_REG_INDEX spill_dst_reg)) OPSZ_16 in
      let i2 := INSTR_CREATE_3 OP_vpsllq spill_dst_opnd imm8_opnd src2_opnd in
      let i3 := SAVE_SIMD_TO_SIZED_TLS spill_dst_reg (TLS_ZMM_idx_SLOT (TO_XMM_REG_INDEX dst_reg)) OPSZ_16 in
      let i4 := RESTORE_SIMD_FROM_SIZED_TLS spill_dst_reg (TLS_ZMM_idx_SLOT (TO_XMM_REG_INDEX spill_dst_reg)) OPSZ_16 in
      rw_replace [i1; i2; i3; i4]
  | 3 =>
      if src2_reg =? dst_reg then
        let spill_src2_reg := XMM_SPILL_SLOT0 in
        let spill_dst_reg := spill_src2_reg in
        let spill_src2_opnd := opnd_create_reg spill_src2_reg in
        let spill_dst_opnd := spill_src2_opnd in
        let new_instr1 := SAVE_SIMD_TO_SIZED_TLS spill_src2_reg (TLS_ZMM_idx_SLOT (TO_XMM_REG_INDEX spill_src2_reg)) OPSZ_16 in
        let new_instr2 := RESTORE_SIMD_FROM_SIZED_TLS spill_src2_reg (TLS_ZMM_idx_SLOT (TO_XMM_REG_INDEX src2_reg)) OPSZ_16 in
        let new_instr3 := INSTR_CREATE_3 OP_vpsllq spill_dst_opnd imm8_opnd spill_src2_opnd in
        let new_instr4 := SAVE_SIMD_TO_SIZED_TLS spill_dst_reg (TLS_ZMM_idx_SLOT (TO_XMM_REG_INDEX dst_reg)) OPSZ_16 in
        let new_instr5 := RESTORE_SIMD_FROM_SIZED_TLS spill_src2_reg (TLS_ZMM_idx_SLOT (TO_XMM_REG_INDEX spill_src2_reg)) OPSZ_16 in
        rw_replace [new_instr1; new_instr2; new_instr3; new_instr4; new_instr5]
      else
        let spill_dst_reg := XMM_SPILL_SLOT0 in
        let spill_src2_reg := XMM_SPILL_SLOT1 in
        let spill_dst_opnd := opnd_create_reg spill_dst_reg in
        let spill_src2_opnd := opnd_create_reg spill_src2_reg in
        let new_instr1 := SAVE_SIMD_TO_SIZED_TLS spill_dst_reg (TLS_ZMM_idx_SLOT (TO_XMM_REG_INDEX spill_dst_reg)) OPSZ_16 in
        let new_instr2 := SAVE_SIMD_TO_SIZED_TLS spill_src2_reg (TLS_ZMM_idx_SLOT (TO_XMM_REG_INDEX spill_src2_reg)) OPSZ_16 in
        let new_instr3 := RESTORE_SIMD_FROM_SIZED_TLS spill_src2_reg (TLS_ZMM_idx_SLOT (TO_XMM_REG_INDEX src2_reg)) OPSZ_16 in
        let new_instr4 := INSTR_CREATE_3 OP_vpsllq spill_dst_opnd imm8_opnd spill_src2_opnd in
        let new_instr5 := SAVE_SIMD_TO_SIZED_TLS spill_dst_reg (TLS_ZMM_idx_SLOT (TO_XMM_REG_INDEX dst_reg)) OPSZ_16 in
        let new_instr6 := RESTORE_SIMD_FROM_SIZED_TLS spill_dst_reg (TLS_ZMM_idx_SLOT (TO_XMM_REG_INDEX spill_dst_reg)) OPSZ_16 in
        let new_instr7 := RESTORE_SIMD_FROM_SIZED_TLS spill_src2_reg (TLS_ZMM_idx_SLOT (TO_XMM_REG_INDEX spill_src2_reg)) OPSZ_16 in
        rw_replace [new_instr1; new_instr2; new_instr3; new_instr4; new_instr5; new_instr6; new_instr7]
  | _ =>
      rw_removed_null
  end.

Definition rw_func_vpsllq (instr : instr_t) : rw_result :=
  let mask_opnd := instr_get_src instr 0 in
  let imm8_or_src1_opnd := instr_get_src instr 1 in
  let src2_opnd := instr_get_src instr 2 in
  let dst_opnd := instr_get_dst instr 0 in
  let mask_reg := opnd_get_reg mask_opnd in
  let src2_reg := opnd_get_reg src2_opnd in
  let dst_reg := opnd_get_reg dst_opnd in
  match (opnd_kind imm8_or_src1_opnd) with
  | IMMED_INTEGER_kind =>
      if IS_XMM_REG dst_reg then
        vpsllq_immed2xmm_gen imm8_or_src1_opnd src2_reg dst_reg mask_reg
      else
        if IS_YMM_REG dst_reg then
          vpsllq_immed2ymm_gen imm8_or_src1_opnd src2_reg dst_reg mask_reg
        else
          if IS_ZMM_REG dst_reg then
            vpsllq_immed2zmm_gen imm8_or_src1_opnd src2_reg dst_reg mask_reg
          else
            rw_null
  | REG_kind =>
      let src1_reg := opnd_get_reg imm8_or_src1_opnd in
      if IS_XMM_REG dst_reg then
        vpsllq_xmm2xmm_gen src1_reg src2_reg dst_reg mask_reg
      else
        if IS_YMM_REG dst_reg then
          vpsllq_ymm2ymm_gen src1_reg src2_reg dst_reg mask_reg
        else
          if IS_ZMM_REG dst_reg then
            vpsllq_zmm2zmm_gen src1_reg src2_reg dst_reg mask_reg
          else
            rw_null
  | _ =>
      rw_null
  end.

(** ** Correctness of the immediate forms *)

Definition imm8 (c : Z) : opnd_t := OPND_IMM c OPSZ_1.

Ltac two_cases a d :=
  unfold imm8; change YMM_SPILL_SLOT0 with (ymm 10); change XMM_SPILL_SLOT0 with (xmm 10);
  change YMM_SPILL_SLOT1 with (ymm 11); change XMM_SPILL_SLOT1 with (xmm 11);
  rewrite ?NEED_SPILL_YMM_ymm, ?NEED_SPILL_XMM_xmm, ?TO_YMM_REG_INDEX_ymm, ?TO_XMM_REG_INDEX_xmm, ?ymm_eqb, ?xmm_eqb
    by assumption;
  destruct (Z.leb_spec 16 a), (Z.leb_spec 16 d); cbv beta iota delta [Z.lor Pos.lor]; alias_cases.

Lemma imm_op (f : Z -> Z -> Z) (n : Z) : LaneOp f -> LaneOp (fun x _ => f n x).
Proof. intros H x y; apply H. Qed.

Section Immediate.
Context (c a d : Z) (mask : reg_id_t) (Ha : 0 <= a < 32) (Hd : 0 <= d < 32).

Ltac ymm_shift op f inst :=
  pose proof (eq_refl : lane_immop op = Some f) as Hop;
  pose proof (imm_op f (wrap 8 c) inst) as Hf;
  two_cases a d; emit_code Hop; sym_solve.

Ltac xmm_shift op f inst :=
  pose proof (eq_refl : lane_immop op = Some f) as Hop;
  pose proof (imm_op f (wrap 8 c) inst) as Hf;
  two_cases a d; emit_code_if Hop; sym_solve_xmm.

Lemma vpsrlq_ymm_correct :
  rewrites (vec_unop_keep 2 (psrl 64 (wrap 8 c)) d a)
    (vpsrlq_ymm_imm_reg_gen (imm8 c) (opnd_create_reg (ymm a)) (opnd_create_reg (ymm d)) (ymm a) (ymm d)).
Proof. unfold vpsrlq_ymm_imm_reg_gen; ymm_shift OP_vpsrlq (psrl 64) psrl64_op. Qed.

Lemma vpsrad_ymm_correct :
  rewrites (vec_unop_keep 2 (psra 32 (wrap 8 c)) d a) (vpsrad_ymm2ymm_gen mask (imm8 c) (ymm a) (ymm d)).
Proof. unfold vpsrad_ymm2ymm_gen; ymm_shift OP_vpsrad (psra 32) psra32_op. Qed.

Lemma vpsllw_ymm_correct :
  rewrites (vec_unop_keep 2 (psll 16 (wrap 8 c)) d a) (vpsllw_immed2ymm_gen (imm8 c) (ymm a) (ymm d) mask).
Proof. unfold vpsllw_immed2ymm_gen; ymm_shift OP_vpsllw (psll 16) psll16_op. Qed.

Lemma vpslld_ymm_correct :
  rewrites (vec_unop_keep 2 (psll 32 (wrap 8 c)) d a) (vpslld_immed2ymm_gen (imm8 c) (ymm a) (ymm d) mask).
Proof. unfold vpslld_immed2ymm_gen; ymm_shift OP_vpslld (psll 32) psll32_op. Qed.

Lemma vpsrad_xmm_correct :
  rewrites_if (xmm_pre d) (vec_unop 1 (psra 32 (wrap 8 c)) d a) (vpsrad_xmm2xmm_gen mask (imm8 c) (xmm a) (xmm d)).
Proof. unfold vpsrad_xmm2xmm_gen; xmm_shift OP_vpsrad (psra 32) psra32_op. Qed.

Lemma vpslld_xmm_correct :
  rewrites_if (xmm_pre d) (vec_unop 1 (psll 32 (wrap 8 c)) d a) (vpslld_immed2xmm_gen (imm8 c) (xmm a) (xmm d) mask).
Proof. unfold vpslld_immed2xmm_gen; xmm_shift OP_vpslld (psll 32) psll32_op. Qed.

Lemma vpsllq_xmm_correct :
  rewrites_if (xmm_pre d) (vec_unop 1 (psll 64 (wrap 8 c)) d a) (vpsllq_immed2xmm_gen (imm8 c) (xmm a) (xmm d) mask).
Proof. unfold vpsllq_immed2xmm_gen; xmm_shift OP_vpsllq (psll 64) psll64_op. Qed.

(** Two high registers leave the first two slots free. *)
Lemma vpsrldq_xmm_correct :
  rewrites_if (xmm_pre d) (vec_unop 1 (psrldq (wrap 8 c)) d a) (vpsrldq_xmm2xmm_gen (imm8 c) (xmm a) (xmm d)).
Proof.
  unfold vpsrldq_xmm2xmm_gen.
  pose proof (eq_refl : lane_immop OP_vpsrldq = Some psrldq) as Hop; pose proof (imm_op psrldq (wrap 8 c) psrldq_op) as Hf.
  two_cases a d; try (rewrite find_two_xmms_high by assumption; cbn [pair_reg1 pair_reg2]);
    try (destruct (find_xmm_avoiding_index1 d) as (s & E & Hr & Hne); rewrite E; clear E; hide_neq);
    emit_code_if Hop; sym_solve_xmm.
Qed.
End Immediate.

(** ** The rewrite functions *)

(** The operands as the decoder lays them out: mask, count, vector. *)
Definition shift_instr (op : opcode) (mask d : reg_id_t) (count : opnd_t) (a : reg_id_t) : instr_t :=
  mk_instr op [opnd_create_reg d] [opnd_create_reg mask; count; opnd_create_reg a].
(** A register count follows the vector. *)
Definition shift_count_instr (op : opcode) (mask d a b : reg_id_t) : instr_t :=
  mk_instr op [opnd_create_reg d] [opnd_create_reg mask; opnd_create_reg a; opnd_create_reg b].

(** Each lane of [a] shifted by the low quadword of [b]. *)
Definition vec_shift_keep (n : Z) (f : Z -> Z -> Z) (d a b : Z) (g : guest) : guest :=
  set_zmm g d (fun l => if l <? n then f (g_zmm g a l) (wrap 64 (g_zmm g b 0)) else g_zmm g d l).

Definition psll_by (w x c : Z) : Z := psll w c x.

(** One instruction on low registers, as [vpsllw] and [vpslld] emit it. *)
Lemma shift256_correct op w a b d :
  In (op, w) [(OP_vpsllw, 16); (OP_vpslld, 32); (OP_vpsllq, 64)] ->
  0 <= a < 16 -> 0 <= b < 16 -> 0 <= d < 16 ->
  rewrites (vec_shift_keep 2 (psll_by w) d a b)
    (rw_replace [INSTR_CREATE_3 op (opnd_create_reg (ymm d)) (opnd_create_reg (ymm a)) (opnd_create_reg (xmm b))]).
Proof.
  intros Hop Ha Hb Hd; eexists; split; [reflexivity|]; apply translates_intro; intros c Hc.
  assert (Hf : LaneOp (psll w)) by (destruct Hop as [E|[E|[E|[]]]]; injection E as <- <-; typeclasses eauto).
  assert (R : exec (INSTR_CREATE_3 op (opnd_create_reg (ymm d)) (opnd_create_reg (ymm a)) (opnd_create_reg (xmm b))) c
            = Some (set_simd c d 2 (fun l => psll_by w (simd c a l) (wrap 64 (simd c b 0))))).
  { destruct Hop as [E|[E|[E|[]]]]; injection E as <- <-; unfold exec, exec_simd, exec_vshift, exec_vshift256;
      cbn -[avx2_reg ymm xmm set_simd]; rewrite !avx2_reg_ymm, !avx2_reg_xmm by assumption; reflexivity. }
  eexists; split; [cbn [run]; rewrite R; reflexivity|].
  unfold vec_shift_keep; apply view_set_zmm; [repeat split| | | ]; intros i l Hi Hl; cbn [set_simd simd tls with_simd].
  - destruct (Z.eqb_spec i d) as [->|]; [|reflexivity].
    change (Z.of_nat 2) with 2; replace (l <? 2) with true by (symmetry; apply Z.ltb_lt; lia).
    cbn [view g_zmm]; rewrite !zmm_view_reg by lia; apply wrap_id, Hf.
  - replace (i =? d) with false by (symmetry; apply Z.eqb_neq; lia); reflexivity.
  - replace (2 + l <? 2) with false by (symmetry; apply Z.ltb_ge; lia); cbn [view g_zmm].
    destruct (Z.eqb_spec i d) as [->|]; [|reflexivity]; now rewrite zmm_view_tls by lia.
Qed.

(** A high register has no VEX encoding. *)
Lemma shift256_high op w a b d s :
  In (op, w) [(OP_vpsllw, 16); (OP_vpslld, 32); (OP_vpsllq, 64)] ->
  0 <= a < 32 -> 0 <= b < 32 -> 0 <= d < 32 -> all_low a b d = false ->
  run [INSTR_CREATE_3 op (opnd_create_reg (ymm d)) (opnd_create_reg (ymm a)) (opnd_create_reg (xmm b))] s = None.
Proof.
  intros Hop Ha Hb Hd Hl; apply all_low_false in Hl.
  assert (E : avx2_reg (ymm a) = None \/ avx2_reg (xmm b) = None \/ avx2_reg (ymm d) = None).
  { destruct Hl as [H|[H|H]]; [left|right; left|right; right];
      [apply avx2_reg_ymm_high|apply avx2_reg_xmm_high|apply avx2_reg_ymm_high]; lia. }
  cbn [run]; destruct Hop as [Eo|[Eo|[Eo|[]]]]; injection Eo as <- <-; unfold exec, exec_simd, exec_vshift, exec_vshift256, exec_vbin;
    cbn -[avx2_reg ymm xmm set_simd]; destruct E as [E|[E|E]]; rewrite E;
    repeat match goal with |- context [avx2_reg ?r] => destruct (avx2_reg r) as [[[|[|[|]]] ?]|] end; reflexivity.
Qed.

(** Unfold a rewrite function on an instruction whose destination is of width [W]. *)
Ltac shift_func W d :=
  let W1 := fresh in let W2 := fresh in let W3 := fresh in
  destruct (W d ltac:(assumption)) as (W1 & W2 & W3);
  unfold shift_instr, shift_count_instr, imm8, instr_get_src, instr_get_dst, opnd_create_reg;
  cbn [instr_srcs instr_dsts nth opnd_get_reg opnd_kind kind_eqb]; rewrite ?W1, ?W2, ?W3.

(** [vpsrldq] of a memory operand: the vector is first loaded into a spill
    register. *)
Section Disp.
Context (base index : reg_id_t) (scale disp c d : Z) (Hd : 0 <= d < 32).
Let o := mem_opnd base index scale disp OPSZ_16.

Definition vec_load_unop (n : Z) (f : Z -> Z) (d : Z) (o : opnd_t) (g : guest) : guest :=
  match guest_addr o g with
  | Some a => set_zmm g d (fun l => if l <? n then f (load 16 (g_mem g) (a + 16 * l)) else 0)
  | None => g
  end.

Lemma vpsrldq_disp2xmm_correct :
  rewrites_if (fun g => xmm_pre d g /\ access_ok 1 false o g) (vec_load_unop 1 (psrldq (wrap 8 c)) d o)
    (vpsrldq_disp2xmm_gen (imm8 c) o (xmm d)).
Proof.
  pose proof (eq_refl : lane_mov OP_vmovdqu = Some false) as Hop.
  pose proof (eq_refl : lane_immop OP_vpsrldq = Some psrldq) as Hi; pose proof (imm_op psrldq (wrap 8 c) psrldq_op) as Hf.
  unfold vpsrldq_disp2xmm_gen, imm8; one_case d;
    try (rewrite find_two_xmms_null by assumption; cbn [pair_reg1 pair_reg2]);
    try (destruct (find_xmm_avoiding_index1 d) as (s & E & Hr & Hne); rewrite E; clear E; hide_neq);
    mem_emit; destruct Hp as [Hx Hp]; unfold vec_load_unop; the_access Hp;
    (eexists; split; [mem_steps Hop; unfold INSTR_CREATE_3; rewrite (run_imm_xmm _ _ _ _ _) with (Hop := Hi) by lia; mem_run Hop; reflexivity|]).
  all: apply view_set_zmm; [mem_frame| | | ]; intros i l Hi' Hl; two_lanes l; mem_read; repeat sym_spec1; close_xmm.
Qed.
End Disp.

(** ** Theorems *)

(** C19: Shifts by an immediate, for every count of 8 bits and every pair of source
    and destination registers.  On ymm registers ([vpsrlq], [vpsrad], [vpsllw],
    [vpslld]) the code shifts the two lanes of the vector length and leaves bits
    511:256 of the destination, and so has the documented effect, which zeroes
    them, from the states where they are zero.  On xmm registers ([vpsrad],
    [vpslld], [vpsllq], [vpsrldq]) it has the documented effect from the states
    of [xmm_pre]: bits 511:128 of the destination are zero, and bits 255:128 of
    the spill registers are. *)
Theorem shift_immediates_correct c a d :
  0 <= a < 32 -> 0 <= d < 32 ->
  (let ymm_shift f r := rewrites_low 2 d (vec_unop_keep 2 f d a) (vec_unop 2 f d a) r in
   ymm_shift (psrl 64 (wrap 8 c)) (rw_func_vpsrlq (shift_instr OP_vpsrlq DR_REG_K0 (ymm d) (imm8 c) (ymm a))) /\
   ymm_shift (psra 32 (wrap 8 c)) (rw_func_vpsrad (shift_instr OP_vpsrad DR_REG_K0 (ymm d) (imm8 c) (ymm a))) /\
   ymm_shift (psll 16 (wrap 8 c)) (rw_func_vpsllw (shift_instr OP_vpsllw DR_REG_K0 (ymm d) (imm8 c) (ymm a))) /\
   ymm_shift (psll 32 (wrap 8 c)) (rw_func_vpslld (shift_instr OP_vpslld DR_REG_K0 (ymm d) (imm8 c) (ymm a)))) /\
  rewrites_if (xmm_pre d) (vec_unop 1 (psra 32 (wrap 8 c)) d a)
    (rw_func_vpsrad (shift_instr OP_vpsrad DR_REG_K0 (xmm d) (imm8 c) (xmm a))) /\
  rewrites_if (xmm_pre d) (vec_unop 1 (psll 32 (wrap 8 c)) d a)
    (rw_func_vpslld (shift_instr OP_vpslld DR_REG_K0 (xmm d) (imm8 c) (xmm a))) /\
  rewrites_if (xmm_pre d) (vec_unop 1 (psll 64 (wrap 8 c)) d a)
    (rw_func_vpsllq (shift_instr OP_vpsllq DR_REG_K0 (xmm d) (imm8 c) (xmm a))) /\
  rewrites_if (xmm_pre d) (vec_unop 1 (psrldq (wrap 8 c)) d a)
    (rw_func_vpsrldq (mk_instr OP_vpsrldq [opnd_create_reg (xmm d)] [imm8 c; opnd_create_reg (xmm a)])).
Proof.
  intros Ha Hd; unfold rw_func_vpsrlq, rw_func_vpsrad, rw_func_vpsllw, rw_func_vpslld, rw_func_vpsllq, rw_func_vpsrldq.
  split; [cbv zeta; split; [|split; [|split]]; apply unop_low; shift_func ymm_width d|repeat split; shift_func xmm_width d].
  - now apply vpsrlq_ymm_correct.
  - now apply vpsrad_ymm_correct.
  - now apply vpsllw_ymm_correct.
  - now apply vpslld_ymm_correct.
  - now apply vpsrad_xmm_correct.
  - now apply vpslld_xmm_correct.
  - now apply vpsllq_xmm_correct.
  - now apply vpsrldq_xmm_correct.
Qed.

Lemma shift_immediates_correct_witness :
  rewrites_low 2 20 (vec_unop_keep 2 (psra 32 3) 20 4) (vec_unop 2 (psra 32 3) 20 4) (rw_func_vpsrad (shift_instr OP_vpsrad DR_REG_K0 (ymm 20) (imm8 3) (ymm 4))).
Proof. apply (shift_immediates_correct 3 4 20); lia. Defined.

(** The rewrite functions on a register count: on xmm registers [vpsllq] is
    right for every combination on which the spill registers do not clash;
    on ymm registers [vpsllw], [vpslld] and [vpsllq] are right when the three
    registers are low, and [vpsllw] and [vpslld], which have no spill code,
    emit an instruction that does not encode when one of them is high. *)
Theorem shift_counts_correct a b d k :
  0 <= a < 32 -> 0 <= b < 32 -> 0 <= d < 32 ->
  (ymm_fixed_conflict a b d = false ->
   rewrites_if (xmm_pre d) (vec_binop 1 (fun x y => psll 64 (wrap 64 y) x) d a b)
     (rw_func_vpsllq (shift_count_instr OP_vpsllq k (xmm d) (xmm a) (xmm b)))) /\
  (if all_low a b d then
     rewrites (vec_shift_keep 2 (psll_by 16) d a b) (rw_func_vpsllw (shift_count_instr OP_vpsllw k (ymm d) (ymm a) (xmm b))) /\
     rewrites (vec_shift_keep 2 (psll_by 32) d a b) (rw_func_vpslld (shift_count_instr OP_vpslld k (ymm d) (ymm a) (xmm b))) /\
     rewrites (vec_shift_keep 2 (psll_by 64) d a b) (rw_func_vpsllq (shift_count_instr OP_vpsllq k (ymm d) (ymm a) (xmm b)))
   else
     forall code s,
       rw_code (rw_func_vpsllw (shift_count_instr OP_vpsllw k (ymm d) (ymm a) (xmm b))) = Some code \/
       rw_code (rw_func_vpslld (shift_count_instr OP_vpslld k (ymm d) (ymm a) (xmm b))) = Some code ->
       run code s = None).
Proof.
  intros Ha Hb Hd; unfold rw_func_vpsllw, rw_func_vpslld, rw_func_vpsllq; split.
  - intros Hn; shift_func xmm_width d; apply xmm_slots_correct; [now right|intros x y; apply psll64_op|assumption..].
  - shift_func ymm_width d; unfold vpsllw_ymm2ymm_gen, vpslld_ymm2ymm_gen, vpsllq_ymm2ymm_gen.
    destruct (all_low a b d) eqn:Hl.
    + pose proof (all_low_inv _ _ _ Hl) as (La & Lb & Ld).
      assert (Hx : NEED_SPILL_YMM (xmm b) = false) by (unfold_regs; zcases; reflexivity || lia).
      rewrite Hx, !NEED_SPILL_YMM_ymm by assumption.
      replace (16 <=? a) with false by (symmetry; apply Z.leb_gt; lia).
      replace (16 <=? d) with false by (symmetry; apply Z.leb_gt; lia); cbv beta iota delta [Z.lor Pos.lor].
      repeat split; apply shift256_correct; simpl; tauto || lia.
    + intros code s [E|E]; injection E as <-;
        [apply (shift256_high OP_vpsllw 16)|apply (shift256_high OP_vpslld 32)]; simpl; tauto || lia.
Qed.

Lemma shift_counts_correct_witness :
  rewrites (vec_shift_keep 2 (psll_by 32) 3 4 5) (rw_func_vpslld (shift_count_instr OP_vpslld DR_REG_K0 (ymm 3) (ymm 4) (xmm 5))).
Proof. apply (shift_counts_correct 4 5 3 DR_REG_K0); lia. Defined.

(** No shift of a zmm register is translated: five of the six functions return
    NULL and leave the instruction in place; [vpsllq] replaces it, for low
    registers, by a [vpsllq] on the same zmm registers, which an AVX2 host
    does not have, and otherwise removes it. *)
Theorem zmm_shifts_unsupported c a b d k :
  0 <= a < 32 -> 0 <= b < 32 -> 0 <= d < 32 ->
  rw_func_vpsrlq (shift_instr OP_vpsrlq k (zmm d) (imm8 c) (zmm a)) = rw_null /\
  rw_func_vpsrad (shift_instr OP_vpsrad k (zmm d) (imm8 c) (zmm a)) = rw_null /\
  rw_func_vpsllw (shift_instr OP_vpsllw k (zmm d) (imm8 c) (zmm a)) = rw_null /\
  rw_func_vpslld (shift_instr OP_vpslld k (zmm d) (imm8 c) (zmm a)) = rw_null /\
  rw_func_vpsrldq (mk_instr OP_vpsrldq [opnd_create_reg (zmm d)] [imm8 c; opnd_create_reg (zmm a)]) = rw_null /\
  (forall code s,
     rw_code (rw_func_vpsllq (shift_instr OP_vpsllq k (zmm d) (imm8 c) (zmm a))) = Some code \/
     rw_code (rw_func_vpsllq (shift_count_instr OP_vpsllq k (zmm d) (zmm a) (xmm b))) = Some code ->
     run code s = None).
Proof.
  intros Ha Hb Hd; unfold rw_func_vpsrlq, rw_func_vpsrad, rw_func_vpsllw, rw_func_vpslld, rw_func_vpsllq, rw_func_vpsrldq.
  shift_func zmm_width d; repeat (split; [reflexivity|]).
  intros code s; unfold vpsllq_immed2zmm_gen, vpsllq_zmm2zmm_gen.
  repeat match goal with |- context [if NEED_SPILL_ZMM ?r then _ else _] => destruct (NEED_SPILL_ZMM r) end;
    cbv beta iota delta [Z.lor Pos.lor rw_removed_null rw_replace rw_code]; intros [E|E]; try discriminate E; injection E as <-;
    cbn [run]; unfold exec, exec_simd, exec_vshift; cbn -[avx2_reg zmm]; now rewrite avx2_reg_zmm.
Qed.

Lemma zmm_shifts_unsupported_witness :
  rw_func_vpsrad (shift_instr OP_vpsrad DR_REG_K0 (zmm 3) (imm8 5) (zmm 20)) = rw_null.
Proof. apply (zmm_shifts_unsupported 5 20 1 3 DR_REG_K0); lia. Defined.
