(* ===== verification/GenRotate.v ===== *)
(** * Rotates by an immediate

    [vprolq], [vprorq] and [vprord]: the rewrite functions and their generators.
    A rotate is emitted as the two shifts of a copy of the source and their
    bitwise or.  The count is taken modulo 64 in C, whose remainder has the sign
    of the count, and kept in 8 bits. *)
From Stdlib Require Import ZArith List Bool Lia.
From S2P Require Import Prelude Regs Spill Bytes Lanes Machine Arch512 SymExec GenYmm GenXmm GenMov GenShift.
Import ListNotations.
#[local] Open Scope Z_scope.
#[local] Open Scope bool_scope.
#[local] Open Scope rw_scope.

(** ** [vprolq] *)

Definition vprolq_xmm_and_immed_gen (src_reg : reg_id_t) (imm_int : Z) (dst_reg mask_reg : reg_id_t) : rw_result :=
  let src_opnd := create_mapping_xmm_opnd src_reg in
  let dst_opnd := create_mapping_xmm_opnd dst_reg in
  let right_rotate_imm := imm_int in
  let left_rotate_imm := int8 (64 - right_rotate_imm) in
  let new_instr1 := SAVE_SIMD_TO_SIZED_TLS DR_REG_XMM14 (TLS_ZMM_idx_SLOT 14) OPSZ_16 in
  let new_instr2 := SAVE_SIMD_TO_SIZED_TLS DR_REG_XMM15 (TLS_ZMM_idx_SLOT 15) OPSZ_16 in
  let new_instr3 := INSTR_CREATE_2 OP_vmovdqu (opnd_create_reg DR_REG_XMM14) src_opnd in
  let new_instr4 := INSTR_CREATE_2 OP_vmovdqu (opnd_create_reg DR_REG_XMM15) src_opnd in
  let new_instr5 := INSTR_CREATE_3 OP_vpsllq (opnd_create_reg DR_REG_XMM14) (opnd_create_immed_int right_rotate_imm OPSZ_1) (opnd_create_reg DR_REG_XMM14) in
  let new_instr6 := INSTR_CREATE_3 OP_vpsrlq (opnd_create_reg DR_REG_XMM15) (opnd_create_immed_int left_rotate_imm OPSZ_1) (opnd_create_reg DR_REG_XMM15) in
  let new_instr7 := instr_create_1dst_2src OP_vpor dst_opnd (opnd_create_reg DR_REG_XMM15) (opnd_create_reg DR_REG_XMM14) in
  let new_instr8 := RESTORE_SIMD_FROM_SIZED_TLS DR_REG_XMM14 (TLS_ZMM_idx_SLOT 14) OPSZ_16 in
  let new_instr9 := RESTORE_SIMD_FROM_SIZED_TLS DR_REG_XMM15 (TLS_ZMM_idx_SLOT 15) OPSZ_16 in
  rw_replace [new_instr1; new_instr2; new_instr3; new_instr4; new_instr5; new_instr6; new_instr7; new_instr8; new_instr9].

Definition vprolq_xmm_and_xmm_gen (src_reg : reg_id_t) (imm_int : Z) (dst_reg mask_reg : reg_id_t) : rw_result := rw_null.

Definition vprolq_ymm_and_immed_gen (src_reg : reg_id_t) (imm_int : Z) (dst_reg mask_reg : reg_id_t) : rw_result :=
  let op_src := opnd_create_reg src_reg in
  let op_dst := opnd_create_reg dst_reg in
  let right_rotate_imm := imm_int in
  let left_rotate_imm := int8 (64 - right_rotate_imm) in
  let ymm_spill_sll := find_one_available_spill_ymm src_reg in
  let ymm_spill_srl := find_available_spill_ymm_avoiding src_reg ymm_spill_sll DR_REG_NULL in
  let op_ymm_sll := opnd_create_reg ymm_spill_sll in
  let op_ymm_srl := opnd_create_reg ymm_spill_srl in
  let i1 := SAVE_SIMD_TO_SIZED_TLS ymm_spill_sll (TLS_ZMM_idx_SLOT (TO_YMM_REG_INDEX ymm_spill_sll)) OPSZ_32 in
  let i2 := SAVE_SIMD_TO_SIZED_TLS ymm_spill_srl (TLS_ZMM_idx_SLOT (TO_YMM_REG_INDEX ymm_spill_srl)) OPSZ_32 in
  let i3 := INSTR_CREATE_2 OP_vmovdqu op_ymm_sll op_src in
  let i4 := INSTR_CREATE_2 OP_vmovdqu op_ymm_srl op_src in
  let i5 := INSTR_CREATE_3 OP_vpsllq op_ymm_sll (opnd_create_immed_int right_rotate_imm OPSZ_1) op_ymm_sll in
  let i6 := INSTR_CREATE_3 OP_vpsrlq op_ymm_srl (opnd_create_immed_int left_rotate_imm OPSZ_1) op_ymm_srl in
  let i7 := INSTR_CREATE_3 OP_vpor op_dst op_ymm_srl op_ymm_sll in
  let i8 := RESTORE_SIMD_FROM_SIZED_TLS ymm_spill_sll (TLS_ZMM_idx_SLOT (TO_YMM_REG_INDEX ymm_spill_sll)) OPSZ_32 in
  let i9 := RESTORE_SIMD_FROM_SIZED_TLS ymm_spill_srl (TLS_ZMM_idx_SLOT (TO_YMM_REG_INDEX ymm_spill_srl)) OPSZ_32 in
  rw_replace [i1; i2; i3; i4; i5; i6; i7; i8; i9].

Definition vprolq_ymm_and_ymm_gen (src_reg : reg_id_t) (imm_int : Z) (dst_reg mask_reg : reg_id_t) : rw_result := rw_null.

(** The zmm generators of [vprolq] and [vprorq] differ in the counts of the shifts. *)
Definition zmm_rotate_gen (sll_imm srl_imm : Z) (src_reg dst_reg : reg_id_t) : rw_result :=
  let src_need_spill := (if NEED_SPILL_ZMM src_reg then 1 else 0) in
  let dst_need_spill := (if NEED_SPILL_ZMM dst_reg then 2 else 0) in
  let spill_flag := Z.lor src_need_spill dst_need_spill in
  let src_ymm := ZMM_TO_YMM src_reg in
  let dst_ymm := ZMM_TO_YMM dst_reg in
  let op_src_ymm := opnd_create_reg src_ymm in
  let op_dst_ymm := opnd_create_reg dst_ymm in
  match spill_flag with
  | 0 =>
      let ymm_spill_sll := find_available_spill_ymm_avoiding src_reg dst_reg DR_REG_NULL in
      let ymm_spill_srl := find_available_spill_ymm_avoiding src_reg dst_reg ymm_spill_sll in
      let op_ymm_sll := opnd_create_reg ymm_spill_sll in
      let op_ymm_srl := opnd_create_reg ymm_spill_srl in
      let i1 := SAVE_SIMD_TO_SIZED_TLS ymm_spill_sll (TLS_ZMM_idx_SLOT (TO_YMM_REG_INDEX ymm_spill_sll)) OPSZ_32 in
      let i2 := SAVE_SIMD_TO_SIZED_TLS ymm_spill_srl (TLS_ZMM_idx_SLOT (TO_YMM_REG_INDEX ymm_spill_srl)) OPSZ_32 in
      let i3 := INSTR_CREATE_2 OP_vmovdqu op_ymm_sll op_src_ymm in
      let i4 := INSTR_CREATE_2 OP_vmovdqu op_ymm_srl op_src_ymm in
      let i5 := INSTR_CREATE_3 OP_vpsllq op_ymm_sll (opnd_create_immed_int sll_imm OPSZ_1) op_ymm_sll in
      let i6 := INSTR_CREATE_3 OP_vpsrlq op_ymm_srl (opnd_create_immed_int srl_imm OPSZ_1) op_ymm_srl in
      let i7 := INSTR_CREATE_3 OP_vpor op_dst_ymm op_ymm_srl op_ymm_sll in
      let i8 := RESTORE_SIMD_FROM_SIZED_TLS ymm_spill_sll ((TLS_ZMM_idx_SLOT (TO_ZMM_REG_INDEX src_reg)) + SIZE_OF_YMM) OPSZ_32 in
      let i9 := INSTR_CREATE_2 OP_vmovdqu op_ymm_srl op_ymm_sll in
      let i10 := INSTR_CREATE_3 OP_vpsllq op_ymm_sll (opnd_create_immed_int sll_imm OPSZ_1) op_ymm_sll in
      let i11 := INSTR_CREATE_3 OP_vpsrlq op_ymm_srl (opnd_create_immed_int srl_imm OPSZ_1) op_ymm_srl in
      let i12 := INSTR_CREATE_3 OP_vpor op_ymm_sll op_ymm_srl op_ymm_sll in
      let i13 := SAVE_SIMD_TO_SIZED_TLS ymm_spill_sll ((TLS_ZMM_idx_SLOT (TO_ZMM_REG_INDEX dst_reg)) + SIZE_OF_YMM) OPSZ_32 in
      let i14 := RESTORE_SIMD_FROM_SIZED_TLS ymm_spill_sll (TLS_ZMM_idx_SLOT (TO_YMM_REG_INDEX ymm_spill_sll)) OPSZ_32 in
      let i15 := RESTORE_SIMD_FROM_SIZED_TLS ymm_spill_srl (TLS_ZMM_idx_SLOT (TO_YMM_REG_INDEX ymm_spill_srl)) OPSZ_32 in
      rw_replace [i1; i2; i3; i4; i5; i6; i7; i8; i9; i10; i11; i12; i13; i14; i15]
  | 1 =>
      let ymm_spill_sll := find_available_spill_ymm_avoiding src_reg dst_reg DR_REG_NULL in
      let ymm_spill_srl := find_available_spill_ymm_avoiding src_reg dst_reg ymm_spill_sll in
      let op_ymm_sll := opnd_create_reg ymm_spill_sll in
      let op_ymm_srl := opnd_create_reg ymm_spill_srl in
      let i1 := SAVE_SIMD_TO_SIZED_TLS ymm_spill_sll (TLS_ZMM_idx_SLOT (TO_YMM_REG_INDEX ymm_spill_sll)) OPSZ_32 in
      let i2 := SAVE_SIMD_TO_SIZED_TLS ymm_spill_srl (TLS_ZMM_idx_SLOT (TO_YMM_REG_INDEX ymm_spill_srl)) OPSZ_32 in
      let i3 := RESTORE_SIMD_FROM_SIZED_TLS ymm_spill_sll (TLS_ZMM_idx_SLOT (TO_ZMM_REG_INDEX src_reg)) OPSZ_32 in
      let i4 := INSTR_CREATE_2 OP_vmovdqu op_ymm_srl op_ymm_sll in
      let i5 := INSTR_CREATE_3 OP_vpsllq op_ymm_sll (opnd_create_immed_int sll_imm OPSZ_1) op_ymm_sll in
      let i6 := INSTR_CREATE_3 OP_vpsrlq op_ymm_srl (opnd_create_immed_int srl_imm OPSZ_1) op_ymm_srl in
      let i7 := INSTR_CREATE_3 OP_vpor op_dst_ymm op_ymm_srl op_ymm_sll in
      let i8 := RESTORE_SIMD_FROM_SIZED_TLS ymm_spill_sll ((TLS_ZMM_idx_SLOT (TO_ZMM_REG_INDEX src_reg)) + SIZE_OF_YMM) OPSZ_32 in
      let i9 := INSTR_CREATE_2 OP_vmovdqu op_ymm_srl op_ymm_sll in
      let i10 := INSTR_CREATE_3 OP_vpsllq op_ymm_sll (opnd_create_immed_int sll_imm OPSZ_1) op_ymm_sll in
      let i11 := INSTR_CREATE_3 OP_vpsrlq op_ymm_srl (opnd_create_immed_int srl_imm OPSZ_1) op_ymm_srl in
      let i12 := INSTR_CREATE_3 OP_vpor op_ymm_sll op_ymm_srl op_ymm_sll in
      let i13 := SAVE_SIMD_TO_SIZED_TLS ymm_spill_sll ((TLS_ZMM_idx_SLOT (TO_ZMM_REG_INDEX dst_reg)) + SIZE_OF_YMM) OPSZ_32 in
      let i14 := RESTORE_SIMD_FROM_SIZED_TLS ymm_spill_sll (TLS_ZMM_idx_SLOT (TO_YMM_REG_INDEX ymm_spill_sll)) OPSZ_32 in
      let i15 := RESTORE_SIMD_FROM_SIZED_TLS ymm_spill_srl (TLS_ZMM_idx_SLOT (TO_YMM_REG_INDEX ymm_spill_srl)) OPSZ_32 in
      rw_replace [i1; i2; i3; i4; i5; i6; i7; i8; i9; i10; i11; i12; i13; i14; i15]
  | 2 =>
      let ymm_spill_sll := find_available_spill_ymm_avoiding src_reg dst_reg DR_REG_NULL in
      let ymm_spill_srl := find_available_spill_ymm_avoiding src_reg dst_reg ymm_spill_sll in
      let op_ymm_sll := opnd_create_reg ymm_spill_sll in
      let op_ymm_srl := opnd_create_reg ymm_spill_srl in
      let i1 := SAVE_SIMD_TO_SIZED_TLS ymm_spill_sll (TLS_ZMM_idx_SLOT (TO_YMM_REG_INDEX ymm_spill_sll)) OPSZ_32 in
      let i2 := SAVE_SIMD_TO_SIZED_TLS ymm_spill_srl (TLS_ZMM_idx_SLOT (TO_YMM_REG_INDEX ymm_spill_srl)) OPSZ_32 in
      let i3 := INSTR_CREATE_2 OP_vmovdqu op_ymm_sll op_src_ymm in
      let i4 := INSTR_CREATE_2 OP_vmovdqu op_ymm_srl op_src_ymm in
      let i5 := INSTR_CREATE_3 OP_vpsllq op_ymm_sll (opnd_create_immed_int sll_imm OPSZ_1) op_ymm_sll in
      let i6 := INSTR_CREATE_3 OP_vpsrlq op_ymm_srl (opnd_create_immed_int srl_imm OPSZ_1) op_ymm_srl in
      let i7 := INSTR_CREATE_3 OP_vpor op_ymm_sll op_ymm_srl op_ymm_sll in
      let i8 := SAVE_SIMD_TO_SIZED_TLS ymm_spill_sll (TLS_ZMM_idx_SLOT (TO_ZMM_REG_INDEX dst_reg)) OPSZ_32 in
      let i9 := RESTORE_SIMD_FROM_SIZED_TLS ymm_spill_sll ((TLS_ZMM_idx_SLOT (TO_ZMM_REG_INDEX src_reg)) + SIZE_OF_YMM) OPSZ_32 in
      let i10 := INSTR_CREATE_2 OP_vmovdqu op_ymm_srl op_ymm_sll in
      let i11 := INSTR_CREATE_3 OP_vpsllq op_ymm_sll (opnd_create_immed_int sll_imm OPSZ_1) op_ymm_sll in
      let i12 := INSTR_CREATE_3 OP_vpsrlq op_ymm_srl (opnd_create_immed_int srl_imm OPSZ_1) op_ymm_srl in
      let i13 := INSTR_CREATE_3 OP_vpor op_ymm_sll op_ymm_srl op_ymm_sll in
      let i14 := SAVE_SIMD_TO_SIZED_TLS ymm_spill_sll ((TLS_ZMM_idx_SLOT (TO_ZMM_REG_INDEX dst_reg)) + SIZE_OF_YMM) OPSZ_32 in
      let i15 := RESTORE_SIMD_FROM_SIZED_TLS ymm_spill_sll (TLS_ZMM_idx_SLOT (TO_YMM_REG_INDEX ymm_spill_sll)) OPSZ_32 in
      let i16 := RESTORE_SIMD_FROM_SIZED_TLS ymm_spill_srl (TLS_ZMM_idx_SLOT (TO_YMM_REG_INDEX ymm_spill_srl)) OPSZ_32 in
      rw_replace [i1; i2; i3; i4; i5; i6; i7; i8; i9; i10; i11; i12; i13; i14; i15; i16]
  | 3 =>
      let ymm_spill_sll := find_available_spill_ymm_avoiding src_reg dst_reg DR_REG_NULL in
      let ymm_spill_srl := find_available_spill_ymm_avoiding src_reg dst_reg ymm_spill_sll in
      let op_ymm_sll := opnd_create_reg ymm_spill_sll in
      let op_ymm_srl := opnd_create_reg ymm_spill_srl in
      let i1 := SAVE_SIMD_TO_SIZED_TLS ymm_spill_sll (TLS_ZMM_idx_SLOT (TO_YMM_REG_INDEX ymm_spill_sll)) OPSZ_32 in
      let i2 := SAVE_SIMD_TO_SIZED_TLS ymm_spill_srl (TLS_ZMM_idx_SLOT (TO_YMM_REG_INDEX ymm_spill_srl)) OPSZ_32 in
      let i3 := RESTORE_SIMD_FROM_SIZED_TLS ymm_spill_sll (TLS_ZMM_idx_SLOT (TO_ZMM_REG_INDEX src_reg)) OPSZ_32 in
      let i4 := INSTR_CREATE_2 OP_vmovdqu op_ymm_srl op_ymm_sll in
      let i5 := INSTR_CREATE_3 OP_vpsllq op_ymm_sll (opnd_create_immed_int sll_imm OPSZ_1) op_ymm_sll in
      let i6 := INSTR_CREATE_3 OP_vpsrlq op_ymm_srl (opnd_create_immed_int srl_imm OPSZ_1) op_ymm_srl in
      let i7 := INSTR_CREATE_3 OP_vpor op_ymm_sll op_ymm_srl op_ymm_sll in
      let i8 := SAVE_SIMD_TO_SIZED_TLS ymm_spill_sll (TLS_ZMM_idx_SLOT (TO_ZMM_REG_INDEX dst_reg)) OPSZ_32 in
      let i9 := RESTORE_SIMD_FROM_SIZED_TLS ymm_spill_sll ((TLS_ZMM_idx_SLOT (TO_ZMM_REG_INDEX src_reg)) + SIZE_OF_YMM) OPSZ_32 in
      let i10 := INSTR_CREATE_2 OP_vmovdqu op_ymm_srl op_ymm_sll in
      let i11 := INSTR_CREATE_3 OP_vpsllq op_ymm_sll (opnd_create_immed_int sll_imm OPSZ_1) op_ymm_sll in
      let i12 := INSTR_CREATE_3 OP_vpsrlq op_ymm_srl (opnd_create_immed_int srl_imm OPSZ_1) op_ymm_srl in
      let i13 := INSTR_CREATE_3 OP_vpor op_ymm_sll op_ymm_srl op_ymm_sll in
      let i14 := SAVE_SIMD_TO_SIZED_TLS ymm_spill_sll ((TLS_ZMM_idx_SLOT (TO_ZMM_REG_INDEX dst_reg)) + SIZE_OF_YMM) OPSZ_32 in
      let i15 := RESTORE_SIMD_FROM_SIZED_TLS ymm_spill_sll (TLS_ZMM_idx_SLOT (TO_YMM_REG_INDEX ymm_spill_sll)) OPSZ_32 in
      let i16 := RESTORE_SIMD_FROM_SIZED_TLS ymm_spill_srl (TLS_ZMM_idx_SLOT (TO_YMM_REG_INDEX ymm_spill_srl)) OPSZ_32 in
      rw_replace [i1; i2; i3; i4; i5; i6; i7; i8; i9; i10; i11; i12; i13; i14; i15; i16]
  | _ =>
      rw_removed_null
  end.

Definition vprolq_zmm_and_immed_gen (src_reg : reg_id_t) (imm_int : Z) (dst_reg mask_reg : reg_id_t) : rw_result :=
  let right_rotate_imm := imm_int in
  let left_rotate_imm := int8 (64 - right_rotate_imm) in
  zmm_rotate_gen right_rotate_imm left_rotate_imm src_reg dst_reg.

Definition vprolq_zmm_and_zmm_gen (src_reg : reg_id_t) (imm_int : Z) (dst_reg mask_reg : reg_id_t) : rw_result := rw_null.

Definition rw_func_vprolq (instr : instr_t) : rw_result :=
  let mask_opnd := instr_get_src instr 0 in
  let imm_or_src1_opnd := instr_get_src instr 1 in
  let src_opnd := instr_get_src instr 2 in
  let dst_opnd := instr_get_dst instr 0 in
  let mask_reg := opnd_get_reg mask_opnd in
  let src2_reg := opnd_get_reg src_opnd in
  let dst_reg := opnd_get_reg dst_opnd in
  let imm_int := 0 in
  let src1_reg := 0 in
  match (opnd_kind imm_or_src1_opnd) with
  | IMMED_INTEGER_kind =>
      let imm_int := int8 (Z.rem (opnd_get_immed_int imm_or_src1_opnd) 64) in
      if IS_XMM_REG dst_reg then
        vprolq_xmm_and_immed_gen src2_reg imm_int dst_reg mask_reg
      else
        if IS_YMM_REG dst_reg then
          vprolq_ymm_and_immed_gen src2_reg imm_int dst_reg mask_reg
        else
          if IS_ZMM_REG dst_reg then
            vprolq_zmm_and_immed_gen src2_reg imm_int dst_reg mask_reg
          else
            rw_null
  | REG_kind =>
      let src1_reg := opnd_get_reg imm_or_src1_opnd in
      if IS_XMM_REG dst_reg then
        vprolq_xmm_and_xmm_gen src1_reg imm_int dst_reg mask_reg
      else
        if IS_YMM_REG dst_reg then
          vprolq_ymm_and_ymm_gen src1_reg imm_int dst_reg mask_reg
        else
          if IS_ZMM_REG dst_reg then
            vprolq_zmm_and_zmm_gen src1_reg imm_int dst_reg mask_reg
          else
            rw_null
  | _ =>
      rw_null
  end.

(** ** [vprord] *)

Definition vprord_xmm_and_immed_gen (src_reg : reg_id_t) (imm_int : Z) (dst_reg mask_reg : reg_id_t) : rw_result :=
  let src_opnd := create_mapping_xmm_opnd src_reg in
  let dst_opnd := create_mapping_xmm_opnd dst_reg in
  let right_rotate_imm := imm_int in
  let left_rotate_imm := int8 (64 - right_rotate_imm) in
  let new_instr1 := SAVE_SIMD_TO_SIZED_TLS DR_REG_XMM14 (TLS_ZMM_idx_SLOT 14) OPSZ_16 in
  let new_instr2 := SAVE_SIMD_TO_SIZED_TLS DR_REG_XMM15 (TLS_ZMM_idx_SLOT 15) OPSZ_16 in
  let new_instr3 := INSTR_CREATE_2 OP_vmovdqu (opnd_create_reg DR_REG_XMM14) src_opnd in
  let new_instr4 := INSTR_CREATE_2 OP_vmovdqu (opnd_create_reg DR_REG_XMM15) src_opnd in
  let new_instr5 := INSTR_CREATE_psrld (opnd_create_reg DR_REG_XMM14) (opnd_create_immed_int right_rotate_imm OPSZ_1) in
  let new_instr6 := INSTR_CREATE_pslld (opnd_create_reg DR_REG_XMM15) (opnd_create_immed_int left_rotate_imm OPSZ_1) in
  let new_instr7 := instr_create_1dst_2src OP_vpor dst_opnd (opnd_create_reg DR_REG_XMM15) (opnd_create_reg DR_REG_XMM14) in
  let new_instr8 := RESTORE_SIMD_FROM_SIZED_TLS DR_REG_XMM14 (TLS_ZMM_idx_SLOT 14) OPSZ_16 in
  let new_instr9 := RESTORE_SIMD_FROM_SIZED_TLS DR_REG_XMM15 (TLS_ZMM_idx_SLOT 15) OPSZ_16 in
  rw_replace [new_instr1; new_instr2; new_instr3; new_instr4; new_instr5; new_instr6; new_instr7; new_instr8; new_instr9].

Definition vprord_xmm_and_xmm_gen (src_reg : reg_id_t) (imm_int : Z) (dst_reg mask_reg : reg_id_t) : rw_result := rw_null.

Definition vprord_ymm_and_immed_gen (src_reg : reg_id_t) (imm_int : Z) (dst_reg mask_reg : reg_id_t) : rw_result :=
  let op_src := opnd_create_reg src_reg in
  let op_dst := opnd_create_reg dst_reg in
  let right_rotate_imm := imm_int in
  let left_rotate_imm := int8 (64 - right_rotate_imm) in
  let ymm_spill_sll := find_one_available_spill_ymm src_reg in
  let ymm_spill_srl := find_available_spill_ymm_avoiding src_reg ymm_spill_sll DR_REG_NULL in
  let op_ymm_sll := opnd_create_reg ymm_spill_sll in
  let op_ymm_srl := opnd_create_reg ymm_spill_srl in
  let i1 := SAVE_SIMD_TO_SIZED_TLS ymm_spill_sll (TLS_ZMM_idx_SLOT (TO_YMM_REG_INDEX ymm_spill_sll)) OPSZ_32 in
  let i2 := SAVE_SIMD_TO_SIZED_TLS ymm_spill_srl (TLS_ZMM_idx_SLOT (TO_YMM_REG_INDEX ymm_spill_srl)) OPSZ_32 in
  let i3 := INSTR_CREATE_2 OP_vmovdqu op_ymm_sll op_src in
  let i4 := INSTR_CREATE_2 OP_vmovdqu op_ymm_srl op_src in
  let i5 := INSTR_CREATE_3 OP_vpslld op_ymm_sll (opnd_create_immed_int left_rotate_imm OPSZ_1) op_ymm_sll in
  let i6 := INSTR_CREATE_3 OP_vpsrld op_ymm_srl (opnd_create_immed_int right_rotate_imm OPSZ_1) op_ymm_srl in
  let i7 := INSTR_CREATE_3 OP_vpor op_dst op_ymm_srl op_ymm_sll in
  let i8 := RESTORE_SIMD_FROM_SIZED_TLS ymm_spill_sll (TLS_ZMM_idx_SLOT (TO_YMM_REG_INDEX ymm_spill_sll)) OPSZ_32 in
  let i9 := RESTORE_SIMD_FROM_SIZED_TLS ymm_spill_srl (TLS_ZMM_idx_SLOT (TO_YMM_REG_INDEX ymm_spill_srl)) OPSZ_32 in
  rw_replace [i1; i2; i3; i4; i5; i6; i7; i8; i9].

Definition vprord_ymm_and_ymm_gen (src_reg : reg_id_t) (imm_int : Z) (dst_reg mask_reg : reg_id_t) : rw_result := rw_null.

Definition vprord_zmm_and_immed_gen (src_reg : reg_id_t) (imm_int : Z) (dst_reg mask_reg : reg_id_t) : rw_result := rw_null.

Definition vprord_zmm_and_zmm_gen (src_reg : reg_id_t) (imm_int : Z) (dst_reg mask_reg : reg_id_t) : rw_result := rw_null.

Definition rw_func_vprord (instr : instr_t) : rw_result :=
  let mask_opnd := instr_get_src instr 0 in
  let imm_or_src1_opnd := instr_get_src instr 1 in
  let src2_opnd := instr_get_src instr 2 in
  let dst_opnd := instr_get_dst instr 0 in
  let mask_reg := opnd_get_reg mask_opnd in
  let src2_reg := opnd_get_reg src2_opnd in
  let dst_reg := opnd_get_reg dst_opnd in
  let imm_int := 0 in
  let src1_reg := 0 in
  match (opnd_kind imm_or_src1_opnd) with
  | IMMED_INTEGER_kind =>
      let imm_int := int8 (Z.rem (opnd_get_immed_int imm_or_src1_opnd) 64) in
      if IS_XMM_REG dst_reg then
        vprord_xmm_and_immed_gen src2_reg imm_int dst_reg mask_reg
      else
        if IS_YMM_REG dst_reg then
          vprord_ymm_and_immed_gen src2_reg imm_int dst_reg mask_reg
        else
          if IS_ZMM_REG dst_reg then
            vprord_zmm_and_immed_gen src2_reg imm_int dst_reg mask_reg
          else
            rw_null
  | REG_kind =>
      let src1_reg := opnd_get_reg imm_or_src1_opnd in
      if IS_XMM_REG dst_reg then
        vprord_xmm_and_xmm_gen src1_reg imm_int dst_reg mask_reg
      else
        if IS_YMM_REG dst_reg then
          vprord_ymm_and_ymm_gen src1_reg imm_int dst_reg mask_reg
        else
          if IS_ZMM_REG dst_reg then
            vprord_zmm_and_zmm_gen src1_reg imm_int dst_reg mask_reg
          else
            rw_null
  | _ =>
      rw_null
  end.

(** ** [vprorq] *)

Definition vprorq_xmm_and_immed_gen (src_reg : reg_id_t) (imm_int : Z) (dst_reg mask_reg : reg_id_t) : rw_result :=
  let src_opnd := create_mapping_xmm_opnd src_reg in
  let dst_opnd := create_mapping_xmm_opnd dst_reg in
  let right_rotate_imm := imm_int in
  let left_rotate_imm := int8 (64 - right_rotate_imm) in
  let new_instr1 := SAVE_SIMD_TO_SIZED_TLS DR_REG_XMM14 (TLS_ZMM_idx_SLOT 14) OPSZ_16 in
  let new_instr2 := SAVE_SIMD_TO_SIZED_TLS DR_REG_XMM15 (TLS_ZMM_idx_SLOT 15) OPSZ_16 in
  let new_instr3 := INSTR_CREATE_2 OP_vmovdqu (opnd_create_reg DR_REG_XMM14) src_opnd in
  let new_instr4 := INSTR_CREATE_2 OP_vmovdqu (opnd_create_reg DR_REG_XMM15) src_opnd in
  let new_instr5 := INSTR_CREATE_3 OP_vpsrlq (opnd_create_reg DR_REG_XMM14) (opnd_create_immed_int right_rotate_imm OPSZ_1) (opnd_create_reg DR_REG_XMM14) in
  let new_instr6 := INSTR_CREATE_3 OP_vpsllq (opnd_create_reg DR_REG_XMM15) (opnd_create_immed_int left_rotate_imm OPSZ_1) (opnd_create_reg DR_REG_XMM15) in
  let new_instr7 := instr_create_1dst_2src OP_vpor dst_opnd (opnd_create_reg DR_REG_XMM15) (opnd_create_reg DR_REG_XMM14) in
  let new_instr8 := RESTORE_SIMD_FROM_SIZED_TLS DR_REG_XMM14 (TLS_ZMM_idx_SLOT 14) OPSZ_16 in
  let new_instr9 := RESTORE_SIMD_FROM_SIZED_TLS DR_REG_XMM15 (TLS_ZMM_idx_SLOT 15) OPSZ_16 in
  rw_replace [new_instr1; new_instr2; new_instr3; new_instr4; new_instr5; new_instr6; new_instr7; new_instr8; new_instr9].

Definition vprorq_xmm_and_xmm_gen (src_reg : reg_id_t) (imm_int : Z) (dst_reg mask_reg : reg_id_t) : rw_result := rw_null.

Definition vprorq_ymm_and_immed_gen (src_reg : reg_id_t) (imm_int : Z) (dst_reg mask_reg : reg_id_t) : rw_result :=
  let op_src := opnd_create_reg src_reg in
  let op_dst := opnd_create_reg dst_reg in
  let right_rotate_imm := imm_int in
  let left_rotate_imm := int8 (64 - right_rotate_imm) in
  let ymm_spill_sll := find_one_available_spill_ymm src_reg in
  let ymm_spill_srl := find_available_spill_ymm_avoiding src_reg ymm_spill_sll DR_REG_NULL in
  let op_ymm_sll := opnd_create_reg ymm_spill_sll in
  let op_ymm_srl := opnd_create_reg ymm_spill_srl in
  let i1 := SAVE_SIMD_TO_SIZED_TLS ymm_spill_sll (TLS_ZMM_idx_SLOT (TO_YMM_REG_INDEX ymm_spill_sll)) OPSZ_32 in
  let i2 := SAVE_SIMD_TO_SIZED_TLS ymm_spill_srl (TLS_ZMM_idx_SLOT (TO_YMM_REG_INDEX ymm_spill_srl)) OPSZ_32 in
  let i3 := INSTR_CREATE_2 OP_vmovdqu op_ymm_sll op_src in
  let i4 := INSTR_CREATE_2 OP_vmovdqu op_ymm_srl op_src in
  let i5 := INSTR_CREATE_3 OP_vpsllq op_ymm_sll (opnd_create_immed_int left_rotate_imm OPSZ_1) op_ymm_sll in
  let i6 := INSTR_CREATE_3 OP_vpsrlq op_ymm_srl (opnd_create_immed_int right_rotate_imm OPSZ_1) op_ymm_srl in
  let i7 := INSTR_CREATE_3 OP_vpor op_dst op_ymm_srl op_ymm_sll in
  let i8 := RESTORE_SIMD_FROM_SIZED_TLS ymm_spill_sll (TLS_ZMM_idx_SLOT (TO_YMM_REG_INDEX ymm_spill_sll)) OPSZ_32 in
  let i9 := RESTORE_SIMD_FROM_SIZED_TLS ymm_spill_srl (TLS_ZMM_idx_SLOT (TO_YMM_REG_INDEX ymm_spill_srl)) OPSZ_32 in
  rw_replace [i1; i2; i3; i4; i5; i6; i7; i8; i9].

Definition vprorq_ymm_and_ymm_gen (src_reg : reg_id_t) (imm_int : Z) (dst_reg mask_reg : reg_id_t) : rw_result := rw_null.

Definition vprorq_zmm_and_immed_gen (src_reg : reg_id_t) (imm_int : Z) (dst_reg mask_reg : reg_id_t) : rw_result :=
  let right_rotate_imm := imm_int in
  let left_rotate_imm := int8 (64 - right_rotate_imm) in
  zmm_rotate_gen left_rotate_imm right_rotate_imm src_reg dst_reg.

Definition vprorq_zmm_and_zmm_gen (src_reg : reg_id_t) (imm_int : Z) (dst_reg mask_reg : reg_id_t) : rw_result := rw_null.

Definition rw_func_vprorq (instr : instr_t) : rw_result :=
  let mask_opnd := instr_get_src instr 0 in
  let imm_or_src1_opnd := instr_get_src instr 1 in
  let src2_opnd := instr_get_src instr 2 in
  let dst_opnd := instr_get_dst instr 0 in
  let mask_reg := opnd_get_reg mask_opnd in
  let src2_reg := opnd_get_reg src2_opnd in
  let dst_reg := opnd_get_reg dst_opnd in
  let imm_int := 0 in
  let src1_reg := 0 in
  match (opnd_kind imm_or_src1_opnd) with
  | IMMED_INTEGER_kind =>
      let imm_int := int8 (Z.rem (opnd_get_immed_int imm_or_src1_opnd) 64) in
      if IS_XMM_REG dst_reg then
        vprorq_xmm_and_immed_gen src2_reg imm_int dst_reg mask_reg
      else
        if IS_YMM_REG dst_reg then
          vprorq_ymm_and_immed_gen src2_reg imm_int dst_reg mask_reg
        else
          if IS_ZMM_REG dst_reg then
            vprorq_zmm_and_immed_gen src2_reg imm_int dst_reg mask_reg
          else
            rw_null
  | REG_kind =>
      let src1_reg := opnd_get_reg imm_or_src1_opnd in
      if IS_XMM_REG dst_reg then
        vprorq_xmm_and_xmm_gen src1_reg imm_int dst_reg mask_reg
      else
        if IS_YMM_REG dst_reg then
          vprorq_ymm_and_ymm_gen src1_reg imm_int dst_reg mask_reg
        else
          if IS_ZMM_REG dst_reg then
            vprorq_zmm_and_zmm_gen src1_reg imm_int dst_reg mask_reg
          else
            rw_null
  | _ =>
      rw_null
  end.

(** ** Correctness *)

Lemma int8_id x : -128 <= x < 128 -> int8 x = x.
Proof. intros; unfold int8; rewrite wrap_id; lia. Qed.

(** The registers the ymm generator spills. *)
Definition spill_sll (a : Z) : Z := if a =? 10 then 11 else 10.
Definition spill_srl (a : Z) : Z := if (a =? 10) || (a =? 11) then 12 else 11.

Lemma rotate_spills a : 0 <= a < 16 ->
  find_one_available_spill_ymm (ymm a) = ymm (spill_sll a) /\
  find_available_spill_ymm_avoiding (ymm a) (ymm (spill_sll a)) DR_REG_NULL = ymm (spill_srl a).
Proof.
  intros Ha; assert (Hin : In a (zrange 0 16)) by (apply zrange_in; lia); cbn in Hin.
  repeat (destruct Hin as [<-|Hin]; [split; vm_compute; reflexivity|]); contradiction.
Qed.

(** Run the emitted code: moves, shifts by a count and the bitwise or. *)
Ltac rotate_steps :=
  unfold INSTR_CREATE_3, INSTR_CREATE_2, opnd_create_immed_int in *;
  repeat first
    [ rewrite run_save_ymm by lia | rewrite run_save_ymm_hi by lia
    | rewrite run_load_ymm by lia | rewrite run_load_ymm_hi by lia
    | rewrite run_save_xmm by lia | rewrite run_load_xmm by lia
    | rewrite (run_mov_ymm OP_vmovdqu false eq_refl) by lia | rewrite (run_mov_xmm OP_vmovdqu false eq_refl) by lia
    | rewrite (run_bin_ymm OP_vpor por eq_refl) by lia | rewrite (run_bin_xmm OP_vpor por eq_refl) by lia
    | rewrite (run_imm_ymm OP_vpsllq) with (Hop := eq_refl (Some (psll 64))) by lia
    | rewrite (run_imm_ymm OP_vpsrlq) with (Hop := eq_refl (Some (psrl 64))) by lia
    | rewrite (run_imm_xmm OP_vpsllq) with (Hop := eq_refl (Some (psll 64))) by lia
    | rewrite (run_imm_xmm OP_vpsrlq) with (Hop := eq_refl (Some (psrl 64))) by lia
    | rewrite (run_imm_ymm OP_vpslld) with (Hop := eq_refl (Some (psll 32))) by lia
    | rewrite (run_imm_ymm OP_vpsrld) with (Hop := eq_refl (Some (psrl 32))) by lia ].
Ltac rotate_run := rotate_steps; cbn [run].

(** The combined shifts are in range. *)
Lemma wrap_por x y : wrap 128 (por x y) = por x y.
Proof. apply wrap_id, por_op. Qed.
Lemma wrap_psll w c x : In w [32; 64] -> wrap 128 (psll w c x) = psll w c x.
Proof. intros [<-|[<-|[]]]; apply wrap_id; apply lane_of_128; reflexivity. Qed.
Lemma wrap_psrl w c x : In w [32; 64] -> wrap 128 (psrl w c x) = psrl w c x.
Proof. intros [<-|[<-|[]]]; apply wrap_id; apply lane_of_128; reflexivity. Qed.

Ltac rotate_wrap :=
  repeat first [ rewrite wrap_por | rewrite wrap_psll by (cbn; tauto) | rewrite wrap_psrl by (cbn; tauto)
               | rewrite wrap_simd by assumption | rewrite wrap_tls_lane by assumption | rewrite wrap_wrap by lia ].

Ltac rotate_solve :=
  unfold vec_unop, vec_binop, vec_unop_keep, vec_binop_keep; apply view_set_zmm; [sym_frame| | | ];
  (let i := fresh "i" in let l := fresh "l" in let Hi := fresh "Hi" in let Hl := fresh "Hl" in
   intros i l Hi Hl; sym_read; repeat sym_spec1; rotate_wrap; reflexivity).

Section Ymm.
Context (a d sll srl : Z) (Ha : 0 <= a < 16) (Hd : 0 <= d < 16) (Hs : d <> spill_sll a) (Hr : d <> spill_srl a).

(** The code with the two counts and the order of the shifts left open. *)
Lemma ymm_rotate_code opl fl opr fr :
  In (opl, fl, opr, fr) [(OP_vpsllq, psll 64, OP_vpsrlq, psrl 64); (OP_vpslld, psll 32, OP_vpsrld, psrl 32)] ->
  translates (vec_unop_keep 2 (fun x => por (fr (wrap 8 srl) x) (fl (wrap 8 sll) x)) d a)
    (let op_sll := opnd_create_reg (ymm (spill_sll a)) in
     let op_srl := opnd_create_reg (ymm (spill_srl a)) in
     [SAVE_SIMD_TO_SIZED_TLS (ymm (spill_sll a)) (TLS_ZMM_idx_SLOT (spill_sll a)) OPSZ_32;
      SAVE_SIMD_TO_SIZED_TLS (ymm (spill_srl a)) (TLS_ZMM_idx_SLOT (spill_srl a)) OPSZ_32;
      INSTR_CREATE_2 OP_vmovdqu op_sll (opnd_create_reg (ymm a));
      INSTR_CREATE_2 OP_vmovdqu op_srl (opnd_create_reg (ymm a));
      INSTR_CREATE_3 opl op_sll (opnd_create_immed_int sll OPSZ_1) op_sll;
      INSTR_CREATE_3 opr op_srl (opnd_create_immed_int srl OPSZ_1) op_srl;
      INSTR_CREATE_3 OP_vpor (opnd_create_reg (ymm d)) op_srl op_sll;
      RESTORE_SIMD_FROM_SIZED_TLS (ymm (spill_sll a)) (TLS_ZMM_idx_SLOT (spill_sll a)) OPSZ_32;
      RESTORE_SIMD_FROM_SIZED_TLS (ymm (spill_srl a)) (TLS_ZMM_idx_SLOT (spill_srl a)) OPSZ_32]).
Proof.
  intros Hop; assert (10 <= spill_sll a <= 15 /\ spill_sll a <> a) as [Hs1 Hs2] by (unfold spill_sll; zcases; lia).
  assert (10 <= spill_srl a <= 15 /\ spill_srl a <> a /\ spill_srl a <> spill_sll a) as (Hr1 & Hr2 & Hr3)
    by (unfold spill_sll, spill_srl; zcases; cbn [orb]; lia).
  set (p := spill_sll a) in *; set (q := spill_srl a) in *; clearbody p q; hide_neq.
  apply translates_intro; intros c Hc; cbv zeta.
  destruct Hop as [E|[E|[]]]; injection E as <- <- <- <-; (eexists; split; [rotate_run; reflexivity|rotate_solve]).
Qed.
End Ymm.

Ltac rotate_solve_xmm :=
  unfold vec_unop, vec_binop; apply view_set_zmm; [sym_frame| | | ];
  (let i := fresh "i" in let l := fresh "l" in let Hi := fresh "Hi" in let Hl := fresh "Hl" in
   intros i l Hi Hl;
   first [ match goal with |- context [tls_lane _ _ (2 + l)] => idtac end
         | assert (l = 0 \/ l = 1) as [-> | ->] by lia ];
   sym_read; repeat sym_spec1; rotate_wrap; sym_close).

(** *** Legacy shifts *)

(** Lane 0 of a register changed in place. *)
Definition st_low (s : mach) (f : Z -> Z) (r : Z) : mach :=
  with_simd s (fun i l => if (i =? r) && (l =? 0) then wrap 128 (f (simd s r 0)) else simd s i l).

Lemma run_sse_imm op f c r k s :
  In (op, f) [(OP_pslld, psll 32); (OP_psrld, psrl 32)] -> 0 <= r < 16 ->
  run (instr_create_1dst_2src op (opnd_create_reg (xmm r)) (OPND_IMM c OPSZ_1) (opnd_create_reg (xmm r)) :: k) s
  = run k (st_low s (f (wrap 8 c)) r).
Proof.
  intros Hop Hr; cbn [run]; destruct Hop as [E|[E|[]]]; injection E as <- <-;
    unfold exec, exec_simd, exec_cross, exec_sse_imm; cbn -[avx2_reg xmm wrap psll psrl];
    rewrite avx2_reg_xmm, Z.eqb_refl by assumption; reflexivity.
Qed.

Lemma rd_low_0 s f r j : simd (st_low s f r) j 0 = if j =? r then wrap 128 (f (simd s r 0)) else simd s j 0.
Proof. cbn; destruct (Z.eqb_spec j r) as [->|]; reflexivity. Qed.
Lemma rd_low_1 s f r j : simd (st_low s f r) j 1 = simd s j 1.
Proof. cbn; now rewrite andb_false_r. Qed.

Ltac low_read :=
  repeat first
    [ idx_decide | sym_read1
    | match goal with
      | |- context [tls (st_low ?s ?f ?r)] => change (tls (st_low s f r)) with (tls s)
      | |- context [simd (st_low ?s ?f ?r) ?j 0] => rewrite (rd_low_0 s f r j)
      | |- context [simd (st_low ?s ?f ?r) ?j 1] => rewrite (rd_low_1 s f r j)
      end ].

Lemma same_frame_low s t f r : same_frame s t -> same_frame s (st_low t f r).
Proof. exact (fun H => H). Qed.

Section Xmm.
Context (a d : Z) (Ha : 0 <= a < 16) (Hd : 0 <= d < 14).

Ltac xmm_rotate f :=
  unfold f, create_mapping_xmm_opnd, INSTR_CREATE_psrld, INSTR_CREATE_pslld;
  change DR_REG_XMM14 with (xmm 14); change DR_REG_XMM15 with (xmm 15);
  assert (d <> 14 /\ d <> 15) as [] by lia; hide_neq;
  (eexists; split; [reflexivity|]); apply translates_if_intro; intros m Hm Hp; cbv zeta.

Lemma vprolq_xmm_code r k :
  rewrites_if (xmm_pre d) (vec_unop 1 (fun x => por (psrl 64 (wrap 8 (int8 (64 - r))) x) (psll 64 (wrap 8 r) x)) d a)
    (vprolq_xmm_and_immed_gen (xmm a) r (xmm d) k).
Proof. xmm_rotate vprolq_xmm_and_immed_gen; eexists; split; [rotate_run; reflexivity|rotate_solve_xmm]. Qed.

Lemma vprorq_xmm_code r k :
  rewrites_if (xmm_pre d) (vec_unop 1 (fun x => por (psll 64 (wrap 8 (int8 (64 - r))) x) (psrl 64 (wrap 8 r) x)) d a)
    (vprorq_xmm_and_immed_gen (xmm a) r (xmm d) k).
Proof. xmm_rotate vprorq_xmm_and_immed_gen; eexists; split; [rotate_run; reflexivity|rotate_solve_xmm]. Qed.

Lemma vprord_xmm_code r k :
  rewrites_if (xmm_pre d) (vec_unop 1 (fun x => por (psll 32 (wrap 8 (int8 (64 - r))) x) (psrl 32 (wrap 8 r) x)) d a)
    (vprord_xmm_and_immed_gen (xmm a) r (xmm d) k).
Proof.
  xmm_rotate vprord_xmm_and_immed_gen; (eexists; split).
  - rotate_steps; rewrite (run_sse_imm OP_psrld (psrl 32)) by (lia || (cbn; tauto)).
    rewrite (run_sse_imm OP_pslld (psll 32)) by (lia || (cbn; tauto)); rotate_run; reflexivity.
  - unfold vec_unop, vec_binop; apply view_set_zmm.
    { apply same_frame_load, same_frame_load, same_frame_bin, same_frame_low, same_frame_low; sym_frame. }
    all: intros i l Hi Hl;
      first [ match goal with |- context [tls_lane _ _ (2 + l)] => idtac end
            | assert (l = 0 \/ l = 1) as [-> | ->] by lia ];
      low_read; repeat sym_spec1; rotate_wrap; sym_close.
Qed.
End Xmm.

Section Zmm.
Context (a d sll srl : Z) (Ha : 0 <= a < 32) (Hd : 0 <= d < 32) (H10 : d <> 10) (H11 : d <> 11).

Lemma zmm_rotate_code :
  rewrites (vec_unop 4 (fun x => por (psrl 64 (wrap 8 srl) x) (psll 64 (wrap 8 sll) x)) d a)
    (zmm_rotate_gen sll srl (zmm a) (zmm d)).
Proof.
  unfold zmm_rotate_gen; destruct (find_ymm_avoiding_zmm a d Ha Hd) as [E1 E2]; rewrite !E1, !E2; clear E1 E2.
  rewrite !NEED_SPILL_ZMM_zmm, ?ZMM_TO_YMM_zmm, ?TO_ZMM_REG_INDEX_zmm by assumption.
  destruct (Z.leb_spec 16 a), (Z.leb_spec 16 d); cbv beta iota delta [Z.lor Pos.lor]; autorewrite with rw_regs; hide_neq;
    (eexists; split; [reflexivity|]; apply translates_intro; intros c Hc; eexists; split; [rotate_run; reflexivity|rotate_solve]).
Qed.
End Zmm.

(** ** Theorems *)

(** The counts of the two shifts, for a count the decoder gives as is. *)
Lemma rotate_counts c : 0 <= c < 128 ->
  let r := int8 (Z.rem c 64) in wrap 8 r = c mod 64 /\ wrap 8 (int8 (64 - r)) = 64 - c mod 64.
Proof.
  intros Hc r; unfold r; rewrite Z.rem_mod_nonneg by lia; pose proof (Z.mod_pos_bound c 64 ltac:(lia)).
  rewrite (int8_id (c mod 64)), (int8_id (64 - c mod 64)), !wrap_id by lia; split; reflexivity.
Qed.

Lemma prol_shifts c x : por (psrl 64 (64 - c mod 64) x) (psll 64 (c mod 64) x) = prol 64 c x.
Proof. apply (rotate_lane 64); [lia|reflexivity|apply Z.mod_pos_bound; lia]. Qed.

Lemma pror_shifts c x : por (psrl 64 (c mod 64) x) (psll 64 (64 - c mod 64) x) = pror 64 c x.
Proof.
  pose proof (Z.mod_pos_bound c 64 ltac:(lia)) as Hc; unfold pror; destruct (Z.eq_dec (c mod 64) 0) as [E|E].
  - rewrite Z.mod_opp_l_z, E by lia; rewrite <- (rotate_lane 64 0) by (lia || reflexivity).
    now rewrite psrl_psll_0, (psrl_out 64 (64 - 0)), (psll_out 64 (64 - 0)), por_comm by lia.
  - rewrite Z.mod_opp_l_nz by lia; rewrite <- (rotate_lane 64 (64 - c mod 64)) by (lia || reflexivity).
    now replace (64 - (64 - c mod 64)) with (c mod 64) by lia.
Qed.

(** What the two shifts of [vprord] make of a lane: the count of the left shift
    is taken from 64 instead of 32. *)
Definition vprord_effect (c x : Z) : Z := if c <=? 32 then psrl 32 c x else psll 32 (64 - c) x.

Lemma vprord_shifts c x : 0 <= c < 64 -> por (psrl 32 c x) (psll 32 (64 - c) x) = vprord_effect c x.
Proof.
  intros Hc; unfold vprord_effect; destruct (Z.leb_spec c 32).
  - rewrite psll_out, lane_of_0 by lia; apply por_0_r, psrl32_op.
  - rewrite psrl_out, lane_of_0, por_comm by lia; apply por_0_r, psll32_op.
Qed.

(** The registers on which the code of a width is right: low ones where there is
    no spill code, and a destination that is not a spill register. *)
Definition zmm_rotate_ok (d : Z) : bool := negb ((d =? 10) || (d =? 11)).
Definition ymm_rotate_ok (a d : Z) : bool := (a <? 16) && (d <? 16) && negb ((d =? spill_sll a) || (d =? spill_srl a)).
Definition xmm_rotate_ok (a d : Z) : bool := (a <? 16) && (d <? 14).

Lemma ymm_rotate_ok_inv a d : 0 <= a -> 0 <= d -> ymm_rotate_ok a d = true ->
  0 <= a < 16 /\ 0 <= d < 16 /\ d <> spill_sll a /\ d <> spill_srl a.
Proof. unfold ymm_rotate_ok; intros Ha Hd H; zbool; lia. Qed.

Ltac ymm_rotate f :=
  match goal with H : ymm_rotate_ok ?a ?d = true |- _ =>
    apply ymm_rotate_ok_inv in H as (? & ? & ? & ?); [|lia..]; unfold f; destruct (rotate_spills a) as [E1 E2]; [assumption|];
    rewrite E1, E2, !TO_YMM_REG_INDEX_ymm; clear E1 E2; (eexists; split; [reflexivity|]) end.

(** Of the three ymm generators, [vprorq] and [vprord] shift left by the
    complement. *)
Lemma ymm_rotates a d r k : 0 <= a -> 0 <= d -> ymm_rotate_ok a d = true ->
  rewrites (vec_unop_keep 2 (fun x => por (psrl 64 (wrap 8 (int8 (64 - r))) x) (psll 64 (wrap 8 r) x)) d a)
    (vprolq_ymm_and_immed_gen (ymm a) r (ymm d) k) /\
  rewrites (vec_unop_keep 2 (fun x => por (psrl 64 (wrap 8 r) x) (psll 64 (wrap 8 (int8 (64 - r))) x)) d a)
    (vprorq_ymm_and_immed_gen (ymm a) r (ymm d) k) /\
  rewrites (vec_unop_keep 2 (fun x => por (psrl 32 (wrap 8 r) x) (psll 32 (wrap 8 (int8 (64 - r))) x)) d a)
    (vprord_ymm_and_immed_gen (ymm a) r (ymm d) k).
Proof.
  intros Ha Hd H; repeat split;
    [ymm_rotate vprolq_ymm_and_immed_gen|ymm_rotate vprorq_ymm_and_immed_gen|ymm_rotate vprord_ymm_and_immed_gen].
  - apply (ymm_rotate_code a d r (int8 (64 - r))) with (opl := OP_vpsllq) (opr := OP_vpsrlq); cbn; auto.
  - apply (ymm_rotate_code a d (int8 (64 - r)) r) with (opl := OP_vpsllq) (opr := OP_vpsrlq); cbn; auto.
  - apply (ymm_rotate_code a d (int8 (64 - r)) r) with (opl := OP_vpslld) (opr := OP_vpsrld); cbn; auto.
Qed.

(** Unfold a rewrite function on a count and a destination of width [W]. *)
Ltac rotate_func W d :=
  let W1 := fresh in let W2 := fresh in let W3 := fresh in
  destruct (W d ltac:(assumption)) as (W1 & W2 & W3);
  unfold rw_func_vprolq, rw_func_vprorq, rw_func_vprord, shift_instr, imm8, instr_get_src, instr_get_dst, opnd_create_reg;
  cbn [instr_srcs instr_dsts nth opnd_get_reg opnd_kind opnd_get_immed_int]; rewrite ?W1, ?W2, ?W3.

(** C22: [vprolq] and [vprorq] by an immediate below 128, the counts the decoder
    gives as positive numbers, rotate every quadword.  On zmm registers the code
    is the documented instruction for every source and every destination but
    zmm10 and zmm11, the spill registers, whose new value it loses.  On ymm
    registers, for low ones and a destination that is not one of the two spill
    registers the code picks, it rotates the two lanes of the vector length and
    leaves bits 511:256 of the destination, and so is the documented instruction
    where they are zero.  On xmm registers, for a source below 16 and a
    destination below 14, it is the documented instruction from the states of
    [xmm_pre]. *)
Theorem rotates_correct op c a d :
  0 <= c < 128 -> 0 <= a < 32 -> 0 <= d < 32 ->
  (zmm_rotate_ok d = true ->
   rewrites (vec_unop 4 (prol 64 c) d a) (rw_func_vprolq (shift_instr op DR_REG_K0 (zmm d) (imm8 c) (zmm a))) /\
   rewrites (vec_unop 4 (pror 64 c) d a) (rw_func_vprorq (shift_instr op DR_REG_K0 (zmm d) (imm8 c) (zmm a)))) /\
  (ymm_rotate_ok a d = true ->
   rewrites_low 2 d (vec_unop_keep 2 (prol 64 c) d a) (vec_unop 2 (prol 64 c) d a)
     (rw_func_vprolq (shift_instr op DR_REG_K0 (ymm d) (imm8 c) (ymm a))) /\
   rewrites_low 2 d (vec_unop_keep 2 (pror 64 c) d a) (vec_unop 2 (pror 64 c) d a)
     (rw_func_vprorq (shift_instr op DR_REG_K0 (ymm d) (imm8 c) (ymm a)))) /\
  (xmm_rotate_ok a d = true ->
   rewrites_if (xmm_pre d) (vec_unop 1 (prol 64 c) d a) (rw_func_vprolq (shift_instr op DR_REG_K0 (xmm d) (imm8 c) (xmm a))) /\
   rewrites_if (xmm_pre d) (vec_unop 1 (pror 64 c) d a) (rw_func_vprorq (shift_instr op DR_REG_K0 (xmm d) (imm8 c) (xmm a)))).
Proof.
  intros Hc Ha Hd; destruct (rotate_counts c Hc) as [Er El].
  split; [|split]; intros H; [rotate_func zmm_width d|rotate_func ymm_width d|rotate_func xmm_width d].
  - unfold zmm_rotate_ok in H; zbool; unfold vprolq_zmm_and_immed_gen, vprorq_zmm_and_immed_gen; split.
    + eapply rewrites_ext; [|apply zmm_rotate_code; assumption]; intros g; apply vec_unop_ext; intros x; rewrite Er, El; apply prol_shifts.
    + eapply rewrites_ext; [|apply zmm_rotate_code; assumption]; intros g; apply vec_unop_ext; intros x; rewrite Er, El; apply pror_shifts.
  - destruct (ymm_rotates a d (int8 (Z.rem c 64)) DR_REG_K0) as (R1 & R2 & _); [lia|lia|assumption|]; split; apply unop_low.
    + eapply rewrites_ext; [|exact R1]; intros g; apply vec_unop_keep_ext; intros x; rewrite Er, El; apply prol_shifts.
    + eapply rewrites_ext; [|exact R2]; intros g; apply vec_unop_keep_ext; intros x; rewrite Er, El; apply pror_shifts.
  - unfold xmm_rotate_ok in H; zbool; split.
    + eapply rewrites_if_ext; [|apply vprolq_xmm_code; lia]; intros g; apply vec_unop_ext; intros x; rewrite Er, El; apply prol_shifts.
    + eapply rewrites_if_ext; [|apply vprorq_xmm_code; lia]; intros g; apply vec_unop_ext; intros x; rewrite Er, El, por_comm; apply pror_shifts.
Qed.

Lemma rotates_correct_witness :
  rewrites (vec_unop 4 (prol 64 8) 20 10) (rw_func_vprolq (shift_instr (OP_avx512 0) DR_REG_K0 (zmm 20) (imm8 8) (zmm 10))).
Proof. apply (rotates_correct (OP_avx512 0) 8 10 20); [lia|lia|lia|reflexivity]. Defined.

(** [vprord] takes the complement of its count from 64 although its elements
    have 32 bits: the code shifts each doubleword right by a count up to 32, and
    left by 64 minus a greater one, instead of rotating it. *)
Theorem vprord_shifts_only op c a d k :
  0 <= c < 64 -> 0 <= a < 32 -> 0 <= d < 32 ->
  (ymm_rotate_ok a d = true ->
   rewrites (vec_unop_keep 2 (vprord_effect c) d a) (rw_func_vprord (shift_instr op k (ymm d) (imm8 c) (ymm a)))) /\
  (xmm_rotate_ok a d = true ->
   rewrites_if (xmm_pre d) (vec_unop 1 (vprord_effect c) d a) (rw_func_vprord (shift_instr op k (xmm d) (imm8 c) (xmm a)))) /\
  rw_func_vprord (shift_instr op k (zmm d) (imm8 c) (zmm a)) = rw_null.
Proof.
  intros Hc Ha Hd; destruct (rotate_counts c ltac:(lia)) as [Er El]; rewrite (Z.mod_small c 64 Hc) in Er, El.
  split; [|split]; [intros H; rotate_func ymm_width d|intros H; rotate_func xmm_width d|rotate_func zmm_width d; reflexivity].
  - destruct (ymm_rotates a d (int8 (Z.rem c 64)) k) as (_ & _ & R3); [lia|lia|assumption|].
    eapply rewrites_ext; [|exact R3]; intros g; apply vec_unop_keep_ext; intros x; rewrite Er, El; now apply vprord_shifts.
  - unfold xmm_rotate_ok in H; zbool; eapply rewrites_if_ext; [|apply vprord_xmm_code; lia].
    intros g; apply vec_unop_ext; intros x; rewrite Er, El, por_comm; now apply vprord_shifts.
Qed.

Lemma vprord_shifts_only_witness :
  rewrites (vec_unop_keep 2 (psrl 32 3) 4 5) (rw_func_vprord (shift_instr (OP_avx512 0) DR_REG_K0 (ymm 4) (imm8 3) (ymm 5))).
Proof. apply (vprord_shifts_only (OP_avx512 0) 3 5 4 DR_REG_K0); [lia|lia|lia|reflexivity]. Defined.

(** Instances on which the conditions fail: the destination is a spill
    register; a count of 200, which the decoder gives as -56; a [vprord]. *)
Example rotate_failures op k :
  ~ rewrites (vec_unop 4 (prol 64 1) 10 3) (rw_func_vprolq (shift_instr op k (zmm 10) (imm8 1) (zmm 3))) /\
  ~ rewrites (vec_unop 4 (prol 64 (wrap 8 (-56))) 4 3) (rw_func_vprolq (shift_instr op k (zmm 4) (imm8 (-56)) (zmm 3))) /\
  ~ rewrites (vec_unop_keep 2 (pror 32 1) 4 3) (rw_func_vprord (shift_instr op k (ymm 4) (imm8 1) (ymm 3))).
Proof.
  repeat split; [apply (not_rewrites_lane _ _ 10 0)|apply (not_rewrites_lane _ _ 4 0)|apply (not_rewrites_lane _ _ 4 0)];
    try lia; vm_compute; discriminate.
Qed.
