(* ===== verification/GenExtend.v ===== *)
(** * Sign and zero extensions

    [vpmovsxwd], [vpmovsxdq], [vpmovzxbw], [vpmovzxwd] and [vpmovzxdq] between
    registers.  The source operand has the width of the destination and its low
    half is read. *)
From Stdlib Require Import ZArith List Bool Lia.
From S2P Require Import Prelude Regs Spill Bytes Lanes Machine Arch512 SymExec GenYmm GenXmm GenMov GenShift.
Import ListNotations.
#[local] Open Scope Z_scope.
#[local] Open Scope bool_scope.
#[local] Open Scope rw_scope.

(** ** Generators *)

(** The text that [vpmovsxwd], [vpmovzxbw] and [vpmovzxdq] share on ymm registers. *)
Definition ymm_extend_gen (op : opcode) (src_reg dst_reg mask_reg : reg_id_t) : rw_result :=
  let src_need_spill_flag := (if NEED_SPILL_YMM src_reg then 1 else 0) in
  let dst_need_spill_flag := (if NEED_SPILL_YMM dst_reg then 2 else 0) in
  let need_spill_flag := Z.lor src_need_spill_flag dst_need_spill_flag in
  match need_spill_flag with
  | 0 =>
      let op_src := opnd_create_reg src_reg in
      let op_dst := opnd_create_reg dst_reg in
      let i1 := INSTR_CREATE_2 op op_dst op_src in
      rw_replace [i1]
  | 1 =>
      let src_spill_reg := find_one_available_spill_ymm dst_reg in
      let op_src_spill := opnd_create_reg src_spill_reg in
      let op_dst := opnd_create_reg dst_reg in
      let i1 := SAVE_SIMD_TO_SIZED_TLS src_spill_reg (TLS_ZMM_idx_SLOT (TO_YMM_REG_INDEX src_spill_reg)) OPSZ_32 in
      let i2 := RESTORE_SIMD_FROM_SIZED_TLS src_spill_reg (TLS_ZMM_idx_SLOT (TO_YMM_REG_INDEX src_reg)) OPSZ_32 in
      let i3 := INSTR_CREATE_2 op op_dst op_src_spill in
      let i4 := RESTORE_SIMD_FROM_SIZED_TLS src_spill_reg (TLS_ZMM_idx_SLOT (TO_YMM_REG_INDEX src_spill_reg)) OPSZ_32 in
      rw_replace [i1; i2; i3; i4]
  | 2 =>
      let dst_spill_reg := find_one_available_spill_ymm src_reg in
      let op_dst_spill := opnd_create_reg dst_spill_reg in
      let op_src := opnd_create_reg src_reg in
      let i1 := SAVE_SIMD_TO_SIZED_TLS dst_spill_reg (TLS_ZMM_idx_SLOT (TO_YMM_REG_INDEX dst_spill_reg)) OPSZ_32 in
      let i2 := INSTR_CREATE_2 op op_dst_spill op_src in
      let i3 := SAVE_SIMD_TO_SIZED_TLS dst_spill_reg (TLS_ZMM_idx_SLOT (TO_YMM_REG_INDEX dst_reg)) OPSZ_32 in
      let i4 := RESTORE_SIMD_FROM_SIZED_TLS dst_spill_reg (TLS_ZMM_idx_SLOT (TO_YMM_REG_INDEX dst_spill_reg)) OPSZ_32 in
      rw_replace [i1; i2; i3; i4]
  | 3 =>
      let spill_reg := YMM_SPILL_SLOT0 in
      let op_spill := opnd_create_reg spill_reg in
      let i1 := SAVE_SIMD_TO_SIZED_TLS spill_reg (TLS_ZMM_idx_SLOT (TO_YMM_REG_INDEX spill_reg)) OPSZ_32 in
      let i2 := RESTORE_SIMD_FROM_SIZED_TLS spill_reg (TLS_ZMM_idx_SLOT (TO_YMM_REG_INDEX src_reg)) OPSZ_32 in
      let i3 := INSTR_CREATE_2 op op_spill op_spill in
      let i4 := SAVE_SIMD_TO_SIZED_TLS spill_reg (TLS_ZMM_idx_SLOT (TO_YMM_REG_INDEX dst_reg)) OPSZ_32 in
      let i5 := RESTORE_SIMD_FROM_SIZED_TLS spill_reg (TLS_ZMM_idx_SLOT (TO_YMM_REG_INDEX spill_reg)) OPSZ_32 in
      rw_replace [i1; i2; i3; i4; i5]
  | _ =>
      rw_removed_null
  end.

(** The text that all but [vpmovzxwd] share on xmm registers. *)
Definition xmm_extend_gen (op : opcode) (src_reg dst_reg mask_reg : reg_id_t) : rw_result :=
  let src_need_spill_flag := (if NEED_SPILL_XMM src_reg then 1 else 0) in
  let dst_need_spill_flag := (if NEED_SPILL_XMM dst_reg then 2 else 0) in
  let need_spill_flag := Z.lor src_need_spill_flag dst_need_spill_flag in
  match need_spill_flag with
  | 0 =>
      let op_src := opnd_create_reg src_reg in
      let op_dst := opnd_create_reg dst_reg in
      let i1 := INSTR_CREATE_2 op op_dst op_src in
      rw_replace [i1]
  | 1 =>
      let src_spill_reg := find_one_available_spill_xmm dst_reg in
      let op_src_spill := opnd_create_reg src_spill_reg in
      let op_dst := opnd_create_reg dst_reg in
      let i1 := SAVE_SIMD_TO_SIZED_TLS src_spill_reg (TLS_ZMM_idx_SLOT (TO_XMM_REG_INDEX src_spill_reg)) OPSZ_16 in
      let i2 := RESTORE_SIMD_FROM_SIZED_TLS src_spill_reg (TLS_ZMM_idx_SLOT (TO_XMM_REG_INDEX src_reg)) OPSZ_16 in
      let i3 := INSTR_CREATE_2 op op_dst op_src_spill in
      let i4 := RESTORE_SIMD_FROM_SIZED_TLS src_spill_reg (TLS_ZMM_idx_SLOT (TO_XMM_REG_INDEX src_spill_reg)) OPSZ_16 in
      rw_replace [i1; i2; i3; i4]
  | 2 =>
      let dst_spill_reg := find_one_available_spill_xmm src_reg in
      let op_dst_spill := opnd_create_reg dst_spill_reg in
      let op_src := opnd_create_reg src_reg in
      let i1 := SAVE_SIMD_TO_SIZED_TLS dst_spill_reg (TLS_ZMM_idx_SLOT (TO_XMM_REG_INDEX dst_spill_reg)) OPSZ_16 in
      let i2 := INSTR_CREATE_2 op op_dst_spill op_src in
      let i3 := SAVE_SIMD_TO_SIZED_TLS dst_spill_reg (TLS_ZMM_idx_SLOT (TO_XMM_REG_INDEX dst_reg)) OPSZ_16 in
      let i4 := RESTORE_SIMD_FROM_SIZED_TLS dst_spill_reg (TLS_ZMM_idx_SLOT (TO_XMM_REG_INDEX dst_spill_reg)) OPSZ_16 in
      rw_replace [i1; i2; i3; i4]
  | 3 =>
      let spill_reg := XMM_SPILL_SLOT0 in
      let op_spill := opnd_create_reg spill_reg in
      let i1 := SAVE_SIMD_TO_SIZED_TLS spill_reg (TLS_ZMM_idx_SLOT (TO_XMM_REG_INDEX spill_reg)) OPSZ_16 in
      let i2 := RESTORE_SIMD_FROM_SIZED_TLS spill_reg (TLS_ZMM_idx_SLOT (TO_XMM_REG_INDEX src_reg)) OPSZ_16 in
      let i3 := INSTR_CREATE_2 op op_spill op_spill in
      let i4 := SAVE_SIMD_TO_SIZED_TLS spill_reg (TLS_ZMM_idx_SLOT (TO_XMM_REG_INDEX dst_reg)) OPSZ_16 in
      let i5 := RESTORE_SIMD_FROM_SIZED_TLS spill_reg (TLS_ZMM_idx_SLOT (TO_XMM_REG_INDEX spill_reg)) OPSZ_16 in
      rw_replace [i1; i2; i3; i4; i5]
  | _ =>
      rw_removed_null
  end.

(** *** [vpmovsxwd] *)

Definition vpmovsxwd_zmm_reg2reg_gen (src_reg dst_reg mask_reg : reg_id_t) : rw_result := rw_null.

Definition vpmovsxwd_ymm_reg2reg_gen : reg_id_t -> reg_id_t -> reg_id_t -> rw_result := ymm_extend_gen OP_vpmovsxwd.

Definition vpmovsxwd_xmm_reg2reg_gen : reg_id_t -> reg_id_t -> reg_id_t -> rw_result := xmm_extend_gen OP_vpmovsxwd.

Definition rw_func_vpmovsxwd (instr : instr_t) : rw_result :=
  let mask_opnd := instr_get_src instr 0 in
  let mask_reg := opnd_get_reg mask_opnd in
  let src_opnd := instr_get_src instr 1 in
  let dst_opnd := instr_get_dst instr 0 in
  match (opnd_kind src_opnd) with
  | REG_kind =>
      let src_reg := opnd_get_reg src_opnd in
      match (opnd_kind dst_opnd) with
      | REG_kind =>
          let dst_reg := opnd_get_reg dst_opnd in
          if IS_YMM_REG dst_reg then
            vpmovsxwd_ymm_reg2reg_gen src_reg dst_reg mask_reg
          else
            if IS_XMM_REG dst_reg then
              vpmovsxwd_xmm_reg2reg_gen src_reg dst_reg mask_reg
            else
              if IS_ZMM_REG dst_reg then
                vpmovsxwd_zmm_reg2reg_gen src_reg dst_reg mask_reg
              else
                rw_null
      | _ =>
          rw_null
      end
  | _ =>
      rw_null
  end.

(** *** [vpmovsxdq] *)

Definition vpmovsxdq_zmm_reg2reg_gen (src_reg dst_reg mask_reg : reg_id_t) : rw_result := rw_null.

Definition vpmovsxdq_ymm_reg2reg_gen (src_reg dst_reg mask_reg : reg_id_t) : rw_result :=
  let src_need_spill_flag := (if NEED_SPILL_YMM src_reg then 1 else 0) in
  let dst_need_spill_flag := (if NEED_SPILL_YMM dst_reg then 2 else 0) in
  let need_spill_flag := Z.lor src_need_spill_flag dst_need_spill_flag in
  match need_spill_flag with
  | 0 =>
      let op_src := opnd_create_reg_partial src_reg OPSZ_16 in
      let op_dst := opnd_create_reg dst_reg in
      let i1 := instr_create_1dst_1src OP_vpmovsxdq op_dst op_src in
      rw_replace [i1]
  | 1 =>
      let src_spill_reg := find_one_available_spill_ymm dst_reg in
      let op_src_spill_xmm := opnd_create_reg_partial src_spill_reg OPSZ_16 in
      let op_dst := opnd_create_reg dst_reg in
      let i1 := SAVE_SIMD_TO_SIZED_TLS src_spill_reg (TLS_ZMM_idx_SLOT (TO_YMM_REG_INDEX src_spill_reg)) OPSZ_32 in
      let i2 := RESTORE_SIMD_FROM_SIZED_TLS src_spill_reg (TLS_ZMM_idx_SLOT (TO_YMM_REG_INDEX src_reg)) OPSZ_32 in
      let i3 := INSTR_CREATE_2 OP_vpmovsxdq op_dst op_src_spill_xmm in
      let i4 := RESTORE_SIMD_FROM_SIZED_TLS src_spill_reg (TLS_ZMM_idx_SLOT (TO_YMM_REG_INDEX src_spill_reg)) OPSZ_32 in
      rw_replace [i1; i2; i3; i4]
  | 2 =>
      let dst_spill_reg := find_one_available_spill_ymm src_reg in
      let op_dst_spill := opnd_create_reg dst_spill_reg in
      let op_src := opnd_create_reg_partial src_reg OPSZ_16 in
      let i1 := SAVE_SIMD_TO_SIZED_TLS dst_spill_reg (TLS_ZMM_idx_SLOT (TO_YMM_REG_INDEX dst_spill_reg)) OPSZ_32 in
      let i2 := INSTR_CREATE_2 OP_vpmovsxdq op_dst_spill op_src in
      let i3 := SAVE_SIMD_TO_SIZED_TLS dst_spill_reg (TLS_ZMM_idx_SLOT (TO_YMM_REG_INDEX dst_reg)) OPSZ_32 in
      let i4 := RESTORE_SIMD_FROM_SIZED_TLS dst_spill_reg (TLS_ZMM_idx_SLOT (TO_YMM_REG_INDEX dst_spill_reg)) OPSZ_32 in
      rw_replace [i1; i2; i3; i4]
  | 3 =>
      let spill_reg := YMM_SPILL_SLOT0 in
      let op_spill := opnd_create_reg spill_reg in
      let op_spill_xmm := opnd_create_reg_partial spill_reg OPSZ_16 in
      let i1 := SAVE_SIMD_TO_SIZED_TLS spill_reg (TLS_ZMM_idx_SLOT (TO_YMM_REG_INDEX spill_reg)) OPSZ_32 in
      let i2 := RESTORE_SIMD_FROM_SIZED_TLS spill_reg (TLS_ZMM_idx_SLOT (TO_YMM_REG_INDEX src_reg)) OPSZ_32 in
      let i3 := INSTR_CREATE_2 OP_vpmovsxdq op_spill op_spill_xmm in
      let i4 := SAVE_SIMD_TO_SIZED_TLS spill_reg (TLS_ZMM_idx_SLOT (TO_YMM_REG_INDEX dst_reg)) OPSZ_32 in
      let i5 := RESTORE_SIMD_FROM_SIZED_TLS spill_reg (TLS_ZMM_idx_SLOT (TO_YMM_REG_INDEX spill_reg)) OPSZ_32 in
      rw_replace [i1; i2; i3; i4; i5]
  | _ =>
      rw_removed_null
  end.

Definition vpmovsxdq_xmm_reg2reg_gen : reg_id_t -> reg_id_t -> reg_id_t -> rw_result := xmm_extend_gen OP_vpmovsxdq.

Definition rw_func_vpmovsxdq (instr : instr_t) : rw_result :=
  let mask_opnd := instr_get_src instr 0 in
  let mask_reg := opnd_get_reg mask_opnd in
  let src_opnd := instr_get_src instr 1 in
  let dst_opnd := instr_get_dst instr 0 in
  match (opnd_kind src_opnd) with
  | REG_kind =>
      let src_reg := opnd_get_reg src_opnd in
      let dst_reg := opnd_get_reg dst_opnd in
      if IS_YMM_REG dst_reg then
        vpmovsxdq_ymm_reg2reg_gen src_reg dst_reg mask_reg
      else
        if IS_XMM_REG dst_reg then
          vpmovsxdq_xmm_reg2reg_gen src_reg dst_reg mask_reg
        else
          if IS_ZMM_REG dst_reg then
            vpmovsxdq_zmm_reg2reg_gen src_reg dst_reg mask_reg
          else
            rw_null
  | BASE_DISP_kind =>
      rw_null
  | _ =>
      rw_null
  end.

(** *** [vpmovzxbw] *)

Definition vpmovzxbw_zmm_reg2reg_gen (src_reg dst_reg mask_reg : reg_id_t) : rw_result := rw_null.

Definition vpmovzxbw_ymm_reg2reg_gen : reg_id_t -> reg_id_t -> reg_id_t -> rw_result := ymm_extend_gen OP_vpmovzxbw.

Definition vpmovzxbw_xmm_reg2reg_gen : reg_id_t -> reg_id_t -> reg_id_t -> rw_result := xmm_extend_gen OP_vpmovzxbw.

Definition rw_func_vpmovzxbw (instr : instr_t) : rw_result :=
  let mask_opnd := instr_get_src instr 0 in
  let mask_reg := opnd_get_reg mask_opnd in
  let src_opnd := instr_get_src instr 1 in
  let dst_opnd := instr_get_dst instr 0 in
  match (opnd_kind src_opnd) with
  | REG_kind =>
      let src_reg := opnd_get_reg src_opnd in
      match (opnd_kind dst_opnd) with
      | REG_kind =>
          let dst_reg := opnd_get_reg dst_opnd in
          if IS_ZMM_REG dst_reg then
            vpmovzxbw_zmm_reg2reg_gen src_reg dst_reg mask_reg
          else
            if IS_YMM_REG dst_reg then
              vpmovzxbw_ymm_reg2reg_gen src_reg dst_reg mask_reg
            else
              if IS_XMM_REG dst_reg then
                vpmovzxbw_xmm_reg2reg_gen src_reg dst_reg mask_reg
              else
                rw_null
      | _ =>
          rw_null
      end
  | _ =>
      rw_null
  end.

(** *** [vpmovzxwd] *)

Definition vpmovzxwd_zmm_reg2reg_gen (src_reg dst_reg mask_reg : reg_id_t) : rw_result := rw_null.

Definition vpmovzxwd_ymm_reg2reg_gen (src_reg dst_reg mask_reg : reg_id_t) : rw_result :=
  let src_opnd := create_mapping_ymm_opnd src_reg in
  let dst_opnd := create_mapping_ymm_opnd dst_reg in
  let new_instr1 := instr_create_1dst_1src OP_vpmovzxwd dst_opnd src_opnd in
  rw_replace [new_instr1].

Definition vpmovzxwd_xmm_reg2reg_gen (src_reg dst_reg mask_reg : reg_id_t) : rw_result :=
  let src_need_spill_flag := (if NEED_SPILL_XMM src_reg then 1 else 0) in
  let dst_need_spill_flag := (if NEED_SPILL_XMM dst_reg then 2 else 0) in
  let need_spill_flag := Z.lor src_need_spill_flag dst_need_spill_flag in
  match need_spill_flag with
  | 0 =>
      let op_src := opnd_create_reg src_reg in
      let op_dst := opnd_create_reg dst_reg in
      let i1 := INSTR_CREATE_2 OP_vpmovzxwd op_dst op_src in
      rw_replace [i1]
  | 1 =>
      let op_dst := opnd_create_reg dst_reg in
      let spill_src_reg := find_one_available_spill_xmm src_reg in
      let op_src_spill := opnd_create_reg spill_src_reg in
      let i1 := SAVE_SIMD_TO_SIZED_TLS spill_src_reg (TLS_ZMM_idx_SLOT (TO_XMM_REG_INDEX spill_src_reg)) OPSZ_16 in
      let i2 := RESTORE_SIMD_FROM_SIZED_TLS spill_src_reg (TLS_ZMM_idx_SLOT (TO_XMM_REG_INDEX src_reg)) OPSZ_16 in
      let i3 := INSTR_CREATE_2 OP_vpmovzxwd op_dst op_src_spill in
      let i4 := RESTORE_SIMD_FROM_SIZED_TLS spill_src_reg (TLS_ZMM_idx_SLOT (TO_XMM_REG_INDEX spill_src_reg)) OPSZ_16 in
      rw_replace [i1; i2; i3; i4]
  | 2 =>
      let op_src := opnd_create_reg src_reg in
      let spill_dst_reg := find_one_available_spill_xmm src_reg in
      let op_dst_spill := opnd_create_reg spill_dst_reg in
      let i1 := SAVE_SIMD_TO_SIZED_TLS spill_dst_reg (TLS_ZMM_idx_SLOT (TO_XMM_REG_INDEX spill_dst_reg)) OPSZ_16 in
      let i2 := INSTR_CREATE_2 OP_vpmovzxwd op_dst_spill op_src in
      let i3 := SAVE_SIMD_TO_SIZED_TLS spill_dst_reg (TLS_ZMM_idx_SLOT (TO_XMM_REG_INDEX dst_reg)) OPSZ_16 in
      let i4 := RESTORE_SIMD_FROM_SIZED_TLS spill_dst_reg (TLS_ZMM_idx_SLOT (TO_XMM_REG_INDEX spill_dst_reg)) OPSZ_16 in
      rw_replace [i1; i2; i3; i4]
  | 3 =>
      let xmm_tmp_reg := XMM_SPILL_SLOT0 in
      let op_xmm_tmp := opnd_create_reg xmm_tmp_reg in
      let i1 := SAVE_SIMD_TO_SIZED_TLS xmm_tmp_reg (TLS_ZMM_idx_SLOT (TO_XMM_REG_INDEX xmm_tmp_reg)) OPSZ_16 in
      let i2 := RESTORE_SIMD_FROM_SIZED_TLS xmm_tmp_reg (TLS_ZMM_idx_SLOT (TO_XMM_REG_INDEX src_reg)) OPSZ_16 in
      let i3 := INSTR_CREATE_2 OP_vpmovzxwd op_xmm_tmp op_xmm_tmp in
      let i4 := SAVE_SIMD_TO_SIZED_TLS xmm_tmp_reg (TLS_ZMM_idx_SLOT (TO_XMM_REG_INDEX dst_reg)) OPSZ_16 in
      let i5 := RESTORE_SIMD_FROM_SIZED_TLS xmm_tmp_reg (TLS_ZMM_idx_SLOT (TO_XMM_REG_INDEX xmm_tmp_reg)) OPSZ_16 in
      rw_replace [i1; i2; i3; i4; i5]
  | _ =>
      rw_removed_null
  end.

Definition rw_func_vpmovzxwd (instr : instr_t) : rw_result :=
  let mask_opnd := instr_get_src instr 0 in
  let mask_reg := opnd_get_reg mask_opnd in
  let src_opnd := instr_get_src instr 1 in
  let dst_opnd := instr_get_dst instr 0 in
  match (opnd_kind src_opnd) with
  | REG_kind =>
      let src_reg := opnd_get_reg src_opnd in
      match (opnd_kind dst_opnd) with
      | REG_kind =>
          let dst_reg := opnd_get_reg dst_opnd in
          if IS_YMM_REG dst_reg then
            vpmovzxwd_ymm_reg2reg_gen src_reg dst_reg mask_reg
          else
            if IS_XMM_REG dst_reg then
              vpmovzxwd_xmm_reg2reg_gen src_reg dst_reg mask_reg
            else
              if IS_ZMM_REG dst_reg then
                vpmovzxwd_zmm_reg2reg_gen src_reg dst_reg mask_reg
              else
                rw_null
      | _ =>
          rw_null
      end
  | _ =>
      rw_null
  end.

(** *** [vpmovzxdq] *)

Definition vpmovzxdq_zmm_reg2reg_gen (src_reg dst_reg mask_reg : reg_id_t) : rw_result := rw_null.

Definition vpmovzxdq_ymm_reg2reg_gen : reg_id_t -> reg_id_t -> reg_id_t -> rw_result := ymm_extend_gen OP_vpmovzxdq.

Definition vpmovzxdq_xmm_reg2reg_gen : reg_id_t -> reg_id_t -> reg_id_t -> rw_result := xmm_extend_gen OP_vpmovzxdq.

Definition rw_func_vpmovzxdq (instr : instr_t) : rw_result :=
  let mask_opnd := instr_get_src instr 0 in
  let mask_reg := opnd_get_reg mask_opnd in
  let src_opnd := instr_get_src instr 1 in
  let dst_opnd := instr_get_dst instr 0 in
  match (opnd_kind src_opnd) with
  | REG_kind =>
      let src_reg := opnd_get_reg src_opnd in
      match (opnd_kind dst_opnd) with
      | REG_kind =>
          let dst_reg := opnd_get_reg dst_opnd in
          if IS_XMM_REG dst_reg then
            vpmovzxdq_xmm_reg2reg_gen src_reg dst_reg mask_reg
          else
            if IS_YMM_REG dst_reg then
              vpmovzxdq_ymm_reg2reg_gen src_reg dst_reg mask_reg
            else
              if IS_ZMM_REG dst_reg then
                vpmovzxdq_zmm_reg2reg_gen src_reg dst_reg mask_reg
              else
                rw_null
      | _ =>
          rw_null
      end
  | _ =>
      rw_null
  end.

(** ** The instruction and its execution *)

(** Lane [l] of the result extends half [l mod 2] of lane [l / 2] of the source. *)
Definition vec_extend_keep (n : Z) (f : Z -> Z -> Z) (d a : Z) (g : guest) : guest :=
  set_zmm g d (fun l => if l <? n then f (l mod 2) (g_zmm g a (l / 2)) else g_zmm g d l).
Definition vec_extend (n : Z) (f : Z -> Z -> Z) (d a : Z) (g : guest) : guest :=
  set_zmm g d (fun l => if l <? n then f (l mod 2) (g_zmm g a (l / 2)) else 0).

Lemma extend_low n f d a r :
  rewrites (vec_extend_keep n f d a) r -> rewrites_low n d (vec_extend_keep n f d a) (vec_extend n f d a) r.
Proof. apply rewrites_low_intro; intros g; apply (set_zmm_keep_zero n d (fun l => f (l mod 2) (g_zmm g a (l / 2)))). Qed.

Definition st_ext (s : mach) (f : Z -> Z -> Z) (d : Z) (n : nat) (a : Z) : mach :=
  set_simd s d n (fun l => f (l mod 2) (simd s a (l / 2))).

Lemma exec_ext op f d a n i j s :
  lane_ext op = Some f -> avx2_reg d = Some (n, i) -> avx2_reg a = Some (n, j) ->
  exec (instr_create_1dst_1src op (opnd_create_reg d) (opnd_create_reg a)) s = Some (st_ext s f i n j).
Proof.
  intros Hop Hd Ha.
  assert (E : exec (instr_create_1dst_1src op (opnd_create_reg d) (opnd_create_reg a)) s
            = exec_vext f [OPND_REG d] [OPND_REG a] s)
    by (destruct op; try discriminate Hop; injection Hop as <-; reflexivity).
  rewrite E; unfold exec_vext; rewrite Hd, Ha; cbn [obind]; now rewrite Nat.eqb_refl.
Qed.

Section Steps.
Context (op : opcode) (f : Z -> Z -> Z) (Hop : lane_ext op = Some f).
Context (s : mach) (k : list instr_t) (r a : Z) (Hr : 0 <= r < 16) (Ha : 0 <= a < 16).

Lemma run_ext_ymm :
  run (instr_create_1dst_1src op (opnd_create_reg (ymm r)) (opnd_create_reg (ymm a)) :: k) s = run k (st_ext s f r 2 a).
Proof. cbn [run]; now rewrite (exec_ext _ f _ _ 2 r a) by auto using avx2_reg_ymm. Qed.

Lemma run_ext_xmm :
  run (instr_create_1dst_1src op (opnd_create_reg (xmm r)) (opnd_create_reg (xmm a)) :: k) s = run k (st_ext s f r 1 a).
Proof. cbn [run]; now rewrite (exec_ext _ f _ _ 1 r a) by auto using avx2_reg_xmm. Qed.

Lemma rd_ext j l (Hl : 0 <= l < 2) :
  simd (st_ext s f r 2 a) j l = if j =? r then wrap 128 (f l (simd s a 0)) else simd s j l.
Proof.
  unfold st_ext; cbn [simd set_simd with_simd]; rewrite (Z.mod_small l 2), (Z.div_small l 2) by lia.
  change (Z.of_nat 2) with 2; repeat zdecide; reflexivity.
Qed.

Lemma rd1_ext_0 j : simd (st_ext s f r 1 a) j 0 = if j =? r then wrap 128 (f 0 (simd s a 0)) else simd s j 0.
Proof. reflexivity. Qed.
Lemma rd1_ext_1 j : simd (st_ext s f r 1 a) j 1 = if j =? r then 0 else simd s j 1.
Proof. reflexivity. Qed.
End Steps.

Lemma same_frame_ext s t f d n a : same_frame s t -> same_frame s (st_ext t f d n a).
Proof. exact (fun H => H). Qed.
Lemma tls_ext s f d n a : tls (st_ext s f d n a) = tls s.
Proof. reflexivity. Qed.

#[global] Opaque st_ext.

(** ** Correctness of the generators *)

Class ExtOp (f : Z -> Z -> Z) : Prop := ext_op_range : forall h x, 0 <= f h x < 2 ^ 128.

Lemma lane_ext_op op f : lane_ext op = Some f -> ExtOp f.
Proof. destruct op; intros H; try discriminate H; injection H as <-; intros h x; apply lane_of_128; reflexivity. Qed.

Lemma wrap_extended f h x : ExtOp f -> wrap 128 (f h x) = f h x.
Proof. intros H; apply wrap_id, H. Qed.

Ltac ext_run Hop :=
  unfold INSTR_CREATE_2 in *;
  repeat first
    [ rewrite run_save_ymm by lia | rewrite run_load_ymm by lia | rewrite run_save_xmm by lia | rewrite run_load_xmm by lia
    | rewrite (run_ext_ymm _ _ Hop) by lia | rewrite (run_ext_xmm _ _ Hop) by lia ];
  cbn [run].

Ltac ext_read :=
  repeat first
    [ idx_decide | sym_read1
    | match goal with
      | |- context [tls (st_ext ?s ?f ?d ?n ?a)] => rewrite (tls_ext s f d n a)
      | |- context [simd (st_ext ?s ?f ?r 1 ?a) ?j 0] => rewrite (rd1_ext_0 f s r a j)
      | |- context [simd (st_ext ?s ?f ?r 1 ?a) ?j 1] => rewrite (rd1_ext_1 f s r a j)
      | |- context [simd (st_ext ?s ?f ?r 2 ?a) ?j ?l] => rewrite (rd_ext f s r a j l) by assumption
      end ].

Ltac ext_frame :=
  repeat match goal with
  | |- same_frame ?s (st_ext ?t ?f ?d ?n ?a) => apply (same_frame_ext s t f d n a)
  | |- same_frame ?s (st_load ?t ?r ?n ?i ?m) => apply (same_frame_load s t r n i m)
  | |- same_frame ?s (st_save ?t ?r ?n ?i ?m) => apply (same_frame_save s t r n i m); [lia|lia|]
  end;
  apply same_frame_refl.

Ltac ext_wrap :=
  repeat first [ rewrite wrap_extended by assumption | rewrite wrap_simd by assumption
               | rewrite wrap_tls_lane by assumption | rewrite wrap_wrap by lia ].

Ltac ext_solve_ymm :=
  apply view_set_zmm; [ext_frame| | | ]; intros i l Hi Hl;
  pose proof (conj (Z.le_refl 0) Z.lt_0_2 : 0 <= 0 < 2);
  rewrite ?(Z.mod_small l 2), ?(Z.div_small l 2) by lia; ext_read; repeat sym_spec1; ext_wrap; reflexivity.

Ltac ext_solve_xmm :=
  apply view_set_zmm; [ext_frame| | | ]; intros i l Hi Hl;
  first [ match goal with |- context [tls_lane _ _ (2 + l)] => idtac end
        | assert (l = 0 \/ l = 1) as [-> | ->] by lia; change (0 / 2) with 0; change (0 mod 2) with 0 ];
  ext_read; repeat sym_spec1; ext_wrap; sym_close.

Section Extend.
Context (op : opcode) (f : Z -> Z -> Z) (Hop : lane_ext op = Some f) (a d : Z) (k : reg_id_t).
Context (Ha : 0 <= a < 32) (Hd : 0 <= d < 32).

Ltac ext_emit :=
  repeat pick_spill; autorewrite with rw_regs;
  (eexists; split; [reflexivity|]); first [apply translates_intro; intros c Hc | apply translates_if_intro; intros c Hc Hp];
  (eexists; split; [ext_run Hop; reflexivity|]).

Lemma ymm_extend_correct : rewrites (vec_extend_keep 2 f d a) (ymm_extend_gen op (ymm a) (ymm d) k).
Proof. pose proof (lane_ext_op op f Hop); unfold ymm_extend_gen; two_cases a d; ext_emit; ext_solve_ymm. Qed.

Lemma xmm_extend_correct : rewrites_if (xmm_pre d) (vec_extend 1 f d a) (xmm_extend_gen op (xmm a) (xmm d) k).
Proof. pose proof (lane_ext_op op f Hop); unfold xmm_extend_gen; two_cases a d; ext_emit; ext_solve_xmm. Qed.
End Extend.

(** [vpmovsxdq] names part of its source register, which is encoded as the
    register. *)
Lemma vpmovsxdq_ymm_eq a d k : vpmovsxdq_ymm_reg2reg_gen a d k = ymm_extend_gen OP_vpmovsxdq a d k.
Proof. reflexivity. Qed.

(** [vpmovzxwd] avoids its source, where it should avoid its destination. *)
Definition zxwd_xmm_ok (a d : Z) : bool := negb ((16 <=? a) && (d =? 10)).

Section Zxwd.
Context (a d : Z) (k : reg_id_t) (Ha : 0 <= a < 32) (Hd : 0 <= d < 32).
Let Hop : lane_ext OP_vpmovzxwd = Some (pmovzx 16) := eq_refl.

Lemma vpmovzxwd_xmm_correct : zxwd_xmm_ok a d = true ->
  rewrites_if (xmm_pre d) (vec_extend 1 (pmovzx 16) d a) (vpmovzxwd_xmm_reg2reg_gen (xmm a) (xmm d) k).
Proof.
  intros Hok; pose proof (lane_ext_op _ _ Hop); unfold vpmovzxwd_xmm_reg2reg_gen; two_cases a d;
    try (rewrite (find_one_xmm_high a) by assumption;
         assert (d <> 10) by (intros ->; unfold zxwd_xmm_ok in Hok; zbool; apply andb_false_iff in Hok as [Hok|Hok]; zbool; lia); hide_neq);
    repeat pick_spill; autorewrite with rw_regs; (eexists; split; [reflexivity|]); apply translates_if_intro; intros c Hc Hp;
    (eexists; split; [ext_run Hop; reflexivity|]); ext_solve_xmm.
Qed.

Lemma vpmovzxwd_ymm_correct : a < 16 -> d < 16 ->
  rewrites (vec_extend_keep 2 (pmovzx 16) d a) (vpmovzxwd_ymm_reg2reg_gen (ymm a) (ymm d) k).
Proof.
  intros La Ld; pose proof (lane_ext_op _ _ Hop); (eexists; split; [reflexivity|]); apply translates_intro; intros c Hc.
  unfold create_mapping_ymm_opnd; (eexists; split; [ext_run Hop; reflexivity|]); ext_solve_ymm.
Qed.

Lemma vpmovzxwd_ymm_high s : 16 <= a \/ 16 <= d ->
  forall code, rw_code (vpmovzxwd_ymm_reg2reg_gen (ymm a) (ymm d) k) = Some code -> run code s = None.
Proof.
  intros H code E; injection E as <-; cbn [run]; unfold create_mapping_ymm_opnd, exec, exec_simd, exec_cross, exec_vext; cbn -[avx2_reg ymm].
  destruct H; [rewrite (avx2_reg_ymm_high a) by lia; destruct (avx2_reg (ymm d)) as [[]|]|rewrite (avx2_reg_ymm_high d) by lia]; reflexivity.
Qed.
End Zxwd.

(** ** Theorems *)

(** An extension as the decoder lays it out: mask and source. *)
Definition extend_instr (op : opcode) (mask d a : reg_id_t) : instr_t :=
  mk_instr op [opnd_create_reg d] [opnd_create_reg mask; opnd_create_reg a].

(** The five instructions, what they do to an element, and their functions. *)
Definition extensions : list (opcode * (Z -> Z -> Z) * (instr_t -> rw_result)) :=
  [(OP_vpmovsxwd, pmovsx 16, rw_func_vpmovsxwd); (OP_vpmovsxdq, pmovsx 32, rw_func_vpmovsxdq);
   (OP_vpmovzxbw, pmovzx 8, rw_func_vpmovzxbw); (OP_vpmovzxwd, pmovzx 16, rw_func_vpmovzxwd);
   (OP_vpmovzxdq, pmovzx 32, rw_func_vpmovzxdq)].

(** The operands on which the code is right. *)
Definition extend_ymm_ok (op : opcode) (a d : Z) : bool := match op with OP_vpmovzxwd => (a <? 16) && (d <? 16) | _ => true end.
Definition extend_xmm_ok (op : opcode) (a d : Z) : bool := match op with OP_vpmovzxwd => zxwd_xmm_ok a d | _ => true end.

Ltac extend_func W d :=
  let W1 := fresh in let W2 := fresh in let W3 := fresh in
  destruct (W d ltac:(assumption)) as (W1 & W2 & W3);
  unfold rw_func_vpmovsxwd, rw_func_vpmovsxdq, rw_func_vpmovzxbw, rw_func_vpmovzxwd, rw_func_vpmovzxdq,
    extend_instr, instr_get_src, instr_get_dst, opnd_create_reg;
  cbn [instr_srcs instr_dsts nth opnd_get_reg opnd_kind]; rewrite ?W1, ?W2, ?W3.

(** C21: The sign and zero extensions [vpmovsxwd], [vpmovsxdq], [vpmovzxbw],
    [vpmovzxwd] and [vpmovzxdq].  On ymm registers the code extends the elements
    of the low half of the source into the two lanes of the destination and
    leaves bits 511:256, and so has the documented effect, which zeroes them,
    from the states where they are zero: for every pair of registers, but for
    [vpmovzxwd] only for low ones; what it emits for a high one does not encode.
    On xmm registers the code has the documented effect from the states of
    [xmm_pre] for every pair of registers, but for [vpmovzxwd] not from a high
    register to xmm10.  The zmm forms return NULL. *)
Theorem extensions_correct op f func a d :
  In (op, f, func) extensions -> 0 <= a < 32 -> 0 <= d < 32 ->
  (if extend_ymm_ok op a d
   then rewrites_low 2 d (vec_extend_keep 2 f d a) (vec_extend 2 f d a) (func (extend_instr op DR_REG_K0 (ymm d) (ymm a)))
   else forall code s, rw_code (func (extend_instr op DR_REG_K0 (ymm d) (ymm a))) = Some code -> run code s = None) /\
  (extend_xmm_ok op a d = true ->
   rewrites_if (xmm_pre d) (vec_extend 1 f d a) (func (extend_instr op DR_REG_K0 (xmm d) (xmm a)))) /\
  func (extend_instr op DR_REG_K0 (zmm d) (zmm a)) = rw_null.
Proof.
  intros Hin Ha Hd; split; [|split]; revert Hin;
    (intros [E|[E|[E|[E|[E|[]]]]]]; injection E as <- <- <-; cbn [extend_ymm_ok extend_xmm_ok]).
  1-5: extend_func ymm_width d.
  6-10: intros H; extend_func xmm_width d.
  11-15: extend_func zmm_width d; reflexivity.
  all: try (now apply extend_low, ymm_extend_correct); try (now apply xmm_extend_correct).
  - destruct ((a <? 16) && (d <? 16)) eqn:El.
    + zbool; now apply extend_low, vpmovzxwd_ymm_correct.
    + intros code s; apply vpmovzxwd_ymm_high; [assumption..|]; apply andb_false_iff in El as [El|El]; zbool; lia.
  - now apply vpmovzxwd_xmm_correct.
Qed.

Lemma extensions_correct_witness :
  rewrites_low 2 20 (vec_extend_keep 2 (pmovsx 32) 20 4) (vec_extend 2 (pmovsx 32) 20 4)
    (rw_func_vpmovsxdq (extend_instr OP_vpmovsxdq DR_REG_K0 (ymm 20) (ymm 4))).
Proof. apply (extensions_correct OP_vpmovsxdq (pmovsx 32) rw_func_vpmovsxdq 4 20); [right; left; reflexivity|lia|lia]. Defined.

(** What the last exception does. *)
Example vpmovzxwd_xmm10_lost k :
  ~ rewrites_if (xmm_pre 10) (vec_extend 1 (pmovzx 16) 10 20) (rw_func_vpmovzxwd (extend_instr OP_vpmovzxwd k (xmm 10) (xmm 20))).
Proof.
  apply (not_rewrites_if_lane _ _ _ (probe_low 0) 10 0); [apply probe_low_wf|eval_xmm_pre|lia|lia|vm_compute; discriminate].
Qed.
