(* ===== verification/GenBroadcast.v ===== *)
(** * Broadcasts and extracts

    [vpbroadcastb], [vpbroadcastw], [vpbroadcastd] and [vpbroadcastq] from a
    general-purpose register or from memory, and the extraction of a 128-bit lane
    of a ymm register ([vextracti32x4], [vextracti64x2], [vextractf64x2]). *)
From Stdlib Require Import ZArith List Bool Lia.
From S2P Require Import Prelude Regs Spill Bytes Lanes Machine Arch512 SymExec GenYmm GenXmm GenMov GenMem GenShift.
Import ListNotations.
#[local] Open Scope Z_scope.
#[local] Open Scope bool_scope.
#[local] Open Scope rw_scope.

(** ** [vpbroadcastb] *)

Definition vpbroadcastb_zmm_reg2reg_gen (src_opnd dst_opnd : opnd_t) (src_reg dst_reg mask_reg : reg_id_t) : rw_result :=
  let k_idx := TO_K_REG_INDEX mask_reg in
  let ymm_dst_idx := TO_YMM_REG_INDEX dst_reg in
  let dst_need_spill := (if NEED_SPILL_YMM dst_reg then 1 else 0) in
  if k_idx =? 0 then
    if (dst_need_spill =? 0) then
      let dst_reg_lower := ZMM_TO_YMM dst_reg in
      let op_dst_lower := opnd_create_reg dst_reg_lower in
      let i1 := instr_create_1dst_1src OP_vpbroadcastb op_dst_lower src_opnd in
      let i2 := SAVE_SIMD_TO_SIZED_TLS dst_reg_lower (TLS_ZMM_idx_SLOT (TO_ZMM_REG_INDEX dst_reg)) OPSZ_32 in
      let i3 := SAVE_SIMD_TO_SIZED_TLS dst_reg_lower (TLS_ZMM_idx_SLOT (TO_ZMM_REG_INDEX dst_reg) + SIZE_OF_YMM) OPSZ_32 in
      rw_replace [i1; i2; i3]
    else
      let spill_dst_reg := YMM_SPILL_SLOT0 in
      let op_ymm_spill := opnd_create_reg spill_dst_reg in
      let i1 := SAVE_SIMD_TO_SIZED_TLS spill_dst_reg (TLS_ZMM_idx_SLOT (TO_YMM_REG_INDEX spill_dst_reg)) OPSZ_32 in
      let i2 := INSTR_CREATE_2 OP_vpbroadcastb op_ymm_spill src_opnd in
      let i3 := SAVE_SIMD_TO_SIZED_TLS spill_dst_reg (TLS_ZMM_idx_SLOT ymm_dst_idx) OPSZ_32 in
      let i4 := SAVE_SIMD_TO_SIZED_TLS spill_dst_reg (TLS_ZMM_idx_SLOT ymm_dst_idx + SIZE_OF_YMM) OPSZ_32 in
      let i5 := RESTORE_SIMD_FROM_SIZED_TLS spill_dst_reg (TLS_ZMM_idx_SLOT (TO_YMM_REG_INDEX spill_dst_reg)) OPSZ_32 in
      rw_replace [i1; i2; i3; i4; i5]
  else
    rw_removed_null.

Definition vpbroadcastb_ymm_reg2reg_gen (src_opnd dst_opnd : opnd_t) (src_reg dst_reg mask_reg : reg_id_t) : rw_result :=
  let k_idx := TO_K_REG_INDEX mask_reg in
  let ymm_dst_idx := TO_YMM_REG_INDEX dst_reg in
  let dst_need_spill := (if NEED_SPILL_YMM dst_reg then 1 else 0) in
  if k_idx =? 0 then
    if (dst_need_spill =? 0) then
      let op_ymm := opnd_create_reg dst_reg in
      let op_ymm_down_mapping := opnd_create_reg (YMM_TO_XMM dst_reg) in
      let i1 := INSTR_CREATE_2 OP_vmovd op_ymm_down_mapping src_opnd in
      let i2 := INSTR_CREATE_2 OP_vpbroadcastb op_ymm op_ymm_down_mapping in
      rw_replace [i1; i2]
    else
      let spill_dst_reg := YMM_SPILL_SLOT0 in
      let op_ymm_spill := opnd_create_reg spill_dst_reg in
      let op_ymm_down_mapping_spill := opnd_create_reg XMM_SPILL_SLOT0 in
      let i1 := SAVE_SIMD_TO_SIZED_TLS spill_dst_reg (TLS_ZMM_idx_SLOT (TO_YMM_REG_INDEX spill_dst_reg)) OPSZ_32 in
      let i2 := INSTR_CREATE_2 OP_vmovd op_ymm_down_mapping_spill src_opnd in
      let i3 := INSTR_CREATE_2 OP_vpbroadcastb op_ymm_spill op_ymm_down_mapping_spill in
      let i4 := SAVE_SIMD_TO_SIZED_TLS spill_dst_reg (TLS_ZMM_idx_SLOT ymm_dst_idx) OPSZ_32 in
      let i5 := RESTORE_SIMD_FROM_SIZED_TLS spill_dst_reg (TLS_ZMM_idx_SLOT (TO_YMM_REG_INDEX spill_dst_reg)) OPSZ_32 in
      rw_replace [i1; i2; i3; i4; i5]
  else
    rw_removed_null.

Definition vpbroadcastb_xmm_reg2reg_gen (src_opnd dst_opnd : opnd_t) (src_reg dst_reg mask_reg : reg_id_t) : rw_result :=
  let xmm_opnd := create_mapping_xmm_opnd dst_reg in
  let i1 := instr_create_1dst_1src OP_vmovd xmm_opnd src_opnd in
  let i2 := instr_create_1dst_1src OP_vpbroadcastb xmm_opnd xmm_opnd in
  rw_replace [i1; i2].

Definition vpbroadcastb_zmm_disp2reg_gen (src_opnd dst_opnd : opnd_t) (mask_reg : reg_id_t) : rw_result :=
  let dst_reg := opnd_get_reg dst_opnd in
  let dst_need_spill := (if NEED_SPILL_ZMM dst_reg then 1 else 0) in
  match dst_need_spill with
  | 0 =>
      let dst_reg_lower := ZMM_TO_YMM dst_reg in
      let op_dst_lower := opnd_create_reg dst_reg_lower in
      let i1 := INSTR_CREATE_2 OP_vpbroadcastb op_dst_lower src_opnd in
      let i2 := SAVE_SIMD_TO_SIZED_TLS dst_reg_lower (TLS_ZMM_idx_SLOT (TO_ZMM_REG_INDEX dst_reg)) OPSZ_32 in
      let i3 := SAVE_SIMD_TO_SIZED_TLS dst_reg_lower (TLS_ZMM_idx_SLOT (TO_ZMM_REG_INDEX dst_reg) + SIZE_OF_YMM) OPSZ_32 in
      rw_replace [i1; i2; i3]
  | 1 =>
      let spill_dst_lower := YMM_SPILL_SLOT0 in
      let op_spill_dst_lower := opnd_create_reg spill_dst_lower in
      let i1 := SAVE_SIMD_TO_SIZED_TLS spill_dst_lower (TLS_ZMM_idx_SLOT (TO_YMM_REG_INDEX spill_dst_lower)) OPSZ_32 in
      let i2 := INSTR_CREATE_2 OP_vpbroadcastb op_spill_dst_lower src_opnd in
      let i3 := SAVE_SIMD_TO_SIZED_TLS spill_dst_lower (TLS_ZMM_idx_SLOT (TO_ZMM_REG_INDEX dst_reg)) OPSZ_32 in
      let i4 := SAVE_SIMD_TO_SIZED_TLS spill_dst_lower (TLS_ZMM_idx_SLOT (TO_ZMM_REG_INDEX dst_reg) + SIZE_OF_YMM) OPSZ_32 in
      let i5 := RESTORE_SIMD_FROM_SIZED_TLS spill_dst_lower (TLS_ZMM_idx_SLOT (TO_YMM_REG_INDEX spill_dst_lower)) OPSZ_32 in
      rw_replace [i1; i2; i3; i4; i5]
  | _ =>
      rw_removed_null
  end.

Definition vpbroadcastb_ymm_disp2reg_gen (src_opnd : opnd_t) (dst_reg mask_reg : reg_id_t) : rw_result :=
  let dst_opnd := create_mapping_ymm_opnd dst_reg in
  let new_instr1 := instr_create_1dst_1src OP_vpbroadcastb dst_opnd src_opnd in
  rw_replace [new_instr1].

Definition vpbroadcastb_xmm_disp2reg_gen (src_opnd : opnd_t) (dst_reg mask_reg : reg_id_t) : rw_result :=
  let dst_opnd := create_mapping_xmm_opnd dst_reg in
  let new_instr1 := instr_create_1dst_1src OP_vpbroadcastb dst_opnd src_opnd in
  rw_replace [new_instr1].

Definition rw_func_vpbroadcastb (instr : instr_t) : rw_result :=
  let mask_opnd := instr_get_src instr 0 in
  let src_opnd := instr_get_src instr 1 in
  let dst_opnd := instr_get_dst instr 0 in
  let mask_reg := opnd_get_reg mask_opnd in
  match (opnd_kind src_opnd) with
  | REG_kind =>
      let src_reg := opnd_get_reg src_opnd in
      if (IS_32GPR_REG src_reg) || (IS_64GPR_REG src_reg) then
        let dst_reg := opnd_get_reg dst_opnd in
        if IS_XMM_REG dst_reg then
          vpbroadcastb_xmm_reg2reg_gen src_opnd dst_opnd src_reg dst_reg mask_reg
        else
          if IS_YMM_REG dst_reg then
            vpbroadcastb_ymm_reg2reg_gen src_opnd dst_opnd src_reg dst_reg mask_reg
          else
            if IS_ZMM_REG dst_reg then
              vpbroadcastb_zmm_reg2reg_gen src_opnd dst_opnd src_reg dst_reg mask_reg
            else
              rw_null
      else
        rw_null
  | BASE_DISP_kind =>
      let dst_reg := opnd_get_reg dst_opnd in
      if IS_XMM_REG dst_reg then
        vpbroadcastb_xmm_disp2reg_gen src_opnd dst_reg mask_reg
      else
        if IS_YMM_REG dst_reg then
          vpbroadcastb_ymm_disp2reg_gen src_opnd dst_reg mask_reg
        else
          if IS_ZMM_REG dst_reg then
            vpbroadcastb_zmm_disp2reg_gen src_opnd dst_opnd mask_reg
          else
            rw_null
  | _ =>
      rw_null
  end.

(** ** [vpbroadcastw] *)

Definition vpbroadcastw_zmm_reg2reg_gen (src_opnd : opnd_t) (src_reg dst_reg mask_reg : reg_id_t) : rw_result :=
  let dst_need_spill := (if NEED_SPILL_ZMM dst_reg then 1 else 0) in
  match dst_need_spill with
  | 0 =>
      let dst_reg_lower := ZMM_TO_YMM dst_reg in
      let dst_reg_upper := find_available_spill_ymm_avoiding dst_reg_lower DR_REG_NULL DR_REG_NULL in
      let op_dst_lower := opnd_create_reg dst_reg_lower in
      let op_dst_upper := opnd_create_reg dst_reg_upper in
      let dst_lower_xmm := opnd_create_reg (YMM_INDEX_TO_XMM_INDEX dst_reg_lower) in
      let i1 := instr_create_1dst_1src OP_vmovd dst_lower_xmm src_opnd in
      let i2 := INSTR_CREATE_2 OP_vpbroadcastw op_dst_lower dst_lower_xmm in
      let i3 := SAVE_SIMD_TO_SIZED_TLS dst_reg_lower (TLS_ZMM_idx_SLOT (TO_ZMM_REG_INDEX dst_reg)) OPSZ_32 in
      let i4 := instr_create_1dst_1src OP_vmovdqu op_dst_upper op_dst_lower in
      let i5 := SAVE_SIMD_TO_SIZED_TLS dst_reg_upper (TLS_ZMM_idx_SLOT (TO_ZMM_REG_INDEX dst_reg) + SIZE_OF_YMM) OPSZ_32 in
      rw_replace [i1; i2; i3; i4; i5]
  | 1 =>
      let spill_dst_lower := YMM_SPILL_SLOT0 in
      let spill_dst_upper := YMM_SPILL_SLOT1 in
      let op_spill_dst_lower := opnd_create_reg spill_dst_lower in
      let op_spill_dst_upper := opnd_create_reg spill_dst_upper in
      let spill_dst_lower_xmm := opnd_create_reg (YMM_INDEX_TO_XMM_INDEX spill_dst_lower) in
      let i1 := SAVE_SIMD_TO_SIZED_TLS spill_dst_lower (TLS_ZMM_idx_SLOT (TO_YMM_REG_INDEX spill_dst_lower)) OPSZ_32 in
      let i2 := SAVE_SIMD_TO_SIZED_TLS spill_dst_upper (TLS_ZMM_idx_SLOT (TO_YMM_REG_INDEX spill_dst_upper)) OPSZ_32 in
      let i3 := instr_create_1dst_1src OP_vmovd spill_dst_lower_xmm src_opnd in
      let i4 := INSTR_CREATE_2 OP_vpbroadcastw op_spill_dst_lower spill_dst_lower_xmm in
      let i5 := SAVE_SIMD_TO_SIZED_TLS spill_dst_lower (TLS_ZMM_idx_SLOT (TO_ZMM_REG_INDEX dst_reg)) OPSZ_32 in
      let i6 := instr_create_1dst_1src OP_vmovdqu op_spill_dst_upper op_spill_dst_lower in
      let i7 := SAVE_SIMD_TO_SIZED_TLS spill_dst_upper (TLS_ZMM_idx_SLOT (TO_ZMM_REG_INDEX dst_reg) + SIZE_OF_YMM) OPSZ_32 in
      let i8 := RESTORE_SIMD_FROM_SIZED_TLS spill_dst_lower (TLS_ZMM_idx_SLOT (TO_YMM_REG_INDEX spill_dst_lower)) OPSZ_32 in
      let i9 := RESTORE_SIMD_FROM_SIZED_TLS spill_dst_upper (TLS_ZMM_idx_SLOT (TO_YMM_REG_INDEX spill_dst_upper)) OPSZ_32 in
      rw_replace [i1; i2; i3; i4; i5; i6; i7; i8; i9]
  | _ =>
      rw_removed_null
  end.

Definition vpbroadcastw_ymm_reg2reg_gen (src_opnd : opnd_t) (src_reg dst_reg mask_reg : reg_id_t) : rw_result :=
  let dst_need_spill := (if NEED_SPILL_YMM dst_reg then 1 else 0) in
  match dst_need_spill with
  | 0 =>
      let op_dst_ymm := opnd_create_reg dst_reg in
      let op_dst_xmm := opnd_create_reg (YMM_TO_XMM dst_reg) in
      let i1 := INSTR_CREATE_2 OP_vmovd op_dst_xmm src_opnd in
      let i2 := INSTR_CREATE_2 OP_vpbroadcastw op_dst_ymm op_dst_xmm in
      rw_replace [i1; i2]
  | 1 =>
      let spill_dst_reg := YMM_SPILL_SLOT0 in
      let op_spill_dst_ymm := opnd_create_reg spill_dst_reg in
      let op_spill_dst_xmm := opnd_create_reg (YMM_TO_XMM spill_dst_reg) in
      let i1 := SAVE_SIMD_TO_SIZED_TLS spill_dst_reg (TLS_ZMM_idx_SLOT (TO_YMM_REG_INDEX spill_dst_reg)) OPSZ_16 in
      let i2 := INSTR_CREATE_2 OP_vmovd op_spill_dst_xmm src_opnd in
      let i3 := INSTR_CREATE_2 OP_vpbroadcastw op_spill_dst_ymm op_spill_dst_xmm in
      let i4 := SAVE_SIMD_TO_SIZED_TLS spill_dst_reg (TLS_ZMM_idx_SLOT (TO_YMM_REG_INDEX dst_reg)) OPSZ_16 in
      let i5 := RESTORE_SIMD_FROM_SIZED_TLS spill_dst_reg (TLS_ZMM_idx_SLOT (TO_YMM_REG_INDEX spill_dst_reg)) OPSZ_16 in
      rw_replace [i1; i2; i3; i4; i5]
  | _ =>
      rw_removed_null
  end.

Definition vpbroadcastw_xmm_reg2reg_gen (src_opnd : opnd_t) (src_reg dst_reg mask_reg : reg_id_t) : rw_result :=
  let dst_need_spill := (if NEED_SPILL_XMM dst_reg then 1 else 0) in
  match dst_need_spill with
  | 0 =>
      let xmm_opnd := create_mapping_xmm_opnd dst_reg in
      let i1 := instr_create_1dst_1src OP_vmovd xmm_opnd src_opnd in
      let i2 := INSTR_CREATE_2 OP_vpbroadcastw xmm_opnd xmm_opnd in
      rw_replace [i1; i2]
  | 1 =>
      let spill_dst_reg := XMM_SPILL_SLOT0 in
      let op_spill_dst_reg := opnd_create_reg spill_dst_reg in
      let i1 := SAVE_SIMD_TO_SIZED_TLS spill_dst_reg (TLS_ZMM_idx_SLOT (TO_XMM_REG_INDEX spill_dst_reg)) OPSZ_16 in
      let i2 := instr_create_1dst_1src OP_vmovd op_spill_dst_reg src_opnd in
      let i3 := INSTR_CREATE_2 OP_vpbroadcastw op_spill_dst_reg op_spill_dst_reg in
      let i4 := SAVE_SIMD_TO_SIZED_TLS spill_dst_reg (TLS_ZMM_idx_SLOT (TO_XMM_REG_INDEX dst_reg)) OPSZ_16 in
      let i5 := RESTORE_SIMD_FROM_SIZED_TLS spill_dst_reg (TLS_ZMM_idx_SLOT (TO_XMM_REG_INDEX spill_dst_reg)) OPSZ_16 in
      rw_replace [i1; i2; i3; i4; i5]
  | _ =>
      rw_removed_null
  end.

Definition vpbroadcastw_zmm_disp2reg_gen (src_opnd dst_opnd : opnd_t) (mask_reg : reg_id_t) : rw_result :=
  let dst_reg := opnd_get_reg dst_opnd in
  let dst_need_spill := (if NEED_SPILL_ZMM dst_reg then 1 else 0) in
  match dst_need_spill with
  | 0 =>
      let dst_reg_lower := ZMM_TO_YMM dst_reg in
      let op_dst_lower := opnd_create_reg dst_reg_lower in
      let i1 := INSTR_CREATE_2 OP_vpbroadcastw op_dst_lower src_opnd in
      let i2 := SAVE_SIMD_TO_SIZED_TLS dst_reg_lower (TLS_ZMM_idx_SLOT (TO_ZMM_REG_INDEX dst_reg)) OPSZ_32 in
      let i3 := SAVE_SIMD_TO_SIZED_TLS dst_reg_lower (TLS_ZMM_idx_SLOT (TO_ZMM_REG_INDEX dst_reg) + SIZE_OF_YMM) OPSZ_32 in
      rw_replace [i1; i2; i3]
  | 1 =>
      let spill_dst_lower := YMM_SPILL_SLOT0 in
      let op_spill_dst_lower := opnd_create_reg spill_dst_lower in
      let i1 := SAVE_SIMD_TO_SIZED_TLS spill_dst_lower (TLS_ZMM_idx_SLOT (TO_YMM_REG_INDEX spill_dst_lower)) OPSZ_32 in
      let i2 := INSTR_CREATE_2 OP_vpbroadcastw op_spill_dst_lower src_opnd in
      let i3 := SAVE_SIMD_TO_SIZED_TLS spill_dst_lower (TLS_ZMM_idx_SLOT (TO_ZMM_REG_INDEX dst_reg)) OPSZ_32 in
      let i4 := SAVE_SIMD_TO_SIZED_TLS spill_dst_lower (TLS_ZMM_idx_SLOT (TO_ZMM_REG_INDEX dst_reg) + SIZE_OF_YMM) OPSZ_32 in
      let i5 := RESTORE_SIMD_FROM_SIZED_TLS spill_dst_lower (TLS_ZMM_idx_SLOT (TO_YMM_REG_INDEX spill_dst_lower)) OPSZ_32 in
      rw_replace [i1; i2; i3; i4; i5]
  | _ =>
      rw_removed_null
  end.

Definition vpbroadcastw_ymm_disp2reg_gen (src_opnd : opnd_t) (dst_reg mask_reg : reg_id_t) : rw_result :=
  let dst_need_spill := (if NEED_SPILL_YMM dst_reg then 1 else 0) in
  match dst_need_spill with
  | 0 =>
      let dst_opnd := create_mapping_ymm_opnd dst_reg in
      let new_instr1 := INSTR_CREATE_2 OP_vpbroadcastw dst_opnd src_opnd in
      rw_replace [new_instr1]
  | 1 =>
      let spill_dst_reg := YMM_SPILL_SLOT0 in
      let op_spill_dst_reg := opnd_create_reg spill_dst_reg in
      let i1 := SAVE_SIMD_TO_SIZED_TLS spill_dst_reg (TLS_ZMM_idx_SLOT (TO_YMM_REG_INDEX spill_dst_reg)) OPSZ_32 in
      let i2 := INSTR_CREATE_2 OP_vpbroadcastw op_spill_dst_reg src_opnd in
      let i3 := SAVE_SIMD_TO_SIZED_TLS spill_dst_reg (TLS_ZMM_idx_SLOT (TO_YMM_REG_INDEX dst_reg)) OPSZ_32 in
      let i4 := RESTORE_SIMD_FROM_SIZED_TLS spill_dst_reg (TLS_ZMM_idx_SLOT (TO_YMM_REG_INDEX spill_dst_reg)) OPSZ_32 in
      rw_replace [i1; i2; i3; i4]
  | _ =>
      rw_removed_null
  end.

Definition vpbroadcastw_xmm_disp2reg_gen (src_opnd : opnd_t) (dst_reg mask_reg : reg_id_t) : rw_result :=
  let dst_need_spill := (if NEED_SPILL_XMM dst_reg then 1 else 0) in
  match dst_need_spill with
  | 0 =>
      let dst_opnd := create_mapping_xmm_opnd dst_reg in
      let new_instr1 := INSTR_CREATE_2 OP_vpbroadcastw dst_opnd src_opnd in
      rw_replace [new_instr1]
  | 1 =>
      let spill_dst_reg := XMM_SPILL_SLOT0 in
      let op_spill_dst_reg := opnd_create_reg spill_dst_reg in
      let i1 := SAVE_SIMD_TO_SIZED_TLS spill_dst_reg (TLS_ZMM_idx_SLOT (TO_XMM_REG_INDEX spill_dst_reg)) OPSZ_16 in
      let i2 := INSTR_CREATE_2 OP_vpbroadcastw op_spill_dst_reg src_opnd in
      let i3 := SAVE_SIMD_TO_SIZED_TLS spill_dst_reg (TLS_ZMM_idx_SLOT (TO_XMM_REG_INDEX dst_reg)) OPSZ_16 in
      let i4 := RESTORE_SIMD_FROM_SIZED_TLS spill_dst_reg (TLS_ZMM_idx_SLOT (TO_XMM_REG_INDEX spill_dst_reg)) OPSZ_16 in
      rw_replace [i1; i2; i3; i4]
  | _ =>
      rw_removed_null
  end.

Definition rw_func_vpbroadcastw (instr : instr_t) : rw_result :=
  let mask_opnd := instr_get_src instr 0 in
  let src_opnd := instr_get_src instr 1 in
  let dst_opnd := instr_get_dst instr 0 in
  let mask_reg := opnd_get_reg mask_opnd in
  match (opnd_kind src_opnd) with
  | REG_kind =>
      let src_reg := opnd_get_reg src_opnd in
      if (IS_32GPR_REG src_reg) || (IS_64GPR_REG src_reg) then
        let dst_reg := opnd_get_reg dst_opnd in
        if IS_ZMM_REG dst_reg then
          vpbroadcastw_zmm_reg2reg_gen src_opnd src_reg dst_reg mask_reg
        else
          if IS_YMM_REG dst_reg then
            vpbroadcastw_ymm_reg2reg_gen src_opnd src_reg dst_reg mask_reg
          else
            if IS_XMM_REG dst_reg then
              vpbroadcastw_xmm_reg2reg_gen src_opnd src_reg dst_reg mask_reg
            else
              rw_null
      else
        rw_null
  | BASE_DISP_kind =>
      let dst_reg := opnd_get_reg dst_opnd in
      if IS_ZMM_REG dst_reg then
        vpbroadcastw_zmm_disp2reg_gen src_opnd dst_opnd mask_reg
      else
        if IS_YMM_REG dst_reg then
          vpbroadcastw_ymm_disp2reg_gen src_opnd dst_reg mask_reg
        else
          if IS_XMM_REG dst_reg then
            vpbroadcastw_xmm_disp2reg_gen src_opnd dst_reg mask_reg
          else
            rw_null
  | _ =>
      rw_null
  end.

(** ** [vpbroadcastd] *)

Definition vpbroadcastd_zmm_reg2reg_gen (src_opnd : opnd_t) (dst_reg mask_reg : reg_id_t) : rw_result :=
  let k_idx := TO_K_REG_INDEX mask_reg in
  let ymm_dst_idx := TO_YMM_REG_INDEX dst_reg in
  let dst_need_spill := (if NEED_SPILL_YMM dst_reg then 1 else 0) in
  if k_idx =? 0 then
    if (dst_need_spill =? 0) then
      let dst_reg_lower := ZMM_TO_YMM dst_reg in
      let op_dst_lower := opnd_create_reg dst_reg_lower in
      let dst_lower_xmm := opnd_create_reg (YMM_INDEX_TO_XMM_INDEX dst_reg_lower) in
      let i1 := instr_create_1dst_1src OP_vmovd dst_lower_xmm src_opnd in
      let i2 := instr_create_1dst_1src OP_vpbroadcastd op_dst_lower dst_lower_xmm in
      let i3 := SAVE_SIMD_TO_SIZED_TLS dst_reg_lower (TLS_ZMM_idx_SLOT (TO_ZMM_REG_INDEX dst_reg)) OPSZ_32 in
      let i4 := SAVE_SIMD_TO_SIZED_TLS dst_reg_lower (TLS_ZMM_idx_SLOT (TO_ZMM_REG_INDEX dst_reg) + SIZE_OF_YMM) OPSZ_32 in
      rw_replace [i1; i2; i3; i4]
    else
      let spill_dst_reg := YMM_SPILL_SLOT0 in
      let op_ymm_spill := opnd_create_reg spill_dst_reg in
      let op_ymm_down_mapping_spill := opnd_create_reg XMM_SPILL_SLOT0 in
      let i1 := SAVE_SIMD_TO_SIZED_TLS spill_dst_reg (TLS_ZMM_idx_SLOT (TO_YMM_REG_INDEX spill_dst_reg)) OPSZ_32 in
      let i2 := INSTR_CREATE_2 OP_vmovd op_ymm_down_mapping_spill src_opnd in
      let i3 := INSTR_CREATE_2 OP_vpbroadcastd op_ymm_spill op_ymm_down_mapping_spill in
      let i4 := SAVE_SIMD_TO_SIZED_TLS spill_dst_reg (TLS_ZMM_idx_SLOT ymm_dst_idx) OPSZ_32 in
      let i5 := RESTORE_SIMD_FROM_SIZED_TLS spill_dst_reg (TLS_ZMM_idx_SLOT (TO_YMM_REG_INDEX spill_dst_reg)) OPSZ_32 in
      rw_replace [i1; i2; i3; i4; i5]
  else
    rw_removed_null.

Definition vpbroadcastd_ymm_reg2reg_gen (src_opnd : opnd_t) (dst_reg mask_reg : reg_id_t) : rw_result :=
  let k_idx := TO_K_REG_INDEX mask_reg in
  let ymm_dst_idx := TO_YMM_REG_INDEX dst_reg in
  let dst_need_spill := (if NEED_SPILL_YMM dst_reg then 1 else 0) in
  if k_idx =? 0 then
    if (dst_need_spill =? 0) then
      let op_ymm := opnd_create_reg dst_reg in
      let op_ymm_down_mapping := opnd_create_reg (YMM_TO_XMM dst_reg) in
      let i1 := INSTR_CREATE_2 OP_vmovd op_ymm_down_mapping src_opnd in
      let i2 := INSTR_CREATE_2 OP_vpbroadcastd op_ymm op_ymm_down_mapping in
      rw_replace [i1; i2]
    else
      let spill_dst_reg := YMM_SPILL_SLOT0 in
      let op_ymm_spill := opnd_create_reg spill_dst_reg in
      let op_ymm_down_mapping_spill := opnd_create_reg XMM_SPILL_SLOT0 in
      let i1 := SAVE_SIMD_TO_SIZED_TLS spill_dst_reg (TLS_ZMM_idx_SLOT (TO_YMM_REG_INDEX spill_dst_reg)) OPSZ_32 in
      let i2 := INSTR_CREATE_2 OP_vmovd op_ymm_down_mapping_spill src_opnd in
      let i3 := INSTR_CREATE_2 OP_vpbroadcastd op_ymm_spill op_ymm_down_mapping_spill in
      let i4 := SAVE_SIMD_TO_SIZED_TLS spill_dst_reg (TLS_ZMM_idx_SLOT ymm_dst_idx) OPSZ_32 in
      let i5 := RESTORE_SIMD_FROM_SIZED_TLS spill_dst_reg (TLS_ZMM_idx_SLOT (TO_YMM_REG_INDEX spill_dst_reg)) OPSZ_32 in
      rw_replace [i1; i2; i3; i4; i5]
  else
    rw_removed_null.

Definition vpbroadcastd_xmm_reg2reg_gen (src_opnd : opnd_t) (dst_reg mask_reg : reg_id_t) : rw_result :=
  let xmm_opnd := create_mapping_xmm_opnd dst_reg in
  let i1 := instr_create_1dst_1src OP_vmovd xmm_opnd src_opnd in
  let i2 := instr_create_1dst_1src OP_vpbroadcastd xmm_opnd xmm_opnd in
  rw_replace [i1; i2].

Definition vpbroadcastd_zmm_disp2reg_gen (src_opnd dst_opnd : opnd_t) (mask_reg : reg_id_t) : rw_result :=
  let dst_reg := opnd_get_reg dst_opnd in
  let dst_need_spill := (if NEED_SPILL_ZMM dst_reg then 1 else 0) in
  match dst_need_spill with
  | 0 =>
      let dst_reg_lower := ZMM_TO_YMM dst_reg in
      let op_dst_lower := opnd_create_reg dst_reg_lower in
      let i1 := INSTR_CREATE_2 OP_vpbroadcastd op_dst_lower src_opnd in
      let i2 := SAVE_SIMD_TO_SIZED_TLS dst_reg_lower (TLS_ZMM_idx_SLOT (TO_ZMM_REG_INDEX dst_reg)) OPSZ_32 in
      let i3 := SAVE_SIMD_TO_SIZED_TLS dst_reg_lower (TLS_ZMM_idx_SLOT (TO_ZMM_REG_INDEX dst_reg) + SIZE_OF_YMM) OPSZ_32 in
      rw_replace [i1; i2; i3]
  | 1 =>
      let spill_dst_lower := YMM_SPILL_SLOT0 in
      let op_spill_dst_lower := opnd_create_reg spill_dst_lower in
      let i1 := SAVE_SIMD_TO_SIZED_TLS spill_dst_lower (TLS_ZMM_idx_SLOT (TO_YMM_REG_INDEX spill_dst_lower)) OPSZ_32 in
      let i2 := INSTR_CREATE_2 OP_vpbroadcastd op_spill_dst_lower src_opnd in
      let i3 := SAVE_SIMD_TO_SIZED_TLS spill_dst_lower (TLS_ZMM_idx_SLOT (TO_ZMM_REG_INDEX dst_reg)) OPSZ_32 in
      let i4 := SAVE_SIMD_TO_SIZED_TLS spill_dst_lower (TLS_ZMM_idx_SLOT (TO_ZMM_REG_INDEX dst_reg) + SIZE_OF_YMM) OPSZ_32 in
      let i5 := RESTORE_SIMD_FROM_SIZED_TLS spill_dst_lower (TLS_ZMM_idx_SLOT (TO_YMM_REG_INDEX spill_dst_lower)) OPSZ_32 in
      rw_replace [i1; i2; i3; i4; i5]
  | _ =>
      rw_removed_null
  end.

Definition vpbroadcastd_ymm_disp2reg_gen (src_opnd : opnd_t) (dst_reg mask_reg : reg_id_t) : rw_result :=
  let dst_opnd := create_mapping_ymm_opnd dst_reg in
  let new_instr1 := instr_create_1dst_1src OP_vpbroadcastd dst_opnd src_opnd in
  rw_replace [new_instr1].

Definition vpbroadcastd_xmm_disp2reg_gen (src_opnd : opnd_t) (dst_reg mask_reg : reg_id_t) : rw_result :=
  let dst_opnd := create_mapping_xmm_opnd dst_reg in
  let new_instr1 := instr_create_1dst_1src OP_vpbroadcastd dst_opnd src_opnd in
  rw_replace [new_instr1].

Definition rw_func_vpbroadcastd (instr : instr_t) : rw_result :=
  let mask_opnd := instr_get_src instr 0 in
  let src_opnd := instr_get_src instr 1 in
  let dst_opnd := instr_get_dst instr 0 in
  let mask_reg := opnd_get_reg mask_opnd in
  match (opnd_kind src_opnd) with
  | REG_kind =>
      let src_reg := opnd_get_reg src_opnd in
      if (IS_32GPR_REG src_reg) || (IS_64GPR_REG src_reg) then
        let dst_reg := opnd_get_reg dst_opnd in
        if IS_ZMM_REG dst_reg then
          vpbroadcastd_zmm_reg2reg_gen src_opnd dst_reg mask_reg
        else
          if IS_YMM_REG dst_reg then
            vpbroadcastd_ymm_reg2reg_gen src_opnd dst_reg mask_reg
          else
            if IS_XMM_REG dst_reg then
              vpbroadcastd_xmm_reg2reg_gen src_opnd dst_reg mask_reg
            else
              rw_null
      else
        rw_null
  | BASE_DISP_kind =>
      let dst_reg := opnd_get_reg dst_opnd in
      if IS_ZMM_REG dst_reg then
        vpbroadcastd_zmm_disp2reg_gen src_opnd dst_opnd mask_reg
      else
        if IS_YMM_REG dst_reg then
          vpbroadcastd_ymm_disp2reg_gen src_opnd dst_reg mask_reg
        else
          if IS_XMM_REG dst_reg then
            vpbroadcastd_xmm_disp2reg_gen src_opnd dst_reg mask_reg
          else
            rw_null
  | _ =>
      rw_null
  end.

(** ** [vpbroadcastq] *)

Definition vpbroadcastq_zmm_reg2reg_gen (src_opnd : opnd_t) (dst_reg mask_reg : reg_id_t) : rw_result :=
  let dst_need_spill := (if NEED_SPILL_ZMM dst_reg then 1 else 0) in
  let k_idx := TO_K_REG_INDEX mask_reg in
  if k_idx =? 0 then
    match dst_need_spill with
    | 0 =>
        let dst_reg_lower := ZMM_TO_YMM dst_reg in
        let op_dst_lower := opnd_create_reg dst_reg_lower in
        let dst_lower_xmm := opnd_create_reg (YMM_INDEX_TO_XMM_INDEX dst_reg_lower) in
        let i1 := instr_create_1dst_1src OP_vmovq dst_lower_xmm src_opnd in
        let i2 := instr_create_1dst_1src OP_vpbroadcastq op_dst_lower dst_lower_xmm in
        let i3 := SAVE_SIMD_TO_SIZED_TLS dst_reg_lower (TLS_ZMM_idx_SLOT (TO_ZMM_REG_INDEX dst_reg)) OPSZ_32 in
        let i4 := SAVE_SIMD_TO_SIZED_TLS dst_reg_lower (TLS_ZMM_idx_SLOT (TO_ZMM_REG_INDEX dst_reg) + SIZE_OF_YMM) OPSZ_32 in
        rw_replace [i1; i2; i3; i4]
    | 1 =>
        let spill_dst_lower := YMM_SPILL_SLOT0 in
        let op_spill_dst_lower := opnd_create_reg spill_dst_lower in
        let spill_dst_lower_xmm := opnd_create_reg XMM_SPILL_SLOT0 in
        let i1 := SAVE_SIMD_TO_SIZED_TLS spill_dst_lower (TLS_ZMM_idx_SLOT (TO_YMM_REG_INDEX spill_dst_lower)) OPSZ_32 in
        let i2 := instr_create_1dst_1src OP_vmovq spill_dst_lower_xmm src_opnd in
        let i3 := instr_create_1dst_1src OP_vpbroadcastq op_spill_dst_lower spill_dst_lower_xmm in
        let i4 := SAVE_SIMD_TO_SIZED_TLS spill_dst_lower (TLS_ZMM_idx_SLOT (TO_ZMM_REG_INDEX dst_reg)) OPSZ_32 in
        let i5 := SAVE_SIMD_TO_SIZED_TLS spill_dst_lower (TLS_ZMM_idx_SLOT (TO_ZMM_REG_INDEX dst_reg) + SIZE_OF_YMM) OPSZ_32 in
        let i6 := RESTORE_SIMD_FROM_SIZED_TLS spill_dst_lower (TLS_ZMM_idx_SLOT (TO_YMM_REG_INDEX spill_dst_lower)) OPSZ_32 in
        rw_replace [i1; i2; i3; i4; i5; i6]
    | _ =>
        rw_removed_null
    end
  else
    match dst_need_spill with
    | 0 =>
        rw_removed_null
    | 1 =>
        rw_removed_null
    | _ =>
        rw_removed_null
    end.

Definition vpbroadcastq_ymm_reg2reg_gen (src_opnd : opnd_t) (dst_reg mask_reg : reg_id_t) : rw_result :=
  let dst_need_spill := (if NEED_SPILL_YMM dst_reg then 1 else 0) in
  let k_idx := TO_K_REG_INDEX mask_reg in
  if k_idx =? 0 then
    match dst_need_spill with
    | 0 =>
        let ymm_opnd := opnd_create_reg dst_reg in
        let ymm_down_mapping_opnd := opnd_create_reg (YMM_INDEX_TO_XMM_INDEX dst_reg) in
        let i1 := instr_create_1dst_1src OP_vmovq ymm_down_mapping_opnd src_opnd in
        let i2 := instr_create_1dst_1src OP_vpbroadcastq ymm_opnd ymm_down_mapping_opnd in
        rw_replace [i1; i2]
    | 1 =>
        let spill_dst_reg := YMM_SPILL_SLOT0 in
        let op_spill_dst_reg := opnd_create_reg spill_dst_reg in
        let spill_dst_down_mapping_opnd := opnd_create_reg (YMM_INDEX_TO_XMM_INDEX spill_dst_reg) in
        let i1 := SAVE_SIMD_TO_SIZED_TLS spill_dst_reg (TLS_ZMM_idx_SLOT (TO_YMM_REG_INDEX spill_dst_reg)) OPSZ_32 in
        let i2 := instr_create_1dst_1src OP_vmovq spill_dst_down_mapping_opnd src_opnd in
        let i3 := instr_create_1dst_1src OP_vpbroadcastq op_spill_dst_reg spill_dst_down_mapping_opnd in
        let i4 := SAVE_SIMD_TO_SIZED_TLS spill_dst_reg (TLS_ZMM_idx_SLOT (TO_YMM_REG_INDEX dst_reg)) OPSZ_32 in
        let i5 := RESTORE_SIMD_FROM_SIZED_TLS spill_dst_reg (TLS_ZMM_idx_SLOT (TO_YMM_REG_INDEX spill_dst_reg)) OPSZ_32 in
        rw_replace [i1; i2; i3; i4; i5]
    | _ =>
        rw_removed_null
    end
  else
    rw_removed_null.

Definition vpbroadcastq_xmm_reg2reg_gen (src_opnd : opnd_t) (dst_reg mask_reg : reg_id_t) : rw_result :=
  let dst_need_spill := (if NEED_SPILL_XMM dst_reg then 1 else 0) in
  match dst_need_spill with
  | 0 =>
      let xmm_opnd := create_mapping_xmm_opnd dst_reg in
      let new_instr1 := instr_create_1dst_1src OP_vmovq xmm_opnd src_opnd in
      let new_instr2 := instr_create_1dst_1src OP_vpbroadcastq xmm_opnd xmm_opnd in
      rw_replace [new_instr1; new_instr2]
  | 1 =>
      let spill_dst_reg := XMM_SPILL_SLOT0 in
      let op_spill_dst_reg := opnd_create_reg spill_dst_reg in
      let i1 := SAVE_SIMD_TO_SIZED_TLS spill_dst_reg (TLS_ZMM_idx_SLOT (TO_XMM_REG_INDEX spill_dst_reg)) OPSZ_16 in
      let i2 := instr_create_1dst_1src OP_vmovq op_spill_dst_reg src_opnd in
      let i3 := instr_create_1dst_1src OP_vpbroadcastq op_spill_dst_reg op_spill_dst_reg in
      let i4 := SAVE_SIMD_TO_SIZED_TLS spill_dst_reg (TLS_ZMM_idx_SLOT (TO_XMM_REG_INDEX dst_reg)) OPSZ_16 in
      let i5 := RESTORE_SIMD_FROM_SIZED_TLS spill_dst_reg (TLS_ZMM_idx_SLOT (TO_XMM_REG_INDEX spill_dst_reg)) OPSZ_16 in
      rw_replace [i1; i2; i3; i4; i5]
  | _ =>
      rw_removed_null
  end.

Definition vpbroadcastq_zmm_disp2reg_gen (src_opnd dst_opnd : opnd_t) (mask_reg : reg_id_t) : rw_result :=
  let dst_reg := opnd_get_reg dst_opnd in
  let dst_need_spill := (if NEED_SPILL_ZMM dst_reg then 1 else 0) in
  let k_idx := TO_K_REG_INDEX mask_reg in
  if k_idx =? 0 then
    match dst_need_spill with
    | 0 =>
        let dst_reg_lower := ZMM_TO_YMM dst_reg in
        let op_dst_lower := opnd_create_reg dst_reg_lower in
        let i1 := INSTR_CREATE_2 OP_vpbroadcastq op_dst_lower src_opnd in
        let i2 := SAVE_SIMD_TO_SIZED_TLS dst_reg_lower (TLS_ZMM_idx_SLOT (TO_ZMM_REG_INDEX dst_reg)) OPSZ_64 in
        let i3 := SAVE_SIMD_TO_SIZED_TLS dst_reg_lower (TLS_ZMM_idx_SLOT (TO_ZMM_REG_INDEX dst_reg) + SIZE_OF_YMM) OPSZ_64 in
        rw_replace [i1; i2; i3]
    | 1 =>
        let spill_dst_lower := YMM_SPILL_SLOT0 in
        let op_spill_dst_lower := opnd_create_reg spill_dst_lower in
        let i1 := SAVE_SIMD_TO_SIZED_TLS spill_dst_lower (TLS_ZMM_idx_SLOT (TO_YMM_REG_INDEX spill_dst_lower)) OPSZ_64 in
        let i2 := INSTR_CREATE_2 OP_vpbroadcastq op_spill_dst_lower src_opnd in
        let i3 := SAVE_SIMD_TO_SIZED_TLS spill_dst_lower (TLS_ZMM_idx_SLOT (TO_ZMM_REG_INDEX dst_reg)) OPSZ_64 in
        let i4 := SAVE_SIMD_TO_SIZED_TLS spill_dst_lower (TLS_ZMM_idx_SLOT (TO_ZMM_REG_INDEX dst_reg) + SIZE_OF_YMM) OPSZ_64 in
        let i5 := RESTORE_SIMD_FROM_SIZED_TLS spill_dst_lower (TLS_ZMM_idx_SLOT (TO_YMM_REG_INDEX spill_dst_lower)) OPSZ_64 in
        rw_replace [i1; i2; i3; i4; i5]
    | _ =>
        rw_removed_null
    end
  else
    match dst_need_spill with
    | 0 =>
        rw_removed_null
    | 1 =>
        rw_removed_null
    | _ =>
        rw_removed_null
    end.

Definition vpbroadcastq_ymm_disp2reg_gen (src_opnd : opnd_t) (dst_reg mask_reg : reg_id_t) : rw_result :=
  let dst_need_spill := (if NEED_SPILL_YMM dst_reg then 1 else 0) in
  match dst_need_spill with
  | 0 =>
      let dst_opnd := create_mapping_ymm_opnd dst_reg in
      let new_instr1 := instr_create_1dst_1src OP_vpbroadcastq dst_opnd src_opnd in
      rw_replace [new_instr1]
  | 1 =>
      let spill_dst_reg := YMM_SPILL_SLOT0 in
      let op_spill_dst_reg := opnd_create_reg spill_dst_reg in
      let i1 := SAVE_SIMD_TO_SIZED_TLS spill_dst_reg (TLS_ZMM_idx_SLOT (TO_YMM_REG_INDEX spill_dst_reg)) OPSZ_32 in
      let i2 := instr_create_1dst_1src OP_vpbroadcastq op_spill_dst_reg src_opnd in
      let i3 := SAVE_SIMD_TO_SIZED_TLS spill_dst_reg (TLS_ZMM_idx_SLOT (TO_YMM_REG_INDEX dst_reg)) OPSZ_32 in
      let i4 := RESTORE_SIMD_FROM_SIZED_TLS spill_dst_reg (TLS_ZMM_idx_SLOT (TO_YMM_REG_INDEX spill_dst_reg)) OPSZ_32 in
      rw_replace [i1; i2; i3; i4]
  | _ =>
      rw_removed_null
  end.

Definition vpbroadcastq_xmm_disp2reg_gen (src_opnd : opnd_t) (dst_reg mask_reg : reg_id_t) : rw_result :=
  let dst_need_spill := (if NEED_SPILL_XMM dst_reg then 1 else 0) in
  match dst_need_spill with
  | 0 =>
      let dst_opnd := create_mapping_xmm_opnd dst_reg in
      let new_instr1 := instr_create_1dst_1src OP_vpbroadcastq dst_opnd src_opnd in
      rw_replace [new_instr1]
  | 1 =>
      let spill_dst_reg := XMM_SPILL_SLOT0 in
      let op_spill_dst_reg := opnd_create_reg spill_dst_reg in
      let i1 := SAVE_SIMD_TO_SIZED_TLS spill_dst_reg (TLS_ZMM_idx_SLOT (TO_XMM_REG_INDEX spill_dst_reg)) OPSZ_16 in
      let i2 := instr_create_1dst_1src OP_vpbroadcastq op_spill_dst_reg src_opnd in
      let i3 := SAVE_SIMD_TO_SIZED_TLS spill_dst_reg (TLS_ZMM_idx_SLOT (TO_XMM_REG_INDEX dst_reg)) OPSZ_16 in
      let i4 := RESTORE_SIMD_FROM_SIZED_TLS spill_dst_reg (TLS_ZMM_idx_SLOT (TO_XMM_REG_INDEX spill_dst_reg)) OPSZ_16 in
      rw_replace [i1; i2; i3; i4]
  | _ =>
      rw_removed_null
  end.

Definition rw_func_vpbroadcastq (instr : instr_t) : rw_result :=
  let mask_opnd := instr_get_src instr 0 in
  let src_opnd := instr_get_src instr 1 in
  let dst_opnd := instr_get_dst instr 0 in
  let mask_reg := opnd_get_reg mask_opnd in
  match (opnd_kind src_opnd) with
  | REG_kind =>
      let src_reg := opnd_get_reg src_opnd in
      if (IS_32GPR_REG src_reg) || (IS_64GPR_REG src_reg) then
        let dst_reg := opnd_get_reg dst_opnd in
        if IS_ZMM_REG dst_reg then
          vpbroadcastq_zmm_reg2reg_gen src_opnd dst_reg mask_reg
        else
          if IS_YMM_REG dst_reg then
            vpbroadcastq_ymm_reg2reg_gen src_opnd dst_reg mask_reg
          else
            if IS_XMM_REG dst_reg then
              vpbroadcastq_xmm_reg2reg_gen src_opnd dst_reg mask_reg
            else
              rw_null
      else
        rw_null
  | BASE_DISP_kind =>
      let dst_reg := opnd_get_reg dst_opnd in
      if IS_ZMM_REG dst_reg then
        vpbroadcastq_zmm_disp2reg_gen src_opnd dst_opnd mask_reg
      else
        if IS_YMM_REG dst_reg then
          vpbroadcastq_ymm_disp2reg_gen src_opnd dst_reg mask_reg
        else
          if IS_XMM_REG dst_reg then
            vpbroadcastq_xmm_disp2reg_gen src_opnd dst_reg mask_reg
          else
            rw_null
  | _ =>
      rw_null
  end.

(** ** Extracts *)

Definition rw_func_vextractf64x2 (instr : instr_t) : rw_result :=
  let imm8_opnd := instr_get_src instr 1 in
  let src_opnd := instr_get_src instr 2 in
  let dst_opnd := instr_get_dst instr 0 in
  let src_reg := opnd_get_reg src_opnd in
  let dst_reg := opnd_get_reg dst_opnd in
  let src_ymm_idx := TO_YMM_REG_INDEX src_reg in
  let dst_xmm_idx := TO_XMM_REG_INDEX dst_reg in
  if src_ymm_idx =? dst_xmm_idx then
    if NEED_SPILL_YMM src_reg then
      let spill_src_reg := YMM_SPILL_SLOT0 in
      let spill_dst_reg := XMM_SPILL_SLOT0 in
      let spill_src_opnd := opnd_create_reg spill_src_reg in
      let spill_dst_opnd := opnd_create_reg spill_dst_reg in
      let i1 := SAVE_SIMD_TO_SIZED_TLS spill_src_reg (TLS_ZMM_idx_SLOT (TO_YMM_REG_INDEX spill_src_reg)) OPSZ_32 in
      let i2 := RESTORE_SIMD_FROM_SIZED_TLS spill_src_reg (TLS_ZMM_idx_SLOT (TO_YMM_REG_INDEX src_reg)) OPSZ_32 in
      let i3 := instr_create_1dst_2src OP_vextracti128 spill_dst_opnd spill_src_opnd imm8_opnd in
      let i4 := SAVE_SIMD_TO_SIZED_TLS spill_dst_reg (TLS_ZMM_idx_SLOT (TO_XMM_REG_INDEX dst_reg)) OPSZ_16 in
      let i5 := RESTORE_SIMD_FROM_SIZED_TLS spill_src_reg (TLS_ZMM_idx_SLOT (TO_YMM_REG_INDEX spill_src_reg)) OPSZ_32 in
      rw_replace [i1; i2; i3; i4; i5]
    else
      let i1 := instr_create_1dst_2src OP_vextractf128 dst_opnd src_opnd imm8_opnd in
      rw_replace [i1]
  else
    let i1 := instr_create_1dst_2src OP_vextractf128 dst_opnd src_opnd imm8_opnd in
    rw_replace [i1].

Definition rw_func_vextracti32x4 (instr : instr_t) : rw_result :=
  let mask_opnd := instr_get_src instr 0 in
  let imm8_opnd := instr_get_src instr 1 in
  let src_opnd := instr_get_src instr 2 in
  let dst_opnd := instr_get_dst instr 0 in
  let k_reg := opnd_get_reg mask_opnd in
  let src_reg := opnd_get_reg src_opnd in
  let dst_reg := opnd_get_reg dst_opnd in
  let src_need_spill := (if NEED_SPILL_YMM src_reg then 1 else 0) in
  let dst_need_spill := (if NEED_SPILL_XMM dst_reg then 2 else 0) in
  let need_spill := Z.lor src_need_spill dst_need_spill in
  let k_idx := TO_K_REG_INDEX k_reg in
  if k_idx =? 0 then
    match need_spill with
    | 0 =>
        let i1 := instr_create_1dst_2src OP_vextracti128 dst_opnd src_opnd imm8_opnd in
        rw_replace [i1]
    | 1 =>
        let src_spill_reg := find_one_available_spill_ymm dst_reg in
        let op_src_spill := opnd_create_reg src_spill_reg in
        let i1 := SAVE_SIMD_TO_SIZED_TLS src_spill_reg (TLS_ZMM_idx_SLOT (TO_YMM_REG_INDEX src_spill_reg)) OPSZ_32 in
        let i2 := RESTORE_SIMD_FROM_SIZED_TLS src_spill_reg (TLS_ZMM_idx_SLOT (TO_YMM_REG_INDEX src_reg)) OPSZ_32 in
        let i3 := instr_create_1dst_2src OP_vextracti128 dst_opnd op_src_spill imm8_opnd in
        let i4 := RESTORE_SIMD_FROM_SIZED_TLS src_spill_reg (TLS_ZMM_idx_SLOT (TO_YMM_REG_INDEX src_spill_reg)) OPSZ_32 in
        rw_replace [i1; i2; i3; i4]
    | 2 =>
        let dst_spill_reg := find_one_available_spill_xmm src_reg in
        let op_dst_spill := opnd_create_reg dst_spill_reg in
        let i1 := SAVE_SIMD_TO_SIZED_TLS dst_spill_reg (TLS_ZMM_idx_SLOT (TO_XMM_REG_INDEX dst_spill_reg)) OPSZ_16 in
        let i2 := instr_create_1dst_2src OP_vextracti128 op_dst_spill src_opnd imm8_opnd in
        let i3 := SAVE_SIMD_TO_SIZED_TLS (XMM_TO_YMM dst_spill_reg) (TLS_ZMM_idx_SLOT (TO_XMM_REG_INDEX dst_reg)) OPSZ_32 in
        let i4 := RESTORE_SIMD_FROM_SIZED_TLS dst_spill_reg (TLS_ZMM_idx_SLOT (TO_XMM_REG_INDEX dst_spill_reg)) OPSZ_16 in
        rw_replace [i1; i2; i3; i4]
    | 3 =>
        let src_spill_reg := DR_REG_NULL in
        let dst_spill_reg := DR_REG_NULL in
        if (TO_YMM_REG_INDEX src_reg) =? (TO_XMM_REG_INDEX dst_reg) then
          let src_spill_reg := YMM_SPILL_SLOT0 in
          let dst_spill_reg := YMM_TO_XMM src_spill_reg in
          let op_src_spill := opnd_create_reg src_spill_reg in
          let op_dst_spill := opnd_create_reg dst_spill_reg in
          let i1 := SAVE_SIMD_TO_SIZED_TLS src_spill_reg (TLS_ZMM_idx_SLOT (TO_YMM_REG_INDEX src_spill_reg)) OPSZ_32 in
          let i2 := RESTORE_SIMD_FROM_SIZED_TLS src_spill_reg (TLS_ZMM_idx_SLOT (TO_YMM_REG_INDEX src_reg)) OPSZ_32 in
          let i3 := instr_create_1dst_2src OP_vextracti128 op_dst_spill op_src_spill imm8_opnd in
          let i4 := SAVE_SIMD_TO_SIZED_TLS dst_spill_reg (TLS_ZMM_idx_SLOT (TO_XMM_REG_INDEX dst_reg)) OPSZ_16 in
          let i5 := RESTORE_SIMD_FROM_SIZED_TLS src_spill_reg (TLS_ZMM_idx_SLOT (TO_YMM_REG_INDEX src_spill_reg)) OPSZ_32 in
          rw_replace [i1; i2; i3; i4; i5]
        else
          let src_spill_reg := YMM_SPILL_SLOT0 in
          let dst_spill_reg := XMM_SPILL_SLOT1 in
          let op_src_spill := opnd_create_reg src_spill_reg in
          let op_dst_spill := opnd_create_reg dst_spill_reg in
          let i1 := SAVE_SIMD_TO_SIZED_TLS src_spill_reg (TLS_ZMM_idx_SLOT (TO_YMM_REG_INDEX src_spill_reg)) OPSZ_32 in
          let i2 := SAVE_SIMD_TO_SIZED_TLS dst_spill_reg (TLS_ZMM_idx_SLOT (TO_XMM_REG_INDEX dst_spill_reg)) OPSZ_16 in
          let i3 := RESTORE_SIMD_FROM_SIZED_TLS src_spill_reg (TLS_ZMM_idx_SLOT (TO_YMM_REG_INDEX src_reg)) OPSZ_32 in
          let i4 := instr_create_1dst_2src OP_vextracti128 op_dst_spill op_src_spill imm8_opnd in
          let i5 := SAVE_SIMD_TO_SIZED_TLS dst_spill_reg (TLS_ZMM_idx_SLOT (TO_XMM_REG_INDEX dst_reg)) OPSZ_16 in
          let i6 := RESTORE_SIMD_FROM_SIZED_TLS src_spill_reg (TLS_ZMM_idx_SLOT (TO_YMM_REG_INDEX src_spill_reg)) OPSZ_32 in
          let i7 := RESTORE_SIMD_FROM_SIZED_TLS dst_spill_reg (TLS_ZMM_idx_SLOT (TO_XMM_REG_INDEX dst_spill_reg)) OPSZ_16 in
          rw_replace [i1; i2; i3; i4; i5; i6; i7]
    | _ =>
        rw_removed_null
    end
  else
    rw_removed_null.

Definition rw_func_vextracti64x2 (instr : instr_t) : rw_result :=
  let imm8_opnd := instr_get_src instr 1 in
  let src_opnd := instr_get_src instr 2 in
  let dst_opnd := instr_get_dst instr 0 in
  let src_reg := opnd_get_reg src_opnd in
  let dst_reg := opnd_get_reg dst_opnd in
  let src_ymm_idx := TO_YMM_REG_INDEX src_reg in
  let dst_xmm_idx := TO_XMM_REG_INDEX dst_reg in
  if src_ymm_idx =? dst_xmm_idx then
    if NEED_SPILL_YMM src_reg then
      let spill_src_reg := YMM_SPILL_SLOT0 in
      let spill_dst_reg := XMM_SPILL_SLOT0 in
      let spill_src_opnd := opnd_create_reg spill_src_reg in
      let spill_dst_opnd := opnd_create_reg spill_dst_reg in
      let i1 := SAVE_SIMD_TO_SIZED_TLS spill_src_reg (TLS_ZMM_idx_SLOT (TO_YMM_REG_INDEX spill_src_reg)) OPSZ_32 in
      let i2 := RESTORE_SIMD_FROM_SIZED_TLS spill_src_reg (TLS_ZMM_idx_SLOT (TO_YMM_REG_INDEX src_reg)) OPSZ_32 in
      let i3 := instr_create_1dst_2src OP_vextracti128 spill_dst_opnd spill_src_opnd imm8_opnd in
      let i4 := SAVE_SIMD_TO_SIZED_TLS (XMM_TO_YMM spill_dst_reg) (TLS_ZMM_idx_SLOT (TO_XMM_REG_INDEX dst_reg)) OPSZ_32 in
      let i5 := RESTORE_SIMD_FROM_SIZED_TLS spill_src_reg (TLS_ZMM_idx_SLOT (TO_YMM_REG_INDEX spill_src_reg)) OPSZ_32 in
      rw_replace [i1; i2; i3; i4; i5]
    else
      let i1 := instr_create_1dst_2src OP_vextracti128 dst_opnd src_opnd imm8_opnd in
      rw_replace [i1]
  else
    let i1 := instr_create_1dst_2src OP_vextracti128 dst_opnd src_opnd imm8_opnd in
    rw_replace [i1].

(** ** Specification *)

(** The element a broadcast reads: the low [k] bytes of a general-purpose
    register, or [k] bytes of memory. *)
Definition guest_elem (k : nat) (o : opnd_t) (g : guest) : option Z :=
  match o with
  | OPND_REG r => let? v := read_gpr (guest_mach g) r in Some (wrap (bits_of k) v)
  | OPND_BASE_DISP _ _ _ _ _ => let? a := guest_addr o g in Some (load k (g_mem g) a)
  | _ => None
  end.

Definition vec_broadcast (n : Z) (k : nat) (d : Z) (o : opnd_t) (g : guest) : guest :=
  match guest_elem k o g with
  | Some v => set_zmm g d (fun l => if l <? n then pbroadcast (bits_of k) v else 0)
  | None => g
  end.

Definition vec_broadcast_keep (n : Z) (k : nat) (d : Z) (o : opnd_t) (g : guest) : guest :=
  match guest_elem k o g with
  | Some v => set_zmm g d (fun l => if l <? n then pbroadcast (bits_of k) v else g_zmm g d l)
  | None => g
  end.

(** The element can be read: a memory operand has an address, and the element
    does not run over the end of the address space. *)
Definition elem_ok (k : nat) (o : opnd_t) (g : guest) : Prop :=
  match o with
  | OPND_REG r => exists v, read_gpr (guest_mach g) r = Some v
  | _ => exists a, guest_addr o g = Some a /\ a + Z.of_nat k <= 2 ^ 64
  end.

(** ** Execution *)

(** Every lane of the vector length set to the same value. *)
Definition st_fill (s : mach) (d : Z) (n : nat) (v : Z) : mach := set_simd s d n (fun _ => v).

Lemma run_bcast op k src v d n i rest s :
  lane_bcast op = Some k -> avx2_reg d = Some (n, i) -> bcast_src k src s = Some v ->
  run (instr_create_1dst_1src op (opnd_create_reg d) src :: rest) s = run rest (st_fill s i n (pbroadcast (bits_of k) v)).
Proof.
  intros Hop Hd Hv; cbn [run].
  assert (E : exec (instr_create_1dst_1src op (opnd_create_reg d) src) s = exec_vbcast k [OPND_REG d] [src] s)
    by (destruct op; try discriminate Hop; injection Hop as <-; reflexivity).
  rewrite E; unfold exec_vbcast; rewrite Hd; cbn [obind]; rewrite Hv; reflexivity.
Qed.

Lemma run_movg op k r v i rest s :
  In (op, k) [(OP_vmovd, 4%nat); (OP_vmovq, 8%nat)] -> 0 <= i < 16 -> gpr_size r = Some k -> read_gpr s r = Some v ->
  run (instr_create_1dst_1src op (opnd_create_reg (xmm i)) (OPND_REG r) :: rest) s = run rest (st_fill s i 1 v).
Proof.
  intros Hop Hi Hg Hv; cbn [run].
  assert (E : exec (instr_create_1dst_1src op (opnd_create_reg (xmm i)) (OPND_REG r)) s
            = exec_vmovg k [OPND_REG (xmm i)] [OPND_REG r] s)
    by (destruct Hop as [H|[H|[]]]; injection H as <- <-; reflexivity).
  rewrite E; unfold exec_vmovg; rewrite avx2_reg_xmm, Hg by assumption; cbn [obind]; rewrite Hv; cbn [obind].
  now rewrite !Nat.eqb_refl.
Qed.

Lemma bcast_src_xmm k i s : 0 <= i < 16 -> bcast_src k (opnd_create_reg (xmm i)) s = Some (wrap (bits_of k) (simd s i 0)).
Proof. intros Hi; unfold bcast_src, opnd_create_reg; rewrite avx2_reg_xmm by assumption; reflexivity. Qed.

(** An element read from memory depends on the registers and the memory alone. *)
Lemma bcast_src_mem k base index scale disp sz a c s :
  gpr s = gpr c -> mem s = mem c -> opsz_bytes sz = k -> mem_addr c base index scale disp = Some a ->
  bcast_src k (mem_opnd base index scale disp sz) s = Some (load k (mem c) a).
Proof.
  intros Hg Hm Hk Ha; unfold bcast_src, mem_opnd, opnd_create_base_disp; rewrite (mem_addr_gpr c), Ha by assumption; cbn [obind].
  now rewrite Hk, Nat.eqb_refl, Hm.
Qed.

Section Reads.
Context (s : mach) (r j v : Z).
Lemma rd_fill l (Hl : 0 <= l < 2) : simd (st_fill s r 2 v) j l = if j =? r then wrap 128 v else simd s j l.
Proof. unfold st_fill; cbn [simd set_simd with_simd]; change (Z.of_nat 2) with 2; repeat zdecide; reflexivity. Qed.
Lemma rd1_fill_0 : simd (st_fill s r 1 v) j 0 = if j =? r then wrap 128 v else simd s j 0.
Proof. reflexivity. Qed.
Lemma rd1_fill l : simd (st_fill s r 1 v) j l = if j =? r then (if l <? 1 then wrap 128 v else 0) else simd s j l.
Proof. reflexivity. Qed.
Lemma rd1_fill_1 : simd (st_fill s r 1 v) j 1 = if j =? r then 0 else simd s j 1.
Proof. reflexivity. Qed.
End Reads.

Lemma tls_fill s d n v : tls (st_fill s d n v) = tls s.
Proof. reflexivity. Qed.
Lemma mem_fill s d n v : mem (st_fill s d n v) = mem s.
Proof. reflexivity. Qed.
Lemma gpr_fill s d n v : gpr (st_fill s d n v) = gpr s.
Proof. reflexivity. Qed.
Lemma same_frame_fill s t d n v : same_frame s t -> same_frame s (st_fill t d n v).
Proof. exact (fun H => H). Qed.

#[global] Opaque st_fill.

Lemma pbroadcast_range k v : In k [1; 2; 4; 8]%nat -> 0 <= pbroadcast (bits_of k) v < 2 ^ 128.
Proof. intros [<-|[<-|[<-|[<-|[]]]]]; apply lane_of_128; reflexivity. Qed.

Section Steps.
Context (op : opcode) (k : nat) (Hop : lane_bcast op = Some k) (s : mach) (rest : list instr_t) (r i : Z).
Context (Hr : 0 <= r < 16) (Hi : 0 <= i < 16).

Lemma run_bcast_ymm :
  run (instr_create_1dst_1src op (opnd_create_reg (ymm r)) (opnd_create_reg (xmm i)) :: rest) s
  = run rest (st_fill s r 2 (pbroadcast (bits_of k) (wrap (bits_of k) (simd s i 0)))).
Proof. apply run_bcast; [exact Hop|now apply avx2_reg_ymm|now apply bcast_src_xmm]. Qed.

Lemma run_bcast_xmm :
  run (instr_create_1dst_1src op (opnd_create_reg (xmm r)) (opnd_create_reg (xmm i)) :: rest) s
  = run rest (st_fill s r 1 (pbroadcast (bits_of k) (wrap (bits_of k) (simd s i 0)))).
Proof. apply run_bcast; [exact Hop|now apply avx2_reg_xmm|now apply bcast_src_xmm]. Qed.

Context (c : mach) (base index : reg_id_t) (scale disp a : Z) (sz : opnd_size).
Context (Hg : gpr s = gpr c) (Hm : mem s = mem c) (Hk : opsz_bytes sz = k) (Ha : mem_addr c base index scale disp = Some a).

Lemma run_bcast_mem_ymm :
  run (instr_create_1dst_1src op (opnd_create_reg (ymm r)) (mem_opnd base index scale disp sz) :: rest) s
  = run rest (st_fill s r 2 (pbroadcast (bits_of k) (load k (mem c) a))).
Proof. apply run_bcast; [exact Hop|now apply avx2_reg_ymm|now apply bcast_src_mem]. Qed.

Lemma run_bcast_mem_xmm :
  run (instr_create_1dst_1src op (opnd_create_reg (xmm r)) (mem_opnd base index scale disp sz) :: rest) s
  = run rest (st_fill s r 1 (pbroadcast (bits_of k) (load k (mem c) a))).
Proof. apply run_bcast; [exact Hop|now apply avx2_reg_xmm|now apply bcast_src_mem]. Qed.
End Steps.

(** ** Automation *)

Ltac frame_eq :=
  repeat first [rewrite gpr_save|rewrite gpr_load|rewrite gpr_fill|rewrite mem_save|rewrite mem_load|rewrite mem_fill]; reflexivity.

Ltac bcast_steps Hop :=
  unfold INSTR_CREATE_2; repeat first
    [ rewrite run_save_ymm by lia | rewrite run_save_ymm_hi by lia | rewrite run_load_ymm by lia
    | rewrite run_save_xmm by lia | rewrite run_load_xmm by lia
    | rewrite (run_mov_ymm OP_vmovdqu false eq_refl) by lia
    | rewrite (run_bcast_ymm _ _ Hop) by lia | rewrite (run_bcast_xmm _ _ Hop) by lia
    | match goal with
      | Ha : mem_addr ?c ?b ?i ?x ?d = Some ?a |- context [mem_opnd ?b ?i ?x ?d ?sz] =>
          first [ rewrite (fun s rest r Hr Hg Hm => run_bcast_mem_ymm _ _ Hop s rest r Hr c b i x d a sz Hg Hm eq_refl Ha) by (lia || frame_eq)
                | rewrite (fun s rest r Hr Hg Hm => run_bcast_mem_xmm _ _ Hop s rest r Hr c b i x d a sz Hg Hm eq_refl Ha) by (lia || frame_eq) ]
      end ].

Ltac fill_read1 :=
  first
    [ sym_read1
    | match goal with
      | |- context [tls (st_fill ?s ?d ?n ?v)] => rewrite (tls_fill s d n v)
      | |- context [simd (st_fill ?s ?r 1 ?v) ?j 0] => rewrite (rd1_fill_0 s r j v)
      | |- context [simd (st_fill ?s ?r 1 ?v) ?j 1] => rewrite (rd1_fill_1 s r j v)
      | |- context [simd (st_fill ?s ?r 1 ?v) ?j ?l] => rewrite (rd1_fill s r j v l)
      | |- context [simd (st_fill ?s ?r 2 ?v) ?j ?l] => rewrite (rd_fill s r j v l) by assumption
      end ].
Ltac fill_read := repeat (first [idx_decide | fill_read1]).

Ltac fill_frame :=
  repeat lazymatch goal with
  | |- same_frame ?s (st_fill ?t ?d ?n ?v) => apply (same_frame_fill s t d n v)
  | |- same_frame ?s (st_load ?t ?r ?n ?i ?m) => apply (same_frame_load s t r n i m)
  | |- same_frame ?s (st_mov ?t ?d ?n ?a) => apply (same_frame_mov s t d n a)
  | |- same_frame ?s (st_save ?t ?r ?n ?i ?m) => apply (same_frame_save s t r n i m); [lia|lia|]
  end;
  apply same_frame_refl.

Lemma wrap_fill k v : In k [1; 2; 4; 8]%nat -> wrap 128 (pbroadcast (bits_of k) v) = pbroadcast (bits_of k) v.
Proof. intros H; apply wrap_id, pbroadcast_range, H. Qed.

Lemma wrap_bits k v : In k [1; 2; 4; 8]%nat -> wrap (bits_of k) (wrap 128 v) = wrap (bits_of k) v.
Proof. intros [<-|[<-|[<-|[<-|[]]]]]; apply wrap_wrap_le; unfold bits_of; lia. Qed.

Ltac fill_wrap :=
  repeat first [ rewrite wrap_fill by (cbn; tauto) | rewrite wrap_bits by (cbn; tauto) | rewrite wrap_simd by assumption
               | rewrite wrap_tls_lane by assumption | rewrite wrap_wrap by lia ].

Ltac fill_solve :=
  apply view_set_zmm; [fill_frame| | | ]; intros i l Hi Hl; pose proof (conj (Z.le_refl 0) Z.lt_0_2 : 0 <= 0 < 2);
  fill_read; repeat sym_spec1; fill_wrap; reflexivity.

Ltac fill_solve_xmm :=
  apply view_set_zmm; [fill_frame| | | ]; intros i l Hi Hl;
  first [ match goal with |- context [tls_lane _ _ (2 + l)] => idtac end
        | assert (l = 0 \/ l = 1) as [-> | ->] by lia ];
  fill_read; repeat sym_spec1; fill_wrap; sym_close.

(** ** From memory *)

Section Memory.
Context (base index : reg_id_t) (scale disp d : Z) (mask : reg_id_t) (Hd : 0 <= d < 32).

Ltac bcast_mem f :=
  unfold f, create_mapping_ymm_opnd, create_mapping_xmm_opnd; cbn [opnd_get_reg opnd_create_reg];
  one_case d; autorewrite with rw_regs; (eexists; split; [reflexivity|]); apply translates_if_intro; intros c Hc Hp.

Ltac the_elem :=
  let a := fresh "a" in let Ha := fresh "Ha" in let Hlim := fresh "Hlim" in
  match goal with
  | Hp : elem_ok _ _ _ |- _ => destruct Hp as (a & Ha & Hlim)
  | Hp : _ /\ elem_ok _ _ _ |- _ => destruct Hp as (? & a & Ha & Hlim)
  end; unfold vec_broadcast, vec_broadcast_keep, guest_elem, mem_opnd, opnd_create_base_disp in *;
  rewrite Ha; cbn [obind];
  match type of Ha with guest_addr (OPND_BASE_DISP ?b ?i ?x ?y ?sz) _ = _ =>
    change (OPND_BASE_DISP b i x y sz) with (mem_opnd b i x y sz) in *; rewrite guest_addr_view in Ha end.

Let o k := mem_opnd base index scale disp k.

Ltac solve_mem f op k :=
  pose proof (eq_refl : lane_bcast op = Some k) as Hop; bcast_mem f;
  the_elem; (eexists; split; [bcast_steps Hop; cbn [run]; reflexivity|first [fill_solve | fill_solve_xmm]]).

Lemma zmm_mem_correct :
  rewrites_if (elem_ok 1 (o OPSZ_1)) (vec_broadcast 4 1 d (o OPSZ_1)) (vpbroadcastb_zmm_disp2reg_gen (o OPSZ_1) (opnd_create_reg (zmm d)) mask) /\
  rewrites_if (elem_ok 2 (o OPSZ_2)) (vec_broadcast 4 2 d (o OPSZ_2)) (vpbroadcastw_zmm_disp2reg_gen (o OPSZ_2) (opnd_create_reg (zmm d)) mask) /\
  rewrites_if (elem_ok 4 (o OPSZ_4)) (vec_broadcast 4 4 d (o OPSZ_4)) (vpbroadcastd_zmm_disp2reg_gen (o OPSZ_4) (opnd_create_reg (zmm d)) mask).
Proof.
  unfold o; split; [solve_mem vpbroadcastb_zmm_disp2reg_gen OP_vpbroadcastb 1%nat|split].
  - solve_mem vpbroadcastw_zmm_disp2reg_gen OP_vpbroadcastw 2%nat.
  - solve_mem vpbroadcastd_zmm_disp2reg_gen OP_vpbroadcastd 4%nat.
Qed.

Lemma ymm_mem_correct :
  rewrites_if (elem_ok 2 (o OPSZ_2)) (vec_broadcast_keep 2 2 d (o OPSZ_2)) (vpbroadcastw_ymm_disp2reg_gen (o OPSZ_2) (ymm d) mask) /\
  rewrites_if (elem_ok 8 (o OPSZ_8)) (vec_broadcast_keep 2 8 d (o OPSZ_8)) (vpbroadcastq_ymm_disp2reg_gen (o OPSZ_8) (ymm d) mask).
Proof.
  unfold o; split; [solve_mem vpbroadcastw_ymm_disp2reg_gen OP_vpbroadcastw 2%nat|].
  solve_mem vpbroadcastq_ymm_disp2reg_gen OP_vpbroadcastq 8%nat.
Qed.

Lemma xmm_mem_correct :
  rewrites_if (fun g => xmm_pre d g /\ elem_ok 2 (o OPSZ_2) g) (vec_broadcast 1 2 d (o OPSZ_2))
    (vpbroadcastw_xmm_disp2reg_gen (o OPSZ_2) (xmm d) mask) /\
  rewrites_if (fun g => xmm_pre d g /\ elem_ok 8 (o OPSZ_8) g) (vec_broadcast 1 8 d (o OPSZ_8))
    (vpbroadcastq_xmm_disp2reg_gen (o OPSZ_8) (xmm d) mask).
Proof.
  unfold o; split; [solve_mem vpbroadcastw_xmm_disp2reg_gen OP_vpbroadcastw 2%nat|].
  solve_mem vpbroadcastq_xmm_disp2reg_gen OP_vpbroadcastq 8%nat.
Qed.

(** The byte and doubleword forms below 512 bits have code for low registers
    only. *)
Ltac low_mem f op k :=
  pose proof (eq_refl : lane_bcast op = Some k) as Hop; unfold f, create_mapping_ymm_opnd, create_mapping_xmm_opnd;
  (eexists; split; [reflexivity|]); apply translates_if_intro; intros c Hc Hp;
  the_elem; (eexists; split; [bcast_steps Hop; cbn [run]; reflexivity|first [fill_solve | fill_solve_xmm]]).

Lemma low_mem_correct : d < 16 ->
  rewrites_if (elem_ok 1 (o OPSZ_1)) (vec_broadcast_keep 2 1 d (o OPSZ_1)) (vpbroadcastb_ymm_disp2reg_gen (o OPSZ_1) (ymm d) mask) /\
  rewrites_if (elem_ok 4 (o OPSZ_4)) (vec_broadcast_keep 2 4 d (o OPSZ_4)) (vpbroadcastd_ymm_disp2reg_gen (o OPSZ_4) (ymm d) mask) /\
  rewrites_if (fun g => xmm_pre d g /\ elem_ok 1 (o OPSZ_1) g) (vec_broadcast 1 1 d (o OPSZ_1))
    (vpbroadcastb_xmm_disp2reg_gen (o OPSZ_1) (xmm d) mask) /\
  rewrites_if (fun g => xmm_pre d g /\ elem_ok 4 (o OPSZ_4) g) (vec_broadcast 1 4 d (o OPSZ_4))
    (vpbroadcastd_xmm_disp2reg_gen (o OPSZ_4) (xmm d) mask).
Proof.
  intros Hlow; unfold o; split; [low_mem vpbroadcastb_ymm_disp2reg_gen OP_vpbroadcastb 1%nat|split; [|split]].
  - low_mem vpbroadcastd_ymm_disp2reg_gen OP_vpbroadcastd 4%nat.
  - low_mem vpbroadcastb_xmm_disp2reg_gen OP_vpbroadcastb 1%nat.
  - low_mem vpbroadcastd_xmm_disp2reg_gen OP_vpbroadcastd 4%nat.
Qed.
End Memory.

(** ** From a general-purpose register *)

Lemma gpr_reg_32 i : 0 <= i < 16 -> gpr_reg (gpr32 i) = Some (4%nat, i, 0).
Proof. intros H; apply rn_d, reg_names_all, H. Qed.
Lemma gpr_reg_64 i : 0 <= i < 16 -> gpr_reg (gpr64 i) = Some (8%nat, i, 0).
Proof. intros H; apply rn_q, reg_names_all, H. Qed.

(** The byte and doubleword generators ask whether a zmm register is a high
    ymm register, which it never is. *)
Lemma NEED_SPILL_YMM_zmm i : 0 <= i < 32 -> NEED_SPILL_YMM (zmm i) = false.
Proof. intros; unfold NEED_SPILL_YMM; unfold_regs; zcases; cbn [andb]; try reflexivity; lia. Qed.

Section Register.
Context (r d : Z) (mask : reg_id_t) (Hr : 0 <= r < 16) (Hd : 0 <= d < 32).

Ltac read_reg :=
  unfold read_gpr; rewrite ?gpr_reg_32, ?gpr_reg_64 by assumption; cbn [obind]; rewrite ?gpr_save, ?gpr_load, ?gpr_fill; reflexivity.

Ltac movg_steps op k reg Hop :=
  bcast_steps Hop;
  match goal with c : mach |- _ =>
    rewrite (run_movg op k reg (wrap (bits_of k) (gpr c r / 2 ^ 0))) by
      first [lia | cbn; tauto | unfold gpr_size; rewrite ?gpr_reg_32, ?gpr_reg_64 by assumption; reflexivity | read_reg] end;
  bcast_steps Hop; cbn [run]; reflexivity.

Ltac gpr_elem :=
  unfold vec_broadcast, vec_broadcast_keep, guest_elem, read_gpr; rewrite ?gpr_reg_32, ?gpr_reg_64 by assumption;
  cbn [obind guest_mach gpr view g_gpr].

Ltac bcast_reg f :=
  unfold f, create_mapping_ymm_opnd, create_mapping_xmm_opnd, opnd_create_reg at 1;
  rewrite ?TO_K_REG_INDEX_kreg; cbv iota; cbn [Z.eqb];
  rewrite ?NEED_SPILL_YMM_zmm by assumption; change YMM_SPILL_SLOT1 with (ymm 11); one_case d; try lia;
  autorewrite with rw_regs; cbn [Z.eqb]; cbv iota; (eexists; split; [reflexivity|]);
  first [apply translates_intro; intros c Hc | apply translates_if_intro; intros c Hc Hp].

Ltac solve_reg f op k mop mk reg :=
  pose proof (eq_refl : lane_bcast op = Some k) as Hop; bcast_reg f; gpr_elem;
  (eexists; split; [movg_steps mop mk reg Hop|first [fill_solve | fill_solve_xmm]]).

Let e := OPND_REG (gpr32 r).
Let q := OPND_REG (gpr64 r).

Lemma ymm_reg_correct src :
  rewrites (vec_broadcast_keep 2 1 d e) (vpbroadcastb_ymm_reg2reg_gen e src (gpr32 r) (ymm d) (kreg 0)) /\
  rewrites (vec_broadcast_keep 2 4 d e) (vpbroadcastd_ymm_reg2reg_gen e (ymm d) (kreg 0)) /\
  rewrites (vec_broadcast_keep 2 8 d q) (vpbroadcastq_ymm_reg2reg_gen q (ymm d) (kreg 0)).
Proof.
  unfold e, q; split; [solve_reg vpbroadcastb_ymm_reg2reg_gen OP_vpbroadcastb 1%nat OP_vmovd 4%nat (gpr32 r)|split].
  - solve_reg vpbroadcastd_ymm_reg2reg_gen OP_vpbroadcastd 4%nat OP_vmovd 4%nat (gpr32 r).
  - solve_reg vpbroadcastq_ymm_reg2reg_gen OP_vpbroadcastq 8%nat OP_vmovq 8%nat (gpr64 r).
Qed.

Lemma zmm_reg_correct :
  rewrites (vec_broadcast 4 8 d q) (vpbroadcastq_zmm_reg2reg_gen q (zmm d) (kreg 0)) /\
  (16 <= d -> rewrites (vec_broadcast 4 2 d e) (vpbroadcastw_zmm_reg2reg_gen e (gpr32 r) (zmm d) mask)) /\
  (d < 16 -> rewrites (vec_broadcast 4 4 d e) (vpbroadcastd_zmm_reg2reg_gen e (zmm d) (kreg 0))).
Proof.
  unfold e, q; split; [solve_reg vpbroadcastq_zmm_reg2reg_gen OP_vpbroadcastq 8%nat OP_vmovq 8%nat (gpr64 r)|split; intros Hrange].
  - solve_reg vpbroadcastw_zmm_reg2reg_gen OP_vpbroadcastw 2%nat OP_vmovd 4%nat (gpr32 r).
  - solve_reg vpbroadcastd_zmm_reg2reg_gen OP_vpbroadcastd 4%nat OP_vmovd 4%nat (gpr32 r).
Qed.

Lemma xmm_reg_correct src :
  rewrites_if (xmm_pre d) (vec_broadcast 1 2 d e) (vpbroadcastw_xmm_reg2reg_gen e (gpr32 r) (xmm d) mask) /\
  rewrites_if (xmm_pre d) (vec_broadcast 1 8 d q) (vpbroadcastq_xmm_reg2reg_gen q (xmm d) mask) /\
  (d < 16 -> rewrites_if (xmm_pre d) (vec_broadcast 1 1 d e) (vpbroadcastb_xmm_reg2reg_gen e src (gpr32 r) (xmm d) mask)) /\
  (d < 16 -> rewrites_if (xmm_pre d) (vec_broadcast 1 4 d e) (vpbroadcastd_xmm_reg2reg_gen e (xmm d) mask)).
Proof.
  unfold e, q; split; [solve_reg vpbroadcastw_xmm_reg2reg_gen OP_vpbroadcastw 2%nat OP_vmovd 4%nat (gpr32 r)|split; [|split; intros Hrange]].
  - solve_reg vpbroadcastq_xmm_reg2reg_gen OP_vpbroadcastq 8%nat OP_vmovq 8%nat (gpr64 r).
  - solve_reg vpbroadcastb_xmm_reg2reg_gen OP_vpbroadcastb 1%nat OP_vmovd 4%nat (gpr32 r).
  - solve_reg vpbroadcastd_xmm_reg2reg_gen OP_vpbroadcastd 4%nat OP_vmovd 4%nat (gpr32 r).
Qed.

Lemma ymm_word_reg_correct : d < 16 ->
  rewrites (vec_broadcast_keep 2 2 d e) (vpbroadcastw_ymm_reg2reg_gen e (gpr32 r) (ymm d) mask).
Proof. unfold e; intros Hlow; solve_reg vpbroadcastw_ymm_reg2reg_gen OP_vpbroadcastw 2%nat OP_vmovd 4%nat (gpr32 r). Qed.
End Register.

(** ** Extraction of a 128-bit lane *)

(** Lane [c mod 2] of the source into lane 0 of the destination, zeros above. *)
Definition vec_extract (d a c : Z) (g : guest) : guest :=
  set_zmm g d (fun l => if l <? 1 then g_zmm g a (wrap 1 c) else 0).

Lemma run_extract op c d a rest s :
  In op [OP_vextracti128; OP_vextractf128] -> 0 <= d < 16 -> 0 <= a < 16 ->
  run (instr_create_1dst_2src op (opnd_create_reg (xmm d)) (opnd_create_reg (ymm a)) (OPND_IMM c OPSZ_1) :: rest) s
  = run rest (st_fill s d 1 (simd s a (wrap 1 c))).
Proof.
  intros Hop Hd Ha; cbn [run].
  assert (E : exec (instr_create_1dst_2src op (opnd_create_reg (xmm d)) (opnd_create_reg (ymm a)) (OPND_IMM c OPSZ_1)) s
            = exec_vextract [OPND_REG (xmm d)] [OPND_REG (ymm a); OPND_IMM c OPSZ_1] s)
    by (destruct Hop as [<-|[<-|[]]]; reflexivity).
  rewrite E; unfold exec_vextract; rewrite avx2_reg_xmm, avx2_reg_ymm by assumption; reflexivity.
Qed.

Lemma wrap_1_cases c : wrap 1 c = 0 \/ wrap 1 c = 1.
Proof. pose proof (wrap_range 1 c ltac:(lia)) as H; change (2 ^ 1) with 2 in H; lia. Qed.

Section Extract.
Context (d a c : Z) (Hd : 0 <= d < 32) (Ha : 0 <= a < 32).

Ltac extract_steps :=
  repeat first
    [ rewrite run_save_ymm by lia | rewrite run_load_ymm by lia | rewrite run_save_xmm by lia | rewrite run_load_xmm by lia
    | rewrite run_extract by (cbn; tauto || lia) ]; cbn [run]; reflexivity.

Ltac extract_close :=
  (eexists; split; [reflexivity|]); apply translates_if_intro; intros s Hs Hp;
  eexists; (split; [extract_steps|]); unfold vec_extract;
  pose proof (conj (Z.le_refl 0) Z.lt_0_2 : 0 <= 0 < 2); pose proof (conj Z.le_0_1 Z.lt_1_2 : 0 <= 1 < 2);
  destruct (wrap_1_cases c) as [-> | ->]; fill_solve_xmm.

Ltac extract_func :=
  unfold rw_func_vextracti32x4, rw_func_vextracti64x2, rw_func_vextractf64x2, shift_instr, imm8, instr_get_src, instr_get_dst;
  cbn [instr_srcs instr_dsts nth opnd_get_reg opnd_create_reg]; change (OPND_REG (xmm d)) with (opnd_create_reg (xmm d));
  change (OPND_REG (ymm a)) with (opnd_create_reg (ymm a));
  rewrite ?TO_K_REG_INDEX_kreg by lia; change YMM_SPILL_SLOT0 with (ymm 10);
  change XMM_SPILL_SLOT0 with (xmm 10); change XMM_SPILL_SLOT1 with (xmm 11); autorewrite with rw_regs;
  rewrite ?find_one_ymm_xmm, ?find_one_xmm_ymm, ?NEED_SPILL_YMM_ymm, ?NEED_SPILL_XMM_xmm, ?TO_YMM_REG_INDEX_ymm,
    ?TO_XMM_REG_INDEX_xmm by lia.

Lemma vextracti32x4_code op : (16 <= a -> d <> 10) ->
  rewrites_if (xmm_pre d) (vec_extract d a c) (rw_func_vextracti32x4 (shift_instr op (kreg 0) (xmm d) (imm8 c) (ymm a))).
Proof.
  intros H10; extract_func.
  destruct (Z.leb_spec 16 a), (Z.leb_spec 16 d); cbn [Z.lor Z.eqb Pos.lor].
  1: destruct (Z.eqb_spec a d).
  all: autorewrite with rw_regs; extract_close.
Qed.

Lemma vextract_x2_code op : (a < 16 /\ d < 16 \/ a = d) ->
  rewrites_if (xmm_pre d) (vec_extract d a c) (rw_func_vextracti64x2 (shift_instr op (kreg 0) (xmm d) (imm8 c) (ymm a))) /\
  rewrites_if (xmm_pre d) (vec_extract d a c) (rw_func_vextractf64x2 (shift_instr op (kreg 0) (xmm d) (imm8 c) (ymm a))).
Proof.
  intros H; split; extract_func; destruct (Z.eqb_spec a d), (Z.leb_spec 16 a); try lia;
    first [assert (d < 16) by lia | assert (16 <= d) by lia]; clear H; autorewrite with rw_regs; extract_close.
Qed.
End Extract.

(** ** The rewrite functions *)

(** The rewrite function and the operand size of an element of [k] bytes, and
    the register of [n] lanes with index [d]. *)
Definition rw_func_vpbroadcast (k : nat) : instr_t -> rw_result :=
  match k with
  | 1%nat => rw_func_vpbroadcastb | 2%nat => rw_func_vpbroadcastw | 4%nat => rw_func_vpbroadcastd | _ => rw_func_vpbroadcastq
  end.
Definition elem_size (k : nat) : opnd_size :=
  match k with 1%nat => OPSZ_1 | 2%nat => OPSZ_2 | 4%nat => OPSZ_4 | _ => OPSZ_8 end.
Definition vreg (n d : Z) : reg_id_t := if n =? 4 then zmm d else if n =? 2 then ymm d else xmm d.
Definition bcast_instr (op : opcode) (dst : reg_id_t) (src : opnd_t) : instr_t :=
  mk_instr op [opnd_create_reg dst] [opnd_create_reg (kreg 0); src].

(** What a broadcast to [n] lanes does: the 256-bit forms leave bits 511:256 to
    the destination, the others clear what is above. *)
Definition broadcast (n : Z) (k : nat) (d : Z) (o : opnd_t) : guest -> guest :=
  if n =? 2 then vec_broadcast_keep 2 k d o else vec_broadcast n k d o.

(** The destinations for which the code is right. *)
Definition mem_bcast_ok (n : Z) (k : nat) (d : Z) : bool :=
  match k with 1%nat | 4%nat => (n =? 4) || (d <? 16) | 2%nat => true | _ => negb (n =? 4) end.
Definition reg_bcast_ok (n : Z) (k : nat) (d : Z) : bool :=
  match k with
  | 1%nat => negb (n =? 4) && ((n =? 2) || (d <? 16))
  | 2%nat => if n =? 4 then 16 <=? d else (n =? 1) || (d <? 16)
  | 4%nat => (n =? 2) || (d <? 16)
  | _ => true
  end.

Lemma rewrites_if_imp (P Q : guest -> Prop) spec r : (forall g, Q g -> P g) -> rewrites_if P spec r -> rewrites_if Q spec r.
Proof. intros H (code & Hr & Ht); exists code; split; [exact Hr|]; intros s Hs HQ; auto. Qed.

Lemma rewrites_rewrites_if P spec r : rewrites spec r -> rewrites_if P spec r.
Proof. apply rewrites_weaken; reflexivity. Qed.

Ltac width_cases n k :=
  match goal with Hn : In n _, Hk : In k _ |- _ =>
    destruct Hn as [<-|[<-|[<-|[]]]], Hk as [<-|[<-|[<-|[<-|[]]]]] end;
  cbn [Z.eqb Pos.eqb negb orb andb] in *; try discriminate.

Ltac bcast_func d :=
  let dispatch W := (let W1 := fresh in let W2 := fresh in let W3 := fresh in
    destruct (W d ltac:(assumption)) as (W1 & W2 & W3); rewrite ?W1, ?W2, ?W3; clear W1 W2 W3) in
  unfold broadcast, bcast_instr, vreg, rw_func_vpbroadcast, rw_func_vpbroadcastb, rw_func_vpbroadcastw, rw_func_vpbroadcastd,
    rw_func_vpbroadcastq, instr_get_src, instr_get_dst, opnd_create_reg, mem_opnd, opnd_create_base_disp;
  cbn [instr_srcs instr_dsts nth opnd_get_reg opnd_kind Z.eqb Pos.eqb];
  match goal with
  | |- context [zmm d] => dispatch zmm_width
  | |- context [ymm d] => dispatch ymm_width
  | |- context [xmm d] => dispatch xmm_width
  end.

(** Where bits 511:256 are zero the 256-bit form is the documented one. *)
Lemma broadcast_low P k d o r :
  rewrites_if P (broadcast 2 k d o) r -> rewrites_if (fun g => P g /\ upper_zero 2 d g) (vec_broadcast 2 k d o) r.
Proof.
  intros H; apply (rewrites_low_if_intro P 2 d (broadcast 2 k d o)); [|exact H]; intros g Hz.
  cbn [broadcast Z.eqb Pos.eqb]; unfold vec_broadcast_keep, vec_broadcast; destruct (guest_elem k o g) as [v|]; [|reflexivity].
  now apply (set_zmm_keep_zero 2 d (fun _ => pbroadcast (bits_of k) v)).
Qed.

(** Memory broadcasts, the 256-bit forms with bits 511:256 kept. *)
Lemma memory_broadcast op n k d base index scale disp :
  let o := mem_opnd base index scale disp (elem_size k) in
  In n [1; 2; 4] -> In k [1; 2; 4; 8]%nat -> 0 <= d < 32 -> mem_bcast_ok n k d = true ->
  rewrites_if (fun g => (n = 1 -> xmm_pre d g) /\ elem_ok k o g) (broadcast n k d o)
    (rw_func_vpbroadcast k (bcast_instr op (vreg n d) o)).
Proof.
  intros o Hn Hk Hd Hok; unfold o, mem_bcast_ok in *; width_cases n k; bcast_func d; zbool.
  all: eapply rewrites_if_imp; [|solve [apply zmm_mem_correct, Hd | apply ymm_mem_correct, Hd | apply xmm_mem_correct, Hd
                                       | apply low_mem_correct; assumption]]; cbn; tauto.
Qed.

(** C20: An unmasked broadcast of a byte, word, doubleword or quadword of memory,
    addressed by base + index * scale + displacement, fills the destination with
    copies of the element when the element can be read: words for every
    destination; bytes and doublewords for every zmm register and for the low
    ymm and xmm registers; quadwords for every ymm and xmm register.  The 256-bit
    forms leave bits 511:256 of the destination, and so have the documented
    effect, which zeroes them, where they are zero; the 128-bit forms have it
    from the states of [xmm_pre]; the 512-bit forms from every state. *)
Theorem memory_broadcasts_correct op n k d base index scale disp :
  let o := mem_opnd base index scale disp (elem_size k) in
  In n [1; 2; 4] -> In k [1; 2; 4; 8]%nat -> 0 <= d < 32 -> mem_bcast_ok n k d = true ->
  (n = 2 -> rewrites_if (elem_ok k o) (vec_broadcast_keep 2 k d o) (rw_func_vpbroadcast k (bcast_instr op (vreg n d) o))) /\
  rewrites_if (fun g => elem_ok k o g /\ (n = 1 -> xmm_pre d g) /\ (n = 2 -> upper_zero 2 d g)) (vec_broadcast n k d o)
    (rw_func_vpbroadcast k (bcast_instr op (vreg n d) o)).
Proof.
  intros o Hn Hk Hd Hok; pose proof (memory_broadcast op n k d base index scale disp Hn Hk Hd Hok) as H; fold o in H; split.
  - intros ->; eapply rewrites_if_imp; [|exact H]; intros g Hg; split; [discriminate|exact Hg].
  - destruct (Z.eq_dec n 2) as [->|Hne].
    + apply broadcast_low in H; eapply rewrites_if_imp; [|exact H]; intros g (He & H1 & H2); split; [split|]; auto.
    + replace (vec_broadcast n k d o) with (broadcast n k d o) by (unfold broadcast; now rewrite (proj2 (Z.eqb_neq n 2))).
      eapply rewrites_if_imp; [|exact H]; tauto.
Qed.

Lemma memory_broadcasts_correct_witness :
  rewrites_if (fun g => elem_ok 2 (mem_opnd DR_REG_RAX DR_REG_NULL 0 8 OPSZ_2) g /\ (4 = 1 -> xmm_pre 20 g) /\ (4 = 2 -> upper_zero 2 20 g))
    (vec_broadcast 4 2 20 (mem_opnd DR_REG_RAX DR_REG_NULL 0 8 OPSZ_2))
    (rw_func_vpbroadcastw (bcast_instr (OP_avx512 0) (zmm 20) (mem_opnd DR_REG_RAX DR_REG_NULL 0 8 OPSZ_2))) /\
  elem_ok 2 (mem_opnd DR_REG_RAX DR_REG_NULL 0 8 OPSZ_2) (view probe).
Proof.
  split; [|eexists; split; [vm_compute; reflexivity|vm_compute; discriminate]].
  apply (memory_broadcasts_correct (OP_avx512 0) 4 2 20 DR_REG_RAX DR_REG_NULL 0 8); [cbn; tauto|cbn; tauto|lia|reflexivity].
Defined.

(** The general-purpose register of a broadcast of [k] bytes. *)
Definition elem_gpr (k : nat) (r : Z) : reg_id_t := match k with 8%nat => gpr64 r | _ => gpr32 r end.

(** A broadcast of the low byte, word, doubleword or quadword of a
    general-purpose register fills the register with copies of it: bytes for
    every ymm and the low xmm registers; words for the high zmm, the low ymm
    and every xmm register; doublewords for every ymm and the low zmm and xmm
    registers; quadwords for every destination.  The 128-bit forms are right in
    the states where the 128-bit spill code is. *)
Theorem register_broadcasts_correct op n k d r :
  let o := opnd_create_reg (elem_gpr k r) in
  In n [1; 2; 4] -> In k [1; 2; 4; 8]%nat -> 0 <= d < 32 -> 0 <= r < 16 -> reg_bcast_ok n k d = true ->
  rewrites_if (fun g => n = 1 -> xmm_pre d g) (broadcast n k d o) (rw_func_vpbroadcast k (bcast_instr op (vreg n d) o)).
Proof.
  intros o Hn Hk Hd Hr Hok; unfold o, reg_bcast_ok, elem_gpr in *; pose proof (reg_names_all r Hr) as N.
  width_cases n k; bcast_func d; rewrite ?(rn_is_d r N), ?(rn_q_not_d r N), ?(rn_is_q r N); cbn [orb]; zbool.
  all: first
    [ apply rewrites_rewrites_if; solve [ apply (zmm_reg_correct r d (kreg 0)); assumption
      | apply (ymm_reg_correct r d Hr Hd (OPND_REG (ymm d))) | apply ymm_word_reg_correct; assumption ]
    | eapply rewrites_if_imp; [|solve [apply (xmm_reg_correct r d (kreg 0) Hr Hd (OPND_REG (xmm d))); assumption]]; cbn; tauto ].
Qed.

Lemma register_broadcasts_correct_witness :
  rewrites_if (fun g => 4 = 1 -> xmm_pre 20 g) (vec_broadcast 4 8 20 (opnd_create_reg (gpr64 3)))
    (rw_func_vpbroadcastq (bcast_instr (OP_avx512 0) (zmm 20) (opnd_create_reg (gpr64 3)))).
Proof.
  apply (register_broadcasts_correct (OP_avx512 0) 4 8 20 3); [cbn; tauto|cbn; tauto|lia|lia|reflexivity].
Defined.

(** Extraction of a 128-bit lane: [vextracti32x4] for every pair of registers
    but a high source with destination xmm10, whose new value is overwritten by
    the restored spill register; [vextracti64x2] and [vextractf64x2] for low
    registers and for a high source and destination of the same index. *)
Theorem extracts_correct op d a c :
  0 <= d < 32 -> 0 <= a < 32 ->
  ((16 <= a -> d <> 10) ->
   rewrites_if (xmm_pre d) (vec_extract d a c) (rw_func_vextracti32x4 (shift_instr op (kreg 0) (xmm d) (imm8 c) (ymm a)))) /\
  (a < 16 /\ d < 16 \/ a = d ->
   rewrites_if (xmm_pre d) (vec_extract d a c) (rw_func_vextracti64x2 (shift_instr op (kreg 0) (xmm d) (imm8 c) (ymm a))) /\
   rewrites_if (xmm_pre d) (vec_extract d a c) (rw_func_vextractf64x2 (shift_instr op (kreg 0) (xmm d) (imm8 c) (ymm a)))).
Proof. intros Hd Ha; split; intros H; [now apply vextracti32x4_code|now apply vextract_x2_code]. Qed.

Lemma extracts_correct_witness :
  rewrites_if (xmm_pre 20) (vec_extract 20 31 1) (rw_func_vextracti32x4 (shift_instr (OP_avx512 0) (kreg 0) (xmm 20) (imm8 1) (ymm 31))).
Proof. apply (extracts_correct (OP_avx512 0) 20 31 1); [lia|lia|intros _; discriminate]. Defined.

(** Instances outside the conditions.  The byte broadcast of a general-purpose
    register to a zmm register, the quadword broadcast of memory to one and the
    byte broadcast to a high xmm register do not encode; the word broadcast to
    a low zmm register leaves its copy in ymm10; the doubleword broadcast to a
    high zmm register does not encode; [vextracti32x4] to xmm10 from a high
    register loses its result. *)
Example broadcast_failures op :
  let e := opnd_create_reg (gpr32 3) in
  let m := mem_opnd DR_REG_RAX DR_REG_NULL 0 8 OPSZ_8 in
  ~ rewrites (broadcast 4 1 2 e) (rw_func_vpbroadcastb (bcast_instr op (zmm 2) e)) /\
  ~ rewrites_if (elem_ok 8 m) (broadcast 4 8 2 m) (rw_func_vpbroadcastq (bcast_instr op (zmm 2) m)) /\
  ~ rewrites (broadcast 4 2 2 e) (rw_func_vpbroadcastw (bcast_instr op (zmm 2) e)) /\
  ~ rewrites (broadcast 4 4 20 e) (rw_func_vpbroadcastd (bcast_instr op (zmm 20) e)) /\
  ~ rewrites_if (xmm_pre 20) (broadcast 1 1 20 e) (rw_func_vpbroadcastb (bcast_instr op (xmm 20) e)) /\
  ~ rewrites_if (xmm_pre 10) (vec_extract 10 20 0)
      (rw_func_vextracti32x4 (shift_instr op (kreg 0) (xmm 10) (imm8 0) (ymm 20))).
Proof.
  cbv zeta; split; [|split; [|split; [|split; [|split]]]].
  - apply (not_rewrites_lane _ _ 2 0); [lia|lia|vm_compute; discriminate].
  - apply (not_rewrites_if_lane _ _ _ probe 2 0);
      [apply probe_wf|eexists; split; [vm_compute; reflexivity|vm_compute; discriminate]|lia|lia|vm_compute; discriminate].
  - apply (not_rewrites_lane _ _ 10 0); [lia|lia|vm_compute; discriminate].
  - apply (not_rewrites_lane _ _ 20 0); [lia|lia|vm_compute; discriminate].
  - apply (not_rewrites_if_lane _ _ _ (probe_low 0) 20 0); [apply probe_low_wf|eval_xmm_pre|lia|lia|vm_compute; discriminate].
  - apply (not_rewrites_if_lane _ _ _ (probe_low 0) 10 0); [apply probe_low_wf|eval_xmm_pre|lia|lia|vm_compute; discriminate].
Qed.
