(* ===== verification/RwFuncs.v ===== *)
(** * Rewrite functions that choose a generator

    [vmovaps], by the kinds of its operands and the width of the register, and
    [vpackuswb], [vpaddw], [vpsubw], [vpsubd], [vpmulld], [vpandd] and [vpxord],
    by width. *)
From Stdlib Require Import ZArith List Bool Lia.
From S2P Require Import Prelude Regs Spill Bytes Lanes Machine Arch512 SymExec GenYmm GenXmm GenMov.
From S2P Require Import GenLane GenMem GenMixed.
Import ListNotations.
#[local] Open Scope Z_scope.
#[local] Open Scope bool_scope.
#[local] Open Scope rw_scope.

(** ** Generators that return NULL at once *)

Definition vpackuswb_ymm_reg_reg_gen (src1_reg src2_reg dst_reg mask_reg : reg_id_t) : rw_result :=
  rw_null.
Definition vpackuswb_zmm_reg_reg_gen (src1_reg src2_reg dst_reg mask_reg : reg_id_t) : rw_result :=
  rw_null.
Definition vpaddw_zmm_and_zmm_gen (src1_reg src2_reg dst_reg mask_reg : reg_id_t) : rw_result :=
  rw_null.
Definition vpandd_zmm_and_zmm_gen (src1_reg src2_reg dst_reg mask_reg : reg_id_t) : rw_result :=
  rw_null.
Definition vpmulld_zmm_and_zmm_gen (src1_reg src2_reg dst_reg mask_reg : reg_id_t) : rw_result :=
  rw_null.
Definition vpsubw_zmm_and_zmm_gen (src1_reg src2_reg dst_reg mask_reg : reg_id_t) : rw_result :=
  rw_null.
Definition vpxord_zmm_and_zmm_gen (src_reg1 src_reg2 dst_reg mask_reg : reg_id_t) : rw_result :=
  rw_null.

(** Table entries that do nothing, and one that puts a [nop] in place of the
    instruction. *)
Definition rw_func_vpmovzxbd (instr : instr_t) : rw_result := rw_null.
Definition rw_func_vpmovzxbq (instr : instr_t) : rw_result := rw_null.
Definition rw_func_vpmovzxwq (instr : instr_t) : rw_result := rw_null.
Definition rw_func_vpcmpq (instr : instr_t) : rw_result := rw_null.
Definition rw_func_vpscatterdq (instr : instr_t) : rw_result := rw_null.
Definition rw_func_vpscatterqd (instr : instr_t) : rw_result := rw_null.
Definition rw_func_vpscatterqq (instr : instr_t) : rw_result := rw_null.
Definition rw_func_kunpckdq (instr : instr_t) : rw_result := rw_null.
Definition rw_func_vinserti64x4 (instr : instr_t) : rw_result := rw_replace [instr_create_0dst_0src OP_nop].

(** ** Rewrite functions *)

Definition rw_func_vmovaps (instr : instr_t) : rw_result :=
  let mask_opnd := instr_get_src instr 0 in
  let src1_opnd := instr_get_src instr 1 in
  let dst_opnd := instr_get_dst instr 0 in
  let mask_reg := opnd_get_reg mask_opnd in
  match (opnd_kind src1_opnd) with
  | REG_kind =>
      if kind_eqb (opnd_kind dst_opnd) REG_kind then
        let dst_reg := opnd_get_reg dst_opnd in
        let src1_reg := opnd_get_reg src1_opnd in
        if IS_XMM_REG dst_reg then
          vmovaps_xmm_reg2reg_gen src1_reg dst_reg mask_reg
        else
          if IS_YMM_REG dst_reg then
            vmovaps_ymm_reg2reg_gen src1_reg dst_reg mask_reg
          else
            if IS_ZMM_REG dst_reg then
              vmovaps_zmm_reg2reg_gen src1_reg dst_reg mask_reg
            else
              rw_null
      else
        let src1_reg := opnd_get_reg src1_opnd in
        if IS_XMM_REG src1_reg then
          vmovaps_xmm_reg2disp_gen src1_reg dst_opnd mask_reg
        else
          if IS_YMM_REG src1_reg then
            vmovaps_ymm_reg2disp_gen src1_reg dst_opnd mask_reg
          else
            if IS_ZMM_REG src1_reg then
              vmovaps_zmm_reg2disp_gen src1_reg dst_opnd mask_reg
            else
              rw_null
  | BASE_DISP_kind =>
      let dst_reg := opnd_get_reg dst_opnd in
      if IS_XMM_REG dst_reg then
        vmovaps_xmm_disp2reg_gen src1_opnd dst_reg mask_reg
      else
        if IS_YMM_REG dst_reg then
          vmovaps_ymm_disp2reg_gen src1_opnd dst_reg mask_reg
        else
          if IS_ZMM_REG dst_reg then
            vmovaps_zmm_disp2reg_gen src1_opnd dst_reg mask_reg
          else
            rw_null
  | _ =>
      rw_null
  end.

Definition rw_func_vpackuswb (instr : instr_t) : rw_result :=
  let mask_opnd := instr_get_src instr 0 in
  let src1_opnd := instr_get_src instr 1 in
  let src2_opnd := instr_get_src instr 2 in
  let dst_opnd := instr_get_dst instr 0 in
  let mask_reg := opnd_get_reg mask_opnd in
  let src1_reg := opnd_get_reg src1_opnd in
  let src2_reg := opnd_get_reg src2_opnd in
  let dst_reg := opnd_get_reg dst_opnd in
  if IS_XMM_REG dst_reg then
    vpackuswb_xmm_reg_reg_gen src1_reg src2_reg dst_reg mask_reg
  else
    if IS_YMM_REG dst_reg then
      vpackuswb_ymm_reg_reg_gen src1_reg src2_reg dst_reg mask_reg
    else
      if IS_ZMM_REG dst_reg then
        vpackuswb_zmm_reg_reg_gen src1_reg src2_reg dst_reg mask_reg
      else
        rw_null.

Definition rw_func_vpaddw (instr : instr_t) : rw_result :=
  let mask_opnd := instr_get_src instr 0 in
  let src_opnd1 := instr_get_src instr 1 in
  let src_opnd2 := instr_get_src instr 2 in
  let dst_opnd := instr_get_dst instr 0 in
  let mask_reg := opnd_get_reg mask_opnd in
  let src1_reg := opnd_get_reg src_opnd1 in
  let src2_reg := opnd_get_reg src_opnd2 in
  let dst_reg := opnd_get_reg dst_opnd in
  if IS_ZMM_REG dst_reg then
    vpaddw_zmm_and_zmm_gen src1_reg src2_reg dst_reg mask_reg
  else
    if IS_YMM_REG dst_reg then
      vpaddw_ymm_and_ymm_gen src1_reg src2_reg dst_reg mask_reg
    else
      if IS_XMM_REG dst_reg then
        vpaddw_xmm_and_xmm_gen src1_reg src2_reg dst_reg mask_reg
      else
        rw_null.

Definition rw_func_vpsubw (instr : instr_t) : rw_result :=
  let mask_opnd := instr_get_src instr 0 in
  let src_opnd1 := instr_get_src instr 1 in
  let src_opnd2 := instr_get_src instr 2 in
  let dst_opnd := instr_get_dst instr 0 in
  let mask_reg := opnd_get_reg mask_opnd in
  let src1_reg := opnd_get_reg src_opnd1 in
  let src2_reg := opnd_get_reg src_opnd2 in
  let dst_reg := opnd_get_reg dst_opnd in
  if IS_YMM_REG dst_reg then
    vpsubw_ymm_and_ymm_gen src1_reg src2_reg dst_reg mask_reg
  else
    if IS_XMM_REG dst_reg then
      vpsubw_xmm_and_xmm_gen src1_reg src2_reg dst_reg mask_reg
    else
      if IS_ZMM_REG dst_reg then
        vpsubw_zmm_and_zmm_gen src1_reg src2_reg dst_reg mask_reg
      else
        rw_null.

Definition rw_func_vpsubd (instr : instr_t) : rw_result :=
  let mask_opnd := instr_get_src instr 0 in
  let src_opnd1 := instr_get_src instr 1 in
  let src_opnd2 := instr_get_src instr 2 in
  let dst_opnd := instr_get_dst instr 0 in
  let mask_reg := opnd_get_reg mask_opnd in
  let src1_reg := opnd_get_reg src_opnd1 in
  let src2_reg := opnd_get_reg src_opnd2 in
  let dst_reg := opnd_get_reg dst_opnd in
  if IS_YMM_REG dst_reg then
    vpsubd_ymm_and_ymm_gen src1_reg src2_reg dst_reg mask_reg
  else
    if IS_XMM_REG dst_reg then
      vpsubd_xmm_and_xmm_gen src1_reg src2_reg dst_reg mask_reg
    else
      if IS_ZMM_REG dst_reg then
        vpsubd_zmm_and_zmm_gen src1_reg src2_reg dst_reg mask_reg
      else
        rw_null.

Definition rw_func_vpmulld (instr : instr_t) : rw_result :=
  let mask_opnd := instr_get_src instr 0 in
  let src_opnd1 := instr_get_src instr 1 in
  let src_opnd2 := instr_get_src instr 2 in
  let dst_opnd := instr_get_dst instr 0 in
  let mask_reg := opnd_get_reg mask_opnd in
  let src1_reg := opnd_get_reg src_opnd1 in
  let src2_reg := opnd_get_reg src_opnd2 in
  let dst_reg := opnd_get_reg dst_opnd in
  if IS_ZMM_REG dst_reg then
    vpmulld_zmm_and_zmm_gen src1_reg src2_reg dst_reg mask_reg
  else
    if IS_YMM_REG dst_reg then
      vpmulld_ymm_and_ymm_gen src1_reg src2_reg dst_reg mask_reg
    else
      if IS_XMM_REG dst_reg then
        vpmulld_xmm_and_xmm_gen src1_reg src2_reg dst_reg mask_reg
      else
        rw_null.

Definition rw_func_vpandd (instr : instr_t) : rw_result :=
  let mask_opnd := instr_get_src instr 0 in
  let src_opnd1 := instr_get_src instr 1 in
  let src_opnd2 := instr_get_src instr 2 in
  let dst_opnd := instr_get_dst instr 0 in
  let mask_reg := opnd_get_reg mask_opnd in
  let src1_reg := opnd_get_reg src_opnd1 in
  let src2_reg := opnd_get_reg src_opnd2 in
  let dst_reg := opnd_get_reg dst_opnd in
  if IS_ZMM_REG dst_reg then
    vpandd_zmm_and_zmm_gen src1_reg src2_reg dst_reg mask_reg
  else
    if IS_YMM_REG dst_reg then
      vpandd_ymm_and_ymm_gen src1_reg src2_reg dst_reg mask_reg
    else
      if IS_XMM_REG dst_reg then
        vpandd_xmm_and_xmm_gen src1_reg src2_reg dst_reg mask_reg
      else
        rw_null.

Definition rw_func_vpxord (instr : instr_t) : rw_result :=
  let mask_opnd := instr_get_src instr 0 in
  let src_opnd1 := instr_get_src instr 1 in
  let src_opnd2 := instr_get_src instr 2 in
  let dst_opnd := instr_get_dst instr 0 in
  let mask_reg := opnd_get_reg mask_opnd in
  let src_reg1 := opnd_get_reg src_opnd1 in
  let src_reg2 := opnd_get_reg src_opnd2 in
  let dst_reg := opnd_get_reg dst_opnd in
  if IS_ZMM_REG src_reg1 then
    vpxord_zmm_and_zmm_gen src_reg1 src_reg2 dst_reg mask_reg
  else
    if IS_YMM_REG src_reg1 then
      vpxord_ymm_and_ymm_gen src_reg1 src_reg2 dst_reg mask_reg
    else
      if IS_XMM_REG src_reg1 then
        vpxord_xmm_and_xmm_gen src_reg1 src_reg2 dst_reg mask_reg
      else
        rw_null.

(** ** Theorems *)

(** The operands of [vmovaps] as the decoder lays them out: mask, source. *)
Definition mov_instr (op : opcode) (mask : reg_id_t) (dst src : opnd_t) : instr_t :=
  mk_instr op [dst] [opnd_create_reg mask; src].

Ltac rw_func W d :=
  let W1 := fresh in let W2 := fresh in let W3 := fresh in
  destruct (W d ltac:(assumption)) as (W1 & W2 & W3);
  unfold mov_instr, evex_instr, instr_get_src, instr_get_dst, opnd_create_reg, mem_opnd, opnd_create_base_disp;
  cbn [instr_srcs instr_dsts map nth opnd_get_reg opnd_kind kind_eqb]; rewrite ?W1, ?W2, ?W3.

(** C27: [rw_func_vmovaps] on unmasked instructions.  Memory operands are base,
    index and displacement, with room for the displacement of a second half,
    and the access is aligned and does not fault.  Loads and stores of every zmm
    register are the documented instruction.  So are stores of every ymm
    register; a ymm load leaves bits 511:256 of the destination and is the
    documented instruction where they are zero, as are moves between ymm
    registers.  Loads and moves of xmm registers are the documented instruction
    from the states of [xmm_pre], stores from those of [spill_low].  A move
    between zmm registers is the documented instruction if both are low or both
    are high, and otherwise the function removes the instruction and returns
    NULL.  Any other kind of source gives NULL and leaves the instruction. *)
Theorem vmovaps_dispatch_correct base index scale disp a d :
  0 <= a < 32 -> 0 <= d < 32 -> is_int32 (disp + SIZE_OF_YMM) = true ->
  let ox := mem_opnd base index scale disp OPSZ_16 in
  let oy := mem_opnd base index scale disp OPSZ_32 in
  let oz := mem_opnd base index scale disp OPSZ_64 in
  let rw dst src := rw_func_vmovaps (mov_instr OP_vmovaps DR_REG_K0 dst src) in
  (rewrites_if (access_ok 4 true oz) (vec_load 4 d oz) (rw (opnd_create_reg (zmm d)) oz) /\
   rewrites_low_if (access_ok 2 true oy) 2 d (vec_load_keep 2 d oy) (vec_load 2 d oy) (rw (opnd_create_reg (ymm d)) oy) /\
   rewrites_if (fun g => xmm_pre d g /\ access_ok 1 true ox g) (vec_load 1 d ox) (rw (opnd_create_reg (xmm d)) ox)) /\
  (rewrites_if (access_ok 4 true oz) (vec_store 4 oz d) (rw oz (opnd_create_reg (zmm d))) /\
   rewrites_if (access_ok 2 true oy) (vec_store 2 oy d) (rw oy (opnd_create_reg (ymm d))) /\
   rewrites_if (fun g => spill_low g /\ access_ok 1 true ox g) (vec_store 1 ox d) (rw ox (opnd_create_reg (xmm d)))) /\
  ((if vmovaps_zmm_supported a d
    then rewrites (vec_mov 4 d a) (rw (opnd_create_reg (zmm d)) (opnd_create_reg (zmm a)))
    else rw (opnd_create_reg (zmm d)) (opnd_create_reg (zmm a)) = rw_removed_null) /\
   rewrites_low 2 d (vec_mov_keep 2 d a) (vec_mov 2 d a) (rw (opnd_create_reg (ymm d)) (opnd_create_reg (ymm a))) /\
   rewrites_if (xmm_pre d) (vec_mov 1 d a) (rw (opnd_create_reg (xmm d)) (opnd_create_reg (xmm a)))) /\
  (forall dst src, opnd_kind src <> REG_kind -> opnd_kind src <> BASE_DISP_kind -> rw dst src = rw_null).
Proof.
  intros Ha Hd Hi ox oy oz rw; unfold rw, rw_func_vmovaps; split; [|split; [|split]].
  - split; [|split]; [rw_func zmm_width d|rw_func ymm_width d|rw_func xmm_width d].
    + now apply vmovaps_zmm_load_correct.
    + now apply vec_load_low, ymm_load_correct.
    + now apply xmm_load_correct.
  - split; [|split]; [rw_func zmm_width d|rw_func ymm_width d|rw_func xmm_width d].
    + now apply zmm_store_correct.
    + now apply ymm_store_correct.
    + now apply xmm_store_correct.
  - split; [|split]; [rw_func zmm_width d|rw_func ymm_width d|rw_func xmm_width d].
    + exact (proj2 (proj2 (vmovaps_correct a d DR_REG_K0 Ha Hd))).
    + now apply mov_low, vmovaps_ymm_correct.
    + now apply vmovaps_xmm_correct.
  - intros dst src H1 H2; unfold mov_instr, instr_get_src; cbn [instr_srcs nth]; now destruct (opnd_kind src).
Qed.

Lemma vmovaps_dispatch_correct_witness :
  let oz := mem_opnd DR_REG_RAX DR_REG_NULL 0 0 OPSZ_64 in
  rewrites_if (access_ok 4 true oz) (vec_load 4 20 oz)
    (rw_func_vmovaps (mov_instr OP_vmovaps DR_REG_K0 (opnd_create_reg (zmm 20)) oz)).
Proof. apply (vmovaps_dispatch_correct DR_REG_RAX DR_REG_NULL 0 0 1 20); reflexivity || lia. Defined.

(** The integer functions choose the generator of the destination's width: the
    ymm and xmm forms of [vpsubw], [vpsubd] and [vpaddw], the xmm form of
    [vpackuswb], the ymm forms of [vpmulld] and [vpandd] and the low ymm form of
    [vpxord] are right under the conditions of their generators; the zmm forms
    of all but [vpsubd], and the ymm form of [vpackuswb], return NULL and leave
    the instruction. *)
Theorem int_dispatch_correct a b d k :
  0 <= a < 32 -> 0 <= b < 32 -> 0 <= d < 32 ->
  let y op := evex_instr op k (ymm d) [ymm a; ymm b] in
  let x op := evex_instr op k (xmm d) [xmm a; xmm b] in
  let z op := evex_instr op k (zmm d) [zmm a; zmm b] in
  (ymm_fixed_conflict a b d = false ->
   rewrites (vec_binop_keep 2 (psub 16) d a b) (rw_func_vpsubw (y OP_vpsubw)) /\
   rewrites (vec_binop_keep 2 (psub 32) d a b) (rw_func_vpsubd (y OP_vpsubd)) /\
   rewrites_if (xmm_pre d) (vec_binop 1 (psub 16) d a b) (rw_func_vpsubw (x OP_vpsubw))) /\
  (xmm_binop_supported a b d = true ->
   rewrites_if (xmm_pre d) (vec_binop 1 (psub 32) d a b) (rw_func_vpsubd (x OP_vpsubd)) /\
   rewrites_if (xmm_pre d) (vec_binop 1 (padd 16) d a b) (rw_func_vpaddw (x OP_vpaddw))) /\
  rewrites_if (xmm_pre d) (vec_binop 1 packus d a b) (rw_func_vpackuswb (x OP_vpackuswb)) /\
  (ymm_partial_supported a b d = true ->
   rewrites (vec_binop_keep 2 (pmull 32) d a b) (rw_func_vpmulld (y OP_vpmulld)) /\
   rewrites (vec_binop_keep 2 pand d a b) (rw_func_vpandd (y OP_vpand))) /\
  (all_low a b d = true -> k = DR_REG_K0 ->
   rewrites (vec_binop 4 (psub 32) d a b) (rw_func_vpsubd (z OP_vpsubd)) /\
   rewrites (vec_binop_keep 2 pxor d a b) (rw_func_vpxord (y OP_vpxor))) /\
  (rw_func_vpaddw (z OP_vpaddw) = rw_null /\ rw_func_vpsubw (z OP_vpsubw) = rw_null /\
   rw_func_vpmulld (z OP_vpmulld) = rw_null /\ rw_func_vpandd (z OP_vpand) = rw_null /\
   rw_func_vpxord (z OP_vpxor) = rw_null /\
   rw_func_vpackuswb (z OP_vpackuswb) = rw_null /\ rw_func_vpackuswb (y OP_vpackuswb) = rw_null).
Proof.
  intros Ha Hb Hd y x z; unfold y, x, z, rw_func_vpsubw, rw_func_vpsubd, rw_func_vpaddw, rw_func_vpackuswb, rw_func_vpmulld,
    rw_func_vpandd, rw_func_vpxord; split; [|split; [|split; [|split; [|split]]]].
  - intros Hn; split; [rw_func ymm_width d; (apply ymm_fixed_correct; [reflexivity|typeclasses eauto|assumption..])|].
    split; [rw_func ymm_width d; (apply ymm_fixed_correct; [reflexivity|typeclasses eauto|assumption..])|].
    rw_func xmm_width d; now apply vpsubw_xmm_correct.
  - intros Hs; rw_func xmm_width d; split; (apply xmm_binop_correct; [reflexivity|typeclasses eauto|assumption..]).
  - rw_func xmm_width d; now apply vpackuswb_xmm_correct.
  - intros Hs; rw_func ymm_width d; split; [now apply vpmulld_ymm_correct|now apply vpandd_ymm_correct].
  - intros Hl ->; split; [rw_func zmm_width d; now apply vpsubd_zmm_correct|].
    rw_func ymm_width a; now apply vpxord_ymm_correct.
  - repeat split; first [rw_func zmm_width d; reflexivity|rw_func zmm_width a; reflexivity|rw_func ymm_width d; reflexivity].
Qed.

Lemma int_dispatch_correct_witness :
  rewrites (vec_binop 4 (psub 32) 3 4 5) (rw_func_vpsubd (evex_instr OP_vpsubd DR_REG_K0 (zmm 3) [zmm 4; zmm 5])).
Proof. apply (int_dispatch_correct 4 5 3 DR_REG_K0); reflexivity || lia. Defined.

(** The functions that are in the table without an implementation: eight return
    NULL for every operand, and [vinserti64x4] becomes a [nop], so that the
    destination keeps its value. *)
Theorem unimplemented_functions instr :
  (forall f, In f [rw_func_vpmovzxbd; rw_func_vpmovzxbq; rw_func_vpmovzxwq; rw_func_vpcmpq; rw_func_vpscatterdq;
                   rw_func_vpscatterqd; rw_func_vpscatterqq; rw_func_kunpckdq] -> f instr = rw_null) /\
  rewrites (fun g => g) (rw_func_vinserti64x4 instr).
Proof.
  split; [intros f H; repeat (destruct H as [<-|H]; [reflexivity|]); destruct H|].
  eexists; split; [reflexivity|]; apply translates_intro; intros s Hs; exists s; split; reflexivity.
Qed.
