(* ===== verification/ScalarExec.v ===== *)
(** * Execution of scalar code

    The mask-register functions emit scalar code that works on the TLS image of
    the mask registers through one or two general-purpose registers, which are
    saved on the application's stack or in TLS.  This file gives the effect of
    each scalar instruction on symbolic states and [scalar], a judgement for
    straight-line code with rules for the save/restore brackets. *)
From Stdlib Require Import ZArith List Bool Lia RelationClasses Morphisms.
From S2P Require Import Prelude Regs Spill Bytes Lanes Machine Arch512 SymExec.
Import ListNotations.
#[local] Open Scope Z_scope.
#[local] Open Scope bool_scope.
#[local] Open Scope rw_scope.

(** ** Writing and reading a register *)

Definition put (s : mach) (n : nat) (i v : Z) : mach :=
  with_gpr s (fun j => if j =? i then merge_gpr n 0 (gpr s i) v else gpr s j).

(** Reading [n] bytes back after writing [n] bytes. *)
Lemma wrap_merge n old v : wrap (bits_of n) (merge_gpr n 0 old v) = wrap (bits_of n) v.
Proof.
  unfold merge_gpr; assert (0 <= bits_of n) by (unfold bits_of; lia).
  destruct (4 <=? n)%nat; [now apply wrap_wrap|].
  rewrite Z.pow_0_r, Z.div_1_r, !Z.mul_1_r; unfold wrap.
  assert (0 < 2 ^ bits_of n) by (apply Z.pow_pos_nonneg; lia).
  replace (old - old mod 2 ^ bits_of n + v mod 2 ^ bits_of n)
    with (v mod 2 ^ bits_of n + old / 2 ^ bits_of n * 2 ^ bits_of n)
    by (pose proof (Z.div_mod old (2 ^ bits_of n)); lia).
  rewrite Z.mod_add by lia; apply Z.mod_mod; lia.
Qed.

Lemma read_put s n i v : wrap (bits_of n) (gpr (put s n i v) i) = wrap (bits_of n) v.
Proof. cbn [gpr put with_gpr]; rewrite Z.eqb_refl; apply wrap_merge. Qed.

Lemma gpr_put_other s n i v j : j <> i -> gpr (put s n i v) j = gpr s j.
Proof. intros H; cbn [gpr put with_gpr]; now rewrite (proj2 (Z.eqb_neq _ _)). Qed.

Lemma tls_put s n i v : tls (put s n i v) = tls s.
Proof. reflexivity. Qed.

Lemma gpr_rflags s f : gpr (with_rflags s f) = gpr s.
Proof. reflexivity. Qed.
Lemma gpr_tls s t : gpr (with_tls s t) = gpr s.
Proof. reflexivity. Qed.
Lemma tls_rflags s f : tls (with_rflags s f) = tls s.
Proof. reflexivity. Qed.
Lemma tls_tls s t : tls (with_tls s t) = t.
Proof. reflexivity. Qed.

Lemma write_gpr_put s r n i v : gpr_reg r = Some (n, i, 0) -> write_gpr s r v = Some (put s n i v).
Proof. intros H; unfold write_gpr; now rewrite H. Qed.

Lemma read_gpr_reg s r n i : gpr_reg r = Some (n, i, 0) -> read_gpr s r = Some (wrap (bits_of n) (gpr s i)).
Proof. intros H; unfold read_gpr; rewrite H; cbn [obind]; now rewrite Z.pow_0_r, Z.div_1_r. Qed.

Lemma gpr_size_reg r n i sh : gpr_reg r = Some (n, i, sh) -> gpr_size r = Some n.
Proof. intros H; unfold gpr_size; now rewrite H. Qed.

Lemma gpr_reg_q i : 0 <= i < 16 -> gpr_reg (DR_REG_RAX + i) = Some (8%nat, i, 0).
Proof.
  intros Hi; unfold gpr_reg.
  replace (IS_64GPR_REG _) with true
    by (symmetry; apply andb_true_intro; split; apply Z.leb_le; unfold DR_REG_RAX, DR_REG_R15; lia).
  now rewrite Z.add_simpl_l.
Qed.

(** Rewrite with what is known of a register named in the goal. *)
Ltac reg_facts H := rewrite ?(gpr_size_reg _ _ _ _ H), ?(read_gpr_reg _ _ _ _ H), ?(write_gpr_put _ _ _ _ _ H).

(** ** Single instructions *)

Lemma exec_ld r off sz s :
  exec (RESTORE_FROM_SIZED_TLS r off sz) s
  = (let? n := gpr_size r in
     if (opsz_bytes sz =? n)%nat then write_gpr s r (load n (tls s) (os_tls_offset off)) else None).
Proof. reflexivity. Qed.

Lemma exec_st r off sz s :
  exec (SAVE_TO_SIZED_TLS r off sz) s
  = (let? n := gpr_size r in let? v := read_gpr s r in
     if (opsz_bytes sz =? n)%nat then Some (with_tls s (store n (tls s) (os_tls_offset off) v)) else None).
Proof. reflexivity. Qed.

Lemma exec_not r s :
  exec (INSTR_CREATE_not (opnd_create_reg r)) s = (let? a := read_gpr s r in write_gpr s r (Z.lnot a)).
Proof. reflexivity. Qed.

Lemma exec_mov_imm r v sz s :
  exec (INSTR_CREATE_mov_imm (opnd_create_reg r) (OPND_IMM v sz)) s
  = (let? n := gpr_size r in write_gpr s r (imm_value n v sz)).
Proof. reflexivity. Qed.

Lemma exec_movzx r a s :
  exec (INSTR_CREATE_movzx (opnd_create_reg r) (opnd_create_reg a)) s
  = (let? n := gpr_size r in let? m := gpr_size a in
     if (m <? n)%nat then let? v := read_gpr s a in write_gpr s r v else None).
Proof. reflexivity. Qed.

Lemma exec_push r s :
  exec (INSTR_CREATE_push (opnd_create_reg r)) s
  = (let? n := gpr_size r in if (n =? 8)%nat then let? v := read_gpr s r in Some (push64 s v) else None).
Proof. reflexivity. Qed.

Lemma exec_pop r s :
  exec (INSTR_CREATE_pop (opnd_create_reg r)) s
  = (let? n := gpr_size r in if (n =? 8)%nat then write_gpr (drop64 s) r (top64 s) else None).
Proof. reflexivity. Qed.

Section Steps.
Context (s : mach) (k : list instr_t) (r : reg_id_t) (n : nat) (i : Z) (Hr : gpr_reg r = Some (n, i, 0)).

Lemma run_ld off sz :
  opsz_bytes sz = n -> 0 <= off < 65536 ->
  run (RESTORE_FROM_SIZED_TLS r off sz :: k) s = run k (put s n i (load n (tls s) off)).
Proof.
  intros Hsz Ho; cbn [run]; rewrite exec_ld; reg_facts Hr; cbn [obind].
  rewrite Hsz, Nat.eqb_refl, os_tls_offset_id by lia; now reg_facts Hr.
Qed.

Lemma run_st off sz :
  opsz_bytes sz = n -> 0 <= off < 65536 ->
  run (SAVE_TO_SIZED_TLS r off sz :: k) s
  = run k (with_tls s (store n (tls s) off (wrap (bits_of n) (gpr s i)))).
Proof.
  intros Hsz Ho; cbn [run]; rewrite exec_st; reg_facts Hr; cbn [obind].
  now rewrite Hsz, Nat.eqb_refl, os_tls_offset_id by lia.
Qed.

Lemma run_not :
  run (INSTR_CREATE_not (opnd_create_reg r) :: k) s
  = run k (put s n i (Z.lnot (wrap (bits_of n) (gpr s i)))).
Proof. cbn [run]; rewrite exec_not; reg_facts Hr; cbn [obind]; now reg_facts Hr. Qed.

Lemma run_mov_imm v sz :
  run (INSTR_CREATE_mov_imm (opnd_create_reg r) (OPND_IMM v sz) :: k) s
  = run k (put s n i (imm_value n v sz)).
Proof. cbn [run]; rewrite exec_mov_imm; reg_facts Hr; cbn [obind]; now reg_facts Hr. Qed.

Lemma run_movzx a m j :
  gpr_reg a = Some (m, j, 0) -> (m < n)%nat ->
  run (INSTR_CREATE_movzx (opnd_create_reg r) (opnd_create_reg a) :: k) s
  = run k (put s n i (wrap (bits_of m) (gpr s j))).
Proof.
  intros Ha Hm; cbn [run]; rewrite exec_movzx; reg_facts Hr; reg_facts Ha; cbn [obind].
  rewrite (proj2 (Nat.ltb_lt _ _)) by assumption; now reg_facts Hr.
Qed.

Lemma run_shl c sz :
  0 < wrap (if (n =? 8)%nat then 6 else 5) c ->
  let c' := wrap (if (n =? 8)%nat then 6 else 5) c in
  let a := wrap (bits_of n) (gpr s i) in
  run (INSTR_CREATE_shl (opnd_create_reg r) (OPND_IMM c sz) :: k) s
  = run k (with_rflags (put s n i (a * 2 ^ c')) (shl_flags (bits_of n) a c' (rflags s))).
Proof.
  intros Hc; cbn [run].
  change (exec _ s) with (exec_shl r c s); unfold exec_shl; reg_facts Hr; cbn [obind]; cbv zeta.
  rewrite (proj2 (Z.eqb_neq _ 0)) by lia; now reg_facts Hr.
Qed.

Lemma run_flags op fl src b :
  (forall r0 src0 s0, exec (mk_instr op [] [OPND_REG r0; src0]) s0 = exec_flags fl r0 src0 s0) ->
  read_src s n src = Some b ->
  run (instr_create_0dst_2src op (opnd_create_reg r) src :: k) s
  = run k (with_rflags s (fl (bits_of n) (wrap (bits_of n) (gpr s i)) b (rflags s))).
Proof.
  intros Hop Hb; cbn [run]; unfold instr_create_0dst_2src, opnd_create_reg; rewrite Hop.
  unfold exec_flags; reg_facts Hr; cbn [obind]; now rewrite Hb.
Qed.

Section Alu.
Context (f : Z -> Z -> Z) (fl : Z -> Z -> Z -> Z -> Z) (op : opcode).
Context (Hop : forall d src x s0, exec (mk_instr op [d] [src; x]) s0 = exec_alu f fl d src s0).

Lemma run_alu src b :
  read_src s n src = Some b ->
  let a := wrap (bits_of n) (gpr s i) in
  run (instr_create_1dst_2src op (opnd_create_reg r) src (opnd_create_reg r) :: k) s
  = run k (with_rflags (put s n i (f a b)) (fl (bits_of n) a b (rflags s))).
Proof.
  intros Hb; cbn [run]; unfold instr_create_1dst_2src; rewrite Hop.
  unfold exec_alu, opnd_create_reg; reg_facts Hr; cbn [obind]; rewrite Hb; cbn [obind].
  now reg_facts Hr.
Qed.
End Alu.

Lemma read_src_reg : read_src s n (opnd_create_reg r) = Some (wrap (bits_of n) (gpr s i)).
Proof. unfold read_src, opnd_create_reg; reg_facts Hr; cbn [obind]; now rewrite Nat.eqb_refl. Qed.
End Steps.

Lemma exec_and d src x s : exec (mk_instr OP_and [d] [src; x]) s = exec_alu Z.land (logic_fl Z.land) d src s.
Proof. reflexivity. Qed.
Lemma exec_or d src x s : exec (mk_instr OP_or [d] [src; x]) s = exec_alu Z.lor (logic_fl Z.lor) d src s.
Proof. reflexivity. Qed.
Lemma exec_xor d src x s : exec (mk_instr OP_xor [d] [src; x]) s = exec_alu Z.lxor (logic_fl Z.lxor) d src s.
Proof. reflexivity. Qed.
Lemma exec_add d src x s : exec (mk_instr OP_add [d] [src; x]) s = exec_alu Z.add add_flags d src s.
Proof. reflexivity. Qed.

Lemma exec_test r src s : exec (mk_instr OP_test [] [OPND_REG r; src]) s = exec_flags (logic_fl Z.land) r src s.
Proof. reflexivity. Qed.
Lemma exec_cmp r src s : exec (mk_instr OP_cmp [] [OPND_REG r; src]) s = exec_flags sub_flags r src s.
Proof. reflexivity. Qed.

Section AluSteps.
Context (s : mach) (k : list instr_t) (r q : reg_id_t) (n : nat) (i j : Z).
Context (Hr : gpr_reg r = Some (n, i, 0)).

Lemma read_src_imm v sz :
  (opsz_bytes sz <= n)%nat -> (opsz_bytes sz <= 4)%nat -> read_src s n (OPND_IMM v sz) = Some (imm_value n v sz).
Proof. intros H1 H2; cbn [read_src]; now rewrite (proj2 (Nat.leb_le _ _)) by lia. Qed.

Lemma run_and_reg (Hq : gpr_reg q = Some (n, j, 0)) :
  let a := wrap (bits_of n) (gpr s i) in let b := wrap (bits_of n) (gpr s j) in
  run (INSTR_CREATE_and (opnd_create_reg r) (opnd_create_reg q) :: k) s
  = run k (with_rflags (put s n i (Z.land a b)) (logic_fl Z.land (bits_of n) a b (rflags s))).
Proof. apply (run_alu s k r n i Hr _ _ _ exec_and); now apply read_src_reg. Qed.

Lemma run_or_reg (Hq : gpr_reg q = Some (n, j, 0)) :
  let a := wrap (bits_of n) (gpr s i) in let b := wrap (bits_of n) (gpr s j) in
  run (INSTR_CREATE_or (opnd_create_reg r) (opnd_create_reg q) :: k) s
  = run k (with_rflags (put s n i (Z.lor a b)) (logic_fl Z.lor (bits_of n) a b (rflags s))).
Proof. apply (run_alu s k r n i Hr _ _ _ exec_or); now apply read_src_reg. Qed.

Lemma run_xor_reg (Hq : gpr_reg q = Some (n, j, 0)) :
  let a := wrap (bits_of n) (gpr s i) in let b := wrap (bits_of n) (gpr s j) in
  run (INSTR_CREATE_xor (opnd_create_reg r) (opnd_create_reg q) :: k) s
  = run k (with_rflags (put s n i (Z.lxor a b)) (logic_fl Z.lxor (bits_of n) a b (rflags s))).
Proof. apply (run_alu s k r n i Hr _ _ _ exec_xor); now apply read_src_reg. Qed.

Lemma run_test (Hq : gpr_reg q = Some (n, j, 0)) :
  let a := wrap (bits_of n) (gpr s i) in let b := wrap (bits_of n) (gpr s j) in
  run (INSTR_CREATE_test (opnd_create_reg r) (opnd_create_reg q) :: k) s
  = run k (with_rflags s (logic_fl Z.land (bits_of n) a b (rflags s))).
Proof. apply (run_flags s k r n i Hr _ _ _ _ exec_test); now apply read_src_reg. Qed.

Lemma run_cmp_imm v sz :
  (opsz_bytes sz <= n)%nat -> (opsz_bytes sz <= 4)%nat ->
  let a := wrap (bits_of n) (gpr s i) in let b := imm_value n v sz in
  run (INSTR_CREATE_cmp (opnd_create_reg r) (OPND_IMM v sz) :: k) s
  = run k (with_rflags s (sub_flags (bits_of n) a b (rflags s))).
Proof. intros; apply (run_flags s k r n i Hr _ _ _ _ exec_cmp); now apply read_src_imm. Qed.

Lemma run_and_imm v sz :
  (opsz_bytes sz <= n)%nat -> (opsz_bytes sz <= 4)%nat ->
  let a := wrap (bits_of n) (gpr s i) in let b := imm_value n v sz in
  run (INSTR_CREATE_and (opnd_create_reg r) (OPND_IMM v sz) :: k) s
  = run k (with_rflags (put s n i (Z.land a b)) (logic_fl Z.land (bits_of n) a b (rflags s))).
Proof. intros; apply (run_alu s k r n i Hr _ _ _ exec_and); now apply read_src_imm. Qed.
End AluSteps.

(** ** Straight-line code with saved registers *)

Definition rsp (s : mach) : Z := gpr s rsp_idx.

(** [s'] has TLS [t'] and flags [f']; the ymm registers, the stack pointer and
    every GPR outside [clob] are as in [s], and memory too except for [n]
    quadwords below the stack pointer. *)
Definition framed (n : Z) (clob : list Z) (s s' : mach) (t' : memory) (f' : Z) : Prop :=
  (forall i l, 0 <= i < 16 -> 0 <= l < 2 -> simd s' i l = simd s i l) /\ tls s' = t' /\ rflags s' = f' /\
  rsp s' = rsp s /\ (forall j, ~ In j clob -> gpr s' j = gpr s j) /\
  (forall a, ~ (rsp s - 8 * n <= a < rsp s) -> mem s' a = mem s a).

(** From [s] the code runs to such a state. *)
Definition scalar (n : Z) (clob : list Z) (code : list instr_t) (s : mach) (t' : memory) (f' : Z) : Prop :=
  exists s', run code s = Some s' /\ framed n clob s s' t' f'.

Lemma push64_rsp s v : wf_mach s -> 8 <= rsp s -> rsp (push64 s v) = rsp s - 8.
Proof.
  intros (_ & Hg & _) Hr; specialize (Hg rsp_idx); unfold rsp in *; cbn; apply wrap_id; lia.
Qed.

Lemma push64_gpr s v j : j <> rsp_idx -> gpr (push64 s v) j = gpr s j.
Proof. intros; cbn; now rewrite (proj2 (Z.eqb_neq _ _)). Qed.

(** What a push put on the stack is still there after framed code. *)
Lemma framed_top s v s1 n :
  wf_mach s -> 8 <= rsp s -> 0 <= v < 2 ^ 64 -> 0 <= n -> rsp s1 = rsp (push64 s v) ->
  (forall a, ~ (rsp (push64 s v) - 8 * n <= a < rsp (push64 s v)) -> mem s1 a = mem (push64 s v) a) ->
  top64 s1 = v.
Proof.
  intros Hs Hr Hv Hn E Hm; unfold top64; fold (rsp s1); rewrite E.
  rewrite (load_ext 8 _ (mem (push64 s v)) _) by (intros x Hx; apply Hm; lia).
  assert (Ep : mem (push64 s v) = store 8 (mem s) (rsp (push64 s v)) v) by reflexivity.
  rewrite Ep, load_store_same; apply Z.mod_small; exact Hv.
Qed.

Lemma drop64_rsp s s1 v :
  wf_mach s -> 8 <= rsp s -> rsp s1 = rsp (push64 s v) -> gpr (drop64 s1) rsp_idx = rsp s.
Proof.
  intros Hs Hr E; cbn; fold (rsp s1); rewrite E, push64_rsp by assumption.
  destruct Hs as (_ & Hg & _); specialize (Hg rsp_idx); unfold rsp in *; rewrite wrap_id; lia.
Qed.

(** Memory outside the frame of the inner code and the pushed quadword. *)
Lemma framed_mem s v s1 n :
  wf_mach s -> 8 <= rsp s -> 0 <= n ->
  (forall a, ~ (rsp (push64 s v) - 8 * n <= a < rsp (push64 s v)) -> mem s1 a = mem (push64 s v) a) ->
  forall a, ~ (rsp s - 8 * (n + 1) <= a < rsp s) -> mem s1 a = mem s a.
Proof.
  intros Hs Hr Hn Hm a Ha; rewrite push64_rsp in Hm by assumption; rewrite Hm by lia.
  assert (Ep : mem (push64 s v) = store 8 (mem s) (rsp (push64 s v)) v) by reflexivity.
  rewrite Ep, push64_rsp by assumption; unfold store; change (Z.of_nat 8) with 8.
  destruct (Z.leb_spec (rsp s - 8) a), (Z.ltb_spec a (rsp s - 8 + 8)); cbn [andb]; auto; lia.
Qed.

(** What a pop makes of a state that comes from framed code after the push of
    register [i]. *)
Definition popped (s1 : mach) (i : Z) : mach := put (drop64 s1) 8 i (top64 s1).

Section PushPop.
Context (r : reg_id_t) (i : Z) (Hr : gpr_reg r = Some (8%nat, i, 0)).

Lemma exec_push_reg s :
  wf_mach s -> exec (INSTR_CREATE_push (opnd_create_reg r)) s = Some (push64 s (gpr s i)).
Proof.
  intros Hs; rewrite exec_push; reg_facts Hr; cbn [obind Nat.eqb]; change (bits_of 8) with 64.
  now rewrite (wrap_id 64 (gpr s i)) by apply Hs.
Qed.

Lemma exec_pop_reg s1 : exec (INSTR_CREATE_pop (opnd_create_reg r)) s1 = Some (popped s1 i).
Proof. rewrite exec_pop; reg_facts Hr; cbn [obind Nat.eqb]; now reg_facts Hr. Qed.

Lemma framed_push n clob s s1 t' f' :
  i <> rsp_idx -> wf_mach s -> 0 <= n -> 8 * (n + 1) <= rsp s ->
  framed n clob (push64 s (gpr s i)) s1 t' f' ->
  framed (n + 1) (remove Z.eq_dec i clob) s (popped s1 i) t' f'.
Proof.
  intros Hi Hs Hn Hsp (Es & Et & Ef & Er & Eg & Em).
  assert (Hv : 0 <= gpr s i < 2 ^ 64) by apply Hs.
  assert (Htop : top64 s1 = gpr s i) by (eapply framed_top; eauto; lia).
  split; [exact Es|split; [exact Et|split; [exact Ef|split; [|split]]]].
  - unfold rsp at 1, popped; cbn -[drop64 Z.eqb]; rewrite (proj2 (Z.eqb_neq _ _)) by auto.
    eapply drop64_rsp; eauto; lia.
  - intros j Hj; unfold popped; cbn -[drop64 top64 merge_gpr Z.eqb]; destruct (Z.eqb_spec j i) as [->|Hne].
    + unfold merge_gpr; cbn [Nat.leb]; rewrite Htop; now apply wrap_id.
    + destruct (Z.eqb_spec j rsp_idx) as [->|Hsp'].
      * eapply drop64_rsp; eauto; lia.
      * unfold drop64; cbn -[Z.eqb]; rewrite (proj2 (Z.eqb_neq _ _)) by assumption.
        rewrite Eg by (intros Hin; apply Hj, in_in_remove; auto).
        now apply push64_gpr.
  - eapply framed_mem; eauto; lia.
Qed.
End PushPop.

Lemma scalar_push r i n clob body s t' f' :
  gpr_reg r = Some (8%nat, i, 0) -> i <> rsp_idx -> wf_mach s -> 0 <= n -> 8 * (n + 1) <= rsp s ->
  scalar n clob body (push64 s (gpr s i)) t' f' ->
  scalar (n + 1) (remove Z.eq_dec i clob)
    (INSTR_CREATE_push (opnd_create_reg r) :: body ++ [INSTR_CREATE_pop (opnd_create_reg r)]) s t' f'.
Proof.
  intros Hr Hi Hs Hn Hsp (s1 & R & F); exists (popped s1 i); split; [|now apply framed_push].
  cbn [run]; rewrite (exec_push_reg r i Hr) by assumption; cbn [obind].
  rewrite run_app, R; cbn [obind run]; now rewrite (exec_pop_reg r i Hr).
Qed.

Lemma framed_pushf n clob s s1 t' f' :
  wf_mach s -> 0 <= n -> 8 * (n + 1) <= rsp s -> ~ In rsp_idx clob ->
  framed n clob (push64 s (rflags s)) s1 t' f' ->
  framed (n + 1) clob s (with_rflags (drop64 s1) (top64 s1)) t' (rflags s).
Proof.
  intros Hs Hn Hsp Hc (Es & Et & Ef & Er & Eg & Em).
  split; [exact Es|split; [exact Et|split; [|split; [|split]]]].
  - cbn; eapply framed_top; eauto; [lia|apply Hs].
  - eapply drop64_rsp; eauto; lia.
  - intros j Hj; cbn -[drop64 Z.eqb]; destruct (Z.eqb_spec j rsp_idx) as [->|Hne].
    + eapply drop64_rsp; eauto; lia.
    + unfold drop64; cbn -[Z.eqb]; rewrite (proj2 (Z.eqb_neq _ _)) by assumption.
      rewrite Eg by assumption; now apply push64_gpr.
  - eapply framed_mem; eauto; lia.
Qed.

Lemma scalar_pushf n clob body s t' f' :
  wf_mach s -> 0 <= n -> 8 * (n + 1) <= rsp s -> ~ In rsp_idx clob ->
  scalar n clob body (push64 s (rflags s)) t' f' ->
  scalar (n + 1) clob (INSTR_CREATE_pushf :: body ++ [INSTR_CREATE_popf]) s t' (rflags s).
Proof.
  intros Hs Hn Hsp Hc (s1 & R & F); exists (with_rflags (drop64 s1) (top64 s1)); split; [|eapply framed_pushf; eauto].
  cbn [run]; change (exec INSTR_CREATE_pushf s) with (Some (push64 s (rflags s))); cbn [obind].
  rewrite run_app, R; reflexivity.
Qed.

(** Saving in a TLS slot the inner code does not write. *)
Lemma scalar_tls r i off n clob body s t' f' :
  gpr_reg r = Some (8%nat, i, 0) -> i <> rsp_idx -> wf_mach s -> 0 <= off < 65536 ->
  scalar n clob body (with_tls s (store 8 (tls s) off (gpr s i))) t' f' ->
  load 8 t' off = gpr s i ->
  scalar n (remove Z.eq_dec i clob) (SAVE_TO_TLS r off :: body ++ [RESTORE_FROM_TLS r off]) s t' f'.
Proof.
  intros Hr Hi Hs Ho (s1 & R & Es & Et & Ef & Er & Eg & Em) Hl.
  assert (Hv : 0 <= gpr s i < 2 ^ 64) by apply Hs.
  exists (put s1 8 i (load 8 (tls s1) off)).
  split; [|split; [exact Es|split; [exact Et|split; [exact Ef|split; [|split]]]]].
  - change (SAVE_TO_TLS r off) with (SAVE_TO_SIZED_TLS r off OPSZ_8).
    rewrite (run_st s _ _ _ _ Hr) by (reflexivity || lia); change (bits_of 8) with 64.
    rewrite (wrap_id 64) by assumption; rewrite run_app, R; cbn [obind].
    change (RESTORE_FROM_TLS r off) with (RESTORE_FROM_SIZED_TLS r off OPSZ_8).
    now rewrite (run_ld s1 _ _ _ _ Hr) by (reflexivity || lia).
  - unfold rsp at 1; cbn -[Z.eqb load]; rewrite (proj2 (Z.eqb_neq _ _)) by auto; exact Er.
  - intros j Hj; cbn -[Z.eqb load merge_gpr]; destruct (Z.eqb_spec j i) as [->|Hne].
    + unfold merge_gpr; cbn [Nat.leb]; rewrite Et, Hl; now apply wrap_id.
    + apply Eg; intros Hin; apply Hj, in_in_remove; auto.
  - exact Em.
Qed.

(** Straight-line code that touches neither the stack nor memory. *)
Lemma scalar_body clob body s s' :
  run body s = Some s' -> simd s' = simd s -> mem s' = mem s ->
  (forall j, ~ In j clob -> gpr s' j = gpr s j) -> ~ In rsp_idx clob ->
  scalar 0 clob body s (tls s') (rflags s').
Proof.
  intros R Es Em Eg Hc; exists s'; split; [exact R|split; [intros; now rewrite Es|]].
  repeat (split; [solve [auto | apply Eg, Hc]|]).
  intros; now rewrite Em.
Qed.
