(* ===== verification/MaskSpec.v ===== *)
(** * Mask registers: specifications and their TLS image

    What the AVX-512 mask instructions do to the guest, the relation the
    rewritten code establishes (the guest's memory below the stack pointer is
    not constrained, because the code pushes there), and the lemmas that turn an
    update of a mask's TLS slot into an update of the guest's mask register. *)
From Stdlib Require Import ZArith List Bool Lia RelationClasses Morphisms.
From S2P Require Import Prelude Regs Bytes Lanes Machine Arch512 ScalarExec.
Import ListNotations.
#[local] Open Scope Z_scope.
#[local] Open Scope bool_scope.
#[local] Open Scope rw_scope.

(** ** Truncation and bitwise operations *)

Lemma wrap_ext w x y :
  0 <= w -> (forall i, 0 <= i < w -> Z.testbit x i = Z.testbit y i) -> wrap w x = wrap w y.
Proof.
  intros Hw H; apply Z.bits_inj'; intros i Hi; rewrite !wrap_testbit by assumption.
  destruct (Z.ltb_spec i w); cbn [andb]; [apply H; lia|reflexivity].
Qed.

(** Operations whose low bits depend only on the low bits of the operands. *)
Class LowOp (f : Z -> Z -> Z) : Prop :=
  low_op : forall w x y, 0 <= w -> wrap w (f (wrap w x) (wrap w y)) = wrap w (f x y).

Definition andn (x y : Z) : Z := Z.land (Z.lnot x) y.
Definition xnor (x y : Z) : Z := Z.lnot (Z.lxor x y).

Ltac low_bits :=
  intros w x y Hw; apply wrap_ext; [assumption|]; intros i Hi; unfold andn, xnor;
  rewrite ?Z.land_spec, ?Z.lor_spec, ?Z.lxor_spec, ?Z.lnot_spec, ?Z.lxor_spec, ?wrap_testbit by lia;
  rewrite (proj2 (Z.ltb_lt _ _)) by lia; reflexivity.

#[export] Instance land_low : LowOp Z.land.
Proof. low_bits. Qed.
#[export] Instance lor_low : LowOp Z.lor.
Proof. low_bits. Qed.
#[export] Instance lxor_low : LowOp Z.lxor.
Proof. low_bits. Qed.
#[export] Instance andn_low : LowOp andn.
Proof. low_bits. Qed.
#[export] Instance xnor_low : LowOp xnor.
Proof. low_bits. Qed.
#[export] Instance add_low : LowOp Z.add.
Proof.
  intros w x y Hw; unfold wrap.
  rewrite <- Zplus_mod; reflexivity.
Qed.

Lemma wrap_lnot w x : 0 <= w -> wrap w (Z.lnot (wrap w x)) = wrap w (Z.lnot x).
Proof.
  intros Hw; apply wrap_ext; [assumption|]; intros i Hi.
  rewrite !Z.lnot_spec, wrap_testbit by lia; rewrite (proj2 (Z.ltb_lt _ _)) by lia; reflexivity.
Qed.

Lemma land_ones_wrap w x : 0 <= w -> Z.land x (2 ^ w - 1) = wrap w x.
Proof. intros; unfold wrap; rewrite <- (Z.land_ones x w), Z.ones_equiv by assumption; f_equal; lia. Qed.

(** ** Specifications *)

Definition set_k (g : guest) (d v : Z) : guest :=
  mk_guest (g_zmm g) (fun k => if k =? d then v else g_k g k) (g_gpr g) (g_rflags g) (g_mem g).

(** The low [n] bytes replaced, the rest kept. *)
Definition mask_keep (n : nat) (old v : Z) : Z :=
  wrap (bits_of n) v + 2 ^ bits_of n * (old / 2 ^ bits_of n).

(** The instruction as documented: bits above the operand size are zeroed. *)
Definition mask_binop (n : nat) (f : Z -> Z -> Z) (d a b : Z) (g : guest) : guest :=
  set_k g d (wrap (bits_of n) (f (g_k g a) (g_k g b))).
Definition mask_unop (n : nat) (f : Z -> Z) (d a : Z) (g : guest) : guest :=
  set_k g d (wrap (bits_of n) (f (g_k g a))).

(** The same with the bits above the operand size left alone. *)
Definition mask_binop_keep (n : nat) (f : Z -> Z -> Z) (d a b : Z) (g : guest) : guest :=
  set_k g d (mask_keep n (g_k g d) (f (g_k g a) (g_k g b))).
Definition mask_unop_keep (n : nat) (f : Z -> Z) (d a : Z) (g : guest) : guest :=
  set_k g d (mask_keep n (g_k g d) (f (g_k g a))).

Definition mask_upper_zero (n : nat) (d : Z) (g : guest) : Prop := 0 <= g_k g d < 2 ^ bits_of n.

Lemma mask_keep_zero n old v : 0 <= old < 2 ^ bits_of n -> mask_keep n old v = wrap (bits_of n) v.
Proof. intros H; unfold mask_keep; rewrite Z.div_small by assumption; lia. Qed.

(** ** The relation up to the stack below the stack pointer *)

Definition g_rsp (g : guest) : Z := g_gpr g rsp_idx.

Definition stack_eq (n : Z) (g h : guest) : Prop :=
  (forall i l, 0 <= i < 32 -> 0 <= l < 4 -> g_zmm g i l = g_zmm h i l) /\
  (forall k, 0 <= k < 8 -> g_k g k = g_k h k) /\
  (forall i, 0 <= i < 16 -> g_gpr g i = g_gpr h i) /\
  g_rflags g = g_rflags h /\
  (forall a, ~ (g_rsp h - 8 * n <= a < g_rsp h) -> g_mem g a = g_mem h a).

#[export] Instance stack_eq_equiv n : Equivalence (stack_eq n).
Proof.
  split.
  - intros g; repeat split; reflexivity.
  - intros g h (H1 & H2 & H3 & H4 & H5).
    assert (Er : g_rsp g = g_rsp h) by (apply H3; unfold rsp_idx; lia).
    split; [|split; [|split; [|split]]]; intros; symmetry; auto.
    apply H5; lia.
  - intros g h k (H1 & H2 & H3 & H4 & H5) (K1 & K2 & K3 & K4 & K5).
    assert (Er : g_rsp h = g_rsp k) by (apply K3; unfold rsp_idx; lia).
    split; [|split; [|split; [|split]]]; intros;
      [rewrite H1|rewrite H2|rewrite H3|rewrite H4|rewrite H5]; auto.
    lia.
Qed.

Lemma guest_eq_stack n g h : g ==g h -> stack_eq n g h.
Proof. intros (H1 & H2 & H3 & H4 & H5); repeat split; auto. Qed.

(** The code uses at most [n] quadwords of stack: from every well-formed state
    with that much room it runs to the end and does what [spec] says. *)
Definition translates_stack (n : Z) (spec : guest -> guest) (code : list instr_t) : Prop :=
  forall s, wf_mach s -> 8 * n <= rsp s ->
    exists s', run code s = Some s' /\ wf_mach s' /\ stack_eq n (view s') (spec (view s)).

(** The original instruction is replaced ([rw_replace]), or code is put in
    front of it and it stays ([rw_insert]). *)
Definition rewrites_stack (n : Z) (spec : guest -> guest) (r : rw_result) : Prop :=
  exists code, r = rw_replace code /\ translates_stack n spec code.
Definition inserts_stack (n : Z) (spec : guest -> guest) (r : rw_result) : Prop :=
  exists code, r = rw_insert code /\ translates_stack n spec code.

(** *** The documented result

    An [n]-byte mask instruction that computes [f] is documented to zero the
    bits of the destination above the operand size; code that writes [n] bytes
    of the slot keeps them.  [mask_result] says that the code computes [f] on the
    low bits and keeps the bits above, and that this is the documented result
    exactly when those bits were zero. *)
Definition mask_result (m : Z) (n : nat) (d : Z) (f : guest -> Z) (code : list instr_t) : Prop :=
  forall s, wf_mach s -> 8 * m <= rsp s ->
    exists s', run code s = Some s' /\ wf_mach s' /\
      stack_eq m (view s') (set_k (view s) d (mask_keep n (g_k (view s) d) (f (view s)))) /\
      (stack_eq m (view s') (set_k (view s) d (wrap (bits_of n) (f (view s)))) <-> mask_upper_zero n d (view s)).

Definition rewrites_mask (m : Z) (n : nat) (d : Z) (f : guest -> Z) (r : rw_result) : Prop :=
  exists code, r = rw_replace code /\ mask_result m n d f code.
Definition inserts_mask (m : Z) (n : nat) (d : Z) (f : guest -> Z) (r : rw_result) : Prop :=
  exists code, r = rw_insert code /\ mask_result m n d f code.

Lemma mask_keep_iff n old v : 0 <= old -> mask_keep n old v = wrap (bits_of n) v <-> 0 <= old < 2 ^ bits_of n.
Proof.
  intros Ho; split; [|apply mask_keep_zero]; unfold mask_keep; intros H.
  assert (Hp : 0 < 2 ^ bits_of n) by (apply Z.pow_pos_nonneg; unfold bits_of; lia).
  split; [assumption|].
  assert (Hq : old / 2 ^ bits_of n = 0) by nia.
  apply Z.div_small_iff in Hq; lia.
Qed.

Lemma mask_result_intro m n d f code :
  0 <= d < 8 -> translates_stack m (fun g => set_k g d (mask_keep n (g_k g d) (f g))) code -> mask_result m n d f code.
Proof.
  intros Hd Ht s Hs Hsp; destruct (Ht s Hs Hsp) as (s' & R & W & E); exists s'.
  split; [exact R|split; [exact W|split; [exact E|]]].
  assert (Hk : 0 <= g_k (view s) d) by (apply (load_range 8), Hs).
  assert (Hkeep : g_k (view s') d = mask_keep n (g_k (view s) d) (f (view s))).
  { rewrite (proj1 (proj2 E) d Hd); cbn -[Z.eqb mask_keep tls_k]; now rewrite Z.eqb_refl. }
  split.
  - intros (_ & H & _); specialize (H d Hd); rewrite Hkeep in H; cbn -[Z.eqb mask_keep tls_k view] in H.
    rewrite Z.eqb_refl in H; now apply mask_keep_iff in H.
  - intros Hz; rewrite E, (proj2 (mask_keep_iff n (g_k (view s) d) _ Hk) Hz); reflexivity.
Qed.

(** At 64 bits there is nothing above. *)
Lemma mask_keep_64 m d f code :
  translates_stack m (fun g => set_k g d (mask_keep 8 (g_k g d) (f g))) code ->
  translates_stack m (fun g => set_k g d (wrap 64 (f g))) code.
Proof.
  intros Ht s Hs Hsp; destruct (Ht s Hs Hsp) as (s' & R & W & E); exists s'; split; [exact R|split; [exact W|]].
  rewrite E; rewrite mask_keep_zero; [reflexivity|apply (load_range 8), Hs].
Qed.

Lemma rewrites_mask_intro m n d f r :
  0 <= d < 8 -> rewrites_stack m (fun g => set_k g d (mask_keep n (g_k g d) (f g))) r -> rewrites_mask m n d f r.
Proof. intros Hd (code & -> & Ht); exists code; split; [reflexivity|now apply mask_result_intro]. Qed.

Lemma inserts_mask_intro m n d f r :
  0 <= d < 8 -> inserts_stack m (fun g => set_k g d (mask_keep n (g_k g d) (f g))) r -> inserts_mask m n d f r.
Proof. intros Hd (code & -> & Ht); exists code; split; [reflexivity|now apply mask_result_intro]. Qed.

(** ** Mask slots in TLS *)

Lemma load_low n m (t : memory) a :
  wf_memory t -> load n t a = wrap (bits_of n) (load (n + m) t a).
Proof.
  intros Ht; rewrite load_add; unfold wrap, bits_of.
  rewrite (Z.pow_mul_r 2 8) by lia; change (2 ^ 8) with 256.
  rewrite Z.mul_comm, Z.mod_add by (apply Z.pow_nonzero; lia).
  symmetry; apply Z.mod_small, load_range, Ht.
Qed.

(** The low [n] bytes of a mask register. *)
Lemma load_k n t k :
  (n <= 8)%nat -> wf_memory t -> load n t (32 + 8 * k) = wrap (bits_of n) (tls_k t k).
Proof.
  intros Hn Ht; unfold tls_k; rewrite (load_low n (8 - n)) by assumption.
  now replace (n + (8 - n))%nat with 8%nat by lia.
Qed.

(** [t'] is [t] with mask register [d] set to [v]; scratch slots may differ, and
    the lanes that the ymm registers hold. *)
Definition k_update (t t' : memory) (d v : Z) : Prop :=
  (forall i l, 0 <= i < 32 -> 0 <= l < 4 -> 16 <= i \/ 2 <= l -> tls_lane t' i l = tls_lane t i l) /\
  (forall k, 0 <= k < 8 -> tls_k t' k = if k =? d then v else tls_k t k).

Lemma k_update_store n t d v :
  (n <= 8)%nat -> 0 <= d < 8 -> wf_memory t ->
  k_update t (store n t (32 + 8 * d) v) d (mask_keep n (tls_k t d) v).
Proof.
  intros Hn Hd Ht; split.
  - intros i l Hi Hl _; unfold tls_lane; apply load_store_disjoint; lia.
  - intros k Hk; unfold tls_k; destruct (Z.eqb_spec k d) as [->|Hne]; [|apply load_store_disjoint; lia].
    set (a := 32 + 8 * d); replace 8%nat with (n + (8 - n))%nat by lia.
    rewrite !load_add, load_store_same, load_store_disjoint by lia.
    unfold mask_keep, wrap, bits_of; rewrite (Z.pow_mul_r 2 8) by lia; change (2 ^ 8) with 256.
    rewrite (Z.mul_comm _ (load (8 - n) t _)), Z.div_add by (apply Z.pow_nonzero; lia).
    rewrite Z.div_small by (apply load_range, Ht); lia.
Qed.

(** Writing a scratch slot does not show. *)
Lemma k_update_scratch t t' d v off x :
  0 <= off <= 24 -> k_update (store 8 t off x) t' d v -> k_update t t' d v.
Proof.
  intros Ho (Hl & Hk); split.
  - intros i l Hi Hl' Hv; rewrite Hl by assumption; unfold tls_lane; apply load_store_disjoint; lia.
  - intros k Hk'; rewrite Hk by assumption; destruct (k =? d); [reflexivity|].
    unfold tls_k; apply load_store_disjoint; lia.
Qed.

Lemma k_update_full t d v :
  0 <= d < 8 -> wf_memory t -> 0 <= v < 2 ^ 64 -> k_update t (store 8 t (32 + 8 * d) v) d v.
Proof.
  intros Hd Ht Hv; replace v with (mask_keep 8 (tls_k t d) v) at 2; [apply k_update_store; auto|].
  rewrite mask_keep_zero; [now apply wrap_id|apply (load_range 8), Ht].
Qed.

(** What the code leaves of the ymm registers and TLS shows the same vectors. *)
Lemma zmm_view_framed s s' t' d v i l :
  (forall i l, 0 <= i < 16 -> 0 <= l < 2 -> simd s' i l = simd s i l) -> tls s' = t' -> k_update (tls s) t' d v ->
  0 <= i < 32 -> 0 <= l < 4 -> zmm_view s' i l = zmm_view s i l.
Proof.
  intros Es Et (Hl & _) Hi Hl'; unfold zmm_view; rewrite Et.
  destruct (Z.ltb_spec i 16), (Z.ltb_spec l 2); cbn [andb]; first [apply Es; lia | apply Hl; lia].
Qed.

(** Code that restores everything and updates one mask slot implements the
    update of the mask register. *)
Lemma scalar_mask n code s t' d v :
  wf_mach s -> scalar n [] code s t' (rflags s) -> k_update (tls s) t' d v ->
  exists s', run code s = Some s' /\ wf_mach s' /\ stack_eq n (view s') (set_k (view s) d v).
Proof.
  intros Hs (s' & R & Es & Et & Ef & Er & Eg & Em) Hu; pose proof (proj2 Hu) as Hk.
  exists s'; split; [exact R|split; [exact (run_wf _ _ _ Hs R)|]].
  split; [|split; [|split; [|split]]].
  - intros i l Hi Hl'; eapply zmm_view_framed; eauto.
  - intros k Hk'; cbn -[tls_k Z.eqb]; rewrite Et; auto.
  - intros i Hi; apply Eg; intros [].
  - exact Ef.
  - intros a Ha; apply Em; exact Ha.
Qed.

(** ** Bodies between brackets

    A body changes TLS by [F], may change the flags and the registers in
    [clob], and nothing else. *)
Definition body_ok (clob : list Z) (body : list instr_t) (F : memory -> memory) : Prop :=
  forall s, wf_mach s -> exists f', scalar 0 clob body s (F (tls s)) f'.

Lemma body_intro clob body F :
  ~ In rsp_idx clob ->
  (forall s, wf_mach s -> exists s', run body s = Some s' /\ simd s' = simd s /\ mem s' = mem s /\
     tls s' = F (tls s) /\ (forall j, ~ In j clob -> gpr s' j = gpr s j)) ->
  body_ok clob body F.
Proof.
  intros Hc H s Hs; destruct (H s Hs) as (s' & R & Es & Em & Et & Eg).
  exists (rflags s'); rewrite <- Et; now apply scalar_body.
Qed.

Lemma body_ok_ext clob body F G : (forall t, F t = G t) -> body_ok clob body F -> body_ok clob body G.
Proof. intros H Hb s Hs; destruct (Hb s Hs) as (f' & Hf); exists f'; now rewrite <- H. Qed.

Section Brackets.
Context (r1 r2 : reg_id_t) (j1 j2 : Z).
Context (Hr1 : gpr_reg r1 = Some (8%nat, j1, 0)) (Hr2 : gpr_reg r2 = Some (8%nat, j2, 0)).
Context (Hj1 : j1 <> rsp_idx) (Hj2 : j2 <> rsp_idx).
Context (body : list instr_t) (F : memory -> memory).

Abbreviation push r := (INSTR_CREATE_push (opnd_create_reg r)).
Abbreviation pop r := (INSTR_CREATE_pop (opnd_create_reg r)).

Lemma remove_one j : remove Z.eq_dec j [j] = [].
Proof. cbn; now destruct (Z.eq_dec j j). Qed.

Lemma remove_two : remove Z.eq_dec j1 (remove Z.eq_dec j2 [j1; j2]) = [].
Proof. repeat (cbn; destruct (Z.eq_dec _ _); try congruence); reflexivity. Qed.

Lemma not_rsp_two : ~ In rsp_idx [j1; j2].
Proof. intros [E|[E|[]]]; congruence. Qed.

(** [push r1; body; pop r1] *)
Lemma bracket_r s f' :
  wf_mach s -> 8 <= rsp s ->
  scalar 0 [j1] body (push64 s (gpr s j1)) (F (tls s)) f' ->
  scalar 1 [] (push r1 :: body ++ [pop r1]) s (F (tls s)) f'.
Proof.
  intros Hs Hsp H; rewrite <- (remove_one j1).
  now apply (scalar_push r1 j1 0).
Qed.

(** [pushf; push r1; body; pop r1; popf] *)
Lemma bracket_fr s :
  body_ok [j1] body F -> wf_mach s -> 16 <= rsp s ->
  scalar 2 [] (INSTR_CREATE_pushf :: (push r1 :: body ++ [pop r1]) ++ [INSTR_CREATE_popf]) s (F (tls s)) (rflags s).
Proof.
  intros Hb Hs Hsp; pose proof (push64_wf s (rflags s) Hs) as Hs1.
  destruct (Hb _ (push64_wf _ (gpr (push64 s (rflags s)) j1) Hs1)) as (f' & H).
  apply (scalar_pushf 1 [] _ s _ f'); [assumption|lia|lia|intros []|].
  apply (bracket_r (push64 s (rflags s)) f'); [assumption|rewrite push64_rsp by (assumption || lia); lia|exact H].
Qed.

(** [pushf; push r1; push r2; body; pop r2; pop r1; popf] *)
Lemma bracket_frr s :
  body_ok [j1; j2] body F -> wf_mach s -> 24 <= rsp s ->
  scalar 3 []
    (INSTR_CREATE_pushf :: (push r1 :: (push r2 :: body ++ [pop r2]) ++ [pop r1]) ++ [INSTR_CREATE_popf])
    s (F (tls s)) (rflags s).
Proof.
  intros Hb Hs Hsp; pose proof (push64_wf s (rflags s) Hs) as Hs1.
  pose proof (push64_wf _ (gpr (push64 s (rflags s)) j1) Hs1) as Hs2.
  destruct (Hb _ (push64_wf _ (gpr (push64 (push64 s (rflags s)) (gpr (push64 s (rflags s)) j1)) j2) Hs2)) as (f' & H).
  apply (scalar_pushf 2 [] _ s _ f'); [assumption|lia|lia|intros []|].
  rewrite <- remove_two.
  assert (E1 : rsp (push64 s (rflags s)) = rsp s - 8) by (apply push64_rsp; assumption || lia).
  apply (scalar_push r1 j1 1); try assumption; try lia.
  apply (scalar_push r2 j2 0); try assumption; try lia.
  rewrite push64_rsp by (assumption || lia); lia.
Qed.

(** [push r1; push r2; pushf; body; popf; pop r2; pop r1] *)
Lemma bracket_rrf s :
  body_ok [j1; j2] body F -> wf_mach s -> 24 <= rsp s ->
  j1 <> j2 ->
  scalar 3 []
    (push r1 :: (push r2 :: (INSTR_CREATE_pushf :: body ++ [INSTR_CREATE_popf]) ++ [pop r2]) ++ [pop r1])
    s (F (tls s)) (rflags s).
Proof.
  intros Hb Hs Hsp Hne; pose proof (push64_wf s (gpr s j1) Hs) as Hs1.
  pose proof (push64_wf _ (gpr (push64 s (gpr s j1)) j2) Hs1) as Hs2.
  set (s2 := push64 (push64 s (gpr s j1)) (gpr (push64 s (gpr s j1)) j2)) in *.
  destruct (Hb _ (push64_wf _ (rflags s2) Hs2)) as (f' & H).
  rewrite <- remove_two.
  assert (E1 : rsp (push64 s (gpr s j1)) = rsp s - 8) by (apply push64_rsp; assumption || lia).
  apply (scalar_push r1 j1 2); try assumption; try lia.
  apply (scalar_push r2 j2 1); try assumption; try lia.
  apply (scalar_pushf 0 [j1; j2] body s2 _ f'); [assumption|lia| |apply not_rsp_two|exact H].
  unfold s2; rewrite push64_rsp by (assumption || lia); lia.
Qed.
End Brackets.

(** From a bracketed body to the instruction. *)
Lemma mask_translates n spec code F d v :
  (forall s, wf_mach s -> 8 * n <= rsp s -> scalar n [] code s (F (tls s)) (rflags s)) ->
  (forall s, wf_mach s -> k_update (tls s) (F (tls s)) d (v (view s))) ->
  (forall g, spec g = set_k g d (v g)) ->
  translates_stack n spec code.
Proof.
  intros Hc Hu Hspec s Hs Hsp; rewrite Hspec.
  exact (scalar_mask n code s _ d _ Hs (Hc s Hs Hsp) (Hu s Hs)).
Qed.

Lemma translates_stack_mono n m spec code :
  0 <= n <= m -> translates_stack n spec code -> translates_stack m spec code.
Proof.
  intros Hn H s Hs Hsp; destruct (H s Hs ltac:(lia)) as (s' & R & W & H1 & H2 & H3 & H4 & H5).
  exists s'; split; [exact R|split; [exact W|]].
  split; [exact H1|split; [exact H2|split; [exact H3|split; [exact H4|]]]].
  intros a Ha; apply H5; lia.
Qed.

(** ** Code that saves registers in scratch slots

    [k_body pf keep clob code d v]: the code sets mask register [d] to [v] of
    the guest state, keeps the scratch slots in [keep], the registers outside
    [clob] and memory, and the flags if [pf]. *)
Definition set_rflags (g : guest) (f : Z) : guest := mk_guest (g_zmm g) (g_k g) (g_gpr g) f (g_mem g).
Definition set_gpr (g : guest) (i v : Z) : guest :=
  mk_guest (g_zmm g) (g_k g) (fun j => if j =? i then v else g_gpr g j) (g_rflags g) (g_mem g).

Definition scratch_slots : list Z := [0; 8; 16; 24].

Definition k_body (pf : bool) (keep clob : list Z) (code : list instr_t) (d : Z) (v : guest -> Z) : Prop :=
  forall s, wf_mach s -> exists t' f', scalar 0 clob code s t' f' /\
    k_update (tls s) t' d (v (view s)) /\ (forall off, In off keep -> load 8 t' off = load 8 (tls s) off) /\
    (pf = true -> f' = rflags s).

Lemma scratch_disjoint off o :
  In off scratch_slots -> In o scratch_slots -> o <> off -> o + 8 <= off \/ off + 8 <= o.
Proof. unfold scratch_slots; cbn [In]; lia. Qed.

Lemma scratch_range off : In off scratch_slots -> 0 <= off <= 24.
Proof. unfold scratch_slots; cbn [In]; lia. Qed.

Lemma view_scratch s off x :
  0 <= off <= 24 -> view (with_tls s (store 8 (tls s) off x)) ==g view s.
Proof.
  intros Ho; split; [|split; [|split; [|split]]]; try reflexivity.
  - intros i l Hi Hl; cbn [view g_zmm]; unfold zmm_view; cbn [simd tls with_tls].
    destruct (_ && _); [reflexivity|]; unfold tls_lane; apply load_store_disjoint; lia.
  - intros k Hk; cbn [view g_k]; unfold tls_k; cbn [tls with_tls]; apply load_store_disjoint; lia.
Qed.

(** One more register saved in a scratch slot. *)
Lemma k_body_tls pf r i off keep keep' clob body d v :
  gpr_reg r = Some (8%nat, i, 0) -> i <> rsp_idx -> In off keep ->
  incl keep scratch_slots -> incl keep' keep -> ~ In off keep' ->
  Proper (guest_eq ==> eq) v ->
  k_body pf keep clob body d v ->
  k_body pf keep' (remove Z.eq_dec i clob) (SAVE_TO_TLS r off :: body ++ [RESTORE_FROM_TLS r off]) d v.
Proof.
  intros Hr Hi Hoff Hk Hk' Hno Hv Hb s Hs.
  assert (Ho : 0 <= off <= 24) by (apply scratch_range, Hk, Hoff).
  assert (Hg : 0 <= gpr s i < 2 ^ 64) by apply Hs.
  destruct (Hb (with_tls s (store 8 (tls s) off (gpr s i)))) as (t' & f' & Hsc & Hu & Hkeep & Hf).
  { apply with_tls_wf; [assumption|apply store_wf, Hs]. }
  exists t', f'; split; [|split; [|split]].
  - apply scalar_tls; try assumption; [lia|].
    rewrite Hkeep by assumption; cbn [tls with_tls]; rewrite load_store_same; now apply Z.mod_small.
  - rewrite (Hv _ _ (view_scratch s off (gpr s i) Ho)) in Hu.
    exact (k_update_scratch _ _ _ _ _ _ Ho Hu).
  - intros o Ho'; rewrite Hkeep by (apply Hk', Ho'); cbn [tls with_tls].
    apply load_store_disjoint; change (Z.of_nat 8) with 8.
    apply scratch_disjoint; [apply Hk, Hoff|apply Hk, Hk', Ho'|intros ->; contradiction].
  - exact Hf.
Qed.

(** The code does what [spec] says except for the flags. *)
Definition rewrites_but_flags (spec : guest -> guest) (r : rw_result) : Prop :=
  exists code, r = rw_replace code /\ forall s, wf_mach s ->
    exists s' f', run code s = Some s' /\ wf_mach s' /\ view s' ==g set_rflags (spec (view s)) f'.

Lemma scalar_mask_flags code s t' f' d v :
  wf_mach s -> scalar 0 [] code s t' f' -> k_update (tls s) t' d v ->
  exists s', run code s = Some s' /\ wf_mach s' /\ view s' ==g set_rflags (set_k (view s) d v) f'.
Proof.
  intros Hs (s' & R & Es & Et & Ef & Er & Eg & Em) Hu; pose proof (proj2 Hu) as Hk.
  exists s'; split; [exact R|split; [exact (run_wf _ _ _ Hs R)|]].
  split; [|split; [|split; [|split]]].
  - intros i l Hi Hl'; eapply zmm_view_framed; eauto.
  - intros k Hk'; cbn -[tls_k Z.eqb]; rewrite Et; auto.
  - intros i Hi; apply Eg; intros [].
  - exact Ef.
  - intros a; apply Em; lia.
Qed.

Lemma k_body_rewrites code d v :
  k_body false [] [] code d v -> rewrites_but_flags (fun g => set_k g d (v g)) (rw_replace code).
Proof.
  intros Hb; exists code; split; [reflexivity|]; intros s Hs.
  destruct (Hb s Hs) as (t' & f' & Hsc & Hu & _ & Hf).
  destruct (scalar_mask_flags code s t' f' d _ Hs Hsc Hu) as (s' & R & W & E); eauto.
Qed.

(** With the flags saved around it on the stack. *)
Lemma k_body_rewrites_flags code d v :
  k_body true [] [] code d v -> rewrites (fun g => set_k g d (v g)) (rw_replace code).
Proof.
  intros Hb; exists code; split; [reflexivity|]; intros s Hs.
  destruct (Hb s Hs) as (t' & f' & Hsc & Hu & _ & Hf); rewrite (Hf eq_refl) in Hsc.
  destruct (scalar_mask_flags code s t' _ d _ Hs Hsc Hu) as (s' & R & W & E); eauto.
Qed.

Lemma k_body_pushf pf code d v :
  (forall s x, wf_mach s -> v (view (push64 s x)) = v (view s)) ->
  k_body pf [] [] code d v ->
  translates_stack 1 (fun g => set_k g d (v g)) (INSTR_CREATE_pushf :: code ++ [INSTR_CREATE_popf]).
Proof.
  intros Hv Hb s Hs Hsp.
  destruct (Hb _ (push64_wf s (rflags s) Hs)) as (t' & f' & Hsc & Hu & _ & Hf).
  rewrite Hv in Hu by assumption.
  eapply scalar_mask; [assumption| |exact Hu].
  apply (scalar_pushf 0 [] code s t' f'); [assumption|lia|lia|intros []|exact Hsc].
Qed.
