(* ===== verification/KLogic.v ===== *)
(** * Mask logic: kand, kandn, kor, knot, kxnor

    The functions of [rewrite.c] for the bitwise mask instructions.  The four
    operand sizes of [kand], [kandn], [kor] and [knot] have one text up to the
    register names and the operand size; the template takes those as arguments
    and the instances carry the names of the code. *)
From Stdlib Require Import ZArith List Bool Lia.
From S2P Require Import Prelude Regs Bytes Lanes Machine Arch512 SymExec ScalarExec MaskSpec.
Import ListNotations.
#[local] Open Scope Z_scope.
#[local] Open Scope bool_scope.
#[local] Open Scope rw_scope.

(** ** The functions *)

Definition kand_gen (spill_gpr_1 spill_gpr_2 : reg_id_t) (sz : opnd_size) (instr : instr_t) : rw_result :=
  let src1_opnd := instr_get_src instr 0 in
  let src2_opnd := instr_get_src instr 1 in
  let dst_opnd := instr_get_dst instr 0 in
  let input_mask1 := opnd_get_reg src1_opnd in
  let input_mask2 := opnd_get_reg src2_opnd in
  let output_mask := opnd_get_reg dst_opnd in
  let input_k1_idx := TO_K_REG_INDEX input_mask1 in
  let input_k2_idx := TO_K_REG_INDEX input_mask2 in
  let output_k_idx := TO_K_REG_INDEX output_mask in
  let spill_gpr64_1_opnd := opnd_create_reg DR_REG_RAX in
  let spill_gpr64_2_opnd := opnd_create_reg DR_REG_RBX in
  let spill_gpr_1_opnd := opnd_create_reg spill_gpr_1 in
  let spill_gpr_2_opnd := opnd_create_reg spill_gpr_2 in
  let i1 := INSTR_CREATE_pushf in
  let i2 := INSTR_CREATE_push spill_gpr64_1_opnd in
  let i3 := INSTR_CREATE_push spill_gpr64_2_opnd in
  let i4 := RESTORE_FROM_SIZED_TLS spill_gpr_1 (TLS_K_idx_SLOT input_k1_idx) sz in
  let i5 := RESTORE_FROM_SIZED_TLS spill_gpr_2 (TLS_K_idx_SLOT input_k2_idx) sz in
  let i6 := INSTR_CREATE_and spill_gpr_1_opnd spill_gpr_2_opnd in
  let i7 := SAVE_TO_SIZED_TLS spill_gpr_1 (TLS_K_idx_SLOT output_k_idx) sz in
  let i8 := INSTR_CREATE_pop spill_gpr64_2_opnd in
  let i9 := INSTR_CREATE_pop spill_gpr64_1_opnd in
  let i10 := INSTR_CREATE_popf in
  rw_insert [i1; i2; i3; i4; i5; i6; i7; i8; i9; i10].

Definition rw_func_kandw := kand_gen DR_REG_AX DR_REG_BX OPSZ_2.
Definition rw_func_kandb := kand_gen DR_REG_AL DR_REG_BL OPSZ_1.
Definition rw_func_kandq := kand_gen DR_REG_RAX DR_REG_RBX OPSZ_8.
Definition rw_func_kandd := kand_gen DR_REG_EAX DR_REG_EBX OPSZ_4.

Definition kandn_gen (spill_gpr_1 spill_gpr_2 : reg_id_t) (sz : opnd_size) (instr : instr_t) : rw_result :=
  let src1_opnd := instr_get_src instr 0 in
  let src2_opnd := instr_get_src instr 1 in
  let dst_opnd := instr_get_dst instr 0 in
  let input_mask1 := opnd_get_reg src1_opnd in
  let input_mask2 := opnd_get_reg src2_opnd in
  let output_mask := opnd_get_reg dst_opnd in
  let input_k1_idx := TO_K_REG_INDEX input_mask1 in
  let input_k2_idx := TO_K_REG_INDEX input_mask2 in
  let output_k_idx := TO_K_REG_INDEX output_mask in
  let spill_gpr64_1_opnd := opnd_create_reg DR_REG_RAX in
  let spill_gpr64_2_opnd := opnd_create_reg DR_REG_RBX in
  let spill_gpr_1_opnd := opnd_create_reg spill_gpr_1 in
  let spill_gpr_2_opnd := opnd_create_reg spill_gpr_2 in
  let i1 := INSTR_CREATE_pushf in
  let i2 := INSTR_CREATE_push spill_gpr64_1_opnd in
  let i3 := INSTR_CREATE_push spill_gpr64_2_opnd in
  let i4 := RESTORE_FROM_SIZED_TLS spill_gpr_1 (TLS_K_idx_SLOT input_k1_idx) sz in
  let i5 := RESTORE_FROM_SIZED_TLS spill_gpr_2 (TLS_K_idx_SLOT input_k2_idx) sz in
  let i6 := INSTR_CREATE_not spill_gpr_1_opnd in
  let i7 := INSTR_CREATE_and spill_gpr_1_opnd spill_gpr_2_opnd in
  let i8 := SAVE_TO_SIZED_TLS spill_gpr_1 (TLS_K_idx_SLOT output_k_idx) sz in
  let i9 := INSTR_CREATE_pop spill_gpr64_2_opnd in
  let i10 := INSTR_CREATE_pop spill_gpr64_1_opnd in
  let i11 := INSTR_CREATE_popf in
  rw_insert [i1; i2; i3; i4; i5; i6; i7; i8; i9; i10; i11].

Definition rw_func_kandnw := kandn_gen DR_REG_AX DR_REG_BX OPSZ_2.
Definition rw_func_kandnb := kandn_gen DR_REG_AL DR_REG_BL OPSZ_1.
Definition rw_func_kandnq := kandn_gen DR_REG_RAX DR_REG_RBX OPSZ_8.
Definition rw_func_kandnd := kandn_gen DR_REG_EAX DR_REG_EBX OPSZ_4.

Definition kor_gen (spill_gpr_1 spill_gpr_2 : reg_id_t) (sz : opnd_size) (imm : opnd_t) (instr : instr_t) : rw_result :=
  let src1_opnd := instr_get_src instr 0 in
  let src2_opnd := instr_get_src instr 1 in
  let dst_opnd := instr_get_dst instr 0 in
  let input_mask1 := opnd_get_reg src1_opnd in
  let input_mask2 := opnd_get_reg src2_opnd in
  let output_mask := opnd_get_reg dst_opnd in
  let input_k1_idx := TO_K_REG_INDEX input_mask1 in
  let input_k2_idx := TO_K_REG_INDEX input_mask2 in
  let output_k_idx := TO_K_REG_INDEX output_mask in
  let spill_gpr64_1_opnd := opnd_create_reg DR_REG_RAX in
  let spill_gpr64_2_opnd := opnd_create_reg DR_REG_RBX in
  let spill_gpr_1_opnd := opnd_create_reg spill_gpr_1 in
  let spill_gpr_2_opnd := opnd_create_reg spill_gpr_2 in
  let i1 := INSTR_CREATE_pushf in
  let i2 := INSTR_CREATE_push spill_gpr64_1_opnd in
  let i3 := INSTR_CREATE_push spill_gpr64_2_opnd in
  let i4 := RESTORE_FROM_SIZED_TLS spill_gpr_1 (TLS_K_idx_SLOT input_k1_idx) sz in
  let i5 := RESTORE_FROM_SIZED_TLS spill_gpr_2 (TLS_K_idx_SLOT input_k2_idx) sz in
  let i6 := INSTR_CREATE_or spill_gpr_1_opnd spill_gpr_2_opnd in
  let i7 := INSTR_CREATE_and spill_gpr_1_opnd imm in
  let i8 := SAVE_TO_SIZED_TLS spill_gpr_1 (TLS_K_idx_SLOT output_k_idx) sz in
  let i9 := INSTR_CREATE_pop spill_gpr64_2_opnd in
  let i10 := INSTR_CREATE_pop spill_gpr64_1_opnd in
  let i11 := INSTR_CREATE_popf in
  rw_replace [i1; i2; i3; i4; i5; i6; i7; i8; i9; i10; i11].

Definition rw_func_korw := kor_gen DR_REG_AX DR_REG_BX OPSZ_2 (OPND_CREATE_INT16 65535).
Definition rw_func_korb := kor_gen DR_REG_AL DR_REG_BL OPSZ_1 (OPND_CREATE_INT8 255).
Definition rw_func_kord := kor_gen DR_REG_EAX DR_REG_EBX OPSZ_4 (OPND_CREATE_INT32 4294967295).

Definition rw_func_korq (instr : instr_t) : rw_result :=
  let src1_opnd := instr_get_src instr 0 in
  let src2_opnd := instr_get_src instr 1 in
  let dst_opnd := instr_get_dst instr 0 in
  let input_mask1 := opnd_get_reg src1_opnd in
  let input_mask2 := opnd_get_reg src2_opnd in
  let output_mask := opnd_get_reg dst_opnd in
  let input_k1_idx := TO_K_REG_INDEX input_mask1 in
  let input_k2_idx := TO_K_REG_INDEX input_mask2 in
  let output_k_idx := TO_K_REG_INDEX output_mask in
  let spill_gpr64_1 := DR_REG_RAX in
  let spill_gpr64_2 := DR_REG_RBX in
  let spill_gpr64_1_opnd := opnd_create_reg spill_gpr64_1 in
  let spill_gpr64_2_opnd := opnd_create_reg spill_gpr64_2 in
  let i1 := INSTR_CREATE_pushf in
  let i2 := INSTR_CREATE_push spill_gpr64_1_opnd in
  let i3 := INSTR_CREATE_push spill_gpr64_2_opnd in
  let i4 := RESTORE_FROM_SIZED_TLS spill_gpr64_1 (TLS_K_idx_SLOT input_k1_idx) OPSZ_8 in
  let i5 := RESTORE_FROM_SIZED_TLS spill_gpr64_2 (TLS_K_idx_SLOT input_k2_idx) OPSZ_8 in
  let i6 := INSTR_CREATE_or spill_gpr64_1_opnd spill_gpr64_2_opnd in
  let i7 := SAVE_TO_SIZED_TLS spill_gpr64_1 (TLS_K_idx_SLOT output_k_idx) OPSZ_8 in
  let i8 := INSTR_CREATE_pop spill_gpr64_2_opnd in
  let i9 := INSTR_CREATE_pop spill_gpr64_1_opnd in
  let i10 := INSTR_CREATE_popf in
  rw_replace [i1; i2; i3; i4; i5; i6; i7; i8; i9; i10].

Definition knot_gen (spill_gpr : reg_id_t) (sz : opnd_size) (imm : opnd_t) (instr : instr_t) : rw_result :=
  let src_opnd := instr_get_src instr 0 in
  let dst_opnd := instr_get_dst instr 0 in
  let input_mask := opnd_get_reg src_opnd in
  let output_mask := opnd_get_reg dst_opnd in
  let input_k_idx := TO_K_REG_INDEX input_mask in
  let output_k_idx := TO_K_REG_INDEX output_mask in
  let spill_gpr64_opnd := opnd_create_reg DR_REG_RAX in
  let spill_gpr_opnd := opnd_create_reg spill_gpr in
  let i1 := INSTR_CREATE_pushf in
  let i2 := INSTR_CREATE_push spill_gpr64_opnd in
  let i3 := RESTORE_FROM_SIZED_TLS spill_gpr (TLS_K_idx_SLOT input_k_idx) sz in
  let i4 := INSTR_CREATE_not spill_gpr_opnd in
  let i5 := INSTR_CREATE_and spill_gpr_opnd imm in
  let i6 := SAVE_TO_SIZED_TLS spill_gpr (TLS_K_idx_SLOT output_k_idx) sz in
  let i7 := INSTR_CREATE_pop spill_gpr64_opnd in
  let i8 := INSTR_CREATE_popf in
  rw_replace [i1; i2; i3; i4; i5; i6; i7; i8].

Definition rw_func_knotw := knot_gen DR_REG_AX OPSZ_2 (OPND_CREATE_INT16 65535).
Definition rw_func_knotb := knot_gen DR_REG_AL OPSZ_1 (OPND_CREATE_INT8 255).
Definition rw_func_knotd := knot_gen DR_REG_EAX OPSZ_4 (OPND_CREATE_INT32 4294967295).

Definition rw_func_knotq (instr : instr_t) : rw_result :=
  let src_opnd := instr_get_src instr 0 in
  let dst_opnd := instr_get_dst instr 0 in
  let input_mask := opnd_get_reg src_opnd in
  let output_mask := opnd_get_reg dst_opnd in
  let input_k_idx := TO_K_REG_INDEX input_mask in
  let output_k_idx := TO_K_REG_INDEX output_mask in
  let spill_gpr64 := DR_REG_RAX in
  let spill_gpr64_opnd := opnd_create_reg spill_gpr64 in
  let i1 := INSTR_CREATE_pushf in
  let i2 := INSTR_CREATE_push spill_gpr64_opnd in
  let i3 := RESTORE_FROM_SIZED_TLS spill_gpr64 (TLS_K_idx_SLOT input_k_idx) OPSZ_8 in
  let i4 := INSTR_CREATE_not spill_gpr64_opnd in
  let i5 := SAVE_TO_SIZED_TLS spill_gpr64 (TLS_K_idx_SLOT output_k_idx) OPSZ_8 in
  let i6 := INSTR_CREATE_pop spill_gpr64_opnd in
  let i7 := INSTR_CREATE_popf in
  rw_replace [i1; i2; i3; i4; i5; i6; i7].

(** [kxnorw] and [kxnorb] differ in the constant. *)
Definition kxnor_gen (ones : Z) (instr : instr_t) : rw_result :=
  let dst_opnd := instr_get_dst instr 0 in
  let src_opnd1 := instr_get_src instr 0 in
  let src_opnd2 := instr_get_src instr 1 in
  let dst_reg := opnd_get_reg dst_opnd in
  let src_reg1 := opnd_get_reg src_opnd1 in
  let src_reg2 := opnd_get_reg src_opnd2 in
  let k_dst_idx := TO_K_REG_INDEX dst_reg in
  let reg_rax := DR_REG_RAX in
  let op_rax := opnd_create_reg reg_rax in
  if src_reg1 =? src_reg2 then
    let i1 := INSTR_CREATE_push op_rax in
    let i2 := INSTR_CREATE_mov_imm op_rax (OPND_CREATE_INT64 ones) in
    let i3 := SAVE_TO_TLS DR_REG_RAX (TLS_K_idx_SLOT k_dst_idx) in
    let i4 := INSTR_CREATE_pop op_rax in
    rw_replace [i1; i2; i3; i4]
  else
    let reg_rcx := DR_REG_RCX in
    let op_rcx := opnd_create_reg reg_rcx in
    let k_src1_idx := TO_K_REG_INDEX src_reg1 in
    let k_src2_idx := TO_K_REG_INDEX src_reg2 in
    let i1 := INSTR_CREATE_push op_rax in
    let i2 := INSTR_CREATE_push op_rcx in
    let i3 := INSTR_CREATE_pushf in
    let i4 := RESTORE_FROM_SIZED_TLS reg_rax (TLS_K_idx_SLOT k_src1_idx) OPSZ_8 in
    let i5 := RESTORE_FROM_SIZED_TLS reg_rcx (TLS_K_idx_SLOT k_src2_idx) OPSZ_8 in
    let i6 := INSTR_CREATE_xor op_rax op_rcx in
    let i7 := INSTR_CREATE_not op_rax in
    let i8 := INSTR_CREATE_and op_rax (OPND_CREATE_INT32 ones) in
    let i9 := SAVE_TO_TLS DR_REG_RAX (TLS_K_idx_SLOT k_dst_idx) in
    let i10 := INSTR_CREATE_popf in
    let i11 := INSTR_CREATE_pop op_rcx in
    let i12 := INSTR_CREATE_pop op_rax in
    rw_replace [i1; i2; i3; i4; i5; i6; i7; i8; i9; i10; i11; i12].

Definition rw_func_kxnorw := kxnor_gen 65535.
Definition rw_func_kxnorb := kxnor_gen 255.

Definition rw_func_kxnorq (instr : instr_t) : rw_result :=
  let dst_opnd := instr_get_dst instr 0 in
  let src_opnd1 := instr_get_src instr 0 in
  let src_opnd2 := instr_get_src instr 1 in
  let dst_reg := opnd_get_reg dst_opnd in
  let src_reg1 := opnd_get_reg src_opnd1 in
  let src_reg2 := opnd_get_reg src_opnd2 in
  let k_dst_idx := TO_K_REG_INDEX dst_reg in
  let reg_rax := DR_REG_RAX in
  let op_rax := opnd_create_reg reg_rax in
  if src_reg1 =? src_reg2 then
    let i1 := INSTR_CREATE_push op_rax in
    let i2 := INSTR_CREATE_mov_imm op_rax (OPND_CREATE_INT64 18446744073709551615) in
    let i3 := SAVE_TO_TLS DR_REG_RAX (TLS_K_idx_SLOT k_dst_idx) in
    let i4 := INSTR_CREATE_pop op_rax in
    rw_replace [i1; i2; i3; i4]
  else
    let reg_rcx := DR_REG_RCX in
    let op_rcx := opnd_create_reg reg_rcx in
    let k_src1_idx := TO_K_REG_INDEX src_reg1 in
    let k_src2_idx := TO_K_REG_INDEX src_reg2 in
    let i1 := INSTR_CREATE_push op_rax in
    let i2 := INSTR_CREATE_push op_rcx in
    let i3 := INSTR_CREATE_pushf in
    let i4 := RESTORE_FROM_SIZED_TLS reg_rax (TLS_K_idx_SLOT k_src1_idx) OPSZ_8 in
    let i5 := RESTORE_FROM_SIZED_TLS reg_rcx (TLS_K_idx_SLOT k_src2_idx) OPSZ_8 in
    let i6 := INSTR_CREATE_xor op_rax op_rcx in
    let i7 := INSTR_CREATE_not op_rax in
    let i8 := SAVE_TO_TLS DR_REG_RAX (TLS_K_idx_SLOT k_dst_idx) in
    let i9 := INSTR_CREATE_popf in
    let i10 := INSTR_CREATE_pop op_rcx in
    let i11 := INSTR_CREATE_pop op_rax in
    rw_replace [i1; i2; i3; i4; i5; i6; i7; i8; i9; i10; i11].

Definition rw_func_kxnord (instr : instr_t) : rw_result :=
  let dst_opnd := instr_get_dst instr 0 in
  let src_opnd1 := instr_get_src instr 0 in
  let src_opnd2 := instr_get_src instr 1 in
  let src_reg1 := opnd_get_reg src_opnd1 in
  let src_reg2 := opnd_get_reg src_opnd2 in
  let dst_reg := opnd_get_reg dst_opnd in
  let k_dst_idx := TO_K_REG_INDEX dst_reg in
  let reg_rax := DR_REG_RAX in
  let op_rax := opnd_create_reg reg_rax in
  if src_reg1 =? src_reg2 then
    let k_idx := TO_K_REG_INDEX src_reg1 in
    let i1 := INSTR_CREATE_push op_rax in
    let i2 := INSTR_CREATE_mov_imm op_rax (OPND_CREATE_INT64 4294967295) in
    let i3 := SAVE_TO_TLS DR_REG_RAX (TLS_K_idx_SLOT k_idx) in
    let i4 := INSTR_CREATE_pop op_rax in
    rw_replace [i1; i2; i3; i4]
  else
    let reg_rcx := DR_REG_RCX in
    let op_rcx := opnd_create_reg reg_rcx in
    let k_src1_idx := TO_K_REG_INDEX src_reg1 in
    let k_src2_idx := TO_K_REG_INDEX src_reg2 in
    let i1 := INSTR_CREATE_push op_rax in
    let i2 := INSTR_CREATE_push op_rcx in
    let i3 := INSTR_CREATE_pushf in
    let i4 := RESTORE_FROM_SIZED_TLS reg_rax (TLS_K_idx_SLOT k_src1_idx) OPSZ_8 in
    let i5 := RESTORE_FROM_SIZED_TLS reg_rcx (TLS_K_idx_SLOT k_src2_idx) OPSZ_8 in
    let i6 := INSTR_CREATE_xor op_rax op_rcx in
    let i7 := INSTR_CREATE_not op_rax in
    let i8 := INSTR_CREATE_mov_imm op_rcx (OPND_CREATE_INT64 4294967295) in
    let i9 := INSTR_CREATE_and op_rax op_rcx in
    let i10 := SAVE_TO_TLS DR_REG_RAX (TLS_K_idx_SLOT k_dst_idx) in
    let i11 := INSTR_CREATE_popf in
    let i12 := INSTR_CREATE_pop op_rcx in
    let i13 := INSTR_CREATE_pop op_rax in
    rw_insert [i1; i2; i3; i4; i5; i6; i7; i8; i9; i10; i11; i12; i13].

(** ** Bodies *)

(** Run a straight-line body on symbolic states. *)
Ltac run_body :=
  repeat first
    [ erewrite run_ld by (eassumption || reflexivity || lia)
    | erewrite run_st by (eassumption || reflexivity || lia)
    | erewrite run_not by (eassumption || reflexivity)
    | erewrite run_mov_imm by (eassumption || reflexivity)
    | erewrite run_and_reg by eassumption | erewrite run_or_reg by eassumption
    | erewrite run_xor_reg by eassumption
    | erewrite run_and_imm by (eassumption || (cbn; lia)) ].

(** The value left in a register. *)
Ltac read_regs :=
  repeat first [rewrite tls_put | rewrite tls_rflags | rewrite tls_tls | rewrite gpr_rflags | rewrite gpr_tls
               | rewrite read_put | rewrite gpr_put_other by lia].

Ltac keep_gprs :=
  let j := fresh "j" in let Hj := fresh "Hj" in
  intros j Hj; cbn [In] in Hj;
  repeat first [rewrite gpr_rflags | rewrite gpr_tls | rewrite gpr_put_other by (intros ->; apply Hj; tauto)];
  reflexivity.

Ltac body_start :=
  rewrite ?TLS_K_idx_SLOT_eq by assumption;
  apply body_intro; [unfold rsp_idx; cbn; lia|]; intros s Hs; eexists; split;
  [run_body; reflexivity|split; [reflexivity|split; [reflexivity|split; [|keep_gprs]]]];
  read_regs.

Section KStore.
Context (n : nat) (a b d : Z).

Definition k_store (f : Z -> Z -> Z) (t : memory) : memory :=
  store n t (32 + 8 * d) (wrap (bits_of n) (f (load n t (32 + 8 * a)) (load n t (32 + 8 * b)))).

Lemma bits_nonneg : 0 <= bits_of n.
Proof. unfold bits_of; lia. Qed.

Lemma k_store_update (f : Z -> Z -> Z) t :
  LowOp f -> (n <= 8)%nat -> 0 <= d < 8 -> wf_memory t ->
  k_update t (k_store f t) d (mask_keep n (tls_k t d) (f (tls_k t a) (tls_k t b))).
Proof.
  intros Hf Hn Hd Ht; unfold k_store; rewrite !load_k by assumption.
  rewrite Hf by apply bits_nonneg.
  pose proof (k_update_store n t d (wrap (bits_of n) (f (tls_k t a) (tls_k t b))) Hn Hd Ht) as H.
  unfold mask_keep in *; now rewrite wrap_wrap in H by apply bits_nonneg.
Qed.

End KStore.

Section Bodies.
Context (n : nat) (r1 r2 : reg_id_t) (j2 : Z) (sz : opnd_size).
Context (Hr1 : gpr_reg r1 = Some (n, 0, 0)) (Hr2 : gpr_reg r2 = Some (n, j2, 0)) (Hj2 : j2 <> 0 /\ j2 <> 4).
Context (Hsz : opsz_bytes sz = n) (Hn : (n <= 8)%nat).
Context (a b d : Z) (Ha : 0 <= a < 8) (Hb : 0 <= b < 8) (Hd : 0 <= d < 8).

Lemma kand_body :
  body_ok [0; j2]
    [RESTORE_FROM_SIZED_TLS r1 (TLS_K_idx_SLOT a) sz; RESTORE_FROM_SIZED_TLS r2 (TLS_K_idx_SLOT b) sz;
     INSTR_CREATE_and (opnd_create_reg r1) (opnd_create_reg r2);
     SAVE_TO_SIZED_TLS r1 (TLS_K_idx_SLOT d) sz] (k_store n a b d Z.land).
Proof. body_start; unfold k_store; f_equal; apply low_op, bits_nonneg. Qed.

Lemma kandn_body :
  body_ok [0; j2]
    [RESTORE_FROM_SIZED_TLS r1 (TLS_K_idx_SLOT a) sz; RESTORE_FROM_SIZED_TLS r2 (TLS_K_idx_SLOT b) sz;
     INSTR_CREATE_not (opnd_create_reg r1);
     INSTR_CREATE_and (opnd_create_reg r1) (opnd_create_reg r2);
     SAVE_TO_SIZED_TLS r1 (TLS_K_idx_SLOT d) sz] (k_store n a b d andn).
Proof.
  body_start; unfold k_store; f_equal; rewrite wrap_lnot by apply bits_nonneg.
  apply (low_op (f := Z.land)), bits_nonneg.
Qed.

Lemma korq_body :
  body_ok [0; j2]
    [RESTORE_FROM_SIZED_TLS r1 (TLS_K_idx_SLOT a) sz; RESTORE_FROM_SIZED_TLS r2 (TLS_K_idx_SLOT b) sz;
     INSTR_CREATE_or (opnd_create_reg r1) (opnd_create_reg r2);
     SAVE_TO_SIZED_TLS r1 (TLS_K_idx_SLOT d) sz] (k_store n a b d Z.lor).
Proof. body_start; unfold k_store; f_equal; apply low_op, bits_nonneg. Qed.

Lemma knotq_body :
  body_ok [0]
    [RESTORE_FROM_SIZED_TLS r1 (TLS_K_idx_SLOT a) sz; INSTR_CREATE_not (opnd_create_reg r1);
     SAVE_TO_SIZED_TLS r1 (TLS_K_idx_SLOT d) sz] (k_store n a a d (fun x _ => Z.lnot x)).
Proof. body_start; unfold k_store; f_equal; apply wrap_lnot, bits_nonneg. Qed.

(** The immediate of the final [and] is all ones at the operand size. *)
Section Masked.
Context (v : Z) (isz : opnd_size) (Hi1 : (opsz_bytes isz <= n)%nat) (Hi2 : (opsz_bytes isz <= 4)%nat).
Context (Himm : imm_value n v isz = 2 ^ bits_of n - 1).

Lemma kor_body :
  body_ok [0; j2]
    [RESTORE_FROM_SIZED_TLS r1 (TLS_K_idx_SLOT a) sz; RESTORE_FROM_SIZED_TLS r2 (TLS_K_idx_SLOT b) sz;
     INSTR_CREATE_or (opnd_create_reg r1) (opnd_create_reg r2);
     INSTR_CREATE_and (opnd_create_reg r1) (OPND_IMM v isz);
     SAVE_TO_SIZED_TLS r1 (TLS_K_idx_SLOT d) sz] (k_store n a b d Z.lor).
Proof.
  body_start; unfold k_store; f_equal; rewrite Himm, land_ones_wrap, !wrap_wrap by apply bits_nonneg.
  apply low_op, bits_nonneg.
Qed.

Lemma knot_body :
  body_ok [0]
    [RESTORE_FROM_SIZED_TLS r1 (TLS_K_idx_SLOT a) sz; INSTR_CREATE_not (opnd_create_reg r1);
     INSTR_CREATE_and (opnd_create_reg r1) (OPND_IMM v isz);
     SAVE_TO_SIZED_TLS r1 (TLS_K_idx_SLOT d) sz] (k_store n a a d (fun x _ => Z.lnot x)).
Proof.
  body_start; unfold k_store; f_equal; rewrite Himm, land_ones_wrap, !wrap_wrap by apply bits_nonneg.
  apply wrap_lnot, bits_nonneg.
Qed.
End Masked.
End Bodies.

(** ** Correctness *)

(** A mask instruction with its operands as DynamoRIO decodes them. *)
Definition mask_instr3 (opc d a b : Z) : instr_t :=
  mk_instr (OP_avx512 opc) [opnd_create_reg (kreg d)] [opnd_create_reg (kreg a); opnd_create_reg (kreg b)].
Definition mask_instr2 (opc d a : Z) : instr_t :=
  mk_instr (OP_avx512 opc) [opnd_create_reg (kreg d)] [opnd_create_reg (kreg a)].

Section Correct.
Context (opc a b d : Z) (Ha : 0 <= a < 8) (Hb : 0 <= b < 8) (Hd : 0 <= d < 8).

(** The register names of one operand size. *)
Record gpr_names (n : nat) (r1 r2 : reg_id_t) (sz : opnd_size) : Prop := {
  gn_r1 : gpr_reg r1 = Some (n, 0, 0);
  gn_r2 : gpr_reg r2 = Some (n, 3, 0);
  gn_sz : opsz_bytes sz = n;
  gn_n : (n <= 8)%nat }.

(** Code of the shape [pushf; push rax; push rbx; body; pop rbx; pop rax; popf]. *)
Lemma kbin_translates n f body code :
  LowOp f -> (n <= 8)%nat -> body_ok [0; 3] body (k_store n a b d f) ->
  code = INSTR_CREATE_pushf :: (INSTR_CREATE_push (opnd_create_reg DR_REG_RAX) ::
           (INSTR_CREATE_push (opnd_create_reg DR_REG_RBX) :: body ++ [INSTR_CREATE_pop (opnd_create_reg DR_REG_RBX)])
           ++ [INSTR_CREATE_pop (opnd_create_reg DR_REG_RAX)]) ++ [INSTR_CREATE_popf] ->
  translates_stack 3 (mask_binop_keep n f d a b) code.
Proof.
  intros Hf Hn Hb' ->.
  apply (mask_translates 3 _ _ (k_store n a b d f) d
           (fun g => mask_keep n (g_k g d) (f (g_k g a) (g_k g b)))); [| |reflexivity].
  - intros s Hs Hsp; now apply (bracket_frr DR_REG_RAX DR_REG_RBX 0 3).
  - intros s Hs; apply k_store_update; auto; apply Hs.
Qed.

Lemma kun_translates n f body code :
  (n <= 8)%nat -> (forall w x, 0 <= w -> wrap w (f (wrap w x)) = wrap w (f x)) ->
  body_ok [0] body (k_store n a a d (fun x _ => f x)) ->
  code = INSTR_CREATE_pushf :: (INSTR_CREATE_push (opnd_create_reg DR_REG_RAX) :: body
           ++ [INSTR_CREATE_pop (opnd_create_reg DR_REG_RAX)]) ++ [INSTR_CREATE_popf] ->
  translates_stack 2 (mask_unop_keep n f d a) code.
Proof.
  clear b Hb; intros Hn Hf Hb' ->.
  apply (mask_translates 2 _ _ (k_store n a a d (fun x _ => f x)) d
           (fun g => mask_keep n (g_k g d) (f (g_k g a)))); [| |reflexivity].
  - intros s Hs Hsp; now apply (bracket_fr DR_REG_RAX 0).
  - intros s Hs; apply (k_store_update n a a d (fun x _ => f x)); auto; [intros w x y Hw; auto|apply Hs].
Qed.

Ltac gen_start := eexists; split; [reflexivity|]; cbn [instr_srcs instr_dsts instr_get_src instr_get_dst nth
  mask_instr3 mask_instr2 opnd_get_reg opnd_create_reg]; rewrite ?TO_K_REG_INDEX_kreg.

Lemma kand_gen_correct n r1 r2 sz :
  gpr_names n r1 r2 sz -> inserts_stack 3 (mask_binop_keep n Z.land d a b) (kand_gen r1 r2 sz (mask_instr3 opc d a b)).
Proof.
  intros [H1 H2 Hsz Hn]; gen_start.
  eapply kbin_translates; [apply land_low|exact Hn|apply (kand_body n r1 r2 3 sz); auto; lia|reflexivity].
Qed.

Lemma kandn_gen_correct n r1 r2 sz :
  gpr_names n r1 r2 sz -> inserts_stack 3 (mask_binop_keep n andn d a b) (kandn_gen r1 r2 sz (mask_instr3 opc d a b)).
Proof.
  intros [H1 H2 Hsz Hn]; gen_start.
  eapply kbin_translates; [apply andn_low|exact Hn|apply (kandn_body n r1 r2 3 sz); auto; lia|reflexivity].
Qed.

Lemma kor_gen_correct n r1 r2 sz v isz :
  gpr_names n r1 r2 sz -> (opsz_bytes isz <= Nat.min n 4)%nat -> imm_value n v isz = 2 ^ bits_of n - 1 ->
  rewrites_stack 3 (mask_binop_keep n Z.lor d a b) (kor_gen r1 r2 sz (OPND_IMM v isz) (mask_instr3 opc d a b)).
Proof.
  intros [H1 H2 Hsz Hn] Hi Hv; gen_start.
  eapply kbin_translates; [apply lor_low|exact Hn|apply (kor_body n r1 r2 3 sz) with (v := v) (isz := isz); auto; lia|reflexivity].
Qed.

Lemma knot_gen_correct n r1 sz v isz :
  gpr_reg r1 = Some (n, 0, 0) -> opsz_bytes sz = n -> (n <= 8)%nat ->
  (opsz_bytes isz <= Nat.min n 4)%nat -> imm_value n v isz = 2 ^ bits_of n - 1 ->
  rewrites_stack 2 (mask_unop_keep n Z.lnot d a) (knot_gen r1 sz (OPND_IMM v isz) (mask_instr2 opc d a)).
Proof.
  clear b Hb; intros H1 Hsz Hn Hi Hv; gen_start.
  eapply kun_translates; [exact Hn|intros; now apply wrap_lnot| |].
  - apply (knot_body n r1 3 sz) with (b := a) (v := v) (isz := isz); auto; lia.
  - reflexivity.
Qed.

Lemma korq_correct : rewrites_stack 3 (mask_binop_keep 8 Z.lor d a b) (rw_func_korq (mask_instr3 opc d a b)).
Proof.
  gen_start; eapply kbin_translates; [apply lor_low|lia| |].
  - apply (korq_body 8 DR_REG_RAX DR_REG_RBX 3 OPSZ_8); auto; lia.
  - reflexivity.
Qed.

Lemma knotq_correct : rewrites_stack 2 (mask_unop_keep 8 Z.lnot d a) (rw_func_knotq (mask_instr2 opc d a)).
Proof.
  clear b Hb; gen_start; eapply kun_translates; [lia|intros; now apply wrap_lnot| |].
  - apply (knotq_body 8 DR_REG_RAX 3 OPSZ_8) with (b := a); auto; lia.
  - reflexivity.
Qed.
End Correct.

Lemma names_w : gpr_names 2 DR_REG_AX DR_REG_BX OPSZ_2.
Proof. split; reflexivity || lia. Qed.
Lemma names_b : gpr_names 1 DR_REG_AL DR_REG_BL OPSZ_1.
Proof. split; reflexivity || lia. Qed.
Lemma names_d : gpr_names 4 DR_REG_EAX DR_REG_EBX OPSZ_4.
Proof. split; reflexivity || lia. Qed.
Lemma names_q : gpr_names 8 DR_REG_RAX DR_REG_RBX OPSZ_8.
Proof. split; reflexivity || lia. Qed.
#[export] Hint Resolve names_w names_b names_d names_q : rw_bits.

(** [kand] and [kandn]: the code put in front of the instruction computes it on
    the low bits of the destination, restores the flags and both registers and
    uses three quadwords of stack; the instruction itself stays behind it. *)
Theorem kand_code_correct opc a b d :
  0 <= a < 8 -> 0 <= b < 8 -> 0 <= d < 8 ->
  inserts_stack 3 (mask_binop_keep 1 Z.land d a b) (rw_func_kandb (mask_instr3 opc d a b)) /\
  inserts_stack 3 (mask_binop_keep 2 Z.land d a b) (rw_func_kandw (mask_instr3 opc d a b)) /\
  inserts_stack 3 (mask_binop_keep 4 Z.land d a b) (rw_func_kandd (mask_instr3 opc d a b)) /\
  inserts_stack 3 (mask_binop_keep 8 Z.land d a b) (rw_func_kandq (mask_instr3 opc d a b)) /\
  inserts_stack 3 (mask_binop_keep 1 andn d a b) (rw_func_kandnb (mask_instr3 opc d a b)) /\
  inserts_stack 3 (mask_binop_keep 2 andn d a b) (rw_func_kandnw (mask_instr3 opc d a b)) /\
  inserts_stack 3 (mask_binop_keep 4 andn d a b) (rw_func_kandnd (mask_instr3 opc d a b)) /\
  inserts_stack 3 (mask_binop_keep 8 andn d a b) (rw_func_kandnq (mask_instr3 opc d a b)).
Proof.
  intros; repeat split; first [apply kand_gen_correct | apply kandn_gen_correct]; auto with rw_bits.
Qed.

Lemma kand_code_correct_witness :
  inserts_stack 3 (mask_binop_keep 2 andn 3 1 2) (rw_func_kandnw (mask_instr3 480 3 1 2)).
Proof. apply (kand_code_correct 480 1 2 3); lia. Defined.

(** C25: [kor] and [knot]: the instruction is removed and its replacement restores
    the flags and every register but the destination.  At 64 bits it is the
    documented instruction.  At 8, 16 and 32 bits the low bits of the destination
    get the documented result and the bits above keep their value, so that the
    whole is the documented instruction, which zeroes them, exactly from the
    states where they are zero. *)
Theorem kor_knot_correct opc a b d :
  0 <= a < 8 -> 0 <= b < 8 -> 0 <= d < 8 ->
  let or g := Z.lor (g_k g a) (g_k g b) in
  let not g := Z.lnot (g_k g a) in
  (rewrites_stack 3 (mask_binop 8 Z.lor d a b) (rw_func_korq (mask_instr3 opc d a b)) /\
   rewrites_stack 2 (mask_unop 8 Z.lnot d a) (rw_func_knotq (mask_instr2 opc d a))) /\
  rewrites_mask 3 1 d or (rw_func_korb (mask_instr3 opc d a b)) /\
  rewrites_mask 3 2 d or (rw_func_korw (mask_instr3 opc d a b)) /\
  rewrites_mask 3 4 d or (rw_func_kord (mask_instr3 opc d a b)) /\
  rewrites_mask 2 1 d not (rw_func_knotb (mask_instr2 opc d a)) /\
  rewrites_mask 2 2 d not (rw_func_knotw (mask_instr2 opc d a)) /\
  rewrites_mask 2 4 d not (rw_func_knotd (mask_instr2 opc d a)).
Proof.
  intros Ha Hb Hd or not; split; [split|].
  - destruct (korq_correct opc a b d Ha Hb Hd) as (code & E & Ht); exists code; split; [exact E|now apply mask_keep_64 in Ht].
  - destruct (knotq_correct opc a d Ha Hd) as (code & E & Ht); exists code; split; [exact E|now apply mask_keep_64 in Ht].
  - repeat split; apply rewrites_mask_intro; [assumption| |assumption| |assumption| |assumption| |assumption| |assumption|];
      first [apply kor_gen_correct | apply knot_gen_correct]; auto with rw_bits; cbn; lia.
Qed.

Lemma kor_knot_correct_witness :
  rewrites_mask 3 2 3 (fun g => Z.lor (g_k g 1) (g_k g 2)) (rw_func_korw (mask_instr3 490 3 1 2)) /\
  rewrites_stack 2 (mask_unop 8 Z.lnot 3 1) (rw_func_knotq (mask_instr2 489 3 1)).
Proof. split; [apply (kor_knot_correct 490 1 2 3) | apply (kor_knot_correct 489 1 1 3)]; lia. Defined.

(** ** kxnor *)

(** Two equal sources: the constant is stored. *)
Lemma ones_translates e v code :
  0 <= e < 8 -> 0 <= v < 2 ^ 64 ->
  code = [INSTR_CREATE_push (opnd_create_reg DR_REG_RAX);
          INSTR_CREATE_mov_imm (opnd_create_reg DR_REG_RAX) (OPND_CREATE_INT64 v);
          SAVE_TO_TLS DR_REG_RAX (TLS_K_idx_SLOT e); INSTR_CREATE_pop (opnd_create_reg DR_REG_RAX)] ->
  translates_stack 1 (fun g => set_k g e v) code.
Proof.
  intros He Hv ->; rewrite TLS_K_idx_SLOT_eq by assumption.
  apply (mask_translates 1 _ _ (fun t => store 8 t (32 + 8 * e) v) e (fun _ => v)); [| |reflexivity].
  - intros s Hs Hsp; apply (bracket_r DR_REG_RAX 0 eq_refl ltac:(discriminate)
      [INSTR_CREATE_mov_imm (opnd_create_reg DR_REG_RAX) (OPND_CREATE_INT64 v); SAVE_TO_TLS DR_REG_RAX (32 + 8 * e)]
      (fun t => store 8 t (32 + 8 * e) v) s); [assumption|lia|].
    set (s1 := push64 s _); assert (H1 : gpr_reg DR_REG_RAX = Some (8%nat, 0, 0)) by reflexivity.
    assert (Hm : imm_value 8 v OPSZ_8 = wrap 64 v).
    { unfold imm_value; change (bits_of (opsz_bytes OPSZ_8)) with 64; change (bits_of 8) with 64; cbv zeta.
      destruct (Z.testbit _ _); [|now apply wrap_wrap].
      unfold wrap; rewrite Zminus_mod, Z_mod_same_full, Z.sub_0_r, !Z.mod_mod; lia. }
    change (SAVE_TO_TLS DR_REG_RAX) with (fun off => SAVE_TO_SIZED_TLS DR_REG_RAX off OPSZ_8); cbv beta.
    pose (s2 := with_tls (put s1 8 0 v) (store 8 (tls s) (32 + 8 * e) v)).
    apply (scalar_body [0] _ s1 s2); [|reflexivity|reflexivity|unfold s2; keep_gprs|unfold rsp_idx; cbn; lia].
    unfold OPND_CREATE_INT64; rewrite (run_mov_imm s1 _ _ 8 0 H1), Hm.
    rewrite (run_st _ _ _ 8 0 H1) by (reflexivity || lia); rewrite read_put.
    change (bits_of 8) with 64; rewrite wrap_wrap, wrap_id by lia; reflexivity.
  - intros s Hs; apply k_update_full; auto; apply Hs.
Qed.

Section Xnor.
Context (opc a b d : Z) (Ha : 0 <= a < 8) (Hb : 0 <= b < 8) (Hd : 0 <= d < 8).
Context (w : Z) (Hw : 0 < w <= 64).

Definition xnor_store (t : memory) : memory :=
  store 8 t (32 + 8 * d) (wrap w (xnor (load 8 t (32 + 8 * a)) (load 8 t (32 + 8 * b)))).

Lemma wrap_small v : 0 <= wrap w v < 2 ^ 64.
Proof. pose proof (wrap_range w v); pose proof (Z.pow_le_mono_r 2 w 64); lia. Qed.

Lemma xnor_store_update t :
  wf_memory t -> k_update t (xnor_store t) d (wrap w (xnor (tls_k t a) (tls_k t b))).
Proof. intros Ht; apply k_update_full; auto using wrap_small. Qed.

(** The value stored: complement of the exclusive or, cut to [w] bits. *)
Lemma xnor_value x y :
  wrap 64 (Z.land (wrap 64 (Z.lnot (wrap 64 (Z.lxor (wrap 64 x) (wrap 64 y))))) (2 ^ w - 1)) = wrap w (xnor x y).
Proof.
  rewrite wrap_lnot, (land_ones_wrap w), (wrap_wrap_le w 64) by lia.
  rewrite (wrap_id 64) by apply wrap_small.
  apply wrap_ext; [lia|]; intros i Hi; unfold xnor.
  rewrite !Z.lnot_spec, !Z.lxor_spec, !wrap_testbit by lia.
  now replace (i <? 64) with true by (symmetry; apply Z.ltb_lt; lia).
Qed.

Lemma xnor_translates body code :
  body_ok [0; 1] body xnor_store ->
  code = INSTR_CREATE_push (opnd_create_reg DR_REG_RAX) ::
           (INSTR_CREATE_push (opnd_create_reg DR_REG_RCX) ::
             (INSTR_CREATE_pushf :: body ++ [INSTR_CREATE_popf]) ++ [INSTR_CREATE_pop (opnd_create_reg DR_REG_RCX)])
           ++ [INSTR_CREATE_pop (opnd_create_reg DR_REG_RAX)] ->
  translates_stack 3 (fun g => set_k g d (wrap w (xnor (g_k g a) (g_k g b)))) code.
Proof.
  intros Hbody ->.
  apply (mask_translates 3 _ _ xnor_store d (fun g => wrap w (xnor (g_k g a) (g_k g b)))); [| |reflexivity].
  - intros s Hs Hsp; now apply (bracket_rrf DR_REG_RAX DR_REG_RCX 0 1).
  - intros s Hs; apply xnor_store_update, Hs.
Qed.

Lemma kxnor_body n r1 r2 sz v isz :
  n = 8%nat -> gpr_reg r1 = Some (n, 0, 0) -> gpr_reg r2 = Some (n, 1, 0) -> opsz_bytes sz = n ->
  (opsz_bytes isz <= 4)%nat -> imm_value n v isz = 2 ^ w - 1 ->
  body_ok [0; 1]
    [RESTORE_FROM_SIZED_TLS r1 (TLS_K_idx_SLOT a) sz; RESTORE_FROM_SIZED_TLS r2 (TLS_K_idx_SLOT b) sz;
     INSTR_CREATE_xor (opnd_create_reg r1) (opnd_create_reg r2); INSTR_CREATE_not (opnd_create_reg r1);
     INSTR_CREATE_and (opnd_create_reg r1) (OPND_IMM v isz);
     SAVE_TO_SIZED_TLS r1 (TLS_K_idx_SLOT d) sz] xnor_store.
Proof.
  intros Hn8 H1 H2 Hsz Hi Hv.
  apply (body_ok_ext _ _ (fun t => store n t (32 + 8 * d)
    (wrap (bits_of n) (Z.land (wrap (bits_of n) (Z.lnot (wrap (bits_of n)
       (Z.lxor (wrap (bits_of n) (load n t (32 + 8 * a))) (wrap (bits_of n) (load n t (32 + 8 * b)))))))
       (imm_value n v isz))))).
  - intros t; rewrite Hv, Hn8; change (bits_of 8) with 64; now rewrite xnor_value.
  - body_start; reflexivity.
Qed.

Lemma kxnorq_body n r1 r2 sz :
  w = 64 -> n = 8%nat -> gpr_reg r1 = Some (n, 0, 0) -> gpr_reg r2 = Some (n, 1, 0) -> opsz_bytes sz = n ->
  body_ok [0; 1]
    [RESTORE_FROM_SIZED_TLS r1 (TLS_K_idx_SLOT a) sz; RESTORE_FROM_SIZED_TLS r2 (TLS_K_idx_SLOT b) sz;
     INSTR_CREATE_xor (opnd_create_reg r1) (opnd_create_reg r2); INSTR_CREATE_not (opnd_create_reg r1);
     SAVE_TO_SIZED_TLS r1 (TLS_K_idx_SLOT d) sz] xnor_store.
Proof.
  intros Hw64 Hn8 H1 H2 Hsz.
  apply (body_ok_ext _ _ (fun t => store n t (32 + 8 * d) (wrap (bits_of n) (Z.lnot (wrap (bits_of n)
       (Z.lxor (wrap (bits_of n) (load n t (32 + 8 * a))) (wrap (bits_of n) (load n t (32 + 8 * b)))))))) ).
  - intros t; rewrite Hn8; change (bits_of 8) with 64; unfold xnor_store; rewrite <- xnor_value, Hw64.
    rewrite (land_ones_wrap 64), !(wrap_wrap 64) by lia; reflexivity.
  - body_start; reflexivity.
Qed.

Lemma kxnord_body n r1 r2 sz v isz :
  n = 8%nat -> gpr_reg r1 = Some (n, 0, 0) -> gpr_reg r2 = Some (n, 1, 0) -> opsz_bytes sz = n ->
  wrap (bits_of n) (imm_value n v isz) = 2 ^ w - 1 ->
  body_ok [0; 1]
    [RESTORE_FROM_SIZED_TLS r1 (TLS_K_idx_SLOT a) sz; RESTORE_FROM_SIZED_TLS r2 (TLS_K_idx_SLOT b) sz;
     INSTR_CREATE_xor (opnd_create_reg r1) (opnd_create_reg r2); INSTR_CREATE_not (opnd_create_reg r1);
     INSTR_CREATE_mov_imm (opnd_create_reg r2) (OPND_IMM v isz);
     INSTR_CREATE_and (opnd_create_reg r1) (opnd_create_reg r2);
     SAVE_TO_SIZED_TLS r1 (TLS_K_idx_SLOT d) sz] xnor_store.
Proof.
  intros Hn8 H1 H2 Hsz Hv.
  apply (body_ok_ext _ _ (fun t => store n t (32 + 8 * d)
    (wrap (bits_of n) (Z.land (wrap (bits_of n) (Z.lnot (wrap (bits_of n)
       (Z.lxor (wrap (bits_of n) (load n t (32 + 8 * a))) (wrap (bits_of n) (load n t (32 + 8 * b)))))))
       (wrap (bits_of n) (imm_value n v isz)))))).
  - intros t; rewrite Hv, Hn8; change (bits_of 8) with 64; now rewrite xnor_value.
  - body_start; reflexivity.
Qed.

Lemma xnor_same : a = b -> forall g, set_k g d (wrap w (xnor (g_k g a) (g_k g b))) = set_k g d (2 ^ w - 1).
Proof.
  intros -> g; f_equal; unfold xnor; rewrite Z.lxor_nilpotent.
  rewrite <- (land_ones_wrap w) by lia; change (Z.lnot 0) with (-1); apply Z.land_m1_l.
Qed.
End Xnor.

Lemma kreg_eqb a b : (kreg a =? kreg b) = (a =? b).
Proof. unfold kreg; zcases; lia. Qed.

Section KxnorGen.
Context (opc a b d : Z) (Ha : 0 <= a < 8) (Hb : 0 <= b < 8) (Hd : 0 <= d < 8).

Ltac xnor_operands :=
  cbn [instr_srcs instr_dsts instr_get_src instr_get_dst nth mask_instr3 opnd_get_reg opnd_create_reg];
  rewrite kreg_eqb, !TO_K_REG_INDEX_kreg.

Lemma kxnor_gen_correct n w ones :
  bits_of n = w -> 0 < w <= 64 -> ones = 2 ^ w - 1 -> imm_value 8 ones OPSZ_4 = 2 ^ w - 1 ->
  rewrites_stack 3 (mask_binop n xnor d a b) (kxnor_gen ones (mask_instr3 opc d a b)).
Proof.
  intros Hn Hw Ho Hi; unfold kxnor_gen; xnor_operands; unfold mask_binop; rewrite Hn.
  assert (Hp : 2 ^ w <= 2 ^ 64) by (apply Z.pow_le_mono_r; lia).
  assert (0 < 2 ^ w) by (apply Z.pow_pos_nonneg; lia).
  destruct (Z.eqb_spec a b) as [E|Hne]; eexists; (split; [reflexivity|]).
  - apply (translates_stack_mono 1); [lia|]; intros s Hs Hsp; erewrite xnor_same, <- Ho by eassumption.
    eapply ones_translates; [exact Hd| |reflexivity|exact Hs|exact Hsp]; lia.
  - eapply (xnor_translates a b d Ha Hb Hd w Hw).
    + apply (kxnor_body a b d Ha Hb Hd w Hw 8 DR_REG_RAX DR_REG_RCX OPSZ_8 ones OPSZ_4); reflexivity || (cbn; lia) || auto.
    + reflexivity.
Qed.

Lemma kxnorq_correct : rewrites_stack 3 (mask_binop 8 xnor d a b) (rw_func_kxnorq (mask_instr3 opc d a b)).
Proof.
  unfold rw_func_kxnorq; xnor_operands; unfold mask_binop; change (bits_of 8) with 64.
  assert (Hw : 0 < 64 <= 64) by lia.
  destruct (Z.eqb_spec a b) as [E|Hne]; eexists; (split; [reflexivity|]).
  - apply (translates_stack_mono 1); [lia|]; intros s Hs Hsp; erewrite xnor_same by eassumption.
    eapply ones_translates; [exact Hd| |reflexivity|exact Hs|exact Hsp]; lia.
  - eapply (xnor_translates a b d Ha Hb Hd 64 Hw).
    + apply (kxnorq_body a b d Ha Hb Hd 64 Hw 8 DR_REG_RAX DR_REG_RCX OPSZ_8); reflexivity.
    + reflexivity.
Qed.

Lemma kxnord_correct :
  if a =? b then rewrites_stack 1 (fun g => set_k g a (2 ^ 32 - 1)) (rw_func_kxnord (mask_instr3 opc d a b))
  else inserts_stack 3 (mask_binop 4 xnor d a b) (rw_func_kxnord (mask_instr3 opc d a b)).
Proof.
  unfold rw_func_kxnord; xnor_operands; assert (Hw : 0 < 32 <= 64) by lia.
  destruct (Z.eqb_spec a b) as [E|Hne]; eexists; (split; [reflexivity|]).
  - eapply ones_translates; [exact Ha| |reflexivity]; lia.
  - unfold mask_binop; change (bits_of 4) with 32; eapply (xnor_translates a b d Ha Hb Hd 32 Hw).
    + apply (kxnord_body a b d Ha Hb Hd 32 Hw 8 DR_REG_RAX DR_REG_RCX OPSZ_8 4294967295 OPSZ_8); reflexivity.
    + reflexivity.
Qed.
End KxnorGen.

(** C38: [kxnorb], [kxnorw] and [kxnorq] are replaced by code for the documented
    instruction, zero above the operand size, for every choice of mask registers,
    equal sources included; flags and registers are restored. *)
Theorem kxnor_correct opc a b d :
  0 <= a < 8 -> 0 <= b < 8 -> 0 <= d < 8 ->
  rewrites_stack 3 (mask_binop 1 xnor d a b) (rw_func_kxnorb (mask_instr3 opc d a b)) /\
  rewrites_stack 3 (mask_binop 2 xnor d a b) (rw_func_kxnorw (mask_instr3 opc d a b)) /\
  rewrites_stack 3 (mask_binop 8 xnor d a b) (rw_func_kxnorq (mask_instr3 opc d a b)).
Proof.
  intros; split; [|split]; [apply kxnor_gen_correct with (w := 8)|apply kxnor_gen_correct with (w := 16)|apply kxnorq_correct];
    reflexivity || lia || assumption.
Qed.

Lemma kxnor_correct_witness :
  rewrites_stack 3 (mask_binop 2 xnor 1 2 2) (rw_func_kxnorw (mask_instr3 494 1 2 2)).
Proof. apply (kxnor_correct 494 2 2 1); lia. Defined.

(** [kxnord]: with different sources the code is right but the instruction is
    not removed; with equal sources the constant goes to the source register
    instead of the destination. *)
Theorem kxnord_behaviour opc a b d :
  0 <= a < 8 -> 0 <= b < 8 -> 0 <= d < 8 ->
  if a =? b then rewrites_stack 1 (fun g => set_k g a (2 ^ 32 - 1)) (rw_func_kxnord (mask_instr3 opc d a b))
  else inserts_stack 3 (mask_binop 4 xnor d a b) (rw_func_kxnord (mask_instr3 opc d a b)).
Proof. intros; now apply kxnord_correct. Qed.

Lemma kxnord_behaviour_witness :
  rewrites_stack 1 (fun g => set_k g 2 (2 ^ 32 - 1)) (rw_func_kxnord (mask_instr3 498 1 2 2)).
Proof. apply (kxnord_behaviour 498 2 2 1); lia. Defined.
