(* ===== verification/KMov.v ===== *)
(** * Mask moves and unpacks: kmov, kunpck

    The functions for [kmovw], [kmovb], [kmovq] and [kmovd] in their three
    directions (mask to GPR, GPR to mask, mask to mask) and for [kunpckbw] and
    [kunpckwd]. *)
From Stdlib Require Import ZArith List Bool Lia RelationClasses Morphisms.
From S2P Require Import Prelude Regs Bytes Lanes Machine Arch512 SymExec ScalarExec MaskSpec KLogic.
Import ListNotations.
#[local] Open Scope Z_scope.
#[local] Open Scope bool_scope.
#[local] Open Scope rw_scope.

(** ** The functions *)

(** Which operands are mask registers: bit 0 the source, bit 1 the destination. *)
Definition kmov_mask_flag (src_reg dst_reg : reg_id_t) : Z :=
  let src_mask_flag := if IS_MASK_REG src_reg then 1 else 0 in
  let dst_mask_flag := if IS_MASK_REG dst_reg then 2 else 0 in
  Z.lor src_mask_flag dst_mask_flag.

Definition rw_func_kmovw (instr : instr_t) : rw_result :=
  let src_opnd := instr_get_src instr 0 in
  let dst_opnd := instr_get_dst instr 0 in
  let src_reg := opnd_get_reg src_opnd in
  let dst_reg := opnd_get_reg dst_opnd in
  match kmov_mask_flag src_reg dst_reg with
  | 1 =>
      let k_idx := TO_K_REG_INDEX src_reg in
      let dst_reg :=
        if IS_32GPR_REG dst_reg then GPR32_TO_GPR16 dst_reg
        else if IS_64GPR_REG dst_reg then GPR64_TO_GPR16 dst_reg else dst_reg in
      let new1 := RESTORE_FROM_SIZED_TLS dst_reg (TLS_K_idx_SLOT k_idx) OPSZ_2 in
      let new2 := INSTR_CREATE_movzx (opnd_create_reg DR_REG_EAX) (opnd_create_reg DR_REG_AX) in
      rw_replace [new1; new2]
  | 2 =>
      let k_idx := TO_K_REG_INDEX dst_reg in
      let tmp_reg := DR_REG_RAX in
      let src_reg :=
        if IS_32GPR_REG src_reg then GPR32_TO_GPR16 src_reg
        else if IS_64GPR_REG src_reg then GPR64_TO_GPR16 src_reg else src_reg in
      let new1 := SAVE_TO_TLS tmp_reg TLS_REG1_SLOT in
      let new2 := INSTR_CREATE_xor (opnd_create_reg tmp_reg) (opnd_create_reg tmp_reg) in
      let new3 := SAVE_TO_TLS tmp_reg (TLS_K_idx_SLOT k_idx) in
      let new4 := SAVE_TO_SIZED_TLS src_reg (TLS_K_idx_SLOT k_idx) OPSZ_2 in
      let new5 := RESTORE_FROM_TLS tmp_reg TLS_REG1_SLOT in
      rw_replace [new1; new2; new3; new4; new5]
  | 3 =>
      let src_k := TO_K_REG_INDEX src_reg in
      let dst_k := TO_K_REG_INDEX dst_reg in
      let tmp := DR_REG_RAX in
      let new1 := SAVE_TO_TLS tmp TLS_REG1_SLOT in
      let new2 := RESTORE_FROM_SIZED_TLS tmp (TLS_K_idx_SLOT src_k) OPSZ_8 in
      let new3 := SAVE_TO_SIZED_TLS (GPR64_TO_GPR16 tmp) (TLS_K_idx_SLOT dst_k) OPSZ_2 in
      let new4 := RESTORE_FROM_TLS tmp TLS_REG1_SLOT in
      rw_replace [new1; new2; new3; new4]
  | _ => rw_removed_null
  end.

Definition rw_func_kmovb (instr : instr_t) : rw_result :=
  let src_opnd := instr_get_src instr 0 in
  let dst_opnd := instr_get_dst instr 0 in
  let src_reg := opnd_get_reg src_opnd in
  let dst_reg := opnd_get_reg dst_opnd in
  match kmov_mask_flag src_reg dst_reg with
  | 1 =>
      let k_idx := TO_K_REG_INDEX src_reg in
      if IS_64GPR_REG dst_reg then
        let new_instr1 := INSTR_CREATE_pushf in
        let new_instr2 := INSTR_CREATE_xor (opnd_create_reg dst_reg) (opnd_create_reg dst_reg) in
        let new_instr3 := RESTORE_FROM_SIZED_TLS (GPR64_TO_GPR8 dst_reg) (TLS_K_idx_SLOT k_idx) OPSZ_1 in
        let new_instr4 := INSTR_CREATE_popf in
        rw_replace [new_instr1; new_instr2; new_instr3; new_instr4]
      else if IS_32GPR_REG dst_reg then
        let new_instr1 := INSTR_CREATE_pushf in
        let new_instr2 := INSTR_CREATE_xor (opnd_create_reg dst_reg) (opnd_create_reg dst_reg) in
        let new_instr3 := RESTORE_FROM_SIZED_TLS (GPR32_TO_GPR8 dst_reg) (TLS_K_idx_SLOT k_idx) OPSZ_1 in
        let new_instr4 := INSTR_CREATE_popf in
        rw_replace [new_instr1; new_instr2; new_instr3; new_instr4]
      else rw_removed_null
  | 2 =>
      let k_idx := TO_K_REG_INDEX dst_reg in
      let tmp_reg := DR_REG_R15 in
      let src_reg :=
        if IS_32GPR_REG src_reg then GPR32_TO_GPR8 src_reg
        else if IS_64GPR_REG src_reg then GPR64_TO_GPR8 src_reg
        else if IS_16GPR_REG src_reg then GPR16_TO_GPR8 src_reg else src_reg in
      let new_instr1 := INSTR_CREATE_pushf in
      let new_instr2 := INSTR_CREATE_push (opnd_create_reg tmp_reg) in
      let new_instr3 := INSTR_CREATE_xor (opnd_create_reg tmp_reg) (opnd_create_reg tmp_reg) in
      let new_instr4 := SAVE_TO_TLS tmp_reg (TLS_K_idx_SLOT k_idx) in
      let new_instr5 := SAVE_TO_SIZED_TLS src_reg (TLS_K_idx_SLOT k_idx) OPSZ_1 in
      let new_instr6 := INSTR_CREATE_pop (opnd_create_reg tmp_reg) in
      let new_instr7 := INSTR_CREATE_popf in
      rw_replace [new_instr1; new_instr2; new_instr3; new_instr4; new_instr5; new_instr6; new_instr7]
  | 3 =>
      let src_k_idx := TO_K_REG_INDEX src_reg in
      let dst_k_idx := TO_K_REG_INDEX dst_reg in
      let tmp_reg := DR_REG_R11 in
      let tmp_reg2 := DR_REG_R12 in
      let new_instr1 := INSTR_CREATE_pushf in
      let new_instr2 := SAVE_TO_TLS tmp_reg TLS_REG1_SLOT in
      let new_instr3 := SAVE_TO_TLS tmp_reg2 TLS_REG2_SLOT in
      let new_instr4 := INSTR_CREATE_xor (opnd_create_reg tmp_reg2) (opnd_create_reg tmp_reg2) in
      let new_instr5 := SAVE_TO_TLS tmp_reg2 (TLS_K_idx_SLOT dst_k_idx) in
      let new_instr6 := RESTORE_FROM_SIZED_TLS (GPR64_TO_GPR8 tmp_reg) (TLS_K_idx_SLOT src_k_idx) OPSZ_1 in
      let new_instr7 := SAVE_TO_SIZED_TLS (GPR64_TO_GPR8 tmp_reg) (TLS_K_idx_SLOT dst_k_idx) OPSZ_1 in
      let new_instr8 := RESTORE_FROM_TLS tmp_reg2 TLS_REG2_SLOT in
      let new_instr9 := RESTORE_FROM_TLS tmp_reg TLS_REG1_SLOT in
      let new_instr10 := INSTR_CREATE_popf in
      rw_replace [new_instr1; new_instr2; new_instr3; new_instr4; new_instr5; new_instr6; new_instr7;
                  new_instr8; new_instr9; new_instr10]
  | _ => rw_removed_null
  end.

Definition rw_func_kmovq (instr : instr_t) : rw_result :=
  let src_opnd := instr_get_src instr 0 in
  let dst_opnd := instr_get_dst instr 0 in
  let src_reg := opnd_get_reg src_opnd in
  let dst_reg := opnd_get_reg dst_opnd in
  match kmov_mask_flag src_reg dst_reg with
  | 1 =>
      let k_idx := TO_K_REG_INDEX src_reg in
      let new_instr1 := RESTORE_FROM_TLS dst_reg (TLS_K_idx_SLOT k_idx) in
      rw_replace [new_instr1]
  | 2 =>
      let k_idx := TO_K_REG_INDEX dst_reg in
      let new_instr1 := SAVE_TO_TLS src_reg (TLS_K_idx_SLOT k_idx) in
      rw_replace [new_instr1]
  | 3 =>
      let src_k_idx := TO_K_REG_INDEX src_reg in
      let dst_k_idx := TO_K_REG_INDEX dst_reg in
      let tmp_reg := DR_REG_RAX in
      let new_instr1 := SAVE_TO_TLS tmp_reg TLS_REG1_SLOT in
      let new_instr2 := RESTORE_FROM_TLS tmp_reg (TLS_K_idx_SLOT src_k_idx) in
      let new_instr3 := SAVE_TO_TLS tmp_reg (TLS_K_idx_SLOT dst_k_idx) in
      let new_instr4 := RESTORE_FROM_TLS tmp_reg TLS_REG1_SLOT in
      rw_replace [new_instr1; new_instr2; new_instr3; new_instr4]
  | _ => rw_removed_null
  end.

Definition rw_func_kmovd (instr : instr_t) : rw_result :=
  let src_opnd := instr_get_src instr 0 in
  let dst_opnd := instr_get_dst instr 0 in
  let src_reg := opnd_get_reg src_opnd in
  let dst_reg := opnd_get_reg dst_opnd in
  match kmov_mask_flag src_reg dst_reg with
  | 1 =>
      let k_idx := TO_K_REG_INDEX src_reg in
      let i1 := RESTORE_FROM_SIZED_TLS dst_reg (TLS_K_idx_SLOT k_idx) OPSZ_4 in
      rw_replace [i1]
  | 2 =>
      let k_idx := TO_K_REG_INDEX dst_reg in
      let tmp_reg := DR_REG_RAX in
      let i1 := SAVE_TO_TLS tmp_reg TLS_REG1_SLOT in
      let i2 := INSTR_CREATE_xor (opnd_create_reg tmp_reg) (opnd_create_reg tmp_reg) in
      let i3 := SAVE_TO_TLS tmp_reg (TLS_K_idx_SLOT k_idx) in
      let i4 := SAVE_TO_SIZED_TLS src_reg (TLS_K_idx_SLOT k_idx) OPSZ_4 in
      let i5 := RESTORE_FROM_TLS tmp_reg TLS_REG1_SLOT in
      rw_replace [i1; i2; i3; i4; i5]
  | 3 =>
      let src_k_idx := TO_K_REG_INDEX src_reg in
      let dst_k_idx := TO_K_REG_INDEX dst_reg in
      let tmp_reg := DR_REG_RAX in
      let tmp_reg2 := DR_REG_RCX in
      let i1 := SAVE_TO_TLS tmp_reg TLS_REG1_SLOT in
      let i2 := SAVE_TO_TLS tmp_reg2 TLS_REG2_SLOT in
      let i3 := INSTR_CREATE_xor (opnd_create_reg tmp_reg2) (opnd_create_reg tmp_reg2) in
      let i4 := SAVE_TO_TLS tmp_reg2 (TLS_K_idx_SLOT dst_k_idx) in
      let i5 := RESTORE_FROM_SIZED_TLS tmp_reg (TLS_K_idx_SLOT src_k_idx) OPSZ_4 in
      let i6 := SAVE_TO_SIZED_TLS tmp_reg (TLS_K_idx_SLOT dst_k_idx) OPSZ_4 in
      let i7 := RESTORE_FROM_TLS tmp_reg2 TLS_REG2_SLOT in
      let i8 := RESTORE_FROM_TLS tmp_reg TLS_REG1_SLOT in
      rw_replace [i1; i2; i3; i4; i5; i6; i7; i8]
  | _ => rw_removed_null
  end.

Definition rw_func_kunpckbw (instr : instr_t) : rw_result :=
  let src1_opnd := instr_get_src instr 0 in
  let src2_opnd := instr_get_src instr 1 in
  let dst_opnd := instr_get_dst instr 0 in
  let src1_mask_reg := opnd_get_reg src1_opnd in
  let src2_mask_reg := opnd_get_reg src2_opnd in
  let dst_mask_reg := opnd_get_reg dst_opnd in
  let src1_spill_reg := DR_REG_RAX in
  let src2_spill_reg := DR_REG_RCX in
  let src1_spill_opnd := opnd_create_reg src1_spill_reg in
  let src2_spill_opnd := opnd_create_reg src2_spill_reg in
  let i1 := SAVE_TO_TLS src1_spill_reg TLS_REG1_SLOT in
  let i2 := SAVE_TO_TLS src2_spill_reg TLS_REG3_SLOT in
  let i3 := RESTORE_FROM_TLS src1_spill_reg (TLS_K_idx_SLOT (TO_K_REG_INDEX src1_mask_reg)) in
  let i4 := RESTORE_FROM_TLS src2_spill_reg (TLS_K_idx_SLOT (TO_K_REG_INDEX src2_mask_reg)) in
  let i5 := INSTR_CREATE_shl src1_spill_opnd (OPND_CREATE_INT8 8) in
  let i6 := INSTR_CREATE_and src1_spill_opnd (OPND_CREATE_INT32 65280) in
  let i7 := INSTR_CREATE_and src2_spill_opnd (OPND_CREATE_INT32 255) in
  let i8 := INSTR_CREATE_or src2_spill_opnd src1_spill_opnd in
  let i9 := SAVE_TO_TLS src2_spill_reg (TLS_K_idx_SLOT (TO_K_REG_INDEX dst_mask_reg)) in
  let i10 := RESTORE_FROM_TLS src2_spill_reg TLS_REG3_SLOT in
  let i11 := RESTORE_FROM_TLS src1_spill_reg TLS_REG1_SLOT in
  rw_replace [i1; i2; i3; i4; i5; i6; i7; i8; i9; i10; i11].

Definition rw_func_kunpckwd (instr : instr_t) : rw_result :=
  let src1_opnd := instr_get_src instr 0 in
  let src2_opnd := instr_get_src instr 1 in
  let dst_opnd := instr_get_dst instr 0 in
  let src1_mask_reg := opnd_get_reg src1_opnd in
  let src2_mask_reg := opnd_get_reg src2_opnd in
  let dst_mask_reg := opnd_get_reg dst_opnd in
  let src1_spill_reg := DR_REG_RAX in
  let src2_spill_reg := DR_REG_RCX in
  let src3_spill_reg := DR_REG_RDX in
  let src1_spill_opnd := opnd_create_reg src1_spill_reg in
  let src2_spill_opnd := opnd_create_reg src2_spill_reg in
  let src3_spill_opnd := opnd_create_reg src3_spill_reg in
  let i1 := SAVE_TO_TLS src1_spill_reg TLS_REG1_SLOT in
  let i2 := SAVE_TO_TLS src2_spill_reg TLS_REG3_SLOT in
  let i3 := SAVE_TO_TLS src3_spill_reg TLS_REG2_SLOT in
  let i4 := RESTORE_FROM_TLS src1_spill_reg (TLS_K_idx_SLOT (TO_K_REG_INDEX src1_mask_reg)) in
  let i5 := RESTORE_FROM_TLS src2_spill_reg (TLS_K_idx_SLOT (TO_K_REG_INDEX src2_mask_reg)) in
  let i6 := INSTR_CREATE_shl src1_spill_opnd (OPND_CREATE_INT8 16) in
  let i7 := INSTR_CREATE_mov_imm src3_spill_opnd (OPND_CREATE_INT64 4294901760) in
  let i8 := INSTR_CREATE_and src1_spill_opnd src3_spill_opnd in
  let i9 := INSTR_CREATE_mov_imm src3_spill_opnd (OPND_CREATE_INT64 65535) in
  let i10 := INSTR_CREATE_and src2_spill_opnd src3_spill_opnd in
  let i11 := INSTR_CREATE_or src2_spill_opnd src1_spill_opnd in
  let i12 := SAVE_TO_TLS src2_spill_reg (TLS_K_idx_SLOT (TO_K_REG_INDEX dst_mask_reg)) in
  let i13 := RESTORE_FROM_TLS src3_spill_reg TLS_REG2_SLOT in
  let i14 := RESTORE_FROM_TLS src2_spill_reg TLS_REG3_SLOT in
  let i15 := RESTORE_FROM_TLS src1_spill_reg TLS_REG1_SLOT in
  rw_replace [i1; i2; i3; i4; i5; i6; i7; i8; i9; i10; i11; i12; i13; i14; i15].

(** ** Mask registers by index *)

Lemma kmask_kreg k : 0 <= k < 8 -> IS_MASK_REG (kreg k) = true.
Proof. intros; unfold IS_MASK_REG; unfold_regs; zcases; cbn [andb]; try reflexivity; lia. Qed.

(** ** Bodies *)

Lemma k_update_trans t t1 t2 d v1 v2 : k_update t t1 d v1 -> k_update t1 t2 d v2 -> k_update t t2 d v2.
Proof.
  intros (L1 & K1) (L2 & K2); split.
  - intros; rewrite L2, L1 by assumption; reflexivity.
  - intros k Hk; rewrite K2 by assumption; destruct (k =? d) eqn:E; [reflexivity|].
    rewrite K1, E by assumption; reflexivity.
Qed.

(** Clearing a mask slot and writing its low bytes. *)
Lemma k_update_clear n t d v :
  (n <= 8)%nat -> 0 <= d < 8 -> wf_memory t ->
  k_update t (store n (store 8 t (32 + 8 * d) 0) (32 + 8 * d) v) d (wrap (bits_of n) v).
Proof.
  intros Hn Hd Ht; apply (k_update_trans t (store 8 t (32 + 8 * d) 0) _ d 0); [apply k_update_full; [assumption|assumption|lia]|].
  rewrite <- (mask_keep_zero n 0 v); [|split; [lia|apply Z.pow_pos_nonneg; unfold bits_of; lia]].
  set (t1 := store 8 t (32 + 8 * d) 0).
  pose proof (k_update_store n t1 d v Hn Hd (store_wf _ _ _ _ Ht)) as H.
  replace (tls_k t1 d) with 0 in H; [exact H|].
  unfold t1, tls_k; rewrite load_store_same; reflexivity.
Qed.

Lemma keep_scratch n t d v off :
  (n <= 8)%nat -> 0 <= d < 8 -> In off scratch_slots -> load 8 (store n t (32 + 8 * d) v) off = load 8 t off.
Proof. intros Hn Hd Ho; apply scratch_range in Ho; apply load_store_disjoint; lia. Qed.

(** A straight-line body as a [k_body]. *)
Lemma k_body_intro pf keep clob body d v :
  ~ In rsp_idx clob ->
  (forall s, wf_mach s -> exists s', run body s = Some s' /\ simd s' = simd s /\ mem s' = mem s /\
     (forall j, ~ In j clob -> gpr s' j = gpr s j) /\
     k_update (tls s) (tls s') d (v (view s)) /\
     (forall off, In off keep -> load 8 (tls s') off = load 8 (tls s) off) /\
     (pf = true -> rflags s' = rflags s)) ->
  k_body pf keep clob body d v.
Proof.
  intros Hc H s Hs; destruct (H s Hs) as (s' & R & Es & Em & Eg & Hu & Hk & Hf).
  exists (tls s'), (rflags s'); split; [now apply scalar_body|auto].
Qed.

Lemma lxor_self_wrap n x : wrap (bits_of n) (Z.lxor x x) = 0.
Proof. rewrite Z.lxor_nilpotent; apply Z.mod_0_l, Z.pow_nonzero; unfold bits_of; lia. Qed.

Section GprToMask.
Context (d : Z) (Hd : 0 <= d < 8) (tmp r : reg_id_t) (it i : Z) (n m : nat) (sz szf : opnd_size).
Context (Ht : gpr_reg tmp = Some (m, it, 0)) (Hr : gpr_reg r = Some (n, i, 0)) (Hsz : opsz_bytes sz = n).
Context (Hm : m = 8%nat) (Hszf : opsz_bytes szf = m) (Hn : (n <= 8)%nat) (Hit : it <> rsp_idx).

(** The scratch register is cleared before the source is read, so a source
    that is the scratch register reads as zero. *)
Lemma clear_and_store_body :
  k_body false scratch_slots [it]
    [INSTR_CREATE_xor (opnd_create_reg tmp) (opnd_create_reg tmp);
     SAVE_TO_SIZED_TLS tmp (TLS_K_idx_SLOT d) szf; SAVE_TO_SIZED_TLS r (TLS_K_idx_SLOT d) sz] d
    (fun g => if i =? it then 0 else wrap (bits_of n) (g_gpr g i)).
Proof.
  rewrite TLS_K_idx_SLOT_eq by assumption; apply k_body_intro; [cbn; intuition congruence|].
  intros s Hs; eexists; split; [run_body; reflexivity|].
  split; [reflexivity|split; [reflexivity|split; [keep_gprs|]]].
  read_regs; rewrite lxor_self_wrap, Hm; split.
  - assert (Hw : 0 <= bits_of n) by (unfold bits_of; lia).
    cbn [view g_gpr]; set (u := if i =? it then 0 else wrap (bits_of n) (gpr s i)).
    assert (Hu : 0 <= u < 2 ^ bits_of n).
    { unfold u; destruct (i =? it); [split; [lia|now apply Z.pow_pos_nonneg]|now apply wrap_range]. }
    replace (wrap (bits_of n) (gpr _ i)) with u; [|unfold u; destruct (Z.eqb_spec i it) as [->|Hne]].
    + rewrite <- (wrap_id (bits_of n) u Hu) at 2; apply k_update_clear; auto; apply Hs.
    + rewrite Z.lxor_nilpotent; cbn [gpr put with_gpr]; rewrite Z.eqb_refl.
      symmetry; apply Z.mod_0_l, Z.pow_nonzero; lia.
    + now rewrite gpr_put_other.
  - split; [intros off Ho; now rewrite !keep_scratch by (assumption || lia)|discriminate].
Qed.
End GprToMask.

Section MaskToMask.
Context (a d : Z) (Ha : 0 <= a < 8) (Hd : 0 <= d < 8) (r r' : reg_id_t) (i : Z) (n m : nat) (sz szf : opnd_size).
Context (Hr : gpr_reg r = Some (m, i, 0)) (Hr' : gpr_reg r' = Some (n, i, 0)) (Hi : i <> rsp_idx).
Context (Hsz : opsz_bytes sz = n) (Hszf : opsz_bytes szf = m) (Hn : (n <= m)%nat) (Hm : (m <= 8)%nat).

(** Load a mask at one size, store its low bytes to another. *)
Lemma copy_body :
  k_body true scratch_slots [i]
    [RESTORE_FROM_SIZED_TLS r (TLS_K_idx_SLOT a) szf; SAVE_TO_SIZED_TLS r' (TLS_K_idx_SLOT d) sz] d
    (fun g => mask_keep n (g_k g d) (g_k g a)).
Proof.
  rewrite !TLS_K_idx_SLOT_eq by assumption; apply k_body_intro; [cbn; intuition congruence|].
  intros s Hs; eexists; split; [run_body; reflexivity|].
  split; [reflexivity|split; [reflexivity|split; [keep_gprs|]]]; read_regs.
  assert (Hw : 0 <= bits_of n <= bits_of m) by (unfold bits_of; lia).
  split; [|split; [intros off Ho; now rewrite keep_scratch by (assumption || lia)|reflexivity]].
  rewrite load_k by (assumption || apply Hs).
  assert (E : wrap (bits_of n) (gpr (put s m i (wrap (bits_of m) (tls_k (tls s) a))) i) = wrap (bits_of n) (tls_k (tls s) a)).
  { rewrite <- (wrap_wrap_le (bits_of n) (bits_of m)), read_put by assumption.
    rewrite wrap_wrap, wrap_wrap_le by lia; reflexivity. }
  rewrite E; pose proof (k_update_store n (tls s) d (wrap (bits_of n) (tls_k (tls s) a)) ltac:(lia) Hd) as H.
  unfold mask_keep in *; rewrite wrap_wrap in H by lia; apply H, Hs.
Qed.
End MaskToMask.

(** ** GPR to mask *)

Definition kmov_instr (opc : Z) (dst src : reg_id_t) : instr_t :=
  mk_instr (OP_avx512 opc) [opnd_create_reg dst] [opnd_create_reg src].

Lemma flag_gpr_mask r d : IS_MASK_REG r = false -> 0 <= d < 8 -> kmov_mask_flag r (kreg d) = 2.
Proof. intros Hr Hd; unfold kmov_mask_flag; now rewrite Hr, kmask_kreg. Qed.
Lemma flag_mask_gpr r a : IS_MASK_REG r = false -> 0 <= a < 8 -> kmov_mask_flag (kreg a) r = 1.
Proof. intros Hr Hd; unfold kmov_mask_flag; now rewrite Hr, kmask_kreg. Qed.
Lemma flag_mask_mask a d : 0 <= a < 8 -> 0 <= d < 8 -> kmov_mask_flag (kreg a) (kreg d) = 3.
Proof. intros Ha Hd; unfold kmov_mask_flag; now rewrite !kmask_kreg. Qed.

Ltac kmov_start f lem :=
  unfold f; cbn [instr_srcs instr_dsts instr_get_src instr_get_dst nth kmov_instr opnd_get_reg opnd_create_reg];
  rewrite lem by assumption; cbv iota beta zeta; rewrite ?TO_K_REG_INDEX_kreg.

#[local] Instance gpr_value_proper (i it w : Z) (Hi : 0 <= i < 16) :
  Proper (guest_eq ==> eq) (fun g => if i =? it then 0 else wrap w (g_gpr g i)).
Proof. intros g h (_ & _ & H & _); destruct (i =? it); [reflexivity|]; now rewrite H. Qed.

Lemma rax_tls_bracket pf body d v :
  Proper (guest_eq ==> eq) v -> k_body pf scratch_slots [0] body d v ->
  k_body pf [] [] (SAVE_TO_TLS DR_REG_RAX TLS_REG1_SLOT :: body ++ [RESTORE_FROM_TLS DR_REG_RAX TLS_REG1_SLOT]) d v.
Proof.
  intros Hv Hb; change TLS_REG1_SLOT with 8.
  refine (k_body_tls pf DR_REG_RAX 0 8 scratch_slots [] [0] body d v eq_refl _ _ _ _ _ Hv Hb);
    [discriminate|cbn; auto|apply incl_refl|intros x []|intros []].
Qed.

Section GprSource.
Context (opc i d : Z) (Hi : 0 <= i < 16) (Hd : 0 <= d < 8).
Let N := reg_names_all i Hi.

Lemma kmovw_gpr_to_mask :
  rewrites_but_flags (fun g => set_k g d (if i =? 0 then 0 else wrap 16 (g_gpr g i)))
    (rw_func_kmovw (kmov_instr opc (kreg d) (gpr32 i))).
Proof.
  pose proof (rn_d_not_k i N) as Hk; kmov_start rw_func_kmovw flag_gpr_mask.
  rewrite (rn_is_d i N).
  apply (k_body_rewrites _ d (fun g => if i =? 0 then 0 else wrap 16 (g_gpr g i))).
  pose proof (clear_and_store_body d Hd DR_REG_RAX (GPR32_TO_GPR16 (gpr32 i)) 0 i 2 8 OPSZ_2 OPSZ_8 eq_refl
    (rn_d_w i N) eq_refl eq_refl eq_refl ltac:(lia) ltac:(discriminate)) as Hb.
  exact (rax_tls_bracket false _ d _ (gpr_value_proper i 0 16 Hi) Hb).
Qed.

Lemma kmovd_gpr_to_mask :
  rewrites_but_flags (fun g => set_k g d (if i =? 0 then 0 else wrap 32 (g_gpr g i)))
    (rw_func_kmovd (kmov_instr opc (kreg d) (gpr32 i))).
Proof.
  pose proof (rn_d_not_k i N) as Hk; kmov_start rw_func_kmovd flag_gpr_mask.
  apply (k_body_rewrites _ d (fun g => if i =? 0 then 0 else wrap 32 (g_gpr g i))).
  pose proof (clear_and_store_body d Hd DR_REG_RAX (gpr32 i) 0 i 4 8 OPSZ_4 OPSZ_8 eq_refl
    (rn_d i N) eq_refl eq_refl eq_refl ltac:(lia) ltac:(discriminate)) as Hb.
  exact (rax_tls_bracket false _ d _ (gpr_value_proper i 0 32 Hi) Hb).
Qed.

Lemma kmovq_gpr_to_mask :
  rewrites (fun g => set_k g d (g_gpr g i)) (rw_func_kmovq (kmov_instr opc (kreg d) (gpr64 i))).
Proof.
  pose proof (rn_q_not_k i N) as Hk; kmov_start rw_func_kmovq flag_gpr_mask.
  apply (k_body_rewrites_flags _ d (fun g => g_gpr g i)).
  change (SAVE_TO_TLS (gpr64 i)) with (fun off => SAVE_TO_SIZED_TLS (gpr64 i) off OPSZ_8); cbv beta.
  rewrite TLS_K_idx_SLOT_eq by assumption; apply k_body_intro; [intros []|].
  pose proof (rn_q i N) as Hq; intros s Hs; eexists; split; [run_body; reflexivity|].
  split; [reflexivity|split; [reflexivity|split; [reflexivity|]]].
  split; [|split; [intros off []|reflexivity]]; read_regs; change (bits_of 8) with 64.
  assert (Hg : 0 <= gpr s i < 2 ^ 64) by apply Hs.
  rewrite wrap_id by assumption; apply k_update_full; auto; apply Hs.
Qed.

Lemma kmovb_gpr_to_mask :
  i <> rsp_idx ->
  rewrites_stack 2 (fun g => set_k g d (if i =? 15 then 0 else wrap 8 (g_gpr g i)))
    (rw_func_kmovb (kmov_instr opc (kreg d) (gpr32 i))).
Proof.
  intros Hsp; pose proof (rn_d_not_k i N) as Hk; kmov_start rw_func_kmovb flag_gpr_mask.
  rewrite (rn_is_d i N); eexists; split; [reflexivity|]; intros s Hs Hr.
  pose proof (push64_wf s (rflags s) Hs) as Hs1.
  pose proof (push64_wf _ (gpr (push64 s (rflags s)) 15) Hs1) as Hs2.
  destruct (clear_and_store_body d Hd DR_REG_R15 (GPR32_TO_GPR8 (gpr32 i)) 15 i 1 8 OPSZ_1 OPSZ_8
              eq_refl (rn_d_b i N) eq_refl eq_refl eq_refl ltac:(lia) ltac:(discriminate) _ Hs2)
    as (t' & f' & Hsc & Hu & _).
  assert (E1 : rsp (push64 s (rflags s)) = rsp s - 8) by (apply push64_rsp; [assumption|lia]).
  eapply (scalar_mask 2); [exact Hs| |].
  - pose proof (scalar_push DR_REG_R15 15 0 [15] _ _ t' f' eq_refl ltac:(discriminate) Hs1 ltac:(lia) ltac:(lia) Hsc) as H1.
    exact (scalar_pushf 1 [] _ s t' f' Hs ltac:(lia) ltac:(lia) ltac:(intros []) H1).
  - cbn [view g_gpr] in Hu; rewrite !push64_gpr in Hu by (assumption || discriminate); exact Hu.
Qed.
End GprSource.

(** GPR to mask.  [kmovq] is right for every register.  [kmovb], [kmovw] and
    [kmovd] are right except when the source is their own scratch register
    (r15, eax, eax), which they clear before reading it: the mask is then
    zero.  [kmovw] and [kmovd] also change the flags. *)
Theorem kmov_gpr_to_mask opc i d :
  0 <= i < 16 -> 0 <= d < 8 ->
  rewrites (fun g => set_k g d (g_gpr g i)) (rw_func_kmovq (kmov_instr opc (kreg d) (gpr64 i))) /\
  rewrites_but_flags (fun g => set_k g d (if i =? 0 then 0 else wrap 32 (g_gpr g i)))
    (rw_func_kmovd (kmov_instr opc (kreg d) (gpr32 i))) /\
  rewrites_but_flags (fun g => set_k g d (if i =? 0 then 0 else wrap 16 (g_gpr g i)))
    (rw_func_kmovw (kmov_instr opc (kreg d) (gpr32 i))) /\
  (i <> rsp_idx ->
   rewrites_stack 2 (fun g => set_k g d (if i =? 15 then 0 else wrap 8 (g_gpr g i)))
     (rw_func_kmovb (kmov_instr opc (kreg d) (gpr32 i)))).
Proof.
  intros; split; [|split; [|split]];
    auto using kmovq_gpr_to_mask, kmovd_gpr_to_mask, kmovw_gpr_to_mask, kmovb_gpr_to_mask.
Qed.

Lemma kmov_gpr_to_mask_witness :
  rewrites_but_flags (fun g => set_k g 3 0) (rw_func_kmovw (kmov_instr 472 (kreg 3) DR_REG_EAX)).
Proof. apply (kmov_gpr_to_mask 472 0 3); lia. Defined.

(** ** Mask to mask *)

Lemma tls_bracket2 pf r1 j1 off1 r2 j2 off2 body d v :
  gpr_reg r1 = Some (8%nat, j1, 0) -> gpr_reg r2 = Some (8%nat, j2, 0) -> j1 <> rsp_idx -> j2 <> rsp_idx ->
  In off1 scratch_slots -> In off2 scratch_slots -> off1 <> off2 -> Proper (guest_eq ==> eq) v ->
  k_body pf scratch_slots [j1; j2] body d v ->
  k_body pf [] []
    (SAVE_TO_TLS r1 off1 :: (SAVE_TO_TLS r2 off2 :: body ++ [RESTORE_FROM_TLS r2 off2]) ++ [RESTORE_FROM_TLS r1 off1]) d v.
Proof.
  intros H1 H2 Hj1 Hj2 Ho1 Ho2 Hne Hv Hb.
  assert (Hs : incl [off1] scratch_slots) by (intros x [<-|[]]; assumption).
  assert (Hno : ~ In off2 [off1]) by (intros [E|[]]; congruence).
  pose proof (k_body_tls pf r2 j2 off2 scratch_slots [off1] _ _ d v H2 Hj2 Ho2 (incl_refl _) Hs Hno Hv Hb) as Hb2.
  pose proof (k_body_tls pf r1 j1 off1 [off1] [] _ _ d v H1 Hj1 (or_introl eq_refl) Hs (incl_nil_l _)
                (fun H => H) Hv Hb2) as Hb1.
  now rewrite remove_two in Hb1.
Qed.

Section KmovbMask.
Context (a d : Z) (Ha : 0 <= a < 8) (Hd : 0 <= d < 8) (r1 r1b r2 : reg_id_t) (j1 j2 : Z) (m n : nat) (szf sz : opnd_size).
Context (H1 : gpr_reg r1b = Some (n, j1, 0)) (H2 : gpr_reg r2 = Some (m, j2, 0)) (Hj : j1 <> j2).
Context (Hj1 : j1 <> rsp_idx) (Hj2 : j2 <> rsp_idx).
Context (Hm : m = 8%nat) (Hszf : opsz_bytes szf = m) (Hn : (n <= 8)%nat) (Hsz : opsz_bytes sz = n).

(** The destination is cleared before the source is read. *)
Lemma clear_and_copy_body :
  k_body false scratch_slots [j1; j2]
    [INSTR_CREATE_xor (opnd_create_reg r2) (opnd_create_reg r2); SAVE_TO_SIZED_TLS r2 (TLS_K_idx_SLOT d) szf;
     RESTORE_FROM_SIZED_TLS r1b (TLS_K_idx_SLOT a) sz; SAVE_TO_SIZED_TLS r1b (TLS_K_idx_SLOT d) sz] d
    (fun g => if a =? d then 0 else wrap (bits_of n) (g_k g a)).
Proof.
  rewrite !TLS_K_idx_SLOT_eq by assumption; apply k_body_intro; [cbn; intuition congruence|].
  intros s Hs; eexists; split; [run_body; reflexivity|].
  split; [reflexivity|split; [reflexivity|split; [keep_gprs|]]]; read_regs; rewrite lxor_self_wrap, Hm.
  split; [|split; [intros off Ho; now rewrite !keep_scratch by (assumption || lia)|discriminate]].
  assert (Hw : 0 <= bits_of n) by (unfold bits_of; lia).
  assert (Hwf : wf_memory (store 8 (tls s) (32 + 8 * d) 0)) by (apply store_wf, Hs).
  rewrite (load_k n _ a Hn Hwf); set (t1 := store 8 (tls s) (32 + 8 * d) 0) in *.
  assert (E : wrap (bits_of n) (tls_k t1 a) = if a =? d then 0 else wrap (bits_of n) (g_k (view s) a)).
  { destruct (k_update_full (tls s) d 0 Hd) as (_ & K); [apply Hs|lia|].
    unfold t1; rewrite (K a Ha); destruct (a =? d); [|reflexivity].
    apply Z.mod_0_l, Z.pow_nonzero; lia. }
  rewrite wrap_wrap, <- E by assumption; rewrite <- (wrap_wrap (bits_of n) (tls_k t1 a)) at 2 by assumption.
  apply k_update_clear; auto; apply Hs.
Qed.
End KmovbMask.

#[local] Instance mask_value_proper (a d w : Z) (Ha : 0 <= a < 8) :
  Proper (guest_eq ==> eq) (fun g => if a =? d then 0 else wrap w (g_k g a)).
Proof. intros g h (_ & H & _); destruct (a =? d); [reflexivity|]; now rewrite H. Qed.

#[local] Instance keep_value_proper (n : nat) (a d : Z) (Ha : 0 <= a < 8) (Hd : 0 <= d < 8) :
  Proper (guest_eq ==> eq) (fun g => mask_keep n (g_k g d) (g_k g a)).
Proof. intros g h (_ & H & _); now rewrite !H. Qed.

Section MaskSource.
Context (opc a d : Z) (Ha : 0 <= a < 8) (Hd : 0 <= d < 8).

Lemma kmovq_mask_to_mask :
  rewrites (fun g => set_k g d (mask_keep 8 (g_k g d) (g_k g a))) (rw_func_kmovq (kmov_instr opc (kreg d) (kreg a))).
Proof.
  kmov_start rw_func_kmovq flag_mask_mask.
  apply (k_body_rewrites_flags _ d (fun g => mask_keep 8 (g_k g d) (g_k g a))).
  pose proof (copy_body a d Ha Hd DR_REG_RAX DR_REG_RAX 0 8 8 OPSZ_8 OPSZ_8 eq_refl eq_refl ltac:(discriminate)
                eq_refl eq_refl ltac:(lia) ltac:(lia)) as Hb.
  exact (rax_tls_bracket true _ d _ (keep_value_proper 8 a d Ha Hd) Hb).
Qed.

Lemma kmovw_mask_to_mask :
  rewrites (fun g => set_k g d (mask_keep 2 (g_k g d) (g_k g a))) (rw_func_kmovw (kmov_instr opc (kreg d) (kreg a))).
Proof.
  kmov_start rw_func_kmovw flag_mask_mask.
  apply (k_body_rewrites_flags _ d (fun g => mask_keep 2 (g_k g d) (g_k g a))).
  pose proof (copy_body a d Ha Hd DR_REG_RAX (GPR64_TO_GPR16 DR_REG_RAX) 0 2 8 OPSZ_2 OPSZ_8 eq_refl eq_refl
                ltac:(discriminate) eq_refl eq_refl ltac:(lia) ltac:(lia)) as Hb.
  exact (rax_tls_bracket true _ d _ (keep_value_proper 2 a d Ha Hd) Hb).
Qed.

Lemma kmovb_mask_to_mask :
  rewrites_stack 1 (fun g => set_k g d (if a =? d then 0 else wrap 8 (g_k g a)))
    (rw_func_kmovb (kmov_instr opc (kreg d) (kreg a))).
Proof.
  kmov_start rw_func_kmovb flag_mask_mask; eexists; split; [reflexivity|].
  pose proof (clear_and_copy_body a d Ha Hd (GPR64_TO_GPR8 DR_REG_R11) DR_REG_R12 11 12 8 1 OPSZ_8 OPSZ_1
                eq_refl eq_refl ltac:(discriminate) ltac:(discriminate) ltac:(discriminate)
                eq_refl eq_refl ltac:(lia) eq_refl) as Hb.
  pose proof (tls_bracket2 false DR_REG_R11 11 TLS_REG1_SLOT DR_REG_R12 12 TLS_REG2_SLOT _ d _ eq_refl eq_refl
                ltac:(discriminate) ltac:(discriminate) ltac:(cbn; auto) ltac:(cbn; auto) ltac:(discriminate)
                (mask_value_proper a d 8 Ha) Hb) as Hb2.
  refine (k_body_pushf false _ d _ _ Hb2); intros s x _; reflexivity.
Qed.

Lemma kmovd_mask_to_mask code s :
  rw_code (rw_func_kmovd (kmov_instr opc (kreg d) (kreg a))) = Some code -> run code s = None.
Proof.
  kmov_start rw_func_kmovd flag_mask_mask; intros E; injection E as <-.
  change (SAVE_TO_TLS DR_REG_RAX) with (fun off => SAVE_TO_SIZED_TLS DR_REG_RAX off OPSZ_8).
  change (SAVE_TO_TLS DR_REG_RCX) with (fun off => SAVE_TO_SIZED_TLS DR_REG_RCX off OPSZ_8).
  assert (H0 : gpr_reg DR_REG_RAX = Some (8%nat, 0, 0)) by reflexivity.
  assert (H1 : gpr_reg DR_REG_RCX = Some (8%nat, 1, 0)) by reflexivity.
  change TLS_REG1_SLOT with 8; change TLS_REG2_SLOT with 16; cbv beta.
  rewrite !TLS_K_idx_SLOT_eq by assumption; do 4 (first [erewrite run_st by (eassumption || reflexivity || lia)
    | erewrite run_xor_reg by eassumption]).
  reflexivity.
Qed.
End MaskSource.

(** Mask to mask.  [kmovq] copies the register; [kmovw] copies its low 16 bits
    and keeps the others of the destination; [kmovb] copies the low byte unless
    source and destination are the same register, which it clears; the code
    for [kmovd] does not run (a 64-bit register with a 32-bit operand). *)
Theorem kmov_mask_to_mask opc a d :
  0 <= a < 8 -> 0 <= d < 8 ->
  rewrites (fun g => set_k g d (mask_keep 8 (g_k g d) (g_k g a))) (rw_func_kmovq (kmov_instr opc (kreg d) (kreg a))) /\
  rewrites (fun g => set_k g d (mask_keep 2 (g_k g d) (g_k g a))) (rw_func_kmovw (kmov_instr opc (kreg d) (kreg a))) /\
  rewrites_stack 1 (fun g => set_k g d (if a =? d then 0 else wrap 8 (g_k g a)))
    (rw_func_kmovb (kmov_instr opc (kreg d) (kreg a))) /\
  (forall code s, rw_code (rw_func_kmovd (kmov_instr opc (kreg d) (kreg a))) = Some code -> run code s = None).
Proof.
  intros Ha Hd; split; [|split; [|split]];
    eauto using kmovq_mask_to_mask, kmovw_mask_to_mask, kmovb_mask_to_mask, kmovd_mask_to_mask.
Qed.

Lemma kmov_mask_to_mask_witness :
  rewrites (fun g => set_k g 2 (mask_keep 8 (g_k g 2) (g_k g 5))) (rw_func_kmovq (kmov_instr 474 (kreg 2) (kreg 5))).
Proof. apply (kmov_mask_to_mask 474 5 2); lia. Defined.

(** ** Mask to GPR *)

(** A state that differs from another in one register. *)
Lemma view_put s n i v :
  0 <= i < 16 -> view (put s n i v) ==g set_gpr (view s) i (merge_gpr n 0 (gpr s i) v).
Proof. intros Hi; repeat split. Qed.

Lemma merge_full n old v : (4 <= n)%nat -> 0 <= v < 2 ^ bits_of n -> merge_gpr n 0 old v = v.
Proof.
  intros Hn Hv; unfold merge_gpr; rewrite (proj2 (Nat.leb_le _ _)) by assumption; now apply wrap_id.
Qed.

Lemma tls_k_range s n k : wf_mach s -> 0 <= wrap (bits_of n) (tls_k (tls s) k) < 2 ^ bits_of n.
Proof. intros; apply wrap_range; unfold bits_of; lia. Qed.

Section MaskToGpr.
Context (opc i a : Z) (Hi : 0 <= i < 16) (Ha : 0 <= a < 8).
Let N := reg_names_all i Hi.

Lemma load_mask_translates n r sz :
  gpr_reg r = Some (n, i, 0) -> opsz_bytes sz = n -> (4 <= n <= 8)%nat ->
  translates (fun g => set_gpr g i (wrap (bits_of n) (g_k g a))) [RESTORE_FROM_SIZED_TLS r (TLS_K_idx_SLOT a) sz].
Proof.
  intros Hr Hsz Hn; rewrite TLS_K_idx_SLOT_eq by assumption; apply translates_intro; intros s Hs.
  eexists; split; [run_body; reflexivity|].
  rewrite load_k by (lia || apply Hs); rewrite view_put, merge_full by (lia || now apply tls_k_range); reflexivity.
Qed.

Lemma kmovq_mask_to_gpr :
  rewrites (fun g => set_gpr g i (wrap 64 (g_k g a))) (rw_func_kmovq (kmov_instr opc (gpr64 i) (kreg a))).
Proof.
  pose proof (rn_q_not_k i N) as Hk; kmov_start rw_func_kmovq flag_mask_gpr; eexists; split; [reflexivity|].
  apply (load_mask_translates 8 (gpr64 i) OPSZ_8); [apply (rn_q i N)|reflexivity|lia].
Qed.

Lemma kmovd_mask_to_gpr :
  rewrites (fun g => set_gpr g i (wrap 32 (g_k g a))) (rw_func_kmovd (kmov_instr opc (gpr32 i) (kreg a))).
Proof.
  pose proof (rn_d_not_k i N) as Hk; kmov_start rw_func_kmovd flag_mask_gpr; eexists; split; [reflexivity|].
  apply (load_mask_translates 4 (gpr32 i) OPSZ_4); [apply (rn_d i N)|reflexivity|lia].
Qed.

(** The 16-bit load keeps the rest of the destination; the zero-extension that
    follows is always of [eax]. *)
Lemma kmovw_mask_to_gpr :
  rewrites (fun g => let g1 := set_gpr g i (merge_gpr 2 0 (g_gpr g i) (g_k g a)) in
                     set_gpr g1 0 (wrap 16 (g_gpr g1 0)))
    (rw_func_kmovw (kmov_instr opc (gpr32 i) (kreg a))).
Proof.
  pose proof (rn_d_not_k i N) as Hk; kmov_start rw_func_kmovw flag_mask_gpr; eexists; split; [reflexivity|].
  rewrite (rn_is_d i N), TLS_K_idx_SLOT_eq by assumption; apply translates_intro; intros s Hs.
  eexists; split.
  { rewrite (run_ld s _ _ 2 i (rn_d_w i N)) by (reflexivity || lia).
    rewrite (run_movzx _ _ DR_REG_EAX 4 0 eq_refl DR_REG_AX 2 0 eq_refl) by lia; reflexivity. }
  set (s1 := put s 2 i _).
  assert (E : view s1 ==g set_gpr (view s) i (merge_gpr 2 0 (gpr s i) (tls_k (tls s) a))).
  { unfold s1; rewrite view_put by assumption; rewrite load_k by (lia || apply Hs); unfold merge_gpr; cbn [Nat.leb].
    rewrite wrap_wrap by (unfold bits_of; lia); reflexivity. }
  assert (Hw : 0 <= wrap 16 (gpr s1 0) < 2 ^ bits_of 4).
  { pose proof (wrap_range 16 (gpr s1 0) ltac:(lia)) as H.
    change (2 ^ bits_of 4) with (2 ^ 32); pose proof (Z.pow_le_mono_r 2 16 32 ltac:(lia) ltac:(lia)); lia. }
  rewrite view_put, merge_full by (lia || exact Hw); cbv zeta.
  assert (E0 : gpr s1 0 = g_gpr (set_gpr (view s) i (merge_gpr 2 0 (gpr s i) (tls_k (tls s) a))) 0)
    by (apply E; lia).
  destruct E as (E1 & E2 & E3 & E4 & E5).
  split; [exact E1|split; [exact E2|split; [|split; [exact E4|exact E5]]]].
  intros j Hj; cbn [set_gpr g_gpr]; destruct (j =? 0); [change (bits_of 2) with 16; now rewrite E0|now apply E3].
Qed.

(** [pushf; xor r, r; mov r8, slot; popf] *)
Lemma clear_and_load n r r8 m :
  gpr_reg r = Some (n, i, 0) -> gpr_reg r8 = Some (m, i, 0) -> m = 1%nat -> (4 <= n)%nat -> i <> rsp_idx ->
  translates_stack 1 (fun g => set_gpr g i (wrap 8 (g_k g a)))
    [INSTR_CREATE_pushf; INSTR_CREATE_xor (opnd_create_reg r) (opnd_create_reg r);
     RESTORE_FROM_SIZED_TLS r8 (TLS_K_idx_SLOT a) OPSZ_1; INSTR_CREATE_popf].
Proof.
  intros Hr Hr8 Hm Hn Hsp s Hs Hroom; rewrite TLS_K_idx_SLOT_eq by assumption.
  set (s0 := push64 s (rflags s)); pose proof (push64_wf s (rflags s) Hs) as Hs0; fold s0 in Hs0.
  pose (z := Z.lxor (wrap (bits_of n) (gpr s0 i)) (wrap (bits_of n) (gpr s0 i))).
  pose (s1 := with_rflags (put s0 n i z) (logic_fl Z.lxor (bits_of n) (wrap (bits_of n) (gpr s0 i))
                (wrap (bits_of n) (gpr s0 i)) (rflags s0))).
  pose (s2 := put s1 m i (load m (tls s) (32 + 8 * a))).
  assert (R : run [INSTR_CREATE_pushf; INSTR_CREATE_xor (opnd_create_reg r) (opnd_create_reg r);
     RESTORE_FROM_SIZED_TLS r8 (32 + 8 * a) OPSZ_1; INSTR_CREATE_popf] s
     = Some (with_rflags (drop64 s2) (top64 s2))).
  { cbn [run]; change (exec INSTR_CREATE_pushf s) with (Some s0); cbn [obind].
    change (run [INSTR_CREATE_xor (opnd_create_reg r) (opnd_create_reg r);
      RESTORE_FROM_SIZED_TLS r8 (32 + 8 * a) OPSZ_1; INSTR_CREATE_popf] s0 = Some (with_rflags (drop64 s2) (top64 s2))).
    erewrite run_xor_reg by eassumption.
    erewrite run_ld by (eassumption || (rewrite Hm; reflexivity) || lia); reflexivity. }
  assert (Hrsp : rsp s2 = rsp s0).
  { unfold rsp, s2, s1; rewrite gpr_put_other, gpr_rflags, gpr_put_other by auto; reflexivity. }
  assert (Hg : gpr s2 i = wrap 8 (tls_k (tls s) a)).
  { unfold s2; rewrite Hm, load_k by (lia || apply Hs); cbn [gpr put with_gpr]; rewrite Z.eqb_refl.
    unfold s1; cbn [gpr with_rflags put with_gpr]; rewrite Z.eqb_refl; unfold z; rewrite Z.lxor_nilpotent.
    unfold merge_gpr; rewrite (proj2 (Nat.leb_le 4 n)) by lia; cbn [Nat.leb].
    replace (wrap (bits_of n) 0) with 0 by (symmetry; apply Z.mod_0_l, Z.pow_nonzero; unfold bits_of; lia).
    change (bits_of 1) with 8; rewrite wrap_wrap, Z.pow_0_r, Z.div_1_r by lia.
    change (wrap 8 0) with 0; lia. }
  eexists; split; [exact R|split; [exact (run_wf _ _ _ Hs R)|]].
  split; [reflexivity|split; [reflexivity|split; [|split]]].
  - intros j Hj; cbn [view g_gpr set_gpr with_rflags gpr drop64 with_gpr].
    destruct (Z.eqb_spec j rsp_idx) as [->|Hjr].
    + rewrite (proj2 (Z.eqb_neq _ _)) by auto.
      exact (drop64_rsp s s2 (rflags s) Hs ltac:(lia) Hrsp).
    + destruct (Z.eqb_spec j i) as [->|Hji]; [exact Hg|].
      unfold s2, s1; rewrite gpr_put_other, gpr_rflags, gpr_put_other by auto; now apply push64_gpr.
  - apply (framed_top s (rflags s) s2 0 Hs ltac:(lia) (proj1 (proj2 (proj2 Hs))) ltac:(lia) Hrsp); reflexivity.
  - intros x Hx; apply (framed_mem s (rflags s) s2 0 Hs ltac:(lia) ltac:(lia)); [reflexivity|].
    unfold g_rsp, set_gpr in Hx; cbn [g_gpr] in Hx; rewrite (proj2 (Z.eqb_neq _ _)) in Hx by auto; exact Hx.
Qed.

Lemma kmovb_mask_to_gpr :
  i <> rsp_idx ->
  rewrites_stack 1 (fun g => set_gpr g i (wrap 8 (g_k g a))) (rw_func_kmovb (kmov_instr opc (gpr32 i) (kreg a))) /\
  rewrites_stack 1 (fun g => set_gpr g i (wrap 8 (g_k g a))) (rw_func_kmovb (kmov_instr opc (gpr64 i) (kreg a))).
Proof.
  intros Hsp; split.
  - pose proof (rn_d_not_k i N) as Hk; kmov_start rw_func_kmovb flag_mask_gpr.
    rewrite (rn_d_not_q i N), (rn_is_d i N); eexists; split; [reflexivity|].
    apply (clear_and_load 4 (gpr32 i) _ 1 (rn_d i N) (rn_d_b i N)); auto; lia.
  - pose proof (rn_q_not_k i N) as Hk; kmov_start rw_func_kmovb flag_mask_gpr.
    rewrite (rn_is_q i N); eexists; split; [reflexivity|].
    apply (clear_and_load 8 (gpr64 i) _ 1 (rn_q i N) (rn_q_b i N)); auto; lia.
Qed.
End MaskToGpr.

(** Mask to GPR.  [kmovq], [kmovd] and [kmovb] load the zero-extended mask into
    any register ([kmovb]: any but the stack pointer).  [kmovw] does so for
    [eax] only: with another destination it keeps that register's upper bits
    and truncates [eax] to 16 bits. *)
Theorem kmov_mask_to_gpr opc i a :
  0 <= i < 16 -> 0 <= a < 8 ->
  rewrites (fun g => set_gpr g i (wrap 64 (g_k g a))) (rw_func_kmovq (kmov_instr opc (gpr64 i) (kreg a))) /\
  rewrites (fun g => set_gpr g i (wrap 32 (g_k g a))) (rw_func_kmovd (kmov_instr opc (gpr32 i) (kreg a))) /\
  rewrites (fun g => let g1 := set_gpr g i (merge_gpr 2 0 (g_gpr g i) (g_k g a)) in
                     set_gpr g1 0 (wrap 16 (g_gpr g1 0)))
    (rw_func_kmovw (kmov_instr opc (gpr32 i) (kreg a))) /\
  (i <> rsp_idx ->
   rewrites_stack 1 (fun g => set_gpr g i (wrap 8 (g_k g a))) (rw_func_kmovb (kmov_instr opc (gpr32 i) (kreg a))) /\
   rewrites_stack 1 (fun g => set_gpr g i (wrap 8 (g_k g a))) (rw_func_kmovb (kmov_instr opc (gpr64 i) (kreg a)))).
Proof.
  intros Hi Ha; split; [now apply kmovq_mask_to_gpr|split; [now apply kmovd_mask_to_gpr|]].
  split; [now apply kmovw_mask_to_gpr|]; intros; now apply kmovb_mask_to_gpr.
Qed.

Lemma kmov_mask_to_gpr_witness :
  rewrites (fun g => set_gpr g 3 (wrap 32 (g_k g 1))) (rw_func_kmovd (kmov_instr 475 DR_REG_EBX (kreg 1))).
Proof. apply (kmov_mask_to_gpr 475 3 1); lia. Defined.

(** ** kunpck *)

Lemma land_wrap_l w x m : 0 <= w -> 0 <= m < 2 ^ w -> Z.land (wrap w x) m = Z.land x m.
Proof.
  intros Hw Hm; apply Z.bits_inj'; intros i Hi; rewrite !Z.land_spec, wrap_testbit by assumption.
  destruct (Z.ltb_spec i w); [reflexivity|].
  rewrite <- (wrap_id w m) by assumption; rewrite wrap_testbit by lia.
  replace (i <? w) with false by (symmetry; apply Z.ltb_ge; lia); cbn [andb]; now rewrite ?andb_false_r.
Qed.

(** Two fields side by side. *)
Lemma lor_fields w x y : 0 <= w -> Z.lor (wrap w x) (y * 2 ^ w) = wrap w x + 2 ^ w * y.
Proof.
  intros Hw.
  assert (H0 : Z.land (wrap w x) (y * 2 ^ w) = 0).
  { rewrite <- Z.shiftl_mul_pow2 by assumption; apply Z.bits_inj'; intros i Hi.
    rewrite Z.land_spec, wrap_testbit, Z.shiftl_spec, Z.bits_0 by assumption.
    destruct (Z.ltb_spec i w); [|reflexivity].
    rewrite (Z.testbit_neg_r y) by lia; now rewrite andb_false_r. }
  rewrite <- Z.lxor_lor, <- Z.add_nocarry_lxor by assumption; lia.
Qed.

Lemma unpack_value w x y :
  0 < w -> 2 * w <= 64 ->
  wrap 64 (Z.lor (wrap 64 (Z.land (wrap 64 y) (2 ^ w - 1)))
                 (wrap 64 (Z.land (wrap 64 (wrap 64 x * 2 ^ w)) ((2 ^ w - 1) * 2 ^ w))))
  = wrap w y + 2 ^ w * wrap w x.
Proof.
  intros Hw Hw2; rewrite (low_op (f := Z.lor)) by lia.
  assert (Hp : 0 < 2 ^ w) by (apply Z.pow_pos_nonneg; lia).
  assert (H64 : 2 ^ w * 2 ^ w <= 2 ^ 64) by (rewrite <- Z.pow_add_r by lia; apply Z.pow_le_mono_r; lia).
  assert (Hb1 : 2 ^ w <= 2 ^ 64) by nia.
  assert (Hb2 : 0 <= (2 ^ w - 1) * 2 ^ w < 2 ^ 64) by nia.
  rewrite (land_wrap_l 64 y), (land_ones_wrap w y) by lia.
  rewrite (land_wrap_l 64 (wrap 64 x * 2 ^ w)) by lia.
  rewrite <- !(Z.shiftl_mul_pow2 _ w), <- Z.shiftl_land by lia.
  rewrite (land_wrap_l 64 x), (land_ones_wrap w x) by lia.
  rewrite Z.shiftl_mul_pow2, lor_fields by lia; apply wrap_id.
  pose proof (wrap_range w x ltac:(lia)); pose proof (wrap_range w y ltac:(lia)); nia.
Qed.

(** [d := SRC1 : SRC2], each [w] bits wide, zero above. *)
Definition mask_unpack (w d a b : Z) (g : guest) : guest :=
  set_k g d (wrap w (g_k g b) + 2 ^ w * wrap w (g_k g a)).

#[local] Instance unpack_proper (w a b : Z) (Ha : 0 <= a < 8) (Hb : 0 <= b < 8) :
  Proper (guest_eq ==> eq) (fun g => wrap w (g_k g b) + 2 ^ w * wrap w (g_k g a)).
Proof. intros g h (_ & H & _); now rewrite !H. Qed.

Section Unpack.
Context (a b d w : Z) (Ha : 0 <= a < 8) (Hb : 0 <= b < 8) (Hd : 0 <= d < 8) (Hw : 0 < w) (Hw2 : 2 * w <= 64).
Context (n : nat) (r1 r2 r3 : reg_id_t) (sz : opnd_size) (Hn : n = 8%nat) (Hsz : opsz_bytes sz = n).
Context (H1 : gpr_reg r1 = Some (n, 0, 0)) (H2 : gpr_reg r2 = Some (n, 1, 0)) (H3 : gpr_reg r3 = Some (n, 2, 0)).

Lemma unpack_range s : wf_mach s -> 0 <= wrap w (tls_k (tls s) b) + 2 ^ w * wrap w (tls_k (tls s) a) < 2 ^ 64.
Proof.
  intros _; assert (H64 : 2 ^ w * 2 ^ w <= 2 ^ 64) by (rewrite <- Z.pow_add_r by lia; apply Z.pow_le_mono_r; lia).
  pose proof (wrap_range w (tls_k (tls s) a) ltac:(lia)); pose proof (wrap_range w (tls_k (tls s) b) ltac:(lia)); nia.
Qed.

(** The shift count is below the register width. *)
Lemma shift_count c : c = w -> wrap (if (n =? 8)%nat then 6 else 5) c = w.
Proof. intros ->; rewrite Hn; cbn [Nat.eqb]; apply wrap_id; change (2 ^ 6) with 64; lia. Qed.

(** One instruction at a time, forgetting the flags and reading registers as
    soon as they are used. *)
Ltac sym_step :=
  first [ erewrite run_ld by (eassumption || reflexivity || lia)
        | erewrite run_st by (eassumption || reflexivity || lia)
        | erewrite run_mov_imm by (eassumption || reflexivity)
        | erewrite run_and_reg by eassumption | erewrite run_or_reg by eassumption
        | erewrite run_and_imm by (eassumption || (cbn; lia))
        | erewrite run_shl by (eassumption || (rewrite shift_count by reflexivity; lia)) ];
  try match goal with |- context [with_rflags _ ?f] => generalize f; intros ? end;
  read_regs.

Ltac unpack_start :=
  rewrite !TLS_K_idx_SLOT_eq by assumption; apply k_body_intro; [cbn; unfold rsp_idx; lia|];
  intros s Hs; repeat sym_step; eexists; split; [reflexivity|];
  split; [reflexivity|split; [reflexivity|split; [keep_gprs|]]];
  read_regs; rewrite ?shift_count by reflexivity;
  split; [|split; [intros off Ho; now rewrite keep_scratch by (assumption || lia)|discriminate]].

Lemma kunpckbw_body isz :
  (opsz_bytes isz <= 4)%nat -> imm_value n ((2 ^ w - 1) * 2 ^ w) isz = (2 ^ w - 1) * 2 ^ w ->
  imm_value n (2 ^ w - 1) isz = 2 ^ w - 1 ->
  k_body false scratch_slots [0; 1]
    [RESTORE_FROM_SIZED_TLS r1 (TLS_K_idx_SLOT a) sz; RESTORE_FROM_SIZED_TLS r2 (TLS_K_idx_SLOT b) sz;
     INSTR_CREATE_shl (opnd_create_reg r1) (OPND_CREATE_INT8 w);
     INSTR_CREATE_and (opnd_create_reg r1) (OPND_IMM ((2 ^ w - 1) * 2 ^ w) isz);
     INSTR_CREATE_and (opnd_create_reg r2) (OPND_IMM (2 ^ w - 1) isz);
     INSTR_CREATE_or (opnd_create_reg r2) (opnd_create_reg r1);
     SAVE_TO_SIZED_TLS r2 (TLS_K_idx_SLOT d) sz] d
    (fun g => wrap w (g_k g b) + 2 ^ w * wrap w (g_k g a)).
Proof.
  intros Hi Hm2 Hm1; unfold OPND_CREATE_INT8; unpack_start.
  rewrite Hm1, Hm2, Hn; change (bits_of 8) with 64; rewrite unpack_value by assumption.
  apply k_update_full; [assumption|apply Hs|now apply unpack_range].
Qed.

Lemma kunpckwd_body isz :
  imm_value n ((2 ^ w - 1) * 2 ^ w) isz = (2 ^ w - 1) * 2 ^ w -> imm_value n (2 ^ w - 1) isz = 2 ^ w - 1 ->
  k_body false scratch_slots [0; 1; 2]
    [RESTORE_FROM_SIZED_TLS r1 (TLS_K_idx_SLOT a) sz; RESTORE_FROM_SIZED_TLS r2 (TLS_K_idx_SLOT b) sz;
     INSTR_CREATE_shl (opnd_create_reg r1) (OPND_CREATE_INT8 w);
     INSTR_CREATE_mov_imm (opnd_create_reg r3) (OPND_IMM ((2 ^ w - 1) * 2 ^ w) isz);
     INSTR_CREATE_and (opnd_create_reg r1) (opnd_create_reg r3);
     INSTR_CREATE_mov_imm (opnd_create_reg r3) (OPND_IMM (2 ^ w - 1) isz);
     INSTR_CREATE_and (opnd_create_reg r2) (opnd_create_reg r3);
     INSTR_CREATE_or (opnd_create_reg r2) (opnd_create_reg r1);
     SAVE_TO_SIZED_TLS r2 (TLS_K_idx_SLOT d) sz] d
    (fun g => wrap w (g_k g b) + 2 ^ w * wrap w (g_k g a)).
Proof.
  intros Hm2 Hm1; unfold OPND_CREATE_INT8; unpack_start.
  assert (H64 : 2 ^ w * 2 ^ w <= 2 ^ 64) by (rewrite <- Z.pow_add_r by lia; apply Z.pow_le_mono_r; lia).
  assert (Hp : 0 < 2 ^ w) by (apply Z.pow_pos_nonneg; lia).
  rewrite Hm1, Hm2, Hn; change (bits_of 8) with 64.
  rewrite (wrap_id 64 (2 ^ w - 1)), (wrap_id 64 ((2 ^ w - 1) * 2 ^ w)) by nia.
  rewrite unpack_value by assumption.
  apply k_update_full; [assumption|apply Hs|now apply unpack_range].
Qed.
End Unpack.

Lemma kunpckbw_correct opc a b d :
  0 <= a < 8 -> 0 <= b < 8 -> 0 <= d < 8 ->
  rewrites_but_flags (mask_unpack 8 d a b) (rw_func_kunpckbw (mask_instr3 opc d a b)).
Proof.
  intros Ha Hb Hd; unfold rw_func_kunpckbw.
  cbn [instr_srcs instr_dsts instr_get_src instr_get_dst nth mask_instr3 opnd_get_reg opnd_create_reg].
  rewrite !TO_K_REG_INDEX_kreg; apply (k_body_rewrites _ d (fun g => wrap 8 (g_k g b) + 2 ^ 8 * wrap 8 (g_k g a))).
  pose proof (kunpckbw_body a b d 8 Ha Hb Hd ltac:(lia) ltac:(lia) 8 DR_REG_RAX DR_REG_RCX OPSZ_8 eq_refl eq_refl
                eq_refl eq_refl OPSZ_4 ltac:(cbn; lia) eq_refl eq_refl) as Hbody.
  exact (tls_bracket2 false DR_REG_RAX 0 TLS_REG1_SLOT DR_REG_RCX 1 TLS_REG3_SLOT _ d _ eq_refl eq_refl
           ltac:(discriminate) ltac:(discriminate) ltac:(cbn; auto) ltac:(cbn; auto) ltac:(discriminate)
           (unpack_proper 8 a b Ha Hb) Hbody).
Qed.

Lemma kunpckwd_correct opc a b d :
  0 <= a < 8 -> 0 <= b < 8 -> 0 <= d < 8 ->
  rewrites_but_flags (mask_unpack 16 d a b) (rw_func_kunpckwd (mask_instr3 opc d a b)).
Proof.
  intros Ha Hb Hd; unfold rw_func_kunpckwd.
  cbn [instr_srcs instr_dsts instr_get_src instr_get_dst nth mask_instr3 opnd_get_reg opnd_create_reg].
  rewrite !TO_K_REG_INDEX_kreg; apply (k_body_rewrites _ d (fun g => wrap 16 (g_k g b) + 2 ^ 16 * wrap 16 (g_k g a))).
  pose proof (unpack_proper 16 a b Ha Hb) as Hv.
  pose proof (kunpckwd_body a b d 16 Ha Hb Hd ltac:(lia) ltac:(lia) 8 DR_REG_RAX DR_REG_RCX DR_REG_RDX OPSZ_8
                eq_refl eq_refl eq_refl eq_refl eq_refl OPSZ_8 eq_refl eq_refl) as B0.
  pose proof (k_body_tls false DR_REG_RDX 2 16 scratch_slots [8; 24] _ _ d _ eq_refl ltac:(discriminate)
                ltac:(cbn; auto) (incl_refl _) ltac:(intros x Hx; cbn in *; lia) ltac:(cbn; lia) Hv B0) as B1.
  pose proof (k_body_tls false DR_REG_RCX 1 24 [8; 24] [8] _ _ d _ eq_refl ltac:(discriminate)
                ltac:(cbn; auto) ltac:(intros x Hx; cbn in *; lia) ltac:(intros x Hx; cbn in *; lia) ltac:(cbn; lia) Hv B1) as B2.
  exact (k_body_tls false DR_REG_RAX 0 8 [8] [] _ _ d _ eq_refl ltac:(discriminate)
           ltac:(cbn; auto) ltac:(intros x Hx; cbn in *; lia) ltac:(intros x []) (fun H => H) Hv B2).
Qed.

(** [kunpckbw] and [kunpckwd] concatenate the low halves of their sources for
    every choice of registers, the destination among the sources included;
    they also change the flags. *)
Theorem kunpck_correct opc a b d :
  0 <= a < 8 -> 0 <= b < 8 -> 0 <= d < 8 ->
  rewrites_but_flags (mask_unpack 8 d a b) (rw_func_kunpckbw (mask_instr3 opc d a b)) /\
  rewrites_but_flags (mask_unpack 16 d a b) (rw_func_kunpckwd (mask_instr3 opc d a b)).
Proof. intros; split; auto using kunpckbw_correct, kunpckwd_correct. Qed.

Lemma kunpck_correct_witness :
  rewrites_but_flags (mask_unpack 8 1 1 2) (rw_func_kunpckbw (mask_instr3 484 1 1 2)).
Proof. apply (kunpck_correct 484 1 2 1); lia. Defined.

Definition flags_after (r : rw_result) (s : mach) : option Z :=
  match r with
  | mk_rw_result true (Some code) => option_map rflags (run code s)
  | _ => None
  end.

(** The flags after [kmovw] from a GPR and after [kunpckbw], run from one state
    with only the reserved bit set: ZF and PF, and PF, are set afterwards, so
    these rewrites do not preserve the flags. *)
Theorem kmov_kunpck_clobber_flags :
  rflags probe = 2 /\
  flags_after (rw_func_kmovw (kmov_instr 472 (kreg 1) (gpr32 1))) probe = Some 70 /\
  flags_after (rw_func_kunpckbw (mask_instr3 484 1 1 2)) probe = Some 6.
Proof. split; [reflexivity|split; vm_compute; reflexivity]. Qed.
