(* ===== verification/KArith.v ===== *)
(** * kxor and kadd

    The eight functions share one text up to the operation, the register and the
    memory operand.  The second source is an operand with no base register
    whose displacement is the TLS offset of the mask: an absolute address in
    application memory, not the TLS slot. *)
From Stdlib Require Import ZArith List Bool Lia.
From S2P Require Import Prelude Regs Bytes Lanes Machine Arch512 SymExec ScalarExec MaskSpec KLogic.
Import ListNotations.
#[local] Open Scope Z_scope.
#[local] Open Scope bool_scope.
#[local] Open Scope rw_scope.

(** ** The functions *)

Definition kmem_gen (INSTR_CREATE_op : opnd_t -> opnd_t -> instr_t) (spill_gpr : reg_id_t) (sz : opnd_size)
    (OPND_CREATE_MEM : reg_id_t -> Z -> opnd_t) (instr : instr_t) : rw_result :=
  let src_opnd1 := instr_get_src instr 0 in
  let src_opnd2 := instr_get_src instr 1 in
  let dst_opnd := instr_get_dst instr 0 in
  let src_reg1 := opnd_get_reg src_opnd1 in
  let src_reg2 := opnd_get_reg src_opnd2 in
  let dst_reg := opnd_get_reg dst_opnd in
  let src1_k_idx := TO_K_REG_INDEX src_reg1 in
  let src2_k_idx := TO_K_REG_INDEX src_reg2 in
  let dst_k_idx := TO_K_REG_INDEX dst_reg in
  let spill_gpr64_opnd := opnd_create_reg DR_REG_RAX in
  let spill_gpr_opnd := opnd_create_reg spill_gpr in
  let i1 := INSTR_CREATE_pushf in
  let i2 := INSTR_CREATE_push spill_gpr64_opnd in
  let i3 := RESTORE_FROM_SIZED_TLS spill_gpr (TLS_K_idx_SLOT src1_k_idx) sz in
  let i4 := INSTR_CREATE_op spill_gpr_opnd (OPND_CREATE_MEM DR_REG_NULL (TLS_K_idx_SLOT src2_k_idx)) in
  let i5 := SAVE_TO_SIZED_TLS spill_gpr (TLS_K_idx_SLOT dst_k_idx) sz in
  let i6 := INSTR_CREATE_pop spill_gpr64_opnd in
  let i7 := INSTR_CREATE_popf in
  rw_replace [i1; i2; i3; i4; i5; i6; i7].

Definition rw_func_kxorw := kmem_gen INSTR_CREATE_xor DR_REG_AX OPSZ_2 OPND_CREATE_MEM16.
Definition rw_func_kxorb := kmem_gen INSTR_CREATE_xor DR_REG_AL OPSZ_1 OPND_CREATE_MEM8.
Definition rw_func_kxorq := kmem_gen INSTR_CREATE_xor DR_REG_RAX OPSZ_8 OPND_CREATE_MEM64.
Definition rw_func_kxord := kmem_gen INSTR_CREATE_xor DR_REG_EAX OPSZ_4 OPND_CREATE_MEM32.
Definition rw_func_kaddw := kmem_gen INSTR_CREATE_add DR_REG_AX OPSZ_2 OPND_CREATE_MEM16.
Definition rw_func_kaddb := kmem_gen INSTR_CREATE_add DR_REG_AL OPSZ_1 OPND_CREATE_MEM8.
Definition rw_func_kaddq := kmem_gen INSTR_CREATE_add DR_REG_RAX OPSZ_8 OPND_CREATE_MEM64.
Definition rw_func_kaddd := kmem_gen INSTR_CREATE_add DR_REG_EAX OPSZ_4 OPND_CREATE_MEM32.

(** ** What the code computes *)

(** The second operand read from absolute address [32 + 8 * b]. *)
Definition mask_mem_op (n : nat) (f : Z -> Z -> Z) (d a b : Z) (g : guest) : guest :=
  set_k g d (mask_keep n (g_k g d) (f (g_k g a) (load n (g_mem g) (32 + 8 * b)))).

(** With the stack above the addresses that are read, the code does that. *)
Definition rewrites_mem (spec : guest -> guest) (r : rw_result) : Prop :=
  exists code, r = rw_replace code /\ forall s, wf_mach s -> 112 <= rsp s ->
    exists s', run code s = Some s' /\ wf_mach s' /\ stack_eq 2 (view s') (spec (view s)).

Lemma read_src_abs s n sz b :
  0 <= b < 8 -> opsz_bytes sz = n ->
  read_src s n (opnd_create_base_disp DR_REG_NULL DR_REG_NULL 0 (32 + 8 * b) sz) = Some (load n (mem s) (32 + 8 * b)).
Proof.
  intros Hb Hsz; unfold read_src, opnd_create_base_disp; rewrite Hsz, Nat.eqb_refl; unfold mem_addr.
  change (DR_REG_NULL =? DR_REG_NULL) with true; cbn [obind].
  replace (is_int32 (32 + 8 * b)) with true by (unfold is_int32; symmetry; apply andb_true_iff;
    rewrite Z.leb_le, Z.ltb_lt; change (2 ^ 31) with 2147483648; lia).
  rewrite !Z.add_0_l, wrap_id; [reflexivity|]; pose proof (Z.pow_le_mono_r 2 7 64 ltac:(lia) ltac:(lia)); change (2 ^ 7) with 128 in *; lia.
Qed.

Section Body.
Context (f : Z -> Z -> Z) (fl : Z -> Z -> Z -> Z -> Z) (op : opcode) (Hf : LowOp f).
Context (Hop : forall d src x s0, exec (mk_instr op [d] [src; x]) s0 = exec_alu f fl d src s0).
Context (opc a b d : Z) (Ha : 0 <= a < 8) (Hb : 0 <= b < 8) (Hd : 0 <= d < 8).
Context (n : nat) (r : reg_id_t) (sz : opnd_size) (Hr : gpr_reg r = Some (n, 0, 0)) (Hsz : opsz_bytes sz = n) (Hn : (n <= 8)%nat).

Definition mem_store (t m : memory) : memory :=
  store n t (32 + 8 * d) (wrap (bits_of n) (f (load n t (32 + 8 * a)) (load n m (32 + 8 * b)))).

Lemma mem_body s :
  wf_mach s ->
  exists f', scalar 0 [0]
    [RESTORE_FROM_SIZED_TLS r (TLS_K_idx_SLOT a) sz;
     instr_create_1dst_2src op (opnd_create_reg r)
       (opnd_create_base_disp DR_REG_NULL DR_REG_NULL 0 (TLS_K_idx_SLOT b) sz) (opnd_create_reg r);
     SAVE_TO_SIZED_TLS r (TLS_K_idx_SLOT d) sz] s (mem_store (tls s) (mem s)) f'.
Proof.
  intros Hs; rewrite !TLS_K_idx_SLOT_eq by assumption.
  assert (Hw : 0 <= bits_of n) by (unfold bits_of; lia).
  assert (Hl : forall t x, wf_memory t -> 0 <= load n t x < 2 ^ bits_of n).
  { intros t x Ht; unfold bits_of; rewrite (Z.pow_mul_r 2 8) by lia; now apply load_range. }
  eexists; eexists; split.
  { erewrite run_ld by (eassumption || lia).
    erewrite (run_alu _ _ r n 0 Hr f fl op Hop) by (apply read_src_abs; assumption).
    erewrite run_st by (eassumption || lia); reflexivity. }
  split; [reflexivity|split; [|split; [reflexivity|split; [|split]]]].
  - read_regs; unfold mem_store; cbn [mem put with_gpr]; f_equal.
    rewrite (wrap_id (bits_of n) (load n (tls s) (32 + 8 * a))) by (apply Hl, Hs); reflexivity.
  - unfold rsp; read_regs; rewrite !gpr_put_other by discriminate; reflexivity.
  - keep_gprs.
  - reflexivity.
Qed.

Lemma kmem_correct :
  rewrites_mem (mask_mem_op n f d a b)
    (kmem_gen (fun x y => instr_create_1dst_2src op x y x) r sz (fun base disp => opnd_create_base_disp base DR_REG_NULL 0 disp sz)
       (mask_instr3 opc d a b)).
Proof.
  unfold kmem_gen; cbn [instr_srcs instr_dsts instr_get_src instr_get_dst nth mask_instr3 opnd_get_reg opnd_create_reg].
  rewrite !TO_K_REG_INDEX_kreg; eexists; split; [reflexivity|]; intros s Hs Hsp.
  pose proof (push64_wf s (rflags s) Hs) as Hs1.
  pose proof (push64_wf _ (gpr (push64 s (rflags s)) 0) Hs1) as Hs2.
  assert (E1 : rsp (push64 s (rflags s)) = rsp s - 8) by (apply push64_rsp; [assumption|lia]).
  destruct (mem_body _ Hs2) as (f' & Hb').
  pose proof (scalar_push DR_REG_RAX 0 0 [0] _ _ _ f' eq_refl ltac:(discriminate) Hs1 ltac:(lia) ltac:(lia) Hb') as Hb1.
  pose proof (scalar_pushf 1 [] _ s _ f' Hs ltac:(lia) ltac:(lia) ltac:(intros []) Hb1) as Hb2.
  refine (scalar_mask 2 _ s _ d _ Hs Hb2 _).
  assert (E2 : load n (mem (push64 (push64 s (rflags s)) (gpr (push64 s (rflags s)) 0))) (32 + 8 * b)
             = load n (mem s) (32 + 8 * b)).
  { set (s1 := push64 s (rflags s)) in *.
    assert (M2 : mem (push64 s1 (gpr s1 0)) = store 8 (mem s1) (rsp (push64 s1 (gpr s1 0))) (gpr s1 0)) by reflexivity.
    assert (M1 : mem s1 = store 8 (mem s) (rsp s1) (rflags s)) by reflexivity.
    rewrite M2, push64_rsp, E1, load_store_disjoint, M1, E1, load_store_disjoint by (assumption || lia); reflexivity. }
  unfold mem_store; rewrite E2; cbn [tls push64].
  assert (Hw : 0 <= bits_of n) by (unfold bits_of; lia).
  set (X := load n (mem s) (32 + 8 * b)).
  assert (E3 : wrap (bits_of n) (f (load n (tls s) (32 + 8 * a)) X) = wrap (bits_of n) (f (tls_k (tls s) a) X)).
  { rewrite load_k by (assumption || apply Hs).
    rewrite <- (Hf _ (wrap _ _) X), wrap_wrap by assumption; now apply Hf. }
  pose proof (k_update_store n (tls s) d (wrap (bits_of n) (f (tls_k (tls s) a) X)) Hn Hd ltac:(apply Hs)) as H.
  unfold mask_keep in H; rewrite wrap_wrap in H by assumption; rewrite E3; exact H.
Qed.
End Body.

(** The code for [kxor] and [kadd] combines the first mask with the bytes of
    application memory at the absolute address [32 + 8 * b] and never reads
    mask register [b]. *)
Theorem kxor_kadd_read_memory opc a b d :
  0 <= a < 8 -> 0 <= b < 8 -> 0 <= d < 8 ->
  rewrites_mem (mask_mem_op 1 Z.lxor d a b) (rw_func_kxorb (mask_instr3 opc d a b)) /\
  rewrites_mem (mask_mem_op 2 Z.lxor d a b) (rw_func_kxorw (mask_instr3 opc d a b)) /\
  rewrites_mem (mask_mem_op 4 Z.lxor d a b) (rw_func_kxord (mask_instr3 opc d a b)) /\
  rewrites_mem (mask_mem_op 8 Z.lxor d a b) (rw_func_kxorq (mask_instr3 opc d a b)) /\
  rewrites_mem (mask_mem_op 1 Z.add d a b) (rw_func_kaddb (mask_instr3 opc d a b)) /\
  rewrites_mem (mask_mem_op 2 Z.add d a b) (rw_func_kaddw (mask_instr3 opc d a b)) /\
  rewrites_mem (mask_mem_op 4 Z.add d a b) (rw_func_kaddd (mask_instr3 opc d a b)) /\
  rewrites_mem (mask_mem_op 8 Z.add d a b) (rw_func_kaddq (mask_instr3 opc d a b)).
Proof.
  intros; repeat split;
    first [ apply (kmem_correct Z.lxor (logic_fl Z.lxor) OP_xor lxor_low exec_xor)
          | apply (kmem_correct Z.add add_flags OP_add add_low exec_add) ];
    reflexivity || lia.
Qed.

Lemma kxor_kadd_read_memory_witness :
  rewrites_mem (mask_mem_op 2 Z.lxor 3 1 2) (rw_func_kxorw (mask_instr3 499 3 1 2)).
Proof. apply (kxor_kadd_read_memory 499 1 2 3); lia. Defined.
