(* ===== verification/KShift.v ===== *)
(** * Mask shifts: kshiftl and kshiftr

    The functions of [rewrite.c] that shift a mask by an immediate.  They choose
    between two sequences when they run: a shift by the immediate, or the store
    of a zero when the immediate exceeds the operand size.  The 16-bit and 8-bit
    functions have one text up to the register, the size and the bound, and so
    have the 64-bit and 32-bit ones; [kshiftrb] differs from [kshiftlb]: it
    removes the original instruction and stores all eight bytes. *)
From Stdlib Require Import ZArith List Bool Lia.
From S2P Require Import Prelude Regs Bytes Lanes Machine Arch512 SymExec ScalarExec MaskSpec KLogic.
Import ListNotations.
#[local] Open Scope Z_scope.
#[local] Open Scope bool_scope.
#[local] Open Scope rw_scope.

(** ** The functions *)

Definition kshift_zx_gen (INSTR_CREATE_sh : opnd_t -> opnd_t -> instr_t) (spill_gpr : reg_id_t) (sz : opnd_size)
    (max : Z) (instr : instr_t) : rw_result :=
  let src_opnd := instr_get_src instr 0 in
  let imm_opnd := instr_get_src instr 1 in
  let dst_opnd := instr_get_dst instr 0 in
  let input_mask := opnd_get_reg src_opnd in
  let output_mask := opnd_get_reg dst_opnd in
  let input_k_idx := TO_K_REG_INDEX input_mask in
  let output_k_idx := TO_K_REG_INDEX output_mask in
  let spill_gpr64 := DR_REG_RAX in
  let spill_gpr64_opnd := opnd_create_reg spill_gpr64 in
  let spill_gpr_opnd := opnd_create_reg spill_gpr in
  let imm8 := opnd_get_immed_int imm_opnd in
  if imm8 <=? max then
    let i1 := INSTR_CREATE_pushf in
    let i2 := INSTR_CREATE_push spill_gpr64_opnd in
    let i3 := RESTORE_FROM_SIZED_TLS spill_gpr (TLS_K_idx_SLOT input_k_idx) sz in
    let i4 := INSTR_CREATE_movzx spill_gpr64_opnd spill_gpr_opnd in
    let i5 := INSTR_CREATE_sh spill_gpr64_opnd imm_opnd in
    let i6 := SAVE_TO_SIZED_TLS spill_gpr (TLS_K_idx_SLOT output_k_idx) sz in
    let i7 := INSTR_CREATE_pop spill_gpr64_opnd in
    let i8 := INSTR_CREATE_popf in
    rw_insert [i1; i2; i3; i4; i5; i6; i7; i8]
  else
    let i1 := INSTR_CREATE_pushf in
    let i2 := INSTR_CREATE_push spill_gpr64_opnd in
    let i3 := INSTR_CREATE_xor spill_gpr64_opnd spill_gpr64_opnd in
    let i4 := SAVE_TO_SIZED_TLS spill_gpr (TLS_K_idx_SLOT output_k_idx) sz in
    let i5 := INSTR_CREATE_pop spill_gpr64_opnd in
    let i6 := INSTR_CREATE_popf in
    rw_insert [i1; i2; i3; i4; i5; i6].

Definition rw_func_kshiftlw := kshift_zx_gen INSTR_CREATE_shl DR_REG_AX OPSZ_2 15.
Definition rw_func_kshiftlb := kshift_zx_gen INSTR_CREATE_shl DR_REG_AL OPSZ_1 7.
Definition rw_func_kshiftrw := kshift_zx_gen INSTR_CREATE_shr DR_REG_AX OPSZ_2 15.

(** The shift works on the register of the operand size. *)
Definition kshift_gen (INSTR_CREATE_sh : opnd_t -> opnd_t -> instr_t) (spill_gpr : reg_id_t) (sz : opnd_size)
    (max : Z) (instr : instr_t) : rw_result :=
  let src_opnd := instr_get_src instr 0 in
  let imm_opnd := instr_get_src instr 1 in
  let dst_opnd := instr_get_dst instr 0 in
  let input_mask := opnd_get_reg src_opnd in
  let output_mask := opnd_get_reg dst_opnd in
  let input_k_idx := TO_K_REG_INDEX input_mask in
  let output_k_idx := TO_K_REG_INDEX output_mask in
  let spill_gpr64 := DR_REG_RAX in
  let spill_gpr64_opnd := opnd_create_reg spill_gpr64 in
  let spill_gpr_opnd := opnd_create_reg spill_gpr in
  let imm8 := opnd_get_immed_int imm_opnd in
  if imm8 <=? max then
    let i1 := INSTR_CREATE_pushf in
    let i2 := INSTR_CREATE_push spill_gpr64_opnd in
    let i3 := RESTORE_FROM_SIZED_TLS spill_gpr (TLS_K_idx_SLOT input_k_idx) sz in
    let i4 := INSTR_CREATE_sh spill_gpr_opnd imm_opnd in
    let i5 := SAVE_TO_SIZED_TLS spill_gpr (TLS_K_idx_SLOT output_k_idx) sz in
    let i6 := INSTR_CREATE_pop spill_gpr64_opnd in
    let i7 := INSTR_CREATE_popf in
    rw_insert [i1; i2; i3; i4; i5; i6; i7]
  else
    let i1 := INSTR_CREATE_pushf in
    let i2 := INSTR_CREATE_push spill_gpr64_opnd in
    let i3 := INSTR_CREATE_xor spill_gpr64_opnd spill_gpr64_opnd in
    let i4 := SAVE_TO_SIZED_TLS spill_gpr (TLS_K_idx_SLOT output_k_idx) sz in
    let i5 := INSTR_CREATE_pop spill_gpr64_opnd in
    let i6 := INSTR_CREATE_popf in
    rw_insert [i1; i2; i3; i4; i5; i6].

Definition rw_func_kshiftlq := kshift_gen INSTR_CREATE_shl DR_REG_RAX OPSZ_8 63.
Definition rw_func_kshiftld := kshift_gen INSTR_CREATE_shl DR_REG_EAX OPSZ_4 31.
Definition rw_func_kshiftrq := kshift_gen INSTR_CREATE_shr DR_REG_RAX OPSZ_8 63.
Definition rw_func_kshiftrd := kshift_gen INSTR_CREATE_shr DR_REG_EAX OPSZ_4 31.

Definition rw_func_kshiftrb (instr : instr_t) : rw_result :=
  let src_opnd := instr_get_src instr 0 in
  let imm_opnd := instr_get_src instr 1 in
  let dst_opnd := instr_get_dst instr 0 in
  let input_mask := opnd_get_reg src_opnd in
  let output_mask := opnd_get_reg dst_opnd in
  let input_k_idx := TO_K_REG_INDEX input_mask in
  let output_k_idx := TO_K_REG_INDEX output_mask in
  let spill_gpr64 := DR_REG_RAX in
  let spill_gpr8 := DR_REG_AL in
  let spill_gpr64_opnd := opnd_create_reg spill_gpr64 in
  let spill_gpr8_opnd := opnd_create_reg spill_gpr8 in
  let imm8 := opnd_get_immed_int imm_opnd in
  if imm8 <=? 7 then
    let i1 := INSTR_CREATE_pushf in
    let i2 := INSTR_CREATE_push spill_gpr64_opnd in
    let i3 := RESTORE_FROM_SIZED_TLS spill_gpr8 (TLS_K_idx_SLOT input_k_idx) OPSZ_1 in
    let i4 := INSTR_CREATE_movzx spill_gpr64_opnd spill_gpr8_opnd in
    let i5 := INSTR_CREATE_shr spill_gpr64_opnd imm_opnd in
    let i6 := SAVE_TO_SIZED_TLS spill_gpr64 (TLS_K_idx_SLOT output_k_idx) OPSZ_8 in
    let i7 := INSTR_CREATE_pop spill_gpr64_opnd in
    let i8 := INSTR_CREATE_popf in
    rw_replace [i1; i2; i3; i4; i5; i6; i7; i8]
  else
    let i1 := INSTR_CREATE_pushf in
    let i2 := INSTR_CREATE_push spill_gpr64_opnd in
    let i3 := INSTR_CREATE_xor spill_gpr64_opnd spill_gpr64_opnd in
    let i4 := SAVE_TO_SIZED_TLS spill_gpr64 (TLS_K_idx_SLOT output_k_idx) OPSZ_8 in
    let i5 := INSTR_CREATE_pop spill_gpr64_opnd in
    let i6 := INSTR_CREATE_popf in
    rw_replace [i1; i2; i3; i4; i5; i6].

(** A mask shift as DynamoRIO decodes it: the immediate is a signed byte. *)
Definition mask_shift_instr (opc d a v : Z) : instr_t :=
  mk_instr (OP_avx512 opc) [opnd_create_reg (kreg d)] [opnd_create_reg (kreg a); OPND_IMM v OPSZ_1].

(** ** Specifications *)

(** The documented result, for a count of eight bits. *)
Definition kshl (n : nat) (count x : Z) : Z :=
  if count <? bits_of n then Z.shiftl (wrap (bits_of n) x) count else 0.
Definition kshr (n : nat) (count x : Z) : Z :=
  if count <? bits_of n then Z.shiftr (wrap (bits_of n) x) count else 0.

(** ** Shift instructions *)

(** What is known of the state after one instruction of the body: a value in
    register [i] of [m] bytes, everything else but the flags unchanged. *)
Definition sets_reg (s s1 : mach) (m : nat) (i v : Z) : Prop :=
  simd s1 = simd s /\ tls s1 = tls s /\ mem s1 = mem s /\
  (forall j, j <> i -> gpr s1 j = gpr s j) /\ wrap (bits_of m) (gpr s1 i) = wrap (bits_of m) v.

(** A shift instruction: [sh x c] is [x] shifted by [c]. *)
Class ShiftOp (mk : opnd_t -> opnd_t -> instr_t) (sh : Z -> Z -> Z) : Prop := {
  shift_zero : forall x, sh x 0 = x;
  shift_step : forall s k r m i c sz,
    gpr_reg r = Some (m, i, 0) ->
    exists s1, run (mk (opnd_create_reg r) (OPND_IMM c sz) :: k) s = run k s1 /\
      sets_reg s s1 m i (sh (wrap (bits_of m) (gpr s i)) (wrap (if (m =? 8)%nat then 6 else 5) c)) }.

Lemma sets_reg_put s m i v f : sets_reg s (with_rflags (put s m i v) f) m i v.
Proof.
  repeat split; [|rewrite gpr_rflags; apply read_put].
  intros j Hj; rewrite gpr_rflags; now apply gpr_put_other.
Qed.

Lemma sets_reg_same s m i : sets_reg s s m i (wrap (bits_of m) (gpr s i)).
Proof. repeat split; rewrite wrap_wrap; [reflexivity|unfold bits_of; lia]. Qed.

Lemma count_nonneg (m : nat) c : 0 <= wrap (if (m =? 8)%nat then 6 else 5) c.
Proof. apply wrap_range; destruct (m =? 8)%nat; lia. Qed.

#[export] Instance shl_shift : ShiftOp INSTR_CREATE_shl (fun x c => x * 2 ^ c).
Proof.
  split; [intros; now rewrite Z.mul_1_r|]; intros s k r m i c sz Hr.
  pose proof (count_nonneg m c) as Hc; destruct (Z.eq_dec (wrap (if (m =? 8)%nat then 6 else 5) c) 0) as [E|Hne].
  - exists s; split; [|rewrite E, Z.mul_1_r; apply sets_reg_same].
    cbn [run]; change (exec _ s) with (exec_shl r c s); unfold exec_shl; reg_facts Hr; cbn [obind]; cbv zeta.
    now rewrite E.
  - eexists; split; [apply (run_shl s k r m i Hr); lia|apply sets_reg_put].
Qed.

#[export] Instance shr_shift : ShiftOp INSTR_CREATE_shr (fun x c => x / 2 ^ c).
Proof.
  split; [intros; apply Z.div_1_r|]; intros s k r m i c sz Hr.
  destruct (Z.eq_dec (wrap (if (m =? 8)%nat then 6 else 5) c) 0) as [E|Hne]; cbn [run].
  - exists s; split; [|rewrite E, Z.div_1_r; apply sets_reg_same].
    change (exec _ s) with (exec_shr r c s); unfold exec_shr; reg_facts Hr; cbn [obind]; cbv zeta; now rewrite E.
  - eexists; split; [|apply sets_reg_put].
    change (exec _ s) with (exec_shr r c s); unfold exec_shr; reg_facts Hr; cbn [obind]; cbv zeta.
    rewrite (proj2 (Z.eqb_neq _ 0)) by assumption; now reg_facts Hr.
Qed.

(** ** Bodies *)

Section Bodies.
Context (mk : opnd_t -> opnd_t -> instr_t) (sh : Z -> Z -> Z) {Hsh : ShiftOp mk sh}.
Context (n m : nat) (r rm : reg_id_t) (sz szm : opnd_size).
Context (Hr : gpr_reg r = Some (n, 0, 0)) (Hrm : gpr_reg rm = Some (m, 0, 0)).
Context (Hsz : opsz_bytes sz = n) (Hszm : opsz_bytes szm = m).
Context (a d c : Z) (csz : opnd_size) (Ha : 0 <= a < 8) (Hd : 0 <= d < 8).

Definition shift_store (t : memory) : memory :=
  store m t (32 + 8 * d)
    (wrap (bits_of m) (sh (wrap (bits_of n) (load n t (32 + 8 * a))) (wrap (if (n =? 8)%nat then 6 else 5) c))).

(** Load, shift and store at one size. *)
Lemma kshift_body :
  m = n ->
  body_ok [0]
    [RESTORE_FROM_SIZED_TLS r (TLS_K_idx_SLOT a) sz; mk (opnd_create_reg r) (OPND_IMM c csz);
     SAVE_TO_SIZED_TLS rm (TLS_K_idx_SLOT d) szm] shift_store.
Proof.
  intros Hmn; rewrite !TLS_K_idx_SLOT_eq by assumption.
  apply body_intro; [unfold rsp_idx; cbn; lia|]; intros s Hs.
  erewrite run_ld by (eassumption || lia).
  destruct (shift_step (put s n 0 (load n (tls s) (32 + 8 * a)))
              [SAVE_TO_SIZED_TLS rm (32 + 8 * d) szm] r n 0 c csz Hr) as (s1 & R & Es & Et & Em & Eg & Ev).
  rewrite R; erewrite run_st by (eassumption || lia); eexists; split; [reflexivity|].
  split; [exact Es|split; [exact Em|split]].
  - rewrite tls_tls, Et, tls_put; unfold shift_store; rewrite Hmn, Ev, read_put; reflexivity.
  - intros j Hj; rewrite gpr_tls, Eg, gpr_put_other by (intros ->; apply Hj; now left); reflexivity.
Qed.

End Bodies.

Definition zero_store (m : nat) (d : Z) (t : memory) : memory := store m t (32 + 8 * d) 0.

(** The store of a zero. *)
Lemma kclear_body m rm szm d :
  gpr_reg rm = Some (m, 0, 0) -> opsz_bytes szm = m -> 0 <= d < 8 ->
  body_ok [0]
    [INSTR_CREATE_xor (opnd_create_reg DR_REG_RAX) (opnd_create_reg DR_REG_RAX);
     SAVE_TO_SIZED_TLS rm (TLS_K_idx_SLOT d) szm] (zero_store m d).
Proof.
  intros Hrm Hszm Hd.
  assert (Hq : gpr_reg DR_REG_RAX = Some (8%nat, 0, 0)) by reflexivity.
  body_start; unfold zero_store; f_equal; rewrite Z.lxor_nilpotent.
  cbn [gpr put with_gpr with_rflags]; rewrite Z.eqb_refl; unfold merge_gpr; cbn [Nat.leb].
  unfold wrap; rewrite !Z.mod_0_l by (apply Z.pow_nonzero; unfold bits_of; lia); reflexivity.
Qed.
Section ZxBodies.
Context (mk : opnd_t -> opnd_t -> instr_t) (sh : Z -> Z -> Z) {Hsh : ShiftOp mk sh}.
Context (n m : nat) (r rm : reg_id_t) (sz szm : opnd_size).
Context (Hr : gpr_reg r = Some (n, 0, 0)) (Hrm : gpr_reg rm = Some (m, 0, 0)).
Context (Hsz : opsz_bytes sz = n) (Hszm : opsz_bytes szm = m) (Hn : (n < 8)%nat) (Hm : (m <= 8)%nat).
Context (a d c : Z) (csz : opnd_size) (Ha : 0 <= a < 8) (Hd : 0 <= d < 8).

Definition shift_zx_store (t : memory) : memory :=
  store m t (32 + 8 * d) (wrap (bits_of m) (sh (wrap (bits_of n) (load n t (32 + 8 * a))) (wrap 6 c))).

(** Load, zero-extension to 64 bits, shift, store. *)
Lemma kshift_zx_body :
  body_ok [0]
    [RESTORE_FROM_SIZED_TLS r (TLS_K_idx_SLOT a) sz;
     INSTR_CREATE_movzx (opnd_create_reg DR_REG_RAX) (opnd_create_reg r);
     mk (opnd_create_reg DR_REG_RAX) (OPND_IMM c csz);
     SAVE_TO_SIZED_TLS rm (TLS_K_idx_SLOT d) szm] shift_zx_store.
Proof.
  assert (Hq : gpr_reg DR_REG_RAX = Some (8%nat, 0, 0)) by reflexivity.
  assert (Hbn : 0 <= bits_of n <= 64) by (unfold bits_of; lia).
  assert (Hbm : 0 <= bits_of m <= 64) by (unfold bits_of; lia).
  rewrite !TLS_K_idx_SLOT_eq by assumption.
  apply body_intro; [unfold rsp_idx; cbn; lia|]; intros s Hs.
  erewrite run_ld by (eassumption || lia); erewrite run_movzx by (eassumption || lia).
  edestruct (shift_step (put (put s n 0 (load n (tls s) (32 + 8 * a))) 8 0
               (wrap (bits_of n) (gpr (put s n 0 (load n (tls s) (32 + 8 * a))) 0)))
              [SAVE_TO_SIZED_TLS rm (32 + 8 * d) szm] DR_REG_RAX 8 0 c csz Hq) as (s1 & R & Es & Et & Em & Eg & Ev).
  rewrite R; erewrite run_st by (eassumption || lia); eexists; split; [reflexivity|].
  split; [exact Es|split; [exact Em|split]].
  - rewrite tls_tls, Et, !tls_put; unfold shift_zx_store; f_equal.
    rewrite <- (wrap_wrap_le (bits_of m) 64 (gpr s1 0)) by lia; change 64 with (bits_of 8) at 1; rewrite Ev.
    rewrite !read_put; change (bits_of 8) with 64; cbn [Nat.eqb].
    rewrite wrap_wrap_le by lia; f_equal; f_equal; apply wrap_id.
    pose proof (wrap_range (bits_of n) (load n (tls s) (32 + 8 * a)) ltac:(lia)).
    pose proof (Z.pow_le_mono_r 2 (bits_of n) 64 ltac:(lia) ltac:(lia)); lia.
  - intros j Hj; rewrite gpr_tls, Eg, !gpr_put_other by (intros ->; apply Hj; now left); reflexivity.
Qed.
End ZxBodies.

(** ** From bodies to instructions *)

Section Translates.
Context (a d : Z) (Hd : 0 <= d < 8).

Lemma kbracket_translates (F : memory -> memory) (v : guest -> Z) body code :
  body_ok [0] body F -> (forall s, wf_mach s -> k_update (tls s) (F (tls s)) d (v (view s))) ->
  code = INSTR_CREATE_pushf :: (INSTR_CREATE_push (opnd_create_reg DR_REG_RAX) :: body
           ++ [INSTR_CREATE_pop (opnd_create_reg DR_REG_RAX)]) ++ [INSTR_CREATE_popf] ->
  translates_stack 2 (fun g => set_k g d (v g)) code.
Proof.
  intros Hb Hu ->; apply (mask_translates 2 _ _ F d v); [|exact Hu|reflexivity].
  intros s Hs Hsp; now apply (bracket_fr DR_REG_RAX 0).
Qed.

Lemma kstore_translates n (F : memory -> memory) (f : Z -> Z) body code :
  (n <= 8)%nat -> body_ok [0] body F ->
  (forall t, wf_memory t -> F t = store n t (32 + 8 * d) (wrap (bits_of n) (f (tls_k t a)))) ->
  code = INSTR_CREATE_pushf :: (INSTR_CREATE_push (opnd_create_reg DR_REG_RAX) :: body
           ++ [INSTR_CREATE_pop (opnd_create_reg DR_REG_RAX)]) ++ [INSTR_CREATE_popf] ->
  translates_stack 2 (mask_unop_keep n f d a) code.
Proof.
  intros Hn Hb HF; apply (kbracket_translates F (fun g => mask_keep n (g_k g d) (f (g_k g a)))); [exact Hb|].
  intros s Hs; rewrite HF by apply Hs.
  pose proof (k_update_store n (tls s) d (wrap (bits_of n) (f (tls_k (tls s) a))) Hn Hd ltac:(apply Hs)) as H.
  unfold mask_keep in *; now rewrite wrap_wrap in H by (unfold bits_of; lia).
Qed.
End Translates.

(** ** The sequences on every immediate

    [hw w max sh n v x]: what the code computes from mask [x] and immediate
    [v]; [w] is the number of bits of the count that the shift instruction
    uses. *)
Definition hw (w max : Z) (sh : Z -> Z -> Z) (n : nat) (v x : Z) : Z :=
  if v <=? max then sh (wrap (bits_of n) x) (wrap w v) else 0.

Section Gen.
Context (mk : opnd_t -> opnd_t -> instr_t) (sh : Z -> Z -> Z) {Hsh : ShiftOp mk sh}.
Context (opc a d v max : Z) (Ha : 0 <= a < 8) (Hd : 0 <= d < 8).

Ltac shift_operands :=
  cbn [instr_srcs instr_dsts instr_get_src instr_get_dst nth mask_shift_instr opnd_get_reg opnd_create_reg
       opnd_get_immed_int];
  rewrite !TO_K_REG_INDEX_kreg.

Lemma zero_value n t f : (forall x, f x = 0) -> 
  zero_store n d t = store n t (32 + 8 * d) (wrap (bits_of n) (f (tls_k t a))).
Proof. intros ->; unfold zero_store, wrap; now rewrite Z.mod_0_l by (apply Z.pow_nonzero; unfold bits_of; lia). Qed.

Lemma kshift_zx_correct n r sz :
  gpr_reg r = Some (n, 0, 0) -> opsz_bytes sz = n -> (n < 8)%nat ->
  inserts_stack 2 (mask_unop_keep n (hw 6 max sh n v) d a) (kshift_zx_gen mk r sz max (mask_shift_instr opc d a v)).
Proof.
  intros Hr Hsz Hn; unfold kshift_zx_gen; shift_operands; unfold hw.
  destruct (v <=? max); (eexists; split; [reflexivity|]).
  - eapply kstore_translates; [exact Hd|lia|apply (kshift_zx_body mk sh n n r r sz sz) with (a := a) (d := d) (c := v) (csz := OPSZ_1); assumption || lia| |reflexivity].
    intros t Ht; unfold shift_zx_store; rewrite load_k, wrap_wrap by (assumption || (unfold bits_of; lia)); reflexivity.
  - eapply kstore_translates; [exact Hd|lia|apply (kclear_body n r sz) with (d := d); assumption| |reflexivity].
    intros t Ht; now apply (zero_value n t (fun _ => 0)).
Qed.

Lemma kshift_gen_correct n r sz :
  gpr_reg r = Some (n, 0, 0) -> opsz_bytes sz = n -> (n <= 8)%nat ->
  inserts_stack 2 (mask_unop_keep n (hw (if (n =? 8)%nat then 6 else 5) max sh n v) d a)
    (kshift_gen mk r sz max (mask_shift_instr opc d a v)).
Proof.
  intros Hr Hsz Hn; unfold kshift_gen; shift_operands; unfold hw.
  destruct (v <=? max); (eexists; split; [reflexivity|]).
  - eapply kstore_translates; [exact Hd|lia|apply (kshift_body mk sh n n r r sz sz) with (a := a) (d := d) (c := v) (csz := OPSZ_1); assumption || reflexivity| |reflexivity].
    intros t Ht; unfold shift_store; rewrite load_k, wrap_wrap by (assumption || (unfold bits_of; lia)); reflexivity.
  - eapply kstore_translates; [exact Hd|lia|apply (kclear_body n r sz) with (d := d); assumption| |reflexivity].
    intros t Ht; now apply (zero_value n t (fun _ => 0)).
Qed.

Lemma kshiftrb_correct :
  rewrites_stack 2 (fun g => set_k g d (hw 6 7 (fun x c => x / 2 ^ c) 1 v (g_k g a)))
    (rw_func_kshiftrb (mask_shift_instr opc d a v)).
Proof.
  assert (Hq : gpr_reg DR_REG_RAX = Some (8%nat, 0, 0)) by reflexivity.
  assert (Hl : gpr_reg DR_REG_AL = Some (1%nat, 0, 0)) by reflexivity.
  assert (Hb : forall x c, 0 <= c -> 0 <= wrap 8 x / 2 ^ c < 2 ^ 64).
  { intros x c Hc; pose proof (wrap_range 8 x ltac:(lia)); assert (0 < 2 ^ c) by (apply Z.pow_pos_nonneg; lia).
    split; [apply Z.div_pos; lia|].
    apply Z.div_lt_upper_bound; [lia|]; assert (2 ^ 8 < 2 ^ 64) by (vm_compute; reflexivity); nia. }
  unfold rw_func_kshiftrb; shift_operands; unfold hw.
  destruct (v <=? 7); (eexists; split; [reflexivity|]).
  - eapply (kbracket_translates d Hd (shift_zx_store (fun x c => x / 2 ^ c) 1 8 a d v));
      [apply (kshift_zx_body INSTR_CREATE_shr (fun x c => x / 2 ^ c) 1 8 DR_REG_AL DR_REG_RAX OPSZ_1 OPSZ_8)
         with (csz := OPSZ_1); reflexivity || assumption || lia| |reflexivity].
    intros s Hs; cbn [view g_k]; unfold shift_zx_store; rewrite load_k, wrap_wrap by (apply Hs || (cbn; lia)).
    change (bits_of 1) with 8; change (bits_of 8) with 64.
    assert (Hr : 0 <= wrap 8 (tls_k (tls s) a) / 2 ^ wrap 6 v < 2 ^ 64) by (apply Hb, (wrap_range 6 v); lia).
    rewrite wrap_id by exact Hr; apply k_update_full; [assumption|apply Hs|exact Hr].
  - eapply (kbracket_translates d Hd (zero_store 8 d) (fun _ => 0));
      [apply (kclear_body 8 DR_REG_RAX OPSZ_8); reflexivity || assumption| |reflexivity].
    intros s Hs; unfold zero_store; apply k_update_full; [exact Hd|apply Hs|lia].
Qed.
End Gen.

(** ** Correctness *)

Lemma hw_left w max n v x :
  0 <= w -> max = bits_of n - 1 -> bits_of n <= 2 ^ w -> 0 <= v -> hw w max (fun y c => y * 2 ^ c) n v x = kshl n v x.
Proof.
  intros Hw -> Hb Hv; unfold hw, kshl; destruct (Z.leb_spec v (bits_of n - 1)), (Z.ltb_spec v (bits_of n)); try lia.
  now rewrite Z.shiftl_mul_pow2, (wrap_id w v) by lia.
Qed.

Lemma hw_right w max n v x :
  0 <= w -> max = bits_of n - 1 -> bits_of n <= 2 ^ w -> 0 <= v -> hw w max (fun y c => y / 2 ^ c) n v x = kshr n v x.
Proof.
  intros Hw -> Hb Hv; unfold hw, kshr; destruct (Z.leb_spec v (bits_of n - 1)), (Z.ltb_spec v (bits_of n)); try lia.
  now rewrite Z.shiftr_div_pow2, (wrap_id w v) by lia.
Qed.

Lemma inserts_stack_ext n spec spec' r :
  (forall g, spec g = spec' g) -> inserts_stack n spec r -> inserts_stack n spec' r.
Proof. intros He (code & Hr & H); exists code; split; [exact Hr|]; intros s Hs Hsp; rewrite <- He; now apply H. Qed.

Lemma rewrites_stack_ext n spec spec' r :
  (forall g, spec g = spec' g) -> rewrites_stack n spec r -> rewrites_stack n spec' r.
Proof. intros He (code & Hr & H); exists code; split; [exact Hr|]; intros s Hs Hsp; rewrite <- He; now apply H. Qed.

Lemma mask_unop_keep_ext n f f' d a g : (forall x, f x = f' x) -> mask_unop_keep n f d a g = mask_unop_keep n f' d a g.
Proof. intros H; unfold mask_unop_keep; now rewrite H. Qed.

(** The documented effect of [kshiftrb], zero above the operand size included. *)
Lemma kshr_small v x : 0 <= v -> wrap (bits_of 1) (kshr 1 v x) = kshr 1 v x.
Proof.
  intros Hv; apply wrap_id; unfold kshr; change (bits_of 1) with 8.
  destruct (Z.ltb_spec v 8); [|lia]; rewrite Z.shiftr_div_pow2 by lia.
  pose proof (wrap_range 8 x ltac:(lia)); assert (1 <= 2 ^ v) by (pose proof (Z.pow_pos_nonneg 2 v); lia).
  split; [apply Z.div_pos; lia|apply Z.div_lt_upper_bound; nia].
Qed.

Ltac shift_case lem law :=
  eapply inserts_stack_ext; [|apply lem; reflexivity || assumption || (cbn; lia)];
  intros g; apply mask_unop_keep_ext; intros x;
  apply law; [vm_compute; congruence|reflexivity|vm_compute; congruence|lia].
Ltac shl_case lem := shift_case (lem INSTR_CREATE_shl (fun x c => x * 2 ^ c) shl_shift) hw_left.
Ltac shr_case lem := shift_case (lem INSTR_CREATE_shr (fun x c => x / 2 ^ c) shr_shift) hw_right.

(** All eight with the bits above the operand size kept. *)
Lemma kshifts_keep opc a d v :
  0 <= a < 8 -> 0 <= d < 8 -> 0 <= v <= 127 ->
  inserts_stack 2 (mask_unop_keep 1 (kshl 1 v) d a) (rw_func_kshiftlb (mask_shift_instr opc d a v)) /\
  inserts_stack 2 (mask_unop_keep 2 (kshl 2 v) d a) (rw_func_kshiftlw (mask_shift_instr opc d a v)) /\
  inserts_stack 2 (mask_unop_keep 4 (kshl 4 v) d a) (rw_func_kshiftld (mask_shift_instr opc d a v)) /\
  inserts_stack 2 (mask_unop_keep 8 (kshl 8 v) d a) (rw_func_kshiftlq (mask_shift_instr opc d a v)) /\
  rewrites_stack 2 (mask_unop 1 (kshr 1 v) d a) (rw_func_kshiftrb (mask_shift_instr opc d a v)) /\
  inserts_stack 2 (mask_unop_keep 2 (kshr 2 v) d a) (rw_func_kshiftrw (mask_shift_instr opc d a v)) /\
  inserts_stack 2 (mask_unop_keep 4 (kshr 4 v) d a) (rw_func_kshiftrd (mask_shift_instr opc d a v)) /\
  inserts_stack 2 (mask_unop_keep 8 (kshr 8 v) d a) (rw_func_kshiftrq (mask_shift_instr opc d a v)).
Proof.
  intros Ha Hd Hv; split; [shl_case @kshift_zx_correct|split; [shl_case @kshift_zx_correct|]].
  split; [shl_case @kshift_gen_correct|split; [shl_case @kshift_gen_correct|]].
  split; [|split; [shr_case @kshift_zx_correct|split; shr_case @kshift_gen_correct]].
  eapply rewrites_stack_ext; [|now apply kshiftrb_correct].
  intros g; unfold mask_unop; rewrite kshr_small by lia; f_equal.
  apply hw_right; [lia|reflexivity|vm_compute; congruence|lia].
Qed.

(** C12: [kshiftl] and [kshiftr] by an immediate of 0 to 127, counts that clear the
    mask included.  [kshiftrb] is replaced by code for the documented
    instruction.  The other functions put their code in front of the instruction
    and leave it: the code for the 64-bit forms has the documented effect; that
    for the others gives the low bits of the destination the documented result
    and keeps the bits above, which is the documented effect, where they are
    zeroed, exactly from the states where they are zero. *)
Theorem kshift_correct opc a d v :
  0 <= a < 8 -> 0 <= d < 8 -> 0 <= v <= 127 ->
  let left n g := kshl n v (g_k g a) in
  let right n g := kshr n v (g_k g a) in
  rewrites_stack 2 (mask_unop 1 (kshr 1 v) d a) (rw_func_kshiftrb (mask_shift_instr opc d a v)) /\
  (inserts_stack 2 (mask_unop 8 (kshl 8 v) d a) (rw_func_kshiftlq (mask_shift_instr opc d a v)) /\
   inserts_stack 2 (mask_unop 8 (kshr 8 v) d a) (rw_func_kshiftrq (mask_shift_instr opc d a v))) /\
  inserts_mask 2 1 d (left 1%nat) (rw_func_kshiftlb (mask_shift_instr opc d a v)) /\
  inserts_mask 2 2 d (left 2%nat) (rw_func_kshiftlw (mask_shift_instr opc d a v)) /\
  inserts_mask 2 4 d (left 4%nat) (rw_func_kshiftld (mask_shift_instr opc d a v)) /\
  inserts_mask 2 2 d (right 2%nat) (rw_func_kshiftrw (mask_shift_instr opc d a v)) /\
  inserts_mask 2 4 d (right 4%nat) (rw_func_kshiftrd (mask_shift_instr opc d a v)).
Proof.
  intros Ha Hd Hv left right; destruct (kshifts_keep opc a d v Ha Hd Hv) as (H1 & H2 & H3 & (c4 & E4 & H4) & H5 & H6 & H7 & (c8 & E8 & H8)).
  split; [exact H5|split; [split|]].
  - exists c4; split; [exact E4|now apply mask_keep_64 in H4].
  - exists c8; split; [exact E8|now apply mask_keep_64 in H8].
  - repeat split; apply inserts_mask_intro; assumption.
Qed.

Lemma kshift_correct_witness :
  inserts_mask 2 2 3 (fun g => kshl 2 9 (g_k g 1)) (rw_func_kshiftlw (mask_shift_instr 511 3 1 9)) /\
  rewrites_stack 2 (mask_unop 1 (kshr 1 100) 2 2) (rw_func_kshiftrb (mask_shift_instr 516 2 2 100)).
Proof. split; [apply (kshift_correct 511 1 3 9)|apply (kshift_correct 516 2 2 100)]; lia. Defined.

(** An immediate of 128 or more is a count that clears the mask, but it is
    decoded as a negative number, which passes the test [imm8 <= max]: the mask
    is shifted by the low bits of the count instead. *)
Theorem kshift_large_count opc a d v :
  0 <= a < 8 -> 0 <= d < 8 -> -128 <= v < 0 ->
  inserts_stack 2 (mask_unop_keep 2 (fun x => wrap 16 x * 2 ^ wrap 6 v) d a) (rw_func_kshiftlw (mask_shift_instr opc d a v)) /\
  inserts_stack 2 (mask_unop_keep 8 (fun x => wrap 64 x * 2 ^ wrap 6 v) d a) (rw_func_kshiftlq (mask_shift_instr opc d a v)) /\
  rewrites_stack 2 (fun g => set_k g d (wrap 8 (g_k g a) / 2 ^ wrap 6 v)) (rw_func_kshiftrb (mask_shift_instr opc d a v)) /\
  inserts_stack 2 (mask_unop_keep 4 (fun x => wrap 32 x / 2 ^ wrap 5 v) d a) (rw_func_kshiftrd (mask_shift_instr opc d a v)).
Proof.
  intros Ha Hd Hv.
  assert (H : forall w max sh n x, 0 <= max -> hw w max sh n v x = sh (wrap (bits_of n) x) (wrap w v)).
  { intros w max sh n x Hm; unfold hw; now rewrite (proj2 (Z.leb_le _ _)) by lia. }
  split; [|split; [|split]].
  - eapply inserts_stack_ext; [|apply (kshift_zx_correct _ _ (Hsh := shl_shift)); reflexivity || assumption || lia].
    intros g; apply mask_unop_keep_ext; intros x; now apply H.
  - eapply inserts_stack_ext; [|apply (kshift_gen_correct _ _ (Hsh := shl_shift)); reflexivity || assumption || lia].
    intros g; apply mask_unop_keep_ext; intros x; now apply H.
  - eapply rewrites_stack_ext; [|now apply kshiftrb_correct].
    intros g; cbv beta; now rewrite H by lia.
  - eapply inserts_stack_ext; [|apply (kshift_gen_correct _ _ (Hsh := shr_shift)); reflexivity || assumption || lia].
    intros g; apply mask_unop_keep_ext; intros x; now apply H.
Qed.

(** A count of 128 leaves the mask as it was; the instruction clears it. *)
Lemma kshift_large_count_witness :
  rewrites_stack 2 (fun g => set_k g 3 (wrap 8 (g_k g 1) / 2 ^ 0)) (rw_func_kshiftrb (mask_shift_instr 516 3 1 (-128))) /\
  kshr 1 128 5 = 0.
Proof. split; [apply (kshift_large_count 516 1 3 (-128)); lia|reflexivity]. Defined.
