(* ===== verification/Jumps.v ===== *)
(** * Code with labels and jumps

    The mask tests emit labels and jumps to them.  All of them go forward inside
    the emitted sequence, so execution is still structural: a jump skips to the
    next label with its number.  A jump with no label after it has no result. *)
From Stdlib Require Import ZArith List Bool Lia.
From S2P Require Import Prelude Regs Bytes Lanes Machine Arch512 SymExec ScalarExec MaskSpec.
Import ListNotations.
#[local] Open Scope Z_scope.
#[local] Open Scope bool_scope.
#[local] Open Scope rw_scope.

(** The condition of a conditional jump, by the flags. *)
Definition jcc_taken (op : opcode) (fl : Z) : option bool :=
  let zf := Z.testbit fl FLAG_ZF in
  let less := xorb (Z.testbit fl FLAG_SF) (Z.testbit fl FLAG_OF) in
  match op with
  | OP_jz => Some zf
  | OP_jnz => Some (negb zf)
  | OP_jl => Some less
  | OP_jle => Some (zf || less)
  | OP_jnle => Some (negb (zf || less))
  | _ => None
  end.

(** Where control goes after a label or a jump: on ([None]) or to a label.
    Other instructions are not control. *)
Definition branch (i : instr_t) (s : mach) : option (option Z) :=
  match instr_opcode i, instr_srcs i with
  | OP_LABEL _, _ => Some None
  | OP_jmp, [OPND_INSTR t] => Some (Some t)
  | op, [OPND_INSTR t] => let? taken := jcc_taken op (rflags s) in Some (if taken : bool then Some t else None)
  | _, _ => None
  end.

Definition is_label (t : Z) (i : instr_t) : bool :=
  match instr_opcode i with OP_LABEL u => t =? u | _ => false end.

(** [skip] is the label that is looked for. *)
Fixpoint runj (skip : option Z) (l : list instr_t) (s : mach) : option mach :=
  match l, skip with
  | [], None => Some s
  | [], Some _ => None
  | i :: rest, Some t => runj (if is_label t i then None else skip) rest s
  | i :: rest, None =>
      match branch i s with
      | Some next => runj next rest s
      | None => let? s' := exec i s in runj None rest s'
      end
  end.

(** ** Straight-line code *)

Lemma exec_no_branch i s s' : exec i s = Some s' -> branch i s = None.
Proof.
  destruct i as [op d a]; unfold branch; cbn [instr_opcode instr_srcs].
  destruct op; try reflexivity; destruct a as [|[] [|]]; try reflexivity; discriminate.
Qed.

Lemma runj_exec i k s s' : exec i s = Some s' -> runj None (i :: k) s = runj None k s'.
Proof. intros H; cbn [runj]; rewrite (exec_no_branch i s s' H), H; reflexivity. Qed.

Lemma runj_run l k s s' : run l s = Some s' -> runj None (l ++ k) s = runj None k s'.
Proof.
  revert s; induction l as [|i l IH]; intros s; cbn [run app]; [now intros [= <-]|].
  destruct (exec i s) as [s1|] eqn:E; cbn [obind]; [|discriminate].
  intros H; rewrite (runj_exec i (l ++ k) s s1 E); auto.
Qed.

(** Code without jumps runs the same way. *)
Lemma run_runj l s s' : run l s = Some s' -> runj None l s = Some s'.
Proof. intros H; rewrite <- (app_nil_r l), (runj_run l [] s s' H); reflexivity. Qed.

(** A sequence that runs to its end is a unit: what follows continues from
    there, whatever labels it has. *)
Lemma runj_app t l1 l2 s s1 : runj t l1 s = Some s1 -> runj t (l1 ++ l2) s = runj None l2 s1.
Proof.
  revert t s; induction l1 as [|i l1 IH]; intros t s; cbn [app].
  - destruct t; [discriminate|]; now intros [= <-].
  - destruct t as [t|]; cbn [runj]; [apply IH|].
    destruct (branch i s) as [next|]; [apply IH|].
    destruct (exec i s) as [s'|]; cbn [obind]; [apply IH|discriminate].
Qed.

Lemma runj_wf t l s s' : wf_mach s -> runj t l s = Some s' -> wf_mach s'.
Proof.
  revert t s; induction l as [|i l IH]; intros t s Hs; cbn [runj].
  - destruct t; [discriminate|]; now intros [= <-].
  - destruct t as [t|]; [eauto|].
    destruct (branch i s) as [next|]; [eauto|].
    destruct (exec i s) as [s1|] eqn:E; cbn [obind]; [eauto using exec_wf|discriminate].
Qed.

(** Single steps of control. *)
Lemma runj_jz t k s :
  runj None (INSTR_CREATE_jcc OP_jz (opnd_create_instr t) :: k) s
  = runj (if Z.testbit (rflags s) FLAG_ZF then Some t else None) k s.
Proof. reflexivity. Qed.

Lemma runj_jmp t k s : runj None (INSTR_CREATE_jmp (opnd_create_instr t) :: k) s = runj (Some t) k s.
Proof. reflexivity. Qed.

Lemma runj_label t k s : runj None (INSTR_CREATE_label t :: k) s = runj None k s.
Proof. reflexivity. Qed.

Lemma runj_skip t i k s : is_label t i = false -> runj (Some t) (i :: k) s = runj (Some t) k s.
Proof. intros H; cbn [runj]; now rewrite H. Qed.

Lemma runj_found t k s : runj (Some t) (INSTR_CREATE_label t :: k) s = runj None k s.
Proof.
  cbn [runj]; unfold is_label; cbn [INSTR_CREATE_label instr_create_0dst_0src instr_opcode]; now rewrite Z.eqb_refl.
Qed.

Lemma runj_clc k s : runj None (INSTR_CREATE_clc :: k) s = runj None k (with_rflags s (set_flag FLAG_CF false (rflags s))).
Proof. now apply runj_exec. Qed.

Lemma runj_stc k s : runj None (INSTR_CREATE_stc :: k) s = runj None k (with_rflags s (set_flag FLAG_CF true (rflags s))).
Proof. now apply runj_exec. Qed.

(** Run control steps; skipped instructions are compared with the label. *)
Ltac control :=
  repeat first [rewrite runj_label | rewrite runj_jmp | rewrite runj_clc | rewrite runj_stc | rewrite runj_found
               | rewrite runj_skip by reflexivity].

(** ** Framed code *)

Definition scalarj (n : Z) (clob : list Z) (code : list instr_t) (s : mach) (t' : memory) (f' : Z) : Prop :=
  exists s', runj None code s = Some s' /\ framed n clob s s' t' f'.

Lemma scalarj_push r i n clob body s t' f' :
  gpr_reg r = Some (8%nat, i, 0) -> i <> rsp_idx -> wf_mach s -> 0 <= n -> 8 * (n + 1) <= rsp s ->
  scalarj n clob body (push64 s (gpr s i)) t' f' ->
  scalarj (n + 1) (remove Z.eq_dec i clob)
    (INSTR_CREATE_push (opnd_create_reg r) :: body ++ [INSTR_CREATE_pop (opnd_create_reg r)]) s t' f'.
Proof.
  intros Hr Hi Hs Hn Hsp (s1 & R & F); exists (popped s1 i); split; [|now apply framed_push].
  rewrite (runj_exec _ _ s _ (exec_push_reg r i Hr s Hs)), (runj_app _ _ _ _ _ R).
  now rewrite (runj_exec _ _ _ _ (exec_pop_reg r i Hr s1)).
Qed.

(** ** Flags *)

Lemma testbit_set_flag bit b fl i :
  0 <= bit -> 0 <= i -> Z.testbit (set_flag bit b fl) i = if i =? bit then b else Z.testbit fl i.
Proof.
  intros Hb Hi; unfold set_flag; destruct b; rewrite ?Z.setbit_eqb, ?Z.clearbit_eqb by assumption.
  - rewrite Z.eqb_sym; now destruct (bit =? i).
  - rewrite (Z.eqb_sym bit i); destruct (i =? bit); cbn [negb]; [apply andb_false_r|apply andb_true_r].
Qed.

(** The six status flags. *)
Definition status_flags : list Z := [FLAG_CF; FLAG_PF; FLAG_AF; FLAG_ZF; FLAG_SF; FLAG_OF].

Ltac flag_bits :=
  repeat rewrite testbit_set_flag by (unfold FLAG_CF, FLAG_PF, FLAG_AF, FLAG_ZF, FLAG_SF, FLAG_OF; lia).

Section StatusBits.
Context (w a b fl : Z).

Lemma logic_ZF : Z.testbit (logic_flags w a fl) FLAG_ZF = (a =? 0).
Proof. unfold logic_flags; flag_bits; reflexivity. Qed.

Lemma sub_ZF : Z.testbit (sub_flags w a b fl) FLAG_ZF = (wrap w (a - b) =? 0).
Proof. unfold sub_flags; cbv zeta; flag_bits; reflexivity. Qed.

Ltac other_flag :=
  let H := fresh in intros i Hi H; cbv zeta; repeat rewrite testbit_set_flag by
    (assumption || (unfold FLAG_CF, FLAG_PF, FLAG_AF, FLAG_ZF, FLAG_SF, FLAG_OF; lia));
  repeat (rewrite (proj2 (Z.eqb_neq i _)) by (intros ->; apply H; unfold status_flags; cbn; tauto));
  reflexivity.

Lemma logic_other i : 0 <= i -> ~ In i status_flags -> Z.testbit (logic_flags w a fl) i = Z.testbit fl i.
Proof. revert i; unfold logic_flags; other_flag. Qed.

Lemma sub_other i : 0 <= i -> ~ In i status_flags -> Z.testbit (sub_flags w a b fl) i = Z.testbit fl i.
Proof. revert i; unfold sub_flags; other_flag. Qed.

Lemma set_CF_other c i : 0 <= i -> ~ In i status_flags -> Z.testbit (set_flag FLAG_CF c fl) i = Z.testbit fl i.
Proof. revert i; other_flag. Qed.
Lemma set_CF_CF c : Z.testbit (set_flag FLAG_CF c fl) FLAG_CF = c.
Proof. flag_bits; reflexivity. Qed.

Lemma set_CF_ZF c : Z.testbit (set_flag FLAG_CF c fl) FLAG_ZF = Z.testbit fl FLAG_ZF.
Proof. flag_bits; reflexivity. Qed.
End StatusBits.
