(* ===== verification/KTest.v ===== *)
(** * Mask tests: kortest and ktest

    The functions of [rewrite.c] that set the flags from masks.  [kortestw] and
    [kortestb] have one text and branch to set CF and ZF; [kortestq],
    [kortestd] and the four [ktest] functions compute between [pushf] and
    [popf]. *)
From Stdlib Require Import ZArith List Bool Lia.
From S2P Require Import Prelude Regs Bytes Lanes Machine Arch512 SymExec ScalarExec MaskSpec KLogic Jumps.
Import ListNotations.
#[local] Open Scope Z_scope.
#[local] Open Scope bool_scope.
#[local] Open Scope rw_scope.

(** ** The functions *)

(** Labels by the order in which a function creates them. *)
Definition L_MASK_ZERO : Z := 1.
Definition L_MASK_FFFF : Z := 2.
Definition L_MASK_DONE : Z := 3.

Definition kortest_gen (scratch1_gpr scratch2_gpr : reg_id_t) (ones : Z) (instr : instr_t) : rw_result :=
  let src_opnd := instr_get_src instr 0 in
  let dst_opnd := instr_get_dst instr 0 in
  let src_reg := opnd_get_reg src_opnd in
  let dst_reg := opnd_get_reg dst_opnd in
  if src_reg =? dst_reg then
    let src_k_idx := TO_K_REG_INDEX src_reg in
    let scratch_gpr64 := DR_REG_RAX in
    let scratch_gpr32 := DR_REG_EAX in
    let gpr64_opnd := opnd_create_reg scratch_gpr64 in
    let gpr32_opnd := opnd_create_reg scratch_gpr32 in
    let gpr_opnd := opnd_create_reg scratch1_gpr in
    let i1 := INSTR_CREATE_push gpr64_opnd in
    let i2 := RESTORE_FROM_TLS DR_REG_RAX (TLS_K_idx_SLOT src_k_idx) in
    let i3 := INSTR_CREATE_movzx gpr32_opnd gpr_opnd in
    let i4 := INSTR_CREATE_test gpr_opnd gpr_opnd in
    let i5 := INSTR_CREATE_jcc OP_jz (opnd_create_instr L_MASK_ZERO) in
    let i6 := INSTR_CREATE_cmp gpr32_opnd (opnd_create_immed_int ones OPSZ_4) in
    let i7 := INSTR_CREATE_jcc OP_jz (opnd_create_instr L_MASK_FFFF) in
    let i8 := INSTR_CREATE_clc in
    let i9 := INSTR_CREATE_jmp (opnd_create_instr L_MASK_DONE) in
    let i10 := INSTR_CREATE_clc in
    let i11 := INSTR_CREATE_jmp (opnd_create_instr L_MASK_DONE) in
    let i12 := INSTR_CREATE_test gpr_opnd gpr_opnd in
    let i13 := INSTR_CREATE_stc in
    let i14 := INSTR_CREATE_pop gpr64_opnd in
    rw_replace [i1; i2; i3; i4; i5; i6; i7; i8; i9; INSTR_CREATE_label L_MASK_ZERO; i10; i11;
                INSTR_CREATE_label L_MASK_FFFF; i12; i13; INSTR_CREATE_label L_MASK_DONE; i14]
  else
    let src_k_idx := TO_K_REG_INDEX src_reg in
    let dst_k_idx := TO_K_REG_INDEX dst_reg in
    let scratch1_gpr64 := DR_REG_RAX in
    let scratch1_gpr32 := DR_REG_EAX in
    let scratch2_gpr64 := DR_REG_RDX in
    let scratch2_gpr32 := DR_REG_EDX in
    let gpr64_opnd1 := opnd_create_reg scratch1_gpr64 in
    let gpr32_opnd1 := opnd_create_reg scratch1_gpr32 in
    let gpr_opnd1 := opnd_create_reg scratch1_gpr in
    let gpr64_opnd2 := opnd_create_reg scratch2_gpr64 in
    let gpr32_opnd2 := opnd_create_reg scratch2_gpr32 in
    let gpr_opnd2 := opnd_create_reg scratch2_gpr in
    let i1 := INSTR_CREATE_push gpr64_opnd1 in
    let i2 := INSTR_CREATE_push gpr64_opnd2 in
    let i3 := RESTORE_FROM_TLS DR_REG_RAX (TLS_K_idx_SLOT src_k_idx) in
    let i4 := RESTORE_FROM_TLS DR_REG_RDX (TLS_K_idx_SLOT dst_k_idx) in
    let i5 := INSTR_CREATE_movzx gpr32_opnd1 gpr_opnd1 in
    let i6 := INSTR_CREATE_movzx gpr32_opnd2 gpr_opnd2 in
    let i7 := INSTR_CREATE_or gpr_opnd1 gpr_opnd2 in
    let i8 := INSTR_CREATE_test gpr_opnd1 gpr_opnd1 in
    let i9 := INSTR_CREATE_jcc OP_jz (opnd_create_instr L_MASK_ZERO) in
    let i10 := INSTR_CREATE_cmp gpr32_opnd1 (opnd_create_immed_int ones OPSZ_4) in
    let i11 := INSTR_CREATE_jcc OP_jz (opnd_create_instr L_MASK_FFFF) in
    let i12 := INSTR_CREATE_clc in
    let i13 := INSTR_CREATE_jmp (opnd_create_instr L_MASK_DONE) in
    let i14 := INSTR_CREATE_clc in
    let i15 := INSTR_CREATE_jmp (opnd_create_instr L_MASK_DONE) in
    let i16 := INSTR_CREATE_test gpr_opnd1 gpr_opnd1 in
    let i17 := INSTR_CREATE_stc in
    let i18 := INSTR_CREATE_pop gpr64_opnd2 in
    let i19 := INSTR_CREATE_pop gpr64_opnd1 in
    rw_replace [i1; i2; i3; i4; i5; i6; i7; i8; i9; i10; i11; i12; i13; INSTR_CREATE_label L_MASK_ZERO; i14;
                i15; INSTR_CREATE_label L_MASK_FFFF; i16; i17; INSTR_CREATE_label L_MASK_DONE; i18; i19].

Definition rw_func_kortestw := kortest_gen DR_REG_AX DR_REG_DX 65535.
Definition rw_func_kortestb := kortest_gen DR_REG_AL DR_REG_DL 255.

Definition kortest_popf_gen (spill_gpr_1 spill_gpr_2 : reg_id_t) (sz : opnd_size) (instr : instr_t) : rw_result :=
  let src1_opnd := instr_get_src instr 0 in
  let src2_opnd := instr_get_src instr 1 in
  let input_mask1 := opnd_get_reg src1_opnd in
  let input_mask2 := opnd_get_reg src2_opnd in
  let input_k1_idx := TO_K_REG_INDEX input_mask1 in
  let input_k2_idx := TO_K_REG_INDEX input_mask2 in
  let spill_gpr_1_opnd := opnd_create_reg spill_gpr_1 in
  let spill_gpr_2_opnd := opnd_create_reg spill_gpr_2 in
  let i1 := INSTR_CREATE_pushf in
  let i2 := INSTR_CREATE_push (opnd_create_reg DR_REG_RAX) in
  let i3 := INSTR_CREATE_push (opnd_create_reg DR_REG_RBX) in
  let i4 := RESTORE_FROM_SIZED_TLS spill_gpr_1 (TLS_K_idx_SLOT input_k1_idx) sz in
  let i5 := RESTORE_FROM_SIZED_TLS spill_gpr_2 (TLS_K_idx_SLOT input_k2_idx) sz in
  let i6 := INSTR_CREATE_or spill_gpr_1_opnd spill_gpr_2_opnd in
  let i7 := RESTORE_FROM_SIZED_TLS spill_gpr_1 (TLS_K_idx_SLOT input_k1_idx) sz in
  let i8 := INSTR_CREATE_and spill_gpr_1_opnd spill_gpr_2_opnd in
  let i9 := INSTR_CREATE_pop (opnd_create_reg DR_REG_RBX) in
  let i10 := INSTR_CREATE_pop (opnd_create_reg DR_REG_RAX) in
  let i11 := INSTR_CREATE_popf in
  rw_insert [i1; i2; i3; i4; i5; i6; i7; i8; i9; i10; i11].

Definition rw_func_kortestq := kortest_popf_gen DR_REG_RAX DR_REG_RBX OPSZ_8.
Definition rw_func_kortestd := kortest_popf_gen DR_REG_EAX DR_REG_EBX OPSZ_4.

Definition ktest_gen (spill_gpr : reg_id_t) (sz : opnd_size) (imm : Z) (instr : instr_t) : rw_result :=
  let src_opnd := instr_get_src instr 0 in
  let input_mask := opnd_get_reg src_opnd in
  let input_k_idx := TO_K_REG_INDEX input_mask in
  let spill_gpr64 := DR_REG_RAX in
  let spill_gpr64_opnd := opnd_create_reg spill_gpr64 in
  let spill_gpr_opnd := opnd_create_reg spill_gpr in
  let i1 := INSTR_CREATE_pushf in
  let i2 := INSTR_CREATE_push spill_gpr64_opnd in
  let i3 := RESTORE_FROM_SIZED_TLS spill_gpr (TLS_K_idx_SLOT input_k_idx) sz in
  let i4 := INSTR_CREATE_test spill_gpr_opnd spill_gpr_opnd in
  let i5 := INSTR_CREATE_cmp spill_gpr_opnd (opnd_create_immed_int imm sz) in
  let i6 := INSTR_CREATE_pop spill_gpr64_opnd in
  let i7 := INSTR_CREATE_popf in
  rw_insert [i1; i2; i3; i4; i5; i6; i7].

Definition rw_func_ktestw := ktest_gen DR_REG_AX OPSZ_2 65535.
Definition rw_func_ktestb := ktest_gen DR_REG_AL OPSZ_1 255.
Definition rw_func_ktestq := ktest_gen DR_REG_RAX OPSZ_8 (-1).
Definition rw_func_ktestd := ktest_gen DR_REG_EAX OPSZ_4 (-1).

(** ** The branches *)

(** The instructions from the first [jz] to the last label. *)
Definition kortest_tail (r : reg_id_t) (ones : Z) : list instr_t :=
  [INSTR_CREATE_jcc OP_jz (opnd_create_instr L_MASK_ZERO);
   INSTR_CREATE_cmp (opnd_create_reg DR_REG_EAX) (opnd_create_immed_int ones OPSZ_4);
   INSTR_CREATE_jcc OP_jz (opnd_create_instr L_MASK_FFFF);
   INSTR_CREATE_clc; INSTR_CREATE_jmp (opnd_create_instr L_MASK_DONE);
   INSTR_CREATE_label L_MASK_ZERO; INSTR_CREATE_clc; INSTR_CREATE_jmp (opnd_create_instr L_MASK_DONE);
   INSTR_CREATE_label L_MASK_FFFF; INSTR_CREATE_test (opnd_create_reg r) (opnd_create_reg r); INSTR_CREATE_stc;
   INSTR_CREATE_label L_MASK_DONE].

(** The flags [kortest] asks for: ZF tells whether [v] is zero and CF whether
    it is all ones; bits that are no status flag are kept. *)
Definition test_flags (ones v fl fl' : Z) : Prop :=
  Z.testbit fl' FLAG_ZF = (v =? 0) /\ Z.testbit fl' FLAG_CF = (v =? ones) /\
  (forall i, 0 <= i -> ~ In i status_flags -> Z.testbit fl' i = Z.testbit fl i).

Section Tail.
Context (n : nat) (r : reg_id_t) (Hr : gpr_reg r = Some (n, 0, 0)) (Hn : (0 < n < 4)%nat).
Context (ones : Z) (Hones : ones = 2 ^ bits_of n - 1) (s : mach) (v : Z).
Context (Hv : 0 <= v < 2 ^ bits_of n) (Hg : gpr s 0 = v).

Lemma bits_small : 2 ^ bits_of n <= 2 ^ 24.
Proof. apply Z.pow_le_mono_r; unfold bits_of; lia. Qed.

(** The state before the tail: the flags of [test] on [v]. *)
Lemma tail_test fl :
  run [INSTR_CREATE_test (opnd_create_reg r) (opnd_create_reg r)] (with_rflags s fl)
  = Some (with_rflags s (logic_flags (bits_of n) v fl)).
Proof.
  rewrite (run_test _ _ r r n 0 0 Hr Hr), gpr_rflags, Hg, !(wrap_id (bits_of n) v) by assumption.
  cbn [run with_rflags rflags]; unfold logic_fl; rewrite Z.land_diag, wrap_id by assumption; reflexivity.
Qed.

Lemma tail_cmp fl :
  run [INSTR_CREATE_cmp (opnd_create_reg DR_REG_EAX) (opnd_create_immed_int ones OPSZ_4)] (with_rflags s fl)
  = Some (with_rflags s (sub_flags 32 v ones fl)).
Proof.
  assert (Hq : gpr_reg DR_REG_EAX = Some (4%nat, 0, 0)) by reflexivity.
  pose proof bits_small as Hb; change (2 ^ 24) with 16777216 in Hb.
  assert (He : imm_value 4 ones OPSZ_4 = ones).
  { unfold imm_value; change (bits_of (opsz_bytes OPSZ_4)) with 32; cbv zeta; change (bits_of 4) with 32.
    assert (Ho : wrap 32 ones = ones) by (apply wrap_id; change (2 ^ 32) with 4294967296; lia).
    rewrite Ho, Z.testbit_odd, Z.shiftr_div_pow2, Z.div_small by (change (2 ^ (32 - 1)) with 2147483648; lia).
    exact Ho. }
  unfold opnd_create_immed_int; rewrite (run_cmp_imm _ _ DR_REG_EAX 4 0 Hq), gpr_rflags, Hg, He by (cbn; lia).
  change (bits_of 4) with 32; rewrite wrap_id by (change (2 ^ 32) with 4294967296; lia); reflexivity.
Qed.

(** A step that is not control. *)
Lemma runj_step i k s1 s2 : run [i] s1 = Some s2 -> runj None (i :: k) s1 = runj None k s2.
Proof. apply (runj_run [i]). Qed.

Lemma wrap_sub_zero : (wrap 32 (v - ones) =? 0) = (v =? ones).
Proof.
  pose proof bits_small as Hb; change (2 ^ 24) with 16777216 in Hb.
  destruct (Z.eqb_spec v ones) as [->|Hne]; [now rewrite Z.sub_diag|].
  apply Z.eqb_neq; unfold wrap; intros H; apply Z.mod_divide in H; [|discriminate].
  destruct H as (q & H); change (2 ^ 32) with 4294967296 in H; lia.
Qed.

Lemma kortest_tail_run fl :
  exists fl', runj None (kortest_tail r ones) (with_rflags s (logic_flags (bits_of n) v fl)) = Some (with_rflags s fl') /\
    test_flags ones v fl fl'.
Proof.
  assert (Ho : 0 < ones) by (rewrite Hones; assert (2 ^ 1 <= 2 ^ bits_of n) by
    (apply Z.pow_le_mono_r; unfold bits_of; lia); lia).
  set (F := logic_flags (bits_of n) v fl).
  assert (EF : Z.testbit F FLAG_ZF = (v =? 0)) by apply logic_ZF.
  assert (OF : forall i, 0 <= i -> ~ In i status_flags -> Z.testbit F i = Z.testbit fl i)
    by (intros; now apply logic_other).
  assert (RF : forall f, rflags (with_rflags s f) = f) by reflexivity.
  unfold kortest_tail; rewrite runj_jz, RF, EF; destruct (Z.eqb_spec v 0) as [Hz|Hz].
  - control; exists (set_flag FLAG_CF false F); split; [reflexivity|split; [|split]].
    + rewrite set_CF_ZF, EF; symmetry; now apply Z.eqb_eq.
    + rewrite set_CF_CF; symmetry; apply Z.eqb_neq; lia.
    + intros i Hi Hs; rewrite set_CF_other by assumption; auto.
  - rewrite (runj_step _ _ _ _ (tail_cmp F)), runj_jz, RF.
    set (G := sub_flags 32 v ones F).
    assert (EG : Z.testbit G FLAG_ZF = (v =? ones)) by (unfold G; rewrite sub_ZF; apply wrap_sub_zero).
    assert (OG : forall i, 0 <= i -> ~ In i status_flags -> Z.testbit G i = Z.testbit fl i)
      by (intros; unfold G; rewrite sub_other; auto).
    rewrite EG; destruct (Z.eqb_spec v ones) as [Hv1|Hv1].
    + control; rewrite (runj_step _ _ _ _ (tail_test G)); control.
      exists (set_flag FLAG_CF true (logic_flags (bits_of n) v G)); split; [reflexivity|split; [|split]].
      * rewrite set_CF_ZF, logic_ZF; reflexivity.
      * rewrite set_CF_CF; symmetry; apply Z.eqb_eq; assumption.
      * intros i Hi Hs; rewrite set_CF_other, logic_other by assumption; auto.
    + control; exists (set_flag FLAG_CF false G); split; [reflexivity|split; [|split]].
      * rewrite set_CF_ZF, EG; symmetry; now apply Z.eqb_neq.
      * rewrite set_CF_CF; symmetry; apply Z.eqb_neq; assumption.
      * intros i Hi Hs; rewrite set_CF_other by assumption; auto.
Qed.
End Tail.

(** ** Correctness of kortestw and kortestb *)

(** A test instruction as DynamoRIO decodes it: one operand is its destination. *)
Definition mask_test_instr (opc d a : Z) : instr_t := mask_instr2 opc d a.

(** The original instruction is replaced by code that changes the flags alone,
    to those [kortest] asks for on the value [T]. *)
Definition rewrites_test (n ones : Z) (T : guest -> Z) (r : rw_result) : Prop :=
  exists code, r = rw_replace code /\ forall s, wf_mach s -> 8 * n <= rsp s ->
    exists s', runj None code s = Some s' /\ wf_mach s' /\
      stack_eq n (view s') (set_rflags (view s) (rflags s')) /\ test_flags ones (T (view s)) (rflags s) (rflags s').

Lemma framed_view n s s' f' :
  framed n [] s s' (tls s) f' -> stack_eq n (view s') (set_rflags (view s) f').
Proof.
  intros (Es & Et & Ef & Er & Eg & Em); split; [|split; [|split; [|split]]].
  - intros i l Hi Hl; cbn; unfold zmm_view; rewrite Et.
    destruct (Z.ltb_spec i 16), (Z.ltb_spec l 2); cbn [andb]; reflexivity || (apply Es; lia).
  - intros k Hk; cbn -[tls_k]; now rewrite Et.
  - intros i Hi; apply Eg; intros [].
  - exact Ef.
  - intros a Ha; apply Em; exact Ha.
Qed.

Lemma test_flags_trans ones v fl1 fl2 fl3 :
  (forall i, 0 <= i -> ~ In i status_flags -> Z.testbit fl2 i = Z.testbit fl1 i) ->
  test_flags ones v fl2 fl3 -> test_flags ones v fl1 fl3.
Proof. intros H (Hz & Hc & Ho); split; [exact Hz|split; [exact Hc|]]; intros i Hi Hs; rewrite Ho; auto. Qed.

Section Kortest.
Context (n : nat) (r1 r2 : reg_id_t) (Hr1 : gpr_reg r1 = Some (n, 0, 0)) (Hr2 : gpr_reg r2 = Some (n, 2, 0)).
Context (Hn : (0 < n < 4)%nat) (ones : Z) (Hones : ones = 2 ^ bits_of n - 1).
Context (a : Z) (Ha : 0 <= a < 8).

Lemma bits_n : 0 < bits_of n < 32.
Proof. unfold bits_of; lia. Qed.

Lemma narrow_small x : 0 <= wrap (bits_of n) x < 2 ^ bits_of n /\ wrap (bits_of 4) (wrap (bits_of n) x) = wrap (bits_of n) x.
Proof.
  pose proof bits_n; pose proof (wrap_range (bits_of n) x ltac:(lia)) as Hw; split; [exact Hw|].
  apply wrap_id; change (bits_of 4) with 32; pose proof (Z.pow_le_mono_r 2 (bits_of n) 32 ltac:(lia) ltac:(lia)); lia.
Qed.

(** After [movzx] into a 32-bit register the 64-bit register holds the narrow
    value; a narrow write then replaces it. *)
Lemma gpr_put4 s i v : gpr (put s 4 i (wrap (bits_of n) v)) i = wrap (bits_of n) v.
Proof. cbn [gpr put with_gpr]; rewrite Z.eqb_refl; unfold merge_gpr; cbn [Nat.leb]; apply narrow_small. Qed.

Lemma gpr_put_narrow s i v : 0 <= gpr s i < 2 ^ bits_of n -> gpr (put s n i v) i = wrap (bits_of n) v.
Proof.
  intros Hg; cbn [gpr put with_gpr]; rewrite Z.eqb_refl; unfold merge_gpr.
  rewrite (proj2 (Nat.leb_gt _ _)) by lia; rewrite !Z.pow_0_r, Z.div_1_r, (wrap_id _ _ Hg); lia.
Qed.

(** A prefix that leaves [v] in rax and the flags of [test], then the tail. *)
Lemma kortest_body clob prefix s s1 v fl :
  run prefix s = Some (with_rflags s1 (logic_flags (bits_of n) v fl)) ->
  0 <= v < 2 ^ bits_of n -> gpr s1 0 = v ->
  (forall i, 0 <= i -> ~ In i status_flags -> Z.testbit fl i = Z.testbit (rflags s) i) ->
  simd s1 = simd s -> tls s1 = tls s -> mem s1 = mem s ->
  (forall j, ~ In j clob -> gpr s1 j = gpr s j) -> ~ In rsp_idx clob ->
  exists fl', scalarj 0 clob (prefix ++ kortest_tail r1 ones) s (tls s) fl' /\ test_flags ones v (rflags s) fl'.
Proof.
  intros R Hv Hg Hfl Es Et Em Eg Hc.
  destruct (kortest_tail_run n r1 Hr1 Hn ones Hones s1 v Hv Hg fl) as (fl' & Rt & Ht).
  exists fl'; split; [|exact (test_flags_trans _ _ _ _ _ Hfl Ht)].
  exists (with_rflags s1 fl'); split; [rewrite (runj_run _ _ _ _ R); exact Rt|].
  split; [intros; cbn; now rewrite Es|split; [exact Et|split; [reflexivity|split; [apply Eg, Hc|split; [exact Eg|]]]]].
  intros; now rewrite <- Em.
Qed.

Lemma kortest_same_body s :
  wf_mach s ->
  exists fl', scalarj 0 [0]
    ([RESTORE_FROM_TLS DR_REG_RAX (TLS_K_idx_SLOT a);
      INSTR_CREATE_movzx (opnd_create_reg DR_REG_EAX) (opnd_create_reg r1);
      INSTR_CREATE_test (opnd_create_reg r1) (opnd_create_reg r1)] ++ kortest_tail r1 ones) s (tls s) fl' /\
    test_flags ones (wrap (bits_of n) (tls_k (tls s) a)) (rflags s) fl'.
Proof.
  intros Hs; rewrite TLS_K_idx_SLOT_eq by assumption; set (k := tls_k (tls s) a).
  assert (H8 : gpr_reg DR_REG_RAX = Some (8%nat, 0, 0)) by reflexivity.
  assert (H4 : gpr_reg DR_REG_EAX = Some (4%nat, 0, 0)) by reflexivity.
  change (RESTORE_FROM_TLS DR_REG_RAX (32 + 8 * a)) with (RESTORE_FROM_SIZED_TLS DR_REG_RAX (32 + 8 * a) OPSZ_8).
  pose proof bits_n; set (v := wrap (bits_of n) k).
  assert (Hp : wrap (bits_of n) (gpr (put s 8 0 k) 0) = v).
  { rewrite <- (wrap_wrap_le (bits_of n) (bits_of 8)), read_put by (change (bits_of 8) with 64; lia).
    apply wrap_wrap_le; change (bits_of 8) with 64; lia. }
  eapply (kortest_body [0] _ s (put (put s 8 0 k) 4 0 v)) with (fl := rflags s);
    [|apply narrow_small|apply gpr_put4|reflexivity|reflexivity|reflexivity|reflexivity|keep_gprs|unfold rsp_idx; cbn; lia].
  rewrite (run_ld s _ _ 8 0 H8) by (reflexivity || lia); fold (tls_k (tls s) a); fold k.
  rewrite (run_movzx _ _ _ 4 0 H4 r1 n 0 Hr1), Hp by lia.
  assert (G4 : gpr (put (put s 8 0 k) 4 0 v) 0 = v) by apply gpr_put4.
  assert (Hvv : wrap (bits_of n) v = v) by (apply wrap_wrap; lia).
  rewrite (run_test _ _ r1 r1 n 0 0 Hr1 Hr1), G4; unfold logic_fl; rewrite !Hvv, Z.land_diag, Hvv; reflexivity.
Qed.

Context (b : Z) (Hb : 0 <= b < 8).

Lemma kortest_diff_body s :
  wf_mach s ->
  exists fl', scalarj 0 [0; 2]
    ([RESTORE_FROM_TLS DR_REG_RAX (TLS_K_idx_SLOT a); RESTORE_FROM_TLS DR_REG_RDX (TLS_K_idx_SLOT b);
      INSTR_CREATE_movzx (opnd_create_reg DR_REG_EAX) (opnd_create_reg r1);
      INSTR_CREATE_movzx (opnd_create_reg DR_REG_EDX) (opnd_create_reg r2);
      INSTR_CREATE_or (opnd_create_reg r1) (opnd_create_reg r2);
      INSTR_CREATE_test (opnd_create_reg r1) (opnd_create_reg r1)] ++ kortest_tail r1 ones) s (tls s) fl' /\
    test_flags ones (wrap (bits_of n) (Z.lor (tls_k (tls s) a) (tls_k (tls s) b))) (rflags s) fl'.
Proof.
  intros Hs; rewrite !TLS_K_idx_SLOT_eq by assumption; set (k := tls_k (tls s) a); set (l := tls_k (tls s) b).
  assert (H8 : gpr_reg DR_REG_RAX = Some (8%nat, 0, 0)) by reflexivity.
  assert (H4 : gpr_reg DR_REG_EAX = Some (4%nat, 0, 0)) by reflexivity.
  assert (H8' : gpr_reg DR_REG_RDX = Some (8%nat, 2, 0)) by reflexivity.
  assert (H4' : gpr_reg DR_REG_EDX = Some (4%nat, 2, 0)) by reflexivity.
  change (RESTORE_FROM_TLS DR_REG_RAX (32 + 8 * a)) with (RESTORE_FROM_SIZED_TLS DR_REG_RAX (32 + 8 * a) OPSZ_8).
  change (RESTORE_FROM_TLS DR_REG_RDX (32 + 8 * b)) with (RESTORE_FROM_SIZED_TLS DR_REG_RDX (32 + 8 * b) OPSZ_8).
  pose proof bits_n; set (x := wrap (bits_of n) k); set (y := wrap (bits_of n) l).
  set (v := wrap (bits_of n) (Z.lor k l)).
  set (s2 := put (put s 8 0 k) 8 2 l); set (s4 := put (put s2 4 0 x) 4 2 y); set (s5 := put s4 n 0 (Z.lor x y)).
  assert (Hw : forall z, wrap (bits_of n) (wrap 64 z) = wrap (bits_of n) z) by (intros; apply wrap_wrap_le; lia).
  assert (Hx : wrap (bits_of n) (gpr s2 0) = x).
  { unfold s2; rewrite gpr_put_other by discriminate; rewrite <- Hw; change 64 with (bits_of 8).
    now rewrite read_put, Hw. }
  assert (Hy : wrap (bits_of n) (gpr (put s2 4 0 x) 2) = y).
  { rewrite gpr_put_other by discriminate; unfold s2; rewrite <- Hw; change 64 with (bits_of 8).
    now rewrite read_put, Hw. }
  assert (Hxy : gpr s4 0 = x /\ gpr s4 2 = y).
  { unfold s4; rewrite gpr_put_other by discriminate; split; apply gpr_put4. }
  assert (Hid : forall z, wrap (bits_of n) (wrap (bits_of n) z) = wrap (bits_of n) z) by (intros; apply wrap_wrap; lia).
  assert (Hv5 : gpr s5 0 = v).
  { unfold s5; rewrite gpr_put_narrow by (rewrite (proj1 Hxy); apply narrow_small).
    unfold x, y; apply (low_op (f := Z.lor)); lia. }
  eapply (kortest_body [0; 2] _ s s5) with (fl := logic_fl Z.lor (bits_of n) x y (rflags s));
    [|apply narrow_small|exact Hv5| |reflexivity|reflexivity|reflexivity|unfold s5, s4, s2; keep_gprs|unfold rsp_idx; cbn; lia].
  - rewrite (run_ld s _ _ 8 0 H8) by (reflexivity || lia).
    rewrite (run_ld _ _ _ 8 2 H8'), tls_put by (reflexivity || lia).
    fold (tls_k (tls s) a); fold (tls_k (tls s) b); fold k l; fold s2.
    rewrite (run_movzx _ _ _ 4 0 H4 r1 n 0 Hr1), Hx, (run_movzx _ _ _ 4 2 H4' r2 n 2 Hr2), Hy by lia; fold s4.
    rewrite (run_or_reg _ _ r1 r2 n 0 2 Hr1 Hr2), (proj1 Hxy), (proj2 Hxy); unfold x at 1 2, y at 1 2; rewrite !Hid; fold x y s5.
    rewrite (run_test _ _ r1 r1 n 0 0 Hr1 Hr1), gpr_rflags, Hv5.
    assert (Hvv : wrap (bits_of n) v = v) by apply Hid.
    assert (Hl : forall f, logic_fl Z.land (bits_of n) v v f = logic_flags (bits_of n) v f)
      by (intros f; unfold logic_fl; now rewrite Z.land_diag, Hvv).
    rewrite Hvv, Hl; reflexivity.
  - intros i Hi Hst; unfold logic_fl; now apply logic_other.
Qed.
End Kortest.

Section KortestGen.
Context (opc a d : Z) (Ha : 0 <= a < 8) (Hd : 0 <= d < 8).

Lemma kortest_gen_correct n r1 r2 ones :
  gpr_reg r1 = Some (n, 0, 0) -> gpr_reg r2 = Some (n, 2, 0) -> (0 < n < 4)%nat -> ones = 2 ^ bits_of n - 1 ->
  rewrites_test 2 ones (fun g => wrap (bits_of n) (Z.lor (g_k g a) (g_k g d)))
    (kortest_gen r1 r2 ones (mask_test_instr opc d a)).
Proof.
  intros H1 H2 Hn Ho; unfold kortest_gen, mask_test_instr.
  cbn [instr_srcs instr_dsts instr_get_src instr_get_dst nth mask_instr2 opnd_get_reg opnd_create_reg].
  rewrite kreg_eqb, !TO_K_REG_INDEX_kreg; destruct (Z.eqb_spec a d) as [<-|Hne]; (eexists; split; [reflexivity|]);
    intros s Hs Hsp.
  - destruct (kortest_same_body n r1 H1 Hn ones Ho a Ha _ (push64_wf s (gpr s 0) Hs)) as (fl & Hb & Ht).
    destruct (scalarj_push DR_REG_RAX 0 0 [0] _ s _ fl eq_refl ltac:(discriminate) Hs ltac:(lia) ltac:(lia) Hb)
      as (s' & R & F); cbn [remove Z.add] in F.
    exists s'; split; [exact R|split; [exact (runj_wf _ _ _ _ Hs R)|]].
    pose proof (framed_view _ _ _ _ F) as (V1 & V2 & V3 & V4 & V5); cbn [view g_k].
    destruct F as (_ & _ & Ef & _); rewrite Ef, Z.lor_diag; split; [|exact Ht].
    split; [exact V1|split; [exact V2|split; [exact V3|split; [exact V4|]]]]; intros x Hx; apply V5; lia.
  - set (s1 := push64 s (gpr s 0)).
    assert (Hs1 : wf_mach s1) by now apply push64_wf.
    assert (E1 : rsp s1 = rsp s - 8) by (apply push64_rsp; [assumption|lia]).
    destruct (kortest_diff_body n r1 r2 H1 H2 Hn ones Ho a Ha d Hd _ (push64_wf s1 (gpr s1 2) Hs1)) as (fl & Hb & Ht).
    pose proof (scalarj_push DR_REG_RDX 2 0 [0; 2] _ s1 _ fl eq_refl ltac:(discriminate) Hs1 ltac:(lia) ltac:(lia) Hb) as Hb1.
    destruct (scalarj_push DR_REG_RAX 0 1 _ _ s _ fl eq_refl ltac:(discriminate) Hs ltac:(lia) ltac:(lia) Hb1)
      as (s' & R & F); cbn [remove Z.add] in F.
    exists s'; split; [exact R|split; [exact (runj_wf _ _ _ _ Hs R)|]].
    pose proof (framed_view _ _ _ _ F) as V; destruct F as (_ & _ & Ef & _); rewrite Ef; split; [exact V|exact Ht].
Qed.
End KortestGen.

(** C23: [kortestw] and [kortestb]: for every pair of masks the emitted code runs
    through its branches to the end, sets ZF when the bitwise or is zero and CF
    when it is all ones, clears them otherwise, and leaves every register,
    mask and byte of memory above the stack pointer as it was. *)
Theorem kortest_correct opc a d :
  0 <= a < 8 -> 0 <= d < 8 ->
  rewrites_test 2 255 (fun g => wrap 8 (Z.lor (g_k g a) (g_k g d))) (rw_func_kortestb (mask_test_instr opc d a)) /\
  rewrites_test 2 65535 (fun g => wrap 16 (Z.lor (g_k g a) (g_k g d))) (rw_func_kortestw (mask_test_instr opc d a)).
Proof.
  intros Ha Hd; split; [apply (kortest_gen_correct opc a d Ha Hd 1)|apply (kortest_gen_correct opc a d Ha Hd 2)];
    reflexivity || lia.
Qed.

Lemma kortest_correct_witness :
  rewrites_test 2 65535 (fun g => wrap 16 (Z.lor (g_k g 1) (g_k g 1))) (rw_func_kortestw (mask_test_instr 507 1 1)).
Proof. apply (kortest_correct 507 1 1); lia. Defined.

(** ** The functions that end with popf *)

Lemma scalar_id n code :
  (forall s, wf_mach s -> 8 * n <= rsp s -> scalar n [] code s (tls s) (rflags s)) ->
  translates_stack n (fun g => g) code.
Proof.
  intros H s Hs Hsp; destruct (H s Hs Hsp) as (s' & R & F).
  exists s'; split; [exact R|split; [exact (run_wf _ _ _ Hs R)|]].
  exact (framed_view _ _ _ _ F).
Qed.

Section NoEffect.
Context (opc a : Z) (Ha : 0 <= a < 8).

Lemma ktest_body n r sz imm :
  gpr_reg r = Some (n, 0, 0) -> opsz_bytes sz = n -> (n <= 4)%nat ->
  body_ok [0]
    [RESTORE_FROM_SIZED_TLS r (TLS_K_idx_SLOT a) sz; INSTR_CREATE_test (opnd_create_reg r) (opnd_create_reg r);
     INSTR_CREATE_cmp (opnd_create_reg r) (opnd_create_immed_int imm sz)] (fun t => t).
Proof.
  intros Hr Hsz Hn; rewrite TLS_K_idx_SLOT_eq by assumption.
  apply body_intro; [unfold rsp_idx; cbn; lia|]; intros s Hs; eexists; split.
  { erewrite run_ld by (eassumption || lia); erewrite run_test by eassumption.
    unfold opnd_create_immed_int; erewrite run_cmp_imm by (eassumption || lia); reflexivity. }
  split; [reflexivity|split; [reflexivity|split; [reflexivity|keep_gprs]]].
Qed.

Lemma ktest_gen_effect n r sz imm d :
  gpr_reg r = Some (n, 0, 0) -> opsz_bytes sz = n -> (n <= 4)%nat ->
  inserts_stack 2 (fun g => g) (ktest_gen r sz imm (mask_test_instr opc d a)).
Proof.
  intros Hr Hsz Hn; unfold ktest_gen, mask_test_instr.
  cbn [instr_srcs instr_get_src nth mask_instr2 opnd_get_reg opnd_create_reg].
  rewrite !TO_K_REG_INDEX_kreg; eexists; split; [reflexivity|].
  apply scalar_id; intros s Hs Hsp.
  exact (bracket_fr DR_REG_RAX 0 eq_refl ltac:(discriminate) _ (fun t => t) s (ktest_body n r sz imm Hr Hsz Hn) Hs Hsp).
Qed.

Context (b : Z) (Hb : 0 <= b < 8).

Lemma kortest_popf_effect n r1 r2 sz d :
  gpr_names n r1 r2 sz ->
  inserts_stack 3 (fun g => g) (kortest_popf_gen r1 r2 sz (mask_instr3 opc d a b)).
Proof.
  intros [H1 H2 Hsz Hn]; unfold kortest_popf_gen.
  cbn [instr_srcs instr_get_src nth mask_instr3 opnd_get_reg opnd_create_reg].
  rewrite !TO_K_REG_INDEX_kreg, !TLS_K_idx_SLOT_eq by assumption; eexists; split; [reflexivity|].
  apply scalar_id; intros s Hs Hsp.
  refine (bracket_frr DR_REG_RAX DR_REG_RBX 0 3 eq_refl eq_refl ltac:(discriminate) ltac:(discriminate)
    [RESTORE_FROM_SIZED_TLS r1 (32 + 8 * a) sz; RESTORE_FROM_SIZED_TLS r2 (32 + 8 * b) sz;
     INSTR_CREATE_or (opnd_create_reg r1) (opnd_create_reg r2); RESTORE_FROM_SIZED_TLS r1 (32 + 8 * a) sz;
     INSTR_CREATE_and (opnd_create_reg r1) (opnd_create_reg r2)] (fun t => t) s _ Hs Hsp).
  apply body_intro; [unfold rsp_idx; cbn; lia|]; intros s0 Hs0; eexists; split; [run_body; reflexivity|].
  split; [reflexivity|split; [reflexivity|split; [reflexivity|keep_gprs]]].
Qed.
End NoEffect.

(** [kortestq], [kortestd], [ktestb], [ktestw] and [ktestd] leave the state
    exactly as it was, the flags included: what they compute is undone by their
    final [popf], and the original instruction is not removed.  The comparison
    of [ktestq] has an 8-byte immediate, which no encoding has, so that its
    code has no run at all. *)
Theorem mask_tests_no_effect opc a b d :
  0 <= a < 8 -> 0 <= b < 8 ->
  inserts_stack 3 (fun g => g) (rw_func_kortestq (mask_instr3 opc d a b)) /\
  inserts_stack 3 (fun g => g) (rw_func_kortestd (mask_instr3 opc d a b)) /\
  inserts_stack 2 (fun g => g) (rw_func_ktestb (mask_test_instr opc d a)) /\
  inserts_stack 2 (fun g => g) (rw_func_ktestw (mask_test_instr opc d a)) /\
  inserts_stack 2 (fun g => g) (rw_func_ktestd (mask_test_instr opc d a)) /\
  (forall s, exists code, rw_func_ktestq (mask_test_instr opc d a) = rw_insert code /\ run code s = None).
Proof.
  intros Ha Hb; split; [|split; [|split; [|split; [|split]]]].
  - apply (kortest_popf_effect opc a Ha b Hb 8); auto with rw_bits.
  - apply (kortest_popf_effect opc a Ha b Hb 4); auto with rw_bits.
  - apply (ktest_gen_effect opc a Ha 1); reflexivity || lia.
  - apply (ktest_gen_effect opc a Ha 2); reflexivity || lia.
  - apply (ktest_gen_effect opc a Ha 4); reflexivity || lia.
  - intros s; eexists; split; reflexivity.
Qed.

Lemma mask_tests_no_effect_witness :
  inserts_stack 3 (fun g => g) (rw_func_kortestq (mask_instr3 509 3 1 2)) /\
  inserts_stack 2 (fun g => g) (rw_func_ktestw (mask_test_instr 519 3 1)).
Proof. split; [apply (mask_tests_no_effect 509 1 2 3)|apply (mask_tests_no_effect 519 1 2 3)]; lia. Defined.
