(* ===== verification/Loops.v ===== *)
(** * Code with loops

    The comparisons emit code that jumps backwards.  Such code is run by program
    counter: [lstep] is one step, [reaches] any number of them, [runl] an
    executable run with fuel.  A closed piece of code runs the same way inside a
    longer sequence, and the brackets of [ScalarExec] hold for it. *)
From Stdlib Require Import ZArith List Bool Lia.
From S2P Require Import Prelude Regs Bytes Lanes Machine Arch512 SymExec ScalarExec MaskSpec Jumps.
Import ListNotations.
#[local] Open Scope Z_scope.
#[local] Open Scope bool_scope.
#[local] Open Scope rw_scope.

(** ** Steps *)

Fixpoint find_label (t : Z) (l : list instr_t) : option nat :=
  match l with
  | [] => None
  | i :: rest => if is_label t i then Some 0%nat else option_map S (find_label t rest)
  end.

Definition lstep (code : list instr_t) (pc : nat) (s : mach) : option (nat * mach) :=
  let? i := nth_error code pc in
  match branch i s with
  | Some None => Some (S pc, s)
  | Some (Some t) => let? q := find_label t code in Some (q, s)
  | None => let? s' := exec i s in Some (S pc, s')
  end.

Inductive reaches (code : list instr_t) : nat -> mach -> nat -> mach -> Prop :=
| reaches_refl p s : reaches code p s p s
| reaches_step p s q s1 r s2 : lstep code p s = Some (q, s1) -> reaches code q s1 r s2 -> reaches code p s r s2.

Fixpoint runl (fuel : nat) (code : list instr_t) (pc : nat) (s : mach) : option mach :=
  if (length code <=? pc)%nat then Some s
  else match fuel with
       | O => None
       | S fuel => match lstep code pc s with Some (q, s') => runl fuel code q s' | None => None end
       end.

Lemma reaches_trans code p s q s1 r s2 : reaches code p s q s1 -> reaches code q s1 r s2 -> reaches code p s r s2.
Proof. induction 1; [auto|]; intros; eapply reaches_step; eauto. Qed.

(** The executable run is the relation: a run with some fuel ends in [s'] just
    when the end of the code is reached with [s']. *)
Lemma runl_reaches code p s s' :
  (exists fuel, runl fuel code p s = Some s') <-> exists q, (length code <= q)%nat /\ reaches code p s q s'.
Proof.
  split.
  - intros (fuel & H); revert p s H; induction fuel as [|fuel IH]; intros p s; cbn [runl];
      destruct (Nat.leb_spec (length code) p); try discriminate; try (intros [= <-]; eauto using reaches_refl).
    destruct (lstep code p s) as [[q s1]|] eqn:E; [|discriminate]; intros H'.
    destruct (IH q s1 H') as (r & Hr & Hs); eauto using reaches_step.
  - intros (q & Hq & H); revert Hq; induction H as [p s|p s q s1 r s2 E _ IH]; intros Hq.
    + exists 0%nat; cbn [runl]; now rewrite (proj2 (Nat.leb_le _ _) Hq).
    + destruct (IH Hq) as (fuel & Hf); exists (S fuel); cbn [runl]; rewrite E.
      destruct (Nat.leb_spec (length code) p) as [Hp|]; [|exact Hf].
      unfold lstep in E; rewrite (proj2 (nth_error_None code p) Hp) in E; discriminate.
Qed.

Lemma runl_det f1 f2 code p s s1 s2 : runl f1 code p s = Some s1 -> runl f2 code p s = Some s2 -> s1 = s2.
Proof.
  revert f2 p s; induction f1 as [|f1 IH]; intros f2 p s; destruct f2 as [|f2]; cbn [runl];
    destruct (length code <=? p)%nat; try congruence; destruct (lstep code p s) as [[q t]|]; [apply IH|discriminate].
Qed.

Lemma lstep_wf code p s q s1 : wf_mach s -> lstep code p s = Some (q, s1) -> wf_mach s1.
Proof.
  intros Hs; unfold lstep; destruct (nth_error code p) as [i|]; cbn [obind]; [|discriminate].
  destruct (branch i s) as [[t|]|].
  - destruct (find_label t code); cbn [obind]; [now intros [= _ <-]|discriminate].
  - now intros [= _ <-].
  - destruct (exec i s) eqn:E; cbn [obind]; [intros [= _ <-]; eauto using exec_wf|discriminate].
Qed.

Lemma reaches_wf code p s q s' : wf_mach s -> reaches code p s q s' -> wf_mach s'.
Proof. intros Hs; induction 1; eauto using lstep_wf. Qed.

(** ** Pieces of code *)

Lemma find_label_app_none t l1 l2 : find_label t l1 = None -> find_label t (l1 ++ l2) = option_map (Nat.add (length l1)) (find_label t l2).
Proof.
  induction l1 as [|i l1 IH]; cbn [find_label app length]; [now destruct (find_label t l2)|].
  destruct (is_label t i); [discriminate|]; destruct (find_label t l1); [discriminate|]; intros _.
  rewrite IH by reflexivity; now destruct (find_label t l2).
Qed.

Lemma find_label_app_some t l1 l2 q : find_label t l1 = Some q -> find_label t (l1 ++ l2) = Some q.
Proof.
  revert q; induction l1 as [|i l1 IH]; intros q; cbn [find_label app]; [discriminate|].
  destruct (is_label t i); [auto|]; destruct (find_label t l1); [|discriminate]; intros [= <-].
  now rewrite (IH _ eq_refl).
Qed.

(** Code without labels. *)
Definition no_labels (l : list instr_t) : Prop := forall t, find_label t l = None.

Lemma no_labels_app l1 l2 : no_labels l1 -> no_labels l2 -> no_labels (l1 ++ l2).
Proof. intros H1 H2 t; now rewrite find_label_app_none, H2 by apply H1. Qed.

Section Embed.
Context (pre body post : list instr_t) (Hpre : no_labels pre).

Lemma lstep_embed p s q s1 :
  lstep body p s = Some (q, s1) -> lstep (pre ++ body ++ post) (length pre + p) s = Some (length pre + q, s1)%nat.
Proof.
  unfold lstep; rewrite nth_error_app2, Nat.add_comm, Nat.add_sub by lia.
  destruct (nth_error body p) as [i|] eqn:E; cbn [obind]; [|discriminate].
  rewrite nth_error_app1, E by (apply nth_error_Some; congruence); cbn [obind].
  destruct (branch i s) as [[t|]|].
  - destruct (find_label t body) as [l|] eqn:F; cbn [obind]; [|discriminate]; intros [= <- <-].
    now rewrite find_label_app_none, (find_label_app_some _ _ _ _ F) by apply Hpre.
  - intros [= <- <-]; repeat f_equal; lia.
  - destruct (exec i s); cbn [obind]; [|discriminate]; intros [= <- <-]; repeat f_equal; lia.
Qed.

Lemma reaches_embed p s q s1 :
  reaches body p s q s1 -> reaches (pre ++ body ++ post) (length pre + p) s (length pre + q) s1.
Proof. induction 1; [apply reaches_refl|]; eauto using reaches_step, lstep_embed. Qed.
End Embed.

(** At a place where the code goes on with [seg], the run of [seg] is a run of the code. *)
Lemma reaches_seg code p seg s s1 :
  firstn (length seg) (skipn p code) = seg -> run seg s = Some s1 -> reaches code p s (p + length seg) s1.
Proof.
  revert p s; induction seg as [|i seg IH]; intros p s; cbn [length firstn].
  - intros _ [= <-]; rewrite Nat.add_0_r; apply reaches_refl.
  - destruct (skipn p code) as [|j rest] eqn:E; [discriminate|]; intros [= <- Hseg]; cbn [run].
    destruct (exec j s) as [s'|] eqn:Ex; cbn [obind]; [|discriminate]; intros Hrun.
    assert (En : nth_error code p = Some j).
    { rewrite <- (firstn_skipn p code), E, nth_error_app2; rewrite firstn_length_le;
        try (assert (length (skipn p code) = length (j :: rest)) by (now rewrite E); rewrite length_skipn in *; cbn in *; lia).
      now rewrite Nat.sub_diag. }
    assert (Er : skipn (S p) code = rest).
    { replace (S p) with (1 + p)%nat by lia; rewrite <- skipn_skipn, E; reflexivity. }
    eapply reaches_step; [unfold lstep; rewrite En; cbn [obind]; rewrite (exec_no_branch _ _ _ Ex), Ex; reflexivity|].
    replace (p + S (length seg))%nat with (S p + length seg)%nat by lia; apply IH; [now rewrite Er|exact Hrun].
Qed.

Lemma reaches_run l s s' : run l s = Some s' -> reaches l 0 s (length l) s'.
Proof. intros H; apply (reaches_seg l 0 l); [apply firstn_all|exact H]. Qed.

(** Labels and jumps at a place. *)
Section Control.
Context (code : list instr_t) (p : nat) (s : mach).

Lemma reaches_label t q s' :
  nth_error code p = Some (INSTR_CREATE_label t) -> reaches code (S p) s q s' -> reaches code p s q s'.
Proof. intros H; apply reaches_step; unfold lstep; rewrite H; reflexivity. Qed.

Lemma reaches_jmp t r q s' :
  nth_error code p = Some (INSTR_CREATE_jmp (opnd_create_instr t)) -> find_label t code = Some r ->
  reaches code r s q s' -> reaches code p s q s'.
Proof. intros H F; apply reaches_step; unfold lstep; rewrite H; cbn; now rewrite F. Qed.

Lemma reaches_jcc op t b r q s' :
  nth_error code p = Some (INSTR_CREATE_jcc op (opnd_create_instr t)) -> jcc_taken op (rflags s) = Some b ->
  find_label t code = Some r -> reaches code (if b then r else S p) s q s' -> reaches code p s q s'.
Proof.
  intros H J F; apply reaches_step; unfold lstep; rewrite H; cbn [obind].
  assert (E : branch (INSTR_CREATE_jcc op (opnd_create_instr t)) s = Some (if b then Some t else None)).
  { unfold branch, INSTR_CREATE_jcc, instr_create_0dst_1src, opnd_create_instr; cbn [instr_opcode instr_srcs].
    destruct op; try discriminate J; now rewrite J. }
  rewrite E; destruct b; [now rewrite F|reflexivity].
Qed.
End Control.

(** A counting loop: from [p], every round takes [P j] to [P (j + 1)] and goes
    back to [p] while the count is below [n], then to [q]. *)
Lemma reaches_count code (P : Z -> mach -> Prop) p q n s :
  (forall j s, 0 <= j < n -> P j s ->
     exists s', P (j + 1) s' /\ reaches code p s (if j + 1 <? n then p else q) s') ->
  0 < n -> P 0 s -> exists s', P n s' /\ reaches code p s q s'.
Proof.
  intros Hround Hn.
  assert (Hind : forall m j s, Z.of_nat m = n - j -> 0 <= j < n -> P j s -> exists s', P n s' /\ reaches code p s q s').
  { intros m; induction m as [|m IH]; intros j t Hm Hj HP; [lia|].
    destruct (Hround j t Hj HP) as (s' & HP' & R); destruct (Z.ltb_spec (j + 1) n).
    - destruct (IH (j + 1) s' ltac:(lia) ltac:(lia) HP') as (s2 & HP2 & R2); eauto using reaches_trans.
    - replace n with (j + 1) in * by lia; eauto. }
  intros HP; apply (Hind (Z.to_nat n) 0 s); lia || auto.
Qed.

(** ** Framed code *)

Definition scalarl (n : Z) (clob : list Z) (code : list instr_t) (s : mach) (t' : memory) (f' : Z) : Prop :=
  exists s', reaches code 0 s (length code) s' /\ framed n clob s s' t' f'.

(** Straight-line code has no labels. *)
Lemma run_no_labels l s s' : run l s = Some s' -> no_labels l.
Proof.
  revert s; induction l as [|i l IH]; intros s; [intros _ t; reflexivity|]; cbn [run].
  destruct (exec i s) as [s1|] eqn:E; cbn [obind]; [|discriminate]; intros H t; cbn [find_label].
  pose proof (exec_no_branch _ _ _ E) as B; rewrite (IH s1 H t).
  unfold is_label, branch in *; destruct (instr_opcode i); try reflexivity; discriminate.
Qed.

(** A closed body between straight-line code. *)
Lemma reaches_between pre body post s s1 s2 s3 :
  run pre s = Some s1 -> reaches body 0 s1 (length body) s2 -> run post s2 = Some s3 ->
  reaches (pre ++ body ++ post) 0 s (length (pre ++ body ++ post)) s3.
Proof.
  intros R1 R2 R3.
  eapply reaches_trans; [apply (reaches_seg _ 0 pre s s1); [|exact R1]; cbn [skipn]; now rewrite firstn_app, Nat.sub_diag, firstn_all, app_nil_r|].
  cbn [Nat.add]; replace (length pre) with (length pre + 0)%nat by lia.
  eapply reaches_trans; [apply (reaches_embed pre body post (run_no_labels _ _ _ R1) 0 s1 _ _ R2)|].
  rewrite !length_app, Nat.add_assoc; apply (reaches_seg _ _ post); [|exact R3].
  rewrite <- length_app, app_assoc, skipn_app, skipn_all, Nat.sub_diag; apply firstn_all.
Qed.

(** A bracket around a body: an instruction before and one behind. *)
Lemma reaches_bracket i body j s s1 s2 s3 :
  exec i s = Some s1 -> reaches body 0 s1 (length body) s2 -> exec j s2 = Some s3 ->
  reaches (i :: body ++ [j]) 0 s (length (i :: body ++ [j])) s3.
Proof.
  intros Hi Hb Hj; apply (reaches_between [i] body [j] s s1 s2 s3); cbn [run]; [now rewrite Hi|exact Hb|now rewrite Hj].
Qed.

Lemma scalarl_push r i n clob body s t' f' :
  gpr_reg r = Some (8%nat, i, 0) -> i <> rsp_idx -> wf_mach s -> 0 <= n -> 8 * (n + 1) <= rsp s ->
  scalarl n clob body (push64 s (gpr s i)) t' f' ->
  scalarl (n + 1) (remove Z.eq_dec i clob)
    (INSTR_CREATE_push (opnd_create_reg r) :: body ++ [INSTR_CREATE_pop (opnd_create_reg r)]) s t' f'.
Proof.
  intros Hr Hi Hs Hn Hsp (s1 & R & F); exists (popped s1 i); split; [|now apply framed_push].
  eapply reaches_bracket; [exact (exec_push_reg r i Hr s Hs)|exact R|exact (exec_pop_reg r i Hr s1)].
Qed.

Lemma scalarl_pushf n clob body s t' f' :
  wf_mach s -> 0 <= n -> 8 * (n + 1) <= rsp s -> ~ In rsp_idx clob ->
  scalarl n clob body (push64 s (rflags s)) t' f' ->
  scalarl (n + 1) clob (INSTR_CREATE_pushf :: body ++ [INSTR_CREATE_popf]) s t' (rflags s).
Proof.
  intros Hs Hn Hsp Hc (s1 & R & F); exists (with_rflags (drop64 s1) (top64 s1)); split; [|eapply framed_pushf; eauto].
  eapply reaches_bracket; [reflexivity|exact R|reflexivity].
Qed.

(** ** Conditions after a comparison *)

(** The value of a [w]-bit pattern in two's complement. *)
Definition signed (w a : Z) : Z := if 2 ^ (w - 1) <=? a then a - 2 ^ w else a.

Lemma testbit_msb w a : 0 < w -> 0 <= a < 2 ^ w -> Z.testbit a (w - 1) = (2 ^ (w - 1) <=? a).
Proof.
  intros Hw Ha; assert (E : 2 ^ w = 2 * 2 ^ (w - 1)) by (rewrite <- Z.pow_succ_r by lia; f_equal; lia).
  pose proof (Z.pow_pos_nonneg 2 (w - 1) ltac:(lia) ltac:(lia)).
  rewrite Z.testbit_odd, Z.shiftr_div_pow2 by lia; destruct (Z.leb_spec (2 ^ (w - 1)) a).
  - rewrite <- (Z.div_unique a (2 ^ (w - 1)) 1 (a - 2 ^ (w - 1))) by lia; reflexivity.
  - rewrite Z.div_small by lia; reflexivity.
Qed.

Section Compare.
Context (w a b fl : Z) (Hw : 0 < w) (Ha : 0 <= a < 2 ^ w) (Hb : 0 <= b < 2 ^ w).

Lemma sub_wrap : wrap w (a - b) = if a <? b then a - b + 2 ^ w else a - b.
Proof.
  unfold wrap; destruct (Z.ltb_spec a b); [|apply Z.mod_small; lia].
  symmetry; apply (Z.mod_unique _ _ (-1)); lia.
Qed.

Lemma cmp_equal : Z.testbit (sub_flags w a b fl) FLAG_ZF = (a =? b).
Proof. rewrite sub_ZF, sub_wrap; destruct (Z.ltb_spec a b); zcases; lia || reflexivity. Qed.

Lemma cmp_less :
  xorb (Z.testbit (sub_flags w a b fl) FLAG_SF) (Z.testbit (sub_flags w a b fl) FLAG_OF) = (signed w a <? signed w b).
Proof.
  assert (E : 2 ^ w = 2 * 2 ^ (w - 1)) by (rewrite <- Z.pow_succ_r by lia; f_equal; lia).
  assert (Hv : 0 <= wrap w (a - b) < 2 ^ w) by (apply wrap_range; lia).
  unfold sub_flags; cbv zeta; flag_bits.
  repeat match goal with |- context [FLAG_SF =? ?y] => let v := eval vm_compute in (FLAG_SF =? y) in change (FLAG_SF =? y) with v
                       | |- context [FLAG_OF =? ?y] => let v := eval vm_compute in (FLAG_OF =? y) in change (FLAG_OF =? y) with v end; cbv iota.
  rewrite !testbit_msb by assumption; rewrite sub_wrap; unfold signed.
  set (h := 2 ^ (w - 1)) in *; rewrite E in *.
  destruct (Z.leb_spec h a), (Z.leb_spec h b), (Z.ltb_spec a b); cbn [Bool.eqb negb andb];
    repeat match goal with
    | |- context [h <=? ?x] => destruct (Z.leb_spec h x)
    | |- context [?x <? ?y] => destruct (Z.ltb_spec x y)
    end; try lia; reflexivity.
Qed.

(** The jumps behind a [cmp]. *)
Lemma taken_je : jcc_taken OP_je (sub_flags w a b fl) = Some (a =? b).
Proof. unfold jcc_taken, OP_je; now rewrite cmp_equal. Qed.
Lemma taken_jne : jcc_taken OP_jne (sub_flags w a b fl) = Some (negb (a =? b)).
Proof. unfold jcc_taken, OP_jne; now rewrite cmp_equal. Qed.
Lemma taken_jl : jcc_taken OP_jl (sub_flags w a b fl) = Some (signed w a <? signed w b).
Proof. unfold jcc_taken; now rewrite cmp_less. Qed.
Lemma taken_jle : jcc_taken OP_jle (sub_flags w a b fl) = Some (signed w a <=? signed w b).
Proof.
  unfold jcc_taken; rewrite cmp_equal, cmp_less; f_equal; unfold signed.
  repeat match goal with |- context [2 ^ (w - 1) <=? ?x] => destruct (Z.leb_spec (2 ^ (w - 1)) x) end; zcases; cbn [orb]; lia || reflexivity.
Qed.
Lemma taken_jg : jcc_taken OP_jg (sub_flags w a b fl) = Some (signed w b <? signed w a).
Proof.
  assert (E : forall f, jcc_taken OP_jg f = option_map negb (jcc_taken OP_jle f)) by reflexivity.
  rewrite E, taken_jle; cbn [option_map]; f_equal; zcases; cbn [negb]; lia || reflexivity.
Qed.
End Compare.
