(* ===== verification/GenCmp.v ===== *)
(** * Comparisons into a mask register

    [vpcmpd], [vpcmpud] and [vpcmpw] (rewrite.c) store both vectors on the stack
    and compare them element by element in a loop that sets or clears the bits
    of the destination mask.  All sequences are made of the same pieces: saving
    the registers the loop uses, storing the operands, loading the masks, the
    loop with or without an input mask, writing the result back. *)
From Stdlib Require Import ZArith List Bool Lia.
From S2P Require Import Prelude Regs Spill Bytes Lanes Machine Arch512.
Import ListNotations.
#[local] Open Scope Z_scope.
#[local] Open Scope bool_scope.
#[local] Open Scope rw_scope.

(** ** Pieces of the code *)

Abbreviation reg := opnd_create_reg.

(** The labels of a sequence. *)
Definition LOOP : Z := 0.
Definition SKIP : Z := 1.
Definition MATCH : Z := 2.
Definition DONE : Z := 3.

(** Save the registers and the flags, reserve room for two ymm registers. *)
Definition cmp_save : list instr_t :=
  [INSTR_CREATE_push (reg DR_REG_RBX); INSTR_CREATE_push (reg DR_REG_RCX); INSTR_CREATE_push (reg DR_REG_R9);
   INSTR_CREATE_push (reg DR_REG_R10); INSTR_CREATE_push (reg DR_REG_R11); INSTR_CREATE_push (reg DR_REG_R12);
   INSTR_CREATE_push (reg DR_REG_R13); INSTR_CREATE_push (reg DR_REG_R14); INSTR_CREATE_pushf;
   INSTR_CREATE_sub (reg DR_REG_RSP) (opnd_create_immed_int (SIZE_OF_YMM * 2) OPSZ_4)].

Definition cmp_restore : list instr_t :=
  [INSTR_CREATE_add (reg DR_REG_RSP) (opnd_create_immed_int (SIZE_OF_YMM * 2) OPSZ_4); INSTR_CREATE_popf;
   INSTR_CREATE_pop (reg DR_REG_R14); INSTR_CREATE_pop (reg DR_REG_R13); INSTR_CREATE_pop (reg DR_REG_R12);
   INSTR_CREATE_pop (reg DR_REG_R11); INSTR_CREATE_pop (reg DR_REG_R10); INSTR_CREATE_pop (reg DR_REG_R9);
   INSTR_CREATE_pop (reg DR_REG_RCX); INSTR_CREATE_pop (reg DR_REG_RBX)].

(** A vector stored in the first or second half of the reserved room. *)
Definition store_src1 (o : opnd_t) : instr_t :=
  INSTR_CREATE_2 OP_vmovdqu (opnd_create_base_disp DR_REG_RSP DR_REG_NULL 0 0 OPSZ_32) o.
Definition store_src2 (o : opnd_t) : instr_t :=
  INSTR_CREATE_2 OP_vmovdqu (opnd_create_base_disp DR_REG_RSP DR_REG_NULL 0 SIZE_OF_YMM OPSZ_32) o.

(** A spill register saved in its own slot and restored from a slot. *)
Definition save_ymm (r : reg_id_t) : instr_t := SAVE_SIMD_TO_SIZED_TLS r (TLS_ZMM_idx_SLOT (TO_YMM_REG_INDEX r)) OPSZ_32.
Definition restore_ymm (r from : reg_id_t) : instr_t :=
  RESTORE_SIMD_FROM_SIZED_TLS r (TLS_ZMM_idx_SLOT (TO_YMM_REG_INDEX from)) OPSZ_32.

(** The result starts as zero or as the destination; the element index is 0. *)
Definition zero_result : instr_t := INSTR_CREATE_xor (reg DR_REG_R9D) (reg DR_REG_R9D).
Definition load_result (output_mask_idx : Z) : instr_t := RESTORE_FROM_TLS DR_REG_R9 (TLS_K_idx_SLOT output_mask_idx).
Definition zero_index : instr_t := INSTR_CREATE_xor (reg DR_REG_EBX) (reg DR_REG_EBX).

(** The element of size [k] at the index in [rbx]. *)
Definition load_elem (k : nat) (r : reg_id_t) (disp : Z) : instr_t :=
  match k with
  | 2%nat => INSTR_CREATE_movzx (reg r) (opnd_create_base_disp DR_REG_RSP DR_REG_RBX 2 disp OPSZ_2)
  | _ => INSTR_CREATE_mov_ld (reg r) (opnd_create_base_disp DR_REG_RSP DR_REG_RBX 4 disp OPSZ_4)
  end.
Definition elems (k : nat) : Z := match k with 2%nat => 16 | _ => 8 end.

(** Compare two elements; [jcc] is taken if the bit is to be set. *)
Definition compare_elems (k : nat) (jcc : opcode) : list instr_t :=
  [load_elem k DR_REG_R13D 0; load_elem k DR_REG_R14D SIZE_OF_YMM; INSTR_CREATE_cmp (reg DR_REG_R13D) (reg DR_REG_R14D);
   INSTR_CREATE_jcc jcc (opnd_create_instr MATCH); INSTR_CREATE_btr (reg DR_REG_R9D) (reg DR_REG_EBX)].

Definition next_elem (k : nat) : list instr_t :=
  [INSTR_CREATE_inc (reg DR_REG_EBX); INSTR_CREATE_cmp (reg DR_REG_EBX) (opnd_create_immed_int (elems k) OPSZ_4)].
Definition loop_again : instr_t := INSTR_CREATE_jcc OP_jl (opnd_create_instr LOOP).

(** The second half of the loop.  In one sequence the label [DONE] comes before
    the last jump ([early]); in one the bit is chosen by [r12d]. *)
Definition set_elem (k : nat) (bit : reg_id_t) (early : bool) : list instr_t :=
  [INSTR_CREATE_label MATCH; INSTR_CREATE_bts (reg DR_REG_R9D) (reg bit)] ++ next_elem k ++
  (if early then [INSTR_CREATE_label DONE; loop_again] else [loop_again; INSTR_CREATE_label DONE]).

(** The loop over all elements. *)
Definition loop_k0 (k : nat) (jcc : opcode) (early : bool) : list instr_t :=
  [INSTR_CREATE_label LOOP] ++ compare_elems k jcc ++ next_elem k ++
  [loop_again; INSTR_CREATE_jmp (opnd_create_instr DONE)] ++ set_elem k DR_REG_EBX early.

(** Test the bit of the input mask, which is in [r11]. *)
Definition test_bit : list instr_t :=
  [INSTR_CREATE_mov_imm (reg DR_REG_R12D) (opnd_create_immed_int 1 OPSZ_4);
   INSTR_CREATE_mov_ld (reg DR_REG_CL) (reg DR_REG_BL); INSTR_CREATE_shl (reg DR_REG_R12D) (reg DR_REG_CL);
   INSTR_CREATE_test (reg DR_REG_R12D) (reg DR_REG_R11D); INSTR_CREATE_jcc OP_jz (opnd_create_instr SKIP)].
Definition copy_mask : instr_t := INSTR_CREATE_mov_ld (reg DR_REG_R11) (reg DR_REG_R10).

(** The loop over the elements the input mask selects; the mask is copied in
    the loop or, in one sequence, before it ([hoisted]). *)
Definition loop_masked (k : nat) (jcc : opcode) (bit : reg_id_t) (hoisted : bool) : list instr_t :=
  (if hoisted then [copy_mask; INSTR_CREATE_label LOOP] else [INSTR_CREATE_label LOOP; copy_mask]) ++
  test_bit ++ compare_elems k jcc ++ [INSTR_CREATE_label SKIP] ++ next_elem k ++
  [loop_again; INSTR_CREATE_jmp (opnd_create_instr DONE)] ++ set_elem k bit false.

(** The result cut to the number of elements and written back: the doubleword
    sequences write the whole mask, the word ones its low 16 bits. *)
Definition write_result (k : nat) (output_mask_idx : Z) : list instr_t :=
  match k with
  | 2%nat => [INSTR_CREATE_and (reg DR_REG_R9D) (opnd_create_immed_int 65535 OPSZ_4);
              SAVE_TO_SIZED_TLS DR_REG_R9W (TLS_K_idx_SLOT output_mask_idx) OPSZ_2]
  | _ => [INSTR_CREATE_and (reg DR_REG_R9D) (opnd_create_immed_int 255 OPSZ_4);
          SAVE_TO_TLS DR_REG_R9 (TLS_K_idx_SLOT output_mask_idx)]
  end.
Definition load_mask (k : nat) (input_mask_idx : Z) : instr_t :=
  match k with
  | 2%nat => RESTORE_FROM_SIZED_TLS DR_REG_R10W (TLS_K_idx_SLOT input_mask_idx) OPSZ_2
  | _ => RESTORE_FROM_TLS DR_REG_R10 (TLS_K_idx_SLOT input_mask_idx)
  end.

(** A whole sequence: [stores] puts the operands on the stack, [start] gives
    the result its first value. *)
Definition cmp_k0 (k : nat) (jcc : opcode) (stores : list instr_t) (start : instr_t) (early : bool) (output_mask_idx : Z)
  : list instr_t :=
  cmp_save ++ stores ++ [start; zero_index] ++ loop_k0 k jcc early ++ write_result k output_mask_idx ++ cmp_restore.
Definition cmp_masked (k : nat) (jcc : opcode) (stores : list instr_t) (start : instr_t) (bit : reg_id_t) (hoisted : bool)
    (input_mask_idx output_mask_idx : Z) : list instr_t :=
  cmp_save ++ stores ++ [start; zero_index; load_mask k input_mask_idx] ++ loop_masked k jcc bit hoisted ++
  write_result k output_mask_idx ++ cmp_restore.


(** ** [vpcmpd] *)

Definition rw_func_vpcmpd_EQ_ymm_ymm (mask_reg : reg_id_t) (src1_opnd src2_opnd : opnd_t) (src1_reg src2_reg dst_mask_reg : reg_id_t)
  : rw_result :=
  let input_mask_idx := TO_K_REG_INDEX mask_reg in
  let output_mask_idx := TO_K_REG_INDEX dst_mask_reg in
  let src1_need_spill := (if NEED_SPILL_YMM src1_reg then 1 else 0) in
  let src2_need_spill := (if NEED_SPILL_YMM src2_reg then 2 else 0) in
  let need_spill := Z.lor src1_need_spill src2_need_spill in
  match need_spill with
  | 0 =>
      if input_mask_idx =? 0 then
        rw_replace (cmp_k0 4 OP_je [store_src1 src1_opnd; store_src2 src2_opnd] (load_result output_mask_idx) false output_mask_idx)
      else
        rw_replace (cmp_masked 4 OP_je [store_src1 src1_opnd; store_src2 src2_opnd] zero_result DR_REG_EBX false
                      input_mask_idx output_mask_idx)
  | 1 =>
      if input_mask_idx =? 0 then
        let spill_src1_reg := find_one_available_spill_ymm src2_reg in
        rw_replace (cmp_k0 4 OP_je
          [save_ymm spill_src1_reg; restore_ymm spill_src1_reg src1_reg; store_src1 (reg spill_src1_reg);
           restore_ymm spill_src1_reg spill_src1_reg; store_src2 src2_opnd] zero_result false output_mask_idx)
      else
        let spill_src1_reg := find_one_available_spill_ymm src2_reg in
        rw_replace (cmp_masked 4 OP_je
          [save_ymm spill_src1_reg; restore_ymm spill_src1_reg src1_reg; store_src1 (reg spill_src1_reg);
           store_src2 src2_opnd; restore_ymm spill_src1_reg spill_src1_reg] (load_result output_mask_idx) DR_REG_EBX false
          input_mask_idx output_mask_idx)
  | 2 =>
      let spill_src2_reg := find_one_available_spill_ymm src1_reg in
      rw_replace (cmp_masked 4 OP_je
        [save_ymm spill_src2_reg; restore_ymm spill_src2_reg src2_reg; store_src1 src1_opnd;
         store_src2 (reg spill_src2_reg); restore_ymm spill_src2_reg spill_src2_reg] (load_result output_mask_idx) DR_REG_EBX false
        input_mask_idx output_mask_idx)
  | 3 =>
      let spill_src1_reg := YMM_SPILL_SLOT0 in
      let spill_src2_reg := YMM_SPILL_SLOT1 in
      rw_replace (cmp_masked 4 OP_je
        [save_ymm spill_src1_reg; restore_ymm spill_src1_reg src1_reg; save_ymm spill_src2_reg;
         restore_ymm spill_src2_reg src2_reg; store_src1 (reg spill_src1_reg); store_src2 (reg spill_src2_reg);
         restore_ymm spill_src1_reg spill_src1_reg; restore_ymm spill_src2_reg spill_src2_reg] (load_result output_mask_idx)
        DR_REG_EBX false input_mask_idx output_mask_idx)
  | _ => rw_removed_null
  end.

Definition rw_func_vpcmpd_EQ_ymm_m256 (src1_opnd src2_opnd : opnd_t) (src1_reg mask_reg dst_mask_reg : reg_id_t) : rw_result :=
  let input_mask_idx := TO_K_REG_INDEX mask_reg in
  let output_mask_idx := TO_K_REG_INDEX dst_mask_reg in
  let src1_need_spill := (if NEED_SPILL_YMM src1_reg then 1 else 0) in
  match src1_need_spill with
  | 0 =>
      if input_mask_idx =? 0 then
        let spill_ymm_reg := find_one_available_spill_ymm src1_reg in
        rw_replace (cmp_k0 4 OP_je
          [store_src1 src1_opnd; save_ymm spill_ymm_reg; INSTR_CREATE_2 OP_vmovdqu (reg spill_ymm_reg) src2_opnd;
           store_src2 (reg spill_ymm_reg); restore_ymm spill_ymm_reg spill_ymm_reg] (load_result output_mask_idx) false output_mask_idx)
      else
        let spill_ymm_reg := find_one_available_spill_ymm src1_reg in
        rw_replace (cmp_masked 4 OP_je
          [store_src1 src1_opnd; save_ymm spill_ymm_reg; INSTR_CREATE_2 OP_vmovdqu (reg spill_ymm_reg) src2_opnd;
           store_src2 (reg spill_ymm_reg); restore_ymm spill_ymm_reg spill_ymm_reg] (load_result output_mask_idx) DR_REG_EBX false
          input_mask_idx output_mask_idx)
  | 1 =>
      let spill_src1_reg := YMM_SPILL_SLOT0 in
      let spill_src2_rel_reg := YMM_SPILL_SLOT1 in
      rw_replace (cmp_masked 4 OP_je
        [save_ymm spill_src1_reg; save_ymm spill_src2_rel_reg; restore_ymm spill_src1_reg src1_reg;
         store_src1 (reg spill_src1_reg); INSTR_CREATE_2 OP_vmovdqu (reg spill_src2_rel_reg) src2_opnd;
         store_src2 (reg spill_src2_rel_reg); restore_ymm spill_src1_reg spill_src1_reg;
         RESTORE_FROM_SIZED_TLS spill_src2_rel_reg (TLS_ZMM_idx_SLOT (TO_YMM_REG_INDEX spill_src2_rel_reg)) OPSZ_32]
        (load_result output_mask_idx) DR_REG_EBX false input_mask_idx output_mask_idx)
  | _ => rw_removed_null
  end.

Definition rw_func_vpcmpd_LE_ymm_ymm (mask_reg : reg_id_t) (src1_opnd src2_opnd : opnd_t) (src1_reg src2_reg dst_mask_reg : reg_id_t)
  : rw_result :=
  let input_mask_idx := TO_K_REG_INDEX mask_reg in
  let output_mask_idx := TO_K_REG_INDEX dst_mask_reg in
  let src1_need_spill := (if NEED_SPILL_YMM src1_reg then 1 else 0) in
  match src1_need_spill with
  | 0 =>
      rw_replace (cmp_masked 4 OP_jle [store_src1 src1_opnd; store_src2 src2_opnd] (load_result output_mask_idx) DR_REG_EBX false
                    input_mask_idx output_mask_idx)
  | _ => rw_removed_null
  end.

Definition rw_func_vpcmpd_LE_ymm_m256 (src1_opnd src2_opnd : opnd_t) (src1_reg mask_reg dst_mask_reg : reg_id_t) : rw_result :=
  let input_mask_idx := TO_K_REG_INDEX mask_reg in
  let output_mask_idx := TO_K_REG_INDEX dst_mask_reg in
  let src1_need_spill := (if NEED_SPILL_YMM src1_reg then 1 else 0) in
  match src1_need_spill with
  | 0 =>
      if input_mask_idx =? 0 then
        let spill_ymm_reg := find_one_available_spill_ymm src1_reg in
        rw_replace (cmp_k0 4 OP_jle
          [store_src1 src1_opnd; save_ymm spill_ymm_reg; INSTR_CREATE_2 OP_vmovdqu (reg spill_ymm_reg) src2_opnd;
           store_src2 (reg spill_ymm_reg); restore_ymm spill_ymm_reg spill_ymm_reg] (load_result output_mask_idx) false output_mask_idx)
      else
        let spill_ymm_reg := YMM_SPILL_SLOT0 in
        rw_replace (cmp_masked 4 OP_jle
          [store_src1 src1_opnd; save_ymm spill_ymm_reg; INSTR_CREATE_2 OP_vmovdqu (reg spill_ymm_reg) src2_opnd;
           store_src2 (reg spill_ymm_reg); restore_ymm spill_ymm_reg spill_ymm_reg] (load_result output_mask_idx) DR_REG_EBX false
          input_mask_idx output_mask_idx)
  | _ => rw_removed_null
  end.

Definition rw_func_vpcmpd_NEQ_ymm_ymm (mask_reg : reg_id_t) (src1_opnd src2_opnd : opnd_t) (src1_reg src2_reg dst_mask_reg : reg_id_t)
  : rw_result :=
  let input_mask_idx := TO_K_REG_INDEX mask_reg in
  let output_mask_idx := TO_K_REG_INDEX dst_mask_reg in
  let src1_need_spill := (if NEED_SPILL_YMM src1_reg then 1 else 0) in
  let src2_need_spill := (if NEED_SPILL_YMM src2_reg then 2 else 0) in
  let need_spill := Z.lor src1_need_spill src2_need_spill in
  match need_spill with
  | 0 =>
      if input_mask_idx =? 0 then
        rw_replace (cmp_k0 4 OP_jne [store_src1 src1_opnd; store_src2 src2_opnd] zero_result false output_mask_idx)
      else
        rw_replace (cmp_masked 4 OP_jne [store_src1 src1_opnd; store_src2 src2_opnd] zero_result DR_REG_EBX false
                      input_mask_idx output_mask_idx)
  | 1 =>
      if input_mask_idx =? 0 then
        let spill_src1_reg := find_one_available_spill_ymm src2_reg in
        rw_replace (cmp_k0 4 OP_jne
          [save_ymm spill_src1_reg; restore_ymm spill_src1_reg src1_reg; store_src1 (reg spill_src1_reg);
           restore_ymm spill_src1_reg spill_src1_reg; store_src2 src2_opnd] zero_result true output_mask_idx)
      else
        let spill_src1_reg := YMM_SPILL_SLOT0 in
        rw_replace (cmp_masked 4 OP_jne
          [save_ymm spill_src1_reg; restore_ymm spill_src1_reg src1_reg; store_src1 (reg spill_src1_reg);
           store_src2 src2_opnd; restore_ymm spill_src1_reg spill_src1_reg] zero_result DR_REG_EBX false
          input_mask_idx output_mask_idx)
  | _ => rw_removed_null
  end.

Definition rw_func_vpcmpd_NLE_ymm_ymm (mask_reg src1_reg src2_reg dst_mask_reg : reg_id_t) : rw_result :=
  let src1_opnd := opnd_create_reg src1_reg in
  let src2_opnd := opnd_create_reg src2_reg in
  let input_mask_idx := TO_K_REG_INDEX mask_reg in
  let output_mask_idx := TO_K_REG_INDEX dst_mask_reg in
  let src1_need_spill := (if NEED_SPILL_YMM src1_reg then 1 else 0) in
  let src2_need_spill := (if NEED_SPILL_YMM src2_reg then 2 else 0) in
  let need_spill := Z.lor src1_need_spill src2_need_spill in
  match need_spill with
  | 0 =>
      rw_replace (cmp_masked 4 OP_jg [store_src1 src1_opnd; store_src2 src2_opnd] zero_result DR_REG_EBX true
                    input_mask_idx output_mask_idx)
  | _ => rw_removed_null
  end.

Definition rw_func_vpcmpd_NLE_ymm_m256 (src2_opnd : opnd_t) (src1_reg mask_reg dst_mask_reg : reg_id_t) : rw_result :=
  let src1_opnd := opnd_create_reg src1_reg in
  let input_mask_idx := TO_K_REG_INDEX mask_reg in
  let output_mask_idx := TO_K_REG_INDEX dst_mask_reg in
  let src1_need_spill := (if NEED_SPILL_YMM src1_reg then 1 else 0) in
  match src1_need_spill with
  | 0 =>
      let spill_ymm_reg := YMM_SPILL_SLOT0 in
      rw_replace (cmp_masked 4 OP_jg
        [store_src1 src1_opnd; save_ymm spill_ymm_reg; INSTR_CREATE_2 OP_vmovdqu (reg spill_ymm_reg) src2_opnd;
         store_src2 (reg spill_ymm_reg); restore_ymm spill_ymm_reg spill_ymm_reg] (load_result output_mask_idx) DR_REG_EBX false
        input_mask_idx output_mask_idx)
  | _ => rw_removed_null
  end.

(** The other comparisons are not implemented. *)

Definition rw_func_vpcmpd_EQ_xmm_xmm : rw_result := rw_null.
Definition rw_func_vpcmpd_EQ_xmm_m128 : rw_result := rw_null.
Definition rw_func_vpcmpd_EQ_zmm_zmm : rw_result := rw_null.
Definition rw_func_vpcmpd_EQ_zmm_m512 : rw_result := rw_null.
Definition rw_func_vpcmpd_LT_ymm_ymm : rw_result := rw_null.
Definition rw_func_vpcmpd_LT_ymm_m256 : rw_result := rw_null.
Definition rw_func_vpcmpd_LT_xmm_xmm : rw_result := rw_null.
Definition rw_func_vpcmpd_LT_xmm_m128 : rw_result := rw_null.
Definition rw_func_vpcmpd_LT_zmm_zmm : rw_result := rw_null.
Definition rw_func_vpcmpd_LT_zmm_m512 : rw_result := rw_null.
Definition rw_func_vpcmpd_LE_xmm_xmm : rw_result := rw_null.
Definition rw_func_vpcmpd_LE_xmm_m128 : rw_result := rw_null.
Definition rw_func_vpcmpd_LE_zmm_zmm : rw_result := rw_null.
Definition rw_func_vpcmpd_LE_zmm_m512 : rw_result := rw_null.
Definition rw_func_vpcmpd_FALSE_ymm_ymm : rw_result := rw_null.
Definition rw_func_vpcmpd_FALSE_ymm_m256 : rw_result := rw_null.
Definition rw_func_vpcmpd_FALSE_xmm_xmm : rw_result := rw_null.
Definition rw_func_vpcmpd_FALSE_xmm_m128 : rw_result := rw_null.
Definition rw_func_vpcmpd_FALSE_zmm_zmm : rw_result := rw_null.
Definition rw_func_vpcmpd_FALSE_zmm_m512 : rw_result := rw_null.
Definition rw_func_vpcmpd_NEQ_ymm_m256 : rw_result := rw_null.
Definition rw_func_vpcmpd_NEQ_xmm_xmm : rw_result := rw_null.
Definition rw_func_vpcmpd_NEQ_xmm_m128 : rw_result := rw_null.
Definition rw_func_vpcmpd_NEQ_zmm_zmm : rw_result := rw_null.
Definition rw_func_vpcmpd_NEQ_zmm_m512 : rw_result := rw_null.
Definition rw_func_vpcmpd_NLT_ymm_ymm : rw_result := rw_null.
Definition rw_func_vpcmpd_NLT_ymm_m256 : rw_result := rw_null.
Definition rw_func_vpcmpd_NLT_xmm_xmm : rw_result := rw_null.
Definition rw_func_vpcmpd_NLT_xmm_m128 : rw_result := rw_null.
Definition rw_func_vpcmpd_NLT_zmm_zmm : rw_result := rw_null.
Definition rw_func_vpcmpd_NLT_zmm_m512 : rw_result := rw_null.
Definition rw_func_vpcmpd_NLE_xmm_xmm : rw_result := rw_null.
Definition rw_func_vpcmpd_NLE_xmm_m128 : rw_result := rw_null.
Definition rw_func_vpcmpd_NLE_zmm_zmm : rw_result := rw_null.
Definition rw_func_vpcmpd_NLE_zmm_m512 : rw_result := rw_null.
Definition rw_func_vpcmpd_TRUE_ymm_ymm : rw_result := rw_null.
Definition rw_func_vpcmpd_TRUE_ymm_m256 : rw_result := rw_null.
Definition rw_func_vpcmpd_TRUE_xmm_xmm : rw_result := rw_null.
Definition rw_func_vpcmpd_TRUE_xmm_m128 : rw_result := rw_null.
Definition rw_func_vpcmpd_TRUE_zmm_zmm : rw_result := rw_null.
Definition rw_func_vpcmpd_TRUE_zmm_m512 : rw_result := rw_null.

Definition rw_func_vpcmpd (instr : instr_t) : rw_result :=
  let mask_opnd := instr_get_src instr 0 in
  let imm8_opnd := instr_get_src instr 1 in
  let src1_opnd := instr_get_src instr 2 in
  let src2_opnd := instr_get_src instr 3 in
  let dst_mask_opnd := instr_get_dst instr 0 in
  let imm8 := opnd_get_immed_int imm8_opnd in
  let mask_reg := opnd_get_reg mask_opnd in
  let dst_mask_reg := opnd_get_reg dst_mask_opnd in
  let src1_reg := opnd_get_reg src1_opnd in
  let src2_reg := opnd_get_reg src2_opnd in
  let by_kind r m := match opnd_kind src2_opnd with REG_kind => r | REL_ADDR_kind => m | _ => rw_null end in
  match imm8 with
  | 0 =>
      if IS_YMM_REG src1_reg then by_kind
        (rw_func_vpcmpd_EQ_ymm_ymm mask_reg src1_opnd src2_opnd src1_reg src2_reg dst_mask_reg)
        (rw_func_vpcmpd_EQ_ymm_m256 src1_opnd src2_opnd src1_reg mask_reg dst_mask_reg) else
      if IS_XMM_REG src1_reg then by_kind
        (rw_func_vpcmpd_EQ_xmm_xmm)
        (rw_func_vpcmpd_EQ_xmm_m128) else
      if IS_ZMM_REG src1_reg then by_kind
        (rw_func_vpcmpd_EQ_zmm_zmm)
        (rw_func_vpcmpd_EQ_zmm_m512) else
      rw_null
  | 1 =>
      if IS_YMM_REG src1_reg then by_kind
        (rw_func_vpcmpd_LT_ymm_ymm)
        (rw_func_vpcmpd_LT_ymm_m256) else
      if IS_XMM_REG src1_reg then by_kind
        (rw_func_vpcmpd_LT_xmm_xmm)
        (rw_func_vpcmpd_LT_xmm_m128) else
      if IS_ZMM_REG src1_reg then by_kind
        (rw_func_vpcmpd_LT_zmm_zmm)
        (rw_func_vpcmpd_LT_zmm_m512) else
      rw_null
  | 2 =>
      if IS_YMM_REG src1_reg then by_kind
        (rw_func_vpcmpd_LE_ymm_ymm mask_reg src1_opnd src2_opnd src1_reg src2_reg dst_mask_reg)
        (rw_func_vpcmpd_LE_ymm_m256 src1_opnd src2_opnd src1_reg mask_reg dst_mask_reg) else
      if IS_XMM_REG src1_reg then by_kind
        (rw_func_vpcmpd_LE_xmm_xmm)
        (rw_func_vpcmpd_LE_xmm_m128) else
      if IS_ZMM_REG src1_reg then by_kind
        (rw_func_vpcmpd_LE_zmm_zmm)
        (rw_func_vpcmpd_LE_zmm_m512) else
      rw_null
  | 3 =>
      if IS_YMM_REG src1_reg then by_kind
        (rw_func_vpcmpd_FALSE_ymm_ymm)
        (rw_func_vpcmpd_FALSE_ymm_m256) else
      if IS_XMM_REG src1_reg then by_kind
        (rw_func_vpcmpd_FALSE_xmm_xmm)
        (rw_func_vpcmpd_FALSE_xmm_m128) else
      if IS_ZMM_REG src1_reg then by_kind
        (rw_func_vpcmpd_FALSE_zmm_zmm)
        (rw_func_vpcmpd_FALSE_zmm_m512) else
      rw_null
  | 4 =>
      if IS_YMM_REG src1_reg then by_kind
        (rw_func_vpcmpd_NEQ_ymm_ymm mask_reg src1_opnd src2_opnd src1_reg src2_reg dst_mask_reg)
        (rw_func_vpcmpd_NEQ_ymm_m256) else
      if IS_XMM_REG src1_reg then by_kind
        (rw_func_vpcmpd_NEQ_xmm_xmm)
        (rw_func_vpcmpd_NEQ_xmm_m128) else
      if IS_ZMM_REG src1_reg then by_kind
        (rw_func_vpcmpd_NEQ_zmm_zmm)
        (rw_func_vpcmpd_NEQ_zmm_m512) else
      rw_null
  | 5 =>
      if IS_YMM_REG src1_reg then by_kind
        (rw_func_vpcmpd_NLT_ymm_ymm)
        (rw_func_vpcmpd_NLT_ymm_m256) else
      if IS_XMM_REG src1_reg then by_kind
        (rw_func_vpcmpd_NLT_xmm_xmm)
        (rw_func_vpcmpd_NLT_xmm_m128) else
      if IS_ZMM_REG src1_reg then by_kind
        (rw_func_vpcmpd_NLT_zmm_zmm)
        (rw_func_vpcmpd_NLT_zmm_m512) else
      rw_null
  | 6 =>
      if IS_YMM_REG src1_reg then by_kind
        (rw_func_vpcmpd_NLE_ymm_ymm mask_reg src1_reg src2_reg dst_mask_reg)
        (rw_func_vpcmpd_NLE_ymm_m256 src2_opnd src1_reg mask_reg dst_mask_reg) else
      if IS_XMM_REG src1_reg then by_kind
        (rw_func_vpcmpd_NLE_xmm_xmm)
        (rw_func_vpcmpd_NLE_xmm_m128) else
      if IS_ZMM_REG src1_reg then by_kind
        (rw_func_vpcmpd_NLE_zmm_zmm)
        (rw_func_vpcmpd_NLE_zmm_m512) else
      rw_null
  | 7 =>
      if IS_YMM_REG src1_reg then by_kind
        (rw_func_vpcmpd_TRUE_ymm_ymm)
        (rw_func_vpcmpd_TRUE_ymm_m256) else
      if IS_XMM_REG src1_reg then by_kind
        (rw_func_vpcmpd_TRUE_xmm_xmm)
        (rw_func_vpcmpd_TRUE_xmm_m128) else
      if IS_ZMM_REG src1_reg then by_kind
        (rw_func_vpcmpd_TRUE_zmm_zmm)
        (rw_func_vpcmpd_TRUE_zmm_m512) else
      rw_null
  | _ => rw_null
  end.


(** ** [vpcmpud] *)

(** Both functions take the second source as a register or as memory. *)
Definition rw_func_vpcmpud_EQ_ymm_ymm (mask_reg : reg_id_t) (src1_opnd src2_opnd : opnd_t) (src1_reg dst_mask_reg : reg_id_t)
  : rw_result :=
  let src2_is_reg := kind_eqb (opnd_kind src2_opnd) REG_kind in
  let src2_reg := if src2_is_reg then opnd_get_reg src2_opnd else DR_REG_NULL in
  let src1_need_spill := (if NEED_SPILL_YMM src1_reg then 1 else 0) in
  let src2_need_spill := (if src2_is_reg && NEED_SPILL_YMM src2_reg then 2 else 0) in
  let need_spill := Z.lor src1_need_spill src2_need_spill in
  match need_spill with
  | 0 => rw_removed_null
  | 1 => rw_removed_null
  | 2 => rw_removed_null
  | 3 => rw_removed_null
  | _ => rw_removed_null
  end.

Definition rw_func_vpcmpud_NLE_ymm_ymm (mask_reg : reg_id_t) (src1_opnd src2_opnd : opnd_t) (src1_reg dst_mask_reg : reg_id_t)
  : rw_result :=
  let input_mask_idx := TO_K_REG_INDEX mask_reg in
  let output_mask_idx := TO_K_REG_INDEX dst_mask_reg in
  let src2_is_reg := kind_eqb (opnd_kind src2_opnd) REG_kind in
  let src2_reg := if src2_is_reg then opnd_get_reg src2_opnd else DR_REG_NULL in
  let src1_need_spill := (if NEED_SPILL_YMM src1_reg then 1 else 0) in
  let src2_need_spill := (if src2_is_reg && NEED_SPILL_YMM src2_reg then 2 else 0) in
  let need_spill := Z.lor src1_need_spill src2_need_spill in
  match need_spill with
  | 0 =>
      if input_mask_idx =? 0 then
        let temp_ymm_reg := find_one_available_spill_ymm src1_reg in
        rw_replace (cmp_k0 4 OP_jg
          [store_src1 src1_opnd; save_ymm temp_ymm_reg; INSTR_CREATE_2 OP_vmovdqu (reg temp_ymm_reg) src2_opnd;
           store_src2 (reg temp_ymm_reg); restore_ymm temp_ymm_reg temp_ymm_reg] zero_result false output_mask_idx)
      else
        let temp_ymm_reg := find_one_available_spill_ymm src1_reg in
        rw_replace (cmp_masked 4 OP_jg
          [store_src1 src1_opnd; save_ymm temp_ymm_reg; INSTR_CREATE_2 OP_vmovdqu (reg temp_ymm_reg) src2_opnd;
           store_src2 (reg temp_ymm_reg); restore_ymm temp_ymm_reg temp_ymm_reg] (load_result output_mask_idx) DR_REG_EBX false
          input_mask_idx output_mask_idx)
  | _ => rw_removed_null
  end.

Definition rw_func_vpcmpud_EQ_xmm_xmm : rw_result := rw_null.
Definition rw_func_vpcmpud_EQ_zmm_zmm : rw_result := rw_null.
Definition rw_func_vpcmpud_LT_ymm_ymm : rw_result := rw_null.
Definition rw_func_vpcmpud_LT_xmm_xmm : rw_result := rw_null.
Definition rw_func_vpcmpud_LT_zmm_zmm : rw_result := rw_null.
Definition rw_func_vpcmpud_LE_ymm_ymm : rw_result := rw_null.
Definition rw_func_vpcmpud_LE_xmm_xmm : rw_result := rw_null.
Definition rw_func_vpcmpud_LE_zmm_zmm : rw_result := rw_null.
Definition rw_func_vpcmpud_FALSE_ymm_ymm : rw_result := rw_null.
Definition rw_func_vpcmpud_FALSE_xmm_xmm : rw_result := rw_null.
Definition rw_func_vpcmpud_FALSE_zmm_zmm : rw_result := rw_null.
Definition rw_func_vpcmpud_NEQ_ymm_ymm : rw_result := rw_null.
Definition rw_func_vpcmpud_NEQ_xmm_xmm : rw_result := rw_null.
Definition rw_func_vpcmpud_NEQ_zmm_zmm : rw_result := rw_null.
Definition rw_func_vpcmpud_NLT_ymm_ymm : rw_result := rw_null.
Definition rw_func_vpcmpud_NLT_xmm_xmm : rw_result := rw_null.
Definition rw_func_vpcmpud_NLT_zmm_zmm : rw_result := rw_null.
Definition rw_func_vpcmpud_NLE_xmm_xmm : rw_result := rw_null.
Definition rw_func_vpcmpud_NLE_zmm_zmm : rw_result := rw_null.
Definition rw_func_vpcmpud_TRUE_ymm_ymm : rw_result := rw_null.
Definition rw_func_vpcmpud_TRUE_xmm_xmm : rw_result := rw_null.
Definition rw_func_vpcmpud_TRUE_zmm_zmm : rw_result := rw_null.

Definition rw_func_vpcmpud (instr : instr_t) : rw_result :=
  let mask_opnd := instr_get_src instr 0 in
  let imm8_opnd := instr_get_src instr 1 in
  let src1_opnd := instr_get_src instr 2 in
  let src2_opnd := instr_get_src instr 3 in
  let dst_mask_opnd := instr_get_dst instr 0 in
  let imm8 := opnd_get_immed_int imm8_opnd in
  let mask_reg := opnd_get_reg mask_opnd in
  let dst_mask_reg := opnd_get_reg dst_mask_opnd in
  let src1_reg := opnd_get_reg src1_opnd in
  match imm8 with
  | 0 =>
      if IS_YMM_REG src1_reg then rw_func_vpcmpud_EQ_ymm_ymm mask_reg src1_opnd src2_opnd src1_reg dst_mask_reg else
      if IS_XMM_REG src1_reg then rw_func_vpcmpud_EQ_xmm_xmm else
      if IS_ZMM_REG src1_reg then rw_func_vpcmpud_EQ_zmm_zmm else
      rw_null
  | 1 =>
      if IS_YMM_REG src1_reg then rw_func_vpcmpud_LT_ymm_ymm else
      if IS_XMM_REG src1_reg then rw_func_vpcmpud_LT_xmm_xmm else
      if IS_ZMM_REG src1_reg then rw_func_vpcmpud_LT_zmm_zmm else
      rw_null
  | 2 =>
      if IS_YMM_REG src1_reg then rw_func_vpcmpud_LE_ymm_ymm else
      if IS_XMM_REG src1_reg then rw_func_vpcmpud_LE_xmm_xmm else
      if IS_ZMM_REG src1_reg then rw_func_vpcmpud_LE_zmm_zmm else
      rw_null
  | 3 =>
      if IS_YMM_REG src1_reg then rw_func_vpcmpud_FALSE_ymm_ymm else
      if IS_XMM_REG src1_reg then rw_func_vpcmpud_FALSE_xmm_xmm else
      if IS_ZMM_REG src1_reg then rw_func_vpcmpud_FALSE_zmm_zmm else
      rw_null
  | 4 =>
      if IS_YMM_REG src1_reg then rw_func_vpcmpud_NEQ_ymm_ymm else
      if IS_XMM_REG src1_reg then rw_func_vpcmpud_NEQ_xmm_xmm else
      if IS_ZMM_REG src1_reg then rw_func_vpcmpud_NEQ_zmm_zmm else
      rw_null
  | 5 =>
      if IS_YMM_REG src1_reg then rw_func_vpcmpud_NLT_ymm_ymm else
      if IS_XMM_REG src1_reg then rw_func_vpcmpud_NLT_xmm_xmm else
      if IS_ZMM_REG src1_reg then rw_func_vpcmpud_NLT_zmm_zmm else
      rw_null
  | 6 =>
      if IS_YMM_REG src1_reg then rw_func_vpcmpud_NLE_ymm_ymm mask_reg src1_opnd src2_opnd src1_reg dst_mask_reg else
      if IS_XMM_REG src1_reg then rw_func_vpcmpud_NLE_xmm_xmm else
      if IS_ZMM_REG src1_reg then rw_func_vpcmpud_NLE_zmm_zmm else
      rw_null
  | 7 =>
      if IS_YMM_REG src1_reg then rw_func_vpcmpud_TRUE_ymm_ymm else
      if IS_XMM_REG src1_reg then rw_func_vpcmpud_TRUE_xmm_xmm else
      if IS_ZMM_REG src1_reg then rw_func_vpcmpud_TRUE_zmm_zmm else
      rw_null
  | _ => rw_null
  end.


(** ** [vpcmpw] *)

Definition rw_func_vpcmpw_EQ_ymm_ymm (mask_reg : reg_id_t) (src1_opnd src2_opnd : opnd_t) (src1_reg src2_reg dst_mask_reg : reg_id_t)
  : rw_result :=
  let input_mask_idx := TO_K_REG_INDEX mask_reg in
  let output_mask_idx := TO_K_REG_INDEX dst_mask_reg in
  let src1_need_spill := (if NEED_SPILL_YMM src1_reg then 1 else 0) in
  let src2_need_spill := (if NEED_SPILL_YMM src2_reg then 2 else 0) in
  let need_spill := Z.lor src1_need_spill src2_need_spill in
  match need_spill with
  | 0 =>
      rw_replace (cmp_masked 2 OP_je [store_src1 src1_opnd; store_src2 src2_opnd] (load_result output_mask_idx) DR_REG_EBX false
                    input_mask_idx output_mask_idx)
  | _ => rw_removed_null
  end.

(** Here the bit to set is chosen by [r12d], which holds the bit itself. *)
Definition rw_func_vpcmpw_NEQ_ymm_ymm (mask_reg : reg_id_t) (src1_opnd src2_opnd : opnd_t) (src1_reg src2_reg dst_mask_reg : reg_id_t)
  : rw_result :=
  let input_mask_idx := TO_K_REG_INDEX mask_reg in
  let output_mask_idx := TO_K_REG_INDEX dst_mask_reg in
  let src1_need_spill := (if NEED_SPILL_YMM src1_reg then 1 else 0) in
  let src2_need_spill := (if NEED_SPILL_YMM src2_reg then 2 else 0) in
  let need_spill := Z.lor src1_need_spill src2_need_spill in
  match need_spill with
  | 0 =>
      rw_replace (cmp_masked 2 OP_jne [store_src1 src1_opnd; store_src2 src2_opnd] (load_result output_mask_idx) DR_REG_R12D false
                    input_mask_idx output_mask_idx)
  | _ => rw_removed_null
  end.

Definition rw_func_vpcmpw_EQ_xmm_xmm : rw_result := rw_null.
Definition rw_func_vpcmpw_EQ_zmm_zmm : rw_result := rw_null.
Definition rw_func_vpcmpw_LT_ymm_ymm : rw_result := rw_null.
Definition rw_func_vpcmpw_LT_xmm_xmm : rw_result := rw_null.
Definition rw_func_vpcmpw_LT_zmm_zmm : rw_result := rw_null.
Definition rw_func_vpcmpw_LE_ymm_ymm : rw_result := rw_null.
Definition rw_func_vpcmpw_LE_xmm_xmm : rw_result := rw_null.
Definition rw_func_vpcmpw_LE_zmm_zmm : rw_result := rw_null.
Definition rw_func_vpcmpw_FALSE_ymm_ymm : rw_result := rw_null.
Definition rw_func_vpcmpw_FALSE_xmm_xmm : rw_result := rw_null.
Definition rw_func_vpcmpw_FALSE_zmm_zmm : rw_result := rw_null.
Definition rw_func_vpcmpw_NEQ_xmm_xmm : rw_result := rw_null.
Definition rw_func_vpcmpw_NEQ_zmm_zmm : rw_result := rw_null.
Definition rw_func_vpcmpw_NLT_ymm_ymm : rw_result := rw_null.
Definition rw_func_vpcmpw_NLT_xmm_xmm : rw_result := rw_null.
Definition rw_func_vpcmpw_NLT_zmm_zmm : rw_result := rw_null.
Definition rw_func_vpcmpw_NLE_ymm_ymm : rw_result := rw_null.
Definition rw_func_vpcmpw_NLE_xmm_xmm : rw_result := rw_null.
Definition rw_func_vpcmpw_NLE_zmm_zmm : rw_result := rw_null.
Definition rw_func_vpcmpw_TRUE_ymm_ymm : rw_result := rw_null.
Definition rw_func_vpcmpw_TRUE_xmm_xmm : rw_result := rw_null.
Definition rw_func_vpcmpw_TRUE_zmm_zmm : rw_result := rw_null.

Definition rw_func_vpcmpw (instr : instr_t) : rw_result :=
  let mask_opnd := instr_get_src instr 0 in
  let imm8_opnd := instr_get_src instr 1 in
  let src1_opnd := instr_get_src instr 2 in
  let src2_opnd := instr_get_src instr 3 in
  let dst_mask_opnd := instr_get_dst instr 0 in
  let imm8 := opnd_get_immed_int imm8_opnd in
  let mask_reg := opnd_get_reg mask_opnd in
  let dst_mask_reg := opnd_get_reg dst_mask_opnd in
  let src1_reg := opnd_get_reg src1_opnd in
  let src2_reg := opnd_get_reg src2_opnd in
  match imm8 with
  | 0 =>
      if IS_YMM_REG src1_reg then rw_func_vpcmpw_EQ_ymm_ymm mask_reg src1_opnd src2_opnd src1_reg src2_reg dst_mask_reg else
      if IS_XMM_REG src1_reg then rw_func_vpcmpw_EQ_xmm_xmm else
      if IS_ZMM_REG src1_reg then rw_func_vpcmpw_EQ_zmm_zmm else
      rw_null
  | 1 =>
      if IS_YMM_REG src1_reg then rw_func_vpcmpw_LT_ymm_ymm else
      if IS_XMM_REG src1_reg then rw_func_vpcmpw_LT_xmm_xmm else
      if IS_ZMM_REG src1_reg then rw_func_vpcmpw_LT_zmm_zmm else
      rw_null
  | 2 =>
      if IS_YMM_REG src1_reg then rw_func_vpcmpw_LE_ymm_ymm else
      if IS_XMM_REG src1_reg then rw_func_vpcmpw_LE_xmm_xmm else
      if IS_ZMM_REG src1_reg then rw_func_vpcmpw_LE_zmm_zmm else
      rw_null
  | 3 =>
      if IS_YMM_REG src1_reg then rw_func_vpcmpw_FALSE_ymm_ymm else
      if IS_XMM_REG src1_reg then rw_func_vpcmpw_FALSE_xmm_xmm else
      if IS_ZMM_REG src1_reg then rw_func_vpcmpw_FALSE_zmm_zmm else
      rw_null
  | 4 =>
      if IS_YMM_REG src1_reg then rw_func_vpcmpw_NEQ_ymm_ymm mask_reg src1_opnd src2_opnd src1_reg src2_reg dst_mask_reg else
      if IS_XMM_REG src1_reg then rw_func_vpcmpw_NEQ_xmm_xmm else
      if IS_ZMM_REG src1_reg then rw_func_vpcmpw_NEQ_zmm_zmm else
      rw_null
  | 5 =>
      if IS_YMM_REG src1_reg then rw_func_vpcmpw_NLT_ymm_ymm else
      if IS_XMM_REG src1_reg then rw_func_vpcmpw_NLT_xmm_xmm else
      if IS_ZMM_REG src1_reg then rw_func_vpcmpw_NLT_zmm_zmm else
      rw_null
  | 6 =>
      if IS_YMM_REG src1_reg then rw_func_vpcmpw_NLE_ymm_ymm else
      if IS_XMM_REG src1_reg then rw_func_vpcmpw_NLE_xmm_xmm else
      if IS_ZMM_REG src1_reg then rw_func_vpcmpw_NLE_zmm_zmm else
      rw_null
  | 7 =>
      if IS_YMM_REG src1_reg then rw_func_vpcmpw_TRUE_ymm_ymm else
      if IS_XMM_REG src1_reg then rw_func_vpcmpw_TRUE_xmm_xmm else
      if IS_ZMM_REG src1_reg then rw_func_vpcmpw_TRUE_zmm_zmm else
      rw_null
  | _ => rw_null
  end.
