(* ===== verification/CmpLoop.v ===== *)
(** * The comparison loops

    The loops of [GenCmp] over the elements of two vectors on the stack: each
    round decides one bit of [r9] by a comparison, or leaves it alone if the
    input mask does not select the element.  The loops end after as many rounds
    as there are elements. *)
From Stdlib Require Import ZArith List Bool Lia.
From S2P Require Import Prelude Regs Spill Bytes Lanes Machine Arch512 SymExec ScalarExec MaskSpec Jumps Loops GenCmp.
Import ListNotations.
#[local] Open Scope Z_scope.
#[local] Open Scope bool_scope.
#[local] Open Scope rw_scope.

(** ** Conditions *)

(** The conditional jumps the comparisons use, and what they decide behind a
    [cmp] of doublewords. *)
Definition cmp_conds : list opcode := [OP_je; OP_jne; OP_jle; OP_jg].
Definition cmp_rel (jcc : opcode) (a b : Z) : bool :=
  match jcc with
  | OP_jz => a =? b
  | OP_jnz => negb (a =? b)
  | OP_jle => signed 32 a <=? signed 32 b
  | OP_jnle => negb (signed 32 a <=? signed 32 b)
  | _ => false
  end.

Lemma taken_cmp jcc a b fl :
  In jcc cmp_conds -> 0 <= a < 2 ^ 32 -> 0 <= b < 2 ^ 32 ->
  jcc_taken jcc (sub_flags 32 a b fl) = Some (cmp_rel jcc a b).
Proof.
  intros Hj Ha Hb; unfold cmp_conds in Hj; cbn [In] in Hj.
  decompose [or] Hj; subst; try contradiction;
    [apply taken_je|apply taken_jne|apply taken_jle|cbn [cmp_rel OP_jg]; rewrite <- Z.ltb_antisym; apply taken_jg]; assumption || lia.
Qed.

(** ** Rounds *)

(** A comparison of a register with an operand. *)
Lemma exec_cmp_src s r n i src v :
  gpr_reg r = Some (n, i, 0) -> read_src s n src = Some v ->
  exec (INSTR_CREATE_cmp (opnd_create_reg r) src) s
  = Some (with_rflags s (sub_flags (bits_of n) (wrap (bits_of n) (gpr s i)) v (rflags s))).
Proof.
  intros Hr Hv; unfold INSTR_CREATE_cmp, instr_create_0dst_2src, opnd_create_reg; rewrite exec_cmp; unfold exec_flags.
  reg_facts Hr; cbn [obind]; now rewrite Hv.
Qed.

(** The registers the loops work with: [rcx], [rbx], [r9], [r11] to [r14]. *)
Definition loop_regs : list Z := [1; 3; 9; 11; 12; 13; 14].

(** [s] is [s0] but for those registers and the flags; the index is [j], the
    result so far [r9], the copy of the mask [r11]. *)
Definition at_elem (s0 : mach) (j r9 r11 : Z) (s : mach) : Prop :=
  simd s = simd s0 /\ tls s = tls s0 /\ mem s = mem s0 /\
  (forall i, ~ In i loop_regs -> gpr s i = gpr s0 i) /\
  gpr s 3 = j /\ gpr s 9 = r9 /\ gpr s 11 = r11.

(** A register of the loop is written; the flags change. *)
Lemma at_elem_put s0 j r9 r11 s n i v f :
  at_elem s0 j r9 r11 s -> In i loop_regs ->
  let w := merge_gpr n 0 (gpr s i) v in
  at_elem s0 (if i =? 3 then w else j) (if i =? 9 then w else r9) (if i =? 11 then w else r11) (with_rflags (put s n i v) f).
Proof.
  intros (E1 & E2 & E3 & E4 & E5 & E6 & E7) Hi; cbv zeta; unfold at_elem; cbn [simd tls mem gpr with_rflags put with_gpr].
  rewrite E1, E2, E3; repeat split; auto.
  - intros x Hx; destruct (Z.eqb_spec x i) as [->|]; [contradiction|auto].
  - rewrite Z.eqb_sym; now destruct (i =? 3).
  - rewrite Z.eqb_sym; now destruct (i =? 9).
  - rewrite Z.eqb_sym; now destruct (i =? 11).
Qed.

Lemma at_elem_flags s0 j r9 r11 s f : at_elem s0 j r9 r11 s -> at_elem s0 j r9 r11 (with_rflags s f).
Proof. auto. Qed.

Lemma load_small k m a : k = 2%nat \/ k = 4%nat -> wf_memory m -> 0 <= load k m a < 2 ^ 32.
Proof. intros [-> | ->] Hm; pose proof (load_range 2 m a Hm); pose proof (load_range 4 m a Hm); cbn in *; lia. Qed.

(** A bit is tested by a power of two. *)
Lemma pow2_test w j x : 0 <= j < w -> (wrap w (Z.land (2 ^ j) (wrap w x)) =? 0) = negb (Z.testbit x j).
Proof.
  intros Hj; destruct (Z.testbit x j) eqn:E; cbn [negb].
  - apply Z.eqb_neq; intros H; apply (f_equal (fun y => Z.testbit y j)) in H; revert H.
    rewrite wrap_testbit, Z.land_spec, wrap_testbit, Z.pow2_bits_true, E, Z.bits_0 by lia.
    now rewrite (proj2 (Z.ltb_lt j w)) by lia.
  - apply Z.eqb_eq, Z.bits_inj'; intros i Hi; rewrite wrap_testbit, Z.land_spec, wrap_testbit, Z.bits_0 by lia.
    destruct (Z.eq_dec i j) as [->|]; [rewrite E|rewrite Z.pow2_bits_false by lia]; now rewrite ?andb_false_r.
Qed.

Section Elements.
Context (k : nat) (Hk : k = 2%nat \/ k = 4%nat).

Lemma elems_bytes : Z.of_nat k * elems k = 32.
Proof. now destruct Hk as [-> | ->]. Qed.

Lemma elems_small : 8 <= elems k <= 16.
Proof. destruct Hk as [-> | ->]; cbn; lia. Qed.

(** An element is loaded into [r13] or [r14]. *)
Lemma elem_operand s scale disp :
  is_int32 disp = true -> existsb (Z.eqb scale) [1; 2; 4; 8] = true ->
  mem_addr s DR_REG_RSP DR_REG_RBX scale disp = Some (wrap 64 (wrap 64 (gpr s 4) + wrap 64 (gpr s 3) * scale + disp)).
Proof.
  intros Hd Hsc; unfold mem_addr; rewrite Hd, Hsc.
  assert (E : forall r i, gpr_reg r = Some (8%nat, i, 0) -> addr_reg s r = Some (wrap 64 (gpr s i)))
    by (intros r i Hr; unfold addr_reg; reg_facts Hr; reflexivity).
  now rewrite (E DR_REG_RSP 4), (E DR_REG_RBX 3) by reflexivity.
Qed.

Lemma exec_load_elem r i disp s :
  gpr_reg r = Some (4%nat, i, 0) -> is_int32 disp = true ->
  exec (load_elem k r disp) s
  = Some (put s 4 i (load k (mem s) (wrap 64 (wrap 64 (gpr s 4) + wrap 64 (gpr s 3) * Z.of_nat k + disp)))).
Proof.
  intros Hr Hd; destruct Hk as [-> | ->].
  - change (exec (load_elem 2 r disp) s) with
      (let? n := gpr_size r in
       if ((2 <? n) && (2 <=? 2))%nat
       then let? v := let? a := mem_addr s DR_REG_RSP DR_REG_RBX 2 disp in Some (load 2 (mem s) a) in write_gpr s r v else None).
    rewrite elem_operand by auto; cbn [obind]; now reg_facts Hr.
  - change (exec (load_elem 4 r disp) s) with
      (let? n := gpr_size r in
       let? v := if (4 =? n)%nat then let? a := mem_addr s DR_REG_RSP DR_REG_RBX 4 disp in Some (load n (mem s) a) else None in
       write_gpr s r v).
    rewrite elem_operand by auto; reg_facts Hr; cbn [obind Nat.eqb]; now reg_facts Hr.
Qed.

End Elements.

(** The input mask is copied. *)
Lemma run_copy s0 j r9 r11 s :
  wf_mach s0 -> at_elem s0 j r9 r11 s -> exists s', run [copy_mask] s = Some s' /\ at_elem s0 j r9 (gpr s0 10) s'.
Proof.
  intros Hs0 H; cbn [run].
  assert (E : gpr s 10 = gpr s0 10) by (apply H; unfold loop_regs; cbn; lia).
  assert (R0 : 0 <= gpr s0 10 < 2 ^ 64) by apply Hs0.
  assert (R : exec copy_mask s = Some (put s 8 11 (gpr s0 10))).
  { change (exec copy_mask s) with (let? n := gpr_size DR_REG_R11 in let? v := read_src s n (opnd_create_reg DR_REG_R10) in write_gpr s DR_REG_R11 v).
    assert (R11 : gpr_reg DR_REG_R11 = Some (8%nat, 11, 0)) by reflexivity.
    reg_facts R11; cbn [obind]; rewrite (read_src_reg s DR_REG_R10 8 10 eq_refl); cbn [obind].
    reg_facts R11; now rewrite E, wrap_id. }
  rewrite R; eexists; split; [reflexivity|].
  pose proof (at_elem_put _ _ _ _ _ 8 11 (gpr s0 10) (rflags s) H ltac:(unfold loop_regs; cbn; tauto)) as H1.
  cbn [Z.eqb Pos.eqb] in H1; unfold merge_gpr in H1; cbn [Nat.leb] in H1; change (bits_of 8) with 64 in H1.
  now rewrite wrap_id in H1.
Qed.

Section Rounds.
Context (k : nat) (Hk : k = 2%nat \/ k = 4%nat).
Context (s0 : mach) (Hs0 : wf_mach s0) (A B : Z -> Z).
Context (Hroom : rsp s0 + 64 <= 2 ^ 64).
Context (HA : forall i, 0 <= i < elems k -> load k (mem s0) (rsp s0 + Z.of_nat k * i) = A i).
Context (HB : forall i, 0 <= i < elems k -> load k (mem s0) (rsp s0 + 32 + Z.of_nat k * i) = B i).

Lemma A_range i : 0 <= i < elems k -> 0 <= A i < 2 ^ 32.
Proof. intros Hi; rewrite <- HA by assumption; now apply load_small; [|apply Hs0]. Qed.
Lemma B_range i : 0 <= i < elems k -> 0 <= B i < 2 ^ 32.
Proof. intros Hi; rewrite <- HB by assumption; now apply load_small; [|apply Hs0]. Qed.

Lemma elem_addr s j d :
  at_elem s0 j (gpr s 9) (gpr s 11) s -> 0 <= j < elems k -> 0 <= d <= 32 ->
  wrap 64 (wrap 64 (gpr s 4) + wrap 64 (gpr s 3) * Z.of_nat k + d) = rsp s0 + d + Z.of_nat k * j.
Proof.
  intros (_ & _ & _ & Eg & Ej & _) Hj Hd; rewrite Ej, (Eg 4) by (unfold loop_regs; cbn; lia); change (gpr s0 4) with (rsp s0).
  assert (0 <= rsp s0 < 2 ^ 64) by apply Hs0; pose proof (elems_bytes k Hk); pose proof (elems_small k Hk).
  assert (Hkj : 0 <= Z.of_nat k * j /\ Z.of_nat k * j + 1 <= 32) by nia.
  rewrite (wrap_id 64 (rsp s0)), (wrap_id 64 j), wrap_id by lia; lia.
Qed.

(** Both elements are loaded and compared. *)
Lemma run_compare j r9 r11 s :
  at_elem s0 j r9 r11 s -> 0 <= j < elems k ->
  exists s', run [load_elem k DR_REG_R13D 0; load_elem k DR_REG_R14D SIZE_OF_YMM;
                  INSTR_CREATE_cmp (reg DR_REG_R13D) (reg DR_REG_R14D)] s = Some s' /\
    at_elem s0 j r9 r11 s' /\ rflags s' = sub_flags 32 (A j) (B j) (rflags s).
Proof.
  intros H Hj; pose proof (A_range j Hj) as RA; pose proof (B_range j Hj) as RB; destruct H as (E1 & E2 & E3 & Eg & E3' & E9 & E11).
  assert (H : at_elem s0 j (gpr s 9) (gpr s 11) s) by (repeat split; auto).
  cbn [run]; rewrite (exec_load_elem k Hk _ 13) by reflexivity; cbn [obind].
  rewrite (elem_addr s j 0 H) by lia; rewrite E3, Z.add_0_r, HA by assumption.
  pose proof (at_elem_put _ _ _ _ _ 4 13 (A j) (rflags s) H ltac:(unfold loop_regs; cbn; tauto)) as H1; cbn [Z.eqb Pos.eqb] in H1.
  change (with_rflags (put s 4 13 (A j)) (rflags s)) with (put s 4 13 (A j)) in H1.
  set (s1 := put s 4 13 (A j)) in *.
  rewrite (exec_load_elem k Hk _ 14) by reflexivity; cbn [obind].
  rewrite (elem_addr s1 j SIZE_OF_YMM H1) by (unfold SIZE_OF_YMM; lia).
  change (mem s1) with (mem s); rewrite E3; change SIZE_OF_YMM with 32; rewrite HB by assumption.
  pose proof (at_elem_put _ _ _ _ _ 4 14 (B j) (rflags s) H1 ltac:(unfold loop_regs; cbn; tauto)) as H2; cbn [Z.eqb Pos.eqb] in H2.
  change (with_rflags (put s1 4 14 (B j)) (rflags s)) with (put s1 4 14 (B j)) in H2.
  rewrite (exec_cmp_src _ DR_REG_R13D 4 13 _ _ eq_refl (read_src_reg _ DR_REG_R14D 4 14 eq_refl)); cbn [obind].
  rewrite read_put, (gpr_put_other s1 4 14 _ 13) by lia; change (gpr s1 13) with (gpr (put s 4 13 (A j)) 13); rewrite read_put.
  change (bits_of 4) with 32; rewrite (wrap_id 32 (A j)), (wrap_id 32 (B j)) by assumption.
  eexists; split; [reflexivity|split; [|reflexivity]].
  apply at_elem_flags; rewrite <- E9, <- E11; exact H2.
Qed.

(** The bit of the element is cleared or set. *)
Lemma run_bit (b : bool) j r9 r11 s :
  at_elem s0 j r9 r11 s -> 0 <= j < elems k ->
  let i := if b then INSTR_CREATE_bts (reg DR_REG_R9D) (reg DR_REG_EBX) else INSTR_CREATE_btr (reg DR_REG_R9D) (reg DR_REG_EBX) in
  exists s', run [i] s = Some s' /\
    at_elem s0 j (wrap 32 (if b then Z.setbit (wrap 32 r9) j else Z.clearbit (wrap 32 r9) j)) r11 s'.
Proof.
  intros H Hj; cbv zeta; pose proof (elems_small k Hk).
  assert (E3 : gpr s 3 = j) by apply H; assert (E9 : gpr s 9 = r9) by apply H.
  assert (X : exec (if b then INSTR_CREATE_bts (reg DR_REG_R9D) (reg DR_REG_EBX) else INSTR_CREATE_btr (reg DR_REG_R9D) (reg DR_REG_EBX)) s
              = exec_bit b DR_REG_R9D (reg DR_REG_EBX) s) by now destruct b.
  cbn [run]; rewrite X; unfold exec_bit.
  assert (R9 : gpr_reg DR_REG_R9D = Some (4%nat, 9, 0)) by reflexivity.
  assert (RB : gpr_reg DR_REG_EBX = Some (4%nat, 3, 0)) by reflexivity.
  reg_facts R9; cbn [obind]; rewrite (read_src_reg _ _ _ _ RB); cbn [obind Nat.eqb]; cbv zeta; reg_facts R9.
  change (bits_of 4) with 32; rewrite E3, E9, (wrap_id 32 j), Z.mod_small by lia; cbn [obind].
  eexists; split; [reflexivity|].
  match goal with |- at_elem _ _ _ _ (with_rflags (put _ _ _ ?v) ?f) =>
    pose proof (at_elem_put _ _ _ _ _ 4 9 v f H ltac:(unfold loop_regs; cbn; tauto)) as H1 end.
  exact H1.
Qed.

(** The next element. *)
Lemma run_next j r9 r11 s :
  at_elem s0 j r9 r11 s -> 0 <= j < elems k ->
  exists s', run (next_elem k) s = Some s' /\ at_elem s0 (j + 1) r9 r11 s' /\
    jcc_taken OP_jl (rflags s') = Some (j + 1 <? elems k).
Proof.
  intros H Hj; pose proof (elems_small k Hk).
  assert (E3 : gpr s 3 = j) by apply H.
  assert (RB : gpr_reg DR_REG_EBX = Some (4%nat, 3, 0)) by reflexivity.
  unfold next_elem; cbn [run]; change (exec (INSTR_CREATE_inc (reg DR_REG_EBX)) s) with (exec_inc DR_REG_EBX s); unfold exec_inc.
  reg_facts RB; cbn [obind]; reg_facts RB; change (bits_of 4) with 32; rewrite E3, (wrap_id 32 j) by lia; cbn [obind].
  set (s1 := with_rflags _ _).
  pose proof (at_elem_put _ _ _ _ _ 4 3 (j + 1) (inc_flags 32 j (rflags s)) H ltac:(unfold loop_regs; cbn; tauto)) as H1.
  fold s1 in H1; cbn [Z.eqb Pos.eqb] in H1; unfold merge_gpr in H1; cbn [Nat.leb] in H1; change (bits_of 4) with 32 in H1.
  rewrite wrap_id in H1 by lia.
  change (opnd_create_immed_int (elems k) OPSZ_4) with (OPND_IMM (elems k) OPSZ_4).
  rewrite (exec_cmp_src s1 _ 4 3 _ _ RB (read_src_imm s1 4 (elems k) OPSZ_4 ltac:(cbn; lia) ltac:(cbn; lia))); cbn [obind].
  eexists; split; [reflexivity|split; [now apply at_elem_flags|]].
  assert (E : imm_value 4 (elems k) OPSZ_4 = elems k) by (clear -Hk; destruct Hk as [-> | ->]; reflexivity).
  assert (E1 : gpr s1 3 = j + 1) by apply H1.
  cbn [rflags with_rflags]; rewrite E, E1; change (bits_of 4) with 32; rewrite wrap_id by lia.
  rewrite taken_jl by lia; unfold signed; change (2 ^ (32 - 1)) with 2147483648.
  replace (2147483648 <=? j + 1) with false by (symmetry; apply Z.leb_gt; lia).
  now replace (2147483648 <=? elems k) with false by (symmetry; apply Z.leb_gt; lia).
Qed.

(** The bit of the element is tested in the copy of the mask. *)
Lemma run_test_bit j r9 r11 s :
  at_elem s0 j r9 r11 s -> 0 <= j < elems k ->
  exists s', run (firstn 4 test_bit) s = Some s' /\ at_elem s0 j r9 r11 s' /\
    jcc_taken OP_jz (rflags s') = Some (negb (Z.testbit r11 j)).
Proof.
  intros H Hj; pose proof (elems_small k Hk); unfold test_bit; cbn [firstn].
  change (opnd_create_immed_int 1 OPSZ_4) with (OPND_IMM 1 OPSZ_4).
  rewrite (run_mov_imm _ _ _ 4 12) by reflexivity; change (imm_value 4 1 OPSZ_4) with 1.
  pose proof (at_elem_put _ _ _ _ _ 4 12 1 (rflags s) H ltac:(unfold loop_regs; cbn; tauto)) as H1.
  change (with_rflags (put s 4 12 1) (rflags s)) with (put s 4 12 1) in H1; cbn [Z.eqb Pos.eqb] in H1.
  set (s1 := put s 4 12 1) in *; cbn [run].
  assert (E1 : exec (INSTR_CREATE_mov_ld (reg DR_REG_CL) (reg DR_REG_BL)) s1 = Some (put s1 1 1 (wrap 8 (gpr s1 3)))).
  { change (exec _ s1) with (let? n := gpr_size DR_REG_CL in let? v := read_src s1 n (opnd_create_reg DR_REG_BL) in write_gpr s1 DR_REG_CL v).
    assert (RC : gpr_reg DR_REG_CL = Some (1%nat, 1, 0)) by reflexivity.
    reg_facts RC; cbn [obind]; rewrite (read_src_reg s1 DR_REG_BL 1 3 eq_refl); cbn [obind]; now reg_facts RC. }
  rewrite E1; cbn [obind]; assert (E3 : gpr s1 3 = j) by apply H1; rewrite E3, (wrap_id 8 j) by lia.
  pose proof (at_elem_put _ _ _ _ _ 1 1 j (rflags s1) H1 ltac:(unfold loop_regs; cbn; tauto)) as H2.
  change (with_rflags (put s1 1 1 j) (rflags s1)) with (put s1 1 1 j) in H2; cbn [Z.eqb Pos.eqb] in H2.
  set (s2 := put s1 1 1 j) in *.
  assert (E2 : exists s3, exec (INSTR_CREATE_shl (reg DR_REG_R12D) (reg DR_REG_CL)) s2 = Some s3 /\
             at_elem s0 j r9 r11 s3 /\ wrap 32 (gpr s3 12) = 2 ^ j).
  { change (exec _ s2) with (let? v := read_gpr s2 DR_REG_CL in exec_shl DR_REG_R12D v s2).
    assert (RC : gpr_reg DR_REG_CL = Some (1%nat, 1, 0)) by reflexivity.
    assert (R12 : gpr_reg DR_REG_R12D = Some (4%nat, 12, 0)) by reflexivity.
    reg_facts RC; cbn [obind]; unfold s2 at 1; rewrite read_put; change (bits_of 1) with 8; rewrite (wrap_id 8 j) by lia.
    assert (V : wrap 32 (gpr s2 12) = 1) by (unfold s2; rewrite gpr_put_other by lia; unfold s1; exact (read_put s 4 12 1)).
    unfold exec_shl; reg_facts R12; cbn [obind Nat.eqb]; cbv zeta; change (bits_of 4) with 32; rewrite V, (wrap_id 5 j) by lia.
    destruct (Z.eqb_spec j 0) as [->|]; [exists s2; auto|]; reg_facts R12; cbn [obind].
    eexists; split; [reflexivity|split].
    - match goal with |- at_elem _ _ _ _ (with_rflags (put _ _ _ ?v) ?f) =>
        exact (at_elem_put _ _ _ _ _ 4 12 v f H2 ltac:(unfold loop_regs; cbn; tauto)) end.
    - rewrite gpr_rflags; change 32 with (bits_of 4); rewrite read_put; change (bits_of 4) with 32.
      rewrite Z.mul_1_l; apply wrap_id; split; [apply Z.pow_nonneg; lia|apply Z.pow_lt_mono_r; lia]. }
  destruct E2 as (s3 & E2 & H3 & V); rewrite E2; cbn [obind].
  assert (E11 : gpr s3 11 = r11) by apply H3.
  unfold INSTR_CREATE_test, instr_create_0dst_2src; rewrite exec_test; unfold exec_flags.
  assert (R12 : gpr_reg DR_REG_R12D = Some (4%nat, 12, 0)) by reflexivity.
  reg_facts R12; cbn [obind]; rewrite (read_src_reg s3 DR_REG_R11D 4 11 eq_refl); cbn [obind]; change (bits_of 4) with 32.
  rewrite V, E11; eexists; split; [reflexivity|split; [now apply at_elem_flags|]].
  unfold jcc_taken; cbn [rflags with_rflags]; unfold logic_fl; rewrite logic_ZF, pow2_test by lia; reflexivity.
Qed.
End Rounds.

(** ** The loops *)

Section Loop.
Context (k : nat) (Hk : k = 2%nat \/ k = 4%nat) (jcc : opcode) (Hj : In jcc cmp_conds).
Context (s0 : mach) (Hs0 : wf_mach s0) (A B : Z -> Z).
Context (Hroom : rsp s0 + 64 <= 2 ^ 64).
Context (HA : forall i, 0 <= i < elems k -> load k (mem s0) (rsp s0 + Z.of_nat k * i) = A i).
Context (HB : forall i, 0 <= i < elems k -> load k (mem s0) (rsp s0 + 32 + Z.of_nat k * i) = B i).

(** The bits decided before element [j]; [sel] tells the selected elements and
    [start] has the bits the loop began with. *)
Definition decided (sel : Z -> bool) (start j r9 : Z) : Prop :=
  forall i, 0 <= i < elems k ->
    Z.testbit r9 i = if (i <? j) && sel i then cmp_rel jcc (A i) (B i) else Z.testbit start i.

Lemma decided_skip sel start j r9 : sel j = false -> decided sel start j r9 -> decided sel start (j + 1) r9.
Proof.
  intros Hs H i Hi; rewrite H by assumption; destruct (Z.eq_dec i j) as [->|Hn].
  - rewrite Hs, !andb_false_r; reflexivity.
  - replace (i <? j + 1) with (i <? j) by (zcases; first [reflexivity|lia]); reflexivity.
Qed.

Lemma decided_set sel start j r9 (b : bool) :
  sel j = true -> cmp_rel jcc (A j) (B j) = b -> 0 <= j -> decided sel start j r9 ->
  decided sel start (j + 1) (wrap 32 (if b then Z.setbit (wrap 32 r9) j else Z.clearbit (wrap 32 r9) j)).
Proof.
  intros Hs Hb Hj0 H i Hi; pose proof (elems_small k Hk).
  rewrite wrap_testbit, (proj2 (Z.ltb_lt i 32)) by lia; cbn [andb].
  destruct (Z.eq_dec i j) as [->|Hn].
  - rewrite (proj2 (Z.ltb_lt j (j + 1))), Hs, Hb by lia; cbn [andb].
    destruct b; [apply Z.setbit_eq; lia|apply Z.clearbit_eq].
  - assert (E : Z.testbit (wrap 32 r9) i = Z.testbit r9 i) by (rewrite wrap_testbit, (proj2 (Z.ltb_lt i 32)) by lia; reflexivity).
    replace (i <? j + 1) with (i <? j) by (zcases; first [reflexivity|lia]); rewrite <- H, <- E by assumption.
    destruct b; [apply Z.setbit_neq; lia|apply Z.clearbit_neq; lia].
Qed.

Section K0.
Context (early : bool).
Let code := loop_k0 k jcc early.

Lemma loop_k0_labels :
  find_label LOOP code = Some 0%nat /\ find_label MATCH code = Some 10%nat /\
  find_label DONE code = Some (if early then 14 else 15)%nat.
Proof.
  unfold code; clear code; clear -Hk Hj; destruct Hk as [-> | ->]; unfold cmp_conds in Hj; cbn [In] in Hj;
    decompose [or] Hj; try contradiction; subst jcc; destruct early; repeat split; reflexivity.
Qed.

(** The end of a round, at its first or second copy. *)
Lemma k0_next (p : nat) j r9 r11 s :
  p = 6%nat \/ p = 12%nat -> at_elem s0 j r9 r11 s -> 0 <= j < elems k ->
  exists s', at_elem s0 (j + 1) r9 r11 s' /\ reaches code p s (if j + 1 <? elems k then 0%nat else 16%nat) s'.
Proof.
  intros Hp H Hjr; destruct (run_next k Hk s0 j r9 r11 s H Hjr) as (s' & R & H' & T).
  destruct loop_k0_labels as (L & M & D).
  exists s'; split; [exact H'|].
  eapply reaches_trans; [apply (reaches_seg code p (next_elem k)); [destruct Hp; subst p; destruct early; reflexivity|exact R]|].
  destruct Hp as [-> | ->]; cbn [length next_elem Nat.add].
  - apply (reaches_jcc code 8 s' OP_jl LOOP (j + 1 <? elems k) 0%nat); [reflexivity|exact T|exact L|].
    destruct (j + 1 <? elems k); [apply reaches_refl|].
    apply (reaches_jmp code 9 s' DONE _ _ _ eq_refl D).
    destruct early.
    + apply (reaches_label code 14 s' DONE _ _ eq_refl).
      apply (reaches_jcc code 15 s' OP_jl LOOP false 0%nat); [reflexivity|exact T|exact L|apply reaches_refl].
    + apply (reaches_label code 15 s' DONE _ _ eq_refl), reaches_refl.
  - destruct early.
    + apply (reaches_label code 14 s' DONE _ _ eq_refl).
      apply (reaches_jcc code 15 s' OP_jl LOOP (j + 1 <? elems k) 0%nat); [reflexivity|exact T|exact L|].
      destruct (_ <? _); apply reaches_refl.
    + apply (reaches_jcc code 14 s' OP_jl LOOP (j + 1 <? elems k) 0%nat); [reflexivity|exact T|exact L|].
      destruct (_ <? _); [apply reaches_refl|]; apply (reaches_label code 15 s' DONE _ _ eq_refl), reaches_refl.
Qed.

(** A whole round. *)
Lemma k0_round start j r9 r11 s :
  at_elem s0 j r9 r11 s -> decided (fun _ => true) start j r9 -> 0 <= j < elems k ->
  exists r9' s', at_elem s0 (j + 1) r9' r11 s' /\ decided (fun _ => true) start (j + 1) r9' /\
    reaches code 0 s (if j + 1 <? elems k then 0%nat else 16%nat) s'.
Proof.
  intros H Hd Hjr; destruct loop_k0_labels as (_ & M & _).
  destruct (run_compare k Hk s0 Hs0 A B Hroom HA HB j r9 r11 s H Hjr) as (s1 & R1 & H1 & F1).
  pose proof (A_range k Hk s0 Hs0 A HA j Hjr) as RA; pose proof (B_range k Hk s0 Hs0 B HB j Hjr) as RB.
  pose proof (taken_cmp jcc (A j) (B j) (rflags s) Hj RA RB) as T; rewrite <- F1 in T.
  pose proof (decided_set (fun _ => true) start j r9 _ eq_refl eq_refl ltac:(lia) Hd) as Hd'.
  destruct (run_bit k Hk s0 (cmp_rel jcc (A j) (B j)) j r9 r11 s1 H1 Hjr) as (s2 & R2 & H2).
  destruct (k0_next (if cmp_rel jcc (A j) (B j) then 12 else 6) j _ r11 s2 ltac:(destruct (cmp_rel _ _ _); auto) H2 Hjr)
    as (s3 & H3 & R3).
  eexists; exists s3; split; [exact H3|split; [exact Hd'|]].
  apply (reaches_label code 0 s LOOP _ _ eq_refl).
  eapply reaches_trans; [eapply (reaches_seg code 1); [|exact R1]; reflexivity|].
  apply (reaches_jcc code 4 s1 jcc MATCH (cmp_rel jcc (A j) (B j)) 10%nat); [reflexivity|exact T|exact M|].
  destruct (cmp_rel jcc (A j) (B j)).
  - apply (reaches_label code 10 s1 MATCH _ _ eq_refl).
    eapply reaches_trans; [eapply (reaches_seg code 11); [|exact R2]; reflexivity|exact R3].
  - eapply reaches_trans; [eapply (reaches_seg code 5); [|exact R2]; reflexivity|exact R3].
Qed.

(** The loop ends with every bit decided. *)
Lemma loop_k0_runs s :
  at_elem s0 0 (gpr s 9) (gpr s 11) s ->
  exists r9 r11 s', reaches code 0 s (length code) s' /\ at_elem s0 (elems k) r9 r11 s' /\
    decided (fun _ => true) (gpr s 9) (elems k) r9.
Proof.
  intros H; pose proof (elems_small k Hk) as Hn; set (start := gpr s 9).
  destruct (reaches_count code (fun j t => exists r9, at_elem s0 j r9 (gpr s 11) t /\ decided (fun _ => true) start j r9)
              0 16 (elems k) s) as (s' & (r9 & H' & Hd) & R).
  - intros j t Hjr (r9 & Ht & Hd); destruct (k0_round start j r9 _ t Ht Hd Hjr) as (r9' & t' & Ht' & Hd' & R); eauto.
  - lia.
  - exists start; split; [exact H|]; intros i Hi; now rewrite (proj2 (Z.ltb_ge i 0)) by lia.
  - exists r9, (gpr s 11), s'; split; [|auto].
    replace (length code) with 16%nat by (unfold code; destruct early; reflexivity); exact R.
Qed.
End K0.

Section Masked.
Context (hoisted : bool).
Let code := loop_masked k jcc DR_REG_EBX hoisted.
Let sel := Z.testbit (gpr s0 10).

Definition loop_head : nat := if hoisted then 1%nat else 0%nat.

Lemma loop_masked_labels :
  find_label LOOP code = Some loop_head /\ find_label SKIP code = Some 12%nat /\
  find_label MATCH code = Some 17%nat /\ find_label DONE code = Some 22%nat.
Proof.
  unfold code, loop_head; clear code; clear -Hk Hj; destruct Hk as [-> | ->]; unfold cmp_conds in Hj; cbn [In] in Hj;
    decompose [or] Hj; try contradiction; subst jcc; destruct hoisted; repeat split; reflexivity.
Qed.

(** At the head of the loop [r11] may be anything unless the copy is outside. *)
Definition at_head (j r9 : Z) (s : mach) : Prop :=
  exists r11, at_elem s0 j r9 r11 s /\ (hoisted = true -> r11 = gpr s0 10).

Lemma masked_entry j r9 s :
  at_head j r9 s -> exists s', at_elem s0 j r9 (gpr s0 10) s' /\ reaches code loop_head s 2 s'.
Proof.
  intros (r11 & H & Hh); unfold loop_head; destruct hoisted.
  - exists s; split; [now rewrite <- Hh|]; apply (reaches_label code 1 s LOOP _ _ eq_refl), reaches_refl.
  - destruct (run_copy s0 j r9 r11 s Hs0 H) as (s' & R & H'); exists s'; split; [exact H'|].
    apply (reaches_label code 0 s LOOP _ _ eq_refl); eapply (reaches_seg code 1 [copy_mask]); [reflexivity|exact R].
Qed.

Lemma masked_next (p : nat) j r9 s :
  p = 13%nat \/ p = 19%nat -> at_elem s0 j r9 (gpr s0 10) s -> 0 <= j < elems k ->
  exists s', at_elem s0 (j + 1) r9 (gpr s0 10) s' /\ reaches code p s (if j + 1 <? elems k then loop_head else 23%nat) s'.
Proof.
  intros Hp H Hjr; destruct (run_next k Hk s0 j r9 _ s H Hjr) as (s' & R & H' & T).
  destruct loop_masked_labels as (L & _ & M & D).
  exists s'; split; [exact H'|].
  eapply reaches_trans; [apply (reaches_seg code p (next_elem k)); [destruct Hp; subst p; destruct hoisted; reflexivity|exact R]|].
  destruct Hp as [-> | ->]; cbn [length next_elem Nat.add].
  - apply (reaches_jcc code 15 s' OP_jl LOOP (j + 1 <? elems k) loop_head); [destruct hoisted; reflexivity|exact T|exact L|].
    destruct (j + 1 <? elems k); [apply reaches_refl|].
    apply (reaches_jmp code 16 s' DONE 22); [destruct hoisted; reflexivity|exact D|].
    apply (reaches_label code 22 s' DONE); [destruct hoisted; reflexivity|apply reaches_refl].
  - apply (reaches_jcc code 21 s' OP_jl LOOP (j + 1 <? elems k) loop_head); [destruct hoisted; reflexivity|exact T|exact L|].
    destruct (_ <? _); [apply reaches_refl|].
    apply (reaches_label code 22 s' DONE); [destruct hoisted; reflexivity|apply reaches_refl].
Qed.

(** A selected element is decided by the comparison. *)
Lemma masked_decide start j r9 s :
  at_elem s0 j r9 (gpr s0 10) s -> decided sel start j r9 -> 0 <= j < elems k -> sel j = true ->
  exists r9' s', at_elem s0 (j + 1) r9' (gpr s0 10) s' /\ decided sel start (j + 1) r9' /\
    reaches code 7 s (if j + 1 <? elems k then loop_head else 23%nat) s'.
Proof.
  intros H Hd Hjr Hsel; destruct loop_masked_labels as (_ & _ & M & _).
  destruct (run_compare k Hk s0 Hs0 A B Hroom HA HB j r9 _ s H Hjr) as (s1 & R1 & H1 & F1).
  pose proof (A_range k Hk s0 Hs0 A HA j Hjr) as RA; pose proof (B_range k Hk s0 Hs0 B HB j Hjr) as RB.
  pose proof (taken_cmp jcc (A j) (B j) (rflags s) Hj RA RB) as T; rewrite <- F1 in T.
  pose proof (decided_set sel start j r9 _ Hsel eq_refl ltac:(lia) Hd) as Hd'.
  destruct (run_bit k Hk s0 (cmp_rel jcc (A j) (B j)) j r9 _ s1 H1 Hjr) as (s2 & R2 & H2).
  destruct (masked_next (if cmp_rel jcc (A j) (B j) then 19 else 13) j _ s2 ltac:(destruct (cmp_rel _ _ _); auto) H2 Hjr)
    as (s3 & H3 & R3).
  eexists; exists s3; split; [exact H3|split; [exact Hd'|]].
  eapply reaches_trans; [eapply (reaches_seg code 7); [|exact R1]; destruct hoisted; reflexivity|].
  apply (reaches_jcc code 10 s1 jcc MATCH (cmp_rel jcc (A j) (B j)) 17%nat); [destruct hoisted; reflexivity|exact T|exact M|].
  destruct (cmp_rel jcc (A j) (B j)).
  - apply (reaches_label code 17 s1 MATCH); [destruct hoisted; reflexivity|].
    eapply reaches_trans; [eapply (reaches_seg code 18); [|exact R2]; destruct hoisted; reflexivity|exact R3].
  - eapply reaches_trans; [eapply (reaches_seg code 11); [|exact R2]; destruct hoisted; reflexivity|].
    apply (reaches_label code 12 s2 SKIP); [destruct hoisted; reflexivity|exact R3].
Qed.

Lemma masked_round start j r9 s :
  at_head j r9 s -> decided sel start j r9 -> 0 <= j < elems k ->
  exists r9' s', at_head (j + 1) r9' s' /\ decided sel start (j + 1) r9' /\
    reaches code loop_head s (if j + 1 <? elems k then loop_head else 23%nat) s'.
Proof.
  intros H Hd Hjr; destruct (masked_entry j r9 s H) as (s1 & H1 & R1); destruct loop_masked_labels as (_ & S & _).
  destruct (run_test_bit k Hk s0 j r9 _ s1 H1 Hjr) as (s2 & R2 & H2 & T).
  assert (R12 : forall q s', reaches code (if negb (sel j) then 12 else 7) s2 q s' -> reaches code loop_head s q s').
  { intros q s' R; eapply reaches_trans; [exact R1|].
    eapply reaches_trans; [eapply (reaches_seg code 2); [|exact R2]; destruct hoisted; reflexivity|].
    apply (reaches_jcc code 6 s2 OP_jz SKIP (negb (sel j)) 12%nat); [destruct hoisted; reflexivity|exact T|exact S|exact R]. }
  destruct (sel j) eqn:Hsel; cbn [negb] in R12.
  - destruct (masked_decide start j r9 s2 H2 Hd Hjr Hsel) as (r9' & s3 & H3 & Hd' & R3).
    exists r9', s3; split; [exists (gpr s0 10); auto|auto].
  - destruct (masked_next 13 j r9 s2 ltac:(auto) H2 Hjr) as (s3 & H3 & R3).
    exists r9, s3; split; [exists (gpr s0 10); auto|split; [now apply decided_skip|]].
    apply R12, (reaches_label code 12 s2 SKIP); [destruct hoisted; reflexivity|exact R3].
Qed.

Lemma loop_masked_runs s :
  at_elem s0 0 (gpr s 9) (gpr s 11) s ->
  exists r9 r11 s', reaches code 0 s (length code) s' /\ at_elem s0 (elems k) r9 r11 s' /\
    decided sel (gpr s 9) (elems k) r9.
Proof.
  intros H; pose proof (elems_small k Hk) as Hn; set (start := gpr s 9) in *.
  assert (Hhead : exists s1, at_head 0 start s1 /\ reaches code 0 s loop_head s1).
  { unfold at_head, loop_head; destruct hoisted; [|exists s; split; [eexists; split; [exact H|discriminate]|apply reaches_refl]].
    destruct (run_copy s0 0 start _ s Hs0 H) as (s1 & R & H'); exists s1; split; [eauto|].
    eapply (reaches_seg code 0 [copy_mask]); [reflexivity|exact R]. }
  destruct Hhead as (s1 & H1 & R1).
  destruct (reaches_count code (fun j t => exists r9, at_head j r9 t /\ decided sel start j r9) loop_head 23 (elems k) s1)
    as (s' & (r9 & (r11 & H' & _) & Hd) & R).
  - intros j t Hjr (r9 & Ht & Hd); destruct (masked_round start j r9 t Ht Hd Hjr) as (r9' & t' & Ht' & Hd' & R); eauto.
  - lia.
  - exists start; split; [exact H1|]; intros i Hi; now rewrite (proj2 (Z.ltb_ge i 0)) by lia.
  - exists r9, r11, s'; split; [|auto].
    replace (length code) with 23%nat by (unfold code; destruct hoisted; reflexivity); eapply reaches_trans; eauto.
Qed.
End Masked.
End Loop.
