(* ===== verification/CmpSpec.v ===== *)
(** * The comparisons compute the documented masks

    The emitted code saves the registers it uses, copies the operands to the
    stack, runs the loop of [CmpLoop], writes the mask to TLS and restores
    everything.  The theorems state the documented instruction for the
    sequences that implement it, and the merging variant for the others. *)
From Stdlib Require Import ZArith List Bool Lia.
From S2P Require Import Prelude Regs Spill Bytes Lanes Machine Arch512 SymExec ScalarExec MaskSpec Jumps Loops GenCmp CmpLoop.
Import ListNotations.
#[local] Open Scope Z_scope.
#[local] Open Scope bool_scope.
#[local] Open Scope rw_scope.

(** ** Masks *)

(** The mask whose bit [i] is [f i], for [i] below [n]. *)
Fixpoint mask_of (n : nat) (f : Z -> bool) : Z :=
  match n with
  | O => 0
  | S m => if f (Z.of_nat m) then Z.setbit (mask_of m f) (Z.of_nat m) else mask_of m f
  end.

Lemma mask_of_testbit n f i : 0 <= i -> Z.testbit (mask_of n f) i = (i <? Z.of_nat n) && f i.
Proof.
  intros Hi; induction n as [|n IH]; cbn [mask_of]; [now rewrite Z.bits_0, (proj2 (Z.ltb_ge i (Z.of_nat 0))) by lia|].
  rewrite Nat2Z.inj_succ; destruct (Z.eq_dec i (Z.of_nat n)) as [->|Hne].
  - rewrite (proj2 (Z.ltb_lt _ (Z.succ _))) by lia; destruct (f (Z.of_nat n)) eqn:E; cbn [andb]; [apply Z.setbit_eq; lia|].
    now rewrite IH, (proj2 (Z.ltb_ge _ _)) by lia.
  - replace (i <? Z.succ (Z.of_nat n)) with (i <? Z.of_nat n) by (zcases; first [reflexivity|lia]).
    destruct (f (Z.of_nat n)); [rewrite Z.setbit_neq by lia|]; exact IH.
Qed.

Lemma mask_of_ext n f g : (forall i, 0 <= i < Z.of_nat n -> f i = g i) -> mask_of n f = mask_of n g.
Proof.
  intros H; apply Z.bits_inj'; intros i Hi; rewrite !mask_of_testbit by assumption.
  destruct (Z.ltb_spec i (Z.of_nat n)); cbn [andb]; auto.
Qed.

Lemma mask_of_range n f : 0 <= mask_of n f < 2 ^ Z.of_nat n.
Proof.
  replace (mask_of n f) with (wrap (Z.of_nat n) (mask_of n f)); [apply wrap_range; lia|].
  apply Z.bits_inj'; intros i Hi; rewrite wrap_testbit, mask_of_testbit by lia; now destruct (_ <? _).
Qed.

(** The low bits of a register as a mask. *)
Lemma mask_of_bits n f v :
  (forall i, 0 <= i < Z.of_nat n -> Z.testbit v i = f i) -> wrap (Z.of_nat n) v = mask_of n f.
Proof.
  intros H; apply Z.bits_inj'; intros i Hi; rewrite wrap_testbit, mask_of_testbit by lia.
  destruct (Z.ltb_spec i (Z.of_nat n)); cbn [andb]; auto.
Qed.

(** ** Instructions *)

(** Element [i] of size [k] bytes of a vector. *)
Definition vec_elem (k : nat) (v : Z -> Z) (i : Z) : Z :=
  let per := 16 / Z.of_nat k in elem (bits_of k) (v (i / per)) (i mod per).

(** The documented instruction on 256-bit vectors [x] and [y]: the elements the
    mask register [m] selects (all for [k0]) are compared, the other bits are
    zero. *)
Definition vpcmp_of (k : nat) (rel : Z -> Z -> bool) (m d : Z) (x y : Z -> Z) (g : guest) : guest :=
  set_k g d (mask_of (Z.to_nat (elems k)) (fun i =>
    ((m =? 0) || Z.testbit (g_k g m) i) && rel (vec_elem k x i) (vec_elem k y i))).

(** The variant that keeps the destination's bits where the mask is clear, and
    takes [k0] for a mask like any other. *)
Definition vpcmp_merge_of (k : nat) (rel : Z -> Z -> bool) (m d : Z) (x y : Z -> Z) (g : guest) : guest :=
  set_k g d (mask_of (Z.to_nat (elems k)) (fun i =>
    if Z.testbit (g_k g m) i then rel (vec_elem k x i) (vec_elem k y i) else Z.testbit (g_k g d) i)).

(** Operands in registers, and the second one in memory. *)
Definition mem_vec (g : guest) (addr l : Z) : Z := load 16 (g_mem g) (addr + 16 * l).

Definition vpcmp (k : nat) (rel : Z -> Z -> bool) (m d a b : Z) (g : guest) : guest :=
  vpcmp_of k rel m d (g_zmm g a) (g_zmm g b) g.
Definition vpcmp_merge (k : nat) (rel : Z -> Z -> bool) (m d a b : Z) (g : guest) : guest :=
  vpcmp_merge_of k rel m d (g_zmm g a) (g_zmm g b) g.
Definition vpcmp_mem (k : nat) (rel : Z -> Z -> bool) (m d a addr : Z) (g : guest) : guest :=
  vpcmp_of k rel m d (g_zmm g a) (mem_vec g addr) g.
Definition vpcmp_merge_mem (k : nat) (rel : Z -> Z -> bool) (m d a addr : Z) (g : guest) : guest :=
  vpcmp_merge_of k rel m d (g_zmm g a) (mem_vec g addr) g.

(** The relations of the predicates, on doublewords. *)
Definition rel_eq (a b : Z) : bool := a =? b.
Definition rel_neq (a b : Z) : bool := negb (a =? b).
Definition rel_le (a b : Z) : bool := signed 32 a <=? signed 32 b.
Definition rel_nle (a b : Z) : bool := negb (signed 32 a <=? signed 32 b).

(** ** Elements in memory *)

Lemma load_part n k m a d :
  wf_memory m -> 0 <= d -> d + Z.of_nat n <= Z.of_nat k ->
  load n m (a + d) = (load k m a / 256 ^ d) mod 256 ^ Z.of_nat n.
Proof.
  intros Hm Hd Hle; set (d' := Z.to_nat d).
  replace k with (d' + (n + (k - d' - n)))%nat by (unfold d'; lia).
  rewrite load_add, load_add; replace (Z.of_nat d') with d by (unfold d'; lia).
  pose proof (load_range d' m a Hm) as Hr; replace (Z.of_nat d') with d in Hr by (unfold d'; lia).
  assert (0 < 256 ^ d) by (apply Z.pow_pos_nonneg; lia); assert (0 < 256 ^ Z.of_nat n) by (apply Z.pow_pos_nonneg; lia).
  rewrite (Z.mul_comm (256 ^ d)), Z.div_add, (Z.div_small _ _ Hr), Z.add_0_l by lia.
  rewrite (Z.mul_comm (256 ^ Z.of_nat n)), Z.mod_add by lia.
  symmetry; apply Z.mod_small, load_range, Hm.
Qed.

(** The elements of a vector stored as 16-byte lanes. *)
Lemma load_vec_elem k m a v i :
  k = 2%nat \/ k = 4%nat -> wf_memory m -> (forall l, 0 <= l < 2 -> load 16 m (a + 16 * l) = v l) ->
  0 <= i < elems k -> load k m (a + Z.of_nat k * i) = vec_elem k v i.
Proof.
  intros Hk Hm Hv Hi; unfold vec_elem, elem, wrap, bits_of; set (per := 16 / Z.of_nat k).
  assert (Hp : 0 < per /\ Z.of_nat k * per = 16 /\ elems k = 2 * per) by (unfold per; destruct Hk as [-> | ->]; cbn; lia).
  pose proof (Z.div_mod i per ltac:(lia)) as Ei; pose proof (Z.mod_pos_bound i per ltac:(lia)) as Bi.
  assert (Bl : 0 <= i / per < 2) by (split; [apply Z.div_pos; lia|apply Z.div_lt_upper_bound; lia]).
  rewrite <- Hv by assumption.
  replace (a + Z.of_nat k * i) with (a + 16 * (i / per) + Z.of_nat k * (i mod per)) by (rewrite Ei at 3; nia).
  rewrite (load_part k 16) by (assumption || nia).
  rewrite <- Z.mul_assoc, !(Z.pow_mul_r 2 8) by nia; reflexivity.
Qed.

(** ** Saving and restoring *)

Definition saved_regs : list Z := [3; 1; 9; 10; 11; 12; 13; 14].

(** [s1] is [s] after the pushes of [n] quadwords. *)
Definition pushed (n : Z) (s s1 : mach) : Prop :=
  wf_mach s1 /\ simd s1 = simd s /\ tls s1 = tls s /\ rflags s1 = rflags s /\ rsp s1 = rsp s - 8 * n /\
  (forall j, j <> rsp_idx -> gpr s1 j = gpr s j) /\
  (forall a, ~ (rsp s - 8 * n <= a < rsp s) -> mem s1 a = mem s a).

Lemma pushed_push n s s1 v :
  0 <= n -> 8 * (n + 1) <= rsp s -> pushed n s s1 -> pushed (n + 1) s (push64 s1 v).
Proof.
  intros Hn Hsp (W & E1 & E2 & Ef & E3 & E4 & E5).
  assert (Er : rsp (push64 s1 v) = rsp s1 - 8) by (apply push64_rsp; [exact W|lia]).
  split; [now apply push64_wf|split; [exact E1|split; [exact E2|split; [exact Ef|split; [lia|split]]]]].
  - intros j Hj; rewrite push64_gpr by assumption; auto.
  - intros a Ha; rewrite <- E5 by lia; change (mem (push64 s1 v)) with (store 8 (mem s1) (rsp (push64 s1 v)) v).
    unfold store; change (Z.of_nat 8) with 8; destruct (Z.leb_spec (rsp (push64 s1 v)) a), (Z.ltb_spec a (rsp (push64 s1 v) + 8)); cbn [andb]; auto; lia.
Qed.

Abbreviation reserve := (INSTR_CREATE_sub (reg DR_REG_RSP) (opnd_create_immed_int (SIZE_OF_YMM * 2) OPSZ_4)).
Abbreviation release := (INSTR_CREATE_add (reg DR_REG_RSP) (opnd_create_immed_int (SIZE_OF_YMM * 2) OPSZ_4)).

(** The code runs and leaves TLS as [Q] says. *)
Definition scalarq (Q : memory -> Prop) (n : Z) (clob : list Z) (code : list instr_t) (s : mach) (f' : Z) : Prop :=
  exists t', Q t' /\ scalarl n clob code s t' f'.

(** One more register, or the flags. *)
Section Nested.
Context (s : mach) (Q : memory -> Prop) (m n : Z) (Hm : 0 <= m) (Hn : 0 <= n) (Hsp : 8 * (m + 1 + n) <= rsp s).

Lemma nested_push r i clob body s1 f' :
  gpr_reg r = Some (8%nat, i, 0) -> i <> rsp_idx -> pushed m s s1 ->
  (forall s2, pushed (m + 1) s s2 -> scalarq Q n clob body s2 f') ->
  scalarq Q (n + 1) (remove Z.eq_dec i clob) (INSTR_CREATE_push (reg r) :: body ++ [INSTR_CREATE_pop (reg r)]) s1 f'.
Proof.
  intros Hr Hi P Hb; destruct (Hb _ (pushed_push m s s1 (gpr s1 i) Hm ltac:(lia) P)) as (t' & HQ & H).
  exists t'; split; [exact HQ|]; apply scalarl_push; try assumption; [apply P|].
  destruct P as (_ & _ & _ & _ & E & _); lia.
Qed.

Lemma nested_pushf clob body s1 :
  ~ In rsp_idx clob -> pushed m s s1 ->
  (forall s2, pushed (m + 1) s s2 -> exists f', scalarq Q n clob body s2 f') ->
  scalarq Q (n + 1) clob (INSTR_CREATE_pushf :: body ++ [INSTR_CREATE_popf]) s1 (rflags s).
Proof.
  intros Hc P Hb; destruct (Hb _ (pushed_push m s s1 (rflags s1) Hm ltac:(lia) P)) as (f' & t' & HQ & H).
  assert (Ef : rflags s1 = rflags s) by apply P.
  exists t'; split; [exact HQ|]; rewrite <- Ef; eapply scalarl_pushf; eauto; [apply P|].
  destruct P as (_ & _ & _ & _ & E & _); lia.
Qed.
End Nested.

(** A list of registers is saved around a body. *)
Definition saving (r : reg_id_t) (x : list instr_t) : list instr_t :=
  INSTR_CREATE_push (reg r) :: x ++ [INSTR_CREATE_pop (reg r)].

Lemma nested_pushes s Q f' n clob body rs : forall m s1,
  (forall r i, In (r, i) rs -> gpr_reg r = Some (8%nat, i, 0) /\ i <> rsp_idx) ->
  0 <= m -> 0 <= n -> 8 * (m + Z.of_nat (length rs) + n) <= rsp s -> pushed m s s1 ->
  (forall s2, pushed (m + Z.of_nat (length rs)) s s2 -> scalarq Q n clob body s2 f') ->
  scalarq Q (n + Z.of_nat (length rs)) (fold_right (remove Z.eq_dec) clob (map snd rs)) (fold_right saving body (map fst rs)) s1 f'.
Proof.
  induction rs as [|[r i] rs IH]; intros m s1 Hrs Hm Hn Hsp P Hb.
  - cbn [length fold_right map] in *; rewrite Z.add_0_r in *; auto.
  - cbn [fold_right map fst snd]; cbn [length] in *; rewrite Nat2Z.inj_succ in *; destruct (Hrs r i (or_introl eq_refl)).
    replace (n + Z.succ (Z.of_nat (length rs))) with (n + Z.of_nat (length rs) + 1) by lia.
    apply (nested_push s Q m (n + Z.of_nat (length rs))); auto; try lia.
    intros s2 P2; apply (IH (m + 1)); auto; try lia; [intros; apply Hrs; now right|].
    intros s3 P3; apply Hb; now replace (m + Z.succ (Z.of_nat (length rs))) with (m + 1 + Z.of_nat (length rs)) by lia.
Qed.

(** Code between [cmp_save] and [cmp_restore]: 17 quadwords of stack, and
    nothing changes but TLS. *)
Lemma cmp_bracket body s Q :
  wf_mach s -> 8 * 17 <= rsp s ->
  (forall s1, pushed 9 s s1 -> exists f', scalarq Q 8 saved_regs (reserve :: body ++ [release]) s1 f') ->
  scalarq Q 17 [] (cmp_save ++ body ++ cmp_restore) s (rflags s).
Proof.
  intros Hs Hsp Hb.
  set (names := [DR_REG_RBX; DR_REG_RCX; DR_REG_R9; DR_REG_R10; DR_REG_R11; DR_REG_R12; DR_REG_R13; DR_REG_R14]).
  set (inner := INSTR_CREATE_pushf :: (reserve :: body ++ [release]) ++ [INSTR_CREATE_popf]).
  assert (E : cmp_save ++ body ++ cmp_restore = fold_right saving inner names).
  { unfold cmp_save, cmp_restore, inner, names, saving; cbn [app fold_right]; repeat (rewrite <- app_assoc; cbn [app]); reflexivity. }
  rewrite E; clear E.
  apply (nested_pushes s Q (rflags s) 9 saved_regs inner (combine names saved_regs) 0 s); try lia.
  - intros r i H; cbn in H; decompose [or] H; try contradiction;
      match goal with E : (_, _) = _ |- _ => injection E as <- <- end; (split; [reflexivity|discriminate]).
  - cbn [length combine names saved_regs]; lia.
  - repeat split; auto; apply Hs || lia.
  - intros s1 P; apply (nested_pushf s Q 8 8); try lia; [unfold rsp_idx, saved_regs; cbn; lia|exact P|exact Hb].
Qed.

(** ** The code between *)

(** TLS as far as the view reads it. *)
Definition tls_same (t t1 : memory) : Prop :=
  (forall i l, 0 <= i < 32 -> 0 <= l < 4 -> 16 <= i \/ 2 <= l -> tls_lane t1 i l = tls_lane t i l) /\
  (forall k, 0 <= k < 8 -> tls_k t1 k = tls_k t k).

(** [s1] has room for two vectors at its stack pointer, below the saved registers of [s]. *)
Definition reserved (s s1 : mach) : Prop :=
  wf_mach s1 /\ simd s1 = simd s /\ tls s1 = tls s /\ rsp s1 = rsp s - 136 /\
  (forall a, ~ (rsp s - 136 <= a < rsp s) -> mem s1 a = mem s a).

(** The vectors [v1] and [v2] are stored in that room. *)
Definition stores_ok (s : mach) (v1 v2 : Z -> Z) (stores : list instr_t) : Prop :=
  forall s1, reserved s s1 ->
    exists s2, run stores s1 = Some s2 /\ gpr s2 = gpr s1 /\
      (forall i l, 0 <= i < 16 -> 0 <= l < 2 -> simd s2 i l = simd s1 i l) /\ tls_same (tls s1) (tls s2) /\
      (forall a, ~ (rsp s1 <= a < rsp s1 + 64) -> mem s2 a = mem s1 a) /\
      (forall l, 0 <= l < 2 -> load 16 (mem s2) (rsp s1 + 16 * l) = v1 l) /\
      (forall l, 0 <= l < 2 -> load 16 (mem s2) (rsp s1 + 32 + 16 * l) = v2 l).

(** The first values of the loop's registers; [ks] are the mask registers. *)
Definition init_ok (n : Z) (sel : Z -> Z -> bool) (start select : Z -> bool) (ks : Z -> Z) (init : list instr_t) : Prop :=
  forall s2, wf_mach s2 -> (forall k, 0 <= k < 8 -> tls_k (tls s2) k = ks k) ->
    exists s3, run init s2 = Some s3 /\ simd s3 = simd s2 /\ tls s3 = tls s2 /\ mem s3 = mem s2 /\
      (forall j, ~ In j [3; 9; 10] -> gpr s3 j = gpr s2 j) /\ gpr s3 3 = 0 /\
      (forall i, 0 <= i < n -> Z.testbit (gpr s3 9) i = start i /\ sel (gpr s3 10) i = select i).

(** The loop decides the bits [sel] picks. *)
Definition loop_ok (k : nat) (jcc : opcode) (sel : Z -> Z -> bool) (loop : list instr_t) : Prop :=
  forall s3 A B, wf_mach s3 -> rsp s3 + 64 <= 2 ^ 64 ->
    (forall i, 0 <= i < elems k -> load k (mem s3) (rsp s3 + Z.of_nat k * i) = A i) ->
    (forall i, 0 <= i < elems k -> load k (mem s3) (rsp s3 + 32 + Z.of_nat k * i) = B i) ->
    gpr s3 3 = 0 ->
    exists r9 r11 s4, reaches loop 0 s3 (length loop) s4 /\ at_elem s3 (elems k) r9 r11 s4 /\
      forall i, 0 <= i < elems k ->
        Z.testbit r9 i = if sel (gpr s3 10) i then cmp_rel jcc (A i) (B i) else Z.testbit (gpr s3 9) i.

Lemma at_elem_start s : gpr s 3 = 0 -> at_elem s 0 (gpr s 9) (gpr s 11) s.
Proof. repeat split; auto. Qed.

Lemma loop_k0_ok k jcc early :
  k = 2%nat \/ k = 4%nat -> In jcc cmp_conds -> loop_ok k jcc (fun _ _ => true) (loop_k0 k jcc early).
Proof.
  intros Hk Hj s3 A B W Hr HA HB H3.
  destruct (loop_k0_runs k Hk jcc Hj s3 W A B Hr HA HB early s3 (at_elem_start s3 H3)) as (r9 & r11 & s4 & R & H & D).
  exists r9, r11, s4; split; [exact R|split; [exact H|]]; intros i Hi.
  rewrite (D i Hi), (proj2 (Z.ltb_lt _ _)) by lia; reflexivity.
Qed.

Lemma loop_masked_ok k jcc hoisted :
  k = 2%nat \/ k = 4%nat -> In jcc cmp_conds -> loop_ok k jcc Z.testbit (loop_masked k jcc DR_REG_EBX hoisted).
Proof.
  intros Hk Hj s3 A B W Hr HA HB H3.
  destruct (loop_masked_runs k Hk jcc Hj s3 W A B Hr HA HB hoisted s3 (at_elem_start s3 H3)) as (r9 & r11 & s4 & R & H & D).
  exists r9, r11, s4; split; [exact R|split; [exact H|]]; intros i Hi.
  rewrite (D i Hi), (proj2 (Z.ltb_lt _ _)) by lia; reflexivity.
Qed.

(** Moving the stack pointer. *)
Lemma exec_move_rsp (down : bool) s :
  exists f, exec (if down then reserve else release) s = Some (with_rflags (put s 8 4 (wrap 64 (rsp s) + if down then -64 else 64)) f).
Proof.
  assert (R : gpr_reg DR_REG_RSP = Some (8%nat, 4, 0)) by reflexivity.
  destruct down;
    [change (exec reserve s) with (exec_alu Z.sub sub_flags (OPND_REG DR_REG_RSP) (OPND_IMM 64 OPSZ_4) s)
    |change (exec release s) with (exec_alu Z.add add_flags (OPND_REG DR_REG_RSP) (OPND_IMM 64 OPSZ_4) s)];
    unfold exec_alu; reg_facts R; cbn [obind]; rewrite (read_src_imm s 8 64 OPSZ_4) by (cbn; lia); cbn [obind];
    change (imm_value 8 64 OPSZ_4) with 64; reg_facts R; cbn [obind]; eexists; reflexivity.
Qed.

Lemma move_rsp (down : bool) s :
  wf_mach s -> 0 <= rsp s + (if down then -64 else 64) < 2 ^ 64 ->
  exists s', exec (if down then reserve else release) s = Some s' /\ wf_mach s' /\ simd s' = simd s /\ tls s' = tls s /\
    mem s' = mem s /\ rsp s' = rsp s + (if down then -64 else 64) /\ forall j, j <> rsp_idx -> gpr s' j = gpr s j.
Proof.
  intros W Hr; destruct (exec_move_rsp down s) as (f & E); eexists; split; [exact E|split; [exact (exec_wf _ _ _ W E)|]].
  repeat split.
  - unfold rsp at 1; rewrite gpr_rflags; cbn [gpr put with_gpr]; rewrite Z.eqb_refl; unfold merge_gpr; cbn [Nat.leb].
    change (bits_of 8) with 64; rewrite (wrap_id 64 (rsp s)) by apply W; now apply wrap_id.
  - intros j Hj; rewrite gpr_rflags; now apply gpr_put_other.
Qed.

(** What is written back: the whole slot for doublewords, its low word for words. *)
Definition written (k : nat) (old v : Z) : Z := match k with 2%nat => mask_keep 2 old v | _ => v end.

Lemma run_write k d s :
  k = 2%nat \/ k = 4%nat -> wf_mach s -> 0 <= d < 8 ->
  let v := wrap (elems k) (gpr s 9) in
  exists s', run (write_result k d) s = Some s' /\ simd s' = simd s /\ mem s' = mem s /\
    (forall j, j <> 9 -> gpr s' j = gpr s j) /\
    exists w, tls s' = store w (tls s) (32 + 8 * d) v /\ (w <= 8)%nat /\
      mask_keep w (tls_k (tls s) d) v = written k (tls_k (tls s) d) v.
Proof.
  intros Hk W Hd; cbv zeta.
  assert (R9 : gpr_reg DR_REG_R9D = Some (4%nat, 9, 0)) by reflexivity.
  assert (Hand : forall w, w = 8 \/ w = 16 -> Z.land (wrap 32 (gpr s 9)) (imm_value 4 (2 ^ w - 1) OPSZ_4) = wrap w (gpr s 9)).
  { intros w Hw; replace (imm_value 4 (2 ^ w - 1) OPSZ_4) with (2 ^ w - 1) by (destruct Hw; subst; reflexivity).
    rewrite land_ones_wrap, wrap_wrap_le by lia; reflexivity. }
  assert (Hw : forall w u, w <= u -> (w = 8 \/ w = 16) -> wrap u (wrap w (gpr s 9)) = wrap w (gpr s 9)).
  { intros w u Hu Hw; apply wrap_id; pose proof (wrap_range w (gpr s 9) ltac:(lia)); pose proof (Z.pow_le_mono_r 2 w u); lia. }
  destruct Hk as [-> | ->]; unfold write_result; rewrite TLS_K_idx_SLOT_eq by assumption.
  - change (opnd_create_immed_int 65535 OPSZ_4) with (OPND_IMM (2 ^ 16 - 1) OPSZ_4).
    rewrite (run_and_imm _ _ _ 4 9 R9) by (cbn; lia); rewrite (run_st _ _ DR_REG_R9W 2 9 eq_refl) by (reflexivity || lia).
    change (bits_of 4) with 32; rewrite Hand by auto; eexists; split; [reflexivity|].
    split; [reflexivity|split; [reflexivity|split; [intros j Hj; now apply gpr_put_other|]]].
    exists 2%nat; split; [|split; [lia|reflexivity]].
    cbn [tls with_tls]; rewrite gpr_rflags, tls_rflags, tls_put; f_equal.
    cbn [gpr put with_gpr]; rewrite Z.eqb_refl; unfold merge_gpr; cbn [Nat.leb]; change (bits_of 4) with 32.
    change (bits_of 2) with 16; rewrite Hw, Hw by (lia || auto); reflexivity.
  - change (opnd_create_immed_int 255 OPSZ_4) with (OPND_IMM (2 ^ 8 - 1) OPSZ_4).
    change (SAVE_TO_TLS DR_REG_R9) with (fun o => SAVE_TO_SIZED_TLS DR_REG_R9 o OPSZ_8); cbv beta.
    rewrite (run_and_imm _ _ _ 4 9 R9) by (cbn; lia); rewrite (run_st _ _ DR_REG_R9 8 9 eq_refl) by (reflexivity || lia).
    change (bits_of 4) with 32; rewrite Hand by auto; eexists; split; [reflexivity|].
    split; [reflexivity|split; [reflexivity|split; [intros j Hj; now apply gpr_put_other|]]].
    exists 8%nat; split; [|split; [lia|]].
    + cbn [tls with_tls]; rewrite gpr_rflags, tls_rflags, tls_put; f_equal.
      cbn [gpr put with_gpr]; rewrite Z.eqb_refl; unfold merge_gpr; cbn [Nat.leb]; change (bits_of 4) with 32.
      change (bits_of 8) with 64; rewrite Hw, Hw by (lia || auto); reflexivity.
    + rewrite mask_keep_zero by (apply (load_range 8), W); change (bits_of 8) with 64; apply Hw; cbn; lia || auto.
Qed.

Lemma pushed_reserved s s1 s2 :
  8 * 17 <= rsp s -> pushed 9 s s1 -> wf_mach s2 -> simd s2 = simd s1 -> tls s2 = tls s1 -> mem s2 = mem s1 ->
  rsp s2 = rsp s1 + -64 -> reserved s s2.
Proof.
  intros Hsp (W & E1 & E2 & E3 & E4 & E5 & E6) W2 S2 T2 M2 R2.
  split; [exact W2|split; [congruence|split; [congruence|split; [lia|]]]].
  intros a Ha; rewrite M2; apply E6; lia.
Qed.

Lemma k_update_same w t t1 d v :
  (w <= 8)%nat -> 0 <= d < 8 -> wf_memory t1 -> tls_same t t1 ->
  k_update t (store w t1 (32 + 8 * d) v) d (mask_keep w (tls_k t d) v).
Proof.
  intros Hw Hd Ht (Hl & Hk); destruct (k_update_store w t1 d v Hw Hd Ht) as (Ul & Uk); split.
  - intros i l Hi Hl' Hv; rewrite Ul by assumption; auto.
  - intros j Hj; rewrite Uk, Hk by assumption; destruct (j =? d); auto.
Qed.

Section Whole.
Context (k : nat) (Hk : k = 2%nat \/ k = 4%nat) (jcc : opcode) (d : Z) (Hd : 0 <= d < 8).
Context (stores init loop : list instr_t) (sel : Z -> Z -> bool) (start select : Z -> bool) (v1 v2 : Z -> Z).
Context (s : mach) (Hs : wf_mach s) (Hsp : 8 * 17 <= rsp s).
Context (Hstores : stores_ok s v1 v2 stores).
Context (Hinit : init_ok (elems k) sel start select (tls_k (tls s)) init).
Context (Hloop : loop_ok k jcc sel loop).

(** The mask the code computes. *)
Definition cmp_bits (i : Z) : bool :=
  if select i then cmp_rel jcc (vec_elem k v1 i) (vec_elem k v2 i) else start i.
Definition cmp_value : Z := written k (tls_k (tls s) d) (mask_of (Z.to_nat (elems k)) cmp_bits).

(** From the stores to the end of the loop. *)
Lemma cmp_before s2 :
  reserved s s2 ->
  exists s4 s5 r11 r9, run (stores ++ init) s2 = Some s4 /\ reaches loop 0 s4 (length loop) s5 /\
    at_elem s4 (elems k) r9 r11 s5 /\ wrap (elems k) r9 = mask_of (Z.to_nat (elems k)) cmp_bits /\ wf_mach s4 /\
    (forall i l, 0 <= i < 16 -> 0 <= l < 2 -> simd s4 i l = simd s2 i l) /\ tls_same (tls s2) (tls s4) /\
    (forall j, ~ In j [3; 9; 10] -> gpr s4 j = gpr s2 j) /\
    (forall a, ~ (rsp s2 <= a < rsp s2 + 64) -> mem s4 a = mem s2 a).
Proof.
  intros P; pose proof P as (W2 & E1 & E2 & E3 & E4).
  destruct (Hstores s2 P) as (s3 & R3 & G3 & S3 & T3 & M3 & L1 & L2).
  pose proof (run_wf _ _ _ W2 R3) as W3.
  destruct (Hinit s3 W3) as (s4 & R4 & S4 & T4 & M4 & G4 & Z4 & B4).
  { intros j Hj; rewrite (proj2 T3) by assumption; now rewrite E2. }
  pose proof (run_wf _ _ _ W3 R4) as W4.
  assert (Er : rsp s4 = rsp s2) by (unfold rsp; rewrite G4, G3 by (unfold rsp_idx; cbn; lia); reflexivity).
  assert (Hrange : 0 <= rsp s < 2 ^ 64) by apply Hs.
  destruct (Hloop s4 (vec_elem k v1) (vec_elem k v2) W4 ltac:(lia)) as (r9 & r11 & s5 & R5 & A5 & D5); try exact Z4.
  - intros i Hi; apply load_vec_elem; auto; [apply W4|]; intros l Hl; rewrite M4, Er; auto.
  - intros i Hi; apply load_vec_elem; auto; [apply W4|]; intros l Hl; rewrite M4, Er; auto.
  - exists s4, s5, r11, r9; split; [rewrite run_app, R3; exact R4|split; [exact R5|split; [exact A5|]]].
    split; [|split; [exact W4|split; [rewrite S4; exact S3|split; [rewrite T4; exact T3|split; [intros; rewrite G4, G3; auto|rewrite M4; exact M3]]]]].
    pose proof (elems_small k Hk); rewrite <- (Z2Nat.id (elems k)) at 1 by lia; apply mask_of_bits.
    rewrite Z2Nat.id by lia; intros i Hi; rewrite D5 by assumption; unfold cmp_bits; destruct (B4 i Hi) as (-> & ->); reflexivity.
Qed.

Lemma cmp_inner s1 :
  pushed 9 s s1 ->
  exists f', scalarq (fun t' => k_update (tls s) t' d cmp_value) 8 saved_regs
    (reserve :: (stores ++ init ++ loop ++ write_result k d) ++ [release]) s1 f'.
Proof.
  intros P; pose proof P as (W1 & P1 & P2 & _ & P4 & P5 & P6).
  assert (Hrange : 0 <= rsp s < 2 ^ 64) by apply Hs.
  destruct (move_rsp true s1 W1 ltac:(cbn; lia)) as (s2 & R2 & W2 & S2 & T2 & M2 & Q2 & G2); cbv iota in R2, Q2.
  pose proof (pushed_reserved s s1 s2 Hsp P W2 S2 T2 M2 Q2) as P'.
  destruct (cmp_before s2 P') as (s4 & s5 & r11 & r9 & R4 & R5 & A5 & V5 & W4 & S4 & T4 & G4 & M4).
  pose proof (reaches_wf _ _ _ _ _ W4 R5) as W5; destruct A5 as (S5 & T5 & M5 & G5 & _ & E9 & _).
  destruct (run_write k d s5 Hk W5 Hd) as (s6 & R6 & S6 & M6 & G6 & w & T6 & Hw & Ew); rewrite E9, V5 in T6, Ew.
  pose proof (run_wf _ _ _ W5 R6) as W6.
  assert (Er : rsp s6 = rsp s2) by (unfold rsp; rewrite G6, G5, G4 by (unfold rsp_idx, loop_regs; cbn; lia); reflexivity).
  destruct (move_rsp false s6 W6 ltac:(cbn; lia)) as (s7 & R7 & W7 & S7 & T7 & M7 & Q7 & G7); cbv iota in R7, Q7.
  exists (rflags s7), (tls s7); split; [|exists s7; split].
  - rewrite T7, T6, T5; unfold cmp_value; rewrite T5 in Ew; pose proof T4 as (_ & Kd).
    rewrite T2, P2 in T4, Kd; rewrite (Kd d Hd) in Ew; rewrite <- Ew; apply k_update_same; auto; apply W4.
  - replace (reserve :: (stores ++ init ++ loop ++ write_result k d) ++ [release])
      with ((reserve :: stores ++ init) ++ loop ++ (write_result k d ++ [release]))
      by (cbn [app]; now rewrite <- !app_assoc).
    apply (reaches_between _ _ _ s1 s4 s5 s7); [cbn [run]; rewrite R2; exact R4|exact R5|].
    rewrite run_app, R6; cbn [obind run]; now rewrite R7.
  - split; [intros i l Hi Hl; rewrite S7, S6, S5, S4, S2 by assumption; reflexivity|].
    split; [reflexivity|split; [reflexivity|split; [lia|split]]].
    + intros j Hj; destruct (Z.eq_dec j rsp_idx) as [->|Hne]; [fold (rsp s7) (rsp s1); lia|].
      rewrite G7, G6, G5, G4, G2 by (try assumption; unfold saved_regs, loop_regs in *; cbn in *; lia); reflexivity.
    + intros a Ha; rewrite M7, M6, M5, M4, M2 by lia; reflexivity.
Qed.

(** The whole sequence updates the mask register. *)
Lemma cmp_sequence :
  scalarq (fun t' => k_update (tls s) t' d cmp_value) 17 []
    (cmp_save ++ (stores ++ init ++ loop ++ write_result k d) ++ cmp_restore) s (rflags s).
Proof. apply cmp_bracket; auto using cmp_inner. Qed.
End Whole.
