(* ===== verification/CmpRewrite.v ===== *)
(** * The rewriting of the comparisons

    What the functions [rw_func_vpcmpd_*], [rw_func_vpcmpud_*] and
    [rw_func_vpcmpw_*] of [GenCmp] return: code that, run from every state with
    room on the stack, ends and leaves the documented mask in the destination;
    and the cases in which they do something else. *)
From Stdlib Require Import ZArith List Bool Lia.
From S2P Require Import Prelude Regs Spill Bytes Lanes Machine Arch512 SymExec GenMem ScalarExec MaskSpec Jumps Loops.
From S2P Require Import GenCmp CmpLoop CmpSpec.
Import ListNotations.
#[local] Open Scope Z_scope.
#[local] Open Scope bool_scope.
#[local] Open Scope rw_scope.

(** ** Judgements *)

(** The code runs, from every well-formed state with room for [n] quadwords on
    the stack whose view satisfies [P], to its end, and does what [spec] says. *)
Definition translates_loop (P : guest -> Prop) (n : Z) (spec : guest -> guest) (code : list instr_t) : Prop :=
  forall s, wf_mach s -> 8 * n <= rsp s -> P (view s) ->
    exists fuel s', runl fuel code 0 s = Some s' /\ wf_mach s' /\ stack_eq n (view s') (spec (view s)).

Definition rewrites_loop_if (P : guest -> Prop) (n : Z) (spec : guest -> guest) (r : rw_result) : Prop :=
  exists code, r = rw_replace code /\ translates_loop P n spec code.
Definition rewrites_loop : Z -> (guest -> guest) -> rw_result -> Prop := rewrites_loop_if (fun _ => True).

Lemma scalarq_mask n code s d v :
  wf_mach s -> scalarq (fun t' => k_update (tls s) t' d v) n [] code s (rflags s) ->
  exists fuel s', runl fuel code 0 s = Some s' /\ wf_mach s' /\ stack_eq n (view s') (set_k (view s) d v).
Proof.
  intros Hs (t' & Hu & s' & R & Es & Et & Ef & Er & Eg & Em).
  destruct (proj2 (runl_reaches code 0 s s')) as (fuel & F); [eauto|].
  exists fuel, s'; split; [exact F|split; [exact (reaches_wf _ _ _ _ _ Hs R)|]].
  split; [|split; [|split; [|split]]].
  - intros i l Hi Hl; eapply zmm_view_framed; eauto.
  - intros k Hk; cbn -[tls_k Z.eqb]; rewrite Et; now apply Hu.
  - intros i Hi; apply Eg; intros [].
  - exact Ef.
  - intros a Ha; apply Em; exact Ha.
Qed.

(** ** The first values *)

Lemma exec_zero r i s :
  gpr_reg r = Some (4%nat, i, 0) ->
  exists f, exec (INSTR_CREATE_xor (reg r) (reg r)) s = Some (with_rflags (put s 4 i 0) f).
Proof.
  intros Hr; unfold INSTR_CREATE_xor, instr_create_1dst_2src; rewrite exec_xor; unfold exec_alu, opnd_create_reg.
  reg_facts Hr; cbn [obind]; change (OPND_REG r) with (opnd_create_reg r); rewrite (read_src_reg s r 4 i Hr); cbn [obind]; rewrite Z.lxor_nilpotent; reg_facts Hr.
  eexists; reflexivity.
Qed.

(** The result starts as zero, or as the mask register [d]. *)
Definition start_ok (n : Z) (ks : Z -> Z) (bits : Z -> bool) (start : instr_t) : Prop :=
  forall s, wf_mach s -> (forall k, 0 <= k < 8 -> tls_k (tls s) k = ks k) ->
    exists s', exec start s = Some s' /\ simd s' = simd s /\ tls s' = tls s /\ mem s' = mem s /\
      (forall j, j <> 9 -> gpr s' j = gpr s j) /\ forall i, 0 <= i < n -> Z.testbit (gpr s' 9) i = bits i.

Lemma zero_start n ks : start_ok n ks (fun _ => false) zero_result.
Proof.
  intros s W Hks; destruct (exec_zero DR_REG_R9D 9 s eq_refl) as (f & E); eexists; split; [exact E|].
  repeat (split; [reflexivity|]); split; [intros j Hj; rewrite gpr_rflags; now apply gpr_put_other|].
  intros i Hi; rewrite gpr_rflags; cbn [gpr put with_gpr]; rewrite Z.eqb_refl; apply Z.bits_0.
Qed.

Lemma run_ld8 r i m s :
  gpr_reg r = Some (8%nat, i, 0) -> wf_mach s -> 0 <= m < 8 ->
  exec (RESTORE_FROM_TLS r (TLS_K_idx_SLOT m)) s = Some (with_gpr s (fun j => if j =? i then tls_k (tls s) m else gpr s j)).
Proof.
  intros Hr W Hm; rewrite TLS_K_idx_SLOT_eq by assumption; change (RESTORE_FROM_TLS r) with (fun o => RESTORE_FROM_SIZED_TLS r o OPSZ_8); cbv beta.
  rewrite exec_ld; reg_facts Hr; cbn [obind opsz_bytes Nat.eqb]; rewrite os_tls_offset_id by lia; reg_facts Hr.
  unfold put, merge_gpr; cbn [Nat.leb]; change (bits_of 8) with 64; fold (tls_k (tls s) m).
  rewrite wrap_id by (apply (load_range 8), W); reflexivity.
Qed.

Lemma load_start n ks d : 0 <= d < 8 -> start_ok n ks (Z.testbit (ks d)) (load_result d).
Proof.
  intros Hd s W Hks; unfold load_result; rewrite (run_ld8 _ 9) by (reflexivity || assumption).
  eexists; split; [reflexivity|]; repeat (split; [reflexivity|]).
  split; [intros j Hj; cbn [gpr with_gpr]; now rewrite (proj2 (Z.eqb_neq _ _))|].
  intros i Hi; cbn [gpr with_gpr]; now rewrite Z.eqb_refl, Hks.
Qed.

Section Init.
Context (n : Z) (ks : Z -> Z) (bits : Z -> bool) (start : instr_t) (Hstart : start_ok n ks bits start).

Lemma run_start s :
  wf_mach s -> (forall k, 0 <= k < 8 -> tls_k (tls s) k = ks k) ->
  exists s', run [start; zero_index] s = Some s' /\ simd s' = simd s /\ tls s' = tls s /\ mem s' = mem s /\
    (forall j, ~ In j [3; 9] -> gpr s' j = gpr s j) /\ gpr s' 3 = 0 /\ forall i, 0 <= i < n -> Z.testbit (gpr s' 9) i = bits i.
Proof.
  intros W Hks; destruct (Hstart s W Hks) as (s1 & R1 & S1 & T1 & M1 & G1 & B1).
  destruct (exec_zero DR_REG_EBX 3 s1 eq_refl) as (f & R2); exists (with_rflags (put s1 4 3 0) f).
  split; [cbn [run]; rewrite R1; cbn [obind]; unfold zero_index; rewrite R2; reflexivity|].
  split; [exact S1|split; [exact T1|split; [exact M1|split; [|split; [reflexivity|]]]]].
  - intros j Hj; rewrite gpr_rflags, gpr_put_other, G1 by (cbn in Hj; lia); reflexivity.
  - intros i Hi; rewrite gpr_rflags, gpr_put_other by lia; auto.
Qed.

Lemma init_k0 : init_ok n (fun _ _ => true) bits (fun _ => true) ks [start; zero_index].
Proof.
  intros s W Hks; destruct (run_start s W Hks) as (s1 & R1 & S1 & T1 & M1 & G1 & Z1 & B1).
  exists s1; repeat (split; [assumption|]); split; [|auto]; intros j Hj; apply G1; cbn in *; lia.
Qed.

Lemma init_masked k m :
  k = 2%nat /\ n <= 16 \/ k = 4%nat -> 0 <= m < 8 -> init_ok n Z.testbit bits (Z.testbit (ks m)) ks [start; zero_index; load_mask k m].
Proof.
  intros Hk Hm s W Hks; destruct (run_start s W Hks) as (s1 & R1 & S1 & T1 & M1 & G1 & Z1 & B1).
  pose proof (run_wf _ _ _ W R1) as W1.
  assert (L : exists s2, exec (load_mask k m) s1 = Some s2 /\ simd s2 = simd s1 /\ tls s2 = tls s1 /\ mem s2 = mem s1 /\
            (forall j, j <> 10 -> gpr s2 j = gpr s1 j) /\ forall i, 0 <= i < n -> Z.testbit (gpr s2 10) i = Z.testbit (tls_k (tls s1) m) i).
  { destruct Hk as [[-> Hn] | ->]; unfold load_mask.
    - rewrite TLS_K_idx_SLOT_eq, exec_ld by assumption.
      assert (R10 : gpr_reg DR_REG_R10W = Some (2%nat, 10, 0)) by reflexivity.
      reg_facts R10; cbn [obind opsz_bytes Nat.eqb]; rewrite os_tls_offset_id by lia; reg_facts R10.
      eexists; split; [reflexivity|]; repeat (split; [reflexivity|]); split; [intros; now apply gpr_put_other|].
      intros i Hi; set (v := load 2 _ _); pose proof (read_put s1 2 10 v) as E; change (bits_of 2) with 16 in E.
      apply (f_equal (fun x => Z.testbit x i)) in E; rewrite !wrap_testbit, (proj2 (Z.ltb_lt i 16)) in E by lia; cbn [andb] in E.
      rewrite E; unfold v; rewrite load_k by (lia || apply W1); change (bits_of 2) with 16.
      now rewrite wrap_testbit, (proj2 (Z.ltb_lt i 16)) by lia.
    - rewrite (run_ld8 _ 10) by (reflexivity || assumption); eexists; split; [reflexivity|]; repeat (split; [reflexivity|]).
      split; [intros j Hj; cbn [gpr with_gpr]; now rewrite (proj2 (Z.eqb_neq _ _))|].
      intros i Hi; cbn [gpr with_gpr]; now rewrite Z.eqb_refl. }
  destruct L as (s2 & R2 & S2 & T2 & M2 & G2 & B2); exists s2.
  split; [change [start; zero_index; load_mask k m] with ([start; zero_index] ++ [load_mask k m]); rewrite run_app, R1; cbn [obind run]; now rewrite R2|].
  split; [congruence|split; [congruence|split; [congruence|split; [|split]]]].
  - intros j Hj; cbn in Hj; rewrite G2, G1 by (cbn; lia); reflexivity.
  - rewrite G2 by lia; exact Z1.
  - intros i Hi; rewrite G2, B2, T1, Hks by lia; auto.
Qed.
End Init.

(** ** Storing the operands *)

(** Two vectors next to each other. *)
Section TwoVectors.
Context (m : memory) (a : Z) (x y : Z -> Z).
Definition two_vectors : memory := store_lanes 2 (store_lanes 2 m a x) (a + 32) y.

Lemma two_vectors_outside b : ~ (a <= b < a + 64) -> two_vectors b = m b.
Proof.
  intros Hb; unfold two_vectors, store_lanes, store; change (Z.of_nat 16) with 16; change (Z.of_nat 0) with 0; change (Z.of_nat 1) with 1.
  repeat match goal with |- context [?u <=? b] => destruct (Z.leb_spec u b) | |- context [b <? ?u] => destruct (Z.ltb_spec b u) end;
    cbn [andb]; reflexivity || lia.
Qed.

Lemma two_vectors_fst l : 0 <= l < 2 -> load 16 two_vectors (a + 16 * l) = wrap 128 (x l).
Proof.
  intros Hl; unfold two_vectors, store_lanes; change (Z.of_nat 0) with 0; change (Z.of_nat 1) with 1.
  assert (E : l = 0 \/ l = 1) by lia; destruct E as [-> | ->].
  - rewrite !(load_store_disjoint 16 16 _ _ (_ + 32 + _)), load_store_disjoint, load_store_same by lia; reflexivity.
  - rewrite !(load_store_disjoint 16 16 _ _ (_ + 32 + _)), load_store_same by lia; reflexivity.
Qed.

Lemma two_vectors_snd l : 0 <= l < 2 -> load 16 two_vectors (a + 32 + 16 * l) = wrap 128 (y l).
Proof.
  intros Hl; unfold two_vectors, store_lanes; change (Z.of_nat 0) with 0; change (Z.of_nat 1) with 1.
  assert (E : l = 0 \/ l = 1) by lia; destruct E as [-> | ->].
  - rewrite load_store_disjoint, load_store_same by lia; reflexivity.
  - rewrite load_store_same by lia; reflexivity.
Qed.
End TwoVectors.

Section Stores.
Context (c : mach) (Hc : wf_mach c) (Hroom : rsp c + 64 <= 2 ^ 64).

Lemma room_addr d : 0 <= d <= 32 -> mem_addr c DR_REG_RSP DR_REG_NULL 0 d = Some (rsp c + d).
Proof.
  intros Hd; assert (Hr : 0 <= rsp c < 2 ^ 64) by apply Hc; unfold mem_addr.
  assert (R : gpr_reg DR_REG_RSP = Some (8%nat, 4, 0)) by reflexivity.
  change (DR_REG_RSP =? DR_REG_NULL) with false; change (DR_REG_NULL =? DR_REG_NULL) with true; cbv iota.
  unfold addr_reg; reg_facts R; cbn [obind Nat.eqb]; change (gpr c 4) with (rsp c); change (bits_of 8) with 64.
  replace (is_int32 d) with true by (symmetry; unfold is_int32; apply andb_true_intro; rewrite Z.leb_le, Z.ltb_lt; lia).
  now rewrite (wrap_id 64 (rsp c)), Z.add_0_r, wrap_id by lia.
Qed.

Context (s : mach) (k : list instr_t) (r : Z) (Hr : 0 <= r < 16) (Hg : gpr s = gpr c).

Lemma run_src1 : run (store_src1 (reg (ymm r)) :: k) s = run k (st_stm s r 2 (rsp c + 0)).
Proof. apply (run_stm_ymm OP_vmovdqu false eq_refl c); auto; [apply room_addr; lia|discriminate]. Qed.

Lemma run_src2 : run (store_src2 (reg (ymm r)) :: k) s = run k (st_stm s r 2 (rsp c + 32)).
Proof. apply (run_stm_ymm OP_vmovdqu false eq_refl c); auto; [apply room_addr; unfold SIZE_OF_YMM; lia|discriminate]. Qed.

Lemma run_save_spill : run (save_ymm (ymm r) :: k) s = run k (st_save s r 2 r 0).
Proof. unfold save_ymm; rewrite TO_YMM_REG_INDEX_ymm by lia; apply run_save_ymm; lia. Qed.

Lemma run_load_spill i : 0 <= i < 32 -> run (restore_ymm (ymm r) (ymm i) :: k) s = run k (st_load s r 2 i 0).
Proof. intros Hi; unfold restore_ymm; rewrite TO_YMM_REG_INDEX_ymm by lia; apply run_load_ymm; lia. Qed.
End Stores.

Lemma stores_intro s v1 v2 stores :
  8 * 17 <= rsp s -> wf_mach s ->
  (forall s1, reserved s s1 -> rsp s1 + 64 <= 2 ^ 64 ->
     exists s2 x y, run stores s1 = Some s2 /\ gpr s2 = gpr s1 /\ mem s2 = two_vectors (mem s1) (rsp s1) x y /\
       (forall i l, 0 <= i < 16 -> 0 <= l < 2 -> simd s2 i l = simd s1 i l) /\ tls_same (tls s1) (tls s2) /\
       (forall l, 0 <= l < 2 -> wrap 128 (x l) = v1 l /\ wrap 128 (y l) = v2 l)) ->
  stores_ok s v1 v2 stores.
Proof.
  intros Hsp Hs H s1 P; assert (Hr : 0 <= rsp s < 2 ^ 64) by apply Hs.
  destruct (H s1 P) as (s2 & x & y & R & G & M & S & T & V); [destruct P as (_ & _ & _ & E & _); lia|].
  exists s2; split; [exact R|split; [exact G|split; [exact S|split; [exact T|split; [|split]]]]]; rewrite M.
  - intros a Ha; now apply two_vectors_outside.
  - intros l Hl; rewrite two_vectors_fst by assumption; now apply V.
  - intros l Hl; rewrite two_vectors_snd by assumption; now apply V.
Qed.

Lemma tls_same_save s r i : 0 <= i < 16 -> tls_same (tls s) (tls (st_save s r 2 i 0)).
Proof.
  intros Hi; split; [|intros; apply tls_k_save; lia].
  intros j l Hj Hl Hv; rewrite tls_lane_save by lia; destruct (Z.eqb_spec j i) as [->|]; [|reflexivity].
  now replace (l <? 0 + Z.of_nat 2) with false by (symmetry; apply Z.ltb_ge; lia); rewrite andb_false_r.
Qed.

Lemma tls_same_trans t t1 t2 : tls_same t t1 -> tls_same t1 t2 -> tls_same t t2.
Proof. intros (H1 & H2) (H3 & H4); split; intros; [rewrite H3, H1|rewrite H4, H2]; auto. Qed.

Lemma zmm_view_reserved s s1 i l : reserved s s1 -> zmm_view s1 i l = zmm_view s i l.
Proof. intros (_ & E1 & E2 & _); unfold zmm_view; now rewrite E1, E2. Qed.

(** Read registers and slots of the states of the spill code. *)
Ltac spill_reads :=
  repeat first
    [ rewrite simd_stm | rewrite mem_stm | rewrite tls_stm | rewrite gpr_stm | rewrite mem_save | rewrite mem_load | rewrite tls_load | rewrite simd_save
    | rewrite gpr_save | rewrite gpr_load | rewrite rd_load_lo by assumption | rewrite rd_lo_save_lo by assumption
    | zdecide | progress cbv iota ].

Section RegisterOperands.
Context (s : mach) (Hs : wf_mach s) (Hsp : 8 * 17 <= rsp s) (a b : Z).

Lemma stores_low :
  0 <= a < 16 -> 0 <= b < 16 ->
  stores_ok s (zmm_view s a) (zmm_view s b) [store_src1 (reg (ymm a)); store_src2 (reg (ymm b))].
Proof.
  intros Ha Hb; apply stores_intro; auto; intros s1 P Hr; pose proof (proj1 P) as W.
  rewrite (run_src1 s1 W Hr), (run_src2 s1 W Hr) by (rewrite ?gpr_stm; auto).
  exists (st_stm (st_stm s1 a 2 (rsp s1 + 0)) b 2 (rsp s1 + 32)), (simd s1 a), (simd s1 b).
  split; [reflexivity|split; [reflexivity|split; [now rewrite Z.add_0_r|split; [reflexivity|split; [split; reflexivity|]]]]].
  intros l Hl; rewrite !wrap_simd by assumption; rewrite <- !(zmm_view_reserved s s1) by assumption.
  now rewrite !zmm_view_reg by lia.
Qed.
(** The first operand in a slot: it goes through a spill register, which gets
    its value back before or behind the second store. *)
Lemma stores_high1 sp (last : bool) :
  16 <= a < 32 -> 0 <= b < 16 -> 0 <= sp < 16 -> sp <> b ->
  stores_ok s (zmm_view s a) (zmm_view s b)
    ([save_ymm (ymm sp); restore_ymm (ymm sp) (ymm a); store_src1 (reg (ymm sp))] ++
     (if last then [store_src2 (reg (ymm b)); restore_ymm (ymm sp) (ymm sp)]
      else [restore_ymm (ymm sp) (ymm sp); store_src2 (reg (ymm b))])).
Proof.
  intros Ha Hb Hsp' Hne; apply stores_intro; auto; intros s1 P Hr; pose proof (proj1 P) as W.
  set (t := st_stm (st_load (st_save s1 sp 2 sp 0) sp 2 a 0) sp 2 (rsp s1 + 0)).
  set (s2 := if last then st_load (st_stm t b 2 (rsp s1 + 32)) sp 2 sp 0 else st_stm (st_load t sp 2 sp 0) b 2 (rsp s1 + 32)).
  exists s2, (fun l => simd t sp l), (fun l => simd s2 b l).
  assert (Hmem : mem s2 = two_vectors (mem s1) (rsp s1) (fun l => simd t sp l) (fun l => simd s2 b l)).
  { unfold two_vectors.
    assert (Eb : forall l, 0 <= l < 2 -> simd (if last then t else st_load t sp 2 sp 0) b l = simd s2 b l)
      by (intros l Hl; unfold s2; destruct last; spill_reads; reflexivity).
    unfold s2 at 1; destruct last; spill_reads; unfold t at 1; spill_reads; rewrite Z.add_0_r;
      cbn [store_lanes]; rewrite !Eb by (cbn; lia); reflexivity. }
  assert (Ht : tls s2 = tls (st_save s1 sp 2 sp 0)) by (unfold s2, t; destruct last; reflexivity).
  split; [|split; [unfold s2; destruct last; unfold t; spill_reads; reflexivity|split; [exact Hmem|split; [|split]]]].
  - unfold s2, t; destruct last; cbn [app];
      rewrite run_save_spill, run_load_spill, (run_src1 s1 W Hr) by (spill_reads; auto; lia);
      [rewrite (run_src2 s1 W Hr), run_load_spill by (spill_reads; auto; lia)
      |rewrite run_load_spill, (run_src2 s1 W Hr) by (spill_reads; auto; lia)]; reflexivity.
  - intros i l Hi Hl; unfold s2, t; destruct last; spill_reads; destruct (Z.eqb_spec i sp) as [->|]; spill_reads; auto.
    all: now rewrite !wrap_simd.
  - rewrite Ht; now apply tls_same_save.
  - intros l Hl; rewrite <- !(zmm_view_reserved s s1) by assumption; rewrite zmm_view_tls, zmm_view_reg by lia; split.
    + unfold t; spill_reads; now rewrite !wrap_tls_lane.
    + unfold s2, t; destruct last; spill_reads; now rewrite wrap_simd.
Qed.

(** The second operand in a slot. *)
Lemma stores_high2 sp :
  0 <= a < 16 -> 16 <= b < 32 -> 0 <= sp < 16 -> sp <> a ->
  stores_ok s (zmm_view s a) (zmm_view s b)
    [save_ymm (ymm sp); restore_ymm (ymm sp) (ymm b); store_src1 (reg (ymm a)); store_src2 (reg (ymm sp)); restore_ymm (ymm sp) (ymm sp)].
Proof.
  intros Ha Hb Hsp' Hne; apply stores_intro; auto; intros s1 P Hr; pose proof (proj1 P) as W.
  set (t := st_load (st_save s1 sp 2 sp 0) sp 2 b 0).
  set (s2 := st_load (st_stm (st_stm t a 2 (rsp s1 + 0)) sp 2 (rsp s1 + 32)) sp 2 sp 0).
  exists s2, (simd t a), (simd t sp).
  split; [|split; [unfold s2, t; spill_reads; reflexivity|split; [unfold s2; spill_reads; unfold t; spill_reads; now rewrite Z.add_0_r|split; [|split]]]].
  - unfold s2, t; rewrite run_save_spill, run_load_spill, (run_src1 s1 W Hr), (run_src2 s1 W Hr), run_load_spill by (spill_reads; auto; lia); reflexivity.
  - intros i l Hi Hl; unfold s2, t; spill_reads; destruct (Z.eqb_spec i sp) as [->|]; spill_reads; auto; now rewrite !wrap_simd.
  - unfold s2, t; spill_reads; now apply tls_same_save.
  - intros l Hl; rewrite <- !(zmm_view_reserved s s1) by assumption; rewrite zmm_view_reg, zmm_view_tls by lia.
    unfold t; spill_reads; now rewrite wrap_simd, !wrap_tls_lane.
Qed.

(** Both in slots. *)
Lemma stores_high12 p q :
  16 <= a < 32 -> 16 <= b < 32 -> 0 <= p < 16 -> 0 <= q < 16 -> p <> q ->
  stores_ok s (zmm_view s a) (zmm_view s b)
    [save_ymm (ymm p); restore_ymm (ymm p) (ymm a); save_ymm (ymm q); restore_ymm (ymm q) (ymm b);
     store_src1 (reg (ymm p)); store_src2 (reg (ymm q)); restore_ymm (ymm p) (ymm p); restore_ymm (ymm q) (ymm q)].
Proof.
  intros Ha Hb Hp Hq Hne; apply stores_intro; auto; intros s1 P Hr; pose proof (proj1 P) as W.
  set (t := st_load (st_save (st_load (st_save s1 p 2 p 0) p 2 a 0) q 2 q 0) q 2 b 0).
  set (s2 := st_load (st_load (st_stm (st_stm t p 2 (rsp s1 + 0)) q 2 (rsp s1 + 32)) p 2 p 0) q 2 q 0).
  exists s2, (simd t p), (simd t q).
  split; [|split; [unfold s2, t; spill_reads; reflexivity|split; [unfold s2; spill_reads; unfold t; spill_reads; now rewrite Z.add_0_r|split; [|split]]]].
  - unfold s2, t; rewrite run_save_spill, run_load_spill, run_save_spill, run_load_spill, (run_src1 s1 W Hr), (run_src2 s1 W Hr), !run_load_spill
      by (spill_reads; auto; lia); reflexivity.
  - intros i l Hi Hl; unfold s2, t; spill_reads; destruct (Z.eq_dec i q) as [->|]; [|destruct (Z.eq_dec i p) as [->|]]; spill_reads;
      rewrite ?wrap_simd by assumption; reflexivity.
  - unfold s2, t; spill_reads; eapply tls_same_trans; [|apply tls_same_save; lia]; rewrite tls_load; apply tls_same_save; lia.
  - intros l Hl; rewrite <- !(zmm_view_reserved s s1) by assumption; rewrite !zmm_view_tls by lia.
    unfold t; spill_reads; now rewrite !wrap_tls_lane.
Qed.

(** The second operand in memory: it goes through a spill register. *)
Lemma stores_mem sp addr :
  0 <= a < 16 -> 0 <= sp < 16 -> addr + 32 <= rsp s - 8 * 17 \/ rsp s <= addr ->
  stores_ok s (zmm_view s a) (mem_vec (view s) addr)
    [store_src1 (reg (ymm a)); save_ymm (ymm sp); INSTR_CREATE_2 OP_vmovdqu (reg (ymm sp)) (OPND_REL_ADDR addr OPSZ_32);
     store_src2 (reg (ymm sp)); restore_ymm (ymm sp) (ymm sp)].
Proof.
  intros Ha Hsp' Hm; apply stores_intro; auto; intros s1 P Hr; pose proof P as (W & _ & _ & Er & Em).
  set (t := st_ldm (st_save (st_stm s1 a 2 (rsp s1 + 0)) sp 2 sp 0) sp 2 addr).
  set (s2 := st_load (st_stm t sp 2 (rsp s1 + 32)) sp 2 sp 0).
  assert (E : forall u k, run (INSTR_CREATE_2 OP_vmovdqu (reg (ymm sp)) (OPND_REL_ADDR addr OPSZ_32) :: k) u = run k (st_ldm u sp 2 addr)).
  { intros u k; cbn [run]; unfold exec, exec_vmov; cbn [instr_opcode instr_dsts instr_srcs INSTR_CREATE_2 instr_create_1dst_1src lane_binop lane_mov opnd_create_reg].
    rewrite avx2_reg_ymm by lia; reflexivity. }
  exists s2, (simd s1 a), (simd t sp).
  split; [|split; [unfold s2, t; spill_reads; rewrite gpr_ldm; spill_reads; reflexivity|]].
  { unfold s2, t; rewrite (run_src1 s1 W Hr), run_save_spill, E by (spill_reads; auto; lia).
    rewrite (run_src2 s1 W Hr), run_load_spill by (spill_reads; rewrite ?gpr_ldm; spill_reads; auto; lia); reflexivity. }
  split; [unfold s2; spill_reads; unfold t; rewrite mem_ldm; spill_reads; now rewrite Z.add_0_r|split; [|split]].
  - intros i l Hi Hl; unfold s2, t; spill_reads; rewrite rd_ldm, tls_ldm by assumption; spill_reads.
    destruct (Z.eqb_spec i sp) as [->|]; spill_reads; auto; now rewrite !wrap_simd.
  - unfold s2, t; spill_reads; rewrite tls_ldm, <- (tls_stm s1 a 2 (rsp s1 + 0)); now apply tls_same_save.
  - intros l Hl; rewrite <- (zmm_view_reserved s s1) by assumption; rewrite zmm_view_reg, wrap_simd by (assumption || lia); split; [reflexivity|].
    unfold t; rewrite rd_ldm by assumption; spill_reads; unfold mem_vec; cbn [g_mem view].
    rewrite !wrap_load by (apply store_lanes_wf, W).
    apply load_ext; intros x Hx; rewrite <- Em by lia; change (Z.of_nat 16) with 16 in Hx.
    unfold store_lanes, store; change (Z.of_nat 16) with 16; change (Z.of_nat 0) with 0; change (Z.of_nat 1) with 1.
    repeat match goal with |- context [?u <=? x] => destruct (Z.leb_spec u x) | |- context [x <? ?u] => destruct (Z.ltb_spec x u) end;
      cbn [andb]; reflexivity || lia.
Qed.

(** The second operand copied through a spill register. *)
Lemma stores_copy sp :
  0 <= a < 16 -> 0 <= b < 16 -> 0 <= sp < 16 ->
  stores_ok s (zmm_view s a) (zmm_view s b)
    [store_src1 (reg (ymm a)); save_ymm (ymm sp); INSTR_CREATE_2 OP_vmovdqu (reg (ymm sp)) (reg (ymm b));
     store_src2 (reg (ymm sp)); restore_ymm (ymm sp) (ymm sp)].
Proof.
  intros Ha Hb Hsp'; apply stores_intro; auto; intros s1 P Hr; pose proof (proj1 P) as W.
  set (t := st_mov (st_save (st_stm s1 a 2 (rsp s1 + 0)) sp 2 sp 0) sp 2 b).
  set (s2 := st_load (st_stm t sp 2 (rsp s1 + 32)) sp 2 sp 0).
  exists s2, (simd s1 a), (simd t sp).
  split; [|split; [reflexivity|split; [unfold s2, t; spill_reads; change (mem (st_mov ?x _ _ _)) with (mem x); spill_reads; now rewrite Z.add_0_r|split; [|split]]]].
  - unfold s2, t; rewrite (run_src1 s1 W Hr), run_save_spill by (spill_reads; auto; lia).
    change (INSTR_CREATE_2 OP_vmovdqu) with (instr_create_1dst_1src OP_vmovdqu); rewrite (run_mov_ymm OP_vmovdqu false eq_refl) by lia.
    rewrite (run_src2 s1 W Hr), run_load_spill by (auto; lia); reflexivity.
  - intros i l Hi Hl; unfold s2, t; spill_reads; rewrite rd_mov by assumption; change (tls (st_mov ?x _ _ _)) with (tls x); spill_reads.
    destruct (Z.eqb_spec i sp) as [->|]; spill_reads; auto; now rewrite !wrap_simd.
  - unfold s2, t; spill_reads; change (tls (st_mov ?x _ _ _)) with (tls x); rewrite <- (tls_stm s1 a 2 (rsp s1 + 0)); now apply tls_same_save.
  - intros l Hl; rewrite <- !(zmm_view_reserved s s1) by assumption; rewrite !zmm_view_reg, wrap_simd by (assumption || lia); split; [reflexivity|].
    unfold t; rewrite rd_mov by assumption; spill_reads; now rewrite !wrap_simd.
Qed.
End RegisterOperands.

(** ** Whole sequences *)

Section Sequences.
Context (k : nat) (Hk : k = 2%nat \/ k = 4%nat) (jcc : opcode) (Hj : In jcc cmp_conds) (P : guest -> Prop).
Context (stores : list instr_t) (v1 v2 : guest -> Z -> Z).
Context (Hstores : forall s, wf_mach s -> 8 * 17 <= rsp s -> P (view s) -> stores_ok s (v1 (view s)) (v2 (view s)) stores).
Context (start : instr_t) (bits : (Z -> Z) -> Z -> bool) (Hstart : forall ks, start_ok (elems k) ks (bits ks) start).
Context (d : Z) (Hd : 0 <= d < 8).

Abbreviation related g i := (cmp_rel jcc (vec_elem k (v1 g) i) (vec_elem k (v2 g) i)).

Lemma cmp_k0_translates early spec :
  (forall g, spec g = set_k g d (written k (g_k g d) (mask_of (Z.to_nat (elems k)) (fun i => related g i)))) ->
  translates_loop P 17 spec (cmp_k0 k jcc stores start early d).
Proof.
  intros Hspec s Hs Hsp HP; rewrite Hspec; apply scalarq_mask; [exact Hs|].
  pose proof (cmp_sequence k Hk jcc d Hd stores [start; zero_index] (loop_k0 k jcc early) (fun _ _ => true) (bits (tls_k (tls s)))
                (fun _ => true) _ _ s Hs Hsp (Hstores s Hs Hsp HP) (init_k0 _ _ _ _ (Hstart _)) (loop_k0_ok k jcc early Hk Hj)) as H.
  unfold cmp_k0; rewrite <- !app_assoc in H; exact H.
Qed.

Lemma cmp_masked_translates hoisted m spec :
  0 <= m < 8 ->
  (forall g, spec g = set_k g d (written k (g_k g d) (mask_of (Z.to_nat (elems k)) (fun i =>
     if Z.testbit (g_k g m) i then related g i else bits (g_k g) i)))) ->
  translates_loop P 17 spec (cmp_masked k jcc stores start DR_REG_EBX hoisted m d).
Proof.
  intros Hm Hspec s Hs Hsp HP; rewrite Hspec; apply scalarq_mask; [exact Hs|].
  assert (Hi : init_ok (elems k) Z.testbit (bits (tls_k (tls s))) (Z.testbit (tls_k (tls s) m)) (tls_k (tls s)) [start; zero_index; load_mask k m]).
  { apply init_masked; auto; destruct Hk as [-> | ->]; [left; split; [reflexivity|cbn; lia]|now right]. }
  pose proof (cmp_sequence k Hk jcc d Hd stores _ (loop_masked k jcc DR_REG_EBX hoisted) Z.testbit (bits (tls_k (tls s)))
                _ _ _ s Hs Hsp (Hstores s Hs Hsp HP) Hi (loop_masked_ok k jcc hoisted Hk Hj)) as H.
  unfold cmp_masked; rewrite <- !app_assoc in H; exact H.
Qed.
End Sequences.

(** *** Doublewords: the documented instruction *)

Section Doublewords.
Context (jcc : opcode) (Hj : In jcc cmp_conds) (P : guest -> Prop) (v1 v2 : guest -> Z -> Z) (stores : list instr_t).
Context (Hstores : forall s, wf_mach s -> 8 * 17 <= rsp s -> P (view s) -> stores_ok s (v1 (view s)) (v2 (view s)) stores).
Context (d : Z) (Hd : 0 <= d < 8).

Lemma cmp_k0_vpcmp start bits early :
  (forall ks, start_ok 8 ks (bits ks) start) ->
  translates_loop P 17 (fun g => vpcmp_of 4 (cmp_rel jcc) 0 d (v1 g) (v2 g) g) (cmp_k0 4 jcc stores start early d).
Proof. intros Hst; now apply (cmp_k0_translates 4 ltac:(auto) jcc Hj P stores v1 v2 Hstores start bits Hst d Hd). Qed.

Lemma cmp_masked_vpcmp hoisted m :
  0 < m < 8 ->
  translates_loop P 17 (fun g => vpcmp_of 4 (cmp_rel jcc) m d (v1 g) (v2 g) g) (cmp_masked 4 jcc stores zero_result DR_REG_EBX hoisted m d).
Proof.
  intros Hm; apply (cmp_masked_translates 4 ltac:(auto) jcc Hj P stores v1 v2 Hstores
    zero_result (fun _ _ => false) (fun ks => zero_start 8 ks) d Hd); [lia|].
  intros g; unfold vpcmp_of; f_equal; apply mask_of_ext; intros i Hi; rewrite (proj2 (Z.eqb_neq m 0)) by lia; cbn [orb].
  now destruct (Z.testbit (g_k g m) i).
Qed.

(** The result starts as the destination: it is kept where the mask is clear. *)
Lemma cmp_masked_merge hoisted m :
  0 <= m < 8 ->
  translates_loop P 17 (fun g => vpcmp_merge_of 4 (cmp_rel jcc) m d (v1 g) (v2 g) g)
    (cmp_masked 4 jcc stores (load_result d) DR_REG_EBX hoisted m d).
Proof.
  intros Hm; apply (cmp_masked_translates 4 ltac:(auto) jcc Hj P stores v1 v2 Hstores
    (load_result d) (fun ks => Z.testbit (ks d)) (fun ks => load_start 8 ks d Hd) d Hd); [lia|reflexivity].
Qed.
End Doublewords.

(** ** [vpcmpd] *)

(** The instruction as decoded: mask, predicate, first and second source. *)
Definition cmp_instr (opc imm m a : Z) (src2 : opnd_t) (d : Z) : instr_t :=
  mk_instr (OP_avx512 opc) [reg (kreg d)] [reg (kreg m); OPND_IMM imm OPSZ_1; reg (ymm a); src2].

(** The predicates the rewriter implements. *)
Definition vpcmpd_rel (imm : Z) : Z -> Z -> bool :=
  match imm with 0 => rel_eq | 2 => rel_le | 4 => rel_neq | _ => rel_nle end.

Lemma IS_YMM_ymm a : 0 <= a < 32 -> IS_YMM_REG (ymm a) = true.
Proof. intros Ha; unfold_regs; zcases; cbn [andb]; lia || reflexivity. Qed.

(** The functions by predicate. *)
Lemma vpcmpd_dispatch opc imm m a b d :
  0 <= a < 32 -> imm = 0 \/ imm = 2 \/ imm = 4 \/ imm = 6 ->
  rw_func_vpcmpd (cmp_instr opc imm m a (reg (ymm b)) d)
  = match imm with
    | 0 => rw_func_vpcmpd_EQ_ymm_ymm (kreg m) (reg (ymm a)) (reg (ymm b)) (ymm a) (ymm b) (kreg d)
    | 2 => rw_func_vpcmpd_LE_ymm_ymm (kreg m) (reg (ymm a)) (reg (ymm b)) (ymm a) (ymm b) (kreg d)
    | 4 => rw_func_vpcmpd_NEQ_ymm_ymm (kreg m) (reg (ymm a)) (reg (ymm b)) (ymm a) (ymm b) (kreg d)
    | _ => rw_func_vpcmpd_NLE_ymm_ymm (kreg m) (ymm a) (ymm b) (kreg d)
    end.
Proof.
  intros Ha Hi; unfold rw_func_vpcmpd; cbv zeta.
  change (opnd_get_reg (instr_get_src (cmp_instr opc imm m a (reg (ymm b)) d) 2)) with (ymm a).
  rewrite IS_YMM_ymm by assumption; decompose [or] Hi; subst imm; reflexivity.
Qed.

(** Evaluate the choice of the sequence. *)
Ltac choose :=
  rewrite ?TO_K_REG_INDEX_kreg, ?NEED_SPILL_YMM_ymm by lia; repeat zdecide; cbv iota zeta beta;
  repeat match goal with |- context [Z.lor ?x ?y] => let v := eval compute in (Z.lor x y) in change (Z.lor x y) with v end; cbv iota.

Section Vpcmpd.
Context (m a b d : Z) (Hd : 0 <= d < 8).

Abbreviation src1 := (reg (ymm a)).
Abbreviation src2 := (reg (ymm b)).

(** The sequences on registers, for stores that put [a] and [b] on the stack. *)
Section Sources.
Context (jcc : opcode) (Hj : In jcc cmp_conds) (stores : list instr_t).
Context (Hst : forall s, wf_mach s -> 8 * 17 <= rsp s -> stores_ok s (zmm_view s a) (zmm_view s b) stores).

Lemma k0_zero early : rewrites_loop 17 (vpcmp 4 (cmp_rel jcc) 0 d a b) (rw_replace (cmp_k0 4 jcc stores zero_result early d)).
Proof.
  eexists; split; [reflexivity|].
  apply (cmp_k0_vpcmp jcc Hj (fun _ => True) (fun g => g_zmm g a) (fun g => g_zmm g b) stores) with (bits := fun _ _ => false); auto.
  intros; apply zero_start.
Qed.

Lemma k0_load early : rewrites_loop 17 (vpcmp 4 (cmp_rel jcc) 0 d a b) (rw_replace (cmp_k0 4 jcc stores (load_result d) early d)).
Proof.
  eexists; split; [reflexivity|].
  apply (cmp_k0_vpcmp jcc Hj (fun _ => True) (fun g => g_zmm g a) (fun g => g_zmm g b) stores) with (bits := fun ks => Z.testbit (ks d)); auto.
  intros; now apply load_start.
Qed.

Lemma masked_zero hoisted :
  0 < m < 8 -> rewrites_loop 17 (vpcmp 4 (cmp_rel jcc) m d a b) (rw_replace (cmp_masked 4 jcc stores zero_result DR_REG_EBX hoisted m d)).
Proof.
  intros Hm; eexists; split; [reflexivity|].
  apply (cmp_masked_vpcmp jcc Hj (fun _ => True) (fun g => g_zmm g a) (fun g => g_zmm g b) stores); auto.
Qed.

Lemma masked_load hoisted :
  0 <= m < 8 ->
  rewrites_loop 17 (vpcmp_merge 4 (cmp_rel jcc) m d a b) (rw_replace (cmp_masked 4 jcc stores (load_result d) DR_REG_EBX hoisted m d)).
Proof.
  intros Hm; eexists; split; [reflexivity|].
  apply (cmp_masked_merge jcc Hj (fun _ => True) (fun g => g_zmm g a) (fun g => g_zmm g b) stores); auto.
Qed.
End Sources.

Abbreviation EQ := (rw_func_vpcmpd_EQ_ymm_ymm (kreg m) src1 src2 (ymm a) (ymm b) (kreg d)).
Abbreviation NEQ := (rw_func_vpcmpd_NEQ_ymm_ymm (kreg m) src1 src2 (ymm a) (ymm b) (kreg d)).
Abbreviation LE := (rw_func_vpcmpd_LE_ymm_ymm (kreg m) src1 src2 (ymm a) (ymm b) (kreg d)).
Abbreviation NLE := (rw_func_vpcmpd_NLE_ymm_ymm (kreg m) (ymm a) (ymm b) (kreg d)).

Lemma eq_documented :
  0 <= b < 16 -> 0 <= m < 8 -> 0 <= a < 16 \/ 16 <= a < 32 /\ m = 0 -> rewrites_loop 17 (vpcmp 4 rel_eq m d a b) EQ.
Proof.
  intros Hb Hm [Ha | (Ha & ->)]; unfold rw_func_vpcmpd_EQ_ymm_ymm; choose.
  - destruct (Z.eqb_spec m 0) as [->|]; [apply (k0_load OP_je)|apply (masked_zero OP_je)];
      (cbn; tauto) || lia || auto using stores_low.
  - destruct (find_one_ymm_spill b) as (sp & E & _ & Hsp & Hne); rewrite E.
    apply (k0_zero OP_je); [cbn; tauto|intros s Hs Hr; apply (stores_high1 s Hs Hr a b sp false); lia].
Qed.

Lemma neq_documented :
  0 <= b < 16 -> 0 <= m < 8 -> 0 <= a < 16 \/ 16 <= a < 32 /\ (m = 0 \/ b <> 10) -> rewrites_loop 17 (vpcmp 4 rel_neq m d a b) NEQ.
Proof.
  intros Hb Hm [Ha | (Ha & Hsp)]; unfold rw_func_vpcmpd_NEQ_ymm_ymm; choose.
  - destruct (Z.eqb_spec m 0) as [->|]; [apply (k0_zero OP_jne)|apply (masked_zero OP_jne)];
      (cbn; tauto) || lia || auto using stores_low.
  - destruct (Z.eqb_spec m 0) as [->|Hne].
    + destruct (find_one_ymm_spill b) as (sp & E & _ & Hr & Hn); rewrite E.
      apply (k0_zero OP_jne); [cbn; tauto|intros s Hs Hrs; apply (stores_high1 s Hs Hrs a b sp false); lia].
    + apply (masked_zero OP_jne); [cbn; tauto| |lia].
      intros s Hs Hr; apply (stores_high1 s Hs Hr a b 10 true); lia.
Qed.

Lemma nle_documented : 0 <= b < 16 -> 0 < m < 8 -> 0 <= a < 16 -> rewrites_loop 17 (vpcmp 4 rel_nle m d a b) NLE.
Proof.
  intros Hb Hm Ha; unfold rw_func_vpcmpd_NLE_ymm_ymm; choose.
  apply (masked_zero OP_jg); (cbn; tauto) || lia || auto using stores_low.
Qed.

(** The other cases keep the destination's bits where the mask is clear. *)
Lemma eq_merges :
  0 <= m < 8 -> 16 <= a < 32 /\ 0 <= b < 16 /\ m <> 0 \/ 0 <= a < 32 /\ 16 <= b < 32 -> rewrites_loop 17 (vpcmp_merge 4 rel_eq m d a b) EQ.
Proof.
  intros Hm H; assert (Hc : 16 <= a < 32 /\ 0 <= b < 16 /\ m <> 0 \/ 0 <= a < 16 /\ 16 <= b < 32 \/ 16 <= a < 32 /\ 16 <= b < 32) by lia.
  destruct Hc as [(Ha & Hb & Hne) | [(Ha & Hb) | (Ha & Hb)]]; unfold rw_func_vpcmpd_EQ_ymm_ymm; choose.
  - destruct (find_one_ymm_spill b) as (sp & E & _ & Hr & Hn); rewrite E.
    apply (masked_load OP_je); [cbn; tauto| |lia].
    intros s Hs Hrs; apply (stores_high1 s Hs Hrs a b sp true); lia.
  - destruct (find_one_ymm_spill a) as (sp & E & _ & Hr & Hn); rewrite E.
    apply (masked_load OP_je); [cbn; tauto| |lia].
    intros s Hs Hrs; apply (stores_high2 s Hs Hrs a b sp); lia.
  - apply (masked_load OP_je); [cbn; tauto| |lia].
    intros s Hs Hrs; apply (stores_high12 s Hs Hrs a b 10 11); lia.
Qed.

Lemma le_merges : 0 <= m < 8 -> 0 <= a < 16 -> 0 <= b < 16 -> rewrites_loop 17 (vpcmp_merge 4 rel_le m d a b) LE.
Proof.
  intros Hm Ha Hb; unfold rw_func_vpcmpd_LE_ymm_ymm; choose.
  apply (masked_load OP_jle); (cbn; tauto) || lia || auto using stores_low.
Qed.
End Vpcmpd.

(** The cases that implement the documented instruction. *)
Definition vpcmpd_documented (imm m a : Z) (b : Z) : Prop :=
  imm = 0 /\ 0 <= m < 8 /\ (0 <= a < 16 \/ 16 <= a < 32 /\ m = 0) \/
  imm = 4 /\ 0 <= m < 8 /\ (0 <= a < 16 \/ 16 <= a < 32 /\ (m = 0 \/ b <> 10)) \/
  imm = 6 /\ 0 < m < 8 /\ 0 <= a < 16.

(** C6: The code for [vpcmpd] on ymm registers runs to its end from every state with
    room on the stack, and leaves in the destination mask register the mask the
    instruction is documented to compute; everything else is as before. *)
Theorem vpcmpd_compares opc imm m a b d :
  0 <= d < 8 -> 0 <= b < 16 -> vpcmpd_documented imm m a b ->
  rewrites_loop 17 (vpcmp 4 (vpcmpd_rel imm) m d a b) (rw_func_vpcmpd (cmp_instr opc imm m a (reg (ymm b)) d)).
Proof.
  intros Hd Hb H; rewrite vpcmpd_dispatch by (unfold vpcmpd_documented in H; lia).
  destruct H as [(-> & Hm & Ha) | [(-> & Hm & Ha) | (-> & Hm & Ha)]];
    [now apply eq_documented|now apply neq_documented|now apply nle_documented].
Qed.

Lemma vpcmpd_compares_witness :
  rewrites_loop 17 (vpcmp 4 rel_eq 1 2 5 7) (rw_func_vpcmpd (cmp_instr 0 0 1 5 (reg (ymm 7)) 2)) /\
  rewrites_loop 17 (vpcmp 4 rel_neq 3 2 20 7) (rw_func_vpcmpd (cmp_instr 0 4 3 20 (reg (ymm 7)) 2)).
Proof. split; [apply (vpcmpd_compares 0 0)|apply (vpcmpd_compares 0 4)]; unfold vpcmpd_documented; lia. Defined.

(** The other cases of [vpcmpd] on registers end too, but keep the bits of the
    destination where the input mask is clear, which the instruction is
    documented to zero, and read [k0] as a mask: equality with a source in a
    slot, except the first one without a mask, and less-or-equal. *)
Theorem vpcmpd_merges opc imm m a b d :
  0 <= d < 8 -> 0 <= m < 8 ->
  imm = 0 /\ (16 <= a < 32 /\ 0 <= b < 16 /\ m <> 0 \/ 0 <= a < 32 /\ 16 <= b < 32) \/ imm = 2 /\ 0 <= a < 16 /\ 0 <= b < 16 ->
  rewrites_loop 17 (vpcmp_merge 4 (vpcmpd_rel imm) m d a b) (rw_func_vpcmpd (cmp_instr opc imm m a (reg (ymm b)) d)).
Proof.
  intros Hd Hm H; rewrite vpcmpd_dispatch by lia.
  destruct H as [(-> & H) | (-> & Ha & Hb)]; [now apply eq_merges|now apply le_merges].
Qed.

Lemma vpcmpd_merges_witness :
  rewrites_loop 17 (vpcmp_merge 4 rel_eq 0 2 5 17) (rw_func_vpcmpd (cmp_instr 0 0 0 5 (reg (ymm 17)) 2)) /\
  rewrites_loop 17 (vpcmp_merge 4 rel_le 3 2 6 7) (rw_func_vpcmpd (cmp_instr 0 2 3 6 (reg (ymm 7)) 2)).
Proof. split; [apply (vpcmpd_merges 0 0)|apply (vpcmpd_merges 0 2)]; lia. Defined.

(** *** The second source in memory *)

(** The operand lies outside the stack the code uses. *)
Definition off_stack (addr : Z) (g : guest) : Prop := addr + 32 <= g_rsp g - 8 * 17 \/ g_rsp g <= addr.

Section Memory.
Context (m a addr d : Z) (Hd : 0 <= d < 8) (Ha : 0 <= a < 16).

Abbreviation mem_stores sp :=
  [store_src1 (reg (ymm a)); save_ymm (ymm sp); INSTR_CREATE_2 OP_vmovdqu (reg (ymm sp)) (OPND_REL_ADDR addr OPSZ_32);
   store_src2 (reg (ymm sp)); restore_ymm (ymm sp) (ymm sp)].

Section Sources.
Context (jcc : opcode) (Hj : In jcc cmp_conds) (sp : Z) (Hsp : 0 <= sp < 16).

Lemma mem_stores_ok s :
  wf_mach s -> 8 * 17 <= rsp s -> off_stack addr (view s) -> stores_ok s (g_zmm (view s) a) (mem_vec (view s) addr) (mem_stores sp).
Proof. intros Hs Hr Ho; now apply stores_mem. Qed.

Lemma mem_k0 start bits :
  (forall ks, start_ok 8 ks (bits ks) start) ->
  rewrites_loop_if (off_stack addr) 17 (vpcmp_mem 4 (cmp_rel jcc) 0 d a addr) (rw_replace (cmp_k0 4 jcc (mem_stores sp) start false d)).
Proof.
  intros Hst; eexists; split; [reflexivity|].
  now apply (cmp_k0_vpcmp jcc Hj _ (fun g => g_zmm g a) (fun g => mem_vec g addr) _ mem_stores_ok d Hd start bits).
Qed.

Lemma mem_masked :
  0 <= m < 8 ->
  rewrites_loop_if (off_stack addr) 17 (vpcmp_merge_mem 4 (cmp_rel jcc) m d a addr)
    (rw_replace (cmp_masked 4 jcc (mem_stores sp) (load_result d) DR_REG_EBX false m d)).
Proof.
  intros Hm; eexists; split; [reflexivity|].
  now apply (cmp_masked_merge jcc Hj _ (fun g => g_zmm g a) (fun g => mem_vec g addr) _ mem_stores_ok d Hd).
Qed.
End Sources.

Lemma vpcmpd_mem_dispatch opc imm :
  imm = 0 \/ imm = 2 \/ imm = 6 ->
  rw_func_vpcmpd (cmp_instr opc imm m a (OPND_REL_ADDR addr OPSZ_32) d)
  = match imm with
    | 0 => rw_func_vpcmpd_EQ_ymm_m256 (reg (ymm a)) (OPND_REL_ADDR addr OPSZ_32) (ymm a) (kreg m) (kreg d)
    | 2 => rw_func_vpcmpd_LE_ymm_m256 (reg (ymm a)) (OPND_REL_ADDR addr OPSZ_32) (ymm a) (kreg m) (kreg d)
    | _ => rw_func_vpcmpd_NLE_ymm_m256 (OPND_REL_ADDR addr OPSZ_32) (ymm a) (kreg m) (kreg d)
    end.
Proof.
  intros Hi; unfold rw_func_vpcmpd; cbv zeta.
  change (opnd_get_reg (instr_get_src (cmp_instr opc imm m a (OPND_REL_ADDR addr OPSZ_32) d) 2)) with (ymm a).
  rewrite IS_YMM_ymm by lia; decompose [or] Hi; subst imm; reflexivity.
Qed.
End Memory.

(** C28: [vpcmpd] of one of ymm0-15 with 32 bytes of memory at a relative address,
    without a mask: the code for equality and for less-or-equal ends from every
    state with room on the stack in which the operand lies outside the part of
    the stack the code uses, and computes the documented mask; registers, flags
    and vectors are restored. *)
Theorem vpcmpd_compares_memory opc imm a addr d :
  0 <= d < 8 -> 0 <= a < 16 -> imm = 0 \/ imm = 2 ->
  rewrites_loop_if (off_stack addr) 17 (vpcmp_mem 4 (vpcmpd_rel imm) 0 d a addr)
    (rw_func_vpcmpd (cmp_instr opc imm 0 a (OPND_REL_ADDR addr OPSZ_32) d)).
Proof.
  intros Hd Ha Hi; rewrite vpcmpd_mem_dispatch by lia.
  assert (Hl : forall ks, start_ok 8 ks (Z.testbit (ks d)) (load_result d)) by (intros; now apply load_start).
  destruct (find_one_ymm_spill a) as (sp & E & _ & Hr & _).
  destruct Hi as [-> | ->]; unfold rw_func_vpcmpd_EQ_ymm_m256, rw_func_vpcmpd_LE_ymm_m256; choose; rewrite E;
    [apply (mem_k0 a addr d Hd Ha OP_je) with (bits := fun ks => Z.testbit (ks d))
    |apply (mem_k0 a addr d Hd Ha OP_jle) with (bits := fun ks => Z.testbit (ks d))]; (cbn; tauto) || lia || exact Hl.
Qed.

Lemma vpcmpd_compares_memory_witness :
  rewrites_loop_if (off_stack 8192) 17 (vpcmp_mem 4 rel_le 0 2 5 8192) (rw_func_vpcmpd (cmp_instr 0 2 0 5 (OPND_REL_ADDR 8192 OPSZ_32) 2)).
Proof. apply (vpcmpd_compares_memory 0 2); lia. Defined.

(** With a mask, and "greater" with or without one, they merge. *)
Lemma vpcmpd_merges_memory opc imm m a addr d :
  0 <= d < 8 -> 0 <= a < 16 -> 0 <= m < 8 -> (imm = 0 \/ imm = 2) /\ m <> 0 \/ imm = 6 ->
  rewrites_loop_if (off_stack addr) 17 (vpcmp_merge_mem 4 (vpcmpd_rel imm) m d a addr)
    (rw_func_vpcmpd (cmp_instr opc imm m a (OPND_REL_ADDR addr OPSZ_32) d)).
Proof.
  intros Hd Ha Hm Hi; rewrite vpcmpd_mem_dispatch by lia.
  destruct (find_one_ymm_spill a) as (sp & E & _ & Hr & _).
  destruct Hi as [([-> | ->] & Hne) | ->];
    unfold rw_func_vpcmpd_EQ_ymm_m256, rw_func_vpcmpd_LE_ymm_m256, rw_func_vpcmpd_NLE_ymm_m256; choose; rewrite ?E;
    [apply (mem_masked m a addr d Hd Ha OP_je)|apply (mem_masked m a addr d Hd Ha OP_jle ltac:(cbn; tauto) 10)
    |apply (mem_masked m a addr d Hd Ha OP_jg ltac:(cbn; tauto) 10)]; (cbn; tauto) || lia.
Qed.

(** ** [vpcmpud] and [vpcmpw] *)

(** The unsigned comparison, as documented. *)
Definition rel_unle (a b : Z) : bool := negb (a <=? b).

(** The code for the unsigned "greater" ends, but compares signed values. *)
Theorem vpcmpud_compares_signed opc a b d :
  0 <= d < 8 -> 0 <= a < 16 -> 0 <= b < 16 ->
  rewrites_loop 17 (vpcmp 4 rel_nle 0 d a b) (rw_func_vpcmpud (cmp_instr opc 6 0 a (reg (ymm b)) d)).
Proof.
  intros Hd Ha Hb.
  assert (E : rw_func_vpcmpud (cmp_instr opc 6 0 a (reg (ymm b)) d)
            = rw_func_vpcmpud_NLE_ymm_ymm (kreg 0) (reg (ymm a)) (reg (ymm b)) (ymm a) (kreg d)).
  { unfold rw_func_vpcmpud; cbv zeta.
    change (opnd_get_reg (instr_get_src (cmp_instr opc 6 0 a (reg (ymm b)) d) 2)) with (ymm a).
    rewrite IS_YMM_ymm by lia; reflexivity. }
  rewrite E; unfold rw_func_vpcmpud_NLE_ymm_ymm; cbv zeta; change (kind_eqb (opnd_kind (reg (ymm b))) REG_kind) with true; cbv iota.
  change (opnd_get_reg (reg (ymm b))) with (ymm b); cbn [andb].
  destruct (find_one_ymm_spill a) as (sp & Es & _ & Hr & _); rewrite Es.
  choose.
  apply (k0_zero a b d Hd OP_jg); [cbn; tauto|]; intros s Hs Hsp; apply (stores_copy s Hs Hsp a b sp); lia.
Qed.

Lemma vpcmpud_compares_signed_witness :
  rewrites_loop 17 (vpcmp 4 rel_nle 0 2 5 7) (rw_func_vpcmpud (cmp_instr 0 6 0 5 (reg (ymm 7)) 2)).
Proof. apply (vpcmpud_compares_signed 0); lia. Defined.

(** Words: the low 16 bits are merged, the others kept. *)
Definition vpcmpw_merge (rel : Z -> Z -> bool) (m d a b : Z) (g : guest) : guest :=
  set_k g d (mask_keep 2 (g_k g d) (mask_of (Z.to_nat (elems 2)) (fun i =>
    if Z.testbit (g_k g m) i then rel (vec_elem 2 (g_zmm g a) i) (vec_elem 2 (g_zmm g b) i) else Z.testbit (g_k g d) i))).

(** The code for the equality of words ends; it merges the low 16 bits of the
    destination and keeps the others. *)
Theorem vpcmpw_merges opc m a b d :
  0 <= d < 8 -> 0 <= m < 8 -> 0 <= a < 16 -> 0 <= b < 16 ->
  rewrites_loop 17 (vpcmpw_merge rel_eq m d a b) (rw_func_vpcmpw (cmp_instr opc 0 m a (reg (ymm b)) d)).
Proof.
  intros Hd Hm Ha Hb.
  assert (E : rw_func_vpcmpw (cmp_instr opc 0 m a (reg (ymm b)) d)
            = rw_func_vpcmpw_EQ_ymm_ymm (kreg m) (reg (ymm a)) (reg (ymm b)) (ymm a) (ymm b) (kreg d)).
  { unfold rw_func_vpcmpw; cbv zeta.
    change (opnd_get_reg (instr_get_src (cmp_instr opc 0 m a (reg (ymm b)) d) 2)) with (ymm a).
    rewrite IS_YMM_ymm by lia; reflexivity. }
  rewrite E; unfold rw_func_vpcmpw_EQ_ymm_ymm; cbv zeta.
  choose; eexists; split; [reflexivity|].
  apply (cmp_masked_translates 2 ltac:(auto) OP_je ltac:(cbn; tauto) _ _ (fun g => g_zmm g a) (fun g => g_zmm g b)
           (fun s Hs Hr _ => stores_low s Hs Hr a b Ha Hb)
           (load_result d) (fun ks => Z.testbit (ks d)) (fun ks => load_start (elems 2) ks d Hd) d Hd); [lia|].
  intros g; unfold vpcmpw_merge, written; f_equal; f_equal; apply mask_of_ext; reflexivity.
Qed.

Lemma vpcmpw_merges_witness :
  rewrites_loop 17 (vpcmpw_merge rel_eq 1 2 5 7) (rw_func_vpcmpw (cmp_instr 0 0 1 5 (reg (ymm 7)) 2)).
Proof. apply (vpcmpw_merges 0); lia. Defined.

(** ** Refutations *)

(** What a rewrite leaves in a mask register, run from [s]. *)
Definition mask_after (r : rw_result) (s : mach) (k : Z) : option Z :=
  match r with
  | mk_rw_result true (Some code) => option_map (fun s' => tls_k (tls s') k) (runl 1000 code 0 s)
  | _ => None
  end.

Lemma not_rewrites_mask n spec r s k v :
  wf_mach s -> 8 * n <= rsp s -> 0 <= k < 8 -> mask_after r s k = Some v -> v <> g_k (spec (view s)) k -> ~ rewrites_loop n spec r.
Proof.
  intros Hs Hr Hk H Hne (code & -> & Ht); destruct (Ht s Hs Hr I) as (fuel & s' & R & _ & E).
  unfold mask_after, rw_replace in H; destruct (runl 1000 code 0 s) as [s1|] eqn:R1; [|discriminate]; injection H as <-.
  rewrite (runl_det _ _ _ _ _ _ _ R1 R) in Hne; apply Hne, (proj2 E); assumption.
Qed.

(** A state with the value [x] in the lanes of one register and ones in the
    mask registers from [k2] on. *)
Definition cmp_probe (r x : Z) : mach :=
  mk_mach (fun i _ => if i =? r then wrap 128 x else 0) (fun i => if i =? 4 then 4096 else 0) 2
          (fun o => if (48 <=? o) && (o <? 96) then 255 else 0) (fun _ => 0).

Lemma cmp_probe_wf r x : wf_mach (cmp_probe r x).
Proof.
  unfold wf_mach, cmp_probe, wf_memory; cbn [simd gpr rflags tls mem].
  split; [|split; [|split; [lia|split]]].
  - intros i l; destruct (i =? r); [apply wrap_range|]; lia.
  - intros i; destruct (i =? 4); lia.
  - intros o; destruct (_ && _); lia.
  - intros o; lia.
Qed.

Ltac refute r x k :=
  eapply (not_rewrites_mask _ _ _ (cmp_probe r x) k);
    [apply cmp_probe_wf|vm_compute; congruence|lia|vm_compute; reflexivity|vm_compute; congruence].

(** Less-or-equal does not zero the bits the mask excludes; "not equal" with
    the first source in a slot goes wrong when the second is [ymm10], the
    register it uses for the copy; the unsigned "greater" is not unsigned; the
    "not equal" of words sets other bits than those of the elements. *)
Theorem comparisons_refuted :
  ~ rewrites_loop 17 (vpcmp 4 rel_le 1 2 5 7) (rw_func_vpcmpd (cmp_instr 0 2 1 5 (reg (ymm 7)) 2)) /\
  ~ rewrites_loop 17 (vpcmp 4 rel_neq 2 3 20 10) (rw_func_vpcmpd (cmp_instr 0 4 2 20 (reg (ymm 10)) 3)) /\
  ~ rewrites_loop 17 (vpcmp 4 rel_unle 0 2 5 7) (rw_func_vpcmpud (cmp_instr 0 6 0 5 (reg (ymm 7)) 2)) /\
  ~ rewrites_loop 17 (vpcmpw_merge rel_neq 2 1 5 7) (rw_func_vpcmpw (cmp_instr 0 4 2 5 (reg (ymm 7)) 1)).
Proof. repeat split; [refute 5 1 2|refute 10 1 3|refute 5 (2 ^ 31) 2|refute 5 1 1]. Qed.
