(* ===== verification/Typing.v ===== *)
(** * Typing the emitted code

    A static check of host instructions: register classes and operand sizes
    agree, the addresses have an encoding, nothing needs alignment.  An
    instruction that passes has a result in every state of the machine, so that
    typed code neither faults nor gets stuck, whatever it computes.  A second
    check requires every thread-local access to lie inside the slot of one
    register.  Generators of binary operations and moves are shown to emit code
    that passes for every choice of registers, also where the result is
    wrong. *)
From Stdlib Require Import ZArith List Bool Lia.
From S2P Require Import Prelude Regs Spill Bytes Lanes Machine Arch512 SymExec GenZmm GenYmm GenXmm GenMov.
From S2P Require Import GenLane GenMixed ScalarExec MaskSpec KLogic KArith KTest.
Import ListNotations.
#[local] Open Scope Z_scope.
#[local] Open Scope bool_scope.
#[local] Open Scope rw_scope.

(** ** The check *)

Definition lanes_of (r : reg_id_t) : option nat := let? (n, _) := avx2_reg r in Some n.
Definition same_lanes (a b : reg_id_t) : bool :=
  match lanes_of a, lanes_of b with Some n, Some m => (n =? m)%nat | _, _ => false end.
Definition is_xmm (r : reg_id_t) : bool := match lanes_of r with Some n => (n =? 1)%nat | None => false end.
Definition vec_sized (r : reg_id_t) (sz : opnd_size) : bool :=
  match lanes_of r with Some n => (opsz_bytes sz =? 16 * n)%nat | None => false end.
Definition gpr_sized (r : reg_id_t) (sz : opnd_size) : bool :=
  match gpr_size r with Some n => (opsz_bytes sz =? n)%nat | None => false end.
Definition is_gpr (r : reg_id_t) : bool := match gpr_size r with Some _ => true | None => false end.
Definition is_gpr64 (r : reg_id_t) : bool := match gpr_size r with Some n => (n =? 8)%nat | None => false end.

Definition narrower (a r : reg_id_t) : bool :=
  match gpr_size a, gpr_size r with Some m, Some n => (m <? n)%nat | _, _ => false end.

Definition typed_addr (base index : reg_id_t) (scale disp : Z) : bool :=
  ((base =? DR_REG_NULL) || is_gpr64 base) &&
  ((index =? DR_REG_NULL) ||
   (negb ((index =? DR_REG_RSP) || negb (existsb (Z.eqb scale) [1; 2; 4; 8])) && is_gpr64 index)) &&
  is_int32 disp.

Definition typed_vbin (dsts srcs : list opnd_t) : bool :=
  match dsts, srcs with [OPND_REG d], [OPND_REG a; OPND_REG b] => same_lanes d a && same_lanes d b | _, _ => false end.

Definition typed_vmov (aligned : bool) (dsts srcs : list opnd_t) : bool :=
  match dsts, srcs with
  | [OPND_REG d], [OPND_REG a] => same_lanes d a
  | [OPND_TLS _ sz], [OPND_REG a] => vec_sized a sz
  | [OPND_REG d], [OPND_TLS _ sz] => vec_sized d sz
  | [OPND_BASE_DISP base index scale disp sz], [OPND_REG a] =>
      negb aligned && vec_sized a sz && typed_addr base index scale disp
  | [OPND_REG d], [OPND_BASE_DISP base index scale disp sz] =>
      negb aligned && vec_sized d sz && typed_addr base index scale disp
  | _, _ => false
  end.

Definition typed_src (r : reg_id_t) (o : opnd_t) : bool :=
  match gpr_size r with
  | Some n =>
      match o with
      | OPND_REG a => match gpr_size a with Some m => (n =? m)%nat | None => false end
      | OPND_IMM _ sz => (opsz_bytes sz <=? Nat.min n 4)%nat
      | OPND_TLS _ sz => (opsz_bytes sz =? n)%nat
      | OPND_BASE_DISP base index scale disp sz => (opsz_bytes sz =? n)%nat && typed_addr base index scale disp
      | OPND_NULL | OPND_INSTR _ | OPND_REL_ADDR _ _ => false
      end
  | None => false
  end.

Definition typed_gpr (op : opcode) (dsts srcs : list opnd_t) : bool :=
  match op, dsts, srcs with
  | OP_mov_ld, [OPND_REG r], [OPND_TLS _ sz] => gpr_sized r sz
  | OP_mov_st, [OPND_TLS _ sz], [OPND_REG r] => gpr_sized r sz
  | OP_mov_imm, [OPND_REG r], [OPND_IMM _ _] => is_gpr r
  | OP_movzx, [OPND_REG r], [OPND_REG a] => narrower a r
  | OP_push, [_; _], [OPND_REG r; _] => is_gpr64 r
  | OP_pop, [OPND_REG r; _], [_; _] => is_gpr64 r
  | OP_pushf, [_; _], [_] | OP_popf, [_], [_; _] => true
  | OP_and, [OPND_REG r], [src; _] | OP_or, [OPND_REG r], [src; _]
  | OP_xor, [OPND_REG r], [src; _] | OP_add, [OPND_REG r], [src; _] => typed_src r src
  | OP_shl, [OPND_REG r], [OPND_IMM _ _; _] | OP_shr, [OPND_REG r], [OPND_IMM _ _; _] => is_gpr r
  | OP_test, [], [OPND_REG r; src] | OP_cmp, [], [OPND_REG r; src] => typed_src r src
  | OP_clc, [], [] | OP_stc, [], [] | OP_nop, [], [] => true
  | OP_not, [OPND_REG r], [_] => is_gpr r
  | _, _, _ => false
  end.

Definition typed_vun (dsts srcs : list opnd_t) : bool :=
  match dsts, srcs with [OPND_REG d], [OPND_REG a] => same_lanes d a | _, _ => false end.
Definition typed_vimm (dsts srcs : list opnd_t) : bool :=
  match dsts, srcs with
  | [OPND_REG d], [OPND_IMM _ sz; OPND_REG a] => same_lanes d a && (opsz_bytes sz =? 1)%nat
  | _, _ => false
  end.
Definition typed_vshift (dsts srcs : list opnd_t) : bool :=
  match dsts, srcs with [OPND_REG d], [OPND_REG a; OPND_REG b] => same_lanes d a && is_xmm b | _, _ => false end.
Definition typed_vbin128 (dsts srcs : list opnd_t) : bool :=
  match dsts with [OPND_REG d] => is_xmm d && typed_vbin dsts srcs | _ => false end.

Definition typed_vbcast (k : nat) (dsts srcs : list opnd_t) : bool :=
  match dsts, srcs with
  | [OPND_REG d], [OPND_REG a] => same_lanes d d && is_xmm a
  | [OPND_REG d], [OPND_BASE_DISP base index scale disp sz] =>
      same_lanes d d && (opsz_bytes sz =? k)%nat && typed_addr base index scale disp
  | _, _ => false
  end.

Definition typed_cross (op : opcode) (dsts srcs : list opnd_t) : bool :=
  match lane_ext op, lane_bcast op with
  | Some _, _ => typed_vun dsts srcs
  | _, Some k => typed_vbcast k dsts srcs
  | _, _ => typed_gpr op dsts srcs
  end.

Definition typed_simd (op : opcode) (dsts srcs : list opnd_t) : bool :=
  match lane_unop op, lane_immop op, lane_binop128 op, srcs with
  | Some _, _, _, _ => typed_vun dsts srcs
  | _, Some _, _, OPND_IMM _ _ :: _ => typed_vimm dsts srcs
  | _, Some _, Some _, _ => typed_vshift dsts srcs
  | _, _, Some _, _ => typed_vbin128 dsts srcs
  | _, _, _, _ => typed_cross op dsts srcs
  end.

Definition typed (i : instr_t) : bool :=
  match lane_binop (instr_opcode i) with
  | Some _ => typed_vbin (instr_dsts i) (instr_srcs i)
  | None =>
      match lane_mov (instr_opcode i) with
      | Some al => typed_vmov al (instr_dsts i) (instr_srcs i)
      | None => typed_simd (instr_opcode i) (instr_dsts i) (instr_srcs i)
      end
  end.

(** The slots of the mask and vector registers in the spill state, [k_regs] and
    [zmm_regs]: offset and size.  The [dcontext] pointer follows the last one. *)
Definition reg_slots : list (Z * Z) :=
  map (fun k => (off_k_regs + 8 * Z.of_nat k, 8)) (seq 0 8) ++ map (fun i => (off_zmm_regs + 64 * Z.of_nat i, 64)) (seq 0 32).

(** A TLS access lies inside one slot. *)
Definition tls_in_slot (o : opnd_t) : bool :=
  match o with
  | OPND_TLS off sz =>
      existsb (fun '(lo, len) => (lo <=? off) && (off + Z.of_nat (opsz_bytes sz) <=? lo + len)) reg_slots
  | _ => true
  end.
Definition in_slots (i : instr_t) : bool := forallb tls_in_slot (instr_dsts i ++ instr_srcs i).

Definition checked (i : instr_t) : bool := typed i && in_slots i.

(** ** Soundness *)

Lemma same_lanes_inv a b : same_lanes a b = true -> exists n i j, avx2_reg a = Some (n, i) /\ avx2_reg b = Some (n, j).
Proof.
  unfold same_lanes, lanes_of; destruct (avx2_reg a) as [[n i]|], (avx2_reg b) as [[m j]|]; cbn; try discriminate.
  intros H; apply Nat.eqb_eq in H as ->; eauto.
Qed.

Lemma is_xmm_inv a : is_xmm a = true -> exists i, avx2_reg a = Some (1%nat, i).
Proof.
  unfold is_xmm, lanes_of; destruct (avx2_reg a) as [[n i]|]; cbn; [|discriminate].
  intros H; apply Nat.eqb_eq in H as ->; eauto.
Qed.

Lemma vec_sized_inv r sz : vec_sized r sz = true -> exists n i, avx2_reg r = Some (n, i) /\ (opsz_bytes sz =? 16 * n)%nat = true.
Proof. unfold vec_sized, lanes_of; destruct (avx2_reg r) as [[n i]|]; cbn; [eauto|discriminate]. Qed.

Lemma is_gpr_inv r : is_gpr r = true -> exists n i sh, gpr_reg r = Some (n, i, sh).
Proof. unfold is_gpr, gpr_size; destruct (gpr_reg r) as [[[n i] sh]|]; cbn; [eauto|discriminate]. Qed.

Lemma gpr_sized_inv r sz : gpr_sized r sz = true -> exists n i sh, gpr_reg r = Some (n, i, sh) /\ (opsz_bytes sz =? n)%nat = true.
Proof. unfold gpr_sized, gpr_size; destruct (gpr_reg r) as [[[n i] sh]|]; cbn; [eauto|discriminate]. Qed.

Lemma narrower_inv a r :
  narrower a r = true ->
  exists m j sh' n i sh, gpr_reg a = Some (m, j, sh') /\ gpr_reg r = Some (n, i, sh) /\ (m <? n)%nat = true.
Proof.
  unfold narrower, gpr_size; destruct (gpr_reg a) as [[[m j] sh']|], (gpr_reg r) as [[[n i] sh]|]; cbn; try discriminate.
  intros H; repeat eexists; exact H.
Qed.

Lemma is_gpr64_inv r : is_gpr64 r = true -> exists i sh, gpr_reg r = Some (8%nat, i, sh).
Proof.
  unfold is_gpr64, gpr_size; destruct (gpr_reg r) as [[[n i] sh]|]; cbn; [|discriminate].
  intros H; apply Nat.eqb_eq in H as ->; eauto.
Qed.

Lemma addr_reg_typed r s : is_gpr64 r = true -> exists v, addr_reg s r = Some v.
Proof.
  intros H; apply is_gpr64_inv in H as (i & sh & E).
  unfold addr_reg, gpr_size, read_gpr; rewrite E; cbn; eauto.
Qed.

Lemma mem_addr_typed base index scale disp s :
  typed_addr base index scale disp = true -> exists a, mem_addr s base index scale disp = Some a.
Proof.
  unfold typed_addr, mem_addr; intros H; apply andb_true_iff in H as [H Hd]; apply andb_true_iff in H as [Hb Hi].
  rewrite Hd.
  assert (Eb : exists b, (if base =? DR_REG_NULL then Some 0 else addr_reg s base) = Some b).
  { destruct (base =? DR_REG_NULL); [eauto|now apply addr_reg_typed]. }
  destruct Eb as [b ->]; cbn [obind].
  destruct (index =? DR_REG_NULL); cbn [obind orb] in *; [eauto|].
  apply andb_true_iff in Hi as [Hn Hi]; apply negb_true_iff in Hn; rewrite Hn.
  destruct (addr_reg_typed index s Hi) as [v ->]; cbn [obind]; eauto.
Qed.

Ltac typed_inv :=
  repeat match goal with
  | H : _ && _ = true |- _ => apply andb_true_iff in H as [? ?]
  | H : negb _ = true |- _ => apply negb_true_iff in H; subst
  | H : same_lanes _ _ = true |- _ => apply same_lanes_inv in H as (? & ? & ? & ? & ?)
  | H : is_xmm _ = true |- _ => apply is_xmm_inv in H as (? & ?)
  | H : vec_sized _ _ = true |- _ => apply vec_sized_inv in H as (? & ? & ? & ?)
  | H : gpr_sized _ _ = true |- _ => apply gpr_sized_inv in H as (? & ? & ? & ? & ?)
  | H : is_gpr _ = true |- _ => apply is_gpr_inv in H as (? & ? & ? & ?)
  | H : narrower _ _ = true |- _ => apply narrower_inv in H as (? & ? & ? & ? & ? & ? & ? & ? & ?)
  | H : is_gpr64 _ = true |- _ => apply is_gpr64_inv in H as (? & ? & ?)
  | H1 : ?x = Some _, H2 : ?x = Some _ |- _ => rewrite H1 in H2; injection H2 as ? ?; subst
  end.

(** Case analysis on the operand shapes the check distinguishes. *)
Ltac typed_cases H := repeat match type of H with match ?x with _ => _ end = true => destruct x; try discriminate H end.

Lemma exec_vbin_typed f d a s : typed_vbin d a = true -> exists s', exec_vbin f d a s = Some s'.
Proof.
  unfold typed_vbin, exec_vbin; intros H; typed_cases H; typed_inv.
  repeat match goal with E : avx2_reg _ = _ |- _ => rewrite E; clear E end; cbn [obind].
  rewrite !Nat.eqb_refl; cbn [andb]; eauto.
Qed.

Lemma exec_vmov_typed al d a s : typed_vmov al d a = true -> exists s', exec_vmov al d a s = Some s'.
Proof.
  unfold typed_vmov, exec_vmov; intros H; typed_cases H; typed_inv;
    try match goal with E : typed_addr _ _ _ _ = true |- _ => apply (mem_addr_typed _ _ _ _ s) in E as [? E] end;
    repeat match goal with E : avx2_reg _ = _ |- _ => rewrite E; clear E end; cbn [obind];
    repeat match goal with
    | E : mem_addr _ _ _ _ _ = _ |- _ => rewrite E; clear E; cbn [obind]
    | E : (opsz_bytes _ =? _)%nat = true |- _ => rewrite E; clear E
    end; rewrite ?Nat.eqb_refl; cbn [negb orb andb]; eauto.
Qed.

Lemma read_src_typed r n i sh o s :
  gpr_reg r = Some (n, i, sh) -> typed_src r o = true -> exists v, read_src s n o = Some v.
Proof.
  unfold typed_src, read_src; intros Hr; unfold gpr_size at 1; rewrite Hr; cbn [obind]; intros H.
  destruct o as [|a|base index scale disp sz|addr asz|off sz|v sz|lb]; try discriminate H.
  - unfold gpr_size, read_gpr in *; destruct (gpr_reg a) as [[[m j] sh']|]; cbn [obind] in *; [|discriminate H].
    rewrite H; eauto.
  - apply andb_true_iff in H as [-> H]; destruct (mem_addr_typed _ _ _ _ s H) as [x ->]; cbn; eauto.
  - rewrite H; eauto.
  - rewrite H; eauto.
Qed.

Lemma typed_src_gpr r o : typed_src r o = true -> exists n i sh, gpr_reg r = Some (n, i, sh).
Proof. unfold typed_src, gpr_size; destruct (gpr_reg r) as [[[n i] sh]|]; cbn; [eauto|discriminate]. Qed.

Lemma exec_alu_typed f fl r o s : typed_src r o = true -> exists s', exec_alu f fl (OPND_REG r) o s = Some s'.
Proof.
  intros H; destruct (typed_src_gpr r o H) as (n & i & sh & E); destruct (read_src_typed r n i sh o s E H) as [v Ev].
  unfold exec_alu, gpr_size, read_gpr, write_gpr; rewrite E; cbn [obind]; rewrite Ev; cbn [obind]; eauto.
Qed.

Lemma exec_flags_typed fl r o s : typed_src r o = true -> exists s', exec_flags fl r o s = Some s'.
Proof.
  intros H; destruct (typed_src_gpr r o H) as (n & i & sh & E); destruct (read_src_typed r n i sh o s E H) as [v Ev].
  unfold exec_flags, gpr_size, read_gpr; rewrite E; cbn [obind]; rewrite Ev; cbn [obind]; eauto.
Qed.

Lemma exec_gpr_typed op d a s : typed_gpr op d a = true -> exists s', exec_gpr op d a s = Some s'.
Proof.
  unfold typed_gpr; intros H; destruct op; try discriminate H; typed_cases H; cbn [exec_gpr]; eauto;
    try (now apply exec_alu_typed); try (now apply exec_flags_typed);
    unfold exec_shl, exec_shr, gpr_size, read_gpr, write_gpr in *; typed_inv;
    repeat match goal with E : gpr_reg _ = _ |- _ => rewrite E; clear E end; cbn [obind];
    repeat match goal with E : (opsz_bytes _ =? _)%nat = true |- _ => rewrite E; clear E end;
    repeat match goal with E : (_ <? _)%nat = true |- _ => rewrite E; clear E end; cbn [obind Nat.eqb];
    try (destruct (_ =? 0)); eauto.
Qed.

Lemma lanes_one_or_two r n i : avx2_reg r = Some (n, i) -> n = 1%nat \/ n = 2%nat.
Proof. unfold avx2_reg; repeat destruct (_ && _); intros H; inversion H; auto. Qed.

Lemma exec_vun_typed f d a s : typed_vun d a = true -> exists s', exec_vun f d a s = Some s'.
Proof.
  unfold typed_vun, exec_vun; intros H; typed_cases H; typed_inv.
  repeat match goal with E : avx2_reg _ = _ |- _ => rewrite E; clear E end; cbn [obind]; rewrite Nat.eqb_refl; eauto.
Qed.

Lemma exec_vimm_typed f d a s : typed_vimm d a = true -> exists s', exec_vimm f d a s = Some s'.
Proof.
  unfold typed_vimm, exec_vimm; intros H; typed_cases H; typed_inv.
  repeat match goal with E : avx2_reg _ = _ |- _ => rewrite E; clear E end; cbn [obind]; rewrite Nat.eqb_refl.
  match goal with E : (opsz_bytes _ =? 1)%nat = true |- _ => rewrite E end; cbn [andb]; eauto.
Qed.

Lemma exec_vbin128_typed f d a s : typed_vbin128 d a = true -> exists s', exec_vbin128 f d a s = Some s'.
Proof.
  unfold typed_vbin128, exec_vbin128; intros H; typed_cases H; apply andb_true_iff in H as [H1 H2]; typed_inv.
  match goal with E : avx2_reg _ = _ |- _ => rewrite E end; cbn [obind Nat.eqb]; now apply exec_vbin_typed.
Qed.

Lemma exec_vshift_typed f d a s : typed_vshift d a = true -> exists s', exec_vshift f d a s = Some s'.
Proof.
  unfold typed_vshift, exec_vshift, exec_vshift256, exec_vbin; intros H; typed_cases H; typed_inv.
  match goal with n : nat, E : avx2_reg _ = Some (?n, _) |- _ => destruct (lanes_one_or_two _ _ _ E) as [-> | ->] end;
    repeat match goal with E : avx2_reg _ = _ |- _ => rewrite E; clear E end; cbn [obind Nat.eqb andb]; eauto.
Qed.

Lemma exec_vbcast_typed k d a s : typed_vbcast k d a = true -> exists s', exec_vbcast k d a s = Some s'.
Proof.
  unfold typed_vbcast, exec_vbcast, bcast_src; intros H; typed_cases H; typed_inv;
    try match goal with E : typed_addr _ _ _ _ = true |- _ => apply (mem_addr_typed _ _ _ _ s) in E as [? E]; rewrite E end;
    repeat match goal with E : avx2_reg _ = _ |- _ => rewrite E; clear E end; cbn [obind Nat.eqb];
    repeat match goal with E : (opsz_bytes _ =? _)%nat = true |- _ => rewrite E; clear E end; cbn [obind]; eauto.
Qed.

Lemma exec_cross_typed op d a s : typed_cross op d a = true -> exists s', exec_cross op d a s = Some s'.
Proof.
  unfold typed_cross, exec_cross; destruct (lane_ext op) as [f|]; [|destruct (lane_bcast op) as [k|]].
  - unfold typed_vun, exec_vext; intros H; typed_cases H; typed_inv.
    repeat match goal with E : avx2_reg _ = _ |- _ => rewrite E; clear E end; cbn [obind]; rewrite Nat.eqb_refl; eauto.
  - apply exec_vbcast_typed.
  - intros H; destruct op; try discriminate H; now apply exec_gpr_typed.
Qed.

Lemma exec_simd_typed op d a s : typed_simd op d a = true -> exists s', exec_simd op d a s = Some s'.
Proof.
  unfold typed_simd, exec_simd; intros H.
  repeat match goal with |- exists s', match ?x with _ => _ end = Some s' => destruct x end;
    eauto using exec_vun_typed, exec_vimm_typed, exec_vbin128_typed, exec_vshift_typed, exec_cross_typed.
Qed.

Lemma exec_typed i s : typed i = true -> exists s', exec i s = Some s'.
Proof.
  unfold typed, exec; destruct (lane_binop _); [apply exec_vbin_typed|].
  destruct (lane_mov _); [apply exec_vmov_typed|apply exec_simd_typed].
Qed.

Lemma run_typed l s : forallb typed l = true -> exists s', run l s = Some s'.
Proof.
  revert s; induction l as [|i l IH]; intros s; cbn [forallb run]; [eauto|].
  intros H; apply andb_true_iff in H as [Hi Hl]; destruct (exec_typed i s Hi) as [t ->]; cbn [obind]; auto.
Qed.

(** ** The register slots *)

Definition outside (x : Z) : Prop := forall lo len, In (lo, len) reg_slots -> ~ (lo <= x < lo + len).

Lemma store_outside n t off v x lo len :
  In (lo, len) reg_slots -> lo <= off -> off + Z.of_nat n <= lo + len -> outside x -> store n t off v x = t x.
Proof.
  intros Hs H1 H2 Hx; specialize (Hx lo len Hs); unfold store.
  destruct (Z.leb_spec off x), (Z.ltb_spec x (off + Z.of_nat n)); cbn; auto; lia.
Qed.

Lemma store_lanes_outside n t off v x lo len :
  In (lo, len) reg_slots -> lo <= off -> off + 16 * Z.of_nat n <= lo + len -> outside x -> store_lanes n t off v x = t x.
Proof.
  intros Hs H1; induction n as [|n IH]; intros H2 Hx; cbn [store_lanes]; [reflexivity|].
  rewrite (store_outside _ _ _ _ _ lo len) by (assumption || lia); apply IH; [lia|assumption].
Qed.

Lemma zmm_slot_in i : 0 <= i < 32 -> In (128 + 64 * i, 64) reg_slots.
Proof.
  intros Hi; apply in_or_app; right; apply in_map_iff; exists (Z.to_nat i).
  change off_zmm_regs with 128; rewrite Z2Nat.id by lia; split; [reflexivity|apply in_seq; lia].
Qed.

Lemma k_slot_in k : 0 <= k < 8 -> In (32 + 8 * k, 8) reg_slots.
Proof.
  intros Hk; apply in_or_app; left; apply in_map_iff; exists (Z.to_nat k).
  change off_k_regs with 32; rewrite Z2Nat.id by lia; split; [reflexivity|apply in_seq; lia].
Qed.

Lemma write_gpr_tls s r v s' : write_gpr s r v = Some s' -> tls s' = tls s.
Proof. unfold write_gpr; destruct (gpr_reg r) as [[[? ?] ?]|]; cbn; [intros [= <-]; reflexivity|discriminate]. Qed.

Lemma tls_in_slot_iff off sz :
  tls_in_slot (OPND_TLS off sz) = true <->
  exists lo len, In (lo, len) reg_slots /\ lo <= off /\ off + Z.of_nat (opsz_bytes sz) <= lo + len.
Proof.
  unfold tls_in_slot; rewrite existsb_exists; split.
  - intros ([lo len] & Hs & H); apply andb_true_iff in H as [H1 H2]; zbool; eauto.
  - intros (lo & len & Hs & H1 & H2); exists (lo, len); split; [exact Hs|]; now rewrite !(proj2 (Z.leb_le _ _)).
Qed.

(** [invert_exec] that keeps the size tests. *)
Ltac invert_sizes :=
  repeat match goal with
  | H : (if ?c then _ else _) = Some _ |- _ => destruct c eqn:?
  | H : None = Some _ |- _ => discriminate H
  | H : obind ?e _ = Some _ |- _ => destruct e as [?|] eqn:?; cbn [obind] in H
  | H : (let (_, _) := ?p in _) = Some _ |- _ => destruct p
  | H : match ?x with _ => _ end = Some _ |- _ => destruct x; try discriminate H
  end.

Lemma exec_vmov_tls al d a s s' x :
  forallb tls_in_slot d = true -> exec_vmov al d a s = Some s' -> outside x -> tls s' x = tls s x.
Proof.
  intros Hd H Hx; unfold exec_vmov in H; invert_sizes; injection H as <-; try reflexivity.
  apply andb_true_iff in Hd as [Hd _]; apply tls_in_slot_iff in Hd as (lo & len & Hs & H1 & H2).
  apply Nat.eqb_eq in Heqb; rewrite Heqb in H2; apply (store_lanes_outside _ _ _ _ _ lo len); [assumption..|lia|assumption].
Qed.

Lemma exec_alu_tls f fl d o s s' : exec_alu f fl d o s = Some s' -> tls s' = tls s.
Proof.
  intros H; unfold exec_alu in H; invert_sizes; injection H as <-; cbn [with_rflags tls]; eauto using write_gpr_tls.
Qed.

Lemma exec_shift_tls r c s s' : exec_shl r c s = Some s' \/ exec_shr r c s = Some s' -> tls s' = tls s.
Proof.
  intros [H|H]; [unfold exec_shl in H|unfold exec_shr in H]; invert_sizes; injection H as <-;
    cbn [with_rflags tls]; eauto using write_gpr_tls.
Qed.

Lemma exec_flags_tls fl r o s s' : exec_flags fl r o s = Some s' -> tls s' = tls s.
Proof. intros H; unfold exec_flags in H; invert_sizes; injection H as <-; reflexivity. Qed.

Lemma exec_inc_tls r s s' : exec_inc r s = Some s' -> tls s' = tls s.
Proof.
  intros H; unfold exec_inc in H; invert_sizes; injection H as <-.
  match goal with E : write_gpr _ _ _ = Some _ |- _ => exact (write_gpr_tls _ _ _ _ E) end.
Qed.

Lemma exec_bit_tls b r o s s' : exec_bit b r o s = Some s' -> tls s' = tls s.
Proof.
  intros H; unfold exec_bit in H; invert_sizes; injection H as <-.
  match goal with E : write_gpr _ _ _ = Some _ |- _ => exact (write_gpr_tls _ _ _ _ E) end.
Qed.

Lemma exec_vec_tls f d a s s' :
  exec_vbin f d a s = Some s' \/ exec_vun (f 0) d a s = Some s' \/ exec_vimm f d a s = Some s' \/
  exec_vshift256 f d a s = Some s' -> tls s' = tls s.
Proof.
  intros [H|[H|[H|H]]]; unfold exec_vbin, exec_vun, exec_vimm, exec_vshift256 in H; invert_sizes; injection H as <-; reflexivity.
Qed.

Lemma exec_gpr_tls op d a s s' x :
  forallb tls_in_slot d = true -> exec_gpr op d a s = Some s' -> outside x -> tls s' x = tls s x.
Proof.
  intros Hd H Hx; unfold exec_gpr in H; destruct op; try discriminate H; invert_sizes;
    lazymatch type of H with
    | write_gpr _ _ _ = _ => rewrite (write_gpr_tls _ _ _ _ H); reflexivity
    | exec_alu _ _ _ _ _ = _ => rewrite (exec_alu_tls _ _ _ _ _ _ H); reflexivity
    | exec_flags _ _ _ _ = _ => rewrite (exec_flags_tls _ _ _ _ _ H); reflexivity
    | exec_inc _ _ = _ => rewrite (exec_inc_tls _ _ _ H); reflexivity
    | exec_bit _ _ _ _ = _ => rewrite (exec_bit_tls _ _ _ _ _ H); reflexivity
    | exec_shl _ _ _ = _ => rewrite (exec_shift_tls _ _ _ _ (or_introl H)); reflexivity
    | exec_shr _ _ _ = _ => rewrite (exec_shift_tls _ _ _ _ (or_intror H)); reflexivity
    | _ => injection H as <-; try reflexivity
    end.
  cbn [with_tls tls]; apply andb_true_iff in Hd as [Hd _]; apply tls_in_slot_iff in Hd as (lo & len & Hs & H1 & H2).
  match goal with E : (opsz_bytes _ =? _)%nat = true |- _ => apply Nat.eqb_eq in E; rewrite E in H2 end.
  now apply (store_outside _ _ _ _ _ lo len).
Qed.

Lemma exec_cross_tls op d a s s' x :
  forallb tls_in_slot d = true -> exec_cross op d a s = Some s' -> outside x -> tls s' x = tls s x.
Proof.
  intros Hd E Hx; unfold exec_cross in E.
  destruct (lane_ext op); [|destruct (lane_bcast op)];
    [unfold exec_vext in E; invert_sizes; injection E as <-; reflexivity
    |unfold exec_vbcast in E; invert_sizes; injection E as <-; reflexivity|].
  destruct op; first [exact (exec_gpr_tls _ _ _ _ _ _ Hd E Hx)
                     | unfold exec_vmovg, exec_vextract, exec_sse_imm in E; invert_sizes; injection E as <-; reflexivity].
Qed.

Lemma exec_simd_tls op d a s s' x :
  forallb tls_in_slot d = true -> exec_simd op d a s = Some s' -> outside x -> tls s' x = tls s x.
Proof.
  intros Hd E Hx; unfold exec_simd in E.
  destruct (lane_unop op) as [f|]; [now rewrite (exec_vec_tls (fun _ => f) d a s s') by auto|].
  destruct (lane_immop op) as [f|], (lane_binop128 op) as [g|].
  3: { unfold exec_vbin128 in E; invert_sizes; erewrite exec_vec_tls; [reflexivity|left; exact E]. }
  3: { eauto using exec_cross_tls. }
  all: assert (Hv : exec_vimm f d a s = Some s' -> tls s' x = tls s x)
    by (intros; now rewrite (exec_vec_tls f d a s s') by auto).
  1: assert (Hs : exec_vshift g d a s = Some s' -> tls s' x = tls s x)
    by (unfold exec_vshift; intros; invert_sizes; (erewrite exec_vec_tls; [reflexivity|eauto])).
  all: destruct a as [|[] ?]; eauto using exec_cross_tls.
Qed.

Lemma exec_tls i s s' x : in_slots i = true -> exec i s = Some s' -> outside x -> tls s' x = tls s x.
Proof.
  unfold in_slots, exec; rewrite forallb_app; intros H E Hx; apply andb_true_iff in H as [Hd _].
  destruct (lane_binop _) as [f|].
  { now rewrite (exec_vec_tls f (instr_dsts i) (instr_srcs i) s s') by auto. }
  destruct (lane_mov _); [eauto using exec_vmov_tls|eauto using exec_simd_tls].
Qed.

Lemma run_tls l s s' x : forallb in_slots l = true -> run l s = Some s' -> outside x -> tls s' x = tls s x.
Proof.
  revert s; induction l as [|i l IH]; intros s; cbn [forallb run]; [now intros _ [= <-]|].
  intros H E Hx; apply andb_true_iff in H as [Hi Hl]; destruct (exec i s) as [t|] eqn:Ei; cbn [obind] in E; [|discriminate].
  rewrite (IH t Hl E Hx); eauto using exec_tls.
Qed.

(** ** Checked instructions *)

Lemma checked_save r n i off sz :
  avx2_reg r = Some (n, i) -> (opsz_bytes sz =? 16 * n)%nat = true ->
  tls_in_slot (OPND_TLS (os_tls_offset off) sz) = true ->
  checked (SAVE_SIMD_TO_SIZED_TLS r off sz) = true /\ checked (RESTORE_SIMD_FROM_SIZED_TLS r off sz) = true.
Proof.
  intros E Es H; unfold checked, typed, in_slots; cbn -[opsz_bytes Nat.mul tls_in_slot].
  unfold vec_sized, lanes_of; rewrite E; cbn [obind]; rewrite Es; cbn [andb].
  unfold opnd_create_sized_tls_slot; rewrite H; auto.
Qed.

Section Checked.
Context (r : Z) (Hr : 0 <= r < 16) (i : Z) (Hi : 0 <= i < 32).

Lemma checked_ymm :
  checked (SAVE_SIMD_TO_SIZED_TLS (ymm r) (TLS_ZMM_idx_SLOT i) OPSZ_32) = true /\
  checked (RESTORE_SIMD_FROM_SIZED_TLS (ymm r) (TLS_ZMM_idx_SLOT i) OPSZ_32) = true.
Proof.
  apply (checked_save _ 2 r); [now apply avx2_reg_ymm|reflexivity|]; rewrite slot_lo by assumption; apply tls_in_slot_iff; exists (128 + 64 * i), 64;
    split; [now apply zmm_slot_in|];
    change (Z.of_nat (opsz_bytes OPSZ_32)) with 32; lia.
Qed.

Lemma checked_ymm_hi :
  checked (SAVE_SIMD_TO_SIZED_TLS (ymm r) (TLS_ZMM_idx_SLOT i + SIZE_OF_YMM) OPSZ_32) = true /\
  checked (RESTORE_SIMD_FROM_SIZED_TLS (ymm r) (TLS_ZMM_idx_SLOT i + SIZE_OF_YMM) OPSZ_32) = true.
Proof.
  apply (checked_save _ 2 r); [now apply avx2_reg_ymm|reflexivity|]; rewrite slot_hi by assumption; apply tls_in_slot_iff; exists (128 + 64 * i), 64;
    split; [now apply zmm_slot_in|];
    change (Z.of_nat (opsz_bytes OPSZ_32)) with 32; lia.
Qed.

Lemma checked_xmm :
  checked (SAVE_SIMD_TO_SIZED_TLS (xmm r) (TLS_ZMM_idx_SLOT i) OPSZ_16) = true /\
  checked (RESTORE_SIMD_FROM_SIZED_TLS (xmm r) (TLS_ZMM_idx_SLOT i) OPSZ_16) = true.
Proof.
  apply (checked_save _ 1 r); [now apply avx2_reg_xmm|reflexivity|]; rewrite slot_lo by assumption; apply tls_in_slot_iff; exists (128 + 64 * i), 64;
    split; [now apply zmm_slot_in|];
    change (Z.of_nat (opsz_bytes OPSZ_16)) with 16; lia.
Qed.
End Checked.

Lemma checked_bin op f n d a b i j k :
  lane_binop op = Some f -> avx2_reg d = Some (n, i) -> avx2_reg a = Some (n, j) -> avx2_reg b = Some (n, k) ->
  checked (instr_create_1dst_2src op (opnd_create_reg d) (opnd_create_reg a) (opnd_create_reg b)) = true.
Proof.
  intros Hop E1 E2 E3; unfold checked, typed, in_slots; cbn [instr_create_1dst_2src instr_opcode instr_dsts instr_srcs].
  rewrite Hop; cbn; unfold same_lanes, lanes_of; rewrite E1, E2, E3; cbn; now rewrite Nat.eqb_refl.
Qed.

Lemma checked_mov op al n d a i j :
  lane_mov op = Some al -> avx2_reg d = Some (n, i) -> avx2_reg a = Some (n, j) ->
  checked (instr_create_1dst_1src op (opnd_create_reg d) (opnd_create_reg a)) = true.
Proof.
  intros Hop E1 E2; unfold checked, typed, in_slots; cbn [instr_create_1dst_1src instr_opcode instr_dsts instr_srcs].
  assert (Hb : lane_binop op = None) by (now destruct op). rewrite Hb, Hop; cbn; unfold same_lanes, lanes_of.
  rewrite E1, E2; cbn; now rewrite Nat.eqb_refl.
Qed.

(** Whatever code a generator emits passes the check. *)
Definition emits_checked (r : rw_result) : Prop := forall code, rw_code r = Some code -> forallb checked code = true.

Lemma checked_cons i l : checked i = true -> forallb checked l = true -> forallb checked (i :: l) = true.
Proof. intros H1 H2; cbn [forallb]; now rewrite H1, H2. Qed.

Ltac checked1 Hop :=
  lazymatch goal with
  | |- checked (SAVE_SIMD_TO_SIZED_TLS (ymm ?r) (TLS_ZMM_idx_SLOT ?i) _) = true =>
      exact (proj1 (checked_ymm r ltac:(lia) i ltac:(lia)))
  | |- checked (SAVE_SIMD_TO_SIZED_TLS (ymm ?r) (TLS_ZMM_idx_SLOT ?i + _) _) = true =>
      exact (proj1 (checked_ymm_hi r ltac:(lia) i ltac:(lia)))
  | |- checked (SAVE_SIMD_TO_SIZED_TLS (xmm ?r) (TLS_ZMM_idx_SLOT ?i) _) = true =>
      exact (proj1 (checked_xmm r ltac:(lia) i ltac:(lia)))
  | |- checked (RESTORE_SIMD_FROM_SIZED_TLS (ymm ?r) (TLS_ZMM_idx_SLOT ?i) _) = true =>
      exact (proj2 (checked_ymm r ltac:(lia) i ltac:(lia)))
  | |- checked (RESTORE_SIMD_FROM_SIZED_TLS (ymm ?r) (TLS_ZMM_idx_SLOT ?i + _) _) = true =>
      exact (proj2 (checked_ymm_hi r ltac:(lia) i ltac:(lia)))
  | |- checked (RESTORE_SIMD_FROM_SIZED_TLS (xmm ?r) (TLS_ZMM_idx_SLOT ?i) _) = true =>
      exact (proj2 (checked_xmm r ltac:(lia) i ltac:(lia)))
  | |- checked (instr_create_1dst_2src _ (opnd_create_reg (ymm _)) _ _) = true =>
      eapply (checked_bin _ _ 2); [exact Hop|apply avx2_reg_ymm; lia..]
  | |- checked (instr_create_1dst_2src _ (opnd_create_reg (xmm _)) _ _) = true =>
      eapply (checked_bin _ _ 1); [exact Hop|apply avx2_reg_xmm; lia..]
  | |- checked (instr_create_1dst_1src _ (opnd_create_reg (ymm _)) _) = true =>
      eapply (checked_mov _ _ 2); [exact Hop|apply avx2_reg_ymm; lia..]
  | |- checked (instr_create_1dst_1src _ (opnd_create_reg (xmm _)) _) = true =>
      eapply (checked_mov _ _ 1); [exact Hop|apply avx2_reg_xmm; lia..]
  end.

Ltac checked_code Hop :=
  repeat pick_spill; autorewrite with rw_regs; unfold INSTR_CREATE_3, INSTR_CREATE_2;
  let code := fresh "code" in intros code [= <-];
  repeat (apply checked_cons; [checked1 Hop|]); reflexivity.

Lemma zmm_binop_checked op f (Hop : lane_binop op = Some f) a b d mask :
  0 <= a < 32 -> 0 <= b < 32 -> 0 <= d < 32 -> emits_checked (zmm_binop_gen op (zmm a) (zmm b) (zmm d) mask).
Proof.
  intros Ha Hb Hd; unfold emits_checked, zmm_binop_gen.
  rewrite !NEED_SPILL_ZMM_zmm, !ZMM_TO_YMM_zmm, !TO_ZMM_REG_INDEX_zmm, ?zmm_eqb by assumption.
  destruct (Z.leb_spec 16 a), (Z.leb_spec 16 b), (Z.leb_spec 16 d).
  all: cbv beta iota delta [Z.lor Pos.lor].
  all: alias_cases; checked_code Hop.
Qed.

(** The ymm generators choose registers by [ymm_cases] and [alias_cases]. *)
Ltac ymm_checked a b d Hop := ymm_cases a b d; alias_cases; checked_code Hop.

Lemma vpaddd_ymm_checked a b d mask :
  0 <= a < 32 -> 0 <= b < 32 -> 0 <= d < 32 -> emits_checked (vpaddd_ymm_and_ymm_gen (ymm a) (ymm b) (ymm d) mask).
Proof.
  intros Ha Hb Hd; unfold emits_checked, vpaddd_ymm_and_ymm_gen.
  pose proof (eq_refl : lane_binop OP_vpaddd = Some (padd 32)) as Hop; ymm_checked a b d Hop.
Qed.

Lemma ymm_fixed_checked op f (Hop : lane_binop op = Some f) a b d mask :
  0 <= a < 32 -> 0 <= b < 32 -> 0 <= d < 32 -> emits_checked (ymm_binop_fixed_gen op (ymm a) (ymm b) (ymm d) mask).
Proof. intros Ha Hb Hd; unfold emits_checked, ymm_binop_fixed_gen; ymm_checked a b d Hop. Qed.

Lemma vpsubb_ymm_checked a b d mask :
  0 <= a < 32 -> 0 <= b < 32 -> 0 <= d < 32 -> emits_checked (vpsubb_ymm_and_ymm_gen (ymm a) (ymm b) (ymm d) mask).
Proof.
  intros Ha Hb Hd; unfold emits_checked, vpsubb_ymm_and_ymm_gen.
  pose proof (eq_refl : lane_binop OP_vpsubb = Some (psub 8)) as Hop; ymm_cases a b d; alias_cases;
    first [discriminate|checked_code Hop].
Qed.

Lemma xmm_slots_checked op f (Hop : lane_binop op = Some f) a b d mask :
  0 <= a < 32 -> 0 <= b < 32 -> 0 <= d < 32 -> emits_checked (xmm_slots_gen op (xmm a) (xmm b) (xmm d) mask).
Proof. intros Ha Hb Hd; unfold emits_checked, xmm_slots_gen; xmm_cases a b d; alias_cases; checked_code Hop. Qed.

Lemma zmm_mov_checked a d mask : 0 <= a < 32 -> 0 <= d < 32 -> emits_checked (zmm_mov_gen (zmm a) (zmm d) mask).
Proof.
  intros Ha Hd; unfold emits_checked, zmm_mov_gen; change YMM_SPILL_SLOT0 with (ymm 10).
  pose proof (eq_refl : lane_mov OP_vmovdqu = Some false) as Hop.
  rewrite !NEED_SPILL_ZMM_zmm, !ZMM_TO_YMM_zmm, !TO_ZMM_REG_INDEX_zmm by assumption.
  destruct (Z.leb_spec 16 a), (Z.leb_spec 16 d); cbv beta iota delta [Z.lor Pos.lor]; alias_cases; checked_code Hop.
Qed.

(** *** Mask functions *)

Lemma checked_k r sz i :
  gpr_sized r sz = true -> (opsz_bytes sz <=? 8)%nat = true -> 0 <= i < 8 ->
  checked (SAVE_TO_SIZED_TLS r (TLS_K_idx_SLOT i) sz) = true /\
  checked (RESTORE_FROM_SIZED_TLS r (TLS_K_idx_SLOT i) sz) = true.
Proof.
  intros Hr Hs Hi; apply Nat.leb_le in Hs.
  assert (E : os_tls_offset (TLS_K_idx_SLOT i) = 32 + 8 * i) by (rewrite TLS_K_idx_SLOT_eq, os_tls_offset_id; lia).
  assert (Ht : tls_in_slot (OPND_TLS (32 + 8 * i) sz) = true).
  { apply tls_in_slot_iff; exists (32 + 8 * i), 8; split; [now apply k_slot_in|lia]. }
  unfold checked, typed, in_slots; cbn -[gpr_sized opsz_bytes os_tls_offset tls_in_slot]; rewrite Hr, E; cbn [andb].
  unfold opnd_create_sized_tls_slot; rewrite Ht; auto.
Qed.

Ltac checked_mask1 :=
  lazymatch goal with
  | |- checked (SAVE_TO_SIZED_TLS ?r (TLS_K_idx_SLOT ?i) ?sz) = true =>
      exact (proj1 (checked_k r sz i eq_refl eq_refl ltac:(assumption)))
  | |- checked (SAVE_TO_TLS ?r (TLS_K_idx_SLOT ?i)) = true =>
      exact (proj1 (checked_k r OPSZ_8 i eq_refl eq_refl ltac:(assumption)))
  | |- checked (RESTORE_FROM_TLS ?r (TLS_K_idx_SLOT ?i)) = true =>
      exact (proj2 (checked_k r OPSZ_8 i eq_refl eq_refl ltac:(assumption)))
  | |- checked (RESTORE_FROM_SIZED_TLS ?r (TLS_K_idx_SLOT ?i) ?sz) = true =>
      exact (proj2 (checked_k r sz i eq_refl eq_refl ltac:(assumption)))
  | |- checked _ = true => reflexivity
  end.

(** The binary mask functions that address the slots through TLS. *)
Definition mask_binops : list (instr_t -> rw_result) :=
  [rw_func_kandw; rw_func_kandb; rw_func_kandq; rw_func_kandd; rw_func_kandnw; rw_func_kandnb; rw_func_kandnq; rw_func_kandnd;
   rw_func_korw; rw_func_korb; rw_func_korq; rw_func_kord; rw_func_kxnorw; rw_func_kxnorb; rw_func_kxnorq; rw_func_kxnord].

Lemma mask_checked f opc a b d :
  In f mask_binops -> 0 <= a < 8 -> 0 <= b < 8 -> 0 <= d < 8 -> emits_checked (f (mask_instr3 opc d a b)).
Proof.
  intros Hf Ha Hb Hd; unfold mask_binops in Hf; cbn [In] in Hf.
  repeat (destruct Hf as [<-|Hf]; [
    intros code E;
    cbv beta iota zeta delta [rw_func_kandw rw_func_kandb rw_func_kandq rw_func_kandd rw_func_kandnw rw_func_kandnb rw_func_kandnq
      rw_func_kandnd rw_func_korw rw_func_korb rw_func_korq rw_func_kord rw_func_kxnorw rw_func_kxnorb rw_func_kxnorq rw_func_kxnord
      kand_gen kandn_gen kor_gen kxnor_gen mask_instr3 instr_get_src instr_get_dst instr_srcs instr_dsts nth
      opnd_create_reg opnd_get_reg rw_code rw_replace rw_insert] in E;
    rewrite ?TO_K_REG_INDEX_kreg in E;
    try match type of E with context [if ?c then _ else _] => destruct c end; injection E as <-;
    repeat (apply checked_cons; [checked_mask1|]); reflexivity|]).
  destruct Hf.
Qed.

(** ** Theorems *)

(** The rewrites of the binary vector instructions and the 512-bit moves on registers
    [a], [b] and [d], and of the binary mask instructions on masks. *)
Definition vector_rewrites (a b d : Z) (mask : reg_id_t) : list rw_result :=
  [vpaddq_zmm_reg_reg_gen (zmm a) (zmm b) (zmm d) mask; vpaddd_zmm_and_zmm_gen (zmm a) (zmm b) (zmm d) mask;
   vpsubq_zmm_and_zmm_gen (zmm a) (zmm b) (zmm d) mask; vporq_zmm_and_zmm_gen (zmm a) (zmm b) (zmm d) mask;
   vpxorq_zmm_and_zmm_gen (zmm a) (zmm b) (zmm d) mask; vpaddd_ymm_and_ymm_gen (ymm a) (ymm b) (ymm d) mask;
   vpsubw_ymm_and_ymm_gen (ymm a) (ymm b) (ymm d) mask; vpsubd_ymm_and_ymm_gen (ymm a) (ymm b) (ymm d) mask;
   vpsubq_ymm_and_ymm_gen (ymm a) (ymm b) (ymm d) mask; vpsubb_ymm_and_ymm_gen (ymm a) (ymm b) (ymm d) mask;
   vpsubw_xmm_and_xmm_gen (xmm a) (xmm b) (xmm d) mask;
   vmovdqu8_zmm_reg2reg_gen (zmm a) (zmm d) mask; vmovdqu16_zmm_reg2reg_gen (zmm a) (zmm d) mask;
   vmovdqu32_zmm_reg2reg_gen (zmm a) (zmm d) mask; vmovdqu64_zmm_reg2reg_gen (zmm a) (zmm d) mask].

Definition mask_rewrites (a b d : Z) : list rw_result := map (fun f => f (mask_instr3 0 d a b)) mask_binops.

Lemma vector_rewrites_checked a b d mask :
  0 <= a < 32 -> 0 <= b < 32 -> 0 <= d < 32 -> Forall emits_checked (vector_rewrites a b d mask).
Proof.
  intros Ha Hb Hd; unfold vector_rewrites; repeat constructor.
  all: first [ eapply zmm_binop_checked; [reflexivity|assumption..] | apply vpaddd_ymm_checked; assumption
             | eapply ymm_fixed_checked; [reflexivity|assumption..] | apply vpsubb_ymm_checked; assumption
             | eapply xmm_slots_checked; [reflexivity|assumption..] | apply zmm_mov_checked; assumption ].
Qed.

Lemma mask_rewrites_checked a b d :
  0 <= a < 8 -> 0 <= b < 8 -> 0 <= d < 8 -> Forall emits_checked (mask_rewrites a b d).
Proof.
  intros Ha Hb Hd; apply Forall_forall; intros r Hr; apply in_map_iff in Hr as (f & <- & Hf); now apply mask_checked.
Qed.

Lemma emits_checked_runs r code s :
  emits_checked r -> rw_code r = Some code -> wf_mach s ->
  exists s', run code s = Some s' /\ wf_mach s' /\ forall x, outside x -> tls s' x = tls s x.
Proof.
  intros Hr E Hs; specialize (Hr code E).
  assert (Ht : forallb typed code = true /\ forallb in_slots code = true).
  { split; apply forallb_forall; intros i Hi; rewrite forallb_forall in Hr; specialize (Hr i Hi);
      unfold checked in Hr; now apply andb_true_iff in Hr. }
  destruct (run_typed code s (proj1 Ht)) as [s' R]; exists s'.
  split; [exact R|split; [eauto using run_wf|intros x Hx; eapply run_tls; [apply Ht|exact R|exact Hx]]].
Qed.

(** C11: The rewrites listed in [vector_rewrites] (on zmm registers [vpaddq],
    [vpaddd], [vpsubq], [vporq], [vpxorq] and the four [vmovdqu] moves, on ymm
    registers [vpaddd], [vpsubb], [vpsubw], [vpsubd] and [vpsubq], on xmm
    registers [vpsubw]) and in [mask_rewrites] ([kand], [kandn], [kor] and
    [kxnor] of every width), for every choice of registers, conflicting ones
    included: every access of the emitted code to thread-local storage lies
    inside the slot of one vector or mask register, the code runs to its end on
    an AVX2 host whose stack can be written, and no byte of thread-local storage
    outside the slots changes, the [dcontext] pointer behind them among them. *)
Theorem emitted_code_bounded a b d k1 k2 k3 mask r code s :
  0 <= a < 32 -> 0 <= b < 32 -> 0 <= d < 32 -> 0 <= k1 < 8 -> 0 <= k2 < 8 -> 0 <= k3 < 8 ->
  In r (vector_rewrites a b d mask ++ mask_rewrites k1 k2 k3) -> rw_code r = Some code ->
  forallb in_slots code = true /\
  (wf_mach s -> exists s', run code s = Some s' /\ wf_mach s' /\ forall x, outside x -> tls s' x = tls s x).
Proof.
  intros Ha Hb Hd H1 H2 H3 Hr E.
  assert (Hc : emits_checked r).
  { apply in_app_or in Hr as [Hr|Hr]; revert r Hr E; intros r Hr _.
    - exact (proj1 (Forall_forall _ _) (vector_rewrites_checked a b d mask Ha Hb Hd) r Hr).
    - exact (proj1 (Forall_forall _ _) (mask_rewrites_checked k1 k2 k3 H1 H2 H3) r Hr). }
  split; [|now apply (emits_checked_runs r)].
  specialize (Hc code E); rewrite forallb_forall in *; intros i Hi; specialize (Hc i Hi).
  unfold checked in Hc; now apply andb_true_iff in Hc.
Qed.

(** [vpsubd ymm10, ymm10, ymm20], whose result is wrong. *)
Lemma emitted_code_bounded_witness :
  exists code, rw_code (vpsubd_ymm_and_ymm_gen (ymm 10) (ymm 20) (ymm 10) DR_REG_K0) = Some code /\
    forallb in_slots code = true /\ exists s', run code probe = Some s'.
Proof.
  eexists; split; [reflexivity|].
  destruct (emitted_code_bounded 10 20 10 0 0 0 DR_REG_K0 (vpsubd_ymm_and_ymm_gen (ymm 10) (ymm 20) (ymm 10) DR_REG_K0) _ probe
              ltac:(lia) ltac:(lia) ltac:(lia) ltac:(lia) ltac:(lia) ltac:(lia) ltac:(cbn [In app vector_rewrites]; tauto) eq_refl)
    as [H1 H2].
  split; [exact H1|]; destruct (H2 probe_wf) as (s' & R & _); exists s'; exact R.
Defined.
