(* ===== verification/Dispatch.v ===== *)
(** * Dispatch

    The table [rewrite_funcs] that maps an AVX-512 opcode to its rewrite
    function, the opcodes it is indexed by ([opcode_api.h], in the order of the
    enumeration), and the rewrite functions of [vpaddd], [vpsubq] and [vpsubb],
    which choose a generator by the width of the destination. *)
From Stdlib Require Import ZArith List Bool Lia String.
From S2P Require Import Prelude Regs Spill Bytes Lanes Machine Arch512 SymExec GenZmm.
From S2P Require Import GenYmm GenXmm GenLane GenShift GenRotate GenExtend GenBroadcast RwFuncs ScalarExec MaskSpec KLogic KMov KArith KShift KTest GenCmp.
Import ListNotations.
#[local] Open Scope Z_scope.
#[local] Open Scope bool_scope.
#[local] Open Scope rw_scope.

(** ** Opcodes and the table *)

(** The enumeration value of [OP_vmovss]. *)
Definition OP_vmovss : Z := 636.
Definition OP_vshufi64x2 : Z := 1403.
Definition AVX512_FIRST_OP : Z := OP_vmovss.
Definition AVX512_LAST_OP : Z := OP_vshufi64x2.
Definition NUM_AVX512_INSTR_OP : Z := (AVX512_LAST_OP - AVX512_FIRST_OP) + 1.
Definition TO_AVX512_RWFUNC_INDEX (opcode : Z) : Z := opcode - AVX512_FIRST_OP.
Definition TO_AVX512_RWFUNC_OPCODE (index : Z) : Z := index + AVX512_FIRST_OP.

#[local] Open Scope string_scope.

(** The names of the opcodes [AVX512_FIRST_OP .. AVX512_LAST_OP], in order. *)
Definition avx512_opcodes : list string := [
  "vmovss"; "vmovsd"; "vmovups"; "vmovupd"; "vmovlps"; "vmovsldup"; "vmovlpd"; "vmovddup"; "vunpcklps";
  "vunpcklpd"; "vunpckhps"; "vunpckhpd"; "vmovhps"; "vmovshdup"; "vmovhpd"; "vmovaps"; "vmovapd";
  "vcvtsi2ss"; "vcvtsi2sd"; "vmovntps"; "vmovntpd"; "vcvttss2si"; "vcvttsd2si"; "vcvtss2si"; "vcvtsd2si";
  "vucomiss"; "vucomisd"; "vcomiss"; "vcomisd"; "vmovmskps"; "vmovmskpd"; "vsqrtps"; "vsqrtss"; "vsqrtpd";
  "vsqrtsd"; "vrsqrtps"; "vrsqrtss"; "vrcpps"; "vrcpss"; "vandps"; "vandpd"; "vandnps"; "vandnpd"; "vorps";
  "vorpd"; "vxorps"; "vxorpd"; "vaddps"; "vaddss"; "vaddpd"; "vaddsd"; "vmulps"; "vmulss"; "vmulpd";
  "vmulsd"; "vcvtps2pd"; "vcvtss2sd"; "vcvtpd2ps"; "vcvtsd2ss"; "vcvtdq2ps"; "vcvttps2dq"; "vcvtps2dq";
  "vsubps"; "vsubss"; "vsubpd"; "vsubsd"; "vminps"; "vminss"; "vminpd"; "vminsd"; "vdivps"; "vdivss";
  "vdivpd"; "vdivsd"; "vmaxps"; "vmaxss"; "vmaxpd"; "vmaxsd"; "vpunpcklbw"; "vpunpcklwd"; "vpunpckldq";
  "vpacksswb"; "vpcmpgtb"; "vpcmpgtw"; "vpcmpgtd"; "vpackuswb"; "vpunpckhbw"; "vpunpckhwd"; "vpunpckhdq";
  "vpackssdw"; "vpunpcklqdq"; "vpunpckhqdq"; "vmovd"; "vpshufhw"; "vpshufd"; "vpshuflw"; "vpcmpeqb";
  "vpcmpeqw"; "vpcmpeqd"; "vmovq"; "vcmpps"; "vcmpss"; "vcmppd"; "vcmpsd"; "vpinsrw"; "vpextrw"; "vshufps";
  "vshufpd"; "vpsrlw"; "vpsrld"; "vpsrlq"; "vpaddq"; "vpmullw"; "vpmovmskb"; "vpsubusb"; "vpsubusw";
  "vpminub"; "vpand"; "vpaddusb"; "vpaddusw"; "vpmaxub"; "vpandn"; "vpavgb"; "vpsraw"; "vpsrad"; "vpavgw";
  "vpmulhuw"; "vpmulhw"; "vcvtdq2pd"; "vcvttpd2dq"; "vcvtpd2dq"; "vmovntdq"; "vpsubsb"; "vpsubsw"; "vpminsw";
  "vpor"; "vpaddsb"; "vpaddsw"; "vpmaxsw"; "vpxor"; "vpsllw"; "vpslld"; "vpsllq"; "vpmuludq"; "vpmaddwd";
  "vpsadbw"; "vmaskmovdqu"; "vpsubb"; "vpsubw"; "vpsubd"; "vpsubq"; "vpaddb"; "vpaddw"; "vpaddd"; "vpsrldq";
  "vpslldq"; "vmovdqu"; "vmovdqa"; "vhaddpd"; "vhaddps"; "vhsubpd"; "vhsubps"; "vaddsubpd"; "vaddsubps";
  "vlddqu"; "vpshufb"; "vphaddw"; "vphaddd"; "vphaddsw"; "vpmaddubsw"; "vphsubw"; "vphsubd"; "vphsubsw";
  "vpsignb"; "vpsignw"; "vpsignd"; "vpmulhrsw"; "vpabsb"; "vpabsw"; "vpabsd"; "vpalignr"; "vpblendvb";
  "vblendvps"; "vblendvpd"; "vptest"; "vpmovsxbw"; "vpmovsxbd"; "vpmovsxbq"; "vpmovsxwd"; "vpmovsxwq";
  "vpmovsxdq"; "vpmuldq"; "vpcmpeqq"; "vmovntdqa"; "vpackusdw"; "vpmovzxbw"; "vpmovzxbd"; "vpmovzxbq";
  "vpmovzxwd"; "vpmovzxwq"; "vpmovzxdq"; "vpcmpgtq"; "vpminsb"; "vpminsd"; "vpminuw"; "vpminud"; "vpmaxsb";
  "vpmaxsd"; "vpmaxuw"; "vpmaxud"; "vpmulld"; "vphminposuw"; "vaesimc"; "vaesenc"; "vaesenclast"; "vaesdec";
  "vaesdeclast"; "vpextrb"; "vpextrd"; "vextractps"; "vroundps"; "vroundpd"; "vroundss"; "vroundsd";
  "vblendps"; "vblendpd"; "vpblendw"; "vpinsrb"; "vinsertps"; "vpinsrd"; "vdpps"; "vdppd"; "vmpsadbw";
  "vpcmpestrm"; "vpcmpestri"; "vpcmpistrm"; "vpcmpistri"; "vpclmulqdq"; "vaeskeygenassist"; "vtestps";
  "vtestpd"; "vzeroupper"; "vzeroall"; "vldmxcsr"; "vstmxcsr"; "vbroadcastss"; "vbroadcastsd";
  "vbroadcastf128"; "vmaskmovps"; "vmaskmovpd"; "vpermilps"; "vpermilpd"; "vperm2f128"; "vinsertf128";
  "vextractf128"; "vcvtph2ps"; "vcvtps2ph"; "vfmadd132ps"; "vfmadd132pd"; "vfmadd213ps"; "vfmadd213pd";
  "vfmadd231ps"; "vfmadd231pd"; "vfmadd132ss"; "vfmadd132sd"; "vfmadd213ss"; "vfmadd213sd"; "vfmadd231ss";
  "vfmadd231sd"; "vfmaddsub132ps"; "vfmaddsub132pd"; "vfmaddsub213ps"; "vfmaddsub213pd"; "vfmaddsub231ps";
  "vfmaddsub231pd"; "vfmsubadd132ps"; "vfmsubadd132pd"; "vfmsubadd213ps"; "vfmsubadd213pd"; "vfmsubadd231ps";
  "vfmsubadd231pd"; "vfmsub132ps"; "vfmsub132pd"; "vfmsub213ps"; "vfmsub213pd"; "vfmsub231ps"; "vfmsub231pd";
  "vfmsub132ss"; "vfmsub132sd"; "vfmsub213ss"; "vfmsub213sd"; "vfmsub231ss"; "vfmsub231sd"; "vfnmadd132ps";
  "vfnmadd132pd"; "vfnmadd213ps"; "vfnmadd213pd"; "vfnmadd231ps"; "vfnmadd231pd"; "vfnmadd132ss";
  "vfnmadd132sd"; "vfnmadd213ss"; "vfnmadd213sd"; "vfnmadd231ss"; "vfnmadd231sd"; "vfnmsub132ps";
  "vfnmsub132pd"; "vfnmsub213ps"; "vfnmsub213pd"; "vfnmsub231ps"; "vfnmsub231pd"; "vfnmsub132ss";
  "vfnmsub132sd"; "vfnmsub213ss"; "vfnmsub213sd"; "vfnmsub231ss"; "vfnmsub231sd"; "movq2dq"; "movdq2q";
  "fxsave64"; "fxrstor64"; "xsave64"; "xrstor64"; "xsaveopt64"; "rdrand"; "rdfsbase"; "rdgsbase"; "wrfsbase";
  "wrgsbase"; "rdseed"; "vfmaddsubps"; "vfmaddsubpd"; "vfmsubaddps"; "vfmsubaddpd"; "vfmaddps"; "vfmaddpd";
  "vfmaddss"; "vfmaddsd"; "vfmsubps"; "vfmsubpd"; "vfmsubss"; "vfmsubsd"; "vfnmaddps"; "vfnmaddpd";
  "vfnmaddss"; "vfnmaddsd"; "vfnmsubps"; "vfnmsubpd"; "vfnmsubss"; "vfnmsubsd"; "vfrczps"; "vfrczpd";
  "vfrczss"; "vfrczsd"; "vpcmov"; "vpcomb"; "vpcomw"; "vpcomd"; "vpcomq"; "vpcomub"; "vpcomuw"; "vpcomud";
  "vpcomuq"; "vpermil2pd"; "vpermil2ps"; "vphaddbw"; "vphaddbd"; "vphaddbq"; "vphaddwd"; "vphaddwq";
  "vphadddq"; "vphaddubw"; "vphaddubd"; "vphaddubq"; "vphadduwd"; "vphadduwq"; "vphaddudq"; "vphsubbw";
  "vphsubwd"; "vphsubdq"; "vpmacssww"; "vpmacsswd"; "vpmacssdql"; "vpmacssdd"; "vpmacssdqh"; "vpmacsww";
  "vpmacswd"; "vpmacsdql"; "vpmacsdd"; "vpmacsdqh"; "vpmadcsswd"; "vpmadcswd"; "vpperm"; "vprotb"; "vprotw";
  "vprotd"; "vprotq"; "vpshlb"; "vpshlw"; "vpshld"; "vpshlq"; "vpshab"; "vpshaw"; "vpshad"; "vpshaq";
  "bextr"; "blcfill"; "blci"; "blcic"; "blcmsk"; "blcs"; "blsfill"; "blsic"; "t1mskc"; "tzmsk"; "llwpcb";
  "slwpcb"; "lwpins"; "lwpval"; "andn"; "blsr"; "blsmsk"; "blsi"; "tzcnt"; "bzhi"; "pext"; "pdep"; "sarx";
  "shlx"; "shrx"; "rorx"; "mulx"; "getsec"; "vmfunc"; "invpcid"; "xabort"; "xbegin"; "xend"; "xtest";
  "vpgatherdd"; "vpgatherdq"; "vpgatherqd"; "vpgatherqq"; "vgatherdps"; "vgatherdpd"; "vgatherqps";
  "vgatherqpd"; "vbroadcasti128"; "vinserti128"; "vextracti128"; "vpmaskmovd"; "vpmaskmovq"; "vperm2i128";
  "vpermd"; "vpermps"; "vpermq"; "vpermpd"; "vpblendd"; "vpsllvd"; "vpsllvq"; "vpsravd"; "vpsrlvd";
  "vpsrlvq"; "vpbroadcastb"; "vpbroadcastw"; "vpbroadcastd"; "vpbroadcastq"; "xsavec32"; "xsavec64"; "adox";
  "adcx"; "kmovw"; "kmovb"; "kmovq"; "kmovd"; "kandw"; "kandb"; "kandq"; "kandd"; "kandnw"; "kandnb";
  "kandnq"; "kandnd"; "kunpckbw"; "kunpckwd"; "kunpckdq"; "knotw"; "knotb"; "knotq"; "knotd"; "korw"; "korb";
  "korq"; "kord"; "kxnorw"; "kxnorb"; "kxnorq"; "kxnord"; "kxorw"; "kxorb"; "kxorq"; "kxord"; "kaddw";
  "kaddb"; "kaddq"; "kaddd"; "kortestw"; "kortestb"; "kortestq"; "kortestd"; "kshiftlw"; "kshiftlb";
  "kshiftlq"; "kshiftld"; "kshiftrw"; "kshiftrb"; "kshiftrq"; "kshiftrd"; "ktestw"; "ktestb"; "ktestq";
  "ktestd"; "valignd"; "valignq"; "vblendmpd"; "vblendmps"; "vbroadcastf32x2"; "vbroadcastf32x4";
  "vbroadcastf32x8"; "vbroadcastf64x2"; "vbroadcastf64x4"; "vbroadcasti32x2"; "vbroadcasti32x4";
  "vbroadcasti32x8"; "vbroadcasti64x2"; "vbroadcasti64x4"; "vcompresspd"; "vcompressps"; "vcvtpd2qq";
  "vcvtpd2udq"; "vcvtpd2uqq"; "vcvtps2qq"; "vcvtps2udq"; "vcvtps2uqq"; "vcvtqq2pd"; "vcvtqq2ps";
  "vcvtsd2usi"; "vcvtss2usi"; "vcvttpd2qq"; "vcvttpd2udq"; "vcvttpd2uqq"; "vcvttps2qq"; "vcvttps2udq";
  "vcvttps2uqq"; "vcvttsd2usi"; "vcvttss2usi"; "vcvtudq2pd"; "vcvtudq2ps"; "vcvtuqq2pd"; "vcvtuqq2ps";
  "vcvtusi2sd"; "vcvtusi2ss"; "vdbpsadbw"; "vexp2pd"; "vexp2ps"; "vexpandpd"; "vexpandps"; "vextractf32x4";
  "vextractf32x8"; "vextractf64x2"; "vextractf64x4"; "vextracti32x4"; "vextracti32x8"; "vextracti64x2";
  "vextracti64x4"; "vfixupimmpd"; "vfixupimmps"; "vfixupimmsd"; "vfixupimmss"; "vfpclasspd"; "vfpclassps";
  "vfpclasssd"; "vfpclassss"; "vgatherpf0dpd"; "vgatherpf0dps"; "vgatherpf0qpd"; "vgatherpf0qps";
  "vgatherpf1dpd"; "vgatherpf1dps"; "vgatherpf1qpd"; "vgatherpf1qps"; "vgetexppd"; "vgetexpps"; "vgetexpsd";
  "vgetexpss"; "vgetmantpd"; "vgetmantps"; "vgetmantsd"; "vgetmantss"; "vinsertf32x4"; "vinsertf32x8";
  "vinsertf64x2"; "vinsertf64x4"; "vinserti32x4"; "vinserti32x8"; "vinserti64x2"; "vinserti64x4";
  "vmovdqa32"; "vmovdqa64"; "vmovdqu16"; "vmovdqu32"; "vmovdqu64"; "vmovdqu8"; "vpabsq"; "vpandd"; "vpandnd";
  "vpandnq"; "vpandq"; "vpblendmb"; "vpblendmd"; "vpblendmq"; "vpblendmw"; "vpbroadcastmb2q";
  "vpbroadcastmw2d"; "vpcmpb"; "vpcmpd"; "vpcmpq"; "vpcmpub"; "vpcmpud"; "vpcmpuq"; "vpcmpuw"; "vpcmpw";
  "vpcompressd"; "vpcompressq"; "vpconflictd"; "vpconflictq"; "vpermb"; "vpermi2b"; "vpermi2d"; "vpermi2pd";
  "vpermi2ps"; "vpermi2q"; "vpermi2w"; "vpermt2b"; "vpermt2d"; "vpermt2pd"; "vpermt2ps"; "vpermt2q";
  "vpermt2w"; "vpermw"; "vpexpandd"; "vpexpandq"; "vpextrq"; "vpinsrq"; "vplzcntd"; "vplzcntq";
  "vpmadd52huq"; "vpmadd52luq"; "vpmaxsq"; "vpmaxuq"; "vpminsq"; "vpminuq"; "vpmovb2m"; "vpmovd2m";
  "vpmovdb"; "vpmovdw"; "vpmovm2b"; "vpmovm2d"; "vpmovm2q"; "vpmovm2w"; "vpmovq2m"; "vpmovqb"; "vpmovqd";
  "vpmovqw"; "vpmovsdb"; "vpmovsdw"; "vpmovsqb"; "vpmovsqd"; "vpmovsqw"; "vpmovswb"; "vpmovusdb";
  "vpmovusdw"; "vpmovusqb"; "vpmovusqd"; "vpmovusqw"; "vpmovuswb"; "vpmovw2m"; "vpmovwb"; "vpmullq"; "vpord";
  "vporq"; "vprold"; "vprolq"; "vprolvd"; "vprolvq"; "vprord"; "vprorq"; "vprorvd"; "vprorvq"; "vpscatterdd";
  "vpscatterdq"; "vpscatterqd"; "vpscatterqq"; "vpsllvw"; "vpsraq"; "vpsravq"; "vpsravw"; "vpsrlvw";
  "vpternlogd"; "vpternlogq"; "vptestmb"; "vptestmd"; "vptestmq"; "vptestmw"; "vptestnmb"; "vptestnmd";
  "vptestnmq"; "vptestnmw"; "vpxord"; "vpxorq"; "vrangepd"; "vrangeps"; "vrangesd"; "vrangess"; "vrcp14pd";
  "vrcp14ps"; "vrcp14sd"; "vrcp14ss"; "vrcp28pd"; "vrcp28ps"; "vrcp28sd"; "vrcp28ss"; "vreducepd";
  "vreduceps"; "vreducesd"; "vreducess"; "vrndscalepd"; "vrndscaleps"; "vrndscalesd"; "vrndscaless";
  "vrsqrt14pd"; "vrsqrt14ps"; "vrsqrt14sd"; "vrsqrt14ss"; "vrsqrt28pd"; "vrsqrt28ps"; "vrsqrt28sd";
  "vrsqrt28ss"; "vscalefpd"; "vscalefps"; "vscalefsd"; "vscalefss"; "vscatterdpd"; "vscatterdps";
  "vscatterqpd"; "vscatterqps"; "vscatterpf0dpd"; "vscatterpf0dps"; "vscatterpf0qpd"; "vscatterpf0qps";
  "vscatterpf1dpd"; "vscatterpf1dps"; "vscatterpf1qpd"; "vscatterpf1qps"; "vshuff32x4"; "vshuff64x2";
  "vshufi32x4"; "vshufi64x2"].

(** The rewrite functions the table names. *)
Inductive rwfunc :=
| Rw_empty | Rw_vmovss | Rw_vmovsd | Rw_vmovups | Rw_vmovupd | Rw_vmovlps | Rw_vmovsldup | Rw_vmovlpd
| Rw_vmovddup | Rw_vunpcklps | Rw_vunpcklpd | Rw_vunpckhps | Rw_vunpckhpd | Rw_vmovhps | Rw_vmovshdup
| Rw_vmovhpd | Rw_vmovaps | Rw_vmovapd | Rw_vcvtsi2ss | Rw_vcvtsi2sd | Rw_vmovntps | Rw_vmovntpd
| Rw_vcvttss2si | Rw_vcvttsd2si | Rw_vcvtss2si | Rw_vcvtsd2si | Rw_vucomiss | Rw_vucomisd | Rw_vcomiss
| Rw_vcomisd | Rw_vmovmskps | Rw_vmovmskpd | Rw_vsqrtps | Rw_vsqrtss | Rw_vsqrtpd | Rw_vsqrtsd | Rw_vpackuswb
| Rw_vmovq | Rw_vpsrlq | Rw_vpaddq | Rw_vpsrad | Rw_vpsllw | Rw_vpslld | Rw_vpsllq | Rw_vpsubb | Rw_vpsubw
| Rw_vpsubd | Rw_vpsubq | Rw_vpaddw | Rw_vpaddd | Rw_vpsrldq | Rw_vpmovsxwd | Rw_vpmovsxdq | Rw_vpmovzxbw
| Rw_vpmovzxbd | Rw_vpmovzxbq | Rw_vpmovzxwd | Rw_vpmovzxwq | Rw_vpmovzxdq | Rw_vpmulld | Rw_vpextr_
| Rw_vpgatherdd | Rw_vpgatherdq | Rw_vpgatherqq | Rw_vpbroadcastb | Rw_vpbroadcastw | Rw_vpbroadcastd
| Rw_vpbroadcastq | Rw_kmovw | Rw_kmovb | Rw_kmovq | Rw_kmovd | Rw_kandw | Rw_kandb | Rw_kandq | Rw_kandd
| Rw_kandnw | Rw_kandnb | Rw_kandnq | Rw_kandnd | Rw_kunpckbw | Rw_kunpckwd | Rw_kunpckdq | Rw_knotw
| Rw_knotb | Rw_knotq | Rw_knotd | Rw_korw | Rw_korb | Rw_korq | Rw_kord | Rw_kxnorw | Rw_kxnorb | Rw_kxnorq
| Rw_kxnord | Rw_kxorw | Rw_kxorb | Rw_kxorq | Rw_kxord | Rw_kaddw | Rw_kaddb | Rw_kaddq | Rw_kaddd
| Rw_kortestw | Rw_kortestb | Rw_kortestq | Rw_kortestd | Rw_kshiftlw | Rw_kshiftlb | Rw_kshiftlq
| Rw_kshiftld | Rw_kshiftrw | Rw_kshiftrb | Rw_kshiftrq | Rw_kshiftrd | Rw_ktestw | Rw_ktestb | Rw_ktestq
| Rw_ktestd | Rw_vcvttsd2usi | Rw_vcvttss2usi | Rw_vcvtusi2sd | Rw_vcvtusi2ss | Rw_vextractf64x2
| Rw_vextracti32x4 | Rw_vextracti64x2 | Rw_vinserti64x4 | Rw_vmovdqa32 | Rw_vmovdqa64 | Rw_vmovdqu16
| Rw_vmovdqu32 | Rw_vmovdqu64 | Rw_vmovdqu8 | Rw_vpandd | Rw_vpandq | Rw_vpcmpd | Rw_vpcmpq | Rw_vpcmpud
| Rw_vpcmpw | Rw_vpermi2q | Rw_vpermi2w | Rw_vpermt2d | Rw_vpermt2ps | Rw_vpermt2q | Rw_vpermt2w | Rw_vpmullq
| Rw_vporq | Rw_vprolq | Rw_vprorq | Rw_vpscatterdd | Rw_vpscatterdq | Rw_vpscatterqd | Rw_vpscatterqq
| Rw_vpxord | Rw_vpxorq | Rw_vrndscaleps | Rw_vrndscalesd | Rw_vrndscaless | Rw_vshufi32x4.

Definition rewrite_funcs : list rwfunc := [
  Rw_vmovss; Rw_vmovsd; Rw_vmovups; Rw_vmovupd; Rw_vmovlps; Rw_vmovsldup; Rw_vmovlpd; Rw_vmovddup;
  Rw_vunpcklps; Rw_vunpcklpd; Rw_vunpckhps; Rw_vunpckhpd; Rw_vmovhps; Rw_vmovshdup; Rw_vmovhpd; Rw_vmovaps;
  Rw_vmovapd; Rw_vcvtsi2ss; Rw_vcvtsi2sd; Rw_vmovntps; Rw_vmovntpd; Rw_vcvttss2si; Rw_vcvttsd2si;
  Rw_vcvtss2si; Rw_vcvtsd2si; Rw_vucomiss; Rw_vucomisd; Rw_vcomiss; Rw_vcomisd; Rw_vmovmskps; Rw_vmovmskpd;
  Rw_vsqrtps; Rw_vsqrtss; Rw_vsqrtpd; Rw_vsqrtsd; Rw_empty; Rw_empty; Rw_empty; Rw_empty; Rw_empty; Rw_empty;
  Rw_empty; Rw_empty; Rw_empty; Rw_empty; Rw_empty; Rw_empty; Rw_empty; Rw_empty; Rw_empty; Rw_empty;
  Rw_empty; Rw_empty; Rw_empty; Rw_empty; Rw_empty; Rw_empty; Rw_empty; Rw_empty; Rw_empty; Rw_empty;
  Rw_empty; Rw_empty; Rw_empty; Rw_empty; Rw_empty; Rw_empty; Rw_empty; Rw_empty; Rw_empty; Rw_empty;
  Rw_empty; Rw_empty; Rw_empty; Rw_empty; Rw_empty; Rw_empty; Rw_empty; Rw_empty; Rw_empty; Rw_empty;
  Rw_empty; Rw_empty; Rw_empty; Rw_empty; Rw_vpackuswb; Rw_empty; Rw_empty; Rw_empty; Rw_empty; Rw_empty;
  Rw_empty; Rw_empty; Rw_empty; Rw_empty; Rw_empty; Rw_empty; Rw_empty; Rw_empty; Rw_vmovq; Rw_empty;
  Rw_empty; Rw_empty; Rw_empty; Rw_empty; Rw_empty; Rw_empty; Rw_empty; Rw_empty; Rw_empty; Rw_vpsrlq;
  Rw_vpaddq; Rw_empty; Rw_empty; Rw_empty; Rw_empty; Rw_empty; Rw_empty; Rw_empty; Rw_empty; Rw_empty;
  Rw_empty; Rw_empty; Rw_empty; Rw_vpsrad; Rw_empty; Rw_empty; Rw_empty; Rw_empty; Rw_empty; Rw_empty;
  Rw_empty; Rw_empty; Rw_empty; Rw_empty; Rw_empty; Rw_empty; Rw_empty; Rw_empty; Rw_empty; Rw_vpsllw;
  Rw_vpslld; Rw_vpsllq; Rw_empty; Rw_empty; Rw_empty; Rw_empty; Rw_vpsubb; Rw_vpsubw; Rw_vpsubd; Rw_vpsubq;
  Rw_empty; Rw_vpaddw; Rw_vpaddd; Rw_vpsrldq; Rw_empty; Rw_empty; Rw_empty; Rw_empty; Rw_empty; Rw_empty;
  Rw_empty; Rw_empty; Rw_empty; Rw_empty; Rw_empty; Rw_empty; Rw_empty; Rw_empty; Rw_empty; Rw_empty;
  Rw_empty; Rw_empty; Rw_empty; Rw_empty; Rw_empty; Rw_empty; Rw_empty; Rw_empty; Rw_empty; Rw_empty;
  Rw_empty; Rw_empty; Rw_empty; Rw_empty; Rw_empty; Rw_empty; Rw_empty; Rw_vpmovsxwd; Rw_empty; Rw_vpmovsxdq;
  Rw_empty; Rw_empty; Rw_empty; Rw_empty; Rw_vpmovzxbw; Rw_vpmovzxbd; Rw_vpmovzxbq; Rw_vpmovzxwd;
  Rw_vpmovzxwq; Rw_vpmovzxdq; Rw_empty; Rw_empty; Rw_empty; Rw_empty; Rw_empty; Rw_empty; Rw_empty; Rw_empty;
  Rw_empty; Rw_vpmulld; Rw_empty; Rw_empty; Rw_empty; Rw_empty; Rw_empty; Rw_empty; Rw_vpextr_; Rw_vpextr_;
  Rw_empty; Rw_empty; Rw_empty; Rw_empty; Rw_empty; Rw_empty; Rw_empty; Rw_empty; Rw_empty; Rw_empty;
  Rw_empty; Rw_empty; Rw_empty; Rw_empty; Rw_empty; Rw_empty; Rw_empty; Rw_empty; Rw_empty; Rw_empty;
  Rw_empty; Rw_empty; Rw_empty; Rw_empty; Rw_empty; Rw_empty; Rw_empty; Rw_empty; Rw_empty; Rw_empty;
  Rw_empty; Rw_empty; Rw_empty; Rw_empty; Rw_empty; Rw_empty; Rw_empty; Rw_empty; Rw_empty; Rw_empty;
  Rw_empty; Rw_empty; Rw_empty; Rw_empty; Rw_empty; Rw_empty; Rw_empty; Rw_empty; Rw_empty; Rw_empty;
  Rw_empty; Rw_empty; Rw_empty; Rw_empty; Rw_empty; Rw_empty; Rw_empty; Rw_empty; Rw_empty; Rw_empty;
  Rw_empty; Rw_empty; Rw_empty; Rw_empty; Rw_empty; Rw_empty; Rw_empty; Rw_empty; Rw_empty; Rw_empty;
  Rw_empty; Rw_empty; Rw_empty; Rw_empty; Rw_empty; Rw_empty; Rw_empty; Rw_empty; Rw_empty; Rw_empty;
  Rw_empty; Rw_empty; Rw_empty; Rw_empty; Rw_empty; Rw_empty; Rw_empty; Rw_empty; Rw_empty; Rw_empty;
  Rw_empty; Rw_empty; Rw_empty; Rw_empty; Rw_empty; Rw_empty; Rw_empty; Rw_empty; Rw_empty; Rw_empty;
  Rw_empty; Rw_empty; Rw_empty; Rw_empty; Rw_empty; Rw_empty; Rw_empty; Rw_empty; Rw_empty; Rw_empty;
  Rw_empty; Rw_empty; Rw_empty; Rw_empty; Rw_empty; Rw_empty; Rw_empty; Rw_empty; Rw_empty; Rw_empty;
  Rw_empty; Rw_empty; Rw_empty; Rw_empty; Rw_empty; Rw_empty; Rw_empty; Rw_empty; Rw_empty; Rw_empty;
  Rw_empty; Rw_empty; Rw_empty; Rw_empty; Rw_empty; Rw_empty; Rw_empty; Rw_empty; Rw_empty; Rw_empty;
  Rw_empty; Rw_empty; Rw_empty; Rw_empty; Rw_empty; Rw_empty; Rw_empty; Rw_empty; Rw_empty; Rw_empty;
  Rw_empty; Rw_empty; Rw_empty; Rw_empty; Rw_empty; Rw_empty; Rw_empty; Rw_empty; Rw_empty; Rw_empty;
  Rw_empty; Rw_empty; Rw_empty; Rw_empty; Rw_empty; Rw_empty; Rw_empty; Rw_empty; Rw_empty; Rw_empty;
  Rw_empty; Rw_empty; Rw_empty; Rw_empty; Rw_empty; Rw_empty; Rw_empty; Rw_empty; Rw_empty; Rw_empty;
  Rw_empty; Rw_empty; Rw_empty; Rw_empty; Rw_empty; Rw_empty; Rw_empty; Rw_empty; Rw_empty; Rw_empty;
  Rw_empty; Rw_empty; Rw_empty; Rw_empty; Rw_empty; Rw_empty; Rw_empty; Rw_empty; Rw_empty; Rw_empty;
  Rw_empty; Rw_empty; Rw_empty; Rw_empty; Rw_empty; Rw_empty; Rw_empty; Rw_empty; Rw_empty; Rw_empty;
  Rw_empty; Rw_empty; Rw_empty; Rw_empty; Rw_empty; Rw_empty; Rw_empty; Rw_empty; Rw_empty; Rw_empty;
  Rw_vpgatherdd; Rw_vpgatherdq; Rw_empty; Rw_vpgatherqq; Rw_empty; Rw_empty; Rw_empty; Rw_empty; Rw_empty;
  Rw_empty; Rw_empty; Rw_empty; Rw_empty; Rw_empty; Rw_empty; Rw_empty; Rw_empty; Rw_empty; Rw_empty;
  Rw_empty; Rw_empty; Rw_empty; Rw_empty; Rw_empty; Rw_vpbroadcastb; Rw_vpbroadcastw; Rw_vpbroadcastd;
  Rw_vpbroadcastq; Rw_empty; Rw_empty; Rw_empty; Rw_empty; Rw_kmovw; Rw_kmovb; Rw_kmovq; Rw_kmovd; Rw_kandw;
  Rw_kandb; Rw_kandq; Rw_kandd; Rw_kandnw; Rw_kandnb; Rw_kandnq; Rw_kandnd; Rw_kunpckbw; Rw_kunpckwd;
  Rw_kunpckdq; Rw_knotw; Rw_knotb; Rw_knotq; Rw_knotd; Rw_korw; Rw_korb; Rw_korq; Rw_kord; Rw_kxnorw;
  Rw_kxnorb; Rw_kxnorq; Rw_kxnord; Rw_kxorw; Rw_kxorb; Rw_kxorq; Rw_kxord; Rw_kaddw; Rw_kaddb; Rw_kaddq;
  Rw_kaddd; Rw_kortestw; Rw_kortestb; Rw_kortestq; Rw_kortestd; Rw_kshiftlw; Rw_kshiftlb; Rw_kshiftlq;
  Rw_kshiftld; Rw_kshiftrw; Rw_kshiftrb; Rw_kshiftrq; Rw_kshiftrd; Rw_ktestw; Rw_ktestb; Rw_ktestq;
  Rw_ktestd; Rw_empty; Rw_empty; Rw_empty; Rw_empty; Rw_empty; Rw_empty; Rw_empty; Rw_empty; Rw_empty;
  Rw_empty; Rw_empty; Rw_empty; Rw_empty; Rw_empty; Rw_empty; Rw_empty; Rw_empty; Rw_empty; Rw_empty;
  Rw_empty; Rw_empty; Rw_empty; Rw_empty; Rw_empty; Rw_empty; Rw_empty; Rw_empty; Rw_empty; Rw_empty;
  Rw_empty; Rw_empty; Rw_empty; Rw_vcvttsd2usi; Rw_vcvttss2usi; Rw_empty; Rw_empty; Rw_empty; Rw_empty;
  Rw_vcvtusi2sd; Rw_vcvtusi2ss; Rw_empty; Rw_empty; Rw_empty; Rw_empty; Rw_empty; Rw_empty; Rw_empty;
  Rw_vextractf64x2; Rw_empty; Rw_vextracti32x4; Rw_empty; Rw_vextracti64x2; Rw_empty; Rw_empty; Rw_empty;
  Rw_empty; Rw_empty; Rw_empty; Rw_empty; Rw_empty; Rw_empty; Rw_empty; Rw_empty; Rw_empty; Rw_empty;
  Rw_empty; Rw_empty; Rw_empty; Rw_empty; Rw_empty; Rw_empty; Rw_empty; Rw_empty; Rw_empty; Rw_empty;
  Rw_empty; Rw_empty; Rw_empty; Rw_empty; Rw_empty; Rw_empty; Rw_empty; Rw_empty; Rw_empty; Rw_vinserti64x4;
  Rw_vmovdqa32; Rw_vmovdqa64; Rw_vmovdqu16; Rw_vmovdqu32; Rw_vmovdqu64; Rw_vmovdqu8; Rw_empty; Rw_vpandd;
  Rw_empty; Rw_empty; Rw_vpandq; Rw_empty; Rw_empty; Rw_empty; Rw_empty; Rw_empty; Rw_empty; Rw_empty;
  Rw_vpcmpd; Rw_vpcmpq; Rw_empty; Rw_vpcmpud; Rw_empty; Rw_empty; Rw_vpcmpw; Rw_empty; Rw_empty; Rw_empty;
  Rw_empty; Rw_empty; Rw_empty; Rw_empty; Rw_empty; Rw_empty; Rw_vpermi2q; Rw_vpermi2w; Rw_empty;
  Rw_vpermt2d; Rw_empty; Rw_vpermt2ps; Rw_vpermt2q; Rw_vpermt2w; Rw_empty; Rw_empty; Rw_empty; Rw_vpextr_;
  Rw_empty; Rw_empty; Rw_empty; Rw_empty; Rw_empty; Rw_empty; Rw_empty; Rw_empty; Rw_empty; Rw_empty;
  Rw_empty; Rw_empty; Rw_empty; Rw_empty; Rw_empty; Rw_empty; Rw_empty; Rw_empty; Rw_empty; Rw_empty;
  Rw_empty; Rw_empty; Rw_empty; Rw_empty; Rw_empty; Rw_empty; Rw_empty; Rw_empty; Rw_empty; Rw_empty;
  Rw_empty; Rw_empty; Rw_empty; Rw_empty; Rw_empty; Rw_vpmullq; Rw_empty; Rw_vporq; Rw_empty; Rw_vprolq;
  Rw_empty; Rw_empty; Rw_empty; Rw_vprorq; Rw_empty; Rw_empty; Rw_vpscatterdd; Rw_vpscatterdq;
  Rw_vpscatterqd; Rw_vpscatterqq; Rw_empty; Rw_empty; Rw_empty; Rw_empty; Rw_empty; Rw_empty; Rw_empty;
  Rw_empty; Rw_empty; Rw_empty; Rw_empty; Rw_empty; Rw_empty; Rw_empty; Rw_empty; Rw_vpxord; Rw_vpxorq;
  Rw_empty; Rw_empty; Rw_empty; Rw_empty; Rw_empty; Rw_empty; Rw_empty; Rw_empty; Rw_empty; Rw_empty;
  Rw_empty; Rw_empty; Rw_empty; Rw_empty; Rw_empty; Rw_empty; Rw_empty; Rw_vrndscaleps; Rw_vrndscalesd;
  Rw_vrndscaless; Rw_empty; Rw_empty; Rw_empty; Rw_empty; Rw_empty; Rw_empty; Rw_empty; Rw_empty; Rw_empty;
  Rw_empty; Rw_empty; Rw_empty; Rw_empty; Rw_empty; Rw_empty; Rw_empty; Rw_empty; Rw_empty; Rw_empty;
  Rw_empty; Rw_empty; Rw_empty; Rw_empty; Rw_empty; Rw_empty; Rw_empty; Rw_vshufi32x4; Rw_empty].

Definition rwfunc_name (f : rwfunc) : string :=
  match f with
  | Rw_empty => "empty" | Rw_vmovss => "vmovss" | Rw_vmovsd => "vmovsd" | Rw_vmovups => "vmovups"
  | Rw_vmovupd => "vmovupd" | Rw_vmovlps => "vmovlps" | Rw_vmovsldup => "vmovsldup" | Rw_vmovlpd => "vmovlpd"
  | Rw_vmovddup => "vmovddup" | Rw_vunpcklps => "vunpcklps" | Rw_vunpcklpd => "vunpcklpd"
  | Rw_vunpckhps => "vunpckhps" | Rw_vunpckhpd => "vunpckhpd" | Rw_vmovhps => "vmovhps"
  | Rw_vmovshdup => "vmovshdup" | Rw_vmovhpd => "vmovhpd" | Rw_vmovaps => "vmovaps" | Rw_vmovapd => "vmovapd"
  | Rw_vcvtsi2ss => "vcvtsi2ss" | Rw_vcvtsi2sd => "vcvtsi2sd" | Rw_vmovntps => "vmovntps"
  | Rw_vmovntpd => "vmovntpd" | Rw_vcvttss2si => "vcvttss2si" | Rw_vcvttsd2si => "vcvttsd2si"
  | Rw_vcvtss2si => "vcvtss2si" | Rw_vcvtsd2si => "vcvtsd2si" | Rw_vucomiss => "vucomiss"
  | Rw_vucomisd => "vucomisd" | Rw_vcomiss => "vcomiss" | Rw_vcomisd => "vcomisd"
  | Rw_vmovmskps => "vmovmskps" | Rw_vmovmskpd => "vmovmskpd" | Rw_vsqrtps => "vsqrtps"
  | Rw_vsqrtss => "vsqrtss" | Rw_vsqrtpd => "vsqrtpd" | Rw_vsqrtsd => "vsqrtsd" | Rw_vpackuswb => "vpackuswb"
  | Rw_vmovq => "vmovq" | Rw_vpsrlq => "vpsrlq" | Rw_vpaddq => "vpaddq" | Rw_vpsrad => "vpsrad"
  | Rw_vpsllw => "vpsllw" | Rw_vpslld => "vpslld" | Rw_vpsllq => "vpsllq" | Rw_vpsubb => "vpsubb"
  | Rw_vpsubw => "vpsubw" | Rw_vpsubd => "vpsubd" | Rw_vpsubq => "vpsubq" | Rw_vpaddw => "vpaddw"
  | Rw_vpaddd => "vpaddd" | Rw_vpsrldq => "vpsrldq" | Rw_vpmovsxwd => "vpmovsxwd"
  | Rw_vpmovsxdq => "vpmovsxdq" | Rw_vpmovzxbw => "vpmovzxbw" | Rw_vpmovzxbd => "vpmovzxbd"
  | Rw_vpmovzxbq => "vpmovzxbq" | Rw_vpmovzxwd => "vpmovzxwd" | Rw_vpmovzxwq => "vpmovzxwq"
  | Rw_vpmovzxdq => "vpmovzxdq" | Rw_vpmulld => "vpmulld" | Rw_vpextr_ => "vpextr_"
  | Rw_vpgatherdd => "vpgatherdd" | Rw_vpgatherdq => "vpgatherdq" | Rw_vpgatherqq => "vpgatherqq"
  | Rw_vpbroadcastb => "vpbroadcastb" | Rw_vpbroadcastw => "vpbroadcastw" | Rw_vpbroadcastd => "vpbroadcastd"
  | Rw_vpbroadcastq => "vpbroadcastq" | Rw_kmovw => "kmovw" | Rw_kmovb => "kmovb" | Rw_kmovq => "kmovq"
  | Rw_kmovd => "kmovd" | Rw_kandw => "kandw" | Rw_kandb => "kandb" | Rw_kandq => "kandq"
  | Rw_kandd => "kandd" | Rw_kandnw => "kandnw" | Rw_kandnb => "kandnb" | Rw_kandnq => "kandnq"
  | Rw_kandnd => "kandnd" | Rw_kunpckbw => "kunpckbw" | Rw_kunpckwd => "kunpckwd" | Rw_kunpckdq => "kunpckdq"
  | Rw_knotw => "knotw" | Rw_knotb => "knotb" | Rw_knotq => "knotq" | Rw_knotd => "knotd" | Rw_korw => "korw"
  | Rw_korb => "korb" | Rw_korq => "korq" | Rw_kord => "kord" | Rw_kxnorw => "kxnorw" | Rw_kxnorb => "kxnorb"
  | Rw_kxnorq => "kxnorq" | Rw_kxnord => "kxnord" | Rw_kxorw => "kxorw" | Rw_kxorb => "kxorb"
  | Rw_kxorq => "kxorq" | Rw_kxord => "kxord" | Rw_kaddw => "kaddw" | Rw_kaddb => "kaddb"
  | Rw_kaddq => "kaddq" | Rw_kaddd => "kaddd" | Rw_kortestw => "kortestw" | Rw_kortestb => "kortestb"
  | Rw_kortestq => "kortestq" | Rw_kortestd => "kortestd" | Rw_kshiftlw => "kshiftlw"
  | Rw_kshiftlb => "kshiftlb" | Rw_kshiftlq => "kshiftlq" | Rw_kshiftld => "kshiftld"
  | Rw_kshiftrw => "kshiftrw" | Rw_kshiftrb => "kshiftrb" | Rw_kshiftrq => "kshiftrq"
  | Rw_kshiftrd => "kshiftrd" | Rw_ktestw => "ktestw" | Rw_ktestb => "ktestb" | Rw_ktestq => "ktestq"
  | Rw_ktestd => "ktestd" | Rw_vcvttsd2usi => "vcvttsd2usi" | Rw_vcvttss2usi => "vcvttss2usi"
  | Rw_vcvtusi2sd => "vcvtusi2sd" | Rw_vcvtusi2ss => "vcvtusi2ss" | Rw_vextractf64x2 => "vextractf64x2"
  | Rw_vextracti32x4 => "vextracti32x4" | Rw_vextracti64x2 => "vextracti64x2"
  | Rw_vinserti64x4 => "vinserti64x4" | Rw_vmovdqa32 => "vmovdqa32" | Rw_vmovdqa64 => "vmovdqa64"
  | Rw_vmovdqu16 => "vmovdqu16" | Rw_vmovdqu32 => "vmovdqu32" | Rw_vmovdqu64 => "vmovdqu64"
  | Rw_vmovdqu8 => "vmovdqu8" | Rw_vpandd => "vpandd" | Rw_vpandq => "vpandq" | Rw_vpcmpd => "vpcmpd"
  | Rw_vpcmpq => "vpcmpq" | Rw_vpcmpud => "vpcmpud" | Rw_vpcmpw => "vpcmpw" | Rw_vpermi2q => "vpermi2q"
  | Rw_vpermi2w => "vpermi2w" | Rw_vpermt2d => "vpermt2d" | Rw_vpermt2ps => "vpermt2ps"
  | Rw_vpermt2q => "vpermt2q" | Rw_vpermt2w => "vpermt2w" | Rw_vpmullq => "vpmullq" | Rw_vporq => "vporq"
  | Rw_vprolq => "vprolq" | Rw_vprorq => "vprorq" | Rw_vpscatterdd => "vpscatterdd"
  | Rw_vpscatterdq => "vpscatterdq" | Rw_vpscatterqd => "vpscatterqd" | Rw_vpscatterqq => "vpscatterqq"
  | Rw_vpxord => "vpxord" | Rw_vpxorq => "vpxorq" | Rw_vrndscaleps => "vrndscaleps"
  | Rw_vrndscalesd => "vrndscalesd" | Rw_vrndscaless => "vrndscaless" | Rw_vshufi32x4 => "vshufi32x4"
  end.

#[local] Close Scope string_scope.

(** The entry for an opcode; an index outside the array has none. *)
Definition rewrite_func_of (opcode : Z) : option rwfunc :=
  let idx := TO_AVX512_RWFUNC_INDEX opcode in
  if 0 <=? idx then nth_error rewrite_funcs (Z.to_nat idx) else None.

(** ** Rewrite functions that choose by width *)

Definition rw_func_vpaddd (instr : instr_t) : rw_result :=
  let mask_opnd := instr_get_src instr 0 in
  let src_opnd1 := instr_get_src instr 1 in
  let src_opnd2 := instr_get_src instr 2 in
  let dst_opnd := instr_get_dst instr 0 in
  let mask_reg := opnd_get_reg mask_opnd in
  let src1_reg := opnd_get_reg src_opnd1 in
  let src2_reg := opnd_get_reg src_opnd2 in
  let dst_reg := opnd_get_reg dst_opnd in
  if IS_ZMM_REG dst_reg then vpaddd_zmm_and_zmm_gen src1_reg src2_reg dst_reg mask_reg
  else if IS_YMM_REG dst_reg then vpaddd_ymm_and_ymm_gen src1_reg src2_reg dst_reg mask_reg
  else if IS_XMM_REG dst_reg then vpaddd_xmm_and_xmm_gen src1_reg src2_reg dst_reg mask_reg
  else rw_null.

Definition rw_func_vpsubq (instr : instr_t) : rw_result :=
  let mask_opnd := instr_get_src instr 0 in
  let src_opnd1 := instr_get_src instr 1 in
  let src_opnd2 := instr_get_src instr 2 in
  let dst_opnd := instr_get_dst instr 0 in
  let mask_reg := opnd_get_reg mask_opnd in
  let src1_reg := opnd_get_reg src_opnd1 in
  let src2_reg := opnd_get_reg src_opnd2 in
  let dst_reg := opnd_get_reg dst_opnd in
  if IS_YMM_REG dst_reg then vpsubq_ymm_and_ymm_gen src1_reg src2_reg dst_reg mask_reg
  else if IS_XMM_REG dst_reg then vpsubq_xmm_and_xmm_gen src1_reg src2_reg dst_reg mask_reg
  else if IS_ZMM_REG dst_reg then vpsubq_zmm_and_zmm_gen src1_reg src2_reg dst_reg mask_reg
  else rw_null.

Definition rw_func_vpsubb (instr : instr_t) : rw_result :=
  let mask_opnd := instr_get_src instr 0 in
  let src1_opnd := instr_get_src instr 1 in
  let src2_opnd := instr_get_src instr 2 in
  let dst_opnd := instr_get_dst instr 0 in
  let mask_reg := opnd_get_reg mask_opnd in
  let src1_reg := opnd_get_reg src1_opnd in
  let src2_reg := opnd_get_reg src2_opnd in
  let dst_reg := opnd_get_reg dst_opnd in
  if IS_YMM_REG dst_reg then vpsubb_ymm_and_ymm_gen src1_reg src2_reg dst_reg mask_reg
  else if IS_XMM_REG dst_reg then vpsubb_xmm_and_xmm_gen src1_reg src2_reg dst_reg mask_reg
  else if IS_ZMM_REG dst_reg then rw_null
  else rw_null.

(** What a table entry other than [rw_func_empty] does to an instruction.
    [other] stands for the rewrite functions that have no definition here. *)
Definition rw_gen (other : rwfunc -> instr_t -> rw_result) (f : rwfunc) : instr_t -> rw_result :=
  match f with
  | Rw_vpsubb => rw_func_vpsubb | Rw_vpsubq => rw_func_vpsubq | Rw_vpaddd => rw_func_vpaddd
  | Rw_kmovw => rw_func_kmovw | Rw_kmovb => rw_func_kmovb | Rw_kmovq => rw_func_kmovq
  | Rw_kmovd => rw_func_kmovd | Rw_kandw => rw_func_kandw | Rw_kandb => rw_func_kandb
  | Rw_kandq => rw_func_kandq | Rw_kandd => rw_func_kandd | Rw_kandnw => rw_func_kandnw
  | Rw_kandnb => rw_func_kandnb | Rw_kandnq => rw_func_kandnq | Rw_kandnd => rw_func_kandnd
  | Rw_kunpckbw => rw_func_kunpckbw | Rw_kunpckwd => rw_func_kunpckwd | Rw_knotw => rw_func_knotw
  | Rw_knotb => rw_func_knotb | Rw_knotq => rw_func_knotq | Rw_knotd => rw_func_knotd
  | Rw_korw => rw_func_korw | Rw_korb => rw_func_korb | Rw_korq => rw_func_korq | Rw_kord => rw_func_kord
  | Rw_kxnorw => rw_func_kxnorw | Rw_kxnorb => rw_func_kxnorb | Rw_kxnorq => rw_func_kxnorq
  | Rw_kxnord => rw_func_kxnord | Rw_kxorw => rw_func_kxorw | Rw_kxorb => rw_func_kxorb
  | Rw_kxorq => rw_func_kxorq | Rw_kxord => rw_func_kxord | Rw_kaddw => rw_func_kaddw
  | Rw_kaddb => rw_func_kaddb | Rw_kaddq => rw_func_kaddq | Rw_kaddd => rw_func_kaddd
  | Rw_vmovss => rw_func_vmovss | Rw_vmovsd => rw_func_vmovsd | Rw_vmovups => rw_func_vmovups
  | Rw_vmovupd => rw_func_vmovupd | Rw_vmovsldup => rw_func_vmovsldup | Rw_vmovddup => rw_func_vmovddup
  | Rw_vunpcklps => rw_func_vunpcklps | Rw_vunpcklpd => rw_func_vunpcklpd
  | Rw_vunpckhps => rw_func_vunpckhps | Rw_vunpckhpd => rw_func_vunpckhpd
  | Rw_vmovshdup => rw_func_vmovshdup | Rw_vmovaps => rw_func_vmovaps | Rw_vmovapd => rw_func_vmovapd
  | Rw_vpackuswb => rw_func_vpackuswb | Rw_vpsrlq => rw_func_vpsrlq | Rw_vpsrad => rw_func_vpsrad
  | Rw_vpsllw => rw_func_vpsllw | Rw_vpslld => rw_func_vpslld | Rw_vpsllq => rw_func_vpsllq
  | Rw_vpsrldq => rw_func_vpsrldq | Rw_vpsubw => rw_func_vpsubw | Rw_vpsubd => rw_func_vpsubd
  | Rw_vpaddw => rw_func_vpaddw | Rw_vpmulld => rw_func_vpmulld | Rw_vpandd => rw_func_vpandd
  | Rw_vpxord => rw_func_vpxord | Rw_kortestw => rw_func_kortestw | Rw_kortestb => rw_func_kortestb
  | Rw_kortestq => rw_func_kortestq | Rw_kortestd => rw_func_kortestd | Rw_ktestw => rw_func_ktestw
  | Rw_ktestb => rw_func_ktestb | Rw_ktestq => rw_func_ktestq | Rw_ktestd => rw_func_ktestd
  | Rw_kshiftlw => rw_func_kshiftlw | Rw_kshiftlb => rw_func_kshiftlb | Rw_kshiftlq => rw_func_kshiftlq
  | Rw_kshiftld => rw_func_kshiftld | Rw_kshiftrw => rw_func_kshiftrw | Rw_kshiftrb => rw_func_kshiftrb
  | Rw_kshiftrq => rw_func_kshiftrq | Rw_kshiftrd => rw_func_kshiftrd
  | Rw_vpmovzxbd => rw_func_vpmovzxbd | Rw_vpmovzxbq => rw_func_vpmovzxbq | Rw_vpmovzxwq => rw_func_vpmovzxwq
  | Rw_vpcmpq => rw_func_vpcmpq | Rw_vpscatterdq => rw_func_vpscatterdq | Rw_vpscatterqd => rw_func_vpscatterqd
  | Rw_vpscatterqq => rw_func_vpscatterqq | Rw_kunpckdq => rw_func_kunpckdq
  | Rw_vinserti64x4 => rw_func_vinserti64x4 | Rw_vpcmpd => rw_func_vpcmpd | Rw_vpcmpud => rw_func_vpcmpud
  | Rw_vpcmpw => rw_func_vpcmpw
  | Rw_vprolq => rw_func_vprolq | Rw_vprorq => rw_func_vprorq | Rw_vpmovsxwd => rw_func_vpmovsxwd
  | Rw_vpmovsxdq => rw_func_vpmovsxdq | Rw_vpmovzxbw => rw_func_vpmovzxbw | Rw_vpmovzxwd => rw_func_vpmovzxwd
  | Rw_vpmovzxdq => rw_func_vpmovzxdq | Rw_vpbroadcastb => rw_func_vpbroadcastb
  | Rw_vpbroadcastw => rw_func_vpbroadcastw | Rw_vpbroadcastd => rw_func_vpbroadcastd
  | Rw_vpbroadcastq => rw_func_vpbroadcastq | Rw_vextractf64x2 => rw_func_vextractf64x2
  | Rw_vextracti32x4 => rw_func_vextracti32x4 | Rw_vextracti64x2 => rw_func_vextracti64x2
  | f => other f
  end.

(** ** Theorems *)

(** An AVX-512 vector instruction with a mask and two register sources. *)
Definition vec_instr (opc mask : Z) (d a b : reg_id_t) : instr_t :=
  mk_instr (OP_avx512 opc) [opnd_create_reg d] [opnd_create_reg (kreg mask); opnd_create_reg a; opnd_create_reg b].

Ltac by_width H i Hi :=
  let W1 := fresh in let W2 := fresh in let W3 := fresh in
  destruct (H i Hi) as (W1 & W2 & W3);
  cbn [rw_func_vpaddd rw_func_vpsubq rw_func_vpsubb vec_instr instr_get_src instr_get_dst nth opnd_get_reg opnd_create_reg
       instr_srcs instr_dsts];
  rewrite ?W1, ?W2, ?W3.

Lemma vpaddd_zmm_dispatch opc mask a b d :
  0 <= a < 32 -> 0 <= b < 32 -> 0 <= d < 32 ->
  rewrites (vec_binop 4 (padd 32) d a b) (rw_func_vpaddd (vec_instr opc mask (zmm d) (zmm a) (zmm b))).
Proof.
  intros Ha Hb Hd; unfold rw_func_vpaddd; by_width zmm_width d Hd.
  apply zmm_binop_correct; auto; typeclasses eauto.
Qed.

Lemma vpsubq_zmm_dispatch opc mask a b d :
  0 <= a < 32 -> 0 <= b < 32 -> 0 <= d < 32 ->
  rewrites (vec_binop 4 (psub 64) d a b) (rw_func_vpsubq (vec_instr opc mask (zmm d) (zmm a) (zmm b))).
Proof.
  intros Ha Hb Hd; unfold rw_func_vpsubq; by_width zmm_width d Hd.
  apply zmm_binop_correct; auto; typeclasses eauto.
Qed.

(** [vpaddd] and [vpsubq] are rewritten correctly from the decoded instruction
    on: at 512 bits for all operands, at 256 bits outside the operand conflicts
    with the bits above kept; [vpsubb] on zmm registers is not rewritten. *)
Theorem vector_dispatch_correct opc mask a b d :
  0 <= a < 32 -> 0 <= b < 32 -> 0 <= d < 32 ->
  rewrites (vec_binop 4 (padd 32) d a b) (rw_func_vpaddd (vec_instr opc mask (zmm d) (zmm a) (zmm b))) /\
  rewrites (vec_binop 4 (psub 64) d a b) (rw_func_vpsubq (vec_instr opc mask (zmm d) (zmm a) (zmm b))) /\
  rw_func_vpsubb (vec_instr opc mask (zmm d) (zmm a) (zmm b)) = rw_null /\
  (vpaddd_ymm_conflict a b d = false ->
   rewrites (vec_binop_keep 2 (padd 32) d a b) (rw_func_vpaddd (vec_instr opc mask (ymm d) (ymm a) (ymm b)))) /\
  (ymm_fixed_conflict a b d = false ->
   rewrites (vec_binop_keep 2 (psub 64) d a b) (rw_func_vpsubq (vec_instr opc mask (ymm d) (ymm a) (ymm b)))).
Proof.
  intros Ha Hb Hd; split; [|split; [|split; [|split]]].
  - now apply vpaddd_zmm_dispatch.
  - now apply vpsubq_zmm_dispatch.
  - unfold rw_func_vpsubb; by_width zmm_width d Hd; reflexivity.
  - intros Hc; unfold rw_func_vpaddd; by_width ymm_width d Hd; now apply vpaddd_ymm_correct.
  - intros Hc; unfold rw_func_vpsubq; by_width ymm_width d Hd.
    apply ymm_fixed_correct; auto; typeclasses eauto.
Qed.

Lemma vector_dispatch_correct_witness :
  rewrites (vec_binop 4 (psub 64) 31 3 20) (rw_func_vpsubq (vec_instr 786 0 (zmm 31) (zmm 3) (zmm 20))).
Proof. apply (vector_dispatch_correct 786 0 3 20 31); lia. Defined.

(** An entry is right for an opcode: not implemented, or the function of that
    name; the three [vpextr] opcodes share one function. *)
Definition entry_ok (op : string) (f : rwfunc) : bool :=
  match f with
  | Rw_empty => true
  | Rw_vpextr_ => existsb (String.eqb op) ["vpextrb"; "vpextrd"; "vpextrq"]%string
  | f => String.eqb op (rwfunc_name f)
  end.

Lemma forallb_combine_nth {X Y} (p : X -> Y -> bool) (l : list X) (m : list Y) i x y :
  forallb (fun q => p (fst q) (snd q)) (combine l m) = true ->
  nth_error l i = Some x -> nth_error m i = Some y -> p x y = true.
Proof.
  revert m i; induction l as [|u l IH]; intros [|v m] [|i]; cbn; try discriminate.
  - intros H [= <-] [= <-]; now apply andb_true_iff in H.
  - intros H; apply andb_true_iff in H as [_ H]; eauto.
Qed.

(** C32: The array has an entry for every opcode from the first to the last, and
    each entry is either the placeholder or the function written for that
    opcode: no entry is shifted against the enumeration. *)
Theorem dispatch_aligned opcode op f :
  AVX512_FIRST_OP <= opcode <= AVX512_LAST_OP ->
  nth_error avx512_opcodes (Z.to_nat (TO_AVX512_RWFUNC_INDEX opcode)) = Some op ->
  rewrite_func_of opcode = Some f ->
  Z.of_nat (List.length rewrite_funcs) = NUM_AVX512_INSTR_OP /\ entry_ok op f = true.
Proof.
  intros Ho E1 E2; unfold rewrite_func_of in E2.
  destruct (0 <=? TO_AVX512_RWFUNC_INDEX opcode); [|discriminate E2].
  split; [reflexivity|]; revert E1 E2.
  apply (forallb_combine_nth entry_ok avx512_opcodes rewrite_funcs); vm_compute; reflexivity.
Qed.

Lemma dispatch_aligned_witness :
  Z.of_nat (List.length rewrite_funcs) = NUM_AVX512_INSTR_OP /\ entry_ok "kandnw" Rw_kandnw = true.
Proof. apply (dispatch_aligned 1115); [vm_compute; split; congruence|reflexivity|reflexivity]. Defined.
