(* ===== verification/InstrList.v ===== *)
(** * Instruction lists

    [instrlist.c]: a doubly linked list of instructions threaded through the
    [prev] and [next] fields of the instructions themselves.  The heap is a
    finite map from locations to nodes; every operation follows the pointers the
    way the code does and fails ([None]) on a NULL or dangling dereference.
    [list_ok] says which list a heap holds; the theorems give the list each
    operation leaves.  [CLIENT_ASSERT] is empty in a release build and is not
    modelled. *)
From stdpp Require Import base gmap list fin_maps.
From S2P Require Import Prelude.

(** ** Heap and list header *)

Abbreviation loc := positive.

Record node (A : Type) := mk_node {
  n_data : A;                    (* opcode, operands, raw bits, ... *)
  n_prev : option loc;
  n_next : option loc;
  n_translation : option Z;
  n_our_mangling : bool
}.
Arguments mk_node {A}. Arguments n_data {A}. Arguments n_prev {A}. Arguments n_next {A}.
Arguments n_translation {A}. Arguments n_our_mangling {A}.

Record instrlist_t := mk_instrlist {
  il_first : option loc;
  il_last : option loc;
  il_our_mangling : bool;              (* the INSTR_OUR_MANGLING bit of [flags] *)
  il_has_avx512 : bool;
  il_need_spill_simd : bool;
  il_translation_target : option Z;
  il_fall_through_bb : option Z
}.

Section InstrList.
Context {A : Type}.
Implicit Types (h : gmap loc (node A)) (il : instrlist_t) (x y w : loc) (nd : node A).

Definition with_next (v : option loc) nd : node A := mk_node (n_data nd) (n_prev nd) v (n_translation nd) (n_our_mangling nd).
Definition with_prev (v : option loc) nd : node A := mk_node (n_data nd) v (n_next nd) (n_translation nd) (n_our_mangling nd).
Definition with_translation (v : option Z) nd : node A := mk_node (n_data nd) (n_prev nd) (n_next nd) v (n_our_mangling nd).
Definition with_our_mangling (v : bool) nd : node A := mk_node (n_data nd) (n_prev nd) (n_next nd) (n_translation nd) v.

Definition with_first (v : option loc) il : instrlist_t :=
  mk_instrlist v (il_last il) (il_our_mangling il) (il_has_avx512 il) (il_need_spill_simd il)
    (il_translation_target il) (il_fall_through_bb il).
Definition with_last (v : option loc) il : instrlist_t :=
  mk_instrlist (il_first il) v (il_our_mangling il) (il_has_avx512 il) (il_need_spill_simd il)
    (il_translation_target il) (il_fall_through_bb il).

(** ** Field accesses *)

Definition instr_get_next h x : option (option loc) := n_next <$> h !! x.
Definition instr_get_prev h x : option (option loc) := n_prev <$> h !! x.

Definition update h x (f : node A → node A) : option (gmap loc (node A)) :=
  nd ← h !! x; Some (<[x := f nd]> h).
Definition instr_set_next h x (v : option loc) := update h x (with_next v).
Definition instr_set_prev h x (v : option loc) := update h x (with_prev v).

(** ** Operations *)

Definition instrlist_init : instrlist_t := mk_instrlist None None false false false None None.
Definition instrlist_set_translation_target il (pc : option Z) : instrlist_t :=
  mk_instrlist (il_first il) (il_last il) (il_our_mangling il) (il_has_avx512 il) (il_need_spill_simd il)
    pc (il_fall_through_bb il).
Definition instrlist_set_our_mangling il (ours : bool) : instrlist_t :=
  mk_instrlist (il_first il) (il_last il) ours (il_has_avx512 il) (il_need_spill_simd il)
    (il_translation_target il) (il_fall_through_bb il).
(** Also [instrlist_set_return_target], which has the same body. *)
Definition instrlist_set_fall_through_target il (tgt : option Z) : instrlist_t :=
  mk_instrlist (il_first il) (il_last il) (il_our_mangling il) (il_has_avx512 il) (il_need_spill_simd il)
    (il_translation_target il) tgt.
Definition instrlist_first il : option loc := il_first il.
Definition instrlist_last il : option loc := il_last il.

Definition check_translation il h x : option (gmap loc (node A)) :=
  nd ← h !! x;
  let nd1 :=
    if bool_decide (is_Some (il_translation_target il)) && bool_decide (n_translation nd = None)
    then with_translation (il_translation_target il) nd else nd in
  let nd2 := if il_our_mangling il then with_our_mangling true nd1 else nd1 in
  Some (<[x := nd2]> h).

(** The [while (instr_get_next(inst))] loop of the insertions. *)
Fixpoint chain_end (fuel : nat) il h x : option (gmap loc (node A) * loc) :=
  match fuel with
  | O => None
  | S k =>
      nxt ← instr_get_next h x;
      match nxt with
      | None => Some (h, x)
      | Some y => h' ← check_translation il h y; chain_end k il h' y
      end
  end.

Definition walk il h x : option (gmap loc (node A) * loc) :=
  h' ← check_translation il h x; chain_end (size h) il h' x.

Definition instrlist_append il h (inst : option loc) : option (instrlist_t * gmap loc (node A)) :=
  top ← inst;
  '(h, bot) ← walk il h top;
  match il_last il with
  | Some l =>
      h ← instr_set_next h l (Some top);
      h ← instr_set_prev h top (Some l);
      Some (with_last (Some bot) il, h)
  | None => Some (with_last (Some bot) (with_first (Some top) il), h)
  end.

Definition instrlist_prepend il h (inst : option loc) : option (instrlist_t * gmap loc (node A)) :=
  top ← inst;
  '(h, bot) ← walk il h top;
  match il_first il with
  | Some f =>
      h ← instr_set_next h bot (Some f);
      h ← instr_set_prev h f (Some bot);
      Some (with_first (Some top) il, h)
  | None => Some (with_last (Some bot) (with_first (Some top) il), h)
  end.

Definition instrlist_preinsert il h (where_ inst : option loc) : option (instrlist_t * gmap loc (node A)) :=
  match where_ with
  | None => instrlist_append il h inst
  | Some w =>
      top ← inst;
      whereprev ← instr_get_prev h w;
      '(h, bot) ← walk il h top;
      '(il, h) ←
        match whereprev with
        | Some p =>
            h ← instr_set_next h p (Some top);
            h ← instr_set_prev h top (Some p);
            Some (il, h)
        | None => Some (with_first (Some top) il, h)
        end;
      h ← instr_set_next h bot (Some w);
      h ← instr_set_prev h w (Some bot);
      Some (il, h)
  end.

Definition instrlist_postinsert il h (where_ inst : option loc) : option (instrlist_t * gmap loc (node A)) :=
  match where_ with
  | None => instrlist_prepend il h inst
  | Some w =>
      top ← inst;
      wherenext ← instr_get_next h w;
      '(h, bot) ← walk il h top;
      h ← instr_set_next h w (Some top);
      h ← instr_set_prev h top (Some w);
      match wherenext with
      | Some n =>
          h ← instr_set_next h bot (Some n);
          h ← instr_set_prev h n (Some bot);
          Some (il, h)
      | None => Some (with_last (Some bot) il, h)
      end
  end.

Definition instrlist_remove il h x : option (instrlist_t * gmap loc (node A)) :=
  p ← instr_get_prev h x;
  n ← instr_get_next h x;
  '(il, h) ←
    match p with
    | Some p => h ← instr_set_next h p n; Some (il, h)
    | None => Some (with_first n il, h)
    end;
  '(il, h) ←
    match n with
    | Some n => h ← instr_set_prev h n p; Some (il, h)
    | None => Some (with_last p il, h)
    end;
  h ← instr_set_prev h x None;
  h ← instr_set_next h x None;
  Some (il, h).

Definition instrlist_replace il h (oldinst : loc) (newinst : option loc) : option (instrlist_t * gmap loc (node A)) :=
  where_ ← instr_get_prev h oldinst;
  '(il, h) ← instrlist_remove il h oldinst;
  match where_ with
  | Some _ => instrlist_postinsert il h where_ newinst
  | None => instrlist_prepend il h newinst
  end.

Definition instrlist_cut il h (cut_point : loc) : option (instrlist_t * gmap loc (node A)) :=
  last_instr ← instr_get_prev h cut_point;
  h ← match last_instr with Some p => instr_set_next h p None | None => Some h end;
  h ← instr_set_prev h cut_point None;
  Some (with_last last_instr il, h).

(** [instr_create] and [instr_destroy]: the allocator hands out an address that
    is not in use. *)
Definition instr_create h (a : A) : gmap loc (node A) * loc :=
  let x := fresh (dom h) in (<[x := mk_node a None None None false]> h, x).

Definition instr_destroy h x : option (gmap loc (node A)) :=
  _ ← h !! x; Some (delete x h).

(** The [while] loop of [instrlist_clear]. *)
Fixpoint clear_loop (fuel : nat) il h : option (instrlist_t * gmap loc (node A)) :=
  match fuel with
  | O => None
  | S k =>
      match instrlist_first il with
      | None => Some (il, h)
      | Some x =>
          '(il, h) ← instrlist_remove il h x;
          h ← instr_destroy h x;
          clear_loop k il h
      end
  end.

Definition instrlist_clear il h : option (instrlist_t * gmap loc (node A)) :=
  clear_loop (S (size h)) il h.

(** Moving a whole list.  The moved header is reset and freed, except when it
    is empty: the result says whether it was freed. *)
Definition instrlist_prepend_instrlist il (prependee : instrlist_t) h : option (instrlist_t * gmap loc (node A) * bool) :=
  match instrlist_first prependee with
  | None => Some (il, h, false)
  | Some first => '(il, h) ← instrlist_prepend il h (Some first); Some (il, h, true)
  end.

Definition instrlist_append_instrlist il (appendee : instrlist_t) h : option (instrlist_t * gmap loc (node A) * bool) :=
  match instrlist_first appendee with
  | None => Some (il, h, false)
  | Some first => '(il, h) ← instrlist_append il h (Some first); Some (il, h, true)
  end.

(** [instrlist_concat_next_instr] of [rewrite_utils.c]. *)
Definition instr_concat_next h x y : option (gmap loc (node A)) :=
  h ← instr_set_next h x (Some y); instr_set_prev h y (Some x).

Fixpoint concat_from h x (l : list loc) : option (gmap loc (node A)) :=
  match l with
  | [] => Some h
  | y :: l' => h ← instr_concat_next h x y; concat_from h y l'
  end.

Definition instrlist_concat_next_instr h (l : list loc) : option (gmap loc (node A)) :=
  match l with [] => Some h | x :: l' => concat_from h x l' end.

(** ** The list a heap holds *)

(** The header fields other than the two ends. *)
Definition same_header il il' : Prop :=
  il_our_mangling il' = il_our_mangling il ∧ il_has_avx512 il' = il_has_avx512 il ∧
  il_need_spill_simd il' = il_need_spill_simd il ∧ il_translation_target il' = il_translation_target il ∧
  il_fall_through_bb il' = il_fall_through_bb il.

Definition hd_loc (l : list (loc * A)) (n : option loc) : option loc :=
  match l with [] => n | (x, _) :: _ => Some x end.
Fixpoint last_loc (p : option loc) (l : list (loc * A)) : option loc :=
  match l with [] => p | (x, _) :: l' => last_loc (Some x) l' end.

(** A segment between [p] and [n]. *)
Fixpoint dseg h (p : option loc) (l : list (loc * A)) (n : option loc) : Prop :=
  match l with
  | [] => True
  | (x, a) :: l' =>
      (∃ nd, h !! x = Some nd ∧ n_data nd = a ∧ n_prev nd = p ∧ n_next nd = hd_loc l' n) ∧ dseg h (Some x) l' n
  end.

Definition list_ok il h (l : list (loc * A)) : Prop :=
  NoDup l.*1 ∧ dseg h None l None ∧ il_first il = hd_loc l None ∧ il_last il = last_loc None l.

(** *** Segments *)

Lemma same_header_trans il1 il2 il3 : same_header il1 il2 → same_header il2 il3 → same_header il1 il3.
Proof. unfold same_header; intuition congruence. Qed.

Lemma dseg_app h p l1 l2 n :
  dseg h p (l1 ++ l2) n ↔ dseg h p l1 (hd_loc l2 n) ∧ dseg h (last_loc p l1) l2 n.
Proof.
  revert p; induction l1 as [|[x a] l1 IH]; intros p; simpl; [tauto|].
  rewrite IH; replace (hd_loc (l1 ++ l2) n) with (hd_loc l1 (hd_loc l2 n)) by (by destruct l1 as [|[]]).
  tauto.
Qed.

Lemma last_loc_app p l1 l2 : last_loc p (l1 ++ l2) = last_loc (last_loc p l1) l2.
Proof. revert p; induction l1 as [|[x a] l1 IH]; intros p; simpl; auto. Qed.

Lemma hd_loc_app l1 l2 n : hd_loc (l1 ++ l2) n = hd_loc l1 (hd_loc l2 n).
Proof. by destruct l1 as [|[]]. Qed.

(** Heaps that agree on the links and the data of a segment. *)
Lemma dseg_frame h h' p l n :
  (∀ x, x ∈ l.*1 → h' !! x = h !! x) → dseg h p l n → dseg h' p l n.
Proof.
  revert p; induction l as [|[x a] l IH]; intros p Hf; simpl in *; [done|].
  intros [(nd & Hx & Hn) Hl]; split.
  - exists nd; rewrite Hf by set_solver; auto.
  - apply IH; [|done]; intros; apply Hf; set_solver.
Qed.

Lemma dseg_insert h p l n x nd : x ∉ l.*1 → dseg h p l n → dseg (<[x := nd]> h) p l n.
Proof. intros Hx; apply dseg_frame; intros y Hy; rewrite lookup_insert_ne; [done|set_solver]. Qed.

Lemma dseg_lookup h p l n x : x ∈ l.*1 → dseg h p l n → is_Some (h !! x).
Proof.
  revert p; induction l as [|[y a] l IH]; intros p Hx Hl; simpl in *; [set_solver|].
  destruct Hl as [(nd & Hy & _) Hl].
  apply elem_of_cons in Hx as [->|Hx]; eauto.
Qed.

(** Changing the outgoing link of the last node, the incoming one of the first. *)
Lemma dseg_set_next h p l x a n n' :
  NoDup (l ++ [(x, a)]).*1 → dseg h p (l ++ [(x, a)]) n →
  ∃ h', instr_set_next h x n' = Some h' ∧ dseg h' p (l ++ [(x, a)]) n' ∧ (∀ y, y ≠ x → h' !! y = h !! y).
Proof.
  intros Hnd H; rewrite fmap_app in Hnd; apply NoDup_app in Hnd as (_ & Hni & _).
  assert (Hx : x ∉ l.*1) by (intros Hin; apply (Hni x Hin); simpl; set_solver).
  apply dseg_app in H as [Hl [(nd & Hlook & Hd & Hp & Hn) _]].
  unfold instr_set_next, update; rewrite Hlook; simpl; eexists; split; [done|split].
  - apply dseg_app; split; [by apply dseg_insert|]; simpl; split; [|done].
    exists (with_next n' nd); rewrite lookup_insert_eq; auto.
  - intros y Hy; by rewrite lookup_insert_ne.
Qed.

Lemma dseg_set_prev h p l x a n p' :
  NoDup ((x, a) :: l).*1 → dseg h p ((x, a) :: l) n →
  ∃ h', instr_set_prev h x p' = Some h' ∧ dseg h' p' ((x, a) :: l) n ∧ (∀ y, y ≠ x → h' !! y = h !! y).
Proof.
  intros Hnd [(nd & Hlook & Hd & Hp & Hn) Hl]; simpl in Hnd; apply NoDup_cons in Hnd as [Hx _].
  unfold instr_set_prev, update; rewrite Hlook; simpl; eexists; split; [done|split].
  - split; [|by apply dseg_insert]; exists (with_prev p' nd); rewrite lookup_insert_eq; auto.
  - intros y Hy; by rewrite lookup_insert_ne.
Qed.

(** *** The walk to the end of a chain *)

(** [h'] differs from [h] in translation and mangling fields only. *)
Definition same_links h h' : Prop :=
  (∀ x nd, h !! x = Some nd → ∃ nd', h' !! x = Some nd' ∧ n_data nd' = n_data nd ∧
                              n_prev nd' = n_prev nd ∧ n_next nd' = n_next nd) ∧
  (∀ x, h !! x = None → h' !! x = None).

Lemma same_links_refl h : same_links h h.
Proof. split; eauto. Qed.

Lemma same_links_trans h1 h2 h3 : same_links h1 h2 → same_links h2 h3 → same_links h1 h3.
Proof.
  intros [H1 H2] [H3 H4]; split; [|auto]; intros x nd Hx.
  destruct (H1 x nd Hx) as (nd2 & Hx2 & ? & ? & ?).
  destruct (H3 x nd2 Hx2) as (nd3 & ? & ? & ? & ?); exists nd3; split_and!; congruence.
Qed.

Lemma same_links_dseg h h' p l n : same_links h h' → dseg h p l n → dseg h' p l n.
Proof.
  intros Hs; revert p; induction l as [|[x a] l IH]; intros p; simpl; [done|].
  intros [(nd & Hx & Hd & Hp & Hn) Hl]; split; [|auto].
  destruct (proj1 Hs x nd Hx) as (nd' & ? & ? & ? & ?); exists nd'; split_and!; congruence.
Qed.

Lemma check_translation_links il h x :
  is_Some (h !! x) → ∃ h', check_translation il h x = Some h' ∧ same_links h h' ∧ (∀ y, y ≠ x → h' !! y = h !! y).
Proof.
  intros [nd Hx]; unfold check_translation; rewrite Hx; simpl; eexists; split; [done|split; [split|]].
  - intros y nd' Hy; destruct (decide (y = x)) as [->|Hne]; [|rewrite lookup_insert_ne; eauto].
    rewrite lookup_insert_eq; eexists; split; [done|]; simplify_eq.
    repeat (case_match; simpl); auto.
  - intros y Hy; rewrite lookup_insert_ne; [done|]; intros ->; simplify_eq.
  - intros y Hy; by rewrite lookup_insert_ne.
Qed.

(** The loop ends at the last node of the chain, with fuel its length. *)
Lemma chain_end_spec il h p x a c :
  dseg h p ((x, a) :: c) None →
  ∀ fuel, (length ((x, a) :: c) ≤ fuel)%nat →
  ∃ h' bot, chain_end fuel il h x = Some (h', bot) ∧ same_links h h' ∧ last_loc None ((x, a) :: c) = Some bot ∧
    (∀ y, y ∉ c.*1 → h' !! y = h !! y).
Proof.
  revert h p x a; induction c as [|[y b] c IH]; intros h p x a Hc [|fuel] Hf; simpl in Hf; try lia.
  - destruct Hc as [(nd & Hx & _ & _ & Hn) _]; simpl; unfold instr_get_next; rewrite Hx; simpl; rewrite Hn; simpl.
    exists h, x; split_and!; auto using same_links_refl.
  - destruct Hc as [(nd & Hx & Hd & Hp & Hn) Hc]; simpl; unfold instr_get_next at 1; rewrite Hx; simpl; rewrite Hn; simpl.
    destruct (check_translation_links il h y) as (h1 & -> & Hs1 & Hf1).
    { eapply (dseg_lookup _ (Some x) ((y, b) :: c)); [simpl; set_solver|exact Hc]. }
    simpl; destruct (IH h1 (Some x) y b) with (fuel := fuel) as (h2 & bot & E & Hs2 & Hl & Hf2).
    { eapply same_links_dseg; eauto. } { simpl; lia. }
    exists h2, bot; split_and!; auto; [eapply same_links_trans; eauto|].
    intros z Hz; simpl in Hz; rewrite Hf2, Hf1; set_solver.
Qed.

Lemma dseg_length h p l n : NoDup l.*1 → dseg h p l n → (length l ≤ size h)%nat.
Proof.
  intros Hnd Hl; rewrite <- (length_fmap fst), <- size_dom.
  assert (E : size (list_to_set (C := gset loc) l.*1) = length l.*1) by (by apply size_list_to_set).
  rewrite <- E; apply subseteq_size; intros x Hx.
  apply elem_of_list_to_set in Hx; apply elem_of_dom; eapply dseg_lookup; eauto.
Qed.

Lemma walk_spec il h p x a c :
  NoDup ((x, a) :: c).*1 → dseg h p ((x, a) :: c) None →
  ∃ h' bot, walk il h x = Some (h', bot) ∧ same_links h h' ∧ last_loc None ((x, a) :: c) = Some bot ∧
    (∀ y, y ∉ ((x, a) :: c).*1 → h' !! y = h !! y).
Proof.
  intros Hnd Hc; pose proof (dseg_length _ _ _ _ Hnd Hc) as Hsz.
  unfold walk; destruct (check_translation_links il h x) as (h1 & -> & Hs1 & Hf1).
  { eapply dseg_lookup; [|exact Hc]; simpl; set_solver. }
  simpl; destruct (chain_end_spec il h1 p x a c (same_links_dseg _ _ _ _ _ Hs1 Hc) (size h) Hsz)
    as (h2 & bot & E & Hs2 & Hl & Hf2).
  exists h2, bot; split_and!; auto; [eapply same_links_trans; eauto|].
  intros y Hy; simpl in Hy; rewrite Hf2, Hf1; set_solver.
Qed.

(** *** Links across a boundary

    The two conditionals the operations are made of: set the link out of the
    left part (or the head of the list), set the link into the right part (or
    the tail of the list). *)

Definition set_left il h (p v : option loc) : option (instrlist_t * gmap loc (node A)) :=
  match p with
  | Some p => h ← instr_set_next h p v; Some (il, h)
  | None => Some (with_first v il, h)
  end.

Definition set_right il h (n v : option loc) : option (instrlist_t * gmap loc (node A)) :=
  match n with
  | Some n => h ← instr_set_prev h n v; Some (il, h)
  | None => Some (with_last v il, h)
  end.

Lemma snoc_view (l : list (loc * A)) : l = [] ∨ ∃ l0 x a, l = l0 ++ [(x, a)].
Proof. destruct l as [|[x a] l _] using rev_ind; eauto. Qed.

Lemma last_loc_snoc p (l : list (loc * A)) x a : last_loc p (l ++ [(x, a)]) = Some x.
Proof. by rewrite last_loc_app. Qed.

Lemma set_left_spec il h l n v :
  NoDup l.*1 → dseg h None l n →
  ∃ il' h', set_left il h (last_loc None l) v = Some (il', h') ∧ dseg h' None l v ∧
    (∀ y, y ∉ l.*1 → h' !! y = h !! y) ∧ same_header il il' ∧ il_last il' = il_last il ∧
    (il_first il = hd_loc l n → il_first il' = hd_loc l v).
Proof.
  intros Hnd Hl; destruct (snoc_view l) as [->|(l0 & x & a & ->)].
  - simpl; eexists _, h; split_and!; done.
  - destruct (dseg_set_next h None l0 x a n v Hnd Hl) as (h' & E & Hl' & Hf).
    rewrite last_loc_snoc; simpl; rewrite E; simpl; exists il, h'.
    split; [done|split; [exact Hl'|split; [|split; [done|split; [done|]]]]].
    + intros y Hy; apply Hf; intros ->; apply Hy; rewrite fmap_app; set_solver.
    + rewrite !hd_loc_app; by destruct l0 as [|[]].
Qed.

Lemma set_right_spec il h p l v :
  NoDup l.*1 → dseg h p l None →
  ∃ il' h', set_right il h (hd_loc l None) v = Some (il', h') ∧ dseg h' v l None ∧
    (∀ y, y ∉ l.*1 → h' !! y = h !! y) ∧ same_header il il' ∧ il_first il' = il_first il ∧
    (il_last il = last_loc p l → il_last il' = last_loc v l).
Proof.
  intros Hnd Hl; destruct l as [|[x a] l].
  - simpl; eexists _, h; split_and!; done.
  - destruct (dseg_set_prev h p l x a None v Hnd Hl) as (h' & E & Hl' & Hf).
    simpl; rewrite E; simpl; exists il, h'; split; [done|split; [exact Hl'|split; [|done]]].
    intros y Hy; apply Hf; intros ->; set_solver.
Qed.

(** *** Removal *)

(** Removing an instruction of the list leaves the list without it, and the
    instruction on its own; the rest of the heap is untouched. *)
Lemma remove_ok il h l1 x a l2 :
  list_ok il h (l1 ++ (x, a) :: l2) →
  ∃ il' h', instrlist_remove il h x = Some (il', h') ∧ list_ok il' h' (l1 ++ l2) ∧
    dseg h' None [(x, a)] None ∧ same_header il il' ∧
    (∀ y, y ∉ (l1 ++ (x, a) :: l2).*1 → h' !! y = h !! y).
Proof.
  intros (Hnd & Hseg & Hfst & Hlst).
  rewrite fmap_app, fmap_cons in Hnd; simpl in Hnd; apply NoDup_app in Hnd as (N1 & Hd & N2).
  apply NoDup_cons in N2 as [Hx2 N2].
  assert (Hx1 : x ∉ l1.*1) by (intros Hin; apply (Hd x Hin); set_solver).
  apply dseg_app in Hseg as [S1 [(nd & Hx & Ha & Hp & Hn) S2]].
  unfold instrlist_remove, instr_get_prev, instr_get_next; rewrite Hx; simpl; rewrite Hp, Hn.
  rewrite hd_loc_app in Hfst; rewrite last_loc_app in Hlst; simpl in Hfst, Hlst, S1.
  destruct (set_left_spec il h l1 (Some x) (hd_loc l2 None) N1 S1) as (il1 & h1 & E1 & S1' & F1 & SH1 & L1 & Fst1).
  unfold set_left in E1; rewrite E1; simpl.
  assert (S2' : dseg h1 (Some x) l2 None) by (eapply dseg_frame, S2; intros y Hy; apply F1; set_solver).
  destruct (set_right_spec il1 h1 (Some x) l2 (last_loc None l1) N2 S2') as (il2 & h2 & E2 & S2'' & F2 & SH2 & Fst2 & L2).
  unfold set_right in E2; rewrite E2; simpl.
  assert (Hx2' : h2 !! x = Some nd) by (rewrite F2, F1 by assumption; exact Hx).
  unfold instr_set_prev, instr_set_next, update; rewrite Hx2'; simpl.
  rewrite lookup_insert_eq; simpl; rewrite insert_insert_eq.
  eexists _, _; split; [done|split; [|split; [|split]]].
  - unfold list_ok; rewrite fmap_app; split_and!.
    + apply NoDup_app; split_and!; auto; intros y Hy1 Hy2; apply (Hd y Hy1); set_solver.
    + apply dseg_app; split; apply dseg_insert; auto.
      eapply dseg_frame, S1'; intros y Hy; apply F2; set_solver.
    + rewrite hd_loc_app, Fst2; apply Fst1; done.
    + rewrite last_loc_app; apply L2; rewrite L1; done.
  - simpl; split; [|done]; eexists; rewrite lookup_insert_eq; split_and!; done.
  - exact (same_header_trans _ _ _ SH1 SH2).
  - intros y Hy; rewrite fmap_app, fmap_cons in Hy; simpl in Hy.
    rewrite lookup_insert_ne, F2, F1; set_solver.
Qed.

(** *** Insertion *)

(** Membership in a concatenation of address lists. *)
Ltac in_locs :=
  repeat (rewrite ?fmap_app, ?fmap_cons; cbn [fst]; rewrite ?elem_of_app, ?elem_of_cons); tauto.

(** Joining two segments by one forward and one backward link. *)
Lemma link_ok h p1 l1 x a n1 y b l2 p2 n2 :
  NoDup ((l1 ++ [(x, a)]) ++ (y, b) :: l2).*1 →
  dseg h p1 (l1 ++ [(x, a)]) n1 → dseg h p2 ((y, b) :: l2) n2 →
  ∃ h1 h', instr_set_next h x (Some y) = Some h1 ∧ instr_set_prev h1 y (Some x) = Some h' ∧
    dseg h' p1 ((l1 ++ [(x, a)]) ++ (y, b) :: l2) n2 ∧ (∀ z, z ≠ x → z ≠ y → h' !! z = h !! z).
Proof.
  intros Hnd S1 S2; rewrite fmap_app in Hnd; apply NoDup_app in Hnd as (N1 & Hd & N2).
  assert (Hx : x ∈ (l1 ++ [(x, a)]).*1) by (rewrite fmap_app; set_solver).
  assert (Hy : y ∈ ((y, b) :: l2).*1) by (simpl; set_solver).
  destruct (dseg_set_next h p1 l1 x a n1 (Some y) N1 S1) as (h1 & E1 & S1' & F1).
  assert (S2' : dseg h1 p2 ((y, b) :: l2) n2).
  { eapply dseg_frame, S2; intros z Hz; apply F1; intros ->; exact (Hd x Hx Hz). }
  destruct (dseg_set_prev h1 p2 l2 y b n2 (Some x) N2 S2') as (h2 & E2 & S2'' & F2).
  exists h1, h2; split; [done|split; [done|split]].
  - apply dseg_app; split.
    + eapply dseg_frame, S1'; intros z Hz; apply F2; intros ->; exact (Hd y Hz Hy).
    + rewrite last_loc_snoc; exact S2''.
  - intros z Hzx Hzy; by rewrite F2, F1.
Qed.

(** The situation after the walk: the list is as it was, the chain is a segment
    and its last node is [bot]. *)
Lemma walk_chain il h l t b c :
  NoDup (l ++ (t, b) :: c).*1 → dseg h None l None → dseg h None ((t, b) :: c) None →
  ∃ h' c0 bot e, walk il h t = Some (h', bot) ∧ (t, b) :: c = c0 ++ [(bot, e)] ∧
    dseg h' None l None ∧ dseg h' None ((t, b) :: c) None ∧
    (∀ y, y ∉ (l ++ (t, b) :: c).*1 → h' !! y = h !! y) ∧ same_links h h'.
Proof.
  intros Hnd Sl Sc; rewrite fmap_app in Hnd; apply NoDup_app in Hnd as (N1 & Hd & N2).
  destruct (walk_spec il h None t b c N2 Sc) as (h' & bot & E & SL & Hl & F).
  destruct (snoc_view ((t, b) :: c)) as [?|(c0 & z & e & Ec)]; [done|].
  rewrite Ec, last_loc_snoc in Hl; injection Hl as ->.
  exists h', c0, bot, e; split; [done|split; [done|]].
  split; [eapply same_links_dseg; eauto|split; [eapply same_links_dseg; eauto|split; [|done]]].
  intros y Hy; apply F; rewrite fmap_app in Hy; set_solver.
Qed.

Lemma prepend_ok il h l t b c :
  list_ok il h l → dseg h None ((t, b) :: c) None → NoDup (l ++ (t, b) :: c).*1 →
  ∃ il' h', instrlist_prepend il h (Some t) = Some (il', h') ∧ list_ok il' h' (((t, b) :: c) ++ l) ∧
    same_header il il' ∧ (∀ y, y ∉ (l ++ (t, b) :: c).*1 → h' !! y = h !! y).
Proof.
  intros (Hnd & Sl & Hf & Hl) Sc N.
  destruct (walk_chain il h l t b c N Sl Sc) as (h1 & c0 & bot & e & E & Ec & Sl1 & Sc1 & F & _).
  unfold instrlist_prepend; simpl; rewrite E; simpl; rewrite Hf.
  assert (N' : NoDup (((t, b) :: c) ++ l).*1) by (by rewrite fmap_app, Permutation_app_comm, <- fmap_app).
  destruct l as [|[f d] l]; cbn [hd_loc].
  - eexists _, h1; split; [done|]; split; [|split; [done|exact F]].
    rewrite app_nil_r in *; unfold list_ok; split; [done|split; [done|split; [done|]]].
    change (Some bot = last_loc None ((t, b) :: c)); by rewrite Ec, last_loc_snoc.
  - rewrite Ec in Sc1, N'.
    destruct (link_ok h1 None c0 bot e None f d l None None N' Sc1 Sl1) as (h2 & h3 & E2 & E3 & S & F3).
    rewrite E2; cbn; rewrite E3; cbn; eexists _, h3; split; [done|]; split; [|split; [done|]].
    + change ((t, b) :: c ++ (f, d) :: l) with (((t, b) :: c) ++ (f, d) :: l); rewrite Ec.
      split; [done|split; [done|split]].
      * by rewrite <- Ec.
      * rewrite last_loc_app, last_loc_snoc; exact Hl.
    + intros y Hy; rewrite Ec in *; rewrite F3, F; [done|done| |]; intros ->; apply Hy; in_locs.
Qed.

(** Insertion after an instruction of the list. *)
Lemma postinsert_ok il h l1 w a l2 t b c :
  list_ok il h (l1 ++ (w, a) :: l2) → dseg h None ((t, b) :: c) None →
  NoDup ((l1 ++ (w, a) :: l2) ++ (t, b) :: c).*1 →
  ∃ il' h', instrlist_postinsert il h (Some w) (Some t) = Some (il', h') ∧
    list_ok il' h' (l1 ++ (w, a) :: ((t, b) :: c) ++ l2) ∧
    same_header il il' ∧ (∀ y, y ∉ ((l1 ++ (w, a) :: l2) ++ (t, b) :: c).*1 → h' !! y = h !! y).
Proof.
  replace (l1 ++ (w, a) :: ((t, b) :: c) ++ l2) with (((l1 ++ [(w, a)]) ++ (t, b) :: c) ++ l2)
    by (by rewrite <- !app_assoc).
  intros (Hnd & Sl & Hf & Hl) Sc N.
  destruct (walk_chain il h _ t b c N Sl Sc) as (h1 & c0 & bot & e & E & Ec & Sl1 & Sc1 & F & _).
  apply dseg_app in Sl as [_ [(nd & Hw & _ & _ & Hn) _]].
  unfold instrlist_postinsert, instr_get_next; rewrite Hw; cbn; rewrite E, Hn; cbn.
  replace (l1 ++ (w, a) :: l2) with ((l1 ++ [(w, a)]) ++ l2) in * by (by rewrite <- app_assoc).
  apply dseg_app in Sl1 as [S1 S2]; rewrite last_loc_snoc in S2.
  assert (N' : NoDup (((l1 ++ [(w, a)]) ++ ((t, b) :: c)) ++ l2).*1).
  { rewrite !fmap_app in N |- *; by rewrite <- app_assoc, (Permutation_app_comm (_ <$> (t, b) :: c)), app_assoc. }
  pose proof N' as N1; rewrite fmap_app in N1; apply NoDup_app in N1 as (N1 & D1 & N2).
  destruct (link_ok h1 None l1 w a _ t b c None None N1 S1 Sc1) as (h2 & h3 & E2 & E3 & S & F3).
  rewrite E2; cbn; rewrite E3; cbn.
  assert (Hw1 : w ∈ ((l1 ++ [(w, a)]) ++ (t, b) :: c).*1) by in_locs.
  assert (Ht1 : t ∈ ((l1 ++ [(w, a)]) ++ (t, b) :: c).*1) by in_locs.
  assert (S2' : dseg h3 (Some w) l2 None).
  { eapply dseg_frame, S2; intros y Hy; apply F3; intros ->; [exact (D1 w Hw1 Hy)|exact (D1 t Ht1 Hy)]. }
  assert (Hfr : ∀ y, y ∉ (((l1 ++ [(w, a)]) ++ l2) ++ (t, b) :: c).*1 → h3 !! y = h !! y).
  { intros y Hy; rewrite F3, F; [done|done| |]; intros ->; apply Hy; in_locs. }
  destruct l2 as [|[n d] l2]; cbn.
  - eexists _, h3; split; [done|]; rewrite app_nil_r in *; split; [|split; [done|intros y Hy; apply Hfr; by rewrite app_nil_r in Hy]].
    split; [done|split; [done|split]]; [cbn [il_first with_last]; by rewrite Hf, !hd_loc_app; destruct l1 as [|[]]|].
    rewrite last_loc_app, last_loc_snoc; change (Some bot = last_loc None ((t, b) :: c)).
    by rewrite Ec, last_loc_snoc.
  - rewrite Ec in S, N' |- *; rewrite app_assoc in S, N' |- *.
    destruct (link_ok h3 None _ bot e None n d l2 _ None N' S S2') as (h4 & h5 & E4 & E5 & S' & F5).
    rewrite E4; cbn; rewrite E5; cbn; eexists _, h5; split; [done|split; [|split; [done|]]].
    + split; [done|split; [done|split]]; [cbn [il_first with_last]; by rewrite Hf, !hd_loc_app; destruct l1 as [|[]]|].
      by rewrite Hl, !last_loc_app.
    + intros y Hy; rewrite F5, Hfr; [done| |intros ->; apply Hy; in_locs..].
      rewrite Ec; done.
Qed.

Lemma append_ok il h l t b c :
  list_ok il h l → dseg h None ((t, b) :: c) None → NoDup (l ++ (t, b) :: c).*1 →
  ∃ il' h', instrlist_append il h (Some t) = Some (il', h') ∧ list_ok il' h' (l ++ (t, b) :: c) ∧
    same_header il il' ∧ (∀ y, y ∉ (l ++ (t, b) :: c).*1 → h' !! y = h !! y).
Proof.
  intros (Hnd & Sl & Hf & Hl) Sc N.
  destruct (walk_chain il h l t b c N Sl Sc) as (h1 & c0 & bot & e & E & Ec & Sl1 & Sc1 & F & _).
  unfold instrlist_append; cbn; rewrite E, Hl; cbn.
  assert (Hbot : last_loc None ((t, b) :: c) = Some bot) by (by rewrite Ec, last_loc_snoc).
  destruct (snoc_view l) as [->|(l0 & x & a & ->)].
  - cbn; eexists _, h1; split; [done|split; [|split; [done|exact F]]].
    split; [done|split; [done|split; [done|symmetry; exact Hbot]]].
  - rewrite last_loc_snoc.
    destruct (link_ok h1 None l0 x a None t b c None None N Sl1 Sc1) as (h2 & h3 & E2 & E3 & S & F3).
    rewrite E2; cbn; rewrite E3; cbn; eexists _, h3; split; [done|split; [|split; [done|]]].
    + split; [done|split; [done|split]]; [cbn [il_first with_last]; by rewrite Hf, !hd_loc_app; destruct l0 as [|[]]|].
      rewrite last_loc_app, last_loc_snoc; symmetry; exact Hbot.
    + intros y Hy; rewrite F3, F; [done|done| |]; intros ->; apply Hy; in_locs.
Qed.

(** Insertion before an instruction of the list. *)
Lemma preinsert_ok il h l1 w a l2 t b c :
  list_ok il h (l1 ++ (w, a) :: l2) → dseg h None ((t, b) :: c) None →
  NoDup ((l1 ++ (w, a) :: l2) ++ (t, b) :: c).*1 →
  ∃ il' h', instrlist_preinsert il h (Some w) (Some t) = Some (il', h') ∧
    list_ok il' h' (l1 ++ ((t, b) :: c) ++ (w, a) :: l2) ∧
    same_header il il' ∧ (∀ y, y ∉ ((l1 ++ (w, a) :: l2) ++ (t, b) :: c).*1 → h' !! y = h !! y).
Proof.
  rewrite (app_assoc l1 ((t, b) :: c)).
  intros (Hnd & Sl & Hf & Hl) Sc N.
  destruct (walk_chain il h _ t b c N Sl Sc) as (h1 & c0 & bot & e & E & Ec & Sl1 & Sc1 & F & _).
  apply dseg_app in Sl as [_ [(nd & Hw & _ & Hp & _) _]].
  unfold instrlist_preinsert, instr_get_prev; rewrite Hw; cbn; rewrite E, Hp; cbn.
  apply dseg_app in Sl1 as [S1 S2].
  assert (N' : NoDup ((l1 ++ ((t, b) :: c)) ++ (w, a) :: l2).*1).
  { rewrite !fmap_app in N |- *; by rewrite <- app_assoc, (Permutation_app_comm (_ <$> (t, b) :: c)), app_assoc. }
  pose proof N' as N1; rewrite fmap_app in N1; apply NoDup_app in N1 as (N1 & D1 & N2).
  assert (HL : ∃ il2 h2, (match last_loc None l1 with
      | Some p => h ← instr_set_next h1 p (Some t); h ← instr_set_prev h t (Some p); Some (il, h)
      | None => Some (with_first (Some t) il, h1) end) = Some (il2, h2) ∧ dseg h2 None (l1 ++ (t, b) :: c) None ∧
      same_header il il2 ∧ il_last il2 = il_last il ∧ il_first il2 = hd_loc (l1 ++ (t, b) :: c) None ∧
      (∀ y, y ∉ (l1 ++ (t, b) :: c).*1 → h2 !! y = h1 !! y)).
  { destruct (snoc_view l1) as [->|(l0 & x & d & ->)]; cbn.
    - eexists _, h1; split; [done|split; [exact Sc1|]]; done.
    - rewrite last_loc_snoc.
      destruct (link_ok h1 None l0 x d _ t b c None None N1 S1 Sc1) as (h2 & h3 & E2 & E3 & S & F3).
      rewrite E2; cbn; rewrite E3; cbn; eexists _, h3; split; [done|split; [done|split; [done|split; [done|split]]]].
      + by rewrite Hf, !hd_loc_app; destruct l0 as [|[]].
      + intros y Hy; apply F3; intros ->; apply Hy; in_locs. }
  destruct HL as (il2 & h2 & -> & S & SH & L2 & F2 & Fr2); cbn.
  assert (S2' : dseg h2 (last_loc None l1) ((w, a) :: l2) None).
  { eapply dseg_frame, S2; intros y Hy; apply Fr2; intros Hin; exact (D1 y Hin Hy). }
  rewrite Ec, app_assoc in S, N' |- *.
  destruct (link_ok h2 None _ bot e None w a l2 _ None N' S S2') as (h4 & h5 & E4 & E5 & S' & F5).
  rewrite E4; cbn; rewrite E5; cbn; eexists _, h5; split; [done|split; [|split; [done|]]].
  - split; [done|split; [done|split]].
    + rewrite F2, Ec, app_assoc, (hd_loc_app (_ ++ [_]) (_ :: _)), !(hd_loc_app _ [_]); done.
    + by rewrite L2, Hl, !last_loc_app.
  - intros y Hy; rewrite F5, Fr2, F; [done|by rewrite Ec| | |];
      [rewrite Ec; intros Hin; apply Hy; revert Hin; in_locs|intros ->; apply Hy; in_locs..].
Qed.

(** Insertion at the place of an instruction just removed: after the
    instruction in front of it, or at the head. *)
Lemma insert_at_ok il h l1 l2 t b c :
  list_ok il h (l1 ++ l2) → dseg h None ((t, b) :: c) None → NoDup ((l1 ++ l2) ++ (t, b) :: c).*1 →
  ∃ il' h', instrlist_postinsert il h (last_loc None l1) (Some t) = Some (il', h') ∧
    list_ok il' h' (l1 ++ ((t, b) :: c) ++ l2) ∧ same_header il il' ∧
    (∀ y, y ∉ ((l1 ++ l2) ++ (t, b) :: c).*1 → h' !! y = h !! y).
Proof.
  intros Hl Sc N; destruct (snoc_view l1) as [->|(l0 & w & a & ->)].
  - exact (prepend_ok il h l2 t b c Hl Sc N).
  - rewrite last_loc_snoc, <- (app_assoc l0 [(w, a)] (_ ++ _)).
    replace ((l0 ++ [(w, a)]) ++ l2) with (l0 ++ (w, a) :: l2) in * by (by rewrite <- app_assoc).
    exact (postinsert_ok il h l0 w a l2 t b c Hl Sc N).
Qed.

Lemma replace_ok il h l1 x a l2 t b c :
  list_ok il h (l1 ++ (x, a) :: l2) → dseg h None ((t, b) :: c) None →
  NoDup ((l1 ++ (x, a) :: l2) ++ (t, b) :: c).*1 →
  ∃ il' h', instrlist_replace il h x (Some t) = Some (il', h') ∧
    list_ok il' h' (l1 ++ ((t, b) :: c) ++ l2) ∧ same_header il il'.
Proof.
  intros Hl Sc N; pose proof Hl as (_ & Sl & _).
  apply dseg_app in Sl as [_ [(nd & Hx & _ & Hp & _) _]].
  unfold instrlist_replace, instr_get_prev; rewrite Hx; cbn; rewrite Hp.
  destruct (remove_ok il h l1 x a l2 Hl) as (il1 & h1 & -> & Hl1 & _ & SH1 & F1); cbn.
  assert (Sc1 : dseg h1 None ((t, b) :: c) None).
  { eapply dseg_frame, Sc; intros y Hy; apply F1; intros Hin.
    rewrite fmap_app in N; apply NoDup_app in N as (_ & D & _); exact (D y Hin Hy). }
  assert (N1 : NoDup ((l1 ++ l2) ++ (t, b) :: c).*1).
  { eapply sublist_NoDup; [exact N|]; apply fmap_sublist, sublist_app; [|done].
    apply sublist_app; [done|]; by constructor. }
  destruct (insert_at_ok il1 h1 l1 l2 t b c Hl1 Sc1 N1) as (il2 & h2 & E & Hl2 & SH2 & _).
  exists il2, h2; split; [|eauto using same_header_trans].
  revert E; by destruct (last_loc None l1).
Qed.

(** Cutting in front of an instruction that is not the first. *)
Lemma cut_ok il h l1 p b x a l2 :
  list_ok il h ((l1 ++ [(p, b)]) ++ (x, a) :: l2) →
  ∃ il' h', instrlist_cut il h x = Some (il', h') ∧ list_ok il' h' (l1 ++ [(p, b)]) ∧
    dseg h' None ((x, a) :: l2) None.
Proof.
  intros (Hnd & Sl & Hf & Hl); rewrite fmap_app in Hnd; apply NoDup_app in Hnd as (N1 & D & N2).
  apply dseg_app in Sl as [S1 S2]; rewrite last_loc_snoc in S2.
  destruct S2 as [(nd & Hx & Ha & Hp & Hn) S2].
  unfold instrlist_cut, instr_get_prev; rewrite Hx; cbn; rewrite Hp; cbn.
  destruct (dseg_set_next h None l1 p b _ None N1 S1) as (h1 & E1 & S1' & F1); rewrite E1; cbn.
  assert (Hpx : x ∈ ((x, a) :: l2).*1) by in_locs.
  assert (Hpp : p ∈ (l1 ++ [(p, b)]).*1) by in_locs.
  assert (S2' : dseg h1 (Some p) ((x, a) :: l2) None).
  { eapply dseg_frame; [|split; [eexists; eauto|exact S2]]; intros y Hy; apply F1; intros ->; exact (D p Hpp Hy). }
  destruct (dseg_set_prev h1 (Some p) l2 x a None None N2 S2') as (h2 & E2 & S2'' & F2); rewrite E2; cbn.
  eexists _, h2; split; [done|split; [|exact S2'']].
  split; [done|split; [|split]].
  - eapply dseg_frame, S1'; intros y Hy; apply F2; intros ->; exact (D x Hy Hpx).
  - cbn; by rewrite Hf, !hd_loc_app; destruct l1 as [|[]].
  - by rewrite last_loc_snoc.
Qed.

(** Linking fresh instructions makes a chain. *)
Lemma concat_ok h p (l : list (loc * A)) x a :
  NoDup ((x, a) :: l).*1 →
  (∀ y b, (y, b) ∈ (x, a) :: l → ∃ nd, h !! y = Some nd ∧ n_data nd = b ∧ n_next nd = None ∧
     n_prev nd = if bool_decide (y = x) then p else None) →
  ∃ h', concat_from h x l.*1 = Some h' ∧ dseg h' p ((x, a) :: l) None ∧
    (∀ y, y ∉ ((x, a) :: l).*1 → h' !! y = h !! y).
Proof.
  revert h p x a; induction l as [|[y b] l IH]; intros h p x a Hnd Hfresh.
  - exists h; split; [done|split; [|done]]; split; [|done].
    destruct (Hfresh x a) as (nd & Hx & Hd & Hn & Hp); [set_solver|].
    rewrite bool_decide_eq_true_2 in Hp by done; eauto 6.
  - cbn in Hnd; apply NoDup_cons in Hnd as [Hx Hnd].
    assert (Hxy : x ≠ y) by (intros ->; set_solver).
    destruct (Hfresh x a) as (nx & Hx' & Hdx & Hnx & Hpx); [set_solver|].
    rewrite bool_decide_eq_true_2 in Hpx by done.
    destruct (Hfresh y b) as (ny & Hy' & Hdy & Hny & Hpy); [set_solver|].
    cbn; unfold instr_concat_next, instr_set_next, instr_set_prev, update; rewrite Hx'; cbn.
    rewrite lookup_insert_ne, Hy' by done; cbn.
    destruct (IH (<[y := with_prev (Some x) ny]> (<[x := with_next (Some y) nx]> h)) (Some x) y b Hnd)
      as (h' & E & S & F).
    { intros z d Hz; assert (z ≠ x) by (intros ->; apply Hx; apply (list_elem_of_fmap_2 fst) in Hz; exact Hz).
      destruct (decide (z = y)) as [->|Hzy].
      - apply elem_of_cons in Hz as [[= <-]|Hz].
        + exists (with_prev (Some x) ny); rewrite lookup_insert_eq, bool_decide_eq_true_2 by done; done.
        + exfalso; apply NoDup_cons in Hnd as [Hyl _]; apply Hyl; apply (list_elem_of_fmap_2 fst) in Hz; exact Hz.
      - rewrite !lookup_insert_ne by done; rewrite bool_decide_eq_false_2 by done.
        destruct (Hfresh z d) as (nz & Hz' & Hdz & Hnz & Hpz); [set_solver|].
        rewrite bool_decide_eq_false_2 in Hpz by done; eauto. }
    exists h'; split; [exact E|split].
    + split; [|exact S]; exists (with_next (Some y) nx); split; [|done].
      rewrite F, lookup_insert_ne, lookup_insert_eq by (done || set_solver); done.
    + intros z Hz; cbn in Hz; rewrite F, !lookup_insert_ne; [done|set_solver..].
Qed.

(** *** Allocation and release *)

Lemma instr_create_fresh h a : h !! (instr_create h a).2 = None.
Proof. apply not_elem_of_dom, is_fresh. Qed.

Lemma list_ok_frame il h h' l : (∀ x, x ∈ l.*1 → h' !! x = h !! x) → list_ok il h l → list_ok il h' l.
Proof. intros Hf (N & S & F & L); split_and!; auto; eapply dseg_frame; eauto. Qed.

Lemma list_ok_in il h l x : list_ok il h l → x ∈ l.*1 → is_Some (h !! x).
Proof. intros (_ & S & _) Hx; eapply dseg_lookup; eauto. Qed.

(** Removing an instruction of the list and freeing it. *)
Lemma remove_destroy_ok il h l1 x a l2 :
  list_ok il h (l1 ++ (x, a) :: l2) →
  ∃ il' h1 h', instrlist_remove il h x = Some (il', h1) ∧ instr_destroy h1 x = Some h' ∧
    list_ok il' h' (l1 ++ l2) ∧ same_header il il' ∧ h' !! x = None ∧
    (∀ y, y ∉ (l1 ++ (x, a) :: l2).*1 → h' !! y = h !! y).
Proof.
  intros Hl; pose proof Hl as (N & _).
  destruct (remove_ok il h l1 x a l2 Hl) as (il' & h1 & E & Hl1 & [(nd & Hx & _) _] & SH & F).
  unfold instr_destroy; exists il', h1, (delete x h1); rewrite Hx; split_and!; auto.
  - eapply list_ok_frame, Hl1; intros y Hy; rewrite lookup_delete_ne; [done|]; intros <-.
    revert N Hy; rewrite !fmap_app, fmap_cons, NoDup_app, NoDup_cons, elem_of_app; cbn; set_solver.
  - by rewrite lookup_delete_eq.
  - intros y Hy; rewrite lookup_delete_ne; [auto|]; intros <-; apply Hy; in_locs.
Qed.

(** The loop of [instrlist_clear] ends, empties the list, frees exactly its
    instructions and nothing else. *)
Lemma clear_loop_ok l : ∀ il h fuel, list_ok il h l → (length l < fuel)%nat →
  ∃ il' h', clear_loop fuel il h = Some (il', h') ∧ list_ok il' h' [] ∧ same_header il il' ∧
    (∀ y, y ∈ l.*1 → h' !! y = None) ∧ (∀ y, y ∉ l.*1 → h' !! y = h !! y).
Proof.
  induction l as [|[x a] l IH]; intros il h [|fuel] Hl Hf; cbn in Hf; try lia.
  - pose proof Hl as (_ & _ & F & _); cbn; unfold instrlist_first; rewrite F; cbn.
    exists il, h; split_and!; auto; [by split_and!|set_solver].
  - destruct (remove_destroy_ok il h [] x a l Hl) as (il1 & h1 & h2 & E1 & E2 & Hl2 & SH & Hx & F).
    pose proof Hl as (N & _ & Fi & _); cbn; unfold instrlist_first; rewrite Fi; cbn; rewrite E1; cbn; rewrite E2; cbn.
    destruct (IH il1 h2 fuel Hl2) as (il' & h' & E & Hl' & SH' & D & K); [lia|].
    exists il', h'; split_and!; auto; [exact (same_header_trans _ _ _ SH SH')| |].
    + intros y [->|Hy]%elem_of_cons; [|auto]; rewrite K; [done|].
      cbn in N; apply NoDup_cons in N; tauto.
    + intros y Hy; cbn in Hy; rewrite K by set_solver; apply F; cbn; set_solver.
Qed.

Lemma list_ok_size il h l : list_ok il h l → (length l ≤ size h)%nat.
Proof. intros (N & S & _); eapply dseg_length; eauto. Qed.
End InstrList.
