(* ===== verification/InstrEdit.v ===== *)
(** * Instruction lists: the abstract list and the theorems

    What the operations of [instrlist.c] promise their clients, stated on plain
    lists of instructions ([edit_list]), and the theorem that the pointer
    operations implement it.  Then the release of a list, cutting, and the list
    a client builds by appending fresh instructions. *)
From stdpp Require Import base gmap list fin_maps.
From S2P Require Import Prelude InstrList.

Section InstrEdit.
Context {A : Type}.
Implicit Types (h : gmap loc (node A)) (il : instrlist_t) (x w : loc) (l c : list (loc * A)).

(** ** Reading a list *)

(** [for (inst = instrlist_first(il); inst != NULL; inst = instr_get_next(inst))]. *)
Fixpoint read_from (fuel : nat) h (cur : option loc) : option (list (loc * A)) :=
  match cur, fuel with
  | None, _ => Some []
  | Some _, O => None
  | Some x, S k => nd ← h !! x; rest ← read_from k h (n_next nd); Some ((x, n_data nd) :: rest)
  end.

Definition read_list il h : option (list (loc * A)) := read_from (size h) h (instrlist_first il).

Lemma read_from_dseg h p l : ∀ fuel, dseg h p l None → (length l ≤ fuel)%nat →
  read_from fuel h (hd_loc l None) = Some l.
Proof.
  revert p; induction l as [|[x a] l IH]; intros p fuel S Hf; [by destruct fuel|].
  destruct fuel as [|k]; cbn in Hf; [lia|].
  destruct S as [(nd & Hx & Hd & _ & Hn) S]; cbn; rewrite Hx; cbn; rewrite Hn, (IH _ k S) by lia; cbn; by rewrite Hd.
Qed.

Lemma read_list_ok il h l : list_ok il h l → read_list il h = Some l.
Proof.
  intros Hl; pose proof Hl as (_ & S & F & _); unfold read_list, instrlist_first; rewrite F.
  eapply read_from_dseg; [exact S|eapply list_ok_size; eauto].
Qed.

(** ** Edits *)

(** The operations that change a list; [c] is the chain of new instructions. *)
Inductive edit :=
| Append (c : list (loc * A))
| Prepend (c : list (loc * A))
| Preinsert (w : loc) (c : list (loc * A))
| Postinsert (w : loc) (c : list (loc * A))
| Replace (x : loc) (c : list (loc * A))
| Remove (x : loc).

Definition new_chain (e : edit) : list (loc * A) :=
  match e with
  | Append c | Prepend c | Preinsert _ c | Postinsert _ c | Replace _ c => c
  | Remove _ => []
  end.

Fixpoint split_at x l : option (list (loc * A) * A * list (loc * A)) :=
  match l with
  | [] => None
  | (y, a) :: l' =>
      if decide (y = x) then Some ([], a, l')
      else '(p, b, s) ← split_at x l'; Some ((y, a) :: p, b, s)
  end.

(** On the abstract list. *)
Definition edit_list (e : edit) l : option (list (loc * A)) :=
  match e with
  | Append c => Some (l ++ c)
  | Prepend c => Some (c ++ l)
  | Preinsert w c => '(p, a, s) ← split_at w l; Some (p ++ c ++ (w, a) :: s)
  | Postinsert w c => '(p, a, s) ← split_at w l; Some (p ++ (w, a) :: c ++ s)
  | Replace x c => '(p, a, s) ← split_at x l; Some (p ++ c ++ s)
  | Remove x => '(p, a, s) ← split_at x l; Some (p ++ s)
  end.

(** On the heap. *)
Definition edit_heap (e : edit) il h : option (instrlist_t * gmap loc (node A)) :=
  match e with
  | Append c => instrlist_append il h (hd_loc c None)
  | Prepend c => instrlist_prepend il h (hd_loc c None)
  | Preinsert w c => instrlist_preinsert il h (Some w) (hd_loc c None)
  | Postinsert w c => instrlist_postinsert il h (Some w) (hd_loc c None)
  | Replace x c => instrlist_replace il h x (hd_loc c None)
  | Remove x => instrlist_remove il h x
  end.

(** The chain is a chain of its own, and for an insertion it is not empty. *)
Definition edit_pre (e : edit) h l : Prop :=
  NoDup (l ++ new_chain e).*1 ∧ dseg h None (new_chain e) None ∧
  match e with Remove _ => True | _ => new_chain e ≠ [] end.

Lemma split_at_Some x l p a s : split_at x l = Some (p, a, s) → l = p ++ (x, a) :: s.
Proof.
  revert p; induction l as [|[y b] l IH]; intros p; cbn; [done|].
  case_decide as E; [by intros [= <- <- <-]; subst|].
  destruct (split_at x l) as [[[p' b'] s']|]; cbn; [|done].
  intros [= <- <- <-]; by rewrite (IH p').
Qed.

(** The pointer operations implement the abstract ones. *)
Lemma edit_refines_aux e il h l l' :
  list_ok il h l → edit_pre e h l → edit_list e l = Some l' →
  ∃ il' h', edit_heap e il h = Some (il', h') ∧ list_ok il' h' l' ∧ same_header il il'.
Proof.
  intros Hl (N & S & Hne) E.
  destruct e as [c|c|w c|w c|x c|x]; cbn in *.
  1-5: destruct c as [|[t b] c]; [by destruct Hne|]; cbn [hd_loc].
  1: { simplify_eq; destruct (append_ok il h l t b c Hl S N) as (il' & h' & ? & ? & ? & _); eauto 6. }
  1: { simplify_eq; destruct (prepend_ok il h l t b c Hl S N) as (il' & h' & ? & ? & ? & _); eauto 6. }
  all: destruct (split_at _ l) as [[[p a] s]|] eqn:Es; cbn in E; [|done]; apply split_at_Some in Es as ->; simplify_eq.
  - destruct (preinsert_ok il h p w a s t b c Hl S N) as (il' & h' & ? & ? & ? & _); eauto 6.
  - destruct (postinsert_ok il h p w a s t b c Hl S N) as (il' & h' & ? & ? & ? & _); eauto 6.
  - exact (replace_ok il h p x a s t b c Hl S N).
  - destruct (remove_ok il h p x a s Hl) as (il' & h' & ? & ? & _ & ? & _); eauto 6.
Qed.

(** ** [instrlist_append_variadic_instr] *)

Fixpoint instrlist_append_variadic_instr il h (args : list loc) : option (instrlist_t * gmap loc (node A)) :=
  match args with
  | [] => Some (il, h)
  | x :: args' => '(il, h) ← instrlist_append il h (Some x); instrlist_append_variadic_instr il h args'
  end.

(** Instructions that are in no list. *)
Definition detached h c : Prop := ∀ x a, (x, a) ∈ c → dseg h None [(x, a)] None.

Lemma append_variadic_ok c : ∀ il h l,
  list_ok il h l → NoDup (l ++ c).*1 → detached h c →
  ∃ il' h', instrlist_append_variadic_instr il h c.*1 = Some (il', h') ∧ list_ok il' h' (l ++ c) ∧ same_header il il'.
Proof.
  induction c as [|[x a] c IH]; intros il h l Hl N D.
  - rewrite app_nil_r; exists il, h; split_and!; try done; by split_and!.
  - assert (N1 : NoDup ((l ++ [(x, a)]) ++ c).*1) by (by rewrite <- app_assoc).
    assert (N2 : NoDup (l ++ [(x, a)]).*1) by (rewrite fmap_app in N1; by apply NoDup_app in N1 as (? & _)).
    destruct (append_ok il h l x a [] Hl (D x a ltac:(left)) N2) as (il1 & h1 & E & Hl1 & SH & F).
    change (instrlist_append_variadic_instr il h ((x, a) :: c).*1) with
      ('(il, h) ← instrlist_append il h (Some x); instrlist_append_variadic_instr il h c.*1).
    rewrite E; cbn [mbind option_bind]; destruct (IH il1 h1 (l ++ [(x, a)]) Hl1 N1) as (il2 & h2 & E2 & Hl2 & SH2).
    { intros y b Hy; eapply dseg_frame, (D y b); [|by right]; cbn.
      intros z ->%list_elem_of_singleton; apply F; intros Hz.
      rewrite fmap_app in N1; apply NoDup_app in N1 as (_ & N1 & _); apply (N1 y Hz).
      apply (list_elem_of_fmap_2 fst) in Hy; exact Hy. }
    exists il2, h2; rewrite <- app_assoc in Hl2; split_and!; [done|done|exact (same_header_trans _ _ _ SH SH2)..].
Qed.

(** ** Theorems *)

(** C14: Every edit of a well-formed list at an instruction of the list, with a
    chain of instructions that is not part of it, succeeds, leaves a well-formed
    list (both link directions, the two ends) with the header's other fields
    unchanged, and walking the new list gives what the abstract edit gives. *)
Theorem instrlist_edit_refines e il h l l' :
  list_ok il h l → edit_pre e h l → edit_list e l = Some l' →
  ∃ il' h', edit_heap e il h = Some (il', h') ∧ list_ok il' h' l' ∧ same_header il il' ∧
    read_list il' h' = Some l'.
Proof.
  intros Hl Hp E; destruct (edit_refines_aux e il h l l' Hl Hp E) as (il' & h' & ? & ? & ?).
  exists il', h'; split_and!; try done; [by apply read_list_ok].
Qed.

(** C40: [instrlist_clear] terminates on every well-formed list, empties it, frees
    each of its instructions and touches no other one. *)
Theorem instrlist_clear_frees il h l :
  list_ok il h l →
  ∃ il' h', instrlist_clear il h = Some (il', h') ∧ instrlist_first il' = None ∧ instrlist_last il' = None ∧
    (∀ y, y ∈ l.*1 → h' !! y = None) ∧ (∀ y, y ∉ l.*1 → h' !! y = h !! y).
Proof.
  intros Hl; destruct (clear_loop_ok l il h (S (size h)) Hl) as (il' & h' & E & (_ & _ & F & L) & _ & D & K).
  - pose proof (list_ok_size _ _ _ Hl); lia.
  - exists il', h'; split_and!; auto.
Qed.

(** [instrlist_cut] in front of an instruction that is not the first one leaves
    the list up to it and the rest as a chain of its own.  Cut at the first
    instruction leaves an inconsistent header: [last] is NULL while [first]
    still points at the instruction cut off. *)
Theorem instrlist_cut_splits il h l1 x (a : A) l2 :
  list_ok il h (l1 ++ (x, a) :: l2) →
  ∃ il' h', instrlist_cut il h x = Some (il', h') ∧ dseg h' None ((x, a) :: l2) None ∧
    (l1 ≠ [] → list_ok il' h' l1 ∧ read_list il' h' = Some l1) ∧
    (l1 = [] → instrlist_first il' = Some x ∧ instrlist_last il' = None).
Proof.
  intros Hl; destruct (snoc_view l1) as [->|(l0 & p & b & ->)].
  - destruct Hl as (N & [(nd & Hx & Ha & Hp & Hn) S] & F & L); unfold instrlist_cut, instr_get_prev.
    rewrite Hx; cbn; rewrite Hp; cbn; unfold instr_set_prev, update; rewrite Hx; cbn.
    eexists _, _; split_and!; [done| |by apply dseg_insert; [apply NoDup_cons in N; tauto|]|done|done].
    exists (with_prev None nd); by rewrite lookup_insert_eq.
  - destruct (cut_ok il h l0 p b x a l2 Hl) as (il' & h' & E & Hl' & S).
    exists il', h'; split_and!; try done; [by auto using read_list_ok|].
    intros H; by destruct l0.
Qed.

(** Appending detached instructions to a fresh list one at a time makes the
    list of those instructions in that order: what is read back is what was
    appended. *)
Theorem append_variadic_roundtrip h c :
  NoDup c.*1 → detached h c →
  ∃ il' h', instrlist_append_variadic_instr instrlist_init h c.*1 = Some (il', h') ∧
    list_ok il' h' c ∧ read_list il' h' = Some c.
Proof.
  intros N D; destruct (append_variadic_ok c instrlist_init h []) as (il' & h' & E & Hl & _); try done.
  - split_and!; cbn; try done; constructor.
  - exists il', h'; split_and!; auto using read_list_ok.
Qed.
End InstrEdit.
Arguments edit : clear implicits.

(** ** Witnesses *)

Definition node_of (a : nat) (p n : option loc) : node nat := mk_node a p n None false.

(** A list of two instructions, a detached chain of two, a detached instruction. *)
Definition sample_heap : gmap loc (node nat) :=
  <[1%positive := node_of 10 None (Some 2%positive)]> (<[2%positive := node_of 20 (Some 1%positive) None]>
  (<[3%positive := node_of 30 None (Some 4%positive)]> (<[4%positive := node_of 40 (Some 3%positive) None]>
  (<[5%positive := node_of 50 None None]> ∅)))).
Definition sample_list : list (loc * nat) := [(1%positive, 10); (2%positive, 20)].
Definition sample_il : instrlist_t := mk_instrlist (Some 1%positive) (Some 2%positive) true false false (Some 99%Z) None.

Lemma sample_ok : list_ok sample_il sample_heap sample_list.
Proof.
  split_and!; try done; [|cbn; split_and!; try done; eexists; split_and!; done].
  apply (bool_decide_unpack _); reflexivity.
Qed.

Definition sample_chain : list (loc * nat) := [(3%positive, 30); (4%positive, 40)].

Lemma instrlist_edit_refines_witness :
  ∃ il' h', edit_heap (Replace 2%positive sample_chain) sample_il sample_heap = Some (il', h') ∧
    list_ok il' h' [(1%positive, 10); (3%positive, 30); (4%positive, 40)] ∧ same_header sample_il il' ∧
    read_list il' h' = Some [(1%positive, 10); (3%positive, 30); (4%positive, 40)].
Proof.
  apply (instrlist_edit_refines (Replace 2%positive sample_chain) sample_il sample_heap sample_list); [exact sample_ok| |done].
  split_and!; [apply (bool_decide_unpack _); reflexivity|cbn; split_and!; try done; eexists; split_and!; done|done].
Defined.

Lemma instrlist_clear_frees_witness :
  ∃ il' h', instrlist_clear sample_il sample_heap = Some (il', h') ∧ instrlist_first il' = None ∧
    instrlist_last il' = None ∧ (∀ y, y ∈ sample_list.*1 → h' !! y = None) ∧
    (∀ y, y ∉ sample_list.*1 → h' !! y = sample_heap !! y).
Proof. apply instrlist_clear_frees; exact sample_ok. Defined.

Lemma instrlist_cut_splits_witness :
  ∃ il' h', instrlist_cut sample_il sample_heap 2%positive = Some (il', h') ∧
    dseg h' None [(2%positive, 20)] None ∧
    ([(1%positive, 10)] ≠ [] → list_ok il' h' [(1%positive, 10)] ∧ read_list il' h' = Some [(1%positive, 10)]) ∧
    ([(1%positive, 10)] = [] → instrlist_first il' = Some 2%positive ∧ instrlist_last il' = None).
Proof. apply (instrlist_cut_splits sample_il sample_heap [(1%positive, 10)]); exact sample_ok. Defined.

Lemma append_variadic_roundtrip_witness :
  ∃ il' h', instrlist_append_variadic_instr instrlist_init sample_heap [5%positive] = Some (il', h') ∧
    list_ok il' h' [(5%positive, 50)] ∧ read_list il' h' = Some [(5%positive, 50)].
Proof.
  apply (append_variadic_roundtrip sample_heap [(5%positive, 50)]).
  - apply (bool_decide_unpack _); reflexivity.
  - intros x a [= -> ->]%list_elem_of_singleton; cbn; split; [eexists; split_and!; done|done].
Defined.
