(* ===== verification/Chains.v ===== *)
(** * Lists with forward links only

    A rewrite function may return a chain in which only the [next] fields are
    set.  [fseg] is a segment whose forward links are right; [half_ok] is the
    list in the middle of the rewriting loop: forward links only in the part the
    loop has been through, both links in the part ahead of it.  Unlinking the
    next instruction and inserting a chain in its place keep that state, so that
    the loop never reads a missing [prev] field. *)
From stdpp Require Import base gmap list fin_maps.
From S2P Require Import Prelude InstrList InstrEdit.

Section Chains.
Context {A : Type}.
Implicit Types (h : gmap loc (node A)) (il : instrlist_t) (x y t : loc) (l c : list (loc * A)).

Fixpoint fseg h l (n : option loc) : Prop :=
  match l with
  | [] => True
  | (x, a) :: l' => (∃ nd, h !! x = Some nd ∧ n_data nd = a ∧ n_next nd = hd_loc l' n) ∧ fseg h l' n
  end.

Definition half_ok il h l1 l2 : Prop :=
  NoDup (l1 ++ l2).*1 ∧ fseg h l1 (hd_loc l2 None) ∧ dseg h (last_loc None l1) l2 None ∧
  il_first il = hd_loc (l1 ++ l2) None ∧ il_last il = last_loc None (l1 ++ l2).

(** ** Segments *)

Lemma dseg_fseg h p l n : dseg h p l n → fseg h l n.
Proof. revert p; induction l as [|[x a] l IH]; intros p; cbn; [done|]; intros [(nd & Hx & Hd & _ & Hn) Hl]; split; eauto. Qed.

Lemma fseg_app h l1 l2 n : fseg h (l1 ++ l2) n ↔ fseg h l1 (hd_loc l2 n) ∧ fseg h l2 n.
Proof. induction l1 as [|[x a] l1 IH]; cbn; [tauto|]; rewrite IH, hd_loc_app; tauto. Qed.

Lemma fseg_frame h h' l n : (∀ x, x ∈ l.*1 → h' !! x = h !! x) → fseg h l n → fseg h' l n.
Proof.
  induction l as [|[x a] l IH]; cbn; intros Hf; [done|]; intros [(nd & Hx & Hn) Hl]; split.
  - exists nd; rewrite Hf by set_solver; auto.
  - apply IH; [|done]; intros; apply Hf; set_solver.
Qed.

Lemma fseg_lookup h l n x : x ∈ l.*1 → fseg h l n → is_Some (h !! x).
Proof.
  induction l as [|[y a] l IH]; cbn; [set_solver|]; intros Hx [(nd & Hy & _) Hl].
  apply elem_of_cons in Hx as [->|Hx]; eauto.
Qed.

(** The [prev] fields do not matter. *)
Lemma fseg_set_prev h h' x v l n : instr_set_prev h x v = Some h' → fseg h l n → fseg h' l n.
Proof.
  unfold instr_set_prev, update; intros E; destruct (h !! x) as [ndx|] eqn:Ex; [|done]; injection E as <-.
  induction l as [|[y a] l IH]; cbn; [done|]; intros [(nd & Hy & Hd & Hn) Hl]; split; [|auto].
  destruct (decide (y = x)) as [->|]; [|exists nd; rewrite lookup_insert_ne by done; auto].
  exists (with_prev v ndx); rewrite lookup_insert_eq; simplify_eq; auto.
Qed.

Lemma fseg_set_next h l x a n v :
  NoDup (l ++ [(x, a)]).*1 → fseg h (l ++ [(x, a)]) n →
  ∃ h', instr_set_next h x v = Some h' ∧ fseg h' (l ++ [(x, a)]) v ∧ (∀ y, y ≠ x → h' !! y = h !! y).
Proof.
  intros N S; rewrite fmap_app in N; apply NoDup_app in N as (_ & D & _).
  apply fseg_app in S as [Sl [(nd & Hx & Hd & _) _]]; unfold instr_set_next, update; rewrite Hx; cbn.
  eexists; split; [done|split; [|by intros y Hy; rewrite lookup_insert_ne]]; apply fseg_app; split.
  - eapply fseg_frame, Sl; intros y Hy; rewrite lookup_insert_ne; [done|]; intros <-; apply (D x Hy); cbn; set_solver.
  - split; [|done]; exists (with_next v nd); by rewrite lookup_insert_eq.
Qed.

Lemma same_links_fseg h h' l n : same_links h h' → fseg h l n → fseg h' l n.
Proof.
  intros Hs; induction l as [|[x a] l IH]; cbn; [done|]; intros [(nd & Hx & Hd & Hn) Hl]; split; [|auto].
  destruct (proj1 Hs x nd Hx) as (nd' & ? & ? & _ & ?); exists nd'; split_and!; congruence.
Qed.

Lemma set_prev_frame h x v :
  is_Some (h !! x) → ∃ h', instr_set_prev h x v = Some h' ∧ (∀ y, y ≠ x → h' !! y = h !! y).
Proof.
  intros [nd Hx]; unfold instr_set_prev, update; rewrite Hx; cbn; eexists; split; [done|].
  intros y Hy; by rewrite lookup_insert_ne.
Qed.

Lemma fseg_length h l n : NoDup l.*1 → fseg h l n → (length l ≤ size h)%nat.
Proof.
  intros N S; rewrite <- (length_fmap fst), <- size_dom, <- (size_list_to_set (C := gset loc) l.*1) by done.
  apply subseteq_size; intros x Hx; apply elem_of_list_to_set in Hx; apply elem_of_dom; eauto using fseg_lookup.
Qed.

(** ** The walk to the end of a chain *)

Lemma chain_end_fseg il h x a c :
  fseg h ((x, a) :: c) None → ∀ fuel, (length ((x, a) :: c) ≤ fuel)%nat →
  ∃ h' bot, chain_end fuel il h x = Some (h', bot) ∧ same_links h h' ∧ last_loc None ((x, a) :: c) = Some bot ∧
    (∀ y, y ∉ c.*1 → h' !! y = h !! y).
Proof.
  revert h x a; induction c as [|[y b] c IH]; intros h x a [(nd & Hx & Hd & Hn) Hc] [|fuel] Hf; cbn in Hf; try lia;
    cbn [chain_end]; unfold instr_get_next; rewrite Hx; cbn; rewrite Hn; cbn.
  - exists h, x; split_and!; auto using same_links_refl.
  - destruct (check_translation_links il h y) as (h1 & -> & Hs1 & Hf1).
    { eapply (fseg_lookup _ ((y, b) :: c)); [cbn; set_solver|exact Hc]. }
    cbn; destruct (IH h1 y b) with (fuel := fuel) as (h2 & bot & E & Hs2 & Hl & Hf2).
    { eapply same_links_fseg; eauto. } { cbn; lia. }
    exists h2, bot; split_and!; auto; [eapply same_links_trans; eauto|].
    intros z Hz; cbn in Hz; rewrite Hf2, Hf1; set_solver.
Qed.

Lemma walk_fseg il h t b c :
  NoDup ((t, b) :: c).*1 → fseg h ((t, b) :: c) None →
  ∃ h' c0 bot e, walk il h t = Some (h', bot) ∧ (t, b) :: c = c0 ++ [(bot, e)] ∧ same_links h h' ∧
    (∀ y, y ∉ ((t, b) :: c).*1 → h' !! y = h !! y).
Proof.
  intros N S; pose proof (fseg_length _ _ _ N S) as Hsz.
  unfold walk; destruct (check_translation_links il h t) as (h1 & -> & Hs1 & Hf1).
  { eapply fseg_lookup; [|exact S]; cbn; set_solver. }
  cbn; destruct (chain_end_fseg il h1 t b c (same_links_fseg _ _ _ _ Hs1 S) (size h) Hsz) as (h2 & bot & E & Hs2 & Hl & Hf2).
  destruct (snoc_view ((t, b) :: c)) as [?|(c0 & z & e & Ec)]; [done|].
  rewrite Ec, last_loc_snoc in Hl; injection Hl as ->.
  exists h2, c0, bot, e; split_and!; auto; [eapply same_links_trans; eauto|].
  intros y Hy; cbn in Hy; rewrite Hf2, Hf1; set_solver.
Qed.

(** ** The state of the loop *)

Lemma half_start il h l : list_ok il h l → half_ok il h [] l.
Proof. intros (N & S & F & L); by split_and!. Qed.

Lemma half_next il h l1 x a l2 : half_ok il h l1 ((x, a) :: l2) → half_ok il h (l1 ++ [(x, a)]) l2.
Proof.
  intros (N & S1 & [(nd & Hx & Hd & Hp & Hn) S2] & F & L); unfold half_ok; rewrite <- app_assoc, last_loc_snoc; cbn [app].
  split_and!; auto; apply fseg_app; split; [done|]; split; [eauto|done].
Qed.

Lemma half_frame il h h' l1 l2 :
  (∀ x, x ∈ (l1 ++ l2).*1 → h' !! x = h !! x) → half_ok il h l1 l2 → half_ok il h' l1 l2.
Proof.
  intros Hf (N & S1 & S2 & F & L); split_and!; auto.
  - eapply fseg_frame, S1; intros; apply Hf; rewrite fmap_app; set_solver.
  - eapply dseg_frame, S2; intros; apply Hf; rewrite fmap_app; set_solver.
Qed.

Lemma half_in il h l1 l2 x : half_ok il h l1 l2 → x ∈ (l1 ++ l2).*1 → is_Some (h !! x).
Proof.
  intros (_ & S1 & S2 & _); rewrite fmap_app, elem_of_app; intros [Hx|Hx]; [eauto using fseg_lookup|eauto using dseg_lookup].
Qed.

Lemma read_from_fseg h l : ∀ fuel, fseg h l None → (length l ≤ fuel)%nat → read_from fuel h (hd_loc l None) = Some l.
Proof.
  induction l as [|[x a] l IH]; intros fuel S Hf; [by destruct fuel|].
  destruct fuel as [|k]; cbn in Hf; [lia|]; destruct S as [(nd & Hx & Hd & Hn) S].
  cbn; rewrite Hx; cbn; rewrite Hn, (IH k S) by lia; cbn; by rewrite Hd.
Qed.

(** Walking the list behind the loop. *)
Lemma half_read il h l : half_ok il h l [] → read_list il h = Some l.
Proof.
  intros (N & S & _ & F & _); rewrite app_nil_r in *; unfold read_list, instrlist_first; rewrite F.
  apply read_from_fseg; [done|eauto using fseg_length].
Qed.

(** The two links across the place the loop is at. *)
Lemma half_left il h l1 n v :
  NoDup l1.*1 → fseg h l1 n →
  ∃ il' h', set_left il h (last_loc None l1) v = Some (il', h') ∧ fseg h' l1 v ∧
    (∀ y, y ∉ l1.*1 → h' !! y = h !! y) ∧ same_header il il' ∧ il_last il' = il_last il ∧
    (il_first il = hd_loc l1 n → il_first il' = hd_loc l1 v).
Proof.
  intros N S; destruct (snoc_view l1) as [->|(l0 & x & a & ->)]; [cbn; eexists _, h; by split_and!|].
  destruct (fseg_set_next h l0 x a n v N S) as (h' & E & S' & Hf).
  rewrite last_loc_snoc; cbn; rewrite E; cbn; exists il, h'; split_and!; try done.
  - intros y Hy; apply Hf; intros ->; apply Hy; rewrite fmap_app; set_solver.
  - rewrite !hd_loc_app; by destruct l0 as [|[]].
Qed.

(** Unlinking and freeing the instruction the loop is at. *)
Lemma half_remove il h l1 x a l2 :
  half_ok il h l1 ((x, a) :: l2) →
  ∃ il' h1 h', instrlist_remove il h x = Some (il', h1) ∧ instr_destroy h1 x = Some h' ∧
    half_ok il' h' l1 l2 ∧ same_header il il'.
Proof.
  intros (N & S1 & [(nd & Hx & Ha & Hp & Hn) S2] & F & L).
  rewrite fmap_app, fmap_cons in N; cbn in N; apply NoDup_app in N as (N1 & D & N2); apply NoDup_cons in N2 as [Hx2 N2].
  assert (Hx1 : x ∉ l1.*1) by (intros Hin; apply (D x Hin); set_solver).
  unfold instrlist_remove, instr_get_prev, instr_get_next; rewrite Hx; cbn; rewrite Hp, Hn.
  rewrite hd_loc_app in F; rewrite last_loc_app in L; cbn in F, L, S1.
  destruct (half_left il h l1 (Some x) (hd_loc l2 None) N1 S1) as (il1 & h1 & E1 & S1' & F1 & SH1 & L1 & Fst1).
  unfold set_left in E1; rewrite E1; cbn.
  assert (S2' : dseg h1 (Some x) l2 None) by (eapply dseg_frame, S2; intros y Hy; apply F1; set_solver).
  destruct (set_right_spec il1 h1 (Some x) l2 (last_loc None l1) N2 S2') as (il2 & h2 & E2 & S2'' & F2 & SH2 & Fst2 & L2).
  unfold set_right in E2; rewrite E2; cbn.
  assert (Hx2' : h2 !! x = Some nd) by (rewrite F2, F1 by assumption; exact Hx).
  unfold instr_set_prev, instr_set_next, update, instr_destroy; rewrite Hx2'; cbn.
  rewrite lookup_insert_eq; cbn; eexists _, _, _; split; [done|rewrite lookup_insert_eq; cbn; split; [done|split]].
  - assert (Fr : ∀ y, y ≠ x → delete x (<[x := with_next None (with_prev None nd)]> (<[x := with_prev None nd]> h2)) !! y = h2 !! y)
      by (intros y Hy; rewrite lookup_delete_ne, !lookup_insert_ne; done).
    split_and!; cbn.
    + rewrite fmap_app; apply NoDup_app; split_and!; auto; intros y Hy1 Hy2; apply (D y Hy1); set_solver.
    + eapply fseg_frame, S1'; intros y Hy; rewrite Fr, F2; [done|intros Hy2; apply (D y Hy); set_solver|congruence].
    + eapply dseg_frame, S2''; intros y Hy; apply Fr; congruence.
    + rewrite hd_loc_app, Fst2; by apply Fst1.
    + rewrite last_loc_app; apply L2; by rewrite L1.
  - exact (same_header_trans _ _ _ SH1 SH2).
Qed.

(** Linking the end of a chain to what follows. *)
Lemma half_right il h c0 bot e l2 p :
  NoDup ((c0 ++ [(bot, e)]) ++ l2).*1 → fseg h (c0 ++ [(bot, e)]) None → dseg h p l2 None →
  ∃ il' h', (match hd_loc l2 None with
             | Some n => h ← instr_set_next h bot (Some n); h ← instr_set_prev h n (Some bot); Some (il, h)
             | None => Some (with_last (Some bot) il, h) end) = Some (il', h') ∧
    fseg h' (c0 ++ [(bot, e)]) (hd_loc l2 None) ∧ dseg h' (Some bot) l2 None ∧ same_header il il' ∧ il_first il' = il_first il ∧
    (∀ y, y ∉ ((c0 ++ [(bot, e)]) ++ l2).*1 → h' !! y = h !! y) ∧
    (il_last il = last_loc p l2 → il_last il' = last_loc (Some bot) l2).
Proof.
  intros N Sc S2; rewrite fmap_app in N; apply NoDup_app in N as (Nc & D & N2); destruct l2 as [|[n d] l2]; cbn [hd_loc].
  { eexists _, h; by split_and!. }
  assert (Hb : bot ∈ (c0 ++ [(bot, e)]).*1) by (rewrite fmap_app; set_solver).
  destruct (fseg_set_next h c0 bot e None (Some n) Nc Sc) as (h1 & E1 & Sc1 & F1); rewrite E1; cbn [mbind option_bind].
  assert (S2' : dseg h1 p ((n, d) :: l2) None).
  { eapply dseg_frame, S2; intros y Hy; apply F1; intros ->; exact (D bot Hb Hy). }
  destruct (dseg_set_prev h1 p l2 n d None (Some bot) N2 S2') as (h2 & E2 & S2'' & F2); rewrite E2; cbn [mbind option_bind].
  exists il, h2; split_and!; try done; [by eapply fseg_set_prev|].
  intros y Hy; rewrite F2, F1; [done|intros ->; apply Hy; rewrite fmap_app; set_solver..].
Qed.

(** Inserting a chain there. *)
Lemma half_insert il h l1 l2 t b c :
  half_ok il h l1 l2 → fseg h ((t, b) :: c) None → NoDup ((l1 ++ l2) ++ (t, b) :: c).*1 →
  ∃ il' h', instrlist_postinsert il h (last_loc None l1) (Some t) = Some (il', h') ∧
    half_ok il' h' (l1 ++ (t, b) :: c) l2 ∧ same_header il il'.
Proof.
  intros (Nl & S1 & S2 & F & L) Sc N.
  assert (N' : NoDup ((l1 ++ (t, b) :: c) ++ l2).*1).
  { rewrite !fmap_app in N |- *; by rewrite <- app_assoc, (Permutation_app_comm (_ <$> (t, b) :: c)), app_assoc. }
  pose proof N' as Nc; rewrite <- app_assoc, fmap_app in Nc; apply NoDup_app in Nc as (N1 & D1 & Nc).
  pose proof Nc as Nt; rewrite fmap_app in Nt; apply NoDup_app in Nt as (Nt & _ & _).
  destruct (walk_fseg il h t b c Nt Sc) as (h1 & c0 & bot & e & W & Ec & SL & Fw).
  pose proof S1 as S0; apply (same_links_fseg _ h1) in S1, Sc; [|done..]; apply (same_links_dseg _ h1) in S2; [|done].
  assert (Hbot : last_loc None ((t, b) :: c) = Some bot) by (by rewrite Ec, last_loc_snoc).
  destruct (snoc_view l1) as [->|(l0 & w & a & ->)].
  - cbn [last_loc instrlist_postinsert]; unfold instrlist_prepend; cbn [mbind option_bind]; rewrite W; cbn [mbind option_bind].
    rewrite Ec in Sc, Nc; destruct (half_right il h1 c0 bot e l2 None Nc Sc S2) as (il' & h' & E & Sc' & S2' & SH & Fi & _ & La).
    rewrite F; cbn [app]; revert E; destruct l2 as [|[n d] l2]; cbn [hd_loc]; intros E.
    + injection E as <- <-; eexists _, h1; split; [done|split; [|done]]; unfold half_ok; rewrite app_nil_r in *; cbn [app] in *.
      rewrite <- Ec in Sc; split_and!; done.
    + destruct (instr_set_next h1 bot (Some n)) as [h2|]; [|done]; cbn [mbind option_bind] in E |- *.
      destruct (instr_set_prev h2 n (Some bot)) as [h3|]; [|done]; cbn [mbind option_bind] in E |- *.
      injection E as <- <-; eexists _, h3; split; [done|split; [|done]]; unfold half_ok; cbn [app] in *.
      rewrite <- Ec in Sc'; rewrite Hbot; split_and!; try done.
      cbn [with_first il_last]; rewrite L; change (last_loc None ((n, d) :: l2) = last_loc None (((t, b) :: c) ++ (n, d) :: l2)).
      by rewrite last_loc_app.
  - rewrite last_loc_snoc in *.
    assert (Hw0 : ∃ nd0, h !! w = Some nd0 ∧ n_next nd0 = hd_loc l2 None).
    { apply fseg_app in S0 as [_ [(nd0 & H0 & _ & H1) _]]; eauto. }
    destruct Hw0 as (nd0 & Hw0 & Hn0); unfold instrlist_postinsert, instr_get_next; rewrite Hw0; cbn [fmap option_fmap option_map mbind option_bind].
    rewrite W, Hn0; cbn [mbind option_bind].
    destruct (fseg_set_next h1 l0 w a _ (Some t) N1 S1) as (h2 & E2 & S1' & F2); rewrite E2; cbn [mbind option_bind].
    assert (Hw : w ∈ (l0 ++ [(w, a)]).*1) by (rewrite fmap_app; set_solver).
    assert (Hd : ∀ y, y ∈ (((t, b) :: c) ++ l2).*1 → h2 !! y = h1 !! y) by (intros y Hy; apply F2; intros ->; exact (D1 w Hw Hy)).
    apply (fseg_frame _ h2) in Sc; [|intros y Hy; apply Hd; rewrite fmap_app; set_solver].
    apply (dseg_frame _ h2) in S2; [|intros y Hy; apply Hd; rewrite fmap_app; set_solver].
    destruct (set_prev_frame h2 t (Some w)) as (h3 & E3 & F3); [eapply fseg_lookup, Sc; cbn; set_solver|].
    rewrite E3; cbn [mbind option_bind]; apply (fseg_set_prev _ _ _ _ _ _ E3) in S1', Sc.
    apply (dseg_frame _ h3) in S2; [|intros y Hy; apply F3; intros ->; rewrite fmap_app in Nc; apply NoDup_app in Nc as (_ & Nc & _);
                                     apply (Nc t); [cbn; set_solver|done]].
    pose proof Nc as Nb; rewrite Ec in Nb, Sc.
    destruct (half_right il h3 c0 bot e l2 (Some w) Nb Sc S2) as (il' & h' & E & Sc' & S2' & SH & Fi & Fr & La).
    exists il', h'; split; [exact E|split; [|exact SH]]; rewrite <- Ec in Sc', Fr; unfold half_ok; rewrite last_loc_app, last_loc_snoc.
    change (last_loc (Some w) ((t, b) :: c)) with (last_loc None ((t, b) :: c)); rewrite Hbot; split_and!; try done.
    + apply fseg_app; split; [|exact Sc']; eapply fseg_frame, S1'; intros y Hy; apply Fr; by apply D1.
    + by rewrite Fi, F, !hd_loc_app; destruct l0 as [|[]].
    + rewrite last_loc_app, last_loc_app, last_loc_snoc; change (last_loc (Some w) ((t, b) :: c)) with (last_loc None ((t, b) :: c)).
      rewrite Hbot; apply La; by rewrite L, last_loc_app, last_loc_snoc.
Qed.
End Chains.
