(* ===== verification/Driver.v ===== *)
(** * The rewriting driver

    [exec_rewrite_avx512_bb] walks the instruction list of a basic block, hands
    every AVX-512 instruction to the rewrite function of its opcode and inserts
    the code it returns behind the instruction's predecessor.  The rewrite
    functions of the other files are functions from an instruction to the code
    emitted; here they act on the heap: the emitted instructions are allocated
    and linked, the original is unlinked and freed.  The loop is shown to
    implement [drive], the same thing on plain lists. *)
From stdpp Require Import base gmap list fin_maps.
From Stdlib Require Import ZArith Lia.
From S2P Require Import Prelude Regs Machine Arch512 Dispatch InstrList InstrEdit Chains.

(** ** Instructions of a block *)

Record bb_instr := mk_bb_instr {
  bi_instr : instr_t;
  is_avx512_instr : bool;   (* set by the decoder on EVEX and mask instructions *)
  is_meta : bool
}.

Abbreviation heap := (gmap loc (node bb_instr)).

(** An instruction as the [instr_create] functions leave it: all flags clear. *)
Definition created_instr (i : instr_t) : bb_instr := mk_bb_instr i false false.

(** The constructors [SAVE_SIMD_TO_SIZED_TLS] and [RESTORE_SIMD_FROM_SIZED_TLS]
    also set the meta flag.  They are the only ones that make a vector move to
    or from a TLS slot, so that an emitted instruction shows which it is. *)
Definition simd_tls_move (i : instr_t) : bool :=
  match instr_opcode i, instr_dsts i, instr_srcs i with
  | OP_vmovdqu, [OPND_TLS _ _], [OPND_REG _] | OP_vmovdqu, [OPND_REG _], [OPND_TLS _ _] => true
  | _, _, _ => false
  end.

(** An instruction of emitted code. *)
Definition new_instr (i : instr_t) : bb_instr := mk_bb_instr i false (simd_tls_move i).

Definition instr_get_opcode (i : instr_t) : option Z :=
  match instr_opcode i with OP_avx512 opc => Some opc | _ => None end.

Definition instr_set_meta (h : heap) (x : loc) : option heap :=
  update h x (λ nd, mk_node (mk_bb_instr (bi_instr (n_data nd)) (is_avx512_instr (n_data nd)) true)
                            (n_prev nd) (n_next nd) (n_translation nd) (n_our_mangling nd)).

Definition instrlist_meta_preinsert (il : instrlist_t) (h : heap) (where_ : option loc) (x : loc) : option (instrlist_t * heap) :=
  h ← instr_set_meta h x; instrlist_preinsert il h where_ (Some x).

(** ** Rewrite functions on the heap *)

Fixpoint create_all (h : heap) (l : list bb_instr) : heap * list loc :=
  match l with
  | [] => (h, [])
  | i :: l' => let '(h, x) := instr_create h i in let '(h, xs) := create_all h l' in (h, x :: xs)
  end.

(** [new1->next = new2] alone, without the link back. *)
Fixpoint link_next_only (h : heap) (xs : list loc) : option heap :=
  match xs with
  | x :: (y :: _) as xs' => h ← instr_set_next h x (Some y); link_next_only h xs'
  | _ => Some h
  end.

(** Allocate and link the emitted instructions, return the first. *)
Definition emit (back : bool) (h : heap) (l : list instr_t) : option (heap * option loc) :=
  let '(h, xs) := create_all h (new_instr <$> l) in
  h ← (if back then instrlist_concat_next_instr h xs else link_next_only h xs);
  Some (h, head xs).

(** A broadcast of a general-purpose register to an xmm register. *)
Definition gpr_to_xmm (i : instr_t) : bool :=
  match instr_get_src i 1 with OPND_REG r => IS_32GPR_REG r || IS_64GPR_REG r | _ => false end
  && IS_XMM_REG (opnd_get_reg (instr_get_dst i 0)).

(** Every modelled function links its code with [instrlist_concat_next_instr],
    except [rw_func_kmovw] from a mask to a general-purpose register, and the
    broadcasts of a general-purpose register to an xmm register: bytes and
    doublewords always, words and quadwords when there is nothing to spill. *)
Definition links_back (f : rwfunc) (i : instr_t) : bool :=
  match f with
  | Rw_vpbroadcastb | Rw_vpbroadcastd => negb (gpr_to_xmm i)
  | Rw_vpbroadcastw | Rw_vpbroadcastq => negb (gpr_to_xmm i && negb (NEED_SPILL_XMM (opnd_get_reg (instr_get_dst i 0))))
  | Rw_kmovw => negb (IS_MASK_REG (opnd_get_reg (instr_get_src i 0)) && negb (IS_MASK_REG (opnd_get_reg (instr_get_dst i 0))))
  | _ => true
  end.

(** The action of a rewrite function with generator [g].  Where the code
    unlinks the original does not matter: before the code is created, as here
    and in most functions, or after it. *)
Definition rw_heap (g : instr_t → rw_result) (back : instr_t → bool) (il : instrlist_t) (h : heap) (x : loc)
  : option (instrlist_t * heap * option loc) :=
  nd ← h !! x;
  let r := g (bi_instr (n_data nd)) in
  '(il, h) ←
    (if rw_removed r then '(il, h) ← instrlist_remove il h x; h ← instr_destroy h x; Some (il, h)
     else Some (il, h));
  '(h, code) ← match rw_code r with Some l => emit (back (bi_instr (n_data nd))) h l | None => Some (h, None) end;
  Some (il, h, code).

(** The placeholder of the table: it frees the [nop] it returns. *)
Definition rw_func_empty (il : instrlist_t) (h : heap) (x : loc) : option (instrlist_t * heap * option loc) :=
  let '(h, y) := instr_create h (new_instr (instr_create_0dst_0src OP_nop)) in
  h ← instr_destroy h y;
  Some (il, h, Some y).

Section Driver.
Context (other : rwfunc → instr_t → rw_result).

Definition rw_call (f : rwfunc) (il : instrlist_t) (h : heap) (x : loc) : option (instrlist_t * heap * option loc) :=
  match f with
  | Rw_empty => rw_func_empty il h x
  | f => rw_heap (rw_gen other f) (links_back f) il h x
  end.

(** ** The driver *)

Definition exec_rewrite_avx512_instr (il : instrlist_t) (h : heap) (x : loc) : option (instrlist_t * heap * option loc) :=
  nd ← h !! x;
  opc ← instr_get_opcode (bi_instr (n_data nd));
  f ← rewrite_func_of opc;
  rw_call f il h x.

(** The [for] loop, with the two pointers it keeps for the coarse spill. *)
Fixpoint rewrite_loop (fuel : nat) (il : instrlist_t) (h : heap) (instr first_prev last_next : option loc)
  : option (instrlist_t * heap * option loc * option loc) :=
  match instr, fuel with
  | None, _ => Some (il, h, first_prev, last_next)
  | Some _, O => None
  | Some x, S k =>
      nd ← h !! x;
      let next_instr := n_next nd in
      if is_avx512_instr (n_data nd) then
        let prev_avx512_instr := n_prev nd in
        let first_prev := match first_prev with None => prev_avx512_instr | _ => first_prev end in
        '(il, h, rewritten) ← exec_rewrite_avx512_instr il h x;
        '(il, h) ← instrlist_postinsert il h prev_avx512_instr rewritten;
        rewrite_loop k il h next_instr first_prev next_instr
      else rewrite_loop k il h next_instr first_prev last_next
  end.

(** Save or restore ymm0-15, one instruction per register, in front of [where_]. *)
Fixpoint preinsert_new (il : instrlist_t) (h : heap) (where_ : option loc) (l : list instr_t) : option (instrlist_t * heap) :=
  match l with
  | [] => Some (il, h)
  | i :: l' =>
      let '(h, x) := instr_create h (new_instr i) in
      '(il, h) ← instrlist_meta_preinsert il h where_ x;
      preinsert_new il h where_ l'
  end.


Definition ymm_slots (f : reg_id_t → Z → opnd_size → instr_t) : list instr_t :=
  (λ i, f (DR_REG_YMM0 + Z.of_nat i)%Z (TLS_ZMM_idx_SLOT (Z.of_nat i)) OPSZ_32) <$> seq 0 (Z.to_nat YMM_REG_NUM).
Definition save_simd_to_tls (il : instrlist_t) (h : heap) (where_ : option loc) : option (instrlist_t * heap) :=
  preinsert_new il h where_ (ymm_slots SAVE_SIMD_TO_SIZED_TLS).
Definition restore_simd_from_tls (il : instrlist_t) (h : heap) (where_ : option loc) : option (instrlist_t * heap) :=
  preinsert_new il h where_ (ymm_slots RESTORE_SIMD_FROM_SIZED_TLS).

Definition exec_rewrite_avx512_bb (il : instrlist_t) (h : heap) : option (instrlist_t * heap) :=
  '(il, h, first_prev, last_next) ← rewrite_loop (size h) il h (il_first il) None None;
  if il_need_spill_simd il then
    p ← first_prev;
    nd ← h !! p;
    '(il, h) ← save_simd_to_tls il h (n_next nd);
    restore_simd_from_tls il h last_next
  else Some (il, h).

(** ** The same on lists *)

Definition rewrite_one (i : instr_t) : option (bool * list instr_t) :=
  opc ← instr_get_opcode i;
  f ← rewrite_func_of opc;
  match f with
  | Rw_empty => None
  | f => match rw_gen other f i with
         | mk_rw_result rm (Some (j :: l)) => Some (rm, j :: l)
         | _ => None
         end
  end.

Definition drive_one (i : bb_instr) : option (list bb_instr) :=
  if is_avx512_instr i then
    '(rm, l) ← rewrite_one (bi_instr i);
    Some ((new_instr <$> l) ++ if rm : bool then [] else [i])
  else Some [i].

(** The code emitted for the instruction is linked in both directions. *)
Definition instr_links (i : bb_instr) : bool :=
  match instr_get_opcode (bi_instr i) ≫= rewrite_func_of with
  | Some f => negb (is_avx512_instr i) || links_back f (bi_instr i)
  | None => true
  end.

Fixpoint drive (l : list bb_instr) : option (list bb_instr) :=
  match l with
  | [] => Some []
  | i :: l' => d ← drive_one i; ds ← drive l'; Some (d ++ ds)
  end.
End Driver.

(** ** Emitting code *)

Lemma create_all_ok l : ∀ h : heap, ∃ h' c, create_all h l = (h', c.*1) ∧ c.*2 = l ∧ NoDup c.*1 ∧
  (∀ y, y ∈ c.*1 → h !! y = None) ∧
  (∀ y b, (y, b) ∈ c → h' !! y = Some (mk_node b None None None false)) ∧
  (∀ y, y ∉ c.*1 → h' !! y = h !! y).
Proof.
  induction l as [|i l IH]; intros h; [exists h, []; split_and!; try done; [constructor|set_solver..]|].
  cbn; destruct (IH (instr_create h i).1) as (h' & c & E & Ed & N & F & L & K); cbn in E, F, K.
  set (x := fresh (dom h)) in *; rewrite E; clear IH.
  assert (Hx : x ∉ c.*1) by (intros Hx; specialize (F x Hx); by rewrite lookup_insert_eq in F).
  exists h', ((x, i) :: c); cbn; split_and!; try done.
  - by rewrite Ed.
  - by constructor.
  - intros y [->|Hy]%elem_of_cons; [apply (instr_create_fresh h i)|].
    rewrite <- (F y Hy), lookup_insert_ne; [done|]; intros <-; done.
  - intros y b [[= -> ->]|Hy]%elem_of_cons; [rewrite K, lookup_insert_eq; done|auto].
  - intros y Hy; rewrite K, lookup_insert_ne by set_solver; done.
Qed.

Lemma emit_ok (h : heap) i l : ∃ h' t c, emit true h (i :: l) = Some (h', Some t) ∧
  dseg h' None ((t, new_instr i) :: c) None ∧ ((t, new_instr i) :: c).*2 = new_instr <$> i :: l ∧
  NoDup ((t, new_instr i) :: c).*1 ∧ (∀ y, y ∈ ((t, new_instr i) :: c).*1 → h !! y = None) ∧
  (∀ y, y ∉ ((t, new_instr i) :: c).*1 → h' !! y = h !! y).
Proof.
  destruct (create_all_ok (new_instr <$> i :: l) h) as (h1 & c & E & Ed & N & F & L & K).
  destruct c as [|[t b] c]; [done|]; pose proof Ed as [= -> Ed'].
  destruct (concat_ok h1 None c t (new_instr i) N) as (h2 & E2 & S2 & K2).
  { intros y d Hy; rewrite (L y d Hy); eexists; split_and!; try done; by case_bool_decide. }
  exists h2, t, c; unfold emit; rewrite E; split_and!; auto; try apply S2.
  - change (instrlist_concat_next_instr h1 ((t, new_instr i) :: c).*1) with (concat_from h1 t c.*1); by rewrite E2.
  - intros y Hy; rewrite K2, K by done; done.
Qed.

(** Linking in one direction. *)
Lemma link_next_ok (c : list (loc * bb_instr)) : ∀ (h : heap) x a,
  NoDup ((x, a) :: c).*1 →
  (∀ y b, (y, b) ∈ (x, a) :: c → ∃ nd, h !! y = Some nd ∧ n_data nd = b ∧ n_next nd = None) →
  ∃ h', link_next_only h ((x, a) :: c).*1 = Some h' ∧ fseg h' ((x, a) :: c) None ∧
    (∀ y, y ∉ ((x, a) :: c).*1 → h' !! y = h !! y).
Proof.
  induction c as [|[y b] c IH]; intros h x a N Hf; destruct (Hf x a ltac:(left)) as (nd & Hx & Hd & Hn).
  { exists h; split_and!; try done; split; [|done]; eauto. }
  cbn in N; apply NoDup_cons in N as [Hxc N]; cbn [fmap list_fmap fst link_next_only].
  unfold instr_set_next, update; rewrite Hx; cbn [mbind option_bind].
  destruct (IH (<[x := with_next (Some y) nd]> h) y b N) as (h' & E & S & F).
  { intros z d Hz; rewrite lookup_insert_ne; [apply Hf; by right|].
    intros <-; apply Hxc; apply (list_elem_of_fmap_2 fst) in Hz; exact Hz. }
  exists h'; split; [exact E|split; [split; [|exact S]|]].
  - exists (with_next (Some y) nd); rewrite F, lookup_insert_eq by done; done.
  - intros z Hz; cbn in Hz; rewrite F, lookup_insert_ne; [done|set_solver..].
Qed.

(** Either way the emitted code is a chain with forward links. *)
Lemma emit_chain back (h : heap) i l : ∃ h' t c, emit back h (i :: l) = Some (h', Some t) ∧
  fseg h' ((t, new_instr i) :: c) None ∧ ((t, new_instr i) :: c).*2 = new_instr <$> i :: l ∧
  NoDup ((t, new_instr i) :: c).*1 ∧ (∀ y, y ∈ ((t, new_instr i) :: c).*1 → h !! y = None) ∧
  (∀ y, y ∉ ((t, new_instr i) :: c).*1 → h' !! y = h !! y).
Proof.
  destruct back.
  { destruct (emit_ok h i l) as (h' & t & c & ? & S & ?); exists h', t, c; eauto using dseg_fseg. }
  destruct (create_all_ok (new_instr <$> i :: l) h) as (h1 & c & E & Ed & N & F & L & K).
  destruct c as [|[t b] c]; [done|]; pose proof Ed as [= -> Ed'].
  destruct (link_next_ok c h1 t (new_instr i) N) as (h2 & E2 & S2 & K2).
  { intros y d Hy; rewrite (L y d Hy); by eexists. }
  exists h2, t, c; unfold emit; rewrite E, E2; cbn [mbind option_bind]; split_and!; auto; try apply S2.
  intros y Hy; rewrite K2, K by done; done.
Qed.

(** ** One instruction *)

Section Refinement.
Context (other : rwfunc → instr_t → rw_result).

(** A chain allocated in a heap that holds a list shares no address with it. *)
Lemma fresh_chain il (h : heap) l c :
  list_ok il h l → NoDup c.*1 → (∀ y, y ∈ c.*1 → h !! y = None) → NoDup (l ++ c).*1.
Proof.
  intros Hl N F; rewrite fmap_app; apply NoDup_app; split_and!; [apply Hl| |done].
  intros y Hy Hc; destruct (list_ok_in _ _ _ _ Hl Hy) as [nd E]; by rewrite F in E.
Qed.

(** Emitting into a heap that holds a list, and inserting into that list. *)
Lemma emit_insert_ok il h l1 l2 j js :
  list_ok il h (l1 ++ l2) →
  ∃ h1 t il' h' m, emit true h (j :: js) = Some (h1, Some t) ∧
    instrlist_postinsert il h1 (last_loc None l1) (Some t) = Some (il', h') ∧
    list_ok il' h' (l1 ++ m ++ l2) ∧ m.*2 = new_instr <$> j :: js ∧ same_header il il'.
Proof.
  intros Hl; destruct (emit_ok h j js) as (h1 & t & c & Ee & Sc & Ed & Nc & Fc & Kc).
  set (ch := (t, new_instr j) :: c) in *.
  assert (N : NoDup ((l1 ++ l2) ++ ch).*1) by eauto using fresh_chain.
  assert (Hl1 : list_ok il h1 (l1 ++ l2)).
  { eapply list_ok_frame, Hl; intros y Hy; apply Kc; intros Hc.
    rewrite fmap_app in N; apply NoDup_app in N as (_ & D & _); exact (D y Hy Hc). }
  destruct (insert_at_ok il h1 l1 l2 t _ c Hl1 Sc N) as (il' & h' & E & Hl' & SH' & _).
  exists h1, t, il', h', ch; exact (conj Ee (conj E (conj Hl' (conj Ed SH')))).
Qed.

(** Unlinking the original if the function says so, emitting and inserting. *)
Lemma rw_heap_insert_ok g back il h l1 x i l2 rm j js :
  list_ok il h (l1 ++ (x, i) :: l2) → back (bi_instr i) = true → g (bi_instr i) = mk_rw_result rm (Some (j :: js)) →
  ∃ il1 h1 t il' h' m, rw_heap g back il h x = Some (il1, h1, Some t) ∧
    instrlist_postinsert il1 h1 (last_loc None l1) (Some t) = Some (il', h') ∧
    list_ok il' h' (l1 ++ m ++ l2) ∧ m.*2 = (new_instr <$> j :: js) ++ (if rm then [] else [i]) ∧ same_header il il'.
Proof.
  intros Hl Hb Eg; destruct (id Hl) as (_ & S & _); apply dseg_app in S as [_ [(nd & Hx & Hi & _) _]].
  unfold rw_heap; rewrite Hx; cbn [mbind option_bind]; rewrite Hi, Hb, Eg; cbn [rw_code rw_removed]; destruct rm.
  - destruct (remove_destroy_ok il h l1 x i l2 Hl) as (il2 & h2 & h3 & E2 & E3 & Hl3 & SH & _).
    rewrite E2; cbn [mbind option_bind]; rewrite E3; cbn [mbind option_bind].
    destruct (emit_insert_ok il2 h3 l1 l2 j js Hl3) as (h4 & t & il' & h' & m & E4 & E & Hl' & Ed & SH').
    rewrite E4; cbn [mbind option_bind]; exists il2, h4, t, il', h', m; rewrite app_nil_r.
    exact (conj eq_refl (conj E (conj Hl' (conj Ed (same_header_trans _ _ _ SH SH'))))).
  - cbn [mbind option_bind].
    destruct (emit_insert_ok il h l1 ((x, i) :: l2) j js Hl) as (h1 & t & il' & h' & m & E4 & E & Hl' & Ed & SH').
    rewrite E4; cbn [mbind option_bind]; exists il, h1, t, il', h', (m ++ [(x, i)]).
    rewrite <- app_assoc, fmap_app, Ed; exact (conj eq_refl (conj E (conj Hl' (conj eq_refl SH')))).
Qed.

(** The rewrite function an instruction with a usable rewrite is handed to. *)
Lemma rewrite_one_call il (h : heap) x nd rm js :
  h !! x = Some nd → rewrite_one other (bi_instr (n_data nd)) = Some (rm, js) →
  ∃ f j js', js = j :: js' ∧ exec_rewrite_avx512_instr other il h x = rw_heap (rw_gen other f) (links_back f) il h x ∧
    rw_gen other f (bi_instr (n_data nd)) = mk_rw_result rm (Some js) ∧
    instr_get_opcode (bi_instr (n_data nd)) ≫= rewrite_func_of = Some f.
Proof.
  intros Hx E; unfold rewrite_one in E; unfold exec_rewrite_avx512_instr; rewrite Hx; cbn [mbind option_bind].
  destruct (instr_get_opcode _) as [opc|]; [|done]; cbn [mbind option_bind] in *.
  destruct (rewrite_func_of opc) as [f|]; [|done]; cbn [mbind option_bind] in *.
  assert (Ef : f ≠ Rw_empty ∧ ∃ j js', js = j :: js' ∧ rw_gen other f (bi_instr (n_data nd)) = mk_rw_result rm (Some js)).
  { destruct f; try discriminate E; (split; [discriminate|]);
      destruct (rw_gen _ _ _) as [rm' [[|j js']|]]; simplify_eq; eauto. }
  destruct Ef as (Hne & j & js' & -> & Eg); exists f, j, js'; split_and!; auto; by destruct f.
Qed.

(** The code of one instruction, as the loop inserts it. *)
Lemma rewrite_step_ok il h l1 x i l2 rm js :
  list_ok il h (l1 ++ (x, i) :: l2) → is_avx512_instr i = true → instr_links i = true →
  rewrite_one other (bi_instr i) = Some (rm, js) →
  ∃ il1 h1 t il' h' m, exec_rewrite_avx512_instr other il h x = Some (il1, h1, t) ∧
    instrlist_postinsert il1 h1 (last_loc None l1) t = Some (il', h') ∧
    list_ok il' h' (l1 ++ m ++ l2) ∧ m.*2 = (new_instr <$> js) ++ (if rm then [] else [i]) ∧ same_header il il'.
Proof.
  intros Hl Ha Hk E; destruct (id Hl) as (_ & S & _); apply dseg_app in S as [_ [(nd & Hx & Hi & _) _]]; subst i.
  destruct (rewrite_one_call il h x nd rm js Hx E) as (f & j & js' & -> & -> & Eg & Ef).
  unfold instr_links in Hk; rewrite Ef, Ha in Hk.
  destruct (rw_heap_insert_ok (rw_gen other f) (links_back f) il h l1 x _ l2 rm j js' Hl Hk Eg)
    as (il1 & h1 & t & il' & h' & m & E1 & E2 & Hl' & Em & SH).
  exists il1, h1, (Some t), il', h', m; exact (conj E1 (conj E2 (conj Hl' (conj Em SH)))).
Qed.

(** Inserting NULL or a freed instruction. *)
Lemma postinsert_null il (h : heap) w : instrlist_postinsert il h w None = None.
Proof. by destruct w. Qed.

Lemma postinsert_dangling il (h : heap) w t : h !! t = None → instrlist_postinsert il h w (Some t) = None.
Proof.
  intros Ht; assert (W : walk il h t = None) by (unfold walk, check_translation; by rewrite Ht).
  destruct w as [w|]; cbn; [destruct (instr_get_next h w); cbn|]; by rewrite ?W.
Qed.

Lemma rewrite_step_fail il (h : heap) x nd i (w : option loc) :
  h !! x = Some nd → n_data nd = i → rewrite_one other (bi_instr i) = None →
  ('(il, h, r) ← exec_rewrite_avx512_instr other il h x; instrlist_postinsert il h w r) = None.
Proof.
  intros Hx Hi E; unfold rewrite_one in E; unfold exec_rewrite_avx512_instr.
  rewrite Hx; cbn [mbind option_bind]; rewrite Hi.
  destruct (instr_get_opcode (bi_instr i)) as [opc|]; [|done]; cbn [mbind option_bind] in *.
  destruct (rewrite_func_of opc) as [f|]; [|done]; cbn [mbind option_bind] in *.
  assert (Ef : rw_call other f il h x = rw_func_empty il h x ∨
     rw_call other f il h x = rw_heap (rw_gen other f) (links_back f) il h x ∧
     (rw_code (rw_gen other f (bi_instr i)) = None ∨ rw_code (rw_gen other f (bi_instr i)) = Some [])).
  { destruct f; [by left|..]; right; split; try reflexivity;
      destruct (rw_gen _ _ _) as [rm' [[|j js']|]]; try discriminate E; auto. }
  destruct Ef as [-> | [-> Ef]].
  - unfold rw_func_empty, instr_destroy; cbn; rewrite lookup_insert_eq; cbn.
    apply postinsert_dangling; by rewrite lookup_delete_eq.
  - unfold rw_heap; rewrite Hx; cbn [mbind option_bind]; rewrite Hi.
    destruct (if rw_removed _ then _ else _) as [[il1 h1]|]; [|done]; cbn [mbind option_bind].
    assert (Ec : match rw_code (rw_gen other f (bi_instr i)) with Some l => emit (links_back f (bi_instr i)) h1 l | None => Some (h1, None) end
                 = Some (h1, None)) by (by destruct Ef as [-> | ->]; [|destruct (links_back _ _)]).
    rewrite Ec; apply postinsert_null.
Qed.

(** ** The loop *)

Lemma rewrite_loop_ok l2 : ∀ l1 il h fp ln fuel,
  list_ok il h (l1 ++ l2) → forallb instr_links l2.*2 = true → (length l2 ≤ fuel)%nat →
  match drive other l2.*2 with
  | Some d => ∃ il' h' fp' ln' m, rewrite_loop other fuel il h (hd_loc l2 None) fp ln = Some (il', h', fp', ln') ∧
      list_ok il' h' (l1 ++ m) ∧ m.*2 = d ∧ same_header il il'
  | None => rewrite_loop other fuel il h (hd_loc l2 None) fp ln = None
  end.
Proof.
  induction l2 as [|[x i] l2 IH]; intros l1 il h fp ln fuel Hl Hk Hf.
  { exists il, h, fp, ln, []; destruct fuel; repeat (split; [done|]); done. }
  destruct fuel as [|k]; cbn in Hf; [lia|]; cbn in Hk; apply andb_true_iff in Hk as [Hk Hks].
  cbn [drive fmap list_fmap snd]; unfold drive_one.
  destruct (id Hl) as (_ & S & _); apply dseg_app in S as [_ [(nd & Hx & Hi & Hp & Hn) _]].
  cbn [rewrite_loop hd_loc]; rewrite Hx; cbn [mbind option_bind]; rewrite Hi, Hp, Hn.
  destruct (is_avx512_instr i) eqn:Hav.
  - destruct (rewrite_one other (bi_instr i)) as [[rm js]|] eqn:E; cbn [mbind option_bind].
    + destruct (rewrite_step_ok il h l1 x i l2 rm js Hl Hav Hk E) as (il1 & h1 & t & il2 & h2 & m & E1 & E2 & Hl2 & Em & SH).
      rewrite E1; cbn [mbind option_bind]; rewrite E2; cbn [mbind option_bind].
      rewrite app_assoc in Hl2.
      specialize (IH (l1 ++ m) il2 h2 (match fp with None => last_loc None l1 | _ => fp end) (hd_loc l2 None) k Hl2
                     Hks ltac:(lia)).
      destruct (drive other l2.*2) as [d|]; cbn [mbind option_bind]; [|exact IH].
      destruct IH as (il' & h' & fp' & ln' & m' & E' & Hl' & Em' & SH').
      exists il', h', fp', ln', (m ++ m'); rewrite app_assoc, fmap_app, Em, Em'.
      exact (conj E' (conj Hl' (conj eq_refl (same_header_trans _ _ _ SH SH')))).
    + pose proof (rewrite_step_fail il h x nd i (last_loc None l1) Hx Hi E) as F.
      destruct (exec_rewrite_avx512_instr other il h x) as [[[il1 h1] r]|]; [|done].
      cbn [mbind option_bind] in F |- *; by rewrite F.
  - cbn [mbind option_bind].
    specialize (IH (l1 ++ [(x, i)]) il h fp ln k); rewrite <- app_assoc in IH; specialize (IH Hl Hks ltac:(lia)).
    destruct (drive other l2.*2) as [d|]; cbn [mbind option_bind]; [|exact IH].
    destruct IH as (il' & h' & fp' & ln' & m & E' & Hl' & Em & SH).
    exists il', h', fp', ln', ((x, i) :: m); rewrite <- app_assoc in Hl'; cbn; rewrite Em.
    exact (conj E' (conj Hl' (conj eq_refl SH))).
Qed.

Lemma exec_rewrite_ok il h l :
  list_ok il h l → forallb instr_links l.*2 = true → il_need_spill_simd il = false →
  match drive other l.*2 with
  | Some d => ∃ il' h' l', exec_rewrite_avx512_bb other il h = Some (il', h') ∧
      list_ok il' h' l' ∧ l'.*2 = d ∧ same_header il il'
  | None => exec_rewrite_avx512_bb other il h = None
  end.
Proof.
  intros Hl Hk Hs; pose proof (rewrite_loop_ok l [] il h None None (size h) Hl Hk (list_ok_size _ _ _ Hl)) as H.
  destruct (id Hl) as (_ & _ & F & _); unfold exec_rewrite_avx512_bb; rewrite F.
  destruct (drive other l.*2) as [d|]; [|by rewrite H].
  destruct H as (il' & h' & fp' & ln' & m & -> & Hl' & Em & SH); cbn [mbind option_bind].
  destruct (id SH) as (_ & _ & SH2 & _); rewrite SH2, Hs; exists il', h', m; auto.
Qed.

(** ** Chains without back links *)

(** Emitting into a heap that holds the list in the middle of the loop. *)
Lemma emit_half_ok back il h l1 l2 j js :
  half_ok il h l1 l2 →
  ∃ h1 t il' h' m, emit back h (j :: js) = Some (h1, Some t) ∧
    instrlist_postinsert il h1 (last_loc None l1) (Some t) = Some (il', h') ∧
    half_ok il' h' (l1 ++ m) l2 ∧ m.*2 = new_instr <$> j :: js ∧ same_header il il'.
Proof.
  intros Hl; destruct (emit_chain back h j js) as (h1 & t & c & Ee & Sc & Ed & Nc & Fc & Kc).
  set (ch := (t, new_instr j) :: c) in *.
  assert (D : ∀ y, y ∈ (l1 ++ l2).*1 → y ∉ ch.*1).
  { intros y Hy Hc; destruct (half_in _ _ _ _ _ Hl Hy) as [nd E]; by rewrite Fc in E. }
  destruct (half_insert il h1 l1 l2 t (new_instr j) c) as (il' & h' & E & Hl' & SH).
  - eapply half_frame, Hl; intros y Hy; by apply Kc, D.
  - exact Sc.
  - rewrite fmap_app; apply NoDup_app; split_and!; [apply Hl|exact D|exact Nc].
  - exists h1, t, il', h', ch; exact (conj Ee (conj E (conj Hl' (conj Ed SH)))).
Qed.

Lemma rewrite_step_half il h l1 x i l2 rm js :
  half_ok il h l1 ((x, i) :: l2) → rewrite_one other (bi_instr i) = Some (rm, js) →
  ∃ il1 h1 t il' h' m, exec_rewrite_avx512_instr other il h x = Some (il1, h1, t) ∧
    instrlist_postinsert il1 h1 (last_loc None l1) t = Some (il', h') ∧
    half_ok il' h' (l1 ++ m) l2 ∧ m.*2 = (new_instr <$> js) ++ (if rm then [] else [i]) ∧ same_header il il'.
Proof.
  intros Hl E; destruct (id Hl) as (_ & _ & [(nd & Hx & Hi & _) _] & _); subst i.
  destruct (rewrite_one_call il h x nd rm js Hx E) as (f & j & js' & -> & -> & Eg & _).
  unfold rw_heap; rewrite Hx; cbn [mbind option_bind]; rewrite Eg; cbn [rw_code rw_removed]; destruct rm.
  - destruct (half_remove il h l1 x _ l2 Hl) as (il2 & h2 & h3 & E2 & E3 & Hl3 & SH).
    rewrite E2; cbn [mbind option_bind]; rewrite E3; cbn [mbind option_bind].
    destruct (emit_half_ok (links_back f (bi_instr (n_data nd))) il2 h3 l1 l2 j js' Hl3) as (h4 & t & il' & h' & m & E4 & Ei & Hl' & Ed & SH').
    rewrite E4; cbn [mbind option_bind]; exists il2, h4, (Some t), il', h', m; rewrite app_nil_r.
    exact (conj eq_refl (conj Ei (conj Hl' (conj Ed (same_header_trans _ _ _ SH SH'))))).
  - cbn [mbind option_bind].
    destruct (emit_half_ok (links_back f (bi_instr (n_data nd))) il h l1 _ j js' Hl) as (h1 & t & il' & h' & m & E4 & Ei & Hl' & Ed & SH').
    rewrite E4; cbn [mbind option_bind]; exists il, h1, (Some t), il', h', (m ++ [(x, n_data nd)]).
    apply half_next in Hl'; rewrite <- app_assoc in Hl'; rewrite fmap_app, Ed.
    exact (conj eq_refl (conj Ei (conj Hl' (conj eq_refl SH')))).
Qed.

Lemma rewrite_loop_half l2 : ∀ l1 il h fp ln fuel,
  half_ok il h l1 l2 → (length l2 ≤ fuel)%nat →
  match drive other l2.*2 with
  | Some d => ∃ il' h' fp' ln' m, rewrite_loop other fuel il h (hd_loc l2 None) fp ln = Some (il', h', fp', ln') ∧
      half_ok il' h' (l1 ++ m) [] ∧ m.*2 = d ∧ same_header il il'
  | None => rewrite_loop other fuel il h (hd_loc l2 None) fp ln = None
  end.
Proof.
  induction l2 as [|[x i] l2 IH]; intros l1 il h fp ln fuel Hl Hf.
  { exists il, h, fp, ln, []; rewrite app_nil_r; destruct fuel; repeat (split; [done|]); done. }
  destruct fuel as [|k]; cbn in Hf; [lia|]; cbn [drive fmap list_fmap snd]; unfold drive_one.
  destruct (id Hl) as (_ & _ & [(nd & Hx & Hi & Hp & Hn) _] & _).
  cbn [rewrite_loop hd_loc]; rewrite Hx; cbn [mbind option_bind]; rewrite Hi, Hp, Hn.
  destruct (is_avx512_instr i) eqn:Hav.
  - destruct (rewrite_one other (bi_instr i)) as [[rm js]|] eqn:E; cbn [mbind option_bind].
    + destruct (rewrite_step_half il h l1 x i l2 rm js Hl E) as (il1 & h1 & t & il2 & h2 & m & E1 & E2 & Hl2 & Em & SH).
      rewrite E1; cbn [mbind option_bind]; rewrite E2; cbn [mbind option_bind].
      specialize (IH (l1 ++ m) il2 h2 (match fp with None => last_loc None l1 | _ => fp end) (hd_loc l2 None) k Hl2 ltac:(lia)).
      destruct (drive other l2.*2) as [d|]; cbn [mbind option_bind]; [|exact IH].
      destruct IH as (il' & h' & fp' & ln' & m' & E' & Hl' & Em' & SH').
      exists il', h', fp', ln', (m ++ m'); rewrite app_assoc, fmap_app, Em, Em'.
      exact (conj E' (conj Hl' (conj eq_refl (same_header_trans _ _ _ SH SH')))).
    + pose proof (rewrite_step_fail il h x nd i (last_loc None l1) Hx Hi E) as F.
      destruct (exec_rewrite_avx512_instr other il h x) as [[[il1 h1] r]|]; [|done].
      cbn [mbind option_bind] in F |- *; by rewrite F.
  - cbn [mbind option_bind].
    specialize (IH (l1 ++ [(x, i)]) il h fp ln k (half_next _ _ _ _ _ _ Hl) ltac:(lia)).
    destruct (drive other l2.*2) as [d|]; cbn [mbind option_bind]; [|exact IH].
    destruct IH as (il' & h' & fp' & ln' & m & E' & Hl' & Em & SH).
    exists il', h', fp', ln', ((x, i) :: m); rewrite <- app_assoc in Hl'; cbn; rewrite Em.
    exact (conj E' (conj Hl' (conj eq_refl SH))).
Qed.

(** The pass on every list: what walking the list gives behind it. *)
Lemma exec_rewrite_half il h l :
  list_ok il h l → il_need_spill_simd il = false →
  match drive other l.*2 with
  | Some d => ∃ il' h' l', exec_rewrite_avx512_bb other il h = Some (il', h') ∧
      read_list il' h' = Some l' ∧ l'.*2 = d ∧ same_header il il' ∧ (forallb instr_links l.*2 = true → list_ok il' h' l')
  | None => exec_rewrite_avx512_bb other il h = None
  end.
Proof.
  intros Hl Hs; pose proof (rewrite_loop_half l [] il h None None (size h) (half_start _ _ _ Hl) (list_ok_size _ _ _ Hl)) as H.
  pose proof (exec_rewrite_ok il h l Hl) as K; destruct (id Hl) as (_ & _ & F & _).
  unfold exec_rewrite_avx512_bb in K |- *; rewrite F in K |- *; destruct (drive other l.*2) as [d|]; [|by rewrite H].
  destruct H as (il' & h' & fp' & ln' & m & R & Hl' & Em & SH); rewrite R in K |- *; cbn [mbind option_bind] in K |- *.
  destruct (id SH) as (_ & _ & SH2 & _); rewrite SH2, Hs in K |- *.
  exists il', h', m; split_and!; try done; [by apply half_read|]; intros Hk.
  destruct (K Hk eq_refl) as (il1 & h1 & l1 & [= <- <-] & Hl1 & _ & _).
  pose proof (read_list_ok _ _ _ Hl1) as R1; rewrite (half_read _ _ _ Hl') in R1; by injection R1 as ->.
Qed.
End Refinement.

(** The one function that does not link back, [kmovw] from a mask to a general
    register, returns two instructions of which the second has no predecessor. *)
Theorem kmovw_to_gpr_not_linked_back h i1 i2 :
  ∃ h' x y, emit false h [i1; i2] = Some (h', Some x) ∧
    instr_get_next h' x = Some (Some y) ∧ instr_get_prev h' y = Some None ∧
    ¬ dseg h' None [(x, new_instr i1); (y, new_instr i2)] None.
Proof.
  destruct (create_all_ok (new_instr <$> [i1; i2]) h) as (h1 & c & E & Ed & N & _ & L & _).
  destruct c as [|[x a] [|[y b] [|? ?]]]; try discriminate Ed; injection Ed as -> ->; cbn in N.
  assert (Hxy : x ≠ y) by (intros ->; apply NoDup_cons in N; set_solver).
  assert (Lx := L x (new_instr i1) ltac:(left)); assert (Ly := L y (new_instr i2) ltac:(right; left)).
  eexists _, x, y; unfold emit; rewrite E; cbn.
  unfold instr_set_next, update; rewrite Lx; cbn; split; [done|].
  unfold instr_get_next, instr_get_prev; rewrite lookup_insert_eq, lookup_insert_ne, Ly by done.
  split; [done|split; [done|]]; intros (_ & (nd & Hy & _ & Hp & _) & _); simplify_eq.
Qed.
