(* ===== verification/Block.v ===== *)
(** * Basic blocks: the rewritten block does what the original does

    [Implements] is the interface between the driver and the rewrite functions:
    the code that ends up in the block for one instruction has the effect its
    specification states, up to memory below the stack pointer.  The rewrite
    functions of the other files, and instructions that run natively, are
    instances; the theorem about whole blocks is proved from the interface. *)
From stdpp Require Import base gmap list fin_maps.
From Stdlib Require Import ZArith Lia RelationClasses Morphisms.
From S2P Require Import Prelude Regs Bytes Lanes Machine Arch512 SymExec GenZmm ScalarExec.
From S2P Require Import MaskSpec KLogic KMov Dispatch InstrList InstrEdit Driver.
#[local] Open Scope Z_scope.
#[local] Open Scope rw_scope.

(** ** Guest states up to memory below the stack pointer *)

Definition below_eq (g h : guest) : Prop :=
  (∀ i l, 0 <= i < 32 → 0 <= l < 4 → g_zmm g i l = g_zmm h i l) ∧
  (∀ k, 0 <= k < 8 → g_k g k = g_k h k) ∧
  (∀ i, 0 <= i < 16 → g_gpr g i = g_gpr h i) ∧
  g_rflags g = g_rflags h ∧
  (∀ a, g_rsp h <= a → g_mem g a = g_mem h a).

Lemma below_eq_rsp g h : below_eq g h → g_rsp g = g_rsp h.
Proof. intros (_ & _ & H & _); apply H; unfold rsp_idx; lia. Qed.

#[export] Instance below_eq_equiv : Equivalence below_eq.
Proof.
  split.
  - intros g; repeat split; reflexivity.
  - intros g h H; pose proof (below_eq_rsp _ _ H) as Er; destruct H as (H1 & H2 & H3 & H4 & H5).
    split; [|split; [|split; [|split]]]; intros; symmetry; auto; apply H5; lia.
  - intros g h k H K; pose proof (below_eq_rsp _ _ K) as Er.
    destruct H as (H1 & H2 & H3 & H4 & H5), K as (K1 & K2 & K3 & K4 & K5).
    split; [|split; [|split; [|split]]]; intros;
      [rewrite H1|rewrite H2|rewrite H3|rewrite H4|rewrite H5]; auto; lia.
Qed.

Lemma stack_eq_below n g h : stack_eq n g h → below_eq g h.
Proof. intros (H1 & H2 & H3 & H4 & H5); repeat (split; [assumption|]); intros a Ha; apply H5; lia. Qed.

(** ** Sequences of specifications *)

Definition run_specs (specs : list (guest → guest)) (g : guest) : guest := fold_left (λ g f, f g) specs g.

(** Every instruction finds [n] quadwords below the stack pointer. *)
Fixpoint room (n : Z) (specs : list (guest → guest)) (g : guest) : Prop :=
  match specs with
  | [] => True
  | f :: specs' => 8 * n <= g_rsp g ∧ room n specs' (f g)
  end.

(** ** The interface *)

Class Implements (other : rwfunc → instr_t → rw_result) (n : Z) (i : bb_instr) (spec : guest → guest) : Prop := {
  implements_proper : Proper (below_eq ==> below_eq) spec;
  implements_links : instr_links i = true;
  implements_code :
    if is_avx512_instr i then
      ∃ code, rewrite_one other (bi_instr i) = Some (true, code) ∧ translates_stack n spec code
    else translates_stack n spec [bi_instr i]
}.

Section Blocks.
Context (other : rwfunc → instr_t → rw_result) (n : Z).

Lemma room_proper block specs g h :
  Forall2 (Implements other n) block specs → below_eq g h → room n specs h → room n specs g.
Proof.
  intros Hf; revert g h; induction Hf as [|i f block specs [Hp _ _] _ IH]; intros g h E; cbn; [done|].
  intros [H1 H2]; split; [by rewrite (below_eq_rsp _ _ E)|]; eapply IH, H2; apply Hp, E.
Qed.

Lemma run_specs_proper block specs g h :
  Forall2 (Implements other n) block specs → below_eq g h → below_eq (run_specs specs g) (run_specs specs h).
Proof.
  intros Hf; revert g h; induction Hf as [|i f block specs [Hp _ _] _ IH]; intros g h E; cbn; [done|].
  apply IH, Hp, E.
Qed.

Lemma implements_links_all block specs :
  Forall2 (Implements other n) block specs → forallb instr_links block = true.
Proof. induction 1 as [|i f block specs [_ Hk _] _ IH]; cbn; [done|]; by rewrite Hk. Qed.

(** What the driver leaves for one instruction. *)
Lemma drive_one_ok i spec :
  Implements other n i spec → ∃ d, drive_one other i = Some d ∧ translates_stack n spec (bi_instr <$> d).
Proof.
  intros [_ _ H]; unfold drive_one; destruct (is_avx512_instr i); [|by exists [i]].
  destruct H as (code & -> & H); eexists; split; [done|].
  rewrite app_nil_r, <- list_fmap_compose; by rewrite (list_fmap_ext _ id), list_fmap_id.
Qed.

Lemma drive_ok block specs :
  Forall2 (Implements other n) block specs →
  ∃ d, drive other block = Some d ∧
    ∀ s, wf_mach s → room n specs (view s) →
      ∃ s', run (bi_instr <$> d) s = Some s' ∧ wf_mach s' ∧ below_eq (view s') (run_specs specs (view s)).
Proof.
  induction 1 as [|i f block specs Hi Hf IH].
  - exists []; split; [done|]; intros s Hs _; exists s; split; [done|split; [done|reflexivity]].
  - destruct (drive_one_ok i f Hi) as (d & Ed & Td), IH as (ds & Eds & Tds).
    exists (d ++ ds); cbn; rewrite Ed; cbn; rewrite Eds; split; [done|].
    intros s Hs [Hr1 Hr2]; destruct (Td s Hs Hr1) as (s1 & R1 & W1 & E1); apply stack_eq_below in E1.
    destruct (Tds s1 W1) as (s2 & R2 & W2 & E2); [eapply room_proper; eauto|].
    exists s2; rewrite fmap_app, run_app, R1; split; [exact R2|split; [exact W2|]].
    rewrite E2; by eapply run_specs_proper.
Qed.
End Blocks.

(** ** Instances *)

Ltac respect_below :=
  intros g h (H1 & H2 & H3 & H4 & H5);
  split; [|split; [|split; [|split]]]; cbn; intros;
    repeat match goal with |- context [if ?c then _ else _] => destruct c end; rewrite ?H1, ?H2, ?H3; auto; lia.

#[export] Instance vec_binop_below n f d a b :
  0 <= a < 32 → 0 <= b < 32 → Proper (below_eq ==> below_eq) (vec_binop n f d a b).
Proof. intros Ha Hb; respect_below. Qed.

#[export] Instance vec_binop_keep_below n f d a b :
  0 <= a < 32 → 0 <= b < 32 → 0 <= d < 32 → Proper (below_eq ==> below_eq) (vec_binop_keep n f d a b).
Proof. intros Ha Hb Hd; respect_below. Qed.

#[export] Instance mask_binop_keep_below n f d a b :
  0 <= a < 8 → 0 <= b < 8 → 0 <= d < 8 → Proper (below_eq ==> below_eq) (mask_binop_keep n f d a b).
Proof. intros Ha Hb Hd; respect_below. Qed.

#[export] Instance mask_binop_below n f d a b :
  0 <= a < 8 → 0 <= b < 8 → Proper (below_eq ==> below_eq) (mask_binop n f d a b).
Proof. intros Ha Hb; respect_below. Qed.

#[export] Instance mask_unop_keep_below n f d a :
  0 <= a < 8 → 0 <= d < 8 → Proper (below_eq ==> below_eq) (mask_unop_keep n f d a).
Proof. intros Ha Hd; respect_below. Qed.

Lemma set_gpr_below i v : i ≠ rsp_idx → Proper (below_eq ==> below_eq) (λ g, set_gpr g i v).
Proof.
  intros Hi g h (H1 & H2 & H3 & H4 & H5).
  split; [exact H1|split; [exact H2|split; [|split; [exact H4|]]]].
  - intros j Hj; cbn; destruct (j =? i); auto.
  - intros a Ha; apply H5; revert Ha; unfold g_rsp; cbn [g_gpr set_gpr].
    by rewrite (proj2 (Z.eqb_neq rsp_idx i)) by congruence.
Qed.

Section Instances.
Context (other : rwfunc → instr_t → rw_result).

(** A guest instruction in a block. *)
Definition guest_instr (i : instr_t) : bb_instr := mk_bb_instr i true false.

(** From a rewrite function to the interface. *)
Lemma implements_rewrites n m opc f i spec :
  instr_get_opcode i = Some opc → rewrite_func_of opc = Some f → f ≠ Rw_empty →
  Proper (below_eq ==> below_eq) spec → 0 <= m <= n → links_back f i = true →
  rewrites_stack m spec (rw_gen other f i) → (∃ j l, rw_gen other f i = rw_replace (j :: l)) →
  Implements other n (guest_instr i) spec.
Proof.
  intros Ho Hf Hne Hp Hm Hk (code & Er & Ht) (j & l & Ej); split; [exact Hp| |]; cbn [guest_instr is_avx512_instr bi_instr].
  { unfold instr_links; cbn [bi_instr guest_instr is_avx512_instr]; rewrite Ho; cbn [mbind option_bind]; by rewrite Hf. }
  exists code; split; [|eapply translates_stack_mono; eauto].
  rewrite Er in Ej; unfold rw_replace in Er, Ej; injection Ej as ->.
  unfold rewrite_one; rewrite Ho; cbn [mbind option_bind]; rewrite Hf; cbn [mbind option_bind].
  rewrite Er; by destruct f.
Qed.

Lemma rewrites_as_stack spec r : rewrites spec r → rewrites_stack 0 spec r.
Proof.
  intros (code & -> & H); exists code; split; [done|]; intros s Hs _.
  destruct (H s Hs) as (s' & R & W & E); exists s'; split; [done|split; [done|]]; by apply guest_eq_stack.
Qed.

Lemma zmm_binop_nonempty op a b d mask : 0 <= a < 32 → 0 <= b < 32 → 0 <= d < 32 →
  ∃ j l, zmm_binop_gen op (zmm a) (zmm b) (zmm d) mask = rw_replace (j :: l).
Proof.
  intros Ha Hb Hd; unfold zmm_binop_gen.
  destruct (NEED_SPILL_ZMM (zmm a)), (NEED_SPILL_ZMM (zmm b)), (NEED_SPILL_ZMM (zmm d));
    cbv beta iota delta [Z.lor Pos.lor]; try destruct (zmm a =? zmm d); eexists _, _; reflexivity.
Qed.

#[export] Instance vpaddd_zmm_implements n mask a b d :
  0 <= a < 32 → 0 <= b < 32 → 0 <= d < 32 → 0 <= n →
  Implements other n (guest_instr (vec_instr 789 mask (zmm d) (zmm a) (zmm b))) (vec_binop 4 (padd 32) d a b).
Proof.
  intros Ha Hb Hd Hn; eapply (implements_rewrites n 0 789 Rw_vpaddd); try reflexivity; try done; try lia.
  - by apply vec_binop_below.
  - by apply rewrites_as_stack, vpaddd_zmm_dispatch.
  - destruct (zmm_binop_nonempty OP_vpaddd a b d (kreg mask) Ha Hb Hd) as (j & l & E); exists j, l; rewrite <- E.
    cbn [rw_gen]; unfold rw_func_vpaddd; by by_width zmm_width d Hd.
Qed.

#[export] Instance vpsubq_zmm_implements n mask a b d :
  0 <= a < 32 → 0 <= b < 32 → 0 <= d < 32 → 0 <= n →
  Implements other n (guest_instr (vec_instr 786 mask (zmm d) (zmm a) (zmm b))) (vec_binop 4 (psub 64) d a b).
Proof.
  intros Ha Hb Hd Hn; eapply (implements_rewrites n 0 786 Rw_vpsubq); try reflexivity; try done; try lia.
  - by apply vec_binop_below.
  - by apply rewrites_as_stack, vpsubq_zmm_dispatch.
  - destruct (zmm_binop_nonempty OP_vpsubq a b d (kreg mask) Ha Hb Hd) as (j & l & E); exists j, l; rewrite <- E.
    cbn [rw_gen]; unfold rw_func_vpsubq; by by_width zmm_width d Hd.
Qed.

#[export] Instance korq_implements n a b d :
  0 <= a < 8 → 0 <= b < 8 → 0 <= d < 8 → 3 <= n →
  Implements other n (guest_instr (mask_instr3 1128 d a b)) (mask_binop_keep 8 Z.lor d a b).
Proof.
  intros Ha Hb Hd Hn; eapply (implements_rewrites n 3 1128 Rw_korq); try reflexivity; try done; try lia.
  - by apply mask_binop_keep_below.
  - by apply korq_correct.
  - eexists _, _; reflexivity.
Qed.

#[export] Instance knotq_implements n a d :
  0 <= a < 8 → 0 <= d < 8 → 2 <= n →
  Implements other n (guest_instr (mask_instr2 1124 d a)) (mask_unop_keep 8 Z.lnot d a).
Proof.
  intros Ha Hd Hn; eapply (implements_rewrites n 2 1124 Rw_knotq); try reflexivity; try done; try lia.
  - by apply mask_unop_keep_below.
  - by apply knotq_correct.
  - eexists _, _; reflexivity.
Qed.
End Instances.

(** ** Instructions that run natively *)

Definition native_instr (i : instr_t) : bb_instr := mk_bb_instr i false false.

Lemma translates_as_stack spec code : translates spec code → translates_stack 0 spec code.
Proof.
  intros H s Hs _; destruct (H s Hs) as (s' & R & W & E).
  exists s'; split; [done|split; [done|]]; by apply guest_eq_stack.
Qed.

Lemma implements_native other n spec i :
  0 <= n → Proper (below_eq ==> below_eq) spec → translates spec [i] → Implements other n (native_instr i) spec.
Proof.
  intros Hn Hp Ht; split; [exact Hp| |]; cbn [native_instr is_avx512_instr bi_instr].
  { unfold instr_links; by destruct (_ ≫= _). }
  eapply (translates_stack_mono 0); [lia|by apply translates_as_stack].
Qed.

(** A VEX operation on ymm registers leaves the bits above 256 alone: they are
    in TLS, where the hardware does not reach. *)
Lemma vex_translates op f a b d :
  lane_binop op = Some f → LaneOp f → 0 <= a < 16 → 0 <= b < 16 → 0 <= d < 16 →
  translates (vec_binop_keep 2 f d a b)
    [instr_create_1dst_2src op (opnd_create_reg (ymm d)) (opnd_create_reg (ymm a)) (opnd_create_reg (ymm b))].
Proof.
  intros Hop Hf Ha Hb Hd; apply translates_intro; intros s Hs.
  eexists; split.
  { cbn [run]; unfold exec; cbn [instr_create_1dst_2src instr_opcode instr_dsts instr_srcs]; rewrite Hop.
    unfold exec_vbin, opnd_create_reg; rewrite !avx2_reg_ymm by assumption; reflexivity. }
  split; [|by repeat split]; intros i l Hi Hl; cbn [view g_zmm vec_binop_keep set_zmm]; unfold zmm_view.
  cbn [simd set_simd with_simd tls].
  destruct (Z.ltb_spec i 16), (Z.ltb_spec l 2), (Z.eqb_spec i d); subst; cbn [andb]; try lia; try reflexivity.
  - rewrite !(proj2 (Z.ltb_lt _ 16)) by lia; cbn [andb].
    rewrite (proj2 (Z.ltb_lt l (Z.of_nat 2))) by lia; apply wrap_id, Hf.
  - by rewrite andb_false_r.
Qed.

#[export] Instance vex_implements other n op f a b d :
  lane_binop op = Some f → LaneOp f → 0 <= n → 0 <= a < 16 → 0 <= b < 16 → 0 <= d < 16 →
  Implements other n
    (native_instr (instr_create_1dst_2src op (opnd_create_reg (ymm d)) (opnd_create_reg (ymm a)) (opnd_create_reg (ymm b))))
    (vec_binop_keep 2 f d a b).
Proof.
  intros; apply implements_native; [assumption|apply vec_binop_keep_below; lia|by apply vex_translates].
Qed.

#[export] Instance mov_imm_implements other n r i v sz :
  gpr_reg r = Some (8%nat, i, 0) → 0 <= n → 0 <= i < 16 → i ≠ rsp_idx →
  Implements other n (native_instr (INSTR_CREATE_mov_imm (opnd_create_reg r) (OPND_IMM v sz)))
    (λ g, set_gpr g i (imm_value 8 v sz)).
Proof.
  intros Hr Hn Hi Hne; apply implements_native; [assumption|by apply set_gpr_below|].
  apply translates_intro; intros s Hs; erewrite run_mov_imm by exact Hr; eexists; split; [reflexivity|].
  rewrite view_put by assumption; rewrite merge_full; [reflexivity|lia|].
  unfold imm_value; apply wrap_range; unfold bits_of; lia.
Qed.

(** ** Theorems *)

(** C1: The whole pass on a block whose AVX-512 instructions have correct rewrites
    and whose other instructions run natively: the driver terminates without a
    bad dereference, leaves a well-formed list, and running the instructions of
    that list from any well-formed machine state ends in a state whose guest
    view is what the original instructions specify in sequence, up to memory
    below the stack pointer. *)
Theorem exec_rewrite_avx512_bb_correct other n il h l specs :
  list_ok il h l → il_need_spill_simd il = false → Forall2 (Implements other n) l.*2 specs →
  ∃ il' h' l', exec_rewrite_avx512_bb other il h = Some (il', h') ∧ list_ok il' h' l' ∧
    read_list il' h' = Some l' ∧
    ∀ s, wf_mach s → room n specs (view s) →
      ∃ s', run (bi_instr <$> l'.*2) s = Some s' ∧ wf_mach s' ∧ below_eq (view s') (run_specs specs (view s)).
Proof.
  intros Hl Hs Hf; destruct (drive_ok other n l.*2 specs Hf) as (d & Ed & Hd).
  pose proof (exec_rewrite_ok other il h l Hl (implements_links_all other n _ _ Hf) Hs) as H; rewrite Ed in H.
  destruct H as (il' & h' & l' & E & Hl' & Em & _); exists il', h', l'; rewrite Em.
  auto using read_list_ok.
Qed.

(** C3: The pointer-level pass implements the list-level one on every list whose
    header does not request the coarse spill: walking the list behind the pass,
    each AVX-512 instruction is replaced by the code of its rewrite function (or
    has it put in front), everything else is in place and in order.  When every
    function of the block links its code in both directions the list is well
    formed again.  When an AVX-512 instruction has no usable rewrite (the
    opcode's entry is the placeholder or missing, or the function returns NULL)
    the pass dereferences NULL or freed memory. *)
Theorem exec_rewrite_avx512_bb_refines other il h l :
  list_ok il h l → il_need_spill_simd il = false →
  match drive other l.*2 with
  | Some d => ∃ il' h' l', exec_rewrite_avx512_bb other il h = Some (il', h') ∧
      read_list il' h' = Some l' ∧ l'.*2 = d ∧ same_header il il' ∧
      (forallb instr_links l.*2 = true → list_ok il' h' l')
  | None => exec_rewrite_avx512_bb other il h = None
  end.
Proof. apply exec_rewrite_half. Qed.

Lemma probe_upper d : 0 <= d < 16 → g_zmm (view probe) d 2 ≠ 0.
Proof.
  intros Hd; pose proof (forallb_forall (λ d, negb (zmm_view probe d 2 =? 0)) (seqZ 0 16)) as [F _].
  apply Z.eqb_neq, negb_true_iff, F; [vm_compute; reflexivity|].
  apply list_elem_of_In, elem_of_seqZ; lia.
Qed.

(** VEX instructions run natively and do not zero bits 511:256 of the guest
    register, which the architecture requires. *)
Theorem native_vex_keeps_upper op f a b d :
  lane_binop op = Some f → LaneOp f → 0 <= a < 16 → 0 <= b < 16 → 0 <= d < 16 →
  let i := instr_create_1dst_2src op (opnd_create_reg (ymm d)) (opnd_create_reg (ymm a)) (opnd_create_reg (ymm b)) in
  translates (vec_binop_keep 2 f d a b) [i] ∧ ¬ translates (vec_binop 2 f d a b) [i].
Proof.
  cbv zeta; intros Hop Hf Ha Hb Hd; pose proof (vex_translates op f a b d Hop Hf Ha Hb Hd) as H; split; [exact H|].
  intros H'; destruct (H probe probe_wf) as (s1 & R1 & _ & E1), (H' probe probe_wf) as (s2 & R2 & _ & E2).
  rewrite R1 in R2; injection R2 as ->.
  pose proof (proj1 E1 d 2 ltac:(lia) ltac:(lia)) as V1; rewrite (proj1 E2 d 2 ltac:(lia) ltac:(lia)) in V1.
  cbn [g_zmm vec_binop vec_binop_keep set_zmm] in V1; rewrite Z.eqb_refl in V1; cbn [Z.ltb Z.compare Pos.compare Pos.compare_cont] in V1.
  symmetry in V1; revert V1; by apply probe_upper.
Qed.

(** ** Witnesses *)

(** [vpaddd zmm3, zmm1, zmm20] ; [vpaddd ymm2, ymm1, ymm3] (VEX) ; [korq k3, k1, k2]. *)
Definition sample_1 : bb_instr := guest_instr (vec_instr 789 0 (zmm 3) (zmm 1) (zmm 20)).
Definition sample_2 : bb_instr :=
  native_instr (instr_create_1dst_2src OP_vpaddd (opnd_create_reg (ymm 2)) (opnd_create_reg (ymm 1)) (opnd_create_reg (ymm 3))).
Definition sample_3 : bb_instr := guest_instr (mask_instr3 1128 3 1 2).

Definition sample_specs : list (guest → guest) :=
  [vec_binop 4 (padd 32) 3 1 20; vec_binop_keep 2 (padd 32) 2 1 3; mask_binop_keep 8 Z.lor 3 1 2].

(** The heap of a doubly linked list at addresses 1, 2, 3, .... *)
Definition block_node (i : bb_instr) (p n : option loc) : node bb_instr := mk_node i p n None false.
Definition block_heap (i1 i2 i3 : bb_instr) : heap :=
  <[1%positive := block_node i1 None (Some 2%positive)]>
  (<[2%positive := block_node i2 (Some 1%positive) (Some 3%positive)]>
  (<[3%positive := block_node i3 (Some 2%positive) None]> ∅)).
Definition block_il : instrlist_t := mk_instrlist (Some 1%positive) (Some 3%positive) false true false None None.

Lemma block_heap_ok i1 i2 i3 :
  list_ok block_il (block_heap i1 i2 i3) [(1%positive, i1); (2%positive, i2); (3%positive, i3)].
Proof.
  split; [apply (bool_decide_unpack _); reflexivity|].
  split; [|done]; cbn [dseg hd_loc]; split; [|split; [|split; [|done]]]; eexists; split; done.
Qed.

Lemma exec_rewrite_avx512_bb_correct_witness :
  ∃ il' h' l',
    exec_rewrite_avx512_bb (λ _ _, rw_null) block_il (block_heap sample_1 sample_2 sample_3) = Some (il', h') ∧
    list_ok il' h' l' ∧ read_list il' h' = Some l' ∧
    ∀ s, wf_mach s → room 3 sample_specs (view s) →
      ∃ s', run (bi_instr <$> l'.*2) s = Some s' ∧ wf_mach s' ∧ below_eq (view s') (run_specs sample_specs (view s)).
Proof.
  apply (exec_rewrite_avx512_bb_correct (λ _ _, rw_null) 3 _ _ _ sample_specs (block_heap_ok sample_1 sample_2 sample_3));
    [reflexivity|].
  constructor; [apply vpaddd_zmm_implements; lia|].
  constructor; [apply vex_implements; [reflexivity|typeclasses eauto|lia..]|].
  constructor; [apply korq_implements; lia|constructor].
Defined.

(** [kmovw eax, k1], whose code lacks a link back, and [vrsqrtps], which has no
    rewrite function. *)
Definition sample_4 : bb_instr := guest_instr (kmov_instr 1107 DR_REG_EAX (kreg 1)).
Definition sample_5 : bb_instr := guest_instr (vec_instr 671 0 (zmm 1) (zmm 1) (zmm 1)).

Lemma exec_rewrite_avx512_bb_refines_witness :
  (∃ il' h' l', exec_rewrite_avx512_bb (λ _ _, rw_null) block_il (block_heap sample_1 sample_4 sample_2) = Some (il', h') ∧
     read_list il' h' = Some l' ∧ Some l'.*2 = drive (λ _ _, rw_null) [sample_1; sample_4; sample_2]) ∧
  exec_rewrite_avx512_bb (λ _ _, rw_null) block_il (block_heap sample_2 sample_5 sample_3) = None.
Proof.
  split; [|exact (exec_rewrite_avx512_bb_refines (λ _ _, rw_null) block_il _ _ (block_heap_ok sample_2 sample_5 sample_3) eq_refl)].
  pose proof (exec_rewrite_avx512_bb_refines (λ _ _, rw_null) block_il _ _ (block_heap_ok sample_1 sample_4 sample_2) eq_refl) as H.
  cbn [fmap list_fmap snd] in H; destruct (drive _ [sample_1; sample_4; sample_2]) as [d|] eqn:E; [|discriminate E].
  destruct H as (il' & h' & l' & R & Rd & <- & _); exists il', h', l'; exact (conj R (conj Rd eq_refl)).
Defined.

Lemma native_vex_keeps_upper_witness :
  ¬ translates (vec_binop 2 (padd 32) 3 1 2)
      [instr_create_1dst_2src OP_vpaddd (opnd_create_reg (ymm 3)) (opnd_create_reg (ymm 1)) (opnd_create_reg (ymm 2))].
Proof.
  apply (native_vex_keeps_upper OP_vpaddd (padd 32) 1 2 3); [reflexivity|typeclasses eauto|lia..].
Defined.
