(* ===== verification/Mapping.v ===== *)
(** * Register allocation bitmap and zmm mapping table

    [rewrite_utils.c] and [rewrite_utils.h]: the bitmap of ymm registers in use
    with its macros, the searches for unused registers, and the global table
    that maps a zmm register to a pair of ymm registers.  A shift by more than
    an [int] allows and an access outside the table have no result.  The table
    is shown to implement a finite map, the search to hand out the two lowest
    unused registers. *)
From stdpp Require Import base gmap list fin_maps list_numbers.
From Stdlib Require Import ZArith Lia.
From S2P Require Import Prelude Regs.
#[local] Open Scope Z_scope.

(** ** The bitmap *)

Definition SUCCESS : Z := 0.
Definition NOT_FIND : Z := -1.
Definition NOT_GET : Z := -1.
Definition EMPTY : Z := uint (-1).

(** [0x1 << n] on [int]: defined when the result fits. *)
Definition shl_1 (n : Z) : option Z := if (0 <=? n) && (n <? 31) then Some (Z.shiftl 1 n) else None.

Definition SET_YMM_USED (bm ymm_idx : Z) : option Z := m ← shl_1 ymm_idx; Some (ushort (Z.lor bm m)).
Definition SET_YMM_UNUSED (bm ymm_idx : Z) : option Z := m ← shl_1 ymm_idx; Some (ushort (Z.land bm (Z.lnot m))).
Definition IS_YMM_USED (bm index : Z) : option bool := m ← shl_1 index; Some (negb (Z.land bm m =? 0)).

(** The loop of the two macros, from index [i] on; [set] as in the second. *)
Fixpoint first_unused (set : bool) (n : nat) (i bm : Z) : option (Z * Z) :=
  match n with
  | O => Some (-1, bm)
  | S k =>
      used ← IS_YMM_USED bm i;
      if used : bool then first_unused set k (i + 1) bm
      else if set then bm ← SET_YMM_USED bm i; Some (i, bm) else Some (i, bm)
  end.
Definition FIND_FIRST_UNUSED_YMM (bm : Z) : option (Z * Z) := first_unused false 16 0 bm.
Definition FIND_AND_SET_FIRST_UNUSED_YMM (bm : Z) : option (Z * Z) := first_unused true 16 0 bm.

(** ** Searches *)

Record dr_ymm_pair_t := mk_ymm_pair { ymm_upper : Z; ymm_lower : Z }.

Fixpoint unused_pair (n : nat) (ymm_idx found_num bm : Z) (ymm_pair : dr_ymm_pair_t) : option (Z * Z * dr_ymm_pair_t) :=
  match n with
  | O => Some (NOT_FIND, bm, ymm_pair)
  | S k =>
      used ← IS_YMM_USED bm ymm_idx;
      if negb used then
        bm ← SET_YMM_USED bm ymm_idx;
        let ymm_pair := if found_num =? 0 then mk_ymm_pair (ymm_upper ymm_pair) ymm_idx
                        else mk_ymm_pair ymm_idx (ymm_lower ymm_pair) in
        let found_num := found_num + 1 in
        if found_num =? 2 then Some (SUCCESS, bm, ymm_pair)
        else unused_pair k (ymm_idx + 1) found_num bm ymm_pair
      else unused_pair k (ymm_idx + 1) found_num bm ymm_pair
  end.
Definition find_and_set_unused_ymm_pair (bm : Z) (ymm_pair : dr_ymm_pair_t) : option (Z * Z * dr_ymm_pair_t) :=
  unused_pair (Z.to_nat YMM_REG_NUM) 0 0 bm ymm_pair.

(** The descending loop: [idx] is unsigned, so [idx >= 0] never ends it. *)
Fixpoint unused_down (fuel : nat) (idx bm : Z) : option Z :=
  match fuel with
  | O => None
  | S k => used ← IS_YMM_USED bm idx; if negb used then Some idx else unused_down k (uint (idx - 1)) bm
  end.

(** With the table [ymm_to_ymm_mappings], of which only [ymm_mapping_idx] is written. *)
Definition find_and_set_unused_ymm (fuel : nat) (bm : Z) (ymm_to_ymm_mappings : list Z) (ymm_reg : reg_id_t)
  : option (reg_id_t * list Z) :=
  let ymm_idx := TO_YMM_REG_INDEX ymm_reg in
  let mapping_ymm_idx := HIGH_TO_LOW_YMM_REG_ID_NUM ymm_idx in
  used ← IS_YMM_USED bm mapping_ymm_idx;
  if used : bool then
    idx ← unused_down fuel (uint mapping_ymm_idx) bm;
    _ ← ymm_to_ymm_mappings !! Z.to_nat ymm_idx;
    Some (TO_YMM_REG_ID_NUM idx, <[Z.to_nat ymm_idx := idx]> ymm_to_ymm_mappings)
  else Some (TO_YMM_REG_ID_NUM mapping_ymm_idx, ymm_to_ymm_mappings).

Definition find_and_set_unused_xmm (fuel : nat) (bm : Z) (xmm_reg : reg_id_t) : option reg_id_t :=
  let xmm_idx := TO_XMM_REG_INDEX xmm_reg in
  let mapping_xmm_idx := HIGH_TO_LOW_XMM_REG_ID_NUM xmm_idx in
  used ← IS_YMM_USED bm mapping_xmm_idx;
  if used : bool then idx ← unused_down fuel (uint mapping_xmm_idx) bm; Some (TO_XMM_REG_ID_NUM idx)
  else Some (TO_XMM_REG_ID_NUM mapping_xmm_idx).

(** ** The table *)

Record dr_zmm_map_ymm_pair_t := mk_zmm_map { zmm_idx : Z; ymm_pair : dr_ymm_pair_t }.
Abbreviation table := (list dr_zmm_map_ymm_pair_t).

(** A store to entry [i] of the array. *)
Definition set_entry (t : table) (i : Z) (e : dr_zmm_map_ymm_pair_t) : option table :=
  if (0 <=? i) && (i <? Z.of_nat (length t)) then Some (<[Z.to_nat i := e]> t) else None.
Definition get_entry (t : table) (i : Z) : option dr_zmm_map_ymm_pair_t :=
  if 0 <=? i then t !! Z.to_nat i else None.

Fixpoint init_from (n : nat) (i : Z) (t : table) : option table :=
  match n with
  | O => Some t
  | S k => t ← set_entry t i (mk_zmm_map EMPTY (mk_ymm_pair EMPTY EMPTY)); init_from k (i + 1) t
  end.
Definition init_zmm_to_ymm_pair_mapping (t : table) : option table := init_from (Z.to_nat MCXT_NUM_SIMD_SLOTS) 0 t.

(** The range test only reports the error, and the access follows. *)
Definition add_zmm_to_ymm_pair_mapping (t : table) (idx : Z) (p : dr_ymm_pair_t) : option (Z * table) :=
  t ← set_entry t idx (mk_zmm_map (uint idx) (mk_ymm_pair (ymm_upper p) (ymm_lower p)));
  Some (SUCCESS, t).

Definition get_zmm_to_ymm_pair_mapping (t : table) (idx : Z) (p : dr_ymm_pair_t) : option (Z * dr_ymm_pair_t) :=
  e ← get_entry t idx;
  let ymm_lower_idx := ymm_lower (ymm_pair e) in
  let ymm_upper_idx := ymm_upper (ymm_pair e) in
  if (ymm_lower_idx =? EMPTY) || (ymm_upper_idx =? EMPTY) then Some (NOT_GET, p)
  else Some (SUCCESS, mk_ymm_pair ymm_upper_idx ymm_lower_idx).

(** ** Abstract views *)

(** The unused registers among [i .. i + n - 1], in order. *)
Fixpoint unused (n : nat) (i bm : Z) : list Z :=
  match n with O => [] | S k => if Z.testbit bm i then unused k (i + 1) bm else i :: unused k (i + 1) bm end.
Definition unused_ymms (bm : Z) : list Z := unused 16 0 bm.

(** The map a table holds: its entries are those of the map, or EMPTY. *)
Definition entry_of (m : gmap Z (Z * Z)) (i : Z) : Z * Z := default (EMPTY, EMPTY) (m !! i).
Definition table_repr (t : table) (m : gmap Z (Z * Z)) : Prop :=
  Z.of_nat (length t) = MCXT_NUM_SIMD_SLOTS ∧
  (∀ i e, t !! i = Some e → (ymm_lower (ymm_pair e), ymm_upper (ymm_pair e)) = entry_of m (Z.of_nat i)) ∧
  (∀ i lo up, m !! i = Some (lo, up) → 0 <= i < MCXT_NUM_SIMD_SLOTS ∧ lo ≠ EMPTY ∧ up ≠ EMPTY).

(** ** Lemmas on the bitmap *)

Lemma shl_1_ok i : 0 <= i < 16 → shl_1 i = Some (2 ^ i).
Proof.
  intros Hi; unfold shl_1; rewrite (proj2 (Z.leb_le 0 i)), (proj2 (Z.ltb_lt i 31)) by lia; cbn [andb].
  by rewrite Z.shiftl_1_l.
Qed.

Lemma IS_YMM_USED_ok bm i : 0 <= i < 16 → IS_YMM_USED bm i = Some (Z.testbit bm i).
Proof.
  intros Hi; unfold IS_YMM_USED; rewrite shl_1_ok by done; cbn [mbind option_bind]; f_equal.
  destruct (Z.testbit bm i) eqn:E.
  - apply negb_true_iff, Z.eqb_neq; intros H0; apply (f_equal (λ x, Z.testbit x i)) in H0; revert H0.
    rewrite Z.land_spec, E, Z.pow2_bits_true, Z.bits_0 by lia; done.
  - apply negb_false_iff, Z.eqb_eq, Z.bits_inj'; intros n Hn; rewrite Z.land_spec, Z.bits_0.
    destruct (Z.eq_dec n i) as [->|Hne]; [by rewrite E|by rewrite Z.pow2_bits_false, andb_false_r by lia].
Qed.

Lemma setbit_ushort bm i : 0 <= bm < 2 ^ 16 → 0 <= i < 16 → 0 <= Z.setbit bm i < 2 ^ 16.
Proof.
  intros Hb Hi; assert (H0 : 0 <= Z.setbit bm i) by (apply Z.lor_nonneg; split; [lia|apply Z.shiftl_nonneg; lia]).
  split; [done|]; destruct (Z.eq_dec (Z.setbit bm i) 0) as [->|]; [lia|]; apply Z.log2_lt_pow2; [lia|].
  unfold Z.setbit; rewrite Z.log2_lor by (rewrite ?Z.shiftl_1_l; try apply Z.pow_nonneg; lia).
  rewrite Z.shiftl_1_l, Z.log2_pow2 by lia; apply Z.max_lub_lt; [|lia].
  destruct (Z.eq_dec bm 0) as [->|]; [by cbn; lia|apply Z.log2_lt_pow2; lia].
Qed.

Lemma SET_YMM_USED_ok bm i : 0 <= bm < 2 ^ 16 → 0 <= i < 16 → SET_YMM_USED bm i = Some (Z.setbit bm i).
Proof.
  intros Hb Hi; unfold SET_YMM_USED; rewrite shl_1_ok by done; cbn [mbind option_bind]; f_equal.
  rewrite <- (Z.shiftl_1_l i); apply wrap_id; by apply setbit_ushort.
Qed.

(** Setting a bit below does not change what is unused above. *)
Lemma unused_setbit n : ∀ i j bm, 0 <= j < i → unused n i (Z.setbit bm j) = unused n i bm.
Proof. induction n as [|n IH]; intros i j bm Hj; cbn; [done|]; by rewrite Z.setbit_neq, !IH by lia. Qed.

Lemma unused_in n : ∀ i bm j, j ∈ unused n i bm ↔ i <= j < i + Z.of_nat n ∧ Z.testbit bm j = false.
Proof.
  induction n as [|n IH]; intros i bm j; cbn [unused]; [set_solver by lia|].
  destruct (Z.testbit bm i) eqn:E; rewrite ?elem_of_cons, IH; destruct (Z.eq_dec j i) as [->|]; try intuition lia.
  split; [intros [H ?]; lia|intros [_ H]; congruence].
Qed.

Lemma unused_pair_ok n : ∀ i bm p, 0 <= i → i + Z.of_nat n <= 16 → 0 <= bm < 2 ^ 16 →
  unused_pair n i 1 bm p =
    match unused n i bm with
    | b :: _ => Some (SUCCESS, Z.setbit bm b, mk_ymm_pair b (ymm_lower p))
    | [] => Some (NOT_FIND, bm, p)
    end.
Proof.
  induction n as [|n IH]; intros i bm p Hi Hn Hb; cbn [unused_pair unused]; [done|].
  rewrite IS_YMM_USED_ok by lia; cbn [mbind option_bind]; destruct (Z.testbit bm i); cbn [negb].
  - apply IH; lia.
  - by rewrite SET_YMM_USED_ok by lia.
Qed.

Lemma unused_pair_first n : ∀ i bm p, 0 <= i → i + Z.of_nat n <= 16 → 0 <= bm < 2 ^ 16 →
  unused_pair n i 0 bm p =
    match unused n i bm with
    | a :: b :: _ => Some (SUCCESS, Z.setbit (Z.setbit bm a) b, mk_ymm_pair b a)
    | [a] => Some (NOT_FIND, Z.setbit bm a, mk_ymm_pair (ymm_upper p) a)
    | [] => Some (NOT_FIND, bm, p)
    end.
Proof.
  induction n as [|n IH]; intros i bm p Hi Hn Hb; cbn [unused_pair unused]; [done|].
  rewrite IS_YMM_USED_ok by lia; cbn [mbind option_bind]; destruct (Z.testbit bm i); cbn [negb].
  - apply IH; lia.
  - rewrite SET_YMM_USED_ok by lia; cbn [mbind option_bind]; change (0 + 1 =? 2) with false; change (0 =? 0) with true.
    cbn match; rewrite unused_pair_ok by (try apply setbit_ushort; lia); cbn [ymm_lower].
    rewrite unused_setbit by lia; by destruct (unused n (i + 1) bm).
Qed.

Lemma first_unused_ok set n : ∀ i bm, 0 <= i → i + Z.of_nat n <= 16 → 0 <= bm < 2 ^ 16 →
  first_unused set n i bm =
    match unused n i bm with a :: _ => Some (a, if set then Z.setbit bm a else bm) | [] => Some (-1, bm) end.
Proof.
  induction n as [|n IH]; intros i bm Hi Hn Hb; cbn [first_unused unused]; [done|].
  rewrite IS_YMM_USED_ok by lia; cbn [mbind option_bind]; destruct (Z.testbit bm i); [apply IH; lia|].
  destruct set; [by rewrite SET_YMM_USED_ok by lia|done].
Qed.

(** ** Lemmas on the table *)

Lemma set_entry_ok t i e : 0 <= i < Z.of_nat (length t) → set_entry t i e = Some (<[Z.to_nat i := e]> t).
Proof.
  intros Hi; unfold set_entry; by rewrite (proj2 (Z.leb_le 0 i)), (proj2 (Z.ltb_lt i _)) by lia.
Qed.

Lemma set_entry_out t i e : ¬ 0 <= i < Z.of_nat (length t) → set_entry t i e = None.
Proof.
  intros Hi; unfold set_entry; destruct (Z.leb_spec 0 i), (Z.ltb_spec i (Z.of_nat (length t))); cbn [andb]; try done; lia.
Qed.

(** The loop of the initialisation fills the entries it has passed. *)
Lemma init_from_ok n : ∀ i t, 0 <= i → i + Z.of_nat n = Z.of_nat (length t) →
  (∀ k, (k < Z.to_nat i)%nat → t !! k = Some (mk_zmm_map EMPTY (mk_ymm_pair EMPTY EMPTY))) →
  init_from n i t = Some (replicate (length t) (mk_zmm_map EMPTY (mk_ymm_pair EMPTY EMPTY))).
Proof.
  induction n as [|n IH]; intros i t Hi Hn Hk; cbn [init_from].
  - f_equal; apply list_eq; intros k; destruct (decide (k < length t)%nat).
    + rewrite Hk by lia; by rewrite lookup_replicate_2.
    + rewrite !lookup_ge_None_2; [done|rewrite length_replicate; lia|lia].
  - rewrite set_entry_ok by lia; cbn [mbind option_bind].
    rewrite IH; rewrite ?length_insert; try lia; [done|]; intros k Hlt.
    destruct (decide (k = Z.to_nat i)) as [->|Hne]; [apply list_lookup_insert_eq; lia|].
    rewrite list_lookup_insert_ne by lia; apply Hk; lia.
Qed.

Lemma table_repr_empty (t : table) : Z.of_nat (length t) = MCXT_NUM_SIMD_SLOTS →
  table_repr (replicate (length t) (mk_zmm_map EMPTY (mk_ymm_pair EMPTY EMPTY))) ∅.
Proof.
  intros Hl; split; [by rewrite length_replicate|split; [|intros i lo up; by rewrite lookup_empty]].
  intros i e He; apply lookup_replicate_1 in He as [-> _]; done.
Qed.

Lemma table_repr_insert t m i p :
  table_repr t m → 0 <= i < MCXT_NUM_SIMD_SLOTS → ymm_lower p ≠ EMPTY → ymm_upper p ≠ EMPTY →
  table_repr (<[Z.to_nat i := mk_zmm_map (uint i) (mk_ymm_pair (ymm_upper p) (ymm_lower p))]> t)
    (<[i := (ymm_lower p, ymm_upper p)]> m).
Proof.
  intros (Hl & He & Hm) Hi Hlo Hup; split; [by rewrite length_insert|split].
  - intros j e Hj; unfold entry_of; destruct (decide (j = Z.to_nat i)) as [->|Hne].
    + rewrite list_lookup_insert_eq in Hj by lia; injection Hj as <-.
      by rewrite Z2Nat.id, lookup_insert_eq by lia.
    + rewrite list_lookup_insert_ne in Hj by lia; rewrite lookup_insert_ne by lia; by apply He.
  - intros j lo up; destruct (decide (j = i)) as [->|Hne].
    + rewrite lookup_insert_eq; intros [= <- <-]; done.
    + rewrite lookup_insert_ne by done; apply Hm.
Qed.

Lemma get_repr t m i p : table_repr t m → 0 <= i < MCXT_NUM_SIMD_SLOTS →
  get_zmm_to_ymm_pair_mapping t i p =
    match m !! i with Some (lo, up) => Some (SUCCESS, mk_ymm_pair up lo) | None => Some (NOT_GET, p) end.
Proof.
  intros (Hl & He & Hm) Hi; unfold get_zmm_to_ymm_pair_mapping, get_entry; rewrite (proj2 (Z.leb_le 0 i)) by lia.
  destruct (lookup_lt_is_Some_2 t (Z.to_nat i)) as [e E]; [lia|]; rewrite E; cbn [mbind option_bind].
  specialize (He _ _ E); rewrite Z2Nat.id in He by lia; unfold entry_of in He.
  destruct (m !! i) as [[lo up]|] eqn:Em; cbn [default from_option] in He; injection He as -> ->; [|done].
  destruct (Hm i lo up Em) as (_ & H1 & H2).
  by rewrite (proj2 (Z.eqb_neq lo EMPTY)), (proj2 (Z.eqb_neq up EMPTY)) by done.
Qed.

(** ** Theorems *)

(** The search for a pair takes the two lowest unused ymm registers: both were
    unused, they are different, exactly they become used.  It fails when fewer
    than two are unused; the bitmap is then unchanged if none was, but a single
    unused register is marked as used and written to the pair although the
    search fails. *)
Theorem find_unused_pair_spec bm p :
  0 <= bm < 2 ^ 16 →
  find_and_set_unused_ymm_pair bm p =
    match unused_ymms bm with
    | a :: b :: _ => Some (SUCCESS, Z.setbit (Z.setbit bm a) b, mk_ymm_pair b a)
    | [a] => Some (NOT_FIND, Z.setbit bm a, mk_ymm_pair (ymm_upper p) a)
    | [] => Some (NOT_FIND, bm, p)
    end ∧
  FIND_FIRST_UNUSED_YMM bm = Some (hd (-1) (unused_ymms bm), bm) ∧
  FIND_AND_SET_FIRST_UNUSED_YMM bm =
    Some (hd (-1) (unused_ymms bm), match unused_ymms bm with a :: _ => Z.setbit bm a | [] => bm end) ∧
  (∀ j, j ∈ unused_ymms bm ↔ 0 <= j < 16 ∧ Z.testbit bm j = false).
Proof.
  intros Hb; unfold FIND_FIRST_UNUSED_YMM, FIND_AND_SET_FIRST_UNUSED_YMM, unused_ymms.
  rewrite !first_unused_ok by lia; split_and!.
  - apply unused_pair_first; lia.
  - by destruct (unused 16 0 bm).
  - by destruct (unused 16 0 bm).
  - intros j; apply unused_in.
Qed.

Lemma find_unused_pair_spec_witness :
  find_and_set_unused_ymm_pair 11 (mk_ymm_pair 0 0) = Some (SUCCESS, 31, mk_ymm_pair 4 2).
Proof. exact (proj1 (find_unused_pair_spec 11 (mk_ymm_pair 0 0) ltac:(lia))). Defined.

(** The searches for a single register test the bitmap at a register number
    instead of an index.  For every ymm and every xmm register that number is
    past the width of the shifted [int], so that they have no defined result
    whatever the bitmap holds and however long their loop may run. *)
Theorem find_unused_undefined fuel bm maps i :
  0 <= i < 32 →
  find_and_set_unused_ymm fuel bm maps (ymm i) = None ∧ find_and_set_unused_xmm fuel bm (xmm i) = None.
Proof.
  intros Hi; unfold find_and_set_unused_ymm, find_and_set_unused_xmm, IS_YMM_USED, shl_1.
  rewrite TO_YMM_REG_INDEX_ymm, TO_XMM_REG_INDEX_xmm.
  unfold HIGH_TO_LOW_YMM_REG_ID_NUM, HIGH_TO_LOW_XMM_REG_ID_NUM, HIGH_16YMM_TO_LOW_16YMM_MAPPING,
    DR_REG_YMM0, DR_REG_XMM0.
  split; (match goal with |- context [?x <? 31] => destruct (Z.ltb_spec x 31) end; [lia|by rewrite andb_false_r]).
Qed.

Lemma find_unused_undefined_witness :
  find_and_set_unused_ymm 100 0 [] (ymm 20) = None.
Proof. apply (find_unused_undefined 100 0 [] 20); lia. Defined.

(** Initialising the global table, an array of [MCXT_NUM_SIMD_SLOTS] entries. *)
Lemma init_mapping_ok t : Z.of_nat (length t) = MCXT_NUM_SIMD_SLOTS →
  ∃ t0, init_zmm_to_ymm_pair_mapping t = Some t0 ∧ table_repr t0 ∅.
Proof.
  intros Hl; unfold init_zmm_to_ymm_pair_mapping; rewrite init_from_ok; [|lia|rewrite Hl; done|lia].
  eexists; split; [reflexivity|apply table_repr_empty; lia].
Qed.

(** C34: The table implements a finite map from zmm indices to pairs: initialising any
    table of the right size gives the empty map, adding a pair of registers
    inserts it, and a lookup returns the pair the map holds or fails and leaves
    the caller's pair alone.  An index out of range is reported but the access
    is made all the same, outside the array. *)
Theorem zmm_mapping_refines t m i p q :
  table_repr t m →
  (∃ t0, init_zmm_to_ymm_pair_mapping t = Some t0 ∧ table_repr t0 ∅) ∧
  (0 <= i < MCXT_NUM_SIMD_SLOTS →
   (ymm_lower p ≠ EMPTY → ymm_upper p ≠ EMPTY →
    ∃ t1, add_zmm_to_ymm_pair_mapping t i p = Some (SUCCESS, t1) ∧ table_repr t1 (<[i := (ymm_lower p, ymm_upper p)]> m) ∧
      get_zmm_to_ymm_pair_mapping t1 i q = Some (SUCCESS, p)) ∧
   get_zmm_to_ymm_pair_mapping t i q =
     match m !! i with Some (lo, up) => Some (SUCCESS, mk_ymm_pair up lo) | None => Some (NOT_GET, q) end) ∧
  (¬ 0 <= i < MCXT_NUM_SIMD_SLOTS →
   add_zmm_to_ymm_pair_mapping t i p = None ∧ get_zmm_to_ymm_pair_mapping t i q = None).
Proof.
  intros Ht; pose proof Ht as (Hl & _ & _); split; [|split].
  - apply init_mapping_ok; rewrite Hl; done.
  - intros Hi; split; [|by apply get_repr]; intros Hlo Hup.
    pose proof (table_repr_insert t m i p Ht Hi Hlo Hup) as Ht1; unfold add_zmm_to_ymm_pair_mapping.
    rewrite set_entry_ok by lia; eexists; split; [reflexivity|split; [exact Ht1|]].
    rewrite (get_repr _ _ i q Ht1 Hi), lookup_insert_eq; by destruct p.
  - intros Hi; unfold add_zmm_to_ymm_pair_mapping, get_zmm_to_ymm_pair_mapping, get_entry.
    rewrite set_entry_out by (rewrite Hl; done); split; [done|].
    destruct (Z.leb_spec 0 i); [|done]; rewrite lookup_ge_None_2; [done|lia].
Qed.

Lemma zmm_mapping_refines_witness :
  let t := replicate 32 (mk_zmm_map EMPTY (mk_ymm_pair EMPTY EMPTY)) in
  table_repr t ∅ ∧ ∃ t1, add_zmm_to_ymm_pair_mapping t 17 (mk_ymm_pair 5 4) = Some (SUCCESS, t1) ∧
    get_zmm_to_ymm_pair_mapping t1 17 (mk_ymm_pair 0 0) = Some (SUCCESS, mk_ymm_pair 5 4).
Proof.
  set (t := replicate 32 _); assert (Ht : table_repr t ∅) by (apply (table_repr_empty t); reflexivity).
  split; [exact Ht|].
  destruct (zmm_mapping_refines t ∅ 17 (mk_ymm_pair 5 4) (mk_ymm_pair 0 0) Ht) as (_ & H & _).
  destruct (H ltac:(unfold MCXT_NUM_SIMD_SLOTS; lia)) as [H1 _].
  destruct H1 as (t1 & E & _ & G); [done|done|]; exists t1; exact (conj E G).
Defined.
