(* ===== verification/Interp.v ===== *)
(** * The hooks in the basic-block builder

    [build_bb_ilist] decodes the application one instruction at a time; behind
    the decoder a hook marks the AVX-512 instructions and sets a flag in the list
    header.  Mangling then edits the list, and [mangle_bb_ilist] ends by calling
    the rewriting pass when the flag is set.  A block is built by a sequence of
    such steps, each decoded instruction being appended as a list element of its
    own and mangling bringing in only unmarked instructions.  The flag covers
    the marks in every block built that way, so that testing it skips no block
    the pass would change. *)
From stdpp Require Import base gmap list fin_maps relations.
From Stdlib Require Import ZArith Lia.
From S2P Require Import Prelude Regs Machine Arch512 KLogic Dispatch InstrList InstrEdit Driver Block Mapping.

#[local] Open Scope Z_scope.

(** ** The hooks *)

(** What the decoder delivers: an instruction and its [PREFIX_EVEX] flag. *)
Record decoded := mk_decoded { dec_instr : instr_t; dec_evex : bool }.

Definition OP_kmovw : Z := 1107.
Definition OP_ktestd : Z := 1157.

Definition in_mask_opcodes (i : instr_t) : bool :=
  match instr_get_opcode i with Some opc => (OP_kmovw <=? opc) && (opc <=? OP_ktestd) | None => false end.

Definition set_has_avx512 (il : instrlist_t) : instrlist_t :=
  mk_instrlist (il_first il) (il_last il) (il_our_mangling il) true (il_need_spill_simd il)
    (il_translation_target il) (il_fall_through_bb il).
Definition set_avx512_instr (h : heap) (x : loc) : option heap :=
  update h x (λ nd, mk_node (mk_bb_instr (bi_instr (n_data nd)) true (is_meta (n_data nd)))
                            (n_prev nd) (n_next nd) (n_translation nd) (n_our_mangling nd)).

(** The two tests behind the decoder. *)
Definition detect_avx512 (il : instrlist_t) (h : heap) (x : loc) (evex : bool) : option (instrlist_t * heap) :=
  '(il, h) ← (if evex then h ← set_avx512_instr h x; Some (set_has_avx512 il, h) else Some (il, h));
  nd ← h !! x;
  if in_mask_opcodes (bi_instr (n_data nd)) then h ← set_avx512_instr h x; Some (set_has_avx512 il, h)
  else Some (il, h).

(** One round of the loop: a new instruction, the hook, [instrlist_append]. *)
Definition decode_append (il : instrlist_t) (h : heap) (d : decoded) : option (instrlist_t * heap) :=
  let '(h, x) := instr_create h (created_instr (dec_instr d)) in
  '(il, h) ← detect_avx512 il h x (dec_evex d);
  instrlist_append il h (Some x).

(** The end of [mangle_bb_ilist]: the global table of register pairs [t] is reset
    in front of the pass. *)
Definition bb_finish (other : rwfunc → instr_t → rw_result) (t : table) (il : instrlist_t) (h : heap)
  : option (table * instrlist_t * heap) :=
  if il_has_avx512 il then
    t ← init_zmm_to_ymm_pair_mapping t;
    '(il, h) ← exec_rewrite_avx512_bb other il h;
    Some (t, il, h)
  else Some (t, il, h).

(** ** Building a block *)

(** What the hook makes of a decoded instruction. *)
Definition marked (d : decoded) : bool := dec_evex d || in_mask_opcodes (dec_instr d).
Definition mark (d : decoded) : bb_instr := mk_bb_instr (dec_instr d) (marked d) false.

Inductive bb_step : relation (instrlist_t * heap) :=
| Bb_decode il h d il' h' :
    decode_append il h d = Some (il', h') → bb_step (il, h) (il', h')
| Bb_mangle il h l e l' il' h' :
    list_ok il h l → edit_pre e h l → edit_list e l = Some l' → edit_heap e il h = Some (il', h') →
    existsb is_avx512_instr (new_chain e).*2 = false → bb_step (il, h) (il', h').

(** A list header as [instrlist_create] leaves it, in any heap. *)
Definition bb_reachable (il : instrlist_t) (h : heap) : Prop := ∃ h0, rtc bb_step (instrlist_init, h0) (il, h).

Definition avx512_covered (il : instrlist_t) (l : list (loc * bb_instr)) : Prop :=
  existsb is_avx512_instr l.*2 = true → il_has_avx512 il = true.

Definition bb_inv (s : instrlist_t * heap) : Prop :=
  ∃ l, list_ok s.1 s.2 l ∧ avx512_covered s.1 l ∧ il_need_spill_simd s.1 = false.

(** ** Lemmas *)

Lemma detect_ok il (h : heap) x d :
  h !! x = Some (mk_node (created_instr (dec_instr d)) None None None false) →
  detect_avx512 il h x (dec_evex d) =
    Some (if marked d then set_has_avx512 il else il,
          if marked d then <[x := mk_node (mark d) None None None false]> h else h).
Proof.
  intros Hx; unfold detect_avx512, set_avx512_instr, update, mark, marked.
  destruct (dec_evex d); cbn [orb mbind option_bind]; rewrite Hx; cbn [mbind option_bind].
  - rewrite lookup_insert_eq; cbn [mbind option_bind n_data bi_instr created_instr].
    destruct (in_mask_opcodes _); cbn [mbind option_bind]; by rewrite ?insert_insert_eq.
  - cbn [n_data bi_instr created_instr]; by destruct (in_mask_opcodes _).
Qed.

Lemma list_ok_header il il' (h : heap) l :
  il_first il' = il_first il → il_last il' = il_last il → list_ok il h l → list_ok il' h l.
Proof. unfold list_ok; intros -> ->; done. Qed.

(** A round appends the marked instruction and raises the flag with the mark. *)
Lemma decode_append_ok il h l d :
  list_ok il h l → ∃ il' h' x, decode_append il h d = Some (il', h') ∧ list_ok il' h' (l ++ [(x, mark d)]) ∧
    il_has_avx512 il' = il_has_avx512 il || marked d ∧ il_need_spill_simd il' = il_need_spill_simd il.
Proof.
  intros Hl; unfold decode_append; cbn [instr_create].
  set (x := fresh (dom h)); set (h1 := <[x := _]> h).
  assert (Hf : h !! x = None) by apply (instr_create_fresh h (created_instr (dec_instr d))).
  assert (Hx : x ∉ l.*1) by (intros Hx; destruct (list_ok_in _ _ _ _ Hl Hx) as [? E]; congruence).
  change (let '(h, x) := instr_create h (created_instr (dec_instr d)) in
          '(il, h) ← detect_avx512 il h x (dec_evex d); instrlist_append il h (Some x)) with
    ('(il, h) ← detect_avx512 il h1 x (dec_evex d); instrlist_append il h (Some x)).
  rewrite (detect_ok il h1 x d) by apply lookup_insert_eq; cbn [mbind option_bind].
  set (il1 := if marked d then _ else _); set (h2 := if marked d then _ else _).
  assert (H2 : h2 !! x = Some (mk_node (mark d) None None None false)).
  { unfold h2, h1, mark; destruct (marked d) eqn:E; by rewrite lookup_insert_eq. }
  destruct (append_ok il1 h2 l x (mark d) []) as (il' & h' & E & Hl' & (_ & SH1 & SH2 & _) & _).
  - apply (list_ok_header il); [unfold il1; by destruct (marked d)..|].
    apply (list_ok_frame _ h); [|done]; intros y Hy; unfold h2, h1.
    destruct (marked d); rewrite ?lookup_insert_ne; congruence.
  - split; [|done]; eexists; split; [exact H2|done].
  - rewrite fmap_app; apply NoDup_app; split_and!; [apply Hl|set_solver|apply NoDup_singleton].
  - exists il', h', x; rewrite SH1, SH2; split_and!; try done; unfold il1; destruct (marked d); cbn;
      by rewrite ?orb_true_r, ?orb_false_r.
Qed.

Lemma existsb_app_fmap (l1 l2 : list (loc * bb_instr)) :
  existsb is_avx512_instr (l1 ++ l2).*2 = existsb is_avx512_instr l1.*2 || existsb is_avx512_instr l2.*2.
Proof. by rewrite fmap_app, existsb_app. Qed.

(** An edit brings in no mark that is not in its new chain. *)
Lemma edit_list_marks (e : edit bb_instr) l l' :
  edit_list e l = Some l' → existsb is_avx512_instr (new_chain e).*2 = false →
  existsb is_avx512_instr l'.*2 = true → existsb is_avx512_instr l.*2 = true.
Proof.
  destruct e as [c|c|w c|w c|x c|x]; cbn [edit_list new_chain]; intros E Hc.
  1-2: injection E as <-; rewrite existsb_app_fmap, Hc; by destruct (existsb _ l.*2).
  all: destruct (split_at _ l) as [[[p a] s]|] eqn:Es; cbn in E; [|done]; apply split_at_Some in Es as ->;
    injection E as <-; rewrite !existsb_app_fmap; cbn [fmap list_fmap snd existsb];
    rewrite ?existsb_app_fmap, ?Hc; destruct (existsb _ p.*2), (is_avx512_instr a), (existsb _ s.*2).
  all: done.
Qed.

Lemma bb_step_inv s s' : bb_step s s' → bb_inv s → bb_inv s'.
Proof.
  intros H; destruct H as [il h d il' h' E|il h l0 e l' il' h' Hl0 Hp El Eh Hn]; intros (l & Hl & Hc & Hs); cbn [fst snd] in Hl, Hc, Hs.
  - destruct (decode_append_ok il h l d Hl) as (il1 & h1 & x & E1 & Hl1 & Hh & Hs1).
    rewrite E1 in E; injection E as <- <-.
    exists (l ++ [(x, mark d)]); split; [exact Hl1|split; [|cbn; congruence]].
    unfold avx512_covered; cbn [fst]; rewrite existsb_app_fmap, Hh; cbn [fmap list_fmap snd existsb mark is_avx512_instr].
    rewrite orb_false_r; intros [H|H]%orb_true_iff; [by rewrite Hc|by rewrite H, orb_true_r].
  - destruct (edit_refines_aux e il h l0 l' Hl0 Hp El) as (il1 & h1 & E1 & Hl1 & _ & SH1 & SH2 & _).
    rewrite E1 in Eh; injection Eh as <- <-; exists l'; split; [exact Hl1|split; [|cbn; congruence]]; intros H; cbn; rewrite SH1; apply Hc.
    pose proof (read_list_ok _ _ _ Hl) as R1; pose proof (read_list_ok _ _ _ Hl0) as R2; simplify_eq.
    by apply (edit_list_marks e l l').
Qed.

Lemma bb_reachable_inv il h : bb_reachable il h → bb_inv (il, h).
Proof.
  intros [h0 H]; remember (il, h) as s; clear Heqs; revert s H; apply rtc_ind_r.
  - exists []; split; [by repeat split; constructor|by split].
  - intros s s' _ Hstep Hi; by apply (bb_step_inv s).
Qed.

(** Without a marked instruction the list-level pass is the identity. *)
Lemma drive_unmarked other (l : list bb_instr) : existsb is_avx512_instr l = false → drive other l = Some l.
Proof.
  induction l as [|i l IH]; cbn; [done|]; intros [Hi Hl]%orb_false_iff.
  unfold drive_one; rewrite Hi, IH by done; done.
Qed.

(** The table of register pairs is an array of fixed size. *)
Definition table_sized (t : table) : Prop := Z.of_nat (length t) = MCXT_NUM_SIMD_SLOTS.

(** ** Theorems *)

(** C8: In every block that decoding and mangling can build from an empty list, the
    list is well formed, no coarse spill is requested, and a marked instruction
    in the list implies the list's AVX-512 flag; decoding one more instruction
    always succeeds and marks it exactly if it has an EVEX prefix or an opcode
    from [OP_kmovw] to [OP_ktestd]. *)
Theorem bb_flag_invariant il h d :
  bb_reachable il h →
  ∃ l, list_ok il h l ∧ avx512_covered il l ∧ il_need_spill_simd il = false ∧
    ∃ il' h' x, decode_append il h d = Some (il', h') ∧ bb_reachable il' h' ∧
      read_list il' h' = Some (l ++ [(x, mark d)]).
Proof.
  intros Hr; destruct (bb_reachable_inv il h Hr) as (l & Hl & Hc & Hs); cbn in *.
  exists l; split; [done|split; [done|split; [done|]]]; destruct (decode_append_ok il h l d Hl) as (il' & h' & x & E & Hl' & _).
  exists il', h', x; split; [done|split; [|by apply read_list_ok]].
  destruct Hr as [h0 Hr]; exists h0; eapply rtc_r; [exact Hr|by econstructor].
Qed.

(** C9: The test of the flag at the end of block building is only an optimisation:
    on every reachable block, walking the list behind it gives what rewriting
    the whole list gives, whether the pass is called or skipped, and a missing
    rewrite faults either way.  The links back are right too when every emitted
    chain has them.  The global table of register pairs is empty after a call
    and untouched otherwise. *)
Theorem bb_finish_rewrites other t il h :
  bb_reachable il h → table_sized t →
  ∃ l, list_ok il h l ∧
    match drive other l.*2 with
    | Some d => ∃ t' il' h' l', bb_finish other t il h = Some (t', il', h') ∧ read_list il' h' = Some l' ∧ l'.*2 = d ∧
        (forallb instr_links l.*2 = true → list_ok il' h' l') ∧
        (if il_has_avx512 il then table_repr t' ∅ else t' = t)
    | None => bb_finish other t il h = None
    end.
Proof.
  intros Hr Ht; destruct (bb_reachable_inv il h Hr) as (l & Hl & Hc & Hs); cbn [fst snd] in *.
  exists l; split; [done|]; unfold bb_finish; destruct (il_has_avx512 il) eqn:Hh.
  - destruct (init_mapping_ok t Ht) as (t0 & -> & Hr0); cbn [mbind option_bind].
    pose proof (exec_rewrite_half other il h l Hl Hs) as H; destruct (drive other l.*2) as [d|]; [|by rewrite H].
    destruct H as (il' & h' & l' & -> & Hd & Hm & _ & Hk); exists t0, il', h', l'; split_and!; done.
  - rewrite drive_unmarked; [exists t, il, h, l; split_and!; auto using read_list_ok|].
    destruct (existsb _ _) eqn:E; [|done]; specialize (Hc E); congruence.
Qed.

(** ** Witnesses *)

Definition decode_1 : decoded := mk_decoded (vec_instr 789 0 (zmm 3) (zmm 1) (zmm 20)) true.
Definition decode_2 : decoded := mk_decoded (mask_instr3 1128 3 1 2) false.

(** [vpaddd zmm3, zmm1, zmm20] (EVEX) and [korq k3, k1, k2] (VEX) decoded in turn. *)
Lemma sample_block :
  ∃ il h x y, bb_reachable il h ∧ read_list il h = Some [(x, mark decode_1); (y, mark decode_2)].
Proof.
  assert (L0 : list_ok instrlist_init (∅ : heap) []) by (by repeat split; constructor).
  destruct (decode_append_ok _ _ _ decode_1 L0) as (il1 & h1 & x & E1 & L1 & _).
  destruct (decode_append_ok _ _ _ decode_2 L1) as (il2 & h2 & y & E2 & L2 & _).
  exists il2, h2, x, y; split; [|by apply read_list_ok].
  exists ∅; eapply rtc_l; [by eapply Bb_decode|]; eapply rtc_l; [by eapply Bb_decode|done].
Qed.

Definition no_other : rwfunc → instr_t → rw_result := λ _ _, rw_null.

Lemma bb_flag_invariant_witness :
  ∃ il h l, bb_reachable il h ∧ list_ok il h l ∧ avx512_covered il l ∧ existsb is_avx512_instr l.*2 = true.
Proof.
  destruct sample_block as (il & h & x & y & Hr & E).
  destruct (bb_flag_invariant il h decode_1 Hr) as (l & Hl & Hc & _).
  exists il, h, l; split; [exact Hr|split; [exact Hl|split; [exact Hc|]]].
  rewrite (read_list_ok _ _ _ Hl) in E; injection E as ->; reflexivity.
Defined.

Definition empty_table : table := replicate 32 (mk_zmm_map EMPTY (mk_ymm_pair EMPTY EMPTY)).

Lemma bb_finish_rewrites_witness :
  ∃ il h t' il' h' l', bb_reachable il h ∧ bb_finish no_other empty_table il h = Some (t', il', h') ∧
    read_list il' h' = Some l' ∧ Some l'.*2 = drive no_other [mark decode_1; mark decode_2].
Proof.
  destruct sample_block as (il & h & x & y & Hr & E).
  destruct (bb_finish_rewrites no_other empty_table il h Hr eq_refl) as (l & Hl & H).
  pose proof (read_list_ok _ _ _ Hl) as El; rewrite E in El; injection El as <-; cbn [fmap list_fmap snd] in H.
  destruct (drive no_other [mark decode_1; mark decode_2]) as [d|] eqn:Ed; [|discriminate Ed].
  destruct H as (t' & il' & h' & l' & Ef & Er & <- & _); exists il, h, t', il', h', l'.
  exact (conj Hr (conj Ef (conj Er eq_refl))).
Defined.
