(* ===== verification/VmArea.v ===== *)
(** * Vectors of memory areas ([src/core/vmareas.c], [vmareas.h])

    DynamoRIO keeps every set of address ranges it cares about (executable
    areas, its own memory, the areas of a thread's fragments, client ranges) in
    a [vm_area_vector_t]: an array of areas sorted by address and without
    overlaps.  Modelled here: [add_vm_area] with its merging, splitting and
    recursion, [remove_vm_area], [binary_search] and the exported [vmvector_]
    operations and iterator.

    The used part of the array is a list; an index is a [Z] and a read outside
    the list has no result.  Addresses are [Z] below [2^64]; the pointer NULL is
    0.  Callbacks are fields of the vector, as in the C structure.  Calls into
    other parts of DynamoRIO (a payload freed, a coarse unit released, fragment
    lists spliced, page protection restored) are recorded in order as events.
    Locks and the fields of DEBUG builds are left out; the assertions on the
    areas that [add_vm_area] may overlap are [add_asserts].  The operations of a
    vector are stated for one thread that holds its lock. *)
From Stdlib Require Import ZArith Lia.
From S2P Require Import Prelude.
From stdpp Require Import base list numbers.
#[local] Open Scope Z_scope.
#[local] Open Scope rw_scope.

(** ** Data *)

Definition VM_WRITABLE : Z := 0x0001.
Definition VM_UNMOD_IMAGE : Z := 0x0002.
Definition VM_WAS_FUTURE : Z := 0x0008.
Definition VM_ONCE_ONLY : Z := 0x0020.
Definition VM_MADE_READONLY : Z := VM_WRITABLE.
Definition VM_PATTERN_REVERIFY : Z := 0x0100.
Definition VM_ADD_TO_SHARED_DATA : Z := 0x1000.
Definition FRAG_SELFMOD_SANDBOXED : Z := 0x008000.
Definition FRAG_DYNGEN : Z := 0x100000.
Definition FRAG_COARSE_GRAIN : Z := 0x10000000.
Definition VECTOR_FRAGMENT_LIST : Z := 0x0002.
Definition VECTOR_NEVER_MERGE_ADJACENT : Z := 0x0004.
Definition VECTOR_NEVER_OVERLAP : Z := 0x0008.
Definition POINTER_MAX : Z := 2 ^ 64 - 1.


Record vm_area_t := mk_area {
  a_start : Z; a_end : Z;                (* open end *)
  a_vm_flags : Z; a_frag_flags : Z;
  a_custom : Z                           (* union of [frags] and [client] *)
}.

Record vm_area_vector_t := mk_vector {
  buf : list vm_area_t;                  (* the [length] areas in use *)
  v_size : Z;                            (* capacity *)
  flags : Z;
  is_executable_areas : bool;            (* whether this is the vector [executable_areas] *)
  free_payload_func : bool;              (* whether the callback is set; its calls are events *)
  split_payload_func : option (Z -> Z);
  should_merge_func : option (bool -> Z -> Z -> bool);
  merge_payload_func : option (Z -> Z -> Z)
}.

Inductive event :=
| Ev_free_payload (data : Z)
| Ev_coarse_unit_free (info : Z)
| Ev_coarse_units_release (info : Z)     (* the loop over primary and secondary unit *)
| Ev_adjust_coarse_unit_bounds (area : vm_area_t)
| Ev_splice_fraglists (dst src : Z)      (* [src] appended to [dst] *)
| Ev_clean_fraglist (area : vm_area_t)
| Ev_make_writable (pc len : Z).

Definition v_length (v : vm_area_vector_t) : Z := Z.of_nat (List.length (buf v)).

(** The vector and the calls made so far. *)
Record vmstate := mk_vmstate { vec : vm_area_vector_t; events : list event }.

Definition with_buf (v : vm_area_vector_t) (l : list vm_area_t) : vm_area_vector_t :=
  mk_vector l (v_size v) (flags v) (is_executable_areas v) (free_payload_func v)
    (split_payload_func v) (should_merge_func v) (merge_payload_func v).
Definition with_size (v : vm_area_vector_t) (n : Z) : vm_area_vector_t :=
  mk_vector (buf v) n (flags v) (is_executable_areas v) (free_payload_func v)
    (split_payload_func v) (should_merge_func v) (merge_payload_func v).
Definition set_buf (s : vmstate) (l : list vm_area_t) : vmstate := mk_vmstate (with_buf (vec s) l) (events s).
Definition log_events (s : vmstate) (l : list event) : vmstate := mk_vmstate (vec s) (events s ++ l).

Definition area_at (s : vmstate) (i : Z) : option vm_area_t :=
  if i <? 0 then None else buf (vec s) !! Z.to_nat i.
Definition set_area (s : vmstate) (i : Z) (a : vm_area_t) : vmstate :=
  set_buf s (<[Z.to_nat i := a]> (buf (vec s))).

Definition with_start (a : vm_area_t) (x : Z) : vm_area_t := mk_area x (a_end a) (a_vm_flags a) (a_frag_flags a) (a_custom a).
Definition with_end (a : vm_area_t) (x : Z) : vm_area_t := mk_area (a_start a) x (a_vm_flags a) (a_frag_flags a) (a_custom a).
Definition with_vm_flags (a : vm_area_t) (x : Z) : vm_area_t := mk_area (a_start a) (a_end a) x (a_frag_flags a) (a_custom a).
Definition with_frag_flags (a : vm_area_t) (x : Z) : vm_area_t := mk_area (a_start a) (a_end a) (a_vm_flags a) x (a_custom a).
Definition with_custom (a : vm_area_t) (x : Z) : vm_area_t := mk_area (a_start a) (a_end a) (a_vm_flags a) (a_frag_flags a) x.

(** ** Options of the program *)

Record vm_options := mk_options {
  vmarea_initial_size : Z; vmarea_increment_size : Z; hw_cache_consistency : bool }.

Definition default_options : vm_options := mk_options 100 100 true.

Definition DR_MADE_READONLY (o : vm_options) (fl : Z) : bool := hw_cache_consistency o && TEST VM_MADE_READONLY fl.

(** ** [add_vm_area] *)

Definition vm_area_vector_check_size (o : vm_options) (v : vm_area_vector_t) : vm_area_vector_t :=
  if v_size v =? v_length v then
    if v_length v =? 0 then with_size v (vmarea_initial_size o)
    else with_size v (vmarea_increment_size o + v_length v)
  else v.

(** The head of [dst]'s list and the splice of the two circular lists. *)
Definition vm_area_merge_fraglists (dst src : vm_area_t) : vm_area_t * list event :=
  if a_custom dst =? 0 then (with_custom dst (a_custom src), [])
  else if a_custom src =? 0 then (dst, [])
  else (dst, [Ev_splice_fraglists (a_custom dst) (a_custom src)]).

Definition overlaps (a : vm_area_t) (start end_ : Z) : bool := (start <? a_end a) && (a_start a <? end_).

(** Overlap, or adjacency of the same type where the vector merges that. *)
Definition should_join (v : vm_area_vector_t) (a : vm_area_t) (start end_ vm_flags frag_flags data : Z) : bool :=
  overlaps a start end_ ||
  ((start <=? a_end a) && (a_start a <=? end_) &&
   (vm_flags =? a_vm_flags a) && (frag_flags =? a_frag_flags a) &&
   negb (TEST FRAG_COARSE_GRAIN (a_frag_flags a)) &&
   negb (TEST VECTOR_NEVER_MERGE_ADJACENT (flags v)) &&
   match should_merge_func v with None => true | Some f => f true data (a_custom a) end).

Definition clear_flag (f vm_flags : Z) (a : vm_area_t) : vm_area_t :=
  if TEST f (a_vm_flags a) && negb (TEST f vm_flags)
  then with_vm_flags a (Z.land (a_vm_flags a) (Z.lnot f)) else a.

(** The flags an overlapped area loses when the new one does not have them. *)
Definition drop_flags (vm_flags : Z) (a : vm_area_t) : vm_area_t :=
  clear_flag VM_ONCE_ONLY vm_flags (clear_flag VM_WAS_FUTURE vm_flags a).

(** An overlapped area of another type is not joined: the new area is split. *)
Definition must_split (v : vm_area_vector_t) (a : vm_area_t) (vm_flags frag_flags data : Z) : bool :=
  (negb (vm_flags =? a_vm_flags a) || negb (frag_flags =? a_frag_flags a)) &&
  match should_merge_func v with None => true | Some f => negb (f false data (a_custom a)) end.

(** The assertions on an overlapped area.  An area joined because it is adjacent
    has the flags of the new one, for which they hold. *)
Definition flagignore : Z :=
  Z.lor (Z.lor (Z.lor (Z.lor VM_UNMOD_IMAGE VM_WAS_FUTURE) VM_ONCE_ONLY) VM_WRITABLE) VM_PATTERN_REVERIFY.

Definition overlap_allowed (o : vm_options) (v : vm_area_vector_t) (a : vm_area_t) (vm_flags frag_flags : Z) : bool :=
  negb (TEST VECTOR_NEVER_OVERLAP (flags v)) &&
  (TEST VM_UNMOD_IMAGE (a_vm_flags a) || negb (TEST VM_UNMOD_IMAGE vm_flags)) &&
  (TEST VM_WRITABLE (a_vm_flags a) || negb (TEST VM_WRITABLE vm_flags) || negb (hw_cache_consistency o)) &&
  (Z.land (a_vm_flags a) (Z.lnot flagignore) =? Z.land vm_flags (Z.lnot flagignore)) &&
  (TEST FRAG_SELFMOD_SANDBOXED (a_frag_flags a) || negb (TEST FRAG_SELFMOD_SANDBOXED frag_flags)) &&
  (Z.land (a_frag_flags a) (Z.lnot (Z.lor FRAG_SELFMOD_SANDBOXED FRAG_DYNGEN))
   =? Z.land frag_flags (Z.lnot (Z.lor FRAG_SELFMOD_SANDBOXED FRAG_DYNGEN))) &&
  (TEST FRAG_DYNGEN frag_flags || negb (TEST FRAG_DYNGEN (a_frag_flags a))) &&
  (TEST FRAG_COARSE_GRAIN frag_flags || negb (TEST FRAG_COARSE_GRAIN (a_frag_flags a))).

(** What [add_vm_area] asserts of its arguments and of the areas the range overlaps. *)
Definition add_asserts (o : vm_options) (v : vm_area_vector_t) (start end_ vm_flags frag_flags : Z) : bool :=
  (start <? end_) &&
  forallb (fun a => negb (overlaps a start end_) || overlap_allowed o v a vm_flags frag_flags) (buf v).

(** What the search loop leaves: the vector, the index it stopped at, the range
    still to be added, and the bounds of the areas to join (-1 for none). *)
Record search := mk_search {
  sr_state : vmstate; sr_i : Z; sr_start : Z; sr_end : Z; sr_overlap_start : Z; sr_overlap_end : Z }.

Section Add.
Context (o : vm_options) (vm_flags frag_flags data : Z).
Context (add_rest : vmstate -> Z -> Z -> Z -> option vmstate).   (* the recursive call *)

(** The loop over the [n] areas from index [i] on. *)
Fixpoint add_loop (n : nat) (i : Z) (s : vmstate) (start end_ overlap_start : Z) : option search :=
  match n with
  | O => Some (mk_search s i start end_ overlap_start (-1))
  | S k =>
      let? a := area_at s i in
      if should_join (vec s) a start end_ vm_flags frag_flags data then
        let overlap_start := if overlap_start =? -1 then i else overlap_start in
        let a := drop_flags vm_flags a in
        let s := set_area s i a in
        if must_split (vec s) a vm_flags frag_flags data then
          if start <? a_start a then
            let? s :=
              if a_end a <? end_ then
                let add_data := match split_payload_func (vec s) with None => data | Some f => f data end in
                add_rest s (a_end a) end_ add_data
              else Some s in
            let? a := area_at s i in
            Some (mk_search s i start (a_start a) (if overlap_start =? i then -1 else overlap_start) i)
          else if a_end a <? end_ then add_loop k (i + 1) s (a_end a) end_ (-1)
          else add_loop k (i + 1) s start end_ overlap_start
        else add_loop k (i + 1) s start end_ overlap_start
      else if -1 <? overlap_start then Some (mk_search s i start end_ overlap_start i)
      else if end_ <=? a_start a then Some (mk_search s i start end_ overlap_start (-1))
      else add_loop k (i + 1) s start end_ overlap_start
  end.

(** A new area before index [i]. *)
Definition add_new (s : vmstate) (i start end_ : Z) : vmstate :=
  let new_area := mk_area start end_ vm_flags frag_flags data in
  let v := vm_area_vector_check_size o (vec s) in
  mk_vmstate (with_buf v (take (Z.to_nat i) (buf v) ++ new_area :: drop (Z.to_nat i) (buf v))) (events s).

(** One of the areas that are joined into the first, [a]. *)
Definition join_one (v : vm_area_vector_t) (a b : vm_area_t) : vm_area_t * list event :=
  let (a, ev1) :=
    match merge_payload_func v with
    | Some f => (with_custom a (f (a_custom a) (a_custom b)), [])
    | None => (a, if free_payload_func v then [Ev_free_payload (a_custom b)] else [])
    end in
  let ev2 := if is_executable_areas v && negb (a_custom b =? 0) then [Ev_coarse_unit_free (a_custom b)] else [] in
  let (a, ev3) :=
    if TEST VECTOR_FRAGMENT_LIST (flags v) && negb (a_custom b =? 0)
    then vm_area_merge_fraglists a b else (a, []) in
  (a, ev1 ++ ev2 ++ ev3).

Fixpoint join_rest (v : vm_area_vector_t) (a : vm_area_t) (l : list vm_area_t) : vm_area_t * list event :=
  match l with
  | [] => (a, [])
  | b :: l =>
      let (a, ev) := join_one v a b in
      let (a, ev') := join_rest v a l in (a, ev ++ ev')
  end.

(** The areas [overlap_start], ..., [overlap_end - 1] become one. *)
Definition add_merge (s : vmstate) (start end_ overlap_start overlap_end : Z) : option vmstate :=
  let v := vec s in
  let overlap_end := if overlap_end =? -1 then v_length v else overlap_end in
  let? a := area_at s overlap_start in
  let? z := area_at s (overlap_end - 1) in
  let a := if start <? a_start a then with_start a start else a in
  let a := if a_end z <? end_ then with_end a end_ else with_end a (a_end z) in
  let (a, ev1) :=
    match merge_payload_func v with
    | Some f => (with_custom a (f data (a_custom a)), [])
    | None => (a, if free_payload_func v then [Ev_free_payload (a_custom a)] else [])
    end in
  let os := Z.to_nat overlap_start in
  let oe := Z.to_nat overlap_end in
  let (a, ev2) := join_rest v a (take (oe - (os + 1)) (drop (os + 1) (buf v))) in
  let s := log_events (set_buf s (take os (buf v) ++ a :: drop oe (buf v))) (ev1 ++ ev2) in
  Some (if TEST VECTOR_FRAGMENT_LIST (flags v) && negb (a_custom a =? 0) then log_events s [Ev_clean_fraglist a] else s).
End Add.

(** [add_vm_area] with a bound on the depth of its recursion. *)
Fixpoint add_vm_area (o : vm_options) (fuel : nat) (s : vmstate) (start end_ vm_flags frag_flags data : Z) : option vmstate :=
  match fuel with
  | O => None
  | S fuel =>
      let add_rest s start end_ data := add_vm_area o fuel s start end_ vm_flags frag_flags data in
      let? r := add_loop vm_flags frag_flags data add_rest (List.length (buf (vec s))) 0 s start end_ (-1) in
      if sr_overlap_start r =? -1
      then Some (add_new o vm_flags frag_flags data (sr_state r) (sr_i r) (sr_start r) (sr_end r))
      else add_merge data (sr_state r) (sr_start r) (sr_end r) (sr_overlap_start r) (sr_overlap_end r)
  end.

(** A depth that is always enough: one call for each area and one more. *)
Definition enough (s : vmstate) : nat := S (List.length (buf (vec s))).

(** ** [remove_vm_area] *)

(** The loop that finds the overlapping areas: [(overlap_start, overlap_end)]. *)
Fixpoint remove_loop (n : nat) (i : Z) (s : vmstate) (start end_ overlap_start : Z) : option (Z * Z) :=
  match n with
  | O => Some (overlap_start, -1)
  | S k =>
      let? a := area_at s i in
      if overlaps a start end_
      then remove_loop k (i + 1) s start end_ (if overlap_start =? -1 then i else overlap_start)
      else if -1 <? overlap_start then Some (overlap_start, i)
      else if end_ <=? a_start a then Some (overlap_start, -1)
      else remove_loop k (i + 1) s start end_ overlap_start
  end.

(** The calls made for an area whose bounds change. *)
Definition bounds_events (v : vm_area_vector_t) (a : vm_area_t) : list event :=
  if TEST FRAG_COARSE_GRAIN (a_frag_flags a) && is_executable_areas v then [Ev_adjust_coarse_unit_bounds a] else [].

(** The calls made for an area that is removed entirely. *)
Definition delete_events (o : vm_options) (v : vm_area_vector_t) (restore_prot : bool) (a : vm_area_t) : list event :=
  (if restore_prot && DR_MADE_READONLY o (a_vm_flags a) then [Ev_make_writable (a_start a) (a_end a - a_start a)] else []) ++
  (let coarse := TEST FRAG_COARSE_GRAIN (a_frag_flags a) && is_executable_areas v in
   (if coarse then [Ev_coarse_units_release (a_custom a)] else []) ++
   (if free_payload_func v then [Ev_free_payload (if coarse then 0 else a_custom a)] else [])).

(** The first overlapping area is cut at [start] if it begins before; the part
    behind [end_] of an area cut in two is kept for later. *)
Definition cut_first (o : vm_options) (s : vmstate) (start end_ overlap_start overlap_end : Z) (restore_prot : bool) :
  option (vmstate * Z * option vm_area_t) :=
  let? a := area_at s overlap_start in
  if a_start a <? start then
    let new_area :=
      if (overlap_start =? overlap_end - 1) && (end_ <? a_end a) then Some (with_start a end_) else None in
    let s := log_events s (if restore_prot && DR_MADE_READONLY o (a_vm_flags a) then [Ev_make_writable start (end_ - start)] else []) in
    let a := with_end a start in
    Some (log_events (set_area s overlap_start a) (bounds_events (vec s) a), overlap_start + 1, new_area)
  else Some (s, overlap_start, None).

(** The last one is cut at [end_] if it ends behind. *)
Definition cut_last (o : vm_options) (s : vmstate) (end_ overlap_end : Z) (restore_prot : bool) : option (vmstate * Z) :=
  let? a := area_at s (overlap_end - 1) in
  if end_ <? a_end a then
    let s := log_events s (if restore_prot && DR_MADE_READONLY o (a_vm_flags a)
                     then [Ev_make_writable (a_start a) (end_ - a_start a)] else []) in
    let a := with_start a end_ in
    Some (log_events (set_area s (overlap_end - 1) a) (bounds_events (vec s) a), overlap_end - 1)
  else Some (s, overlap_end).

(** The areas in between are deleted. *)
Definition delete_between (o : vm_options) (s : vmstate) (overlap_start overlap_end : Z) (restore_prot : bool) : vmstate :=
  if overlap_start <? overlap_end then
    let v := vec s in
    let os := Z.to_nat overlap_start in
    let oe := Z.to_nat overlap_end in
    log_events (set_buf s (take os (buf v) ++ drop oe (buf v)))
         (concat (map (delete_events o v restore_prot) (take (oe - os) (drop os (buf v)))))
  else s.

Definition remove_vm_area (o : vm_options) (s : vmstate) (start end_ : Z) (restore_prot : bool) : option (vmstate * bool) :=
  let? (overlap_start, overlap_end) := remove_loop (List.length (buf (vec s))) 0 s start end_ (-1) in
  if overlap_start =? -1 then Some (s, false)
  else
    let overlap_end := if overlap_end =? -1 then v_length (vec s) else overlap_end in
    let? (s, overlap_start, new_area) := cut_first o s start end_ overlap_start overlap_end restore_prot in
    let? (s, overlap_end) := cut_last o s end_ overlap_end restore_prot in
    let s := delete_between o s overlap_start overlap_end restore_prot in
    match new_area with
    | None => Some (s, true)
    | Some a =>
        let a := with_frag_flags a (Z.land (a_frag_flags a) (Z.lnot FRAG_COARSE_GRAIN)) in
        let a := with_vm_flags a (Z.land (a_vm_flags a) (Z.lnot VM_ADD_TO_SHARED_DATA)) in
        let a := match split_payload_func (vec s) with Some f => with_custom a (f (a_custom a)) | None => a end in
        let? s := add_vm_area o (enough s) s (a_start a) (a_end a) (a_vm_flags a) (a_frag_flags a) (a_custom a) in
        Some (s, true)
    end.

(** ** [binary_search] and the lookups *)

(** Back to the first area that matches. *)
Fixpoint first_match (fuel : nat) (s : vmstate) (start i : Z) : option Z :=
  match fuel with
  | O => None
  | S fuel =>
      if 1 <=? i then
        let? a := area_at s (i - 1) in
        if start <? a_end a then first_match fuel s start (i - 1) else Some i
      else Some i
  end.

(** Whether an area was found, and [*index].  A caller that passes neither
    [area] nor [index] ignores the second component. *)
Fixpoint search_loop (fuel : nat) (s : vmstate) (start end_ : Z) (first : bool) (min max : Z) : option (bool * Z) :=
  match fuel with
  | O => None
  | S fuel =>
      if min <=? max then
        let i := (min + max) ÷ 2 in
        let? a := area_at s i in
        if negb (end_ =? 0) && (end_ <=? a_start a) then search_loop fuel s start end_ first min (i - 1)
        else if (a_end a <=? start) || (start =? end_) then search_loop fuel s start end_ first (i + 1) max
        else
          let? i := if first then first_match (S (Z.to_nat i)) s start i else Some i in
          Some (true, i)
      else Some (false, max)
  end.

Definition binary_search (s : vmstate) (start end_ : Z) (first : bool) : option (bool * Z) :=
  search_loop (S (List.length (buf (vec s)))) s start end_ first 0 (v_length (vec s) - 1).

(** The open end of one address wraps around to NULL at the top. *)
Definition lookup_addr (s : vmstate) (addr : Z) : option (bool * Z) := binary_search s addr (wrap 64 (addr + 1)) false.
Definition vm_area_overlap (s : vmstate) (start end_ : Z) : option bool := option_map fst (binary_search s start end_ false).

(** ** The exported operations *)

Definition vmvector_init_vector (v : vm_area_vector_t) (fl : Z) : vm_area_vector_t :=
  mk_vector [] 0 fl (is_executable_areas v) false None None None.

Definition vmvector_set_callbacks (v : vm_area_vector_t) (free_func : bool) (split_func : option (Z -> Z))
  (merge_p : option (bool -> Z -> Z -> bool)) (merge_func : option (Z -> Z -> Z)) : vm_area_vector_t :=
  mk_vector (buf v) (v_size v) (flags v) (is_executable_areas v) free_func split_func merge_p merge_func.

Definition vmvector_add (o : vm_options) (s : vmstate) (start end_ data : Z) : option vmstate :=
  add_vm_area o (enough s) s start end_ 0 0 data.

(** The new vector and the payload that was replaced, or NULL. *)
Definition vmvector_add_replace (o : vm_options) (s : vmstate) (start end_ data : Z) : option (vmstate * Z) :=
  let? (overlap, i) := lookup_addr s start in
  let? replaced :=
    if overlap then
      let? a := area_at s i in
      Some (if (start =? a_start a) && (end_ =? a_end a) then Some a else None)
    else Some None in
  match replaced with
  | Some a => Some (set_area s i (with_custom a data), a_custom a)
  | None => let? s := add_vm_area o (enough s) s start end_ 0 0 data in Some (s, 0)
  end.

Definition vmvector_remove (o : vm_options) (s : vmstate) (start end_ : Z) : option (vmstate * bool) :=
  remove_vm_area o s start end_ false.

(** The bounds of the area removed, if there was one. *)
Definition vmvector_remove_containing_area (o : vm_options) (s : vmstate) (pc : Z) : option (vmstate * option (Z * Z)) :=
  let? (ok, i) := lookup_addr s pc in
  if ok then
    let? a := area_at s i in
    let? (s, _) := remove_vm_area o s (a_start a) (a_end a) false in
    Some (s, Some (a_start a, a_end a))
  else Some (s, None).

Definition vmvector_empty (v : vm_area_vector_t) : bool := v_length v =? 0.

Definition vmvector_overlap (s : vmstate) (start end_ : Z) : option bool :=
  if vmvector_empty (vec s) then Some false else vm_area_overlap s start end_.

(** Start, end and payload of the area that contains [pc]. *)
Definition vmvector_lookup_data (s : vmstate) (pc : Z) : option (option (Z * Z * Z)) :=
  let? (overlap, i) := lookup_addr s pc in
  if overlap then let? a := area_at s i in Some (Some (a_start a, a_end a, a_custom a)) else Some None.

Definition vmvector_lookup (s : vmstate) (pc : Z) : option Z :=
  let? r := vmvector_lookup_data s pc in
  Some (match r with Some (_, _, data) => data | None => 0 end).

(** The bounds of the areas before and behind an address that is in none. *)
Definition vmvector_lookup_prev_next (s : vmstate) (pc : Z) : option (option (Z * Z * (Z * Z))) :=
  let? (found, index) := binary_search s pc (wrap 64 (pc + 1)) false in
  if found then Some None
  else
    let? prev := if index =? -1 then Some (0, 0)
                 else let? a := area_at s index in Some (a_start a, a_end a) in
    let? next := if v_length (vec s) - 1 <=? index then Some (POINTER_MAX, POINTER_MAX)
                 else let? a := area_at s (index + 1) in Some (a_start a, a_end a) in
    Some (Some (prev, next)).

Definition vmvector_modify_data (s : vmstate) (start end_ data : Z) : option (vmstate * bool) :=
  let? (overlap, i) := lookup_addr s start in
  if overlap then
    let? a := area_at s i in
    if (start =? a_start a) && (end_ =? a_end a) then Some (set_area s i (with_custom a data), true)
    else Some (s, true)
  else Some (s, false).

(** [buf] is NULL exactly when the capacity is 0. *)
Definition vmvector_reset_vector (s : vmstate) : vmstate :=
  let v := vec s in
  if v_size v =? 0 then s
  else mk_vmstate (with_size (with_buf v []) 0)
         (events s ++ if free_payload_func v then map (fun a => Ev_free_payload (a_custom a)) (buf v) else []).

(** The iterator: an index into a vector that does not change meanwhile. *)
Definition vmvector_iterator_start : Z := -1.
Definition vmvector_iterator_hasnext (s : vmstate) (index : Z) : bool := index + 1 <? v_length (vec s).
Definition vmvector_iterator_peek (s : vmstate) (index : Z) : option (Z * Z * Z) :=
  let? a := area_at s (index + 1) in Some (a_start a, a_end a, a_custom a).
Definition vmvector_iterator_next (s : vmstate) (index : Z) : option (Z * Z * Z * Z) :=
  let? r := vmvector_iterator_peek s index in Some (r, index + 1).
