(* ===== verification/VmAreaSpec.v ===== *)
(** * Vectors of memory areas: invariant and specification

    A vector stands for the set of addresses its areas cover.  This file proves
    that every operation of [VmArea] keeps the areas sorted, disjoint and not
    empty, and does to that set what its name says; in vectors of one type
    without callbacks the areas are also never adjacent, so that the set
    determines the areas. *)
From Stdlib Require Import ZArith Lia.
From S2P Require Import Prelude.
From S2P Require Import VmArea.
From stdpp Require Import base list numbers.
#[local] Open Scope Z_scope.
#[local] Open Scope rw_scope.

(** ** The invariant and the abstraction *)

(** Areas from [lo] on, each at least [g] behind the one before: [g = 0] for
    disjoint areas, [g = 1] for areas with a gap between them. *)
Fixpoint sorted_from (g lo : Z) (l : list vm_area_t) : Prop :=
  match l with
  | [] => True
  | a :: l => lo + g <= a_start a /\ a_start a < a_end a /\ sorted_from g (a_end a) l
  end.

Definition covered (l : list vm_area_t) (x : Z) : Prop := Exists (fun a => a_start a <= x < a_end a) l.

Fixpoint last_end (lo : Z) (l : list vm_area_t) : Z :=
  match l with [] => lo | a :: l => last_end (a_end a) l end.

(** The invariant of a vector. *)
Definition vector_ok (g : Z) (v : vm_area_vector_t) : Prop :=
  sorted_from g (- g) (buf v) /\ Forall (fun a => a_end a <= POINTER_MAX) (buf v) /\ v_length v <= v_size v.

(** The fields that are set once. *)
Definition same_params (v w : vm_area_vector_t) : Prop :=
  flags w = flags v /\ is_executable_areas w = is_executable_areas v /\ free_payload_func w = free_payload_func v /\
  split_payload_func w = split_payload_func v /\ should_merge_func w = should_merge_func v /\
  merge_payload_func w = merge_payload_func v.

(** ** Lists of areas *)

Lemma covered_nil x : covered [] x <-> False.
Proof. apply Exists_nil. Qed.

Lemma covered_cons a l x : covered (a :: l) x <-> (a_start a <= x < a_end a) \/ covered l x.
Proof. apply Exists_cons. Qed.

Lemma covered_app l k x : covered (l ++ k) x <-> covered l x \/ covered k x.
Proof. apply Exists_app. Qed.

Lemma last_end_app lo l k : last_end lo (l ++ k) = last_end (last_end lo l) k.
Proof. revert lo; induction l; intros lo; simpl; auto. Qed.

Lemma sorted_app g lo l k : sorted_from g lo (l ++ k) <-> sorted_from g lo l /\ sorted_from g (last_end lo l) k.
Proof.
  revert lo; induction l as [|a l IH]; intros lo; cbn [app sorted_from last_end]; [tauto|]; rewrite IH; tauto.
Qed.

Lemma sorted_weaken g lo lo' l : lo' <= lo -> sorted_from g lo l -> sorted_from g lo' l.
Proof. destruct l as [|a l]; cbn [sorted_from]; [tauto|]; intuition lia. Qed.

Lemma sorted_gap g g' lo l : 0 <= g' <= g -> sorted_from g lo l -> sorted_from g' lo l.
Proof. intros Hg; revert lo; induction l as [|a l IH]; cbn [sorted_from]; [tauto|]; intuition (auto; lia). Qed.

(** Bounds of the areas of a sorted list. *)
Lemma sorted_bounds g lo l : 0 <= g -> sorted_from g lo l ->
  Forall (fun a => lo + g <= a_start a /\ a_start a < a_end a /\ a_end a <= last_end lo l) l /\ lo <= last_end lo l.
Proof.
  intros Hg; revert lo; induction l as [|a l IH]; intros lo; cbn [sorted_from last_end]; [split; [constructor|lia]|].
  intros (H1 & H2 & H3); destruct (IH _ H3) as [Hl He].
  split; [|lia]; constructor; [lia|].
  eapply Forall_impl; [|exact Hl]; cbv beta; intros b Hb; lia.
Qed.

Lemma sorted_lower g lo l : 0 <= g -> sorted_from g lo l -> Forall (fun a => lo + g <= a_start a) l.
Proof. intros Hg H; eapply Forall_impl; [|apply (proj1 (sorted_bounds g lo l Hg H))]; cbv beta; lia. Qed.

Lemma sorted_upper g lo l : 0 <= g -> sorted_from g lo l -> Forall (fun a => a_end a <= last_end lo l) l.
Proof. intros Hg H; eapply Forall_impl; [|apply (proj1 (sorted_bounds g lo l Hg H))]; cbv beta; lia. Qed.

(** A bound on all ends bounds the last one. *)
Lemma last_end_le lo l x g : Forall (fun a => a_end a + g <= x) l -> lo + g <= x -> last_end lo l + g <= x.
Proof.
  intros H; revert lo; induction H as [|a l Ha H IH]; intros lo Hlo; cbn [last_end]; auto.
Qed.

Lemma sorted_from_lower g lo lo' l : Forall (fun a => lo' + g <= a_start a) l -> sorted_from g lo l -> sorted_from g lo' l.
Proof. destruct l as [|a l]; cbn [sorted_from]; [tauto|]; intros H; inversion H; subst; intuition lia. Qed.

(** ** Small steps of the code *)

Lemma drop_flags_start f a : a_start (drop_flags f a) = a_start a.
Proof. unfold drop_flags, clear_flag; repeat case_match; reflexivity. Qed.
Lemma drop_flags_end f a : a_end (drop_flags f a) = a_end a.
Proof. unfold drop_flags, clear_flag; repeat case_match; reflexivity. Qed.
Lemma drop_flags_frag f a : a_frag_flags (drop_flags f a) = a_frag_flags a.
Proof. unfold drop_flags, clear_flag; repeat case_match; reflexivity. Qed.
Lemma drop_flags_id a : drop_flags (a_vm_flags a) a = a.
Proof.
  unfold drop_flags, clear_flag; destruct (TEST VM_WAS_FUTURE (a_vm_flags a)) eqn:E; simpl; rewrite ?E; simpl;
    now destruct (TEST VM_ONCE_ONLY (a_vm_flags a)).
Qed.

Lemma area_at_app s p a q : buf (vec s) = p ++ a :: q -> area_at s (Z.of_nat (List.length p)) = Some a.
Proof.
  intros E; unfold area_at; rewrite E; replace (_ <? 0) with false by (symmetry; apply Z.ltb_ge; lia).
  rewrite Nat2Z.id; now apply list_lookup_middle.
Qed.

Lemma set_area_app s p a b q :
  buf (vec s) = p ++ a :: q -> buf (vec (set_area s (Z.of_nat (List.length p)) b)) = p ++ b :: q.
Proof.
  intros E; unfold set_area; simpl; rewrite E, Nat2Z.id.
  now rewrite insert_app_r_alt, Nat.sub_diag by lia.
Qed.

Lemma same_params_refl v : same_params v v.
Proof. repeat split. Qed.
Lemma same_params_trans u v w : same_params u v -> same_params v w -> same_params u w.
Proof. unfold same_params; intuition congruence. Qed.
Lemma same_params_set s l : same_params (vec s) (vec (set_buf s l)).
Proof. repeat split. Qed.
#[export] Hint Resolve same_params_refl same_params_set : core.

(** ** The search loop of [add_vm_area] *)

Definition touches (start end_ : Z) (a : vm_area_t) : Prop := start <= a_end a /\ a_start a <= end_.

(** All areas have one type, and adjacent areas of a type are joined. *)
Definition one_type (vm_flags frag_flags : Z) (v : vm_area_vector_t) : Prop :=
  should_merge_func v = None /\ TEST VECTOR_NEVER_MERGE_ADJACENT (flags v) = false /\
  TEST FRAG_COARSE_GRAIN frag_flags = false /\
  Forall (fun a => a_vm_flags a = vm_flags /\ a_frag_flags a = frag_flags) (buf v).

Definition gap_ok (g vm_flags frag_flags : Z) (v : vm_area_vector_t) : Prop :=
  g = 0 \/ (g = 1 /\ one_type vm_flags frag_flags v).

Definition index_of (p m : list vm_area_t) : Z := match m with [] => -1 | _ => Z.of_nat (List.length p) end.

Section Loop.
Context (vm_flags frag_flags data : Z) (g : Z) (add_rest : vmstate -> Z -> Z -> Z -> option vmstate) (fuel : nat).

(** An area in front of a range, which is not joined with it. *)
Definition in_front (st : Z) (a : vm_area_t) : Prop :=
  a_end a <= st /\ (a_end a = st -> vm_flags <> a_vm_flags a \/ frag_flags <> a_frag_flags a).

(** What adding a range does to the areas [l] behind those in front of it. *)
Definition adds_to (g lo : Z) (r l : list vm_area_t) (s : vmstate) (st en : Z) (s' : vmstate) : Prop :=
  exists l', buf (vec s') = r ++ l' /\ same_params (vec s) (vec s') /\ sorted_from g lo (r ++ l') /\
    (v_length (vec s) <= v_size (vec s) -> v_length (vec s') <= v_size (vec s')) /\
    forall x, covered l' x <-> covered l x \/ st <= x < en.

Context (Hrest : forall s st en d r l lo,
  buf (vec s) = r ++ l -> (List.length l < fuel)%nat -> sorted_from 0 lo (r ++ l) -> st < en -> lo <= st ->
  Forall (in_front st) r -> exists s', add_rest s st en d = Some s' /\ adds_to 0 lo r l s st en s').

Lemma join_touches v a st en :
  should_join v a st en vm_flags frag_flags data = true -> touches st en a.
Proof.
  unfold should_join, overlaps, touches; intros H; apply orb_true_iff in H as [H|H]; zbool; lia.
Qed.

Lemma no_join_apart v a st en :
  gap_ok g vm_flags frag_flags v -> In a (buf v) -> st < en -> a_start a < a_end a ->
  should_join v a st en vm_flags frag_flags data = false -> a_end a + g <= st \/ en + g <= a_start a.
Proof.
  intros Hg Hin Hlt Ha H; unfold should_join, overlaps in H.
  apply orb_false_iff in H as [H1 H2]; apply andb_false_iff in H1; rewrite !Z.ltb_ge in H1.
  destruct Hg as [->|[-> (Hm & Hn & Hc & Hall)]]; [lia|].
  rewrite Forall_forall in Hall; destruct (Hall a) as [<- <-]; [assumption|].
  rewrite Hm, Hn, Hc, !Z.eqb_refl in H2; cbn [negb andb] in H2; rewrite !andb_true_r in H2.
  apply andb_false_iff in H2; rewrite !Z.leb_gt in H2; lia.
Qed.

Lemma one_type_area v a :
  one_type vm_flags frag_flags v -> In a (buf v) ->
  drop_flags vm_flags a = a /\ must_split v a vm_flags frag_flags data = false.
Proof.
  intros (Hm & Hn & Hc & Hall) Hin; rewrite Forall_forall in Hall.
  destruct (Hall a) as [<- <-]; [assumption|].
  split; [apply drop_flags_id|]; unfold must_split; now rewrite !Z.eqb_refl.
Qed.

Lemma split_in_front v a lo' st :
  must_split v a vm_flags frag_flags data = true -> a_end a = st -> lo' <= st -> in_front st a.
Proof.
  intros H <- _; split; [lia|]; intros _; unfold must_split in H.
  apply andb_true_iff in H as [H _]; apply orb_true_iff in H as [H|H]; apply negb_true_iff, Z.eqb_neq in H; auto.
Qed.

(** What the loop has found when it stops: the areas [p1] it passed, those it
    joins, [m], and those behind, [q]. *)
Definition located (lo : Z) (p rest : list vm_area_t) (s : vmstate) (st en : Z) (r : search) : Prop :=
  exists p1 m q,
    buf (vec (sr_state r)) = (p ++ p1) ++ m ++ q /\ same_params (vec s) (vec (sr_state r)) /\
    (v_length (vec s) <= v_size (vec s) -> v_length (vec (sr_state r)) <= v_size (vec (sr_state r))) /\
    gap_ok g vm_flags frag_flags (vec (sr_state r)) /\ sorted_from g lo ((p ++ p1) ++ m ++ q) /\
    lo + g <= sr_start r < sr_end r /\
    Forall (fun a => a_end a + g <= sr_start r) (p ++ p1) /\ Forall (touches (sr_start r) (sr_end r)) m /\
    Forall (fun a => sr_end r + g <= a_start a) q /\
    sr_overlap_start r = index_of (p ++ p1) m /\
    (m = [] -> sr_i r = Z.of_nat (List.length (p ++ p1))) /\
    (m <> [] -> sr_overlap_end r = Z.of_nat (List.length ((p ++ p1) ++ m)) \/ (sr_overlap_end r = -1 /\ q = [])) /\
    forall x, (covered (p1 ++ m ++ q) x \/ sr_start r <= x < sr_end r) <-> (covered rest x \/ st <= x < en).

(** Progress past an area leaves less to locate. *)
Lemma located_step lo p a k m' q s s' st st' en r :
  located lo (p ++ k) (m' ++ q) s' st' en r ->
  same_params (vec s) (vec s') ->
  (v_length (vec s) <= v_size (vec s) -> v_length (vec s') <= v_size (vec s')) ->
  (forall x, covered k x \/ covered (m' ++ q) x \/ st' <= x < en <-> covered a x \/ st <= x < en) ->
  located lo p a s st en r.
Proof.
  intros (p1 & m & q' & E & Hsp & Hsz & Hgo & Hso & Hlt & Hp & Hm & Hq & Ho & Hi & Hoe & Hc) Hsp' Hsz' Hc'.
  exists (k ++ p1), m, q'; rewrite (assoc_L (++) p k p1).
  repeat (split; [solve [assumption | eauto using same_params_trans]|]).
  intros x; rewrite <- Hc', <- (assoc_L (++) k), covered_app; specialize (Hc x); tauto.
Qed.

Ltac cover :=
  let x := fresh "x" in
  intros x; rewrite ?covered_app, ?covered_cons, ?covered_nil, ?drop_flags_start, ?drop_flags_end;
  repeat match goal with H : forall y, covered _ y <-> _ |- _ => specialize (H x) end; intuition lia.

Lemma located_now lo p m q s st en i oe :
  buf (vec s) = p ++ m ++ q -> gap_ok g vm_flags frag_flags (vec s) -> sorted_from g lo (p ++ m ++ q) ->
  lo + g <= st < en -> Forall (fun a => a_end a + g <= st) p -> Forall (touches st en) m ->
  Forall (fun a => en + g <= a_start a) q ->
  (m = [] -> i = Z.of_nat (List.length p)) ->
  (m <> [] -> oe = Z.of_nat (List.length (p ++ m)) \/ (oe = -1 /\ q = [])) ->
  located lo p (m ++ q) s st en (mk_search s i st en (index_of p m) oe).
Proof.
  intros E Hg Hso Hlt Hp Hm Hq Hi Hoe; exists [], m, q; rewrite app_nil_r; cbn [sr_state sr_i sr_start sr_end sr_overlap_start sr_overlap_end app].
  repeat (split; [solve [auto]|]); tauto.
Qed.

(** The last of the areas found ends before the next one begins. *)
Lemma found_before lo p m a q st en :
  0 <= g -> sorted_from g lo (p ++ m ++ a :: q) -> Forall (touches st en) m -> m <> [] -> st <= a_start a < a_end a.
Proof.
  intros Hg Hso Hm Hne; rewrite !sorted_app in Hso; destruct Hso as (_ & _ & H1 & H2 & _).
  destruct m as [|b m _] using rev_ind; [congruence|].
  rewrite Forall_app in Hm; destruct Hm as [_ Hm]; inversion_clear Hm as [|? ? [Hb _] _].
  rewrite !last_end_app in H1; cbn [last_end] in H1; lia.
Qed.

Lemma sorted_replace lo p a b q :
  a_start b = a_start a -> a_end b = a_end a -> sorted_from g lo (p ++ a :: q) -> sorted_from g lo (p ++ b :: q).
Proof. intros E1 E2; rewrite !sorted_app; cbn [sorted_from]; rewrite E1, E2; tauto. Qed.

(** Recording the flags an area loses. *)
Lemma drop_flags_state s p a q :
  buf (vec s) = p ++ a :: q -> gap_ok g vm_flags frag_flags (vec s) ->
  let s1 := set_area s (Z.of_nat (List.length p)) (drop_flags vm_flags a) in
  buf (vec s1) = p ++ drop_flags vm_flags a :: q /\ same_params (vec s) (vec s1) /\
  (v_length (vec s) <= v_size (vec s) -> v_length (vec s1) <= v_size (vec s1)) /\
  gap_ok g vm_flags frag_flags (vec s1) /\
  (must_split (vec s1) (drop_flags vm_flags a) vm_flags frag_flags data = true -> g = 0).
Proof.
  intros E Hg s1; pose proof (set_area_app s p a (drop_flags vm_flags a) q E) as E1; fold s1 in E1.
  split; [exact E1|]; split; [repeat split|]; split.
  { unfold v_length; rewrite E1, E; subst s1; cbn [set_area set_buf with_buf vec v_size]; rewrite !length_app; simpl; lia. }
  destruct Hg as [->|[-> Ht]]; [split; [now left|auto]|].
  assert (Hin : In a (buf (vec s))) by (rewrite E; apply in_app_iff; right; now left).
  destruct (one_type_area _ _ Ht Hin) as [Ed Ems].
  assert (Hone : one_type vm_flags frag_flags (vec s1)).
  { destruct Ht as (H1 & H2 & H3 & H4); repeat (split; [assumption|]); rewrite E1, Ed, <- E; exact H4. }
  split; [right; auto|]; intros Hms.
  enough (Hf : must_split (vec s1) a vm_flags frag_flags data = false) by (rewrite Ed in Hms; congruence).
  apply one_type_area; [exact Hone|]; rewrite E1, Ed; apply in_app_iff; right; now left.
Qed.

(** The areas in front of one that is cut are in front of what is behind it. *)
Lemma all_in_front lo r a l :
  sorted_from 0 lo (r ++ a :: l) -> in_front (a_end a) a -> Forall (in_front (a_end a)) (r ++ [a]).
Proof.
  rewrite sorted_app; cbn [sorted_from]; intros (Hr & Ha1 & Ha2 & _) Hf; apply Forall_app; split; [|now constructor].
  eapply Forall_impl; [|exact (sorted_upper 0 lo r ltac:(lia) Hr)]; cbv beta; intros b Hb; split; lia.
Qed.

(** The new range begins before an area of another type: what is behind that
    area is added first, what is before it is left. *)
Lemma split_located lo p m a q s st en :
  g = 0 -> buf (vec s) = p ++ m ++ a :: q -> (List.length q < fuel)%nat ->
  must_split (vec s) a vm_flags frag_flags data = true ->
  sorted_from 0 lo (p ++ m ++ a :: q) -> lo <= st < en ->
  Forall (fun b => a_end b + 0 <= st) p -> Forall (touches st en) m -> touches st en a -> st < a_start a ->
  exists s2,
    (if a_end a <? en
     then add_rest s (a_end a) en (match split_payload_func (vec s) with None => data | Some f => f data end)
     else Some s) = Some s2 /\
    area_at s2 (Z.of_nat (List.length (p ++ m))) = Some a /\
    located lo p (m ++ a :: q) s st en
      (mk_search s2 (Z.of_nat (List.length (p ++ m))) st (a_start a) (index_of p m) (Z.of_nat (List.length (p ++ m)))).
Proof.
  intros Hg E Hf Hms Hso Hlt Hp Hm [Ht1 Ht2] Hst.
  pose proof Hso as Hso'; rewrite (assoc_L (++)) in Hso'.
  pose proof (proj1 (sorted_app _ _ _ _) Hso') as (Hpm & Ha1 & Ha2 & _).
  set (d' := match split_payload_func (vec s) with None => data | Some f => f data end).
  assert (Hadd : exists s2 l', (if a_end a <? en then add_rest s (a_end a) en d' else Some s) = Some s2 /\
      buf (vec s2) = p ++ m ++ a :: l' /\ same_params (vec s) (vec s2) /\ sorted_from 0 lo (p ++ m ++ a :: l') /\
      (v_length (vec s) <= v_size (vec s) -> v_length (vec s2) <= v_size (vec s2)) /\
      forall x, covered l' x <-> covered q x \/ a_end a <= x < en).
  { destruct (Z.ltb_spec (a_end a) en) as [Hlt'|Hle];
      [|exists s, q; do 5 (split; [now auto|]); intros x; intuition lia].
    assert (EA : forall k, p ++ m ++ a :: k = ((p ++ m) ++ [a]) ++ k) by (intros; now rewrite <- !(assoc_L (++))).
    destruct (Hrest s (a_end a) en d' ((p ++ m) ++ [a]) q lo) as (s2 & R & l' & E2 & Hsp & Hso2 & Hsz & Hc);
      rewrite <- ?EA; try assumption; try lia.
    - eapply all_in_front; [exact Hso'|]; eapply split_in_front; [exact Hms|reflexivity|reflexivity].
    - exists s2, l'; rewrite !EA; auto 10. }
  destruct Hadd as (s2 & l' & R & E2 & Hsp & Hso2 & Hsz & Hc).
  exists s2; split; [exact R|].
  assert (E2' := E2); rewrite (assoc_L (++)) in E2'; split; [exact (area_at_app s2 (p ++ m) a l' E2')|].
  pose proof Hso2 as Hso2'; rewrite (assoc_L (++)), sorted_app in Hso2'; destruct Hso2' as (_ & _ & _ & Hl').
  exists [], m, (a :: l'); rewrite app_nil_r; cbn [sr_state sr_i sr_start sr_end sr_overlap_start sr_overlap_end app].
  assert (Hg0 : gap_ok g vm_flags frag_flags (vec s2)) by now left.
  rewrite !Hg; rewrite Hg in Hg0.
  do 7 (split; [solve [auto | lia]|]); split; [|split; [|split; [reflexivity|split; [|split; [auto|]]]]].
  - rewrite Forall_forall in Hm |- *; intros b Hb; destruct (Hm b Hb) as [H1 _]; split; [exact H1|].
    pose proof (sorted_upper 0 lo (p ++ m) ltac:(lia) Hpm) as Hu; rewrite Forall_forall in Hu.
    pose proof (sorted_bounds 0 lo (p ++ m) ltac:(lia) Hpm) as [Hb' _]; rewrite Forall_forall in Hb'.
    assert (Hin : In b (p ++ m)) by (apply in_app_iff; auto).
    specialize (Hu b Hin); specialize (Hb' b Hin); lia.
  - constructor; [lia|]; eapply Forall_impl; [|exact (sorted_lower 0 _ l' ltac:(lia) Hl')]; cbv beta; lia.
  - intros ->; now rewrite app_nil_r.
  - intros x; rewrite !covered_app, !covered_cons, Hc; intuition lia.
Qed.

Lemma gap_range v : gap_ok g vm_flags frag_flags v -> 0 <= g.
Proof. intros [->|[-> _]]; lia. Qed.

Lemma index_snoc p m b : index_of p (m ++ [b]) = Z.of_nat (List.length p).
Proof. now destruct m. Qed.

Lemma add_loop_located lo q : forall p m s i st en os,
  buf (vec s) = p ++ m ++ q -> i = Z.of_nat (List.length (p ++ m)) -> os = index_of p m ->
  (List.length q <= fuel)%nat -> gap_ok g vm_flags frag_flags (vec s) -> sorted_from g lo (p ++ m ++ q) ->
  lo + g <= st < en -> Forall (fun a => a_end a + g <= st) p -> Forall (touches st en) m ->
  exists r, add_loop vm_flags frag_flags data add_rest (List.length q) i s st en os = Some r /\
            located lo p (m ++ q) s st en r.
Proof.
  induction q as [|a q IH]; intros p m s i st en os E -> -> Hf Hgo Hso Hlt Hp Hm; cbn [add_loop List.length].
  { eexists; split; [reflexivity|]; apply located_now; auto; intros ->; now rewrite app_nil_r. }
  pose proof (gap_range _ Hgo) as Hg0; assert (E' := E); rewrite (assoc_L (++)) in E'.
  rewrite (area_at_app s (p ++ m) a q E'); cbn [obind].
  assert (Hin : In a (buf (vec s))) by (rewrite E'; apply in_app_iff; right; now left).
  assert (Ha : a_start a < a_end a) by (rewrite !sorted_app in Hso; cbn [sorted_from] in Hso; tauto).
  destruct (should_join (vec s) a st en vm_flags frag_flags data) eqn:Hj.
  - pose proof (join_touches _ _ _ _ Hj) as Ht.
    destruct (drop_flags_state s (p ++ m) a q E' Hgo) as (E1 & Hsp & Hsz & Hgo1 & Hms).
    set (a' := drop_flags vm_flags a) in *; set (s1 := set_area _ _ _) in *; clearbody s1.
    pose proof (drop_flags_start vm_flags a) as Es; pose proof (drop_flags_end vm_flags a) as Ee; fold a' in Es, Ee.
    assert (Hso1 : sorted_from g lo (p ++ m ++ a' :: q)).
    { rewrite (assoc_L (++)) in Hso |- *; eapply sorted_replace; eauto. }
    assert (Hcov : forall l x, covered (l ++ a' :: q) x <-> covered (l ++ a :: q) x)
      by (intros; rewrite !covered_app, !covered_cons, Es, Ee; reflexivity).
    assert (EA : forall k, (p ++ m) ++ a' :: k = p ++ (m ++ [a']) ++ k) by (intros; now rewrite <- !(assoc_L (++))).
    assert (Hjoin : exists r,
      add_loop vm_flags frag_flags data add_rest (List.length q) (Z.of_nat (List.length (p ++ m)) + 1) s1 st en
        (if index_of p m =? -1 then Z.of_nat (List.length (p ++ m)) else index_of p m) = Some r /\
      located lo p (m ++ a :: q) s st en r).
    { destruct (IH p (m ++ [a']) s1 (Z.of_nat (List.length (p ++ m)) + 1) st en
                  (if index_of p m =? -1 then Z.of_nat (List.length (p ++ m)) else index_of p m)) as (r & R & HL); auto; try (simpl in Hf; lia).
      - now rewrite E1, EA.
      - rewrite !length_app; simpl; lia.
      - rewrite index_snoc; destruct m as [|b m]; [now rewrite app_nil_r|]; cbn [index_of].
        replace (_ =? -1) with false by (symmetry; apply Z.eqb_neq; lia); reflexivity.
      - now rewrite <- EA, <- (assoc_L (++)).
      - apply Forall_app; split; [exact Hm|]; constructor; [|constructor]; unfold touches in *; rewrite Es, Ee; exact Ht.
      - exists r; split; [exact R|]; eapply (located_step lo p _ []); [rewrite app_nil_r; exact HL|exact Hsp|exact Hsz|].
        intros x; rewrite <- (Hcov m x), <- (assoc_L (++)); cbn [app]; rewrite covered_nil; tauto. }
    destruct (must_split (vec s1) a' vm_flags frag_flags data) eqn:Hsplit; [|exact Hjoin].
    pose proof (Hms eq_refl) as Eg; rewrite Eg in Hso1, Hp; rewrite Z.add_0_r in Hlt || rewrite Eg, Z.add_0_r in Hlt.
    destruct (Z.ltb_spec st (a_start a')) as [Hst|Hst]; [|destruct (Z.ltb_spec (a_end a') en) as [Hen|Hen]; [|exact Hjoin]].
    + destruct (split_located lo p m a' q s1 st en) as (s2 & R & Eat & HL); auto;
        try (simpl in Hf; lia);
        [now rewrite E1, (assoc_L (++))|unfold touches in *; rewrite Es, Ee; exact Ht|].
      rewrite R; cbn [obind]; rewrite Eat; cbn [obind].
      exists (mk_search s2 (Z.of_nat (List.length (p ++ m))) st (a_start a') (index_of p m) (Z.of_nat (List.length (p ++ m)))).
      split.
      * do 2 f_equal; destruct m as [|b m]; cbn [index_of].
        { rewrite app_nil_r; cbn [Z.eqb]; now rewrite Z.eqb_refl. }
        replace (_ =? -1) with false by (symmetry; apply Z.eqb_neq; lia).
        replace (_ =? _) with false; [reflexivity|]; symmetry; apply Z.eqb_neq; rewrite length_app; simpl; lia.
      * eapply (located_step lo p _ []); [rewrite app_nil_r; exact HL|exact Hsp|exact Hsz|].
        intros x; rewrite covered_nil, (Hcov m x); tauto.
    + destruct (IH (p ++ m ++ [a']) [] s1 (Z.of_nat (List.length (p ++ m)) + 1) (a_end a') en (-1)) as (r & R & HL); auto; try (simpl in Hf; lia).
      * rewrite E1; now rewrite <- !(assoc_L (++)).
      * rewrite app_nil_r, !length_app; simpl; lia.
      * rewrite <- !(assoc_L (++)), Eg; cbn [app]; exact Hso1.
      * unfold touches in Ht; lia.
      * rewrite Eg; rewrite (assoc_L (++)); apply Forall_app; split; [|constructor; [lia|constructor]].
        rewrite (assoc_L (++)), sorted_app in Hso1; cbn [sorted_from] in Hso1; destruct Hso1 as (Hpm & H1 & H2 & _).
        eapply Forall_impl; [|exact (sorted_upper 0 lo (p ++ m) ltac:(lia) Hpm)]; cbv beta; lia.
      * exists r; split; [exact R|].
        eapply (located_step lo p _ (m ++ [a'])); [exact HL|exact Hsp|exact Hsz|].
        intros x; rewrite <- (Hcov m x), !covered_app, !covered_cons, !covered_nil; unfold touches in Ht; rewrite <- Es, <- Ee in Ht.
        intuition lia.
  - assert (Hap : a_end a + g <= st \/ en + g <= a_start a) by (eapply no_join_apart; eauto; lia).
    assert (Hq : en + g <= a_start a -> Forall (fun b => en + g <= a_start b) (a :: q)).
    { intros H; constructor; [exact H|]; rewrite !sorted_app in Hso; cbn [sorted_from] in Hso; destruct Hso as (_ & _ & _ & _ & Hq).
      eapply Forall_impl; [|exact (sorted_lower g _ q Hg0 Hq)]; cbv beta; lia. }
    destruct m as [|b m]; cbn [index_of].
    + cbn [Z.ltb Z.compare]; destruct (Z.leb_spec en (a_start a)).
      * eexists; split; [reflexivity|]; apply (located_now lo p []); auto; [apply Hq; lia|intros _; now rewrite app_nil_r|congruence].
      * destruct (IH (p ++ [a]) [] s (Z.of_nat (List.length (p ++ [])) + 1) st en (-1)) as (r & R & HL); auto; try (simpl in Hf; lia).
        -- now rewrite E, <- !(assoc_L (++)).
        -- rewrite !app_nil_r, length_app; simpl; lia.
        -- now rewrite <- !(assoc_L (++)).
        -- apply Forall_app; split; [exact Hp|]; constructor; [lia|constructor].
        -- exists r; split; [exact R|]; eapply (located_step lo p _ [a]); [exact HL|auto|auto|].
           intros x; cbn [app]; rewrite !covered_cons, covered_nil; tauto.
    + replace (-1 <? _) with true by (symmetry; apply Z.ltb_lt; lia).
      pose proof (found_before lo p (b :: m) a q st en Hg0 Hso Hm ltac:(congruence)).
      eexists; split; [reflexivity|]; apply (located_now lo p (b :: m)); auto; [apply Hq; lia|congruence].
Qed.
End Loop.

(** ** [add_vm_area] *)

Definition options_ok (o : vm_options) : Prop := 0 < vmarea_initial_size o /\ 0 < vmarea_increment_size o.

Section AddSpec.
Context (o : vm_options) (Ho : options_ok o) (vm_flags frag_flags : Z).

(** The areas in front of the range are passed over. *)
Lemma add_loop_skip data add_rest r : forall p q s n st en,
  buf (vec s) = p ++ r ++ q -> Forall (in_front vm_flags frag_flags st) r -> Forall (fun a => a_start a < a_end a) r -> st < en ->
  add_loop vm_flags frag_flags data add_rest (List.length r + n) (Z.of_nat (List.length p)) s st en (-1)
  = add_loop vm_flags frag_flags data add_rest n (Z.of_nat (List.length (p ++ r))) s st en (-1).
Proof.
  induction r as [|a r IH]; intros p q s n st en E Hf Ha Hlt; [now rewrite app_nil_r|].
  inversion_clear Hf as [|? ? [H1 H2] Hr]; inversion_clear Ha as [|? ? H3 Ha'].
  cbn [List.length Nat.add add_loop]; rewrite (area_at_app s p a (r ++ q) E); cbn [obind].
  assert (Hj : should_join (vec s) a st en vm_flags frag_flags data = false).
  { unfold should_join, overlaps; apply orb_false_iff; split; [apply andb_false_iff; left; apply Z.ltb_ge; lia|].
    destruct (Z.leb_spec st (a_end a)); [|reflexivity].
    destruct (H2 ltac:(lia)) as [Hv|Hv]; apply Z.eqb_neq in Hv; rewrite Hv; rewrite ?andb_false_r; reflexivity. }
  rewrite Hj; cbn [Z.ltb Z.compare].
  replace (en <=? a_start a) with false by (symmetry; apply Z.leb_gt; lia).
  replace (Z.of_nat (List.length p) + 1) with (Z.of_nat (List.length (p ++ [a]))) by (rewrite length_app; simpl; lia).
  rewrite (IH (p ++ [a]) q); auto; rewrite <- ?(assoc_L (++)); auto.
Qed.

Lemma check_size_ok v : v_length v <= v_size v ->
  v_length v + 1 <= v_size (vm_area_vector_check_size o v) /\ buf (vm_area_vector_check_size o v) = buf v /\
  same_params v (vm_area_vector_check_size o v).
Proof.
  intros H; unfold vm_area_vector_check_size; destruct Ho.
  destruct (Z.eqb_spec (v_size v) (v_length v)); [|repeat split; lia].
  destruct (Z.eqb_spec (v_length v) 0); cbn [with_size v_size buf]; repeat split; lia.
Qed.

Lemma check_size_buf v :
  buf (vm_area_vector_check_size o v) = buf v /\ same_params v (vm_area_vector_check_size o v).
Proof. unfold vm_area_vector_check_size; repeat case_match; repeat split. Qed.

Lemma add_new_spec data s p q st en :
  buf (vec s) = p ++ q ->
  let s' := add_new o vm_flags frag_flags data s (Z.of_nat (List.length p)) st en in
  buf (vec s') = p ++ mk_area st en vm_flags frag_flags data :: q /\ same_params (vec s) (vec s') /\
  (v_length (vec s) <= v_size (vec s) -> v_length (vec s') <= v_size (vec s')).
Proof.
  intros E s'; destruct (check_size_buf (vec s)) as [Eb Hsp].
  assert (E' : buf (vec s') = p ++ mk_area st en vm_flags frag_flags data :: q).
  { unfold s', add_new; cbn [vec with_buf buf]; rewrite Eb, E, Nat2Z.id.
    now rewrite take_app_length, drop_app_length. }
  split; [exact E'|split; [exact Hsp|]].
  intros H; destruct (check_size_ok (vec s) H) as (H1 & _ & _).
  unfold v_length in *; rewrite E', E in *; rewrite !length_app in *; simpl in *; unfold s'; cbn; lia.
Qed.

Lemma join_rest_bounds v a l : let b := fst (join_rest v a l) in
  a_start b = a_start a /\ a_end b = a_end a /\ a_vm_flags b = a_vm_flags a /\ a_frag_flags b = a_frag_flags a.
Proof.
  revert a; induction l as [|c l IH]; intros a; [repeat split|]; cbn [join_rest].
  destruct (join_one v a c) as [a1 ev1] eqn:E1.
  assert (H1 : a_start a1 = a_start a /\ a_end a1 = a_end a /\ a_vm_flags a1 = a_vm_flags a /\ a_frag_flags a1 = a_frag_flags a).
  { unfold join_one, vm_area_merge_fraglists in E1; repeat case_match; simplify_eq; repeat split. }
  specialize (IH a1); destruct (join_rest v a1 l) as [a2 ev2]; cbn [fst] in *; intuition congruence.
Qed.

(** The areas found become one that spans them and the range. *)
Lemma add_merge_spec data s p a m q st en oe :
  buf (vec s) = p ++ (a :: m) ++ q ->
  oe = Z.of_nat (List.length (p ++ a :: m)) \/ (oe = -1 /\ q = []) ->
  exists s' b, add_merge data s st en (Z.of_nat (List.length p)) oe = Some s' /\
    buf (vec s') = p ++ b :: q /\ same_params (vec s) (vec s') /\ v_size (vec s') = v_size (vec s) /\
    a_start b = Z.min st (a_start a) /\ a_end b = Z.max en (last_end (a_end a) m) /\
    a_vm_flags b = a_vm_flags a /\ a_frag_flags b = a_frag_flags a.
Proof.
  intros E Hoe; unfold add_merge.
  replace (if oe =? -1 then v_length (vec s) else oe) with (Z.of_nat (List.length (p ++ a :: m))).
  2: { destruct Hoe as [->|[-> ->]].
       - replace (_ =? -1) with false by (symmetry; apply Z.eqb_neq; lia); reflexivity.
       - cbn [Z.eqb Pos.eqb]; unfold v_length; now rewrite E, app_nil_r. }
  rewrite (area_at_app s p a (m ++ q)) by exact E; cbn [obind].
  assert (Ez : exists z, area_at s (Z.of_nat (List.length (p ++ a :: m)) - 1) = Some z /\ a_end z = last_end (a_end a) m).
  { destruct (exists_last (l := a :: m) ltac:(congruence)) as (m' & z & Em).
    exists z; split.
    - replace (Z.of_nat (List.length (p ++ a :: m)) - 1) with (Z.of_nat (List.length (p ++ m')))
        by (rewrite Em, !length_app; simpl; lia).
      apply (area_at_app s (p ++ m') z q); rewrite E, Em; now rewrite <- !(assoc_L (++)).
    - change (last_end (a_end a) m) with (last_end 0 (a :: m)); rewrite Em, last_end_app; reflexivity. }
  destruct Ez as (z & Ez & Eend); rewrite Ez; cbn [obind].
  set (a1 := if st <? a_start a then with_start a st else a).
  set (a2 := if a_end z <? en then with_end a1 en else with_end a1 (a_end z)).
  set (v := vec s); destruct (match merge_payload_func v with Some f => _ | None => _ end) as [a3 ev1] eqn:E3.
  assert (H3 : a_start a3 = Z.min st (a_start a) /\ a_end a3 = Z.max en (last_end (a_end a) m) /\
               a_vm_flags a3 = a_vm_flags a /\ a_frag_flags a3 = a_frag_flags a).
  { assert (E32 : a_start a3 = a_start a2 /\ a_end a3 = a_end a2 /\ a_vm_flags a3 = a_vm_flags a2 /\ a_frag_flags a3 = a_frag_flags a2)
      by (destruct (merge_payload_func v); simplify_eq; repeat split).
    destruct E32 as (-> & -> & -> & ->); rewrite <- Eend; unfold a2, a1.
    destruct (Z.ltb_spec (a_end z) en), (Z.ltb_spec st (a_start a)); cbn; intuition lia. }
  destruct H3 as (H31 & H32 & H33 & H34).
  rewrite !Nat2Z.id; set (mid := take _ _).
  pose proof (join_rest_bounds v a3 mid) as (B1 & B2 & B3 & B4); destruct (join_rest v a3 mid) as [b ev2]; cbn [fst] in *.
  eexists; exists b; split; [reflexivity|].
  assert (Eb : take (List.length p) (buf v) ++ b :: drop (List.length (p ++ a :: m)) (buf v) = p ++ b :: q).
  { unfold v; rewrite E, take_app_length; do 2 f_equal; rewrite (assoc_L (++) p (a :: m) q); apply drop_app_length. }
  repeat case_match; (split; [exact Eb|split; [repeat split|split; [reflexivity|]]]); intuition congruence.
Qed.

(** The range as an area of its own, or joined with the areas found. *)
Lemma finish_new lo g p q st en x :
  sorted_from g lo (p ++ q) -> lo + g <= st < en -> Forall (fun a => a_end a + g <= st) p ->
  Forall (fun a => en + g <= a_start a) q -> a_start x = st -> a_end x = en -> sorted_from g lo (p ++ x :: q).
Proof.
  intros Hso Hlt Hp Hq <- <-; apply sorted_app in Hso as [H1 H2]; apply sorted_app; split; [exact H1|].
  cbn [sorted_from]; split; [apply last_end_le; [exact Hp|lia]|split; [lia|]].
  eapply sorted_from_lower; eassumption.
Qed.

Lemma finish_merge lo g p a m q st en b :
  0 <= g -> sorted_from g lo (p ++ (a :: m) ++ q) -> lo + g <= st < en -> Forall (fun a => a_end a + g <= st) p ->
  Forall (touches st en) (a :: m) -> Forall (fun a => en + g <= a_start a) q ->
  a_start b = Z.min st (a_start a) -> a_end b = Z.max en (last_end (a_end a) m) ->
  sorted_from g lo (p ++ b :: q) /\
  forall x, covered (b :: q) x <-> covered ((a :: m) ++ q) x \/ st <= x < en.
Proof.
  intros Hg Hso Hlt Hp Hm Hq Es Ee; rewrite !sorted_app in Hso; cbn [sorted_from last_end] in Hso.
  destruct Hso as (H1 & (H2 & H3 & H4) & H5).
  pose proof (sorted_bounds g _ m Hg H4) as [Hb Hle]; split.
  - apply sorted_app; split; [exact H1|]; cbn [sorted_from].
    pose proof (last_end_le lo p st g Hp ltac:(lia)).
    split; [lia|split; [lia|]]; eapply sorted_from_lower; [|exact H5].
    pose proof (sorted_lower g _ q Hg H5) as Hl; rewrite Forall_forall in *; intros c Hc.
    specialize (Hl c Hc); specialize (Hq c Hc); lia.
  - intros x; cbn [app]; rewrite !covered_cons, covered_app, Es, Ee.
    assert (Hmid : covered m x -> a_end a <= x < last_end (a_end a) m).
    { unfold covered; rewrite Exists_exists; intros (c & Hc & Hx); rewrite Forall_forall in Hb; specialize (Hb c Hc); lia. }
    assert (Hin : last_end (a_end a) m <= x \/ x < a_start a \/ a_start a <= x < a_end a \/ covered m x \/ st <= x < en).
    { destruct m as [|z m _] using rev_ind; [cbn [last_end]; lia|].
      rewrite last_end_app; cbn [last_end].
      rewrite Forall_cons_iff, Forall_app, Forall_cons_iff in Hm; destruct Hm as ([T1 T2] & _ & [T3 T4] & _).
      rewrite covered_app, covered_cons; lia. }
    apply Forall_cons_iff in Hm as ([T1 T2] & _); intuition lia.
Qed.

Theorem add_vm_area_adds fuel : forall g s st en data r l lo,
  buf (vec s) = r ++ l -> (List.length l < fuel)%nat -> gap_ok g vm_flags frag_flags (vec s) ->
  sorted_from g lo (r ++ l) -> lo + g <= st < en ->
  Forall (in_front vm_flags frag_flags st) r -> Forall (fun a => a_end a + g <= st) r ->
  exists s', add_vm_area o fuel s st en vm_flags frag_flags data = Some s' /\
    adds_to g lo r l s st en s' /\ gap_ok g vm_flags frag_flags (vec s').
Proof.
  induction fuel as [|fuel IH]; intros g s st en data r l lo E Hf Hgo Hso Hlt Hr Hr'; [lia|].
  cbn [add_vm_area]; set (add_rest := fun _ _ _ _ => _).
  assert (Hrest : forall s st en d r l lo,
    buf (vec s) = r ++ l -> (List.length l < fuel)%nat -> sorted_from 0 lo (r ++ l) -> st < en -> lo <= st ->
    Forall (in_front vm_flags frag_flags st) r ->
    exists s', add_rest s st en d = Some s' /\ adds_to 0 lo r l s st en s').
  { clear - IH; intros s st en d r l lo E Hf Hso Hlt Hlo Hr.
    destruct (IH 0 s st en d r l lo) as (s' & R & Ha & _); eauto; [now left|lia|].
    eapply Forall_impl; [|exact Hr]; intros a [H _]; lia. }
  pose proof (gap_range _ _ _ _ Hgo) as Hg0.
  assert (Hne : Forall (fun a => a_start a < a_end a) r).
  { apply sorted_app in Hso as [Hso _]; eapply Forall_impl; [|exact (proj1 (sorted_bounds g lo r Hg0 Hso))]; cbv beta; lia. }
  replace (List.length (buf (vec s))) with (List.length r + List.length l)%nat by (rewrite E, length_app; reflexivity).
  change 0 with (Z.of_nat (List.length (@nil vm_area_t))).
  rewrite (add_loop_skip data add_rest r [] l); auto; [|lia]; cbn [app].
  destruct (add_loop_located vm_flags frag_flags data g add_rest fuel Hrest lo l r [] s
              (Z.of_nat (List.length r)) st en (-1)) as (res & R & HL); auto; try lia; [now rewrite app_nil_r|].
  rewrite R; cbn [obind app] in *.
  destruct HL as (p1 & m & q & E1 & Hsp & Hsz & Hgo1 & Hso1 & Hlt1 & Hp & Hm & Hq & Eos & Ei & Eoe & Hc).
  rewrite Eos; destruct m as [|a m]; cbn [index_of Z.eqb Pos.eqb] in *.
  - rewrite Ei by reflexivity.
    destruct (add_new_spec data (sr_state res) (r ++ p1) q (sr_start res) (sr_end res) E1) as (E2 & Hsp2 & Hsz2).
    set (s' := add_new _ _ _ _ _ _ _ _) in *; exists s'; split; [reflexivity|].
    assert (Hso2 : sorted_from g lo ((r ++ p1) ++ mk_area (sr_start res) (sr_end res) vm_flags frag_flags data :: q))
      by (eapply finish_new; eauto).
    split.
    + exists (p1 ++ mk_area (sr_start res) (sr_end res) vm_flags frag_flags data :: q); rewrite (assoc_L (++)).
      do 3 (split; [solve [eauto using same_params_trans]|]); split; [auto|].
      intros x; rewrite <- Hc; rewrite !covered_app, covered_cons, covered_nil; cbn [a_start a_end]; tauto.
    + destruct Hgo1 as [->|[-> (T1 & T2 & T3 & T4)]]; [now left|]; right; split; [reflexivity|].
      destruct Hsp2 as (F1 & F2 & F3 & F4 & F5 & F6).
      split; [congruence|split; [congruence|split; [exact T3|]]].
      rewrite E1 in T4; rewrite E2; rewrite Forall_app in T4 |- *; rewrite Forall_cons_iff; tauto.
  - replace (_ =? -1) with false by (symmetry; apply Z.eqb_neq; lia).
    destruct (add_merge_spec data (sr_state res) (r ++ p1) a m q (sr_start res) (sr_end res) (sr_overlap_end res) E1)
      as (s' & b & R' & E2 & Hsp2 & Esz & Es & Ee & Efv & Eff).
    { apply Eoe; congruence. }
    destruct (finish_merge lo g (r ++ p1) a m q (sr_start res) (sr_end res) b) as [Hso2 Hc2]; auto.
    exists s'; split; [exact R'|]; split.
    + exists (p1 ++ b :: q); rewrite (assoc_L (++)).
      do 3 (split; [solve [eauto using same_params_trans]|]); split.
      { intros H; specialize (Hsz H); rewrite Esz; unfold v_length in *; rewrite E1 in Hsz; rewrite E2.
        rewrite !length_app in *; simpl in *; lia. }
      intros x; rewrite <- Hc; rewrite !(covered_app p1), Hc2; tauto.
    + destruct Hgo1 as [->|[-> (T1 & T2 & T3 & T4)]]; [now left|]; right; split; [reflexivity|].
      destruct Hsp2 as (F1 & F2 & F3 & F4 & F5 & F6).
      split; [congruence|split; [congruence|split; [exact T3|]]].
      rewrite E1 in T4; rewrite E2; rewrite !Forall_app, Forall_cons_iff in T4; rewrite !Forall_app, Forall_cons_iff; intuition congruence.
Qed.
End AddSpec.

(** The ends of sorted areas are bounded if the addresses they cover are. *)
Lemma ends_bounded g lo l : 0 <= g -> sorted_from g lo l ->
  Forall (fun a => a_end a <= POINTER_MAX) l <-> forall x, covered l x -> x < POINTER_MAX.
Proof.
  intros Hg Hs; pose proof (proj1 (sorted_bounds g lo l Hg Hs)) as Hb; rewrite Forall_forall in Hb; rewrite Forall_forall; split.
  - intros H x Hx; apply Exists_exists in Hx as (a & Ha & Hx); specialize (H a Ha); lia.
  - intros H a Ha; specialize (Hb a Ha); specialize (H (a_end a - 1)).
    assert (covered l (a_end a - 1)) by (apply Exists_exists; exists a; split; [exact Ha|lia]); specialize (H ltac:(assumption)); lia.
Qed.

Lemma add_vm_area_ok o g s st en vm_flags frag_flags data :
  options_ok o -> gap_ok g vm_flags frag_flags (vec s) -> vector_ok g (vec s) -> 0 <= st < en -> en <= POINTER_MAX ->
  exists s', add_vm_area o (enough s) s st en vm_flags frag_flags data = Some s' /\
    vector_ok g (vec s') /\ gap_ok g vm_flags frag_flags (vec s') /\ same_params (vec s) (vec s') /\
    forall x, covered (buf (vec s')) x <-> covered (buf (vec s)) x \/ st <= x < en.
Proof.
  intros Ho Hg (Hs & He & Hz) Hlt Hen; pose proof (gap_range _ _ _ _ Hg) as Hg0.
  destruct (add_vm_area_adds o Ho vm_flags frag_flags (enough s) g s st en data [] (buf (vec s)) (- g))
    as (s' & R & (l & El & Hsp & Hs' & Hz' & Hc) & Hg'); auto; try (unfold enough; lia).
  cbn [app] in *; exists s'; split; [exact R|]; rewrite El; split; [|auto].
  split; [rewrite El; exact Hs'|split; [|auto]]; rewrite El.
  apply (ends_bounded g (- g) _ Hg0 Hs'); intros x; rewrite Hc; intros [Hx|Hx]; [|lia].
  revert x Hx; now apply (ends_bounded g (- g)).
Qed.

(** ** [remove_vm_area] *)

(** What the loop of [remove_vm_area] finds. *)
Lemma remove_loop_spec g lo q : forall p m s i st en os,
  0 <= g -> buf (vec s) = p ++ m ++ q -> i = Z.of_nat (List.length (p ++ m)) -> os = index_of p m ->
  sorted_from g lo (p ++ m ++ q) -> st < en ->
  Forall (fun a => a_end a <= st) p -> Forall (fun a => overlaps a st en = true) m ->
  exists p' m' q' oe, remove_loop (List.length q) i s st en os = Some (index_of p' m', oe) /\
    p ++ m ++ q = p' ++ m' ++ q' /\ Forall (fun a => a_end a <= st) p' /\ Forall (fun a => overlaps a st en = true) m' /\
    Forall (fun a => en <= a_start a) q' /\
    (m' <> [] -> oe = Z.of_nat (List.length (p' ++ m')) \/ (oe = -1 /\ q' = [])).
Proof.
  induction q as [|a q IH]; intros p m s i st en os Hg E -> -> Hso Hlt Hp Hm; cbn [remove_loop List.length].
  { exists p, m, [], (-1); repeat (split; [solve [auto]|]); auto. }
  assert (E' := E); rewrite (assoc_L (++)) in E'; rewrite (area_at_app s (p ++ m) a q E'); cbn [obind].
  assert (Hq : en <= a_start a -> Forall (fun b => en <= a_start b) (a :: q)).
  { intros H; constructor; [exact H|]; rewrite !sorted_app in Hso; cbn [sorted_from] in Hso; destruct Hso as (_ & _ & _ & Ha & Hq).
    eapply Forall_impl; [|exact (sorted_lower g _ q Hg Hq)]; cbv beta; lia. }
  destruct (overlaps a st en) eqn:Hov; unfold overlaps in Hov.
  - destruct (IH p (m ++ [a]) s (Z.of_nat (List.length (p ++ m)) + 1) st en
                (if index_of p m =? -1 then Z.of_nat (List.length (p ++ m)) else index_of p m))
      as (p' & m' & q' & oe & R & E2 & H); rewrite <- ?(assoc_L (++)); auto.
    + rewrite !length_app; simpl; lia.
    + rewrite index_snoc; destruct m; [now rewrite app_nil_r|]; cbn [index_of].
      now replace (_ =? -1) with false by (symmetry; apply Z.eqb_neq; lia).
    + apply Forall_app; auto.
    + exists p', m', q', oe; split; [exact R|]; split; [|exact H]; rewrite <- E2; now rewrite <- !(assoc_L (++)).
  - apply andb_false_iff in Hov; rewrite !Z.ltb_ge in Hov; destruct m as [|b m]; cbn [index_of].
    + cbn [Z.ltb Z.compare]; destruct (Z.leb_spec en (a_start a)).
      * exists p, [], (a :: q), (-1); do 5 (split; [solve [auto]|]); congruence.
      * destruct (IH (p ++ [a]) [] s (Z.of_nat (List.length (p ++ [])) + 1) st en (-1)) as (p' & m' & q' & oe & R & E2 & Hres); auto;
          rewrite <- ?(assoc_L (++)); auto.
        -- rewrite !app_nil_r, length_app; simpl; lia.
        -- apply Forall_app; split; [exact Hp|]; constructor; [lia|constructor].
        -- exists p', m', q', oe; split; [exact R|]; split; [|exact Hres]; rewrite <- E2; now rewrite <- !(assoc_L (++)).
    + replace (-1 <? _) with true by (symmetry; apply Z.ltb_lt; lia).
      assert (Ht : Forall (touches st en) (b :: m)).
      { eapply Forall_impl; [|exact Hm]; unfold overlaps, touches; intros c Hc; zbool; lia. }
      pose proof (found_before g lo p (b :: m) a q st en Hg Hso Ht ltac:(congruence)).
      exists p, (b :: m), (a :: q), (Z.of_nat (List.length (p ++ b :: m))); do 4 (split; [solve [auto]|]).
      split; [apply Hq; lia|auto].
Qed.

Section Cuts.
Context (o : vm_options) (st en : Z) (restore_prot : bool).

Definition zlen (l : list vm_area_t) : Z := Z.of_nat (List.length l).

Lemma cut_first_spec s p a k oe :
  buf (vec s) = p ++ a :: k ->
  exists s', same_params (vec s) (vec s') /\ v_size (vec s') = v_size (vec s) /\
  if a_start a <? st then
    cut_first o s st en (zlen p) oe restore_prot
    = Some (s', zlen p + 1, if (zlen p =? oe - 1) && (en <? a_end a) then Some (with_start a en) else None) /\
    buf (vec s') = p ++ with_end a st :: k
  else cut_first o s st en (zlen p) oe restore_prot = Some (s', zlen p, None) /\ buf (vec s') = p ++ a :: k.
Proof.
  intros E; unfold cut_first, zlen; rewrite (area_at_app s p a k E); cbn [obind].
  destruct (a_start a <? st); eexists; [|split; [|split; [|split; [reflexivity|exact E]]]; auto].
  split; [|split; [|split; [reflexivity|]]]; [repeat split|reflexivity|].
  apply (set_area_app s p a (with_end a st) k E).
Qed.

Lemma cut_last_spec s p z q oe :
  buf (vec s) = p ++ z :: q -> oe = zlen p + 1 ->
  exists s', same_params (vec s) (vec s') /\ v_size (vec s') = v_size (vec s) /\
  if en <? a_end z then cut_last o s en oe restore_prot = Some (s', zlen p) /\ buf (vec s') = p ++ with_start z en :: q
  else cut_last o s en oe restore_prot = Some (s', oe) /\ buf (vec s') = p ++ z :: q.
Proof.
  intros E ->; unfold cut_last, zlen.
  replace (Z.of_nat (List.length p) + 1 - 1) with (Z.of_nat (List.length p)) by lia.
  rewrite (area_at_app s p z q E); cbn [obind].
  destruct (en <? a_end z); eexists; [|split; [|split; [|split; [reflexivity|exact E]]]; auto].
  split; [|split; [|split; [reflexivity|]]]; [repeat split|reflexivity|].
  apply (set_area_app s p z (with_start z en) q E).
Qed.

Lemma delete_between_spec s p d q os oe :
  buf (vec s) = p ++ d ++ q -> os = zlen p -> oe = zlen p + zlen d ->
  let s' := delete_between o s os oe restore_prot in
  buf (vec s') = p ++ q /\ same_params (vec s) (vec s') /\ v_size (vec s') = v_size (vec s).
Proof.
  intros E -> -> s'; unfold s', delete_between, zlen.
  destruct (Z.ltb_spec (Z.of_nat (List.length p)) (Z.of_nat (List.length p) + Z.of_nat (List.length d))) as [H|H].
  - split; [|split; [repeat split|reflexivity]]; cbn [log_events set_buf with_buf vec buf].
    rewrite E, <- Nat2Z.inj_add, <- length_app, !Nat2Z.id, take_app_length.
    f_equal; rewrite (assoc_L (++)); apply drop_app_length.
  - destruct d; [auto|]; simpl in H; lia.
Qed.

(** The three steps on the areas found: cut the first, cut the last, delete. *)
Definition cut_steps (s : vmstate) (os oe : Z) : option (vmstate * option vm_area_t) :=
  let? (s, os, new_area) := cut_first o s st en os oe restore_prot in
  let? (s, oe) := cut_last o s en oe restore_prot in
  Some (delete_between o s os oe restore_prot, new_area).

(** One area is found: the parts outside the range are left, and the part
    behind is handed on if there is one in front too. *)
Lemma cut_single s p a q :
  buf (vec s) = p ++ a :: q -> st < en ->
  exists s' new, cut_steps s (zlen p) (zlen p + 1) = Some (s', new) /\
    same_params (vec s) (vec s') /\ v_size (vec s') = v_size (vec s) /\
    match a_start a <? st, en <? a_end a with
    | true, true => new = Some (with_start a en) /\ buf (vec s') = p ++ with_end a st :: q
    | true, false => new = None /\ buf (vec s') = p ++ with_end a st :: q
    | false, true => new = None /\ buf (vec s') = p ++ with_start a en :: q
    | false, false => new = None /\ buf (vec s') = p ++ q
    end.
Proof.
  intros E Hlt; unfold cut_steps.
  destruct (cut_first_spec s p a q (zlen p + 1) E) as (s1 & P1 & Z1 & H1).
  replace (zlen p =? zlen p + 1 - 1) with true in H1 by (symmetry; apply Z.eqb_eq; lia); cbn [andb] in H1.
  destruct (a_start a <? st); destruct H1 as [R1 E1]; rewrite R1; cbn [obind].
  - destruct (cut_last_spec s1 p _ q _ E1 eq_refl) as (s2 & P2 & Z2 & H2); cbn [with_end a_end] in H2.
    replace (en <? st) with false in H2 by (symmetry; apply Z.ltb_ge; lia); destruct H2 as [R2 E2]; rewrite R2; cbn [obind].
    destruct (delete_between_spec s2 (p ++ [with_end a st]) [] q (zlen p + 1) (zlen p + 1)) as (E3 & P3 & Z3);
      [rewrite <- (assoc_L (++)); exact E2|unfold zlen; rewrite length_app; simpl; lia..|].
    rewrite <- (assoc_L (++)) in E3; cbn [app] in E3.
    do 2 eexists; split; [reflexivity|]; split; [eauto using same_params_trans|split; [congruence|]].
    destruct (en <? a_end a); auto.
  - destruct (cut_last_spec s1 p _ q _ E1 eq_refl) as (s2 & P2 & Z2 & H2).
    destruct (en <? a_end a); destruct H2 as [R2 E2]; rewrite R2; cbn [obind].
    + destruct (delete_between_spec s2 p [] (with_start a en :: q) (zlen p) (zlen p)) as (E3 & P3 & Z3); [exact E2|unfold zlen; simpl; lia..|].
      do 2 eexists; split; [reflexivity|]; split; [eauto using same_params_trans|split; [congruence|auto]].
    + destruct (delete_between_spec s2 p [a] q (zlen p) (zlen p + 1)) as (E3 & P3 & Z3); [exact E2|unfold zlen; simpl; lia..|].
      do 2 eexists; split; [reflexivity|]; split; [eauto using same_params_trans|split; [congruence|auto]].
Qed.

(** Several areas are found: what is left of the first and of the last. *)
Lemma cut_several s p a m z q :
  buf (vec s) = p ++ a :: m ++ z :: q ->
  exists s', cut_steps s (zlen p) (zlen p + zlen m + 2) = Some (s', None) /\
    same_params (vec s) (vec s') /\ v_size (vec s') = v_size (vec s) /\
    buf (vec s') = p ++ (if a_start a <? st then [with_end a st] else []) ++
                   (if en <? a_end z then [with_start z en] else []) ++ q.
Proof.
  intros E; unfold cut_steps.
  assert (Hm : 0 <= zlen m) by (unfold zlen; lia).
  destruct (cut_first_spec s p a (m ++ z :: q) (zlen p + zlen m + 2) E) as (s1 & P1 & Z1 & H1).
  replace (zlen p =? zlen p + zlen m + 2 - 1) with false in H1 by (symmetry; apply Z.eqb_neq; lia); cbn [andb] in H1.
  assert (Hrest : forall b p' d os, buf (vec s1) = p ++ b :: m ++ z :: q -> p ++ b :: m = p' ++ d -> os = zlen p' ->
    exists s', (let? (s, oe) := cut_last o s1 en (zlen p + zlen m + 2) restore_prot in
                Some (delete_between o s os oe restore_prot, @None vm_area_t)) = Some (s', None) /\
      same_params (vec s) (vec s') /\ v_size (vec s') = v_size (vec s) /\
      buf (vec s') = p' ++ (if en <? a_end z then [with_start z en] else []) ++ q).
  { intros b p' d os E1 Epd ->.
    assert (E1' : buf (vec s1) = (p ++ b :: m) ++ z :: q) by (rewrite E1, <- (assoc_L (++)); reflexivity).
    assert (El : zlen p' + zlen d = zlen p + zlen m + 1).
    { apply (f_equal (@List.length _)) in Epd; rewrite !length_app in Epd; simpl in Epd; unfold zlen; lia. }
    assert (Ez : zlen (p ++ b :: m) = zlen p + zlen m + 1) by (unfold zlen; rewrite length_app; simpl; lia).
    destruct (cut_last_spec s1 (p ++ b :: m) z q (zlen p + zlen m + 2) E1' ltac:(lia)) as (s2 & P2 & Z2 & H2).
    rewrite Epd, <- (assoc_L (++)) in H2.
    destruct (en <? a_end z); destruct H2 as [R2 E2]; rewrite R2; cbn [obind].
    - destruct (delete_between_spec s2 p' d (with_start z en :: q) (zlen p') (zlen (p' ++ d))) as (E3 & P3 & Z3);
        [rewrite E2; now rewrite <- ?(assoc_L (++))|reflexivity|unfold zlen; rewrite length_app; lia|].
      eexists; split; [reflexivity|]; split; [eauto using same_params_trans|split; [congruence|exact E3]].
    - destruct (delete_between_spec s2 p' (d ++ [z]) q (zlen p') (zlen p + zlen m + 2)) as (E3 & P3 & Z3);
        [rewrite E2; now rewrite <- ?(assoc_L (++))|reflexivity|unfold zlen in *; rewrite length_app; simpl; lia|].
      eexists; split; [reflexivity|]; split; [eauto using same_params_trans|split; [congruence|exact E3]]. }
  destruct (a_start a <? st); destruct H1 as [R1 E1]; rewrite R1; cbn [obind].
  - destruct (Hrest (with_end a st) (p ++ [with_end a st]) m (zlen p + 1) E1) as (s' & R & P & Zs & Eb);
      [now rewrite <- (assoc_L (++))|unfold zlen; rewrite length_app; simpl; lia|].
    exists s'; split; [exact R|split; [exact P|split; [exact Zs|]]]; rewrite Eb, <- (assoc_L (++)); reflexivity.
  - destruct (Hrest a p (a :: m) (zlen p) E1) as (s' & R & P & Zs & Eb); [reflexivity|reflexivity|].
    exists s'; split; [exact R|split; [exact P|split; [exact Zs|exact Eb]]].
Qed.
End Cuts.

Section Remove.
Context (o : vm_options) (st en : Z) (restore_prot : bool) (g lo : Z) (Hg : 0 <= g) (Hlt : st < en).

(** Replacing the areas in the middle by areas inside their span. *)
Lemma sorted_shrink p m k q :
  sorted_from g lo (p ++ m ++ q) -> sorted_from g (last_end lo p) k ->
  last_end (last_end lo p) k <= last_end (last_end lo p) m -> sorted_from g lo (p ++ k ++ q).
Proof. rewrite !sorted_app; intros (H1 & _ & H3) H4 H5; split; [exact H1|split; [exact H4|]]; eapply sorted_weaken; eauto. Qed.

(** The addresses of the areas in front of the range and behind it. *)
Lemma covered_outside p q x :
  Forall (fun a => a_end a <= st) p -> Forall (fun a => en <= a_start a) q ->
  (covered p x -> x < st) /\ (covered q x -> en <= x).
Proof.
  intros Hp Hq; split; intros H; apply Exists_exists in H as (a & Ha & Hx); rewrite Forall_forall in *;
    [specialize (Hp a Ha)|specialize (Hq a Ha)]; lia.
Qed.

(** What is left of the areas found: [k] in their place, and [new]. *)
Definition leaves (p m q k : list vm_area_t) (new : option vm_area_t) : Prop :=
  sorted_from g lo (p ++ k ++ q) /\ (List.length k <= List.length m)%nat /\
  (forall x, covered k x \/ match new with Some b => a_start b <= x < a_end b | None => False end
             <-> covered m x /\ ~ st <= x < en) /\
  (forall P : Z -> Z -> Prop, Forall (fun a => P (a_vm_flags a) (a_frag_flags a)) m ->
     Forall (fun a => P (a_vm_flags a) (a_frag_flags a)) k /\
     match new with Some b => P (a_vm_flags b) (a_frag_flags b) | None => True end) /\
  match new with Some b => st <= a_start b < a_end b | None => True end.

Lemma leaves_single s p a q :
  buf (vec s) = p ++ a :: q -> sorted_from g lo (p ++ [a] ++ q) -> overlaps a st en = true ->
  exists s' new k, cut_steps o st en restore_prot s (zlen p) (zlen p + 1) = Some (s', new) /\
    same_params (vec s) (vec s') /\ v_size (vec s') = v_size (vec s) /\ buf (vec s') = p ++ k ++ q /\ leaves p [a] q k new.
Proof.
  intros E Hso Hov; unfold overlaps in Hov; zbool.
  destruct (cut_single o st en restore_prot s p a q E Hlt) as (s' & new & R & P & Zs & Hres).
  pose proof (proj1 (sorted_app _ _ _ _) Hso) as (_ & (Ha1 & Ha2 & _)).
  destruct (Z.ltb_spec (a_start a) st), (Z.ltb_spec en (a_end a)); destruct Hres as [-> Eb];
    [exists s', (Some (with_start a en)), [with_end a st]|exists s', None, [with_end a st]|exists s', None, [with_start a en]
    |exists s', None, []];
    (split; [exact R|split; [exact P|split; [exact Zs|split; [exact Eb|]]]]);
    (split; [eapply sorted_shrink; [exact Hso|cbn..]; lia|split; [simpl; lia|split; [|split; [|cbn; lia]]]]);
    try (intros x; rewrite !covered_cons, !covered_nil; cbn [with_start with_end a_start a_end]; lia);
    intros Q HQ; rewrite Forall_cons_iff in HQ; repeat constructor; cbn; tauto.
Qed.

Lemma leaves_several s p a m z q :
  buf (vec s) = p ++ a :: m ++ z :: q -> sorted_from g lo (p ++ (a :: m ++ [z]) ++ q) ->
  overlaps a st en = true -> overlaps z st en = true ->
  exists s' k, cut_steps o st en restore_prot s (zlen p) (zlen p + zlen m + 2) = Some (s', None) /\
    same_params (vec s) (vec s') /\ v_size (vec s') = v_size (vec s) /\ buf (vec s') = p ++ k ++ q /\
    leaves p (a :: m ++ [z]) q k None.
Proof.
  intros E Hso Hov1 Hov2; unfold overlaps in *; zbool.
  destruct (cut_several o st en restore_prot s p a m z q E) as (s' & R & P & Zs & Eb).
  pose proof (proj1 (sorted_app _ _ _ _) Hso) as (_ & Hso2); rewrite sorted_app in Hso2; destruct Hso2 as [(Ha1 & Ha2 & Hm) _].
  rewrite sorted_app in Hm; cbn [sorted_from] in Hm; destruct Hm as (Hm & Hz1 & Hz2 & _).
  destruct (sorted_bounds g _ m Hg Hm) as [Hb Hle]; rewrite Forall_forall in Hb.
  exists s', ((if a_start a <? st then [with_end a st] else []) ++ (if en <? a_end z then [with_start z en] else [])).
  split; [exact R|split; [exact P|split; [exact Zs|split; [now rewrite <- (assoc_L (++))|]]]].
  assert (Hmid : forall x, covered m x -> st <= x < en).
  { intros x Hx; apply Exists_exists in Hx as (c & Hc & Hx); specialize (Hb c Hc); lia. }
  split; [|split; [|split; [|split; [|exact I]]]].
  - eapply sorted_shrink; [exact Hso|..]; cbn [last_end]; rewrite ?last_end_app;
      destruct (Z.ltb_spec (a_start a) st), (Z.ltb_spec en (a_end z)); cbn; lia.
  - simpl; rewrite !length_app; destruct (a_start a <? st), (en <? a_end z); simpl; lia.
  - intros x; specialize (Hmid x); rewrite covered_cons, !covered_app, covered_cons, covered_nil.
    destruct (Z.ltb_spec (a_start a) st), (Z.ltb_spec en (a_end z)); rewrite ?covered_cons, ?covered_nil; cbn [with_start with_end a_start a_end];
      intuition lia.
  - intros Q HQ; rewrite Forall_cons_iff, Forall_app, Forall_cons_iff in HQ; split; [|exact I].
    destruct (a_start a <? st), (en <? a_end z); repeat constructor; cbn; tauto.
Qed.
End Remove.

Lemma remove_unfold o s st en restore_prot :
  remove_vm_area o s st en restore_prot
  = let? (os, oe) := remove_loop (List.length (buf (vec s))) 0 s st en (-1) in
    if os =? -1 then Some (s, false)
    else let? (s, new_area) := cut_steps o st en restore_prot s os (if oe =? -1 then v_length (vec s) else oe) in
      match new_area with
      | None => Some (s, true)
      | Some a =>
          let a := with_frag_flags a (Z.land (a_frag_flags a) (Z.lnot FRAG_COARSE_GRAIN)) in
          let a := with_vm_flags a (Z.land (a_vm_flags a) (Z.lnot VM_ADD_TO_SHARED_DATA)) in
          let a := match split_payload_func (vec s) with Some f => with_custom a (f (a_custom a)) | None => a end in
          let? s := add_vm_area o (enough s) s (a_start a) (a_end a) (a_vm_flags a) (a_frag_flags a) (a_custom a) in
          Some (s, true)
      end.
Proof.
  unfold remove_vm_area, cut_steps; destruct (remove_loop _ _ _ _ _ _) as [[os oe]|]; cbn [obind]; [|reflexivity].
  destruct (os =? -1); [reflexivity|]; destruct (cut_first _ _ _ _ _ _ _) as [[[s1 os1] n1]|]; cbn [obind]; [|reflexivity].
  destruct (cut_last _ _ _ _ _) as [[s2 oe2]|]; reflexivity.
Qed.

(** The cuts as a whole, and the part of an area that is added again. *)
Lemma cut_steps_ok o g s st en restore_prot p m q :
  0 <= g -> st < en -> buf (vec s) = p ++ m ++ q -> sorted_from g (- g) (p ++ m ++ q) ->
  Forall (fun a => overlaps a st en = true) m -> m <> [] ->
  exists s' new k, cut_steps o st en restore_prot s (zlen p) (zlen (p ++ m)) = Some (s', new) /\
    same_params (vec s) (vec s') /\ v_size (vec s') = v_size (vec s) /\ buf (vec s') = p ++ k ++ q /\
    leaves st en g (- g) p m q k new.
Proof.
  intros Hg Hlt E Hso Hm Hne; destruct m as [|a m]; [congruence|].
  apply Forall_cons_iff in Hm as [Ha Hm]; destruct m as [|z m _] using rev_ind.
  - replace (zlen (p ++ [a])) with (zlen p + 1) by (unfold zlen; rewrite length_app; simpl; lia).
    now apply leaves_single.
  - apply Forall_app in Hm as [_ Hz]; apply Forall_cons_iff in Hz as [Hz _].
    replace (zlen (p ++ a :: m ++ [z])) with (zlen p + zlen m + 2)
      by (unfold zlen; rewrite length_app; cbn [List.length]; rewrite length_app; simpl; lia).
    destruct (leaves_several o st en restore_prot g (- g) Hg s p a m z q) as (s' & k & H); auto.
    + rewrite E; cbn [app]; now rewrite <- (assoc_L (++)).
    + exists s', None, k; exact H.
Qed.

Lemma remove_vm_area_ok o g s st en restore_prot :
  options_ok o -> gap_ok g 0 0 (vec s) -> vector_ok g (vec s) -> 0 <= st < en -> en <= POINTER_MAX ->
  exists s' b, remove_vm_area o s st en restore_prot = Some (s', b) /\
    vector_ok g (vec s') /\ gap_ok g 0 0 (vec s') /\ same_params (vec s) (vec s') /\
    (b = true <-> exists x, st <= x < en /\ covered (buf (vec s)) x) /\
    forall x, covered (buf (vec s')) x <-> covered (buf (vec s)) x /\ ~ st <= x < en.
Proof.
  intros Ho Hgo (Hs & He & Hz) Hlt Hen; pose proof (gap_range _ _ _ _ Hgo) as Hg0; rewrite remove_unfold.
  destruct (remove_loop_spec g (- g) (buf (vec s)) [] [] s 0 st en (-1)) as (p & m & q & oe & R & E & Hp & Hm & Hq & Hoe); auto; [lia|].
  cbn [app] in E; rewrite R; cbn [obind]; clear R; rewrite E in Hs.
  pose proof (fun x => covered_outside st en p q x Hp Hq) as Hout.
  destruct m as [|a m]; cbn [index_of].
  { cbn [Z.eqb Pos.eqb]; exists s, false; split; [reflexivity|]; split; [repeat split; rewrite ?E; auto; now rewrite <- E|].
    split; [exact Hgo|split; [auto|]]; rewrite E; cbn [app]; split.
    - split; [discriminate|]; intros (x & Hx & Hc); rewrite covered_app in Hc; destruct (Hout x); intuition lia.
    - intros x; rewrite covered_app; destruct (Hout x); intuition lia. }
  replace (_ =? -1) with false by (symmetry; apply Z.eqb_neq; lia).
  replace (if oe =? -1 then v_length (vec s) else oe) with (zlen (p ++ a :: m)).
  2: { destruct (Hoe ltac:(congruence)) as [->|[-> ->]].
       - replace (_ =? -1) with false by (symmetry; apply Z.eqb_neq; lia); reflexivity.
       - cbn [Z.eqb Pos.eqb]; unfold v_length; now rewrite E, app_nil_r. }
  destruct (cut_steps_ok o g s st en restore_prot p (a :: m) q) as (s1 & new & k & R & Hsp & Hsz & E1 & Hso1 & Hlen & Hc & Hty & Hnew);
    auto; try lia; try congruence.
  fold (zlen p); rewrite R; cbn [obind]; clear R.
  assert (Hz1 : v_length (vec s1) <= v_size (vec s1)).
  { rewrite Hsz; unfold v_length in *; rewrite E1; rewrite E in Hz; rewrite !length_app in *; lia. }
  assert (Hmax : forall x, covered (a :: m) x -> x < POINTER_MAX).
  { intros x Hx; rewrite E in He; revert x Hx; apply (ends_bounded g (last_end (- g) p)); auto;
      [rewrite !sorted_app in Hs; tauto|rewrite !Forall_app in He; tauto]. }
  assert (Hok1 : vector_ok g (vec s1)).
  { split; [rewrite E1; exact Hso1|split; [|exact Hz1]]; rewrite E1; rewrite E in He; rewrite !Forall_app in He |- *.
    split; [tauto|split; [|tauto]]; apply (ends_bounded g (last_end (- g) p)); auto; [rewrite !sorted_app in Hso1; tauto|].
    intros x Hx; apply Hmax, Hc; now left. }
  assert (Hgo1 : gap_ok g 0 0 (vec s1) /\ match new with Some b => g = 0 \/ a_vm_flags b = 0 /\ a_frag_flags b = 0 | None => True end).
  { destruct Hgo as [->|[-> (T1 & T2 & T3 & T4)]]; [split; [now left|destruct new; auto]|].
    rewrite E in T4; rewrite !Forall_app in T4; destruct T4 as (T4 & T5 & T6).
    destruct (Hty (fun v f => v = 0 /\ f = 0) T5) as [T7 T8]; destruct Hsp as (F1 & F2 & F3 & F4 & F5 & F6).
    split; [right; split; [reflexivity|]|destruct new; auto].
    split; [congruence|split; [congruence|split; [exact T3|]]]; rewrite E1, !Forall_app; auto. }
  destruct Hgo1 as [Hgo1 Htype].
  assert (Htrue : exists x, st <= x < en /\ covered (buf (vec s)) x).
  { apply Forall_cons_iff in Hm as [Ha _]; unfold overlaps in Ha; zbool; exists (Z.max st (a_start a)).
    assert (a_start a < a_end a) by (rewrite !sorted_app in Hs; cbn [sorted_from] in Hs; tauto).
    split; [lia|]; rewrite E, !covered_app, covered_cons; right; left; left; lia. }
  assert (Hfinal : forall x, covered (buf (vec s1)) x \/ match new with Some b => a_start b <= x < a_end b | None => False end
                   <-> covered (buf (vec s)) x /\ ~ st <= x < en).
  { intros x; rewrite E1, E, !covered_app; specialize (Hc x); destruct (Hout x); intuition lia. }
  destruct new as [b|].
  - set (b1 := with_vm_flags _ _); set (b2 := match split_payload_func (vec s1) with Some f => _ | None => _ end).
    assert (Eb : a_start b2 = a_start b /\ a_end b2 = a_end b /\
                 a_vm_flags b2 = Z.land (a_vm_flags b) (Z.lnot VM_ADD_TO_SHARED_DATA) /\
                 a_frag_flags b2 = Z.land (a_frag_flags b) (Z.lnot FRAG_COARSE_GRAIN))
      by (unfold b2, b1; destruct (split_payload_func (vec s1)); repeat split).
    destruct Eb as (-> & -> & Ev & Ef).
    assert (Hgo2 : gap_ok g (a_vm_flags b2) (a_frag_flags b2) (vec s1) /\ (g = 0 \/ a_vm_flags b2 = 0 /\ a_frag_flags b2 = 0)).
    { destruct Htype as [->|[Tv Tf]]; [split; now left|]; rewrite Ev, Ef, Tv, Tf, !Z.land_0_l; auto. }
    destruct Hgo2 as [Hgo2 Hfl].
    assert (Hbmax : a_end b <= POINTER_MAX).
    { assert (covered (a :: m) (a_end b - 1)) as Hx by (apply Hc; right; lia); apply Hmax in Hx; lia. }
    destruct (add_vm_area_ok o g s1 (a_start b) (a_end b) (a_vm_flags b2) (a_frag_flags b2) (a_custom b2))
      as (s2 & R2 & Hok2 & Hgo3 & Hsp2 & Hc2); auto; [lia|].
    rewrite R2; cbn [obind]; exists s2, true; split; [reflexivity|split; [exact Hok2|split; [|split; [eauto using same_params_trans|split; [tauto|]]]]].
    + destruct Hfl as [->|[Fv Ff]]; [now left|]; rewrite Fv, Ff in Hgo3; exact Hgo3.
    + intros x; rewrite Hc2; apply Hfinal.
  - exists s1, true; split; [reflexivity|split; [exact Hok1|split; [exact Hgo1|split; [exact Hsp|split; [tauto|]]]]].
    intros x; specialize (Hfinal x); tauto.
Qed.

(** ** [binary_search] *)

Lemma area_at_lookup s i a : area_at s i = Some a <-> 0 <= i /\ buf (vec s) !! Z.to_nat i = Some a.
Proof. unfold area_at; destruct (Z.ltb_spec i 0); split; [discriminate|intros [? _]; lia|auto|tauto]. Qed.

Lemma area_at_some s i : 0 <= i < v_length (vec s) -> exists a, area_at s i = Some a.
Proof.
  intros H; unfold area_at; replace (i <? 0) with false by (symmetry; apply Z.ltb_ge; lia).
  apply lookup_lt_is_Some; unfold v_length in H; lia.
Qed.

Lemma area_at_range s i a : area_at s i = Some a -> 0 <= i < v_length (vec s).
Proof. rewrite area_at_lookup; intros [H1 H2]; apply lookup_lt_Some in H2; unfold v_length; lia. Qed.

Lemma sorted_lookup g lo l i j a b :
  0 <= g -> sorted_from g lo l -> l !! i = Some a -> l !! j = Some b -> (i < j)%nat -> a_end a <= a_start b.
Proof.
  intros Hg Hs Hi Hj Hij.
  rewrite <- (take_drop_middle l i a Hi), sorted_app in Hs; cbn [sorted_from] in Hs; destruct Hs as (_ & _ & _ & Hs).
  pose proof (sorted_lower g _ _ Hg Hs) as Hl; rewrite Forall_forall in Hl.
  assert (Hb : In b (drop (S i) l)).
  { apply list_elem_of_In, list_elem_of_lookup; exists (j - S i)%nat; rewrite lookup_drop; now replace (S i + (j - S i))%nat with j by lia. }
  specialize (Hl b Hb); lia.
Qed.

Lemma sorted_nonempty g lo l i a : 0 <= g -> sorted_from g lo l -> l !! i = Some a -> lo + g <= a_start a < a_end a.
Proof.
  intros Hg Hs Hi; pose proof (proj1 (sorted_bounds g lo l Hg Hs)) as Hb; rewrite Forall_forall in Hb.
  assert (Ha : In a l) by (apply list_elem_of_In, list_elem_of_lookup; eauto); specialize (Hb a Ha); lia.
Qed.

Section Search.
Context (g : Z) (s : vmstate) (Hg : 0 <= g) (Hok : vector_ok g (vec s)).

Lemma area_order i j a b : area_at s i = Some a -> area_at s j = Some b -> i < j -> a_end a <= a_start b.
Proof.
  rewrite !area_at_lookup; intros [H1 Hi] [H2 Hj] Hij; eapply sorted_lookup; [exact Hg|apply Hok|eauto|eauto|lia].
Qed.

Lemma area_bounds i a : area_at s i = Some a -> 0 <= a_start a < a_end a /\ a_end a <= POINTER_MAX.
Proof.
  rewrite area_at_lookup; intros [_ Hi]; destruct Hok as (Hs & He & _); split; [pose proof (sorted_nonempty g _ _ _ _ Hg Hs Hi); lia|].
  rewrite Forall_forall in He; apply He, list_elem_of_In, list_elem_of_lookup; eauto.
Qed.

Lemma covered_area x : covered (buf (vec s)) x <-> exists i a, area_at s i = Some a /\ a_start a <= x < a_end a.
Proof.
  unfold covered; rewrite Exists_exists; split.
  - intros (a & Ha & Hx); apply list_elem_of_In, list_elem_of_lookup in Ha as (i & Hi).
    exists (Z.of_nat i), a; split; [|exact Hx]; apply area_at_lookup; split; [lia|now rewrite Nat2Z.id].
  - intros (i & a & Ha & Hx); exists a; split; [|exact Hx]; apply area_at_lookup in Ha as [_ Ha].
    apply list_elem_of_In, list_elem_of_lookup; eauto.
Qed.

Context (start end_ : Z).

(** The end of the range: NULL is the top of the address space. *)
Definition open_end : Z := if end_ =? 0 then 2 ^ 64 else end_.

Context (Hrange : 0 <= start < open_end) (Htop : open_end <= 2 ^ 64) (Hne : start <> end_).

Lemma first_match_spec fuel : forall i a,
  (Z.to_nat i < fuel)%nat -> area_at s i = Some a -> start < a_end a -> a_start a < open_end ->
  exists j b, first_match fuel s start i = Some j /\ area_at s j = Some b /\ start < a_end b /\ a_start b < open_end /\
    forall k c, area_at s k = Some c -> k < j -> a_end c <= start.
Proof.
  induction fuel as [|fuel IH]; intros i a Hf Ha H1 H2; [lia|]; cbn [first_match].
  pose proof (area_at_range _ _ _ Ha) as Hi.
  destruct (Z.leb_spec 1 i); [|exists i, a; do 4 (split; [auto|]); intros k c Hk; apply area_at_range in Hk; lia].
  destruct (area_at_some s (i - 1) ltac:(lia)) as [b Hb]; rewrite Hb; cbn [obind].
  pose proof (area_order _ _ _ _ Hb Ha ltac:(lia)); pose proof (area_bounds _ _ Hb).
  destruct (Z.ltb_spec start (a_end b)).
  - apply (IH (i - 1) b); auto; lia.
  - exists i, a; do 4 (split; [auto|]); intros k c Hk Hlt.
    destruct (Z.eq_dec k (i - 1)) as [->|]; [congruence|].
    pose proof (area_order _ _ _ _ Hk Hb ltac:(lia)); lia.
Qed.

Lemma search_loop_spec first fuel : forall min max,
  (Z.to_nat (max - min + 1) < fuel)%nat -> 0 <= min <= max + 1 -> max < v_length (vec s) ->
  (forall i a, area_at s i = Some a -> i < min -> a_end a <= start) ->
  (forall i a, area_at s i = Some a -> max < i -> open_end <= a_start a) ->
  exists found i, search_loop fuel s start end_ first min max = Some (found, i) /\
    if found then
      exists a, area_at s i = Some a /\ start < a_end a /\ a_start a < open_end /\
        (first = true -> forall k c, area_at s k = Some c -> k < i -> a_end c <= start)
    else -1 <= i < v_length (vec s) /\
      (forall k c, area_at s k = Some c -> k <= i -> a_end c <= start) /\
      (forall k c, area_at s k = Some c -> i < k -> open_end <= a_start c).
Proof.
  induction fuel as [|fuel IH]; intros min max Hf Hm Hmax Hlow Hhigh; [lia|]; cbn [search_loop].
  destruct (Z.leb_spec min max) as [Hle|Hgt].
  2: { exists false, max; split; [reflexivity|]; split; [lia|]; split; [|exact Hhigh].
       intros k c Hk Hle; apply (Hlow k c Hk); lia. }
  set (i := (min + max) ÷ 2); assert (Hi : min <= i <= max) by (unfold i; rewrite Z.quot_div_nonneg by lia; pose proof (Z.div_mod (min + max) 2 ltac:(lia)); pose proof (Z.mod_pos_bound (min + max) 2 ltac:(lia)); lia).
  destruct (area_at_some s i ltac:(lia)) as [a Ha]; rewrite Ha; cbn [obind]; pose proof (area_bounds _ _ Ha) as Hab.
  destruct (negb (end_ =? 0) && (end_ <=? a_start a)) eqn:Hc1.
  - zbool; apply IH; auto; try lia; intros k c Hk Hlt.
    assert (Eo : open_end = end_) by (unfold open_end; now destruct (Z.eqb_spec end_ 0)).
    destruct (Z.eq_dec k i) as [->|]; [congruence|]; destruct (Z.lt_ge_cases max k); [now apply (Hhigh k c)|].
    pose proof (area_order _ _ _ _ Ha Hk ltac:(lia)); lia.
  - assert (Ho : a_start a < open_end).
    { unfold open_end; apply andb_false_iff in Hc1; rewrite negb_false_iff, Z.eqb_eq, Z.leb_gt in Hc1.
      destruct (Z.eqb_spec end_ 0); [unfold POINTER_MAX in *; lia|destruct Hc1; lia]. }
    replace (start =? end_) with false by (symmetry; now apply Z.eqb_neq); rewrite orb_false_r.
    destruct (Z.leb_spec (a_end a) start).
    + apply IH; auto; try lia; intros k c Hk Hlt.
      destruct (Z.eq_dec k i) as [->|]; [congruence|]; destruct (Z.lt_ge_cases k min); [now apply (Hlow k c)|].
      pose proof (area_order _ _ _ _ Hk Ha ltac:(lia)); lia.
    + destruct first.
      * destruct (first_match_spec (S (Z.to_nat i)) i a) as (j & b & R & Hj & H1 & H2 & H3); auto; try lia.
        rewrite R; cbn [obind]; exists true, j; split; [reflexivity|]; exists b; auto.
      * cbn [obind]; exists true, i; split; [reflexivity|]; exists a; do 3 (split; [auto|]); discriminate.
Qed.

Lemma binary_search_spec first :
  exists found i, binary_search s start end_ first = Some (found, i) /\
    if found then
      exists a, area_at s i = Some a /\ start < a_end a /\ a_start a < open_end /\
        (first = true -> forall k c, area_at s k = Some c -> k < i -> a_end c <= start)
    else -1 <= i < v_length (vec s) /\
      (forall k c, area_at s k = Some c -> k <= i -> a_end c <= start) /\
      (forall k c, area_at s k = Some c -> i < k -> open_end <= a_start c).
Proof.
  apply search_loop_spec; unfold v_length; try lia.
  - intros i a Hi; apply area_at_range in Hi; lia.
  - intros i a Hi; apply area_at_range in Hi; unfold v_length in Hi; lia.
Qed.
End Search.
