(* ===== verification/VmVector.v ===== *)
(** * The [vmvector_] interface as sets of addresses

    Client vectors (one type, no callbacks, adjacent areas joined) implement
    finite unions of intervals: the abstract state is the set of addresses as a
    boolean function.  The theorems about vectors of any kind, on the search and
    on what [add_vm_area] does to types and payloads, are here too. *)
From Stdlib Require Import ZArith Lia.
From S2P Require Import Prelude.
From S2P Require Import VmArea.
From S2P Require Import VmAreaSpec.
From stdpp Require Import base list numbers.
#[local] Open Scope Z_scope.
#[local] Open Scope rw_scope.

(** ** Lookups *)

Section Lookup.
Context (g : Z) (s : vmstate) (Hg : 0 <= g) (Hok : vector_ok g (vec s)).

Lemma wrap_end addr : 0 <= addr < 2 ^ 64 -> open_end (wrap 64 (addr + 1)) = addr + 1 /\ addr <> wrap 64 (addr + 1).
Proof.
  intros H; unfold open_end; destruct (Z.eq_dec addr (2 ^ 64 - 1)) as [->|Hn].
  - now vm_compute.
  - rewrite wrap_id by lia; replace (addr + 1 =? 0) with false by (symmetry; apply Z.eqb_neq; lia); lia.
Qed.

Lemma lookup_addr_spec addr :
  0 <= addr < 2 ^ 64 ->
  exists found i, lookup_addr s addr = Some (found, i) /\
    if found then exists a, area_at s i = Some a /\ a_start a <= addr < a_end a
    else -1 <= i < v_length (vec s) /\
      (forall k c, area_at s k = Some c -> k <= i -> a_end c <= addr) /\
      (forall k c, area_at s k = Some c -> i < k -> addr < a_start c).
Proof.
  intros H; destruct (wrap_end addr H) as [Eo Hne].
  destruct (binary_search_spec g s Hg Hok addr (wrap 64 (addr + 1)) ltac:(lia) Hne false) as (found & i & R & Hr).
  exists found, i; split; [exact R|]; destruct found.
  - destruct Hr as (a & Ha & H1 & H2 & _); exists a; split; [exact Ha|lia].
  - destruct Hr as (H1 & H2 & H3); split; [exact H1|split; [exact H2|]]; intros k c Hk Hlt; specialize (H3 k c Hk Hlt); lia.
Qed.

(** Membership is decided by the lookup. *)
Lemma lookup_addr_covered addr :
  0 <= addr < 2 ^ 64 ->
  exists found i, lookup_addr s addr = Some (found, i) /\
    (found = true <-> covered (buf (vec s)) addr) /\
    (found = true -> exists a, area_at s i = Some a /\ a_start a <= addr < a_end a).
Proof.
  intros H; destruct (lookup_addr_spec addr H) as (found & i & R & Hr); exists found, i; split; [exact R|].
  destruct found.
  - split; [|auto]; split; [|auto]; intros _; apply covered_area; destruct Hr as (a & Ha); eauto.
  - split; [|discriminate]; split; [discriminate|]; intros Hc; apply covered_area in Hc as (k & c & Hk & Hx).
    destruct Hr as (_ & H1 & H2); destruct (Z.le_gt_cases k i); [specialize (H1 k c Hk)|specialize (H2 k c Hk)]; lia.
Qed.

Lemma vmvector_overlap_spec st en :
  0 <= st < en -> en < 2 ^ 64 ->
  exists b, vmvector_overlap s st en = Some b /\ (b = true <-> exists x, st <= x < en /\ covered (buf (vec s)) x).
Proof.
  intros H1 H2; unfold vmvector_overlap, vmvector_empty; destruct (Z.eqb_spec (v_length (vec s)) 0) as [E|E].
  - exists false; split; [reflexivity|]; split; [discriminate|]; intros (x & _ & Hc).
    apply covered_area in Hc as (i & a & Ha & _); apply area_at_range in Ha; lia.
  - assert (Eo : open_end en = en) by (unfold open_end; replace (en =? 0) with false by (symmetry; apply Z.eqb_neq; lia); reflexivity).
    destruct (binary_search_spec g s Hg Hok st en ltac:(lia) ltac:(lia) false) as (found & i & R & Hr).
    exists found; unfold vm_area_overlap; rewrite R; split; [reflexivity|]; rewrite Eo in Hr; destruct found.
    + split; [|auto]; intros _; destruct Hr as (a & Ha & L & U & _).
      pose proof (area_bounds g s Hg Hok i a Ha); exists (Z.max st (a_start a)); split; [lia|].
      apply covered_area; exists i, a; split; [exact Ha|lia].
    + split; [discriminate|]; intros (x & Hx & Hc); apply covered_area in Hc as (k & c & Hk & Hxc).
      destruct Hr as (_ & L & U); destruct (Z.le_gt_cases k i); [specialize (L k c Hk)|specialize (U k c Hk)]; lia.
Qed.
End Lookup.

(** ** The set determines the areas *)

Definition bounds (a : vm_area_t) : Z * Z := (a_start a, a_end a).

Lemma covered_above g lo l x : 0 <= g -> sorted_from g lo l -> covered l x -> lo + g <= x.
Proof.
  intros Hg Hs Hc; apply Exists_exists in Hc as (a & Ha & Hx).
  pose proof (sorted_lower g lo l Hg Hs) as Hl; rewrite Forall_forall in Hl; specialize (Hl a Ha); lia.
Qed.

Lemma canonical l : forall lo k, sorted_from 1 lo l -> sorted_from 1 lo k ->
  (forall x, covered l x <-> covered k x) -> map bounds l = map bounds k.
Proof.
  induction l as [|a l IH]; intros lo [|b k] Hl Hk Hc; [reflexivity|..].
  - exfalso; destruct Hk as (_ & Hb & _); apply (covered_nil (a_start b)), Hc, covered_cons; lia.
  - exfalso; destruct Hl as (_ & Ha & _); apply (covered_nil (a_start a)), Hc, covered_cons; lia.
  - destruct Hl as (L1 & L2 & L3), Hk as (K1 & K2 & K3).
    assert (Hbel : forall x, covered l x -> a_end a + 1 <= x) by (intros x; now apply (covered_above 1)).
    assert (Kbel : forall x, covered k x -> a_end b + 1 <= x) by (intros x; now apply (covered_above 1)).
    assert (Hin : forall x, ((a_start a <= x < a_end a) \/ covered l x) <-> ((a_start b <= x < a_end b) \/ covered k x))
      by (intros x; rewrite <- !covered_cons; apply Hc).
    assert (Es : a_start a = a_start b).
    { pose proof (proj1 (Hin (a_start a)) ltac:(left; lia)) as [?|X1]; pose proof (proj2 (Hin (a_start b)) ltac:(left; lia)) as [?|X2];
        try apply Kbel in X1; try apply Hbel in X2; lia. }
    assert (Ee : a_end a = a_end b).
    { destruct (Z.lt_trichotomy (a_end a) (a_end b)) as [Hlt|[?|Hlt]]; [|assumption|].
      - pose proof (proj2 (Hin (a_end a)) ltac:(left; lia)) as [?|X]; [lia|apply Hbel in X; lia].
      - pose proof (proj1 (Hin (a_end b)) ltac:(left; lia)) as [?|X]; [lia|apply Kbel in X; lia]. }
    cbn [map]; f_equal; [unfold bounds; congruence|].
    apply (IH (a_end a)); [exact L3|rewrite Ee; exact K3|]; intros x; specialize (Hin x); split; intros X.
    + pose proof (Hbel x X); intuition lia.
    + pose proof (Kbel x X); intuition lia.
Qed.

(** ** Client vectors *)

(** What the exported interface builds: areas with a gap between them, all of
    type 0, no callback that decides about merging. *)
Definition client_ok (v : vm_area_vector_t) : Prop := vector_ok 1 v /\ one_type 0 0 v.

Definition empty_client : vmstate :=
  mk_vmstate (vmvector_init_vector (mk_vector [] 0 0 false false None None None) 0) [].

Lemma empty_client_ok : client_ok (vec empty_client).
Proof. unfold client_ok, vector_ok, one_type; cbn; repeat split; auto; unfold v_length; cbn; lia. Qed.

Lemma client_gap v : client_ok v -> gap_ok 1 0 0 v.
Proof. intros [_ H]; right; auto. Qed.

Lemma gap_client v : vector_ok 1 v -> gap_ok 1 0 0 v -> client_ok v.
Proof. intros H [?|[_ H2]]; [lia|split; assumption]. Qed.

(** Replacing a payload keeps the areas. *)
Lemma set_payload_ok g s i a d :
  area_at s i = Some a ->
  (vector_ok g (vec s) -> vector_ok g (vec (set_area s i (with_custom a d)))) /\
  (one_type 0 0 (vec s) -> one_type 0 0 (vec (set_area s i (with_custom a d)))) /\
  forall x, covered (buf (vec (set_area s i (with_custom a d)))) x <-> covered (buf (vec s)) x.
Proof.
  intros Ha; apply area_at_lookup in Ha as [_ Ha]; unfold set_area; cbn [set_buf with_buf vec buf].
  pose proof (take_drop_middle _ _ _ Ha) as E.
  assert (E' : <[Z.to_nat i:=with_custom a d]> (buf (vec s))
               = take (Z.to_nat i) (buf (vec s)) ++ with_custom a d :: drop (S (Z.to_nat i)) (buf (vec s)))
    by (rewrite insert_take_drop by (eapply lookup_lt_Some; eauto); reflexivity).
  set (p := take (Z.to_nat i) (buf (vec s))) in *; set (q := drop (S (Z.to_nat i)) (buf (vec s))) in *.
  assert (Es : forall g lo, sorted_from g lo (p ++ with_custom a d :: q) <-> sorted_from g lo (p ++ a :: q))
    by (intros; rewrite !sorted_app; reflexivity).
  unfold vector_ok, one_type, v_length; cbn [with_buf buf v_size flags should_merge_func]; rewrite E', <- E; split; [|split].
  - intros (H1 & H2 & H3); rewrite Es, length_app in *; rewrite Forall_app, Forall_cons_iff in *; cbn in *; auto.
  - rewrite !Forall_app, !Forall_cons_iff; tauto.
  - intros x; rewrite !covered_app, !covered_cons; reflexivity.
Qed.

(** ** Sequences of operations *)

Inductive vop :=
| Op_add (start end_ data : Z)
| Op_add_replace (start end_ data : Z)
| Op_remove (start end_ : Z)
| Op_remove_containing (pc : Z)
| Op_modify (start end_ data : Z).

Definition vop_ok (op : vop) : Prop :=
  match op with
  | Op_add st en _ | Op_add_replace st en _ | Op_remove st en => 0 <= st < en /\ en <= POINTER_MAX
  | Op_remove_containing pc | Op_modify pc _ _ => 0 <= pc < 2 ^ 64
  end.

Definition vstep (o : vm_options) (s : vmstate) (op : vop) : option vmstate :=
  match op with
  | Op_add st en d => vmvector_add o s st en d
  | Op_add_replace st en d => option_map fst (vmvector_add_replace o s st en d)
  | Op_remove st en => option_map fst (vmvector_remove o s st en)
  | Op_remove_containing pc => option_map fst (vmvector_remove_containing_area o s pc)
  | Op_modify st en d => option_map fst (vmvector_modify_data s st en d)
  end.

Fixpoint vrun (o : vm_options) (s : vmstate) (ops : list vop) : option vmstate :=
  match ops with [] => Some s | op :: ops => let? s := vstep o s op in vrun o s ops end.

(** The same operations on sets of addresses. *)
Inductive set_step (X : Z -> Prop) : vop -> (Z -> Prop) -> Prop :=
| Set_add st en d Y : (forall x, Y x <-> X x \/ st <= x < en) -> set_step X (Op_add st en d) Y
| Set_add_replace st en d Y : (forall x, Y x <-> X x \/ st <= x < en) -> set_step X (Op_add_replace st en d) Y
| Set_remove st en Y : (forall x, Y x <-> X x /\ ~ st <= x < en) -> set_step X (Op_remove st en) Y
| Set_remove_none pc Y : ~ X pc -> (forall x, Y x <-> X x) -> set_step X (Op_remove_containing pc) Y
| Set_remove_interval pc st en Y :        (* the maximal interval around [pc] *)
    st <= pc < en -> (forall x, st <= x < en -> X x) -> ~ X (st - 1) -> ~ X en ->
    (forall x, Y x <-> X x /\ ~ st <= x < en) -> set_step X (Op_remove_containing pc) Y
| Set_modify st en d Y : (forall x, Y x <-> X x) -> set_step X (Op_modify st en d) Y.

Inductive set_run (X : Z -> Prop) : list vop -> (Z -> Prop) -> Prop :=
| Set_run_nil Y : (forall x, Y x <-> X x) -> set_run X [] Y
| Set_run_cons op ops Y V : set_step X op Y -> set_run Y ops V -> set_run X (op :: ops) V.

Section Client.
Context (o : vm_options) (Ho : options_ok o).

Lemma client_add s st en d :
  client_ok (vec s) -> 0 <= st < en -> en <= POINTER_MAX ->
  exists s', add_vm_area o (enough s) s st en 0 0 d = Some s' /\ client_ok (vec s') /\
    forall x, covered (buf (vec s')) x <-> covered (buf (vec s)) x \/ st <= x < en.
Proof.
  intros Hc H1 H2; destruct (add_vm_area_ok o 1 s st en 0 0 d Ho (client_gap _ Hc) (proj1 Hc) H1 H2) as (s' & R & Hv & Hgp & _ & Hx).
  exists s'; split; [exact R|split; [now apply gap_client|exact Hx]].
Qed.

Lemma client_remove s st en rp :
  client_ok (vec s) -> 0 <= st < en -> en <= POINTER_MAX ->
  exists s' b, remove_vm_area o s st en rp = Some (s', b) /\ client_ok (vec s') /\
    (b = true <-> exists x, st <= x < en /\ covered (buf (vec s)) x) /\
    forall x, covered (buf (vec s')) x <-> covered (buf (vec s)) x /\ ~ st <= x < en.
Proof.
  intros Hc H1 H2; destruct (remove_vm_area_ok o 1 s st en rp Ho (client_gap _ Hc) (proj1 Hc) H1 H2) as (s' & b & R & Hv & Hgp & _ & Hb & Hx).
  exists s', b; split; [exact R|split; [now apply gap_client|auto]].
Qed.

(** An area of a client vector is a maximal interval. *)
Lemma client_maximal s i a :
  client_ok (vec s) -> area_at s i = Some a ->
  (forall x, a_start a <= x < a_end a -> covered (buf (vec s)) x) /\
  ~ covered (buf (vec s)) (a_start a - 1) /\ ~ covered (buf (vec s)) (a_end a).
Proof.
  intros [(Hs & He & _) _] Ha; split; [intros x Hx; apply covered_area; eauto|].
  apply area_at_lookup in Ha as [_ Ha]; rewrite <- (take_drop_middle _ _ _ Ha) in Hs |- *.
  set (p := take _ _) in *; set (q := drop _ _) in *; rewrite sorted_app in Hs; cbn [sorted_from] in Hs; destruct Hs as (H1 & H2 & H3 & H4).
  rewrite !covered_app, !covered_cons.
  assert (Hq : forall x, covered q x -> a_end a + 1 <= x) by (intros x; now apply (covered_above 1)).
  assert (Hp : forall x, covered p x -> x < last_end (- (1)) p).
  { intros x Hx; apply Exists_exists in Hx as (c & Hc & Hx); pose proof (sorted_upper 1 _ _ ltac:(lia) H1) as Hu.
    rewrite Forall_forall in Hu; specialize (Hu c Hc); lia. }
  split; intros [X|[X|X]]; try apply Hq in X; try apply Hp in X; lia.
Qed.

(** Each operation succeeds, keeps the invariant and does its step on sets. *)
Lemma vstep_simulates s op :
  client_ok (vec s) -> vop_ok op ->
  exists s', vstep o s op = Some s' /\ client_ok (vec s') /\ set_step (covered (buf (vec s))) op (covered (buf (vec s'))).
Proof.
  intros Hc Hop; destruct op as [st en d|st en d|st en|pc|st en d]; cbn [vstep vop_ok] in *.
  - destruct (client_add s st en d Hc) as (s' & R & Hc' & Hx); try tauto; exists s'; split; [exact R|split; [exact Hc'|now constructor]].
  - unfold vmvector_add_replace; destruct (lookup_addr_covered 1 s ltac:(lia) (proj1 Hc) st) as (f & i & R & Hf & Ha); [unfold POINTER_MAX in *; lia|].
    rewrite R; cbn [obind].
    assert (Hadd : exists s', option_map fst (let? s' := add_vm_area o (enough s) s st en 0 0 d in Some (s', 0)) = Some s' /\ client_ok (vec s') /\
                   set_step (covered (buf (vec s))) (Op_add_replace st en d) (covered (buf (vec s')))).
    { destruct (client_add s st en d Hc) as (s' & R' & Hc' & Hx); try tauto.
      rewrite R'; exists s'; split; [reflexivity|split; [exact Hc'|now constructor]]. }
    destruct f; cbn [obind]; [|exact Hadd]; destruct (Ha eq_refl) as (a & Ea & Hx); rewrite Ea; cbn [obind].
    destruct ((st =? a_start a) && (en =? a_end a)) eqn:Eb; [|exact Hadd]; zbool; cbn [option_map fst].
    destruct (set_payload_ok 1 s i a d Ea) as (P1 & P2 & P3); eexists; split; [reflexivity|].
    split; [split; [apply P1, Hc|apply P2, Hc]|]; constructor; intros x; rewrite P3; split; [tauto|].
    intros [?|?]; [assumption|]; apply (client_maximal s i a Hc Ea); lia.
  - destruct (client_remove s st en false Hc) as (s' & b & R & Hc' & _ & Hx); try tauto; unfold vmvector_remove; rewrite R.
    exists s'; split; [reflexivity|split; [exact Hc'|now constructor]].
  - unfold vmvector_remove_containing_area; destruct (lookup_addr_covered 1 s ltac:(lia) (proj1 Hc) pc Hop) as (f & i & R & Hf & Ha).
    rewrite R; cbn [obind]; destruct f.
    + destruct (Ha eq_refl) as (a & Ea & Hx); rewrite Ea; cbn [obind].
      pose proof (area_bounds 1 s ltac:(lia) (proj1 Hc) i a Ea) as Hb; destruct (client_maximal s i a Hc Ea) as (M1 & M2 & M3).
      destruct (client_remove s (a_start a) (a_end a) false Hc) as (s' & b & R' & Hc' & _ & Hx'); try lia; rewrite R'.
      exists s'; split; [reflexivity|split; [exact Hc'|]]; eapply Set_remove_interval; eauto.
    + exists s; split; [reflexivity|split; [exact Hc|]]; apply Set_remove_none; [|reflexivity].
      intros X; apply Hf in X; discriminate.
  - unfold vmvector_modify_data; destruct (lookup_addr_covered 1 s ltac:(lia) (proj1 Hc) st Hop) as (f & i & R & Hf & Ha).
    rewrite R; cbn [obind]; destruct f; [|exists s; split; [reflexivity|split; [exact Hc|now constructor]]].
    destruct (Ha eq_refl) as (a & Ea & Hx); rewrite Ea; cbn [obind].
    destruct (_ && _); [|exists s; split; [reflexivity|split; [exact Hc|now constructor]]].
    destruct (set_payload_ok 1 s i a d Ea) as (P1 & P2 & P3); eexists; split; [reflexivity|].
    split; [split; [apply P1, Hc|apply P2, Hc]|]; now constructor.
Qed.

Lemma vrun_simulates ops : forall s,
  client_ok (vec s) -> Forall vop_ok ops ->
  exists s', vrun o s ops = Some s' /\ client_ok (vec s') /\ set_run (covered (buf (vec s))) ops (covered (buf (vec s'))).
Proof.
  induction ops as [|op ops IH]; intros s Hc Hops; cbn [vrun].
  - exists s; split; [reflexivity|split; [exact Hc|now constructor]].
  - apply Forall_cons_iff in Hops as [H1 H2]; destruct (vstep_simulates s op Hc H1) as (s1 & R1 & Hc1 & S1).
    destruct (IH s1 Hc1 H2) as (s2 & R2 & Hc2 & S2); rewrite R1; cbn [obind].
    exists s2; split; [exact R2|split; [exact Hc2|econstructor; eauto]].
Qed.
End Client.

(** ** Theorems *)

(** C4: A client vector built by any sequence of operations on ranges of the
    address space exists, is sorted with a gap between its areas and within its
    capacity, and stands for the set of addresses that the same operations give
    on sets, where removing the area around an address removes the maximal
    interval there.  The set determines the areas, and both queries decide it,
    at the last address of the address space too. *)
Theorem vmvector_implements_sets o ops :
  options_ok o -> Forall vop_ok ops ->
  exists s, vrun o empty_client ops = Some s /\ client_ok (vec s) /\
    set_run (fun _ => False) ops (covered (buf (vec s))) /\
    (forall t, client_ok (vec t) -> (forall x, covered (buf (vec t)) x <-> covered (buf (vec s)) x) ->
       map bounds (buf (vec t)) = map bounds (buf (vec s))) /\
    (forall pc, 0 <= pc < 2 ^ 64 ->
       exists r, vmvector_lookup_data s pc = Some r /\ (r <> None <-> covered (buf (vec s)) pc)) /\
    (forall st en, 0 <= st < en -> en < 2 ^ 64 ->
       exists b, vmvector_overlap s st en = Some b /\ (b = true <-> exists x, st <= x < en /\ covered (buf (vec s)) x)).
Proof.
  intros Ho Hops; destruct (vrun_simulates o Ho ops empty_client empty_client_ok Hops) as (s & R & Hc & Hr).
  exists s; split; [exact R|split; [exact Hc|split; [|split; [|split]]]].
  - revert Hr; generalize (covered (buf (vec s))); intros Y Hr.
    assert (E : forall x, covered (buf (vec empty_client)) x <-> False) by (intros x; apply covered_nil).
    clear - Hr E; revert E Hr; generalize (covered (buf (vec empty_client))); intros X E Hr.
    destruct Hr as [Y HY|op ops Y V HS HR]; [constructor; intros x; now rewrite HY|econstructor; [|exact HR]].
    destruct HS; econstructor; eauto; try (intros; rewrite <- E; auto); intros; rewrite H || rewrite H0 || rewrite H3; rewrite E; tauto.
  - intros t [(Ht & _) _] Hx; destruct Hc as [(Hs & _) _]; eapply canonical; eauto.
  - intros pc Hpc; unfold vmvector_lookup_data.
    destruct (lookup_addr_covered 1 s ltac:(lia) (proj1 Hc) pc Hpc) as (f & i & R' & Hf & Ha); rewrite R'; cbn [obind].
    destruct f; [destruct (Ha eq_refl) as (a & Ea & _); rewrite Ea; cbn [obind]|];
      eexists; (split; [reflexivity|]); rewrite <- Hf; split; congruence || auto.
  - intros st en H1 H2; apply (vmvector_overlap_spec 1); auto; [lia|apply Hc].
Qed.

Definition sample_ops : list vop := [Op_add 16 32 7; Op_add 32 48 8; Op_remove 20 24; Op_remove_containing 17].

Lemma vmvector_implements_sets_witness :
  exists s, vrun default_options empty_client sample_ops = Some s /\ client_ok (vec s).
Proof.
  destruct (vmvector_implements_sets default_options sample_ops) as (s & R & Hc & _);
    [split; reflexivity| |eauto].
  repeat (apply Forall_cons_iff; split; [vm_compute; intuition congruence|]); apply Forall_nil_2.
Defined.

(** C7: In a vector with any callbacks, adding a range that meets the assertions
    of [add_vm_area] (it is not empty, the vector is not marked
    [VECTOR_NEVER_OVERLAP] if it overlaps an area, and its flags differ from those
    of the areas it overlaps only where that is allowed) succeeds with the
    recursion bounded by the number of areas, keeps the areas sorted, disjoint,
    not empty and within the capacity, and adds exactly the addresses of the
    range to the addresses covered. *)
Theorem add_vm_area_invariant o s st en vm_flags frag_flags data :
  options_ok o -> vector_ok 0 (vec s) -> 0 <= st -> en <= POINTER_MAX ->
  add_asserts o (vec s) st en vm_flags frag_flags = true ->
  exists s', add_vm_area o (enough s) s st en vm_flags frag_flags data = Some s' /\ vector_ok 0 (vec s') /\
    same_params (vec s) (vec s') /\
    forall x, covered (buf (vec s')) x <-> covered (buf (vec s)) x \/ st <= x < en.
Proof.
  intros Ho Hok H1 H2 Ha; apply andb_true_iff in Ha as [Hse _]; apply Z.ltb_lt in Hse.
  destruct (add_vm_area_ok o 0 s st en vm_flags frag_flags data Ho (or_introl eq_refl) Hok (conj H1 Hse) H2)
    as (s' & R & Hv & _ & Hsp & Hx); eauto 10.
Qed.

(** A writable area and one that is not, with a gap, in a vector with a merge callback. *)
Definition mixed_state : vmstate :=
  mk_vmstate (mk_vector [mk_area 16 32 1 0 5; mk_area 40 48 0 0 6] 100 0 false true (Some (fun d => d))
                (Some (fun adjacent _ _ => adjacent)) (Some (fun dst _ => dst))) [].

Lemma mixed_state_ok : vector_ok 0 (vec mixed_state).
Proof.
  split; [cbn; lia|split; [|unfold v_length; cbn; lia]].
  repeat (apply Forall_cons_iff; split; [vm_compute; congruence|]); apply Forall_nil_2.
Qed.

Lemma add_vm_area_invariant_witness :
  exists s', add_vm_area default_options (enough mixed_state) mixed_state 8 56 0 0 9 = Some s' /\ vector_ok 0 (vec s').
Proof.
  destruct (add_vm_area_invariant default_options mixed_state 8 56 0 0 9) as (s' & R & Hv & _);
    [split; reflexivity|exact mixed_state_ok|lia|vm_compute; discriminate|reflexivity|eauto].
Defined.

(** C15: Removing a range removes exactly its addresses, from a vector of any kind;
    the result says whether there was anything to remove. *)
Theorem remove_vm_area_correct o s st en restore_prot :
  options_ok o -> vector_ok 0 (vec s) -> 0 <= st < en -> en <= POINTER_MAX ->
  exists s' b, remove_vm_area o s st en restore_prot = Some (s', b) /\ vector_ok 0 (vec s') /\
    (b = true <-> exists x, st <= x < en /\ covered (buf (vec s)) x) /\
    forall x, covered (buf (vec s')) x <-> covered (buf (vec s)) x /\ ~ st <= x < en.
Proof.
  intros Ho Hok H1 H2; destruct (remove_vm_area_ok o 0 s st en restore_prot Ho (or_introl eq_refl) Hok H1 H2)
    as (s' & b & R & Hv & _ & _ & Hb & Hx); eauto 10.
Qed.

Lemma remove_vm_area_correct_witness :
  exists s' b, remove_vm_area default_options mixed_state 20 24 true = Some (s', b) /\ vector_ok 0 (vec s').
Proof.
  destruct (remove_vm_area_correct default_options mixed_state 20 24 true) as (s' & b & R & Hv & _);
    [split; reflexivity|exact mixed_state_ok|lia|vm_compute; discriminate|eauto].
Defined.

(** C17: The binary search terminates within the number of areas and finds an area
    that overlaps the range if there is one, the first if asked; otherwise its
    index is that of the last area in front of the range, or -1.  An end of 0
    is the top of the address space. *)
Theorem binary_search_correct s start end_ first :
  vector_ok 0 (vec s) -> 0 <= start < open_end end_ -> start <> end_ ->
  exists found i, binary_search s start end_ first = Some (found, i) /\
    if found then
      exists a, area_at s i = Some a /\ start < a_end a /\ a_start a < open_end end_ /\
        (first = true -> forall k c, area_at s k = Some c -> k < i -> a_end c <= start)
    else -1 <= i < v_length (vec s) /\
      (forall k c, area_at s k = Some c -> k <= i -> a_end c <= start) /\
      (forall k c, area_at s k = Some c -> i < k -> open_end end_ <= a_start c).
Proof. intros; now apply (binary_search_spec 0). Qed.

Lemma binary_search_correct_witness : exists found i, binary_search mixed_state 33 0 true = Some (found, i).
Proof.
  destruct (binary_search_correct mixed_state 33 0 true mixed_state_ok) as (f & i & R & _); [vm_compute; split; congruence|discriminate|eauto].
Defined.

(** ** A new area and its payload *)

Section Apart.
Context (o : vm_options) (Ho : options_ok o) (s : vmstate) (st en vm_flags frag_flags data : Z).

(** A range that touches no area becomes an area of its own. *)
Lemma add_apart p q :
  vector_ok 0 (vec s) -> st < en -> buf (vec s) = p ++ q ->
  Forall (fun a => a_end a < st) p -> Forall (fun a => en < a_start a) q ->
  exists s', add_vm_area o (enough s) s st en vm_flags frag_flags data = Some s' /\
    buf (vec s') = p ++ mk_area st en vm_flags frag_flags data :: q.
Proof.
  intros (Hs & He & Hz) Hlt E Hp Hq; unfold enough; cbn [add_vm_area]; set (add_rest := fun _ _ _ _ => _).
  replace (List.length (buf (vec s))) with (List.length p + List.length q)%nat by (rewrite E, length_app; reflexivity).
  rewrite E, sorted_app in Hs; destruct Hs as [Hs1 Hs2].
  change 0 with (Z.of_nat (List.length (@nil vm_area_t))).
  rewrite (add_loop_skip vm_flags frag_flags data add_rest p [] q); auto.
  2: { eapply Forall_impl; [|exact Hp]; intros a Ha; cbv beta in Ha; split; [lia|intros; lia]. }
  2: { eapply Forall_impl; [|exact (proj1 (sorted_bounds 0 _ p ltac:(lia) Hs1))]; cbv beta; lia. }
  cbn [app]; assert (R : add_loop vm_flags frag_flags data add_rest (List.length q) (Z.of_nat (List.length p)) s st en (-1)
                     = Some (mk_search s (Z.of_nat (List.length p)) st en (-1) (-1))).
  { destruct q as [|a q]; [reflexivity|]; cbn [add_loop List.length]; rewrite (area_at_app s p a q E); cbn [obind].
    apply Forall_cons_iff in Hq as [Ha _].
    assert (Hj : should_join (vec s) a st en vm_flags frag_flags data = false).
    { unfold should_join, overlaps; replace (a_start a <? en) with false by (symmetry; apply Z.ltb_ge; lia).
      replace (a_start a <=? en) with false by (symmetry; apply Z.leb_gt; lia); now rewrite !andb_false_r. }
    rewrite Hj; cbn [Z.ltb Z.compare]; now replace (en <=? a_start a) with true by (symmetry; apply Z.leb_le; lia). }
  rewrite R; cbn [obind sr_overlap_start Z.eqb Pos.eqb sr_state sr_i sr_start sr_end].
  eexists; split; [reflexivity|]; eapply add_new_spec; eauto.
Qed.

(** A sorted vector splits around a range that touches none of its areas. *)
Lemma split_around l lo :
  sorted_from 0 lo l -> Forall (fun a => a_end a < st \/ en < a_start a) l -> st < en ->
  exists p q, l = p ++ q /\ Forall (fun a => a_end a < st) p /\ Forall (fun a => en < a_start a) q.
Proof.
  intros Hs H Hlt; revert lo Hs; induction l as [|a l IH]; intros lo Hs; [exists [], []; auto|].
  apply Forall_cons_iff in H as [Ha Hl]; destruct Hs as (S1 & S2 & S3).
  destruct (Z.lt_ge_cases (a_end a) st) as [H1|H1].
  - destruct (IH Hl _ S3) as (p & q & -> & Hp & Hq); exists (a :: p), q; split; [reflexivity|].
    split; [apply Forall_cons_iff; auto|exact Hq].
  - exists [], (a :: l); split; [reflexivity|split; [apply Forall_nil_2|]]; apply Forall_cons_iff; split; [lia|].
    eapply Forall_impl; [|exact (sorted_lower 0 _ _ ltac:(lia) S3)]; cbv beta; lia.
Qed.
End Apart.

(** The lookup returns the payload of the one area around an address. *)
Lemma lookup_unique s i a pc :
  vector_ok 0 (vec s) -> area_at s i = Some a -> a_start a <= pc < a_end a ->
  vmvector_lookup_data s pc = Some (Some (a_start a, a_end a, a_custom a)).
Proof.
  intros Hok Ha Hpc; pose proof (area_bounds 0 s ltac:(lia) Hok i a Ha) as Hb.
  destruct (lookup_addr_covered 0 s ltac:(lia) Hok pc) as (f & j & R & Hf & Hj); [unfold POINTER_MAX in *; lia|].
  unfold vmvector_lookup_data; rewrite R; cbn [obind].
  assert (f = true) as -> by (apply Hf, covered_area; eauto).
  destruct (Hj eq_refl) as (b & Eb & Hb'); rewrite Eb; cbn [obind].
  enough (i = j) as -> by (rewrite Ha in Eb; injection Eb as ->; reflexivity).
  destruct (Z.lt_trichotomy i j) as [H|[H|H]]; [|exact H|];
    [pose proof (area_order 0 s ltac:(lia) Hok _ _ _ _ Ha Eb H)|pose proof (area_order 0 s ltac:(lia) Hok _ _ _ _ Eb Ha H)]; lia.
Qed.

(** C30: A range that touches no area is stored with its payload: every address of
    it is looked up to that range and payload, and every other address to what
    it was looked up to before. *)
Theorem add_lookup_roundtrip o s st en data :
  options_ok o -> vector_ok 0 (vec s) -> 0 <= st < en -> en <= POINTER_MAX ->
  Forall (fun a => a_end a < st \/ en < a_start a) (buf (vec s)) ->
  exists s', vmvector_add o s st en data = Some s' /\
    (forall pc, st <= pc < en -> vmvector_lookup_data s' pc = Some (Some (st, en, data))) /\
    (forall pc, 0 <= pc < 2 ^ 64 -> ~ st <= pc < en -> vmvector_lookup_data s' pc = vmvector_lookup_data s pc).
Proof.
  intros Ho Hok Hlt Hen Hap; destruct (split_around st en (buf (vec s)) 0) as (p & q & E & Hp & Hq); auto; [apply Hok|lia|].
  destruct (add_apart o Ho s st en 0 0 data p q Hok ltac:(lia) E Hp Hq) as (s' & R & E').
  destruct (add_vm_area_ok o 0 s st en 0 0 data Ho (or_introl eq_refl) Hok Hlt Hen) as (s2 & R2 & Hok' & _ & _ & Hx).
  rewrite R in R2; injection R2 as <-; exists s'; split; [exact R|]; split.
  - intros pc Hpc; apply (lookup_unique s' (Z.of_nat (List.length p)) (mk_area st en 0 0 data)); auto; now apply (area_at_app s' p _ q).
  - intros pc Hpc Hout.
    destruct (lookup_addr_covered 0 s ltac:(lia) Hok pc Hpc) as (f & i & Rl & Hf & Hi).
    destruct (lookup_addr_covered 0 s' ltac:(lia) Hok' pc Hpc) as (f' & i' & Rl' & Hf' & _).
    unfold vmvector_lookup_data at 2; rewrite Rl; cbn [obind]; destruct f; cbn [obind].
    + destruct (Hi eq_refl) as (a & Ea & Ha); rewrite Ea; cbn [obind].
      assert (Ej : exists j, area_at s' j = Some a).
      { apply area_at_lookup in Ea as [H0 Ea]; rewrite E in Ea; apply lookup_app_Some in Ea as [Ea|[Hle Ea]].
        - exists i; apply area_at_lookup; split; [exact H0|]; rewrite E'; apply lookup_app_l_Some, Ea.
        - exists (i + 1); apply area_at_lookup; split; [lia|]; rewrite E', lookup_app_r by lia.
          replace (Z.to_nat (i + 1) - List.length p)%nat with (S (Z.to_nat i - List.length p)) by lia; exact Ea. }
      destruct Ej as (j & Ej); exact (lookup_unique s' j a pc Hok' Ej Ha).
    + unfold vmvector_lookup_data; rewrite Rl'; cbn [obind]; destruct f'; [|reflexivity].
      exfalso; assert (X : covered (buf (vec s')) pc) by tauto; apply Hx in X as [X|X]; [apply Hf in X; discriminate|tauto].
Qed.

Lemma add_lookup_roundtrip_witness :
  exists s', vmvector_add default_options mixed_state 33 39 77 = Some s' /\
    vmvector_lookup_data s' 35 = Some (Some (33, 39, 77)).
Proof.
  destruct (add_lookup_roundtrip default_options mixed_state 33 39 77) as (s' & R & H & _);
    [split; reflexivity|exact mixed_state_ok|lia|vm_compute; congruence| |exists s'; split; [exact R|apply H; lia]].
  repeat (apply Forall_cons_iff; split; [cbn; lia|]); apply Forall_nil_2.
Defined.

(** ** Neighbours and iteration *)

(** C39: [vmvector_lookup_prev_next] fails exactly for an address inside an area.
    For any other address it returns the bounds of the areas on either side, with
    no area in between; where there is none below they are 0, where there is none
    above they are [POINTER_MAX]. *)
Theorem lookup_prev_next_correct s pc :
  vector_ok 0 (vec s) -> 0 <= pc < 2 ^ 64 ->
  exists r, vmvector_lookup_prev_next s pc = Some r /\
    match r with
    | None => covered (buf (vec s)) pc
    | Some (ps, pe, (ns, ne)) =>
        ~ covered (buf (vec s)) pc /\ pe <= pc /\ (pc < ns \/ ns = POINTER_MAX) /\
        (forall x, covered (buf (vec s)) x -> x < pe \/ ns <= x) /\
        ((ps, pe) = (0, 0) \/ exists i a, area_at s i = Some a /\ bounds a = (ps, pe)) /\
        ((ns, ne) = (POINTER_MAX, POINTER_MAX) \/ exists i a, area_at s i = Some a /\ bounds a = (ns, ne))
    end.
Proof.
  intros Hok Hpc; destruct (lookup_addr_spec 0 s ltac:(lia) Hok pc Hpc) as (f & i & R & Hr).
  unfold vmvector_lookup_prev_next; unfold lookup_addr in R; rewrite R; cbn [obind]; destruct f.
  { exists None; split; [reflexivity|]; apply covered_area; destruct Hr as (a & Ha); eauto. }
  destruct Hr as (Hi & L & U).
  assert (Hprev : exists ps pe, (if i =? -1 then Some (0, 0) else let? a := area_at s i in Some (a_start a, a_end a)) = Some (ps, pe) /\
    pe <= pc /\ (forall k c, area_at s k = Some c -> k <= i -> a_end c <= pe) /\
    ((ps, pe) = (0, 0) \/ exists i a, area_at s i = Some a /\ bounds a = (ps, pe))).
  { destruct (Z.eqb_spec i (-1)) as [->|Hn].
    - exists 0, 0; split; [reflexivity|split; [lia|split; [|auto]]]; intros k c Hk; apply area_at_range in Hk; lia.
    - destruct (area_at_some s i ltac:(lia)) as [a Ha]; rewrite Ha; cbn [obind]; exists (a_start a), (a_end a).
      split; [reflexivity|split; [now apply (L i)|split; [|right; exists i, a; auto]]]; intros k c Hk Hle.
      destruct (Z.eq_dec k i) as [->|]; [rewrite Ha in Hk; injection Hk as ->; lia|].
      pose proof (area_order 0 s ltac:(lia) Hok _ _ _ _ Hk Ha ltac:(lia)); pose proof (area_bounds 0 s ltac:(lia) Hok i a Ha); lia. }
  assert (Hnext : exists ns ne, (if v_length (vec s) - 1 <=? i then Some (POINTER_MAX, POINTER_MAX)
                                 else let? a := area_at s (i + 1) in Some (a_start a, a_end a)) = Some (ns, ne) /\
    (pc < ns \/ ns = POINTER_MAX) /\ (forall k c, area_at s k = Some c -> i < k -> ns <= a_start c) /\
    ((ns, ne) = (POINTER_MAX, POINTER_MAX) \/ exists i a, area_at s i = Some a /\ bounds a = (ns, ne))).
  { destruct (Z.leb_spec (v_length (vec s) - 1) i).
    - exists POINTER_MAX, POINTER_MAX; split; [reflexivity|split; [auto|split; [|auto]]]; intros k c Hk; apply area_at_range in Hk; lia.
    - destruct (area_at_some s (i + 1) ltac:(lia)) as [a Ha]; rewrite Ha; cbn [obind]; exists (a_start a), (a_end a).
      split; [reflexivity|split; [left; apply (U (i + 1)); [exact Ha|lia]|split; [|right; exists (i + 1), a; auto]]]; intros k c Hk Hlt.
      destruct (Z.eq_dec k (i + 1)) as [->|]; [rewrite Ha in Hk; injection Hk as ->; lia|].
      pose proof (area_order 0 s ltac:(lia) Hok _ _ _ _ Ha Hk ltac:(lia)); pose proof (area_bounds 0 s ltac:(lia) Hok _ _ Ha); lia. }
  destruct Hprev as (ps & pe & -> & P1 & P2 & P3), Hnext as (ns & ne & -> & N1 & N2 & N3); cbn [obind].
  eexists; split; [reflexivity|]; split; [|split; [exact P1|split; [exact N1|split; [|split; assumption]]]].
  - intros Hc; apply covered_area in Hc as (k & c & Hk & Hx).
    destruct (Z.le_gt_cases k i); [specialize (L k c Hk)|specialize (U k c Hk)]; lia.
  - intros x Hc; apply covered_area in Hc as (k & c & Hk & Hx).
    destruct (Z.le_gt_cases k i); [specialize (P2 k c Hk)|specialize (N2 k c Hk)]; lia.
Qed.

Lemma lookup_prev_next_correct_witness :
  vmvector_lookup_prev_next mixed_state 35 = Some (Some (16, 32, (40, 48))) /\ ~ covered (buf (vec mixed_state)) 35.
Proof.
  assert (E : vmvector_lookup_prev_next mixed_state 35 = Some (Some (16, 32, (40, 48)))) by (vm_compute; reflexivity).
  split; [exact E|]; destruct (lookup_prev_next_correct mixed_state 35 mixed_state_ok) as (r & R & H); [lia|].
  rewrite E in R; injection R as <-; exact (proj1 H).
Defined.

(** Walking a vector with the iterator. *)
Fixpoint iterate (fuel : nat) (s : vmstate) (index : Z) : option (list (Z * Z * Z)) :=
  if vmvector_iterator_hasnext s index then
    match fuel with
    | O => None
    | S fuel =>
        let? (r, index) := vmvector_iterator_next s index in
        let? l := iterate fuel s index in Some (r :: l)
    end
  else Some [].

Lemma iterate_from s p q fuel :
  buf (vec s) = p ++ q -> (List.length q <= fuel)%nat ->
  iterate fuel s (Z.of_nat (List.length p) - 1) = Some (map (fun a => (a_start a, a_end a, a_custom a)) q).
Proof.
  revert p fuel; induction q as [|a q IH]; intros p fuel E Hf.
  - assert (Hn : vmvector_iterator_hasnext s (Z.of_nat (List.length p) - 1) = false).
    { unfold vmvector_iterator_hasnext, v_length; rewrite E, app_nil_r; apply Z.ltb_ge; lia. }
    destruct fuel; cbn [iterate]; now rewrite Hn.
  - destruct fuel as [|fuel]; [simpl in Hf; lia|]; cbn [iterate].
    assert (Hn : vmvector_iterator_hasnext s (Z.of_nat (List.length p) - 1) = true).
    { unfold vmvector_iterator_hasnext, v_length; rewrite E, length_app; apply Z.ltb_lt; simpl; lia. }
    rewrite Hn; unfold vmvector_iterator_next, vmvector_iterator_peek.
    replace (Z.of_nat (List.length p) - 1 + 1) with (Z.of_nat (List.length p)) by lia.
    rewrite (area_at_app s p a q E); cbn [obind].
    replace (Z.of_nat (List.length p)) with (Z.of_nat (List.length (p ++ [a])) - 1) by (rewrite length_app; simpl; lia).
    rewrite IH; [reflexivity|now rewrite <- (assoc_L (++))|simpl in Hf; lia].
Qed.

(** The iterator visits every area once, in address order. *)
Theorem iterator_visits_all s :
  iterate (List.length (buf (vec s))) s vmvector_iterator_start
  = Some (map (fun a => (a_start a, a_end a, a_custom a)) (buf (vec s))).
Proof. apply (iterate_from s []); auto. Qed.

(** ** Types and payloads *)

(** Decide every comparison that arithmetic settles. *)
Ltac decide_all := repeat (zdecide; cbn [andb orb negb]).

(** A new range of the type of the area before it, inside an area of another
    type that begins where the first ends: the comment says that the range
    becomes part of the area it is in, but the two old areas are joined, and the
    second loses its type. *)
Theorem add_inside_changes_type o x y z w f f' d1 d2 data n :
  x < y -> y < z -> z <= w -> f <> f' -> drop_flags f (mk_area y w f' 0 d2) = mk_area y w f' 0 d2 ->
  add_vm_area o 3 (mk_vmstate (mk_vector [mk_area x y f 0 d1; mk_area y w f' 0 d2] n 0 false false None None None) []) y z f 0 data
  = Some (mk_vmstate (mk_vector [mk_area x w f 0 d1] n 0 false false None None None) []).
Proof.
  intros H1 H2 H3 Hf Hd.
  assert (Hd1 : drop_flags f (mk_area x y f 0 d1) = mk_area x y f 0 d1) by exact (drop_flags_id (mk_area x y f 0 d1)).
  set (s0 := mk_vmstate _ _).
  assert (R : forall rec, add_loop f 0 data rec 2 0 s0 y z (-1) = Some (mk_search s0 2 y z 0 (-1))).
  { intros rec; cbn [add_loop].
    change (area_at s0 0) with (Some (mk_area x y f 0 d1)); cbn [obind].
    unfold should_join at 1, overlaps at 1; cbn [a_start a_end a_vm_flags a_frag_flags vec s0 flags should_merge_func].
    decide_all; change (TEST FRAG_COARSE_GRAIN 0) with false; change (TEST VECTOR_NEVER_MERGE_ADJACENT 0) with false; cbn [negb andb orb].
    rewrite Hd1; unfold must_split at 1; cbn [a_vm_flags a_frag_flags]; rewrite !Z.eqb_refl; cbn [negb orb andb].
    change (set_area s0 0 (mk_area x y f 0 d1)) with s0; change (0 + 1) with 1.
    change (area_at s0 1) with (Some (mk_area y w f' 0 d2)); cbn [obind].
    unfold should_join, overlaps; cbn [a_start a_end a_vm_flags a_frag_flags].
    decide_all; cbn [Z.eqb]; rewrite Hd; change (set_area s0 1 (mk_area y w f' 0 d2)) with s0.
    unfold must_split; cbn [a_vm_flags a_frag_flags vec s0 should_merge_func a_start a_end]; decide_all; reflexivity. }
  change 3%nat with (S 2); cbn [add_vm_area]; change (List.length (buf (vec s0))) with 2%nat; rewrite R; cbn [obind].
  cbn [sr_overlap_start sr_state sr_start sr_end sr_overlap_end Z.eqb]; unfold add_merge; cbn [Z.eqb Pos.eqb].
  change (area_at s0 0) with (Some (mk_area x y f 0 d1)).
  change (area_at s0 (v_length (vec s0) - 1)) with (Some (mk_area y w f' 0 d2)); cbn [obind a_start a_end].
  decide_all; reflexivity.
Qed.

(** A writable area loses its flag to a read-only neighbour. *)
Lemma add_inside_changes_type_witness :
  add_vm_area default_options 3
    (mk_vmstate (mk_vector [mk_area 4096 8192 0 0 1; mk_area 8192 12288 VM_WRITABLE 0 2] 100 0 false false None None None) [])
    8192 10240 0 0 3
  = Some (mk_vmstate (mk_vector [mk_area 4096 12288 0 0 1] 100 0 false false None None None) []).
Proof. apply (add_inside_changes_type default_options 4096 8192 10240 12288 0 VM_WRITABLE 1 2 3 100); try lia; [discriminate|reflexivity]. Defined.

(** With a free callback and no merge callback, joining a range with an area
    frees the payload of the area and keeps the pointer to it, while the
    payload of the range is neither stored nor freed. *)
Theorem join_frees_stored_payload o x y z d data n :
  x < y -> y <= z ->
  add_vm_area o 2 (mk_vmstate (mk_vector [mk_area x y 0 0 d] n 0 false true None None None) []) x z 0 0 data
  = Some (mk_vmstate (mk_vector [mk_area x z 0 0 d] n 0 false true None None None) [Ev_free_payload d]).
Proof.
  intros H1 H2; set (s0 := mk_vmstate _ _); change 2%nat with (S 1); cbn [add_vm_area].
  change (List.length (buf (vec s0))) with 1%nat; cbn [add_loop].
  change (area_at s0 0) with (Some (mk_area x y 0 0 d)); cbn [obind]; unfold should_join, overlaps; cbn [a_start a_end].
  decide_all; change (drop_flags 0 (mk_area x y 0 0 d)) with (mk_area x y 0 0 d).
  change (set_area s0 0 (mk_area x y 0 0 d)) with s0.
  unfold must_split; cbn [a_vm_flags a_frag_flags Z.eqb negb orb andb obind sr_overlap_start sr_state sr_start sr_end sr_overlap_end].
  unfold add_merge; cbn [Z.eqb Pos.eqb]; change (area_at s0 0) with (Some (mk_area x y 0 0 d)).
  change (area_at s0 (v_length (vec s0) - 1)) with (Some (mk_area x y 0 0 d)); cbn [obind a_start a_end].
  decide_all; destruct (Z.ltb_spec y z); [reflexivity|]; replace z with y by lia; reflexivity.
Qed.

Lemma join_frees_stored_payload_witness :
  add_vm_area default_options 2 (mk_vmstate (mk_vector [mk_area 16 32 0 0 7] 100 0 false true None None None) []) 16 48 0 0 8
  = Some (mk_vmstate (mk_vector [mk_area 16 48 0 0 7] 100 0 false true None None None) [Ev_free_payload 7]).
Proof. apply (join_frees_stored_payload default_options 16 32 48 7 8 100); lia. Defined.

(** [vmvector_modify_data] answers that it found an area also when the bounds
    do not match and nothing is stored. *)
Theorem modify_data_result s st en d :
  vector_ok 0 (vec s) -> 0 <= st < 2 ^ 64 ->
  exists s' b, vmvector_modify_data s st en d = Some (s', b) /\ (b = true <-> covered (buf (vec s)) st) /\
    ((exists i a, area_at s i = Some a /\ bounds a = (st, en) /\ s' = set_area s i (with_custom a d)) \/
     ((forall i a, area_at s i = Some a -> bounds a <> (st, en)) /\ s' = s)).
Proof.
  intros Hok Hst; unfold vmvector_modify_data.
  destruct (lookup_addr_covered 0 s ltac:(lia) Hok st Hst) as (f & i & R & Hf & Hi); rewrite R; cbn [obind].
  assert (Hin : forall k c, area_at s k = Some c -> bounds c = (st, en) -> covered (buf (vec s)) st).
  { intros k c Hk [= <- <-]; apply covered_area; exists k, c; split; [exact Hk|]; pose proof (area_bounds 0 s ltac:(lia) Hok k c Hk); lia. }
  destruct f.
  - destruct (Hi eq_refl) as (a & Ea & Ha); rewrite Ea; cbn [obind].
    destruct ((st =? a_start a) && (en =? a_end a)) eqn:E.
    + zbool; do 2 eexists; split; [reflexivity|split; [exact Hf|]]; left; exists i, a; unfold bounds; subst; auto.
    + do 2 eexists; split; [reflexivity|split; [exact Hf|]]; right; split; [|reflexivity].
      intros k c Hk Hb; injection Hb as Hs He; apply andb_false_iff in E; rewrite !Z.eqb_neq in E.
      assert (k = i) as ->.
      { pose proof (area_bounds 0 s ltac:(lia) Hok k c Hk); destruct (Z.lt_trichotomy k i) as [H1|[H1|H1]]; [|exact H1|];
          [pose proof (area_order 0 s ltac:(lia) Hok _ _ _ _ Hk Ea H1)|pose proof (area_order 0 s ltac:(lia) Hok _ _ _ _ Ea Hk H1)]; lia. }
      rewrite Ea in Hk; injection Hk as <-; lia.
  - do 2 eexists; split; [reflexivity|split; [exact Hf|]]; right; split; [|reflexivity].
    intros k c Hk Hb; apply (Hin k c Hk) in Hb; apply Hf in Hb; discriminate.
Qed.

Lemma modify_data_result_witness : exists s' b, vmvector_modify_data mixed_state 16 20 3 = Some (s', b).
Proof. destruct (modify_data_result mixed_state 16 20 3 mixed_state_ok) as (s' & b & R & _); [lia|eauto]. Defined.
