(* ===== verification/Hashtable.v ===== *)
(** * Open-address hashtables

    Model of [src/core/hashtablex.h], the template all hashtables of the core are
    made from, of the hash functions and of the [generic], [strhash] and [ibl]
    instances ([hashtable.c], [fragment.c]).  The macros that a user of the
    template defines are the class [EntryType].  No instance defines
    [HASHTABLE_USE_LOOKUPTABLE], so the parallel lookup table is left out, as are
    locks, statistics and the persistence to files.

    A [None] is a bad access (an index outside the table, the tag of the sentinel
    or of an empty slot), a shift of a [uint] by 32 or more, or a loop that does
    not end.  The deallocations a table makes are recorded in its field [freed]. *)
From Stdlib Require Import ZArith.
From S2P Require Import Prelude.
From stdpp Require Import base list numbers.
#[local] Open Scope Z_scope.
#[local] Open Scope rw_scope.

(** ** Flags and options *)

Definition HASHTABLE_SHARED : Z := 1.
Definition HASHTABLE_ENTRY_SHARED : Z := 2.
Definition HASHTABLE_LOCKLESS_ACCESS : Z := 4.
Definition HASHTABLE_NOT_PRIMARY_STORAGE : Z := 4.   (* the value of the flag above *)
Definition HASHTABLE_READ_ONLY : Z := 64.
Definition HASHTABLE_CUSTOM_FLAGS_START : Z := 65536.
Definition HASHTABLE_COPY_IGNORE_FLAGS : Z := HASHTABLE_READ_ONLY.
Definition UINT_MAX : Z := 2 ^ 32 - 1.

Record ht_options := mk_ht_options {
  rehash_unlinked_threshold : Z;
  rehash_unlinked_always : bool;
}.

(** ** Hash functions *)

Definition HASH_FUNCTION_NONE : Z := 0.
Definition HASH_FUNCTION_MULTIPLY_PHI : Z := 1.
Definition HASH_FUNCTION_LOWER_BSWAP : Z := 2.
Definition HASH_FUNCTION_BSWAP_XOR : Z := 3.
Definition HASH_FUNCTION_SWAP_12TO15 : Z := 4.
Definition HASH_FUNCTION_SWAP_12TO15_AND_NONE : Z := 5.
Definition HASH_FUNCTION_SHIFT_XOR : Z := 6.
Definition HASH_FUNCTION_STRING : Z := 7.
Definition HASH_FUNCTION_STRING_NOCASE : Z := 8.

Definition HASH_PHI : Z := 11400714819323198485.
Definition HASH_TAG_BITS : Z := 64.
Definition HASH_MASK (num_bits : Z) : Z := Z.shiftr (2 ^ 64 - 1) (HASH_TAG_BITS - num_bits).

(** Undefined for 32 bits and more. *)
Definition HASHTABLE_SIZE (num_bits : Z) : Z := uint (Z.shiftl 1 num_bits).

Definition ALIGN_FORWARD (x alignment : Z) : Z := Z.land (wrap 64 (x + (alignment - 1))) (Z.lnot (alignment - 1)).

(** Characters are signed; a string is what precedes its terminator. *)
Definition d_r_tolower (c : Z) : Z := if (65 <=? c) && (c <=? 90) then c - (65 - 97) else c.

(** The loops of [d_r_strcmp] and [d_r_strcasecmp], on the characters [f] maps
    to; behind the end of a string is its terminator, 0. *)
Fixpoint compare_chars (f : Z -> Z) (left right : list Z) : Z :=
  match left, right with
  | [], [] => 0
  | a :: left', b :: right' =>
      if f a <? f b then -1 else if f b <? f a then 1 else compare_chars f left' right'
  | [], b :: _ => if f 0 <? f b then -1 else if f b <? f 0 then 1 else 0
  | a :: _, [] => if f a <? f 0 then -1 else if f 0 <? f a then 1 else 0
  end.
Definition d_r_strcmp : list Z -> list Z -> Z := compare_chars (fun c => c).
Definition d_r_strcasecmp : list Z -> list Z -> Z := compare_chars d_r_tolower.

(** The loop of the string hash; [i] is the index of the first character. *)
Fixpoint hash_chars (func max_shift i : Z) (s : list Z) (hash : Z) : Z :=
  match s with
  | [] => hash
  | c :: s =>
      let c := if func =? HASH_FUNCTION_STRING_NOCASE then d_r_tolower c else c in
      let shift := (i mod 4) * 8 in
      hash_chars func max_shift (uint (i + 1)) s (Z.lxor hash (wrap 64 (c * 2 ^ Z.min shift max_shift)))
  end.

Section Hashing.
(** The strings in memory, by address. *)
Context (strings : Z -> list Z).

Definition hash_value (val func mask bits : Z) : Z :=
  let band := Z.land val in
  let swap := Z.lor (Z.lor (band 0xFFFF0FF0) (Z.shiftr (band 0xF000) 12)) (Z.shiftl (band 0xF) 12) in
  if func =? HASH_FUNCTION_NONE then val
  else if func =? HASH_FUNCTION_MULTIPLY_PHI then Z.shiftr (wrap 64 (val * HASH_PHI)) (HASH_TAG_BITS - bits)
  else if func =? HASH_FUNCTION_LOWER_BSWAP then
    Z.lor (Z.lor (band 0xFFFF0000) (Z.shiftl (band 0xFF) 8)) (Z.shiftr (band 0xFF00) 8)
  else if func =? HASH_FUNCTION_BSWAP_XOR then
    Z.lxor val (Z.lor (Z.lor (Z.lor (Z.shiftl (band 0xFF) 24) (Z.shiftl (band 0xFF00) 8)) (Z.shiftr (band 0xFF0000) 8))
                      (Z.shiftr (band 0xFF000000) 24))
  else if func =? HASH_FUNCTION_SWAP_12TO15 then swap
  else if func =? HASH_FUNCTION_SWAP_12TO15_AND_NONE then if mask <=? 0xFFF then val else swap
  else if func =? HASH_FUNCTION_SHIFT_XOR then Z.lxor (Z.lxor val (Z.shiftr val 12)) (wrap 64 (Z.shiftl val 12))
  else if (func =? HASH_FUNCTION_STRING) || (func =? HASH_FUNCTION_STRING_NOCASE) then
    hash_chars func (ALIGN_FORWARD bits 8) 0 (strings val) 0
  else 0.
End Hashing.

(** The loop that counts the bits of a size. *)
Fixpoint num_bits_loop (fuel : nat) (sz bits : Z) : Z :=
  match fuel with
  | O => bits
  | S fuel => if 0 <? sz then num_bits_loop fuel (Z.shiftr sz 1) (bits + 1) else bits
  end.
Definition hashtable_num_bits (size : Z) : Z := num_bits_loop 32 size 0.

Definition hashtable_bits_given_entries (entries load : Z) : Z :=
  hashtable_num_bits (uint (uint (entries + 1) * 100) / load).

(** ** Tables *)

Inductive slot (E : Type) :=
| ENTRY_EMPTY
| ENTRY_SENTINEL
| ENTRY (e : E).
Arguments ENTRY_EMPTY {E}.
Arguments ENTRY_SENTINEL {E}.
Arguments ENTRY {E} e.

(** What a table deallocates. *)
Inductive ht_event (E : Type) :=
| Ev_payload (payload : Z)     (* the call of [free_payload_func] *)
| Ev_entry (e : E)             (* the release of an entry *)
| Ev_table (capacity : Z).     (* the release of an array *)
Arguments Ev_payload {E} payload.
Arguments Ev_entry {E} e.
Arguments Ev_table {E} capacity.

Record table_t (E : Type) := mk_table {
  hash_mask : Z;
  table : list (slot E);
  ref_count : Z;
  hash_bits : Z;
  hash_func : Z;
  hash_mask_offset : Z;
  capacity : Z;
  entries : Z;
  unlinked_entries : Z;
  load_factor_percent : Z;
  resize_threshold : Z;
  groom_factor_percent : Z;
  groom_threshold : Z;
  max_capacity_bits : Z;
  table_flags : Z;
  free_payload_func : bool;    (* whether there is one *)
  freed : list (ht_event E);
}.
Arguments mk_table {E}.
Arguments hash_mask {E}. Arguments table {E}. Arguments ref_count {E}. Arguments hash_bits {E}.
Arguments hash_func {E}. Arguments hash_mask_offset {E}. Arguments capacity {E}. Arguments entries {E}.
Arguments unlinked_entries {E}. Arguments load_factor_percent {E}. Arguments resize_threshold {E}.
Arguments groom_factor_percent {E}. Arguments groom_threshold {E}. Arguments max_capacity_bits {E}.
Arguments table_flags {E}. Arguments free_payload_func {E}. Arguments freed {E}.

(** Assignments to the fields that change one at a time. *)
Section Fields.
Context {E : Type} (t : table_t E).

Definition with_slots (l : list (slot E)) : table_t E :=
  mk_table (hash_mask t) l (ref_count t) (hash_bits t) (hash_func t) (hash_mask_offset t) (capacity t) (entries t)
    (unlinked_entries t) (load_factor_percent t) (resize_threshold t) (groom_factor_percent t) (groom_threshold t)
    (max_capacity_bits t) (table_flags t) (free_payload_func t) (freed t).
(** The counters [entries] and [unlinked_entries]. *)
Definition with_counts (n u : Z) : table_t E :=
  mk_table (hash_mask t) (table t) (ref_count t) (hash_bits t) (hash_func t) (hash_mask_offset t) (capacity t) n
    u (load_factor_percent t) (resize_threshold t) (groom_factor_percent t) (groom_threshold t)
    (max_capacity_bits t) (table_flags t) (free_payload_func t) (freed t).
Definition with_bits (b : Z) : table_t E :=
  mk_table (hash_mask t) (table t) (ref_count t) b (hash_func t) (hash_mask_offset t) (capacity t) (entries t)
    (unlinked_entries t) (load_factor_percent t) (resize_threshold t) (groom_factor_percent t) (groom_threshold t)
    (max_capacity_bits t) (table_flags t) (free_payload_func t) (freed t).
(** The fields [groom_factor_percent], [groom_threshold], [max_capacity_bits]. *)
Definition with_grooming (factor threshold max_bits : Z) : table_t E :=
  mk_table (hash_mask t) (table t) (ref_count t) (hash_bits t) (hash_func t) (hash_mask_offset t) (capacity t) (entries t)
    (unlinked_entries t) (load_factor_percent t) (resize_threshold t) factor threshold
    max_bits (table_flags t) (free_payload_func t) (freed t).
Definition with_freed (l : list (ht_event E)) : table_t E :=
  mk_table (hash_mask t) (table t) (ref_count t) (hash_bits t) (hash_func t) (hash_mask_offset t) (capacity t) (entries t)
    (unlinked_entries t) (load_factor_percent t) (resize_threshold t) (groom_factor_percent t) (groom_threshold t)
    (max_capacity_bits t) (table_flags t) (free_payload_func t) (freed t ++ l).
Definition with_payload_func (b : bool) : table_t E :=
  mk_table (hash_mask t) (table t) (ref_count t) (hash_bits t) (hash_func t) (hash_mask_offset t) (capacity t) (entries t)
    (unlinked_entries t) (load_factor_percent t) (resize_threshold t) (groom_factor_percent t) (groom_threshold t)
    (max_capacity_bits t) (table_flags t) b (freed t).
Definition with_entries (n : Z) : table_t E := with_counts n (unlinked_entries t).

Definition slot_at (i : Z) : option (slot E) := if i <? 0 then None else table t !! Z.to_nat i.
Definition set_slot (i : Z) (s : slot E) : table_t E := with_slots (<[Z.to_nat i := s]> (table t)).

Definition HASH_INDEX_WRAPAROUND (hash_index : Z) : Z :=
  Z.land hash_index (uint (Z.shiftr (hash_mask t) (hash_mask_offset t))).

Definition HASH_VALUE_FOR_TABLE (strings : Z -> list Z) (val : Z) : Z :=
  if hash_func t =? HASH_FUNCTION_NONE then val
  else if hash_func t =? HASH_FUNCTION_MULTIPLY_PHI then
    Z.shiftr (wrap 64 (val * HASH_PHI)) (HASH_TAG_BITS - hash_bits t)
  else hash_value strings val (hash_func t) (hash_mask t) (hash_bits t).

Definition HASH_FUNC (strings : Z -> list Z) (val : Z) : Z :=
  uint (Z.shiftr (Z.land (HASH_VALUE_FOR_TABLE strings val) (hash_mask t)) (hash_mask_offset t)).
End Fields.

(** ** What an instance of the template defines *)

Class EntryType (E : Type) := {
  ENTRY_TAG : E -> Z;
  ENTRY_IS_INVALID : E -> bool;
  TAGS_ARE_EQUAL : Z -> Z -> Z -> bool;            (* the flags of the table, two tags *)
  ENTRIES_ARE_EQUAL : Z -> E -> E -> bool;
  free_entry : bool -> E -> list (ht_event E);     (* given whether there is a payload callback *)
  init_internal_custom : table_t E -> table_t E;
}.

Section Template.
Context {E : Type} `{EntryType E} (strings : Z -> list Z) (o : ht_options).
Implicit Types (t : table_t E) (s : slot E) (e : E).

Definition ENTRY_IS_EMPTY s : bool := match s with ENTRY_EMPTY => true | _ => false end.
Definition ENTRY_IS_REAL s : bool := match s with ENTRY e => negb (ENTRY_IS_INVALID e) | _ => false end.

(** The tag of an entry read from the table. *)
Definition slot_tag s : option Z := match s with ENTRY e => Some (ENTRY_TAG e) | _ => None end.
Definition slot_invalid s : bool := match s with ENTRY e => ENTRY_IS_INVALID e | _ => false end.

(** *** Initialisation *)

Definition init_internal (bits load func off : Z) t : option (table_t E) :=
  if 32 <=? bits then None
  else
    let cap := uint (HASHTABLE_SIZE bits + 1) in
    Some (init_internal_custom
      (mk_table (wrap 64 (Z.shiftl (HASH_MASK bits) off))
         (replicate (Z.to_nat (cap - 1)) ENTRY_EMPTY ++ [ENTRY_SENTINEL])
         0 bits func off cap 0 0 load (uint (cap * load) / 100) 0 (uint (cap * 0) / 100) 0
         (table_flags t) (free_payload_func t) (freed t))).

(** A table before its initialisation: only the flags are set. *)
Definition uninit (fl : Z) : table_t E := mk_table 0 [] 0 0 0 0 0 0 0 0 0 0 0 0 fl false [].

Definition hashtable_init (bits load func off fl : Z) : option (table_t E) := init_internal bits load func off (uninit fl).

Definition hashtable_resize t : option (table_t E) :=
  init_internal (hash_bits t) (load_factor_percent t) (hash_func t) (hash_mask_offset t) t.

(** *** Lookup *)

Fixpoint lookup_loop (fuel : nat) (tag : Z) t (hindex : Z) : option (slot E) :=
  match fuel with
  | O => None
  | S fuel =>
      let? s := slot_at t hindex in
      if ENTRY_IS_EMPTY s then Some s
      else
        let? ftag := slot_tag s in
        if TAGS_ARE_EQUAL (table_flags t) ftag tag then Some s
        else lookup_loop fuel tag t (HASH_INDEX_WRAPAROUND t (hindex + 1))
  end.

(** Every slot is looked at once at most. *)
Definition probes t : nat := List.length (table t).
Definition hashtable_lookup (tag : Z) t : option (slot E) := lookup_loop (probes t) tag t (HASH_FUNC t strings tag).

(** *** Removal *)

(** [lookup_for_removal]: the index of the entry, or none. *)
Fixpoint removal_loop (fuel : nat) fr t (hindex : Z) : option (option Z) :=
  match fuel with
  | O => None
  | S fuel =>
      let? pg := slot_at t hindex in
      match pg with
      | ENTRY_EMPTY => Some None
      | ENTRY_SENTINEL => None
      | ENTRY e =>
          if ENTRIES_ARE_EQUAL (table_flags t) fr e then Some (Some hindex)
          else removal_loop fuel fr t (HASH_INDEX_WRAPAROUND t (hindex + 1))
      end
  end.
Definition lookup_for_removal fr t : option (option Z) :=
  removal_loop (probes t) fr t (HASH_FUNC t strings (ENTRY_TAG fr)).

(** The loops of [remove_helper_open_address]: [hole] is empty, [hindex] the
    last slot looked at. *)
Fixpoint close_hole (fuel : nat) t (hole hindex : Z) (wrapped : bool) : option (table_t E * bool) :=
  match fuel with
  | O => None
  | S fuel =>
      let hindex := HASH_INDEX_WRAPAROUND t (hindex + 1) in
      let? s := slot_at t hindex in
      if ENTRY_IS_EMPTY s then Some (t, wrapped)
      else
        let? tag := slot_tag s in
        let preferred := HASH_FUNC t strings tag in
        if ((preferred <=? hole) && (hole <? hindex)) || ((hindex <? preferred) && (preferred <=? hole)) ||
           ((hole <? hindex) && (hindex <? preferred))
        then
          let t := set_slot t hole s in
          let wrapped := if hindex <? hole then true else wrapped in
          close_hole fuel (set_slot t hindex ENTRY_EMPTY) hindex hindex wrapped
        else close_hole fuel t hole hindex wrapped
  end.
Definition remove_helper_open_address t (hindex : Z) : option (table_t E * bool) :=
  close_hole (probes t) (set_slot t hindex ENTRY_EMPTY) hindex hindex false.

Definition remove_helper t (hindex : Z) : option (table_t E * bool) :=
  let? (t, wrapped) := remove_helper_open_address t hindex in
  Some (with_entries t (uint (entries t - 1)), wrapped).

Definition hashtable_remove fr t : option (table_t E * bool) :=
  if TEST HASHTABLE_READ_ONLY (table_flags t) then Some (t, false)
  else
    let? pg := lookup_for_removal fr t in
    match pg with
    | Some hindex => let? (t, _) := remove_helper t hindex in Some (t, true)
    | None => Some (t, false)
    end.

Definition hashtable_replace old_e new_e t : option (table_t E * bool) :=
  let? pg := lookup_for_removal old_e t in
  if TEST HASHTABLE_READ_ONLY (table_flags t) then Some (t, false)
  else match pg with
       | Some hindex => Some (set_slot t hindex (ENTRY new_e), true)
       | None => Some (t, false)
       end.

(** *** Removal of many entries *)

(** The downward loop of [range_remove] and [unlinked_remove]: the entries that
    match, with [dealloc] what is deallocated for each, and their number. *)
Fixpoint sweep (fuel : nat) (matches : E -> bool) (dealloc : E -> list (ht_event E)) t (i n : Z) :
  option (table_t E * Z) :=
  match fuel with
  | O => None
  | S fuel =>
      if 0 <=? i then
        let? s := slot_at t i in
        match s with
        | ENTRY e =>
            if matches e then
              let? (t, wrapped) := remove_helper t i in
              let i := if wrapped : bool then capacity t - 1 - 1 else i in
              sweep fuel matches dealloc (with_freed t (dealloc e)) i (uint (n + 1))
            else sweep fuel matches dealloc t (i - 1) n
        | ENTRY_EMPTY => sweep fuel matches dealloc t (i - 1) n
        | ENTRY_SENTINEL => None
        end
      else Some (t, n)
  end.

(** For each slot that may match, one pass over the table. *)
Definition sweeps t : nat := (S (List.length (table t)) * S (List.length (table t)))%nat.

Definition range_remove (tag_start tag_end : Z) (filter : option (E -> bool)) t : option (table_t E * Z) :=
  if TEST HASHTABLE_READ_ONLY (table_flags t) then Some (t, 0)
  else
    let matches e := (tag_start <=? ENTRY_TAG e) && (ENTRY_TAG e <? tag_end) &&
                     match filter with None => true | Some f => f e end in
    sweep (sweeps t) matches (free_entry (free_payload_func t)) t (capacity t - 1 - 1) 0.

Definition unlinked_remove t : option (table_t E * Z) :=
  if TEST HASHTABLE_READ_ONLY (table_flags t) then Some (t, 0)
  else
    let? (t, n) := sweep (sweeps t) ENTRY_IS_INVALID (fun _ => []) t (capacity t - 1 - 1) 0 in
    Some (with_counts t (uint (entries t + n)) 0, n).

Definition groom_table t : option (table_t E) :=
  let? (t, _) := range_remove 0 UINT_MAX None t in
  Some (with_grooming t (groom_factor_percent t) 0 (max_capacity_bits t)).

Definition groom_helper t : option (table_t E) :=
  let? t := groom_table (with_entries t (uint (entries t - 1))) in
  Some (with_entries t (uint (entries t + 1))).

Definition hashtable_clear t : table_t E :=
  if TEST HASHTABLE_READ_ONLY (table_flags t) then t
  else
    let dealloc s := match s with
                     | ENTRY e => if ENTRY_IS_REAL s then free_entry (free_payload_func t) e else []
                     | _ => [] end in
    with_counts (with_freed (with_slots t (replicate (List.length (table t)) ENTRY_EMPTY)) (concat (map dealloc (table t)))) 0 0.

(** *** Insertion *)

(** The slot an entry goes to: empty, or invalid in a table that is not shared. *)
Fixpoint add_slot (fuel : nat) t (hindex : Z) : option Z :=
  match fuel with
  | O => None
  | S fuel =>
      let? s := slot_at t hindex in
      if ENTRY_IS_EMPTY s then Some hindex
      else if slot_invalid s && negb (TEST HASHTABLE_SHARED (table_flags t)) then Some hindex
      else add_slot fuel t (HASH_INDEX_WRAPAROUND t (hindex + 1))
  end.

(** [add], given [check_size]; the result says whether the table was resized. *)
Definition add_with (check_size : table_t E -> Z -> Z -> option (table_t E * bool)) e t : option (table_t E * bool) :=
  if TEST HASHTABLE_READ_ONLY (table_flags t) then Some (t, false)
  else
    let? (t, not_resized) := check_size t 1 0 in
    let? hindex := add_slot (probes t) t (HASH_FUNC t strings (ENTRY_TAG e)) in
    let? s := slot_at t hindex in
    let t := if slot_invalid s then with_counts t (entries t) (uint (unlinked_entries t - 1)) else t in
    Some (set_slot t hindex (ENTRY e), negb not_resized).

(** Doubling until the entries fit. *)
Fixpoint grow (fuel : nat) t (n : Z) : option (table_t E) :=
  match fuel with
  | O => None
  | S fuel =>
      if 32 <=? hash_bits t then None
      else if (uint (uint (HASHTABLE_SIZE (hash_bits t) + 1) * load_factor_percent t) / 100 <? n) &&
              negb (hash_bits t =? max_capacity_bits t)
      then grow fuel (with_bits t (uint (hash_bits t + 1))) n
      else Some t
  end.

(** The loop that moves the entries of the old array. *)
Fixpoint rehash (add : E -> table_t E -> option (table_t E * bool)) (old : list (slot E)) t : option (table_t E) :=
  match old with
  | [] => Some t
  | ENTRY e :: old =>
      if ENTRY_IS_INVALID e then rehash add old t
      else let? (t, _) := add e t in rehash add old t
  | _ :: old => rehash add old t
  end.

Definition shared_lockless t : bool :=
  TESTALL (Z.lor (Z.lor HASHTABLE_ENTRY_SHARED HASHTABLE_SHARED) HASHTABLE_LOCKLESS_ACCESS) (table_flags t).
Definition lockless t : bool := TESTALL (Z.lor HASHTABLE_LOCKLESS_ACCESS HASHTABLE_ENTRY_SHARED) (table_flags t).

(** The branch of [check_size] for a table that is too full: [true] when the
    array stays. *)
Definition enlarge (add : E -> table_t E -> option (table_t E * bool)) t (add_now n : Z) : option (table_t E * bool) :=
  let old_table := table t in
  let old_capacity := capacity t in
  let old_ref_count := uint (ref_count t - 1) in
  if (hash_bits t =? max_capacity_bits t) && negb (shared_lockless t) then
    let? t := groom_helper t in Some (t, true)
  else
    let? t :=
      if lockless t && ((entries t <=? resize_threshold t) || (hash_bits t =? max_capacity_bits t)) then Some t
      else grow 32 t n in
    let? t := hashtable_resize t in
    let? t := rehash add old_table (with_counts t 0 0) in
    let t := with_entries t (uint (entries t + add_now)) in
    let? t := if (hash_bits t =? max_capacity_bits t) && (old_capacity =? capacity t) then groom_helper t else Some t in
    let dealloc := if negb (shared_lockless t) || (old_ref_count =? 0) then [Ev_table old_capacity] else [] in
    Some (with_freed t dealloc, false).

Definition check_size_with (add : E -> table_t E -> option (table_t E * bool)) t (add_now add_later : Z) :
  option (table_t E * bool) :=
  if TEST HASHTABLE_READ_ONLY (table_flags t) then Some (t, false)
  else
    let? t := if (groom_threshold t <? entries t) && (0 <? groom_threshold t) then groom_table t else Some t in
    let t := with_entries t (uint (entries t + uint (add_now + add_later))) in
    let n := if lockless t then uint (entries t + unlinked_entries t) else entries t in
    if resize_threshold t <? n then enlarge add t add_now n
    else
      let t := with_entries t (uint (entries t - add_later)) in
      if (0 <? unlinked_entries t) &&
         ((rehash_unlinked_threshold o <? 100) &&
          (rehash_unlinked_threshold o <?
             uint (100 * unlinked_entries t) / uint (uint (entries t + add_later) + unlinked_entries t)) ||
          rehash_unlinked_always o)
      then let? (t, _) := unlinked_remove t in Some (t, true)
      else Some (t, true).

(** [add] and [check_size] call each other; [depth] bounds the nested calls of
    [add].  Moving entries to a larger array makes one nested call. *)
Fixpoint add_rec (depth : nat) e t : option (table_t E * bool) :=
  match depth with
  | O => None
  | S depth => add_with (check_size_with (add_rec depth)) e t
  end.
Definition hashtable_add : E -> table_t E -> option (table_t E * bool) := add_rec 2.
Definition check_size : table_t E -> Z -> Z -> option (table_t E * bool) := check_size_with (add_rec 1).

(** *** Merging and copying *)

(** The loop of [num_unique_entries] over the smaller table. *)
Fixpoint count_missing (l : list (slot E)) (big : table_t E) (unique : Z) : option Z :=
  match l with
  | [] => Some unique
  | ENTRY e :: l =>
      if ENTRY_IS_INVALID e then count_missing l big unique
      else
        let? s := hashtable_lookup (ENTRY_TAG e) big in
        count_missing l big (if ENTRY_IS_EMPTY s then uint (unique + 1) else unique)
  | _ :: l => count_missing l big unique
  end.
Definition num_unique_entries (src1 src2 : table_t E) : option Z :=
  let (big, small) := if entries src2 <=? entries src1 then (src1, src2) else (src2, src1) in
  count_missing (table small) big (entries big).

Fixpoint add_all_loop (check_dups : bool) (l : list (slot E)) (dst : table_t E) : option (table_t E) :=
  match l with
  | [] => Some dst
  | ENTRY e :: l =>
      if ENTRY_IS_INVALID e then add_all_loop check_dups l dst
      else
        let? fresh := if check_dups then option_map ENTRY_IS_EMPTY (hashtable_lookup (ENTRY_TAG e) dst) else Some true in
        let? dst := if fresh : bool then option_map fst (hashtable_add e dst) else Some dst in
        add_all_loop check_dups l dst
  | _ :: l => add_all_loop check_dups l dst
  end.
Definition add_all (dst src : table_t E) (check_dups : bool) : option (table_t E) :=
  add_all_loop check_dups (table src) dst.

Definition copied_flags (fl : Z) : Z := Z.land fl (Z.lnot HASHTABLE_COPY_IGNORE_FLAGS).

Definition hashtable_merge (src1 src2 : table_t E) : option (table_t E) :=
  let? merged_entries := num_unique_entries src1 src2 in
  let init_bits := hashtable_bits_given_entries merged_entries (load_factor_percent src1) in
  let? dst := hashtable_init init_bits (load_factor_percent src1) (hash_func src1) (hash_mask_offset src1)
                (copied_flags (table_flags src1)) in
  let? dst := add_all dst src1 false in
  add_all dst src2 true.

Definition hashtable_copy (src : table_t E) : option (table_t E) :=
  let? dst := hashtable_init (hash_bits src) (load_factor_percent src) (hash_func src) (hash_mask_offset src)
                (copied_flags (table_flags src)) in
  Some (with_slots (with_counts dst (entries src) (unlinked_entries src)) (table src)).
End Template.

(** ** The [generic] instance *)

Record generic_entry_t := mk_generic { key : Z; payload : Z }.

Definition generic_free_entry (has_free : bool) (e : generic_entry_t) : list (ht_event generic_entry_t) :=
  (if has_free then [Ev_payload (payload e)] else []) ++ [Ev_entry e].

#[export] Instance generic_EntryType : EntryType generic_entry_t := {|
  ENTRY_TAG := key;
  ENTRY_IS_INVALID _ := false;
  TAGS_ARE_EQUAL _ t1 t2 := t1 =? t2;
  ENTRIES_ARE_EQUAL _ f g := key f =? key g;
  free_entry := generic_free_entry;
  init_internal_custom t := t;
|}.

Definition generic_table_t : Type := table_t generic_entry_t.

Section Generic.
Context (strings : Z -> list Z) (o : ht_options).

(** [alt_hash_func] is the value of that option. *)
Definition generic_hash_create (alt_hash_func bits load fl : Z) (has_free : bool) : option generic_table_t :=
  let? t := hashtable_init bits load alt_hash_func 0 fl in Some (with_payload_func t has_free).

Definition generic_hash_clear (t : generic_table_t) : generic_table_t := hashtable_clear t.

(** What is deallocated when a table is destroyed. *)
Definition generic_hash_destroy (t : generic_table_t) : list (ht_event generic_entry_t) :=
  freed t ++
  concat (map (fun s => match s with ENTRY e => generic_free_entry (free_payload_func t) e | _ => [] end) (table t)) ++
  [Ev_table (capacity t)].

(** The payload, or NULL. *)
Definition generic_hash_lookup (t : generic_table_t) (k : Z) : option Z :=
  let? s := hashtable_lookup strings k t in
  Some (match s with ENTRY e => payload e | _ => 0 end).

Definition generic_hash_add (t : generic_table_t) (k p : Z) : option generic_table_t :=
  option_map fst (hashtable_add strings o (mk_generic k p) t).

Definition generic_hash_remove (t : generic_table_t) (k : Z) : option (generic_table_t * bool) :=
  let? s := hashtable_lookup strings k t in
  match s with
  | ENTRY e =>
      let? (t, found) := hashtable_remove strings e t in
      Some (if found : bool then (with_freed t (generic_free_entry (free_payload_func t) e), true) else (t, false))
  | _ => Some (t, false)
  end.

Definition generic_hash_range_remove (t : generic_table_t) (start end_ : Z) : option (generic_table_t * Z) :=
  range_remove strings start end_ None t.

(** The loop of [iterate_next] from an index on: the next entry with the index
    behind it. *)
Fixpoint next_entry (l : list (slot generic_entry_t)) (i : Z) : option (Z * generic_entry_t) :=
  match l with
  | [] => None
  | ENTRY e :: _ => Some (i + 1, e)
  | _ :: l => next_entry l (i + 1)
  end.

(** [None] for the result -1. *)
Definition generic_hash_iterate_next (t : generic_table_t) (iter : Z) : option (Z * Z * Z) :=
  option_map (fun '(i, e) => (i, key e, payload e)) (next_entry (drop (Z.to_nat iter) (table t)) iter).

Definition generic_hash_iterate_remove (t : generic_table_t) (iter k : Z) : option (generic_table_t * Z) :=
  let? s := hashtable_lookup strings k t in
  match s with
  | ENTRY e =>
      let? rm := lookup_for_removal strings e t in
      match rm with
      | Some hindex =>
          let? (t, wrapped) := remove_helper strings t hindex in
          Some (with_freed t (generic_free_entry (free_payload_func t) e), if wrapped : bool then iter else iter - 1)
      | None => Some (t, iter)
      end
  | _ => None                                 (* the tag of NULL is read *)
  end.
End Generic.

(** ** The [strhash] instance *)

Record strhash_entry_t := mk_strhash { skey : Z; spayload : Z }.

Definition STRHASH_CASE_INSENSITIVE : Z := HASHTABLE_CUSTOM_FLAGS_START.

Section Strhash.
Context (strings : Z -> list Z) (o : ht_options).

Definition strhash_key_cmp (fl s1 s2 : Z) : bool :=
  if TEST STRHASH_CASE_INSENSITIVE fl then d_r_strcasecmp (strings s1) (strings s2) =? 0
  else d_r_strcmp (strings s1) (strings s2) =? 0.

Definition strhash_free_entry (has_free : bool) (e : strhash_entry_t) : list (ht_event strhash_entry_t) :=
  (if has_free then [Ev_payload (spayload e)] else []) ++ [Ev_entry e].

Definition strhash_EntryType : EntryType strhash_entry_t := {|
  ENTRY_TAG := skey;
  ENTRY_IS_INVALID _ := false;
  TAGS_ARE_EQUAL := strhash_key_cmp;
  ENTRIES_ARE_EQUAL fl f g := strhash_key_cmp fl (skey f) (skey g);
  free_entry := strhash_free_entry;
  init_internal_custom t := t;
|}.
#[local] Existing Instance strhash_EntryType.

Definition strhash_table_t : Type := table_t strhash_entry_t.

Definition strhash_hash_create (bits load fl : Z) (has_free : bool) : option strhash_table_t :=
  let func := if TEST STRHASH_CASE_INSENSITIVE fl then HASH_FUNCTION_STRING_NOCASE else HASH_FUNCTION_STRING in
  let? t := hashtable_init bits load func 0 fl in Some (with_payload_func t has_free).

Definition strhash_hash_clear (t : strhash_table_t) : strhash_table_t := hashtable_clear t.

Definition strhash_hash_destroy (t : strhash_table_t) : list (ht_event strhash_entry_t) :=
  freed t ++
  concat (map (fun s => match s with ENTRY e => strhash_free_entry (free_payload_func t) e | _ => [] end) (table t)) ++
  [Ev_table (capacity t)].

Definition strhash_hash_lookup (t : strhash_table_t) (k : Z) : option Z :=
  let? s := hashtable_lookup strings k t in
  Some (match s with ENTRY e => spayload e | _ => 0 end).

Definition strhash_hash_add (t : strhash_table_t) (k p : Z) : option strhash_table_t :=
  option_map fst (hashtable_add strings o (mk_strhash k p) t).

Definition strhash_hash_remove (t : strhash_table_t) (k : Z) : option (strhash_table_t * bool) :=
  let? s := hashtable_lookup strings k t in
  match s with
  | ENTRY e =>
      let? (t, found) := hashtable_remove strings e t in
      Some (if found : bool then (with_freed t (strhash_free_entry (free_payload_func t) e), true) else (t, false))
  | _ => Some (t, false)
  end.
End Strhash.

(** ** The [ibl] instance *)

(** Targets of indirect branches; an unlinked target keeps its slot and gets the
    tag [FAKE_TAG]. *)
Record fragment_entry_t := mk_fragment_entry { tag_fragment : Z; start_pc_fragment : Z }.

Definition FAKE_TAG : Z := 2 ^ 64 - 1.
Definition FRAG_TABLE_TRACE : Z := HASHTABLE_CUSTOM_FLAGS_START.

Record ibl_options := mk_ibl_options {
  trace_ibt_groom : Z; bb_ibt_groom : Z;
  private_trace_ibl_targets_max : Z; private_bb_ibl_targets_max : Z;
}.

Definition ibl_init_internal_custom (io : ibl_options) (t : table_t fragment_entry_t) : table_t fragment_entry_t :=
  let trace := TEST FRAG_TABLE_TRACE (table_flags t) in
  with_grooming t (if trace then trace_ibt_groom io else bb_ibt_groom io) (groom_threshold t)
    (if trace then private_trace_ibl_targets_max io else private_bb_ibl_targets_max io).

Definition ibl_EntryType (io : ibl_options) : EntryType fragment_entry_t := {|
  ENTRY_TAG := tag_fragment;
  ENTRY_IS_INVALID e := tag_fragment e =? FAKE_TAG;
  TAGS_ARE_EQUAL _ t1 t2 := t1 =? t2;
  ENTRIES_ARE_EQUAL _ e1 e2 := tag_fragment e1 =? tag_fragment e2;
  free_entry _ _ := [];
  init_internal_custom := ibl_init_internal_custom io;
|}.
