(* ===== verification/HashProbe.v ===== *)
(** * Linear probing

    The slots of a table form a ring.  Every entry can be reached from the slot
    its tag hashes to without crossing an empty slot; closing the hole that a
    removal leaves keeps this and permutes the other entries. *)
From Stdlib Require Import ZArith Lia.
From S2P Require Import Prelude.
From S2P Require Import Hashtable.
From stdpp Require Import base list numbers.
#[local] Open Scope Z_scope.
#[local] Open Scope rw_scope.

(** ** Positions on a ring *)

(** Steps from [a] to [b] on a ring of [n] positions. *)
Definition dist (n a b : Z) : Z := if a <=? b then b - a else b - a + n.

(** Settle a goal about distances by cases on the order of the positions. *)
Ltac ring_lia := unfold dist in *; repeat match goal with
  | H : context [?a <=? ?b] |- _ => destruct (Z.leb_spec a b)
  | |- context [?a <=? ?b] => destruct (Z.leb_spec a b)
  | H : context [?a =? ?b] |- _ => destruct (Z.eqb_spec a b)
  | |- context [?a =? ?b] => destruct (Z.eqb_spec a b)
  end; lia.

Lemma pow2_pos b : 0 <= b -> 0 < 2 ^ b.
Proof. intros; now apply Z.pow_pos_nonneg. Qed.

Section Table.
Context {E : Type} `{EntryType E} (strings : Z -> list Z).
Implicit Types (t : table_t E) (s : slot E) (e : E).

(** ** The shape of a table *)

Definition ring t : Z := 2 ^ hash_bits t.

Definition shape t : Prop :=
  1 <= hash_bits t <= 31 /\ 0 <= hash_mask_offset t /\ hash_bits t + hash_mask_offset t <= 64 /\
  hash_mask t = wrap 64 (Z.shiftl (HASH_MASK (hash_bits t)) (hash_mask_offset t)) /\
  capacity t = ring t + 1 /\ Z.of_nat (List.length (table t)) = ring t + 1.

Lemma mask_ones b : 0 <= b <= 64 -> HASH_MASK b = Z.ones b.
Proof.
  intros Hb; unfold HASH_MASK, HASH_TAG_BITS; change (2 ^ 64 - 1) with (Z.ones 64).
  apply Z.bits_inj'; intros n Hn; rewrite Z.shiftr_spec by lia.
  destruct (Z.lt_ge_cases n b).
  - rewrite !Z.ones_spec_low by lia; reflexivity.
  - rewrite !Z.ones_spec_high by lia; reflexivity.
Qed.

(** The mask selects [hash_bits] bits above the offset. *)
Lemma mask_bits t n : shape t -> 0 <= n -> Z.testbit (hash_mask t) n = (hash_mask_offset t <=? n) && (n <? hash_mask_offset t + hash_bits t).
Proof.
  intros (Hb & Ho & Hs & Hm & _) Hn; rewrite Hm, mask_ones by lia; unfold wrap.
  destruct (Z.lt_ge_cases n 64).
  - rewrite Z.mod_pow2_bits_low by lia; rewrite Z.shiftl_spec by lia.
    destruct (Z.leb_spec (hash_mask_offset t) n); cbn [andb].
    + destruct (Z.ltb_spec n (hash_mask_offset t + hash_bits t)); [apply Z.ones_spec_low|apply Z.ones_spec_high]; lia.
    + apply Z.testbit_neg_r; lia.
  - rewrite Z.mod_pow2_bits_high by lia; symmetry; apply andb_false_iff; right; apply Z.ltb_ge; lia.
Qed.

Lemma mask_shifted t : shape t -> Z.shiftr (hash_mask t) (hash_mask_offset t) = Z.ones (hash_bits t).
Proof.
  intros Hs; pose proof Hs as (Hb & Ho & _); apply Z.bits_inj'; intros n Hn.
  rewrite Z.shiftr_spec, (mask_bits t) by (auto; lia).
  replace (hash_mask_offset t <=? n + hash_mask_offset t) with true by (symmetry; apply Z.leb_le; lia); cbn [andb].
  destruct (Z.ltb_spec (n + hash_mask_offset t) (hash_mask_offset t + hash_bits t));
    [rewrite Z.ones_spec_low|rewrite Z.ones_spec_high]; lia.
Qed.

Lemma ring_range t : shape t -> 2 <= ring t <= 2 ^ 31.
Proof.
  intros (Hb & _); unfold ring; split; [change 2 with (2 ^ 1) at 1; apply Z.pow_le_mono_r; lia|apply Z.pow_le_mono_r; lia].
Qed.

Lemma wraparound_mod t i : shape t -> HASH_INDEX_WRAPAROUND t i = i mod ring t.
Proof.
  intros Hs; unfold HASH_INDEX_WRAPAROUND; rewrite (mask_shifted t Hs); pose proof Hs as (Hb & _).
  assert (Hlt : 2 ^ hash_bits t < 2 ^ 32) by (apply Z.pow_lt_mono_r; lia); pose proof (pow2_pos (hash_bits t)) as Hp.
  unfold uint; rewrite wrap_id by (rewrite Z.ones_equiv; lia); apply Z.land_ones; lia.
Qed.

Lemma wraparound_next t i : shape t -> 0 <= i < ring t ->
  HASH_INDEX_WRAPAROUND t (i + 1) = if i + 1 =? ring t then 0 else i + 1.
Proof.
  intros Hs Hi; rewrite (wraparound_mod t) by exact Hs; destruct (Z.eqb_spec (i + 1) (ring t)) as [->|Hn].
  - apply Z_mod_same_full.
  - apply Z.mod_small; lia.
Qed.

Lemma hash_range t v : shape t -> 0 <= HASH_FUNC t strings v < ring t.
Proof.
  intros Hs; unfold HASH_FUNC; pose proof Hs as (Hb & Ho & _).
  set (x := Z.shiftr _ _); enough (Hx : 0 <= x < ring t).
  { assert (ring t < 2 ^ 32) by (apply Z.pow_lt_mono_r; lia); unfold uint; rewrite wrap_id; lia. }
  assert (E1 : x = x mod ring t).
  { unfold x, ring; rewrite <- Z.land_ones by lia; rewrite Z.shiftr_land, (mask_shifted t Hs), <- Z.land_assoc, Z.land_diag; reflexivity. }
  rewrite E1; apply Z.mod_pos_bound, pow2_pos; lia.
Qed.

(** ** Slots *)

Lemma slot_at_range t i s : slot_at t i = Some s -> 0 <= i < Z.of_nat (List.length (table t)).
Proof.
  unfold slot_at; destruct (Z.ltb_spec i 0); [discriminate|]; intros Hl; apply lookup_lt_Some in Hl; lia.
Qed.

Lemma slot_at_some t i : 0 <= i < Z.of_nat (List.length (table t)) -> exists s, slot_at t i = Some s.
Proof.
  intros Hi; unfold slot_at; destruct (Z.ltb_spec i 0); [lia|]; apply lookup_lt_is_Some_2; lia.
Qed.

Lemma slot_at_set t i j s :
  0 <= i < Z.of_nat (List.length (table t)) -> slot_at (set_slot t i s) j = if j =? i then Some s else slot_at t j.
Proof.
  intros Hi; unfold slot_at, set_slot; cbn [table with_slots].
  destruct (Z.eqb_spec j i) as [->|Hn].
  - destruct (Z.ltb_spec i 0); [lia|]; apply list_lookup_insert_eq; lia.
  - destruct (Z.ltb_spec j 0); [reflexivity|]; apply list_lookup_insert_ne; lia.
Qed.

Lemma shape_set t i s : shape t -> shape (set_slot t i s).
Proof. unfold shape, set_slot; cbn [table with_slots hash_bits hash_mask_offset hash_mask capacity]; rewrite length_insert; auto. Qed.

(** The entries of a table that satisfy [p], in order. *)
Definition pick_slot (p : E -> bool) s : list E := match s with ENTRY e => if p e then [e] else [] | _ => [] end.
Definition pick (p : E -> bool) t : list E := concat (map (pick_slot p) (table t)).

Lemma elem_of_pick p t e : e ∈ pick p t <-> p e = true /\ exists i, slot_at t i = Some (ENTRY e).
Proof.
  unfold pick; rewrite list_elem_of_In, in_concat; setoid_rewrite in_map_iff; split.
  - intros (l & (s & <- & Hs) & He); destruct s as [| |e']; cbn in He; try contradiction.
    destruct (p e') eqn:Ep; [|contradiction]; destruct He as [->|[]]; split; [exact Ep|].
    apply list_elem_of_In, list_elem_of_lookup in Hs as (n & Hn); exists (Z.of_nat n); unfold slot_at.
    destruct (Z.ltb_spec (Z.of_nat n) 0); [lia|]; now rewrite Nat2Z.id.
  - intros (Hp & i & Hi); exists [e]; split; [|now left].
    exists (ENTRY e); split; [cbn; now rewrite Hp|]; apply list_elem_of_In, list_elem_of_lookup.
    unfold slot_at in Hi; destruct (Z.ltb_spec i 0); [discriminate|eauto].
Qed.

(** Writing a slot changes the entries by that slot only. *)
Lemma pick_set p t i s0 : slot_at t i = Some s0 ->
  exists rest, pick p t ≡ₚ pick_slot p s0 ++ rest /\ forall s, pick p (set_slot t i s) ≡ₚ pick_slot p s ++ rest.
Proof.
  intros Hi; unfold slot_at in Hi; destruct (Z.ltb_spec i 0); [discriminate|].
  exists (concat (map (pick_slot p) (take (Z.to_nat i) (table t))) ++ concat (map (pick_slot p) (drop (S (Z.to_nat i)) (table t)))).
  unfold pick; split.
  - rewrite <- (take_drop_middle _ _ _ Hi) at 1; rewrite map_app, concat_app; cbn [map concat].
    rewrite Permutation_app_comm, <- (assoc_L (++)); f_equiv; apply Permutation_app_comm.
  - intros s; unfold set_slot; cbn [table with_slots]; rewrite insert_take_drop by (eapply lookup_lt_Some; eauto).
    rewrite map_app, concat_app; cbn [map concat].
    rewrite Permutation_app_comm, <- (assoc_L (++)); f_equiv; apply Permutation_app_comm.
Qed.

(** ** Reachability *)

Definition home t e : Z := HASH_FUNC t strings (ENTRY_TAG e).

(** The slots between the home of an entry at [j] and [j] are not empty, with
    the possible exception of [hole]. *)
Definition reachable_but (hole : Z) t : Prop :=
  forall j e x, 0 <= j < ring t -> slot_at t j = Some (ENTRY e) -> ENTRY_IS_INVALID e = false ->
    0 <= x < ring t -> x <> hole -> dist (ring t) (home t e) x < dist (ring t) (home t e) j ->
    slot_at t x <> Some ENTRY_EMPTY.

(** Without exception. *)
Definition reachable t : Prop := reachable_but (-1) t.

(** Below the last slot there is no sentinel. *)
Definition no_sentinel t : Prop := forall j, 0 <= j < ring t -> slot_at t j <> Some ENTRY_SENTINEL.

Definition has_empty t : Prop := exists z, 0 <= z < ring t /\ slot_at t z = Some ENTRY_EMPTY.

(** The last slot holds no entry. *)
Definition no_last t : Prop := forall e, slot_at t (ring t) <> Some (ENTRY e).

(** The form of a table that operations on slots keep. *)
Definition formed t : Prop := shape t /\ no_sentinel t /\ no_last t.

Lemma ring_slot t i : shape t -> 0 <= i <= ring t -> exists s, slot_at t i = Some s.
Proof. intros (_ & _ & _ & _ & _ & Hl) Hi; apply slot_at_some; lia. Qed.

Lemma body_slot t i : formed t -> 0 <= i < ring t -> slot_at t i = Some ENTRY_EMPTY \/ exists e, slot_at t i = Some (ENTRY e).
Proof.
  intros (Hs & Hn & _) Hi; destruct (ring_slot t i Hs) as ([| |e] & Hr); [lia|auto| |eauto]; now apply Hn in Hr.
Qed.

Lemma entry_index t i e : formed t -> slot_at t i = Some (ENTRY e) -> 0 <= i < ring t.
Proof.
  intros (Hs & _ & Hl) Hi; pose proof (slot_at_range t i _ Hi); pose proof Hs as (_ & _ & _ & _ & _ & Hlen).
  destruct (Z.eq_dec i (ring t)) as [->|]; [now apply Hl in Hi|lia].
Qed.

Lemma formed_set t i s : formed t -> 0 <= i < ring t -> s <> ENTRY_SENTINEL -> formed (set_slot t i s).
Proof.
  intros (Hs & Hn & Hl) Hi Hne; pose proof Hs as (_ & _ & _ & _ & _ & Hlen); split; [now apply shape_set|].
  split; [intros j Hj|intros e]; change (ring (set_slot t i s)) with (ring t) in *; rewrite slot_at_set by lia.
  - destruct (Z.eqb_spec j i); [congruence|now apply Hn].
  - destruct (Z.eqb_spec (ring t) i); [lia|apply Hl].
Qed.

Lemma home_set t i s e : home (set_slot t i s) e = home t e.
Proof. reflexivity. Qed.

(** ** Counting entries *)

Definition occupied t : Z := Z.of_nat (List.length (pick (fun _ => true) t)).

Lemma pick_length (l : list (slot E)) :
  let n := List.length (concat (map (pick_slot (fun _ => true)) l)) in
  (n <= List.length l)%nat /\ ((n < List.length l)%nat <-> exists i s, l !! i = Some s /\ pick_slot (fun _ => true) s = []).
Proof.
  induction l as [|a l [IH1 IH2]]; cbn [map concat List.length]; [split; [lia|]; split; [lia|intros (i & s & Hi & _); discriminate]|].
  rewrite length_app; set (n := List.length (concat _)) in *; destruct (pick_slot (fun _ => true) a) as [|x [|y r]] eqn:Ea.
  - cbn; split; [lia|]; split; [intros _; exists 0%nat, a; auto|lia].
  - cbn; split; [lia|]; split.
    + intros Hlt; destruct (proj1 IH2 ltac:(lia)) as (i & s & Hi & Hs); exists (S i), s; auto.
    + intros ([|i] & s & Hi & Hs); cbn in Hi; [congruence|]; enough (n < List.length l)%nat by lia; apply IH2; eauto.
  - destruct a; discriminate.
Qed.

(** There is an empty slot as long as the entries do not fill the ring. *)
Lemma has_empty_occupied t : formed t -> has_empty t <-> occupied t < ring t.
Proof.
  intros Hf; pose proof Hf as (Hs & Hn & Hl); pose proof Hs as (_ & _ & _ & _ & _ & Hlen); pose proof (ring_range t Hs) as Hr.
  set (body := take (Z.to_nat (ring t)) (table t)).
  destruct (ring_slot t (ring t) Hs) as (sl & Esl); [lia|].
  assert (Et : table t = body ++ [sl]).
  { unfold slot_at in Esl; destruct (Z.ltb_spec (ring t) 0); [lia|].
    rewrite <- (take_drop_middle _ _ _ Esl), drop_ge by lia; reflexivity. }
  assert (Ep : pick (fun _ => true) t = concat (map (pick_slot (fun _ => true)) body)).
  { unfold pick; rewrite Et, map_app, concat_app; cbn; destruct sl as [| |e]; cbn; rewrite ?app_nil_r; auto; now apply Hl in Esl. }
  assert (Hb : List.length body = Z.to_nat (ring t)) by (unfold body; rewrite length_take; lia).
  destruct (pick_length body) as [_ Hiff]; unfold occupied; rewrite Ep; set (n := List.length (concat _)) in *.
  assert (Hat : forall i, (i < List.length body)%nat -> body !! i = slot_at t (Z.of_nat i)).
  { intros i Hi; unfold slot_at; destruct (Z.ltb_spec (Z.of_nat i) 0); [lia|]; rewrite Nat2Z.id, Et, lookup_app_l; auto. }
  split.
  - intros (z & Hz & Ez); enough (n < List.length body)%nat by lia; apply Hiff; exists (Z.to_nat z), ENTRY_EMPTY; split; [|reflexivity].
    rewrite Hat by lia; rewrite Z2Nat.id by lia; exact Ez.
  - intros Hlt; destruct (proj1 Hiff ltac:(lia)) as (i & s & Hi & Hsl); pose proof (lookup_lt_Some _ _ _ Hi) as Hil.
    exists (Z.of_nat i); split; [lia|]; rewrite Hat in Hi by lia; rewrite Hi; f_equal.
    destruct s as [| |e]; [reflexivity| |discriminate]; exfalso; apply (Hn (Z.of_nat i)); [lia|exact Hi].
Qed.

(** ** The search for an entry *)

(** One step along the ring. *)
Definition next_pos t (i : Z) : Z := if i + 1 =? ring t then 0 else i + 1.

(** A property of slots that holds of an empty slot is met on the way, and what
    lies before does not have it. *)
Lemma walk_to t (stop : slot E -> bool) i :
  formed t -> has_empty t -> stop ENTRY_EMPTY = true -> 0 <= i < ring t ->
  exists j s, 0 <= j < ring t /\ slot_at t j = Some s /\ stop s = true /\
    forall x s', 0 <= x < ring t -> slot_at t x = Some s' -> dist (ring t) i x < dist (ring t) i j -> stop s' = false.
Proof.
  intros Hf (z & Hz & Ez) Hstop Hi; remember (Z.to_nat (dist (ring t) i z)) as n eqn:Hn; revert i Hi Hn.
  induction n as [|n IH]; intros i Hi Hn.
  - exists z, ENTRY_EMPTY; repeat split; auto; try lia; intros; exfalso; ring_lia.
  - destruct (ring_slot t i (proj1 Hf)) as (s & Es); [lia|]; destruct (stop s) eqn:Est.
    + exists i, s; repeat split; auto; try lia; intros; exfalso; ring_lia.
    + assert (Hne : i <> z) by (intros ->; rewrite Ez in Es; injection Es as <-; congruence).
      destruct (IH (next_pos t i)) as (j & s' & Hj & Ej & Sj & Hx); [unfold next_pos; ring_lia| |].
      * assert (dist (ring t) i z = dist (ring t) (next_pos t i) z + 1) by (unfold next_pos; ring_lia).
        apply Nat2Z.inj; rewrite Z2Nat.id by (unfold next_pos; ring_lia); lia.
      * exists j, s'; repeat split; auto; try lia; intros x sx Hx' Ex Hd.
        destruct (Z.eq_dec x i) as [->|Hnx]; [congruence|]; apply (Hx x sx); auto; unfold next_pos; ring_lia.
Qed.

(** A loop that moves on at slots that pass arrives where they end. *)
Lemma loop_arrives {A : Type} t (f : nat -> Z -> option A) (pass : slot E -> Prop) i j fuel :
  formed t -> 0 <= i < ring t -> 0 <= j < ring t ->
  (forall n x s, 0 <= x < ring t -> slot_at t x = Some s -> pass s -> f (S n) x = f n (HASH_INDEX_WRAPAROUND t (x + 1))) ->
  (forall x, 0 <= x < ring t -> dist (ring t) i x < dist (ring t) i j -> exists s, slot_at t x = Some s /\ pass s) ->
  dist (ring t) i j < Z.of_nat fuel -> exists n, f fuel i = f (S n) j.
Proof.
  intros Hf Hi Hj Hstep Hpass Hfuel; revert i Hi Hpass Hfuel; induction fuel as [|fuel IH]; intros i Hi Hpass Hfuel.
  - exfalso; ring_lia.
  - destruct (Z.eq_dec i j) as [->|Hne]; [eauto|].
    destruct (Hpass i Hi) as (s & Es & Hs); [ring_lia|].
    rewrite (Hstep fuel i s Hi Es Hs), (wraparound_next t i (proj1 Hf) Hi).
    apply IH; [ring_lia| |ring_lia].
    intros x Hx Hd; apply Hpass; [exact Hx|]; ring_lia.
Qed.

Lemma probes_enough t i j : formed t -> 0 <= i < ring t -> 0 <= j < ring t -> dist (ring t) i j < Z.of_nat (probes t).
Proof. intros ((_ & _ & _ & _ & _ & Hl) & _) Hi Hj; unfold probes; ring_lia. Qed.
End Table.

(** ** Laws of an instance *)

(** What the template relies on, for tables with the flags [fl] and the hash
    function [func]: equality of tags is an equivalence that the hash respects,
    entries are equal if their tags are, and an invalid entry has no tag that is
    looked up. *)
Class EntryLaws (E : Type) `{EntryType E} (strings : Z -> list Z) (fl func : Z) := {
  tag_ok : Z -> Prop;
  tags_refl t : TAGS_ARE_EQUAL fl t t = true;
  tags_sym t1 t2 : TAGS_ARE_EQUAL fl t1 t2 = TAGS_ARE_EQUAL fl t2 t1;
  tags_trans t1 t2 t3 : TAGS_ARE_EQUAL fl t1 t2 = true -> TAGS_ARE_EQUAL fl t2 t3 = true -> TAGS_ARE_EQUAL fl t1 t3 = true;
  tags_hash (t : table_t E) t1 t2 :
    hash_func t = func -> TAGS_ARE_EQUAL fl t1 t2 = true -> HASH_FUNC t strings t1 = HASH_FUNC t strings t2;
  entries_tags e1 e2 : ENTRIES_ARE_EQUAL fl e1 e2 = TAGS_ARE_EQUAL fl (ENTRY_TAG e1) (ENTRY_TAG e2);
  invalid_tag e t : ENTRY_IS_INVALID e = true -> tag_ok t -> TAGS_ARE_EQUAL fl (ENTRY_TAG e) t = false;
  custom_plain (t : table_t E) :
    groom_factor_percent t = 0 -> groom_threshold t = 0 -> max_capacity_bits t = 0 -> init_internal_custom t = t;
}.

Section Search.
Context {E : Type} `{EntryType E} (strings : Z -> list Z) (fl func : Z) `{!EntryLaws E strings fl func}.
Implicit Types (t : table_t E) (s : slot E) (e : E).

Definition uses t : Prop := table_flags t = fl /\ hash_func t = func.

(** An entry is real if it is not invalid. *)
Definition real e : bool := negb (ENTRY_IS_INVALID e).
Definition contents t : list E := pick real t.

(** No two entries of a list have equal tags. *)
Fixpoint distinct_tags (l : list E) : Prop :=
  match l with
  | [] => True
  | e :: l => Forall (fun f => TAGS_ARE_EQUAL fl (ENTRY_TAG e) (ENTRY_TAG f) = false) l /\ distinct_tags l
  end.

#[export] Instance distinct_tags_perm : Proper ((≡ₚ) ==> iff) distinct_tags.
Proof.
  assert (Himp : forall l k, l ≡ₚ k -> distinct_tags l -> distinct_tags k).
  { intros l k Hp; induction Hp as [|e l k Hp IH|e f l|l k m _ IH1 _ IH2]; cbn; auto.
    - intros [H1 H2]; split; [now rewrite <- Hp|auto].
    - rewrite !Forall_cons_iff; intros ((H1 & H2) & H3 & H4); split; [split; [now rewrite tags_sym|exact H3]|auto]. }
  intros l k Hp; split; apply Himp; [exact Hp|now symmetry].
Qed.

(** Where the search for [tag] stops. *)
Definition stops (tag : Z) s : bool :=
  match s with ENTRY_EMPTY => true | ENTRY_SENTINEL => false | ENTRY e => TAGS_ARE_EQUAL fl (ENTRY_TAG e) tag end.

(** The search from the home of [tag] ends at an empty slot, if there is no
    entry with the tag, or at that entry. *)
Lemma search_end t tag :
  formed t -> has_empty t -> reachable strings t -> uses t -> tag_ok tag ->
  exists j s, 0 <= j < ring t /\ slot_at t j = Some s /\
    (forall x, 0 <= x < ring t -> dist (ring t) (HASH_FUNC t strings tag) x < dist (ring t) (HASH_FUNC t strings tag) j ->
       exists e, slot_at t x = Some (ENTRY e) /\ TAGS_ARE_EQUAL fl (ENTRY_TAG e) tag = false) /\
    match s with
    | ENTRY_EMPTY => forall e, e ∈ contents t -> TAGS_ARE_EQUAL fl (ENTRY_TAG e) tag = false
    | ENTRY_SENTINEL => False
    | ENTRY e => e ∈ contents t /\ TAGS_ARE_EQUAL fl (ENTRY_TAG e) tag = true
    end.
Proof.
  intros Hf He Hr [Hfl Hfu] Htag; set (h := HASH_FUNC t strings tag).
  assert (Hh : 0 <= h < ring t) by (apply hash_range, Hf).
  destruct (walk_to t (stops tag) h Hf He eq_refl Hh) as (j & s & Hj & Ej & Sj & Hx); exists j, s.
  split; [exact Hj|split; [exact Ej|split]].
  - intros x Hxr Hd; destruct (body_slot t x Hf Hxr) as [Ex|(e & Ex)]; [|exists e; split; [exact Ex|exact (Hx x _ Hxr Ex Hd)]].
    specialize (Hx x _ Hxr Ex Hd); discriminate.
  - destruct s as [| |e]; [|discriminate|].
    + intros e Hc; apply elem_of_pick in Hc as [Hre (i & Ei)]; destruct (TAGS_ARE_EQUAL fl (ENTRY_TAG e) tag) eqn:Et; [exfalso|reflexivity].
      apply negb_true_iff in Hre; pose proof (entry_index t i e Hf Ei) as Hi.
      assert (Eh : home strings t e = h) by (apply (tags_hash t); auto).
      destruct (Z.lt_ge_cases (dist (ring t) h j) (dist (ring t) h i)) as [Hlt|Hge].
      * apply (Hr i e j Hi Ei Hre Hj ltac:(lia)); [now rewrite Eh|exact Ej].
      * destruct (Z.eq_dec i j) as [->|Hne]; [congruence|].
        assert (X : stops tag (ENTRY e) = false) by (apply (Hx i _ Hi Ei); clear - Hge Hne Hi Hj Hh; ring_lia).
        cbn in X; congruence.
    + cbn in Sj; split; [|exact Sj]; apply elem_of_pick; split; [|eauto].
      apply negb_true_iff; destruct (ENTRY_IS_INVALID e) eqn:Ei; [|reflexivity].
      now rewrite (invalid_tag e tag Ei Htag) in Sj.
Qed.

(** [lookup] returns the entry with the tag, or an empty one. *)
Lemma lookup_spec t tag :
  formed t -> has_empty t -> reachable strings t -> uses t -> tag_ok tag ->
  exists s, hashtable_lookup strings tag t = Some s /\
    match s with
    | ENTRY_EMPTY => forall e, e ∈ contents t -> TAGS_ARE_EQUAL fl (ENTRY_TAG e) tag = false
    | ENTRY_SENTINEL => False
    | ENTRY e => e ∈ contents t /\ TAGS_ARE_EQUAL fl (ENTRY_TAG e) tag = true
    end.
Proof.
  intros Hf He Hr Hu Htag; destruct (search_end t tag Hf He Hr Hu Htag) as (j & s & Hj & Ej & Hx & Hs).
  exists s; split; [|exact Hs]; unfold hashtable_lookup.
  destruct (loop_arrives t (fun n => lookup_loop n tag t)
              (fun s => exists e, s = ENTRY e /\ TAGS_ARE_EQUAL fl (ENTRY_TAG e) tag = false)
              (HASH_FUNC t strings tag) j (probes t)) as (n & ->); auto; [apply hash_range, Hf| | |apply probes_enough; auto; apply hash_range, Hf|].
  - intros n x ? _ Ex (e & -> & Et); cbn [lookup_loop]; rewrite Ex; cbn [obind ENTRY_IS_EMPTY slot_tag]; now rewrite (proj1 Hu), Et.
  - intros x Hxr Hd; destruct (Hx x Hxr Hd) as (e & Ex & Et); eauto.
  - cbn [lookup_loop]; rewrite Ej; cbn [obind]; destruct s as [| |e]; [reflexivity|contradiction|].
    cbn [ENTRY_IS_EMPTY slot_tag obind]; now rewrite (proj1 Hu), (proj2 Hs).
Qed.

(** [lookup_for_removal] returns the index of the entry, if it is there. *)
Lemma lookup_for_removal_spec t fr :
  formed t -> has_empty t -> reachable strings t -> uses t -> tag_ok (ENTRY_TAG fr) ->
  exists r, lookup_for_removal strings fr t = Some r /\
    match r with
    | None => forall e, e ∈ contents t -> TAGS_ARE_EQUAL fl (ENTRY_TAG e) (ENTRY_TAG fr) = false
    | Some i => exists e, 0 <= i < ring t /\ slot_at t i = Some (ENTRY e) /\ real e = true /\
                  TAGS_ARE_EQUAL fl (ENTRY_TAG e) (ENTRY_TAG fr) = true
    end.
Proof.
  intros Hf He Hr Hu Htag; destruct (search_end t (ENTRY_TAG fr) Hf He Hr Hu Htag) as (j & s & Hj & Ej & Hx & Hs).
  exists (match s with ENTRY _ => Some j | _ => None end); unfold lookup_for_removal.
  destruct (loop_arrives t (fun n => removal_loop n fr t)
              (fun s => exists e, s = ENTRY e /\ TAGS_ARE_EQUAL fl (ENTRY_TAG e) (ENTRY_TAG fr) = false)
              (HASH_FUNC t strings (ENTRY_TAG fr)) j (probes t)) as (n & ->); auto; [apply hash_range, Hf| | |apply probes_enough; auto; apply hash_range, Hf|].
  - intros n x ? _ Ex (e & -> & Et); cbn [removal_loop]; rewrite Ex; cbn [obind]; now rewrite (proj1 Hu), entries_tags, tags_sym, Et.
  - intros x Hxr Hd; destruct (Hx x Hxr Hd) as (e & Ex & Et); eauto.
  - cbn [removal_loop]; rewrite Ej; cbn [obind]; destruct s as [| |e]; [split; [reflexivity|exact Hs]|contradiction|].
    destruct Hs as [Hc Ht]; rewrite (proj1 Hu), entries_tags, tags_sym, Ht; split; [reflexivity|].
    exists e; repeat split; try lia; auto; now apply elem_of_pick in Hc as [Hc _].
Qed.
End Search.
