(* ===== verification/HashRemove.v ===== *)
(** * Removal from an open-address table

    Removing an entry closes the hole it leaves (Knuth's algorithm R): the other
    entries stay, and stay reachable.  Removing many entries by a downward sweep
    ends and removes exactly those that match. *)
From Stdlib Require Import ZArith Lia.
From S2P Require Import Prelude.
From S2P Require Import Hashtable.
From S2P Require Import HashProbe.
From stdpp Require Import base list numbers.
#[local] Open Scope Z_scope.
#[local] Open Scope rw_scope.

Section Remove.
Context {E : Type} `{EntryType E} (strings : Z -> list Z).
Implicit Types (t : table_t E) (s : slot E) (e : E).

(** Tables that differ in their slots only. *)
Definition same_header t t' : Prop := exists l, t' = with_slots t l.

Lemma same_header_refl t : same_header t t.
Proof. exists (table t); now destruct t. Qed.

Lemma same_header_set t t' i s : same_header (set_slot t i s) t' -> same_header t t'.
Proof. intros (l & ->); exists l; reflexivity. Qed.

Lemma same_header_ring t t' : same_header t t' -> ring t' = ring t.
Proof. intros (l & ->); reflexivity. Qed.

(** The test in the loop: the hole lies between the home of the entry and it. *)
Lemma orphan_test n preferred hole hindex :
  0 <= preferred < n -> 0 <= hole < n -> 0 <= hindex < n -> hole <> hindex ->
  ((preferred <=? hole) && (hole <? hindex)) || ((hindex <? preferred) && (preferred <=? hole)) ||
  ((hole <? hindex) && (hindex <? preferred)) = (dist n preferred hole <? dist n preferred hindex).
Proof.
  intros; unfold dist; destruct (Z.leb_spec preferred hole), (Z.leb_spec preferred hindex); zcases; cbn [andb orb]; first [reflexivity|exfalso; lia].
Qed.

(** What is known when [hindex] is the last slot looked at: the slots behind
    the hole up to there are full, and no entry in them is orphaned. *)
Definition scanned t (hole hindex : Z) : Prop :=
  forall x, 0 <= x < ring t -> 0 < dist (ring t) hole x <= dist (ring t) hole hindex ->
    exists e, slot_at t x = Some (ENTRY e) /\
      (ENTRY_IS_INVALID e = false -> dist (ring t) (home strings t e) x <= dist (ring t) (home strings t e) hole).

(** At an empty slot every entry is reachable. *)
Lemma scanned_reachable t hole hindex j :
  formed t -> 0 <= hole < ring t -> 0 <= hindex < ring t -> j = next_pos t hindex ->
  reachable_but strings hole t -> scanned t hole hindex -> j <> hole -> slot_at t j = Some ENTRY_EMPTY -> reachable strings t.
Proof.
  intros Hf Hh Hi -> Hr Hs Hj Ej y e x Hy Ey Hv Hx _ Hd Ex; set (n := ring t) in *; set (p := home strings t e) in *.
  assert (Hp : 0 <= p < n) by (apply hash_range, Hf).
  destruct (Z.eq_dec x hole) as [->|Hxh]; [|exact (Hr y e x Hy Ey Hv Hx Hxh Hd Ex)].
  assert (Hjr : 0 <= next_pos t hindex < n) by (unfold next_pos; fold n; ring_lia).
  destruct (Z.le_gt_cases (dist n hole y) (dist n hole hindex)) as [Hle|Hgt].
  - destruct (Hs y Hy) as (e' & Ey' & Hnot); [fold n; split; [ring_lia|exact Hle]|].
    rewrite Ey in Ey'; injection Ey' as <-; specialize (Hnot Hv); fold n p in Hnot; lia.
  - assert (Hyj : y <> next_pos t hindex) by congruence.
    apply (Hr y e (next_pos t hindex) Hy Ey Hv Hjr Hj); [|exact Ej].
    fold n p; clear - Hd Hgt Hyj Hh Hi Hy Hp Hj; unfold next_pos in *; fold n in Hyj, Hj |- *.
    assert (D : dist n hole (if hindex + 1 =? n then 0 else hindex + 1) = dist n hole hindex + 1) by ring_lia.
    set (j := if _ =? _ then _ else _) in *; assert (0 <= j < n) by (unfold j; ring_lia); clearbody j; ring_lia.
Qed.

(** Moving an orphaned entry into the hole keeps what is known. *)
Lemma move_reachable t hole hindex j e :
  formed t -> 0 <= hole < ring t -> 0 <= hindex < ring t -> j = next_pos t hindex -> 0 <= j < ring t -> j <> hole ->
  dist (ring t) hole j = dist (ring t) hole hindex + 1 ->
  reachable_but strings hole t -> scanned t hole hindex -> slot_at t j = Some (ENTRY e) ->
  dist (ring t) (home strings t e) hole < dist (ring t) (home strings t e) j ->
  reachable_but strings j (set_slot (set_slot t hole (ENTRY e)) j ENTRY_EMPTY).
Proof.
  intros Hf Hh Hi Ej Hj Hne Dj Hr Hs Es Ho.
  pose proof (proj1 Hf) as (_ & _ & _ & _ & _ & Hlen).
  assert (Hl : forall k, 0 <= k < ring t -> 0 <= k < Z.of_nat (List.length (table t))) by lia.
  set (t1 := set_slot t hole (ENTRY e)); set (t2 := set_slot t1 j ENTRY_EMPTY).
  assert (Hget : forall k, slot_at t2 k = if k =? j then Some ENTRY_EMPTY else if k =? hole then Some (ENTRY e) else slot_at t k).
  { intros k; unfold t2, t1; rewrite slot_at_set by (cbn; rewrite length_insert; lia); now rewrite slot_at_set by lia. }
  intros y f x Hy Ey Hv Hx Hxj Hd Ex; change (ring t2) with (ring t) in *; change (home strings t2) with (home strings t) in *.
  rewrite Hget in Ey, Ex; rewrite (proj2 (Z.eqb_neq x j) Hxj) in Ex.
  destruct (Z.eqb_spec x hole) as [|Hxh]; [discriminate|]; destruct (Z.eqb_spec y j) as [|Hyj]; [discriminate|].
  assert (Hp : 0 <= home strings t f < ring t) by (apply hash_range, Hf).
  destruct (Z.eqb_spec y hole) as [->|Hyh].
  - injection Ey as <-; apply (Hr j e x Hj Es Hv Hx Hxh); [lia|exact Ex].
  - apply (Hr y f x Hy Ey Hv Hx Hxh Hd Ex).
Qed.

(** The outcome of closing a hole: the entries are the same up to order and can
    all be reached; if nothing was moved across the end of the table, the slots
    in front of the hole are the same and the ones behind it hold entries from
    behind it. *)
Definition hole_closed t (hole : Z) (t' : table_t E) (wrapped : bool) : Prop :=
  same_header t t' /\ formed t' /\ reachable strings t' /\ (forall p, pick p t' ≡ₚ pick p t) /\
  (wrapped = false ->
     (forall x, 0 <= x < hole -> slot_at t' x = slot_at t x) /\
     (forall x e, hole <= x < ring t -> slot_at t' x = Some (ENTRY e) -> exists y, hole < y < ring t /\ slot_at t y = Some (ENTRY e))).

(** Moving an entry from [j] to the empty slot [hole]. *)
Section Move.
Context (t : table_t E) (hole j : Z) (e : E).
Context (Hf : formed t) (Hh : 0 <= hole < ring t) (Hj : 0 <= j < ring t) (Hne : j <> hole).
Context (Eh : slot_at t hole = Some ENTRY_EMPTY) (Ej : slot_at t j = Some (ENTRY e)).
Let t2 := set_slot (set_slot t hole (ENTRY e)) j ENTRY_EMPTY.

Lemma move_get k : slot_at t2 k = if k =? j then Some ENTRY_EMPTY else if k =? hole then Some (ENTRY e) else slot_at t k.
Proof.
  pose proof (proj1 Hf) as (_ & _ & _ & _ & _ & Hlen).
  unfold t2; rewrite slot_at_set by (cbn; rewrite length_insert; lia); now rewrite slot_at_set by lia.
Qed.

Lemma move_formed : formed t2.
Proof. unfold t2; apply formed_set; [apply formed_set; auto|exact Hj|]; discriminate. Qed.

Lemma move_pick p : pick p t2 ≡ₚ pick p t.
Proof.
  destruct (pick_set p t hole _ Eh) as (r1 & P1 & Q1).
  pose proof (proj1 Hf) as (_ & _ & _ & _ & _ & Hlen).
  assert (Ej1 : slot_at (set_slot t hole (ENTRY e)) j = Some (ENTRY e)) by (rewrite slot_at_set by lia; zdecide; exact Ej).
  destruct (pick_set p _ j _ Ej1) as (r2 & P2 & Q2); unfold t2; rewrite (Q2 ENTRY_EMPTY), P1; cbn [pick_slot app].
  rewrite (Q1 (ENTRY e)) in P2; now apply Permutation_app_inv_l in P2.
Qed.
End Move.

Lemma close_hole_spec fuel : forall t hole hindex z w0,
  formed t -> 0 <= hole < ring t -> 0 <= hindex < ring t -> slot_at t hole = Some ENTRY_EMPTY ->
  reachable_but strings hole t -> scanned t hole hindex ->
  0 <= z < ring t -> z <> hole -> slot_at t z = Some ENTRY_EMPTY ->
  dist (ring t) hole hindex < dist (ring t) hole z -> dist (ring t) hindex z <= Z.of_nat fuel ->
  exists t' w, close_hole strings fuel t hole hindex w0 = Some (t', w) /\ hole_closed t hole t' w /\ (w = false -> w0 = false).
Proof.
  induction fuel as [|fuel IH]; intros t hole hindex z w0 Hf Hh Hi Eh Hr Hs Hz Hzh Ez Hlt Hfuel; [exfalso; clear - Hi Hz Hlt Hfuel; ring_lia|].
  pose proof (wraparound_next t hindex (proj1 Hf) Hi) as Hnext; fold (next_pos t hindex) in Hnext.
  set (j := next_pos t hindex) in *.
  assert (Hj : 0 <= j < ring t) by (unfold j, next_pos; ring_lia).
  assert (Dj : dist (ring t) hole j = dist (ring t) hole hindex + 1) by (unfold j, next_pos in *; clear - Hi Hh Hz Hlt; ring_lia).
  assert (Djz : dist (ring t) hindex z = dist (ring t) j z + 1) by (unfold j, next_pos in *; clear - Hi Hh Hz Hlt; ring_lia).
  assert (Hjh : j <> hole) by (clear - Dj Hh Hi Hj; ring_lia).
  cbn [close_hole]; rewrite Hnext; destruct (body_slot t j Hf Hj) as [Ej|(e & Ej)]; rewrite Ej; cbn [obind ENTRY_IS_EMPTY slot_tag].
  - exists t, w0; split; [reflexivity|split; [|auto]]; split; [apply same_header_refl|split; [exact Hf|]].
    split; [eapply (scanned_reachable t hole hindex j); eauto|split; [reflexivity|]]; intros _; split; [reflexivity|].
    intros x e Hx Ex; exists x; split; [|exact Ex]; destruct (Z.eq_dec x hole) as [->|]; [congruence|lia].
  - assert (Hjz : j <> z) by congruence.
    fold (home strings t e); rewrite (orphan_test (ring t)) by (auto; apply hash_range, Hf).
    destruct (Z.ltb_spec (dist (ring t) (home strings t e) hole) (dist (ring t) (home strings t e) j)) as [Ho|Ho].
    + set (t2 := set_slot (set_slot t hole (ENTRY e)) j ENTRY_EMPTY).
      pose proof (move_get t hole j e Hf Hh Hj Hjh) as Hget; fold t2 in Hget.
      destruct (IH t2 j j z (if j <? hole then true else w0)) as (t' & w & R & (C1 & C2 & C3 & C4 & C5) & Hw).
      * now apply move_formed.
      * exact Hj.
      * exact Hj.
      * rewrite Hget, Z.eqb_refl; reflexivity.
      * eapply (move_reachable t hole hindex j e); eauto.
      * intros x Hx Hd; exfalso; clear - Hd; ring_lia.
      * exact Hz.
      * congruence.
      * rewrite Hget; repeat zdecide; exact Ez.
      * change (ring t2) with (ring t); clear - Hj Hz Hjz; ring_lia.
      * change (ring t2) with (ring t); lia.
      * exists t', w; split; [exact R|]; split; [|intros Hw0; specialize (Hw Hw0); now destruct (j <? hole)].
        split; [exact (same_header_set _ _ _ _ (same_header_set _ _ _ _ C1))|split; [exact C2|split; [exact C3|split]]].
        -- intros p; rewrite C4; now apply move_pick.
        -- intros Hw0; specialize (Hw Hw0); destruct (Z.ltb_spec j hole) as [|Hge]; [discriminate|].
           destruct (C5 Hw0) as [C6 C7]; change (ring t2) with (ring t) in C7; split.
           ++ intros x Hx; rewrite C6 by lia; rewrite Hget; now repeat zdecide.
           ++ intros x f Hx Ex; destruct (Z.lt_ge_cases x j) as [Hxj|Hxj].
              ** rewrite C6, Hget in Ex by lia; replace (x =? j) with false in Ex by (symmetry; apply Z.eqb_neq; lia).
                 destruct (Z.eqb_spec x hole); [injection Ex as <-; exists j|exists x]; split; auto; lia.
              ** destruct (C7 x f ltac:(lia) Ex) as (y & Hy & Ey); rewrite Hget in Ey; exists y; split; [lia|].
                 replace (y =? j) with false in Ey by (symmetry; apply Z.eqb_neq; lia).
                 replace (y =? hole) with false in Ey by (symmetry; apply Z.eqb_neq; lia); exact Ey.
    + apply (IH t hole j z w0); auto; [|clear - Dj Hlt Hjz Hj Hz Hh Hi; ring_lia|lia].
      intros x Hx Hd; destruct (Z.eq_dec x j) as [->|Hxj]; [eauto|apply Hs; auto; clear - Hd Dj Hx Hxj Hj Hh Hi; ring_lia].
Qed.

(** ** Removing one entry *)

(** What every table in use satisfies. *)
Definition probed t : Prop := formed t /\ reachable strings t /\ occupied t < ring t.

Lemma occupied_perm t t' : (forall p, pick p t' ≡ₚ pick p t) -> occupied t' = occupied t.
Proof. intros Hp; unfold occupied; now rewrite (Hp _). Qed.

Lemma remove_helper_spec t i e :
  probed t -> slot_at t i = Some (ENTRY e) ->
  exists l w, let t' := with_entries (with_slots t l) (uint (entries t - 1)) in
    remove_helper strings t i = Some (t', w) /\ probed t' /\
    (forall p, pick p t ≡ₚ pick_slot p (ENTRY e) ++ pick p t') /\
    (w = false ->
       (forall x, 0 <= x < i -> slot_at t' x = slot_at t x) /\
       (forall x f, i <= x < ring t -> slot_at t' x = Some (ENTRY f) -> exists y, i < y < ring t /\ slot_at t y = Some (ENTRY f))).
Proof.
  intros (Hf & Hr & Ho) Ei; pose proof (entry_index t i e Hf Ei) as Hi; pose proof (proj1 Hf) as (_ & _ & _ & _ & _ & Hlen).
  destruct (proj2 (has_empty_occupied t Hf) Ho) as (z & Hz & Ez).
  set (t1 := set_slot t i ENTRY_EMPTY).
  assert (Hget : forall k, slot_at t1 k = if k =? i then Some ENTRY_EMPTY else slot_at t k) by (intros; apply slot_at_set; lia).
  assert (Hzi : z <> i) by congruence.
  assert (Hf1 : formed t1) by (apply formed_set; auto; discriminate).
  destruct (close_hole_spec (probes t) t1 i i z false) as (t' & w & R & ((l & ->) & C2 & C3 & C4 & C5) & _); auto.
  - rewrite Hget, Z.eqb_refl; reflexivity.
  - intros y f x Hy Ey Hv Hx Hxi Hd; change (ring t1) with (ring t) in *; rewrite Hget in Ey |- *.
    destruct (Z.eqb_spec y i); [discriminate|]; rewrite (proj2 (Z.eqb_neq x i) Hxi); eapply (Hr y f x); eauto; lia.
  - intros x Hx Hd; exfalso; clear - Hd; ring_lia.
  - rewrite Hget; repeat zdecide; exact Ez.
  - change (ring t1) with (ring t); clear - Hzi Hz Hi; ring_lia.
  - change (ring t1) with (ring t); unfold probes; clear - Hzi Hz Hi Hlen; ring_lia.
  - exists l, w; unfold remove_helper, remove_helper_open_address; fold t1; rewrite R; cbn [obind].
    assert (Hpk : forall p, pick p t ≡ₚ pick_slot p (ENTRY e) ++ pick p (with_slots t l)).
    { intros p; destruct (pick_set p t i _ Ei) as (rest & P1 & P2); rewrite P1; f_equiv.
      specialize (P2 ENTRY_EMPTY); fold t1 in P2; rewrite <- (C4 p) in P2; exact (symmetry P2). }
    split; [reflexivity|]; split; [split; [exact C2|split; [exact C3|]]|split; [exact Hpk|]].
    + pose proof (Permutation_length (Hpk (fun _ => true))) as Hl; rewrite length_app in Hl; cbn [pick_slot List.length] in Hl.
      change (occupied (with_slots t l) < ring t); unfold occupied in *; lia.
    + intros Hw; destruct (C5 Hw) as [C6 C7]; split.
      * intros x Hx; change (slot_at (with_slots t l) x = slot_at t x); change (with_slots t l) with (with_slots t1 l).
        rewrite C6 by exact Hx; rewrite Hget; now repeat zdecide.
      * intros x f Hx Ex; destruct (C7 x f Hx Ex) as (y & Hy & Ey); exists y; split; [exact Hy|].
        rewrite Hget in Ey; destruct (Z.eqb_spec y i); [discriminate|exact Ey].
Qed.

(** ** Removing all entries that match *)

(** The table after the removal of [gone]. *)
Definition swept t (gone : list E) (l : list (slot E)) (ev : list (ht_event E)) : table_t E :=
  with_freed (with_entries (with_slots t l) (uint (entries t - Z.of_nat (List.length gone)))) ev.

Lemma uint_sub a n m : uint (uint (a - n) - m) = uint (a - (n + m)).
Proof. unfold uint, wrap; rewrite Zminus_mod_idemp_l; f_equal; lia. Qed.

Lemma uint_add a n m : uint (uint (a + n) + m) = uint (a + (n + m)).
Proof. unfold uint, wrap; rewrite Zplus_mod_idemp_l; f_equal; lia. Qed.

(** Assignments to different fields commute, and the last one to a field wins. *)
Lemma slots_freed t l ev : with_slots (with_freed t ev) l = with_freed (with_slots t l) ev.
Proof. reflexivity. Qed.
Lemma entries_freed t n ev : with_entries (with_freed t ev) n = with_freed (with_entries t n) ev.
Proof. reflexivity. Qed.
Lemma slots_entries t l n : with_slots (with_entries t n) l = with_entries (with_slots t l) n.
Proof. reflexivity. Qed.
Lemma slots_slots t l1 l2 : with_slots (with_slots t l1) l2 = with_slots t l2.
Proof. reflexivity. Qed.
Lemma entries_entries t n1 n2 : with_entries (with_entries t n1) n2 = with_entries t n2.
Proof. reflexivity. Qed.
Lemma freed_freed t ev1 ev2 : with_freed (with_freed t ev1) ev2 = with_freed t (ev1 ++ ev2).
Proof. unfold with_freed; cbn; now rewrite <- (assoc_L (++)). Qed.

Lemma overwrite_twice t l1 l2 n1 n2 ev1 ev2 :
  with_freed (with_entries (with_slots (with_freed (with_entries (with_slots t l1) n1) ev1) l2) n2) ev2
  = with_freed (with_entries (with_slots t l2) n2) (ev1 ++ ev2).
Proof.
  rewrite (slots_freed _ l2 ev1), (entries_freed _ n2 ev1), (slots_entries _ l2 n1), slots_slots, entries_entries.
  apply freed_freed.
Qed.

Lemma overwrite_same t : with_freed (with_entries (with_slots t (table t)) (entries t)) [] = t.
Proof. destruct t; unfold with_freed, with_entries, with_counts, with_slots; cbn; now rewrite app_nil_r. Qed.

Lemma uint_id n : 0 <= n < 2 ^ 32 -> uint n = n.
Proof. apply wrap_id. Qed.

Section Sweep.
Context (matches : E -> bool) (dealloc : E -> list (ht_event E)).

(** What a sweep from position [i] down leaves. *)
Definition sweep_result t (n : Z) (t' : table_t E) (n' : Z) : Prop :=
  exists gone l, t' = swept t gone l (concat (map dealloc gone)) /\ n' = uint (n + Z.of_nat (List.length gone)) /\
    probed t' /\ Forall (fun e => matches e = true) gone /\
    (forall k e, slot_at t' k = Some (ENTRY e) -> matches e = false) /\
    (forall p, pick p t ≡ₚ concat (map (fun e => pick_slot p (ENTRY e)) gone) ++ pick p t').

Lemma sweep_spec fuel : forall t i n,
  probed t -> 0 <= n < 2 ^ 32 -> 0 <= entries t < 2 ^ 32 -> -1 <= i < ring t ->
  (forall k e, i < k < ring t -> slot_at t k = Some (ENTRY e) -> matches e = false) ->
  occupied t * (ring t + 1) + i + 2 <= Z.of_nat fuel ->
  exists t' n', sweep strings fuel matches dealloc t i n = Some (t', n') /\ sweep_result t n t' n'.
Proof.
  induction fuel as [|fuel IH]; intros t i n Hp Hn He Hi Hk Hfuel.
  { exfalso; assert (0 <= occupied t) by (unfold occupied; lia); pose proof (ring_range t (proj1 (proj1 Hp))); nia. }
  cbn [sweep]; pose proof Hp as (Hf & _ & _); destruct (Z.leb_spec 0 i) as [H0|H0].
  - assert (Hskip : (forall e, slot_at t i = Some (ENTRY e) -> matches e = false) ->
              exists t' n', sweep strings fuel matches dealloc t (i - 1) n = Some (t', n') /\ sweep_result t n t' n').
    { intros Hm; apply IH; auto; [lia| |lia]; intros k e Hkr Ek; destruct (Z.eq_dec k i) as [->|]; [now apply Hm|apply (Hk k); auto; lia]. }
    destruct (body_slot t i Hf) as [Ei|(e & Ei)]; [lia| |]; rewrite Ei; cbn [obind].
    + apply Hskip; intros e; rewrite Ei; discriminate.
    + destruct (matches e) eqn:Em; [|apply Hskip; intros f; rewrite Ei; intros [= <-]; exact Em].
      destruct (remove_helper_spec t i e Hp Ei) as (l & w & R & Hp1 & Hpk & Hw); cbv zeta in *; rewrite R; cbn [obind].
      set (t1 := with_freed (with_entries (with_slots t l) (uint (entries t - 1))) (dealloc e)).
      assert (Ho : occupied t = occupied t1 + 1).
      { pose proof (Permutation_length (Hpk (fun _ => true))) as Hl; rewrite length_app in Hl; cbn [pick_slot List.length] in Hl.
        unfold occupied; change (pick (fun _ => true) t1) with (pick (fun _ => true) (with_entries (with_slots t l) (uint (entries t - 1)))); lia. }
      assert (Hcap : capacity t = ring t + 1) by apply Hf.
      set (i' := if w then capacity t1 - 1 - 1 else i).
      assert (Hi' : -1 <= i' < ring t1) by (change (ring t1) with (ring t); unfold i'; destruct w; [change (capacity t1) with (capacity t)|]; pose proof (ring_range t (proj1 Hf)); lia).
      destruct (IH t1 i' (uint (n + 1))) as (t' & n' & R' & gone & l' & -> & -> & Hp' & Hg & Hno & Hpk').
      * exact Hp1.
      * apply wrap_range; lia.
      * apply wrap_range; lia.
      * exact Hi'.
      * change (ring t1) with (ring t); intros k f Hkr Ek; change (slot_at t1 k) with (slot_at (with_entries (with_slots t l) (uint (entries t - 1))) k) in Ek.
        unfold i' in Hkr; destruct w; [change (capacity t1) with (capacity t) in Hkr; exfalso; lia|].
        destruct (proj2 (Hw eq_refl) k f) as (y & Hy & Ey); [lia|exact Ek|]; apply (Hk y); auto; lia.
      * change (ring t1) with (ring t) in *; pose proof (ring_range t (proj1 Hf)); lia.
      * exists (swept t1 gone l' (concat (map dealloc gone))), (uint (uint (n + 1) + Z.of_nat (List.length gone))).
        split; [exact R'|]; exists (e :: gone), l'; split; [|split; [|split; [exact Hp'|split; [now constructor|split; [exact Hno|]]]]].
        -- unfold swept; change (entries t1) with (uint (entries t - 1)); rewrite uint_sub; cbn [map concat List.length].
           replace (1 + Z.of_nat (List.length gone)) with (Z.of_nat (S (List.length gone))) by lia.
           apply overwrite_twice.
        -- rewrite uint_add; f_equal; cbn [List.length]; lia.
        -- intros p; rewrite (Hpk p); cbn [map concat]; rewrite <- (assoc_L (++)); f_equiv; exact (Hpk' p).
  - exists t, n; split; [reflexivity|]; exists [], (table t).
    assert (Et : swept t [] (table t) [] = t).
    { unfold swept; cbn [List.length Z.of_nat]; rewrite Z.sub_0_r, uint_id by exact He; apply overwrite_same. }
    cbn [map concat]; rewrite Et; split; [reflexivity|]; split; [cbn [List.length Z.of_nat]; now rewrite Z.add_0_r, uint_id|].
    split; [exact Hp|split; [constructor|split; [|reflexivity]]].
    intros k e Ek; apply (Hk k); [|exact Ek]; pose proof (entry_index t k e Hf Ek); lia.
Qed.
End Sweep.
End Remove.
