(* ===== verification/HashAdd.v ===== *)
(** * Insertion into an open-address table

    A table keeps its invariant when an entry is added, whether the table has
    room or is enlarged and its entries are moved to a new array. *)
From Stdlib Require Import ZArith Lia.
From S2P Require Import Prelude.
From S2P Require Import Hashtable.
From S2P Require Import HashProbe.
From S2P Require Import HashRemove.
From stdpp Require Import base list numbers.
#[local] Open Scope Z_scope.
#[local] Open Scope rw_scope.

(** ** The load of a table *)

(** The number of entries a table of [2 ^ bits] slots may hold, as the code
    computes it without overflow. *)
Definition threshold (load bits : Z) : Z := (2 ^ bits + 1) * load / 100.

(** The largest table for which the product does not overflow. *)
Definition max_bits : Z := 25.

Lemma threshold_mono load b c : 0 <= load -> 0 <= b <= c -> threshold load b <= threshold load c.
Proof.
  intros Hl Hb; unfold threshold; apply Z.div_le_mono; [lia|]; apply Z.mul_le_mono_nonneg_r; [lia|].
  enough (2 ^ b <= 2 ^ c) by lia; apply Z.pow_le_mono_r; lia.
Qed.

(** A load factor that leaves a slot free at this size leaves one free at any
    larger size. *)
Definition load_ok (load bits : Z) : Prop := 0 < load < 100 /\ load < 2 ^ bits * (100 - load).

Lemma load_ok_mono load b c : 0 <= b <= c -> load_ok load b -> load_ok load c.
Proof.
  intros Hb (Hl & Hlt); split; [exact Hl|]; assert (2 ^ b <= 2 ^ c) by (apply Z.pow_le_mono_r; lia); nia.
Qed.

Lemma threshold_free load b : 0 <= b -> load_ok load b -> threshold load b < 2 ^ b.
Proof. intros Hb (Hl & Hlt); unfold threshold; apply Z.div_lt_upper_bound; nia. Qed.

Lemma size_bits b : 0 <= b <= max_bits -> HASHTABLE_SIZE b = 2 ^ b.
Proof.
  intros Hb; unfold HASHTABLE_SIZE, uint; rewrite Z.shiftl_1_l; apply wrap_id; split; [apply Z.pow_nonneg; lia|].
  apply Z.pow_lt_mono_r; unfold max_bits in *; lia.
Qed.

Lemma pow_max b : 0 <= b <= max_bits -> 1 <= 2 ^ b <= 33554432.
Proof.
  intros Hb; change 33554432 with (2 ^ max_bits); split; [change 1 with (2 ^ 0) at 1|]; apply Z.pow_le_mono_r; unfold max_bits in *; lia.
Qed.

(** The computation in the code. *)
Lemma threshold_uint load b :
  0 < load < 100 -> 0 <= b <= max_bits -> uint (uint (HASHTABLE_SIZE b + 1) * load) / 100 = threshold load b.
Proof.
  intros Hl Hb; rewrite size_bits by exact Hb; pose proof (pow_max b Hb); unfold uint.
  rewrite (wrap_id 32 (2 ^ b + 1)) by lia; rewrite wrap_id by nia; reflexivity.
Qed.

Section Add.
Context {E : Type} `{EntryType E} (strings : Z -> list Z) (o : ht_options) (fl func : Z) `{!EntryLaws E strings fl func}.
Implicit Types (t : table_t E) (s : slot E) (e : E).

(** ** The invariant *)

Definition invalids t : list E := pick ENTRY_IS_INVALID t.

(** A table to which [k] entries are about to be added. *)
Definition table_inv (k : Z) t : Prop :=
  probed strings t /\ uses fl func t /\ distinct_tags fl (contents t) /\
  entries t = k + Z.of_nat (List.length (contents t)) /\
  unlinked_entries t = Z.of_nat (List.length (invalids t)) /\
  (lockless t = false -> unlinked_entries t = 0) /\
  (hash_bits t <= max_bits /\ hash_mask_offset t + max_bits <= 64) /\ load_ok (load_factor_percent t) (hash_bits t) /\
  resize_threshold t = threshold (load_factor_percent t) (hash_bits t) /\
  entries t + unlinked_entries t <= resize_threshold t /\
  groom_threshold t = 0 /\ groom_factor_percent t = 0 /\ max_capacity_bits t = 0 /\
  TEST HASHTABLE_READ_ONLY fl = false.

Definition table_ok : table_t E -> Prop := table_inv 0.

(** The fields that operations keep; no entry becomes invalid. *)
Definition params t t' : Prop :=
  load_factor_percent t' = load_factor_percent t /\ hash_mask_offset t' = hash_mask_offset t /\
  free_payload_func t' = free_payload_func t /\ unlinked_entries t' <= unlinked_entries t.

Lemma params_refl t : params t t.
Proof. repeat split; lia. Qed.

Lemma params_trans t1 t2 t3 : params t1 t2 -> params t2 t3 -> params t1 t3.
Proof. unfold params; intuition (congruence || lia). Qed.

(** Each entry is real or invalid. *)
Lemma occupied_split t : occupied t = Z.of_nat (List.length (contents t)) + Z.of_nat (List.length (invalids t)).
Proof.
  unfold occupied, contents, invalids, pick; induction (table t) as [|s l IH]; [reflexivity|].
  cbn [map concat]; rewrite !length_app, !Nat2Z.inj_add; destruct s as [| |e]; cbn [pick_slot List.length]; [lia|lia|].
  replace (real e) with (negb (ENTRY_IS_INVALID e)) by reflexivity; destruct (ENTRY_IS_INVALID e); cbn [negb List.length]; lia.
Qed.

(** ** Placing an entry *)

Definition free_slot t s : bool :=
  ENTRY_IS_EMPTY s || (slot_invalid s && negb (TEST HASHTABLE_SHARED (table_flags t))).

Lemma add_slot_spec t i :
  formed t -> has_empty t -> 0 <= i < ring t ->
  exists j s, add_slot (probes t) t i = Some j /\ 0 <= j < ring t /\ slot_at t j = Some s /\ free_slot t s = true /\
    forall x, 0 <= x < ring t -> dist (ring t) i x < dist (ring t) i j -> slot_at t x <> Some ENTRY_EMPTY.
Proof.
  intros Hf He Hi; destruct (walk_to t (free_slot t) i Hf He eq_refl Hi) as (j & s & Hj & Ej & Sj & Hx); exists j, s.
  destruct (loop_arrives t (fun n => add_slot n t) (fun s => free_slot t s = false) i j (probes t)) as (n & R); auto.
  - intros n x s' _ Ex Hs'; cbn [add_slot]; rewrite Ex; cbn [obind]; unfold free_slot in Hs'; apply orb_false_iff in Hs' as [-> ->]; reflexivity.
  - intros x Hxr Hd; destruct (ring_slot t x (proj1 Hf)) as (s' & Ex); [lia|]; exists s'; split; [exact Ex|exact (Hx x s' Hxr Ex Hd)].
  - now apply probes_enough.
  - split; [|repeat split; auto; try lia].
    + rewrite R; cbn [add_slot]; rewrite Ej; cbn [obind]; unfold free_slot in Sj; destruct (ENTRY_IS_EMPTY s); [reflexivity|].
      cbn [orb] in Sj; now rewrite Sj.
    + intros x Hxr Hd Ex; specialize (Hx x _ Hxr Ex Hd); discriminate.
Qed.

(** An entry in a free slot can be reached, and so can all others. *)
Lemma place_probed t j s e :
  formed t -> reachable strings t -> 0 <= j < ring t -> slot_at t j = Some s -> free_slot t s = true ->
  (forall x, 0 <= x < ring t -> dist (ring t) (home strings t e) x < dist (ring t) (home strings t e) j -> slot_at t x <> Some ENTRY_EMPTY) ->
  formed (set_slot t j (ENTRY e)) /\ reachable strings (set_slot t j (ENTRY e)).
Proof.
  intros Hf Hr Hj Ej Hfree Hx; pose proof (proj1 Hf) as (_ & _ & _ & _ & _ & Hlen).
  assert (Hget : forall k, slot_at (set_slot t j (ENTRY e)) k = if k =? j then Some (ENTRY e) else slot_at t k)
    by (intros; apply slot_at_set; lia).
  split; [apply formed_set; auto; discriminate|]; intros y f x Hy Ey Hv Hxr _ Hd.
  change (ring (set_slot t j (ENTRY e))) with (ring t) in *; change (home strings (set_slot t j (ENTRY e))) with (home strings t) in *.
  rewrite Hget in Ey |- *; destruct (Z.eqb_spec x j); [discriminate|]; destruct (Z.eqb_spec y j) as [->|].
  - injection Ey as <-; now apply Hx.
  - apply (Hr y f x); auto; lia.
Qed.

(** An entry whose tag is not in the table. *)
Definition fresh_entry t e : Prop :=
  real e = true /\ Forall (fun f => TAGS_ARE_EQUAL fl (ENTRY_TAG e) (ENTRY_TAG f) = false) (contents t).

(** The end of [add], behind [check_size]. *)
Definition place e t : option (table_t E) :=
  let? hindex := add_slot (probes t) t (HASH_FUNC t strings (ENTRY_TAG e)) in
  let? s := slot_at t hindex in
  let t := if slot_invalid s then with_counts t (entries t) (uint (unlinked_entries t - 1)) else t in
  Some (set_slot t hindex (ENTRY e)).

Lemma place_slots t j s e :
  slot_at t j = Some s -> free_slot t s = true -> real e = true ->
  contents (set_slot t j (ENTRY e)) ≡ₚ e :: contents t /\
  (if slot_invalid s then S (List.length (invalids (set_slot t j (ENTRY e)))) = List.length (invalids t)
   else invalids (set_slot t j (ENTRY e)) ≡ₚ invalids t).
Proof.
  intros Ej Hfree Hre; destruct (pick_set real t j s Ej) as (r1 & P1 & Q1); destruct (pick_set ENTRY_IS_INVALID t j s Ej) as (r2 & P2 & Q2).
  assert (Hs : pick_slot real s = [] /\ pick_slot ENTRY_IS_INVALID s = if slot_invalid s then pick_slot (fun _ => true) s else []).
  { destruct s as [| |x]; cbn in *; auto; unfold free_slot, real in *; cbn in *; destruct (ENTRY_IS_INVALID x); auto; discriminate. }
  assert (He : pick_slot real (ENTRY e) = [e] /\ pick_slot ENTRY_IS_INVALID (ENTRY e) = []).
  { cbn; rewrite Hre; split; [reflexivity|]; apply negb_true_iff in Hre; now rewrite Hre. }
  destruct Hs as [Hs1 Hs2], He as [He1 He2]; rewrite Hs1 in P1; rewrite Hs2 in P2; specialize (Q1 (ENTRY e)); specialize (Q2 (ENTRY e)).
  rewrite He1 in Q1; rewrite He2 in Q2; split; [unfold contents; now rewrite Q1, P1|].
  destruct (slot_invalid s) eqn:Ei.
  - destruct s as [| |x]; try discriminate; cbn in P2; unfold invalids; rewrite P2, Q2; reflexivity.
  - unfold invalids; now rewrite P2, Q2.
Qed.

Lemma place_spec t e :
  table_inv 1 t -> fresh_entry t e ->
  exists t', place e t = Some t' /\ table_inv 0 t' /\ contents t' ≡ₚ e :: contents t /\ params t t' /\
    hash_bits t' = hash_bits t /\ freed t' = freed t.
Proof.
  intros ((Hf & Hr & Ho) & (Hfl & Hfu) & Hd & He & Hu & Hlk & Hb & Hld & Hth & Hle & Hg1 & Hg2 & Hmx & Hro) (Hre & Hnew).
  pose proof (proj2 (has_empty_occupied t Hf) Ho) as Hemp.
  destruct (add_slot_spec t (home strings t e) Hf Hemp) as (j & s & Rj & Hj & Ej & Hfree & Hx); [apply hash_range, Hf|].
  destruct (place_probed t j s e Hf Hr Hj Ej Hfree Hx) as [Hf' Hr']; destruct (place_slots t j s e Ej Hfree Hre) as [Hc Hi].
  unfold place; fold (home strings t e); rewrite Rj; cbn [obind]; rewrite Ej; cbn [obind].
  set (u := if slot_invalid s then uint (unlinked_entries t - 1) else unlinked_entries t).
  exists (with_counts (set_slot t j (ENTRY e)) (entries t) u).
  assert (Et : set_slot (if slot_invalid s then with_counts t (entries t) (uint (unlinked_entries t - 1)) else t) j (ENTRY e)
               = with_counts (set_slot t j (ENTRY e)) (entries t) u) by (unfold u; destruct (slot_invalid s); reflexivity).
  split; [now rewrite Et|].
  assert (Hcl : List.length (contents (set_slot t j (ENTRY e))) = S (List.length (contents t))) by (rewrite Hc; reflexivity).
  pose proof (ring_range t (proj1 Hf)) as Hrg; assert (Hb0 : 1 <= hash_bits t) by apply Hf.
  pose proof (threshold_free (load_factor_percent t) (hash_bits t) ltac:(lia) Hld) as Htf.
  assert (Hul : u = Z.of_nat (List.length (invalids (set_slot t j (ENTRY e)))) /\ u <= unlinked_entries t).
  { unfold u; destruct (slot_invalid s) eqn:Es; [|rewrite Hi; lia].
    rewrite uint_id by (unfold ring in *; lia); lia. }
  split; [|split; [exact Hc|split; [split; [reflexivity|split; [reflexivity|split; [reflexivity|apply Hul]]]|split; reflexivity]]].
  unfold table_inv; cbn [with_counts entries unlinked_entries].
  change (contents (with_counts (set_slot t j (ENTRY e)) (entries t) u)) with (contents (set_slot t j (ENTRY e))).
  change (invalids (with_counts (set_slot t j (ENTRY e)) (entries t) u)) with (invalids (set_slot t j (ENTRY e))).
  split; [split; [exact Hf'|split; [exact Hr'|]]|].
  - change (occupied (set_slot t j (ENTRY e)) < ring t); rewrite occupied_split; unfold ring in *; lia.
  - split; [split; auto|split; [|split; [lia|split; [lia|split; [|split; [exact Hb|split; [exact Hld|split; [exact Hth|split; [cbn; lia|auto]]]]]]]]].
    + rewrite Hc; split; auto.
    + intros Hl; specialize (Hlk Hl); lia.
Qed.

(** ** Checking the size *)

Lemma table_inv_bounds k t : table_inv k t -> 0 <= k -> 1 <= hash_bits t /\ 0 <= entries t /\ 0 <= unlinked_entries t /\
  entries t + unlinked_entries t < 2 ^ hash_bits t /\ 2 ^ hash_bits t <= 33554432.
Proof.
  intros ((Hf & _) & _ & _ & He & Hu & _ & Hb & Hld & Hth & Hle & _) Hk.
  assert (Hb0 : 1 <= hash_bits t) by apply Hf.
  pose proof (threshold_free (load_factor_percent t) (hash_bits t) ltac:(lia) Hld); pose proof (pow_max (hash_bits t) ltac:(lia)); lia.
Qed.

(** Only the counter changes when entries are announced. *)
Lemma table_inv_entries k n t :
  table_inv k t -> 0 <= n -> n + entries t + unlinked_entries t <= resize_threshold t -> table_inv (k + n) (with_entries t (entries t + n)).
Proof.
  intros (Hp & Hu & Hd & He & Hi & Hlk & Hb & Hld & Hth & Hle & Hg1 & Hg2 & Hmx & Hro) Hn Hfit.
  unfold table_inv; cbn [with_entries with_counts entries unlinked_entries].
  split; [exact Hp|split; [exact Hu|split; [exact Hd|split; [|split; [exact Hi|split; [exact Hlk|split; [exact Hb|]]]]]]].
  - change (contents (with_entries t (entries t + n))) with (contents t); lia.
  - split; [exact Hld|split; [exact Hth|split; [cbn; lia|auto]]].
Qed.

Lemma invalid_gone gone : Forall (fun e => ENTRY_IS_INVALID e = true) gone ->
  concat (map (fun e => pick_slot real (ENTRY e)) gone) = [] /\ concat (map (fun e => pick_slot ENTRY_IS_INVALID (ENTRY e)) gone) = gone.
Proof.
  induction gone as [|e gone IH]; [auto|]; intros Hg; apply Forall_cons_iff in Hg as [He Hg]; destruct (IH Hg) as [IH1 IH2].
  cbn [map concat]; rewrite IH1, IH2; cbn [pick_slot]; unfold real; rewrite He; auto.
Qed.

Lemma concat_nils {A B : Type} (l : list A) : concat (map (fun _ => @nil B) l) = [].
Proof. induction l; auto. Qed.

(** Removing the invalid entries leaves the real ones. *)
Lemma unlinked_remove_spec k t :
  table_inv k t -> 0 <= k ->
  exists t' n, unlinked_remove strings t = Some (t', n) /\ table_inv k t' /\ contents t' ≡ₚ contents t /\ params t t' /\
    hash_bits t' = hash_bits t /\ freed t' = freed t.
Proof.
  intros Hinv Hk; pose proof (table_inv_bounds k t Hinv Hk) as (Hb0 & He0 & Hu0 & Hsum & Hpow).
  pose proof Hinv as (Hp & (Hfl & Hfu) & Hd & He & Hi & Hlk & Hb & Hld & Hth & Hle & Hg1 & Hg2 & Hmx & Hro).
  pose proof Hp as (Hf & _ & Ho); pose proof (proj1 Hf) as (_ & _ & _ & _ & Hcap & Hlen).
  destruct (sweep_spec strings ENTRY_IS_INVALID (fun _ => []) (sweeps t) t (capacity t - 1 - 1) 0) as (t' & n & R & gone & l & -> & -> & Hp' & Hg & Hno & Hpk); auto.
  - lia.
  - lia.
  - pose proof (ring_range t (proj1 Hf)); lia.
  - intros; exfalso; lia.
  - assert (0 <= occupied t) by (unfold occupied; lia); pose proof (ring_range t (proj1 Hf)).
    unfold sweeps; rewrite Nat2Z.inj_mul, !Nat2Z.inj_succ, Hlen, Hcap; nia.
  - set (t' := swept t gone l (concat (map (fun _ : E => []) gone))) in *.
    destruct (invalid_gone gone Hg) as [Hg3 Hg4]; pose proof (Hpk real) as Pr; pose proof (Hpk ENTRY_IS_INVALID) as Pi; rewrite Hg3 in Pr; rewrite Hg4 in Pi.
    assert (Hnone : pick ENTRY_IS_INVALID t' = []).
    { destruct (pick ENTRY_IS_INVALID t') as [|x r] eqn:Ex; [reflexivity|exfalso].
      assert (Hx : x ∈ pick ENTRY_IS_INVALID t') by (rewrite Ex; constructor).
      apply elem_of_pick in Hx as [Hx (m & Em)]; rewrite (Hno m x Em) in Hx; discriminate. }
    rewrite Hnone, app_nil_r in Pi.
    assert (Hgl : Z.of_nat (List.length gone) = unlinked_entries t) by (rewrite Hi; unfold invalids; now rewrite Pi).
    assert (Hc : contents t' ≡ₚ contents t) by (symmetry; exact Pr).
    assert (Het : uint (entries t' + uint (0 + Z.of_nat (List.length gone))) = entries t).
    { change (entries t') with (uint (entries t - Z.of_nat (List.length gone))); rewrite Hgl.
      unfold uint, wrap; rewrite <- Zplus_mod; replace (entries t - unlinked_entries t + (0 + unlinked_entries t)) with (entries t) by lia.
      apply Z.mod_small; lia. }
    unfold unlinked_remove; rewrite Hfl, Hro, R; cbn [obind]; rewrite Het; do 2 eexists; split; [reflexivity|].
    split; [|split; [exact Hc|split; [split; [reflexivity|split; [reflexivity|split; [reflexivity|exact Hu0]]]|split; [reflexivity|]]]].
    + unfold table_inv; cbn [with_counts entries unlinked_entries].
      change (contents (with_counts t' (entries t) 0)) with (contents t'); change (invalids (with_counts t' (entries t) 0)) with (invalids t').
      split; [exact Hp'|split; [split; auto|split; [now rewrite Hc|split; [now rewrite Hc|]]]].
      split; [unfold invalids; now rewrite Hnone|]; split; [auto|split; [exact Hb|split; [exact Hld|split; [exact Hth|split; [cbn in *; lia|auto]]]]].
    + cbn; rewrite concat_nils, app_nil_r; reflexivity.
Qed.

(** [check_size] for one entry: the counter goes up, and the table is full, or
    invalid entries may be removed. *)
Lemma check_size_unfold add t :
  table_inv 0 t ->
  let t1 := with_entries t (entries t + 1) in
  exists purge : bool,
    check_size_with strings o add t 1 0 =
    if resize_threshold t <? entries t + unlinked_entries t + 1 then enlarge strings add t1 1 (entries t + unlinked_entries t + 1)
    else if purge then (let? (t, _) := unlinked_remove strings t1 in Some (t, true)) else Some (t1, true).
Proof.
  intros Hinv t1; pose proof (table_inv_bounds 0 t Hinv ltac:(lia)) as (Hb0 & He0 & Hu0 & Hsum & Hpow).
  pose proof Hinv as (_ & (Hfl & Hfu) & _ & _ & _ & Hlk & _ & _ & _ & _ & Hg1 & _ & _ & Hro).
  unfold check_size_with; rewrite Hfl, Hro, Hg1; rewrite andb_false_r; cbn [obind].
  change (uint (1 + 0)) with 1; rewrite (uint_id (entries t + 1)) by lia; fold t1.
  change (entries t1) with (entries t + 1); change (lockless t1) with (lockless t); change (unlinked_entries t1) with (unlinked_entries t).
  assert (En : (if lockless t then uint (entries t + 1 + unlinked_entries t) else entries t + 1) = entries t + unlinked_entries t + 1).
  { destruct (lockless t); [rewrite uint_id; lia|rewrite Hlk by reflexivity; lia]. }
  rewrite En, Z.sub_0_r, (uint_id (entries t + 1)) by lia; change (resize_threshold t1) with (resize_threshold t).
  replace (with_entries t1 (entries t + 1)) with t1 by reflexivity; eexists; reflexivity.
Qed.

(** With room for one more entry, the table stays, but for invalid entries. *)
Lemma check_size_fits add t :
  table_inv 0 t -> entries t + unlinked_entries t + 1 <= resize_threshold t ->
  exists t', check_size_with strings o add t 1 0 = Some (t', true) /\ table_inv 1 t' /\ contents t' ≡ₚ contents t /\ params t t' /\
    hash_bits t' = hash_bits t /\ freed t' = freed t.
Proof.
  intros Hinv Hfit; pose proof (table_inv_entries 0 1 t Hinv ltac:(lia) ltac:(lia)) as Hinv1; change (0 + 1) with 1 in Hinv1.
  destruct (check_size_unfold add t Hinv) as (purge & ->); set (t1 := with_entries t (entries t + 1)) in *.
  replace (resize_threshold t <? entries t + unlinked_entries t + 1) with false by (symmetry; apply Z.ltb_ge; lia).
  destruct purge.
  - destruct (unlinked_remove_spec 1 t1 Hinv1 ltac:(lia)) as (t' & n & R & Hi' & Hc & Hpa & Hbt & Hfr).
    rewrite R; cbn [obind]; exists t'; split; [reflexivity|split; [exact Hi'|split; [exact Hc|split; [exact Hpa|split; [exact Hbt|exact Hfr]]]]].
  - exists t1; split; [reflexivity|split; [exact Hinv1|split; [reflexivity|split; [apply (params_refl t)|split; reflexivity]]]].
Qed.

Lemma fresh_entry_perm t t' e : contents t' ≡ₚ contents t -> fresh_entry t e -> fresh_entry t' e.
Proof. intros Hp [Hr Hn]; split; [exact Hr|now rewrite Hp]. Qed.

Lemma add_with_place (cs : table_t E -> Z -> Z -> option (table_t E * bool)) e t t1 b :
  TEST HASHTABLE_READ_ONLY (table_flags t) = false -> cs t 1 0 = Some (t1, b) ->
  add_with strings cs e t = let? t' := place e t1 in Some (t', negb b).
Proof.
  intros Hro R; unfold add_with, place; rewrite Hro, R; cbn [obind]; destruct (add_slot _ _ _) as [j|]; [|reflexivity].
  cbn [obind]; now destruct (slot_at t1 j).
Qed.

(** Adding to a table that has room. *)
Lemma add_fits d t e :
  table_inv 0 t -> entries t + unlinked_entries t + 1 <= resize_threshold t -> fresh_entry t e ->
  exists t', add_rec strings o (S d) e t = Some (t', false) /\ table_inv 0 t' /\ contents t' ≡ₚ e :: contents t /\ params t t' /\
    hash_bits t' = hash_bits t /\ freed t' = freed t.
Proof.
  intros Hinv Hfit Hfr; destruct (check_size_fits (add_rec strings o d) t Hinv Hfit) as (t1 & R & Hinv1 & Hc & Hp & Hb & Hfd).
  destruct (place_spec t1 e Hinv1 (fresh_entry_perm _ _ _ Hc Hfr)) as (t' & R' & Hi' & Hc' & Hp' & Hb' & Hf').
  exists t'; cbn [add_rec]; rewrite (add_with_place _ e t t1 true); auto.
  - rewrite R'; split; [reflexivity|split; [exact Hi'|split; [now rewrite Hc', Hc|split; [eapply params_trans; eauto|split; congruence]]]].
  - destruct Hinv as (_ & (-> & _) & _ & _ & _ & _ & _ & _ & _ & _ & _ & _ & _ & Hro); exact Hro.
Qed.

(** ** A new table *)

Lemma new_slots t n :
  table t = replicate n ENTRY_EMPTY ++ [ENTRY_SENTINEL] -> ring t = Z.of_nat n ->
  (forall j, 0 <= j < ring t -> slot_at t j = Some ENTRY_EMPTY) /\ slot_at t (ring t) = Some ENTRY_SENTINEL /\ forall p, pick p t = [].
Proof.
  intros Et Hr; rewrite Hr; unfold slot_at, pick; rewrite Et; split; [|split].
  - intros j Hj; destruct (Z.ltb_spec j 0); [lia|]; rewrite lookup_app_l by (rewrite length_replicate; lia).
    apply lookup_replicate_2; lia.
  - destruct (Z.ltb_spec (Z.of_nat n) 0); [lia|]; rewrite Nat2Z.id, lookup_app_r by (rewrite length_replicate; lia).
    rewrite length_replicate; now replace (n - n)%nat with 0%nat by lia.
  - intros p; rewrite map_app, concat_app; cbn; rewrite app_nil_r; clear Et Hr; induction n; cbn; auto.
Qed.

Lemma init_internal_spec t bits load off :
  1 <= bits <= max_bits -> 0 <= off -> off + max_bits <= 64 -> load_ok load bits -> table_flags t = fl ->
  TEST HASHTABLE_READ_ONLY fl = false ->
  exists t', init_internal bits load func off t = Some t' /\ table_inv 0 t' /\ contents t' = [] /\ hash_bits t' = bits /\
    load_factor_percent t' = load /\ hash_mask_offset t' = off /\ free_payload_func t' = free_payload_func t /\ freed t' = freed t /\
    entries t' = 0 /\ unlinked_entries t' = 0.
Proof.
  intros Hb Ho Hs Hld Hfl Hro; unfold init_internal; replace (32 <=? bits) with false by (symmetry; apply Z.leb_gt; unfold max_bits in *; lia).
  pose proof (pow_max bits ltac:(lia)) as Hpow.
  assert (Hcap : uint (HASHTABLE_SIZE bits + 1) = 2 ^ bits + 1) by (rewrite size_bits by lia; apply uint_id; lia).
  rewrite Hcap; set (t1 := mk_table _ _ _ _ _ _ _ _ _ _ _ _ _ _ _ _ _).
  assert (Hgt : groom_threshold t1 = 0) by (change (uint ((2 ^ bits + 1) * 0) / 100 = 0); now rewrite Z.mul_0_r).
  rewrite (custom_plain t1) by (exact Hgt || reflexivity); exists t1; split; [reflexivity|]; split; [|repeat split].
  - destruct (new_slots t1 (Z.to_nat (2 ^ bits + 1 - 1))) as (H1 & H2 & H3); [reflexivity|unfold ring; cbn; lia|].
    assert (Hth : resize_threshold t1 = threshold load bits).
    { rewrite <- threshold_uint by (destruct Hld; lia || exact Hb || lia); rewrite Hcap; reflexivity. }
    assert (H100 : 0 <= threshold load bits) by (unfold threshold; destruct Hld; apply Z.div_pos; nia).
    assert (Hc0 : contents t1 = []) by apply H3; assert (Hi0 : invalids t1 = []) by apply H3.
    split; [split; [split; [|split]|split]|].
    + unfold shape, ring; cbn; rewrite length_app, length_replicate; cbn [List.length]; repeat split; auto; unfold max_bits in *; lia.
    + intros j Hj; rewrite H1 by exact Hj; discriminate.
    + intros e; rewrite H2; discriminate.
    + intros j e x Hj Ej; rewrite H1 in Ej by exact Hj; discriminate.
    + unfold occupied; rewrite H3; unfold ring; cbn; lia.
    + rewrite Hc0, Hi0; split; [split; [exact Hfl|reflexivity]|]; split; [exact I|].
      split; [reflexivity|split; [reflexivity|split; [reflexivity|split; [split; [apply Hb|exact Hs]|split; [exact Hld|split; [exact Hth|]]]]]].
      split; [rewrite Hth; cbn; lia|auto].
  - destruct (new_slots t1 (Z.to_nat (2 ^ bits + 1 - 1))) as (_ & _ & H3); [reflexivity|unfold ring; cbn; lia|apply H3].
Qed.

(** ** Enlarging *)

Lemma grow_spec fuel : forall t n,
  1 <= hash_bits t <= max_bits -> 0 < load_factor_percent t < 100 -> max_capacity_bits t = 0 ->
  n <= threshold (load_factor_percent t) max_bits -> max_bits - hash_bits t < Z.of_nat fuel ->
  exists b, grow fuel t n = Some (with_bits t b) /\ hash_bits t <= b <= max_bits /\ n <= threshold (load_factor_percent t) b.
Proof.
  induction fuel as [|fuel IH]; intros t n Hb Hl Hm Hn Hf; [exfalso; lia|].
  cbn [grow]; replace (32 <=? hash_bits t) with false by (symmetry; apply Z.leb_gt; unfold max_bits in *; lia).
  rewrite threshold_uint by lia; rewrite Hm; replace (hash_bits t =? 0) with false by (symmetry; apply Z.eqb_neq; lia); cbn [negb].
  rewrite andb_true_r; destruct (Z.ltb_spec (threshold (load_factor_percent t) (hash_bits t)) n) as [Hlt|Hge].
  - assert (hash_bits t <> max_bits) by (intros E'; rewrite E' in Hlt; lia).
    assert (Hu : uint (hash_bits t + 1) = hash_bits t + 1) by (apply uint_id; unfold max_bits in *; lia).
    rewrite Hu; destruct (IH (with_bits t (hash_bits t + 1)) n) as (b & R & Hb' & Hn'); cbn [with_bits hash_bits load_factor_percent max_capacity_bits]; auto; try lia.
    exists b; split; [exact R|split; [cbn in Hb'; lia|exact Hn']].
  - exists (hash_bits t); split; [now destruct t|split; [lia|exact Hge]].
Qed.

(** Moving the entries of an array to a table with room for them. *)
Lemma rehash_spec d (old : list (slot E)) : forall t,
  let movers := concat (map (pick_slot real) old) in
  table_inv 0 t -> entries t + unlinked_entries t + Z.of_nat (List.length movers) <= resize_threshold t ->
  distinct_tags fl (movers ++ contents t) ->
  exists t', rehash (add_rec strings o (S d)) old t = Some t' /\ table_inv 0 t' /\ contents t' ≡ₚ movers ++ contents t /\ params t t' /\
    hash_bits t' = hash_bits t /\ freed t' = freed t.
Proof.
  induction old as [|s old IH]; intros t movers Hinv Hfit Hd.
  { exists t; split; [reflexivity|split; [exact Hinv|split; [reflexivity|split; [apply params_refl|split; reflexivity]]]]. }
  destruct s as [| |e]; cbn [rehash map concat pick_slot app] in *; try (now apply IH); unfold movers in *; cbn [map concat pick_slot] in Hfit, Hd |- *.
  unfold real at 1 in Hfit; unfold real at 1 in Hd; unfold real at 1.
  destruct (ENTRY_IS_INVALID e) eqn:Ei; cbn [negb app] in *; [now apply IH|].
  destruct Hd as [Hd1 Hd2]; apply Forall_app in Hd1 as [Hd1 Hd3].
  destruct (add_fits d t e Hinv) as (t1 & R1 & Hinv1 & Hc1 & Hp1 & Hb1 & Hf1); [cbn [List.length] in Hfit; lia|split; [unfold real; now rewrite Ei|exact Hd3]|].
  rewrite R1; cbn [obind].
  destruct (IH t1 Hinv1) as (t2 & R2 & Hinv2 & Hc2 & Hp2 & Hb2 & Hf2).
  - assert (Hth : resize_threshold t1 = resize_threshold t).
    { destruct Hinv as (_ & _ & _ & _ & _ & _ & _ & _ & Hth & _), Hinv1 as (_ & _ & _ & _ & _ & _ & _ & _ & Hth1 & _).
      destruct Hp1 as (Hl1 & _); rewrite Hth, Hth1, Hl1, Hb1; reflexivity. }
    assert (Hent : entries t1 + unlinked_entries t1 <= entries t + unlinked_entries t + 1).
    { destruct Hinv as (_ & _ & _ & He & _), Hinv1 as (_ & _ & _ & He1 & _), Hp1 as (_ & _ & _ & Hu1).
      rewrite He, He1, Hc1; cbn [List.length]; lia. }
    rewrite Hth; cbn [List.length] in Hfit; lia.
  - rewrite Hc1; clear - Hd1 Hd2 Hd3 EntryLaws0.
    rewrite <- Permutation_middle; split; [apply Forall_app; auto|exact Hd2].
  - exists t2; split; [exact R2|split; [exact Hinv2|split; [|split; [eapply params_trans; eauto|split; congruence]]]].
    rewrite Hc2, Hc1; now rewrite <- Permutation_middle.
Qed.

Lemma with_counts_same t : with_counts t (entries t) (unlinked_entries t) = t.
Proof. now destruct t. Qed.

(** The number of bits of the new array. *)
Lemma new_bits t :
  table_inv 0 t -> entries t + unlinked_entries t + 1 <= threshold (load_factor_percent t) max_bits ->
  let t1 := with_entries t (entries t + 1) in
  exists b, (if lockless t1 && ((entries t1 <=? resize_threshold t1) || (hash_bits t1 =? max_capacity_bits t1)) then Some t1
             else grow 32 t1 (entries t + unlinked_entries t + 1)) = Some (with_bits t1 b) /\
    hash_bits t <= b <= max_bits /\ entries t + 1 <= threshold (load_factor_percent t) b.
Proof.
  intros Hinv Hfit t1; pose proof (table_inv_bounds 0 t Hinv ltac:(lia)) as (Hb0 & He0 & Hu0 & _).
  destruct Hinv as (_ & _ & _ & _ & _ & _ & Hb & Hld & Hth & _ & _ & _ & Hmx & _).
  assert (Hg : exists b, grow 32 t1 (entries t + unlinked_entries t + 1) = Some (with_bits t1 b) /\
                 hash_bits t <= b <= max_bits /\ entries t + 1 <= threshold (load_factor_percent t) b).
  { destruct (grow_spec 32 t1 (entries t + unlinked_entries t + 1)) as (b & R & Hb' & Hn);
      [split; [exact Hb0|apply Hb]|apply Hld|exact Hmx|exact Hfit|change (hash_bits t1) with (hash_bits t); unfold max_bits in *; lia|].
    change (hash_bits t1) with (hash_bits t) in Hb'; change (load_factor_percent t1) with (load_factor_percent t) in Hn.
    exists b; split; [exact R|split; [lia|lia]]. }
  destruct (lockless t1); cbn [andb]; [|exact Hg]; change (entries t1) with (entries t + 1); change (resize_threshold t1) with (resize_threshold t).
  change (hash_bits t1 =? max_capacity_bits t1) with (hash_bits t =? max_capacity_bits t); rewrite Hmx.
  replace (hash_bits t =? 0) with false by (symmetry; apply Z.eqb_neq; lia); rewrite orb_false_r.
  destruct (Z.leb_spec (entries t + 1) (resize_threshold t)); [|exact Hg].
  exists (hash_bits t); split; [now destruct t|split; lia].
Qed.

(** A new array with the old entries. *)
Lemma rebuild_spec d t b :
  table_inv 0 t -> hash_bits t <= b <= max_bits -> entries t + 1 <= threshold (load_factor_percent t) b ->
  let t1 := with_entries t (entries t + 1) in
  exists t3 t4, hashtable_resize (with_bits t1 b) = Some t3 /\ rehash (add_rec strings o (S d)) (table t) (with_counts t3 0 0) = Some t4 /\
    entries t4 = entries t /\ table_inv 1 (with_entries t4 (entries t4 + 1)) /\ contents t4 ≡ₚ contents t /\ params t t4 /\ freed t4 = freed t.
Proof.
  intros Hinv Hbb Hbt t1; pose proof (table_inv_bounds 0 t Hinv ltac:(lia)) as (Hb0 & He0 & Hu0 & Hsum & Hpow).
  pose proof Hinv as ((Hf & _) & (Hfl & Hfu) & Hd & He & _ & _ & (Hb & Ho) & Hld & _ & _ & _ & _ & _ & Hro).
  destruct (init_internal_spec (with_bits t1 b) b (load_factor_percent t) (hash_mask_offset t))
    as (t3 & R3 & Hinv3 & Hc3 & Hb3 & Hl3 & Ho3 & Hp3 & Hf3 & He3 & Hu3); auto; try lia; [apply Hf|eapply load_ok_mono; [|exact Hld]; lia|].
  assert (Et3 : with_counts t3 0 0 = t3) by (rewrite <- (with_counts_same t3) at 2; now rewrite He3, Hu3).
  assert (R3' : hashtable_resize (with_bits t1 b) = Some t3) by (unfold hashtable_resize; rewrite <- R3, <- Hfu; reflexivity).
  assert (Hth3 : resize_threshold t3 = threshold (load_factor_percent t) b).
  { destruct Hinv3 as (_ & _ & _ & _ & _ & _ & _ & _ & Hth3 & _); now rewrite Hth3, Hl3, Hb3. }
  destruct (rehash_spec d (table t) t3 Hinv3) as (t4 & R4 & Hinv4 & Hc4 & (Hl4 & Ho4 & Hpf4 & Hu4) & Hb4 & Hf4).
  { rewrite Hth3, He3, Hu3; fold (pick real t); fold (contents t); lia. }
  { rewrite Hc3, app_nil_r; exact Hd. }
  fold (pick real t) in Hc4; fold (contents t) in Hc4; rewrite Hc3, app_nil_r in Hc4.
  assert (He4 : entries t4 = entries t) by (destruct Hinv4 as (_ & _ & _ & He4 & _); rewrite He4, He, Hc4; lia).
  assert (Hth4 : resize_threshold t4 = threshold (load_factor_percent t) b).
  { destruct Hinv4 as (_ & _ & _ & _ & _ & _ & _ & _ & Hth4 & _); now rewrite Hth4, Hl4, Hl3, Hb4, Hb3. }
  exists t3, t4; split; [exact R3'|]; split; [rewrite Et3; exact R4|].
  split; [exact He4|split; [exact (table_inv_entries 0 1 t4 Hinv4 ltac:(lia) ltac:(lia))|split; [exact Hc4|split; [|]]]].
  - split; [congruence|split; [congruence|split; [rewrite Hpf4, Hp3; reflexivity|lia]]].
  - rewrite Hf4, Hf3; reflexivity.
Qed.

(** A full table is replaced by one with room for its entries and one more. *)
Lemma check_size_full d t :
  table_inv 0 t -> resize_threshold t < entries t + unlinked_entries t + 1 ->
  entries t + unlinked_entries t + 1 <= threshold (load_factor_percent t) max_bits ->
  exists t' ev, check_size_with strings o (add_rec strings o (S d)) t 1 0 = Some (t', false) /\ table_inv 1 t' /\
    contents t' ≡ₚ contents t /\ params t t' /\ freed t' = freed t ++ ev /\ (ev = [] \/ ev = [Ev_table (capacity t)]).
Proof.
  intros Hinv Hfull Hfit; pose proof (table_inv_bounds 0 t Hinv ltac:(lia)) as (Hb0 & He0 & Hu0 & Hsum & Hpow).
  pose proof Hinv as (_ & _ & _ & _ & _ & _ & _ & _ & _ & _ & _ & _ & Hmx & _).
  destruct (check_size_unfold (add_rec strings o (S d)) t Hinv) as (purge & ->); set (t1 := with_entries t (entries t + 1)).
  replace (resize_threshold t <? entries t + unlinked_entries t + 1) with true by (symmetry; apply Z.ltb_lt; lia).
  assert (Hm1 : (hash_bits t1 =? max_capacity_bits t1) = false).
  { change (max_capacity_bits t1) with (max_capacity_bits t); rewrite Hmx; apply Z.eqb_neq; change (hash_bits t1) with (hash_bits t); lia. }
  destruct (new_bits t Hinv Hfit) as (b & Rb & Hbb & Hbt); fold t1 in Rb; cbv zeta in Rb; rewrite Hm1 in Rb.
  unfold enlarge; rewrite Hm1; cbn [andb]; rewrite Rb; cbn [obind].
  destruct (rebuild_spec d t b Hinv Hbb Hbt) as (t3 & t4 & R3 & R4 & He4 & Hinv5 & Hc4 & Hp4 & Hf4); fold t1 in R3; rewrite R3; cbn [obind].
  change (table t1) with (table t); rewrite R4; cbn [obind]; rewrite (uint_id (entries t4 + 1)) by lia.
  set (t5 := with_entries t4 (entries t4 + 1)) in *.
  assert (Hmx5 : (hash_bits t5 =? max_capacity_bits t5) = false).
  { pose proof (table_inv_bounds 1 t5 Hinv5 ltac:(lia)) as (Hb5 & _).
    destruct Hinv5 as (_ & _ & _ & _ & _ & _ & _ & _ & _ & _ & _ & _ & Hm & _); rewrite Hm; apply Z.eqb_neq; lia. }
  rewrite Hmx5; cbn [andb obind]; set (ev := if _ || _ then _ else _); exists (with_freed t5 ev), ev.
  split; [reflexivity|split; [exact Hinv5|split; [exact Hc4|split; [exact Hp4|split]]]].
  - change (freed t4 ++ ev = freed t ++ ev); now rewrite Hf4.
  - subst ev; destruct (negb (shared_lockless t5) || (uint (ref_count t1 - 1) =? 0)); [right|left]; reflexivity.
Qed.

(** ** Adding *)

(** What a table deallocates of its entries. *)
Definition entry_events (ev : list (ht_event E)) : list (ht_event E) :=
  List.filter (fun x => match x with Ev_table _ => false | _ => true end) ev.

Lemma entry_events_app ev1 ev2 : entry_events (ev1 ++ ev2) = entry_events ev1 ++ entry_events ev2.
Proof. apply List.filter_app. Qed.

(** The size a table can reach. *)
Definition room (t : table_t E) : Prop := entries t + unlinked_entries t < threshold (load_factor_percent t) max_bits.

Lemma add_spec t e :
  table_ok t -> room t -> fresh_entry t e ->
  exists t' resized, hashtable_add strings o e t = Some (t', resized) /\ table_ok t' /\ contents t' ≡ₚ e :: contents t /\ params t t' /\
    entry_events (freed t') = entry_events (freed t).
Proof.
  intros Hinv Hroom Hfr; destruct (Z.le_gt_cases (entries t + unlinked_entries t + 1) (resize_threshold t)) as [Hle|Hgt].
  - destruct (add_fits 1 t e Hinv Hle Hfr) as (t' & R & Hi & Hc & Hp & _ & Hf); exists t', false.
    split; [exact R|split; [exact Hi|split; [exact Hc|split; [exact Hp|now rewrite Hf]]]].
  - unfold room in Hroom; destruct (check_size_full 0 t Hinv Hgt ltac:(lia)) as (t1 & ev & R & Hinv1 & Hc & Hp & Hfd & Hev).
    destruct (place_spec t1 e Hinv1 (fresh_entry_perm _ _ _ Hc Hfr)) as (t' & R' & Hi' & Hc' & Hp' & _ & Hf').
    exists t', true; unfold hashtable_add; change 2%nat with (S 1); cbn [add_rec].
    rewrite (add_with_place _ e t t1 false); auto.
    + rewrite R'; split; [reflexivity|split; [exact Hi'|split; [now rewrite Hc', Hc|split; [eapply params_trans; eauto|]]]].
      rewrite Hf', Hfd, entry_events_app; destruct Hev as [-> | ->]; apply app_nil_r.
    + destruct Hinv as (_ & (-> & _) & _ & _ & _ & _ & _ & _ & _ & _ & _ & _ & _ & Hro); exact Hro.
Qed.
End Add.
