(* ===== verification/HashSpec.v ===== *)
(** * What the operations of a hashtable do to its entries

    For tables of any instance: removal, replacement, removal of a range of
    tags, clearing, merging. *)
From Stdlib Require Import ZArith Lia.
From S2P Require Import Prelude.
From S2P Require Import Hashtable.
From S2P Require Import HashProbe.
From S2P Require Import HashRemove.
From S2P Require Import HashAdd.
From stdpp Require Import base list numbers.
#[local] Open Scope Z_scope.
#[local] Open Scope rw_scope.

(** ** The number of bits of a size *)

Lemma num_bits_loop_spec fuel : forall sz bits, 0 <= sz < 2 ^ Z.of_nat fuel ->
  num_bits_loop fuel sz bits = bits + (if sz =? 0 then 0 else Z.log2 sz + 1).
Proof.
  induction fuel as [|fuel IH]; intros sz bits Hs; [change (2 ^ Z.of_nat 0) with 1 in Hs; assert (sz = 0) as -> by lia; cbn; lia|].
  cbn [num_bits_loop]; destruct (Z.ltb_spec 0 sz); [|assert (sz = 0) as -> by lia; cbn; lia].
  replace (sz =? 0) with false by (symmetry; apply Z.eqb_neq; lia).
  rewrite Nat2Z.inj_succ, Z.pow_succ_r in Hs by lia; rewrite Z.shiftr_div_pow2 by lia; change (2 ^ 1) with 2.
  rewrite IH by (split; [apply Z.div_pos; lia|apply Z.div_lt_upper_bound; lia]).
  destruct (Z.eqb_spec (sz / 2) 0) as [E0|E0].
  - assert (sz = 1) as -> by (pose proof (Z.div_mod sz 2 ltac:(lia)); pose proof (Z.mod_pos_bound sz 2 ltac:(lia)); lia); cbn; lia.
  - replace (sz / 2) with (Z.shiftr sz 1) by now rewrite Z.shiftr_div_pow2 by lia.
    rewrite Z.log2_shiftr by lia; assert (2 <= sz) by (destruct (Z.eq_dec sz 1) as [->|]; [exfalso; apply E0; reflexivity|lia]).
    assert (1 <= Z.log2 sz) by (change 1 with (Z.log2 2); now apply Z.log2_le_mono); lia.
Qed.

(** A size needs one bit more than its logarithm. *)
Lemma num_bits_spec n : 1 <= n < 2 ^ 32 ->
  1 <= hashtable_num_bits n /\ 2 ^ (hashtable_num_bits n - 1) <= n < 2 ^ hashtable_num_bits n.
Proof.
  intros Hn; unfold hashtable_num_bits; rewrite num_bits_loop_spec by (change (2 ^ Z.of_nat 32) with (2 ^ 32); lia).
  replace (n =? 0) with false by (symmetry; apply Z.eqb_neq; lia).
  pose proof (Z.log2_nonneg n); pose proof (Z.log2_spec n ltac:(lia)) as [H1 H2].
  replace (0 + (Z.log2 n + 1) - 1) with (Z.log2 n) by lia; replace (0 + (Z.log2 n + 1)) with (Z.succ (Z.log2 n)) by lia; lia.
Qed.

(** A table made for [v] entries: its size is in range and leaves a slot free. *)
Lemma bits_given_ok v load :
  0 <= v -> load_ok load 1 -> (v + 1) * 100 < 2 ^ max_bits * load ->
  1 <= hashtable_bits_given_entries v load <= max_bits /\ load_ok load (hashtable_bits_given_entries v load).
Proof.
  intros Hv Hl Hlt; unfold hashtable_bits_given_entries; pose proof Hl as [Hl1 _]; change (2 ^ max_bits) with 33554432 in Hlt.
  rewrite (uint_id (v + 1)) by lia; rewrite uint_id by lia; set (n := (v + 1) * 100 / load).
  assert (Hn : 1 <= n < 2 ^ max_bits).
  { unfold n; split; [apply Z.div_le_lower_bound; lia|apply Z.div_lt_upper_bound; [lia|change (2 ^ max_bits) with 33554432; lia]]. }
  destruct (num_bits_spec n) as [Hb [Hp1 Hp2]]; [change (2 ^ max_bits) with 33554432 in Hn; lia|].
  assert (Hmx : hashtable_num_bits n - 1 < max_bits).
  { apply (Z.pow_lt_mono_r_iff 2); [lia|unfold max_bits; lia|lia]. }
  split; [lia|]; eapply load_ok_mono; [|exact Hl]; lia.
Qed.

Section Spec.
Context {E : Type} `{EntryType E} (strings : Z -> list Z) (o : ht_options) (fl func : Z) `{!EntryLaws E strings fl func}.
Implicit Types (t : table_t E) (s : slot E) (e : E).
#[local] Abbreviation ok := (table_ok strings fl func).

Lemma table_ok_empty t : ok t -> has_empty t.
Proof. intros ((Hf & _ & Ho) & _); now apply has_empty_occupied. Qed.

Lemma distinct_app l k : distinct_tags fl (l ++ k) -> distinct_tags fl k.
Proof. induction l as [|e l IH]; [auto|]; intros [_ Hd]; auto. Qed.

(** A table whose real entries are those of [t] without [gone]. *)
Lemma shrink_ok t t' gone :
  ok t -> probed strings t' -> (exists l ev, t' = swept t gone l ev) ->
  contents t ≡ₚ gone ++ contents t' -> invalids t' ≡ₚ invalids t -> ok t' /\ params t t'.
Proof.
  intros Hinv Hp' (l & ev & ->) Hc Hi; pose proof (table_inv_bounds strings fl func 0 t Hinv ltac:(lia)) as (Hb0 & He0 & Hu0 & Hsum & Hpow).
  pose proof Hinv as (_ & Huse & Hd & He & Hu & Hlk & Hb & Hld & Hth & Hle & Hg).
  set (t' := swept t gone l ev) in *.
  assert (Hlen : Z.of_nat (List.length (contents t)) = Z.of_nat (List.length gone) + Z.of_nat (List.length (contents t')))
    by (rewrite Hc, length_app; lia).
  assert (Het : entries t' = entries t - Z.of_nat (List.length gone)) by (apply uint_id; lia).
  split; [|repeat split; cbn; lia].
  split; [exact Hp'|split; [exact Huse|split; [|split; [lia|split; [|split; [exact Hlk|split; [exact Hb|split; [exact Hld|split; [exact Hth|]]]]]]]]].
  - rewrite Hc in Hd; exact (distinct_app _ _ Hd).
  - change (unlinked_entries t') with (unlinked_entries t); now rewrite Hi.
  - split; [change (entries t' + unlinked_entries t <= resize_threshold t); lia|exact Hg].
Qed.

Lemma freed_nil t : with_freed t [] = t.
Proof. destruct t; unfold with_freed; cbn; now rewrite app_nil_r. Qed.

Lemma pick_real e : real e = true -> pick_slot real (ENTRY e) = [e] /\ pick_slot ENTRY_IS_INVALID (ENTRY e) = [].
Proof. intros Hr; cbn; rewrite Hr; split; [reflexivity|]; apply negb_true_iff in Hr; now rewrite Hr. Qed.

(** Removing the entry at an index. *)
Lemma remove_at t i e :
  ok t -> slot_at t i = Some (ENTRY e) -> real e = true ->
  exists t' w, remove_helper strings t i = Some (t', w) /\ ok t' /\ contents t ≡ₚ e :: contents t' /\ params t t' /\ freed t' = freed t.
Proof.
  intros Hok Ei Hre; destruct (remove_helper_spec strings t i e (proj1 Hok) Ei) as (l & w & R & Hp & Hpk & _); cbv zeta in *.
  set (t' := with_entries (with_slots t l) (uint (entries t - 1))) in *; exists t', w; split; [exact R|].
  destruct (pick_real e Hre) as [P1 P2].
  assert (Hc : contents t ≡ₚ [e] ++ contents t') by (unfold contents; rewrite (Hpk real), P1; reflexivity).
  destruct (shrink_ok t t' [e] Hok Hp) as [Hok' Hpa]; auto.
  - exists l, []; unfold swept; now rewrite freed_nil.
  - unfold invalids; rewrite (Hpk ENTRY_IS_INVALID), P2; reflexivity.
Qed.

(** [remove] removes the entry with the tag, if there is one. *)
Lemma remove_spec t fr :
  ok t -> tag_ok (ENTRY_TAG fr) ->
  exists t' b, hashtable_remove strings fr t = Some (t', b) /\ ok t' /\ params t t' /\ freed t' = freed t /\
    if b then exists e, contents t ≡ₚ e :: contents t' /\ TAGS_ARE_EQUAL fl (ENTRY_TAG e) (ENTRY_TAG fr) = true
    else t' = t /\ forall e, e ∈ contents t -> TAGS_ARE_EQUAL fl (ENTRY_TAG e) (ENTRY_TAG fr) = false.
Proof.
  intros Hok Htag; pose proof Hok as ((Hf & Hr & _) & Hu & _ & _ & _ & _ & _ & _ & _ & _ & _ & _ & _ & Hro).
  destruct (lookup_for_removal_spec strings fl func t fr Hf (table_ok_empty t Hok) Hr Hu Htag) as (r & R & Hr'); unfold hashtable_remove.
  rewrite (proj1 Hu), Hro, R; cbn [obind]; destruct r as [i|].
  - destruct Hr' as (e & Hi & Ei & Hre & Ht); destruct (remove_at t i e Hok Ei Hre) as (t' & w & R' & Hok' & Hc & Hp & Hfr).
    rewrite R'; cbn [obind]; exists t', true; split; [reflexivity|split; [exact Hok'|split; [exact Hp|split; [exact Hfr|eauto]]]].
  - exists t, false; split; [reflexivity|split; [exact Hok|split; [apply params_refl|split; [reflexivity|auto]]]].
Qed.

(** [range_remove] removes the entries with tags in the range that pass the
    filter, and deallocates each of them. *)
Lemma range_remove_spec t lo hi filter :
  let matches e := (lo <=? ENTRY_TAG e) && (ENTRY_TAG e <? hi) && match filter with None => true | Some f => f e end in
  ok t -> (forall e, ENTRY_IS_INVALID e = true -> matches e = false) ->
  exists t' gone, range_remove strings lo hi filter t = Some (t', Z.of_nat (List.length gone)) /\ ok t' /\ params t t' /\
    contents t ≡ₚ gone ++ contents t' /\ Forall (fun e => matches e = true) gone /\ Forall (fun e => matches e = false) (contents t') /\
    freed t' = freed t ++ concat (map (free_entry (free_payload_func t)) gone).
Proof.
  intros matches Hok Hinv; pose proof (table_inv_bounds strings fl func 0 t Hok ltac:(lia)) as (Hb0 & He0 & Hu0 & Hsum & Hpow).
  pose proof Hok as (Hp & Hu & _ & He & _ & _ & _ & _ & _ & _ & _ & _ & _ & Hro); pose proof (proj1 Hp) as Hf; pose proof (proj1 Hf) as (_ & _ & _ & _ & Hcap & Hlen).
  pose proof (ring_range t (proj1 Hf)) as Hrg; destruct Hp as (Hp1 & Hp2 & Ho).
  assert (0 <= occupied t) by (unfold occupied; lia).
  destruct (sweep_spec strings matches (free_entry (free_payload_func t)) (sweeps t) t (capacity t - 1 - 1) 0)
    as (t' & n & R & gone & l & Et & En & Hp' & Hg & Hno & Hpk); [split; auto|lia|lia|lia|intros; exfalso; lia| |].
  { unfold sweeps; rewrite Nat2Z.inj_mul, !Nat2Z.inj_succ, Hlen, Hcap; nia. }
  assert (Hreal : Forall (fun e => real e = true) gone).
  { eapply Forall_impl; [|exact Hg]; intros e Hm; cbv beta in Hm; unfold real; destruct (ENTRY_IS_INVALID e) eqn:Ei; [|reflexivity].
    now rewrite (Hinv e Ei) in Hm. }
  assert (Hgone : concat (map (fun e => pick_slot real (ENTRY e)) gone) = gone /\ concat (map (fun e => pick_slot ENTRY_IS_INVALID (ENTRY e)) gone) = []).
  { clear - Hreal; induction gone as [|e gone IH]; [auto|]; apply Forall_cons_iff in Hreal as [He Hg]; destruct (IH Hg) as [I1 I2].
    destruct (pick_real e He) as [P1 P2]; cbn [map concat]; now rewrite P1, P2, I1, I2. }
  assert (Hc : contents t ≡ₚ gone ++ contents t') by (unfold contents; rewrite (Hpk real), (proj1 Hgone); reflexivity).
  assert (Hi : invalids t' ≡ₚ invalids t) by (unfold invalids; rewrite (Hpk ENTRY_IS_INVALID), (proj2 Hgone); reflexivity).
  destruct (shrink_ok t t' gone Hok Hp') as [Hok' Hpa]; [eauto|exact Hc|exact Hi|].
  assert (Hn : n = Z.of_nat (List.length gone)) by (rewrite En; apply uint_id; rewrite Hc, length_app in He; lia).
  exists t', gone; unfold range_remove; rewrite (proj1 Hu), Hro; fold matches; rewrite R, Hn; split; [reflexivity|].
  split; [exact Hok'|split; [exact Hpa|split; [exact Hc|split; [exact Hg|split; [|now rewrite Et]]]]].
  apply Forall_forall; intros e He'; apply list_elem_of_In, elem_of_pick in He' as [_ (k & Ek)]; exact (Hno k e Ek).
Qed.

(** [replace] puts an entry with an equal tag in the place of another. *)
Lemma replace_spec t old_e new_e :
  ok t -> tag_ok (ENTRY_TAG old_e) -> TAGS_ARE_EQUAL fl (ENTRY_TAG old_e) (ENTRY_TAG new_e) = true -> real new_e = true ->
  exists t' b, hashtable_replace strings old_e new_e t = Some (t', b) /\ ok t' /\ params t t' /\
    if b then exists e rest, contents t ≡ₚ e :: rest /\ contents t' ≡ₚ new_e :: rest /\ TAGS_ARE_EQUAL fl (ENTRY_TAG e) (ENTRY_TAG old_e) = true
    else t' = t /\ forall e, e ∈ contents t -> TAGS_ARE_EQUAL fl (ENTRY_TAG e) (ENTRY_TAG old_e) = false.
Proof.
  intros Hok Htag Heq Hre; pose proof Hok as ((Hf & Hr & Ho) & Hu & Hd & He & Hi & Hlk & Hb & Hld & Hth & Hle & Hg1 & Hg2 & Hg3 & Hro).
  destruct (lookup_for_removal_spec strings fl func t old_e Hf (table_ok_empty t Hok) Hr Hu Htag) as (r & R & Hr'); unfold hashtable_replace.
  rewrite R; cbn [obind]; rewrite (proj1 Hu), Hro; destruct r as [i|].
  2: { exists t, false; split; [reflexivity|split; [exact Hok|split; [apply params_refl|auto]]]. }
  destruct Hr' as (e & Hir & Ei & Hree & Ht); set (t' := set_slot t i (ENTRY new_e)).
  pose proof (proj1 Hf) as (_ & _ & _ & _ & _ & Hlen).
  assert (Htn : TAGS_ARE_EQUAL fl (ENTRY_TAG e) (ENTRY_TAG new_e) = true) by (eapply tags_trans; eauto).
  destruct (pick_real e Hree) as [P1 P2], (pick_real new_e Hre) as [N1 N2].
  destruct (pick_set real t i _ Ei) as (r1 & Q1 & Q2); destruct (pick_set ENTRY_IS_INVALID t i _ Ei) as (r2 & Q3 & Q4).
  rewrite P1 in Q1; rewrite P2 in Q3; specialize (Q2 (ENTRY new_e)); specialize (Q4 (ENTRY new_e)); rewrite N1 in Q2; rewrite N2 in Q4.
  fold t' in Q2, Q4; fold (contents t) in Q1; fold (contents t') in Q2; fold (invalids t) in Q3; fold (invalids t') in Q4.
  assert (Hcl : List.length (contents t') = List.length (contents t)) by (rewrite Q1, Q2; reflexivity).
  assert (Hil : List.length (invalids t') = List.length (invalids t)) by (rewrite Q3, Q4; reflexivity).
  exists t', true; split; [reflexivity|split; [|split; [repeat split; cbn; lia|eauto]]].
  split; [split; [apply formed_set; auto; discriminate|split]|].
  - intros y f x Hy Ey Hv Hx Hxh Hdist; change (ring t') with (ring t) in *; change (home strings t') with (home strings t) in *.
    unfold t' in Ey |- *; rewrite slot_at_set in Ey |- * by lia; destruct (Z.eqb_spec x i); [discriminate|]; destruct (Z.eqb_spec y i) as [->|].
    + injection Ey as <-; assert (Eh : home strings t new_e = home strings t e) by (symmetry; apply (tags_hash t); [apply Hu|exact Htn]).
      rewrite Eh in Hdist; apply negb_true_iff in Hree; apply (Hr i e x); auto.
    + apply (Hr y f x); auto.
  - change (ring t') with (ring t); rewrite occupied_split, Hcl, Hil, <- occupied_split; exact Ho.
  - split; [exact Hu|split; [|split; [change (entries t') with (entries t); lia|split; [change (unlinked_entries t') with (unlinked_entries t); lia|]]]].
    + rewrite Q2; rewrite Q1 in Hd; destruct Hd as [Hd1 Hd2]; split; [|exact Hd2]; eapply Forall_impl; [|exact Hd1].
      intros f Hf'; cbv beta in Hf'; destruct (TAGS_ARE_EQUAL fl (ENTRY_TAG new_e) (ENTRY_TAG f)) eqn:Ex; [|reflexivity].
      now rewrite (tags_trans _ _ _ Htn Ex) in Hf'.
    + split; [exact Hlk|split; [exact Hb|split; [exact Hld|split; [exact Hth|split; [exact Hle|auto]]]]].
Qed.

(** [clear] empties a table and deallocates its entries. *)
Lemma clear_spec t :
  ok t -> invalids t = [] ->
  let t' := hashtable_clear t in
  ok t' /\ params t t' /\ contents t' = [] /\
  freed t' = freed t ++ concat (map (free_entry (free_payload_func t)) (contents t)).
Proof.
  intros Hok Hinv t'; pose proof (table_inv_bounds strings fl func 0 t Hok ltac:(lia)) as (Hb0 & He0 & Hu0 & Hsum & Hpow).
  pose proof Hok as ((Hf & Hr & Ho) & Hu & Hd & He & Hi & Hlk & Hb & Hld & Hth & Hle & Hg1 & Hg2 & Hg3 & Hro).
  pose proof (ring_range t (proj1 Hf)) as Hrg.
  assert (Et : t' = with_counts (with_freed (with_slots t (replicate (List.length (table t)) ENTRY_EMPTY))
                      (concat (map (free_entry (free_payload_func t)) (contents t)))) 0 0).
  { unfold t', hashtable_clear; rewrite (proj1 Hu), Hro; f_equal; f_equal; unfold contents, pick; clear.
    induction (table t) as [|s l IH]; [reflexivity|]; cbn [map concat]; rewrite map_app, concat_app, IH; f_equal.
    destruct s as [| |e]; try reflexivity; cbn; unfold real; destruct (negb (ENTRY_IS_INVALID e)); cbn; now rewrite ?app_nil_r. }
  assert (Hp0 : forall p, pick p t' = []).
  { intros p; rewrite Et; unfold pick; cbn; clear; induction (List.length (table t)); cbn; auto. }
  assert (Hs : forall j s, slot_at t' j = Some s -> s = ENTRY_EMPTY).
  { intros j s; rewrite Et; unfold slot_at; cbn; destruct (j <? 0); [discriminate|]; intros Hl; now apply lookup_replicate in Hl as [-> _]. }
  assert (Hhdr : hash_mask t' = hash_mask t /\ ring t' = ring t /\ shape t').
  { rewrite Et; split; [reflexivity|split; [reflexivity|]]; destruct (proj1 Hf) as (S1 & S2 & S3 & S4 & S5 & S6).
    unfold shape; cbn; rewrite length_replicate; repeat split; auto; lia. }
  destruct Hhdr as (_ & Hring & Hshape).
  assert (Hc : contents t' = []) by apply Hp0; assert (Hi0 : invalids t' = []) by apply Hp0.
  split; [|split; [rewrite Et; repeat split; cbn; lia|split; [exact Hc|now rewrite Et]]].
  split; [split; [split; [exact Hshape|split]|split]|].
  - intros j Hj Ej; now apply Hs in Ej.
  - intros e Ej; now apply Hs in Ej.
  - intros j e x Hj Ej; now apply Hs in Ej.
  - unfold occupied; rewrite Hp0; cbn; lia.
  - rewrite Hc, Hi0, Et; split; [exact Hu|split; [exact I|split; [reflexivity|split; [reflexivity|split; [reflexivity|]]]]].
    split; [exact Hb|split; [exact Hld|split; [exact Hth|split; [cbn; lia|auto]]]].
Qed.

(** A new table. *)
Lemma init_spec bits load off :
  1 <= bits <= max_bits -> 0 <= off -> off + max_bits <= 64 -> load_ok load bits -> TEST HASHTABLE_READ_ONLY fl = false ->
  exists t, hashtable_init bits load func off fl = Some t /\ ok t /\ contents t = [] /\ unlinked_entries t = 0 /\
    load_factor_percent t = load /\ freed t = [].
Proof.
  intros Hb Ho Hs Hld Hro; destruct (init_internal_spec strings fl func (uninit fl) bits load off Hb Ho Hs Hld eq_refl Hro)
    as (t & R & Hok & Hc & _ & Hl & _ & _ & Hf & _ & Hu); exists t; split; [exact R|repeat (split; [assumption|])]; exact Hf.
Qed.

(** ** Merging *)

(** No entry of [c] has the tag of [e]. *)
Definition absent (c : list E) e : bool := forallb (fun f => negb (TAGS_ARE_EQUAL fl (ENTRY_TAG f) (ENTRY_TAG e))) c.

Lemma absent_spec c e : absent c e = true <-> forall f, f ∈ c -> TAGS_ARE_EQUAL fl (ENTRY_TAG f) (ENTRY_TAG e) = false.
Proof.
  unfold absent; rewrite forallb_forall; setoid_rewrite negb_true_iff; split; intros Ha f Hf; apply Ha; now apply list_elem_of_In.
Qed.

Lemma absent_cons c e f : absent (f :: c) e = negb (TAGS_ARE_EQUAL fl (ENTRY_TAG f) (ENTRY_TAG e)) && absent c e.
Proof. reflexivity. Qed.

Lemma lookup_absent t e :
  ok t -> tag_ok (ENTRY_TAG e) -> option_map ENTRY_IS_EMPTY (hashtable_lookup strings (ENTRY_TAG e) t) = Some (absent (contents t) e).
Proof.
  intros Hok Ht; pose proof Hok as ((Hf & Hr & _) & Hu & _).
  destruct (lookup_spec strings fl func t (ENTRY_TAG e) Hf (table_ok_empty t Hok) Hr Hu Ht) as (s & -> & Hs); cbn; f_equal; symmetry.
  destruct s as [| |f]; [now apply absent_spec|contradiction|]; destruct Hs as [Hc Hq].
  apply not_true_iff_false; intros Ha; rewrite absent_spec in Ha; rewrite (Ha f Hc) in Hq; discriminate.
Qed.

Lemma absent_fresh t e : real e = true -> absent (contents t) e = true -> fresh_entry fl t e.
Proof.
  intros Hr Ha; split; [exact Hr|]; apply Forall_forall; intros f Hf; rewrite tags_sym; apply (proj1 (absent_spec _ _) Ha); now apply list_elem_of_In.
Qed.

Lemma filter_absent (l c k : list E) e : distinct_tags fl (e :: l) -> k ≡ₚ e :: c ->
  List.filter (absent k) l = List.filter (absent c) l.
Proof.
  intros [Hd _] Hk; apply List.filter_ext_in; intros f Hf; apply list_elem_of_In in Hf.
  assert (Hef : TAGS_ARE_EQUAL fl (ENTRY_TAG e) (ENTRY_TAG f) = false) by (rewrite Forall_forall in Hd; apply Hd; now apply list_elem_of_In).
  apply eq_iff_eq_true; rewrite !absent_spec; setoid_rewrite Hk; setoid_rewrite elem_of_cons; split; [auto|]; intros Ha g [->|Hg]; auto.
Qed.

(** Adding the entries of an array: with the check, those whose tag is not in
    the table yet; without it, all of them, provided none is. *)
Lemma add_all_spec check (l : list (slot E)) : forall dst,
  let movers := concat (map (pick_slot real) l) in
  ok dst -> distinct_tags fl movers -> Forall (fun e => tag_ok (ENTRY_TAG e)) movers ->
  (check = false -> List.filter (absent (contents dst)) movers = movers) ->
  entries dst + unlinked_entries dst + Z.of_nat (List.length movers) <= threshold (load_factor_percent dst) max_bits ->
  exists dst', add_all_loop strings o check l dst = Some dst' /\ ok dst' /\ params dst dst' /\
    contents dst' ≡ₚ List.filter (absent (contents dst)) movers ++ contents dst.
Proof.
  induction l as [|s l IH]; intros dst movers Hok Hd Ht Hno Hfit.
  { exists dst; split; [reflexivity|split; [exact Hok|split; [apply params_refl|reflexivity]]]. }
  destruct s as [| |e]; cbn [add_all_loop]; try (now apply IH).
  destruct (ENTRY_IS_INVALID e) eqn:Ei.
  { assert (Em : movers = concat (map (pick_slot real) l)) by (unfold movers; cbn; unfold real; now rewrite Ei).
    clearbody movers; subst movers; now apply IH. }
  assert (Hre : real e = true) by (unfold real; now rewrite Ei).
  assert (Em : movers = e :: concat (map (pick_slot real) l)) by (unfold movers; cbn [map concat pick_slot]; now rewrite Hre).
  clearbody movers; subst movers; set (movers := concat _) in *; apply Forall_cons_iff in Ht as [Hte Ht]; cbn [List.length] in Hfit.
  assert (Hchk : (if check then option_map ENTRY_IS_EMPTY (hashtable_lookup strings (ENTRY_TAG e) dst) else Some true) = Some (absent (contents dst) e)).
  { destruct check; [now apply lookup_absent|]; f_equal; symmetry; specialize (Hno eq_refl); cbn in Hno.
    destruct (absent (contents dst) e); [reflexivity|]; exfalso; apply (f_equal List.length) in Hno; cbn in Hno.
    pose proof (List.filter_length_le (absent (contents dst)) movers); lia. }
  rewrite Hchk; cbn [obind List.filter]; destruct (absent (contents dst) e) eqn:Ea.
  - assert (Hroom : room dst) by (unfold room; lia).
    destruct (add_spec strings o fl func dst e Hok Hroom (absent_fresh dst e Hre Ea)) as (d1 & rs & R & Hok1 & Hc1 & Hp1 & _).
    rewrite R; cbn [option_map fst obind]; destruct Hd as [Hd1 Hd2].
    pose proof (filter_absent movers (contents dst) (contents d1) e (conj Hd1 Hd2) Hc1) as Hfil.
    destruct (IH d1 Hok1 Hd2 Ht) as (d2 & R2 & Hok2 & Hp2 & Hc2).
    + intros Hch; specialize (Hno Hch); cbn in Hno; rewrite Ea in Hno; injection Hno as Hno; fold movers; now rewrite Hfil.
    + destruct Hok as (_ & _ & _ & He & _), Hok1 as (_ & _ & _ & He1 & _), Hp1 as (Hl1 & _ & _ & Hu1).
      rewrite Hl1; rewrite Hc1 in He1; cbn [List.length] in He1; fold movers; lia.
    + exists d2; split; [exact R2|split; [exact Hok2|split; [eapply params_trans; eauto|]]].
      fold movers in Hc2; rewrite Hc2, Hfil, Hc1; now rewrite <- Permutation_middle.
  - cbn [obind]; apply IH; auto; [apply Hd| |fold movers; lia].
    intros Hch; specialize (Hno Hch); cbn in Hno; rewrite Ea in Hno; exfalso; apply (f_equal List.length) in Hno; cbn in Hno.
    pose proof (List.filter_length_le (absent (contents dst)) movers); lia.
Qed.

Lemma count_missing_spec (l : list (slot E)) big : forall u,
  let movers := concat (map (pick_slot real) l) in
  ok big -> Forall (fun e => tag_ok (ENTRY_TAG e)) movers -> 0 <= u -> u + Z.of_nat (List.length movers) < 2 ^ 32 ->
  exists v, count_missing strings l big u = Some v /\ u <= v <= u + Z.of_nat (List.length movers).
Proof.
  induction l as [|s l IH]; intros u movers Hok Ht Hu Hlt; [exists u; split; [reflexivity|cbn; lia]|].
  destruct s as [| |e]; cbn [count_missing]; try (now apply IH).
  destruct (ENTRY_IS_INVALID e) eqn:Ei.
  { assert (Em : movers = concat (map (pick_slot real) l)) by (unfold movers; cbn; unfold real; now rewrite Ei).
    clearbody movers; subst movers; now apply IH. }
  assert (Em : movers = e :: concat (map (pick_slot real) l)) by (unfold movers; cbn [map concat pick_slot]; unfold real at 1; now rewrite Ei).
  clearbody movers; subst movers; cbn [List.length] in *.
  apply Forall_cons_iff in Ht as [Hte Ht]; pose proof (lookup_absent big e Hok Hte) as Hl.
  destruct (hashtable_lookup strings (ENTRY_TAG e) big) as [s|]; [|discriminate]; cbn [obind].
  destruct (ENTRY_IS_EMPTY s).
  - rewrite uint_id by lia; destruct (IH (u + 1) Hok Ht) as (v & R & Hv); [lia|lia|]; exists v; split; [exact R|lia].
  - destruct (IH u Hok Ht) as (v & R & Hv); [lia|lia|]; exists v; split; [exact R|lia].
Qed.

Lemma num_unique_bound src1 src2 :
  ok src1 -> ok src2 -> Forall (fun e => tag_ok (ENTRY_TAG e)) (contents src1) -> Forall (fun e => tag_ok (ENTRY_TAG e)) (contents src2) ->
  exists v, num_unique_entries strings src1 src2 = Some v /\ 0 <= v <= entries src1 + entries src2.
Proof.
  intros Hok1 Hok2 T1 T2.
  pose proof (table_inv_bounds strings fl func 0 src1 Hok1 ltac:(lia)) as (_ & P1 & P1' & B1 & B1').
  pose proof (table_inv_bounds strings fl func 0 src2 Hok2 ltac:(lia)) as (_ & P2 & P2' & B2 & B2').
  pose proof Hok1 as (_ & _ & _ & He1 & _); pose proof Hok2 as (_ & _ & _ & He2 & _).
  unfold num_unique_entries; destruct (entries src2 <=? entries src1).
  - destruct (count_missing_spec (table src2) src1 (entries src1) Hok1 T2) as (v & R & Hv); [lia|fold (pick real src2); fold (contents src2); lia|].
    fold (pick real src2) in Hv; fold (contents src2) in Hv; exists v; split; [exact R|lia].
  - destruct (count_missing_spec (table src1) src2 (entries src2) Hok2 T1) as (v & R & Hv); [lia|fold (pick real src1); fold (contents src1); lia|].
    fold (pick real src1) in Hv; fold (contents src1) in Hv; exists v; split; [exact R|lia].
Qed.

Lemma copied_flags_id f : TEST HASHTABLE_READ_ONLY f = false -> copied_flags f = f.
Proof.
  unfold copied_flags, HASHTABLE_COPY_IGNORE_FLAGS, TEST; intros Hro; apply negb_false_iff, Z.eqb_eq in Hro.
  apply Z.bits_inj'; intros n Hn; apply (f_equal (fun z => Z.testbit z n)) in Hro; rewrite Z.land_spec, Z.bits_0 in Hro.
  rewrite Z.land_spec, Z.lnot_spec by exact Hn; destruct (Z.testbit f n), (Z.testbit HASHTABLE_READ_ONLY n); auto; discriminate.
Qed.

Lemma filter_absent_nil (l : list E) : List.filter (absent []) l = l.
Proof. induction l as [|e l IH]; [reflexivity|]; cbn; now rewrite IH. Qed.

(** A merged table holds the entries of the first and those of the second whose
    tags the first does not have. *)
Lemma merge_spec src1 src2 :
  ok src1 -> ok src2 -> load_ok (load_factor_percent src1) 1 ->
  Forall (fun e => tag_ok (ENTRY_TAG e)) (contents src1) -> Forall (fun e => tag_ok (ENTRY_TAG e)) (contents src2) ->
  Z.of_nat (List.length (contents src1 ++ contents src2)) + 1 < threshold (load_factor_percent src1) max_bits ->
  exists dst, hashtable_merge strings o src1 src2 = Some dst /\ ok dst /\
    contents dst ≡ₚ contents src1 ++ List.filter (absent (contents src1)) (contents src2).
Proof.
  intros Hok1 Hok2 Hl T1 T2 Hlt; rewrite length_app in Hlt.
  pose proof (table_inv_bounds strings fl func 0 src1 Hok1 ltac:(lia)) as (_ & _ & _ & B1 & B1').
  pose proof (table_inv_bounds strings fl func 0 src2 Hok2 ltac:(lia)) as (_ & _ & _ & B2 & B2').
  pose proof Hok1 as ((Hf1 & _) & Hu1 & Hd1 & He1 & Hi1 & _ & (_ & Ho1) & _ & _ & _ & _ & _ & _ & Hro); pose proof Hok2 as (_ & _ & Hd2 & He2 & Hi2 & _).
  destruct (num_unique_bound src1 src2 Hok1 Hok2 T1 T2) as (v & Rv & Hv).
  unfold hashtable_merge; rewrite Rv; cbn [obind].
  assert (Hth : (v + 1) * 100 < 2 ^ max_bits * load_factor_percent src1).
  { unfold threshold in Hlt; change (2 ^ max_bits) with 33554432 in *; destruct Hl as [Hl _].
    pose proof (Z.mul_div_le ((33554432 + 1) * load_factor_percent src1) 100 ltac:(lia)); lia. }
  destruct (bits_given_ok v _ ltac:(lia) Hl Hth) as [Hb Hld].
  assert (Hcf : copied_flags (table_flags src1) = fl) by (rewrite (proj1 Hu1); now apply copied_flags_id).
  destruct (init_spec _ _ (hash_mask_offset src1) Hb ltac:(apply Hf1) Ho1 Hld Hro) as (d0 & R0 & Hok0 & Hc0 & Hu0 & Hl0 & _).
  rewrite Hcf, (proj2 Hu1), R0; cbn [obind]; unfold add_all.
  assert (He0 : entries d0 = 0) by (destruct Hok0 as (_ & _ & _ & -> & _); now rewrite Hc0).
  destruct (add_all_spec false (table src1) d0 Hok0 Hd1 T1) as (d1 & R1 & Hokd1 & Hp1 & Hcd1).
  { intros _; rewrite Hc0; apply filter_absent_nil. }
  { fold (pick real src1); fold (contents src1); rewrite Hl0; lia. }
  fold (pick real src1) in Hcd1; fold (contents src1) in Hcd1; rewrite Hc0, app_nil_r, filter_absent_nil in Hcd1.
  rewrite R1; cbn [obind]; destruct Hp1 as (Hl1 & _ & _ & Hu1').
  assert (He1' : entries d1 = Z.of_nat (List.length (contents src1))) by (destruct Hokd1 as (_ & _ & _ & -> & _); now rewrite Hcd1).
  destruct (add_all_spec true (table src2) d1 Hokd1 Hd2 T2) as (d2 & R2 & Hokd2 & _ & Hcd2); [discriminate| |].
  { fold (pick real src2); fold (contents src2); rewrite Hl1, Hl0; lia. }
  fold (pick real src2) in Hcd2; fold (contents src2) in Hcd2; exists d2; split; [exact R2|split; [exact Hokd2|]].
  rewrite (List.filter_ext _ (absent (contents src1))) in Hcd2 by (intros e; apply eq_iff_eq_true; rewrite !absent_spec; now setoid_rewrite Hcd1).
  rewrite Hcd2, Hcd1; apply Permutation_app_comm.
Qed.
End Spec.
