(* ===== verification/HashMap.v ===== *)
(** * Hashtables as finite maps

    The laws of the instances, and the [generic] table as a finite map from keys
    to payloads, with the account of what it deallocates. *)
From Stdlib Require Import ZArith Lia.
From S2P Require Import Prelude.
From S2P Require Import Hashtable.
From S2P Require Import HashProbe.
From S2P Require Import HashRemove.
From S2P Require Import HashAdd.
From S2P Require Import HashSpec.
From stdpp Require Import base list numbers gmap.
#[local] Open Scope Z_scope.
#[local] Open Scope rw_scope.

(** ** Laws of the instances *)

#[export] Instance generic_laws strings fl func : EntryLaws generic_entry_t strings fl func.
Proof.
  unshelve econstructor; [exact (fun _ => True)|..]; cbn.
  - apply Z.eqb_refl.
  - apply Z.eqb_sym.
  - intros ? ? ? E1 E2; zbool; subst; apply Z.eqb_refl.
  - intros t t1 t2 _ E1; zbool; now subst.
  - reflexivity.
  - discriminate.
  - reflexivity.
Defined.

Lemma generic_tag_ok strings fl func k : @tag_ok generic_entry_t _ strings fl func _ k.
Proof. exact I. Qed.

(** Targets of indirect branches, without the options that limit the table. *)
Definition no_limits : ibl_options := mk_ibl_options 0 0 0 0.

Definition ibl_laws strings fl func : @EntryLaws fragment_entry_t (ibl_EntryType no_limits) strings fl func.
Proof.
  unshelve econstructor; [exact (fun t => t <> FAKE_TAG)|..]; cbn.
  - apply Z.eqb_refl.
  - apply Z.eqb_sym.
  - intros ? ? ? E1 E2; zbool; subst; apply Z.eqb_refl.
  - intros t t1 t2 _ E1; zbool; now subst.
  - reflexivity.
  - intros e t Hi Ht; zbool; apply Z.eqb_neq; congruence.
  - intros t G1 G2 G3; unfold ibl_init_internal_custom, with_grooming; destruct t, (TEST _ _); cbn in *; now subst.
Defined.

(** *** Strings *)

Definition strhash_func (fl : Z) : Z := if TEST STRHASH_CASE_INSENSITIVE fl then HASH_FUNCTION_STRING_NOCASE else HASH_FUNCTION_STRING.

(** Equal results of the comparison mean equal characters, for strings without
    a terminator inside. *)
Lemma compare_chars_eq (f : Z -> Z) l r :
  (forall c, c <> 0 -> f c <> f 0) -> Forall (fun c => c <> 0) l -> Forall (fun c => c <> 0) r ->
  (compare_chars f l r =? 0) = bool_decide (map f l = map f r).
Proof.
  intros Hf; revert r; induction l as [|a l IH]; intros [|b r] Hl Hr; cbn [compare_chars map].
  - reflexivity.
  - apply Forall_cons_iff in Hr as [Hb _]; specialize (Hf b Hb); rewrite bool_decide_false by discriminate.
    destruct (Z.ltb_spec (f 0) (f b)), (Z.ltb_spec (f b) (f 0)); try lia; reflexivity.
  - apply Forall_cons_iff in Hl as [Ha _]; specialize (Hf a Ha); rewrite bool_decide_false by discriminate.
    destruct (Z.ltb_spec (f a) (f 0)), (Z.ltb_spec (f 0) (f a)); try lia; reflexivity.
  - apply Forall_cons_iff in Hl as [_ Hl], Hr as [_ Hr]; destruct (Z.ltb_spec (f a) (f b)); [rewrite bool_decide_false; [reflexivity|intros [=]; lia]|].
    destruct (Z.ltb_spec (f b) (f a)); [rewrite bool_decide_false; [reflexivity|intros [=]; lia]|].
    rewrite (IH r Hl Hr); apply bool_decide_ext; assert (f a = f b) as -> by lia; split; [congruence|intros [=]; auto].
Qed.

Lemma tolower_zero c : c <> 0 -> d_r_tolower c <> d_r_tolower 0.
Proof. intros Hc; unfold d_r_tolower; zcases; cbn [andb]; lia. Qed.

(** The case-insensitive hash depends on the lower-case characters only. *)
Lemma hash_chars_nocase max l : forall r i h, map d_r_tolower l = map d_r_tolower r ->
  hash_chars HASH_FUNCTION_STRING_NOCASE max i l h = hash_chars HASH_FUNCTION_STRING_NOCASE max i r h.
Proof.
  induction l as [|a l IH]; intros [|b r] i h; cbn [map hash_chars]; [auto|discriminate|discriminate|].
  intros [= Hab Hlr]; rewrite Z.eqb_refl, Hab; now apply IH.
Qed.

Section Strings.
Context (strings : Z -> list Z) (Hstr : forall a, Forall (fun c => c <> 0) (strings a)).

Lemma key_cmp_eq fl s1 s2 :
  strhash_key_cmp strings fl s1 s2 =
  if TEST STRHASH_CASE_INSENSITIVE fl then bool_decide (map d_r_tolower (strings s1) = map d_r_tolower (strings s2))
  else bool_decide (strings s1 = strings s2).
Proof.
  unfold strhash_key_cmp, d_r_strcasecmp, d_r_strcmp; destruct (TEST _ _).
  - apply compare_chars_eq; auto; exact tolower_zero.
  - rewrite (compare_chars_eq (fun c => c)) by auto; now rewrite !map_id.
Qed.

Definition strhash_laws fl : @EntryLaws strhash_entry_t (strhash_EntryType strings) strings fl (strhash_func fl).
Proof.
  unshelve econstructor; [exact (fun _ => True)|..]; cbn.
  - intros t; rewrite key_cmp_eq; destruct (TEST _ _); now apply bool_decide_true.
  - intros t1 t2; rewrite !key_cmp_eq; destruct (TEST _ _); apply bool_decide_ext; split; congruence.
  - intros t1 t2 t3; rewrite !key_cmp_eq; destruct (TEST _ _); rewrite !bool_decide_eq_true; congruence.
  - intros t t1 t2 Hfu; rewrite key_cmp_eq; unfold HASH_FUNC, HASH_VALUE_FOR_TABLE, hash_value; rewrite Hfu; unfold strhash_func.
    destruct (TEST _ _); rewrite bool_decide_eq_true; intros Heq; cbn -[hash_chars uint].
    + now rewrite (hash_chars_nocase _ _ _ 0 0 Heq).
    + now rewrite Heq.
  - reflexivity.
  - discriminate.
  - reflexivity.
Defined.
End Strings.

(** ** The [generic] table as a finite map *)

Inductive gop :=
| G_add (k p : Z)
| G_remove (k : Z)
| G_range_remove (start end_ : Z)
| G_clear.

(** What is mapped, and what was in the map and has been deallocated. *)
Record amap := mk_amap { am_map : gmap Z Z; am_gone : list (Z * Z) }.

Definition in_range (start end_ : Z) (kp : Z * Z) : Prop := start <= kp.1 < end_.
#[export] Instance in_range_dec start end_ kp : Decision (in_range start end_ kp).
Proof. unfold in_range; apply _. Defined.

(** The operations on maps, with their results. *)
Definition astep (a : amap) (op : gop) : amap * Z :=
  let (m, gone) := a in
  match op with
  | G_add k p => (mk_amap (<[k := p]> m) gone, 0)
  | G_remove k =>
      match m !! k with
      | Some p => (mk_amap (delete k m) ((k, p) :: gone), 1)
      | None => (a, 0)
      end
  | G_range_remove start end_ =>
      let out := base.filter (in_range start end_) m in
      (mk_amap (base.filter (fun kp => ~ in_range start end_ kp) m) (map_to_list out ++ gone), Z.of_nat (base.size out))
  | G_clear => (mk_amap ∅ (map_to_list m ++ gone), 0)
  end.

Section GenericMap.
Context (strings : Z -> list Z) (o : ht_options) (fl func load : Z) (has_free : bool).

Definition gstep (t : generic_table_t) (op : gop) : option (generic_table_t * Z) :=
  match op with
  | G_add k p => let? t := generic_hash_add strings o t k p in Some (t, 0)
  | G_remove k => let? (t, found) := generic_hash_remove strings t k in Some (t, if found : bool then 1 else 0)
  | G_range_remove start end_ => generic_hash_range_remove strings t start end_
  | G_clear => Some (generic_hash_clear t, 0)
  end.

(** A key is added when it is not there, and to a table that is not huge. *)
Definition gop_ok (m : gmap Z Z) (op : gop) : Prop :=
  match op with
  | G_add k _ => m !! k = None /\ Z.of_nat (base.size m) < threshold load max_bits
  | _ => True
  end.

Fixpoint gops_ok (a : amap) (ops : list gop) : Prop :=
  match ops with [] => True | op :: ops => gop_ok (am_map a) op /\ gops_ok (astep a op).1 ops end.

Fixpoint arun (a : amap) (ops : list gop) : amap * list Z :=
  match ops with
  | [] => (a, [])
  | op :: ops => let (a, r) := astep a op in let (a, rs) := arun a ops in (a, r :: rs)
  end.

Fixpoint grun (t : generic_table_t) (ops : list gop) : option (generic_table_t * list Z) :=
  match ops with
  | [] => Some (t, [])
  | op :: ops => let? (t, r) := gstep t op in let? (t, rs) := grun t ops in Some (t, r :: rs)
  end.

Definition to_entry (kp : Z * Z) : generic_entry_t := mk_generic kp.1 kp.2.
Definition frees (l : list (Z * Z)) : list (ht_event generic_entry_t) :=
  concat (map (fun kp => generic_free_entry has_free (to_entry kp)) l).

(** A table stands for a map: its entries are those of the map, and exactly the
    entries that left the map have been deallocated, once each. *)
Definition represents (t : generic_table_t) (a : amap) : Prop :=
  table_ok strings fl func t /\ load_factor_percent t = load /\ free_payload_func t = has_free /\
  contents t ≡ₚ map to_entry (map_to_list (am_map a)) /\ entry_events (freed t) ≡ₚ frees (am_gone a).

Lemma frees_app l k : frees (l ++ k) = frees l ++ frees k.
Proof. unfold frees; now rewrite map_app, concat_app. Qed.

Lemma frees_perm l k : l ≡ₚ k -> frees l ≡ₚ frees k.
Proof. unfold frees; intros Hp; induction Hp; cbn; [reflexivity|now f_equiv| |etrans; eauto]. rewrite !(assoc_L (++)); f_equiv; apply Permutation_app_comm. Qed.

Lemma frees_events (l : list generic_entry_t) :
  concat (map (generic_free_entry has_free) l) = frees (map (fun e => (key e, payload e)) l).
Proof. induction l as [|[k p] l IH]; [reflexivity|]; cbn; now rewrite IH. Qed.

Lemma entry_events_frees l : entry_events (frees l) = frees l.
Proof.
  induction l as [|kp l IH]; [reflexivity|]; change (frees (kp :: l)) with (generic_free_entry has_free (to_entry kp) ++ frees l).
  rewrite entry_events_app, IH; f_equal; unfold generic_free_entry; now destruct has_free.
Qed.

Lemma to_entry_pairs l : map (fun e => (key e, payload e)) (map to_entry l) = l.
Proof. induction l as [|[k p] l IH]; [reflexivity|]; cbn; now rewrite IH. Qed.

Lemma pairs_to_entry l : map to_entry (map (fun e => (key e, payload e)) l) = l.
Proof. induction l as [|[k p] l IH]; [reflexivity|]; cbn; now rewrite IH. Qed.

Lemma no_invalids (t : generic_table_t) : invalids t = [].
Proof. unfold invalids, pick; induction (table t) as [|[| |e] l IH]; auto. Qed.

(** Where a key is. *)
Lemma contents_key t m k p : contents t ≡ₚ map to_entry (map_to_list m) -> mk_generic k p ∈ contents t <-> m !! k = Some p.
Proof.
  intros Hc; rewrite Hc, list_elem_of_In, in_map_iff, <- elem_of_map_to_list; split.
  - intros ([k' p'] & [= -> ->] & Hin); now apply list_elem_of_In.
  - intros Hin; exists (k, p); split; [reflexivity|now apply list_elem_of_In].
Qed.

Lemma lookup_key t a k : represents t a ->
  exists s, hashtable_lookup strings k t = Some s /\
    match am_map a !! k with Some p => s = ENTRY (mk_generic k p) | None => s = ENTRY_EMPTY end.
Proof.
  intros (Hok & _ & _ & Hc & _); pose proof Hok as ((Hf & Hr & _) & Hu & _).
  destruct (lookup_spec strings fl func t k Hf (table_ok_empty strings fl func t Hok) Hr Hu (generic_tag_ok _ _ _ _)) as (s & R & Hs).
  exists s; split; [exact R|]; destruct s as [| |[k' p']]; [|contradiction|].
  - destruct (am_map a !! k) as [p|] eqn:Em; [|reflexivity].
    apply (contents_key t _ k p Hc) in Em; specialize (Hs _ Em); cbn in Hs; now rewrite Z.eqb_refl in Hs.
  - destruct Hs as [Hin Hk]; cbn in Hk; zbool; subst; apply (contents_key t _ k p' Hc) in Hin; now rewrite Hin.
Qed.

Lemma represents_size t a : represents t a -> entries t = Z.of_nat (base.size (am_map a)) /\ unlinked_entries t = 0.
Proof.
  intros ((_ & _ & _ & He & Hu & _) & _ & _ & Hc & _); rewrite no_invalids in Hu; split; [|exact Hu].
  rewrite He, Hc, length_map, length_map_to_list; lia.
Qed.

(** ** Each operation does its step on the map *)

Lemma represents_params t a t' : represents t a -> params t t' -> load_factor_percent t' = load /\ free_payload_func t' = has_free.
Proof. intros Hrep (Hl & _ & Hp & _); destruct Hrep as (_ & Hl0 & Hp0 & _); split; congruence. Qed.

Lemma add_step t a k p : represents t a -> gop_ok (am_map a) (G_add k p) ->
  exists t', gstep t (G_add k p) = Some (t', 0) /\ represents t' (astep a (G_add k p)).1.
Proof.
  intros Hrep [Hk Hsize]; destruct (represents_size t a Hrep) as [He Hu]; pose proof Hrep as (Hok & Hl & Hp & Hc & Hev).
  destruct (add_spec strings o fl func t (mk_generic k p) Hok) as (t' & rs & R & Hok' & Hc' & Hpa & Hf').
  - unfold room; rewrite He, Hu, Hl; lia.
  - split; [reflexivity|]; apply Forall_forall; intros [k' p'] Hin; apply (contents_key t _ k' p' Hc) in Hin.
    apply Z.eqb_neq; cbn; congruence.
  - exists t'; cbn [gstep]; unfold generic_hash_add; rewrite R; split; [reflexivity|]; destruct (represents_params t a t' Hrep Hpa) as [Hl' Hp'].
    destruct a as [m gone]; cbn [astep fst am_map am_gone] in *; split; [exact Hok'|split; [exact Hl'|split; [exact Hp'|split; [|now rewrite Hf']]]].
    rewrite Hc'; cbn [am_map]; rewrite (map_to_list_insert m k p Hk), Hc; reflexivity.
Qed.

Lemma remove_step t a k : represents t a ->
  exists t', gstep t (G_remove k) = Some (t', (astep a (G_remove k)).2) /\ represents t' (astep a (G_remove k)).1.
Proof.
  intros Hrep; pose proof Hrep as (Hok & Hl & Hp & Hc & Hev); destruct (lookup_key t a k Hrep) as (s & R & Hs).
  cbn [gstep]; unfold generic_hash_remove; rewrite R; cbn [obind]; destruct a as [m gone]; cbn [am_map am_gone astep] in *.
  destruct (m !! k) as [p|] eqn:Em; subst s; [|exists t; split; [reflexivity|exact Hrep]].
  destruct (remove_spec strings fl func t (mk_generic k p) Hok (generic_tag_ok _ _ _ _)) as (t1 & b & R1 & Hok1 & Hpa & Hf1 & Hb).
  rewrite R1; cbn [obind]; destruct (represents_params t _ t1 Hrep Hpa) as [Hl1 Hp1]; destruct b.
  - destruct Hb as ([k' p'] & Hc1 & Hk); cbn in Hk; zbool; subst k'.
    assert (p' = p) as -> by (assert (X : mk_generic k p' ∈ contents t) by (rewrite Hc1; constructor); apply (contents_key t m k p' Hc) in X; congruence).
    eexists; split; [reflexivity|]; rewrite Hp1; split; [exact Hok1|split; [exact Hl1|split; [exact Hp1|split]]].
    + rewrite <- (map_to_list_delete m k p Em) in Hc; cbn [map] in Hc; rewrite Hc1 in Hc; exact (Permutation_cons_inv Hc).
    + cbn [freed with_freed am_gone]; rewrite entry_events_app, Hf1, Hev, Permutation_app_comm.
      change (generic_free_entry has_free (mk_generic k p)) with (generic_free_entry has_free (to_entry (k, p))).
      replace (entry_events (generic_free_entry has_free (to_entry (k, p)))) with (generic_free_entry has_free (to_entry (k, p)))
        by (unfold generic_free_entry; now destruct has_free); reflexivity.
  - destruct Hb as [_ Hb]; exfalso; apply (contents_key t m k p Hc) in Em; specialize (Hb _ Em); cbn in Hb; now rewrite Z.eqb_refl in Hb.
Qed.

Lemma filter_perm {A : Type} (h : A -> bool) (l k : list A) : l ≡ₚ k -> List.filter h l ≡ₚ List.filter h k.
Proof.
  intros Hl; induction Hl as [|x l k _ IH|x y l|l k m _ IH1 _ IH2]; cbn; [reflexivity| | |etrans; eauto].
  - destruct (h x); [now constructor|exact IH].
  - destruct (h x), (h y); try reflexivity; apply Permutation_swap.
Qed.

(** Splitting a list by a test that holds on one part and fails on the other. *)
Lemma filter_split {A : Type} (f : A -> bool) (l g c : list A) :
  l ≡ₚ g ++ c -> Forall (fun x => f x = true) g -> Forall (fun x => f x = false) c ->
  g ≡ₚ List.filter f l /\ c ≡ₚ List.filter (fun x => negb (f x)) l.
Proof.
  intros Hl Hg Hc.
  assert (Hkeep : forall (h : A -> bool) k, Forall (fun x => h x = true) k -> List.filter h k = k)
    by (intros h k; induction 1 as [|x k Hx _ IH]; cbn; [reflexivity|now rewrite Hx, IH]).
  assert (Hdrop : forall (h : A -> bool) k, Forall (fun x => h x = false) k -> List.filter h k = [])
    by (intros h k; induction 1 as [|x k Hx _ IH]; cbn; [reflexivity|now rewrite Hx, IH]).
  split; rewrite (filter_perm _ _ _ Hl), List.filter_app.
  - now rewrite (Hkeep f g Hg), (Hdrop f c Hc), app_nil_r.
  - rewrite (Hdrop (fun x => negb (f x)) g), (Hkeep (fun x => negb (f x)) c); [reflexivity|..];
      (eapply Forall_impl; [eassumption|]); cbv beta; intros x ->; reflexivity.
Qed.

Lemma filter_entries (P : Z * Z -> Prop) `{forall x, Decision (P x)} (f : generic_entry_t -> bool) l :
  (forall kp, f (to_entry kp) = bool_decide (P kp)) -> List.filter f (map to_entry l) = map to_entry (base.filter P l).
Proof.
  intros Hf; induction l as [|kp l IH]; [reflexivity|]; cbn [map List.filter]; rewrite Hf, IH, filter_cons.
  destruct (decide (P kp)); [rewrite bool_decide_true by assumption|rewrite bool_decide_false by assumption]; reflexivity.
Qed.

Lemma map_to_list_filter (P : Z * Z -> Prop) `{forall x, Decision (P x)} (m : gmap Z Z) :
  map_to_list (base.filter P m) ≡ₚ base.filter P (map_to_list m).
Proof.
  apply NoDup_Permutation; [apply NoDup_map_to_list|apply NoDup_filter, NoDup_map_to_list|].
  intros [k p]; rewrite list_elem_of_filter, !elem_of_map_to_list, map_lookup_filter_Some; tauto.
Qed.

Lemma range_step t a start end_ : represents t a ->
  exists t', gstep t (G_range_remove start end_) = Some (t', (astep a (G_range_remove start end_)).2) /\
    represents t' (astep a (G_range_remove start end_)).1.
Proof.
  intros Hrep; pose proof Hrep as (Hok & Hl & Hp & Hc & Hev); destruct a as [m gone]; cbn [gstep astep fst snd am_map am_gone] in *.
  destruct (range_remove_spec strings fl func t start end_ None Hok) as (t' & g & R & Hok' & Hpa & Hcg & Hg & Hcn & Hf'); [discriminate|].
  destruct (represents_params t _ t' Hrep Hpa) as [Hl' Hp'].
  set (f := fun e : generic_entry_t => (start <=? ENTRY_TAG e) && (ENTRY_TAG e <? end_) && true) in *.
  assert (Hf : forall kp, f (to_entry kp) = bool_decide (in_range start end_ kp)).
  { intros [k p]; unfold f, in_range; cbn; rewrite andb_true_r; symmetry.
    destruct (Z.leb_spec start k), (Z.ltb_spec k end_); cbn [andb]; [apply bool_decide_true|apply bool_decide_false..]; lia. }
  destruct (filter_split f _ _ _ Hcg Hg Hcn) as [Hg1 Hc1].
  assert (Hgs : g ≡ₚ map to_entry (map_to_list (base.filter (in_range start end_) m))).
  { rewrite Hg1, (filter_perm _ _ _ Hc), (filter_entries (in_range start end_)) by exact Hf; now rewrite map_to_list_filter. }
  assert (Hcs : contents t' ≡ₚ map to_entry (map_to_list (base.filter (fun kp => ~ in_range start end_ kp) m))).
  { rewrite Hc1, (filter_perm _ _ _ Hc), (filter_entries (fun kp => ~ in_range start end_ kp)); [now rewrite map_to_list_filter|].
    intros kp; cbv beta; rewrite Hf, bool_decide_not; reflexivity. }
  exists t'; split.
  - unfold generic_hash_range_remove; rewrite R; do 2 f_equal; rewrite Hgs, length_map, length_map_to_list; reflexivity.
  - split; [exact Hok'|split; [exact Hl'|split; [exact Hp'|split; [exact Hcs|]]]]; cbn [am_gone].
    rewrite Hf', entry_events_app, Hev, Hp, frees_events, entry_events_frees, frees_app, Permutation_app_comm; f_equiv.
    apply frees_perm; rewrite Hgs, to_entry_pairs; reflexivity.
Qed.

Lemma clear_step t a : represents t a ->
  exists t', gstep t G_clear = Some (t', 0) /\ represents t' (astep a G_clear).1.
Proof.
  intros Hrep; pose proof Hrep as (Hok & Hl & Hp & Hc & Hev); destruct a as [m gone]; cbn [gstep astep fst am_map am_gone] in *.
  destruct (clear_spec strings fl func t Hok (no_invalids t)) as (Hok' & Hpa & Hc' & Hf'); cbv zeta in *.
  destruct (represents_params t _ _ Hrep Hpa) as [Hl' Hp'].
  exists (generic_hash_clear t); split; [reflexivity|]; split; [exact Hok'|split; [exact Hl'|split; [exact Hp'|split]]]; cbn [am_map am_gone].
  - unfold generic_hash_clear; rewrite Hc', map_to_list_empty; reflexivity.
  - unfold generic_hash_clear; cbn [am_gone]; rewrite Hf', entry_events_app, Hev, Hp.
    change (free_entry has_free) with (generic_free_entry has_free); rewrite frees_events, entry_events_frees, frees_app, Permutation_app_comm; f_equiv.
    apply frees_perm; rewrite Hc, to_entry_pairs; reflexivity.
Qed.

Lemma gstep_simulates t a op : represents t a -> gop_ok (am_map a) op ->
  exists t', gstep t op = Some (t', (astep a op).2) /\ represents t' (astep a op).1.
Proof.
  intros Hrep Hop; destruct op as [k p|k|start end_|].
  - destruct (add_step t a k p Hrep Hop) as (t' & R & Hr); exists t'; split; [destruct a; exact R|exact Hr].
  - now apply remove_step.
  - now apply range_step.
  - destruct (clear_step t a Hrep) as (t' & R & Hr); exists t'; split; [destruct a; exact R|exact Hr].
Qed.

Lemma grun_simulates ops : forall t a, represents t a -> gops_ok a ops ->
  exists t', grun t ops = Some (t', (arun a ops).2) /\ represents t' (arun a ops).1.
Proof.
  induction ops as [|op ops IH]; intros t a Hrep Hops; [exists t; auto|]; destruct Hops as [Hop Hops].
  destruct (gstep_simulates t a op Hrep Hop) as (t1 & R1 & Hr1); destruct (IH t1 _ Hr1 Hops) as (t2 & R2 & Hr2).
  exists t2; cbn [grun arun]; rewrite R1; cbn [obind]; destruct (astep a op) as [a1 r]; cbn [fst snd] in *.
  rewrite R2; cbn [obind]; destruct (arun a1 ops); auto.
Qed.

(** *** Iteration *)

(** The entries that [iterate_next] yields from an index on. *)
Fixpoint iterate_from (fuel : nat) (t : generic_table_t) (iter : Z) : list (Z * Z) :=
  match fuel with
  | O => []
  | S fuel =>
      match generic_hash_iterate_next t iter with
      | None => []
      | Some (i, k, p) => (k, p) :: iterate_from fuel t i
      end
  end.

Lemma next_entry_spec l : forall i,
  match next_entry l i with
  | None => concat (map (pick_slot (fun _ => true)) l) = []
  | Some (j, e) => exists n, j = i + 1 + Z.of_nat n /\ (n < List.length l)%nat /\
                     concat (map (pick_slot (fun _ => true)) l) = e :: concat (map (pick_slot (fun _ => true)) (drop (S n) l))
  end.
Proof.
  induction l as [|[| |e] l IH]; intros i; cbn [next_entry]; [reflexivity| | |exists 0%nat; cbn; split; [lia|split; [lia|reflexivity]]].
  all: specialize (IH (i + 1)); destruct (next_entry l (i + 1)) as [[j e]|]; [|exact IH];
    destruct IH as (n & -> & Hn & Hc); exists (S n); split; [lia|split; [cbn; lia|exact Hc]].
Qed.

Lemma iterate_from_spec fuel : forall t iter, 0 <= iter -> Z.of_nat (List.length (table t)) <= iter + Z.of_nat fuel ->
  map to_entry (iterate_from fuel t iter) = concat (map (pick_slot (fun _ => true)) (drop (Z.to_nat iter) (table t))).
Proof.
  induction fuel as [|fuel IH]; intros t iter H0 Hf.
  - cbn; rewrite drop_ge by lia; reflexivity.
  - cbn [iterate_from]; unfold generic_hash_iterate_next; pose proof (next_entry_spec (drop (Z.to_nat iter) (table t)) iter) as Hn.
    destruct (next_entry _ iter) as [[j e]|]; cbn [option_map]; [|now rewrite Hn]; destruct Hn as (n & -> & Hn & ->).
    cbn [map]; rewrite IH by lia; rewrite drop_drop; f_equal; [now destruct e|]; do 3 f_equal; lia.
Qed.
End GenericMap.

(** Iteration from the start yields every entry of the table once. *)
Lemma iterate_all (t : generic_table_t) :
  map to_entry (iterate_from (List.length (table t)) t 0) ≡ₚ contents t.
Proof. rewrite iterate_from_spec by lia; reflexivity. Qed.
