(* ===== verification/HashGeneric.v ===== *)
(** * Theorems about hashtables

    The [generic] table as a finite map; lookups after insertion and removal in
    a table of any instance; removal of ranges; tables with string keys; and the
    situations in which the code does not do what it means to: a table that
    fills up, and iteration while entries are removed. *)
From Stdlib Require Import ZArith Lia.
From S2P Require Import Prelude.
From S2P Require Import Hashtable.
From S2P Require Import HashProbe.
From S2P Require Import HashRemove.
From S2P Require Import HashAdd.
From S2P Require Import HashSpec.
From S2P Require Import HashMap.
From stdpp Require Import base list numbers gmap.
#[local] Open Scope Z_scope.
#[local] Open Scope rw_scope.

(** ** The generic table *)

Lemma create_represents strings func bits load fl has_free :
  1 <= bits <= max_bits -> load_ok load bits -> TEST HASHTABLE_READ_ONLY fl = false ->
  exists t, generic_hash_create func bits load fl has_free = Some t /\ represents strings fl func load has_free t (mk_amap ∅ []).
Proof.
  intros Hb Hl Hro; destruct (init_spec strings fl func bits load 0 Hb ltac:(lia) ltac:(unfold max_bits; lia) Hl Hro)
    as (t & R & Hok & Hc & _ & Hld & Hf); unfold generic_hash_create; rewrite R; cbn [obind]; eexists; split; [reflexivity|].
  split; [exact Hok|split; [exact Hld|split; [reflexivity|split]]]; cbn [am_map am_gone].
  - change (contents t ≡ₚ map to_entry (map_to_list (∅ : gmap Z Z))); rewrite Hc, map_to_list_empty; reflexivity.
  - change (entry_events (freed t) ≡ₚ []); now rewrite Hf.
Qed.

Lemma lookup_represents strings fl func load has_free t a k :
  represents strings fl func load has_free t a -> generic_hash_lookup strings t k = Some (default 0 (am_map a !! k)).
Proof.
  intros Hrep; destruct (lookup_key strings fl func load has_free t a k Hrep) as (s & R & Hs); unfold generic_hash_lookup; rewrite R; cbn [obind].
  destruct (am_map a !! k); subst s; reflexivity.
Qed.

Lemma destroy_events t : generic_hash_destroy t = freed t ++ frees (free_payload_func t) (map (fun e => (key e, payload e)) (contents t)) ++ [Ev_table (capacity t)].
Proof.
  unfold generic_hash_destroy; do 2 f_equal; rewrite <- frees_events; unfold contents, pick; clear.
  induction (table t) as [|[| |e] l IH]; auto; cbn [map concat]; rewrite map_app, concat_app, IH; cbn; now rewrite app_nil_r.
Qed.

(** C5: A table made by [generic_hash_create] with any hash function, 1 to 25 bits
    and a load factor that leaves a slot free at that size, not read-only, and
    changed by any
    sequence of operations in which an added key is not in the map and the map
    stays below the threshold of 25 bits, is a finite map: every operation ends
    with the result it has on maps, every lookup returns the payload that is
    mapped, or NULL, and iteration yields the pairs of the map, each once.
    Payloads and entries are deallocated exactly when they leave the map, and the
    rest when the table is destroyed. *)
Theorem generic_hash_implements_map strings o func bits load fl has_free ops :
  1 <= bits <= max_bits -> load_ok load bits -> TEST HASHTABLE_READ_ONLY fl = false ->
  gops_ok load (mk_amap ∅ []) ops ->
  let (a, results) := arun (mk_amap ∅ []) ops in
  exists t0 t, generic_hash_create func bits load fl has_free = Some t0 /\ grun strings o t0 ops = Some (t, results) /\
    (forall k, generic_hash_lookup strings t k = Some (default 0 (am_map a !! k))) /\
    iterate_from (List.length (table t)) t 0 ≡ₚ map_to_list (am_map a) /\
    entry_events (freed t) ≡ₚ frees has_free (am_gone a) /\
    entry_events (generic_hash_destroy t) ≡ₚ frees has_free (map_to_list (am_map a) ++ am_gone a).
Proof.
  intros Hb Hl Hro Hops; destruct (create_represents strings func bits load fl has_free Hb Hl Hro) as (t0 & R0 & Hrep0).
  destruct (grun_simulates strings o fl func load has_free ops t0 _ Hrep0 Hops) as (t & R & Hrep).
  destruct (arun _ ops) as [a results]; cbn [fst snd] in *; exists t0, t; split; [exact R0|split; [exact R|]].
  pose proof Hrep as (_ & _ & Hp & Hc & Hev); split; [intros k; eapply lookup_represents; eauto|].
  assert (Hpairs : map (fun e => (key e, payload e)) (contents t) ≡ₚ map_to_list (am_map a)) by (rewrite Hc, to_entry_pairs; reflexivity).
  split; [|split; [exact Hev|]].
  - rewrite <- Hpairs, <- (iterate_all t), to_entry_pairs; reflexivity.
  - rewrite destroy_events, !entry_events_app, Hp, entry_events_frees, Hev, frees_app, app_nil_r, Permutation_app_comm; f_equiv.
    now apply frees_perm.
Qed.

Definition no_strings (_ : Z) : list Z := [].
Definition ht_defaults : ht_options := mk_ht_options 20 false.
Definition sample_gops : list gop := [G_add 5 50; G_add 13 130; G_add 21 210; G_add 6 60; G_remove 5; G_range_remove 10 20; G_add 7 70; G_clear; G_add 5 51].

Lemma generic_hash_implements_map_witness :
  exists t0 t, generic_hash_create HASH_FUNCTION_NONE 3 60 0 true = Some t0 /\
    grun no_strings ht_defaults t0 sample_gops = Some (t, [0; 0; 0; 0; 1; 1; 0; 0; 0]) /\ generic_hash_lookup no_strings t 5 = Some 51.
Proof.
  pose proof (generic_hash_implements_map no_strings ht_defaults HASH_FUNCTION_NONE 3 60 0 true sample_gops) as T.
  destruct T as (t0 & t & R0 & R & L & _); [unfold max_bits; lia|split; [lia|reflexivity]|reflexivity|vm_compute; tauto|].
  exists t0, t; split; [exact R0|split; [exact R|exact (L 5)]].
Defined.

(** ** Lookups in a table of any instance *)

Section Lookups.
Context {E : Type} `{EntryType E} (strings : Z -> list Z) (o : ht_options) (fl func : Z) `{!EntryLaws E strings fl func}.
Implicit Types (t : table_t E) (e : E).
#[local] Abbreviation ok := (table_ok strings fl func).

Lemma distinct_same l e f : distinct_tags fl l -> e ∈ l -> f ∈ l -> TAGS_ARE_EQUAL fl (ENTRY_TAG e) (ENTRY_TAG f) = true -> e = f.
Proof.
  induction l as [|x l IH]; intros Hd He Hf Heq; [now apply not_elem_of_nil in He|]; destruct Hd as [Hx Hd].
  rewrite Forall_forall in Hx; apply elem_of_cons in He as [->|He], Hf as [->|Hf]; auto.
  - now rewrite (Hx f Hf) in Heq.
  - rewrite tags_sym, (Hx e He) in Heq; discriminate.
Qed.

(** The result of a lookup is determined by the entries. *)
Lemma lookup_entry t tag e :
  ok t -> tag_ok tag -> e ∈ contents t -> TAGS_ARE_EQUAL fl (ENTRY_TAG e) tag = true -> hashtable_lookup strings tag t = Some (ENTRY e).
Proof.
  intros Hok Ht He Heq; pose proof Hok as ((Hf & Hr & _) & Hu & Hd & _).
  destruct (lookup_spec strings fl func t tag Hf (table_ok_empty strings fl func t Hok) Hr Hu Ht) as (s & -> & Hs).
  destruct s as [| |f]; [now rewrite (Hs e He) in Heq|contradiction|]; destruct Hs as [Hfc Hft].
  do 2 f_equal; apply (distinct_same (contents t)); auto; rewrite tags_sym in Heq; eapply tags_trans; eauto.
Qed.

Lemma lookup_none t tag :
  ok t -> tag_ok tag -> (forall e, e ∈ contents t -> TAGS_ARE_EQUAL fl (ENTRY_TAG e) tag = false) -> hashtable_lookup strings tag t = Some ENTRY_EMPTY.
Proof.
  intros Hok Ht Hno; pose proof Hok as ((Hf & Hr & _) & Hu & _).
  destruct (lookup_spec strings fl func t tag Hf (table_ok_empty strings fl func t Hok) Hr Hu Ht) as (s & -> & Hs).
  destruct s as [| |f]; [reflexivity|contradiction|]; now rewrite (Hno f (proj1 Hs)) in Hs.
Qed.

(** Tables whose entries with a tag are the same give the same lookup. *)
Lemma lookup_same t t' tag :
  ok t -> ok t' -> tag_ok tag -> (forall e, TAGS_ARE_EQUAL fl (ENTRY_TAG e) tag = true -> e ∈ contents t <-> e ∈ contents t') ->
  hashtable_lookup strings tag t' = hashtable_lookup strings tag t.
Proof.
  intros Hok Hok' Ht Hs; pose proof Hok as ((Hf & Hr & _) & Hu & _).
  destruct (lookup_spec strings fl func t tag Hf (table_ok_empty strings fl func t Hok) Hr Hu Ht) as (s & -> & Hr').
  destruct s as [| |e]; [|contradiction|].
  - apply lookup_none; auto; intros e He; destruct (TAGS_ARE_EQUAL fl (ENTRY_TAG e) tag) eqn:Et; [|reflexivity].
    apply (Hs e Et) in He; now rewrite (Hr' e He) in Et.
  - destruct Hr' as [He Et]; apply lookup_entry; auto; now apply (Hs e Et).
Qed.
End Lookups.

(** C31: In a table of any instance that satisfies the laws, not read-only, without a
    limit on its size and without grooming, with a load factor that leaves a slot free and
    fewer entries than 25 bits allow, unlinked entries included, an entry whose
    tag is not there can be added, whether the table has room or must grow; every
    lookup of an equal tag then returns it, and every other lookup returns what
    it did before. *)
Theorem hashtable_add_lookup {E : Type} `{EntryType E} strings o fl func `{!EntryLaws E strings fl func} (t : table_t E) (e : E) :
  table_ok strings fl func t -> room t -> fresh_entry fl t e ->
  exists t' resized, hashtable_add strings o e t = Some (t', resized) /\ table_ok strings fl func t' /\
    forall tag, tag_ok tag ->
      hashtable_lookup strings tag t' = if TAGS_ARE_EQUAL fl (ENTRY_TAG e) tag then Some (ENTRY e) else hashtable_lookup strings tag t.
Proof.
  intros Hok Hroom Hfr; destruct (add_spec strings o fl func t e Hok Hroom Hfr) as (t' & r & R & Hok' & Hc & _ & _).
  exists t', r; split; [exact R|split; [exact Hok'|]]; intros tag Ht; destruct (TAGS_ARE_EQUAL fl (ENTRY_TAG e) tag) eqn:Et.
  - apply (lookup_entry strings fl func); auto; rewrite Hc; constructor.
  - apply (lookup_same strings fl func); auto; intros f Hf; rewrite Hc, elem_of_cons; split; [auto|]; intros [->|]; [congruence|auto].
Qed.

(** Tables of indirect-branch targets, without limits. *)
#[local] Instance ibl_entries : EntryType fragment_entry_t := ibl_EntryType no_limits.
#[local] Instance ibl_entry_laws strings fl func : EntryLaws fragment_entry_t strings fl func := ibl_laws strings fl func.

Lemma hashtable_add_lookup_witness :
  exists t t' r, hashtable_init 3 60 HASH_FUNCTION_NONE 0 6 = Some t /\
    hashtable_add no_strings ht_defaults (mk_fragment_entry 4198400 7) t = Some (t', r) /\
    hashtable_lookup no_strings 4198400 t' = Some (ENTRY (mk_fragment_entry 4198400 7)).
Proof.
  destruct (init_spec no_strings 6 HASH_FUNCTION_NONE 3 60 0) as (t & R & Hok & Hc & Hu & Hl & _);
    [unfold max_bits; lia|lia|unfold max_bits; lia|split; [lia|reflexivity]|reflexivity|].
  destruct (hashtable_add_lookup no_strings ht_defaults 6 HASH_FUNCTION_NONE t (mk_fragment_entry 4198400 7) Hok) as (t' & r & R' & _ & Hlk).
  - unfold room; rewrite Hu, Hl; destruct Hok as (_ & _ & _ & -> & _); rewrite Hc; reflexivity.
  - split; [reflexivity|rewrite Hc; constructor].
  - exists t, t', r; split; [exact R|split; [exact R'|]]; rewrite (Hlk 4198400); [reflexivity|discriminate].
Defined.

(** C16: Removing an entry from a table of any instance that satisfies the laws,
    not read-only, of at most 25 bits, without a limit on its size and without
    grooming, with a load factor that leaves a slot free, by moving entries into the hole it leaves: lookups of
    its tag find nothing, every other lookup returns what it did before, and the
    result says whether there was such an entry. *)
Theorem hashtable_remove_lookup {E : Type} `{EntryType E} strings fl func `{!EntryLaws E strings fl func} (t : table_t E) (fr : E) :
  table_ok strings fl func t -> tag_ok (ENTRY_TAG fr) ->
  exists t' found, hashtable_remove strings fr t = Some (t', found) /\ table_ok strings fl func t' /\
    (found = true <-> hashtable_lookup strings (ENTRY_TAG fr) t <> Some ENTRY_EMPTY) /\
    forall tag, tag_ok tag ->
      hashtable_lookup strings tag t' = if TAGS_ARE_EQUAL fl (ENTRY_TAG fr) tag then Some ENTRY_EMPTY else hashtable_lookup strings tag t.
Proof.
  intros Hok Htag; destruct (remove_spec strings fl func t fr Hok Htag) as (t' & b & R & Hok' & _ & _ & Hb).
  exists t', b; split; [exact R|split; [exact Hok'|]]; pose proof Hok as (_ & _ & Hd & _); destruct b.
  - destruct Hb as (e & Hc & Het); split.
    + split; [intros _|auto]; rewrite (lookup_entry strings fl func t _ e Hok Htag); [discriminate|rewrite Hc; constructor|exact Het].
    + intros tag Ht; rewrite Hc in Hd; destruct Hd as [Hd _]; rewrite Forall_forall in Hd; destruct (TAGS_ARE_EQUAL fl (ENTRY_TAG fr) tag) eqn:Et.
      * apply (lookup_none strings fl func); auto; intros f Hf; destruct (TAGS_ARE_EQUAL fl (ENTRY_TAG f) tag) eqn:Ef; [|reflexivity].
        specialize (Hd f Hf); pose proof (tags_trans _ _ _ Het Et) as X; rewrite tags_sym in Ef; now rewrite (tags_trans _ _ _ X Ef) in Hd.
      * apply (lookup_same strings fl func); auto; intros f Hf; rewrite Hc, elem_of_cons; split; [|auto]; intros [->|]; [|auto].
        rewrite tags_sym in Het; now rewrite (tags_trans _ _ _ Het Hf) in Et.
  - destruct Hb as [-> Hno]; split.
    + rewrite (lookup_none strings fl func t _ Hok Htag Hno); split; [discriminate|congruence].
    + intros tag Ht; destruct (TAGS_ARE_EQUAL fl (ENTRY_TAG fr) tag) eqn:Et; [|reflexivity]; apply (lookup_none strings fl func); auto.
      intros e He; destruct (TAGS_ARE_EQUAL fl (ENTRY_TAG e) tag) eqn:Ee; [|reflexivity]; rewrite tags_sym in Et.
      specialize (Hno e He); now rewrite (tags_trans _ _ _ Ee Et) in Hno.
Qed.

(** Two entries of the same hash value in a table of 3 bits. *)
Definition target_1 : fragment_entry_t := mk_fragment_entry 4198400 7.
Definition target_2 : fragment_entry_t := mk_fragment_entry 4198408 9.

Lemma sample_targets :
  exists t0 t1 t r1 r2, hashtable_init 3 60 HASH_FUNCTION_NONE 0 6 = Some t0 /\
    hashtable_add no_strings ht_defaults target_1 t0 = Some (t1, r1) /\ hashtable_add no_strings ht_defaults target_2 t1 = Some (t, r2) /\
    table_ok no_strings 6 HASH_FUNCTION_NONE t /\ contents t ≡ₚ [target_2; target_1].
Proof.
  destruct (init_spec no_strings 6 HASH_FUNCTION_NONE 3 60 0) as (t0 & R0 & Hok0 & Hc0 & Hu0 & Hl0 & _);
    [unfold max_bits; lia|lia|unfold max_bits; lia|split; [lia|reflexivity]|reflexivity|].
  assert (Hroom : forall t, table_ok no_strings 6 HASH_FUNCTION_NONE t -> (List.length (contents t) <= 1)%nat -> params t0 t -> room t).
  { intros t (_ & _ & _ & He & _) Hn (Hl & _ & _ & Hu); unfold room; rewrite He, Hl, Hl0, Hu0 in *.
    change (threshold 60 max_bits) with 20132659; lia. }
  destruct (add_spec no_strings ht_defaults 6 HASH_FUNCTION_NONE t0 target_1 Hok0) as (t1 & r1 & R1 & Hok1 & Hc1 & Hp1 & _).
  { apply Hroom; [exact Hok0|rewrite Hc0; cbn; lia|apply params_refl]. }
  { split; [reflexivity|rewrite Hc0; constructor]. }
  rewrite Hc0 in Hc1; destruct (add_spec no_strings ht_defaults 6 HASH_FUNCTION_NONE t1 target_2 Hok1) as (t & r2 & R2 & Hok & Hc & _).
  { apply Hroom; [exact Hok1|rewrite Hc1; cbn; lia|exact Hp1]. }
  { split; [reflexivity|rewrite Hc1; repeat constructor]. }
  exists t0, t1, t, r1, r2; rewrite Hc1 in Hc; auto 6.
Qed.

Lemma hashtable_remove_lookup_witness :
  exists t t', contents t ≡ₚ [target_2; target_1] /\ hashtable_remove no_strings target_1 t = Some (t', true) /\
    hashtable_lookup no_strings 4198400 t' = Some ENTRY_EMPTY /\ hashtable_lookup no_strings 4198408 t' = Some (ENTRY target_2).
Proof.
  destruct sample_targets as (_ & _ & t & _ & _ & _ & _ & _ & Hok & Hc).
  destruct (hashtable_remove_lookup no_strings 6 HASH_FUNCTION_NONE t target_1 Hok) as (t' & b & R & _ & Hb & Hlk); [discriminate|].
  assert (L : forall e, e ∈ [target_2; target_1] -> hashtable_lookup no_strings (ENTRY_TAG e) t = Some (ENTRY e)).
  { intros e He; apply (lookup_entry no_strings 6 HASH_FUNCTION_NONE); [exact Hok| |now rewrite Hc|apply Z.eqb_refl].
    rewrite !elem_of_cons in He; destruct He as [->|[->|He]]; [discriminate..|inversion He]. }
  assert (b = true) as -> by (apply Hb; rewrite (L target_1) by set_solver; discriminate).
  exists t, t'; split; [exact Hc|split; [exact R|split]]; rewrite Hlk by discriminate; [reflexivity|].
  exact (L target_2 ltac:(set_solver)).
Defined.

(** C18: Removing a range of tags from such a table, where the range and the filter
    select no invalid entry, ends, although entries move while the loop runs; it
    removes and deallocates exactly the entries in the range
    that pass the filter, and counts them. *)
Theorem range_remove_correct {E : Type} `{EntryType E} strings fl func `{!EntryLaws E strings fl func} (t : table_t E) lo hi filter :
  let matches e := (lo <=? ENTRY_TAG e) && (ENTRY_TAG e <? hi) && match filter with None => true | Some f => f e end in
  table_ok strings fl func t -> (forall e, ENTRY_IS_INVALID e = true -> matches e = false) ->
  exists t' gone, range_remove strings lo hi filter t = Some (t', Z.of_nat (List.length gone)) /\ table_ok strings fl func t' /\
    gone ≡ₚ List.filter matches (contents t) /\ contents t' ≡ₚ List.filter (fun e => negb (matches e)) (contents t) /\
    freed t' = freed t ++ concat (map (free_entry (free_payload_func t)) gone).
Proof.
  intros matches Hok Hinv; destruct (range_remove_spec strings fl func t lo hi filter Hok Hinv) as (t' & gone & R & Hok' & _ & Hc & Hg & Hn & Hf).
  exists t', gone; split; [exact R|split; [exact Hok'|]]; fold matches in Hg, Hn; destruct (filter_split matches _ _ _ Hc Hg Hn) as [H1 H2]; auto.
Qed.

Lemma range_remove_correct_witness :
  exists t t', contents t ≡ₚ [target_2; target_1] /\ range_remove no_strings 0 4198404 None t = Some (t', 1) /\
    contents t' ≡ₚ [target_2].
Proof.
  destruct sample_targets as (_ & _ & t & _ & _ & _ & _ & _ & Hok & Hc).
  destruct (range_remove_correct no_strings 6 HASH_FUNCTION_NONE t 0 4198404 None Hok) as (t' & gone & R & _ & Hg & Hk & _).
  - intros [tag pc]; cbn; intros Hi; zbool; subst tag; reflexivity.
  - rewrite (filter_perm _ _ _ Hc) in Hg; rewrite (filter_perm _ _ _ Hc) in Hk; exists t, t'; split; [exact Hc|split; [|exact Hk]]; rewrite R, Hg; reflexivity.
Defined.

(** ** String keys *)

(** C35: In such a table with string keys, below the size of 25 bits, after
    a key is added that no stored key equals, a payload is found under every key with the
    same characters, up to case in a case-insensitive table, and under no other:
    the hash function and the comparison agree. *)
Theorem strhash_add_lookup strings o (t : strhash_table_t) fl k p :
  (forall a, Forall (fun c => c <> 0) (strings a)) ->
  @table_ok _ (strhash_EntryType strings) strings fl (strhash_func fl) t -> @room strhash_entry_t t ->
  (forall e, e ∈ @contents _ (strhash_EntryType strings) t -> strhash_key_cmp strings fl k (skey e) = false) ->
  exists t', strhash_hash_add strings o t k p = Some t' /\ @table_ok _ (strhash_EntryType strings) strings fl (strhash_func fl) t' /\
    forall k', strhash_hash_lookup strings t' k' =
      if strhash_key_cmp strings fl k k' then Some p else strhash_hash_lookup strings t k'.
Proof.
  intros Hstr Hok Hroom Hfresh; pose (L := strhash_laws strings Hstr fl).
  destruct (add_spec (H := strhash_EntryType strings) (EntryLaws0 := L) strings o fl (strhash_func fl) t (mk_strhash k p) Hok Hroom) as (t' & r & R & Hok' & Hc & _ & _).
  { split; [reflexivity|]; apply Forall_forall; intros e He; exact (Hfresh e He). }
  exists t'; unfold strhash_hash_add; rewrite R; split; [reflexivity|split; [exact Hok'|]]; intros k'; unfold strhash_hash_lookup.
  destruct (strhash_key_cmp strings fl k k') eqn:Ek.
  - rewrite (lookup_entry (H := strhash_EntryType strings) (EntryLaws0 := L) strings fl (strhash_func fl) t' k' (mk_strhash k p) Hok' I); [reflexivity| |exact Ek].
    rewrite Hc; constructor.
  - rewrite (lookup_same (H := strhash_EntryType strings) (EntryLaws0 := L) strings fl (strhash_func fl) t t' k' Hok Hok' I); [reflexivity|].
    intros f Hf; rewrite Hc, elem_of_cons; split; [auto|]; intros [->|]; [|auto]; change (strhash_key_cmp strings fl k k' = true) in Hf; congruence.
Qed.

(** The strings [Abc], [aBC] and [x]. *)
Definition sample_strings (a : Z) : list Z := if a =? 100 then [65; 98; 99] else if a =? 200 then [97; 66; 67] else [120].

Lemma sample_strings_ok a : Forall (fun c => c <> 0) (sample_strings a).
Proof. unfold sample_strings; destruct (a =? 100), (a =? 200); repeat constructor; discriminate. Qed.

Lemma strhash_add_lookup_witness :
  exists t t', strhash_hash_create sample_strings 3 60 STRHASH_CASE_INSENSITIVE false = Some t /\
    strhash_hash_add sample_strings ht_defaults t 100 7 = Some t' /\ strhash_hash_lookup sample_strings t' 200 = Some 7.
Proof.
  destruct (init_spec (H := strhash_EntryType sample_strings)
              (EntryLaws0 := strhash_laws sample_strings sample_strings_ok STRHASH_CASE_INSENSITIVE) sample_strings
              STRHASH_CASE_INSENSITIVE (strhash_func STRHASH_CASE_INSENSITIVE) 3 60 0) as (t & R & Hok & Hc & Hu & Hl & _);
    [unfold max_bits; lia|lia|unfold max_bits; lia|split; [lia|reflexivity]|reflexivity|].
  exists (with_payload_func t false).
  destruct (strhash_add_lookup sample_strings ht_defaults (with_payload_func t false) STRHASH_CASE_INSENSITIVE 100 7 sample_strings_ok Hok) as (t' & R' & _ & Hlk).
  - unfold room; change (entries t + unlinked_entries t < threshold (load_factor_percent t) max_bits).
    rewrite Hu, Hl; destruct Hok as (_ & _ & _ & -> & _); rewrite Hc; reflexivity.
  - intros e He; change (e ∈ @contents _ (strhash_EntryType sample_strings) t) in He; rewrite Hc in He; now apply not_elem_of_nil in He.
  - exists t'; split; [|split; [exact R'|exact (Hlk 200)]].
    unfold strhash_hash_create; change (strhash_func STRHASH_CASE_INSENSITIVE) with HASH_FUNCTION_STRING_NOCASE in R.
    change (TEST STRHASH_CASE_INSENSITIVE STRHASH_CASE_INSENSITIVE) with true; cbv iota; rewrite R; reflexivity.
Defined.

(** ** Tables that fill up *)

(** Without an empty slot and without the tag, the search goes round for ever. *)
Lemma full_lookup_diverges {E : Type} `{EntryType E} (t : table_t E) tag fuel : forall i,
  shape t -> 0 <= i < ring t ->
  (forall j, 0 <= j < ring t -> exists e, slot_at t j = Some (ENTRY e) /\ TAGS_ARE_EQUAL (table_flags t) (ENTRY_TAG e) tag = false) ->
  lookup_loop fuel tag t i = None.
Proof.
  induction fuel as [|fuel IH]; intros i Hs Hi Hall; [reflexivity|]; cbn [lookup_loop].
  destruct (Hall i Hi) as (e & -> & Et); cbn [obind ENTRY_IS_EMPTY slot_tag]; rewrite Et; apply IH; auto.
  rewrite (wraparound_next t i Hs Hi); destruct (Z.eqb_spec (i + 1) (ring t)); lia.
Qed.

(** The same, decided for a given table. *)
Definition full_without {E : Type} `{EntryType E} (t : table_t E) (tag : Z) : bool :=
  forallb (fun j => match slot_at t j with Some (ENTRY e) => negb (TAGS_ARE_EQUAL (table_flags t) (ENTRY_TAG e) tag) | _ => false end)
          (zrange 0 (Z.to_nat (ring t))).

Lemma full_without_diverges {E : Type} `{EntryType E} strings (t : table_t E) tag :
  shape t -> full_without t tag = true -> forall fuel, lookup_loop fuel tag t (HASH_FUNC t strings tag) = None.
Proof.
  intros Hs Hf fuel; apply full_lookup_diverges; [exact Hs|now apply hash_range|]; intros j Hj.
  unfold full_without in Hf; rewrite forallb_forall in Hf; specialize (Hf j).
  assert (Hin : In j (zrange 0 (Z.to_nat (ring t)))) by (apply zrange_in; lia); specialize (Hf Hin).
  destruct (slot_at t j) as [[| |e]|]; try discriminate; exists e; split; [reflexivity|now apply negb_true_iff].
Qed.

(** A closed run that ends in a full table. *)
Ltac fill_up :=
  do 2 eexists; split; [reflexivity|split; [vm_compute; reflexivity|]];
  apply full_without_diverges; [repeat split; vm_compute; congruence|vm_compute; reflexivity].

(** With 2 bits and a load factor of 80 percent or more, the threshold is the
    number of slots: four additions fill the table without a resize, and a
    lookup of a key that is not there does not end, whatever the number of
    steps. *)
Theorem small_table_lookup_diverges load :
  80 <= load < 100 ->
  exists t0 t, generic_hash_create HASH_FUNCTION_NONE 2 load 0 false = Some t0 /\
    grun no_strings ht_defaults t0 [G_add 16 1; G_add 17 2; G_add 18 3; G_add 19 4] = Some (t, [0; 0; 0; 0]) /\
    forall fuel, lookup_loop fuel 20 t (HASH_FUNC t no_strings 20) = None.
Proof.
  intros Hl; assert (Hin : In load (zrange 80 20)) by (apply zrange_in; lia); clear Hl; cbn in Hin.
  repeat (destruct Hin as [<-|Hin]; [fill_up|]); contradiction.
Qed.

Lemma small_table_lookup_diverges_witness :
  exists t : generic_table_t, forall fuel, lookup_loop fuel 20 t (HASH_FUNC t no_strings 20) = None.
Proof. destruct (small_table_lookup_diverges 80) as (_ & t & _ & _ & Ht); [lia|exists t; exact Ht]. Defined.

(** A table of indirect-branch targets limited to 2 bits, private, with shared
    targets. *)
Definition two_bits : ibl_options := mk_ibl_options 0 0 2 2.
Definition limited_table : option (table_t fragment_entry_t) :=
  @hashtable_init _ (ibl_EntryType two_bits) 2 50 HASH_FUNCTION_NONE 0 (Z.lor (Z.lor HASHTABLE_LOCKLESS_ACCESS HASHTABLE_ENTRY_SHARED) HASHTABLE_NOT_PRIMARY_STORAGE).
Definition add_target (t : option (table_t fragment_entry_t)) (pc : Z) : option (table_t fragment_entry_t) :=
  let? t := t in option_map fst (@hashtable_add _ (ibl_EntryType two_bits) no_strings ht_defaults (mk_fragment_entry pc 1) t).

(** Grooming is meant to flush every entry, but removes the tags below
    [UINT_MAX] only: with 64-bit application addresses this limited table fills
    up, and a lookup that misses does not end. *)
Example limited_ibl_table_fills :
  exists t, foldl add_target limited_table [0x7f0000001000; 0x7f0000001001; 0x7f0000001002; 0x7f0000001003] = Some t /\
    hash_bits t = max_capacity_bits t /\
    forall fuel, @lookup_loop _ (ibl_EntryType two_bits) fuel 0x7f0000001004 t (HASH_FUNC t no_strings 0x7f0000001004) = None.
Proof.
  eexists; split; [vm_compute; reflexivity|split; [reflexivity|]]; apply full_without_diverges; [repeat split; vm_compute; congruence|vm_compute; reflexivity].
Qed.

(** ** Iteration and removal *)

(** The loop of a client that removes some of the entries it visits; the keys it
    visits, and the table it leaves. *)
Fixpoint iterate_removing (fuel : nat) (p : Z -> bool) (t : generic_table_t) (iter : Z) : option (list Z * generic_table_t) :=
  match fuel with
  | O => None
  | S fuel =>
      match generic_hash_iterate_next t iter with
      | None => Some ([], t)
      | Some (iter, k, _) =>
          let? (t, iter) := if p k then generic_hash_iterate_remove no_strings t iter k else Some (t, iter) in
          let? (ks, t) := iterate_removing fuel p t iter in
          Some (k :: ks, t)
      end
  end.

(** An instance in which removing during iteration is not safe: when a removal moves one entry down and another across the end of the table,
    [iterate_remove] does not step back: the iteration visits the second entry
    twice and the first one never. *)
Example iterate_remove_skips :
  exists t0 t t', generic_hash_create HASH_FUNCTION_NONE 3 60 0 false = Some t0 /\
    grun no_strings ht_defaults t0 [G_add 6 60; G_add 14 140; G_add 7 70] = Some (t, [0; 0; 0]) /\
    iterate_removing 9 (fun k => k =? 6) t 0 = Some ([7; 6; 7], t') /\
    generic_hash_lookup no_strings t' 14 = Some 140.
Proof. do 3 eexists; split; [reflexivity|split; [vm_compute; reflexivity|split; [vm_compute; reflexivity|vm_compute; reflexivity]]]. Qed.
